(* ===== verification/_CoqProject ===== *)
-Q . S2P
Prelude.v
Monad.v
Structs.v
Gvm.v
Registry.v
Timer.v
Apic.v
IoApic.v
Pic.v
Pit.v
Dma.v
Cmos.v
Scancodes.v
Ps2.v
Keys.v
PciConf.v
Memory.v
Hpet.v
AcpiPm.v
I440fxDev.v
Piix3Dev.v
IdeDma.v
FlashRom.v
Ports.v
HostFile.v
CdRom.v
Vhd.v
HardDisk.v
Atapi.v
AtaPorts.v
AtaPio.v
VgaRegs.v
VgaDac.v
VgaMem.v
VgaDraw.v
TextMode.v
Devices.v
Bystanders.v
ExitLoop.v
DbgServer.v
GvmInit.v
GvmRegs.v
Rom.v
Power.v
