(* ===== verification/Prelude.v ===== *)
(** * A verification of SVMM

    SVMM (src/SVMM/) is the user-mode half of a virtual machine monitor: a hypervisor
    driver runs the guest and returns from each run with an exit; main() in SVMM.c
    serves the exit by calling the virtual devices of an i440fx/PIIX3 PC and enters
    the guest again.  The devices are one C file each; they share file-scope
    variables, call each other's functions, and are reached by the guest through two
    tables of handlers, one for ports and one for pages of memory.

    ** How the program is modelled

    - The file-scope variables of all files are one record, [Structs.Machine.t]; a C
      struct is a record of the same name in a module of its own ([PIC_STATE.t],
      [LAPIC.t], [CONTROLLER.t]), its fields with their C names.
    - A function of the program is a computation of the monad [IO] (Monad.v): it takes
      a machine, and gives a value and the machine after it, or a fault.  The faults
      are what C leaves open or ends the program with: an index out of an array
      ([OutOfBounds]), a null pointer, a division by zero, a value that is
      indeterminate, [exit], a loop whose fuel ran out ([Diverges]).
    - Integers are [Z]; an operation that can wrap has its width written out ([u8],
      [u16], [u32], [u64], [s32], [s64] of Prelude.v).  Invariants say which values a
      field can hold.
    - A loop is a [Fixpoint] on fuel that its caller computes from the data; theorems
      say that the fuel is enough ([PicService_total], [DmaSetHoldRequest_spec],
      [next_comparator_spec], [PitDecrementMultiple_spec], [find_slot_correct]), and a
      run that ends out of fuel is the fault [Diverges], which no theorem about a
      successful run allows.
    - Code that is not under src/ is a class: the driver's answers ([Structs.Driver]),
      the C library's calendar ([Cmos.Calendar]), the files of the host
      ([HostFile.Win32]), its sockets ([DbgServer.Socket]), and the machine and the
      processor behind the driver ([GvmInit.Hypervisor], [GvmRegs.Processor]).  The tables of callbacks are classes too, so that a device is
      proved against what it needs of the others: [Registry.PortCallbacks],
      [Timer.TimerCallbacks], [PciConf.ConfCallbacks], [Dma.DmaHandlers],
      [IdeDma.BmdmaDisk], [HostFile.DiskImage].

    ** The files

    - Prelude.v: words, bits, lists indexed by [Z], record updates, tactics and hints.
    - Monad.v: the monad, weakest preconditions ([wp]), and [Within R], which says that
      a computation changes the machine only as the relation [R] allows.
    - Structs.v: the data of the headers.
    - Gvm.v (gvm.c): the table of memory slots, its binary search, and the mapping calls.
    - Registry.v (bitmap.c, pci.c 1-135): the bitmaps and the handler tables.
    - Timer.v (timer.c), Apic.v, IoApic.v, Pic.v, Pit.v, Dma.v, Cmos.v, Scancodes.v,
      Ps2.v, Hpet.v, AcpiPm.v, I440fxDev.v, Piix3Dev.v, FlashRom.v: a device each.
      Ports.v holds bios.c, serial.c and parallel.c.
    - PciConf.v (pci.c): configuration space, base address registers, interrupt lines.
    - Memory.v (SVMM.c): address translation and the state at reset.
    - IdeDma.v (ide.c): the bus master.  HostFile.v, CdRom.v (cdrom.c), Vhd.v (vhd.c):
      the files behind the drives.  HardDisk.v, Atapi.v and AtaPorts.v (harddisk.c):
      sectors, packet commands, and the ports with the ATA commands; AtaPio.v follows a
      whole READ through the ports.
    - VgaRegs.v (vgacore.c, vga.c): the adapter's registers and its port handlers; VgaDac.v
      follows the palette through the ports.  VgaMem.v: the window at 0xa0000, its write
      modes and the marks of changed tiles.  VgaDraw.v: what an update draws.  The calls
      of the user interface are recorded in order in the field [Machine.Gui].
    - TextMode.v (gui.c, win32gui.c): the text that the window makes of those calls.
    - Keys.v (win32gui.c): the queue of keys between the window and the 8042.
    - Devices.v: which function each handler's tag stands for; it closes the three classes
      of callbacks, and with them the program.  Bystanders.v: every handler but the 8259s'
      keeps what a [Bystander] relation allows.
    - ExitLoop.v (SVMM.c): the exits of the driver and the loop of main.  Power.v: the
      initialisation of the devices and the tables it leaves.  Rom.v: the loading of a ROM,
      and the two translations of guest addresses.
    - DbgServer.v (SvmmDbgServer.c): the debug server and its packets.  GvmInit.v and
      GvmRegs.v (gvm.c): the configuration of the driver's machine, and the transfer of the
      registers to it and back.

    ** What is proved

    - Interrupts: the services of the two 8259s end and their ports are safe for every
      byte ([Pic]); an interrupt's life from its line to its end ([pic_interrupt_cycle],
      [ApicAcknowledgeInterrupt_refines], [ApicReceiveEOI_refines], [level_until_eoi]).
    - The machine as a whole: after the start every port is handled by its device and no
      other ([power_on_ports]); a pending interrupt of the 8259s survives every exit until
      the guest takes interrupts, and is then injected ([pending_interrupt_injected]); string
      input arrives in order ([string_in_delivers]); typed keys are delivered in order
      ([typed_keys_delivered]).
    - Time: a tick runs exactly the expired handlers in order ([TimerTick_refines]); the
      8254's counting loop equals subtraction modulo its range, in binary and BCD.
    - Memory: the slot search, the page walk against the architecture's walk, the bounds
      of a host address; the handler tables refine finite maps.
    - Disks: a dynamic or fixed image reads as its format defines
      ([VhdRead_reads_format]); a READ of any length delivers exactly its sectors
      ([pio_read_delivers]); the bus master stays in its buffer ([ide_no_overrun]).
    - Video: the write modes compute the planar logic function ([new_val_reference]); the
      ports are safe ([vga_ports_safe]) and the window is where its mapping is a documented
      one ([vga_window_safe], [planar_write_faults]); an update draws the changed tiles and
      no others ([draw_tiles_exact]), so that a byte written in mode 13h is shown
      ([mode13_write_shows]).  In the text modes the window shows the text memory
      ([text_update_shows]); the update ends for characters of five lines or more
      ([text_update_returns], with 512 turns) and need not for shorter ones
      ([text_update_hangs], for any number of turns).
    - Debugging: a packet arrives as it was sent ([packet_roundtrip]), a request for memory
      is answered with the memory ([read_memory_sends]), the server's loop ends
      ([SvmmDbgLoop_ends]), and the registers survive their transfer
      ([registers_roundtrip]).
    - Addresses: [gvm_init] returns 0 only for a machine that is completely configured
      ([gvm_init_configures]); a ROM is where the processor reads it ([rom_loaded]), and the program and
      the processor agree about the memory but for one window ([translations_agree]).
    - Round trips of register protocols (latched counts, DMA addresses, the clock, the
      SMBus block, the BARs), and the errors that the code has: theorems that name a
      guest's access which overruns a buffer, divides by zero or ends the program.

    ** Not modelled

    The windows and their drawing (win32gui.c, gui.c, the queue of keys and the text apart):
    they are calls of the host's graphics library, and the adapter's calls into them and
    the bitmaps of the text are recorded.  Of dimension_update only what the text uses.
    windbg.c and haxm.c: another debugger's protocol and the second driver, neither of which
    the configured program reaches.  Two parts that nothing calls: sparse.c and VgaUpdate of
    vga.c.  Of SVMM.c the printing of the registers and what waits for the console. *)

From Stdlib Require Export ZArith Lia Bool List Sorted.
From stdpp Require Export base list gmap strings.

#[global] Open Scope Z_scope.

(** ** Machine-width integers

    Every C integer is a [Z]; a store into a variable of width [w] wraps
    explicitly. *)

Definition u8 (z : Z) : Z := z mod 2 ^ 8.
Definition u16 (z : Z) : Z := z mod 2 ^ 16.
Definition u32 (z : Z) : Z := z mod 2 ^ 32.
Definition u64 (z : Z) : Z := z mod 2 ^ 64.

(** Two's-complement reading of a [w]-bit value. *)
Definition signed (w z : Z) : Z := (z + 2 ^ (w - 1)) mod 2 ^ w - 2 ^ (w - 1).
Definition s8 (z : Z) : Z := signed 8 z.
Definition s32 (z : Z) : Z := signed 32 z.
Definition s64 (z : Z) : Z := signed 64 z.

(** [if (a & b)] in the source. *)
Definition tst (a b : Z) : bool := negb (Z.land a b =? 0).
(** [if (a)] in the source. *)
Definition nz (a : Z) : bool := negb (a =? 0).
(** A C comparison used as a value. *)
Definition b2z (b : bool) : Z := if b then 1 else 0.
(** [1 << n]. *)
Definition bit (n : Z) : Z := Z.shiftl 1 n.

Declare Scope c_scope.
Delimit Scope c_scope with c.
Notation "a '&.' b" := (Z.land a b) (at level 40, left associativity) : c_scope.
Notation "a '|.' b" := (Z.lor a b) (at level 50, left associativity) : c_scope.
Notation "'~.' a" := (Z.lnot a) (at level 30, right associativity) : c_scope.
Notation "a '<<.' b" := (Z.shiftl a b) (at level 35, right associativity) : c_scope.
Notation "a '>>.' b" := (Z.shiftr a b) (at level 35, right associativity) : c_scope.
Notation "a '&?' b" := (tst a b) (at level 70, no associativity) : c_scope.
#[global] Open Scope c_scope.

#[global] Arguments Z.land : simpl never.
#[global] Arguments Z.lor : simpl never.
#[global] Arguments Z.lnot : simpl never.
#[global] Arguments Z.shiftl : simpl never.
#[global] Arguments Z.shiftr : simpl never.
#[global] Arguments Z.testbit : simpl never.
#[global] Arguments Z.modulo : simpl never.
#[global] Arguments Z.div : simpl never.
#[global] Arguments Z.pow : simpl never.
#[global] Arguments Z.add : simpl never.
#[global] Arguments Z.sub : simpl never.
#[global] Arguments Z.mul : simpl never.
#[global] Arguments Z.eqb : simpl nomatch.
#[global] Arguments Z.ltb : simpl nomatch.
#[global] Arguments Z.leb : simpl nomatch.
#[global] Arguments u8 : simpl never.
#[global] Arguments u16 : simpl never.
#[global] Arguments u32 : simpl never.
#[global] Arguments u64 : simpl never.
#[global] Arguments signed : simpl never.
#[global] Arguments s8 : simpl never.
#[global] Arguments s32 : simpl never.
#[global] Arguments s64 : simpl never.
#[global] Arguments tst : simpl never.
#[global] Arguments nz : simpl never.
#[global] Arguments bit : simpl never.

(** *** Ranges *)

Definition in_width (w z : Z) : Prop := 0 <= z < 2 ^ w.
Abbreviation is_u8 := (in_width 8).
Abbreviation is_u16 := (in_width 16).
Abbreviation is_u32 := (in_width 32).
Abbreviation is_u64 := (in_width 64).

Create HintDb width.

Lemma u8_range z : is_u8 (u8 z).
Proof. apply Z.mod_pos_bound. lia. Qed.
Lemma u16_range z : is_u16 (u16 z).
Proof. apply Z.mod_pos_bound. lia. Qed.
Lemma u32_range z : is_u32 (u32 z).
Proof. apply Z.mod_pos_bound. lia. Qed.
Lemma u64_range z : is_u64 (u64 z).
Proof. apply Z.mod_pos_bound. lia. Qed.

Lemma in_width_le w w' z : w <= w' -> in_width w z -> in_width w' z.
Proof.
  intros Hle [? ?]. split; [done|].
  eapply Z.lt_le_trans; [done|]. apply Z.pow_le_mono_r; lia.
Qed.

Lemma in_width_iff_mod w z : 0 <= w -> in_width w z <-> z mod 2 ^ w = z.
Proof.
  intros Hw. split.
  - intros ?. by apply Z.mod_small.
  - intros <-. apply Z.mod_pos_bound. lia.
Qed.

Lemma u8_small z : is_u8 z -> u8 z = z.
Proof. apply Z.mod_small. Qed.
Lemma u8_u8 z : u8 (u8 z) = u8 z.
Proof. apply u8_small, u8_range. Qed.
Lemma u16_small z : is_u16 z -> u16 z = z.
Proof. apply Z.mod_small. Qed.
Lemma u32_small z : is_u32 z -> u32 z = z.
Proof. apply Z.mod_small. Qed.
Lemma u64_small z : is_u64 z -> u64 z = z.
Proof. apply Z.mod_small. Qed.

Lemma land_in_width_l w a b : 0 <= w -> in_width w a -> in_width w (Z.land a b).
Proof.
  intros Hw Ha. apply in_width_iff_mod; [done|].
  apply Z.bits_inj'; intros i Hi.
  destruct (decide (i < w)).
  - by rewrite Z.mod_pow2_bits_low.
  - rewrite Z.mod_pow2_bits_high, Z.land_spec by lia.
    apply (in_width_iff_mod w a Hw) in Ha. rewrite <- Ha.
    by rewrite Z.mod_pow2_bits_high by lia.
Qed.

Lemma land_in_width_r w a b : 0 <= w -> in_width w b -> in_width w (Z.land a b).
Proof. rewrite Z.land_comm. apply land_in_width_l. Qed.

Lemma testbit_in_width w z i : in_width w z -> 0 <= w <= i -> Z.testbit z i = false.
Proof.
  intros Hz Hi. apply (in_width_iff_mod w z) in Hz; [|lia]. rewrite <- Hz.
  by rewrite Z.mod_pow2_bits_high by lia.
Qed.

Lemma lor_in_width w a b : 0 <= w -> in_width w a -> in_width w b -> in_width w (Z.lor a b).
Proof.
  intros Hw Ha Hb. apply in_width_iff_mod; [done|].
  apply Z.bits_inj'; intros i Hi.
  destruct (decide (i < w)).
  - by rewrite Z.mod_pow2_bits_low.
  - rewrite Z.mod_pow2_bits_high, Z.lor_spec by lia.
    by rewrite (testbit_in_width w a), (testbit_in_width w b) by (done || lia).
Qed.

Lemma shiftr_in_width w a n : 0 <= w -> 0 <= n -> in_width w a -> in_width w (Z.shiftr a n).
Proof.
  intros Hw Hn [? ?]. rewrite Z.shiftr_div_pow2 by done. split.
  - apply Z.div_pos; lia.
  - eapply Z.le_lt_trans; [|done]. apply Z.div_le_upper_bound; nia.
Qed.

#[export] Hint Resolve u8_range u16_range u32_range u64_range : width.
#[export] Hint Extern 2 (in_width _ (Z.lor _ _)) => (apply lor_in_width; [lia| |]) : width.
#[export] Hint Extern 2 (in_width _ (Z.shiftr _ _)) => (apply shiftr_in_width; [lia|lia|]) : width.
#[export] Hint Extern 2 (in_width _ (Z.land _ _)) =>
  first [ apply land_in_width_r; [lia | solve [auto with width]]
        | apply land_in_width_l; [lia | solve [auto with width]] ] : width.
#[export] Hint Extern 1 (in_width _ _) => (split; [done | reflexivity]) : width.
#[export] Hint Extern 1 (in_width _ _) => (unfold in_width in *; lia) : width.
#[export] Hint Extern 3 (in_width 16 (u8 _)) => (apply (in_width_le 8); [done | apply u8_range]) : width.
#[export] Hint Extern 3 (in_width 32 (u8 _)) => (apply (in_width_le 8); [done | apply u8_range]) : width.
#[export] Hint Extern 3 (in_width 32 (u16 _)) => (apply (in_width_le 16); [done | apply u16_range]) : width.

(** *** Bits *)

Lemma testbit_bit n i : 0 <= n -> Z.testbit (bit n) i = (i =? n).
Proof.
  intros Hn. unfold bit. rewrite Z.shiftl_1_l, Z.pow2_bits_eqb by done.
  apply Z.eqb_sym.
Qed.

Lemma testbit_pow2_lnot n i : 0 <= n -> 0 <= i ->
  Z.testbit (Z.lnot (bit n)) i = negb (i =? n).
Proof. intros. by rewrite Z.lnot_spec, testbit_bit. Qed.

Lemma testbit_mod_pow2 w z i : 0 <= w -> 0 <= i ->
  Z.testbit (z mod 2 ^ w) i = (i <? w) && Z.testbit z i.
Proof.
  intros. destruct (Z.ltb_spec i w).
  - by rewrite Z.mod_pow2_bits_low by lia.
  - by rewrite Z.mod_pow2_bits_high by lia.
Qed.

Lemma testbit_u8 z i : 0 <= i -> Z.testbit (u8 z) i = (i <? 8) && Z.testbit z i.
Proof. apply testbit_mod_pow2. lia. Qed.
Lemma testbit_u16 z i : 0 <= i -> Z.testbit (u16 z) i = (i <? 16) && Z.testbit z i.
Proof. apply testbit_mod_pow2. lia. Qed.
Lemma testbit_u32 z i : 0 <= i -> Z.testbit (u32 z) i = (i <? 32) && Z.testbit z i.
Proof. apply testbit_mod_pow2. lia. Qed.
Lemma testbit_u64 z i : 0 <= i -> Z.testbit (u64 z) i = (i <? 64) && Z.testbit z i.
Proof. apply testbit_mod_pow2. lia. Qed.

(** The C idiom [x & (1 << n)] reads bit [n]. *)
Lemma tst_bit x n : 0 <= n -> tst x (bit n) = Z.testbit x n.
Proof.
  intros Hn. unfold tst, bit. rewrite Z.shiftl_1_l.
  destruct (Z.testbit x n) eqn:E.
  - apply negb_true_iff, Z.eqb_neq. intros H0.
    assert (Z.testbit (Z.land x (2 ^ n)) n = false) as Hc by by rewrite H0, Z.bits_0.
    by rewrite Z.land_spec, Z.pow2_bits_true, E in Hc by done.
  - apply negb_false_iff, Z.eqb_eq. apply Z.bits_inj'; intros i Hi.
    rewrite Z.bits_0, Z.land_spec, Z.pow2_bits_eqb by done.
    destruct (Z.eqb_spec n i) as [->|]; [by rewrite E|by rewrite andb_false_r].
Qed.

(** A literal single-bit mask is a bit test. *)
Lemma tst_mask x m n : 0 <= n -> m = 2 ^ n -> tst x m = Z.testbit x n.
Proof. intros Hn ->. rewrite <- Z.shiftl_1_l. by apply tst_bit. Qed.

Lemma tst_0_l m : tst 0 m = false.
Proof. unfold tst. by rewrite Z.land_0_l. Qed.

Lemma tst_lor x y m : tst (Z.lor x y) m = tst x m || tst y m.
Proof.
  unfold tst. rewrite Z.land_comm, Z.land_lor_distr_r, !(Z.land_comm m).
  destruct (Z.eqb_spec (Z.land x m) 0) as [->|Hx]; simpl; [by rewrite Z.lor_0_l|].
  apply negb_true_iff, Z.eqb_neq. intros H. by apply Z.lor_eq_0_iff in H as [? ?].
Qed.

(** [x |= 1 << n] and [x &= ~(1 << n)] on a BYTE or a WORD. *)
Lemma testbit_set w x n i : 0 <= n < w -> 0 <= i -> in_width w x ->
  Z.testbit (Z.lor x (bit n) mod 2 ^ w) i = Z.testbit x i || (i =? n).
Proof.
  intros Hn Hi Hx. rewrite testbit_mod_pow2, Z.lor_spec, testbit_bit by lia.
  destruct (Z.ltb_spec i w); [done|].
  rewrite (testbit_in_width w x i) by (done || lia).
  by destruct (Z.eqb_spec i n); [lia|].
Qed.

Lemma testbit_clear w x n i : 0 <= n < w -> 0 <= i -> in_width w x ->
  Z.testbit (Z.land x (Z.lnot (bit n)) mod 2 ^ w) i = Z.testbit x i && negb (i =? n).
Proof.
  intros Hn Hi Hx. rewrite testbit_mod_pow2, Z.land_spec, testbit_pow2_lnot by lia.
  destruct (Z.ltb_spec i w); [done|].
  by rewrite (testbit_in_width w x i) by (done || lia).
Qed.

Lemma in_width_ext w x y : in_width w x -> in_width w y ->
  (forall i, 0 <= i < w -> Z.testbit x i = Z.testbit y i) -> x = y.
Proof.
  intros Hx Hy H. apply Z.bits_inj'; intros i Hi.
  destruct (decide (i < w)); [by apply H|].
  destruct (decide (0 <= w)).
  - by rewrite (testbit_in_width w x i), (testbit_in_width w y i) by (done || lia).
  - exfalso. destruct Hx as [? Hx]. rewrite Z.pow_neg_r in Hx; lia.
Qed.

Create Rewrite HintDb bits.
#[export] Hint Rewrite Z.land_spec Z.lor_spec Z.lxor_spec Z.bits_0 : bits.
#[export] Hint Rewrite testbit_u8 testbit_u16 testbit_u32 testbit_u64 testbit_bit
  testbit_pow2_lnot Z.lnot_spec Z.shiftr_spec Z.shiftl_spec using lia : bits.

(** Fields that do not overlap add up. *)
Lemma lor_shiftl_add x y k : 0 <= k -> in_width k x -> x |. (y <<. k) = x + y * 2 ^ k.
Proof.
  intros Hk Hx. rewrite <- Z.shiftl_mul_pow2 by done. symmetry. apply Z.add_nocarry_lor.
  apply Z.bits_inj'; intros i Hi. rewrite Z.bits_0, Z.land_spec, Z.shiftl_spec by done.
  destruct (Z.ltb_spec i k).
  - rewrite (Z.testbit_neg_r y) by lia. apply andb_false_r.
  - by rewrite (testbit_in_width k x i) by (done || lia).
Qed.

(** Decide a statement about every integer of a range by evaluation. *)
Lemma all_range_spec P a n z : forallb P (seqZ a n) = true -> a <= z < a + n -> P z = true.
Proof.
  intros H Hz. rewrite forallb_forall in H. apply H. apply list_elem_of_In, elem_of_seqZ. lia.
Qed.

Definition all_bytes (P : Z -> bool) : bool := forallb P (seqZ 0 256).

Lemma all_bytes_spec P : all_bytes P = true -> forall z, is_u8 z -> P z = true.
Proof. intros H z Hz. apply (all_range_spec P 0 256); [done|]. unfold in_width in Hz. lia. Qed.

(** ** Records

    [r <| f := v |>] is C's [r.f = v].  [eta] rebuilds a record from its
    projections; the setter of a field is read off it. *)

Class Eta (R : Type) := eta : R -> R.
Class Field {R T : Type} (p : R -> T) := upd_field : (T -> T) -> R -> R.
#[global] Arguments upd_field {R T} p {_} _ _ /.

Ltac derive_field :=
  lazymatch goal with
  | |- @Field ?R ?T ?p =>
      let e := constr:(ltac:(let i := constr:(_ : Eta R) in exact i) : Eta R) in
      let body := eval hnf in e in
      let e' := (lazymatch body with
                 | fun r => _ => body
                 | _ => let b := eval cbv delta in body in b end) in
      let f := eval pattern p in e' in
      lazymatch f with
      | ?g _ =>
          let t := eval cbv beta in (fun (u : T -> T) => g (fun r => u (p r))) in
          exact t
      end
  end.
#[export] Hint Extern 1 (Field _) => derive_field : typeclass_instances.

Notation "r <| f ::= g |>" := (upd_field f g r)
  (at level 12, left associativity, f at next level) : c_scope.
Notation "r <| f := v |>" := (upd_field f (fun _ => v) r)
  (at level 12, left associativity, f at next level) : c_scope.

(** ** Arrays *)

(** [a[i]] for a C array of which the model keeps the elements in a list. *)
Definition nthZ {A} (l : list A) (i : Z) : option A :=
  if 0 <=? i then l !! Z.to_nat i else None.
Definition updZ {A} (l : list A) (i : Z) (x : A) : list A :=
  if 0 <=? i then <[Z.to_nat i := x]> l else l.

Lemma nthZ_Some {A} (l : list A) i x : nthZ l i = Some x ->
  0 <= i < Z.of_nat (length l).
Proof.
  unfold nthZ. destruct (Z.leb_spec 0 i); [|done].
  intros ?%lookup_lt_Some. lia.
Qed.

Lemma nthZ_is_Some {A} (l : list A) i : 0 <= i < Z.of_nat (length l) ->
  is_Some (nthZ l i).
Proof.
  intros Hi. unfold nthZ. rewrite (proj2 (Z.leb_le 0 i)) by lia.
  apply lookup_lt_is_Some. lia.
Qed.

Lemma length_updZ {A} (l : list A) i x : length (updZ l i x) = length l.
Proof. unfold updZ. destruct (0 <=? i); [apply length_insert|done]. Qed.

Lemma nthZ_updZ_eq {A} (l : list A) i x : 0 <= i < Z.of_nat (length l) ->
  nthZ (updZ l i x) i = Some x.
Proof.
  intros Hi. unfold nthZ, updZ. rewrite (proj2 (Z.leb_le 0 i)) by lia.
  apply list_lookup_insert_eq. lia.
Qed.

Lemma nthZ_updZ_ne {A} (l : list A) i j x : i <> j ->
  nthZ (updZ l i x) j = nthZ l j.
Proof.
  intros Hij. unfold nthZ, updZ.
  destruct (Z.leb_spec 0 i), (Z.leb_spec 0 j); [|done..].
  apply list_lookup_insert_ne. lia.
Qed.

Lemma updZ_updZ {A} (l : list A) i x y : updZ (updZ l i x) i y = updZ l i y.
Proof. unfold updZ. destruct (0 <=? i); [apply list_insert_insert_eq|done]. Qed.

Lemma updZ_id {A} (l : list A) i x : nthZ l i = Some x -> updZ l i x = l.
Proof. unfold updZ, nthZ. destruct (0 <=? i); [apply list_insert_id|done]. Qed.

Lemma Forall_updZ {A} (P : A -> Prop) (l : list A) i x :
  Forall P l -> P x -> Forall P (updZ l i x).
Proof. intros. unfold updZ. destruct (0 <=? i); [by apply Forall_insert|done]. Qed.

Lemma Forall_nthZ {A} (P : A -> Prop) (l : list A) i x :
  Forall P l -> nthZ l i = Some x -> P x.
Proof.
  unfold nthZ. intros H Hx. destruct (0 <=? i); [|done].
  by eapply Forall_lookup_1.
Qed.

#[export] Hint Resolve Forall_updZ : width.

Lemma StronglySorted_nthZ {A} (R : A -> A -> Prop) (l : list A) i j x y :
  StronglySorted R l -> 0 <= i < j -> nthZ l i = Some x -> nthZ l j = Some y -> R x y.
Proof.
  unfold nthZ. intros Hl Hij. rewrite !(proj2 (Z.leb_le 0 _)) by lia.
  assert (Z.to_nat i < Z.to_nat j)%nat as Hn by lia. revert Hn.
  generalize (Z.to_nat i) (Z.to_nat j). clear i j Hij.
  induction Hl as [|z l _ IH Hz]; intros [|i] [|j] Hn Hx Hy; try done; try lia.
  - injection Hx as <-. by eapply Forall_lookup_1.
  - apply (IH i j); [lia|done..].
Qed.

(** [a[i]] and [a[i] = f(a[i])] for a fixed array of integers indexed inside its
    bounds (its length is an invariant of the struct that holds it). *)
Definition nth0 (l : list Z) (i : Z) : Z := default 0 (nthZ l i).
Definition alterZ (i : Z) (f : Z -> Z) (l : list Z) : list Z := updZ l i (f (nth0 l i)).

Lemma length_alterZ i f l : length (alterZ i f l) = length l.
Proof. apply length_updZ. Qed.

Lemma nth0_alterZ_eq i f l : 0 <= i < Z.of_nat (length l) ->
  nth0 (alterZ i f l) i = f (nth0 l i).
Proof. intros Hi. unfold nth0, alterZ. by rewrite nthZ_updZ_eq. Qed.

Lemma nth0_alterZ_ne i j f l : i <> j -> nth0 (alterZ i f l) j = nth0 l j.
Proof. intros Hij. unfold nth0, alterZ. by rewrite nthZ_updZ_ne. Qed.

Lemma Forall_nth0 w l i : 0 <= w -> Forall (in_width w) l -> in_width w (nth0 l i).
Proof.
  intros Hw Hl. unfold nth0. destruct (nthZ l i) eqn:E; simpl.
  - by eapply (Forall_nthZ (in_width w)).
  - split; [done|]. by apply Z.pow_pos_nonneg.
Qed.

Lemma nth0_replicate (n : nat) i : nth0 (replicate n 0) i = 0.
Proof.
  unfold nth0, nthZ. destruct (0 <=? i); [|done].
  destruct (replicate n 0 !! Z.to_nat i) as [x|] eqn:E; [|done].
  by apply lookup_replicate in E as [-> _].
Qed.

Lemma Forall_alterZ w i f l : 0 <= w ->
  Forall (in_width w) l -> (forall x, in_width w x -> in_width w (f x)) ->
  Forall (in_width w) (alterZ i f l).
Proof. intros. unfold alterZ. apply Forall_updZ; [done|]. auto using Forall_nth0. Qed.

(** Counting from [n] down to [1], the order of the priority scans. *)
Definition down (n : Z) : list Z := reverse (seqZ 1 n).

Lemma elem_of_down n i : i ∈ down n <-> 1 <= i <= n.
Proof. unfold down. rewrite elem_of_reverse, elem_of_seqZ. lia. Qed.

(** ** Little-endian byte buffers

    [*(WORD* )Data], [*(DWORD* )Data] and [*(ULONG64* )Data] on a byte buffer. *)

Fixpoint le_read (n : nat) (d : list Z) : Z :=
  match n with
  | O => 0
  | S n => default 0 (head d) + 2 ^ 8 * le_read n (tail d)
  end.

Fixpoint le_write (n : nat) (v : Z) (d : list Z) : list Z :=
  match n, d with
  | S n, _ :: d => u8 v :: le_write n (v / 2 ^ 8) d
  | _, _ => d
  end.

Lemma length_le_write n v d : length (le_write n v d) = length d.
Proof. revert v d. induction n; intros v [|x d]; simpl; congruence. Qed.

Lemma le_read_write n v d : (n <= length d)%nat ->
  le_read n (le_write n v d) = v mod 2 ^ (8 * Z.of_nat n).
Proof.
  revert v d. induction n as [|n IH]; intros v [|x d] Hn; simpl in *; try lia.
  - by rewrite Z.mod_1_r.
  - by rewrite Z.mod_1_r.
  - rewrite IH by lia. unfold u8.
    replace (8 * Z.of_nat (S n)) with (8 + 8 * Z.of_nat n) by lia.
    rewrite Z.pow_add_r by lia.
    pose proof (Z.pow_pos_nonneg 2 (8 * Z.of_nat n)). by rewrite Z.rem_mul_r by lia.
Qed.

Lemma le_read_range n d : Forall is_u8 d -> in_width (8 * Z.of_nat n) (le_read n d).
Proof.
  revert d. induction n as [|n IH]; intros d Hd; simpl; [by split|].
  assert (is_u8 (default 0 (head d)) /\ Forall is_u8 (tail d)) as [Hx Ht].
  { destruct Hd; simpl; [|done]. by split; [split|constructor]. }
  specialize (IH _ Ht). unfold in_width in *.
  replace (8 * Z.of_nat (S n)) with (8 + 8 * Z.of_nat n) by lia.
  rewrite Z.pow_add_r by lia. nia.
Qed.

Lemma Forall_le_write n v d : Forall is_u8 d -> Forall is_u8 (le_write n v d).
Proof.
  revert v d. induction n; intros v d Hd; simpl; [done|].
  destruct Hd; constructor; auto with width.
Qed.

(** The [n] bytes of a value. *)
Definition le_bytes (n : nat) (v : Z) : list Z := le_write n v (replicate n 0).

Lemma length_le_bytes n v : length (le_bytes n v) = n.
Proof. unfold le_bytes. by rewrite length_le_write, length_replicate. Qed.
Lemma Forall_le_bytes n v : Forall is_u8 (le_bytes n v).
Proof. apply Forall_le_write, Forall_replicate. by split. Qed.
#[export] Hint Resolve Forall_le_bytes : width.
Lemma le_bytes_S n v : le_bytes (S n) v = u8 v :: le_bytes n (v / 2 ^ 8).
Proof. done. Qed.
Lemma le_read_bytes n v rest : in_width (8 * Z.of_nat n) v -> le_read n (le_bytes n v ++ rest) = v.
Proof.
  revert v. induction n as [|n IH]; intros v Hv; [unfold in_width in Hv; simpl in *; lia|].
  rewrite le_bytes_S. cbn [app le_read head tail default]. unfold in_width in *.
  replace (8 * Z.of_nat (S n)) with (8 + 8 * Z.of_nat n) in Hv by lia. rewrite Z.pow_add_r in Hv by lia.
  change (2 ^ 8) with 256 in *.
  assert (0 <= v / 256 < 2 ^ (8 * Z.of_nat n)) as Hd.
  { split; [apply Z.div_pos; lia|]. apply Z.div_lt_upper_bound; [done|exact (proj2 Hv)]. }
  rewrite IH by exact Hd.
  unfold u8. change (2 ^ 8) with 256. pose proof (Z.div_mod v 256). cbn [from_option id]. lia.
Qed.

Lemma take_le_write n m v d : (n <= m)%nat -> (m <= length d)%nat -> take n (le_write m v d) = le_bytes n v.
Proof.
  revert m v d. induction n as [|n IH]; intros m v d Hn Hm; [done|].
  destruct m; [lia|]. destruct d; simpl in *; [lia|]. unfold le_bytes. simpl. f_equal. apply IH; lia.
Qed.
Lemma drop_le_write m k v d : (m <= k)%nat -> drop k (le_write m v d) = drop k d.
Proof.
  revert m v d. induction k as [|k IH]; intros m v d Hm; [by replace m with 0%nat by lia|].
  destruct m, d; simpl; try done. apply IH. lia.
Qed.

(** [for (i = n; i >= 1; i--) if (p(i)) return i; return i;] *)
Definition scan_down (n : Z) (p : Z -> bool) : Z := default 0 (find p (down n)).

Lemma down_S n : 0 <= n -> down (n + 1) = (n + 1) :: down n.
Proof.
  intros Hn. unfold down. rewrite seqZ_app by lia. rewrite reverse_app.
  by replace (1 + n) with (n + 1) by lia.
Qed.

Lemma scan_down_spec n p : 0 <= n ->
  0 <= scan_down n p <= n /\
  (0 < scan_down n p -> p (scan_down n p) = true) /\
  (forall j, scan_down n p < j <= n -> p j = false).
Proof.
  intros Hn. unfold scan_down. pattern n. apply natlike_ind; [| |done].
  - change (down 0) with (@nil Z). simpl. split; [lia|]. split; intros; lia.
  - intros k Hk IH. change (Z.succ k) with (k + 1). rewrite down_S by done. simpl.
    destruct (p (k + 1)) eqn:E; simpl; [split; [lia|]; split; [done|intros; lia]|].
    destruct IH as (? & ? & IH3). split; [lia|]. split; [done|].
    intros j Hj. destruct (decide (j = k + 1)) as [->|]; [done|]. apply IH3. lia.
Qed.

(** ** Loops

    [loop_pos p] turns a loop body at most [p] times: [inl x] asks for another
    turn, [inr b] leaves the loop.  The fuel is binary, so that a bound of 2^64
    turns is a small term. *)
Section Loop.
Context {A B : Type} (body : A -> A + B).

Definition then_ (r : A + B) (k : A -> A + B) : A + B :=
  match r with inl x => k x | inr b => inr b end.

Fixpoint loop_pos (p : positive) (x : A) : A + B :=
  match p with
  | xH => body x
  | xO p => then_ (loop_pos p x) (loop_pos p)
  | xI p => then_ (body x) (fun y => then_ (loop_pos p y) (loop_pos p))
  end.

Fixpoint loop_nat (n : nat) (x : A) : A + B :=
  match n with O => inl x | S n => then_ (body x) (loop_nat n) end.

Lemma loop_nat_add n m x : loop_nat (n + m) x = then_ (loop_nat n x) (loop_nat m).
Proof. revert x. induction n as [|n IH]; intros x; simpl; [done|]. destruct (body x); simpl; auto. Qed.

Lemma loop_pos_nat p x : loop_pos p x = loop_nat (Pos.to_nat p) x.
Proof.
  revert x. induction p as [p IH|p IH|]; intros x.
  - replace (Pos.to_nat p~1) with (1 + (Pos.to_nat p + Pos.to_nat p))%nat by lia.
    rewrite !loop_nat_add. simpl. destruct (body x) as [y|b]; simpl; [|done].
    rewrite loop_nat_add, IH. destruct (loop_nat _ y); simpl; [|done]. by rewrite <- IH.
  - replace (Pos.to_nat p~0) with (Pos.to_nat p + Pos.to_nat p)%nat by lia.
    rewrite loop_nat_add. simpl. rewrite IH. destruct (loop_nat _ x); simpl; [|done]. by rewrite <- IH.
  - simpl. by destruct (body x).
Qed.

(** A measure that decreases at each turn bounds the turns. *)
Lemma loop_pos_ends (I : A -> Prop) (Q : B -> Prop) (measure : A -> Z) p x :
  (forall x, I x -> match body x with
                    | inl y => I y /\ 0 <= measure y < measure x
                    | inr b => Q b
                    end) ->
  I x -> 0 <= measure x < Zpos p -> exists b, loop_pos p x = inr b /\ Q b.
Proof.
  intros Hbody Hx Hm. rewrite loop_pos_nat. assert (measure x < Z.of_nat (Pos.to_nat p)) as Hn by lia.
  revert x Hx Hm Hn. generalize (Pos.to_nat p). intros n. induction n as [|n IH]; intros x Hx Hm Hn; [lia|].
  simpl. specialize (Hbody x Hx). destruct (body x) as [y|b]; simpl; [|eauto].
  destruct Hbody as [Hy Hlt]. apply IH; [done|lia|lia].
Qed.
End Loop.
