(* ===== verification/Monad.v ===== *)
(** The effects of the C code: a global state, faults, and reasoning about both.

    [M S A] is a computation over the state [S] that returns an [A] or stops
    with a [fault]: the [exit(-1)] of the source, or one of the operations that
    C leaves undefined (an index outside an array, a call of a null function
    pointer, a division by zero, a shift by the operand's width or more, a null
    dereference, the value of a function that returned none) or a loop that does
    not terminate.  [wp] is the weakest precondition that also excludes faults,
    [wlp] the one that tolerates them, and [Within R m] says that every
    terminating run of [m] relates its first and last state by the preorder
    [R]; invariants and frame conditions are instances of it. *)

From S2P Require Export Prelude.

(** ** Computations *)

Inductive fault : Set :=
| Exit
| OutOfBounds
| NullCall
| NullPointer
| DivByZero
| BadShift
| Indeterminate
| Diverges.

#[export] Instance fault_eq_dec : EqDecision fault.
Proof. solve_decision. Defined.

Inductive outcome (S A : Type) : Type :=
| Ok (a : A) (s : S)
| Fault (e : fault).
Arguments Ok {S A} a s.
Arguments Fault {S A} e.

Definition M (S A : Type) : Type := S -> outcome S A.

#[export] Instance M_ret S : MRet (M S) := fun A a s => Ok a s.
#[export] Instance M_bind S : MBind (M S) := fun A B k m s =>
  match m s with
  | Ok a s' => k a s'
  | Fault e => Fault e
  end.

Section Primitives.
Context {S : Type}.

Definition gets {A} (f : S -> A) : M S A := fun s => Ok (f s) s.
Definition modify (f : S -> S) : M S unit := fun s => Ok tt (f s).
Definition stop {A} (e : fault) : M S A := fun _ => Fault e.
Definition done_ : M S unit := mret tt.
Definition when (b : bool) (m : M S unit) : M S unit := if b then m else done_.
Definition of_option {A} (e : fault) (o : option A) : M S A :=
  match o with Some a => mret a | None => stop e end.

(** [1 << n] at type [int], [x >> n], [x << n] at type [ULONG64], and [x >> n] at
    type [ULONG]. *)
Definition shl1 (n : Z) : M S Z := if n <? 32 then mret (bit n) else stop BadShift.
Definition shr64 (x n : Z) : M S Z := if n <? 64 then mret (x >>. n) else stop BadShift.
Definition shr32 (x n : Z) : M S Z := if n <? 32 then mret (x >>. n) else stop BadShift.
Definition shl64 (x n : Z) : M S Z :=
  if n <? 64 then mret (u64 (x <<. n)) else stop BadShift.

(** [x / y] and [x % y] on unsigned operands. *)
Definition divu (x y : Z) : M S Z := if y =? 0 then stop DivByZero else mret (x / y).
Definition modu (x y : Z) : M S Z := if y =? 0 then stop DivByZero else mret (x mod y).

(** [for (x in l) f x] *)
Fixpoint foreach {A} (l : list A) (f : A -> M S unit) : M S unit :=
  match l with
  | [] => done_
  | x :: l => f x ;; foreach l f
  end.

(** [s.p[i]] and [s.p[i] = f(s.p[i])] for an array [p] of the state. *)
Definition at_ {A} (p : S -> list A) (i : Z) : M S A :=
  fun s => match nthZ (p s) i with
           | Some x => Ok x s
           | None => Fault OutOfBounds
           end.
Definition upd_at {A} (p : S -> list A) `{!Field p} (i : Z) (f : A -> A) : M S unit :=
  fun s => match nthZ (p s) i with
           | Some x => Ok tt (upd_field p (fun l => updZ l i (f x)) s)
           | None => Fault OutOfBounds
           end.
End Primitives.

(** ** Weakest preconditions *)

Section Logic.
Context {S : Type}.

Definition wp {A} (m : M S A) (Q : A -> S -> Prop) (s : S) : Prop :=
  match m s with Ok a s' => Q a s' | Fault _ => False end.
Definition wlp {A} (m : M S A) (Q : A -> S -> Prop) (s : S) : Prop :=
  match m s with Ok a s' => Q a s' | Fault _ => True end.

Lemma wp_bind {A B} (m : M S A) (k : A -> M S B) Q s :
  wp (m ≫= k) Q s <-> wp m (fun a => wp (k a) Q) s.
Proof. unfold wp, mbind, M_bind. by destruct (m s). Qed.

Lemma wlp_bind {A B} (m : M S A) (k : A -> M S B) Q s :
  wlp (m ≫= k) Q s <-> wlp m (fun a => wlp (k a) Q) s.
Proof. unfold wlp, mbind, M_bind. by destruct (m s). Qed.

Lemma wp_mono {A} (m : M S A) (Q Q' : A -> S -> Prop) s :
  (forall a s', Q a s' -> Q' a s') -> wp m Q s -> wp m Q' s.
Proof. unfold wp. destruct (m s); auto. Qed.

Lemma wlp_mono {A} (m : M S A) (Q Q' : A -> S -> Prop) s :
  (forall a s', Q a s' -> Q' a s') -> wlp m Q s -> wlp m Q' s.
Proof. unfold wlp. destruct (m s); auto. Qed.

Lemma wp_wlp {A} (m : M S A) Q s : wp m Q s -> wlp m Q s.
Proof. unfold wp, wlp. by destruct (m s). Qed.

Lemma wp_and_wlp {A} (m : M S A) (Q Q' : A -> S -> Prop) s :
  wp m Q s -> wlp m Q' s -> wp m (fun a s' => Q a s' /\ Q' a s') s.
Proof. unfold wp, wlp. by destruct (m s). Qed.

Lemma wp_Ok {A} (m : M S A) Q s :
  wp m Q s <-> exists a s', m s = Ok a s' /\ Q a s'.
Proof.
  unfold wp. destruct (m s) as [a s'|e]; split.
  - eauto.
  - by intros (? & ? & [= <- <-] & ?).
  - done.
  - by intros (? & ? & ? & ?).
Qed.

Lemma wlp_Ok {A} (m : M S A) Q s :
  wlp m Q s <-> forall a s', m s = Ok a s' -> Q a s'.
Proof.
  unfold wlp. destruct (m s) as [a s'|e]; split.
  - by intros ? ? ? [= <- <-].
  - eauto.
  - done.
  - done.
Qed.

(** A loop over two lists. *)
Lemma foreach_app {A} (l l' : list A) (f : A -> M S unit) s :
  foreach (l ++ l') f s = (foreach l f ;; foreach l' f) s.
Proof.
  revert s. induction l as [|x l IH]; intros s; [done|]. simpl.
  unfold mbind, M_bind in *. destruct (f x s); [apply IH|done].
Qed.

Lemma wp_foreach {A} (l : list A) (f : A -> M S unit) (I : S -> Prop) s :
  (forall x s, x ∈ l -> I s -> wp (f x) (fun _ => I) s) ->
  I s -> wp (foreach l f) (fun _ => I) s.
Proof.
  revert s. induction l as [|x l IH]; intros s Hf Hs; simpl; [done|].
  apply wp_bind. eapply wp_mono; [|apply Hf; [set_solver|done]].
  intros [] s' Hs'. apply IH; [|done]. intros. apply Hf; [set_solver|done].
Qed.
End Logic.

Lemma Ok_inj {S A} (a a' : A) (s s' : S) : Ok a s = Ok a' s' -> a = a' /\ s = s'.
Proof. by intros [= -> ->]. Qed.

Lemma run_bind {S A B} (m : M S A) (k : A -> M S B) s a s' :
  m s = Ok a s' -> (m ≫= k) s = k a s'.
Proof. intros Hm. unfold mbind, M_bind. by rewrite Hm. Qed.

Lemma run_fault {S A B} (m : M S A) (k : A -> M S B) s e : m s = Fault e -> (m ≫= k) s = Fault e.
Proof. intros Hm. unfold mbind, M_bind. by rewrite Hm. Qed.

(** The run of a bind, taken apart. *)
Lemma bind_Ok {S A B} (m : M S A) (k : A -> M S B) s b s2 : (m ≫= k) s = Ok b s2 ->
  exists a s1, m s = Ok a s1 /\ k a s1 = Ok b s2.
Proof. unfold mbind, M_bind. destruct (m s) as [a s1|]; [|done]. intros Hk. by exists a, s1. Qed.

Lemma run_divu {S} x y (s : S) : y <> 0 -> divu x y s = Ok (x / y) s.
Proof. intros Hy. unfold divu. by rewrite (proj2 (Z.eqb_neq y 0) Hy). Qed.
Lemma run_modu {S} x y (s : S) : y <> 0 -> modu x y s = Ok (x mod y) s.
Proof. intros Hy. unfold modu. by rewrite (proj2 (Z.eqb_neq y 0) Hy). Qed.

Lemma run_ret_bind {S A B} (a : A) (k : A -> M S B) s : (mret a ≫= k) s = k a s.
Proof. done. Qed.

Lemma run_gets {S A} (f : S -> A) s : gets f s = Ok (f s) s.
Proof. done. Qed.

(** Steps of a weakest-precondition proof whose first operation is known. *)
Section Steps.
Context {S : Type}.

Lemma wp_done (Q : unit -> S -> Prop) s : Q tt s -> wp done_ Q s.
Proof. done. Qed.

Lemma wp_ret {A} (a : A) (Q : A -> S -> Prop) s : Q a s -> wp (mret a) Q s.
Proof. done. Qed.

Lemma wp_modify f (Q : unit -> S -> Prop) s : Q tt (f s) -> wp (modify f) Q s.
Proof. done. Qed.

Lemma wp_gets_bind {A B} (f : S -> A) (k : A -> M S B) Q s :
  wp (k (f s)) Q s -> wp (gets f ≫= k) Q s.
Proof. done. Qed.

Lemma wp_modify_bind {B} f (k : unit -> M S B) Q s :
  wp (k tt) Q (f s) -> wp (modify f ≫= k) Q s.
Proof. done. Qed.

Lemma wlp_gets_bind {A B} (f : S -> A) (k : A -> M S B) Q s :
  wlp (k (f s)) Q s -> wlp (gets f ≫= k) Q s.
Proof. done. Qed.

Lemma wlp_modify_bind {B} f (k : unit -> M S B) Q s :
  wlp (k tt) Q (f s) -> wlp (modify f ≫= k) Q s.
Proof. done. Qed.

Lemma wp_done_bind {B} (k : unit -> M S B) Q s : wp (k tt) Q s -> wp (done_ ≫= k) Q s.
Proof. done. Qed.

Lemma wp_at_bind {A B} (p : S -> list A) i x (k : A -> M S B) Q s :
  nthZ (p s) i = Some x -> wp (k x) Q s -> wp (at_ p i ≫= k) Q s.
Proof. intros Hx Hk. apply wp_bind. unfold wp at 1, at_. by rewrite Hx. Qed.

Lemma wp_upd_at {A} (p : S -> list A) `{!Field p} i x f Q s :
  nthZ (p s) i = Some x ->
  Q tt (upd_field p (fun l => updZ l i (f x)) s) -> wp (upd_at p i f) Q s.
Proof. intros Hx HQ. unfold wp, upd_at. by rewrite Hx. Qed.

Lemma wp_upd_bind {A B} (p : S -> list A) `{!Field p} i x f (k : unit -> M S B) Q s :
  nthZ (p s) i = Some x -> (forall g, p (upd_field p g s) = g (p s)) ->
  (forall s', s' = upd_field p (fun l => updZ l i (f x)) s ->
     nthZ (p s') i = Some (f x) -> wp (k tt) Q s') ->
  wp (upd_at p i f ≫= k) Q s.
Proof.
  intros Hx Hp Hk. apply wp_bind. eapply wp_upd_at; [done|]. apply Hk; [done|].
  rewrite Hp. apply nthZ_updZ_eq. by eapply nthZ_Some.
Qed.

Lemma wp_run_bind {A B} (m : M S A) a s' (k : A -> M S B) Q s :
  m s = Ok a s' -> wp (k a) Q s' -> wp (m ≫= k) Q s.
Proof. intros Hm Hk. apply wp_bind. unfold wp at 1. by rewrite Hm. Qed.
End Steps.

(** ** Step relations of computations *)

Class Within {S A : Type} (R : S -> S -> Prop) (m : M S A) : Prop :=
  within : forall s, wlp m (fun _ s' => R s s') s.

Section Within.
Context {S : Type} (R : S -> S -> Prop) `{!PreOrder R}.

#[export] Instance within_ret {A} (a : A) : Within R (mret a : M S A).
Proof. intros s. change (R s s). reflexivity. Qed.

#[export] Instance within_done : Within R (done_ : M S unit).
Proof. intros s. change (R s s). reflexivity. Qed.

#[export] Instance within_stop {A} e : Within R (stop e : M S A).
Proof. intros s. exact I. Qed.

#[export] Instance within_gets {A} (f : S -> A) : Within R (gets f).
Proof. intros s. change (R s s). reflexivity. Qed.

#[export] Instance within_at {A} (p : S -> list A) i : Within R (at_ p i).
Proof. intros s. unfold wlp, at_. destruct (nthZ _ _); [reflexivity|done]. Qed.

#[export] Instance within_of_option {A} e (o : option A) : Within R (of_option e o : M S A).
Proof. destruct o; apply _. Qed.

#[export] Instance within_bind {A B} (m : M S A) (k : A -> M S B) :
  Within R m -> (forall a, Within R (k a)) -> Within R (m ≫= k).
Proof.
  intros Hm Hk s. apply wlp_bind. eapply wlp_mono; [|apply Hm].
  intros a s' Hs'. eapply wlp_mono; [|apply Hk].
  intros b s'' Hs''. by transitivity s'.
Qed.

#[export] Instance within_if {A} (b : bool) (m1 m2 : M S A) :
  Within R m1 -> Within R m2 -> Within R (if b then m1 else m2).
Proof. by destruct b. Qed.

#[export] Instance within_when (b : bool) (m : M S unit) :
  Within R m -> Within R (when b m).
Proof. destruct b; [done|]. intros _. apply _. Qed.

#[export] Instance within_foreach {A} (l : list A) (f : A -> M S unit) :
  (forall x, Within R (f x)) -> Within R (foreach l f).
Proof. intros Hf. induction l; simpl; apply _. Qed.

#[export] Instance within_shl1 n : Within R (shl1 n : M S Z).
Proof. unfold shl1. apply _. Qed.
#[export] Instance within_shr64 x n : Within R (shr64 x n : M S Z).
Proof. unfold shr64. apply _. Qed.
#[export] Instance within_shr32 x n : Within R (shr32 x n : M S Z).
Proof. unfold shr32. apply _. Qed.
#[export] Instance within_shl64 x n : Within R (shl64 x n : M S Z).
Proof. unfold shl64. apply _. Qed.

#[export] Instance within_divu x y : Within R (divu x y : M S Z).
Proof. unfold divu. apply _. Qed.
#[export] Instance within_modu x y : Within R (modu x y : M S Z).
Proof. unfold modu. apply _. Qed.

Lemma within_modify f : (forall s, R s (f s)) -> Within R (modify f).
Proof. intros Hf s. apply Hf. Qed.

Lemma within_upd_at {A} (p : S -> list A) `{!Field p} i f :
  (forall s x, nthZ (p s) i = Some x ->
     R s (upd_field p (fun l => updZ l i (f x)) s)) ->
  Within R (upd_at p i f).
Proof. intros Hf s. unfold wlp, upd_at. destruct (nthZ _ _) eqn:E; [by apply Hf|done]. Qed.

Lemma within_run {A} (m : M S A) `{!Within R m} s a s' : m s = Ok a s' -> R s s'.
Proof. intros H. specialize (within s : wlp m _ s). unfold wlp. by rewrite H. Qed.
End Within.

(** The two relations used most: an invariant and a frame. *)
Definition preserves {S} (I : S -> Prop) : S -> S -> Prop := fun s s' => I s -> I s'.
Definition keeps {S T} (f : S -> T) : S -> S -> Prop := fun s s' => f s' = f s.

#[export] Instance preserves_preorder {S} (I : S -> Prop) : PreOrder (preserves I).
Proof. split; repeat intro; unfold preserves in *; auto. Qed.
#[export] Instance keeps_preorder {S T} (f : S -> T) : PreOrder (keeps f).
Proof. split; repeat intro; unfold keeps in *; congruence. Qed.

Notation Preserves I m := (Within (preserves I) m).
Notation Keeps f m := (Within (keeps f) m).

Lemma preserves_modify {S} (I : S -> Prop) f :
  (forall s, I s -> I (f s)) -> Preserves I (modify f).
Proof. intros Hf. apply within_modify. exact Hf. Qed.

Lemma preserves_upd_at {S A} (I : S -> Prop) (p : S -> list A) `{!Field p} i f :
  (forall s x, nthZ (p s) i = Some x -> I s -> I (upd_field p (fun l => updZ l i (f x)) s)) ->
  Preserves I (upd_at p i f).
Proof. intros Hf. apply within_upd_at. exact Hf. Qed.

(** A value read from a state that satisfies the invariant. *)
Lemma preserves_bind {S A B} (I : S -> Prop) (Q : A -> Prop) (m : M S A) (k : A -> M S B) :
  Preserves I m -> (forall s a s', I s -> m s = Ok a s' -> Q a) ->
  (forall a, Q a -> Preserves I (k a)) -> Preserves I (m ≫= k).
Proof.
  intros Hm HQ Hk s. apply wlp_Ok. intros b s2 Hrun HI. unfold mbind, M_bind in Hrun.
  destruct (m s) as [a s1|] eqn:Hms; [|done].
  pose proof (Hk a (HQ s a s1 HI Hms)). apply (within_run (preserves I) (k a) s1 b s2 Hrun).
  exact (within_run (preserves I) m s a s1 Hms HI).
Qed.

Lemma preserves_gets {S A B} (I : S -> Prop) (f : S -> A) (k : A -> M S B) :
  (forall s, I s -> Preserves I (k (f s))) -> Preserves I (gets f ≫= k).
Proof.
  intros Hk. apply (preserves_bind I (fun a => exists s, I s /\ a = f s)); [apply _| |].
  - intros s a s' HI [= <- <-]. eauto.
  - intros a (s & HI & ->). by apply Hk.
Qed.

Lemma preserves_at {S A B} (I : S -> Prop) (p : S -> list A) i (k : A -> M S B) :
  (forall s x, I s -> nthZ (p s) i = Some x -> Preserves I (k x)) -> Preserves I (at_ p i ≫= k).
Proof.
  intros Hk. apply (preserves_bind I (fun x => exists s, I s /\ nthZ (p s) i = Some x)); [apply _| |].
  - unfold at_. intros s a s' HI Hrun. destruct (nthZ (p s) i) eqn:Hx; [|done].
    injection Hrun as <- <-. eauto.
  - intros a (s & HI & Hx). by apply (Hk s).
Qed.

(** An operation of a component run on its part of the state. *)
Definition zoom {S T A} (p : S -> T) `{!Field p} (m : M T A) : M S A := fun s =>
  match m (p s) with
  | Ok a t => Ok a (upd_field p (fun _ => t) s)
  | Fault e => Fault e
  end.

Lemma zoom_run {S T A} (p : S -> T) `{!Field p} (m : M T A) s a t :
  m (p s) = Ok a t -> zoom p m s = Ok a (upd_field p (fun _ => t) s).
Proof. intros Hm. unfold zoom. by rewrite Hm. Qed.

Lemma within_zoom {S T A} (R : S -> S -> Prop) (R' : T -> T -> Prop) (p : S -> T) `{!Field p}
    (m : M T A) :
  (forall s t, R' (p s) t -> R s (upd_field p (fun _ => t) s)) ->
  Within R' m -> Within R (zoom p m).
Proof.
  intros HR Hm s. specialize (Hm (p s)). unfold wlp, zoom in *.
  destruct (m (p s)); [by apply HR|done].
Qed.

Definition any {S} : S -> S -> Prop := fun _ _ => True.
Lemma within_any {S A} (m : M S A) : Within any m.
Proof. intros s. unfold wlp. by destruct (m s). Qed.

#[export] Hint Extern 2 (Within (keeps _) (zoom _ _)) =>
  (apply (within_zoom _ any); [intros; reflexivity|apply within_any]) : typeclass_instances.
#[export] Hint Extern 2 (Within (preserves _) (zoom _ _)) =>
  (apply (within_zoom _ any);
   [let s := fresh in let H := fresh in intros s ? _ H; exact H|apply within_any]) : typeclass_instances.

(** Stores that a frame or an invariant does not see. *)
#[export] Hint Extern 2 (Within (keeps _) (modify _)) =>
  (apply within_modify; intros ?; reflexivity) : typeclass_instances.
#[export] Hint Extern 2 (Within (keeps _) (upd_at _ _ _)) =>
  (apply within_upd_at; intros; reflexivity) : typeclass_instances.
#[export] Hint Extern 2 (Within (preserves _) (modify _)) =>
  (apply within_modify; let s := fresh in let H := fresh in intros s H; exact H) : typeclass_instances.
#[export] Hint Extern 2 (Within (preserves _) (upd_at _ _ _)) =>
  (apply within_upd_at; let s := fresh in let H := fresh in intros s ? ? H; exact H) : typeclass_instances.
#[export] Hint Extern 3 (Within _ (match ?x with _ => _ end)) => destruct x : typeclass_instances.

(** Relations that imply another one. *)
Lemma within_sub {S A} (R R' : S -> S -> Prop) (m : M S A) :
  (forall s s', R s s' -> R' s s') -> Within R m -> Within R' m.
Proof. intros H Hm s. eapply wlp_mono; [|apply Hm]. auto. Qed.

(** A safe and invariant-preserving operation, from its two halves. *)
Lemma wp_preserves {S A} (I : S -> Prop) (m : M S A) `{!Preserves I m} s :
  I s -> wp m (fun _ _ => True) s -> wp m (fun _ => I) s.
Proof.
  intros HI Hwp. specialize (within s : wlp m _ s) as Hw.
  unfold wp, wlp in *. destruct (m s); [by apply Hw|done].
Qed.

(** ** Reachable states *)

(** The states reached from [s0] by finitely many steps of [step]. *)
Inductive reachable {S} (s0 : S) (step : S -> S -> Prop) : S -> Prop :=
| reachable_init : reachable s0 step s0
| reachable_step s s' : reachable s0 step s -> step s s' -> reachable s0 step s'.

Lemma reachable_invariant {S} (s0 : S) step (I : S -> Prop) :
  I s0 -> (forall s s', I s -> step s s' -> I s') ->
  forall s, reachable s0 step s -> I s.
Proof. intros H0 Hs s. induction 1; eauto. Qed.

(** ** Tactics *)

(** Evaluate the monadic skeleton of the goal or of a hypothesis. *)
Ltac mred :=
  cbv beta iota delta [mbind M_bind mret M_ret gets modify stop done_ when of_option].
Ltac mred_in H :=
  cbv beta iota delta [mbind M_bind mret M_ret gets modify stop done_ when of_option] in H.

(** Case analysis on the innermost stuck test of the goal. *)
Ltac case_if :=
  match goal with
  | |- context [if ?b then _ else _] =>
      lazymatch b with
      | context [if _ then _ else _] => fail
      | _ => destruct b eqn:?
      end
  end.

(** ** Safe operations

    [Safe I m]: from a state that satisfies the invariant [I], [m] does not fault and
    keeps [I].  The instances follow the structure of the program; what is left are
    its reads, whose values the invariant bounds, and its stores. *)

Class Safe {S A : Type} (I : S -> Prop) (m : M S A) : Prop := safe s : I s -> wp m (fun _ => I) s.

Section Safe.
Context {S : Type} (I : S -> Prop).

#[export] Instance safe_ret {A} (a : A) : Safe I (mret a : M S A).
Proof. by intros s. Qed.

#[export] Instance safe_done : Safe I (done_ : M S unit).
Proof. by intros s. Qed.

#[export] Instance safe_bind {A B} (m : M S A) (k : A -> M S B) :
  Safe I m -> (forall a, Safe I (k a)) -> Safe I (m ≫= k).
Proof.
  intros Hm Hk s Hs. apply wp_bind. eapply wp_mono; [|by apply Hm]. intros a s' Hs'. by apply Hk.
Qed.

#[export] Instance safe_if {A} (b : bool) (m1 m2 : M S A) :
  Safe I m1 -> Safe I m2 -> Safe I (if b then m1 else m2).
Proof. by destruct b. Qed.

#[export] Instance safe_when (b : bool) (m : M S unit) : Safe I m -> Safe I (when b m).
Proof. destruct b; [done|]. intros _. apply safe_done. Qed.

#[export] Instance safe_foreach {A} (l : list A) (f : A -> M S unit) :
  (forall x, Safe I (f x)) -> Safe I (foreach l f).
Proof. intros Hf. induction l; simpl; apply _. Qed.

Lemma safe_when_true (b : bool) (m : M S unit) : (b = true -> Safe I m) -> Safe I (when b m).
Proof. destruct b; intros Hm; [by apply Hm|apply safe_done]. Qed.

Lemma safe_gets {A B} (f : S -> A) (k : A -> M S B) :
  (forall s, I s -> Safe I (k (f s))) -> Safe I (gets f ≫= k).
Proof. intros Hk s Hs. apply wp_gets_bind. by apply Hk. Qed.

Lemma safe_modify f : (forall s, I s -> I (f s)) -> Safe I (modify f).
Proof. intros Hf s Hs. by apply Hf. Qed.

Lemma safe_some {A B} e (o : option A) x (k : A -> M S B) :
  o = Some x -> Safe I (k x) -> Safe I (of_option e o ≫= k).
Proof. by intros ->. Qed.

Lemma safe_of_option {A} e (o : option A) x : o = Some x -> Safe I (of_option e o : M S A).
Proof. intros ->. apply safe_ret. Qed.

Lemma safe_divu {B} x y (k : Z -> M S B) : y <> 0 -> Safe I (k (x / y)) -> Safe I (divu x y ≫= k).
Proof. intros Hy Hk s Hs. eapply wp_run_bind; [by apply run_divu|]. by apply Hk. Qed.

(** A [bind] whose first part returns a value the rest relies on. *)
Lemma safe_bind_post {A B} (Q : A -> Prop) (m : M S A) (k : A -> M S B) :
  (forall s, I s -> wp m (fun a s' => Q a /\ I s') s) ->
  (forall a, Q a -> Safe I (k a)) -> Safe I (m ≫= k).
Proof.
  intros Hm Hk s Hs. apply wp_bind. eapply wp_mono; [|by apply Hm]. intros a s' [Ha Hs']. by apply Hk.
Qed.

Lemma safe_fault_free {A} (m : M S A) `{!Safe I m} s e : I s -> m s <> Fault e.
Proof. intros Hs He. specialize (safe s Hs). unfold wp. by rewrite He. Qed.
End Safe.

(** ** Computations that do not see a part of the state

    [Commutes g m]: to change the state by [g] and then run [m] is to run [m] and then
    change the state by [g]. *)

Definition outcome_map {S A : Type} (g : S -> S) (o : outcome S A) : outcome S A :=
  match o with Ok a s => Ok a (g s) | Fault e => Fault e end.

Class Commutes {S A : Type} (g : S -> S) (m : M S A) : Prop :=
  commutes s : m (g s) = outcome_map g (m s).

Section Commutes.
Context {S : Type} (g : S -> S).

#[export] Instance commutes_ret {A} (a : A) : Commutes g (mret a : M S A).
Proof. by intros s. Qed.
#[export] Instance commutes_done : Commutes g (done_ : M S unit).
Proof. by intros s. Qed.
#[export] Instance commutes_stop {A} e : Commutes g (stop e : M S A).
Proof. by intros s. Qed.
#[export] Instance commutes_of_option {A} e (o : option A) : Commutes g (of_option e o : M S A).
Proof. by destruct o. Qed.
#[export] Instance commutes_bind {A B} (m : M S A) (k : A -> M S B) :
  Commutes g m -> (forall a, Commutes g (k a)) -> Commutes g (m ≫= k).
Proof.
  intros Hm Hk s. unfold mbind, M_bind. rewrite (Hm s). destruct (m s); [apply Hk|done].
Qed.
#[export] Instance commutes_if {A} (b : bool) (m1 m2 : M S A) :
  Commutes g m1 -> Commutes g m2 -> Commutes g (if b then m1 else m2).
Proof. by destruct b. Qed.
#[export] Instance commutes_when (b : bool) (m : M S unit) : Commutes g m -> Commutes g (when b m).
Proof. destruct b; [done|]. intros _. apply _. Qed.
#[export] Instance commutes_foreach {A} (l : list A) (f : A -> M S unit) :
  (forall x, Commutes g (f x)) -> Commutes g (foreach l f).
Proof. intros Hf. induction l; simpl; apply _. Qed.

Lemma commutes_gets {A} (f : S -> A) : (forall s, f (g s) = f s) -> Commutes g (gets f).
Proof. intros Hf s. unfold gets. cbn. by rewrite Hf. Qed.
Lemma commutes_modify f : (forall s, f (g s) = g (f s)) -> Commutes g (modify f).
Proof. intros Hf s. unfold modify. cbn. by rewrite Hf. Qed.
End Commutes.
