(* ===== verification/Structs.v ===== *)
(** The data of the program: the structs of the headers, and the machine.

    One Module per C struct, with the struct's field names; [Machine.t] gathers
    the file-scope variables of the device files into one state.  Function
    pointers are tags: [Callback] for port and MMIO handlers, [TimerHandler] for
    timer handlers, [ConfCallback] for PCI configuration handlers. *)

From S2P Require Export Monad.

(** ** Function pointers *)

(** The port-I/O and MMIO handlers the device files register (a tag names the
    write handler and the read handler of one device). *)
Inductive Callback : Set :=
| cb_Dma | cb_Pic | cb_Pit | cb_Cmos | cb_Ps2 | cb_I440fx | cb_Piix3 | cb_Ide
| cb_Acpi | cb_Serial | cb_Parallel | cb_Bios | cb_HardDisk
| cb_IoApic | cb_Apic | cb_Hpet | cb_Flash
| cb_Vga | cb_VgaVbe | cb_VgaMmio.

(** The handlers given to [TimerCreate] and [TimerRegister]. *)
Inductive TimerHandler : Set :=
| fn_PitTimerHandler | fn_ApicTimerHandler | fn_HpetTimerHandler | fn_CmosUipTimer
| fn_AcpiTimerHandler | fn_IdeTimerHandler | fn_Ps2TimerHandler | fn_VgaCoreTimerHandler | fn_handle_events.

(** The handlers given to [PciRegisterConfigHandler]. *)
Inductive ConfCallback : Set :=
| cc_I440fx | cc_Piix3 | cc_Ide | cc_Acpi | cc_Vga.

#[export] Instance Callback_eq_dec : EqDecision Callback.
Proof. solve_decision. Defined.
#[export] Instance TimerHandler_eq_dec : EqDecision TimerHandler.
Proof. solve_decision. Defined.
#[export] Instance ConfCallback_eq_dec : EqDecision ConfCallback.
Proof. solve_decision. Defined.

(** ** Structs *)

(** timer.h, [struct _TIMER]. *)
Module TIMER.
Record t := mk {
  Handler : option TimerHandler;
  Nseconds : Z;
  TimeToFire : Z;
  Param : Z;
  Active : Z;
  OneShot : Z
}.
#[export] Instance eta_t : Eta t := fun r => mk r.(Handler) r.(Nseconds) r.(TimeToFire)
  r.(Param) r.(Active) r.(OneShot).
Definition zero : t := mk None 0 0 0 0 0.
End TIMER.
Export (hints) TIMER.

(** The file-scope variables of timer.c. *)
Module TIMERS.
Record t := mk {
  TimersIdx : Z;
  TicksTotal : Z;
  NsecondsTotal : Z;
  Timers : list TIMER.t
}.
#[export] Instance eta_t : Eta t := fun r => mk r.(TimersIdx) r.(TicksTotal) r.(NsecondsTotal)
  r.(Timers).
Definition zero : t := mk 0 0 0 (replicate 32 TIMER.zero).
End TIMERS.
Export (hints) TIMERS.

(** pic.h, [struct _PIC] ([DataBuffer] is never used by the code). *)
Module PIC.
Record t := mk {
  InitCmd : list Z;
  OperationCmd : list Z;
  EdgeLevel : Z;
  InterruptMask : Z;
  InterruptInService : Z;
  InterruptRequest : Z;
  InterruptPin : Z;
  InterruptNumber : Z;
  CurrentPriority : Z;
  CurrentOffset : Z;
  Raised : Z;
  State : Z;
  Mode : Z
}.
#[export] Instance eta_t : Eta t := fun r => mk r.(InitCmd) r.(OperationCmd) r.(EdgeLevel)
  r.(InterruptMask) r.(InterruptInService) r.(InterruptRequest) r.(InterruptPin)
  r.(InterruptNumber) r.(CurrentPriority) r.(CurrentOffset) r.(Raised) r.(State) r.(Mode).
Definition zero : t := mk (replicate 4 0) (replicate 4 0) 0 0 0 0 0 0 0 0 0 0 0.
End PIC.
Export (hints) PIC.

(** ioapic.h, [struct _IO_REDIRECT_ENTRY]. *)
Module IO_REDIRECT_ENTRY.
Record t := mk {
  High : Z;
  Low : Z
}.
#[export] Instance eta_t : Eta t := fun r => mk r.(High) r.(Low).
Definition zero : t := mk 0 0.
End IO_REDIRECT_ENTRY.
Export (hints) IO_REDIRECT_ENTRY.

(** ioapic.h, [struct _IOAPIC]. *)
Module IOAPIC.
Record t := mk {
  IoRegisterSelect : Z;
  IoApicId : Z;
  IoApicVersion : Z;
  IoRedirectTable : list IO_REDIRECT_ENTRY.t;
  Irr : Z
}.
#[export] Instance eta_t : Eta t := fun r => mk r.(IoRegisterSelect) r.(IoApicId)
  r.(IoApicVersion) r.(IoRedirectTable) r.(Irr).
Definition zero : t := mk 0 0 0 (replicate 24 IO_REDIRECT_ENTRY.zero) 0.
End IOAPIC.
Export (hints) IOAPIC.

(** apic.h, [struct _LAPIC] ([EndOfInterrupt] is never used by the code). *)
Module LAPIC.
Record t := mk {
  ApicId : Z;
  ApicVersion : Z;
  TaskPriority : Z;
  InterruptServiceRegister : list Z;
  TriggerModeRegister : list Z;
  InterruptRequestRegister : list Z;
  DestinationLogical : Z;
  DestinationFormat : Z;
  InterruptCommandRegisterLow : Z;
  InterruptCommandRegisterHigh : Z;
  LocalVectorTable : list Z;
  TimerDivideConfigurationRegister : Z;
  TimerInitialCountRegister : Z;
  TimerInitialLoadTime : Z;
  TimerNextExpire : Z;
  ErrorStatus : Z;
  ShadowErrorStatus : Z;
  TimerId : Z;
  SpuriousVector : Z;
  SoftwareEnable : Z;
  FocusDisable : Z;
  MsrEnable : Z
}.
#[export] Instance eta_t : Eta t := fun r => mk r.(ApicId) r.(ApicVersion) r.(TaskPriority)
  r.(InterruptServiceRegister) r.(TriggerModeRegister) r.(InterruptRequestRegister)
  r.(DestinationLogical) r.(DestinationFormat) r.(InterruptCommandRegisterLow)
  r.(InterruptCommandRegisterHigh) r.(LocalVectorTable) r.(TimerDivideConfigurationRegister)
  r.(TimerInitialCountRegister) r.(TimerInitialLoadTime) r.(TimerNextExpire) r.(ErrorStatus)
  r.(ShadowErrorStatus) r.(TimerId) r.(SpuriousVector) r.(SoftwareEnable) r.(FocusDisable)
  r.(MsrEnable).
Definition zero : t := mk 0 0 0 (replicate 16 0) (replicate 16 0) (replicate 16 0) 0 0 0 0
  (replicate 7 0) 0 0 0 0 0 0 0 0 0 0 0.
End LAPIC.
Export (hints) LAPIC.

(** pit.h, [struct Counter]. *)
Module Counter.
Record t := mk {
  count : Z;
  countLatched : Z;
  writeState : Z;
  readState : Z;
  mode : Z;
  rwMode : Z;
  bcdMode : Z;
  countWritten : Z;
  inlatch : Z;
  outlatch : Z;
  statusLatch : Z;
  statusLatched : Z;
  nextTransitionTime : Z;
  countBinary : Z;
  gate : Z;
  triggerGate : Z;
  timerId : Z;
  countLoadTime : Z
}.
#[export] Instance eta_t : Eta t := fun r => mk r.(count) r.(countLatched) r.(writeState)
  r.(readState) r.(mode) r.(rwMode) r.(bcdMode) r.(countWritten) r.(inlatch) r.(outlatch)
  r.(statusLatch) r.(statusLatched) r.(nextTransitionTime) r.(countBinary) r.(gate)
  r.(triggerGate) r.(timerId) r.(countLoadTime).
Definition zero : t := mk 0 0 0 0 0 0 0 0 0 0 0 0 0 0 0 0 0 0.
End Counter.
Export (hints) Counter.

(** pit.h, [struct Pit], with the statics [PitChannelSound] and [PitReadHandler]'s
    [ClockNs] of pit.c ([controlWord] and [NextEventTime] are never used). *)
Module Pit.
Record t := mk {
  counter : list Counter.t;
  totalTicks : Z;
  InterruptEnabled : Z;
  PitChannelSound : Z;
  ClockNs : Z
}.
#[export] Instance eta_t : Eta t := fun r => mk r.(counter) r.(totalTicks) r.(InterruptEnabled)
  r.(PitChannelSound) r.(ClockNs).
Definition zero : t := mk (replicate 3 Counter.zero) 0 0 0 0.
End Pit.
Export (hints) Pit.

(** dma.h, [struct _DMA_CHANNEL]; the handlers are tags of the device that set them. *)
Module DMA_CHANNEL.
Record t := mk {
  CurrentAddressRegister : Z;
  CurrentCountRegister : Z;
  BaseAddressRegister : Z;
  BaseCountRegister : Z;
  ModeRegister : Z;
  MaskRegister : Z;
  PageRegisters : Z;
  HiPageRegisters : Z;
  DmaReadHandler : option Z;
  DmaWriteHandler : option Z
}.
#[export] Instance eta_t : Eta t := fun r => mk r.(CurrentAddressRegister)
  r.(CurrentCountRegister) r.(BaseAddressRegister) r.(BaseCountRegister) r.(ModeRegister)
  r.(MaskRegister) r.(PageRegisters) r.(HiPageRegisters) r.(DmaReadHandler) r.(DmaWriteHandler).
Definition zero : t := mk 0 0 0 0 0 0 0 0 None None.
End DMA_CHANNEL.
Export (hints) DMA_CHANNEL.

(** dma.h, [struct _DMA_CONTROLLER] (the fields the code uses). *)
Module DMA_CONTROLLER.
Record t := mk {
  StatusRegister : Z;
  CommandRegister : Z;
  FlipFlop : Z;
  DmaAck : list Z;
  Channels : list DMA_CHANNEL.t
}.
#[export] Instance eta_t : Eta t := fun r => mk r.(StatusRegister) r.(CommandRegister)
  r.(FlipFlop) r.(DmaAck) r.(Channels).
Definition zero : t := mk 0 0 0 (replicate 4 0) (replicate 4 DMA_CHANNEL.zero).
End DMA_CONTROLLER.
Export (hints) DMA_CONTROLLER.

(** cmos.h, [struct _CMOS_STATE], with the timer indices of cmos.c. *)
Module CMOS_STATE.
Record t := mk {
  Registers : list Z;
  CmosAddress : Z;
  CmosExtAddress : Z;
  timeval_change : Z;
  rtc_mode_12hour : Z;
  rtc_mode_binary : Z;
  InterruptEnabled : Z;
  timeval : Z;
  PeriodicIntervalUsec : Z;
  PeriodicTimerIndex : Z;
  UipTimerIndex : Z;
  OneSecondTimerIndex : Z
}.
#[export] Instance eta_t : Eta t := fun r => mk r.(Registers) r.(CmosAddress)
  r.(CmosExtAddress) r.(timeval_change) r.(rtc_mode_12hour) r.(rtc_mode_binary)
  r.(InterruptEnabled) r.(timeval) r.(PeriodicIntervalUsec) r.(PeriodicTimerIndex)
  r.(UipTimerIndex) r.(OneSecondTimerIndex).
Definition zero : t := mk (replicate 256 0) 0 0 0 0 0 0 0 0 0 0 0.
End CMOS_STATE.
Export (hints) CMOS_STATE.

(** ps2.h, [struct _KEYBOARD]. *)
Module KEYBOARD.
Record t := mk {
  KeyboardMemory : list Z;
  KeyboardMemoryIndex : Z;
  KeyboardClockEnabled : Z;
  ScanCodeEnabled : Z;
  ScanCodeSet : Z;
  LedState : Z;
  Typematic : Z
}.
#[export] Instance eta_t : Eta t := fun r => mk r.(KeyboardMemory) r.(KeyboardMemoryIndex)
  r.(KeyboardClockEnabled) r.(ScanCodeEnabled) r.(ScanCodeSet) r.(LedState) r.(Typematic).
Definition zero : t := mk (replicate 16 0) 0 0 0 0 0 0.
End KEYBOARD.
Export (hints) KEYBOARD.

(** ps2.h, [struct _MOUSE]. *)
Module MOUSE.
Record t := mk {
  MouseMemory : list Z;
  MouseMemoryIndex : Z;
  MouseClockEnabled : Z
}.
#[export] Instance eta_t : Eta t := fun r => mk r.(MouseMemory) r.(MouseMemoryIndex)
  r.(MouseClockEnabled).
Definition zero : t := mk (replicate 48 0) 0 0.
End MOUSE.
Export (hints) MOUSE.

(** ps2.h, [struct _PS2]. *)
Module PS2.
Record t := mk {
  DataRegister : Z;
  StatusRegister : Z;
  ControllerQueueIndex : Z;
  ControllerQueue : list Z;
  TimerPending : Z;
  TimerId : Z;
  KeyboardBuffer : Z;
  MouseBuffer : Z;
  CommandBuffer : Z;
  OutputPort : Z;
  Keyboard : KEYBOARD.t;
  Mouse : MOUSE.t
}.
#[export] Instance eta_t : Eta t := fun r => mk r.(DataRegister) r.(StatusRegister)
  r.(ControllerQueueIndex) r.(ControllerQueue) r.(TimerPending) r.(TimerId) r.(KeyboardBuffer)
  r.(MouseBuffer) r.(CommandBuffer) r.(OutputPort) r.(Keyboard) r.(Mouse).
Definition zero : t := mk 0 0 0 (replicate 5 0) 0 0 0 0 0 0 KEYBOARD.zero MOUSE.zero.
End PS2.
Export (hints) PS2.

(** hpet.h, [struct _HPET_TIMER_BLOCK]. *)
Module HPET_TIMER_BLOCK.
Record t := mk {
  ConfigCapabilities : Z;
  InterruptRoutingCapability : Z;
  Comparator : Z;
  FrontSideBusInterruptValue : Z;
  FrontSideBusInterruptAddress : Z;
  TimerId : Z;
  LastTimeChecked : Z;
  TimerPeriod : Z;
  Id : Z
}.
#[export] Instance eta_t : Eta t := fun r => mk r.(ConfigCapabilities)
  r.(InterruptRoutingCapability) r.(Comparator) r.(FrontSideBusInterruptValue)
  r.(FrontSideBusInterruptAddress) r.(TimerId) r.(LastTimeChecked) r.(TimerPeriod) r.(Id).
Definition zero : t := mk 0 0 0 0 0 0 0 0 0.
End HPET_TIMER_BLOCK.
Export (hints) HPET_TIMER_BLOCK.

(** hpet.h, [struct _HPET]. *)
Module HPET.
Record t := mk {
  GlobalCapabilities : Z;
  ClockPeriod : Z;
  GlobalConfiguration : Z;
  InterruptStatus : Z;
  Counter : Z;
  ReferenceTime : Z;
  ReferenceValue : Z;
  Timer : list HPET_TIMER_BLOCK.t
}.
#[export] Instance eta_t : Eta t := fun r => mk r.(GlobalCapabilities) r.(ClockPeriod)
  r.(GlobalConfiguration) r.(InterruptStatus) r.(Counter) r.(ReferenceTime) r.(ReferenceValue)
  r.(Timer).
Definition zero : t := mk 0 0 0 0 0 0 0 (replicate 32 HPET_TIMER_BLOCK.zero).
End HPET.
Export (hints) HPET.

(** acpi.h, [struct SmBus]. *)
Module SmBus.
Record t := mk {
  HostStatus : Z;
  SlaveStatus : Z;
  HostControl : Z;
  HostCommand : Z;
  HostAddress : Z;
  HostData0 : Z;
  HostData1 : Z;
  SlaveControl : Z;
  Index : Z;
  Data : list Z
}.
#[export] Instance eta_t : Eta t := fun r => mk r.(HostStatus) r.(SlaveStatus) r.(HostControl)
  r.(HostCommand) r.(HostAddress) r.(HostData0) r.(HostData1) r.(SlaveControl) r.(Index)
  r.(Data).
Definition zero : t := mk 0 0 0 0 0 0 0 0 0 (replicate 56 0).
End SmBus.
Export (hints) SmBus.

(** acpi.h, [struct ACPI]. *)
Module ACPI.
Record t := mk {
  PmBase : Z;
  SmBase : Z;
  PmRegisters : list Z;
  SmBus : SmBus.t;
  TimerOverflow : Z;
  PmStatus : Z;
  PmEnable : Z;
  PmControl : Z;
  TimerId : Z
}.
#[export] Instance eta_t : Eta t := fun r => mk r.(PmBase) r.(SmBase) r.(PmRegisters) r.(SmBus)
  r.(TimerOverflow) r.(PmStatus) r.(PmEnable) r.(PmControl) r.(TimerId).
Definition zero : t := mk 0 0 (replicate 56 0) SmBus.zero 0 0 0 0 0.
End ACPI.
Export (hints) ACPI.

(** pci.h, [struct pci_bar]. *)
Module pci_bar.
Record t := mk {
  type : Z;
  size : Z;
  addr : Z;
  mask : Z;
  WriteHandler : option Callback;
  ReadHandler : option Callback
}.
#[export] Instance eta_t : Eta t := fun r => mk r.(type) r.(size) r.(addr) r.(mask)
  r.(WriteHandler) r.(ReadHandler).
Definition zero : t := mk 0 0 0 0 None None.
End pci_bar.
Export (hints) pci_bar.

(** pci.h, [struct _PCI] ([ReadPciConfHandler] is stored and never called). *)
Module PCI.
Record t := mk {
  conf : list Z;
  bar : list pci_bar.t;
  initialized : Z;
  WritePciConfHandler : option ConfCallback
}.
#[export] Instance eta_t : Eta t := fun r => mk r.(conf) r.(bar) r.(initialized)
  r.(WritePciConfHandler).
Definition zero : t := mk (replicate 256 0) (replicate 6 pci_bar.zero) 0 None.
End PCI.
Export (hints) PCI.

(** bitmap.h, [struct _RTL_BITMAP]. *)
Module RTL_BITMAP.
Record t := mk {
  SizeOfBitMap : Z;
  Buffer : option (list Z)
}.
#[export] Instance eta_t : Eta t := fun r => mk r.(SizeOfBitMap) r.(Buffer).
Definition zero : t := mk 0 None.
End RTL_BITMAP.
Export (hints) RTL_BITMAP.

(** The file-scope variables of pci.c.  A handler table is a map whose missing
    keys are null pointers; [PciDevices] maps (bus, device function) to a device,
    and the devices it does not hold equal [PciDefault]. *)
Module PCI_STATE.
Record t := mk {
  PortIoBitmap : RTL_BITMAP.t;
  WritePortHandlers : gmap Z Callback;
  ReadPortHandlers : gmap Z Callback;
  MMIOBitmap : RTL_BITMAP.t;
  MmioWriteHandlers : gmap Z Callback;
  MmioReadHandlers : gmap Z Callback;
  PciDefault : PCI.t;
  PciDevices : gmap (Z * Z) PCI.t
}.
#[export] Instance eta_t : Eta t := fun r => mk r.(PortIoBitmap) r.(WritePortHandlers)
  r.(ReadPortHandlers) r.(MMIOBitmap) r.(MmioWriteHandlers) r.(MmioReadHandlers) r.(PciDefault)
  r.(PciDevices).
Definition zero : t := mk RTL_BITMAP.zero ∅ ∅ RTL_BITMAP.zero ∅ ∅ PCI.zero ∅.
End PCI_STATE.
Export (hints) PCI_STATE.

(** i440fx.h, [struct i440fx]. *)
Module I440fx.
Record t := mk {
  confAddress : Z;
  confData : Z;
  memory_type : list (list Z);
  dramDetect : Z;
  drb : list Z;
  a20 : Z
}.
#[export] Instance eta_t : Eta t := fun r => mk r.(confAddress) r.(confData) r.(memory_type)
  r.(dramDetect) r.(drb) r.(a20).
Definition zero : t := mk 0 0 (replicate 13 [0; 0]) 0 (replicate 8 0) 0.
End I440fx.
Export (hints) I440fx.

(** piix3.h, [struct piix3]. *)
Module Piix3.
Record t := mk {
  APMControl : Z;
  APMStatus : Z;
  edgeLevelTrigger1 : Z;
  edgeLevelTrigger2 : Z;
  pciReset : Z;
  irqRegister : list Z;
  irqStatus : list (list Z)
}.
#[export] Instance eta_t : Eta t := fun r => mk r.(APMControl) r.(APMStatus)
  r.(edgeLevelTrigger1) r.(edgeLevelTrigger2) r.(pciReset) r.(irqRegister) r.(irqStatus).
Definition zero : t := mk 0 0 0 0 0 (replicate 16 0) (replicate 4 (replicate 16 0)).
End Piix3.
Export (hints) Piix3.

(** ide.h, [struct BMDMA]; [Buffer] is sparse, a missing byte reads 0. *)
Module BMDMA.
Record t := mk {
  Command : Z;
  Status : Z;
  PrdTable : Z;
  PrdCurrent : Z;
  Buffer : gmap Z Z;
  DataReady : Z;
  BufferOffset : Z
}.
#[export] Instance eta_t : Eta t := fun r => mk r.(Command) r.(Status) r.(PrdTable)
  r.(PrdCurrent) r.(Buffer) r.(DataReady) r.(BufferOffset).
Definition zero : t := mk 0 0 0 0 ∅ 0 0.
End BMDMA.
Export (hints) BMDMA.

(** flash.h, [struct Flash]; [Storage] is sparse, a missing byte reads 0xff. *)
Module Flash.
Record t := mk {
  Cmd : Z;
  Status : Z;
  Wcycle : Z;
  CfiTable : list Z;
  Storage : gmap Z Z
}.
#[export] Instance eta_t : Eta t := fun r => mk r.(Cmd) r.(Status) r.(Wcycle) r.(CfiTable)
  r.(Storage).
Definition zero : t := mk 0 0 0 (replicate 82 0) ∅.
End Flash.
Export (hints) Flash.

(** The globals of bios.h, with what the handlers print: [true] for stderr. *)
Module BIOS.
Record t := mk {
  bios_message : list Z;
  bios_message_i : Z;
  bios_panic_flag : Z;
  vgabios_message : list Z;
  vgabios_message_i : Z;
  vgabios_panic_flag : Z;
  console : list (bool * list Z)
}.
#[export] Instance eta_t : Eta t := fun r => mk r.(bios_message) r.(bios_message_i)
  r.(bios_panic_flag) r.(vgabios_message) r.(vgabios_message_i) r.(vgabios_panic_flag)
  r.(console).
Definition zero : t := mk (replicate 80 0) 0 0 (replicate 80 0) 0 0 [].
End BIOS.
Export (hints) BIOS.

(** The fields of the shared [struct kvm_run] the device files use. *)
Module kvm_run.
Record t := mk {
  request_interrupt_window : Z;
  user_event_pending : Z
}.
#[export] Instance eta_t : Eta t := fun r => mk r.(request_interrupt_window)
  r.(user_event_pending).
Definition zero : t := mk 0 0.
End kvm_run.
Export (hints) kvm_run.

(** kvm.h, [struct kvm_userspace_memory_region]. *)
Module kvm_userspace_memory_region.
Record t := mk {
  slot : Z;
  flags : Z;
  guest_phys_addr : Z;
  memory_size : Z;
  userspace_addr : Z
}.
#[export] Instance eta_t : Eta t := fun r => mk r.(slot) r.(flags) r.(guest_phys_addr)
  r.(memory_size) r.(userspace_addr).
Definition zero : t := mk 0 0 0 0 0.
End kvm_userspace_memory_region.
Export (hints) kvm_userspace_memory_region.

(** harddisk.h, [struct _SENSE_INFO]. *)
Module SENSE_INFO.
Record t := mk {
  sense_key : Z;
  information : list Z;
  specific_inf : list Z;
  key_spec : list Z;
  fruc : Z;
  asc : Z;
  ascq : Z
}.
#[export] Instance eta_t : Eta t := fun r => mk r.(sense_key) r.(information) r.(specific_inf)
  r.(key_spec) r.(fruc) r.(asc) r.(ascq).
Definition zero : t := mk 0 (replicate 4 0) (replicate 4 0) (replicate 3 0) 0 0 0.
End SENSE_INFO.
Export (hints) SENSE_INFO.

(** harddisk.h, [struct _ATAPI]. *)
Module ATAPI.
Record t := mk {
  AtapiCommand : Z;
  DrqBytes : Z;
  TotalBytesRemaining : Z
}.
#[export] Instance eta_t : Eta t := fun r => mk r.(AtapiCommand) r.(DrqBytes)
  r.(TotalBytesRemaining).
Definition zero : t := mk 0 0 0.
End ATAPI.
Export (hints) ATAPI.

(** harddisk.h, [struct _HOB]. *)
Module HOB.
Record t := mk {
  Feature : Z;
  LowCylinder : Z;
  HighCylinder : Z;
  Sector : Z;
  Nsector : Z
}.
#[export] Instance eta_t : Eta t := fun r => mk r.(Feature) r.(LowCylinder) r.(HighCylinder)
  r.(Sector) r.(Nsector).
Definition zero : t := mk 0 0 0 0 0.
End HOB.
Export (hints) HOB.

(** harddisk.h, [struct _CONTROLLER]; [SectorCount] is also the bits of [interrupt_reason]. *)
Module CONTROLLER.
Record t := mk {
  Buffer : option (list Z);
  BufferTotalSize : Z;
  BufferSize : Z;
  BufferIndex : Z;
  NumberOfSectors : Z;
  SectorCount : Z;
  SectorNumber : Z;
  MultipleSectors : Z;
  AddressMode : Z;
  LbAddress : Z;
  Lba48 : Z;
  Hob : HOB.t;
  HeadNumber : Z;
  CylinderNumber : Z;
  Status : Z;
  ErrorRegister : Z;
  IndexPulse : Z;
  ResetInProgress : Z;
  Reset : Z;
  MdmaMode : Z;
  UdmaMode : Z;
  PacketDma : Z;
  CurrentCommand : Z;
  DrqIndex : Z;
  Features : Z;
  DisableIrq : Z;
  Atapi : ATAPI.t;
  Sense : SENSE_INFO.t;
  RemainingBlocks : Z;
  Locked : Z
}.
#[export] Instance eta_t : Eta t := fun r => mk r.(Buffer) r.(BufferTotalSize) r.(BufferSize)
  r.(BufferIndex) r.(NumberOfSectors) r.(SectorCount) r.(SectorNumber) r.(MultipleSectors)
  r.(AddressMode) r.(LbAddress) r.(Lba48) r.(Hob) r.(HeadNumber) r.(CylinderNumber) r.(Status)
  r.(ErrorRegister) r.(IndexPulse) r.(ResetInProgress) r.(Reset) r.(MdmaMode) r.(UdmaMode)
  r.(PacketDma) r.(CurrentCommand) r.(DrqIndex) r.(Features) r.(DisableIrq) r.(Atapi) r.(Sense)
  r.(RemainingBlocks) r.(Locked).
Definition zero : t := mk None 0 0 0 0 0 0 0 0 0 0 HOB.zero 0 0 0 0 0 0 0 0 0 0 0 0 0 0
  ATAPI.zero SENSE_INFO.zero 0 0.
End CONTROLLER.
Export (hints) CONTROLLER.

(** harddisk.h, [struct _DRIVE]. *)
Module DRIVE.
Record t := mk {
  DriveId : list Z;
  Model : list Z;
  DriveType : Z;
  Controller : CONTROLLER.t;
  Cylinders : Z;
  Heads : Z;
  Spt : Z;
  NextLSector : Z;
  CurrentLSector : Z;
  IdentifySet : Z
}.
#[export] Instance eta_t : Eta t := fun r => mk r.(DriveId) r.(Model) r.(DriveType)
  r.(Controller) r.(Cylinders) r.(Heads) r.(Spt) r.(NextLSector) r.(CurrentLSector)
  r.(IdentifySet).
Definition zero : t := mk (replicate 256 0) (replicate 41 0) 0 CONTROLLER.zero 0 0 0 0 0 0.
End DRIVE.
Export (hints) DRIVE.

(** harddisk.h, [struct _ATA_CHANNEL]. *)
Module ATA_CHANNEL.
Record t := mk {
  IoAddr1 : Z;
  IoAddr2 : Z;
  Irq : Z;
  Drive : list DRIVE.t;
  DriveSelect : Z
}.
#[export] Instance eta_t : Eta t := fun r => mk r.(IoAddr1) r.(IoAddr2) r.(Irq) r.(Drive)
  r.(DriveSelect).
Definition zero : t := mk 0 0 0 (replicate 2 DRIVE.zero) 0.
End ATA_CHANNEL.
Export (hints) ATA_CHANNEL.

(** cdrom.h, [struct _CDROM]; the handle 0 is a file never opened. *)
Module CDROM.
Record t := mk {
  hFile : Z;
  Capacity : Z
}.
#[export] Instance eta_t : Eta t := fun r => mk r.(hFile) r.(Capacity).
Definition zero : t := mk 0 0.
End CDROM.
Export (hints) CDROM.

(** vhd.h, [struct VDGEOMETRY]. *)
Module VDGEOMETRY.
Record t := mk {
  cCylinders : Z;
  cHeads : Z;
  cSectors : Z
}.
#[export] Instance eta_t : Eta t := fun r => mk r.(cCylinders) r.(cHeads) r.(cSectors).
Definition zero : t := mk 0 0 0.
End VDGEOMETRY.
Export (hints) VDGEOMETRY.

(** vhd.h, [struct VHDIMAGE] (the fields the code reads, and those it only fills in
    from the image's footer). *)
Module VHDIMAGE.
Record t := mk {
  hFile : Z;
  uImageFlags : Z;
  cbSize : Z;
  PCHSGeometry : VDGEOMETRY.t;
  LCHSGeometry : VDGEOMETRY.t;
  ImageUuid : list Z;
  ParentUuid : list Z;
  pBlockAllocationTable : option (list Z);
  cBlockAllocationTableEntries : Z;
  cbDataBlock : Z;
  cSectorsPerDataBlock : Z;
  cbDataBlockBitmap : Z;
  vhdFooterCopy : list Z;
  cDataBlockBitmapSectors : Z;
  uBlockAllocationTableOffset : Z;
  pu8Bitmap : option (list Z);
  u64DataOffset : Z
}.
#[export] Instance eta_t : Eta t := fun r => mk r.(hFile) r.(uImageFlags) r.(cbSize)
  r.(PCHSGeometry) r.(LCHSGeometry) r.(ImageUuid) r.(ParentUuid) r.(pBlockAllocationTable)
  r.(cBlockAllocationTableEntries) r.(cbDataBlock) r.(cSectorsPerDataBlock)
  r.(cbDataBlockBitmap) r.(vhdFooterCopy) r.(cDataBlockBitmapSectors)
  r.(uBlockAllocationTableOffset) r.(pu8Bitmap) r.(u64DataOffset).
Definition zero : t := mk 0 0 0 VDGEOMETRY.zero VDGEOMETRY.zero (replicate 16 0)
  (replicate 16 0) None 0 0 0 0 (replicate 512 0) 0 0 None 0.
End VHDIMAGE.
Export (hints) VHDIMAGE.

(** vgacore.h, [misc_output] of [struct VgaCore]. *)
Module MISC_OUTPUT.
Record t := mk {
  color_emulation : Z;
  enable_ram : Z;
  clock_select : Z;
  select_high_bank : Z;
  horiz_sync_pol : Z;
  vert_sync_pol : Z
}.
#[export] Instance eta_t : Eta t := fun r => mk r.(color_emulation) r.(enable_ram)
  r.(clock_select) r.(select_high_bank) r.(horiz_sync_pol) r.(vert_sync_pol).
Definition zero : t := mk 0 0 0 0 0 0.
End MISC_OUTPUT.
Export (hints) MISC_OUTPUT.

(** vgacore.h, [CRTC] of [struct VgaCore]. *)
Module CRTC.
Record t := mk {
  address : Z;
  reg : list Z;
  write_protect : Z
}.
#[export] Instance eta_t : Eta t := fun r => mk r.(address) r.(reg) r.(write_protect).
Definition zero : t := mk 0 (replicate 25 0) 0.
End CRTC.
Export (hints) CRTC.

(** vgacore.h, [mode_ctrl] of [attribute_ctrl]. *)
Module MODE_CTRL.
Record t := mk {
  graphics_alpha : Z;
  display_type : Z;
  enable_line_graphics : Z;
  blink_intensity : Z;
  pixel_panning_compat : Z;
  pixel_clock_select : Z;
  internal_palette_size : Z
}.
#[export] Instance eta_t : Eta t := fun r => mk r.(graphics_alpha) r.(display_type)
  r.(enable_line_graphics) r.(blink_intensity) r.(pixel_panning_compat) r.(pixel_clock_select)
  r.(internal_palette_size).
Definition zero : t := mk 0 0 0 0 0 0 0.
End MODE_CTRL.
Export (hints) MODE_CTRL.

(** vgacore.h, [attribute_ctrl] of [struct VgaCore]. *)
Module ATTRIBUTE_CTRL.
Record t := mk {
  flip_flop : Z;
  address : Z;
  video_enabled : Z;
  palette_reg : list Z;
  overscan_color : Z;
  color_plane_enable : Z;
  horiz_pel_panning : Z;
  color_select : Z;
  mode_ctrl : MODE_CTRL.t
}.
#[export] Instance eta_t : Eta t := fun r => mk r.(flip_flop) r.(address) r.(video_enabled)
  r.(palette_reg) r.(overscan_color) r.(color_plane_enable) r.(horiz_pel_panning)
  r.(color_select) r.(mode_ctrl).
Definition zero : t := mk 0 0 0 (replicate 16 0) 0 0 0 0 MODE_CTRL.zero.
End ATTRIBUTE_CTRL.
Export (hints) ATTRIBUTE_CTRL.

(** vgacore.h, an entry of [pel.data]. *)
Module RGB.
Record t := mk {
  red : Z;
  green : Z;
  blue : Z
}.
#[export] Instance eta_t : Eta t := fun r => mk r.(red) r.(green) r.(blue).
Definition zero : t := mk 0 0 0.
End RGB.
Export (hints) RGB.

(** vgacore.h, [pel] of [struct VgaCore]. *)
Module PEL.
Record t := mk {
  write_data_register : Z;
  write_data_cycle : Z;
  read_data_register : Z;
  read_data_cycle : Z;
  dac_state : Z;
  data : list RGB.t;
  mask : Z
}.
#[export] Instance eta_t : Eta t := fun r => mk r.(write_data_register) r.(write_data_cycle)
  r.(read_data_register) r.(read_data_cycle) r.(dac_state) r.(data) r.(mask).
Definition zero : t := mk 0 0 0 0 0 (replicate 256 RGB.zero) 0.
End PEL.
Export (hints) PEL.

(** vgacore.h, [graphics_ctrl] of [struct VgaCore]. *)
Module GRAPHICS_CTRL.
Record t := mk {
  index : Z;
  set_reset : Z;
  enable_set_reset : Z;
  color_compare : Z;
  data_rotate : Z;
  raster_op : Z;
  read_map_select : Z;
  write_mode : Z;
  read_mode : Z;
  odd_even : Z;
  chain_odd_even : Z;
  shift_reg : Z;
  graphics_alpha : Z;
  memory_mapping : Z;
  color_dont_care : Z;
  bitmask : Z;
  latch : list Z
}.
#[export] Instance eta_t : Eta t := fun r => mk r.(index) r.(set_reset) r.(enable_set_reset)
  r.(color_compare) r.(data_rotate) r.(raster_op) r.(read_map_select) r.(write_mode)
  r.(read_mode) r.(odd_even) r.(chain_odd_even) r.(shift_reg) r.(graphics_alpha)
  r.(memory_mapping) r.(color_dont_care) r.(bitmask) r.(latch).
Definition zero : t := mk 0 0 0 0 0 0 0 0 0 0 0 0 0 0 0 0 (replicate 4 0).
End GRAPHICS_CTRL.
Export (hints) GRAPHICS_CTRL.

(** vgacore.h, [sequencer] of [struct VgaCore]. *)
Module SEQUENCER.
Record t := mk {
  index : Z;
  map_mask : Z;
  reset1 : Z;
  reset2 : Z;
  reg1 : Z;
  char_map_select : Z;
  extended_mem : Z;
  odd_even : Z;
  chain_four : Z;
  clear_screen : Z
}.
#[export] Instance eta_t : Eta t := fun r => mk r.(index) r.(map_mask) r.(reset1) r.(reset2)
  r.(reg1) r.(char_map_select) r.(extended_mem) r.(odd_even) r.(chain_four) r.(clear_screen).
Definition zero : t := mk 0 0 0 0 0 0 0 0 0 0.
End SEQUENCER.
Export (hints) SEQUENCER.

(** vgacore.h, [struct VgaCore], with the static variables of [VgaCoreUpdate] at its end.  The video
    memory is a map, 0 where nothing was stored ([calloc]); its size is [memsize]. *)
Module VgaCore.
Record t := mk {
  misc_output : MISC_OUTPUT.t;
  CRTC : CRTC.t;
  attribute_ctrl : ATTRIBUTE_CTRL.t;
  pel : PEL.t;
  graphics_ctrl : GRAPHICS_CTRL.t;
  sequencer : SEQUENCER.t;
  vga_enabled : Z;
  vga_mem_updated : Z;
  line_offset : Z;
  line_compare : Z;
  vertical_display_end : Z;
  blink_counter : Z;
  vga_tile_updated : option (list Z);
  memory : gmap Z Z;
  memsize : Z;
  text_snapshot : gmap Z Z;
  tile : list Z;
  charmap_address : Z;
  x_dotclockdiv2 : Z;
  y_doublescan : Z;
  vclk : list Z;
  htotal_usec : Z;
  hbstart_usec : Z;
  hbend_usec : Z;
  vtotal_usec : Z;
  vblank_usec : Z;
  vrstart_usec : Z;
  vrend_usec : Z;
  plane_shift : Z;
  dac_shift : Z;
  ext_offset : Z;
  ext_y_dblsize : Z;
  last_xres : Z;
  last_yres : Z;
  last_bpp : Z;
  last_fw : Z;
  last_fh : Z;
  max_xres : Z;
  max_yres : Z;
  num_x_tiles : Z;
  num_y_tiles : Z;
  vga_override : Z;
  cs_counter : Z;
  cs_visible : Z
}.
#[export] Instance eta_t : Eta t := fun r => mk r.(misc_output) r.(CRTC) r.(attribute_ctrl)
  r.(pel) r.(graphics_ctrl) r.(sequencer) r.(vga_enabled) r.(vga_mem_updated) r.(line_offset)
  r.(line_compare) r.(vertical_display_end) r.(blink_counter) r.(vga_tile_updated) r.(memory)
  r.(memsize) r.(text_snapshot) r.(tile) r.(charmap_address) r.(x_dotclockdiv2)
  r.(y_doublescan) r.(vclk) r.(htotal_usec) r.(hbstart_usec) r.(hbend_usec) r.(vtotal_usec)
  r.(vblank_usec) r.(vrstart_usec) r.(vrend_usec) r.(plane_shift) r.(dac_shift) r.(ext_offset)
  r.(ext_y_dblsize) r.(last_xres) r.(last_yres) r.(last_bpp) r.(last_fw) r.(last_fh)
  r.(max_xres) r.(max_yres) r.(num_x_tiles) r.(num_y_tiles) r.(vga_override) r.(cs_counter)
  r.(cs_visible).
Definition zero : t := mk MISC_OUTPUT.zero CRTC.zero ATTRIBUTE_CTRL.zero PEL.zero
  GRAPHICS_CTRL.zero SEQUENCER.zero 0 0 0 0 0 0 None ∅ 0 ∅ (replicate 1536 0) 0 0 0
  (replicate 4 0) 0 0 0 0 0 0 0 0 0 0 0 0 0 0 0 0 0 0 0 0 0 0 0.
End VgaCore.
Export (hints) VgaCore.

(** gui.h, [bx_vga_tminfo_t]. *)
Module TMINFO.
Record t := mk {
  start_address : Z;
  cs_start : Z;
  cs_end : Z;
  line_offset : Z;
  line_compare : Z;
  h_panning : Z;
  v_panning : Z;
  line_graphics : Z;
  split_hpanning : Z;
  blink_flags : Z;
  actl_palette : list Z
}.
#[export] Instance eta_t : Eta t := fun r => mk r.(start_address) r.(cs_start) r.(cs_end)
  r.(line_offset) r.(line_compare) r.(h_panning) r.(v_panning) r.(line_graphics)
  r.(split_hpanning) r.(blink_flags) r.(actl_palette).
Definition zero : t := mk 0 0 0 0 0 0 0 0 0 0 (replicate 16 0).
End TMINFO.
Export (hints) TMINFO.

(** vga.h, the fields of [vbe] of [struct VGA] that are ever set. *)
Module VBE.
Record t := mk {
  enabled : Z;
  bpp : Z;
  dac_8bit : Z;
  ddc_enabled : Z;
  base_address : Z
}.
#[export] Instance eta_t : Eta t := fun r => mk r.(enabled) r.(bpp) r.(dac_8bit)
  r.(ddc_enabled) r.(base_address).
Definition zero : t := mk 0 0 0 0 0.
End VBE.
Export (hints) VBE.

(** vga.h, [struct bx_ddc_c]. *)
Module DDC.
Record t := mk {
  ddc_mode : Z;
  DCKhost : Z;
  DDAhost : Z;
  DDAmon : Z;
  ddc_stage : Z;
  ddc_ack : Z;
  ddc_rw : Z;
  edid_index : Z;
  edid_extblock : Z;
  edid_data : list Z
}.
#[export] Instance eta_t : Eta t := fun r => mk r.(ddc_mode) r.(DCKhost) r.(DDAhost) r.(DDAmon)
  r.(ddc_stage) r.(ddc_ack) r.(ddc_rw) r.(edid_index) r.(edid_extblock) r.(edid_data).
Definition zero : t := mk 0 0 0 0 0 0 0 0 0 (replicate 256 0).
End DDC.
Export (hints) DDC.

(** vga.h, [struct VGA]. *)
Module VGA.
Record t := mk {
  vbe_present : Z;
  vbe : VBE.t;
  ddc : DDC.t
}.
#[export] Instance eta_t : Eta t := fun r => mk r.(vbe_present) r.(vbe) r.(ddc).
Definition zero : t := mk 0 VBE.zero DDC.zero.
End VGA.
Export (hints) VGA.

(** The calls into the windowing code, which draws on the host's screen. *)
Inductive gui_call : Set :=
| gui_set_text_charmap (fbuffer : list Z)
| gui_set_text_charbyte (address data : Z)
| gui_palette_change (index red green blue : Z)
| gui_clear_screen
| gui_tile_update (tile : list Z) (x y : Z)
| gui_dimension_update (x y fheight fwidth bpp : Z)
| gui_text_update (cursor_address : Z) (tm_info : TMINFO.t)
| gui_flush
| gui_terminateEmul (reason : Z)
| gui_resize_main_window (disable_fullscreen : Z)
| gui_toolbar_click (x : Z).

(** win32gui.h, [struct QueueEvent]. *)
Module QueueEvent.
Record t := mk {
  key_event : Z;
  mouse_x : Z;
  mouse_y : Z;
  mouse_z : Z;
  mouse_button_state : Z
}.
#[export] Instance eta_t : Eta t := fun r => mk r.(key_event) r.(mouse_x) r.(mouse_y)
  r.(mouse_z) r.(mouse_button_state).
Definition zero : t := mk 0 0 0 0 0.
End QueueEvent.
Export (hints) QueueEvent.

(** The keyboard variables of win32gui.c: the queue, the static variables of
    [enq_key_event], and what [handle_events] tests. *)
Module KEYS.
Record t := mk {
  keyevents : list QueueEvent.t;
  head : Z;
  tail : Z;
  alt_pressed_l : Z;
  alt_pressed_r : Z;
  ctrl_pressed_l : Z;
  ctrl_pressed_r : Z;
  shift_pressed_l : Z;
  shift_pressed_r : Z;
  kill : Z;
  fix_size : Z
}.
#[export] Instance eta_t : Eta t := fun r => mk r.(keyevents) r.(head) r.(tail)
  r.(alt_pressed_l) r.(alt_pressed_r) r.(ctrl_pressed_l) r.(ctrl_pressed_r) r.(shift_pressed_l)
  r.(shift_pressed_r) r.(kill) r.(fix_size).
Definition zero : t := mk (replicate 20 QueueEvent.zero) 0 0 0 0 0 0 0 0 0 0.
End KEYS.
Export (hints) KEYS.

(** ** Requests to the hypervisor driver

    The [DeviceIoControl] calls of the device files, in the order issued. *)

#[export] Instance region_eq_dec : EqDecision kvm_userspace_memory_region.t.
Proof. solve_decision. Defined.

Inductive ioctl : Set :=
| GVM_INTERRUPT (irq : Z)
| GVM_SMI
| GVM_NMI
| GVM_SET_MSRS (index data : Z)
| GVM_SET_USER_MEMORY_REGION (region : kvm_userspace_memory_region.t).

#[export] Instance ioctl_eq_dec : EqDecision ioctl.
Proof. solve_decision. Defined.


(** The memory-slot variables of gvm.c. *)
Module GVM.
Record t := mk {
  mem_slots : list kvm_userspace_memory_region.t;
  mem_slots_num : Z
}.
#[export] Instance eta_t : Eta t := fun r => mk r.(mem_slots) r.(mem_slots_num).
Definition zero : t := mk (replicate 256 kvm_userspace_memory_region.zero) 0.
End GVM.
Export (hints) GVM.

(** The fields of [struct Registers] that SVMM.c's address translation reads. *)
Module REGISTERS.
Record t := mk {
  cr0 : Z;
  cr3 : Z;
  cr4 : Z;
  efer : Z;
  rip : Z;
  cs_selector : Z;
  cs_base : Z;
  smbase : Z
}.
#[export] Instance eta_t : Eta t := fun r => mk r.(cr0) r.(cr3) r.(cr4) r.(efer) r.(rip)
  r.(cs_selector) r.(cs_base) r.(smbase).
Definition zero : t := mk 0 0 0 0 0 0 0 0.
End REGISTERS.
Export (hints) REGISTERS.

(** The globals of SVMM.c; [Memory] is the host memory behind [Ram], a missing byte
    reads 0. *)
Module SVMM.
Record t := mk {
  Registers : REGISTERS.t;
  Ram : Z;
  RamSize : Z;
  MemoryEnd : Z;
  Memory : gmap Z Z
}.
#[export] Instance eta_t : Eta t := fun r => mk r.(Registers) r.(Ram) r.(RamSize) r.(MemoryEnd)
  r.(Memory).
Definition zero : t := mk REGISTERS.zero 0 0 0 ∅.
End SVMM.
Export (hints) SVMM.

(** The machine: the file-scope variables of all the device files. *)
(** [ioctls] lists the driver requests issued so far, the last one first;
    [FilePointers] holds the position of each open file, 0 when missing. *)
Module Machine.
Record t := mk {
  Timers : TIMERS.t;
  Pic : list PIC.t;
  IoApic : IOAPIC.t;
  Lapic : list LAPIC.t;
  svmm_events : Z;
  kvm_run : kvm_run.t;
  ioctls : list ioctl;
  Pit : Pit.t;
  Dma : list DMA_CONTROLLER.t;
  Cmos : CMOS_STATE.t;
  Ps2 : PS2.t;
  Hpet : HPET.t;
  Acpi : ACPI.t;
  Pci : PCI_STATE.t;
  i440fx : I440fx.t;
  piix3 : Piix3.t;
  Ide : list BMDMA.t;
  Flash : Flash.t;
  Bios : BIOS.t;
  Gvm : GVM.t;
  Svmm : SVMM.t;
  AtaChannel : list ATA_CHANNEL.t;
  CdRom : CDROM.t;
  vhdImage : VHDIMAGE.t;
  FilePointers : gmap Z Z;
  VgaCore : VgaCore.t;
  Vga : VGA.t;
  Gui : list gui_call;
  Keys : KEYS.t
}.
#[export] Instance eta_t : Eta t := fun r => mk r.(Timers) r.(Pic) r.(IoApic) r.(Lapic)
  r.(svmm_events) r.(kvm_run) r.(ioctls) r.(Pit) r.(Dma) r.(Cmos) r.(Ps2) r.(Hpet) r.(Acpi)
  r.(Pci) r.(i440fx) r.(piix3) r.(Ide) r.(Flash) r.(Bios) r.(Gvm) r.(Svmm) r.(AtaChannel)
  r.(CdRom) r.(vhdImage) r.(FilePointers) r.(VgaCore) r.(Vga) r.(Gui) r.(Keys).
Definition zero : t := mk TIMERS.zero (replicate 2 PIC.zero) IOAPIC.zero
  (replicate 1 LAPIC.zero) 0 kvm_run.zero [] Pit.zero (replicate 2 DMA_CONTROLLER.zero)
  CMOS_STATE.zero PS2.zero HPET.zero ACPI.zero PCI_STATE.zero I440fx.zero Piix3.zero
  (replicate 2 BMDMA.zero) Flash.zero BIOS.zero GVM.zero SVMM.zero
  (replicate 4 ATA_CHANNEL.zero) CDROM.zero VHDIMAGE.zero ∅ VgaCore.zero VGA.zero [] KEYS.zero.
End Machine.
Export (hints) Machine.

(** Computations of the machine. *)
Abbreviation IO := (M Machine.t).

(** Arrays nested in a struct of the machine. *)
Definition timers (s : Machine.t) : list TIMER.t := s.(Machine.Timers).(TIMERS.Timers).
#[export] Instance field_timers : Field timers := fun f s =>
  s <| Machine.Timers ::= (fun r => r <| TIMERS.Timers ::= f |>) |>.
Definition rtes (s : Machine.t) : list IO_REDIRECT_ENTRY.t :=
  s.(Machine.IoApic).(IOAPIC.IoRedirectTable).
#[export] Instance field_rtes : Field rtes := fun f s =>
  s <| Machine.IoApic ::= (fun r => r <| IOAPIC.IoRedirectTable ::= f |>) |>.
Definition counters (s : Machine.t) : list Counter.t := s.(Machine.Pit).(Pit.counter).
#[export] Instance field_counters : Field counters := fun f s =>
  s <| Machine.Pit ::= (fun r => r <| Pit.counter ::= f |>) |>.
Definition PortIoBitmap (s : Machine.t) : RTL_BITMAP.t := s.(Machine.Pci).(PCI_STATE.PortIoBitmap).
#[export] Instance field_PortIoBitmap : Field PortIoBitmap := fun f s =>
  s <| Machine.Pci ::= (fun r => r <| PCI_STATE.PortIoBitmap ::= f |>) |>.
Definition MMIOBitmap (s : Machine.t) : RTL_BITMAP.t := s.(Machine.Pci).(PCI_STATE.MMIOBitmap).
#[export] Instance field_MMIOBitmap : Field MMIOBitmap := fun f s =>
  s <| Machine.Pci ::= (fun r => r <| PCI_STATE.MMIOBitmap ::= f |>) |>.
Definition mem_slots (s : Machine.t) : list kvm_userspace_memory_region.t :=
  s.(Machine.Gvm).(GVM.mem_slots).
#[export] Instance field_mem_slots : Field mem_slots := fun f s =>
  s <| Machine.Gvm ::= (fun r => r <| GVM.mem_slots ::= f |>) |>.
Definition hpet_timers (s : Machine.t) : list HPET_TIMER_BLOCK.t := s.(Machine.Hpet).(HPET.Timer).
#[export] Instance field_hpet_timers : Field hpet_timers := fun f s =>
  s <| Machine.Hpet ::= (fun r => r <| HPET.Timer ::= f |>) |>.

(** ** The world outside the program *)

(** The hypervisor driver: whether a request succeeds may depend on the
    requests issued before it (the last one first). *)
Class Driver := ioctl_ok : list ioctl -> ioctl -> bool.

(** [DeviceIoControl]: issue the request and return the driver's status. *)
Definition DeviceIoControl `{!Driver} (r : ioctl) : IO bool :=
  issued ← gets Machine.ioctls;
  modify (fun s => s <| Machine.ioctls ::= cons r |>) ;;
  mret (ioctl_ok issued r).

(** SVMM.h, the bits of [svmm_events] the devices use. *)
Definition EVENT_PENDING_INTR : Z := bit 10.
Definition EVENT_PENDING_LAPIC_INTR : Z := bit 11.
Definition EVENT_DMA : Z := bit 15.

Definition set_event (e : Z) : IO unit :=
  modify (fun s => s <| Machine.svmm_events ::= (fun v => u32 (v |. e)) |>).
Definition clear_event (e : Z) : IO unit :=
  modify (fun s => s <| Machine.svmm_events ::= (fun v => u32 (v &. ~. e)) |>).
