(* ===== verification/Gvm.v ===== *)
(** gvm.c: the guest's physical memory slots.

    [mem_slots] lists the regions given to the hypervisor, by address.
    [gvm_init] fills it; [gvm_unmap_memory] makes a region MMIO by giving the
    driver a slot of size 0, [gvm_map_memory] points a region elsewhere.  Both
    find the slot by the same binary search.  The rest of [gvm_init] is in GvmInit.v,
    the transfer of the registers in GvmRegs.v. *)

From S2P Require Export Structs.

Import kvm_userspace_memory_region.

Definition PAGE_SIZE : Z := 0x1000.
Definition SMM_RAM_SIZE : Z := 0x20000.
Definition BIOSROMSZ : Z := bit 21.
Definition EXROMSIZE : Z := 0x20000.
Definition ROM_SIZE : Z := BIOSROMSZ + EXROMSIZE.

(** ** The initial slots *)

Section Operations.
Context `{!Driver}.

(** [kvm_userspace_mem] is handed to the driver and then copied to the slot. *)
Definition set_region (r : kvm_userspace_memory_region.t) : IO unit :=
  ret ← DeviceIoControl (GVM_SET_USER_MEMORY_REGION r);
  if negb ret then stop Exit else done_.

Definition gvm_init_regions (ram ram_size : Z) : list kvm_userspace_memory_region.t :=
  [mk 0 0 0 0x30000 ram;
   mk 1 0 0x30000 0x20000 (u64 (ram + 0x30000));
   mk 2 0 0x50000 0x50000 (u64 (ram + 0x50000));
   mk 3 0 0xa0000 0x20000 (u64 (ram + ram_size + 0xa0000));
   mk 4 0 0xc0000 0x20000 (u64 (ram + ram_size + 0xc0000));
   mk 5 0 0xe0000 0x20000 (u64 (ram + ram_size + 0xe0000));
   mk 6 0 0x100000 (u64 (ram_size - 0x100000)) (u64 (ram + 0x100000));
   mk 7 0 0xfffe0000 0x20000 (u64 (ram + ram_size + 0xe0000))].

(** The two slots of the SMM address space, which are not kept in [mem_slots]. *)
Definition gvm_init_smm_regions (ram ram_size : Z) : list kvm_userspace_memory_region.t :=
  let smram := u64 (ram + ram_size + ROM_SIZE + PAGE_SIZE) in
  [mk (0 |. bit 16) 0 0xa0000 0x20000 smram;
   mk (1 |. bit 16) 0 0x30000 0x20000 smram].

Definition gvm_init_slots (ram ram_size : Z) : IO unit :=
  foreach (gvm_init_regions ram ram_size) (fun r =>
    set_region r ;; upd_at mem_slots r.(slot) (fun _ => r)) ;;
  modify (fun s => s <| Machine.Gvm ::= (fun g => g <| GVM.mem_slots_num := 8 |>) |>) ;;
  foreach (gvm_init_smm_regions ram ram_size) set_region.

(** ** Finding a slot *)

Definition slot_end (m : kvm_userspace_memory_region.t) : Z :=
  u64 (m.(guest_phys_addr) + m.(memory_size)).

(** [last] is [address + size] as the caller computes it. *)
Fixpoint slot_search (fuel : nat) (left right i address last : Z) : IO Z :=
  match fuel with
  | O => stop Diverges
  | S fuel =>
      if left <=? right then
        let i := (left + right) / 2 in
        m ← at_ mem_slots i;
        if slot_end m <=? address then slot_search fuel (i + 1) right i address last
        else if (m.(guest_phys_addr) <=? address) && (last <=? slot_end m) then mret i
        else slot_search fuel left (i - 1) i address last
      else mret i
  end.

Definition find_slot (address last : Z) : IO Z :=
  n ← gets (fun s => s.(Machine.Gvm).(GVM.mem_slots_num));
  slot_search (Z.to_nat (n + 2)) 0 n 0 address last.

Definition gvm_unmap_memory (address size : Z) : IO unit :=
  i ← find_slot address (u64 (address + size));
  m ← at_ mem_slots i;
  if (address <? m.(guest_phys_addr)) || (slot_end m <? address) then done_
  else
    let memSize := u32 m.(memory_size) in
    upd_at mem_slots i (fun m => m <| memory_size := 0 |>) ;;
    m ← at_ mem_slots i;
    set_region m ;;
    upd_at mem_slots i (fun m => m <| memory_size := memSize |>).

Definition gvm_map_memory (address size ram : Z) : IO unit :=
  i ← find_slot address (u32 (address + size));
  upd_at mem_slots i (fun m => m <| userspace_addr := ram |>) ;;
  m ← at_ mem_slots i;
  set_region m.

Definition gvm_register_mmio (address size : Z) : IO unit := gvm_unmap_memory address size.

Definition gvm_remove_mmio (address size : Z) : IO unit :=
  Ram ← gets (fun s => s.(Machine.Svmm).(SVMM.Ram));
  gvm_map_memory address (u32 size) (u64 (Ram + address)).
End Operations.

(** ** The binary search *)

(** The table is sorted: the used slots do not overlap and come by address, and
    the slot after them, which the search may read, is empty. *)
Record slots_ok (s : Machine.t) : Prop := {
  ok_length : length (mem_slots s) = 256%nat;
  ok_num : 0 <= s.(Machine.Gvm).(GVM.mem_slots_num) < 256;
  ok_sorted j k mj mk : 0 <= j < k -> k < s.(Machine.Gvm).(GVM.mem_slots_num) ->
    nthZ (mem_slots s) j = Some mj -> nthZ (mem_slots s) k = Some mk ->
    slot_end mj <= mk.(guest_phys_addr) /\ mk.(guest_phys_addr) <= slot_end mk
}.

(** [[address, last)] lies in the slot. *)
Definition slot_contains (address last : Z) (m : kvm_userspace_memory_region.t) : bool :=
  (m.(guest_phys_addr) <=? address) && (last <=? slot_end m).

Lemma slot_at s i : slots_ok s -> 0 <= i <= s.(Machine.Gvm).(GVM.mem_slots_num) ->
  exists m, nthZ (mem_slots s) i = Some m.
Proof. intros [Hl Hn _] Hi. apply nthZ_is_Some. lia. Qed.

Lemma middle_range left right : left <= right -> left <= (left + right) / 2 <= right.
Proof. intros. pose proof (Z.div_mod (left + right) 2). pose proof (Z.mod_pos_bound (left + right) 2). lia. Qed.

Section Search.
Context (s : Machine.t) (Hok : slots_ok s) (address last : Z).
Let num := s.(Machine.Gvm).(GVM.mem_slots_num).

(** The search ends, inside the table. *)
Lemma slot_search_total fuel left right i :
  0 <= left -> right <= num -> 0 <= i <= num -> Z.max 0 (right - left + 1) < Z.of_nat fuel ->
  exists j, slot_search fuel left right i address last s = Ok j s /\ 0 <= j <= num.
Proof.
  revert left right i. induction fuel as [|fuel IH]; intros left right i Hl Hr Hi Hf; [lia|].
  simpl. destruct (Z.leb_spec left right); [|by exists i].
  pose proof (middle_range left right). set (mid := (left + right) / 2) in *.
  destruct (slot_at s mid Hok) as [m Hm]; [fold num; lia|].
  unfold at_. mred. rewrite Hm.
  destruct (slot_end m <=? address); [apply IH; lia|].
  destruct (_ && _); [exists mid; split; [done|lia]|]. apply IH; lia.
Qed.

(** It finds the slot that contains the range, if there is one. *)
Lemma slot_search_finds k mk fuel left right i :
  address < last -> k < num -> nthZ (mem_slots s) k = Some mk ->
  slot_contains address last mk = true ->
  0 <= left <= k -> k <= right <= num -> right - left + 1 < Z.of_nat fuel ->
  slot_search fuel left right i address last s = Ok k s.
Proof.
  intros Hlast Hk Hmk Hc. apply andb_true_iff in Hc as [Hc1%Z.leb_le Hc2%Z.leb_le].
  revert left right i. induction fuel as [|fuel IH]; intros left right i Hl Hr Hf; [lia|].
  simpl. rewrite (proj2 (Z.leb_le left right)) by lia.
  pose proof (middle_range left right). set (mid := (left + right) / 2) in *.
  destruct (slot_at s mid Hok) as [m Hm]; [fold num; lia|].
  assert (mid < num \/ left = right) as Hmid.
  { subst mid. pose proof (Z.div_mod (left + right) 2). pose proof (Z.mod_pos_bound (left + right) 2). lia. }
  unfold at_. mred. rewrite Hm. pose proof (ok_sorted s Hok) as Hs. fold num in Hs.
  destruct (Z.leb_spec (slot_end m) address) as [He|He].
  - apply IH; [|lia|lia]. split; [lia|]. destruct (decide (mid < k)); [lia|exfalso].
    destruct (decide (mid = k)) as [E|]; [rewrite E in Hm; assert (m = mk) by congruence; subst; lia|].
    pose proof (Hs k mid mk m ltac:(lia) ltac:(lia) Hmk Hm). lia.
  - destruct (_ && _) eqn:Hcm.
    + apply andb_true_iff in Hcm as [Hm1%Z.leb_le Hm2%Z.leb_le].
      destruct (Z.lt_trichotomy mid k) as [Hlt|[->|Hgt]]; [|done|]; exfalso.
      * pose proof (Hs mid k m mk ltac:(lia) ltac:(lia) Hm Hmk). lia.
      * pose proof (Hs k mid mk m ltac:(lia) ltac:(lia) Hmk Hm). lia.
    + apply IH; [lia| |lia]. split; [|lia]. destruct (decide (k < mid)); [lia|exfalso].
      destruct (decide (mid = k)) as [E|].
      * rewrite E in Hm. assert (m = mk) by congruence. subst m.
        apply andb_false_iff in Hcm as [?%Z.leb_gt|?%Z.leb_gt]; lia.
      * pose proof (Hs mid k m mk ltac:(lia) ltac:(lia) Hm Hmk). lia.
Qed.
End Search.

(** C13 In a sorted table the binary search of the memory slots always ends, inside
    the array, and returns the slot that contains the range whenever some used
    slot does. *)
Theorem find_slot_correct s address last :
  slots_ok s ->
  (exists i, find_slot address last s = Ok i s /\
     0 <= i <= s.(Machine.Gvm).(GVM.mem_slots_num)) /\
  (forall k m, address < last -> 0 <= k < s.(Machine.Gvm).(GVM.mem_slots_num) ->
     nthZ (mem_slots s) k = Some m -> slot_contains address last m = true ->
     find_slot address last s = Ok k s).
Proof.
  intros Hok. pose proof (ok_num s Hok). unfold find_slot. split.
  - rewrite (run_bind _ _ _ _ _ (run_gets _ _)). apply slot_search_total; [done|lia..].
  - intros k m Hlast Hk Hm Hc. rewrite (run_bind _ _ _ _ _ (run_gets _ _)).
    apply (slot_search_finds s Hok address last k m); [done|lia|done|done|lia..].
Qed.

(** ** Unmapping and mapping *)

Section Effects.
Context `{!Driver}.

Definition with_slot (k : Z) (m : kvm_userspace_memory_region.t) (s : Machine.t) : Machine.t :=
  upd_field mem_slots (fun l => updZ l k m) s.
Definition issued (r : kvm_userspace_memory_region.t) (s : Machine.t) : Machine.t :=
  s <| Machine.ioctls ::= cons (GVM_SET_USER_MEMORY_REGION r) |>.
Definition accepts (r : kvm_userspace_memory_region.t) (s : Machine.t) : bool :=
  ioctl_ok s.(Machine.ioctls) (GVM_SET_USER_MEMORY_REGION r).

Lemma set_region_run r s :
  set_region r s = if accepts r s then Ok tt (issued r s) else Fault Exit.
Proof. unfold set_region, DeviceIoControl, accepts. mred. by destruct (ioctl_ok _ _). Qed.

Lemma upd_slot_run s k m f : nthZ (mem_slots s) k = Some m ->
  upd_at mem_slots k f s = Ok tt (with_slot k (f m) s).
Proof. intros Hm. unfold upd_at. by rewrite Hm. Qed.

Lemma slot_with_slot s k m m' : nthZ (mem_slots s) k = Some m ->
  nthZ (mem_slots (with_slot k m' s)) k = Some m'.
Proof. intros Hm. apply nthZ_updZ_eq. by eapply nthZ_Some. Qed.

Lemma gvm_map_memory_run s address size ram k m :
  find_slot address (u32 (address + size)) s = Ok k s -> nthZ (mem_slots s) k = Some m ->
  let m' := m <| userspace_addr := ram |> in
  gvm_map_memory address size ram s =
    if accepts m' s then Ok tt (issued m' (with_slot k m' s)) else Fault Exit.
Proof.
  intros Hf Hm m'. unfold gvm_map_memory. rewrite (run_bind _ _ _ _ _ Hf).
  erewrite (run_bind _ _ s); [|by apply upd_slot_run].
  erewrite (run_bind (at_ _ _)).
  2: { unfold at_. by erewrite slot_with_slot. }
  by rewrite set_region_run.
Qed.

Lemma gvm_unmap_memory_run s address size k m :
  find_slot address (u64 (address + size)) s = Ok k s -> nthZ (mem_slots s) k = Some m ->
  gvm_unmap_memory address size s =
    if (address <? m.(guest_phys_addr)) || (slot_end m <? address) then Ok tt s
    else let m0 := m <| memory_size := 0 |> in
      if accepts m0 s
      then Ok tt (issued m0 (with_slot k (m <| memory_size := u32 m.(memory_size) |>) s))
      else Fault Exit.
Proof.
  intros Hf Hm. unfold gvm_unmap_memory. rewrite (run_bind _ _ _ _ _ Hf).
  erewrite (run_bind (at_ _ _)); [|unfold at_; by rewrite Hm].
  destruct (_ || _); [done|].
  erewrite (run_bind _ _ s); [|by apply upd_slot_run].
  erewrite (run_bind (at_ _ _)); [|unfold at_; by erewrite slot_with_slot].
  unfold mbind at 1, M_bind at 1. rewrite set_region_run.
  change (accepts _ (with_slot _ _ s)) with (accepts (m <| memory_size := 0 |>) s).
  destruct (accepts _ s); [|done].
  erewrite upd_slot_run; [|exact (slot_with_slot _ _ _ _ Hm)].
  unfold with_slot, issued, upd_field, field_mem_slots. cbn. by rewrite updZ_updZ.
Qed.

(** Registering MMIO over a range that lies in a memory slot gives the driver
    exactly that slot with size 0, so that the guest's accesses to all of it
    exit, and keeps the slot's entry (with its size cut to 32 bits). *)
Theorem gvm_register_mmio_contained s address size k m :
  slots_ok s -> 0 <= address -> 0 < size -> address + size < 2 ^ 64 ->
  0 <= k < s.(Machine.Gvm).(GVM.mem_slots_num) ->
  nthZ (mem_slots s) k = Some m -> slot_contains address (address + size) m = true ->
  gvm_register_mmio address size s =
    if accepts (m <| memory_size := 0 |>) s
    then Ok tt (issued (m <| memory_size := 0 |>)
                  (with_slot k (m <| memory_size := u32 m.(memory_size) |>) s))
    else Fault Exit.
Proof.
  intros Hok Ha Hs Hlt Hk Hm Hc. unfold gvm_register_mmio.
  assert (u64 (address + size) = address + size) as Hu by (apply u64_small; unfold in_width; lia).
  rewrite (gvm_unmap_memory_run s address size k m); [|rewrite Hu|done].
  - apply andb_true_iff in Hc as [Hc1%Z.leb_le Hc2%Z.leb_le].
    rewrite (proj2 (Z.ltb_ge address _)), (proj2 (Z.ltb_ge (slot_end m) _)) by lia. done.
  - apply (proj2 (find_slot_correct s address (address + size) Hok) k m); [lia|done..].
Qed.

(** Removing MMIO redirects one slot whether or not it contains the range:
    the search's last probe is overwritten when no slot does. *)
Theorem gvm_map_memory_always_redirects s address size ram :
  slots_ok s -> (forall r, accepts r s = true) ->
  exists k m, 0 <= k <= s.(Machine.Gvm).(GVM.mem_slots_num) /\
    nthZ (mem_slots s) k = Some m /\
    gvm_map_memory address size ram s =
      Ok tt (issued (m <| userspace_addr := ram |>) (with_slot k (m <| userspace_addr := ram |>) s)).
Proof.
  intros Hok Hacc. destruct (proj1 (find_slot_correct s address (u32 (address + size)) Hok))
    as (k & Hf & Hk).
  destruct (slot_at s k Hok Hk) as [m Hm]. exists k, m. split; [done|]. split; [done|].
  by rewrite (gvm_map_memory_run s address size ram k m Hf Hm), Hacc.
Qed.
End Effects.

(** ** The table [gvm_init] builds is sorted *)

Definition slot_before (m m' : kvm_userspace_memory_region.t) : Prop :=
  slot_end m <= m'.(guest_phys_addr) /\ m'.(guest_phys_addr) <= slot_end m'.

Lemma gvm_init_regions_sorted ram ram_size :
  0x100000 <= ram_size <= 0xfffe0000 -> StronglySorted slot_before (gvm_init_regions ram ram_size).
Proof.
  intros Hr. unfold gvm_init_regions.
  rewrite (u64_small (ram_size - 0x100000)) by (unfold in_width; lia).
  repeat apply SSorted_cons; [constructor| ..]; repeat apply Forall_cons_2; try apply Forall_nil_2;
    unfold slot_before, slot_end; cbn [guest_phys_addr memory_size];
    rewrite !u64_small by (unfold in_width; lia); lia.
Qed.

Section Init.
Context `{!Driver}.

Lemma store_regions_run rs s s' :
  foreach rs (fun r => set_region r ;; upd_at mem_slots r.(slot) (fun _ => r)) s = Ok tt s' ->
  mem_slots s' = foldl (fun l r => updZ l r.(slot) r) (mem_slots s) rs.
Proof.
  revert s. induction rs as [|r rs IH]; intros s; simpl.
  - mred. by intros [= ->].
  - unfold mbind, M_bind. rewrite set_region_run.
    destruct (accepts r s); [|done]. unfold upd_at.
    destruct (nthZ _ _); [|done]. intros Hs'. by apply IH in Hs'.
Qed.

#[export] Instance set_region_keeps_slots r : Keeps mem_slots (set_region r).
Proof. unfold set_region, DeviceIoControl. apply _. Qed.

(** Whatever the driver answers, if [gvm_init] returns then the table holds the
    eight regions of the memory map, sorted and disjoint, so that the searches
    of the rest of the run are correct. *)
Theorem gvm_init_slots_ok ram ram_size s s' :
  0x100000 <= ram_size <= 0xfffe0000 ->
  s.(Machine.Gvm) = GVM.zero -> gvm_init_slots ram ram_size s = Ok tt s' -> slots_ok s'.
Proof.
  intros Hr H0 Hrun. unfold gvm_init_slots in Hrun.
  unfold mbind at 1, M_bind at 1 in Hrun. destruct (foreach _ _ s) as [[] s1|] eqn:E1; [|done].
  apply store_regions_run in E1. unfold mbind, M_bind, modify in Hrun.
  set (s2 := upd_field _ _ s1) in Hrun.
  assert (mem_slots s2 = gvm_init_regions ram ram_size ++
    replicate 248 kvm_userspace_memory_region.zero) as Hs2.
  { change (mem_slots s2) with (mem_slots s1). rewrite E1. unfold mem_slots. by rewrite H0. }
  assert (mem_slots s' = mem_slots s2 /\ s'.(Machine.Gvm).(GVM.mem_slots_num) = 8) as [Hs' Hn].
  { split; [by apply (within_run (keeps mem_slots) _ _ _ _ Hrun)|].
    assert (forall r, Keeps (fun s => s.(Machine.Gvm).(GVM.mem_slots_num)) (set_region r)).
    { intros r. unfold set_region, DeviceIoControl. apply _. }
    by apply (within_run (keeps (fun s => s.(Machine.Gvm).(GVM.mem_slots_num))) _ _ _ _ Hrun). }
  split.
  - by rewrite Hs', Hs2.
  - by rewrite Hn.
  - rewrite Hn, Hs', Hs2. intros j k mj mk Hj Hk Hmj Hmk.
    apply (StronglySorted_nthZ slot_before (gvm_init_regions ram ram_size) j k);
      [by apply gvm_init_regions_sorted|done| ..].
    + revert Hmj. unfold nthZ. rewrite (proj2 (Z.leb_le 0 j)) by lia.
      by rewrite lookup_app_l by (simpl; lia).
    + revert Hmk. unfold nthZ. rewrite (proj2 (Z.leb_le 0 k)) by lia.
      by rewrite lookup_app_l by (simpl; lia).
Qed.
End Init.

(** ** A machine with one gigabyte of memory *)

Definition example_driver : Driver := fun _ _ => true.
Definition example_slots : Machine.t :=
  match @gvm_init_slots example_driver (2 ^ 32) (2 ^ 30) Machine.zero with
  | Ok _ s => s
  | Fault _ => Machine.zero
  end.

Lemma gvm_init_slots_ok_witness :
  @gvm_init_slots example_driver (2 ^ 32) (2 ^ 30) Machine.zero = Ok tt example_slots /\
  slots_ok example_slots.
Proof.
  split; [vm_compute; reflexivity|].
  apply (@gvm_init_slots_ok example_driver (2 ^ 32) (2 ^ 30) Machine.zero); [done|done|].
  vm_compute. reflexivity.
Defined.

Lemma example_slots_ok : slots_ok example_slots.
Proof.
  split; [by vm_compute|by vm_compute|].
  assert (StronglySorted slot_before (take 8 (mem_slots example_slots))) as Hs.
  { assert (take 8 (mem_slots example_slots) = gvm_init_regions (2 ^ 32) (2 ^ 30)) as ->
      by (vm_compute; reflexivity).
    by apply gvm_init_regions_sorted. }
  intros j k mj mk Hj Hk Hmj Hmk. change (GVM.mem_slots_num _) with 8 in Hk.
  rewrite <- (take_drop 8 (mem_slots example_slots)) in Hmj, Hmk.
  apply (StronglySorted_nthZ slot_before _ j k mj mk Hs Hj).
  - revert Hmj. unfold nthZ. rewrite (proj2 (Z.leb_le 0 j)) by lia.
    by rewrite lookup_app_l by (change (length _) with 8%nat; lia).
  - revert Hmk. unfold nthZ. rewrite (proj2 (Z.leb_le 0 k)) by lia.
    by rewrite lookup_app_l by (change (length _) with 8%nat; lia).
Qed.

Lemma find_slot_correct_witness :
  slots_ok example_slots /\ find_slot 0xa0000 0xc0000 example_slots = Ok 3 example_slots.
Proof.
  split; [apply example_slots_ok|].
  apply (proj2 (find_slot_correct example_slots 0xa0000 0xc0000 example_slots_ok) 3
    (mk 3 0 0xa0000 0x20000 0x1400a0000)).
  - reflexivity.
  - split; [discriminate|reflexivity].
  - vm_compute. reflexivity.
  - vm_compute. reflexivity.
Defined.

(** The VGA window leaves the guest's memory. *)
Lemma gvm_register_mmio_contained_witness : exists s',
  @gvm_register_mmio example_driver 0xa0000 0x20000 example_slots = Ok tt s' /\
  head s'.(Machine.ioctls) = Some (GVM_SET_USER_MEMORY_REGION (mk 3 0 0xa0000 0 0x1400a0000)).
Proof.
  eexists. split.
  - rewrite (@gvm_register_mmio_contained example_driver example_slots 0xa0000 0x20000 3
      (mk 3 0 0xa0000 0x20000 0x1400a0000) example_slots_ok).
    + reflexivity.
    + discriminate.
    + reflexivity.
    + reflexivity.
    + split; [discriminate|reflexivity].
    + vm_compute. reflexivity.
    + vm_compute. reflexivity.
  - vm_compute. reflexivity.
Defined.

(** Removing the frame buffer at 0xe0000000, which lies in no slot, redirects the
    BIOS at 0xfffe0000. *)
Lemma gvm_map_memory_always_redirects_witness :
  slots_ok example_slots /\
  (forall r, @accepts example_driver r example_slots = true) /\
  (exists k m, 0 <= k <= 8 /\ nthZ (mem_slots example_slots) k = Some m /\
     @gvm_map_memory example_driver 0xe0000000 0x10000 0x1e0000000 example_slots =
       Ok tt (issued (m <| userspace_addr := 0x1e0000000 |>)
                (with_slot k (m <| userspace_addr := 0x1e0000000 |>) example_slots))) /\
  match @gvm_map_memory example_driver 0xe0000000 0x10000 0x1e0000000 example_slots with
  | Ok _ s' => nthZ (mem_slots s') 7 = Some (mk 7 0 0xfffe0000 0x20000 0x1e0000000)
  | Fault _ => False
  end.
Proof.
  split; [apply example_slots_ok|]. split; [done|]. split.
  - exact (@gvm_map_memory_always_redirects example_driver example_slots 0xe0000000 0x10000
      0x1e0000000 example_slots_ok (fun _ => eq_refl)).
  - vm_compute. reflexivity.
Defined.
