(* ===== verification/Registry.v ===== *)
(** bitmap.c and the handler tables of pci.c.

    A bitmap says which ports, and which 64 KB pages of guest-physical memory,
    have a handler; two tables hold the handlers.  Registering an MMIO page also
    takes it out of the guest's memory (Gvm.v).  The handlers themselves are the
    devices': they reach the dispatch functions through [PortCallbacks]. *)

From S2P Require Export Gvm.

(** ** bitmap.c *)

Module Bitmap.
Definition RtlInitializeBitMap (BitMapBuffer : list Z) (SizeOfBitMap : Z) : M RTL_BITMAP.t unit :=
  modify (fun _ => RTL_BITMAP.mk SizeOfBitMap (Some BitMapBuffer)).

(** [BitTest], [BitTestAndSet] and [BitTestAndReset] address the 32-bit words of
    the buffer; the caller's bit numbers are not negative. *)
Definition word (BitNumber : Z) : M RTL_BITMAP.t Z :=
  Buffer ← gets RTL_BITMAP.Buffer;
  Buffer ← of_option NullPointer Buffer;
  of_option OutOfBounds (nthZ Buffer (BitNumber >>. 5)).

Definition store (BitNumber v : Z) : M RTL_BITMAP.t unit :=
  modify (fun b => b <| RTL_BITMAP.Buffer ::= fmap (fun l => updZ l (BitNumber >>. 5) v) |>).

Definition RtlTestBit (BitNumber : Z) : M RTL_BITMAP.t bool :=
  w ← word BitNumber;
  mret (Z.testbit w (BitNumber &. 31)).

Definition RtlSetBit (BitNumber : Z) : M RTL_BITMAP.t unit :=
  w ← word BitNumber;
  store BitNumber (u32 (w |. bit (BitNumber &. 31))).

Definition RtlClearBit (BitNumber : Z) : M RTL_BITMAP.t unit :=
  w ← word BitNumber;
  store BitNumber (u32 (w &. ~. bit (BitNumber &. 31))).
End Bitmap.
Import Bitmap.

(** [calloc(0xffff / 32, sizeof(ULONG))] *)
Definition new_bitmap : list Z := replicate 2047 0.
Definition NUM_HANDLERS : Z := 0xffff.

(** What the devices give to this file: the handlers the tags stand for.  An MMIO
    read returns the buffer it was given, with the bytes it wrote. *)
Class PortCallbacks := {
  port_read : Callback -> Z -> Z -> IO Z;
  port_write : Callback -> Z -> Z -> Z -> IO unit;
  mmio_read : Callback -> Z -> list Z -> Z -> IO (list Z);
  mmio_write : Callback -> Z -> list Z -> Z -> IO unit
}.

Definition upd_pci (f : PCI_STATE.t -> PCI_STATE.t) : IO unit :=
  modify (fun s => s <| Machine.Pci ::= f |>).

(** [Handlers[i]] and [Handlers[i] = h], where [None] is a null pointer. *)
Definition handler (t : gmap Z Callback) (i : Z) : option Callback := t !! i.
Definition set_handler (i : Z) (h : option Callback) : gmap Z Callback -> gmap Z Callback :=
  partial_alter (fun _ => h) i.

(** ** Port I/O *)

Definition RegisterPortIoHandler (Address : Z) (WriteHandler ReadHandler : option Callback) : IO unit :=
  size ← gets (fun s => (PortIoBitmap s).(RTL_BITMAP.SizeOfBitMap));
  when (size =? 0) (zoom PortIoBitmap (RtlInitializeBitMap new_bitmap (0xffff / 32))) ;;
  mapped ← (if NUM_HANDLERS <=? Address then mret true else zoom PortIoBitmap (RtlTestBit Address));
  if (mapped : bool) then stop Exit
  else
    zoom PortIoBitmap (RtlSetBit Address) ;;
    upd_pci (fun r => r <| PCI_STATE.WritePortHandlers ::= set_handler Address WriteHandler |>
                        <| PCI_STATE.ReadPortHandlers ::= set_handler Address ReadHandler |>).

Definition RemovePortIoHandler (Address : Z) : IO unit :=
  mapped ← (if NUM_HANDLERS <=? Address then mret false else zoom PortIoBitmap (RtlTestBit Address));
  if negb mapped then stop Exit
  else
    zoom PortIoBitmap (RtlClearBit Address) ;;
    upd_pci (fun r => r <| PCI_STATE.WritePortHandlers ::= set_handler Address None |>
                        <| PCI_STATE.ReadPortHandlers ::= set_handler Address None |>).

(** The three conditions of the lookups, in their order. *)
Definition port_handler (table : PCI_STATE.t -> gmap Z Callback) (Address : Z) : IO Callback :=
  mapped ← (if NUM_HANDLERS <=? Address then mret false else zoom PortIoBitmap (RtlTestBit Address));
  if negb mapped then stop Exit
  else
    t ← gets (fun s => table s.(Machine.Pci));
    of_option Exit (handler t Address).

Definition GetPortIoHandler (Address : Z) : IO (Callback * Callback) :=
  ReadHandler ← port_handler PCI_STATE.ReadPortHandlers Address;
  t ← gets (fun s => s.(Machine.Pci).(PCI_STATE.WritePortHandlers));
  WriteHandler ← of_option Exit (handler t Address);
  mret (WriteHandler, ReadHandler).

Section Dispatch.
Context `{!PortCallbacks}.

Definition ReadPortIoHandler (Address Length : Z) : IO Z :=
  h ← port_handler PCI_STATE.ReadPortHandlers Address;
  port_read h Address Length.

Definition WritePortIoHandler (Address Value Length : Z) : IO unit :=
  h ← port_handler PCI_STATE.WritePortHandlers Address;
  port_write h Address Value Length.
End Dispatch.

(** ** MMIO *)

(** One turn of the registration loop: an index past the handler arrays faults. *)
Definition mmio_set (index : Z) (WriteHandler ReadHandler : option Callback) : IO unit :=
  zoom MMIOBitmap (RtlSetBit index) ;;
  if NUM_HANDLERS <=? index then stop OutOfBounds
  else upd_pci (fun r => r <| PCI_STATE.MmioWriteHandlers ::= set_handler index WriteHandler |>
                           <| PCI_STATE.MmioReadHandlers ::= set_handler index ReadHandler |>).

(** [do ... while ((ULONG64)index << 16 < (ULONG64)Address + Size)] *)
Fixpoint mmio_set_loop (fuel : nat) (index limit : Z) (WriteHandler ReadHandler : option Callback)
    : IO unit :=
  match fuel with
  | O => stop Diverges
  | S fuel =>
      mmio_set index WriteHandler ReadHandler ;;
      if ((index + 1) <<. 16) <? limit
      then mmio_set_loop fuel (index + 1) limit WriteHandler ReadHandler
      else done_
  end.

(** Enough for [Address + Size < 2^33]: the loop turns once for each page. *)
Definition mmio_fuel (index limit : Z) : nat := Z.to_nat (limit / 2 ^ 16 - index + 2).

Section Mmio.
Context `{!Driver}.

Definition MmioRegisterHandler (Address Size : Z) (WriteHandler ReadHandler : option Callback)
    : IO unit :=
  let index := Address >>. 16 in
  size ← gets (fun s => (MMIOBitmap s).(RTL_BITMAP.SizeOfBitMap));
  when (size =? 0) (zoom MMIOBitmap (RtlInitializeBitMap new_bitmap (0xffff / 32))) ;;
  mapped ← (if NUM_HANDLERS <=? index then mret true else zoom MMIOBitmap (RtlTestBit index));
  if (mapped : bool) then stop Exit
  else
    mmio_set_loop (mmio_fuel index (Address + Size)) index (Address + Size) WriteHandler ReadHandler ;;
    gvm_register_mmio Address Size.

Definition MmioRemoveHandler (Address : Z) : IO unit :=
  let index := Address >>. 16 in
  mapped ← (if NUM_HANDLERS <=? index then mret false else zoom MMIOBitmap (RtlTestBit index));
  if negb mapped then stop Exit
  else
    zoom MMIOBitmap (RtlClearBit index) ;;
    upd_pci (fun r => r <| PCI_STATE.MmioWriteHandlers ::= set_handler index None |>
                        <| PCI_STATE.MmioReadHandlers ::= set_handler index None |>) ;;
    gvm_remove_mmio Address 0x10000.
End Mmio.

Definition mmio_handler (table : PCI_STATE.t -> gmap Z Callback) (Address : Z) : IO Callback :=
  let index := Address >>. 16 in
  mapped ← (if NUM_HANDLERS <=? index then mret false else zoom MMIOBitmap (RtlTestBit index));
  if negb mapped then stop Exit
  else
    t ← gets (fun s => table s.(Machine.Pci));
    of_option Exit (handler t index).

Section MmioDispatch.
Context `{!PortCallbacks}.

Definition MmioReadHandler (Address : Z) (Data : list Z) (Length : Z) : IO (list Z) :=
  h ← mmio_handler PCI_STATE.MmioReadHandlers Address;
  mmio_read h Address Data Length.

Definition MmioWriteHandler (Address : Z) (Data : list Z) (Length : Z) : IO unit :=
  h ← mmio_handler PCI_STATE.MmioWriteHandlers Address;
  mmio_write h Address Data Length.
End MmioDispatch.

(** ** What a registration promises

    [mapped bm n]: the bitmap marks [n].  A table is consistent when the
    handlers exist exactly for the marked entries, so a lookup never calls a
    null pointer, and a port or page is never registered twice. *)

Definition mapped (bm : RTL_BITMAP.t) (n : Z) : bool :=
  match bm.(RTL_BITMAP.Buffer) with
  | Some l => Z.testbit (nth0 l (n >>. 5)) (n &. 31)
  | None => false
  end.

Definition bitmap_ok (bm : RTL_BITMAP.t) : Prop :=
  bm = RTL_BITMAP.zero \/
  exists l, bm = RTL_BITMAP.mk 2047 (Some l) /\ length l = 2047%nat /\ Forall is_u32 l.

(** The bits the buffer holds: 31 fewer than the entries of the tables. *)
Definition BITMAP_BITS : Z := 65504.

Lemma bit_split n : 0 <= n -> n = (n &. 31) + (n >>. 5) * 32 /\ 0 <= n &. 31 < 32.
Proof.
  intros Hn. change 31 with (Z.ones 5). rewrite Z.land_ones, Z.shiftr_div_pow2 by lia.
  change (2 ^ 5) with 32. pose proof (Z.div_mod n 32). pose proof (Z.mod_pos_bound n 32). lia.
Qed.

Lemma word_run bm n : bitmap_ok bm -> bm <> RTL_BITMAP.zero -> 0 <= n ->
  word n bm = if n <? BITMAP_BITS then Ok (nth0 (default [] bm.(RTL_BITMAP.Buffer)) (n >>. 5)) bm
              else Fault OutOfBounds.
Proof.
  intros [->|(l & -> & Hlen & Hl)] Hz Hn; [done|].
  unfold word. mred. cbn. destruct (bit_split n Hn) as [Hs Hb]. unfold nth0.
  destruct (Z.ltb_spec n BITMAP_BITS); unfold BITMAP_BITS in *.
  - destruct (nthZ_is_Some l (n >>. 5)) as [w Hw]; [lia|]. by rewrite Hw.
  - destruct (nthZ l (n >>. 5)) eqn:E; [|done]. apply nthZ_Some in E. lia.
Qed.

Lemma RtlTestBit_run bm n : bitmap_ok bm -> bm <> RTL_BITMAP.zero -> 0 <= n < BITMAP_BITS ->
  RtlTestBit n bm = Ok (mapped bm n) bm.
Proof.
  intros Hok Hz Hn. unfold RtlTestBit, mbind, M_bind. rewrite word_run by (done || lia).
  rewrite (proj2 (Z.ltb_lt _ _)) by lia. unfold mapped.
  destruct Hok as [->|(l & -> & _)]; [done|]. done.
Qed.

Lemma RtlStore_run bm n g h : bitmap_ok bm -> bm <> RTL_BITMAP.zero -> 0 <= n < BITMAP_BITS ->
  (forall w, is_u32 w -> is_u32 (g w)) ->
  (forall w i, is_u32 w -> 0 <= i -> Z.testbit (g w) i = h (Z.testbit w i) (i =? (n &. 31))) ->
  (forall b, h b false = b) ->
  exists bm', (w ← word n; store n (g w)) bm = Ok tt bm' /\ bitmap_ok bm' /\ bm' <> RTL_BITMAP.zero /\
    forall k, 0 <= k -> mapped bm' k = h (mapped bm k) (k =? n).
Proof.
  intros Hok Hz Hn Hg Hh Hb. rewrite (run_bind (word n) _ _ _ _ ltac:(rewrite word_run by (done || lia);
    by rewrite (proj2 (Z.ltb_lt n _)) by lia)).
  destruct Hok as [->|(l & -> & Hlen & Hl)]; [done|].
  eexists. split; [reflexivity|]. destruct (bit_split n ltac:(lia)) as [Hs Hbn].
  assert (is_u32 (nth0 l (n >>. 5))) by by apply Forall_nth0.
  split; [right; eexists; split; [reflexivity|]; split|split; [done|]].
  - by rewrite length_updZ.
  - apply Forall_updZ; [done|]. by apply Hg.
  - intros k Hk. destruct (bit_split k Hk) as [Hsk Hbk]. unfold mapped. cbn.
    unfold BITMAP_BITS in *. unfold nth0 at 1.
    destruct (Z.eqb_spec (n >>. 5) (k >>. 5)) as [E|E].
    + rewrite <- E, nthZ_updZ_eq by lia. cbn. rewrite Hh by (done || lia). f_equal.
      destruct (Z.eqb_spec (k &. 31) (n &. 31)), (Z.eqb_spec k n); try done; lia.
    + rewrite nthZ_updZ_ne by done. fold (nth0 l (k >>. 5)).
      destruct (Z.eqb_spec k n) as [->|]; [done|]. by rewrite Hb.
Qed.

Lemma PortIoBitmap_id s : upd_field PortIoBitmap (fun _ => PortIoBitmap s) s = s.
Proof. by destruct s as [? ? ? ? ? ? ? ? ? ? ? ? ? [] ? ? ? ? ? ? ?]. Qed.
Lemma MMIOBitmap_id s : upd_field MMIOBitmap (fun _ => MMIOBitmap s) s = s.
Proof. by destruct s as [? ? ? ? ? ? ? ? ? ? ? ? ? [] ? ? ? ? ? ? ?]. Qed.

Lemma new_bitmap_ok : bitmap_ok (RTL_BITMAP.mk 2047 (Some new_bitmap)).
Proof.
  right. exists new_bitmap. split; [done|]. split; [apply length_replicate|].
  apply (Forall_replicate is_u32 2047 0). by split.
Qed.

Lemma mapped_new n : mapped (RTL_BITMAP.mk 2047 (Some new_bitmap)) n = false.
Proof.
  unfold mapped, new_bitmap. cbn [RTL_BITMAP.Buffer]. rewrite nth0_replicate. apply Z.bits_0.
Qed.

(** A bitmap after the lazy initialisation of the registration functions. *)
Definition initialized (bm : RTL_BITMAP.t) : RTL_BITMAP.t :=
  if bm.(RTL_BITMAP.SizeOfBitMap) =? 0 then RTL_BITMAP.mk 2047 (Some new_bitmap) else bm.

Lemma initialized_ok bm : bitmap_ok bm ->
  bitmap_ok (initialized bm) /\ initialized bm <> RTL_BITMAP.zero /\
  forall n, mapped (initialized bm) n = mapped bm n.
Proof.
  intros [->|(l & -> & Hl)].
  - split; [apply new_bitmap_ok|]. split; [done|]. intros n. exact (mapped_new n).
  - split; [right; eauto|]. done.
Qed.

(** The abstract table: a finite map from ports to their two handlers. *)
Definition port_map (s : Machine.t) (n : Z) : option (option Callback * option Callback) :=
  if mapped (PortIoBitmap s) n
  then Some (handler s.(Machine.Pci).(PCI_STATE.WritePortHandlers) n,
             handler s.(Machine.Pci).(PCI_STATE.ReadPortHandlers) n)
  else None.

Definition port_ok (s : Machine.t) : Prop := bitmap_ok (PortIoBitmap s).

Lemma init_run (p : Machine.t -> RTL_BITMAP.t) `{!Field p} s :
  (upd_field p (fun _ => p s) s = s) ->
  when ((p s).(RTL_BITMAP.SizeOfBitMap) =? 0) (zoom p (RtlInitializeBitMap new_bitmap (0xffff / 32))) s
  = Ok tt (upd_field p (fun _ => initialized (p s)) s).
Proof.
  intros Hid. unfold initialized. destruct (_ =? 0); [done|]. by rewrite Hid.
Qed.

Lemma handler_set i j h t : handler (set_handler i h t) j = if j =? i then h else handler t j.
Proof.
  unfold handler, set_handler. destruct (Z.eqb_spec j i) as [->|].
  - by rewrite lookup_partial_alter_eq.
  - by rewrite lookup_partial_alter_ne.
Qed.

Lemma in_table n : 0 <= n < BITMAP_BITS -> (NUM_HANDLERS <=? n) = false.
Proof. intros Hn. apply Z.leb_gt. unfold NUM_HANDLERS, BITMAP_BITS in *. lia. Qed.

(** Registering a free port, and freeing a used one. *)
Lemma RegisterPortIoHandler_free s Address w r :
  port_ok s -> 0 <= Address < BITMAP_BITS -> port_map s Address = None ->
  wp (RegisterPortIoHandler Address w r) (fun _ s' => port_ok s' /\
    forall n, 0 <= n -> port_map s' n = if n =? Address then Some (w, r) else port_map s n) s.
Proof.
  intros Hok Ha Hmap. destruct (initialized_ok _ Hok) as (Hok' & Hz' & Hm').
  unfold RegisterPortIoHandler, wp. rewrite (run_bind _ _ _ _ _ (run_gets _ _)).
  rewrite (run_bind _ _ _ _ _ (init_run PortIoBitmap s (PortIoBitmap_id s))).
  set (s1 := upd_field _ _ s). change (initialized (PortIoBitmap s)) with (PortIoBitmap s1) in Hok', Hz', Hm'.
  rewrite in_table by done. erewrite run_bind; [|apply zoom_run, RtlTestBit_run; done].
  rewrite PortIoBitmap_id, Hm'. unfold port_map in Hmap |- *.
  destruct (mapped (PortIoBitmap s) Address) eqn:Em; [done|].
  destruct (RtlStore_run (PortIoBitmap s1) Address
    (fun w => u32 (w |. bit (Address &. 31))) orb Hok' Hz' Ha) as (bm & Hrun & Hbm & _ & Hbits).
  { intros. apply u32_range. }
  { intros v i Hv Hi. destruct (bit_split Address ltac:(lia)). apply (testbit_set 32); [lia|done|done]. }
  { by intros []. }
  erewrite run_bind; [|apply zoom_run, Hrun]. mred. split; [exact Hbm|].
  intros n Hn. cbn. rewrite Hbits, Hm', !handler_set by done.
  destruct (Z.eqb_spec n Address) as [->|]; [by rewrite orb_true_r|by rewrite orb_false_r].
Qed.

Lemma RemovePortIoHandler_used s Address :
  port_ok s -> 0 <= Address < BITMAP_BITS -> port_map s Address <> None ->
  wp (RemovePortIoHandler Address) (fun _ s' => port_ok s' /\
    forall n, 0 <= n -> port_map s' n = if n =? Address then None else port_map s n) s.
Proof.
  intros Hok Ha Hmap. assert (mapped (PortIoBitmap s) Address = true) as Em.
  { unfold port_map in Hmap. by destruct (mapped _ _). }
  assert (PortIoBitmap s <> RTL_BITMAP.zero) as Hz. { intros Hz. by rewrite Hz in Em. }
  unfold RemovePortIoHandler, wp. rewrite in_table by done.
  erewrite run_bind; [|apply zoom_run, RtlTestBit_run; done]. rewrite PortIoBitmap_id, Em.
  destruct (RtlStore_run (PortIoBitmap s) Address
    (fun w => u32 (w &. ~. bit (Address &. 31))) (fun b c => b && negb c) Hok Hz Ha)
    as (bm & Hrun & Hbm & _ & Hbits).
  { intros. apply u32_range. }
  { intros v i Hv Hi. destruct (bit_split Address ltac:(lia)). apply (testbit_clear 32); [lia|done|done]. }
  { by intros []. }
  cbn [negb]. erewrite run_bind; [|apply zoom_run, Hrun]. mred. split; [exact Hbm|].
  intros n Hn. unfold port_map. cbn. rewrite Hbits, !handler_set by done.
  destruct (Z.eqb_spec n Address) as [->|]; [by rewrite andb_false_r|by rewrite andb_true_r].
Qed.

(** Registering a port is insertion into a finite map: on a free port it
    succeeds and changes the handlers of that port only; on a used port, or one
    past the table, the program exits.  (The last 31 ports of the table lie
    outside the bitmap's buffer.) *)
Theorem RegisterPortIoHandler_refines s Address w r :
  port_ok s -> 0 <= Address ->
  (NUM_HANDLERS <= Address -> RegisterPortIoHandler Address w r s = Fault Exit) /\
  (BITMAP_BITS <= Address < NUM_HANDLERS -> RegisterPortIoHandler Address w r s = Fault OutOfBounds) /\
  (Address < BITMAP_BITS -> port_map s Address <> None ->
     RegisterPortIoHandler Address w r s = Fault Exit) /\
  (Address < BITMAP_BITS -> port_map s Address = None ->
     wp (RegisterPortIoHandler Address w r) (fun _ s' => port_ok s' /\
       forall n, 0 <= n -> port_map s' n = if n =? Address then Some (w, r) else port_map s n) s).
Proof.
  intros Hok Ha. split; [|split; [|split]].
  4: { intros Hlt Hmap. by apply RegisterPortIoHandler_free. }
  all: destruct (initialized_ok _ Hok) as (Hok' & Hz' & Hm').
  all: unfold RegisterPortIoHandler; rewrite (run_bind _ _ _ _ _ (run_gets _ _)).
  all: rewrite (run_bind _ _ _ _ _ (init_run PortIoBitmap s (PortIoBitmap_id s))).
  all: set (s1 := upd_field _ _ s); change (initialized (PortIoBitmap s)) with (PortIoBitmap s1) in Hok', Hz', Hm'.
  - intros Hge. by rewrite (proj2 (Z.leb_le _ _)) by lia.
  - intros Hr. rewrite (proj2 (Z.leb_gt _ _)) by lia.
    unfold mbind, M_bind, zoom at 1, RtlTestBit, mbind, M_bind.
    rewrite word_run by done. by rewrite (proj2 (Z.ltb_ge Address _)) by lia.
  - intros Hlt Hmap. rewrite in_table by done.
    erewrite run_bind; [|apply zoom_run, RtlTestBit_run; done].
    unfold port_map in Hmap. rewrite Hm'. by destruct (mapped (PortIoBitmap s) Address).
Qed.

(** A lookup finds the handler the abstract table holds. *)
Lemma port_handler_read s Address :
  port_ok s -> PortIoBitmap s <> RTL_BITMAP.zero -> 0 <= Address < BITMAP_BITS ->
  port_handler PCI_STATE.ReadPortHandlers Address s =
    match port_map s Address with Some (_, Some h) => Ok h s | _ => Fault Exit end.
Proof.
  intros Hok Hz Ha. unfold port_handler. rewrite in_table by done.
  erewrite run_bind; [|apply zoom_run, RtlTestBit_run; done]. rewrite PortIoBitmap_id.
  unfold port_map. destruct (mapped _ _); simpl; [|done]. mred. by destruct (handler (PCI_STATE.ReadPortHandlers _) _).
Qed.

Lemma port_handler_write s Address :
  port_ok s -> PortIoBitmap s <> RTL_BITMAP.zero -> 0 <= Address < BITMAP_BITS ->
  port_handler PCI_STATE.WritePortHandlers Address s =
    match port_map s Address with Some (Some h, _) => Ok h s | _ => Fault Exit end.
Proof.
  intros Hok Hz Ha. unfold port_handler. rewrite in_table by done.
  erewrite run_bind; [|apply zoom_run, RtlTestBit_run; done]. rewrite PortIoBitmap_id.
  unfold port_map. destruct (mapped _ _); simpl; [|done]. mred. by destruct (handler (PCI_STATE.WritePortHandlers _) _).
Qed.

(** ** MMIO pages *)

Definition page_map (s : Machine.t) (n : Z) : option (option Callback * option Callback) :=
  if mapped (MMIOBitmap s) n
  then Some (handler s.(Machine.Pci).(PCI_STATE.MmioWriteHandlers) n,
             handler s.(Machine.Pci).(PCI_STATE.MmioReadHandlers) n)
  else None.

Definition page_ok (s : Machine.t) : Prop := bitmap_ok (MMIOBitmap s).

(** The pages the loop marks. *)
Definition last_page (Address Size : Z) : Z := Z.max (Address >>. 16) ((Address + Size - 1) >>. 16).

(** [s] with another table: what a registration may change before it takes the
    page out of the guest's memory. *)
Definition only_pci (s s' : Machine.t) : Prop := exists r, s' = s <| Machine.Pci := r |>.

#[export] Instance only_pci_preorder : PreOrder only_pci.
Proof.
  split.
  - intros s. exists s.(Machine.Pci). by destruct s.
  - intros s1 s2 s3 [r ->] [r' ->]. by exists r'.
Qed.

Lemma mmio_set_run s index w r : page_ok s -> MMIOBitmap s <> RTL_BITMAP.zero -> 0 <= index ->
  if index <? BITMAP_BITS then
    wp (mmio_set index w r) (fun _ s' => page_ok s' /\ MMIOBitmap s' <> RTL_BITMAP.zero /\
      only_pci s s' /\
      forall n, 0 <= n -> page_map s' n = if n =? index then Some (w, r) else page_map s n) s
  else mmio_set index w r s = Fault OutOfBounds.
Proof.
  intros Hok Hz Hi. unfold mmio_set. destruct (Z.ltb_spec index BITMAP_BITS) as [Hlt|Hge].
  2: { unfold mbind, M_bind, zoom, RtlSetBit, mbind, M_bind. rewrite word_run by done.
       by rewrite (proj2 (Z.ltb_ge index _)). }
  rewrite in_table by done.
  destruct (RtlStore_run (MMIOBitmap s) index (fun w => u32 (w |. bit (index &. 31))) orb Hok Hz
    ltac:(lia)) as (bm & Hrun & Hbm & Hbz & Hbits).
  { intros. apply u32_range. }
  { intros v i Hv Hj. destruct (bit_split index Hi). apply (testbit_set 32); [lia|done|done]. }
  { by intros []. }
  unfold wp. erewrite run_bind; [|apply zoom_run, Hrun]. mred.
  split; [exact Hbm|]. split; [exact Hbz|]. split; [by eexists|].
  intros n Hn. unfold page_map. cbn. rewrite Hbits, !handler_set by done.
  destruct (Z.eqb_spec n index) as [->|]; [by rewrite orb_true_r|by rewrite orb_false_r].
Qed.

Lemma page_below i limit : ((i <<. 16) <? limit) = true <-> i <= (limit - 1) >>. 16.
Proof.
  rewrite Z.ltb_lt, Z.shiftl_mul_pow2, Z.shiftr_div_pow2 by lia. split; intros.
  - apply Z.div_le_lower_bound; lia.
  - pose proof (Z.mul_div_le (limit - 1) (2 ^ 16)). nia.
Qed.

Lemma mmio_set_loop_run fuel s index limit w r :
  let last := Z.max index ((limit - 1) >>. 16) in
  page_ok s -> MMIOBitmap s <> RTL_BITMAP.zero -> 0 <= index -> last - index < Z.of_nat fuel ->
  if last <? BITMAP_BITS then
    wp (mmio_set_loop fuel index limit w r) (fun _ s' => page_ok s' /\ only_pci s s' /\
      forall n, 0 <= n -> page_map s' n =
        if (index <=? n) && (n <=? last) then Some (w, r) else page_map s n) s
  else mmio_set_loop fuel index limit w r s = Fault OutOfBounds.
Proof.
  revert s index. induction fuel as [|fuel IH]; intros s index last Hok Hz Hi Hf; [lia|].
  simpl. pose proof (mmio_set_run s index w r Hok Hz Hi) as Hset.
  destruct (Z.ltb_spec index BITMAP_BITS) as [Hib|Hib].
  2: { rewrite (proj2 (Z.ltb_ge last _)) by lia. unfold mbind, M_bind. by rewrite Hset. }
  apply wp_Ok in Hset as ([] & s1 & Hs1 & Hok1 & Hz1 & Hpci1 & Hmap1).
  destruct (((index + 1) <<. 16) <? limit) eqn:Enext.
  - pose proof (proj1 (page_below _ _) Enext) as Hnext.
    specialize (IH s1 (index + 1) Hok1 Hz1 ltac:(lia) ltac:(lia)).
    replace (Z.max (index + 1) ((limit - 1) >>. 16)) with last in IH by lia.
    destruct (last <? BITMAP_BITS); unfold wp; rewrite (run_bind _ _ _ _ _ Hs1); cbv beta; [|done].
    eapply wp_mono; [|exact IH]. intros _ s2 (Hok2 & Hpci2 & Hmap2). split; [done|].
    split; [by transitivity s1|]. intros n Hn. rewrite Hmap2, Hmap1 by done.
    destruct (Z.eqb_spec n index) as [->|].
    + rewrite (proj2 (Z.leb_gt _ _)), Z.leb_refl by lia. simpl. by rewrite (proj2 (Z.leb_le _ _)) by lia.
    + destruct (Z.leb_spec (index + 1) n), (Z.leb_spec index n); simpl; try done; lia.
  - assert (~ index + 1 <= (limit - 1) >>. 16) as Hnext.
    { intros H%page_below. congruence. }
    assert (last = index) as Hlast by lia. rewrite Hlast, (proj2 (Z.ltb_lt _ _)) by lia.
    unfold wp. rewrite (run_bind _ _ _ _ _ Hs1). cbv beta. split; [done|]. split; [done|].
    intros n Hn. rewrite Hmap1 by done.
    destruct (Z.eqb_spec n index), (Z.leb_spec index n), (Z.leb_spec n index); simpl; done || lia.
Qed.

Lemma mmio_fuel_enough Address Size : 0 <= Size ->
  last_page Address Size - (Address >>. 16) <
  Z.of_nat (mmio_fuel (Address >>. 16) (Address + Size)).
Proof.
  intros Hs. unfold last_page, mmio_fuel. rewrite !Z.shiftr_div_pow2 by lia.
  pose proof (Z.div_le_mono (Address + Size - 1) (Address + Size) (2 ^ 16)).
  pose proof (Z.div_le_mono Address (Address + Size) (2 ^ 16)). lia.
Qed.

Section MmioRegistration.
Context `{!Driver}.

Lemma MmioRegisterHandler_test s Address Size w r :
  page_ok s -> 0 <= Address -> Address >>. 16 < BITMAP_BITS -> page_map s (Address >>. 16) = None ->
  exists s1, only_pci s s1 /\ page_ok s1 /\ MMIOBitmap s1 <> RTL_BITMAP.zero /\
    (forall n, page_map s1 n = page_map s n) /\
    MmioRegisterHandler Address Size w r s =
      (mmio_set_loop (mmio_fuel (Address >>. 16) (Address + Size)) (Address >>. 16) (Address + Size) w r ;;
       gvm_register_mmio Address Size) s1.
Proof.
  intros Hok Ha Hb Hfree. destruct (initialized_ok _ Hok) as (Hok' & Hz' & Hm').
  pose proof (Z.shiftr_nonneg Address 16) as Hnn.
  exists (upd_field MMIOBitmap (fun _ => initialized (MMIOBitmap s)) s).
  split; [by eexists|]. split; [done|]. split; [done|]. split.
  { intros n. unfold page_map. cbn. by rewrite Hm'. }
  unfold MmioRegisterHandler. rewrite (run_bind _ _ _ _ _ (run_gets _ _)).
  rewrite (run_bind _ _ _ _ _ (init_run MMIOBitmap s (MMIOBitmap_id s))).
  set (s1 := upd_field _ _ s). rewrite in_table by (split; [by apply Hnn|done]).
  change (initialized (MMIOBitmap s)) with (MMIOBitmap s1) in Hok', Hz', Hm'.
  erewrite (run_bind _ _ s1); [|apply zoom_run, RtlTestBit_run; [done|done|split; [by apply Hnn|done]]].
  rewrite MMIOBitmap_id, Hm'. unfold page_map in Hfree. by destruct (mapped _ _).
Qed.

Lemma MmioRegisterHandler_spec s Address Size w r :
  page_ok s -> 0 <= Address -> 0 <= Size ->
  Address >>. 16 < BITMAP_BITS -> page_map s (Address >>. 16) = None ->
  let last := last_page Address Size in
  if last <? BITMAP_BITS then
    exists s1, only_pci s s1 /\ page_ok s1 /\
      (forall n, 0 <= n -> page_map s1 n =
         if (Address >>. 16 <=? n) && (n <=? last) then Some (w, r) else page_map s n) /\
      MmioRegisterHandler Address Size w r s = gvm_register_mmio Address Size s1
  else MmioRegisterHandler Address Size w r s = Fault OutOfBounds.
Proof.
  intros Hok Ha Hs Hb Hfree last.
  destruct (MmioRegisterHandler_test s Address Size w r Hok Ha Hb Hfree)
    as (s1 & Hpci & Hok1 & Hz1 & Hmap1 & ->).
  pose proof (mmio_set_loop_run (mmio_fuel (Address >>. 16) (Address + Size)) s1 (Address >>. 16)
    (Address + Size) w r Hok1 Hz1 ltac:(by apply Z.shiftr_nonneg)) as Hloop.
  fold (last_page Address Size) last in Hloop. specialize (Hloop (mmio_fuel_enough _ _ Hs)).
  destruct (last <? BITMAP_BITS).
  - apply wp_Ok in Hloop as ([] & s2 & Hs2 & Hok2 & Hpci2 & Hmap2).
    exists s2. split; [by transitivity s1|]. split; [done|]. split.
    + intros n Hn. rewrite Hmap2, Hmap1 by done. done.
    + by rewrite (run_bind _ _ _ _ _ Hs2).
  - unfold mbind, M_bind. by rewrite Hloop.
Qed.

(** Registering MMIO marks every page the range touches, and no other, with
    the given handlers and then takes the range out of the guest's memory; the
    loop always ends.  A range that reaches the pages past the bitmap's buffer
    writes outside it. *)
Theorem MmioRegisterHandler_refines s Address Size w r :
  page_ok s -> 0 <= Address -> 0 <= Size ->
  Address >>. 16 < BITMAP_BITS -> page_map s (Address >>. 16) = None ->
  let last := last_page Address Size in
  if last <? BITMAP_BITS then
    exists s1, only_pci s s1 /\ page_ok s1 /\
      (forall n, 0 <= n -> page_map s1 n =
         if (Address >>. 16 <=? n) && (n <=? last) then Some (w, r) else page_map s n) /\
      MmioRegisterHandler Address Size w r s = gvm_register_mmio Address Size s1
  else MmioRegisterHandler Address Size w r s = Fault OutOfBounds.
Proof. exact (MmioRegisterHandler_spec s Address Size w r). Qed.
End MmioRegistration.

(** ** Examples *)

Lemma RegisterPortIoHandler_refines_witness :
  port_ok Machine.zero /\
  wp (RegisterPortIoHandler 0x20 (Some cb_Pic) (Some cb_Pic)) (fun _ s' => port_ok s' /\
    forall n, 0 <= n -> port_map s' n =
      if n =? 0x20 then Some (Some cb_Pic, Some cb_Pic) else port_map Machine.zero n) Machine.zero.
Proof.
  assert (port_ok Machine.zero) as Hok by (left; reflexivity). split; [exact Hok|].
  apply (RegisterPortIoHandler_refines Machine.zero 0x20 (Some cb_Pic) (Some cb_Pic) Hok).
  - discriminate.
  - reflexivity.
  - reflexivity.
Defined.

(** The range flash.c registers ends in page 0xfffd, past the bitmap. *)
Lemma MmioRegisterHandler_refines_witness :
  page_ok Machine.zero /\
  @MmioRegisterHandler example_driver 0xffc00000 0x3e0000 (Some cb_Flash) (Some cb_Flash) Machine.zero
    = Fault OutOfBounds.
Proof.
  assert (page_ok Machine.zero) as Hok by (left; reflexivity). split; [exact Hok|].
  apply (@MmioRegisterHandler_refines example_driver Machine.zero 0xffc00000 0x3e0000
    (Some cb_Flash) (Some cb_Flash) Hok).
  - discriminate.
  - discriminate.
  - reflexivity.
  - reflexivity.
Defined.
