(* ===== verification/Timer.v ===== *)
(** timer.c: the tick-driven timers.

    A timer belongs to the device that registered it and is named by its index
    in [Timers]; [TimerTick] runs the handlers of the timers that expire.  The
    handlers are the devices', so they reach this file through the interface
    [TimerCallbacks]. *)

From S2P Require Export Structs.

Definition CPU_FREQ : Z := 4000000.
Definition MSECOND_TO_NANOSECONDS : Z := 1000000.
Definition NANOSECONDS_PER_SECOND : Z := 1000000000.
Definition TICK_PERIOD : Z := 4000000.
Definition MAX_TIMERS : Z := 32.

(** ** Operations *)

(** [_mm_mul_epu32] multiplies the low 32 bits of each 64-bit lane; the second
    lane holds [0 * b].  The divisors of the callers are nonzero constants. *)
Definition muldiv64 (a b c : Z) : Z :=
  let mulResult := u64 (u32 a * u32 b) in
  let lo := mulResult in
  let hi := u32 (mulResult >>. 32) in
  let result := u64 (hi <<. 32) |. lo in
  result / c.

Definition TimerInitialize : IO unit :=
  modify (fun s => s <| Machine.Timers := TIMERS.zero |>).

Definition TimerGet (Index : Z) : IO TIMER.t := at_ timers Index.

Definition TimerGetTotalTicks : IO Z := gets (fun s => s.(Machine.Timers).(TIMERS.TicksTotal)).

Definition TimerGetTotalUseconds : IO Z :=
  TicksTotal ← TimerGetTotalTicks;
  mret (TicksTotal / 1000).

Definition TimerGetClockNs : IO Z :=
  TicksTotal ← TimerGetTotalTicks;
  mret (muldiv64 TicksTotal MSECOND_TO_NANOSECONDS CPU_FREQ).

Definition TimerGetElapsed (Index : Z) : IO Z :=
  t ← at_ timers Index;
  mret (u64 (t.(TIMER.Nseconds) - t.(TIMER.TimeToFire))).

Definition TimerGetState (Index : Z) : IO Z :=
  t ← at_ timers Index;
  mret t.(TIMER.Active).

Definition TimerActivate (Index Nseconds OneShot : Z) : IO unit :=
  upd_at timers Index (fun t =>
    t <| TIMER.Active := 1 |> <| TIMER.Nseconds := Nseconds |> <| TIMER.OneShot := OneShot |>).

Definition get_TimersIdx : IO Z := gets (fun s => s.(Machine.Timers).(TIMERS.TimersIdx)).

Definition TimerDeactivate (Index : Z) : IO unit :=
  upd_at timers Index (fun t => t <| TIMER.Active := 0 |>) ;;
  TimersIdx ← get_TimersIdx;
  upd_at timers TimersIdx (fun t => t <| TIMER.Nseconds := 0 |> <| TIMER.TimeToFire := 0 |>).

(** [return TimersIdx++;] *)
Definition next_TimersIdx : IO Z :=
  TimersIdx ← get_TimersIdx;
  modify (fun s => s <| Machine.Timers ::= (fun r =>
    r <| TIMERS.TimersIdx := u32 (TimersIdx + 1) |>) |>) ;;
  mret TimersIdx.

Definition TimerCreate (TimerHandler : TimerHandler) (Param : Z) : IO Z :=
  TimersIdx ← get_TimersIdx;
  upd_at timers TimersIdx (fun _ => TIMER.mk (Some TimerHandler) 0 0 Param 0 0) ;;
  next_TimersIdx.

Definition TimerRegister (Nseconds : Z) (TimerHandler : TimerHandler) (Param : Z) : IO Z :=
  TimersIdx ← get_TimersIdx;
  upd_at timers TimersIdx (fun _ =>
    TIMER.mk (Some TimerHandler) (u32 Nseconds) (u32 Nseconds) Param 1 0) ;;
  next_TimersIdx.

(** What the devices give to this file: their timer handlers. *)
Class TimerCallbacks := run_handler : TimerHandler -> Z -> IO unit.

Section Tick.
Context `{!TimerCallbacks}.

(** One iteration of [TimerTick]'s loop. *)
Definition TimerTick_body (i : Z) : IO unit :=
  t ← at_ timers i;
  NsecondsTotal ← gets (fun s => s.(Machine.Timers).(TIMERS.NsecondsTotal));
  when (nz t.(TIMER.Active)) (
    upd_at timers i (fun t => t <| TIMER.TimeToFire ::= (fun f => s64 (f - NsecondsTotal)) |>)) ;;
  t ← at_ timers i;
  when (nz t.(TIMER.Active) && (t.(TIMER.TimeToFire) <=? 0)) (
    upd_at timers i (fun t => t <| TIMER.TimeToFire := 0 |>) ;;
    Handler ← of_option NullCall t.(TIMER.Handler);
    run_handler Handler t.(TIMER.Param) ;;
    t ← at_ timers i;
    when (nz t.(TIMER.OneShot)) (upd_at timers i (fun t => t <| TIMER.Active := 0 |>)) ;;
    upd_at timers i (fun t => t <| TIMER.TimeToFire := s64 t.(TIMER.Nseconds) |>)).

(** [for (i = 0; i < TimersIdx; i++)]: the 33rd iteration leaves the array, so
    33 rounds of fuel are enough whatever [TimersIdx] is. *)
Fixpoint TimerTick_loop (fuel : nat) (i : Z) : IO unit :=
  match fuel with
  | O => stop Diverges
  | S fuel =>
      TimersIdx ← get_TimersIdx;
      if i <? TimersIdx then TimerTick_body i ;; TimerTick_loop fuel (i + 1) else done_
  end.

Definition TimerTick (Ticks : Z) : IO unit :=
  modify (fun s => s <| Machine.Timers ::= (fun r =>
    r <| TIMERS.TicksTotal ::= (fun t => u64 (t + Ticks)) |>) |>) ;;
  ClockNs ← TimerGetClockNs;
  modify (fun s => s <| Machine.Timers ::= (fun r =>
    r <| TIMERS.NsecondsTotal ::= (fun t => u64 (t + ClockNs)) |>) |>) ;;
  TimerTick_loop 34 0.
End Tick.

(** ** Clock arithmetic *)

Lemma lor_high_absorb w x : 0 <= w -> in_width (2 * w) x ->
  Z.lor ((x >>. w) <<. w) x = x.
Proof.
  intros Hw Hx. apply Z.bits_inj'; intros i Hi.
  rewrite Z.lor_spec, Z.shiftl_spec by done.
  destruct (Z.ltb_spec i w).
  - by rewrite Z.testbit_neg_r by lia.
  - rewrite Z.shiftr_spec by lia. replace (i - w + w) with i by lia. apply orb_diag.
Qed.

Lemma u64_mul_u32 x y : u64 (u32 x * u32 y) = u32 x * u32 y.
Proof.
  apply u64_small. pose proof (u32_range x) as Hx. pose proof (u32_range y) as Hy.
  unfold in_width in *. change (2 ^ 32) with 4294967296 in *. change (2 ^ 64) with (4294967296 * 4294967296).
  nia.
Qed.

(** The product of [muldiv64] is that of the low 32 bits of [a] with [b]:
    the function scales [a] by [b / c] exactly, without overflow, when [a] and
    [b] have 32 bits, and drops the upper half of [a] otherwise. *)
Theorem muldiv64_spec a b c : is_u32 b -> muldiv64 a b c = (a mod 2 ^ 32) * b / c.
Proof.
  intros Hb. unfold muldiv64. rewrite u64_mul_u32, (u32_small b Hb).
  set (x := u32 a * b).
  assert (is_u64 x) as Hx.
  { unfold x. rewrite <- (u32_small b Hb), <- u64_mul_u32. apply u64_range. }
  rewrite (u32_small (x >>. 32)).
  2: { destruct Hx. split; rewrite Z.shiftr_div_pow2 by lia.
       - by apply Z.div_pos.
       - by apply Z.div_lt_upper_bound. }
  rewrite u64_small.
  2: { destruct Hx. rewrite Z.shiftl_mul_pow2, Z.shiftr_div_pow2 by lia.
       pose proof (Z.mul_div_le x (2 ^ 32)). split; [|lia].
       apply Z.mul_nonneg_nonneg; [by apply Z.div_pos|done]. }
  by rewrite (lor_high_absorb 32 x).
Qed.

Lemma muldiv64_spec_witness :
  is_u32 1000000 /\ muldiv64 (2 ^ 33 + 8) 1000000 4000000 = 2.
Proof. split; [by split|]. rewrite muldiv64_spec by (by split). reflexivity. Defined.

(** [TimerGetClockNs] as a function of the tick count. *)
Definition clock_of_ticks (T : Z) : Z := (T mod 2 ^ 32) / 4.

Lemma TimerGetClockNs_run s :
  TimerGetClockNs s = Ok (clock_of_ticks s.(Machine.Timers).(TIMERS.TicksTotal)) s.
Proof.
  unfold TimerGetClockNs, TimerGetTotalTicks, clock_of_ticks. mred.
  rewrite muldiv64_spec by (by split). f_equal.
  unfold MSECOND_TO_NANOSECONDS, CPU_FREQ.
  change 4000000 with (4 * 1000000). by rewrite Z.div_mul_cancel_r.
Qed.

Lemma clock_of_ticks_range T : 0 <= clock_of_ticks T < 2 ^ 30.
Proof.
  unfold clock_of_ticks. pose proof (Z.mod_pos_bound T (2 ^ 32) ltac:(lia)) as H.
  split; [apply Z.div_pos; lia|]. apply Z.div_lt_upper_bound; [done|].
  change (4 * 2 ^ 30) with (2 ^ 32). lia.
Qed.

(** ** One tick *)

(** The value [NsecondsTotal] takes at a tick. *)
Definition tick_now (Ticks : Z) (r : TIMERS.t) : Z :=
  u64 (r.(TIMERS.NsecondsTotal) + clock_of_ticks (u64 (r.(TIMERS.TicksTotal) + Ticks))).

Definition expires (now : Z) (t : TIMER.t) : bool :=
  nz t.(TIMER.Active) && (s64 (t.(TIMER.TimeToFire) - now) <=? 0).

(** What a tick does to one timer, and the handler it calls. *)
Definition tick_timer (now : Z) (t : TIMER.t) : TIMER.t :=
  if expires now t then
    t <| TIMER.Active := (if nz t.(TIMER.OneShot) then 0 else t.(TIMER.Active)) |>
      <| TIMER.TimeToFire := s64 t.(TIMER.Nseconds) |>
  else if nz t.(TIMER.Active) then t <| TIMER.TimeToFire := s64 (t.(TIMER.TimeToFire) - now) |>
  else t.

Definition fired (now : Z) (ts : list TIMER.t) : list (TimerHandler * Z) :=
  omap (fun t => if expires now t then h ← t.(TIMER.Handler); Some (h, t.(TIMER.Param)) else None) ts.

(** The table after a tick: the first [TimersIdx] timers are updated. *)
Definition tick_timers (Ticks : Z) (r : TIMERS.t) : TIMERS.t :=
  let n := Z.to_nat r.(TIMERS.TimersIdx) in
  TIMERS.mk r.(TIMERS.TimersIdx) (u64 (r.(TIMERS.TicksTotal) + Ticks)) (tick_now Ticks r)
    (map (tick_timer (tick_now Ticks r)) (take n r.(TIMERS.Timers)) ++ drop n r.(TIMERS.Timers)).

(** The registrations of a table are complete: every index below [TimersIdx]
    lies in the array and its handler is set. *)
Definition registered (r : TIMERS.t) : Prop :=
  0 <= r.(TIMERS.TimersIdx) <= Z.of_nat (length r.(TIMERS.Timers)) /\
  length r.(TIMERS.Timers) = 32%nat /\
  Forall (fun t => is_Some t.(TIMER.Handler)) (take (Z.to_nat r.(TIMERS.TimersIdx)) r.(TIMERS.Timers)).

(** ** [TimerTick] refines [tick_timers]

    [Q l s]: the handlers of [l] have run, in that order, and led to [s] up to
    the timer table. *)
Section TickRefinement.
Context `{!TimerCallbacks} (Q : list (TimerHandler * Z) -> Machine.t -> Prop).
Hypothesis Q_timers : forall l s f, Q l s -> Q l (s <| Machine.Timers ::= f |>).
Context (allowed : TimerHandler * Z -> Prop).
Hypothesis Q_run : forall l h p s, allowed (h, p) -> Q l s ->
  wp (run_handler h p) (fun _ s' =>
    s'.(Machine.Timers) = s.(Machine.Timers) /\ Q (l ++ [(h, p)]) s') s.

Definition may_fire (t : TIMER.t) : Prop :=
  exists h, t.(TIMER.Handler) = Some h /\ allowed (h, t.(TIMER.Param)).

Lemma TimerTick_body_wp i t l s :
  nthZ (timers s) i = Some t -> may_fire t -> Q l s ->
  let now := s.(Machine.Timers).(TIMERS.NsecondsTotal) in
  wp (TimerTick_body i) (fun _ s' =>
    s'.(Machine.Timers) =
      s.(Machine.Timers) <| TIMERS.Timers ::= (fun ts => updZ ts i (tick_timer now t)) |> /\
    Q (l ++ fired now [t]) s') s.
Proof.
  intros Ht (h & Hh & Hal) HQ now. pose proof (nthZ_Some _ _ _ Ht) as Hi.
  unfold TimerTick_body, fired, tick_timer, expires. simpl omap.
  eapply wp_at_bind; [exact Ht|]. apply wp_gets_bind. fold now.
  destruct (nz t.(TIMER.Active)) eqn:Ea; simpl.
  2: { apply wp_done_bind. eapply wp_at_bind; [exact Ht|]. rewrite Ea. simpl.
       apply wp_done. rewrite app_nil_r. split; [|done].
       unfold timers in Ht. rewrite updZ_id by done. by destruct s.(Machine.Timers). }
  eapply wp_upd_bind; [exact Ht|done|]. intros s1 Hs1 Ht1.
  eapply wp_at_bind; [exact Ht1|]. simpl. rewrite Ea. simpl.
  destruct (s64 (t.(TIMER.TimeToFire) - now) <=? 0) eqn:Ef; simpl.
  2: { apply wp_done. rewrite app_nil_r, Hs1. split; [done|]. by apply Q_timers. }
  eapply wp_upd_bind; [exact Ht1|done|]. intros s2 Hs2 Ht2.
  rewrite Hh. apply wp_bind, wp_ret. apply wp_bind.
  eapply wp_mono; [|apply (Q_run l); [exact Hal|]].
  2: { rewrite Hs2, Hs1. by do 2 apply Q_timers. }
  intros [] s3 [Hs3 HQ3]. simpl.
  assert (nthZ (timers s3) i = Some (t <| TIMER.TimeToFire := 0 |>)) as Ht3.
  { unfold timers. rewrite Hs3. exact Ht2. }
  eapply wp_at_bind; [exact Ht3|]. simpl.
  destruct (nz t.(TIMER.OneShot)); simpl.
  - eapply wp_upd_bind; [exact Ht3|done|]. intros s4 Hs4 Ht4.
    eapply wp_upd_at; [exact Ht4|]. rewrite Hs4. split; [|by do 2 apply Q_timers].
    cbn. rewrite Hs3, Hs2, Hs1. cbn. by rewrite !updZ_updZ, Hh.
  - apply wp_done_bind. eapply wp_upd_at; [exact Ht3|]. split; [|by apply Q_timers].
    cbn. rewrite Hs3, Hs2, Hs1. cbn. by rewrite !updZ_updZ, Hh.
Qed.

(** The table when the loop stands at [i]. *)
Definition tick_prefix (now : Z) (i : nat) (ts : list TIMER.t) : list TIMER.t :=
  map (tick_timer now) (take i ts) ++ drop i ts.

Lemma tick_prefix_lookup now i ts t : ts !! i = Some t ->
  nthZ (tick_prefix now i ts) (Z.of_nat i) = Some t /\
  updZ (tick_prefix now i ts) (Z.of_nat i) (tick_timer now t) = tick_prefix now (S i) ts.
Proof.
  intros Ht. unfold nthZ, updZ, tick_prefix. rewrite (proj2 (Z.leb_le 0 _)), Nat2Z.id by lia.
  pose proof (lookup_lt_Some _ _ _ Ht).
  assert (length (map (tick_timer now) (take i ts)) = i) as Hl.
  { rewrite length_map, length_take. lia. }
  rewrite (drop_S ts t i Ht), (take_S_r ts i t Ht). split.
  - by rewrite lookup_app_r, Hl, Nat.sub_diag by lia.
  - rewrite insert_app_r_alt, Hl, Nat.sub_diag by lia. simpl.
    by rewrite map_app, <- app_assoc.
Qed.

Lemma TimerTick_loop_wp r l0 fuel i s :
  let n := Z.to_nat r.(TIMERS.TimersIdx) in
  let now := r.(TIMERS.NsecondsTotal) in
  0 <= r.(TIMERS.TimersIdx) <= Z.of_nat (length r.(TIMERS.Timers)) ->
  Forall may_fire (take n r.(TIMERS.Timers)) ->
  (n < i + fuel)%nat -> (i <= n)%nat ->
  s.(Machine.Timers) = r <| TIMERS.Timers := tick_prefix now i r.(TIMERS.Timers) |> ->
  Q (l0 ++ fired now (take i r.(TIMERS.Timers))) s ->
  wp (TimerTick_loop fuel (Z.of_nat i)) (fun _ s' =>
    s'.(Machine.Timers) = r <| TIMERS.Timers := tick_prefix now n r.(TIMERS.Timers) |> /\
    Q (l0 ++ fired now (take n r.(TIMERS.Timers))) s') s.
Proof.
  intros n now Hn Hall. revert i s.
  induction fuel as [|fuel IH]; intros i s Hf Hi Hs HQ; simpl; [lia|].
  apply wp_gets_bind. rewrite Hs. simpl.
  destruct (Z.ltb_spec (Z.of_nat i) r.(TIMERS.TimersIdx)).
  2: { apply wp_done. replace n with i by (unfold n in *; lia). done. }
  destruct (lookup_lt_is_Some_2 r.(TIMERS.Timers) i) as [t Ht]; [lia|].
  destruct (tick_prefix_lookup now i _ t Ht) as [Hnth Hupd].
  assert (may_fire t) as Hmf.
  { eapply Forall_lookup_1; [exact Hall|]. rewrite lookup_take_lt; [done|]. unfold n. lia. }
  apply wp_bind. eapply wp_mono; [|eapply TimerTick_body_wp; [|done|exact HQ]].
  2: { unfold timers. by rewrite Hs. }
  intros [] s' [Hs' HQ']. rewrite Hs in Hs', HQ'. cbn in Hs', HQ'.
  fold now in Hs'. rewrite Hupd in Hs'.
  replace (Z.of_nat i + 1) with (Z.of_nat (S i)) by lia.
  apply IH; [lia|unfold n; lia|done|].
  rewrite (take_S_r _ i t Ht). unfold fired in *. rewrite omap_app, app_assoc. done.
Qed.

End TickRefinement.

(** ** Invariant and single operations *)

(** The array has its C size, [TimersIdx] counts registrations inside it, and
    every slot below it has a handler: [TimerTick] never calls a null pointer. *)
Definition timers_inv (s : Machine.t) : Prop := registered s.(Machine.Timers).

Lemma timers_inv_upd s i t' :
  (forall t, nthZ (timers s) i = Some t -> is_Some t.(TIMER.Handler) -> is_Some t'.(TIMER.Handler)) ->
  timers_inv s -> timers_inv (upd_field timers (fun l => updZ l i t') s).
Proof.
  intros Ht' (Hn & Hlen & Hreg). unfold timers_inv, registered. cbn.
  rewrite length_updZ. split; [done|]. split; [done|].
  unfold updZ, nthZ, timers in *. destruct (0 <=? i); [|done].
  destruct (decide (Z.to_nat i < Z.to_nat (TIMERS.TimersIdx (Machine.Timers s)))%nat).
  - rewrite take_insert_lt by done. apply Forall_insert; [done|].
    destruct (lookup_lt_is_Some_2 (TIMERS.Timers (Machine.Timers s)) (Z.to_nat i)) as [t Ht]; [lia|].
    apply (Ht' t Ht). apply (Forall_lookup_1 _ _ (Z.to_nat i) t Hreg). by rewrite lookup_take_lt.
  - by rewrite take_insert_ge by lia.
Qed.

Lemma preserves_timer_upd i f :
  (forall t, is_Some t.(TIMER.Handler) -> is_Some (f t).(TIMER.Handler)) ->
  Preserves timers_inv (upd_at timers i f).
Proof.
  intros Hf. apply preserves_upd_at. intros s x Hx. apply timers_inv_upd.
  intros t Ht. assert (t = x) as -> by congruence. apply Hf.
Qed.

#[export] Instance TimerActivate_inv i n o : Preserves timers_inv (TimerActivate i n o).
Proof. by apply preserves_timer_upd. Qed.
#[export] Instance TimerDeactivate_inv i : Preserves timers_inv (TimerDeactivate i).
Proof.
  apply within_bind; [apply _|by apply preserves_timer_upd|]. intros [].
  apply within_bind; [apply _|apply _|]. intros. by apply preserves_timer_upd.
Qed.

(** Filling slot [TimersIdx] and advancing it. *)
Lemma preserves_register t' : is_Some t'.(TIMER.Handler) ->
  Preserves timers_inv
    (TimersIdx ← get_TimersIdx; upd_at timers TimersIdx (fun _ => t') ;; next_TimersIdx).
Proof.
  intros Ht' s. unfold wlp, next_TimersIdx, get_TimersIdx, upd_at. mred.
  destruct (nthZ (timers s) _) as [t|] eqn:E; [|done].
  intros (Hn & Hlen & Hreg). pose proof (nthZ_Some _ _ _ E) as Hb.
  unfold timers_inv, registered, timers, updZ in *. cbn. rewrite u32_small by (split; lia).
  rewrite (proj2 (Z.leb_le 0 _)) by lia. rewrite length_insert. split_and!; [lia|lia|done|].
  set (n := TIMERS.TimersIdx _) in *.
  replace (Z.to_nat (n + 1)) with (S (Z.to_nat n)) by lia.
  rewrite (take_S_r _ _ t') by (apply list_lookup_insert_eq; lia).
  apply Forall_app. rewrite take_insert_ge by lia. auto.
Qed.

#[export] Instance TimerCreate_inv h p : Preserves timers_inv (TimerCreate h p).
Proof. apply preserves_register. done. Qed.
#[export] Instance TimerRegister_inv n h p : Preserves timers_inv (TimerRegister n h p).
Proof. apply preserves_register. done. Qed.

#[export] Instance TimerTick_inv `{!TimerCallbacks}
  `{!forall h p, Preserves timers_inv (run_handler h p)} k : Preserves timers_inv (TimerTick k).
Proof.
  assert (forall i f, (forall t, is_Some t.(TIMER.Handler) -> is_Some (f t).(TIMER.Handler)) ->
    Preserves timers_inv (upd_at timers i f)) as Hu by apply preserves_timer_upd.
  assert (forall i, Preserves timers_inv (TimerTick_body i)) as Hb.
  { intros i. unfold TimerTick_body.
    repeat (apply within_bind; [apply _| |intros]);
      try (apply within_when); try apply _; try (by apply Hu).
    repeat (apply within_bind; [apply _| |intros]);
      try (apply within_when); try apply _; by apply Hu. }
  assert (forall n i, Preserves timers_inv (TimerTick_loop n i)).
  { induction n; intros; simpl; apply _. }
  unfold TimerTick, TimerGetClockNs, TimerGetTotalTicks. apply _.
Qed.

(** What a device may do with its timers, for a relation [R] between machines. *)
Class TimerSafe (R : Machine.t -> Machine.t -> Prop) : Prop := {
  safe_activate i n o : Within R (TimerActivate i n o);
  safe_deactivate i : Within R (TimerDeactivate i)
}.
#[export] Hint Extern 1 (Within ?R (TimerActivate _ _ _)) =>
  match goal with H : TimerSafe R |- _ => exact (@safe_activate R H _ _ _) end : typeclass_instances.
#[export] Hint Extern 1 (Within ?R (TimerDeactivate _)) =>
  match goal with H : TimerSafe R |- _ => exact (@safe_deactivate R H _) end : typeclass_instances.
#[export] Hint Extern 2 (TimerSafe (keeps _)) =>
  (split; intros; unfold TimerActivate, TimerDeactivate, get_TimersIdx; apply _) : typeclass_instances.
#[export] Hint Extern 3 (TimerSafe (preserves _)) =>
  (split; intros; unfold TimerActivate, TimerDeactivate, get_TimersIdx; apply _) : typeclass_instances.
#[export] Instance timers_inv_safe : TimerSafe (preserves timers_inv).
Proof. split; apply _. Qed.

(** The clock is the low half of the tick count: two tick counts that differ by
    a multiple of [2^32] read the same time, which never reaches [2^30]. *)
Lemma TimerGetClockNs_wraps s k :
  s.(Machine.Timers).(TIMERS.TicksTotal) = k * 2 ^ 32 -> TimerGetClockNs s = Ok 0 s.
Proof.
  intros Hk. rewrite TimerGetClockNs_run, Hk. unfold clock_of_ticks.
  by rewrite Z.mod_mul by lia.
Qed.

(** [TimerDeactivate] stops the timer but resets the period of the slot after
    the last registered timer, not of the one it stops. *)
Lemma TimerDeactivate_wp s Index t :
  timers_inv s -> nthZ (timers s) Index = Some t ->
  let n := s.(Machine.Timers).(TIMERS.TimersIdx) in
  Index <> n -> n < MAX_TIMERS ->
  wp (TimerDeactivate Index) (fun _ s' =>
    nthZ (timers s') Index = Some (t <| TIMER.Active := 0 |>)) s.
Proof.
  intros (Hn & Hlen & _) Ht n Hne Hmax. unfold TimerDeactivate, MAX_TIMERS in *.
  eapply wp_upd_bind; [exact Ht|done|]. intros s1 Hs1 Ht1.
  apply wp_gets_bind.
  assert (n = s1.(Machine.Timers).(TIMERS.TimersIdx)) as <- by by rewrite Hs1.
  assert (length (timers s1) = 32%nat) as Hl1.
  { rewrite Hs1. unfold timers. cbn. by rewrite length_updZ. }
  destruct (nthZ_is_Some (timers s1) n) as [t' Ht']; [unfold n in *; lia|].
  eapply wp_upd_at; [exact Ht'|]. cbn. by rewrite nthZ_updZ_ne.
Qed.

(** With every slot registered it writes past the array. *)
Lemma TimerDeactivate_full s Index :
  timers_inv s -> s.(Machine.Timers).(TIMERS.TimersIdx) = MAX_TIMERS ->
  TimerDeactivate Index s = Fault OutOfBounds.
Proof.
  intros (_ & Hlen & _) Hn. unfold TimerDeactivate, upd_at, get_TimersIdx. mred.
  unfold MAX_TIMERS in Hn.
  destruct (nthZ (timers s) Index) as [t|]; [|done].
  destruct (nthZ _ _) eqn:E; [|done]. exfalso.
  apply nthZ_Some in E. unfold timers in *. cbn in E. rewrite Hn, length_updZ in E. lia.
Qed.

(** A fresh timer has [TimeToFire = 0] and [TimerActivate] leaves it so. *)
Lemma TimerActivate_fires_at_once s Index t Nseconds OneShot now :
  nthZ (timers s) Index = Some t -> t.(TIMER.TimeToFire) = 0 -> 0 <= now < 2 ^ 63 ->
  wp (TimerActivate Index Nseconds OneShot) (fun _ s' =>
    exists t', nthZ (timers s') Index = Some t' /\ expires now t' = true) s.
Proof.
  intros Ht H0 Hnow. eapply wp_upd_at; [exact Ht|]. eexists. split.
  - cbn. apply nthZ_updZ_eq. by eapply nthZ_Some.
  - unfold expires. cbn. rewrite H0. apply Z.leb_le. unfold s64, signed.
    change (2 ^ (64 - 1)) with (2 ^ 63). change (2 ^ 64) with (2 * 2 ^ 63).
    rewrite Z.mod_small by lia. lia.
Qed.

(** A machine with two timers, of which the first expires within 40 ticks, and
    handlers that issue one request. *)
Definition example_callbacks : TimerCallbacks := fun _ p =>
  modify (fun s => s <| Machine.ioctls ::= cons (GVM_INTERRUPT p) |>).
Definition example_machine : Machine.t :=
  Machine.zero <| Machine.Timers := TIMERS.mk 2 0 0
    ([TIMER.mk (Some fn_AcpiTimerHandler) 10 5 1 1 0;
      TIMER.mk (Some fn_IdeTimerHandler) 100 100 2 1 1] ++ replicate 30 TIMER.zero) |>.

