(* ===== verification/Apic.v ===== *)
(** apic.c: the local APIC.

    [Lapic] holds one local APIC.  Interrupt vectors wait in
    [InterruptRequestRegister] and are serviced in [InterruptServiceRegister],
    sixteen vectors to a row; the row number is the priority class.  The end of
    a level-triggered interrupt is told to the I/O APIC through the interface
    [EoiBroadcast], which IoApic.v implements. *)

From S2P Require Export Registry Timer.

(** apic.h *)
Definition LAPIC_VERSION_VALUE : Z := 0x10.
Definition MSR_IA32_APICBASE : Z := 0x1b.
Definition APIC_DEFAULT_MMIO : Z := 0xfee00000.
Definition APIC_MSR_SW_EN : Z := bit 11.
Definition APIC_MSR_BSP : Z := bit 8.
Definition NUM_LOCAL_APICS : Z := 1.
Definition APIC_LVT_ENTRIES : Z := 7.
Definition APIC_LVT_TIMER : Z := 0.
Definition APIC_LVT_CMCI : Z := 6.
Definition LAPIC_LVT_MASKED : Z := bit 16.
Definition LAPIC_RAISED : Z := bit 14.
Definition LAPIC_TIMER_PERIODIC : Z := bit 17.
Definition LAPIC_TRIGGER_MODE_MASK : Z := bit 15.
Definition LAPIC_DESTINATION_MODE_MASK : Z := bit 11.
Definition DESTINATION_MODE_PHYSICAL : Z := 0.
Definition DELIVERY_MODE_FIXED : Z := 0.
Definition DELIVERY_MODE_LOW_PRI : Z := 0x100.
Definition DELIVERY_MODE_SMI : Z := 0x200.
Definition DELIVERY_MODE_NMI : Z := 0x400.
Definition DELIVERY_MODE_INIT : Z := 0x500.
Definition DELIVERY_MODE_SIPI : Z := 0x600.
Definition DELIVERY_MODE_EXT : Z := 0x700.
Definition DELIVERY_MODE_MASK : Z := 0x700.
Definition LAPIC_DSH_APICID : Z := 0.
Definition LAPIC_DSH_SELF : Z := bit 18.
Definition LAPIC_DSH_ALL : Z := bit 19.
Definition LAPIC_DSH_ALL_NO_SELF : Z := 3 <<. 18.
Definition LAPIC_DSH_MASK : Z := 3 <<. 18.
Definition APIC_ERR_ILLEGAL_ADDR : Z := 0x80.
Definition APIC_ERR_TX_ACCEPT_ERR : Z := 0x04.
Definition LAPIC_ESR_RECV_ILLEGAL_VECTOR : Z := bit 6.

Definition LAPIC_ID : Z := 0x020.
Definition LAPIC_VERSION : Z := 0x030.
Definition LAPIC_TPR : Z := 0x080.
Definition LAPIC_ARBITRATION_PRIORITY : Z := 0x090.
Definition LAPIC_PPR : Z := 0x0A0.
Definition LAPIC_EOI : Z := 0x0B0.
Definition LAPIC_RRD : Z := 0x0C0.
Definition LAPIC_LDR : Z := 0x0D0.
Definition LAPIC_DESTINATION_FORMAT : Z := 0x0E0.
Definition LAPIC_SPURIOUS_VECTOR : Z := 0x0F0.
Definition LAPIC_ISR1 : Z := 0x100.
Definition LAPIC_ISR8 : Z := 0x170.
Definition LAPIC_TMR1 : Z := 0x180.
Definition LAPIC_TMR8 : Z := 0x1F0.
Definition LAPIC_IRR1 : Z := 0x200.
Definition LAPIC_IRR8 : Z := 0x270.
Definition LAPIC_ESR : Z := 0x280.
Definition LAPIC_LVT_CMCI : Z := 0x2F0.
Definition LAPIC_ICR_LO : Z := 0x300.
Definition LAPIC_ICR_HI : Z := 0x310.
Definition LAPIC_LVT_TIMER : Z := 0x320.
Definition LAPIC_LVT_ERROR : Z := 0x370.
Definition LAPIC_TIMER_INITIAL_COUNT : Z := 0x380.
Definition LAPIC_TIMER_CURRENT_COUNT : Z := 0x390.
Definition LAPIC_TIMER_DIVIDE_CFG : Z := 0x3E0.

(** ** Priorities *)

Definition ApicHighestVectorBit (Register : Z) : Z :=
  scan_down 15 (fun i => Register &? bit i).

Definition ApicHighestPriority (InterruptRegister : list Z) : Z :=
  scan_down 15 (fun i => nth0 InterruptRegister i &? 0xffff).

Definition lapic (i : Z) : IO LAPIC.t := at_ Machine.Lapic i.
Definition upd_lapic (i : Z) (f : LAPIC.t -> LAPIC.t) : IO unit := upd_at Machine.Lapic i f.

Definition process_priority (l : LAPIC.t) : Z :=
  let ppr := ApicHighestPriority l.(LAPIC.InterruptServiceRegister) in
  if ppr <? l.(LAPIC.TaskPriority) then u8 l.(LAPIC.TaskPriority) else ppr.

Definition ApicGetProcessPriority (ApicId : Z) : IO Z :=
  l ← lapic ApicId;
  mret (process_priority l).

Definition ApicGetArbitrationPriority (ApicId : Z) : IO Z :=
  ppr ← ApicGetProcessPriority ApicId;
  l ← lapic ApicId;
  let irrPrio := ApicHighestPriority l.(LAPIC.InterruptRequestRegister) in
  mret (if ppr <? irrPrio then irrPrio else ppr).

Definition ApicMatchLogicalAddress (l : LAPIC.t) (Destination : Z) : Z :=
  if l.(LAPIC.DestinationFormat) =? 0xf then Destination &. l.(LAPIC.DestinationLogical)
  else if l.(LAPIC.DestinationFormat) =? 0 then
    if Destination =? 0xff then 1
    else if (Destination &. 0xf0) =? (l.(LAPIC.DestinationLogical) &. 0xf0) then
      (Destination &. l.(LAPIC.DestinationLogical)) &. 0x0f
    else 0
  else 0.

Definition request_window : IO unit :=
  modify (fun s => s <| Machine.kvm_run ::= (fun r => r <| kvm_run.request_interrupt_window := 1 |>) |>).

Definition ApicService (ApicId : Z) : IO unit :=
  ppr ← ApicGetProcessPriority ApicId;
  l ← lapic ApicId;
  let irrPrio := ApicHighestPriority l.(LAPIC.InterruptRequestRegister) in
  when (ppr <? irrPrio) (
    svmm_events ← gets Machine.svmm_events;
    if svmm_events &? EVENT_PENDING_LAPIC_INTR then done_
    else
      window ← gets (fun s => s.(Machine.kvm_run).(kvm_run.request_interrupt_window));
      if nz window then done_
      else request_window ;; set_event EVENT_PENDING_LAPIC_INTR).

(** [Register[prio] |= 1UL << n] and [Register[prio] &= ~(1UL << n)]. *)
Definition set_vector (Vector : Z) (r : list Z) : list Z :=
  alterZ (Vector >>. 4) (fun v => u16 (v |. bit (Vector &. 0xf))) r.
Definition clear_vector (Vector : Z) (r : list Z) : list Z :=
  alterZ (Vector >>. 4) (fun v => u16 (v &. ~. bit (Vector &. 0xf))) r.

(** What IoApic.v gives to this file: [IoApicReceiveEndOfInterrupt], whose only
    effect is on the I/O APIC. *)
Class EoiBroadcast := {
  IoApicReceiveEndOfInterrupt : Z -> IO unit;
  eoi_effect : Z -> IOAPIC.t -> IOAPIC.t
}.
Class EoiBroadcastLaws `{!EoiBroadcast} : Prop :=
  eoi_run v s : IoApicReceiveEndOfInterrupt v s = Ok tt (s <| Machine.IoApic ::= eoi_effect v |>).

(** ** Accepting, acknowledging and ending interrupts *)

Section Operations.
Context `{!EoiBroadcast, !Driver}.

Definition ApicReceiveEOI (Value : Z) : IO unit :=
  l ← lapic 0;
  let isrPrio := ApicHighestPriority l.(LAPIC.InterruptServiceRegister) in
  let Vector := u8 (ApicHighestVectorBit (nth0 l.(LAPIC.InterruptServiceRegister) isrPrio)
                    + isrPrio * 16) in
  if Vector =? l.(LAPIC.SpuriousVector) then done_
  else
    upd_lapic 0 (fun l => l <| LAPIC.InterruptServiceRegister ::=
      alterZ isrPrio (fun v => u16 (v &. ~. bit (Vector &. 0xf))) |>) ;;
    l ← lapic 0;
    when (nth0 l.(LAPIC.TriggerModeRegister) isrPrio &? bit (Vector &. 0xf)) (
      IoApicReceiveEndOfInterrupt Vector ;;
      upd_lapic 0 (fun l => l <| LAPIC.TriggerModeRegister ::=
        alterZ isrPrio (fun v => u16 (v &. ~. bit (Vector &. 0xf))) |>)) ;;
    ApicService 0.

Definition ApicWriteSpuriousInterrupt (value : Z) : IO unit :=
  upd_lapic 0 (fun l => l
    <| LAPIC.SpuriousVector := (value &. 0xf0) |. 0xf |>
    <| LAPIC.SoftwareEnable := (value >>. 8) &. 1 |>
    <| LAPIC.FocusDisable := (value >>. 9) &. 1 |>) ;;
  l ← lapic 0;
  when (negb (nz l.(LAPIC.SoftwareEnable))) (
    upd_lapic 0 (fun l => l <| LAPIC.LocalVectorTable ::=
      map (fun v => u32 (v |. LAPIC_LVT_MASKED)) |>)).

Definition lvt_mask : list Z :=
  [0x000710ff; 0x000117ff; 0x000117ff; 0x0001f7ff; 0x0001f7ff; 0x000110ff; 0x000117ff].

Definition ApicSetLvtEntry (ApicRegister Value : Z) : IO unit :=
  let lvt_entry := if ApicRegister =? LAPIC_LVT_CMCI then APIC_LVT_CMCI
                   else u32 (ApicRegister - LAPIC_LVT_TIMER) >>. 4 in
  mask ← of_option OutOfBounds (nthZ lvt_mask lvt_entry);
  upd_lapic 0 (fun l => l <| LAPIC.LocalVectorTable ::= alterZ lvt_entry (fun _ => Value &. mask) |>) ;;
  l ← lapic 0;
  when (negb (nz l.(LAPIC.SoftwareEnable))) (
    upd_lapic 0 (fun l => l <| LAPIC.LocalVectorTable ::=
      alterZ lvt_entry (fun v => u32 (v |. LAPIC_LVT_MASKED)) |>)).

Definition ApicSetIrq (ApicId Vector LevelSensitive : Z) : IO unit :=
  if Vector <=? 15 then
    upd_lapic ApicId (fun l => l <| LAPIC.ShadowErrorStatus ::=
      (fun v => u32 (v |. LAPIC_ESR_RECV_ILLEGAL_VECTOR)) |>)
  else
    l ← lapic ApicId;
    if nth0 l.(LAPIC.InterruptRequestRegister) (Vector >>. 4) &? bit (Vector &. 0xf) then done_
    else
      upd_lapic ApicId (fun l => l <| LAPIC.InterruptRequestRegister ::= set_vector Vector |>) ;;
      (if nz LevelSensitive then
         upd_lapic ApicId (fun l => l <| LAPIC.TriggerModeRegister ::= set_vector Vector |>)
       else
         upd_lapic ApicId (fun l => l <| LAPIC.TriggerModeRegister ::= clear_vector Vector |>)) ;;
      ApicService ApicId.

(** The two searches of [ApicBusDeliverLowPriorityInterrupt]: the first focus
    processor, and the last matching one below the priority bound, which the
    code never updates. *)
Fixpoint find_focus (ids : list Z) : IO (option Z) :=
  match ids with
  | [] => mret None
  | i :: ids =>
      l ← lapic i;
      if negb (nz l.(LAPIC.FocusDisable)) && nz l.(LAPIC.MsrEnable) then mret (Some i)
      else find_focus ids
  end.

Fixpoint find_lowest (ids : list Z) (lowestPrioTpr lowestPrioApicId Destination : Z) : IO Z :=
  match ids with
  | [] => mret lowestPrioApicId
  | i :: ids =>
      l ← lapic i;
      if nz l.(LAPIC.MsrEnable) && nz (ApicMatchLogicalAddress l Destination)
         && (l.(LAPIC.TaskPriority) <? lowestPrioTpr)
      then find_lowest ids lowestPrioTpr i Destination
      else find_lowest ids lowestPrioTpr lowestPrioApicId Destination
  end.

Definition ApicBusDeliverLowPriorityInterrupt (Vector Destination Raised TriggerMode : Z) : IO Z :=
  focus ← find_focus (seqZ 0 NUM_LOCAL_APICS);
  match focus with
  | Some i => ApicSetIrq i Vector TriggerMode ;; mret 0
  | None =>
      lowestPrioApicId ← find_lowest (seqZ 0 NUM_LOCAL_APICS) 0x10 (-1) Destination;
      if 0 <=? lowestPrioApicId then ApicSetIrq lowestPrioApicId Vector TriggerMode ;; mret 0
      else mret 1
  end.

(** Remove the pending interrupt from IRR, set it in ISR and request the next. *)
Definition ApicAcknowledgeInterrupt : IO Z :=
  svmm_events ← gets Machine.svmm_events;
  if negb (svmm_events &? EVENT_PENDING_LAPIC_INTR) then stop Exit
  else
    l ← lapic 0;
    let irrPrio := ApicHighestPriority l.(LAPIC.InterruptRequestRegister) in
    ppr ← ApicGetProcessPriority 0;
    if irrPrio <? ppr then
      clear_event EVENT_PENDING_LAPIC_INTR ;; mret l.(LAPIC.SpuriousVector)
    else
      let Vector := u8 (ApicHighestVectorBit (nth0 l.(LAPIC.InterruptRequestRegister) irrPrio)
                        + irrPrio * 16) in
      upd_lapic 0 (fun l => l <| LAPIC.InterruptRequestRegister ::= clear_vector Vector |>) ;;
      upd_lapic 0 (fun l => l <| LAPIC.InterruptServiceRegister ::= set_vector Vector |>) ;;
      clear_event EVENT_PENDING_LAPIC_INTR ;;
      ApicService 0 ;;
      mret Vector.

(** [DeviceIoControl] for an SMI or an NMI: status 1 either way, since the
    [switch] falls to [return 1]. *)
Definition ApicBusDeliverInterrupt
    (Vector Destination DestinationMode DeliveryMode Raised TriggerMode : Z) : IO Z :=
  let DeliveryMode :=
    if (DestinationMode =? DESTINATION_MODE_PHYSICAL) && (DeliveryMode =? DELIVERY_MODE_LOW_PRI)
    then DELIVERY_MODE_FIXED else DeliveryMode in
  if DeliveryMode =? DELIVERY_MODE_FIXED then
    if DestinationMode =? DESTINATION_MODE_PHYSICAL then
      when (Destination <? NUM_LOCAL_APICS) (
        l ← lapic Destination;
        when (nz l.(LAPIC.MsrEnable)) (ApicSetIrq Destination Vector TriggerMode)) ;;
      mret 0
    else
      foreach (seqZ 0 NUM_LOCAL_APICS) (fun cpuId =>
        l ← lapic cpuId;
        when (nz l.(LAPIC.MsrEnable) && nz (ApicMatchLogicalAddress l Destination))
          (ApicSetIrq cpuId Vector TriggerMode)) ;;
      mret 0
  else if DeliveryMode =? DELIVERY_MODE_LOW_PRI then
    ApicBusDeliverLowPriorityInterrupt Vector Destination Raised TriggerMode
  else if DeliveryMode =? DELIVERY_MODE_SMI then
    _ ← DeviceIoControl GVM_SMI; mret 1
  else if DeliveryMode =? DELIVERY_MODE_NMI then
    _ ← DeviceIoControl GVM_NMI; mret 1
  else if (DeliveryMode =? DELIVERY_MODE_INIT) || (DeliveryMode =? DELIVERY_MODE_SIPI)
          || (DeliveryMode =? DELIVERY_MODE_EXT) then mret 1
  else stop Exit.

(** The loops of the two broadcast shorthands keep the last status. *)
Fixpoint deliver_all (ids : list Z) (skip : option Z) (deliver : IO Z) (Status : Z) : IO Z :=
  match ids with
  | [] => mret Status
  | cpuId :: ids =>
      if bool_decide (skip = Some cpuId) then deliver_all ids skip deliver Status
      else Status' ← deliver; deliver_all ids skip deliver Status'
  end.

Definition ApicSendIpi (Vector Destination DestinationMode DeliveryMode Raised TriggerMode
    DestinationShorthand : Z) : IO Z :=
  if DeliveryMode =? DELIVERY_MODE_INIT then
    ApicBusDeliverLowPriorityInterrupt Vector Destination Raised TriggerMode
  else
    let deliver := ApicBusDeliverInterrupt Vector Destination DestinationMode DeliveryMode
                     Raised TriggerMode in
    Status ←
      (if DestinationShorthand =? LAPIC_DSH_APICID then deliver
       else if DestinationShorthand =? LAPIC_DSH_SELF then
         ApicSetIrq Destination Vector TriggerMode ;; mret 0
       else if DestinationShorthand =? LAPIC_DSH_ALL_NO_SELF then
         l ← lapic 0;
         deliver_all (seqZ 0 NUM_LOCAL_APICS) (Some l.(LAPIC.ApicId)) deliver 0
       else if DestinationShorthand =? LAPIC_DSH_ALL then
         deliver_all (seqZ 0 NUM_LOCAL_APICS) None deliver 0
       else mret 0);
    when (nz Status) (
      upd_lapic 0 (fun l => l <| LAPIC.ShadowErrorStatus ::=
        (fun v => u32 (v |. APIC_ERR_TX_ACCEPT_ERR)) |>)) ;;
    mret Status.

(** ** The timer *)

Definition ApicGetNextTimerCount (CurrentTime : Z) : IO Z :=
  l ← lapic 0;
  let shift := l.(LAPIC.TimerDivideConfigurationRegister) in
  let count := l.(LAPIC.TimerInitialCountRegister) in
  TimePassed ← shr64 (u64 (CurrentTime - l.(LAPIC.TimerInitialLoadTime))) shift;
  if nth0 l.(LAPIC.LocalVectorTable) APIC_LVT_TIMER &? LAPIC_TIMER_PERIODIC then
    if negb (nz count) then mret 0
    else
      let TimePassed := u64 ((u64 (TimePassed / (count + 1) + 1)) * (count + 1)) in
      passed ← shl64 TimePassed shift;
      mret (u64 (l.(LAPIC.TimerInitialLoadTime) + passed))
  else if count <=? TimePassed then mret 0
  else
    passed ← shl64 (count + 1) shift;
    mret (u64 (l.(LAPIC.TimerInitialLoadTime) + passed)).

Definition not_periodic (l : LAPIC.t) : Z :=
  b2z (negb (nth0 l.(LAPIC.LocalVectorTable) APIC_LVT_TIMER &? LAPIC_TIMER_PERIODIC)).

Definition ApicTimerHandler (Param : Z) : IO unit :=
  let apicId := u32 Param in
  if NUM_LOCAL_APICS <=? apicId then done_
  else
    l ← lapic apicId;
    let lvt := nth0 l.(LAPIC.LocalVectorTable) APIC_LVT_TIMER in
    if lvt &? LAPIC_LVT_MASKED then done_
    else
      _ ← ApicBusDeliverInterrupt (lvt &. 0xff) apicId DESTINATION_MODE_PHYSICAL
            (lvt &. DELIVERY_MODE_MASK) LAPIC_RAISED (lvt &. LAPIC_TRIGGER_MODE_MASK);
      l ← lapic 0;
      TimerNextExpire ← ApicGetNextTimerCount l.(LAPIC.TimerInitialLoadTime);
      upd_lapic 0 (fun l => l <| LAPIC.TimerNextExpire := TimerNextExpire |>) ;;
      l ← lapic 0;
      TimerActivate l.(LAPIC.TimerId) l.(LAPIC.TimerNextExpire) (not_periodic l).

(** ** Reset and the APIC base MSR *)

Definition set_apic_base (data : Z) : IO unit :=
  ret ← DeviceIoControl (GVM_SET_MSRS MSR_IA32_APICBASE data);
  if negb ret then stop Exit else done_.

Definition ApicReset : IO unit :=
  upd_lapic 0 (fun l => l
    <| LAPIC.ApicVersion := ((APIC_LVT_ENTRIES - 1) <<. 16) |. LAPIC_VERSION_VALUE |>
    <| LAPIC.SpuriousVector := 0xff |>
    <| LAPIC.MsrEnable := 1 |>
    <| LAPIC.SoftwareEnable := 0 |>) ;;
  foreach (seqZ 0 NUM_LOCAL_APICS) (fun i =>
    upd_lapic i (fun l => l <| LAPIC.ApicId := i |>) ;;
    TimerId ← TimerCreate fn_ApicTimerHandler i;
    upd_lapic i (fun l => l <| LAPIC.TimerId := TimerId |>)) ;;
  set_apic_base (APIC_DEFAULT_MMIO |. APIC_MSR_BSP).

Definition ApicSetMsr (Value : Z) : IO unit :=
  upd_lapic 0 (fun l => l <| LAPIC.MsrEnable := (if Value &? APIC_MSR_SW_EN then 1 else 0) |>) ;;
  upd_lapic 0 (fun l => l <| LAPIC.MsrEnable := 1 |>) ;;
  set_apic_base ((APIC_DEFAULT_MMIO |. APIC_MSR_BSP)
                 |. (if Value &? APIC_MSR_SW_EN then APIC_MSR_SW_EN else 0)).

Definition ApicInitialize : IO unit :=
  modify (fun s => s <| Machine.Lapic := replicate 1 LAPIC.zero |>) ;;
  MmioRegisterHandler APIC_DEFAULT_MMIO 0x1000 (Some cb_Apic) (Some cb_Apic) ;;
  ApicReset ;;
  ApicSetMsr APIC_MSR_SW_EN.

(** ** The MMIO page *)

Definition write_tpr (Value : Z) : IO unit :=
  if 15 <? Value then done_
  else
    l ← lapic 0;
    if Value <? l.(LAPIC.TaskPriority) then
      upd_lapic 0 (fun l => l <| LAPIC.TaskPriority := Value &. 0xff |>) ;;
      ApicService 0
    else upd_lapic 0 (fun l => l <| LAPIC.TaskPriority := Value &. 0xff |>).

Definition write_icr_lo (Value : Z) : IO unit :=
  upd_lapic 0 (fun l => l <| LAPIC.InterruptCommandRegisterLow := u32 (Value &. ~. bit 12) |>) ;;
  l ← lapic 0;
  let lo := l.(LAPIC.InterruptCommandRegisterLow) in
  _ ← ApicSendIpi (lo &. 0xff) (l.(LAPIC.InterruptCommandRegisterHigh) >>. 24)
        (lo &. LAPIC_DESTINATION_MODE_MASK) (lo &. DELIVERY_MODE_MASK) (lo &. LAPIC_RAISED)
        (lo &. LAPIC_TRIGGER_MODE_MASK) (lo &. LAPIC_DSH_MASK);
  done_.

Definition write_initial_count (Value : Z) : IO unit :=
  l ← lapic 0;
  active ← TimerGetState l.(LAPIC.TimerId);
  when (nz active) (TimerDeactivate l.(LAPIC.TimerId)) ;;
  when (nz Value) (
    now ← TimerGetClockNs;
    upd_lapic 0 (fun l => l <| LAPIC.TimerInitialCountRegister := Value |>
                            <| LAPIC.TimerInitialLoadTime := now |>) ;;
    l ← lapic 0;
    TimerActivate l.(LAPIC.TimerId)
      (u64 (l.(LAPIC.TimerInitialLoadTime) +
            u64 (l.(LAPIC.TimerInitialCountRegister) * l.(LAPIC.TimerDivideConfigurationRegister))))
      (not_periodic l)).

Definition write_divide_cfg (Value : Z) : IO unit :=
  let Value := ((Value &. 8) >>. 1) |. (Value &. 3) in
  upd_lapic 0 (fun l => l <| LAPIC.TimerDivideConfigurationRegister :=
    (if Value =? 7 then 1 else u32 (2 <<. Value)) |>).

Definition illegal_address : IO unit :=
  upd_lapic 0 (fun l => l <| LAPIC.ShadowErrorStatus ::= (fun v => u32 (v |. APIC_ERR_ILLEGAL_ADDR)) |>).

Definition is_lvt (a : Z) : bool :=
  ((LAPIC_LVT_TIMER <=? a) && (a <=? LAPIC_LVT_ERROR)) || (a =? LAPIC_LVT_CMCI).

(** The registers a write leaves alone; [a] is a multiple of 16. *)
Definition is_read_only (a : Z) : bool :=
  (a =? LAPIC_ID) || (a =? LAPIC_VERSION) || (a =? LAPIC_ARBITRATION_PRIORITY)
  || (a =? LAPIC_RRD) || (a =? LAPIC_PPR)
  || ((LAPIC_ISR1 <=? a) && (a <=? LAPIC_IRR8))
  || (a =? LAPIC_TIMER_CURRENT_COUNT).

Definition ApicMMIOWriteHandler (Address : Z) (Data : list Z) (Length : Z) : IO unit :=
  if negb (Length =? 4) || (Address &? 0xf) then done_
  else
    let Value := le_read 4 Data in
    let a := Address &. 0xff0 in
    if a =? LAPIC_TPR then write_tpr Value
    else if a =? LAPIC_EOI then ApicReceiveEOI Value
    else if a =? LAPIC_LDR then
      upd_lapic 0 (fun l => l <| LAPIC.DestinationLogical := (Value >>. 24) &. 0xf |>)
    else if a =? LAPIC_DESTINATION_FORMAT then
      upd_lapic 0 (fun l => l <| LAPIC.DestinationFormat := (Value >>. 28) &. 0xf |>)
    else if a =? LAPIC_SPURIOUS_VECTOR then ApicWriteSpuriousInterrupt Value
    else if a =? LAPIC_ESR then
      upd_lapic 0 (fun l => l <| LAPIC.ErrorStatus := l.(LAPIC.ShadowErrorStatus) |>
                              <| LAPIC.ShadowErrorStatus := 0 |>)
    else if a =? LAPIC_ICR_LO then write_icr_lo Value
    else if a =? LAPIC_ICR_HI then
      upd_lapic 0 (fun l => l <| LAPIC.InterruptCommandRegisterHigh := Value &. 0xff000000 |>)
    else if is_lvt a then ApicSetLvtEntry a Value
    else if a =? LAPIC_TIMER_INITIAL_COUNT then write_initial_count Value
    else if a =? LAPIC_TIMER_DIVIDE_CFG then write_divide_cfg Value
    else if is_read_only a then done_
    else illegal_address.

(** Two sixteen-vector rows of ISR, TMR or IRR as one register. *)
Definition read_rows (r : list Z) (offset : Z) : Z :=
  u32 (nth0 r (offset + 1) <<. 0x10) |. nth0 r offset.

Definition read_current_count : IO Z :=
  l ← lapic 0;
  active ← TimerGetState l.(LAPIC.TimerId);
  when (nz active) (
    now ← TimerGetClockNs;
    if l.(LAPIC.TimerDivideConfigurationRegister) =? 0 then stop DivByZero
    else upd_lapic 0 (fun l => l <| LAPIC.TimerInitialCountRegister ::= (fun c =>
      u32 (c - u32 (now - l.(LAPIC.TimerInitialLoadTime))
               / l.(LAPIC.TimerDivideConfigurationRegister))) |>)) ;;
  l ← lapic 0;
  mret l.(LAPIC.TimerInitialCountRegister).

Definition _ApicMMIOReadHandler (Address : Z) : IO Z :=
  let a := Address &. 0xff0 in
  l ← lapic 0;
  if a =? LAPIC_ID then mret (u32 (l.(LAPIC.ApicId) <<. 24))
  else if a =? LAPIC_VERSION then mret l.(LAPIC.ApicVersion)
  else if a =? LAPIC_TPR then mret (u32 (l.(LAPIC.TaskPriority) <<. 4) &. 0xff)
  else if a =? LAPIC_ARBITRATION_PRIORITY then ApicGetArbitrationPriority 0
  else if a =? LAPIC_PPR then ApicGetProcessPriority 0
  else if a =? LAPIC_EOI then mret 0
  else if a =? LAPIC_LDR then mret (u32 ((l.(LAPIC.DestinationLogical) &. 0xf) <<. 24))
  else if a =? LAPIC_DESTINATION_FORMAT then mret (u32 ((l.(LAPIC.DestinationFormat) &. 0xf) <<. 28))
  else if a =? LAPIC_SPURIOUS_VECTOR then
    mret (if nz l.(LAPIC.SoftwareEnable) then l.(LAPIC.SpuriousVector) |. 0x100
          else if nz l.(LAPIC.FocusDisable) then l.(LAPIC.SpuriousVector) |. 0x200
          else l.(LAPIC.SpuriousVector))
  else if a =? LAPIC_ESR then mret l.(LAPIC.ErrorStatus)
  else if a =? LAPIC_ICR_LO then mret l.(LAPIC.InterruptCommandRegisterLow)
  else if a =? LAPIC_ICR_HI then mret l.(LAPIC.InterruptCommandRegisterHigh)
  else if a =? LAPIC_LVT_CMCI then mret (nth0 l.(LAPIC.LocalVectorTable) APIC_LVT_CMCI)
  else if is_lvt a then mret (nth0 l.(LAPIC.LocalVectorTable) ((a - LAPIC_LVT_TIMER) >>. 4))
  else if a =? LAPIC_TIMER_INITIAL_COUNT then mret l.(LAPIC.TimerInitialCountRegister)
  else if a =? LAPIC_TIMER_CURRENT_COUNT then read_current_count
  else if a =? LAPIC_TIMER_DIVIDE_CFG then mret l.(LAPIC.TimerDivideConfigurationRegister)
  else if (LAPIC_ISR1 <=? a) && (a <=? LAPIC_ISR8) then
    mret (read_rows l.(LAPIC.InterruptServiceRegister) ((a - LAPIC_ISR1) >>. 3))
  else if (LAPIC_TMR1 <=? a) && (a <=? LAPIC_TMR8) then
    mret (read_rows l.(LAPIC.TriggerModeRegister) ((a - LAPIC_TMR1) >>. 3))
  else if (LAPIC_IRR1 <=? a) && (a <=? LAPIC_IRR8) then
    mret (read_rows l.(LAPIC.InterruptRequestRegister) ((a - LAPIC_IRR1) >>. 3))
  else illegal_address ;; mret 0.

(** Returns the buffer [Data] points to. *)
Definition ApicMMIOReadHandler (Address : Z) (Data : list Z) (Length : Z) : IO (list Z) :=
  if negb (Length =? 4) || (Address &? 0xf) then mret Data
  else
    Value ← _ApicMMIOReadHandler Address;
    mret (le_write 4 Value Data).
End Operations.

(** ** What the delivery of an interrupt may touch

    The local APICs, the pending events, the request of an interrupt window and
    the requests to the driver.  A relation that allows these stores relates the states
    before and after every delivery; frames and the invariants of the other
    devices are such relations. *)
Class ApicFootprint (R : Machine.t -> Machine.t -> Prop) : Prop := {
  fp_preorder :: PreOrder R;
  fp_lapic s g : R s (s <| Machine.Lapic ::= g |>);
  fp_set_event e : Within R (set_event e);
  fp_clear_lapic : Within R (clear_event EVENT_PENDING_LAPIC_INTR);
  fp_request_window : Within R request_window;
  fp_ioctls s g : R s (s <| Machine.ioctls ::= g |>)
}.

#[export] Hint Extern 2 (ApicFootprint (keeps _)) =>
  (split; [apply _|reflexivity|intros ?; apply within_modify; reflexivity
          |apply within_modify; reflexivity|apply within_modify; reflexivity|reflexivity]) : typeclass_instances.
#[export] Hint Extern 2 (ApicFootprint (preserves _)) =>
  (split; [apply _| |intros ?; apply within_modify|apply within_modify|apply within_modify| ];
   intros; let H := fresh in intros H; exact H) : typeclass_instances.

#[export] Existing Instances fp_set_event fp_clear_lapic fp_request_window.

Section Footprint.
Context (R : Machine.t -> Machine.t -> Prop) `{!ApicFootprint R} `{!Driver}.

#[export] Instance fp_upd_lapic i f : Within R (upd_lapic i f).
Proof. apply within_upd_at. intros. apply fp_lapic. Qed.
#[export] Instance fp_DeviceIoControl r : Within R (DeviceIoControl r).
Proof.
  unfold DeviceIoControl. apply within_bind; [apply _|apply _|]. intros.
  apply within_bind; [apply _|apply within_modify; intros; apply fp_ioctls|apply _].
Qed.

#[export] Instance fp_ApicService i : Within R (ApicService i).
Proof. unfold ApicService, ApicGetProcessPriority, lapic. apply _. Qed.
#[export] Instance fp_ApicSetIrq i v t : Within R (ApicSetIrq i v t).
Proof. unfold ApicSetIrq, lapic. apply _. Qed.
#[export] Instance fp_find_focus ids : Within R (find_focus ids).
Proof. induction ids; simpl; unfold lapic; apply _. Qed.
#[export] Instance fp_find_lowest ids p i d : Within R (find_lowest ids p i d).
Proof. revert i. induction ids; intros; simpl; unfold lapic; apply _. Qed.
#[export] Instance fp_low_priority v d r t : Within R (ApicBusDeliverLowPriorityInterrupt v d r t).
Proof. unfold ApicBusDeliverLowPriorityInterrupt. apply _. Qed.
#[export] Instance fp_deliver v d dm m r t : Within R (ApicBusDeliverInterrupt v d dm m r t).
Proof. unfold ApicBusDeliverInterrupt, lapic. apply _. Qed.
#[export] Instance fp_deliver_all ids k st d : Within R d -> Within R (deliver_all ids k d st).
Proof. intros. revert st. induction ids; intros; simpl; apply _. Qed.
#[export] Instance fp_ApicSendIpi v d dm m r t h : Within R (ApicSendIpi v d dm m r t h).
Proof. unfold ApicSendIpi, lapic. apply _. Qed.
#[export] Instance fp_ApicAcknowledgeInterrupt : Within R ApicAcknowledgeInterrupt.
Proof. unfold ApicAcknowledgeInterrupt, ApicGetProcessPriority, lapic. apply _. Qed.
End Footprint.

(** ** Sets of vectors *)

(** [Vector] is in the set that sixteen rows of sixteen bits stand for. *)
Definition in_vec (r : list Z) (Vector : Z) : bool :=
  Z.testbit (nth0 r (Vector >>. 4)) (Vector &. 0xf).

Definition rows (r : list Z) : Prop := length r = 16%nat /\ Forall is_u16 r.
Definition is_vector (v : Z) : Prop := 0 <= v < 256.

(** The vector [ApicReceiveEOI] and [ApicAcknowledgeInterrupt] pick. *)
Definition highest (r : list Z) : Z :=
  ApicHighestVectorBit (nth0 r (ApicHighestPriority r)) + ApicHighestPriority r * 16.

Lemma vector_row v : is_vector v -> 0 <= v >>. 4 < 16.
Proof.
  unfold is_vector. intros ?. rewrite Z.shiftr_div_pow2 by lia. change (2 ^ 4) with 16.
  split; [apply Z.div_pos; lia|apply Z.div_lt_upper_bound; lia].
Qed.

Lemma vector_bit v : 0 <= v &. 0xf < 16.
Proof. change 0xf with (Z.ones 4). rewrite Z.land_ones by lia. by apply Z.mod_pos_bound. Qed.

Lemma vector_split v : v = (v &. 0xf) + (v >>. 4) * 16.
Proof.
  change 0xf with (Z.ones 4). rewrite Z.land_ones, Z.shiftr_div_pow2 by lia.
  change (2 ^ 4) with 16. rewrite (Z.div_mod v 16) at 1 by lia. lia.
Qed.

Lemma vector_join b p : 0 <= b < 16 ->
  (b + p * 16) &. 0xf = b /\ (b + p * 16) >>. 4 = p.
Proof.
  intros Hb. change 0xf with (Z.ones 4). rewrite Z.land_ones, Z.shiftr_div_pow2 by lia.
  change (2 ^ 4) with 16. split.
  - rewrite Z.mod_add by lia. by apply Z.mod_small.
  - rewrite Z.div_add by lia. rewrite Z.div_small; lia.
Qed.

Lemma rows_nth0 r i : rows r -> is_u16 (nth0 r i).
Proof. intros [_ H]. by apply Forall_nth0. Qed.

Lemma rows_alter r i f : rows r -> (forall x, is_u16 (f x)) -> rows (alterZ i f r).
Proof.
  intros [Hl Hr] Hf. split; [by rewrite length_alterZ|]. apply Forall_alterZ; auto. lia.
Qed.

Lemma rows_set_vector v r : rows r -> rows (set_vector v r).
Proof. intros. apply rows_alter; auto with width. Qed.
Lemma rows_clear_vector v r : rows r -> rows (clear_vector v r).
Proof. intros. apply rows_alter; auto with width. Qed.

Lemma in_vec_alter r v w f g : rows r -> is_vector v -> is_vector w ->
  (forall i, 0 <= i < 16 -> Z.testbit (f (nth0 r (v >>. 4))) i =
     g (Z.testbit (nth0 r (v >>. 4)) i) (i =? (v &. 0xf))) ->
  (forall b, g b false = b) ->
  in_vec (alterZ (v >>. 4) f r) w = g (in_vec r w) (w =? v).
Proof.
  intros Hr Hv Hw Hf Hg. pose proof (vector_row v Hv). pose proof (vector_bit w).
  unfold in_vec. destruct (Z.eqb_spec (v >>. 4) (w >>. 4)) as [E|E].
  - rewrite <- E, nth0_alterZ_eq by (destruct Hr; lia). rewrite Hf by done. f_equal.
    pose proof (vector_split v). pose proof (vector_split w).
    destruct (Z.eqb_spec w v), (Z.eqb_spec (w &. 0xf) (v &. 0xf)); try done; [subst; done|lia].
  - rewrite nth0_alterZ_ne by done. destruct (Z.eqb_spec w v) as [->|]; [done|]. by rewrite Hg.
Qed.

Lemma in_vec_set r v w : rows r -> is_vector v -> is_vector w ->
  in_vec (set_vector v r) w = in_vec r w || (w =? v).
Proof.
  intros Hr Hv Hw. apply (in_vec_alter r v w _ orb); [done..| |by intros []].
  intros i Hi. pose proof (vector_bit v).
  apply (testbit_set 16); [lia|lia|by apply rows_nth0].
Qed.

Lemma in_vec_clear r v w : rows r -> is_vector v -> is_vector w ->
  in_vec (clear_vector v r) w = in_vec r w && negb (w =? v).
Proof.
  intros Hr Hv Hw. apply (in_vec_alter r v w _ (fun a b => a && negb b)); [done..| |by intros []].
  intros i Hi. pose proof (vector_bit v).
  apply (testbit_clear 16); [lia|lia|by apply rows_nth0].
Qed.

Lemma row_empty x i : is_u16 x -> (x &? 0xffff) = false -> Z.testbit x i = false.
Proof.
  intros Hx Ht. unfold tst in Ht. change 0xffff with (Z.ones 16) in Ht.
  rewrite Z.land_ones, Z.mod_small in Ht by (done || lia).
  apply negb_false_iff, Z.eqb_eq in Ht as ->. apply Z.bits_0.
Qed.

Lemma row_nonempty x : is_u16 x -> (x &? 0xffff) = true ->
  exists i, 0 <= i < 16 /\ Z.testbit x i = true.
Proof.
  intros Hx Ht. unfold tst in Ht. change 0xffff with (Z.ones 16) in Ht.
  rewrite Z.land_ones, Z.mod_small in Ht by (done || lia).
  apply negb_true_iff, Z.eqb_neq in Ht. destruct Hx. exists (Z.log2 x). split.
  - split; [apply Z.log2_nonneg|]. apply Z.log2_lt_pow2; lia.
  - apply Z.bit_log2. lia.
Qed.

Lemma highest_priority_spec r : rows r ->
  let p := ApicHighestPriority r in
  0 <= p <= 15 /\
  (0 < p -> (nth0 r p &? 0xffff) = true) /\
  (forall v, is_vector v -> in_vec r v = true -> v >>. 4 <= p).
Proof.
  intros Hr p. destruct (scan_down_spec 15 (fun i => nth0 r i &? 0xffff)) as (Hp & Hpos & Hmax); [lia|].
  fold (ApicHighestPriority r) in *. fold p in Hp, Hpos, Hmax.
  split; [done|]. split; [done|]. intros v Hv Hin.
  pose proof (vector_row v Hv). destruct (decide (v >>. 4 <= p)); [done|].
  unfold in_vec in Hin. rewrite row_empty in Hin; [done|by apply rows_nth0|].
  apply Hmax. lia.
Qed.

Lemma highest_bit_spec x : is_u16 x ->
  let b := ApicHighestVectorBit x in
  0 <= b < 16 /\
  (forall i, 0 <= i < 16 -> Z.testbit x i = true -> i <= b /\ Z.testbit x b = true).
Proof.
  intros Hx b. destruct (scan_down_spec 15 (fun i => x &? bit i)) as (Hb & Hpos & Hmax); [lia|].
  fold (ApicHighestVectorBit x) in *. fold b in Hb, Hpos, Hmax.
  split; [lia|]. intros i Hi Hbit.
  destruct (decide (i <= b)) as [Hle|].
  - split; [done|]. destruct (decide (0 < b)).
    + specialize (Hpos ltac:(done)). by rewrite tst_bit in Hpos by lia.
    + by replace b with i by lia.
  - specialize (Hmax i ltac:(lia)). rewrite tst_bit in Hmax by lia. congruence.
Qed.

Lemma highest_range r : rows r -> is_vector (highest r).
Proof.
  intros Hr. destruct (highest_priority_spec r Hr) as (Hp & _).
  destruct (highest_bit_spec (nth0 r (ApicHighestPriority r))) as (Hb & _); [by apply rows_nth0|].
  unfold highest, is_vector. lia.
Qed.

(** [highest] is the greatest vector of a set that is not empty. *)
Lemma highest_spec r v : rows r -> is_vector v -> in_vec r v = true ->
  in_vec r (highest r) = true /\ v <= highest r.
Proof.
  intros Hr Hv Hin. unfold highest. set (p := ApicHighestPriority r).
  destruct (highest_priority_spec r Hr) as (Hp & Hpos & Hmax). fold p in Hp, Hpos, Hmax.
  destruct (highest_bit_spec (nth0 r p)) as (Hb & Hbit); [by apply rows_nth0|].
  set (b := ApicHighestVectorBit (nth0 r p)) in *.
  pose proof (vector_bit v). pose proof (vector_split v). specialize (Hmax v Hv Hin).
  destruct (vector_join b p Hb) as [Hj1 Hj2].
  unfold in_vec in Hin. unfold in_vec at 1. rewrite Hj1, Hj2.
  pose proof (vector_row v Hv).
  destruct (decide (v >>. 4 = p)) as [E|E].
  - rewrite E in Hin. destruct (Hbit (v &. 0xf)) as [? ?]; [done|done|]. split; [done|lia].
  - destruct (row_nonempty (nth0 r p)) as (i & Hi & Hti); [by apply rows_nth0|apply Hpos; lia|].
    destruct (Hbit i) as [? ?]; [done|done|]. split; [done|lia].
Qed.

Lemma highest_row r : rows r -> highest r >>. 4 = ApicHighestPriority r.
Proof.
  intros Hr. unfold highest.
  destruct (highest_bit_spec (nth0 r (ApicHighestPriority r))) as (Hb & _); [by apply rows_nth0|].
  by apply vector_join.
Qed.

Lemma highest_priority_nonempty r : rows r -> 0 < ApicHighestPriority r ->
  in_vec r (highest r) = true.
Proof.
  intros Hr Hp. destruct (highest_priority_spec r Hr) as (Hp' & Hpos & _).
  destruct (row_nonempty (nth0 r (ApicHighestPriority r))) as (i & Hi & Hti);
    [by apply rows_nth0|auto|].
  destruct (highest_bit_spec (nth0 r (ApicHighestPriority r))) as (Hb & Hbit); [by apply rows_nth0|].
  destruct (Hbit i) as [_ ?]; [done|done|].
  unfold in_vec, highest. by destruct (vector_join _ (ApicHighestPriority r) Hb) as [-> ->].
Qed.

(** ** The invariant of the local APIC *)

Record lapic_wf (l : LAPIC.t) : Prop := {
  wf_isr : rows l.(LAPIC.InterruptServiceRegister);
  wf_tmr : rows l.(LAPIC.TriggerModeRegister);
  wf_irr : rows l.(LAPIC.InterruptRequestRegister);
  wf_lvt : length l.(LAPIC.LocalVectorTable) = 7%nat;
  wf_tpr : 0 <= l.(LAPIC.TaskPriority) < 16;
  wf_spurious : is_u8 l.(LAPIC.SpuriousVector);
  (** the vectors 0 to 15 are never accepted *)
  wf_irr0 : nth0 l.(LAPIC.InterruptRequestRegister) 0 = 0
}.

Definition pending (s : Machine.t) : bool := s.(Machine.svmm_events) &? EVENT_PENDING_LAPIC_INTR.

(** One well-formed local APIC, which has a request whenever one is pending. *)
Definition lapic_inv (s : Machine.t) : Prop :=
  exists l, s.(Machine.Lapic) = [l] /\ lapic_wf l /\
    (pending s = true -> 0 < ApicHighestPriority l.(LAPIC.InterruptRequestRegister)).

Lemma lapic_run s l : s.(Machine.Lapic) = [l] -> lapic 0 s = Ok l s.
Proof. intros Hl. unfold lapic, at_. by rewrite Hl. Qed.

Lemma upd_lapic_run s l f : s.(Machine.Lapic) = [l] ->
  upd_lapic 0 f s = Ok tt (s <| Machine.Lapic := [f l] |>).
Proof. intros Hl. unfold upd_lapic, upd_at. cbn. by rewrite Hl. Qed.

Lemma priority_run s l : s.(Machine.Lapic) = [l] ->
  ApicGetProcessPriority 0 s = Ok (process_priority l) s.
Proof. intros Hl. unfold ApicGetProcessPriority. by rewrite (run_bind _ _ _ _ _ (lapic_run s l Hl)). Qed.

(** Whether [ApicService] raises a request, and its effect. *)
Definition must_request (l : LAPIC.t) (s : Machine.t) : bool :=
  (process_priority l <? ApicHighestPriority l.(LAPIC.InterruptRequestRegister))
  && negb (pending s) && negb (nz s.(Machine.kvm_run).(kvm_run.request_interrupt_window)).

Definition requested (s : Machine.t) : Machine.t :=
  s <| Machine.kvm_run ::= (fun r => r <| kvm_run.request_interrupt_window := 1 |>) |>
    <| Machine.svmm_events ::= (fun v => u32 (v |. EVENT_PENDING_LAPIC_INTR)) |>.

Lemma ApicService_run s l : s.(Machine.Lapic) = [l] ->
  ApicService 0 s = Ok tt (if must_request l s then requested s else s).
Proof.
  intros Hl. unfold ApicService, must_request, pending.
  rewrite (run_bind _ _ _ _ _ (priority_run s l Hl)), (run_bind _ _ _ _ _ (lapic_run s l Hl)).
  destruct (_ <? _); simpl; [|done]. rewrite (run_bind _ _ _ _ _ (run_gets _ _)).
  destruct (_ &? _); simpl; [done|]. rewrite (run_bind _ _ _ _ _ (run_gets _ _)).
  by destruct (nz _).
Qed.

Lemma process_priority_nonneg l : lapic_wf l -> 0 <= process_priority l < 16.
Proof.
  intros Hl. unfold process_priority.
  destruct (highest_priority_spec _ (wf_isr l Hl)) as (? & _). pose proof (wf_tpr l Hl).
  destruct (_ <? _); [|lia]. rewrite u8_small by (split; lia). lia.
Qed.

Lemma lapic_inv_service s l : s.(Machine.Lapic) = [l] -> lapic_wf l ->
  (pending s = true -> 0 < ApicHighestPriority l.(LAPIC.InterruptRequestRegister)) ->
  lapic_inv (if must_request l s then requested s else s).
Proof.
  intros Hl Hwf Hp. exists l. split; [by destruct (must_request l s)|]. split; [done|].
  destruct (must_request l s) eqn:E; [|done]. intros _.
  unfold must_request in E. apply andb_true_iff in E as [[E _]%andb_true_iff _].
  apply Z.ltb_lt in E. pose proof (process_priority_nonneg l Hwf). lia.
Qed.

Lemma ApicService_inv : Preserves lapic_inv (ApicService 0).
Proof.
  intros s. apply wlp_Ok. intros [] s' Hs' (l & Hl & Hwf & Hp).
  rewrite (ApicService_run s l Hl) in Hs'. injection Hs' as <-. by apply lapic_inv_service.
Qed.
#[export] Existing Instance ApicService_inv.

(** Updates of registers the requests do not depend on. *)
Lemma preserves_upd_lapic i f :
  (forall l, lapic_wf l -> lapic_wf (f l) /\
     ApicHighestPriority l.(LAPIC.InterruptRequestRegister) <=
     ApicHighestPriority (f l).(LAPIC.InterruptRequestRegister)) ->
  Preserves lapic_inv (upd_lapic i f).
Proof.
  intros Hf. apply preserves_upd_at. intros s x Hx (l & Hl & Hwf & Hp).
  rewrite Hl in Hx. assert (i = 0 /\ x = l) as [-> ->].
  { pose proof (nthZ_Some _ _ _ Hx) as Hi. simpl in Hi. assert (i = 0) as -> by lia.
    by injection Hx as ->. }
  destruct (Hf l Hwf) as [Hwf' Hle]. exists (f l). split; [cbn; by rewrite Hl|].
  split; [done|]. intros Hpend. specialize (Hp Hpend). lia.
Qed.

Ltac lapic_upd :=
  apply preserves_upd_lapic; let l := fresh in let H := fresh in
  intros l H; split; [|simpl; lia];
  destruct H; split; simpl; rewrite ?length_alterZ, ?length_map; auto with width.
#[export] Hint Extern 1 (Within (preserves lapic_inv) (upd_lapic _ _)) => lapic_upd : typeclass_instances.

Lemma wf_set_irr l v : lapic_wf l -> 16 <= v < 256 ->
  lapic_wf (l <| LAPIC.InterruptRequestRegister ::= set_vector v |>).
Proof.
  intros [] Hv. split; simpl; auto using rows_set_vector. unfold set_vector.
  rewrite nth0_alterZ_ne; [done|]. rewrite Z.shiftr_div_pow2 by lia. change (2 ^ 4) with 16.
  pose proof (Z.div_le_lower_bound v 16 1). lia.
Qed.

Lemma wf_clear_irr l v : lapic_wf l -> 16 <= v < 256 ->
  lapic_wf (l <| LAPIC.InterruptRequestRegister ::= clear_vector v |>).
Proof.
  intros [] Hv. split; simpl; auto using rows_clear_vector. unfold clear_vector.
  rewrite nth0_alterZ_ne; [done|]. rewrite Z.shiftr_div_pow2 by lia. change (2 ^ 4) with 16.
  pose proof (Z.div_le_lower_bound v 16 1). lia.
Qed.

Lemma wf_set_isr l v : lapic_wf l ->
  lapic_wf (l <| LAPIC.InterruptServiceRegister ::= set_vector v |>).
Proof. intros []. split; simpl; auto using rows_set_vector. Qed.

Lemma pending_cleared s :
  pending (s <| Machine.svmm_events ::= (fun v => u32 (v &. ~. EVENT_PENDING_LAPIC_INTR)) |>) = false.
Proof.
  unfold pending, EVENT_PENDING_LAPIC_INTR. rewrite tst_bit by lia. cbn.
  rewrite testbit_u32, Z.land_spec, testbit_pow2_lnot by lia. simpl. by rewrite andb_false_r.
Qed.

(** A class above 0 picks a vector that may be accepted. *)
Lemma highest_accepted r : rows r -> 0 < ApicHighestPriority r -> 16 <= highest r < 256.
Proof.
  intros Hr Hp. pose proof (highest_range r Hr) as Hv.
  destruct (highest_bit_spec (nth0 r (ApicHighestPriority r))) as (Hb & _); [by apply rows_nth0|].
  unfold highest, is_vector in *. lia.
Qed.

Section Correctness.
Context `{!EoiBroadcast, !EoiBroadcastLaws, !Driver}.

(** The state after an acknowledged vector. *)
Definition in_service (v : Z) (l : LAPIC.t) : LAPIC.t :=
  l <| LAPIC.InterruptRequestRegister ::= clear_vector v |>
    <| LAPIC.InterruptServiceRegister ::= set_vector v |>.

(** C6 Acknowledging a pending interrupt returns the greatest requested vector
    and moves it from the request set to the service set, changing nothing else
    of the two sets; when the processor priority has risen above every request
    it returns the spurious vector and leaves both sets alone.  The event is
    answered: it stays pending only if the next request asks for it. *)
Theorem ApicAcknowledgeInterrupt_refines s l :
  s.(Machine.Lapic) = [l] -> lapic_inv s -> pending s = true ->
  let irr := l.(LAPIC.InterruptRequestRegister) in
  let isr := l.(LAPIC.InterruptServiceRegister) in
  let v := highest irr in
  wp ApicAcknowledgeInterrupt (fun vec s' => lapic_inv s' /\
    exists l', s'.(Machine.Lapic) = [l'] /\
    if ApicHighestPriority irr <? process_priority l then
      vec = l.(LAPIC.SpuriousVector) /\ l' = l /\ pending s' = false
    else
      vec = v /\ 16 <= v < 256 /\ in_vec irr v = true /\
      (forall w, is_vector w -> in_vec irr w = true -> w <= v) /\
      (forall w, is_vector w ->
         in_vec l'.(LAPIC.InterruptRequestRegister) w = in_vec irr w && negb (w =? v) /\
         in_vec l'.(LAPIC.InterruptServiceRegister) w = in_vec isr w || (w =? v)) /\
      (pending s' = true -> process_priority l' < ApicHighestPriority l'.(LAPIC.InterruptRequestRegister))) s.
Proof.
  intros Hl (l0 & Hl0 & Hwf & Hp) Hpend. rewrite Hl in Hl0. injection Hl0 as <-.
  specialize (Hp Hpend). intros irr isr v.
  pose proof (highest_accepted _ (wf_irr l Hwf) Hp) as Hv. fold irr v in Hv.
  unfold wp, ApicAcknowledgeInterrupt. rewrite (run_bind _ _ _ _ _ (run_gets _ _)).
  unfold pending in Hpend. cbv beta. rewrite Hpend. cbv beta iota delta [negb].
  rewrite (run_bind _ _ _ _ _ (lapic_run s l Hl)), (run_bind _ _ _ _ _ (priority_run s l Hl)).
  fold irr. destruct (_ <? _).
  { mred. unfold clear_event. mred. set (s1 := upd_field _ _ s).
    assert (pending s1 = false) as Hs1 by apply pending_cleared.
    split; [|by exists l]. exists l. split; [done|]. split; [done|]. by rewrite Hs1. }
  fold (highest irr) v. rewrite u8_small by (unfold in_width; lia).
  rewrite (run_bind _ _ _ _ _ (upd_lapic_run s l _ Hl)). set (s1 := upd_field _ _ s).
  erewrite (run_bind _ _ s1); [|by apply upd_lapic_run]. set (s2 := upd_field _ _ s1).
  unfold clear_event. erewrite (run_bind _ _ s2); [|done]. set (s3 := upd_field _ _ s2).
  assert (s3.(Machine.Lapic) = [in_service v l]) as Hl3 by done.
  assert (pending s3 = false) as Hp3 by apply pending_cleared.
  rewrite (run_bind _ _ _ _ _ (ApicService_run s3 _ Hl3)). mred.
  assert (lapic_wf (in_service v l)) as Hwf3.
  { by apply wf_set_isr, wf_clear_irr. }
  split; [apply lapic_inv_service; [done|done|congruence]|].
  exists (in_service v l). split; [by destruct (must_request _ _)|].
  split; [done|]. split; [done|].
  assert (is_vector v) as Hvv by (unfold is_vector; lia).
  assert (in_vec irr v = true) by (apply highest_priority_nonempty; [apply wf_irr, Hwf|done]).
  split; [done|]. split; [intros w Hw Hin; by apply (highest_spec irr w (wf_irr l Hwf) Hw)|]. split.
  - intros w Hw. cbn. split; [apply in_vec_clear|apply in_vec_set]; done || apply Hwf.
  - unfold must_request. destruct (_ <? _) eqn:E; simpl; [intros _; by apply Z.ltb_lt in E|].
    by rewrite Hp3.
Qed.

Lemma wf_clear_isr l v : lapic_wf l ->
  lapic_wf (l <| LAPIC.InterruptServiceRegister ::= clear_vector v |>).
Proof. intros []. split; simpl; auto using rows_clear_vector. Qed.
Lemma wf_clear_tmr l v : lapic_wf l ->
  lapic_wf (l <| LAPIC.TriggerModeRegister ::= clear_vector v |>).
Proof. intros []. split; simpl; auto using rows_clear_vector. Qed.
Lemma wf_set_tmr l v : lapic_wf l ->
  lapic_wf (l <| LAPIC.TriggerModeRegister ::= set_vector v |>).
Proof. intros []. split; simpl; auto using rows_set_vector. Qed.

(** The local APIC after the end of [v]. *)
Definition after_eoi (v : Z) (l : LAPIC.t) : LAPIC.t :=
  let l := l <| LAPIC.InterruptServiceRegister ::= clear_vector v |> in
  if in_vec l.(LAPIC.TriggerModeRegister) v
  then l <| LAPIC.TriggerModeRegister ::= clear_vector v |> else l.

Lemma after_eoi_wf v l : lapic_wf l -> lapic_wf (after_eoi v l).
Proof.
  intros Hwf. unfold after_eoi. case_if; [apply wf_clear_tmr|]; by apply wf_clear_isr.
Qed.

(** [ApicReceiveEOI] in closed form, outside the spurious case. *)
Lemma ApicReceiveEOI_run s l Value :
  s.(Machine.Lapic) = [l] -> lapic_wf l ->
  let v := highest l.(LAPIC.InterruptServiceRegister) in
  v <> l.(LAPIC.SpuriousVector) ->
  let s1 := s <| Machine.Lapic := [after_eoi v l] |> in
  let s2 := if in_vec l.(LAPIC.TriggerModeRegister) v
            then s1 <| Machine.IoApic ::= eoi_effect v |> else s1 in
  ApicReceiveEOI Value s = Ok tt (if must_request (after_eoi v l) s2 then requested s2 else s2).
Proof.
  intros Hl Hwf v Hv s1 s2. unfold ApicReceiveEOI.
  pose proof (highest_range _ (wf_isr l Hwf)) as Hr. fold v in Hr.
  rewrite (run_bind _ _ _ _ _ (lapic_run s l Hl)). fold (highest (LAPIC.InterruptServiceRegister l)).
  fold v. rewrite (u8_small v) by (unfold in_width, is_vector in *; lia).
  rewrite (proj2 (Z.eqb_neq _ _) Hv).
  rewrite <- (highest_row _ (wf_isr l Hwf)). fold v. fold (clear_vector v).
  erewrite (run_bind _ _ s); [|by apply upd_lapic_run].
  erewrite (run_bind (lapic 0)); [|by apply lapic_run]. cbv beta.
  rewrite tst_bit by apply vector_bit.
  change (Z.testbit _ _) with (in_vec l.(LAPIC.TriggerModeRegister) v).
  erewrite (run_bind (when _ _)) with (s' := s2).
  2: { unfold s2, s1, after_eoi. cbn. destruct (in_vec _ v); simpl; [|done].
       erewrite run_bind; [|apply eoi_run].
       etransitivity; [by eapply upd_lapic_run|done]. }
  apply ApicService_run. unfold s2, s1. by case_if.
Qed.

(** C7 The end of an interrupt removes the greatest vector in service, and no
    other, from the service set; a level-triggered one also leaves the trigger
    set and is told to the I/O APIC, exactly then; requests stay.  The end of
    the spurious vector changes nothing. *)
Theorem ApicReceiveEOI_refines s l Value :
  s.(Machine.Lapic) = [l] -> lapic_inv s ->
  let isr := l.(LAPIC.InterruptServiceRegister) in
  let tmr := l.(LAPIC.TriggerModeRegister) in
  let v := highest isr in
  wp (ApicReceiveEOI Value) (fun _ s' => lapic_inv s' /\
    if v =? l.(LAPIC.SpuriousVector) then s' = s
    else exists l', s'.(Machine.Lapic) = [l'] /\
      (forall w, is_vector w ->
         in_vec l'.(LAPIC.InterruptServiceRegister) w = in_vec isr w && negb (w =? v) /\
         in_vec l'.(LAPIC.TriggerModeRegister) w = in_vec tmr w && negb (w =? v)) /\
      l'.(LAPIC.InterruptRequestRegister) = l.(LAPIC.InterruptRequestRegister) /\
      s'.(Machine.IoApic) = (if in_vec tmr v then eoi_effect v s.(Machine.IoApic)
                             else s.(Machine.IoApic))) s.
Proof.
  intros Hl Hinv isr tmr v. pose proof Hinv as (l0 & Hl0 & Hwf & Hp).
  rewrite Hl in Hl0. injection Hl0 as <-.
  pose proof (highest_range _ (wf_isr l Hwf)) as Hv. fold isr v in Hv.
  unfold wp. destruct (Z.eqb_spec v l.(LAPIC.SpuriousVector)) as [E|E].
  { unfold ApicReceiveEOI. rewrite (run_bind _ _ _ _ _ (lapic_run s l Hl)).
    fold isr (highest isr) v. rewrite u8_small, <- E, Z.eqb_refl by done. by split. }
  rewrite (ApicReceiveEOI_run s l Value Hl Hwf E). fold isr tmr v. set (s2 := if in_vec tmr v then _ else _).
  assert (s2.(Machine.Lapic) = [after_eoi v l]) as Hl2 by (unfold s2; by case_if).
  pose proof (after_eoi_wf v l Hwf) as Hwf2.
  assert ((after_eoi v l).(LAPIC.InterruptRequestRegister) = l.(LAPIC.InterruptRequestRegister)) as Hirr.
  { unfold after_eoi. by case_if. }
  split.
  { apply lapic_inv_service; [done|done|]. rewrite Hirr. unfold s2. by case_if. }
  exists (after_eoi v l). split; [by case_if|]. split; [|split; [done|]].
  - intros w Hw. unfold after_eoi. cbn. fold tmr.
    assert (in_vec (clear_vector v isr) w = in_vec isr w && negb (w =? v)) as Hi
      by (apply in_vec_clear; done || apply Hwf).
    destruct (in_vec tmr v) eqn:Et; cbn; (split; [exact Hi|]).
    + apply in_vec_clear; done || apply Hwf.
    + destruct (Z.eqb_spec w v) as [->|]; simpl; [|by rewrite andb_true_r].
      by rewrite andb_false_r.
  - unfold s2. destruct (in_vec tmr v); by case_if.
Qed.
End Correctness.

(** ** Every operation keeps the invariant *)

Lemma ApicService_inv_at i : Preserves lapic_inv (ApicService i).
Proof.
  destruct (decide (i = 0)) as [->|Hi]; [apply _|].
  intros s. apply wlp_Ok. intros a s' Hs' (l & Hl & _). exfalso. revert Hs'.
  unfold ApicService, ApicGetProcessPriority, lapic, at_. mred. rewrite Hl.
  destruct (nthZ [l] i) eqn:E; [|done]. apply nthZ_Some in E. simpl in E. lia.
Qed.
#[export] Existing Instance ApicService_inv_at.

Lemma highest_priority_set r v : rows r -> is_vector v ->
  ApicHighestPriority r <= ApicHighestPriority (set_vector v r).
Proof.
  intros Hr Hv. destruct (highest_priority_spec r Hr) as (Hp & _).
  destruct (highest_priority_spec _ (rows_set_vector v r Hr)) as (Hp' & _ & Hmax).
  destruct (decide (0 < ApicHighestPriority r)); [|lia].
  rewrite <- (highest_row r Hr). pose proof (highest_range r Hr). apply Hmax; [done|].
  rewrite in_vec_set, highest_priority_nonempty by done. done.
Qed.

Section Invariance.
Context `{!EoiBroadcast, !EoiBroadcastLaws, !Driver}.

Lemma upd_set_irr_inv i v : 16 <= v < 256 ->
  Preserves lapic_inv (upd_lapic i (fun l => l <| LAPIC.InterruptRequestRegister ::= set_vector v |>)).
Proof.
  intros Hv. apply preserves_upd_lapic. intros l Hl. split; [by apply wf_set_irr|].
  apply highest_priority_set; [apply Hl|unfold is_vector; lia].
Qed.

Lemma upd_tmr_inv i v (f : Z -> list Z -> list Z) :
  (forall r, rows r -> rows (f v r)) ->
  Preserves lapic_inv (upd_lapic i (fun l => l <| LAPIC.TriggerModeRegister ::= f v |>)).
Proof.
  intros Hf. apply preserves_upd_lapic. intros l Hl. split; [|simpl; lia].
  destruct Hl. by split; simpl; auto.
Qed.

Lemma ApicSetIrq_inv i v t : is_u8 v -> Preserves lapic_inv (ApicSetIrq i v t).
Proof.
  intros Hv. unfold ApicSetIrq, lapic. destruct (Z.leb_spec v 15); [apply _|].
  pose proof (upd_set_irr_inv i v). pose proof (upd_tmr_inv i v set_vector (rows_set_vector v)).
  pose proof (upd_tmr_inv i v clear_vector (rows_clear_vector v)).
  assert (16 <= v < 256) by (unfold in_width in Hv; lia).
  apply within_bind; [apply _|apply _|]. intros. apply within_if; [apply _|].
  apply within_bind; [apply _|auto|]. intros. apply _.
Qed.

(** The interrupt paths, for a vector that is a byte. *)
Section Vector.
Context (v : Z) (Hv : is_u8 v).
Local Instance set_irq_inv i t : Preserves lapic_inv (ApicSetIrq i v t).
Proof. by apply ApicSetIrq_inv. Qed.

Local Instance find_focus_inv ids : Preserves lapic_inv (find_focus ids).
Proof. induction ids; simpl; unfold lapic; apply _. Qed.
Local Instance find_lowest_inv ids p i d : Preserves lapic_inv (find_lowest ids p i d).
Proof. revert i. induction ids; intros; simpl; unfold lapic; apply _. Qed.

#[export] Instance low_priority_inv d r t :
  Preserves lapic_inv (ApicBusDeliverLowPriorityInterrupt v d r t).
Proof. unfold ApicBusDeliverLowPriorityInterrupt. apply _. Qed.

#[export] Instance deliver_inv d dm m r t :
  Preserves lapic_inv (ApicBusDeliverInterrupt v d dm m r t).
Proof. unfold ApicBusDeliverInterrupt, DeviceIoControl, lapic. apply _. Qed.

Local Instance deliver_all_inv ids k st d (Hd : Preserves lapic_inv d) :
  Preserves lapic_inv (deliver_all ids k d st).
Proof. revert st. induction ids; intros; simpl; apply _. Qed.

#[export] Instance ApicSendIpi_inv d dm m r t h : Preserves lapic_inv (ApicSendIpi v d dm m r t h).
Proof. unfold ApicSendIpi, lapic. apply _. Qed.
End Vector.

#[export] Instance ApicWriteSpuriousInterrupt_inv v :
  Preserves lapic_inv (ApicWriteSpuriousInterrupt v).
Proof. unfold ApicWriteSpuriousInterrupt, lapic. apply _. Qed.

#[export] Instance ApicSetLvtEntry_inv r v : Preserves lapic_inv (ApicSetLvtEntry r v).
Proof. unfold ApicSetLvtEntry, lapic. apply _. Qed.

#[export] Instance ApicReceiveEOI_inv v : Preserves lapic_inv (ApicReceiveEOI v).
Proof.
  intros s. apply wlp_Ok. intros a s' Hs' (l & Hl & Hinv).
  assert (lapic_inv s) as Hi by by exists l.
  pose proof (ApicReceiveEOI_run s l v Hl (proj1 Hinv)) as Hrun.
  destruct (decide (highest (LAPIC.InterruptServiceRegister l) = LAPIC.SpuriousVector l)) as [E|E].
  - revert Hs'. unfold ApicReceiveEOI. rewrite (run_bind _ _ _ _ _ (lapic_run s l Hl)).
    fold (highest l.(LAPIC.InterruptServiceRegister)). rewrite u8_small.
    2: { apply highest_range. apply Hinv. }
    rewrite E, Z.eqb_refl. by intros [= <- <-].
  - rewrite (Hrun E) in Hs'. apply Ok_inj in Hs' as [_ <-].
    apply lapic_inv_service; [by case_if|apply after_eoi_wf, Hinv|].
    unfold after_eoi. cbn. intros Hp. assert (pending s = true) as Hps by (revert Hp; by case_if).
    destruct Hinv as [_ Hinv]. specialize (Hinv Hps). by case_if.
Qed.

#[export] Instance TimerActivate_lapic i n o : Preserves lapic_inv (TimerActivate i n o).
Proof. unfold TimerActivate. apply _. Qed.
#[export] Instance TimerDeactivate_lapic i : Preserves lapic_inv (TimerDeactivate i).
Proof. unfold TimerDeactivate, get_TimersIdx. apply _. Qed.
#[export] Instance TimerCreate_lapic h p : Preserves lapic_inv (TimerCreate h p).
Proof. unfold TimerCreate, next_TimersIdx, get_TimersIdx. apply _. Qed.

#[export] Instance ApicGetNextTimerCount_inv t : Preserves lapic_inv (ApicGetNextTimerCount t).
Proof. unfold ApicGetNextTimerCount, lapic. apply _. Qed.

Lemma lvt_vector x : is_u8 (x &. 0xff).
Proof. auto with width. Qed.

#[export] Instance ApicTimerHandler_inv p : Preserves lapic_inv (ApicTimerHandler p).
Proof.
  unfold ApicTimerHandler, lapic. pose proof lvt_vector.
  apply within_if; [apply _|]. apply within_bind; [apply _|apply _|]. intros.
  apply within_if; [apply _|]. apply within_bind; [apply _|by apply deliver_inv|]. apply _.
Qed.

#[export] Instance write_icr_lo_inv v : Preserves lapic_inv (write_icr_lo v).
Proof.
  unfold write_icr_lo, lapic. pose proof lvt_vector.
  do 2 (apply within_bind; [apply _|apply _|]; intros).
  apply within_bind; [apply _|by apply ApicSendIpi_inv|apply _].
Qed.

#[export] Instance write_initial_count_inv v : Preserves lapic_inv (write_initial_count v).
Proof.
  unfold write_initial_count, TimerGetState, TimerGetClockNs, TimerGetTotalTicks, lapic. apply _.
Qed.

Lemma write_tpr_inv v : 0 <= v -> Preserves lapic_inv (write_tpr v).
Proof.
  intros Hv. unfold write_tpr, lapic. destruct (Z.ltb_spec 15 v); [apply _|].
  assert (Preserves lapic_inv (upd_lapic 0 (fun l => l <| LAPIC.TaskPriority := v &. 0xff |>))).
  { apply preserves_upd_lapic. intros l Hl. split; [|simpl; lia].
    destruct Hl. split; simpl; auto. change 0xff with (Z.ones 8).
    rewrite Z.land_ones, Z.mod_small by lia. lia. }
  apply _.
Qed.

End Invariance.

(** ** Accepting an interrupt, in closed form *)

(** The local APIC after [ApicSetIrq] of an acceptable vector. *)
Definition accept (Vector LevelSensitive : Z) (l : LAPIC.t) : LAPIC.t :=
  if in_vec l.(LAPIC.InterruptRequestRegister) Vector then l
  else l <| LAPIC.InterruptRequestRegister ::= set_vector Vector |>
         <| LAPIC.TriggerModeRegister ::=
              (if nz LevelSensitive then set_vector Vector else clear_vector Vector) |>.

Lemma ApicSetIrq_run s l v t : s.(Machine.Lapic) = [l] -> 15 < v ->
  ApicSetIrq 0 v t s =
    if in_vec l.(LAPIC.InterruptRequestRegister) v then Ok tt s
    else let l' := accept v t l in
         let s' := s <| Machine.Lapic := [l'] |> in
         Ok tt (if must_request l' s' then requested s' else s').
Proof.
  intros Hl Hv. unfold ApicSetIrq, accept. rewrite (proj2 (Z.leb_gt _ _)) by lia.
  rewrite (run_bind _ _ _ _ _ (lapic_run s l Hl)).
  rewrite tst_bit by apply vector_bit. fold (in_vec l.(LAPIC.InterruptRequestRegister) v).
  destruct (in_vec _ v); [done|].
  rewrite (run_bind _ _ _ _ _ (upd_lapic_run s l _ Hl)). set (s1 := upd_field _ _ s).
  destruct (nz t); (erewrite run_bind; [|by apply upd_lapic_run]); by apply ApicService_run.
Qed.

Lemma accept_wf v t l : lapic_wf l -> 16 <= v < 256 -> lapic_wf (accept v t l).
Proof.
  intros Hl Hv. unfold accept. case_if; [done|].
  pose proof (wf_set_irr l v Hl Hv) as [].
  split; simpl in *; auto. case_if; auto using rows_set_vector, rows_clear_vector.
Qed.

Lemma in_vec_accept v t l w : lapic_wf l -> is_vector v -> is_vector w ->
  in_vec (accept v t l).(LAPIC.InterruptRequestRegister) w =
  in_vec l.(LAPIC.InterruptRequestRegister) w || (w =? v).
Proof.
  intros Hl Hv Hw. unfold accept. destruct (in_vec _ v) eqn:E.
  - destruct (Z.eqb_spec w v) as [->|]; [by rewrite E|by rewrite orb_false_r].
  - apply in_vec_set; [apply Hl|done|done].
Qed.

(** ** A guest can leave the array of local APICs *)

Section SelfIpi.
Context `{!EoiBroadcast, !Driver}.

(** An inter-processor interrupt with the "self" shorthand indexes the array
    of local APICs with the destination field, which the guest chooses: any
    nonzero destination with an acceptable vector leaves the array. *)
Theorem ApicSendIpi_self_out_of_bounds s Vector Destination dm m r t :
  length s.(Machine.Lapic) = 1%nat -> 15 < Vector -> 1 <= Destination -> m <> DELIVERY_MODE_INIT ->
  ApicSendIpi Vector Destination dm m r t LAPIC_DSH_SELF s = Fault OutOfBounds.
Proof.
  intros Hl Hv Hd Hm. unfold ApicSendIpi. rewrite (proj2 (Z.eqb_neq _ _) Hm).
  change (LAPIC_DSH_SELF =? LAPIC_DSH_APICID) with false. rewrite Z.eqb_refl.
  unfold ApicSetIrq, lapic, at_. rewrite (proj2 (Z.leb_gt _ _)) by lia. mred.
  destruct (nthZ _ _) eqn:E; [|done]. apply nthZ_Some in E. lia.
Qed.
End SelfIpi.

(** ** Examples *)

Definition example_eoi : EoiBroadcast := {|
  IoApicReceiveEndOfInterrupt := fun v => modify (fun s =>
    s <| Machine.IoApic ::= (fun a => a <| IOAPIC.Irr := v |>) |>);
  eoi_effect := fun v a => a <| IOAPIC.Irr := v |>
|}.
Lemma example_eoi_laws : @EoiBroadcastLaws example_eoi.
Proof. done. Qed.

(** A local APIC with vector 0x31, level-triggered, in service and 0x42 requested. *)
Definition example_lapic : LAPIC.t :=
  LAPIC.zero <| LAPIC.InterruptServiceRegister := set_vector 0x31 (replicate 16 0) |>
    <| LAPIC.TriggerModeRegister := set_vector 0x31 (replicate 16 0) |>
    <| LAPIC.InterruptRequestRegister := set_vector 0x42 (replicate 16 0) |>
    <| LAPIC.SpuriousVector := 0xff |>.
Definition example_apic : Machine.t :=
  Machine.zero <| Machine.Lapic := [example_lapic] |>
    <| Machine.svmm_events := EVENT_PENDING_LAPIC_INTR |>.

Lemma rows_zero : rows (replicate 16 0).
Proof. split; [done|]. apply (Forall_replicate is_u16 16 0). by split. Qed.

Lemma example_apic_inv : lapic_inv example_apic.
Proof.
  exists example_lapic. split; [done|]. split; [|intros _; vm_compute; reflexivity].
  pose proof rows_zero. split; simpl; auto using rows_set_vector; by split.
Qed.

Lemma ApicAcknowledgeInterrupt_refines_witness :
  lapic_inv example_apic /\
  wp (@ApicAcknowledgeInterrupt) (fun vec _ => vec = 0x42) example_apic.
Proof.
  split; [apply example_apic_inv|].
  pose proof (@ApicAcknowledgeInterrupt_refines
    example_apic example_lapic eq_refl example_apic_inv eq_refl) as Hack.
  cbv zeta in Hack.
  assert ((ApicHighestPriority example_lapic.(LAPIC.InterruptRequestRegister)
           <? process_priority example_lapic) = false) as E by (vm_compute; reflexivity).
  rewrite E in Hack. eapply wp_mono; [|exact Hack].
  intros vec s' (_ & l' & _ & -> & _). vm_compute. reflexivity.
Defined.

Lemma ApicReceiveEOI_refines_witness :
  lapic_inv example_apic /\
  wp (@ApicReceiveEOI example_eoi 0) (fun _ s' => s'.(Machine.IoApic).(IOAPIC.Irr) = 0x31) example_apic.
Proof.
  split; [apply example_apic_inv|].
  pose proof (@ApicReceiveEOI_refines example_eoi example_eoi_laws
    example_apic example_lapic 0 eq_refl example_apic_inv) as Heoi.
  cbv zeta in Heoi.
  assert ((highest example_lapic.(LAPIC.InterruptServiceRegister)
           =? example_lapic.(LAPIC.SpuriousVector)) = false) as E by (vm_compute; reflexivity).
  assert (in_vec example_lapic.(LAPIC.TriggerModeRegister)
            (highest example_lapic.(LAPIC.InterruptServiceRegister)) = true) as E'
    by (vm_compute; reflexivity).
  rewrite E, E' in Heoi. eapply wp_mono; [|exact Heoi].
  intros _ s' (_ & l' & _ & _ & _ & ->). vm_compute. reflexivity.
Defined.


Lemma ApicSendIpi_self_out_of_bounds_witness :
  @ApicSendIpi example_driver 0x30 1 0 0 0 0 LAPIC_DSH_SELF example_apic = Fault OutOfBounds.
Proof. apply (@ApicSendIpi_self_out_of_bounds example_driver); reflexivity || discriminate. Defined.
