(* ===== verification/IoApic.v ===== *)
(** ioapic.c: the I/O APIC.

    Twenty-four pins, each with a redirection entry; [Irr] holds the pins that
    wait.  [IoApicService] offers every waiting pin to the local APIC (Apic.v),
    which tells the end of a level-triggered interrupt back through
    [IoApicReceiveEndOfInterrupt]: this file implements [EoiBroadcast]. *)

From S2P Require Export Apic.

(** ioapic.h *)
Definition IOAPIC_VERSION_82093AA : Z := 0x11.
Definition IOAPIC_DEFAULT_MMIO : Z := 0xfec00000.
Definition IOAPIC_NUM_PINS : Z := 24.
Definition IOAPIC_MASKED : Z := bit 16.
Definition IOAPIC_LEVEL_SENSITIVE : Z := bit 15.
Definition IOAPIC_IRR : Z := bit 14.
Definition IOAPIC_RAISED : Z := bit 13.
Definition IOAPIC_DELIVERY_STATUS : Z := bit 12.
Definition IOAPIC_DESTINATION_MODE : Z := bit 11.
Definition IOAPIC_DELIVERY_MODE : Z := 7 <<. 8.
Definition IOAPIC_SET_INDEX : Z := 0x00.
Definition IOAPIC_SET_DATA : Z := 0x10.

(** ** Operations *)

Definition upd_ioapic (f : IOAPIC.t -> IOAPIC.t) : IO unit :=
  modify (fun s => s <| Machine.IoApic ::= f |>).
Definition upd_low (pin : Z) (f : Z -> Z) : IO unit :=
  upd_at rtes pin (fun e => e <| IO_REDIRECT_ENTRY.Low ::= f |>).
Definition get_irr : IO Z := gets (fun s => s.(Machine.IoApic).(IOAPIC.Irr)).

(** The loop of [IoApicReceiveEndOfInterrupt] treats every entry of the table alike. *)
Definition end_of_interrupt (Vector : Z) (e : IO_REDIRECT_ENTRY.t) : IO_REDIRECT_ENTRY.t :=
  if (e.(IO_REDIRECT_ENTRY.Low) &? IOAPIC_LEVEL_SENSITIVE)
     && ((e.(IO_REDIRECT_ENTRY.Low) &. 0xff) =? Vector)
  then e <| IO_REDIRECT_ENTRY.Low ::= (fun v => u32 (v &. ~. IOAPIC_IRR)) |>
  else e.

#[export] Instance IoApicEoi : EoiBroadcast := {|
  IoApicReceiveEndOfInterrupt := fun Vector =>
    modify (fun s => s <| Machine.IoApic ::= (fun r =>
      r <| IOAPIC.IoRedirectTable ::= map (end_of_interrupt Vector) |>) |>);
  eoi_effect := fun Vector r => r <| IOAPIC.IoRedirectTable ::= map (end_of_interrupt Vector) |>
|}.

#[export] Instance IoApicEoi_laws : EoiBroadcastLaws.
Proof. done. Qed.

Section Operations.
Context `{!Driver}.

Definition IoApicSetIntr (IrqNumber : Z) : IO unit :=
  e ← at_ rtes IrqNumber;
  let Low := e.(IO_REDIRECT_ENTRY.Low) in
  if Low &? IOAPIC_MASKED then done_
  else if (Low &? IOAPIC_LEVEL_SENSITIVE) && (Low &? IOAPIC_IRR) then done_
  else
    Status ← ApicBusDeliverInterrupt (Low &. 0xff) (e.(IO_REDIRECT_ENTRY.High) >>. 24)
               (Low &. IOAPIC_DESTINATION_MODE) (Low &. IOAPIC_DELIVERY_MODE)
               (Low &. IOAPIC_RAISED) (Low &. IOAPIC_LEVEL_SENSITIVE);
    if negb (nz Status) then
      e ← at_ rtes IrqNumber;
      (if e.(IO_REDIRECT_ENTRY.Low) &? IOAPIC_LEVEL_SENSITIVE
       then upd_low IrqNumber (fun v => u32 (v |. IOAPIC_IRR))
       else upd_ioapic (fun r => r <| IOAPIC.Irr ::= (fun v => u32 (v &. ~. bit IrqNumber)) |>)) ;;
      upd_low IrqNumber (fun v => u32 (v &. ~. IOAPIC_DELIVERY_STATUS))
    else upd_low IrqNumber (fun v => u32 (v |. IOAPIC_DELIVERY_STATUS)).

Definition IoApicService : IO unit :=
  foreach (seqZ 0 IOAPIC_NUM_PINS) (fun pin =>
    Irr ← get_irr;
    when (Irr &? bit pin) (IoApicSetIntr pin)).

(** IRQ 0 is wired to pin 2. *)
Definition pin_of (IrqNumber : Z) : Z := if IrqNumber =? 0 then 2 else IrqNumber.

Definition IoApicLowerIrq (IrqNumber : Z) : IO unit :=
  let IrqNumber := pin_of IrqNumber in
  if IOAPIC_NUM_PINS <=? IrqNumber then done_
  else
    e ← at_ rtes IrqNumber;
    when (e.(IO_REDIRECT_ENTRY.Low) &? IOAPIC_LEVEL_SENSITIVE) (
      upd_ioapic (fun r => r <| IOAPIC.Irr ::= (fun v => u32 (v &. ~. bit IrqNumber)) |>)).

Definition IoApicRaiseIrq (IrqNumber : Z) : IO unit :=
  let IrqNumber := pin_of IrqNumber in
  if IOAPIC_NUM_PINS <=? IrqNumber then done_
  else
    e ← at_ rtes IrqNumber;
    if e.(IO_REDIRECT_ENTRY.Low) &? IOAPIC_LEVEL_SENSITIVE then
      upd_ioapic (fun r => r <| IOAPIC.Irr ::= (fun v => u32 (v |. bit IrqNumber)) |>) ;;
      IoApicService
    else
      Irr ← get_irr;
      if Irr &? bit IrqNumber then done_
      else
        upd_ioapic (fun r => r <| IOAPIC.Irr ::= (fun v => u32 (v |. bit IrqNumber)) |>) ;;
        IoApicService.

(** [(BYTE)(IoRegisterSelect - 0x10) >> 1] *)
Definition entry_index (IoRegisterSelect : Z) : Z := u8 (IoRegisterSelect - 0x10) >>. 1.

Definition write_entry (IoRegisterSelect Value : Z) : IO unit :=
  let i := entry_index IoRegisterSelect in
  if IOAPIC_NUM_PINS <=? i then done_
  else
    (if IoRegisterSelect &? 1
     then upd_at rtes i (fun e => e <| IO_REDIRECT_ENTRY.High := Value |>)
     else
       upd_low i (fun _ => Value) ;;
       e ← at_ rtes i;
       when (negb (e.(IO_REDIRECT_ENTRY.Low) &? IOAPIC_LEVEL_SENSITIVE))
         (upd_low i (fun v => u32 (v &. ~. IOAPIC_IRR)))) ;;
    IoApicService.

Definition _IoApicMMIOWriteHandler (Address Value : Z) : IO unit :=
  if Address =? IOAPIC_SET_INDEX then
    upd_ioapic (fun r => r <| IOAPIC.IoRegisterSelect := Value &. 0xff |>)
  else if Address =? IOAPIC_SET_DATA then
    sel ← gets (fun s => s.(Machine.IoApic).(IOAPIC.IoRegisterSelect));
    if sel =? 0 then upd_ioapic (fun r => r <| IOAPIC.IoApicId := (Value >>. 24) &. 0xf |>)
    else if (sel =? 1) || (sel =? 2) then done_
    else write_entry sel Value
  else done_.

Definition IoApicMMIOWriteHandler (Address : Z) (Data : list Z) (Length : Z) : IO unit :=
  let Address := Address &. 0xff in
  if Address &? 3 then done_
  else if Length =? 1 then _IoApicMMIOWriteHandler Address (le_read 1 Data)
  else if Length =? 2 then _IoApicMMIOWriteHandler Address (le_read 2 Data)
  else if Length =? 4 then _IoApicMMIOWriteHandler Address (le_read 4 Data)
  else done_.

Definition _IoApicMMIOReadHandler (Address : Z) : IO Z :=
  r ← gets Machine.IoApic;
  if Address =? 0 then mret r.(IOAPIC.IoRegisterSelect)
  else
    let sel := r.(IOAPIC.IoRegisterSelect) in
    if sel =? 0 then mret (u32 ((r.(IOAPIC.IoApicId) &. 0xf) <<. 24))
    else if sel =? 1 then mret r.(IOAPIC.IoApicVersion)
    else if sel =? 2 then mret 0
    else
      let i := entry_index sel in
      if IOAPIC_NUM_PINS <=? i then mret 0
      else
        e ← at_ rtes i;
        mret (if sel &? 1 then e.(IO_REDIRECT_ENTRY.High) else e.(IO_REDIRECT_ENTRY.Low)).

(** Returns the buffer [Data] points to. *)
Definition IoApicMMIOReadHandler (Address : Z) (Data : list Z) (Length : Z) : IO (list Z) :=
  if Address &? 3 then mret Data
  else
    Value ← _IoApicMMIOReadHandler Address;
    mret (if Length =? 1 then le_write 1 Value Data
          else if Length =? 2 then le_write 2 Value Data
          else if Length =? 4 then le_write 4 Value Data
          else Data).

Definition IoApicInitialize : IO unit :=
  modify (fun s => s <| Machine.IoApic := IOAPIC.zero
    <| IOAPIC.IoApicId := 1 |>
    <| IOAPIC.IoApicVersion := ((IOAPIC_NUM_PINS - 1) <<. 16) |. IOAPIC_VERSION_82093AA |> |>) ;;
  MmioRegisterHandler IOAPIC_DEFAULT_MMIO 0x1000 (Some cb_IoApic) (Some cb_IoApic) ;;
  upd_ioapic (fun r => r <| IOAPIC.IoRedirectTable ::=
    map (fun _ => IO_REDIRECT_ENTRY.mk 0 IOAPIC_MASKED) |>).
End Operations.

(** ** The invariant *)

Definition entry_wf (e : IO_REDIRECT_ENTRY.t) : Prop :=
  is_u32 e.(IO_REDIRECT_ENTRY.High) /\ is_u32 e.(IO_REDIRECT_ENTRY.Low).

Definition ioapic_inv (s : Machine.t) : Prop :=
  length (rtes s) = 24%nat /\ Forall entry_wf (rtes s) /\ is_u32 s.(Machine.IoApic).(IOAPIC.Irr).

Lemma preserves_upd_entry i f : (forall e, entry_wf e -> entry_wf (f e)) ->
  Preserves ioapic_inv (upd_at rtes i f).
Proof.
  intros Hf. apply preserves_upd_at. intros s x Hx (Hl & He & Hi).
  split; [|split; [|done]].
  - unfold rtes. cbn. by rewrite length_updZ.
  - unfold rtes. cbn. apply Forall_updZ; [done|]. apply Hf. by eapply (Forall_nthZ entry_wf).
Qed.

#[export] Hint Extern 1 (Within (preserves ioapic_inv) (upd_at rtes _ _)) =>
  (apply preserves_upd_entry; let e := fresh in intros e []; split; simpl; auto with width)
  : typeclass_instances.
Lemma upd_low_inv i f : (forall v, is_u32 v -> is_u32 (f v)) ->
  Preserves ioapic_inv (upd_low i f).
Proof. intros Hf. apply preserves_upd_entry. intros e []. split; simpl; auto. Qed.

Lemma preserves_irr f : (forall v, is_u32 v -> is_u32 (f v)) ->
  Preserves ioapic_inv (upd_ioapic (fun r => r <| IOAPIC.Irr ::= f |>)).
Proof.
  intros Hf. apply preserves_modify. intros s (Hl & He & Hi). split; [done|]. split; [done|].
  by apply Hf.
Qed.

Section Invariance.
Context `{!Driver}.

#[export] Instance IoApicSetIntr_inv i : Preserves ioapic_inv (IoApicSetIntr i).
Proof.
  assert (forall f, Preserves ioapic_inv (upd_low i (fun v => u32 (f v)))).
  { intros f. apply upd_low_inv. intros. apply u32_range. }
  assert (forall f, Preserves ioapic_inv (upd_ioapic (fun r => r <| IOAPIC.Irr ::= (fun v => u32 (f v)) |>))).
  { intros f. apply preserves_irr. intros. apply u32_range. }
  unfold IoApicSetIntr. apply _.
Qed.

#[export] Instance IoApicService_inv : Preserves ioapic_inv IoApicService.
Proof. unfold IoApicService, get_irr. apply _. Qed.

#[export] Instance IoApicRaiseIrq_inv i : Preserves ioapic_inv (IoApicRaiseIrq i).
Proof.
  assert (forall f, Preserves ioapic_inv (upd_ioapic (fun r => r <| IOAPIC.Irr ::= (fun v => u32 (f v)) |>))).
  { intros f. apply preserves_irr. intros. apply u32_range. }
  unfold IoApicRaiseIrq, get_irr. apply _.
Qed.

#[export] Instance IoApicLowerIrq_inv i : Preserves ioapic_inv (IoApicLowerIrq i).
Proof.
  assert (forall f, Preserves ioapic_inv (upd_ioapic (fun r => r <| IOAPIC.Irr ::= (fun v => u32 (f v)) |>))).
  { intros f. apply preserves_irr. intros. apply u32_range. }
  unfold IoApicLowerIrq. apply _.
Qed.

#[export] Instance IoApicReceiveEndOfInterrupt_inv v :
  Preserves ioapic_inv (IoApicReceiveEndOfInterrupt v).
Proof.
  apply preserves_modify. intros s (Hl & He & Hi). split; [|split; [|done]].
  - unfold rtes. cbn. by rewrite length_map.
  - unfold rtes. cbn. apply Forall_map. eapply Forall_impl; [exact He|].
    intros e []. unfold compose, end_of_interrupt. case_if; split; simpl; auto with width.
Qed.

Lemma write_entry_inv sel v : is_u32 v -> Preserves ioapic_inv (write_entry sel v).
Proof.
  intros Hv. unfold write_entry.
  assert (Preserves ioapic_inv (upd_low (entry_index sel) (fun _ => v))) by (by apply upd_low_inv).
  assert (Preserves ioapic_inv
    (upd_at rtes (entry_index sel) (fun e => e <| IO_REDIRECT_ENTRY.High := v |>))).
  { apply preserves_upd_entry. intros e []. by split. }
  assert (forall i f, Preserves ioapic_inv (upd_low i (fun v => u32 (f v)))).
  { intros. apply upd_low_inv. intros. apply u32_range. }
  apply _.
Qed.

Lemma IoApicMMIOWriteHandler_inv a d n : Forall is_u8 d ->
  Preserves ioapic_inv (IoApicMMIOWriteHandler a d n).
Proof.
  intros Hd.
  assert (forall v, is_u32 v -> Preserves ioapic_inv (_IoApicMMIOWriteHandler (a &. 0xff) v)) as Hw.
  { intros v Hv. pose proof (fun sel => write_entry_inv sel v Hv).
    unfold _IoApicMMIOWriteHandler, upd_ioapic. apply _. }
  assert (forall k, (k <= 4)%nat -> is_u32 (le_read k d)) as Hr.
  { intros k Hk. apply (in_width_le (8 * Z.of_nat k)); [lia|]. by apply le_read_range. }
  unfold IoApicMMIOWriteHandler. cbv zeta.
  repeat first [apply Hw, Hr; lia|apply within_if]; apply _.
Qed.
End Invariance.

(** ** Delivery of one pin *)

Section Delivery.
Context `{!Driver}.

Lemma get_irr_run s : get_irr s = Ok s.(Machine.IoApic).(IOAPIC.Irr) s.
Proof. done. Qed.

(** With no waiting pin among them, a stretch of pins is skipped. *)
Lemma service_skip pins s :
  (forall pin, pin ∈ pins -> 0 <= pin /\ Z.testbit s.(Machine.IoApic).(IOAPIC.Irr) pin = false) ->
  foreach pins (fun pin => Irr ← get_irr; when (Irr &? bit pin) (IoApicSetIntr pin)) s = Ok tt s.
Proof.
  induction pins as [|pin pins IH]; intros Hp; [done|]. simpl.
  destruct (Hp pin) as [Hpin Hbit]; [by left|].
  erewrite run_bind; [apply IH; intros x Hx; apply Hp; by right|].
  rewrite (run_bind _ _ _ _ _ (get_irr_run s)). by rewrite tst_bit, Hbit by done.
Qed.

(** When only [p] waits, the service is that of [p], if that leaves no other
    pin waiting. *)
Lemma IoApicService_single s s' p :
  0 <= p < 24 ->
  (forall i, 0 <= i < 24 -> i <> p -> Z.testbit s.(Machine.IoApic).(IOAPIC.Irr) i = false) ->
  Z.testbit s.(Machine.IoApic).(IOAPIC.Irr) p = true ->
  IoApicSetIntr p s = Ok tt s' ->
  (forall i, 0 <= i < 24 -> i <> p -> Z.testbit s'.(Machine.IoApic).(IOAPIC.Irr) i = false) ->
  IoApicService s = Ok tt s'.
Proof.
  intros Hp Hs Hbit Hset Hs'. unfold IoApicService, IOAPIC_NUM_PINS.
  replace 24 with (p + (1 + (23 - p))) by lia. rewrite seqZ_app, (seqZ_app _ 1) by lia.
  rewrite foreach_app. erewrite run_bind.
  2: { apply service_skip. intros pin ?%elem_of_seqZ. split; [lia|]. apply Hs; lia. }
  rewrite foreach_app. erewrite run_bind.
  2: { simpl. erewrite run_bind; [reflexivity|].
       rewrite (run_bind _ _ _ _ _ (get_irr_run s)). replace (Z.of_nat 0 + (0 + p)) with p by lia.
       cbv beta. rewrite tst_bit, Hbit by lia. exact Hset. }
  apply service_skip. intros pin ?%elem_of_seqZ. split; [lia|]. apply Hs'; lia.
Qed.

(** An entry whose interrupt the single local APIC accepts. *)
Definition deliverable (e : IO_REDIRECT_ENTRY.t) : Prop :=
  let Low := e.(IO_REDIRECT_ENTRY.Low) in
  (Low &? IOAPIC_MASKED) = false /\
  (Low &? IOAPIC_LEVEL_SENSITIVE) && (Low &? IOAPIC_IRR) = false /\
  (Low &. IOAPIC_DELIVERY_MODE = DELIVERY_MODE_FIXED \/
   Low &. IOAPIC_DELIVERY_MODE = DELIVERY_MODE_LOW_PRI) /\
  Low &. IOAPIC_DESTINATION_MODE = DESTINATION_MODE_PHYSICAL /\
  e.(IO_REDIRECT_ENTRY.High) >>. 24 = 0 /\
  16 <= Low &. 0xff.

Lemma deliver_fixed_run s l v m r t :
  s.(Machine.Lapic) = [l] -> nz l.(LAPIC.MsrEnable) = true -> 15 < v ->
  m = DELIVERY_MODE_FIXED \/ m = DELIVERY_MODE_LOW_PRI ->
  exists s1, ApicBusDeliverInterrupt v 0 DESTINATION_MODE_PHYSICAL m r t s = Ok 0 s1 /\
    s1.(Machine.Lapic) = [accept v t l] /\ s1.(Machine.IoApic) = s.(Machine.IoApic).
Proof.
  intros Hl Hen Hv Hm.
  assert (ApicBusDeliverInterrupt v 0 DESTINATION_MODE_PHYSICAL m r t s =
          (ApicSetIrq 0 v t ;; mret 0) s) as ->.
  { unfold ApicBusDeliverInterrupt. destruct Hm as [-> | ->]; simpl;
      unfold mbind at 1 2, M_bind at 1 2; rewrite (lapic_run s l Hl), Hen; simpl;
      unfold mbind, M_bind; by destruct (ApicSetIrq 0 v t s). }
  pose proof (ApicSetIrq_run s l v t Hl Hv) as Hrun. unfold accept in *.
  destruct (in_vec _ v).
  - exists s. by rewrite (run_bind _ _ _ _ _ Hrun).
  - eexists. rewrite (run_bind _ _ _ _ _ Hrun). split; [reflexivity|].
    split; by destruct (must_request _ _).
Qed.

Definition level (e : IO_REDIRECT_ENTRY.t) : bool :=
  e.(IO_REDIRECT_ENTRY.Low) &? IOAPIC_LEVEL_SENSITIVE.

(** The entry after its interrupt was accepted. *)
Definition accepted (e : IO_REDIRECT_ENTRY.t) : IO_REDIRECT_ENTRY.t :=
  e <| IO_REDIRECT_ENTRY.Low ::= (fun v =>
    u32 ((if level e then u32 (v |. IOAPIC_IRR) else v) &. ~. IOAPIC_DELIVERY_STATUS)) |>.

Lemma IoApicSetIntr_run s l p e :
  s.(Machine.Lapic) = [l] -> nz l.(LAPIC.MsrEnable) = true ->
  nthZ (rtes s) p = Some e -> deliverable e ->
  exists s', IoApicSetIntr p s = Ok tt s' /\
    s'.(Machine.Lapic) = [accept (e.(IO_REDIRECT_ENTRY.Low) &. 0xff)
                            (e.(IO_REDIRECT_ENTRY.Low) &. IOAPIC_LEVEL_SENSITIVE) l] /\
    rtes s' = updZ (rtes s) p (accepted e) /\
    s'.(Machine.IoApic).(IOAPIC.Irr) =
      if level e then s.(Machine.IoApic).(IOAPIC.Irr)
      else u32 (s.(Machine.IoApic).(IOAPIC.Irr) &. ~. bit p).
Proof.
  intros Hl Hen He (Hmask & Hirr & Hmode & Hphys & Hdest & Hv).
  unfold IoApicSetIntr. erewrite run_bind; [|unfold at_; by rewrite He].
  cbv zeta. rewrite Hmask, Hirr, Hdest, Hphys.
  destruct (deliver_fixed_run s l (IO_REDIRECT_ENTRY.Low e &. 0xff) _
    (IO_REDIRECT_ENTRY.Low e &. IOAPIC_RAISED)
    (IO_REDIRECT_ENTRY.Low e &. IOAPIC_LEVEL_SENSITIVE) Hl Hen ltac:(lia) Hmode)
    as (s1 & Hs1 & Hl1 & Hio1).
  rewrite (run_bind _ _ _ _ _ Hs1). cbv beta. change (negb (nz 0)) with true. cbv iota.
  assert (nthZ (rtes s1) p = Some e) as He1 by (unfold rtes; by rewrite Hio1).
  erewrite run_bind; [|unfold at_; by rewrite He1]. fold (level e).
  unfold accepted. destruct (level e) eqn:Elev.
  - erewrite run_bind; [|unfold upd_low, upd_at; by rewrite He1].
    set (s2 := upd_field rtes _ s1).
    assert (nthZ (rtes s2) p = Some (e <| IO_REDIRECT_ENTRY.Low ::= (fun v => u32 (v |. IOAPIC_IRR)) |>)) as He2.
    { apply nthZ_updZ_eq. by eapply nthZ_Some. }
    eexists. unfold upd_low, upd_at. rewrite He2. split; [reflexivity|].
    split; [exact Hl1|]. split; [|cbn; by rewrite Hio1].
    unfold rtes. cbn. rewrite updZ_updZ. by rewrite Hio1.
  - erewrite run_bind; [|reflexivity].
    eexists. unfold upd_low, upd_at. cbn [rtes]. set (s2 := upd_field _ _ s1).
    assert (nthZ (rtes s2) p = Some e) as -> by exact He1. split; [reflexivity|].
    split; [exact Hl1|]. split; [|cbn; by rewrite Hio1].
    unfold rtes. cbn. by rewrite Hio1.
Qed.

Lemma pin_of_nonneg irq : 0 <= irq -> 0 <= pin_of irq.
Proof. unfold pin_of. case_if; lia. Qed.

(** The machine with pin [p] waiting. *)
Definition waiting (p : Z) (s : Machine.t) : Machine.t :=
  s <| Machine.IoApic ::= (fun r => r <| IOAPIC.Irr ::= (fun v => u32 (v |. bit p)) |>) |>.

Lemma IoApicRaiseIrq_service s irq e :
  let p := pin_of irq in
  p < 24 -> nthZ (rtes s) p = Some e -> s.(Machine.IoApic).(IOAPIC.Irr) = 0 ->
  IoApicRaiseIrq irq s = IoApicService (waiting p s).
Proof.
  intros p Hp He H0. unfold IoApicRaiseIrq, IOAPIC_NUM_PINS. fold p.
  rewrite (proj2 (Z.leb_gt _ _)) by lia.
  erewrite run_bind; [|unfold at_; by rewrite He]. cbv beta.
  case_if; [done|]. rewrite (run_bind _ _ _ _ _ (get_irr_run s)). cbv beta. by rewrite H0, tst_0_l.
Qed.

Lemma waiting_bits s p i : 0 <= p < 24 -> 0 <= i < 24 -> s.(Machine.IoApic).(IOAPIC.Irr) = 0 ->
  Z.testbit (waiting p s).(Machine.IoApic).(IOAPIC.Irr) i = (i =? p).
Proof.
  intros Hp Hi H0. unfold waiting. cbn. rewrite H0.
  rewrite testbit_u32, Z.lor_spec, Z.bits_0, testbit_bit by lia.
  rewrite (proj2 (Z.ltb_lt i 32)) by lia. done.
Qed.

(** Raising an unmasked interrupt line whose entry names the local APIC makes
    its vector, and no other, requested there.  An edge-triggered line is then
    no longer waiting; a level-triggered one stays so with its remote-IRR bit
    set.  The other entries of the table do not change. *)
Theorem IoApicRaiseIrq_delivers s l irq e :
  let p := pin_of irq in
  0 <= irq -> p < 24 ->
  s.(Machine.Lapic) = [l] -> lapic_wf l -> nz l.(LAPIC.MsrEnable) = true ->
  s.(Machine.IoApic).(IOAPIC.Irr) = 0 -> nthZ (rtes s) p = Some e -> deliverable e ->
  wp (IoApicRaiseIrq irq) (fun _ s' =>
    (exists l', s'.(Machine.Lapic) = [l'] /\ forall w, is_vector w ->
       in_vec l'.(LAPIC.InterruptRequestRegister) w =
       in_vec l.(LAPIC.InterruptRequestRegister) w || (w =? (e.(IO_REDIRECT_ENTRY.Low) &. 0xff))) /\
    Z.testbit s'.(Machine.IoApic).(IOAPIC.Irr) p = level e /\
    nthZ (rtes s') p = Some (accepted e) /\
    (forall i, i <> p -> nthZ (rtes s') i = nthZ (rtes s) i)) s.
Proof.
  intros p Hirq Hp Hl Hwf Hen H0 He Hd.
  assert (0 <= p < 24) as Hp' by (pose proof (pin_of_nonneg irq Hirq); lia).
  unfold wp. rewrite (IoApicRaiseIrq_service s irq e) by done. fold p.
  destruct (IoApicSetIntr_run (waiting p s) l p e Hl Hen He Hd) as (s' & Hrun & Hl' & Hrtes & Hirr).
  assert (forall i, 0 <= i < 24 ->
    Z.testbit s'.(Machine.IoApic).(IOAPIC.Irr) i = (i =? p) && level e) as Hbits.
  { intros i Hi. rewrite Hirr. destruct (level e).
    - by rewrite waiting_bits, andb_true_r.
    - rewrite testbit_u32, Z.land_spec, testbit_pow2_lnot, waiting_bits by (lia || done).
      rewrite andb_false_r. destruct (i =? p); by rewrite ?andb_false_r. }
  rewrite (IoApicService_single _ s' p Hp').
  - split; [|split; [|split]].
    + eexists. split; [exact Hl'|]. intros w Hw. apply in_vec_accept; [done| |done].
      apply lvt_vector.
    + by rewrite Hbits, Z.eqb_refl by done.
    + rewrite Hrtes. apply nthZ_updZ_eq. by eapply nthZ_Some.
    + intros i Hi. rewrite Hrtes. by rewrite nthZ_updZ_ne.
  - intros i Hi Hne. rewrite waiting_bits by done. by apply Z.eqb_neq.
  - by rewrite waiting_bits, Z.eqb_refl by done.
  - done.
  - intros i Hi Hne. rewrite Hbits by done. by rewrite (proj2 (Z.eqb_neq i p)).
Qed.


(** The reserved delivery mode 3, which the guest can write to any entry, ends
    the program when the line is raised. *)
Theorem reserved_mode_exits s irq e :
  let p := pin_of irq in
  0 <= irq -> p < 24 ->
  s.(Machine.IoApic).(IOAPIC.Irr) = 0 -> nthZ (rtes s) p = Some e ->
  (e.(IO_REDIRECT_ENTRY.Low) &? IOAPIC_MASKED) = false ->
  (e.(IO_REDIRECT_ENTRY.Low) &? IOAPIC_LEVEL_SENSITIVE) && (e.(IO_REDIRECT_ENTRY.Low) &? IOAPIC_IRR) = false ->
  e.(IO_REDIRECT_ENTRY.Low) &. IOAPIC_DELIVERY_MODE = 0x300 ->
  IoApicRaiseIrq irq s = Fault Exit.
Proof.
  intros p Hirq Hp H0 He Hmask Hirr Hmode.
  assert (0 <= p < 24) as Hp' by (pose proof (pin_of_nonneg irq Hirq); lia).
  rewrite (IoApicRaiseIrq_service s irq e) by done. fold p.
  unfold IoApicService, IOAPIC_NUM_PINS.
  replace 24 with (p + (1 + (23 - p))) by lia. rewrite seqZ_app, (seqZ_app _ 1) by lia.
  rewrite foreach_app. erewrite run_bind.
  2: { apply service_skip. intros pin ?%elem_of_seqZ. split; [lia|].
       rewrite waiting_bits by (lia || done). apply Z.eqb_neq. lia. }
  rewrite foreach_app. replace (seqZ (0 + p) 1) with [p] by (cbn; do 2 f_equal; lia).
  simpl. unfold mbind, M_bind. rewrite get_irr_run.
  rewrite tst_bit, waiting_bits, Z.eqb_refl by (lia || done). simpl.
  unfold IoApicSetIntr, mbind, M_bind, at_. cbn. fold (rtes s). rewrite He, Hmask, Hirr.
  unfold ApicBusDeliverInterrupt. rewrite Hmode. by rewrite andb_false_r.
Qed.
End Delivery.

(** ** The local APIC's invariant under the I/O APIC *)

Section LapicInvariance.
Context `{!Driver}.

#[export] Instance upd_low_lapic i f : Preserves lapic_inv (upd_low i f).
Proof. unfold upd_low. apply _. Qed.
#[export] Instance IoApicSetIntr_lapic i : Preserves lapic_inv (IoApicSetIntr i).
Proof.
  pose proof lvt_vector. unfold IoApicSetIntr. apply within_bind; [apply _|apply _|]. intros.
  do 2 (apply within_if; [apply _|]).
  apply within_bind; [apply _|by apply deliver_inv|]. unfold upd_ioapic. apply _.
Qed.
#[export] Instance IoApicService_lapic : Preserves lapic_inv IoApicService.
Proof. unfold IoApicService, get_irr. apply _. Qed.
#[export] Instance IoApicRaiseIrq_lapic i : Preserves lapic_inv (IoApicRaiseIrq i).
Proof. unfold IoApicRaiseIrq, get_irr, upd_ioapic. apply _. Qed.
#[export] Instance IoApicLowerIrq_lapic i : Preserves lapic_inv (IoApicLowerIrq i).
Proof. unfold IoApicLowerIrq, upd_ioapic. apply _. Qed.
#[export] Instance IoApicMMIOWriteHandler_lapic a d n : Preserves lapic_inv (IoApicMMIOWriteHandler a d n).
Proof.
  unfold IoApicMMIOWriteHandler, _IoApicMMIOWriteHandler, write_entry, upd_ioapic. apply _.
Qed.
End LapicInvariance.

(** ** What raising or lowering a line may touch *)
Class IoApicFootprint (R : Machine.t -> Machine.t -> Prop) : Prop := {
  fp_apic : ApicFootprint R;
  fp_ioapic s g : R s (s <| Machine.IoApic ::= g |>)
}.
#[export] Hint Extern 1 (ApicFootprint ?R) =>
  match goal with H : IoApicFootprint R |- _ => exact (@fp_apic R H) end : typeclass_instances.

#[export] Hint Extern 2 (IoApicFootprint (keeps _)) =>
  (split; [apply _|reflexivity]) : typeclass_instances.
#[export] Hint Extern 2 (IoApicFootprint (preserves _)) =>
  (split; [apply _|let s := fresh in let H := fresh in intros s ? H; exact H]) : typeclass_instances.

Section IoApicFootprint.
Context (R : Machine.t -> Machine.t -> Prop) `{!IoApicFootprint R} `{!Driver}.

#[export] Instance fp_upd_ioapic f : Within R (upd_ioapic f).
Proof. apply within_modify. intros. apply fp_ioapic. Qed.
#[export] Instance fp_upd_entry i f : Within R (upd_at rtes i f).
Proof. apply within_upd_at. intros. apply (fp_ioapic s (fun r => r <| IOAPIC.IoRedirectTable ::= _ |>)). Qed.
#[export] Instance fp_upd_low i f : Within R (upd_low i f).
Proof. unfold upd_low. apply _. Qed.
#[export] Instance fp_IoApicSetIntr i : Within R (IoApicSetIntr i).
Proof. unfold IoApicSetIntr. apply _. Qed.
#[export] Instance fp_IoApicService : Within R IoApicService.
Proof. unfold IoApicService, get_irr. apply _. Qed.
#[export] Instance fp_IoApicRaiseIrq i : Within R (IoApicRaiseIrq i).
Proof. unfold IoApicRaiseIrq, get_irr. apply _. Qed.
#[export] Instance fp_IoApicLowerIrq i : Within R (IoApicLowerIrq i).
Proof. unfold IoApicLowerIrq. apply _. Qed.
End IoApicFootprint.

(** ** Examples *)

(** One enabled local APIC, and an entry for pin 2 with the given low half. *)
Definition example_io (low irr : Z) : Machine.t :=
  Machine.zero
    <| Machine.Lapic := [LAPIC.zero <| LAPIC.MsrEnable := 1 |>] |>
    <| Machine.IoApic := IOAPIC.mk 0 1 0
         (<[2%nat := IO_REDIRECT_ENTRY.mk 0 low]> (replicate 24 (IO_REDIRECT_ENTRY.mk 0 0x10000))) irr |>.

Lemma example_io_lapic : lapic_wf (LAPIC.zero <| LAPIC.MsrEnable := 1 |>).
Proof. pose proof rows_zero. split; simpl; auto; by split. Qed.

(** IRQ 0 with an edge-triggered entry for vector 0x30. *)
Lemma IoApicRaiseIrq_delivers_witness :
  wp (@IoApicRaiseIrq example_driver 0) (fun _ s' => exists l', s'.(Machine.Lapic) = [l'] /\
    in_vec l'.(LAPIC.InterruptRequestRegister) 0x30 = true) (example_io 0x30 0).
Proof.
  eapply wp_mono; [|refine (@IoApicRaiseIrq_delivers example_driver (example_io 0x30 0)
    (LAPIC.zero <| LAPIC.MsrEnable := 1 |>) 0 (IO_REDIRECT_ENTRY.mk 0 0x30)
    _ _ eq_refl example_io_lapic eq_refl eq_refl eq_refl _)].
  - intros _ s' ((l' & Hl' & Hw) & _). exists l'. split; [exact Hl'|].
    rewrite Hw by (split; [discriminate|reflexivity]). apply orb_true_r.
  - discriminate.
  - reflexivity.
  - split; [reflexivity|]. split; [reflexivity|]. split; [left; reflexivity|].
    split; [reflexivity|]. split; [reflexivity|discriminate].
Defined.


Lemma reserved_mode_exits_witness :
  @IoApicRaiseIrq example_driver 0 (example_io 0x330 0) = Fault Exit.
Proof.
  apply (@reserved_mode_exits example_driver (example_io 0x330 0) 0 (IO_REDIRECT_ENTRY.mk 0 0x330));
    reflexivity || discriminate.
Defined.
