(* ===== verification/Pic.v ===== *)
(** pic.c: the two cascaded 8259 interrupt controllers.

    [Pic[0]] is the master and [Pic[1]] the slave, whose output is the master's
    pin 2.  A raised line is forwarded to the I/O APIC (IoApic.v) and latched;
    [PicService] picks a request and asks for an interrupt window, through the
    master's pin 2 for the slave; [PicIAC] acknowledges it when the guest can
    take it. *)

From S2P Require Export IoApic.

(** pic.h *)
Definition ICW1_REQ_ICW4 : Z := bit 0.
Definition ICW1_INIT : Z := bit 4.
Definition ICW3_CASCADE_ENABLE : Z := bit 2.
Definition ICW3_SLAVE_ID : Z := bit 1.
Definition ICW4_AUTO_EOI : Z := bit 1.
Definition ICW4_SPECIAL_FULLY_NESTED : Z := bit 4.
Definition ICW4_MASK : Z := bit 4 - 1.
Definition OCW3_MASK : Z := bit 7 - 1.
Definition OCW3_SPECIAL_MASK_MODE : Z := bit 6.
Definition OCW3_ESPECIAL_MASK_MODE : Z := bit 5.
Definition OCW3_SELECT_DEFAULT : Z := bit 3.
Definition OCW3_POLL_MODE : Z := bit 2.
Definition OCW3_READ_IRR : Z := 2.
Definition OCW3_READ_ISR : Z := 3.
Definition STATE_INITIALIZED_ICW1 : Z := 1.
Definition STATE_OFFSET_SET_ICW2 : Z := 2.
Definition STATE_SLAVE_SET_ICW3 : Z := 3.
Definition STATE_ARCH_SET_ICW4 : Z := 4.
Definition MODE_FULLY_NESTED : Z := 1.
Definition MODE_SPECIAL_FULLY_NESTED : Z := bit 1.
Definition MODE_SPECIAL_MASK : Z := bit 4.
Definition MODE_POLL : Z := bit 5.
Definition MODE_AUTO_EOI : Z := bit 6.
Definition MODE_NORMAL_EOI : Z := bit 7.

Definition pic (i : Z) : IO PIC.t := at_ Machine.Pic i.
Definition upd_pic (i : Z) (f : PIC.t -> PIC.t) : IO unit := upd_at Machine.Pic i f.

Section Operations.
Context `{!Driver}.

(** ** Choosing a request *)

(** One line in special mask mode; [true] when the service returns. *)
Definition special_mask_line (i irq : Z) : IO bool :=
  p ← pic i;
  if ~. p.(PIC.InterruptMask) &? bit irq then mret false
  else if negb (p.(PIC.InterruptInService) &? bit irq) && (p.(PIC.InterruptRequest) &? bit irq) then
    upd_pic i (fun p => p <| PIC.Raised := 1 |>
                          <| PIC.InterruptNumber := u8 (irq + p.(PIC.CurrentOffset)) |>) ;;
    p ← pic i;
    Ret ← DeviceIoControl (GVM_INTERRUPT p.(PIC.InterruptNumber));
    if negb Ret then mret true
    else set_event EVENT_PENDING_INTR ;; mret false
  else mret false.

Fixpoint special_mask_scan (i : Z) (irqs : list Z) : IO unit :=
  match irqs with
  | [] => done_
  | irq :: irqs =>
      ret ← special_mask_line i irq;
      if (ret : bool) then done_ else special_mask_scan i irqs
  end.

(** [for (irq = 0; irq <= CurrentPriority; irq++)] with its [break]; the shift
    faults at 32, so 33 rounds of fuel are enough. *)
Fixpoint nested_scan (fuel : nat) (p : PIC.t) (irq : Z) : IO Z :=
  match fuel with
  | O => stop Diverges
  | S fuel =>
      if irq <=? p.(PIC.CurrentPriority) then
        b ← shl1 irq;
        if p.(PIC.InterruptMask) &? b then nested_scan fuel p (u8 (irq + 1))
        else if negb (p.(PIC.InterruptInService) &? b) && (p.(PIC.InterruptRequest) &? b) then mret irq
        else nested_scan fuel p (u8 (irq + 1))
      else mret irq
  end.

(** [PicService] with [PicRaiseIrq(2)] given. *)
Definition PicService_body (PicRaiseIrq2 : IO unit) (i : Z) : IO unit :=
  p ← pic i;
  if p.(PIC.Mode) &? MODE_SPECIAL_MASK then special_mask_scan i (seqZ 0 8)
  else if p.(PIC.Mode) &? MODE_FULLY_NESTED then
    irq ← nested_scan 34 p 0;
    if irq =? p.(PIC.CurrentPriority) + 1 then done_
    else
      upd_pic i (fun p => p <| PIC.Raised := 1 |>
                            <| PIC.InterruptNumber := u8 (irq + p.(PIC.CurrentOffset)) |>) ;;
      p ← pic i;
      if nth0 p.(PIC.InitCmd) 2 &? ICW3_CASCADE_ENABLE then
        request_window ;; set_event EVENT_PENDING_INTR
      else PicRaiseIrq2
  else done_.

(** The latch of [PicRaiseIrq], with [PicService] given. *)
Definition PicRaiseIrq_body (PicService : Z -> IO unit) (IrqNumber : Z) : IO unit :=
  when (negb (IrqNumber =? 2)) (IoApicRaiseIrq IrqNumber) ;;
  let i := if 7 <? IrqNumber then 1 else 0 in
  let irq := u8 (bit (IrqNumber &. 7)) in
  if 15 <? IrqNumber then done_
  else
    p ← pic i;
    if p.(PIC.InterruptPin) &? irq then done_
    else
      upd_pic i (fun p => p <| PIC.InterruptPin ::= (fun v => u8 (v |. irq)) |>
                            <| PIC.InterruptRequest ::= (fun v => u8 (v |. irq)) |>) ;;
      PicService i.

(** The two functions call each other: a slave's service raises the master's
    pin 2, whose service ends the chain or raises a pin that is already up. *)
Fixpoint PicService_rec (fuel : nat) (i : Z) : IO unit :=
  match fuel with
  | O => stop Diverges
  | S fuel => PicService_body (PicRaiseIrq_body (PicService_rec fuel) 2) i
  end.

Definition PicService : Z -> IO unit := PicService_rec 3.
Definition PicRaiseIrq : Z -> IO unit := PicRaiseIrq_body PicService.

Definition PicLowerIrq (IrqNumber : Z) : IO unit :=
  when (negb (IrqNumber =? 2)) (IoApicLowerIrq IrqNumber) ;;
  let i := if 7 <? IrqNumber then 1 else 0 in
  let irq := u8 (bit (IrqNumber &. 7)) in
  if 7 <? IrqNumber then done_
  else
    p ← pic i;
    if negb (p.(PIC.InterruptPin) &? irq) then done_
    else
      upd_pic i (fun p => p <| PIC.InterruptPin ::= (fun v => u8 (v &. ~. irq)) |>
                            <| PIC.InterruptRequest ::= (fun v => u8 (v &. ~. irq)) |>).

Definition PicSetMode (Master EdgeLevel : Z) : IO unit :=
  if nz Master then upd_pic 0 (fun p => p <| PIC.EdgeLevel := EdgeLevel |>)
  else upd_pic 1 (fun p => p <| PIC.EdgeLevel := EdgeLevel |>).

(** ** Acknowledging *)

(** The number of the request [Pic[i]] presents. *)
Definition presented (p : PIC.t) : Z := u8 (p.(PIC.InterruptNumber) - p.(PIC.CurrentOffset)).

(** [Raised = 0] and, for an edge-triggered line, the end of the request. *)
Definition take_request (i irq : Z) : IO unit :=
  upd_pic i (fun p => p <| PIC.Raised := 0 |>) ;;
  b ← shl1 irq;
  p ← pic i;
  when (negb (p.(PIC.EdgeLevel) &? b))
    (upd_pic i (fun p => p <| PIC.InterruptRequest ::= (fun v => u8 (v &. ~. b)) |>)).

Definition put_in_service (i irq : Z) : IO unit :=
  b ← shl1 irq;
  upd_pic i (fun p => p <| PIC.CurrentPriority := irq |>
                        <| PIC.InterruptInService ::= (fun v => u8 (v |. b)) |>).

Definition PicIAC : IO Z :=
  clear_event EVENT_PENDING_INTR ;;
  p ← pic 0;
  let irq := presented p in
  take_request 0 irq ;;
  vector ←
    (if negb (irq =? 2) then
       put_in_service 0 irq ;;
       p ← pic 0;
       mret p.(PIC.InterruptNumber)
     else
       p ← pic 1;
       let irq := presented p in
       take_request 1 irq ;;
       upd_pic 0 (fun p => p <| PIC.InterruptPin ::= (fun v => u8 (v &. ~. bit 2)) |>) ;;
       put_in_service 1 irq ;;
       p ← pic 1;
       PicService 1 ;;
       mret p.(PIC.InterruptNumber));
  PicService 0 ;;
  mret vector.

(** ** The ports *)

Definition PicPortIoReadHandler (Address Length : Z) : IO Z :=
  let i := if 0xA0 <=? Address then 1 else 0 in
  if (Address =? 0x21) || (Address =? 0xA1) then
    p ← pic i; mret p.(PIC.InterruptMask)
  else if (Address =? 0x20) || (Address =? 0xA0) then
    p ← pic i;
    mret (if nth0 p.(PIC.OperationCmd) 2 &? OCW3_READ_ISR then p.(PIC.InterruptInService)
          else if nth0 p.(PIC.OperationCmd) 2 &? OCW3_READ_IRR then p.(PIC.InterruptRequest)
          else 0)
  else mret 0.

(** Initialisation command word 1. *)
Definition write_icw1 (i Value : Z) : IO unit :=
  upd_pic i (fun p => p
    <| PIC.InitCmd ::= alterZ 0 (fun _ => u8 (Value &. ICW1_REQ_ICW4)) |>
    <| PIC.InterruptRequest := 0 |>
    <| PIC.InterruptMask := 0 |>
    <| PIC.State := STATE_INITIALIZED_ICW1 |>
    <| PIC.CurrentPriority := 7 |>
    <| PIC.Raised := 0 |>
    <| PIC.Mode := 0 |>) ;;
  clear_event EVENT_PENDING_INTR.

Definition set_mode (i mode : Z) : IO unit := upd_pic i (fun p => p <| PIC.Mode := mode |>).

(** Operation command word 3. *)
Definition write_ocw3 (i Value : Z) : IO unit :=
  upd_pic i (fun p => p <| PIC.OperationCmd ::= alterZ 2 (fun _ => u8 (Value &. OCW3_MASK)) |>) ;;
  if Value &? 3 then done_
  else
    p ← pic i;
    let ocw3 := nth0 p.(PIC.OperationCmd) 2 in
    if (ocw3 &? OCW3_SPECIAL_MASK_MODE) && (ocw3 &? OCW3_ESPECIAL_MASK_MODE) then
      set_mode i MODE_SPECIAL_MASK ;;
      PicService i
    else if (ocw3 &? OCW3_SPECIAL_MASK_MODE) && negb (ocw3 &? OCW3_ESPECIAL_MASK_MODE) then
      set_mode i MODE_SPECIAL_FULLY_NESTED
    else if ocw3 &? OCW3_POLL_MODE then set_mode i MODE_POLL
    else done_.

(** [for (irq = CurrentPriority; irq >= 0; irq--)] with its [break]; [irq] is a
    CHAR, so 129 rounds of fuel are enough. *)
Fixpoint eoi_scan (fuel : nat) (i irq : Z) : IO unit :=
  match fuel with
  | O => stop Diverges
  | S fuel =>
      if 0 <=? irq then
        b ← shl1 irq;
        p ← pic i;
        if p.(PIC.InterruptInService) &? b then
          upd_pic i (fun p => p <| PIC.InterruptInService ::= (fun v => u8 (v &. ~. b)) |>
                                <| PIC.CurrentPriority := 7 |>)
        else eoi_scan fuel i (irq - 1)
      else done_
  end.

Definition end_specific (i irq : Z) : IO unit :=
  b ← shl1 (u32 irq);
  upd_pic i (fun p => p <| PIC.InterruptInService ::= (fun v => u8 (v &. ~. b)) |>).

(** Operation command word 2: priorities and the end of an interrupt. *)
Definition write_ocw2 (i Value : Z) : IO unit :=
  let v := Value &. 0xff in
  if (v =? 0) || (v =? 0x80) then
    set_mode i (if nz Value then MODE_AUTO_EOI else MODE_NORMAL_EOI)
  else if v =? 2 then done_
  else if (v =? 0x20) || (v =? 0xA0) then
    p ← pic i;
    eoi_scan 130 i (s8 p.(PIC.CurrentPriority)) ;;
    PicService i
  else if (0x60 <=? v) && (v <=? 0x67) then
    end_specific i (Value - 0x60) ;;
    PicService i
  else if (0xC0 <=? v) && (v <=? 0xC7) then
    upd_pic i (fun p => p <| PIC.CurrentPriority := u8 (Value - 0xC0) |>)
  else if (0xE0 <=? v) && (v <=? 0xE7) then
    end_specific i (Value - 0xE0) ;;
    upd_pic i (fun p => p <| PIC.CurrentPriority := u8 (Value - 0xE0) |>) ;;
    PicService i
  else done_.

Definition write_icw2 (i Value : Z) : IO unit :=
  upd_pic i (fun p => p <| PIC.State := STATE_OFFSET_SET_ICW2 |>
                        <| PIC.CurrentOffset := Value &. 0xff |>).

Definition write_icw3 (i Value : Z) : IO unit :=
  upd_pic i (fun p => p
    <| PIC.InitCmd ::= alterZ 2 (fun _ =>
         if i =? 0 then Value &. ICW3_CASCADE_ENABLE else ICW3_SLAVE_ID) |>
    <| PIC.State := STATE_SLAVE_SET_ICW3 |>
    <| PIC.InterruptPin ::= (fun v => u8 (v &. ~. Value)) |>).

Definition write_icw4 (i Value : Z) : IO unit :=
  upd_pic i (fun p => p
    <| PIC.State := STATE_ARCH_SET_ICW4 |>
    <| PIC.Mode ::= (fun m =>
         let m := if (Value &. ICW4_MASK) &? ICW4_SPECIAL_FULLY_NESTED
                  then u8 (m |. MODE_SPECIAL_FULLY_NESTED)
                  else if (Value &. ICW4_MASK) &? MODE_FULLY_NESTED
                  then u8 (m |. MODE_FULLY_NESTED) else m in
         if (Value &. ICW4_MASK) &? ICW4_AUTO_EOI then u8 (m |. MODE_AUTO_EOI)
         else u8 (m |. MODE_NORMAL_EOI)) |>).

(** Ports 0x21 and 0xA1: the rest of the initialisation, then the mask. *)
Definition write_data (i Value : Z) : IO unit :=
  p ← pic i;
  if p.(PIC.State) =? STATE_INITIALIZED_ICW1 then write_icw2 i Value
  else if p.(PIC.State) =? STATE_OFFSET_SET_ICW2 then write_icw3 i Value
  else if (p.(PIC.State) <? STATE_ARCH_SET_ICW4) && (nth0 p.(PIC.InitCmd) 0 &? ICW1_REQ_ICW4) then
    write_icw4 i Value
  else if p.(PIC.State) =? STATE_ARCH_SET_ICW4 then
    upd_pic i (fun p => p <| PIC.InterruptMask := Value &. 0xff |>) ;;
    PicService i
  else done_.

Definition PicPortIoWriteHandler (Address Value Length : Z) : IO unit :=
  let i := if 0xA0 <=? Address then 1 else 0 in
  if (Address =? 0x20) || (Address =? 0xA0) then
    if Value &? ICW1_INIT then write_icw1 i Value
    else if (Value &. 0x18) =? OCW3_SELECT_DEFAULT then write_ocw3 i Value
    else write_ocw2 i Value
  else if (Address =? 0x21) || (Address =? 0xA1) then write_data i Value
  else done_.

Definition PicInitialize : IO unit :=
  modify (fun s => s <| Machine.Pic := replicate 2 PIC.zero |>) ;;
  upd_pic 0 (fun p => p <| PIC.InterruptMask := 0xff |> <| PIC.CurrentPriority := 7 |>
                        <| PIC.Mode := MODE_FULLY_NESTED |> <| PIC.CurrentOffset := 0x08 |>) ;;
  upd_pic 1 (fun p => p <| PIC.InterruptMask := 0xff |> <| PIC.CurrentPriority := 7 |>
                        <| PIC.Mode := MODE_FULLY_NESTED |> <| PIC.CurrentOffset := 0x70 |>) ;;
  foreach (seqZ 0x20 2) (fun i => RegisterPortIoHandler i (Some cb_Pic) (Some cb_Pic)) ;;
  foreach (seqZ 0xA0 2) (fun i => RegisterPortIoHandler i (Some cb_Pic) (Some cb_Pic)).
End Operations.

(** ** Well-formed controllers *)

Record pic_wf (p : PIC.t) : Prop := {
  wf_init : length p.(PIC.InitCmd) = 4%nat;
  wf_operation : length p.(PIC.OperationCmd) = 4%nat;
  wf_mask : is_u8 p.(PIC.InterruptMask);
  wf_service : is_u8 p.(PIC.InterruptInService);
  wf_request : is_u8 p.(PIC.InterruptRequest);
  wf_pin : is_u8 p.(PIC.InterruptPin);
  wf_number : is_u8 p.(PIC.InterruptNumber);
  wf_offset : is_u8 p.(PIC.CurrentOffset);
  wf_priority : 0 <= p.(PIC.CurrentPriority) <= 7
}.

Definition pic_inv (s : Machine.t) : Prop :=
  exists m sl, s.(Machine.Pic) = [m; sl] /\ pic_wf m /\ pic_wf sl.

(** [Pic[i]] of a machine with two controllers. *)
Definition the_pic (i : Z) (s : Machine.t) : PIC.t := default PIC.zero (nthZ s.(Machine.Pic) i).
Definition is_pic (i : Z) : Prop := i = 0 \/ i = 1.

Lemma pic_run i s : is_pic i -> pic_inv s -> pic i s = Ok (the_pic i s) s.
Proof. intros [-> | ->] (m & sl & Hp & _); unfold pic, at_, the_pic; by rewrite Hp. Qed.

Lemma the_pic_wf i s : is_pic i -> pic_inv s -> pic_wf (the_pic i s).
Proof. intros [-> | ->] (m & sl & Hp & Hm & Hsl); unfold the_pic; by rewrite Hp. Qed.

(** The machine with another [Pic[i]]. *)
Definition with_pic (i : Z) (p : PIC.t) (s : Machine.t) : Machine.t :=
  s <| Machine.Pic ::= (fun l => updZ l i p) |>.

Lemma upd_pic_run i f s : is_pic i -> pic_inv s ->
  upd_pic i f s = Ok tt (with_pic i (f (the_pic i s)) s).
Proof.
  intros Hi (m & sl & Hp & _). unfold upd_pic, upd_at, the_pic. rewrite Hp.
  by destruct Hi as [-> | ->].
Qed.

Lemma with_pic_inv i p s : is_pic i -> pic_wf p -> pic_inv s -> pic_inv (with_pic i p s).
Proof.
  intros Hi Hp (m & sl & Hs & Hm & Hsl). unfold pic_inv, with_pic. cbn. rewrite Hs.
  destruct Hi as [-> | ->]; [exists p, sl|exists m, p]; by split_and!.
Qed.

Lemma the_pic_with i j p s : is_pic i -> is_pic j -> pic_inv s ->
  the_pic j (with_pic i p s) = if j =? i then p else the_pic j s.
Proof.
  intros Hi Hj (m & sl & Hs & _). unfold the_pic, with_pic. cbn. rewrite Hs.
  by destruct Hi as [-> | ->], Hj as [-> | ->].
Qed.

Lemma the_pic_same i p s : is_pic i -> pic_inv s -> the_pic i (with_pic i p s) = p.
Proof. intros Hi Hs. rewrite the_pic_with by done. by rewrite Z.eqb_refl. Qed.

Lemma wp_pic {B} i (k : PIC.t -> IO B) Q s : is_pic i -> pic_inv s ->
  wp (k (the_pic i s)) Q s -> wp (pic i ≫= k) Q s.
Proof. intros Hi Hs Hk. eapply wp_run_bind; [by apply pic_run|done]. Qed.

Lemma wp_upd_pic {B} i f (k : unit -> IO B) Q s : is_pic i -> pic_inv s ->
  (pic_wf (the_pic i s) -> pic_wf (f (the_pic i s))) ->
  (pic_inv (with_pic i (f (the_pic i s)) s) -> wp (k tt) Q (with_pic i (f (the_pic i s)) s)) ->
  wp (upd_pic i f ≫= k) Q s.
Proof.
  intros Hi Hs Hf Hk. eapply wp_run_bind; [by apply upd_pic_run|].
  apply Hk, with_pic_inv; auto using the_pic_wf.
Qed.

(** The invariant as a postcondition. *)
Lemma wp_upd_pic_end i f s : is_pic i -> pic_inv s ->
  (pic_wf (the_pic i s) -> pic_wf (f (the_pic i s))) -> wp (upd_pic i f) (fun _ => pic_inv) s.
Proof.
  intros Hi Hs Hf. unfold wp. rewrite upd_pic_run by done. apply with_pic_inv; auto using the_pic_wf.
Qed.

Ltac pic_wf_upd := let H := fresh in
  intros H; destruct H; split; simpl; rewrite ?length_alterZ; auto with width; try lia.

(** ** Choosing a request *)

(** A line that may be served: not masked, not in service, requested. *)
Definition candidate (p : PIC.t) (irq : Z) : bool :=
  negb (Z.testbit p.(PIC.InterruptMask) irq) &&
  (negb (Z.testbit p.(PIC.InterruptInService) irq) && Z.testbit p.(PIC.InterruptRequest) irq).

(** The specification of the scan: the least candidate up to [CurrentPriority],
    the highest priority being line 0. *)
Definition first_candidate (p : PIC.t) : option Z :=
  find (candidate p) (seqZ 0 (p.(PIC.CurrentPriority) + 1)).

Lemma nested_scan_run p s fuel irq :
  0 <= p.(PIC.CurrentPriority) <= 7 -> 0 <= irq <= p.(PIC.CurrentPriority) + 1 ->
  p.(PIC.CurrentPriority) + 1 - irq < Z.of_nat fuel ->
  nested_scan fuel p irq s =
    Ok (default (p.(PIC.CurrentPriority) + 1)
          (find (candidate p) (seqZ irq (p.(PIC.CurrentPriority) + 1 - irq)))) s.
Proof.
  intros Hp. revert irq. induction fuel as [|fuel IH]; intros irq Hi Hf; [lia|]. simpl.
  destruct (Z.leb_spec irq p.(PIC.CurrentPriority)).
  2: { assert (irq = p.(PIC.CurrentPriority) + 1) as -> by lia. by rewrite Z.sub_diag. }
  rewrite seqZ_cons by lia. simpl.
  assert (shl1 irq s = Ok (bit irq) s) as Hshl.
  { unfold shl1. by rewrite (proj2 (Z.ltb_lt irq 32)) by lia. }
  rewrite (run_bind _ _ _ _ _ Hshl), !tst_bit by lia. rewrite (u8_small (irq + 1)) by (split; lia).
  specialize (IH (irq + 1) ltac:(lia) ltac:(lia)).
  replace (p.(PIC.CurrentPriority) + 1 - (irq + 1)) with
    (Z.pred (p.(PIC.CurrentPriority) + 1 - irq)) in IH by lia.
  change (irq + 1) with (Z.succ irq) in IH |- *.
  unfold candidate at 1. destruct (Z.testbit (PIC.InterruptMask p) irq); simpl; [exact IH|].
  destruct (_ && _); [done|exact IH].
Qed.

Lemma nested_scan_spec p s : 0 <= p.(PIC.CurrentPriority) <= 7 ->
  nested_scan 34 p 0 s = Ok (default (p.(PIC.CurrentPriority) + 1) (first_candidate p)) s.
Proof. intros Hp. rewrite nested_scan_run by lia. by rewrite Z.sub_0_r. Qed.

Lemma first_candidate_range p irq : first_candidate p = Some irq ->
  0 <= irq <= p.(PIC.CurrentPriority) /\ candidate p irq = true.
Proof.
  intros Hf. apply find_some in Hf as [Hin Hc]. split; [|done].
  apply list_elem_of_In, elem_of_seqZ in Hin. lia.
Qed.

Section Service.
Context `{!Driver}.

Definition present (irq : Z) (p : PIC.t) : PIC.t :=
  p <| PIC.Raised := 1 |> <| PIC.InterruptNumber := u8 (irq + p.(PIC.CurrentOffset)) |>.

(** The machine that waits for an interrupt window for the PIC. *)
Definition windowed (s : Machine.t) : Machine.t :=
  s <| Machine.kvm_run ::= (fun r => r <| kvm_run.request_interrupt_window := 1 |>) |>
    <| Machine.svmm_events ::= (fun v => u32 (v |. EVENT_PENDING_INTR)) |>.

Definition nested_mode (p : PIC.t) : bool :=
  negb (p.(PIC.Mode) &? MODE_SPECIAL_MASK) && (p.(PIC.Mode) &? MODE_FULLY_NESTED).
Definition is_master (p : PIC.t) : bool := nth0 p.(PIC.InitCmd) 2 &? ICW3_CASCADE_ENABLE.

Lemma present_wf irq p : pic_wf p -> pic_wf (present irq p).
Proof. unfold present. pic_wf_upd. Qed.

(** The service in fully nested mode, in closed form. *)
Lemma PicService_nested_run r i s : is_pic i -> pic_inv s ->
  let p := the_pic i s in
  nested_mode p = true ->
  PicService_body r i s =
    match first_candidate p with
    | None => Ok tt s
    | Some irq =>
        let s1 := with_pic i (present irq p) s in
        if is_master p then Ok tt (windowed s1) else r s1
    end.
Proof.
  intros Hi Hs p Hmode. pose proof (the_pic_wf i s Hi Hs) as Hwf. fold p in Hwf.
  unfold PicService_body. rewrite (run_bind _ _ _ _ _ (pic_run i s Hi Hs)). fold p.
  unfold nested_mode in Hmode. apply andb_true_iff in Hmode as [H1%negb_true_iff H2].
  rewrite H1, H2, (run_bind _ _ _ _ _ (nested_scan_spec p s (wf_priority p Hwf))).
  destruct (first_candidate p) as [irq|] eqn:Ef; simpl; [|by rewrite Z.eqb_refl].
  pose proof (first_candidate_range p irq Ef) as [Hr _].
  rewrite (proj2 (Z.eqb_neq _ _)) by lia.
  rewrite (run_bind _ _ _ _ _ (upd_pic_run i _ s Hi Hs)). fold p. set (s1 := with_pic i _ s).
  assert (pic_inv s1) as Hs1 by (apply with_pic_inv; [done|by apply present_wf|done]).
  rewrite (run_bind _ _ _ _ _ (pic_run i s1 Hi Hs1)).
  unfold s1 at 1. rewrite the_pic_with, Z.eqb_refl by done. simpl. fold (is_master p).
  by destruct (is_master p).
Qed.

Lemma special_mask_line_wp i irq s : is_pic i -> 0 <= irq < 8 -> pic_inv s ->
  wp (special_mask_line i irq) (fun _ => pic_inv) s.
Proof.
  intros Hi Hirq Hs. unfold special_mask_line. apply wp_pic; [done|done|].
  case_if; [done|]. case_if; [|done].
  apply wp_upd_pic; [done|done|pic_wf_upd|]. set (s1 := with_pic i _ s). intros Hs1.
  apply wp_pic; [done|done|]. unfold DeviceIoControl, wp. mred. by case_if.
Qed.

Lemma special_mask_scan_wp i irqs s : is_pic i -> Forall (fun irq => 0 <= irq < 8) irqs -> pic_inv s ->
  wp (special_mask_scan i irqs) (fun _ => pic_inv) s.
Proof.
  intros Hi Hirqs. revert s. induction Hirqs as [|irq irqs Hirq _ IH]; intros s Hs; simpl; [done|].
  apply wp_bind. eapply wp_mono; [|by apply special_mask_line_wp].
  intros [] s' Hs'; [done|by apply IH].
Qed.

(** The pin the slave drives. *)
Definition pin2 (s : Machine.t) : bool := Z.testbit (the_pic 0 s).(PIC.InterruptPin) 2.

Lemma raise2_up f s : pic_inv s -> pin2 s = true -> PicRaiseIrq_body f 2 s = Ok tt s.
Proof.
  intros Hs Hp. unfold PicRaiseIrq_body. simpl. rewrite (run_bind _ _ _ tt s) by done. cbv beta.
  change (7 <? 2) with false. change (15 <? 2) with false. cbv iota.
  rewrite (run_bind _ _ _ _ _ (pic_run 0 s ltac:(by left) Hs)).
  rewrite (tst_mask _ _ 2) by done. fold (pin2 s). by rewrite Hp.
Qed.

Lemma PicService_body_wp r i s : is_pic i -> pic_inv s ->
  (forall s1, pic_inv s1 -> pin2 s1 = pin2 s -> wp r (fun _ => pic_inv) s1) ->
  wp (PicService_body r i) (fun _ => pic_inv) s.
Proof.
  intros Hi Hs Hr. destruct (nested_mode (the_pic i s)) eqn:Hmode.
  - unfold wp at 1. rewrite PicService_nested_run by done.
    destruct (first_candidate _) as [irq|]; [|done].
    assert (pic_inv (with_pic i (present irq (the_pic i s)) s)) as Hs1.
    { apply with_pic_inv; [done|by apply present_wf, the_pic_wf|done]. }
    destruct (is_master _); [done|]. apply (Hr _ Hs1).
    unfold pin2. rewrite the_pic_with by (done || by left). by destruct Hi as [-> | ->].
  - unfold PicService_body. apply wp_pic; [done|done|].
    unfold nested_mode in Hmode. destruct (_ &? MODE_SPECIAL_MASK).
    + apply special_mask_scan_wp; [done| |done]. by repeat (constructor; [lia|]).
    + simpl in Hmode. by rewrite Hmode.
Qed.

Lemma PicService_rec_up n i s : is_pic i -> pic_inv s -> pin2 s = true ->
  wp (PicService_rec (S n) i) (fun _ => pic_inv) s.
Proof.
  intros Hi Hs Hp. simpl. apply PicService_body_wp; [done|done|].
  intros s1 Hs1 Hp1. unfold wp. by rewrite raise2_up by (done || congruence).
Qed.

Lemma wp_raise2 f s : pic_inv s ->
  (forall s1, pic_inv s1 -> pin2 s1 = true -> wp (f 0) (fun _ => pic_inv) s1) ->
  wp (PicRaiseIrq_body f 2) (fun _ => pic_inv) s.
Proof.
  intros Hs Hf. unfold PicRaiseIrq_body. simpl. apply wp_done_bind. cbv zeta.
  change (7 <? 2) with false. change (15 <? 2) with false. cbv iota.
  apply wp_pic; [by left|done|]. case_if; [done|].
  apply wp_upd_pic; [by left|done|pic_wf_upd|]. intros Hs1. apply (Hf _ Hs1).
  unfold pin2. rewrite the_pic_with by (done || by left). simpl.
  rewrite testbit_u8, Z.lor_spec by lia. apply orb_true_r.
Qed.

Lemma PicService_wp i s : is_pic i -> pic_inv s -> wp (PicService i) (fun _ => pic_inv) s.
Proof.
  intros Hi Hs. unfold PicService. simpl PicService_rec. apply PicService_body_wp; [done|done|].
  intros s1 Hs1 _. apply wp_raise2; [done|]. intros s2 Hs2 Hp2.
  apply (PicService_rec_up 1); [by left|done|done].
Qed.

(** C1 The services of the two controllers call each other through the master's
    pin 2 and always end: with well-formed controllers [PicService] returns,
    whatever their modes and the driver's answers, and keeps them well formed;
    so does raising a line, when the I/O APIC takes it. *)
Theorem PicService_total s : pic_inv s ->
  (forall i, is_pic i -> wp (PicService i) (fun _ => pic_inv) s) /\
  (forall n s1, n <> 2 -> IoApicRaiseIrq n s = Ok tt s1 -> wp (PicRaiseIrq n) (fun _ => pic_inv) s).
Proof.
  intros Hs. split; [intros; by apply PicService_wp|]. intros n s1 Hn Hio.
  pose proof (within_run (keeps Machine.Pic) (IoApicRaiseIrq n) s tt s1 Hio) as Hkeep.
  unfold keeps in Hkeep. assert (pic_inv s1) as Hs1 by (unfold pic_inv; by rewrite Hkeep).
  unfold PicRaiseIrq, PicRaiseIrq_body. rewrite (proj2 (Z.eqb_neq n 2) Hn).
  eapply wp_run_bind; [exact Hio|]. cbv zeta.
  assert (is_pic (if 7 <? n then 1 else 0)) as Hi by (case_if; [by right|by left]).
  revert Hi. generalize (if 7 <? n then 1 else 0). intros i Hi. case_if; [done|].
  apply wp_pic; [done|done|]. case_if; [done|].
  apply wp_upd_pic; [done|done|pic_wf_upd|]. intros. by apply PicService_wp.
Qed.
End Service.

Section Ports.
Context `{!Driver}.

(** ** The end of an interrupt *)

(** The line the non-specific end picks: the scan goes down from [CurrentPriority]. *)
Definition eoi_line (p : PIC.t) : option Z :=
  find (fun irq => Z.testbit p.(PIC.InterruptInService) irq)
    (reverse (seqZ 0 (p.(PIC.CurrentPriority) + 1))).

Definition ended (irq : Z) (p : PIC.t) : PIC.t :=
  p <| PIC.InterruptInService ::= (fun v => u8 (v &. ~. bit irq)) |> <| PIC.CurrentPriority := 7 |>.

Lemma ended_nested irq p : nested_mode (ended irq p) = nested_mode p.
Proof. done. Qed.
Lemma ended_master irq p : is_master (ended irq p) = is_master p.
Proof. done. Qed.
Lemma ended_wf irq p : pic_wf p -> pic_wf (ended irq p).
Proof. unfold ended. pic_wf_upd. Qed.

Lemma eoi_scan_run fuel i irq s : is_pic i -> pic_inv s -> -1 <= irq <= 7 -> irq + 1 < Z.of_nat fuel ->
  eoi_scan fuel i irq s =
    Ok tt (match find (fun k => Z.testbit (the_pic i s).(PIC.InterruptInService) k)
                   (reverse (seqZ 0 (irq + 1))) with
           | Some k => with_pic i (ended k (the_pic i s)) s
           | None => s
           end).
Proof.
  intros Hi Hs. revert irq. induction fuel as [|fuel IH]; intros irq Hr Hf; [lia|]. simpl.
  destruct (Z.leb_spec 0 irq).
  2: { assert (irq = -1) as -> by lia. done. }
  rewrite seqZ_app, reverse_app by lia. change (reverse (seqZ (0 + irq) 1)) with [Z.of_nat 0 + (0 + irq)].
  replace (Z.of_nat 0 + (0 + irq)) with irq by lia. simpl.
  assert (shl1 irq s = Ok (bit irq) s) as Hshl.
  { unfold shl1. by rewrite (proj2 (Z.ltb_lt irq 32)) by lia. }
  rewrite (run_bind _ _ _ _ _ Hshl), (run_bind _ _ _ _ _ (pic_run i s Hi Hs)), tst_bit by lia.
  destruct (Z.testbit _ irq); [by rewrite upd_pic_run|].
  rewrite IH by lia. by replace (irq - 1 + 1) with irq by lia.
Qed.

Lemma wp_eoi i s : is_pic i -> pic_inv s ->
  wp (p ← pic i; eoi_scan 130 i (s8 p.(PIC.CurrentPriority)) ;; PicService i) (fun _ => pic_inv) s.
Proof.
  intros Hi Hs. pose proof (the_pic_wf i s Hi Hs) as Hwf. pose proof (wf_priority _ Hwf).
  apply wp_pic; [done|done|].
  assert (s8 (the_pic i s).(PIC.CurrentPriority) = (the_pic i s).(PIC.CurrentPriority)) as ->.
  { unfold s8, signed. change (2 ^ (8 - 1)) with 128. change (2 ^ 8) with 256.
    rewrite Z.mod_small by lia. lia. }
  eapply wp_run_bind; [apply eoi_scan_run; [done|done|lia|lia]|].
  apply PicService_wp; [done|]. destruct (find _ _); [|done].
  apply with_pic_inv; [done|by apply ended_wf|done].
Qed.

Lemma wp_end_specific i irq (k : unit -> IO unit) s : is_pic i -> pic_inv s -> 0 <= irq < 8 ->
  (forall s', pic_inv s' -> wp (k tt) (fun _ => pic_inv) s') ->
  wp (end_specific i irq ≫= k) (fun _ => pic_inv) s.
Proof.
  intros Hi Hs Hr Hk. apply wp_bind. unfold end_specific.
  rewrite u32_small by (split; lia). eapply wp_run_bind.
  { unfold shl1. by rewrite (proj2 (Z.ltb_lt irq 32)) by lia. }
  eapply wp_mono; [|apply wp_upd_pic_end; [done|done|pic_wf_upd]].
  intros [] s' Hs'. by apply Hk.
Qed.

(** ** Guest writes are safe *)

Lemma wp_set_mode i m s : is_pic i -> pic_inv s -> wp (set_mode i m) (fun _ => pic_inv) s.
Proof. intros. apply wp_upd_pic_end; [done|done|pic_wf_upd]. Qed.

Lemma wp_write_ocw2 i v s : is_pic i -> pic_inv s -> is_u8 v -> wp (write_ocw2 i v) (fun _ => pic_inv) s.
Proof.
  intros Hi Hs Hv. unfold write_ocw2.
  assert (v &. 0xff = v) as -> by (change 0xff with (Z.ones 8); rewrite Z.land_ones by lia; by apply Z.mod_small).
  cbv zeta. case_if; [by apply wp_set_mode|]. case_if; [done|].
  case_if; [by apply wp_eoi|].
  destruct ((0x60 <=? v) && (v <=? 0x67)) eqn:E6.
  { apply andb_true_iff in E6 as [?%Z.leb_le ?%Z.leb_le].
    apply wp_end_specific; [done|done|lia|]. intros. by apply PicService_wp. }
  destruct ((0xC0 <=? v) && (v <=? 0xC7)) eqn:EC.
  { apply andb_true_iff in EC as [?%Z.leb_le ?%Z.leb_le].
    apply wp_upd_pic_end; [done|done|]. pic_wf_upd. rewrite u8_small by (split; lia). lia. }
  destruct ((0xE0 <=? v) && (v <=? 0xE7)) eqn:EE; [|done].
  apply andb_true_iff in EE as [?%Z.leb_le ?%Z.leb_le].
  apply wp_end_specific; [done|done|lia|]. intros s' Hs'.
  apply wp_upd_pic; [done|done| |intros; by apply PicService_wp].
  pic_wf_upd. rewrite u8_small by (split; lia). lia.
Qed.

Lemma wp_write_ocw3 i v s : is_pic i -> pic_inv s -> wp (write_ocw3 i v) (fun _ => pic_inv) s.
Proof.
  intros Hi Hs. unfold write_ocw3. apply wp_upd_pic; [done|done|pic_wf_upd|]. intros Hs1.
  case_if; [done|]. apply wp_pic; [done|done|]. case_if.
  - apply wp_bind. eapply wp_mono; [|by apply wp_set_mode]. intros [] s' Hs'. by apply PicService_wp.
  - case_if; [by apply wp_set_mode|]. case_if; [by apply wp_set_mode|done].
Qed.

Lemma wp_write_data i v s : is_pic i -> pic_inv s -> wp (write_data i v) (fun _ => pic_inv) s.
Proof.
  intros Hi Hs. unfold write_data. apply wp_pic; [done|done|].
  case_if; [apply wp_upd_pic_end; [done|done|pic_wf_upd]|].
  case_if; [apply wp_upd_pic_end; [done|done|pic_wf_upd]|].
  case_if; [apply wp_upd_pic_end; [done|done|pic_wf_upd]|].
  case_if; [|done]. apply wp_upd_pic; [done|done|pic_wf_upd|]. intros. by apply PicService_wp.
Qed.

(** C2 No byte the guest writes to the controllers' ports, in any state of the
    initialisation sequence, makes the handler fail, loop or leave its arrays;
    the controllers stay well formed. *)
Theorem PicPortIoWriteHandler_safe s Address Value Length :
  pic_inv s -> is_u8 Value ->
  wp (PicPortIoWriteHandler Address Value Length) (fun _ => pic_inv) s.
Proof.
  intros Hs Hv. unfold PicPortIoWriteHandler.
  assert (is_pic (if 0xA0 <=? Address then 1 else 0)) as Hi by (case_if; [by right|by left]).
  revert Hi. cbv zeta. generalize (if 0xA0 <=? Address then 1 else 0). intros i Hi. case_if; [|case_if; [by apply wp_write_data|done]].
  case_if; [|case_if; [by apply wp_write_ocw3|by apply wp_write_ocw2]].
  unfold write_icw1. apply wp_upd_pic; [done|done|pic_wf_upd|]. intros Hs1. done.
Qed.
End Ports.

Section Acknowledge.
Context `{!Driver}.

(** ** Acknowledging *)

Definition taken (irq : Z) (p : PIC.t) : PIC.t :=
  let p := p <| PIC.Raised := 0 |> in
  if p.(PIC.EdgeLevel) &? bit irq then p
  else p <| PIC.InterruptRequest ::= (fun v => u8 (v &. ~. bit irq)) |>.

Definition serviced (irq : Z) (p : PIC.t) : PIC.t :=
  p <| PIC.CurrentPriority := irq |> <| PIC.InterruptInService ::= (fun v => u8 (v |. bit irq)) |>.

Lemma taken_wf irq p : pic_wf p -> pic_wf (taken irq p).
Proof. unfold taken. case_if; pic_wf_upd. Qed.
Lemma serviced_wf irq p : 0 <= irq < 8 -> pic_wf p -> pic_wf (serviced irq p).
Proof. intros ?. unfold serviced. pic_wf_upd. Qed.

Lemma shl1_run (irq : Z) (s : Machine.t) : 0 <= irq < 8 -> shl1 irq s = Ok (bit irq) s.
Proof. intros Hi. unfold shl1. by rewrite (proj2 (Z.ltb_lt irq 32)) by lia. Qed.

Lemma with_pic_with i p p' s : with_pic i p' (with_pic i p s) = with_pic i p' s.
Proof. unfold with_pic. cbn. by rewrite updZ_updZ. Qed.

Lemma take_request_run i irq s : is_pic i -> pic_inv s -> 0 <= irq < 8 ->
  take_request i irq s = Ok tt (with_pic i (taken irq (the_pic i s)) s).
Proof.
  intros Hi Hs Hr. unfold take_request. rewrite (run_bind _ _ _ _ _ (upd_pic_run i _ s Hi Hs)).
  set (p := the_pic i s). set (s1 := with_pic i _ s).
  assert (pic_inv s1) as Hs1.
  { apply with_pic_inv; [done| |done]. generalize (the_pic_wf i s Hi Hs). fold p. pic_wf_upd. }
  rewrite (run_bind _ _ _ _ _ (shl1_run irq s1 Hr)), (run_bind _ _ _ _ _ (pic_run i s1 Hi Hs1)).
  assert (the_pic i s1 = p <| PIC.Raised := 0 |>) as Hp1.
  { unfold s1. by rewrite the_pic_with, Z.eqb_refl. }
  rewrite Hp1. unfold taken. cbv zeta. simpl.
  destruct (PIC.EdgeLevel p &? bit irq); simpl; [done|].
  rewrite upd_pic_run by done. rewrite Hp1. unfold s1. by rewrite with_pic_with.
Qed.

Lemma put_in_service_run i irq s : is_pic i -> pic_inv s -> 0 <= irq < 8 ->
  put_in_service i irq s = Ok tt (with_pic i (serviced irq (the_pic i s)) s).
Proof.
  intros Hi Hs Hr. unfold put_in_service. rewrite (run_bind _ _ _ _ _ (shl1_run irq s Hr)).
  by apply upd_pic_run.
Qed.

Definition cleared (s : Machine.t) : Machine.t :=
  s <| Machine.svmm_events ::= (fun v => u32 (v &. ~. EVENT_PENDING_INTR)) |>.

(** An acknowledgement of a master line other than the slave's pin, up to the
    service of the next request. *)
Lemma PicIAC_master_run s : pic_inv s ->
  let m := the_pic 0 s in
  let irq := presented m in
  0 <= irq < 8 -> irq <> 2 ->
  PicIAC s = (PicService 0 ;; mret m.(PIC.InterruptNumber))
               (with_pic 0 (serviced irq (taken irq m)) (cleared s)).
Proof.
  intros Hs m irq Hr Hne. unfold PicIAC. assert (pic_inv (cleared s)) as Hc by exact Hs.
  erewrite (run_bind (clear_event _)); [|reflexivity]. fold (cleared s).
  rewrite (run_bind _ _ _ _ _ (pic_run 0 _ ltac:(by left) Hc)).
  change (the_pic 0 (cleared s)) with m. fold irq. cbv zeta.
  rewrite (run_bind _ _ _ _ _ (take_request_run 0 irq _ ltac:(by left) Hc Hr)).
  change (the_pic 0 (cleared s)) with m. set (s2 := with_pic 0 _ (cleared s)).
  assert (pic_wf m) as Hm by by apply the_pic_wf; [left|].
  assert (pic_inv s2) as Hs2 by (apply with_pic_inv; [by left|by apply taken_wf|done]).
  rewrite (proj2 (Z.eqb_neq irq 2) Hne). simpl negb. cbv iota.
  assert (the_pic 0 s2 = taken irq m) as Hp2 by (unfold s2; by rewrite the_pic_with by (done || by left)).
  set (s3 := with_pic 0 (serviced irq (taken irq m)) (cleared s)).
  assert (pic_inv s3) as Hs3.
  { apply with_pic_inv; [by left|by apply serviced_wf, taken_wf|done]. }
  erewrite run_bind; [reflexivity|].
  erewrite run_bind; [|by apply put_in_service_run; [left| |]].
  rewrite Hp2. unfold s2. rewrite with_pic_with. fold s3.
  rewrite (run_bind _ _ _ _ _ (pic_run 0 s3 ltac:(by left) Hs3)). unfold s3 at 1.
  rewrite the_pic_with by (done || by left). simpl. unfold taken. by case_if.
Qed.
End Acknowledge.

(** ** One interrupt, from the line to its end *)

Lemma find_least (f : Z -> bool) (start n len : Z) :
  start <= n < start + len -> f n = true -> (forall j, start <= j < n -> f j = false) ->
  find f (seqZ start len) = Some n.
Proof.
  intros Hn Hf Hleast. replace len with ((n - start) + (1 + (len - (n - start) - 1))) by lia.
  rewrite seqZ_app, (seqZ_app _ 1) by lia. replace (start + (n - start)) with n by lia.
  replace (seqZ n 1) with [n] by (cbn; do 2 f_equal; lia).
  assert (find f (seqZ start (n - start)) = None) as Hnone.
  { destruct (find f _) eqn:E; [|done]. apply find_some in E as [Hin Hx].
    apply list_elem_of_In, elem_of_seqZ in Hin. rewrite Hleast in Hx; [done|lia]. }
  revert Hnone. induction (seqZ start (n - start)) as [|a l IH]; simpl; intros Hnone; [by rewrite Hf|].
  destruct (f a); [done|auto].
Qed.

Lemma first_candidate_least p n :
  0 <= n <= p.(PIC.CurrentPriority) -> candidate p n = true ->
  (forall j, 0 <= j < n -> candidate p j = false) -> first_candidate p = Some n.
Proof. intros Hn Hc Hl. apply find_least; [lia|done|done]. Qed.

Lemma first_candidate_none p : p.(PIC.InterruptRequest) = 0 -> first_candidate p = None.
Proof.
  intros H0. unfold first_candidate. destruct (find _ _) eqn:E; [|done].
  apply find_some in E as [_ E]. unfold candidate in E.
  by rewrite H0, Z.bits_0, !andb_false_r in E.
Qed.

(** A master in operation that has nothing to do and takes line [n]. *)
Record idle_for (n : Z) (m : PIC.t) : Prop := {
  idle_nested : nested_mode m = true;
  idle_master : is_master m = true;
  idle_service : m.(PIC.InterruptInService) = 0;
  idle_request : m.(PIC.InterruptRequest) = 0;
  idle_priority : m.(PIC.CurrentPriority) = 7;
  idle_unmasked : Z.testbit m.(PIC.InterruptMask) n = false;
  idle_low : Z.testbit m.(PIC.InterruptPin) n = false;
  idle_edge : Z.testbit m.(PIC.EdgeLevel) n = false
}.

Section Cycle.
Context `{!Driver}.

Definition raised (n : Z) (p : PIC.t) : PIC.t :=
  p <| PIC.InterruptPin ::= (fun v => u8 (v |. u8 (bit (n &. 7)))) |>
    <| PIC.InterruptRequest ::= (fun v => u8 (v |. u8 (bit (n &. 7)))) |>.

Lemma line_bit n : 0 <= n < 8 -> u8 (bit (n &. 7)) = bit n.
Proof.
  intros Hn. change 7 with (Z.ones 3). rewrite Z.land_ones, Z.mod_small by lia.
  apply u8_small. unfold bit. rewrite Z.shiftl_1_l. split; [apply Z.pow_nonneg; lia|].
  apply Z.pow_lt_mono_r; lia.
Qed.

Lemma bit_u8 n : 0 <= n < 8 -> u8 (bit n) = bit n.
Proof. intros Hn. pose proof (line_bit n Hn) as H'. by rewrite <- H' at 1; rewrite u8_small by apply u8_range. Qed.

Lemma PicRaiseIrq_master_run n s s1 : pic_inv s -> 0 <= n < 8 -> n <> 2 ->
  IoApicRaiseIrq n s = Ok tt s1 -> Z.testbit (the_pic 0 s).(PIC.InterruptPin) n = false ->
  PicRaiseIrq n s = PicService 0 (with_pic 0 (raised n (the_pic 0 s)) s1) /\
  s1.(Machine.Pic) = s.(Machine.Pic).
Proof.
  intros Hs Hn Hne Hio Hlow.
  pose proof (within_run (keeps Machine.Pic) (IoApicRaiseIrq n) s tt s1 Hio) as Hkeep.
  unfold keeps in Hkeep.
  assert (pic_inv s1) as Hs1 by (unfold pic_inv; by rewrite Hkeep).
  assert (the_pic 0 s1 = the_pic 0 s) as Hp by (unfold the_pic; by rewrite Hkeep).
  split; [|done]. unfold PicRaiseIrq, PicRaiseIrq_body. rewrite (proj2 (Z.eqb_neq n 2) Hne). simpl.
  rewrite (run_bind _ _ _ _ _ Hio). cbv zeta. rewrite !(proj2 (Z.ltb_ge _ n)) by lia.
  rewrite (run_bind _ _ _ _ _ (pic_run 0 s1 ltac:(by left) Hs1)), Hp.
  rewrite line_bit, tst_bit, Hlow by lia.
  rewrite (run_bind _ _ _ _ _ (upd_pic_run 0 _ s1 ltac:(by left) Hs1)), Hp.
  unfold raised. by rewrite line_bit.
Qed.

Lemma raised_wf n p : pic_wf p -> pic_wf (raised n p).
Proof. unfold raised. pic_wf_upd. Qed.

(** A service of an idle master in fully nested mode. *)
Lemma PicService_master_run s : pic_inv s -> nested_mode (the_pic 0 s) = true -> is_master (the_pic 0 s) = true ->
  PicService 0 s =
    match first_candidate (the_pic 0 s) with
    | None => Ok tt s
    | Some irq => Ok tt (windowed (with_pic 0 (present irq (the_pic 0 s)) s))
    end.
Proof.
  intros Hs Hm Hc. unfold PicService. cbn [PicService_rec].
  rewrite PicService_nested_run, Hc by (done || by left). by destruct (first_candidate _).
Qed.

Lemma bit_pos_u8 n : 0 <= n < 8 -> is_u8 (bit n).
Proof. intros Hn. rewrite <- bit_u8 by done. apply u8_range. Qed.

(** The master through the cycle: the line is up, its request is presented, then
    in service, then ended. *)
Section Stages.
Context (n : Z) (m : PIC.t) (Hn : 0 <= n < 8) (Hm : idle_for n m).

Lemma raised_request : (raised n m).(PIC.InterruptRequest) = bit n.
Proof.
  destruct Hm. unfold raised. cbn. rewrite idle_request0, Z.lor_0_l, line_bit by done.
  by apply bit_u8.
Qed.

Lemma raised_candidate j : 0 <= j -> candidate (raised n m) j = true <-> j = n.
Proof.
  intros Hj. unfold candidate. rewrite raised_request, testbit_bit by lia.
  destruct Hm. change (PIC.InterruptMask (raised n m)) with (PIC.InterruptMask m).
  change (PIC.InterruptInService (raised n m)) with (PIC.InterruptInService m).
  rewrite idle_service0, Z.bits_0. simpl. destruct (Z.eqb_spec j n) as [->|].
  - rewrite idle_unmasked0. by split.
  - rewrite andb_false_r. by split.
Qed.

Lemma raised_first : first_candidate (raised n m) = Some n.
Proof.
  apply first_candidate_least.
  - change (PIC.CurrentPriority (raised n m)) with (PIC.CurrentPriority m).
    rewrite (idle_priority n m Hm). lia.
  - by rewrite raised_candidate by lia.
  - intros j Hj. apply not_true_is_false. rewrite raised_candidate by lia. lia.
Qed.

Definition acknowledged : PIC.t := serviced n (taken n (present n (raised n m))).

Lemma acknowledged_service : acknowledged.(PIC.InterruptInService) = bit n.
Proof.
  destruct Hm. unfold acknowledged, serviced, taken. cbn.
  rewrite tst_bit, idle_edge0 by lia. cbn. rewrite idle_service0, Z.lor_0_l. by apply bit_u8.
Qed.

Lemma acknowledged_request : acknowledged.(PIC.InterruptRequest) = 0.
Proof.
  pose proof raised_request as Hr. destruct Hm. unfold acknowledged, serviced, taken. cbn.
  rewrite tst_bit, idle_edge0 by lia. cbn. change (PIC.InterruptRequest (raised n m)) with
    (u8 (PIC.InterruptRequest m |. u8 (bit (n &. 7)))) in Hr. rewrite Hr.
  by rewrite Z.land_lnot_diag.
Qed.

Lemma acknowledged_modes : nested_mode acknowledged = true /\ is_master acknowledged = true.
Proof.
  destruct Hm. unfold acknowledged, serviced, taken. cbn. by case_if.
Qed.

Lemma eoi_line_acknowledged :
  find (fun k => Z.testbit acknowledged.(PIC.InterruptInService) k) (reverse (seqZ 0 (n + 1))) = Some n.
Proof.
  rewrite seqZ_app, reverse_app by lia. change (reverse (seqZ (0 + n) 1)) with [Z.of_nat 0 + (0 + n)].
  replace (Z.of_nat 0 + (0 + n)) with n by lia. cbn [app find].
  by rewrite acknowledged_service, testbit_bit, Z.eqb_refl by lia.
Qed.

Lemma ended_acknowledged :
  (ended n acknowledged).(PIC.InterruptInService) = 0 /\
  (ended n acknowledged).(PIC.InterruptRequest) = 0 /\
  (ended n acknowledged).(PIC.CurrentPriority) = 7.
Proof.
  pose proof acknowledged_service as Hs. pose proof acknowledged_request as Hr.
  revert Hs Hr. generalize acknowledged. intros p Hs Hr. split; [|by split].
  unfold ended. cbn. rewrite Hs. by rewrite Z.land_lnot_diag.
Qed.

Lemma presented_raised : is_u8 m.(PIC.CurrentOffset) -> presented (present n (raised n m)) = n.
Proof.
  intros Ho. unfold presented, present, raised. cbn. unfold u8.
  rewrite Zminus_mod_idemp_l. replace (n + _ - _) with n by lia. apply Z.mod_small. lia.
Qed.
End Stages.
End Cycle.

Section WholeCycle.
Context `{!Driver}.

Lemma windowed_pending s : ((windowed s).(Machine.svmm_events) &? EVENT_PENDING_INTR) = true.
Proof.
  change ((u32 (s.(Machine.svmm_events) |. EVENT_PENDING_INTR) &? EVENT_PENDING_INTR) = true).
  unfold EVENT_PENDING_INTR.
  rewrite tst_bit, testbit_u32, Z.lor_spec, testbit_bit by lia. apply orb_true_r.
Qed.

Lemma cleared_pending s : ((cleared s).(Machine.svmm_events) &? EVENT_PENDING_INTR) = false.
Proof.
  change ((u32 (s.(Machine.svmm_events) &. ~. EVENT_PENDING_INTR) &? EVENT_PENDING_INTR) = false).
  unfold EVENT_PENDING_INTR.
  rewrite tst_bit, testbit_u32, Z.land_spec, testbit_pow2_lnot by lia. by rewrite !andb_false_r.
Qed.

(** The three operations on the stages. *)
Section Runs.
Context (n : Z) (m : PIC.t) (Hn : 0 <= n < 8) (Hm : idle_for n m) (Hwf : pic_wf m).

#[local] Lemma is_pic_0 : is_pic 0.
Proof. by left. Qed.
#[local] Hint Resolve is_pic_0 raised_wf present_wf taken_wf serviced_wf ended_wf Hwf Hn : core.
Lemma acknowledged_wf : pic_wf (acknowledged n m).
Proof. unfold acknowledged. auto 6. Qed.
#[local] Hint Resolve acknowledged_wf : core.

Lemma raise_run s s1 : pic_inv s -> the_pic 0 s = m -> n <> 2 -> IoApicRaiseIrq n s = Ok tt s1 ->
  pic_inv s1 /\ PicRaiseIrq n s = Ok tt (windowed (with_pic 0 (present n (raised n m)) s1)).
Proof.
  intros Hs Hp Hne Hio. destruct (PicRaiseIrq_master_run n s s1 Hs Hn Hne Hio) as [Hrun Hkeep].
  { rewrite Hp. apply (idle_low n m Hm). }
  assert (pic_inv s1) as Hs1 by (unfold pic_inv; by rewrite Hkeep). split; [done|].
  assert (pic_inv (with_pic 0 (raised n m) s1)) as Hr1 by (by apply with_pic_inv; auto).
  rewrite Hrun, Hp, PicService_master_run; [|done| ..].
  2-3: rewrite the_pic_with, Z.eqb_refl by done; apply Hm.
  by rewrite !the_pic_with, !Z.eqb_refl, (raised_first n m Hn Hm), with_pic_with by done.
Qed.

Lemma acknowledge_run s : pic_inv s -> the_pic 0 s = present n (raised n m) -> n <> 2 ->
  PicIAC s = Ok (u8 (n + m.(PIC.CurrentOffset))) (with_pic 0 (acknowledged n m) (cleared s)).
Proof.
  intros Hs Hp Hne. rewrite PicIAC_master_run; rewrite ?Hp, ?presented_raised by (done || apply Hwf); try done.
  fold (acknowledged n m). set (s3 := with_pic 0 _ (cleared s)).
  assert (the_pic 0 s3 = acknowledged n m) as Hp3 by exact (the_pic_same 0 (acknowledged n m) _ is_pic_0 Hs).
  assert (pic_inv s3) as Hs3 by (by apply with_pic_inv; auto).
  destruct (acknowledged_modes n m Hm) as [Hnest Hmst]. rewrite (run_bind _ _ _ tt s3); [done|].
  rewrite (PicService_master_run s3 Hs3); rewrite Hp3; [|exact Hnest|exact Hmst].
  by rewrite (first_candidate_none _ (acknowledged_request n m Hn Hm)).
Qed.

Lemma end_run s : pic_inv s -> the_pic 0 s = acknowledged n m ->
  PicPortIoWriteHandler 0x20 0x20 1 s = Ok tt (with_pic 0 (ended n (acknowledged n m)) s).
Proof.
  intros Hs Hp. change (PicPortIoWriteHandler 0x20 0x20 1) with
    (p ← pic 0; eoi_scan 130 0 (s8 p.(PIC.CurrentPriority)) ;; PicService 0).
  rewrite (run_bind _ _ _ _ _ (pic_run 0 s is_pic_0 Hs)), Hp. change (PIC.CurrentPriority (acknowledged n m)) with n.
  assert (s8 n = n) as ->.
  { unfold s8, signed. change (2 ^ (8 - 1)) with 128. change (2 ^ 8) with 256. rewrite Z.mod_small by lia. lia. }
  rewrite (run_bind _ _ _ _ _ (eoi_scan_run 130 0 n s is_pic_0 Hs ltac:(lia) ltac:(lia))), Hp, eoi_line_acknowledged by done.
  set (s4 := with_pic 0 _ s).
  assert (the_pic 0 s4 = ended n (acknowledged n m)) as Hp4 by exact (the_pic_same 0 (ended n (acknowledged n m)) _ is_pic_0 Hs).
  assert (pic_inv s4) as Hs4 by (by apply with_pic_inv; auto).
  destruct (acknowledged_modes n m Hm) as [Hnest Hmst]. destruct (ended_acknowledged n m Hn Hm) as (_ & Hreq & _).
  rewrite (PicService_master_run s4 Hs4); rewrite Hp4, ?ended_nested, ?ended_master; [|exact Hnest|exact Hmst].
  by rewrite (first_candidate_none _ Hreq).
Qed.
End Runs.

(** C3 The life of an interrupt at the master: with the controller initialised
    and idle, raising line [n] leaves an interrupt pending and asks for an
    interrupt window; the acknowledgement then hands out the vector
    [CurrentOffset + n] and puts the line, and only it, in service; the
    non-specific end of interrupt that the guest writes makes the controller
    idle again. *)
Theorem pic_interrupt_cycle n s s1 :
  0 <= n < 8 -> n <> 2 -> pic_inv s -> idle_for n (the_pic 0 s) ->
  IoApicRaiseIrq n s = Ok tt s1 ->
  wp (PicRaiseIrq n) (fun _ s2 =>
    (s2.(Machine.svmm_events) &? EVENT_PENDING_INTR) = true /\
    s2.(Machine.kvm_run).(kvm_run.request_interrupt_window) = 1 /\
    wp PicIAC (fun vector s3 =>
      vector = u8 (n + (the_pic 0 s).(PIC.CurrentOffset)) /\
      (s3.(Machine.svmm_events) &? EVENT_PENDING_INTR) = false /\
      (the_pic 0 s3).(PIC.InterruptInService) = bit n /\
      wp (PicPortIoWriteHandler 0x20 0x20 1) (fun _ s4 =>
        (the_pic 0 s4).(PIC.InterruptInService) = 0 /\
        (the_pic 0 s4).(PIC.InterruptRequest) = 0 /\
        (the_pic 0 s4).(PIC.CurrentPriority) = 7) s3) s2) s.
Proof.
  intros Hn Hne Hs Hidle Hio. set (m := the_pic 0 s) in *.
  pose proof (the_pic_wf 0 s is_pic_0 Hs : pic_wf m) as Hwf.
  destruct (raise_run n m Hn Hidle Hwf s s1 Hs eq_refl Hne Hio) as [Hs1 Hraise]. unfold wp at 1. rewrite Hraise.
  set (s2 := windowed _). split; [apply windowed_pending|split; [done|]].
  assert (pic_inv s2 /\ the_pic 0 s2 = present n (raised n m)) as [Hs2 Hp2].
  { split; [|exact (the_pic_same 0 (present n (raised n m)) s1 is_pic_0 Hs1)].
    change (pic_inv (with_pic 0 (present n (raised n m)) s1)).
    apply with_pic_inv; [exact is_pic_0|by apply present_wf, raised_wf|done]. }
  unfold wp at 1. rewrite (acknowledge_run n m Hn Hidle Hwf s2 Hs2 Hp2 Hne). split; [done|].
  split; [apply (cleared_pending s2)|]. set (s3 := with_pic 0 _ _).
  assert (the_pic 0 s3 = acknowledged n m) as Hp3 by exact (the_pic_same 0 (acknowledged n m) (cleared s2) is_pic_0 Hs2).
  assert (pic_inv s3) as Hs3 by (apply with_pic_inv; [exact is_pic_0|by apply acknowledged_wf|exact Hs2]).
  split; [rewrite Hp3; by apply acknowledged_service|].
  unfold wp. rewrite (end_run n m Hn Hidle Hwf s3 Hs3 Hp3).
  rewrite (the_pic_same 0 (ended n (acknowledged n m)) s3 is_pic_0 Hs3). by apply ended_acknowledged.
Qed.

(** The lines of the slave are never lowered: [PicLowerIrq] leaves both
    controllers alone above line 7, so from its first raise on a slave line's
    later raises reach the I/O APIC only and never the controller. *)
Theorem slave_lines_latch n s :
  8 <= n < 16 -> pic_inv s ->
  PicLowerIrq n s = IoApicLowerIrq n s /\
  (Z.testbit (the_pic 1 s).(PIC.InterruptPin) (n - 8) = true ->
   forall s1, IoApicRaiseIrq n s = Ok tt s1 -> PicRaiseIrq n s = Ok tt s1).
Proof.
  intros Hn Hs. assert ((n =? 2) = false) as H2 by (apply Z.eqb_neq; lia).
  assert ((7 <? n) = true) as H7 by (apply Z.ltb_lt; lia). split.
  - unfold PicLowerIrq. rewrite H2, H7. simpl. unfold mbind, M_bind.
    by destruct (IoApicLowerIrq n s) as [[] ?|].
  - intros Hpin s1 Hio. pose proof (within_run (keeps Machine.Pic) (IoApicRaiseIrq n) s tt s1 Hio) as Hkeep.
    unfold keeps in Hkeep. assert (pic_inv s1) as Hs1 by (unfold pic_inv; by rewrite Hkeep).
    unfold PicRaiseIrq, PicRaiseIrq_body. rewrite H2, H7, (run_bind _ _ _ _ _ Hio).
    rewrite (proj2 (Z.ltb_ge 15 n)) by lia. cbv zeta.
    rewrite (run_bind _ _ _ _ _ (pic_run 1 s1 ltac:(by right) Hs1)).
    replace (n &. 7) with (n - 8).
    2: { change 7 with (Z.ones 3). rewrite Z.land_ones by lia.
         apply (Z.mod_unique n (2 ^ 3) 1); change (2 ^ 3) with 8; lia. }
    assert (the_pic 1 s1 = the_pic 1 s) as -> by (unfold the_pic; by rewrite Hkeep).
    by rewrite bit_u8, tst_bit, Hpin by lia.
Qed.
End WholeCycle.

Section AcknowledgeSafety.
Context `{!Driver}.

Lemma wp_take_request {B} i irq (k : unit -> IO B) Q s : is_pic i -> pic_inv s -> 0 <= irq < 8 ->
  (forall s', pic_inv s' -> (forall j, is_pic j -> presented (the_pic j s') = presented (the_pic j s)) ->
     wp (k tt) Q s') ->
  wp (take_request i irq ≫= k) Q s.
Proof.
  intros Hi Hs Hr Hk. eapply wp_run_bind; [by apply take_request_run|]. apply Hk.
  - apply with_pic_inv; [done|by apply taken_wf, the_pic_wf|done].
  - intros j Hj. rewrite the_pic_with by done. destruct (Z.eqb_spec j i) as [->|]; [|done].
    unfold taken. by case_if.
Qed.

Lemma wp_put_in_service {B} i irq (k : unit -> IO B) Q s : is_pic i -> pic_inv s -> 0 <= irq < 8 ->
  (forall s', pic_inv s' -> wp (k tt) Q s') -> wp (put_in_service i irq ≫= k) Q s.
Proof.
  intros Hi Hs Hr Hk. eapply wp_run_bind; [by apply put_in_service_run|]. apply Hk.
  apply with_pic_inv; [done|by apply serviced_wf, the_pic_wf|done].
Qed.

Lemma wp_PicService {B} i (k : unit -> IO B) Q s : is_pic i -> pic_inv s ->
  (forall s', pic_inv s' -> wp (k tt) Q s') -> wp (PicService i ≫= k) Q s.
Proof.
  intros Hi Hs Hk. apply wp_bind. eapply wp_mono; [|by apply PicService_wp].
  intros [] s' Hs'. by apply Hk.
Qed.

Lemma number_u8 i s : is_pic i -> pic_inv s -> is_u8 (the_pic i s).(PIC.InterruptNumber).
Proof. intros Hi Hs. apply wf_number. by apply the_pic_wf. Qed.

Lemma take_request_bad i irq s : is_pic i -> pic_inv s -> 32 <= irq ->
  take_request i irq s = Fault BadShift.
Proof.
  intros Hi Hs Hr. unfold take_request. rewrite (run_bind _ _ _ _ _ (upd_pic_run i _ s Hi Hs)).
  apply run_fault. unfold shl1. by rewrite (proj2 (Z.ltb_ge irq 32)) by lia.
Qed.

(** The acknowledgement returns a vector, and keeps the controllers well
    formed, as long as what each controller presents is one of its lines; it
    shifts by 32 or more, which C leaves undefined, when the guest has moved the
    master's vector base far enough since the request was presented. *)
Theorem PicIAC_total s :
  pic_inv s ->
  (presented (the_pic 0 s) < 8 -> presented (the_pic 1 s) < 8 ->
   wp PicIAC (fun vector s' => is_u8 vector /\ pic_inv s') s) /\
  (32 <= presented (the_pic 0 s) -> PicIAC s = Fault BadShift).
Proof.
  intros Hs. assert (is_pic 0) as H0 by by left. assert (is_pic 1) as H1 by by right. split.
  - intros Hm Hsl. assert (forall j, 0 <= presented (the_pic j s)) as Hpos by (intros; apply u8_range).
    unfold PicIAC. apply wp_modify_bind. fold (cleared s). assert (pic_inv (cleared s)) as Hc by exact Hs.
    apply wp_pic; [done|done|]. change (the_pic 0 (cleared s)) with (the_pic 0 s). cbv zeta.
    apply wp_take_request; [done|done|by split|]. intros s1 Hs1 Hp1.
    apply wp_bind. case_if.
    + apply wp_put_in_service; [done|done|by split|]. intros s2 Hs2. apply wp_pic; [done|done|].
      apply wp_PicService; [done|done|]. intros s3 Hs3. split; [by apply number_u8|done].
    + apply wp_pic; [done|done|]. rewrite (Hp1 1 H1). change (the_pic 1 (cleared s)) with (the_pic 1 s).
      apply wp_take_request; [done|done|by split|]. intros s2 Hs2 _.
      apply wp_upd_pic; [done|done|pic_wf_upd|]. set (s3 := with_pic 0 _ s2). intros Hs3.
      apply wp_put_in_service; [done|done|by split|]. intros s4 Hs4.
      apply wp_pic; [done|done|]. apply wp_PicService; [done|done|]. intros s5 Hs5.
      apply wp_PicService; [done|done|]. intros s6 Hs6. split; [by apply number_u8|done].
  - intros Hbad. unfold PicIAC. erewrite (run_bind (clear_event _)); [|reflexivity]. fold (cleared s).
    assert (pic_inv (cleared s)) as Hc by exact Hs.
    rewrite (run_bind _ _ _ _ _ (pic_run 0 _ H0 Hc)). change (the_pic 0 (cleared s)) with (the_pic 0 s).
    apply run_fault. by apply take_request_bad.
Qed.
End AcknowledgeSafety.

(** ** What the lines of the controllers may touch *)

Class PicFootprint (R : Machine.t -> Machine.t -> Prop) : Prop := {
  fp_picio : IoApicFootprint R;
  fp_pic s g : R s (s <| Machine.Pic ::= g |>)
}.
#[export] Hint Extern 1 (IoApicFootprint ?R) =>
  match goal with H : PicFootprint R |- _ => exact (@fp_picio R H) end : typeclass_instances.
#[export] Hint Extern 1 (ApicFootprint ?R) =>
  match goal with H : PicFootprint R |- _ => exact (@fp_apic R (@fp_picio R H)) end : typeclass_instances.
#[export] Hint Extern 2 (PicFootprint (keeps _)) =>
  (split; [apply _|reflexivity]) : typeclass_instances.
#[export] Hint Extern 2 (PicFootprint (preserves _)) =>
  (split; [apply _|let s := fresh in let H := fresh in intros s ? H; exact H]) : typeclass_instances.

Section PicFootprint.
Context (R : Machine.t -> Machine.t -> Prop) `{!PicFootprint R} `{!Driver}.

#[local] Instance fp_pic_preorder : PreOrder R := @fp_preorder R (@fp_apic R fp_picio).
#[export] Instance fp_upd_pic i f : Within R (upd_pic i f).
Proof. apply within_upd_at. intros. apply fp_pic. Qed.
#[export] Instance fp_pic_ioctl r : Within R (DeviceIoControl r).
Proof. pose proof (@fp_apic R fp_picio). apply _. Qed.
#[export] Instance fp_special_mask_scan i irqs : Within R (special_mask_scan i irqs).
Proof.
  induction irqs as [|irq irqs IH]; simpl; [apply _|]. unfold special_mask_line. apply _.
Qed.
#[export] Instance fp_nested_scan n p irq : Within R (nested_scan n p irq).
Proof. revert irq. induction n; intros irq; simpl; apply _. Qed.
#[export] Instance fp_PicService_body r i : Within R r -> Within R (PicService_body r i).
Proof. intros. unfold PicService_body. apply _. Qed.
#[export] Instance fp_PicRaiseIrq_body f n : (forall i, Within R (f i)) -> Within R (PicRaiseIrq_body f n).
Proof. intros. pose proof fp_picio. unfold PicRaiseIrq_body. apply _. Qed.
#[export] Instance fp_PicService i : Within R (PicService i).
Proof. unfold PicService. generalize 3%nat. intros n. revert i. induction n; simpl; apply _. Qed.
#[export] Instance fp_PicRaiseIrq n : Within R (PicRaiseIrq n).
Proof. unfold PicRaiseIrq. apply _. Qed.
#[export] Instance fp_PicLowerIrq n : Within R (PicLowerIrq n).
Proof. pose proof fp_picio. unfold PicLowerIrq. apply _. Qed.
End PicFootprint.

(** ** What a device may do with its interrupt lines *)

Class IrqSafe `{!Driver} (R : Machine.t -> Machine.t -> Prop) : Prop := {
  irq_preorder : PreOrder R;
  irq_raise n : Within R (PicRaiseIrq n);
  irq_lower n : Within R (PicLowerIrq n)
}.
#[export] Hint Extern 1 (PreOrder ?R) =>
  match goal with H : IrqSafe R |- _ => exact (@irq_preorder _ R H) end : typeclass_instances.
#[export] Hint Extern 1 (Within ?R (PicRaiseIrq _)) =>
  match goal with H : IrqSafe R |- _ => exact (@irq_raise _ R H _) end : typeclass_instances.
#[export] Hint Extern 1 (Within ?R (PicLowerIrq _)) =>
  match goal with H : IrqSafe R |- _ => exact (@irq_lower _ R H _) end : typeclass_instances.

Lemma footprint_safe `{!Driver} R : PicFootprint R -> IrqSafe R.
Proof. intros. split; [exact (@fp_preorder R (@fp_apic R fp_picio))|apply _|apply _]. Qed.
#[export] Hint Extern 2 (IrqSafe (keeps _)) => (apply footprint_safe; apply _) : typeclass_instances.
#[export] Hint Extern 3 (IrqSafe (preserves _)) => (apply footprint_safe; apply _) : typeclass_instances.

Section IrqInvariants.
Context `{!Driver}.

Lemma preserves_upd_pic i f : (forall p, pic_wf p -> pic_wf (f p)) -> Preserves pic_inv (upd_pic i f).
Proof.
  intros Hf. apply preserves_upd_at. intros s x Hx (m & sl & Hp & Hm & Hsl).
  unfold pic_inv. cbn. rewrite Hp in Hx |- *. pose proof (nthZ_Some _ _ _ Hx) as Hi. simpl in Hi.
  assert (i = 0 \/ i = 1) as [-> | ->] by lia; injection Hx as <-; simpl; eauto 10.
Qed.

#[export] Instance PicService_inv i : Preserves pic_inv (PicService i).
Proof.
  intros s. apply wlp_Ok. intros [] s' Hrun Hs. destruct (decide (i = 0 \/ i = 1)) as [Hi|Hi].
  - pose proof (PicService_wp i s Hi Hs) as Hwp. unfold wp in Hwp. by rewrite Hrun in Hwp.
  - exfalso. destruct Hs as (m & sl & Hp & _).
    assert (PicService i s = Fault OutOfBounds) as Hbad; [|by rewrite Hbad in Hrun].
    change (PicService i) with (PicService_body (PicRaiseIrq_body (PicService_rec 2) 2) i).
    generalize (PicRaiseIrq_body (PicService_rec 2) 2). intros r. apply run_fault. unfold pic, at_.
    rewrite Hp. destruct (nthZ [m; sl] i) eqn:E; [|done]. apply nthZ_Some in E. simpl in E. lia.
Qed.

#[export] Instance pic_inv_safe : IrqSafe (preserves pic_inv).
Proof.
  split; [apply _| |]; intros n.
  - unfold PicRaiseIrq, PicRaiseIrq_body.
    assert (forall i irq, Preserves pic_inv (upd_pic i (fun p =>
      p <| PIC.InterruptPin ::= (fun v => u8 (v |. irq)) |>
        <| PIC.InterruptRequest ::= (fun v => u8 (v |. irq)) |>))).
    { intros. apply preserves_upd_pic. intros p. pic_wf_upd. }
    unfold pic. apply _.
  - unfold PicLowerIrq.
    assert (forall i irq, Preserves pic_inv (upd_pic i (fun p =>
      p <| PIC.InterruptPin ::= (fun v => u8 (v &. ~. irq)) |>
        <| PIC.InterruptRequest ::= (fun v => u8 (v &. ~. irq)) |>))).
    { intros. apply preserves_upd_pic. intros p. pic_wf_upd. }
    unfold pic. apply _.
Qed.

Lemma PicService_apic (R : Machine.t -> Machine.t -> Prop) `{!PreOrder R} :
  (forall i f, Within R (upd_pic i f)) -> (forall r, Within R (DeviceIoControl r)) ->
  Within R (set_event EVENT_PENDING_INTR) -> Within R request_window ->
  (forall n, Within R (IoApicRaiseIrq n)) -> (forall n, Within R (IoApicLowerIrq n)) -> IrqSafe R.
Proof.
  intros Hp Hd He Hw Hr Hl.
  assert (forall i irqs, Within R (special_mask_scan i irqs)).
  { intros i irqs. induction irqs as [|irq irqs IH]; simpl; [apply _|].
    unfold special_mask_line, pic. apply _. }
  assert (forall n p irq, Within R (nested_scan n p irq)).
  { intros n p. induction n; intros irq; simpl; apply _. }
  assert (forall r i, Within R r -> Within R (PicService_body r i)).
  { intros. unfold PicService_body, pic. apply _. }
  assert (forall f n, (forall i, Within R (f i)) -> Within R (PicRaiseIrq_body f n)).
  { intros. unfold PicRaiseIrq_body, pic. apply _. }
  assert (forall i, Within R (PicService i)).
  { unfold PicService. generalize 3%nat. intros n. induction n; intros; simpl; apply _. }
  split; [done| |]; intros n; [unfold PicRaiseIrq|unfold PicLowerIrq, pic]; apply _.
Qed.

(** The local APIC's pending bit is not the one the other devices set. *)
Lemma pending_bit v : (v &? EVENT_PENDING_LAPIC_INTR) = Z.testbit v 11.
Proof. by apply tst_bit. Qed.

#[export] Instance set_event_lapic e : Z.testbit e 11 = false -> Preserves lapic_inv (set_event e).
Proof.
  intros He. apply preserves_modify. intros s (l & Hl & Hwf & Hp). exists l. split; [done|].
  split; [done|]. intros Hpend. apply Hp. revert Hpend. unfold pending. rewrite !pending_bit. cbn.
  by rewrite testbit_u32, Z.lor_spec, He, orb_false_r by lia.
Qed.

#[export] Instance clear_event_lapic e : Preserves lapic_inv (clear_event e).
Proof.
  apply preserves_modify. intros s (l & Hl & Hwf & Hp). exists l. split; [done|].
  split; [done|]. intros Hpend. apply Hp. revert Hpend. unfold pending. rewrite !pending_bit. cbn.
  rewrite testbit_u32, Z.land_spec by lia. by intros [[? ?]%andb_true_iff ?]%andb_true_iff || intros [_ [? _]%andb_true_iff]%andb_true_iff.
Qed.

#[export] Instance lapic_inv_safe : IrqSafe (preserves lapic_inv).
Proof.
  apply PicService_apic; unfold upd_pic, DeviceIoControl, request_window; try apply _.
  by apply set_event_lapic.
Qed.
#[export] Instance ioapic_inv_safe : IrqSafe (preserves ioapic_inv).
Proof. apply PicService_apic; unfold upd_pic, DeviceIoControl, request_window, set_event; apply _. Qed.
End IrqInvariants.

(** ** Examples *)

(** The controllers as a BIOS leaves them: vectors 8 and 0x70, nothing masked. *)
Definition example_master : PIC.t :=
  PIC.zero <| PIC.InitCmd := [1; 0; 4; 0] |> <| PIC.Mode := MODE_FULLY_NESTED |>
           <| PIC.CurrentPriority := 7 |> <| PIC.CurrentOffset := 8 |> <| PIC.State := STATE_ARCH_SET_ICW4 |>.
Definition example_slave (pin : Z) : PIC.t :=
  PIC.zero <| PIC.InitCmd := [1; 0; 2; 0] |> <| PIC.Mode := MODE_FULLY_NESTED |>
           <| PIC.CurrentPriority := 7 |> <| PIC.CurrentOffset := 0x70 |> <| PIC.InterruptPin := pin |>
           <| PIC.InterruptNumber := 0x74 |>.
Definition example_pics (m : PIC.t) (pin : Z) : Machine.t :=
  Machine.zero <| Machine.Pic := [m; example_slave pin] |>
    <| Machine.IoApic := IOAPIC.mk 0 1 0 (replicate 24 (IO_REDIRECT_ENTRY.mk 0 0x10000)) 0 |>.

Lemma example_pics_inv m pin : pic_wf m -> is_u8 pin -> pic_inv (example_pics m pin).
Proof.
  intros Hm Hp. exists m, (example_slave pin). split; [done|]. split; [done|].
  split; simpl; auto with width; try lia; by split.
Qed.
Lemma example_master_wf : pic_wf example_master.
Proof. split; simpl; auto with width; try lia; by split. Qed.

#[local] Existing Instance example_driver.

Lemma PicService_total_witness : wp (PicService 1) (fun _ => pic_inv) (example_pics example_master 0).
Proof.
  apply PicService_total; [|right; reflexivity].
  apply example_pics_inv; [exact example_master_wf|split; [discriminate|reflexivity]].
Defined.

Lemma PicPortIoWriteHandler_safe_witness :
  wp (PicPortIoWriteHandler 0x20 0x11 1) (fun _ => pic_inv) (example_pics example_master 0).
Proof.
  apply PicPortIoWriteHandler_safe; [|split; [discriminate|reflexivity]].
  apply example_pics_inv; [exact example_master_wf|split; [discriminate|reflexivity]].
Defined.

(** Line 4: vector 12. *)
Lemma pic_interrupt_cycle_witness :
  wp (PicRaiseIrq 4) (fun _ s2 => wp PicIAC (fun vector _ => vector = 12) s2)
    (example_pics example_master 0).
Proof.
  eapply wp_mono; [|apply (pic_interrupt_cycle 4 _ (waiting 4 (example_pics example_master 0)))].
  - intros _ s2 (_ & _ & H). eapply wp_mono; [|exact H]. intros v s3 (Hv & _). exact Hv.
  - lia.
  - lia.
  - apply example_pics_inv; [exact example_master_wf|split; [discriminate|reflexivity]].
  - split; reflexivity.
  - vm_compute. reflexivity.
Defined.

(** Line 12, once its pin is up. *)
Lemma slave_lines_latch_witness :
  PicRaiseIrq 12 (example_pics example_master 0x10) =
  Ok tt (waiting 12 (example_pics example_master 0x10)).
Proof.
  apply (slave_lines_latch 12).
  - lia.
  - apply example_pics_inv; [exact example_master_wf|split; [discriminate|reflexivity]].
  - reflexivity.
  - vm_compute. reflexivity.
Defined.

(** The base moves from 8 to 0x10 between the request and its acknowledgement. *)
Lemma PicIAC_total_witness :
  wp PicIAC (fun vector _ => is_u8 vector)
    (example_pics (example_master <| PIC.InterruptNumber := 12 |>) 0) /\
  PicIAC (example_pics (example_master <| PIC.InterruptNumber := 12 |> <| PIC.CurrentOffset := 0x10 |>) 0)
  = Fault BadShift.
Proof.
  split.
  - eapply wp_mono; [|apply PicIAC_total].
    + intros v s [Hv _]. exact Hv.
    + apply example_pics_inv; [|split; [discriminate|reflexivity]].
      split; simpl; auto with width; try lia; split; discriminate || reflexivity.
    + reflexivity.
    + reflexivity.
  - apply PicIAC_total.
    + apply example_pics_inv; [|split; [discriminate|reflexivity]].
      split; simpl; auto with width; try lia; split; discriminate || reflexivity.
    + discriminate.
Defined.
