(* ===== verification/Pit.v ===== *)
(** pit.c: the 8254 interval timer.

    Three counters at 1.193182 MHz, derived from the clock of timer.c (Timer.v):
    a counter's value and output are functions of its count, its mode and the
    time since it was loaded.  A transition of an output drives interrupt line 0
    (Pic.v) and programs the timer that the counter names. *)

From S2P Require Export Pic Timer.

(** pit.h *)
Definition PIT_FREQ : Z := 1193182.
Definition PIT_READ_BACK : Z := 3.
Definition RW_STATE_LSB : Z := 1.
Definition RW_STATE_MSB : Z := 2.
Definition RW_STATE_WORD0 : Z := 3.
Definition RW_STATE_WORD1 : Z := 4.

(** ** Counting, one counter *)

Definition PitSetCountToBinary (c : Counter.t) : Counter.t :=
  if nz c.(Counter.bcdMode) then
    let b := c.(Counter.countBinary) in
    c <| Counter.count := (((b / 1) mod 10) <<. 0) |. (((b / 10) mod 10) <<. 4)
                          |. (((b / 100) mod 10) <<. 8) |. (((b / 1000) mod 10) <<. 12) |>
  else c <| Counter.count := c.(Counter.countBinary) |>.

Definition PitDecrement (c : Counter.t) : Counter.t :=
  if negb (nz c.(Counter.count)) then
    if nz c.(Counter.bcdMode)
    then c <| Counter.count := 0x9999 |> <| Counter.countBinary := 9999 |>
    else c <| Counter.count := 0xFFFF |> <| Counter.countBinary := 0xFFFF |>
  else PitSetCountToBinary (c <| Counter.countBinary ::= (fun b => u32 (b - 1)) |>).

(** [while (Cycles > 0)]: every turn takes at least one cycle off. *)
Fixpoint PitDecrementMultiple_loop (fuel : nat) (c : Counter.t) (Cycles : Z) : option Counter.t :=
  match fuel with
  | O => None
  | S fuel =>
      if 0 <? Cycles then
        if Cycles <=? c.(Counter.countBinary) then
          PitDecrementMultiple_loop fuel
            (PitSetCountToBinary (c <| Counter.countBinary ::= (fun b => u32 (b - Cycles)) |>)) 0
        else
          PitDecrementMultiple_loop fuel
            (PitDecrement (PitSetCountToBinary (c <| Counter.countBinary := 0 |>)))
            (u32 (Cycles - u32 (c.(Counter.countBinary) + 1)))
      else Some c
  end.

Definition PitDecrementMultiple (c : Counter.t) (Cycles : Z) : option Counter.t :=
  PitDecrementMultiple_loop (Z.to_nat Cycles + 1) c Cycles.

Definition PitSetCount (c : Counter.t) (Data : Z) : Counter.t :=
  PitSetCountToBinary (c <| Counter.count := Data &. 0xffff |>).

(** ** The counters of the machine *)

Definition get_counter (Channel : Z) : IO Counter.t := at_ counters Channel.
Definition upd_counter (Channel : Z) (f : Counter.t -> Counter.t) : IO unit :=
  upd_at counters Channel f.
Definition upd_pit (f : Pit.t -> Pit.t) : IO unit := modify (fun s => s <| Machine.Pit ::= f |>).

(** Ticks of the counter's clock since the count was loaded. *)
Definition ticks_at (c : Counter.t) (CurrentTime : Z) : Z :=
  muldiv64 (u64 (CurrentTime - c.(Counter.countLoadTime))) PIT_FREQ NANOSECONDS_PER_SECOND.

(** The switch of [PitGetNextTransitionTime], in ticks; [None] is [return -1]. *)
Definition next_transition (c : Counter.t) (Result : Z) : IO (option Z) :=
  let count := c.(Counter.count) in
  if c.(Counter.mode) =? 2 then
    q ← divu Result count;
    mret (Some (u64 (u64 (q * count) + count)))
  else if c.(Counter.mode) =? 3 then
    q ← divu Result count;
    let base := u64 (q * count) in
    let period2 := u32 (count + 1) >>. 1 in
    mret (Some (if u64 (Result - base) <? period2 then u64 (base + period2) else u64 (base + count)))
  else mret (if Result <? count then Some count else None).

Definition PitGetNextTransitionTime (Channel CurrentTime : Z) : IO Z :=
  c ← get_counter Channel;
  next ← next_transition c (ticks_at c CurrentTime);
  mret match next with
       | None => -1
       | Some NextTime =>
           let NextTime := u64 (c.(Counter.countLoadTime)
                                + muldiv64 NextTime NANOSECONDS_PER_SECOND PIT_FREQ) in
           s64 ((if NextTime <=? CurrentTime then CurrentTime else NextTime) + 1)
       end.

(** The switch of [PitGetOut]. *)
Definition out_at (c : Counter.t) (Result : Z) : IO Z :=
  let count := c.(Counter.count) in
  if c.(Counter.mode) =? 1 then mret (b2z (Result <? count))
  else if c.(Counter.mode) =? 2 then
    r ← modu Result count;
    mret (b2z ((r =? 0) && negb (Result =? 0)))
  else if c.(Counter.mode) =? 3 then
    r ← modu Result count;
    mret (b2z (r <? u32 (count + 1) >>. 1))
  else if (c.(Counter.mode) =? 4) || (c.(Counter.mode) =? 5) then mret (b2z (Result =? count))
  else mret (b2z (count <=? Result)).

Definition PitGetOut (Channel CurrentTime : Z) : IO Z :=
  c ← get_counter Channel;
  out_at c (ticks_at c CurrentTime).

Definition PitLatchStatus (Channel : Z) : IO unit :=
  c ← get_counter Channel;
  when (negb (nz c.(Counter.statusLatched))) (
    out ← PitGetOut Channel c.(Counter.countLoadTime);
    upd_counter Channel (fun c =>
      c <| Counter.statusLatch := u8 ((out <<. 7) |. (c.(Counter.rwMode) <<. 4)
                                      |. (c.(Counter.mode) <<. 1) |. c.(Counter.bcdMode)) |>
        <| Counter.statusLatched := 1 |>)).

(** The switch of [PitGetCount]; the value is stored in an [int]. *)
Definition count_at (c : Counter.t) (Result : Z) : IO Z :=
  let count := c.(Counter.count) in
  if (c.(Counter.mode) =? 0) || (c.(Counter.mode) =? 1) || (c.(Counter.mode) =? 4)
     || (c.(Counter.mode) =? 5) then mret (u64 (count - Result) &. 0xffff)
  else if c.(Counter.mode) =? 3 then
    r ← modu (u64 (2 * Result)) count;
    mret (s32 (count - r))
  else
    r ← modu Result count;
    mret (s32 (count - r)).

Definition PitGetCount (Channel : Z) : IO Z :=
  now ← TimerGetClockNs;
  c ← get_counter Channel;
  count_at c (ticks_at c now).

Definition PitLatchCount (Channel : Z) : IO unit :=
  c ← get_counter Channel;
  when (negb (nz c.(Counter.countLatched))) (
    v ← PitGetCount Channel;
    upd_counter Channel (fun c =>
      c <| Counter.outlatch := u16 v |> <| Counter.countLatched := c.(Counter.rwMode) |>)).

Section Operations.
Context `{!Driver}.

Definition PitIrqTimerUpdate (Channel CurrentTime Timer : Z) : IO unit :=
  expire_time ← PitGetNextTransitionTime Channel CurrentTime;
  irq_level ← PitGetOut Channel CurrentTime;
  c ← get_counter Channel;
  InterruptEnabled ← gets (fun s => s.(Machine.Pit).(Pit.InterruptEnabled));
  (if (c.(Counter.mode) =? 2) || (c.(Counter.mode) =? 4) || (c.(Counter.mode) =? 5) then
     when (nz Timer && nz InterruptEnabled) (PicLowerIrq 0 ;; PicRaiseIrq 0)
   else
     when (nz InterruptEnabled) (if nz irq_level then PicRaiseIrq 0 else PicLowerIrq 0)) ;;
  upd_counter Channel (fun c => c <| Counter.nextTransitionTime := u64 expire_time |>) ;;
  c ← get_counter Channel;
  if negb (expire_time =? -1) then TimerActivate c.(Counter.timerId) (u64 expire_time) 0
  else TimerDeactivate c.(Counter.timerId).

Definition PitTimerHandler (Param : Z) : IO unit :=
  c ← get_counter (u32 Param);
  PitIrqTimerUpdate (u32 Param) c.(Counter.nextTransitionTime) 1.

Definition PitLoadCount (Channel Value : Z) : IO unit :=
  now ← TimerGetClockNs;
  upd_counter Channel (fun c =>
    c <| Counter.count := (if negb (nz Value) then 0x10000 else Value &. 0xffff) |>
      <| Counter.countWritten := 1 |> <| Counter.countLoadTime := now |>) ;;
  PitIrqTimerUpdate Channel now 0.

Definition PitSetGate (Channel Value : Z) : IO unit :=
  c ← get_counter Channel;
  when (((c.(Counter.mode) =? 1) || (c.(Counter.mode) =? 5) || (c.(Counter.mode) =? 2)
         || (c.(Counter.mode) =? 3)) && (c.(Counter.gate) <? Value)) (
    now ← TimerGetClockNs;
    upd_counter Channel (fun c => c <| Counter.countLoadTime := now |>) ;;
    PitIrqTimerUpdate Channel now 0) ;;
  upd_counter 2 (fun c => c <| Counter.gate := u8 Value |>).

(** ** The ports *)

(** The low or the high byte of the current count. *)
Definition read_low (Channel : Z) : IO Z := v ← PitGetCount Channel; mret (v &. 0xff).
Definition read_high (Channel : Z) : IO Z := v ← PitGetCount Channel; mret ((v >>. 8) &. 0xff).

Definition PitReadHandler (Address Length : Z) : IO Z :=
  let Channel := u8 (Address - 0x40) &. 2 in
  if Address =? 0x61 then
    now ← TimerGetClockNs;
    ClockNs ← gets (fun s => s.(Machine.Pit).(Pit.ClockNs));
    let Refresh := (u64 (now + ClockNs) / 15085) &. 1 in
    Out ← PitGetOut 2 (u64 (now + ClockNs));
    upd_pit (fun r => r <| Pit.ClockNs ::= (fun t => u64 (t + 4000000)) |>) ;;
    c ← get_counter 2;
    mret (c.(Counter.gate) |. (Refresh <<. 4) |. (Out <<. 5))
  else
    c ← get_counter Channel;
    if nz c.(Counter.statusLatched) then
      upd_counter Channel (fun c => c <| Counter.statusLatched := 0 |>) ;;
      mret c.(Counter.statusLatch)
    else if nz c.(Counter.countLatched) then
      if c.(Counter.countLatched) =? RW_STATE_MSB then
        upd_counter Channel (fun c => c <| Counter.countLatched := 0 |>) ;;
        mret ((c.(Counter.outlatch) >>. 8) &. 0xff)
      else if c.(Counter.countLatched) =? RW_STATE_WORD0 then
        upd_counter Channel (fun c => c <| Counter.countLatched := RW_STATE_MSB |>) ;;
        mret (c.(Counter.outlatch) &. 0xff)
      else
        upd_counter Channel (fun c => c <| Counter.countLatched := 0 |>) ;;
        mret (c.(Counter.outlatch) &. 0xff)
    else if c.(Counter.readState) =? RW_STATE_MSB then read_high Channel
    else if c.(Counter.readState) =? RW_STATE_WORD0 then
      upd_counter Channel (fun c => c <| Counter.readState := RW_STATE_MSB |>) ;;
      read_low Channel
    else if c.(Counter.readState) =? RW_STATE_WORD1 then
      upd_counter Channel (fun c => c <| Counter.readState := RW_STATE_WORD0 |>) ;;
      read_high Channel
    else read_low Channel.

Definition write_count (Channel Value : Z) : IO unit :=
  c ← get_counter Channel;
  if c.(Counter.writeState) =? RW_STATE_MSB then PitLoadCount Channel (u32 (Value <<. 8))
  else if c.(Counter.writeState) =? RW_STATE_WORD0 then
    upd_counter Channel (fun c =>
      c <| Counter.inlatch := u8 Value |> <| Counter.writeState := RW_STATE_WORD1 |>)
  else if c.(Counter.writeState) =? RW_STATE_WORD1 then
    PitLoadCount Channel (c.(Counter.inlatch) |. ((Value &. 0xff) <<. 8)) ;;
    upd_counter Channel (fun c => c <| Counter.writeState := RW_STATE_WORD0 |>)
  else PitLoadCount Channel Value.

Definition read_back (Value Channel : Z) : IO unit :=
  when (Value &? (2 <<. Channel)) (
    when (negb (Value &? 0x20)) (PitLatchCount Channel) ;;
    c ← get_counter Channel;
    when (negb (Value &? 0x10) && negb (nz c.(Counter.statusLatched))) (PitLatchStatus Channel)).

Definition write_control (Value : Z) : IO unit :=
  let Channel := (Value >>. 6) &. 3 in
  let Access := (Value >>. 4) &. 3 in
  if Channel =? PIT_READ_BACK then foreach (seqZ 0 3) (read_back Value)
  else if negb (nz Access) then PitLatchCount Channel
  else
    let mode := (Value >>. 1) &. 7 in
    upd_counter Channel (fun c =>
      c <| Counter.readState := Access |> <| Counter.writeState := Access |>
        <| Counter.mode := (if 5 <? mode then mode - 4 else mode) |>
        <| Counter.rwMode := Access |> <| Counter.bcdMode := Value &. 1 |>).

Definition PitWriteHandler (Address Value Length : Z) : IO unit :=
  if (Address =? 0x40) || (Address =? 0x41) || (Address =? 0x42) then
    write_count (u8 Address &. 2) Value
  else if Address =? 0x43 then write_control Value
  else if Address =? 0x61 then
    upd_pit (fun r => r <| Pit.PitChannelSound := (Value >>. 1) &. 1 |>) ;;
    PitSetGate 2 (Value &. 1)
  else done_.

Definition PitSetInterrupt (Enable : Z) : IO unit :=
  upd_pit (fun r => r <| Pit.InterruptEnabled := Enable |>).

Definition PitInitialize : IO unit :=
  upd_pit (fun r => Pit.zero <| Pit.PitChannelSound := r.(Pit.PitChannelSound) |>
                             <| Pit.ClockNs := r.(Pit.ClockNs) |>) ;;
  foreach (seqZ 0x40 4) (fun i => RegisterPortIoHandler i (Some cb_Pit) (Some cb_Pit)) ;;
  RegisterPortIoHandler 0x61 (Some cb_Pit) (Some cb_Pit) ;;
  foreach (seqZ 0 3) (fun i => upd_counter i (fun c =>
    c <| Counter.readState := RW_STATE_LSB |> <| Counter.writeState := RW_STATE_LSB |>
      <| Counter.gate := 1 |> <| Counter.triggerGate := 0 |> <| Counter.mode := 4 |>
      <| Counter.count := 0 |> <| Counter.rwMode := 1 |> <| Counter.statusLatch := 0 |>
      <| Counter.nextTransitionTime := 0 |>)) ;;
  Id ← TimerCreate fn_PitTimerHandler 0;
  upd_counter 0 (fun c => c <| Counter.timerId := Id |>) ;;
  ticks ← TimerGetTotalTicks;
  upd_pit (fun r => r <| Pit.totalTicks := ticks |> <| Pit.InterruptEnabled := 1 |>).
End Operations.

(** ** Counting down *)

(** The number a count register shows: four decimal digits in BCD mode. *)
Definition from_bcd (v : Z) : Z :=
  (v >>. 0) mod 16 + 10 * ((v >>. 4) mod 16) + 100 * ((v >>. 8) mod 16) + 1000 * ((v >>. 12) mod 16).

Definition shown (c : Counter.t) : Z :=
  if nz c.(Counter.bcdMode) then from_bcd c.(Counter.count) else c.(Counter.count).

(** A counter counts modulo 10000 or 65536. *)
Definition modulus (c : Counter.t) : Z := if nz c.(Counter.bcdMode) then 10000 else 65536.

Lemma PitSetCountToBinary_fields c :
  (PitSetCountToBinary c).(Counter.countBinary) = c.(Counter.countBinary) /\
  (PitSetCountToBinary c).(Counter.bcdMode) = c.(Counter.bcdMode).
Proof. unfold PitSetCountToBinary. by case_if. Qed.

(** Four digits packed in nibbles. *)
Lemma pack_digits a b c d :
  0 <= a < 16 -> 0 <= b < 16 -> 0 <= c < 16 -> 0 <= d < 16 ->
  (a <<. 0) |. (b <<. 4) |. (c <<. 8) |. (d <<. 12) = a + 16 * b + 256 * c + 4096 * d.
Proof.
  intros. rewrite Z.shiftl_0_r.
  assert (in_width 4 a) by (split; lia).
  rewrite (lor_shiftl_add a b 4) by (done || lia). change (2 ^ 4) with 16.
  rewrite (lor_shiftl_add _ c 8); [|lia|split; change (2 ^ 8) with 256; lia]. change (2 ^ 8) with 256.
  rewrite (lor_shiftl_add _ d 12); [|lia|split; change (2 ^ 12) with 4096; lia].
  change (2 ^ 12) with 4096. lia.
Qed.

Lemma from_bcd_pack a b c d :
  0 <= a < 16 -> 0 <= b < 16 -> 0 <= c < 16 -> 0 <= d < 16 ->
  from_bcd (a + 16 * b + 256 * c + 4096 * d) = a + 10 * b + 100 * c + 1000 * d.
Proof.
  intros. unfold from_bcd. rewrite !Z.shiftr_div_pow2 by lia.
  change (2 ^ 0) with 1. change (2 ^ 4) with 16. change (2 ^ 8) with 256. change (2 ^ 12) with 4096.
  Z.to_euclidean_division_equations. lia.
Qed.

Lemma four_digits b : 0 <= b < 10000 ->
  (b / 1) mod 10 + 10 * ((b / 10) mod 10) + 100 * ((b / 100) mod 10) + 1000 * ((b / 1000) mod 10) = b.
Proof. intros. Z.to_euclidean_division_equations. lia. Qed.

Lemma PitSetCountToBinary_shown c : 0 <= c.(Counter.countBinary) < modulus c ->
  shown (PitSetCountToBinary c) = c.(Counter.countBinary).
Proof.
  intros Hb. unfold PitSetCountToBinary, shown, modulus in *.
  destruct (nz c.(Counter.bcdMode)) eqn:E; simpl; rewrite E; [|done].
  set (b := c.(Counter.countBinary)) in *.
  rewrite pack_digits by (pose proof (fun n => Z.mod_pos_bound n 10 ltac:(lia)) as Hm;
    split; [apply Hm|eapply Z.lt_trans; [apply Hm|lia]]).
  rewrite from_bcd_pack by (pose proof (fun n => Z.mod_pos_bound n 10 ltac:(lia)) as Hm;
    split; [apply Hm|eapply Z.lt_trans; [apply Hm|lia]]).
  by apply four_digits.
Qed.

Lemma modulus_range c : 0 < modulus c <= 65536.
Proof. unfold modulus. case_if; lia. Qed.

(** The turn that passes zero: the counter restarts from its largest value. *)
Lemma wrap_spec c :
  let c' := PitDecrement (PitSetCountToBinary (c <| Counter.countBinary := 0 |>)) in
  c'.(Counter.bcdMode) = c.(Counter.bcdMode) /\ c'.(Counter.countBinary) = modulus c - 1 /\
  shown c' = modulus c - 1.
Proof.
  assert (PitSetCountToBinary (c <| Counter.countBinary := 0 |>) =
    c <| Counter.countBinary := 0 |> <| Counter.count := 0 |>) as ->.
  { unfold PitSetCountToBinary. simpl. by case_if. }
  unfold PitDecrement, shown, modulus. simpl. by destruct (nz c.(Counter.bcdMode)) eqn:E; simpl; rewrite E.
Qed.

Lemma down_spec c k : 0 <= k <= c.(Counter.countBinary) -> c.(Counter.countBinary) < modulus c ->
  let c' := PitSetCountToBinary (c <| Counter.countBinary ::= (fun b => u32 (b - k)) |>) in
  c'.(Counter.bcdMode) = c.(Counter.bcdMode) /\ c'.(Counter.countBinary) = c.(Counter.countBinary) - k /\
  shown c' = c.(Counter.countBinary) - k.
Proof.
  intros Hk Hm c'. pose proof (modulus_range c). set (c1 := c <| Counter.countBinary ::= _ |>) in *.
  destruct (PitSetCountToBinary_fields c1) as [Hb Hbcd].
  assert (u32 (c.(Counter.countBinary) - k) = c.(Counter.countBinary) - k) as Hu
    by (apply u32_small; split; lia).
  change (c1.(Counter.countBinary)) with (u32 (c.(Counter.countBinary) - k)) in Hb.
  split; [done|]. unfold c'. rewrite PitSetCountToBinary_shown, Hb, Hu; [done|].
  change (c1.(Counter.countBinary)) with (u32 (c.(Counter.countBinary) - k)).
  change (modulus c1) with (modulus c). rewrite Hu. lia.
Qed.

Lemma PitDecrementMultiple_loop_spec fuel c Cycles :
  0 <= Cycles < 2 ^ 32 -> Cycles < Z.of_nat fuel ->
  0 <= c.(Counter.countBinary) < modulus c -> shown c = c.(Counter.countBinary) ->
  exists c', PitDecrementMultiple_loop fuel c Cycles = Some c' /\
    c'.(Counter.bcdMode) = c.(Counter.bcdMode) /\ shown c' = c'.(Counter.countBinary) /\
    c'.(Counter.countBinary) = (c.(Counter.countBinary) - Cycles) mod modulus c.
Proof.
  revert c Cycles. induction fuel as [|fuel IH]; intros c Cycles HC Hf Hb Hs; [lia|].
  pose proof (modulus_range c). simpl. destruct (Z.ltb_spec 0 Cycles).
  2: { exists c. split_and!; try done. rewrite Z.mod_small by lia. lia. }
  destruct (Z.leb_spec Cycles c.(Counter.countBinary)).
  - destruct (down_spec c Cycles) as (D1 & D2 & D3); [lia|lia|].
    set (c1 := PitSetCountToBinary _) in *.
    assert (modulus c1 = modulus c) as Hm by (unfold modulus; by rewrite D1).
    destruct (IH c1 0) as (c' & Hc' & E1 & E2 & E3); [lia|lia|rewrite Hm; lia|lia|].
    exists c'. split_and!; try done; [congruence|]. by rewrite E3, Hm, D2, Z.sub_0_r.
  - destruct (wrap_spec c) as (D1 & D2 & D3). set (c1 := PitDecrement _) in *.
    assert (modulus c1 = modulus c) as Hm by (unfold modulus; by rewrite D1).
    rewrite !u32_small by (rewrite ?u32_small; split; lia).
    destruct (IH c1 (Cycles - (c.(Counter.countBinary) + 1))) as (c' & Hc' & E1 & E2 & E3);
      [lia|lia|rewrite Hm; lia|lia|].
    exists c'. split_and!; try done; [congruence|]. rewrite E3, Hm, D2.
    replace (modulus c - 1 - _) with (c.(Counter.countBinary) - Cycles + 1 * modulus c) by lia.
    apply Z.mod_add. lia.
Qed.

(** C11 Advancing a counter by [Cycles] ends, for every 32-bit number of cycles,
    and leaves it at the count that many steps down, modulo 10000 in BCD mode
    and 65536 otherwise; the count register shows that number, in decimal digits
    in BCD mode. *)
Theorem PitDecrementMultiple_spec c Cycles :
  is_u32 Cycles -> 0 <= c.(Counter.countBinary) < modulus c -> shown c = c.(Counter.countBinary) ->
  exists c', PitDecrementMultiple c Cycles = Some c' /\
    shown c' = (c.(Counter.countBinary) - Cycles) mod modulus c /\
    c'.(Counter.countBinary) = shown c'.
Proof.
  intros HC Hb Hs.
  destruct (PitDecrementMultiple_loop_spec (Z.to_nat Cycles + 1) c Cycles) as (c' & H1 & _ & H2 & H3);
    [exact HC|unfold in_width in HC; lia|done|done|].
  exists c'. split; [done|]. split; congruence.
Qed.

(** Three steps before zero, by five, in BCD. *)
Definition example_counter (bcd mode count : Z) : Counter.t :=
  Counter.zero <| Counter.bcdMode := bcd |> <| Counter.mode := mode |> <| Counter.count := count |>
               <| Counter.countBinary := count |>.
Lemma PitDecrementMultiple_spec_witness :
  exists c', PitDecrementMultiple (example_counter 1 0 3) 5 = Some c' /\ shown c' = 9998.
Proof.
  destruct (PitDecrementMultiple_spec (example_counter 1 0 3) 5) as (c' & H1 & H2 & _).
  - split; [discriminate|reflexivity].
  - split; [discriminate|reflexivity].
  - reflexivity.
  - exists c'. split; [exact H1|exact H2].
Defined.

(** ** Transitions *)

(** The output [ticks] after the count was loaded. *)
Definition level (c : Counter.t) (ticks : Z) : bool :=
  let count := c.(Counter.count) in
  if c.(Counter.mode) =? 1 then ticks <? count
  else if c.(Counter.mode) =? 2 then (ticks mod count =? 0) && negb (ticks =? 0)
  else if c.(Counter.mode) =? 3 then ticks mod count <? (count + 1) / 2
  else if (c.(Counter.mode) =? 4) || (c.(Counter.mode) =? 5) then ticks =? count
  else count <=? ticks.

(** A count that a load can set and the mode can divide by. *)
Definition loaded (c : Counter.t) : Prop := 1 <= c.(Counter.count) <= 65536.

Lemma out_at_run c r s : loaded c -> out_at c r s = Ok (b2z (level c r)) s.
Proof.
  intros Hc. unfold out_at, level, loaded in *. cbv zeta.
  case_if; [done|]. case_if; [by rewrite (run_bind _ _ _ _ _ (run_modu r c.(Counter.count) s ltac:(lia)))|].
  case_if; [|by case_if].
  rewrite (run_bind _ _ _ _ _ (run_modu r c.(Counter.count) s ltac:(lia))), u32_small by (split; lia).
  rewrite Z.shiftr_div_pow2 by lia. done.
Qed.

(** What the timer waits for: in the strobe modes 2, 4 and 5 a high output, in
    the others a change of the output. *)
Definition strobe (c : Counter.t) : bool :=
  (c.(Counter.mode) =? 2) || (c.(Counter.mode) =? 4) || (c.(Counter.mode) =? 5).
Definition event (c : Counter.t) (now ticks : Z) : bool :=
  if strobe c then level c ticks else xorb (level c ticks) (level c now).

Lemma mod_between q count r : 0 < count -> q * count <= r < (q + 1) * count ->
  r mod count = r - q * count.
Proof. intros. symmetry. apply (Z.mod_unique r count q); lia. Qed.

(** [next] is the first tick after [now] at which the output changes. *)
Definition first_change (c : Counter.t) (now : Z) (next : option Z) : Prop :=
  match next with
  | Some n => now < n /\ event c now n = true /\ forall r, now < r < n -> event c now r = false
  | None => forall r, now < r -> event c now r = false
  end.

Section NextTransition.
Context (c : Counter.t) (now : Z) (s : Machine.t) (Hc : loaded c) (Hnow : 0 <= now < 2 ^ 32).
Local Notation count := (c.(Counter.count)).

Lemma period_bounds : 0 <= now / count /\ 0 <= now / count * count <= now /\ now < (now / count + 1) * count.
Proof.
  unfold loaded in Hc. pose proof (Z.div_mod now count ltac:(lia)). pose proof (Z.mod_pos_bound now count ltac:(lia)).
  assert (0 <= now / count) by (apply Z.div_pos; lia). nia.
Qed.

(** Rate generator. *)
Lemma next_rate : c.(Counter.mode) = 2 -> exists next, next_transition c now s = Ok next s /\ first_change c now next.
Proof.
  intros E2. destruct period_bounds as (Hq & Hqc & Htop). unfold loaded in Hc.
  unfold next_transition, first_change, event, strobe, level. rewrite E2. simpl.
  rewrite (run_bind _ _ _ _ _ (run_divu now count s ltac:(lia))). set (q := now / count) in *.
  eexists. split; [reflexivity|]. rewrite !u64_small by (rewrite ?u64_small; split; lia). split; [lia|]. split.
  - replace (q * count + count) with ((q + 1) * count) by lia. rewrite Z.mod_mul, Z.eqb_refl by lia.
    apply negb_true_iff, Z.eqb_neq. nia.
  - intros r Hrr. rewrite (mod_between q) by lia. by rewrite (proj2 (Z.eqb_neq _ 0)) by lia.
Qed.

(** Square wave: up for the longer half. *)
Lemma next_square : c.(Counter.mode) = 3 -> 2 <= count ->
  exists next, next_transition c now s = Ok next s /\ first_change c now next.
Proof.
  intros E3 Htwo. destruct period_bounds as (Hq & Hqc & Htop). unfold loaded in Hc.
  unfold next_transition, first_change, event, strobe, level. rewrite E3. simpl.
  rewrite (run_bind _ _ _ _ _ (run_divu now count s ltac:(lia))). set (q := now / count) in *.
  eexists. split; [reflexivity|]. rewrite (u64_small (q * count)), (u64_small (now - q * count)),
    (u32_small (count + 1)) by (split; lia). rewrite Z.shiftr_div_pow2 by lia.
  change (2 ^ 1) with 2. set (h := (count + 1) / 2).
  assert (1 <= h < count) as Hh.
  { pose proof (Z.div_mod (count + 1) 2 ltac:(lia)) as Hd.
    pose proof (Z.mod_pos_bound (count + 1) 2 ltac:(lia)). fold h in Hd. lia. }
  rewrite !(u64_small (q * count + _)) by (split; lia). rewrite (mod_between q count now) by lia.
  destruct (Z.ltb_spec (now - q * count) h).
  - split; [lia|]. rewrite (mod_between q count (q * count + h)) by lia.
    rewrite (proj2 (Z.ltb_ge _ h)) by lia. split; [done|]. intros r Hrr.
    rewrite (mod_between q) by lia. by rewrite (proj2 (Z.ltb_lt _ h)) by lia.
  - split; [lia|]. rewrite (mod_between (q + 1) count (q * count + count)) by lia.
    rewrite (proj2 (Z.ltb_lt _ h)) by lia. split; [done|]. intros r Hrr.
    rewrite (mod_between q) by lia. by rewrite (proj2 (Z.ltb_ge _ h)) by lia.
Qed.

(** One shot, strobes and the event counter: at the count or never. *)
Lemma next_once : c.(Counter.mode) <> 2 -> c.(Counter.mode) <> 3 ->
  exists next, next_transition c now s = Ok next s /\ first_change c now next.
Proof.
  intros E2%Z.eqb_neq E3%Z.eqb_neq. unfold next_transition, first_change, event, strobe, level. rewrite E2, E3.
  eexists. split; [reflexivity|]. simpl. destruct (Z.eqb_spec c.(Counter.mode) 1) as [E1|E1].
  { rewrite E1. simpl. destruct (Z.ltb_spec now count).
    - split; [lia|]. rewrite Z.ltb_irrefl. split; [done|]. intros r Hrr. by rewrite (proj2 (Z.ltb_lt r count)) by lia.
    - intros r Hrr. by rewrite (proj2 (Z.ltb_ge r count)) by lia. }
  destruct ((c.(Counter.mode) =? 4) || (c.(Counter.mode) =? 5)), (Z.ltb_spec now count).
  - split; [lia|]. split; [apply Z.eqb_refl|]. intros r Hrr. apply Z.eqb_neq. lia.
  - intros r Hrr. apply Z.eqb_neq. lia.
  - split; [lia|]. rewrite Z.leb_refl, (proj2 (Z.leb_gt count now)) by lia. split; [done|].
    intros r Hrr. by rewrite (proj2 (Z.leb_gt count r)) by lia.
  - intros r Hrr. by rewrite !(proj2 (Z.leb_le count _)) by lia.
Qed.
End NextTransition.



(** ** The count as the guest reads and writes it *)

(** The ports of the counters 0 and 2. *)
Definition port_of (Channel : Z) : Z := 0x40 + Channel.
Definition wired (Channel : Z) : Prop := Channel = 0 \/ Channel = 2.

Lemma wired_channel Channel : wired Channel ->
  u8 (port_of Channel - 0x40) &. 2 = Channel /\ u8 (port_of Channel) &. 2 = Channel /\
  (port_of Channel =? 0x61) = false.
Proof. by intros [-> | ->]. Qed.

Lemma counter_run Channel c s : nthZ (counters s) Channel = Some c -> get_counter Channel s = Ok c s.
Proof. intros Hc. unfold get_counter, at_. by rewrite Hc. Qed.

Lemma upd_counter_run Channel c f s : nthZ (counters s) Channel = Some c ->
  upd_counter Channel f s = Ok tt (upd_field counters (fun l => updZ l Channel (f c)) s).
Proof. intros Hc. unfold upd_counter, upd_at. by rewrite Hc. Qed.

Lemma wp_counter {B} Channel c (k : Counter.t -> IO B) Q s :
  nthZ (counters s) Channel = Some c -> wp (k c) Q s -> wp (get_counter Channel ≫= k) Q s.
Proof. intros Hc. by apply wp_at_bind. Qed.

Lemma wp_upd_counter {B} Channel c f (k : unit -> IO B) Q s :
  nthZ (counters s) Channel = Some c ->
  (forall s', nthZ (counters s') Channel = Some (f c) -> wp (k tt) Q s') ->
  wp (upd_counter Channel f ≫= k) Q s.
Proof. intros Hc Hk. eapply wp_upd_bind; [exact Hc|done|]. intros s' _ Hs'. by apply Hk. Qed.

Section Ports.
Context `{!Driver}.

(** A read of a latched count. *)
Lemma PitReadHandler_latched Channel c Length s :
  wired Channel -> nthZ (counters s) Channel = Some c ->
  c.(Counter.statusLatched) = 0 -> c.(Counter.countLatched) = RW_STATE_WORD0 ->
  wp (PitReadHandler (port_of Channel) Length) (fun low s' =>
    low = c.(Counter.outlatch) &. 0xff /\
    nthZ (counters s') Channel = Some (c <| Counter.countLatched := RW_STATE_MSB |>)) s.
Proof.
  intros Hch Hc Hst Hla. destruct (wired_channel Channel Hch) as (H1 & _ & H3).
  unfold PitReadHandler. cbv zeta. rewrite H1, H3.
  apply (wp_counter _ c); [done|]. rewrite Hst, Hla. simpl.
  apply (wp_upd_counter _ c); [done|]. intros s' Hs'. by split.
Qed.

Lemma PitReadHandler_latched_high Channel c Length s :
  wired Channel -> nthZ (counters s) Channel = Some c ->
  c.(Counter.statusLatched) = 0 -> c.(Counter.countLatched) = RW_STATE_MSB ->
  wp (PitReadHandler (port_of Channel) Length) (fun high s' =>
    high = (c.(Counter.outlatch) >>. 8) &. 0xff /\
    nthZ (counters s') Channel = Some (c <| Counter.countLatched := 0 |>)) s.
Proof.
  intros Hch Hc Hst Hla. destruct (wired_channel Channel Hch) as (H1 & _ & H3).
  unfold PitReadHandler. cbv zeta. rewrite H1, H3.
  apply (wp_counter _ c); [done|]. rewrite Hst, Hla. simpl.
  apply (wp_upd_counter _ c); [done|]. intros s' Hs'. by split.
Qed.

Lemma bytes_of_word v : (u16 v &. 0xff) + 256 * ((u16 v >>. 8) &. 0xff) = u16 v.
Proof.
  pose proof (u16_range v) as Hv. unfold in_width in Hv. change (2 ^ 16) with 65536 in Hv.
  change 0xff with (Z.ones 8). rewrite !Z.land_ones, Z.shiftr_div_pow2 by lia.
  change (2 ^ 8) with 256. set (x := u16 v) in *.
  rewrite (Z.mod_small (x / 256)) by (Z.to_euclidean_division_equations; lia).
  pose proof (Z.div_mod x 256 ltac:(lia)). lia.
Qed.

(** The latch command freezes the count: with both bytes selected, the two
    reads that follow give the low and the high byte of the count at the time of
    the command, whatever happens to the rest of the machine, its clock
    included, between them. *)
Theorem latched_count_roundtrip Channel c v s :
  wired Channel -> nthZ (counters s) Channel = Some c ->
  c.(Counter.rwMode) = 3 -> c.(Counter.statusLatched) = 0 -> c.(Counter.countLatched) = 0 ->
  PitGetCount Channel s = Ok v s ->
  wp (PitWriteHandler 0x43 (Channel <<. 6) 1) (fun _ s1 =>
    forall s2, counters s2 = counters s1 ->
    wp (PitReadHandler (port_of Channel) 1) (fun low s3 =>
      forall s4, counters s4 = counters s3 ->
      wp (PitReadHandler (port_of Channel) 1) (fun high _ => low + 256 * high = u16 v) s4) s2) s.
Proof.
  intros Hch Hc Hrw Hst Hla Hv.
  assert (PitWriteHandler 0x43 (Channel <<. 6) 1 = PitLatchCount Channel) as ->
    by (by destruct Hch as [-> | ->]).
  unfold PitLatchCount. apply (wp_counter _ c); [done|]. rewrite Hla. simpl.
  eapply wp_run_bind; [exact Hv|]. eapply wp_upd_at; [exact Hc|].
  set (c1 := c <| Counter.outlatch := u16 v |> <| Counter.countLatched := c.(Counter.rwMode) |>).
  intros s2 Hs2.
  assert (nthZ (counters s2) Channel = Some c1) as Hc2.
  { rewrite Hs2. apply nthZ_updZ_eq. by eapply nthZ_Some. }
  eapply wp_mono; [|by apply (PitReadHandler_latched Channel c1)].
  intros low s3 [-> Hc3] s4 Hs4. rewrite <- Hs4 in Hc3.
  eapply wp_mono; [|by apply (PitReadHandler_latched_high Channel _ 1 s4 Hch Hc3)].
  intros high s5 [-> _]. apply bytes_of_word.
Qed.

(** Counter 1 does not exist: its port reaches counter 0, for reads and writes. *)
Theorem counter1_aliases_counter0 Value Length :
  PitWriteHandler 0x41 Value Length = PitWriteHandler 0x40 Value Length /\
  PitReadHandler 0x41 Length = PitReadHandler 0x40 Length.
Proof. done. Qed.

(** The guest can make the program divide by zero: selecting mode 2 or 3 for a
    counter that was never loaded and latching its count. *)
Theorem latch_before_load_divides s Channel c mode :
  wired Channel -> mode = 2 \/ mode = 3 ->
  nthZ (counters s) Channel = Some c -> c.(Counter.count) = 0 -> c.(Counter.countLatched) = 0 ->
  (PitWriteHandler 0x43 ((Channel <<. 6) |. 0x30 |. (mode <<. 1)) 1 ;;
   PitWriteHandler 0x43 (Channel <<. 6) 1) s = Fault DivByZero.
Proof.
  intros Hch Hm Hc H0 Hla.
  set (f := fun c : Counter.t => c <| Counter.readState := 3 |> <| Counter.writeState := 3 |>
      <| Counter.mode := mode |> <| Counter.rwMode := 3 |> <| Counter.bcdMode := 0 |>).
  assert (PitWriteHandler 0x43 ((Channel <<. 6) |. 0x30 |. (mode <<. 1)) 1 s =
          Ok tt (upd_field counters (fun l => updZ l Channel (f c)) s)) as Hw.
  { rewrite <- (upd_counter_run _ _ f _ Hc). unfold f. by destruct Hch as [-> | ->], Hm as [-> | ->]. }
  rewrite (run_bind _ _ _ _ _ Hw). set (s1 := upd_field counters _ s).
  assert (nthZ (counters s1) Channel = Some (f c)) as Hc1.
  { apply nthZ_updZ_eq. by eapply nthZ_Some. }
  assert (PitWriteHandler 0x43 (Channel <<. 6) 1 = PitLatchCount Channel) as ->
    by (by destruct Hch as [-> | ->]).
  unfold PitLatchCount. rewrite (run_bind _ _ _ _ _ (counter_run _ _ _ Hc1)).
  unfold f. cbn. rewrite Hla. simpl. apply run_fault. unfold PitGetCount.
  rewrite (run_bind _ _ _ _ _ (TimerGetClockNs_run s1)), (run_bind _ _ _ _ _ (counter_run _ _ _ Hc1)).
  unfold f, count_at. cbn. rewrite H0. by destruct Hm as [-> | ->].
Qed.
End Ports.

Section Load.
Context `{!Driver}.

(** The clock at which a load happens. *)
Definition now_of (s : Machine.t) : Z := clock_of_ticks s.(Machine.Timers).(TIMERS.TicksTotal).

Lemma ticks_at_load c now : c.(Counter.countLoadTime) = now -> ticks_at c now = 0.
Proof. intros <-. unfold ticks_at. by rewrite Z.sub_diag. Qed.

(** The count a load of [v] sets, and the time of its first transition in mode 2. *)
Definition count_of (v : Z) : Z := if v =? 0 then 65536 else v.
Definition first_transition (now count : Z) : Z := now + count * NANOSECONDS_PER_SECOND / PIT_FREQ + 1.

Lemma next_time_mode2 Channel c s now :
  nthZ (counters s) Channel = Some c -> c.(Counter.mode) = 2 -> loaded c ->
  c.(Counter.countLoadTime) = now -> 0 <= now < 2 ^ 30 ->
  PitGetNextTransitionTime Channel now s = Ok (first_transition now c.(Counter.count)) s /\
  0 <= first_transition now c.(Counter.count) < 2 ^ 62.
Proof.
  intros Hc Hm Hl Hload Hnow. unfold loaded in Hl. unfold PitGetNextTransitionTime.
  rewrite (run_bind _ _ _ _ _ (counter_run _ _ _ Hc)), ticks_at_load by done.
  unfold next_transition. rewrite Hm. simpl. set (count := c.(Counter.count)) in *.
  assert (divu 0 count s = Ok 0 s) as Hd by (rewrite run_divu by lia; by rewrite Z.div_0_l by lia).
  erewrite run_bind; [|rewrite (run_bind _ _ _ _ _ Hd); reflexivity].
  rewrite Hload, Z.mul_0_l. change (u64 (u64 0 + count)) with (u64 count). cbv beta iota.
  rewrite (u64_small count) by (split; lia).
  rewrite muldiv64_spec by (by split). rewrite (Z.mod_small count) by lia.
  unfold first_transition. set (d := count * NANOSECONDS_PER_SECOND / PIT_FREQ).
  assert (0 <= d < 2 ^ 40) as Hd'.
  { unfold d, NANOSECONDS_PER_SECOND, PIT_FREQ. split; [apply Z.div_pos; lia|].
    apply Z.div_lt_upper_bound; lia. }
  rewrite (u64_small (now + d)) by (split; lia). split; [|lia].
  assert ((if now + d <=? now then now else now + d) = now + d) as ->.
  { destruct (Z.leb_spec (now + d) now); lia. }
  f_equal. unfold s64, signed. change (2 ^ (64 - 1)) with (2 ^ 63). rewrite Z.mod_small by lia. lia.
Qed.

(** The two halves of a load: the counter restarts, its timer is armed. *)
Definition restarted (now v : Z) (c : Counter.t) : Counter.t :=
  c <| Counter.count := (if negb (nz v) then 0x10000 else v &. 0xffff) |>
    <| Counter.countWritten := 1 |> <| Counter.countLoadTime := now |>.
Definition armed (next : Z) (t : TIMER.t) : TIMER.t :=
  t <| TIMER.Active := 1 |> <| TIMER.Nseconds := next |> <| TIMER.OneShot := 0 |>.

Lemma PitLoadCount_mode2 Channel c t v s :
  nthZ (counters s) Channel = Some c -> c.(Counter.mode) = 2 ->
  nthZ (timers s) c.(Counter.timerId) = Some t -> loaded (restarted (now_of s) v c) ->
  let next := first_transition (now_of s) (restarted (now_of s) v c).(Counter.count) in
  wp (PitLoadCount Channel v) (fun _ s' =>
    nthZ (counters s') Channel =
      Some (restarted (now_of s) v c <| Counter.nextTransitionTime := next |>) /\
    nthZ (timers s') c.(Counter.timerId) = Some (armed next t)) s.
Proof.
  intros Hc Hm Ht Hl next. unfold PitLoadCount.
  eapply wp_run_bind; [apply TimerGetClockNs_run|]. fold (now_of s).
  pose proof (clock_of_ticks_range s.(Machine.Timers).(TIMERS.TicksTotal)) as Hnow. fold (now_of s) in Hnow.
  eapply wp_run_bind; [by apply upd_counter_run|]. fold (restarted (now_of s) v c).
  set (c1 := restarted (now_of s) v c) in *. set (s1 := upd_field counters _ s).
  assert (nthZ (counters s1) Channel = Some c1) as Hc1 by (apply nthZ_updZ_eq; by eapply nthZ_Some).
  destruct (next_time_mode2 Channel c1 s1 (now_of s) Hc1 Hm Hl eq_refl Hnow) as [Hnext Hr].
  unfold PitIrqTimerUpdate. eapply wp_run_bind; [exact Hnext|].
  eapply wp_run_bind.
  { unfold PitGetOut. rewrite (run_bind _ _ _ _ _ (counter_run _ _ _ Hc1)). by apply out_at_run. }
  apply (wp_counter _ c1); [done|]. apply wp_gets_bind.
  change (c1.(Counter.mode)) with c.(Counter.mode). rewrite Hm.
  change (nz 0) with false. cbn [Z.eqb Pos.eqb orb andb when]. apply wp_done_bind.
  fold next in Hr |- *. assert (u64 next = next) as Hu by (apply u64_small; split; lia). rewrite !Hu.
  eapply wp_run_bind; [by apply upd_counter_run|]. set (s2 := upd_field counters _ s1).
  set (c2 := c1 <| Counter.nextTransitionTime := _ |>) in *.
  assert (nthZ (counters s2) Channel = Some c2) as Hc2 by (apply nthZ_updZ_eq; by eapply nthZ_Some).
  apply (wp_counter _ c2); [done|].
  rewrite (proj2 (Z.eqb_neq _ (-1))) by lia. simpl.
  eapply wp_upd_at; [exact Ht|]. split; [exact Hc2|].
  apply nthZ_updZ_eq. by eapply nthZ_Some.
Qed.

(** A count written as two bytes in mode 2 is loaded whole by the second
    write, 0 standing for 65536: the counter restarts at the current time and
    its timer is armed for its first transition. *)
Theorem load_count_mode2 Channel c t low high s :
  wired Channel -> nthZ (counters s) Channel = Some c -> c.(Counter.mode) = 2 ->
  c.(Counter.writeState) = RW_STATE_WORD0 -> is_u8 low -> is_u8 high ->
  nthZ (timers s) c.(Counter.timerId) = Some t ->
  let now := now_of s in
  let count := count_of (low + 256 * high) in
  wp (PitWriteHandler (port_of Channel) low 1 ;; PitWriteHandler (port_of Channel) high 1) (fun _ s' =>
    nthZ (timers s') c.(Counter.timerId) =
      Some (armed (first_transition now count) t) /\
    exists c', nthZ (counters s') Channel = Some c' /\ c'.(Counter.count) = count /\
      c'.(Counter.countLoadTime) = now /\ c'.(Counter.nextTransitionTime) = first_transition now count /\
      c'.(Counter.writeState) = RW_STATE_WORD0) s.
Proof.
  intros Hch Hc Hm Hw Hlow Hhigh Ht now count.
  assert (forall v n, PitWriteHandler (port_of Channel) v n = write_count Channel v) as Hport
    by (by intros; destruct Hch as [-> | ->]).
  rewrite !Hport. unfold write_count at 1. apply wp_bind, (wp_counter _ c); [done|]. rewrite Hw. simpl.
  eapply wp_upd_at; [exact Hc|]. set (c1 := c <| Counter.inlatch := u8 low |> <| Counter.writeState := RW_STATE_WORD1 |>).
  set (s1 := upd_field counters _ s).
  assert (nthZ (counters s1) Channel = Some c1) as Hc1 by (apply nthZ_updZ_eq; by eapply nthZ_Some).
  unfold write_count. apply (wp_counter _ c1); [done|].
  change (c1.(Counter.writeState)) with RW_STATE_WORD1. simpl. rewrite (u8_small low) by done.
  assert (low |. ((high &. 0xff) <<. 8) = low + 256 * high) as ->.
  { change 0xff with (Z.ones 8). rewrite Z.land_ones, (Z.mod_small high) by (lia || exact Hhigh).
    rewrite (lor_shiftl_add low high 8) by (lia || done). change (2 ^ 8) with 256. lia. }
  unfold in_width in Hlow, Hhigh. change (2 ^ 8) with 256 in *.
  assert (loaded (restarted now (low + 256 * high) c1) /\
    (restarted now (low + 256 * high) c1).(Counter.count) = count) as [Hl Hcount].
  { unfold loaded, restarted, count, count_of, nz. cbn. rewrite negb_involutive.
    change 0xffff with (Z.ones 16). rewrite Z.land_ones, Z.mod_small by (change (2 ^ 16) with 65536; lia).
    destruct (Z.eqb_spec (low + 256 * high) 0); lia. }
  apply wp_bind. eapply wp_mono; [|by apply (PitLoadCount_mode2 Channel c1 t)].
  intros [] s2 [Hc2 Ht2]. change (now_of s1) with now in *. rewrite Hcount in Hc2, Ht2.
  eapply wp_upd_at; [exact Hc2|]. split; [exact Ht2|].
  eexists. split; [apply nthZ_updZ_eq; by eapply nthZ_Some|]. by split_and!.
Qed.
End Load.

(** ** What the timer may touch *)

Section PitSafe.
Context `{!Driver} (R : Machine.t -> Machine.t -> Prop) `{!IrqSafe R} `{!TimerSafe R}.
Hypothesis pit_store : forall s g, R s (s <| Machine.Pit ::= g |>).

#[local] Instance safe_upd_counter i f : Within R (upd_counter i f).
Proof. apply within_upd_at. intros. apply (pit_store s (fun r => r <| Pit.counter ::= _ |>)). Qed.
#[local] Instance safe_upd_pit f : Within R (upd_pit f).
Proof. apply within_modify. intros. apply pit_store. Qed.
#[local] Instance safe_clock : Within R TimerGetClockNs.
Proof. unfold TimerGetClockNs, TimerGetTotalTicks. apply _. Qed.
#[local] Instance safe_PitGetOut i t : Within R (PitGetOut i t).
Proof. unfold PitGetOut, out_at, get_counter. apply _. Qed.
#[local] Instance safe_PitGetCount i : Within R (PitGetCount i).
Proof. unfold PitGetCount, count_at, get_counter. apply _. Qed.
#[local] Instance safe_PitIrqTimerUpdate i t b : Within R (PitIrqTimerUpdate i t b).
Proof. unfold PitIrqTimerUpdate, PitGetNextTransitionTime, next_transition, get_counter. apply _. Qed.

Lemma PitTimerHandler_within p : Within R (PitTimerHandler p).
Proof. unfold PitTimerHandler, get_counter. apply _. Qed.
Lemma PitReadHandler_within a n : Within R (PitReadHandler a n).
Proof. unfold PitReadHandler, read_low, read_high, get_counter. apply _. Qed.
Lemma PitWriteHandler_within a v n : Within R (PitWriteHandler a v n).
Proof.
  assert (forall i v, Within R (PitLoadCount i v)).
  { intros. unfold PitLoadCount. apply _. }
  assert (forall i, Within R (PitLatchCount i)).
  { intros. unfold PitLatchCount, get_counter. apply _. }
  assert (forall i, Within R (PitLatchStatus i)).
  { intros. unfold PitLatchStatus, get_counter. apply _. }
  assert (forall i v, Within R (write_count i v)).
  { intros. unfold write_count, get_counter. apply _. }
  assert (forall v, Within R (write_control v)).
  { intros. unfold write_control, read_back, get_counter. apply _. }
  assert (forall i v, Within R (PitSetGate i v)).
  { intros. unfold PitSetGate, get_counter. apply _. }
  unfold PitWriteHandler. apply _.
Qed.
End PitSafe.

Lemma example_pit_timer : nthZ (timers Machine.zero) 0 = Some TIMER.zero.
Proof. reflexivity. Qed.

(** Counter 0 with a mode, a byte order and a count. *)
Definition example_pit (c : Counter.t) : Machine.t :=
  Machine.zero <| Machine.Pit ::= (fun r => r <| Pit.counter := [c; Counter.zero; Counter.zero] |>) |>.

#[local] Existing Instance example_driver.

(** A count of 10 in mode 0, read at time 0. *)
Lemma latched_count_roundtrip_witness :
  wp (PitWriteHandler 0x43 0 1) (fun _ s1 =>
    wp (PitReadHandler 0x40 1) (fun low s3 =>
      wp (PitReadHandler 0x40 1) (fun high _ => low + 256 * high = 10) s3) s1)
    (example_pit (example_counter 0 0 10 <| Counter.rwMode := 3 |>)).
Proof.
  eapply wp_mono; [|apply (latched_count_roundtrip 0 (example_counter 0 0 10 <| Counter.rwMode := 3 |>) 10)].
  - intros [] s1 Hs1. eapply wp_mono; [|exact (Hs1 s1 eq_refl)].
    intros low s3 Hs3. exact (Hs3 s3 eq_refl).
  - left. reflexivity.
  - reflexivity.
  - reflexivity.
  - reflexivity.
  - reflexivity.
  - reflexivity.
Defined.

Lemma latch_before_load_divides_witness :
  (PitWriteHandler 0x43 0x34 1 ;; PitWriteHandler 0x43 0 1) Machine.zero = Fault DivByZero.
Proof.
  apply (latch_before_load_divides Machine.zero 0 Counter.zero 2); [left|left| | |]; reflexivity.
Defined.

(** 0x1234 is written to counter 0. *)
Lemma load_count_mode2_witness :
  wp (PitWriteHandler 0x40 0x34 1 ;; PitWriteHandler 0x40 0x12 1) (fun _ s' =>
    exists c', nthZ (counters s') 0 = Some c' /\ c'.(Counter.count) = 0x1234)
    (example_pit (example_counter 0 2 0 <| Counter.writeState := RW_STATE_WORD0 |>)).
Proof.
  eapply wp_mono; [|apply (load_count_mode2 0
    (example_counter 0 2 0 <| Counter.writeState := RW_STATE_WORD0 |>) TIMER.zero)].
  - intros _ s' (_ & c' & H1 & H2 & _). exists c'. split; [exact H1|exact H2].
  - left. reflexivity.
  - reflexivity.
  - reflexivity.
  - reflexivity.
  - split; [discriminate|reflexivity].
  - split; [discriminate|reflexivity].
  - reflexivity.
Defined.
