(* ===== verification/Dma.v ===== *)
(** dma.c: the two cascaded 8237 DMA controllers.

    [Dma[0]] moves bytes and [Dma[1]] words; a request of [Dma[0]] is forwarded
    to channel 4, the first of [Dma[1]], whose own requests ask the hypervisor to
    leave the guest.  No device of the program sets the handlers of a channel;
    what they would do is the interface [DmaHandlers]. *)

From S2P Require Export Registry.

(** dma.h *)
Definition CMD_DISABLE : Z := 0x04.
Definition DMA_MODE_VERIFY : Z := 0 <<. 2.
Definition DMA_MODE_WRITE : Z := 1 <<. 2.
Definition DMA_MODE_READ : Z := 1 <<. 3.
Definition DMA_MODE_AUTO_INIT : Z := 1 <<. 4.
Definition DMA_MODE_DECREMENT : Z := 1 <<. 5.
Definition DmaChannelPage : list Z := [2; 3; 1; 0; 0; 0; 0].
Definition DmaChannelHipage : list Z := [0; 0; 0; 2; 3; 4; 0].
Definition DMA_CHANNEL_TO_CONTROLLER (c : Z) : Z := if c <? 4 then 0 else 1.

(** A transfer handler, with the channel, the guest address and the length. *)
Class DmaHandlers := dma_transfer : Z -> Z -> Z -> Z -> IO Z.

(** ** Access *)

Definition dma (n : Z) : IO DMA_CONTROLLER.t := at_ Machine.Dma n.
Definition upd_dma (n : Z) (f : DMA_CONTROLLER.t -> DMA_CONTROLLER.t) : IO unit :=
  upd_at Machine.Dma n f.
Definition chan (n c : Z) : IO DMA_CHANNEL.t :=
  d ← dma n; of_option OutOfBounds (nthZ d.(DMA_CONTROLLER.Channels) c).
Definition upd_chan (n c : Z) (f : DMA_CHANNEL.t -> DMA_CHANNEL.t) : IO unit :=
  ch ← chan n c;
  upd_dma n (fun d => d <| DMA_CONTROLLER.Channels ::= (fun l => updZ l c (f ch)) |>).

(** [(DmaNumber, Channel)] as both handlers compute them. *)
Definition decode (Address : Z) : Z * Z :=
  let DmaNumber := if 0xc0 <=? Address then 1 else 0 in
  (DmaNumber, (Address >>. (1 + DmaNumber)) &. 3).

(** The cases of the switches. *)
Definition is_address_port (a : Z) : bool :=
  bool_decide (a ∈ [0x00; 0x02; 0x04; 0x06; 0xc0; 0xc4; 0xc8; 0xcc]).
Definition is_count_port (a : Z) : bool :=
  bool_decide (a ∈ [0x01; 0x03; 0x05; 0x07; 0xc2; 0xc6; 0xca; 0xce]).
Definition is_page1_port (a : Z) : bool := bool_decide (a ∈ [0x81; 0x82; 0x83; 0x87]).
Definition is_page2_port (a : Z) : bool := bool_decide (a ∈ [0x89; 0x8a; 0x8b; 0x8f]).
Definition is_hipage1_port (a : Z) : bool := bool_decide (a ∈ [0x80; 0x84; 0x85; 0x86]).
Definition is_hipage2_port (a : Z) : bool := bool_decide (a ∈ [0x88; 0x8c; 0x8d; 0x8e]).

(** ** Reading *)

Definition toggle_flipflop (n : Z) : IO unit :=
  upd_dma n (fun d => d <| DMA_CONTROLLER.FlipFlop ::= (fun f => b2z (negb (nz f))) |>).

(** The low or the high byte of a 16-bit register, by the flip-flop. *)
Definition read_word (n : Z) (v : Z) : IO Z :=
  d ← dma n;
  toggle_flipflop n ;;
  mret (if negb (nz d.(DMA_CONTROLLER.FlipFlop)) then v &. 0xff else (v >>. 8) &. 0xff).

Definition DmaPortIoReadHandler (Address Length : Z) : IO Z :=
  let '(DmaNumber, Channel) := decode Address in
  if is_address_port Address then
    c ← chan DmaNumber Channel;
    read_word DmaNumber c.(DMA_CHANNEL.CurrentAddressRegister)
  else if is_count_port Address then
    c ← chan DmaNumber Channel;
    read_word DmaNumber c.(DMA_CHANNEL.BaseCountRegister)
  else if (Address =? 0x08) || (Address =? 0xd0) then
    d ← dma DmaNumber;
    upd_dma DmaNumber (fun d => d <| DMA_CONTROLLER.StatusRegister ::= (fun v => v &. 0xf0) |>) ;;
    mret d.(DMA_CONTROLLER.StatusRegister)
  else if (Address =? 0x0d) || (Address =? 0xda) then mret 0
  else if is_page1_port Address then
    c ← chan 0 (nth0 DmaChannelPage (Address - 0x81));
    mret c.(DMA_CHANNEL.PageRegisters)
  else if is_page2_port Address then
    c ← chan 1 (nth0 DmaChannelPage (Address - 0x89));
    mret c.(DMA_CHANNEL.PageRegisters)
  else if is_hipage1_port Address then
    c ← chan 0 (nth0 DmaChannelHipage (Address - 0x80));
    mret c.(DMA_CHANNEL.HiPageRegisters)
  else if is_hipage2_port Address then
    c ← chan 1 (nth0 DmaChannelHipage (Address - 0x88));
    mret c.(DMA_CHANNEL.HiPageRegisters)
  else if (Address =? 0x0f) || (Address =? 0xde) then
    c0 ← chan DmaNumber 0;
    c1 ← chan DmaNumber 1;
    c2 ← chan DmaNumber 2;
    c3 ← chan DmaNumber 3;
    mret ((c0.(DMA_CHANNEL.MaskRegister) |. (c1.(DMA_CHANNEL.MaskRegister) <<. 1)
           |. (c2.(DMA_CHANNEL.MaskRegister) <<. 2) |. (c3.(DMA_CHANNEL.MaskRegister) <<. 3)) |. 0xf0)
  else mret 0.

(** ** The hold request *)

(** [StatusRegister & (1 << (i + 4)) && !Channels[i].MaskRegister] *)
Definition requests (d : DMA_CONTROLLER.t) (i : Z) : bool :=
  (d.(DMA_CONTROLLER.StatusRegister) &? bit (i + 4)) &&
  match nthZ d.(DMA_CONTROLLER.Channels) i with
  | Some c => negb (nz c.(DMA_CHANNEL.MaskRegister))
  | None => false
  end.

(** The first channel of the four that requests, and 4 when none does. *)
Definition first_request (d : DMA_CONTROLLER.t) : Z := default 4 (find (requests d) (seqZ 0 4)).

Definition set_user_event (v : Z) : IO unit :=
  modify (fun s => s <| Machine.kvm_run ::= (fun r => r <| kvm_run.user_event_pending := v |>) |>).

(** [DmaControlHoldRequestLine] with [DmaSetHoldRequest(4, _)] given. *)
Definition DmaControlHoldRequestLine_body (DmaSetHoldRequest4 : Z -> IO unit) (DmaNumber : Z) : IO unit :=
  d ← dma DmaNumber;
  if d.(DMA_CONTROLLER.StatusRegister) &? CMD_DISABLE then done_
  else if negb (d.(DMA_CONTROLLER.StatusRegister) &? 0xf0) then
    if nz DmaNumber then set_user_event 0 ;; clear_event EVENT_DMA
    else DmaSetHoldRequest4 0
  else if first_request d <? 4 then
    if nz DmaNumber then set_user_event 1 ;; set_event EVENT_DMA
    else DmaSetHoldRequest4 1
  else done_.

(** [DmaSetHoldRequest] with [DmaControlHoldRequestLine] given. *)
Definition DmaSetHoldRequest_body (DmaControlHoldRequestLine : Z -> IO unit) (Channel Value : Z) : IO unit :=
  if 7 <? Channel then done_
  else
    let DmaNumber := DMA_CHANNEL_TO_CONTROLLER Channel in
    let Channel := if 3 <? Channel then Channel &. 3 else Channel in
    upd_dma DmaNumber (fun d => d <| DMA_CONTROLLER.StatusRegister ::= (fun v =>
      if negb (nz Value) then u8 (v &. ~. bit (Channel + 4)) else u8 (v |. bit (Channel + 4))) |>) ;;
    DmaControlHoldRequestLine DmaNumber.

(** Controller 0 asks channel 4, which is controller 1's, which asks nobody. *)
Fixpoint DmaControlHoldRequestLine_rec (fuel : nat) (DmaNumber : Z) : IO unit :=
  match fuel with
  | O => stop Diverges
  | S fuel =>
      DmaControlHoldRequestLine_body (DmaSetHoldRequest_body (DmaControlHoldRequestLine_rec fuel) 4)
        DmaNumber
  end.
Definition DmaControlHoldRequestLine : Z -> IO unit := DmaControlHoldRequestLine_rec 2.
Definition DmaSetHoldRequest : Z -> Z -> IO unit := DmaSetHoldRequest_body DmaControlHoldRequestLine.

(** ** Writing *)

(** The low byte and the high byte of a base register. *)
Definition base_low (base Value : Z) : Z := u16 ((Value &. 0xff) |. (base <<. 8)).
Definition base_high (base Value : Z) : Z := ((Value &. 0xff) <<. 8) |. (base &. 0xff).

Definition write_address (n c Value : Z) : IO unit :=
  d ← dma n;
  (if negb (nz d.(DMA_CONTROLLER.FlipFlop)) then
     upd_chan n c (fun ch =>
       let base := base_low ch.(DMA_CHANNEL.BaseAddressRegister) Value in
       ch <| DMA_CHANNEL.BaseAddressRegister := base |> <| DMA_CHANNEL.CurrentAddressRegister := base |>)
   else
     upd_chan n c (fun ch =>
       let base := base_high ch.(DMA_CHANNEL.BaseAddressRegister) Value in
       ch <| DMA_CHANNEL.BaseAddressRegister := base |> <| DMA_CHANNEL.CurrentAddressRegister := base |>
          <| DMA_CHANNEL.CurrentCountRegister := 0 |>)) ;;
  toggle_flipflop n.

Definition write_count (n c Value : Z) : IO unit :=
  d ← dma n;
  (if negb (nz d.(DMA_CONTROLLER.FlipFlop)) then
     upd_chan n c (fun ch =>
       let base := base_low ch.(DMA_CHANNEL.BaseCountRegister) Value in
       ch <| DMA_CHANNEL.BaseCountRegister := base |> <| DMA_CHANNEL.CurrentCountRegister := base |>)
   else
     upd_chan n c (fun ch =>
       let base := base_high ch.(DMA_CHANNEL.BaseCountRegister) Value in
       ch <| DMA_CHANNEL.BaseCountRegister := base |> <| DMA_CHANNEL.CurrentCountRegister := base |>
          <| DMA_CHANNEL.CurrentAddressRegister := ch.(DMA_CHANNEL.BaseAddressRegister) |>)) ;;
  toggle_flipflop n.

Definition set_mask (n c v : Z) : IO unit :=
  upd_chan n c (fun ch => ch <| DMA_CHANNEL.MaskRegister := v |>).
Definition set_page (n c Value : Z) : IO unit :=
  upd_chan n c (fun ch => ch <| DMA_CHANNEL.PageRegisters := Value &. 0xff |>
                             <| DMA_CHANNEL.HiPageRegisters := 0 |>).
Definition set_hipage (n c Value : Z) : IO unit :=
  upd_chan n c (fun ch => ch <| DMA_CHANNEL.HiPageRegisters := Value &. 0xff |>).

Definition DmaPortIoWriteHandler (Address Value Length : Z) : IO unit :=
  let '(n, c) := decode Address in
  if is_address_port Address then write_address n c Value
  else if is_count_port Address then write_count n c Value
  else if (Address =? 0x08) || (Address =? 0xd0) then
    upd_dma n (fun d => d <| DMA_CONTROLLER.CommandRegister := Value &. 0xff |>) ;;
    DmaControlHoldRequestLine n
  else if (Address =? 0x09) || (Address =? 0xd2) then
    upd_dma n (fun d => d <| DMA_CONTROLLER.StatusRegister ::= (fun v =>
      if Value &? 4 then u8 (v |. bit (c + 4)) else u8 (v &. ~. bit (c + 4))) |>) ;;
    DmaControlHoldRequestLine n
  else if (Address =? 0x0a) || (Address =? 0xd4) then
    set_mask n (Value &. 3) (b2z (0 <? Value &. 4)) ;;
    DmaControlHoldRequestLine n
  else if (Address =? 0x0b) || (Address =? 0xd6) then
    upd_chan n (Value &. 3) (fun ch => ch <| DMA_CHANNEL.ModeRegister := Value &. 0xff |>)
  else if (Address =? 0x0c) || (Address =? 0xd8) then
    upd_dma n (fun d => d <| DMA_CONTROLLER.FlipFlop := 0 |>)
  else if (Address =? 0x0d) || (Address =? 0xda) then done_
  else if (Address =? 0x0e) || (Address =? 0xdc) then
    foreach (seqZ 0 4) (fun i => set_mask n i 0) ;;
    DmaControlHoldRequestLine n
  else if (Address =? 0x0f) || (Address =? 0xde) then
    foreach (seqZ 0 4) (fun i => set_mask n i ((Value >>. 0) &. 1)) ;;
    DmaControlHoldRequestLine n
  else if is_page1_port Address then set_page 0 (nth0 DmaChannelPage (Address - 0x81)) Value
  else if is_page2_port Address then set_page 1 (nth0 DmaChannelPage (Address - 0x89)) Value
  else if is_hipage1_port Address then set_hipage 0 (nth0 DmaChannelHipage (Address - 0x80)) Value
  else if is_hipage2_port Address then set_hipage 1 (nth0 DmaChannelHipage (Address - 0x88)) Value
  else done_.

(** ** Transfers *)

(** The guest address of a channel's next byte or word. *)
Definition channel_address (n : Z) (ch : DMA_CHANNEL.t) : Z :=
  u32 (ch.(DMA_CHANNEL.HiPageRegisters) <<. 24) |. ((ch.(DMA_CHANNEL.PageRegisters) &. ~. n) <<. 16)
  |. (ch.(DMA_CHANNEL.CurrentAddressRegister) <<. n).

Section Transfers.
Context `{!DmaHandlers}.

Definition DmaWriteMemory (Channel GuestPhysicalAddress Length : Z) : IO Z :=
  if 7 <? Channel then mret 0
  else
    let n := DMA_CHANNEL_TO_CONTROLLER Channel in
    let Channel := if 3 <? Channel then Channel &. 3 else Channel in
    ch ← chan n Channel;
    match ch.(DMA_CHANNEL.DmaWriteHandler) with
    | None => mret 0
    | Some h =>
        _ ← dma_transfer h Channel (u64 (channel_address n ch + GuestPhysicalAddress)) Length;
        mret 0
    end.

Definition DmaReadMemory (Channel GuestPhysicalAddress Length : Z) : IO Z :=
  if 7 <? Channel then mret 0
  else
    let n := DMA_CHANNEL_TO_CONTROLLER Channel in
    let Channel := if 3 <? Channel then Channel &. 3 else Channel in
    ch ← chan n Channel;
    match ch.(DMA_CHANNEL.DmaReadHandler) with
    | None => mret 0
    | Some h =>
        _ ← dma_transfer h Channel (u64 (channel_address n ch + GuestPhysicalAddress)) Length;
        mret 0
    end.

(** The length of one acknowledged transfer. *)
Definition transfer_length (n : Z) (ch : DMA_CHANNEL.t) : Z :=
  if ch.(DMA_CHANNEL.ModeRegister) &? DMA_MODE_DECREMENT then
    Z.min 512 ((ch.(DMA_CHANNEL.CurrentCountRegister) + 1) <<. n)
  else 1 <<. n.

Definition set_ack (n i v : Z) : IO unit :=
  upd_dma n (fun d => d <| DMA_CONTROLLER.DmaAck ::= alterZ i (fun _ => v) |>).

(** The transfer of channel [i] of controller [n] and the bookkeeping after it. *)
Definition acknowledge (n i : Z) : IO unit :=
  ch ← chan n i;
  let GuestPa := channel_address n ch in
  let Length := transfer_length n ch in
  Ret ← (if ch.(DMA_CHANNEL.ModeRegister) &? DMA_MODE_WRITE then
           h ← of_option NullCall ch.(DMA_CHANNEL.DmaWriteHandler);
           dma_transfer h i GuestPa Length
         else if ch.(DMA_CHANNEL.ModeRegister) &? DMA_MODE_READ then
           h ← of_option NullCall ch.(DMA_CHANNEL.DmaReadHandler);
           dma_transfer h i GuestPa Length
         else if ch.(DMA_CHANNEL.ModeRegister) &? DMA_MODE_VERIFY then
           h ← of_option NullCall ch.(DMA_CHANNEL.DmaWriteHandler);
           dma_transfer h i GuestPa 1
         else mret 0);
  set_ack n i 1 ;;
  upd_chan n i (fun ch => ch
    <| DMA_CHANNEL.CurrentAddressRegister ::= (fun a =>
         if negb (ch.(DMA_CHANNEL.ModeRegister) &? DMA_MODE_DECREMENT) then u16 (a + Ret)
         else u16 (a - 1)) |>
    <| DMA_CHANNEL.CurrentCountRegister ::= (fun c => u16 (c - Length)) |>) ;;
  ch ← chan n i;
  when (ch.(DMA_CHANNEL.CurrentCountRegister) =? 0xffff) (
    upd_dma n (fun d => d <| DMA_CONTROLLER.StatusRegister ::= (fun v => u8 (v |. bit i)) |>) ;;
    upd_chan n i (fun ch =>
      if negb (ch.(DMA_CHANNEL.ModeRegister) &? DMA_MODE_AUTO_INIT)
      then ch <| DMA_CHANNEL.MaskRegister := 1 |>
      else ch <| DMA_CHANNEL.CurrentAddressRegister := ch.(DMA_CHANNEL.BaseAddressRegister) |>
              <| DMA_CHANNEL.CurrentCountRegister := ch.(DMA_CHANNEL.BaseCountRegister) |>) ;;
    clear_event EVENT_DMA ;;
    set_ack n i 0 ;;
    when (negb (nz n)) (DmaSetHoldRequest 4 0 ;; set_ack 1 i 0)).

Definition DmaRaiseHoldAcknowledge : IO unit :=
  d1 ← dma 1;
  let i := first_request d1 in
  if negb (nz i) then
    set_ack 1 0 1 ;;
    d0 ← dma 0;
    let i := first_request d0 in
    if 3 <? i then done_ else acknowledge 0 i
  else if 3 <? i then done_
  else acknowledge 1 i.
End Transfers.

Definition DmaInitialize : IO unit :=
  modify (fun s => s <| Machine.Dma := replicate 2 DMA_CONTROLLER.zero |>) ;;
  foreach (seqZ 0 0xF) (fun i => RegisterPortIoHandler i (Some cb_Dma) (Some cb_Dma)) ;;
  foreach (seqZ 0x80 16) (fun i => RegisterPortIoHandler i (Some cb_Dma) (Some cb_Dma)) ;;
  foreach (map (fun k => 0xC0 + 2 * k) (seqZ 0 16))
    (fun i => RegisterPortIoHandler i (Some cb_Dma) (Some cb_Dma)).

(** ** Well-formed controllers *)

Record channel_wf (c : DMA_CHANNEL.t) : Prop := {
  wf_current : is_u16 c.(DMA_CHANNEL.CurrentAddressRegister);
  wf_count : is_u16 c.(DMA_CHANNEL.CurrentCountRegister);
  wf_base : is_u16 c.(DMA_CHANNEL.BaseAddressRegister);
  wf_base_count : is_u16 c.(DMA_CHANNEL.BaseCountRegister);
  wf_mode : is_u8 c.(DMA_CHANNEL.ModeRegister);
  wf_cmask : is_u8 c.(DMA_CHANNEL.MaskRegister);
  wf_page : is_u8 c.(DMA_CHANNEL.PageRegisters);
  wf_hipage : is_u8 c.(DMA_CHANNEL.HiPageRegisters)
}.

Record controller_wf (d : DMA_CONTROLLER.t) : Prop := {
  wf_status : is_u8 d.(DMA_CONTROLLER.StatusRegister);
  wf_channels : length d.(DMA_CONTROLLER.Channels) = 4%nat;
  wf_each : Forall channel_wf d.(DMA_CONTROLLER.Channels)
}.

Definition dma_inv (s : Machine.t) : Prop :=
  exists d0 d1, s.(Machine.Dma) = [d0; d1] /\ controller_wf d0 /\ controller_wf d1.

Definition is_dma (n : Z) : Prop := n = 0 \/ n = 1.
Definition is_channel (c : Z) : Prop := 0 <= c < 4.

Definition the_dma (n : Z) (s : Machine.t) : DMA_CONTROLLER.t :=
  default DMA_CONTROLLER.zero (nthZ s.(Machine.Dma) n).
Definition with_dma (n : Z) (d : DMA_CONTROLLER.t) (s : Machine.t) : Machine.t :=
  s <| Machine.Dma ::= (fun l => updZ l n d) |>.

Lemma dma_run n s : is_dma n -> dma_inv s -> dma n s = Ok (the_dma n s) s.
Proof. intros [-> | ->] (d0 & d1 & Hp & _); unfold dma, at_, the_dma; by rewrite Hp. Qed.

Lemma the_dma_wf n s : is_dma n -> dma_inv s -> controller_wf (the_dma n s).
Proof. intros [-> | ->] (d0 & d1 & Hp & H0 & H1); unfold the_dma; by rewrite Hp. Qed.

Lemma upd_dma_run n f s : is_dma n -> dma_inv s ->
  upd_dma n f s = Ok tt (with_dma n (f (the_dma n s)) s).
Proof.
  intros Hn (d0 & d1 & Hp & _). unfold upd_dma, upd_at, the_dma. rewrite Hp.
  by destruct Hn as [-> | ->].
Qed.

Lemma with_dma_inv n d s : is_dma n -> controller_wf d -> dma_inv s -> dma_inv (with_dma n d s).
Proof.
  intros Hn Hd (d0 & d1 & Hp & H0 & H1). unfold dma_inv, with_dma. cbn. rewrite Hp.
  destruct Hn as [-> | ->]; [exists d, d1|exists d0, d]; by split_and!.
Qed.

Lemma the_dma_with n m d s : is_dma n -> is_dma m -> dma_inv s ->
  the_dma m (with_dma n d s) = if m =? n then d else the_dma m s.
Proof.
  intros Hn Hm (d0 & d1 & Hp & _). unfold the_dma, with_dma. cbn. rewrite Hp.
  by destruct Hn as [-> | ->], Hm as [-> | ->].
Qed.

(** [Channels[c]] of [Dma[n]]. *)
Definition the_chan (n c : Z) (s : Machine.t) : DMA_CHANNEL.t :=
  default DMA_CHANNEL.zero (nthZ (the_dma n s).(DMA_CONTROLLER.Channels) c).

Lemma the_chan_lookup n c s : is_dma n -> is_channel c -> dma_inv s ->
  nthZ (the_dma n s).(DMA_CONTROLLER.Channels) c = Some (the_chan n c s) /\ channel_wf (the_chan n c s).
Proof.
  intros Hn Hc Hs. destruct (the_dma_wf n s Hn Hs) as [_ Hl He].
  destruct (nthZ_is_Some (the_dma n s).(DMA_CONTROLLER.Channels) c) as [x Hx];
    [rewrite Hl; unfold is_channel in Hc; lia|].
  unfold the_chan. rewrite Hx. split; [done|]. by eapply (Forall_nthZ channel_wf).
Qed.

Lemma chan_run n c s : is_dma n -> is_channel c -> dma_inv s -> chan n c s = Ok (the_chan n c s) s.
Proof.
  intros Hn Hc Hs. unfold chan. rewrite (run_bind _ _ _ _ _ (dma_run n s Hn Hs)).
  destruct (the_chan_lookup n c s Hn Hc Hs) as [-> _]. done.
Qed.

Definition with_chan (n c : Z) (ch : DMA_CHANNEL.t) (s : Machine.t) : Machine.t :=
  with_dma n (the_dma n s <| DMA_CONTROLLER.Channels ::= (fun l => updZ l c ch) |>) s.

Lemma upd_chan_run n c f s : is_dma n -> is_channel c -> dma_inv s ->
  upd_chan n c f s = Ok tt (with_chan n c (f (the_chan n c s)) s).
Proof.
  intros Hn Hc Hs. unfold upd_chan. rewrite (run_bind _ _ _ _ _ (chan_run n c s Hn Hc Hs)).
  by rewrite upd_dma_run.
Qed.

Lemma with_chan_inv n c ch s : is_dma n -> channel_wf ch -> dma_inv s -> dma_inv (with_chan n c ch s).
Proof.
  intros Hn Hch Hs. apply with_dma_inv; [done| |done]. destruct (the_dma_wf n s Hn Hs) as [H1 H2 H3].
  split; simpl; [done|by rewrite length_updZ|by apply Forall_updZ].
Qed.

(** Steps that keep the controllers well formed. *)
Lemma wp_dma {B} n (k : DMA_CONTROLLER.t -> IO B) Q s : is_dma n -> dma_inv s ->
  wp (k (the_dma n s)) Q s -> wp (dma n ≫= k) Q s.
Proof. intros Hn Hs Hk. eapply wp_run_bind; [by apply dma_run|done]. Qed.

Lemma wp_upd_dma n f s : is_dma n -> dma_inv s ->
  (controller_wf (the_dma n s) -> controller_wf (f (the_dma n s))) ->
  wp (upd_dma n f) (fun _ => dma_inv) s.
Proof.
  intros Hn Hs Hf. unfold wp. rewrite upd_dma_run by done. apply with_dma_inv; auto using the_dma_wf.
Qed.

Lemma wp_upd_chan n c f s : is_dma n -> is_channel c -> dma_inv s ->
  (channel_wf (the_chan n c s) -> channel_wf (f (the_chan n c s))) ->
  wp (upd_chan n c f) (fun _ => dma_inv) s.
Proof.
  intros Hn Hc Hs Hf. unfold wp. rewrite upd_chan_run by done. apply with_chan_inv; [done| |done].
  by apply Hf, the_chan_lookup.
Qed.

Lemma wp_inv_bind {A B} (m : IO A) (k : A -> IO B) Q s :
  wp m (fun _ => dma_inv) s -> (forall a s', dma_inv s' -> wp (k a) Q s') -> wp (m ≫= k) Q s.
Proof. intros Hm Hk. apply wp_bind. eapply wp_mono; [|exact Hm]. auto. Qed.

Ltac dma_wf := let H := fresh in
  intros H; destruct H; split; simpl; rewrite ?length_updZ; auto with width.

(** ** The hold request line *)

(** What [DmaControlHoldRequestLine(1)] does to the rest of the machine. *)
Definition held (v : bool) (s : Machine.t) : Machine.t :=
  s <| Machine.kvm_run ::= (fun r => r <| kvm_run.user_event_pending := b2z v |>) |>
    <| Machine.svmm_events ::= (fun e => u32 (if v then e |. EVENT_DMA else e &. ~. EVENT_DMA)) |>.

Definition line1 (s : Machine.t) : Machine.t :=
  let d := the_dma 1 s in
  if d.(DMA_CONTROLLER.StatusRegister) &? CMD_DISABLE then s
  else if negb (d.(DMA_CONTROLLER.StatusRegister) &? 0xf0) then held false s
  else if first_request d <? 4 then held true s
  else s.

Lemma control1_run r s : dma_inv s -> DmaControlHoldRequestLine_body r 1 s = Ok tt (line1 s).
Proof.
  intros Hs. unfold DmaControlHoldRequestLine_body, line1.
  rewrite (run_bind _ _ _ _ _ (dma_run 1 s ltac:(by right) Hs)). simpl.
  case_if; [done|]. case_if; [done|]. by case_if.
Qed.

Definition set_request (c : Z) (v : bool) (d : DMA_CONTROLLER.t) : DMA_CONTROLLER.t :=
  d <| DMA_CONTROLLER.StatusRegister ::= (fun st => if v then u8 (st |. bit (c + 4)) else u8 (st &. ~. bit (c + 4))) |>.

Lemma set_request_wf c v d : controller_wf d -> controller_wf (set_request c v d).
Proof. unfold set_request. dma_wf. destruct v; auto with width. Qed.

(** A request on one of the controller 1's own channels, [c + 4]. *)
Lemma hold4_run r c Value s : dma_inv s -> is_channel c ->
  DmaSetHoldRequest_body (DmaControlHoldRequestLine_body r) (c + 4) Value s =
  Ok tt (line1 (with_dma 1 (set_request c (nz Value) (the_dma 1 s)) s)).
Proof.
  intros Hs Hc. unfold is_channel in Hc. unfold DmaSetHoldRequest_body, DMA_CHANNEL_TO_CONTROLLER.
  rewrite (proj2 (Z.ltb_ge 7 _)), (proj2 (Z.ltb_ge _ 4)), (proj2 (Z.ltb_lt 3 _)) by lia. cbv zeta.
  replace ((c + 4) &. 3) with c.
  2: { change 3 with (Z.ones 2). rewrite Z.land_ones by lia. change (2 ^ 2) with 4.
       replace (c + 4) with (c + 1 * 4) by lia. rewrite Z.mod_add, Z.mod_small by lia. done. }
  rewrite (run_bind _ _ _ _ _ (upd_dma_run 1 _ s ltac:(by right) Hs)).
  rewrite control1_run.
  - unfold set_request. by destruct (nz Value).
  - apply with_dma_inv; [by right| |done].
    generalize (the_dma_wf 1 s ltac:(by right) Hs). dma_wf. case_if; auto with width.
Qed.

(** What [DmaControlHoldRequestLine(0)] does. *)
Definition line0 (s : Machine.t) : Machine.t :=
  let d := the_dma 0 s in
  let ask v := line1 (with_dma 1 (set_request 0 v (the_dma 1 s)) s) in
  if d.(DMA_CONTROLLER.StatusRegister) &? CMD_DISABLE then s
  else if negb (d.(DMA_CONTROLLER.StatusRegister) &? 0xf0) then ask false
  else if first_request d <? 4 then ask true
  else s.

Lemma control_run n s : is_dma n -> dma_inv s ->
  DmaControlHoldRequestLine n s = Ok tt (if n =? 0 then line0 s else line1 s).
Proof.
  intros Hn Hs. unfold DmaControlHoldRequestLine. cbn [DmaControlHoldRequestLine_rec].
  destruct Hn as [-> | ->]; [|by rewrite control1_run]. simpl.
  unfold DmaControlHoldRequestLine_body at 1, line0.
  rewrite (run_bind _ _ _ _ _ (dma_run 0 s ltac:(by left) Hs)).
  assert (forall v, DmaSetHoldRequest_body (DmaControlHoldRequestLine_body
    (DmaSetHoldRequest_body (fun _ => stop Diverges) 4)) 4 v s =
    Ok tt (line1 (with_dma 1 (set_request 0 (nz v) (the_dma 1 s)) s))) as Hask.
  { intros v. by apply (hold4_run _ 0). }
  case_if; [done|]. case_if; [exact (Hask 0)|]. case_if; [exact (Hask 1)|done].
Qed.

Lemma line1_inv s : dma_inv s -> dma_inv (line1 s).
Proof. intros Hs. unfold line1. by repeat case_if. Qed.
Lemma line0_inv s : dma_inv s -> dma_inv (line0 s).
Proof.
  intros Hs. unfold line0. cbv zeta.
  assert (forall v, dma_inv (line1 (with_dma 1 (set_request 0 v (the_dma 1 s)) s))) as Hask.
  { intros v. apply line1_inv, with_dma_inv; [by right| |done].
    apply set_request_wf, the_dma_wf; [by right|done]. }
  repeat case_if; auto.
Qed.

Lemma wp_control n s : is_dma n -> dma_inv s -> wp (DmaControlHoldRequestLine n) (fun _ => dma_inv) s.
Proof.
  intros Hn Hs. unfold wp. rewrite control_run by done. case_if; auto using line0_inv, line1_inv.
Qed.

(** Setting or dropping a request of any channel ends, in at most one step of
    the cascade, and its effect is that of the two lines: a request of a channel
    of controller 1 is latched and updates the event that makes the hypervisor
    leave the guest; one of controller 0 is latched and forwarded to channel 4. *)
Theorem DmaSetHoldRequest_spec Channel Value s :
  dma_inv s -> 0 <= Channel < 8 ->
  let n := DMA_CHANNEL_TO_CONTROLLER Channel in
  let s1 := with_dma n (set_request (if n =? 0 then Channel else Channel - 4) (nz Value) (the_dma n s)) s in
  DmaSetHoldRequest Channel Value s = Ok tt (if n =? 0 then line0 s1 else line1 s1) /\
  dma_inv (if n =? 0 then line0 s1 else line1 s1).
Proof.
  intros Hs Hc. unfold DMA_CHANNEL_TO_CONTROLLER. unfold DmaSetHoldRequest.
  assert (is_dma 0 /\ is_dma 1) as [H0 H1] by (split; [by left|by right]).
  assert (forall n c, is_dma n -> dma_inv (with_dma n (set_request c (nz Value) (the_dma n s)) s)) as Hinv.
  { intros n c Hn. apply with_dma_inv; [done| |done]. by apply set_request_wf, the_dma_wf. }
  destruct (Z.ltb_spec Channel 4); cbv zeta; simpl.
  - split; [|by apply line0_inv, Hinv]. unfold DmaSetHoldRequest_body, DMA_CHANNEL_TO_CONTROLLER.
    rewrite (proj2 (Z.ltb_ge 7 _)), (proj2 (Z.ltb_lt _ 4)), (proj2 (Z.ltb_ge 3 _)) by lia. cbv zeta.
    rewrite (run_bind _ _ _ _ _ (upd_dma_run 0 _ s H0 Hs)).
    etransitivity; [|exact (control_run 0 _ H0 (Hinv 0 Channel H0))].
    unfold set_request. by destruct (nz Value).
  - split; [|by apply line1_inv, Hinv]. replace Channel with (Channel - 4 + 4) at 1 by lia.
    unfold DmaControlHoldRequestLine. cbn [DmaControlHoldRequestLine_rec].
    apply hold4_run; [done|]. unfold is_channel. lia.
Qed.

(** ** The ports *)

(** The two high-page ports whose channel number is 4. *)
Definition bad_port (a : Z) : bool := (a =? 0x85) || (a =? 0x8d).

Lemma decode_range a : 0 <= a -> is_dma (fst (decode a)) /\ is_channel (snd (decode a)).
Proof.
  intros Ha. unfold decode, is_dma, is_channel. simpl. split; [case_if; auto|].
  change 3 with (Z.ones 2). rewrite Z.land_ones by lia. by apply Z.mod_pos_bound.
Qed.

Lemma low2_channel v : is_channel (v &. 3).
Proof. unfold is_channel. change 3 with (Z.ones 2). rewrite Z.land_ones by lia. by apply Z.mod_pos_bound. Qed.

Lemma low_byte v : is_u8 (v &. 0xff).
Proof. apply land_in_width_r; [lia|]. by split. Qed.

Lemma wp_toggle n s : is_dma n -> dma_inv s -> wp (toggle_flipflop n) (fun _ => dma_inv) s.
Proof. intros. apply wp_upd_dma; [done|done|dma_wf]. Qed.

Lemma base_low_range b v : is_u16 (base_low b v).
Proof. apply u16_range. Qed.
Lemma base_high_range b v : is_u16 (base_high b v).
Proof.
  unfold base_high. apply lor_in_width; [lia| |].
  - pose proof (low_byte v) as [? ?]. rewrite Z.shiftl_mul_pow2 by lia.
    change (2 ^ 8) with 256 in *. split; change (2 ^ 16) with 65536; lia.
  - apply (in_width_le 8); [lia|]. apply low_byte.
Qed.
#[local] Hint Resolve low_byte base_low_range base_high_range : width.

Lemma page_channel base a i : nth0 DmaChannelPage (a - base) = i -> is_channel i.
Proof.
  intros <-. unfold is_channel, nth0, nthZ. destruct (0 <=? a - base); [|simpl; lia].
  destruct (Z.to_nat (a - base)) as [|[|[|[|[|[|[|k]]]]]]]; simpl; lia.
Qed.

Lemma hipage1_channel a : is_hipage1_port a = true -> bad_port a = false ->
  is_channel (nth0 DmaChannelHipage (a - 0x80)).
Proof.
  unfold is_hipage1_port, is_channel. intros H%bool_decide_eq_true_1.
  rewrite !elem_of_cons, elem_of_nil in H. intros Hbad.
  destruct_or! H; subst; done || (vm_compute; by split).
Qed.

Lemma hipage2_channel a : is_hipage2_port a = true -> bad_port a = false ->
  is_channel (nth0 DmaChannelHipage (a - 0x88)).
Proof.
  unfold is_hipage2_port, is_channel. intros H%bool_decide_eq_true_1.
  rewrite !elem_of_cons, elem_of_nil in H. intros Hbad.
  destruct_or! H; subst; done || (vm_compute; by split).
Qed.

Lemma wp_masks n (f : Z -> Z) l s : is_dma n -> Forall is_channel l -> (forall i, is_u8 (f i)) -> dma_inv s ->
  wp (foreach l (fun i => set_mask n i (f i))) (fun _ => dma_inv) s.
Proof.
  intros Hn Hl Hf Hs. apply wp_foreach; [|done]. intros c s' Hin Hs'.
  apply wp_upd_chan; [done| |done|dma_wf]. rewrite Forall_forall in Hl. by apply Hl.
Qed.

(** No write of the guest makes the controllers fail, loop or lose their
    shape, at any port but two: the high-page ports 0x85 and 0x8d name a fifth
    channel, and both handlers then leave the array. *)
Theorem DmaPortIoWriteHandler_safe Address Value Length s :
  dma_inv s -> 0 <= Address ->
  (bad_port Address = false -> wp (DmaPortIoWriteHandler Address Value Length) (fun _ => dma_inv) s) /\
  (bad_port Address = true ->
   DmaPortIoWriteHandler Address Value Length s = Fault OutOfBounds /\
   DmaPortIoReadHandler Address Length s = Fault OutOfBounds).
Proof.
  intros Hs Ha. split.
  - intros Hbad. destruct (decode_range Address Ha) as [Hn Hc].
    unfold DmaPortIoWriteHandler. destruct (decode Address) as [n c]. simpl in Hn, Hc.
    assert (is_dma 0 /\ is_dma 1) as [H0 H1] by (split; [by left|by right]).
    destruct (is_address_port Address).
    { unfold write_address. apply wp_dma; [done|done|]. apply wp_inv_bind; [|intros; by apply wp_toggle].
      case_if; apply wp_upd_chan; try done; dma_wf. }
    destruct (is_count_port Address).
    { unfold write_count. apply wp_dma; [done|done|]. apply wp_inv_bind; [|intros; by apply wp_toggle].
      case_if; apply wp_upd_chan; try done; dma_wf. }
    case_if. { apply wp_inv_bind; [apply wp_upd_dma; [done|done|dma_wf]|intros; by apply wp_control]. }
    case_if. { apply wp_inv_bind; [apply wp_upd_dma; [done|done|dma_wf]|intros; by apply wp_control].
      case_if; auto with width. }
    case_if. { apply wp_inv_bind; [apply wp_upd_chan; [done|apply low2_channel|done|dma_wf]|intros; by apply wp_control].
      unfold b2z. case_if; by split. }
    case_if. { apply wp_upd_chan; [done|apply low2_channel|done|dma_wf]. }
    case_if. { apply wp_upd_dma; [done|done|dma_wf]. }
    case_if; [done|].
    assert (Forall is_channel (seqZ 0 4)) as Hseq by (unfold is_channel; repeat (constructor; [lia|]); constructor).
    case_if. { apply wp_inv_bind; [apply (wp_masks n (fun _ => 0)); [done|done|by split|done]|intros; by apply wp_control]. }
    case_if. { apply wp_inv_bind; [|intros; by apply wp_control].
      apply (wp_masks n (fun _ => (Value >>. 0) &. 1)); [done|done| |done].
      intros _. apply land_in_width_r; [lia|by split]. }
    case_if. { apply wp_upd_chan; [done|by eapply page_channel|done|dma_wf]. }
    case_if. { apply wp_upd_chan; [done|by eapply page_channel|done|dma_wf]. }
    case_if. { apply wp_upd_chan; [done|by apply hipage1_channel|done|dma_wf]. }
    case_if; [|done]. apply wp_upd_chan; [done|by apply hipage2_channel|done|dma_wf].
  - intros Hbad. unfold bad_port in Hbad.
    destruct Hs as (d0 & d1 & Hp & [_ Hl0 _] & [_ Hl1 _]).
    assert (forall d : DMA_CONTROLLER.t, length d.(DMA_CONTROLLER.Channels) = 4%nat ->
      nthZ d.(DMA_CONTROLLER.Channels) 4 = None) as Hout.
    { intros d Hl. destruct (nthZ _ 4) eqn:E; [|done]. apply nthZ_Some in E. rewrite Hl in E. lia. }
    assert (forall B (k : DMA_CHANNEL.t -> IO B), (chan 0 4 ≫= k) s = Fault OutOfBounds /\
      (chan 1 4 ≫= k) s = Fault OutOfBounds) as Hchan.
    { intros B k. unfold chan, dma, at_, mbind, M_bind. rewrite Hp. simpl.
      by rewrite (Hout d0 Hl0), (Hout d1 Hl1). }
    apply orb_true_iff in Hbad as [->%Z.eqb_eq | ->%Z.eqb_eq]; split; apply Hchan.
Qed.

(** ** The address of a transfer, byte by byte *)

(** The address port of channel [c] of controller [n]. *)
Definition address_port (n c : Z) : Z := if n =? 0 then 2 * c else 0xc0 + 4 * c.

Lemma address_port_cases n c v k : is_dma n -> is_channel c ->
  DmaPortIoWriteHandler (address_port n c) v k = write_address n c v /\
  DmaPortIoReadHandler (address_port n c) k =
    (ch ← chan n c; read_word n ch.(DMA_CHANNEL.CurrentAddressRegister)).
Proof.
  intros Hn Hc. unfold is_channel in Hc.
  assert (c = 0 \/ c = 1 \/ c = 2 \/ c = 3) as Hc' by lia. clear Hc.
  by destruct Hn as [-> | ->], Hc' as [-> | [-> | [-> | ->]]].
Qed.

Lemma with_dma_with n d d' s : with_dma n d' (with_dma n d s) = with_dma n d' s.
Proof. unfold with_dma. cbn. by rewrite updZ_updZ. Qed.

(** Channel [c] with another pair of address registers, and the other flip-flop. *)
Definition addressed (c v flip : Z) (d : DMA_CONTROLLER.t) (ch : DMA_CHANNEL.t) : DMA_CONTROLLER.t :=
  d <| DMA_CONTROLLER.Channels ::= (fun l => updZ l c
         (ch <| DMA_CHANNEL.BaseAddressRegister := v |> <| DMA_CHANNEL.CurrentAddressRegister := v |>)) |>
    <| DMA_CONTROLLER.FlipFlop := flip |>.

Lemma toggle_run n s : is_dma n -> dma_inv s ->
  toggle_flipflop n s = Ok tt (with_dma n (the_dma n s <| DMA_CONTROLLER.FlipFlop :=
    b2z (negb (nz (the_dma n s).(DMA_CONTROLLER.FlipFlop))) |>) s).
Proof. intros. unfold toggle_flipflop. by rewrite upd_dma_run. Qed.

Lemma write_address_spec n c v s : is_dma n -> is_channel c -> dma_inv s ->
  let d := the_dma n s in
  let base := (the_chan n c s).(DMA_CHANNEL.BaseAddressRegister) in
  wp (write_address n c v) (fun _ s' => dma_inv s' /\
    (the_dma n s').(DMA_CONTROLLER.FlipFlop) = b2z (negb (nz d.(DMA_CONTROLLER.FlipFlop))) /\
    let base' := if nz d.(DMA_CONTROLLER.FlipFlop) then base_high base v else base_low base v in
    (the_chan n c s').(DMA_CHANNEL.BaseAddressRegister) = base' /\
    (the_chan n c s').(DMA_CHANNEL.CurrentAddressRegister) = base') s.
Proof.
  intros Hn Hc Hs d base. unfold write_address. apply wp_dma; [done|done|]. fold d.
  destruct (the_chan_lookup n c s Hn Hc Hs) as [Hlk Hwf].
  assert (forall f, channel_wf (f (the_chan n c s)) ->
    wp (upd_chan n c f ;; toggle_flipflop n) (fun _ s' => dma_inv s' /\
      (the_dma n s').(DMA_CONTROLLER.FlipFlop) = b2z (negb (nz d.(DMA_CONTROLLER.FlipFlop))) /\
      the_chan n c s' = f (the_chan n c s)) s) as Hstep.
  { intros f Hf. eapply wp_run_bind; [by apply upd_chan_run|].
    assert (dma_inv (with_chan n c (f (the_chan n c s)) s)) as Hs1 by by apply with_chan_inv.
    unfold wp. rewrite toggle_run by done. unfold with_chan. rewrite with_dma_with.
    rewrite the_dma_with, Z.eqb_refl by done. fold d. split; [|split].
    - apply with_dma_inv; [done| |done]. destruct (the_dma_wf n s Hn Hs) as [H1 H2 H3].
      split; simpl; [done|by rewrite length_updZ|by apply Forall_updZ].
    - by rewrite the_dma_with, Z.eqb_refl by done.
    - unfold the_chan at 1. rewrite the_dma_with, Z.eqb_refl by done. cbn.
      by rewrite nthZ_updZ_eq by (by eapply nthZ_Some). }
  destruct Hwf. destruct (nz d.(DMA_CONTROLLER.FlipFlop)); cbn [negb] in *;
    (eapply wp_mono; [|apply Hstep]; [|split; simpl; auto with width]).
  - intros [] s' (H1 & H2 & H3). by rewrite H3.
  - intros [] s' (H1 & H2 & H3). by rewrite H3.
Qed.

Lemma read_word_spec n v s : is_dma n -> dma_inv s ->
  let f := (the_dma n s).(DMA_CONTROLLER.FlipFlop) in
  wp (read_word n v) (fun r s' => dma_inv s' /\
    r = (if nz f then (v >>. 8) &. 0xff else v &. 0xff) /\
    (the_dma n s').(DMA_CONTROLLER.FlipFlop) = b2z (negb (nz f)) /\
    forall c, the_chan n c s' = the_chan n c s) s.
Proof.
  intros Hn Hs f. unfold read_word. apply wp_dma; [done|done|].
  eapply wp_run_bind; [by apply toggle_run|]. split; [|split; [|split]].
  - apply with_dma_inv; [done| |done]. generalize (the_dma_wf n s Hn Hs). dma_wf.
  - unfold f. by destruct (nz _).
  - by rewrite the_dma_with, Z.eqb_refl by done.
  - intros c. unfold the_chan. by rewrite the_dma_with, Z.eqb_refl by done.
Qed.

Lemma word_bytes v : is_u16 v -> (v &. 0xff) + 256 * ((v >>. 8) &. 0xff) = v.
Proof.
  intros Hv. unfold in_width in Hv. change (2 ^ 16) with 65536 in Hv.
  change 0xff with (Z.ones 8). rewrite !Z.land_ones, Z.shiftr_div_pow2 by lia. change (2 ^ 8) with 256.
  rewrite (Z.mod_small (v / 256)) by (Z.to_euclidean_division_equations; lia).
  pose proof (Z.div_mod v 256 ltac:(lia)). lia.
Qed.

Lemma base_bytes b low high : is_u8 low -> is_u8 high ->
  base_high (base_low b low) high = low + 256 * high.
Proof.
  intros Hl Hh. unfold base_high, base_low.
  assert (forall v, is_u8 v -> v &. 0xff = v) as Hbyte.
  { intros v Hv. change 0xff with (Z.ones 8). rewrite Z.land_ones by lia. by apply Z.mod_small. }
  assert (u16 ((low &. 0xff) |. (b <<. 8)) &. 0xff = low) as ->.
  { rewrite (Hbyte low Hl), lor_shiftl_add by (lia || done). change 0xff with (Z.ones 8).
    rewrite Z.land_ones by lia. unfold u16. change (2 ^ 16) with (2 ^ 8 * 2 ^ 8).
    rewrite Z.rem_mul_r, (Z.mul_comm (2 ^ 8) (_ mod _)), Z.mod_add, Z.mod_mod by lia.
    rewrite Z.mod_add by lia. by apply Z.mod_small. }
  rewrite (Hbyte high Hh), Z.lor_comm, lor_shiftl_add by (lia || done).
  change (2 ^ 8) with 256. lia.
Qed.

(** C14 The address of a channel goes through its port byte by byte: with the
    flip-flop clear, writing the low and then the high byte sets the base and the
    current address, and the two reads that follow return those bytes. *)
Theorem address_roundtrip n c low high s :
  is_dma n -> is_channel c -> dma_inv s -> (the_dma n s).(DMA_CONTROLLER.FlipFlop) = 0 ->
  is_u8 low -> is_u8 high ->
  let a := address_port n c in
  wp (DmaPortIoWriteHandler a low 1 ;; DmaPortIoWriteHandler a high 1) (fun _ s1 =>
    (the_chan n c s1).(DMA_CHANNEL.BaseAddressRegister) = low + 256 * high /\
    wp (l ← DmaPortIoReadHandler a 1; h ← DmaPortIoReadHandler a 1; mret (l, h))
       (fun lh _ => lh = (low, high)) s1) s.
Proof.
  intros Hn Hc Hs Hf Hlow Hhigh a.
  destruct (address_port_cases n c low 1 Hn Hc) as [Hw1 Hr].
  destruct (address_port_cases n c high 1 Hn Hc) as [Hw2 _].
  unfold a. rewrite Hw1, Hw2, Hr. clear a Hw1 Hw2 Hr.
  apply wp_bind. eapply wp_mono; [|by apply write_address_spec].
  intros [] s1 (Hs1 & Hf1 & Hb1 & _). rewrite Hf in Hf1, Hb1. change (nz 0) with false in *. simpl in Hb1.
  eapply wp_mono; [|by apply write_address_spec].
  intros [] s2 (Hs2 & Hf2 & Hb2 & Hc2). rewrite Hf1 in Hf2, Hb2, Hc2.
  change (nz (b2z (negb false))) with true in *. cbv iota in Hb2, Hc2.
  rewrite Hb1, base_bytes in Hb2, Hc2 by done. split; [done|].
  set (v := low + 256 * high) in *.
  assert (is_u8 low -> is_u8 high -> v &. 0xff = low /\ (v >>. 8) &. 0xff = high) as Hv.
  { intros [? ?] [? ?]. change (2 ^ 8) with 256 in *. unfold v.
    change 0xff with (Z.ones 8). rewrite !Z.land_ones, Z.shiftr_div_pow2 by lia. change (2 ^ 8) with 256.
    replace (low + 256 * high) with (low + high * 256) by lia.
    rewrite Z.mod_add, Z.div_add, Z.div_small, !Z.mod_small by lia. lia. }
  destruct (Hv Hlow Hhigh) as [Hvl Hvh].
  apply wp_bind. eapply wp_run_bind; [by apply chan_run|]. rewrite Hc2.
  eapply wp_mono; [|by apply read_word_spec]. intros l s3 (Hs3 & -> & Hf3 & Hch3).
  rewrite Hf2 in Hf3 |- *. change (nz (b2z (negb true))) with false in *. cbv iota. rewrite Hvl.
  apply wp_bind. eapply wp_run_bind; [by apply chan_run|]. rewrite Hch3, Hc2.
  eapply wp_mono; [|by apply read_word_spec]. intros h s4 (_ & -> & _).
  rewrite Hf3. change (nz (b2z (negb false))) with true. cbv iota. by rewrite Hvh.
Qed.


Definition mask_of (n c : Z) (s : Machine.t) : Z := (the_chan n c s).(DMA_CHANNEL.MaskRegister).

Lemma set_mask_spec n c v s : is_dma n -> is_channel c -> dma_inv s -> is_u8 v ->
  wp (set_mask n c v) (fun _ s' => dma_inv s' /\
    forall c', is_channel c' -> mask_of n c' s' = if c' =? c then v else mask_of n c' s) s.
Proof.
  intros Hn Hc Hs Hv. unfold wp, set_mask. rewrite upd_chan_run by done.
  destruct (the_chan_lookup n c s Hn Hc Hs) as [Hlk Hwf]. split.
  - apply with_chan_inv; [done| |done]. destruct Hwf; by split.
  - intros c' Hc'. unfold mask_of, the_chan at 1, with_chan.
    rewrite the_dma_with, Z.eqb_refl by done. cbn. destruct (Z.eqb_spec c' c) as [->|Hne].
    + by rewrite nthZ_updZ_eq by (by eapply nthZ_Some).
    + by rewrite nthZ_updZ_ne by done.
Qed.

Lemma set_masks_spec n v l s : is_dma n -> Forall is_channel l -> dma_inv s -> is_u8 v ->
  wp (foreach l (fun i => set_mask n i v)) (fun _ s' => dma_inv s' /\
    forall c, is_channel c -> mask_of n c s' = if decide (c ∈ l) then v else mask_of n c s) s.
Proof.
  intros Hn Hl Hs Hv. revert s Hs. induction Hl as [|c l Hc Hl IH]; intros s Hs; cbn [foreach].
  - split; [done|]. intros c Hc. by rewrite decide_False by apply not_elem_of_nil.
  - apply wp_bind. eapply wp_mono; [|by apply (set_mask_spec n c v)]. intros [] s1 [Hs1 H1].
    eapply wp_mono; [|by apply IH]. intros [] s2 [Hs2 H2]. split; [done|]. intros c' Hc'.
    rewrite H2 by done. destruct (decide (c' ∈ l)).
    + by rewrite decide_True by (by right).
    + rewrite H1 by done. destruct (Z.eqb_spec c' c) as [->|].
      * by rewrite decide_True by left.
      * rewrite decide_False; [done|]. rewrite elem_of_cons. tauto.
Qed.

(** The port that writes the four mask bits at once gives every channel bit 0
    of the value: the bits of the channels cannot be set apart. *)
Theorem write_all_masks Value Length s :
  dma_inv s ->
  wp (DmaPortIoWriteHandler 0xde Value Length) (fun _ s' =>
    forall c, is_channel c -> mask_of 1 c s' = Value &. 1) s.
Proof.
  intros Hs. change (DmaPortIoWriteHandler 0xde Value Length) with
    (foreach (seqZ 0 4) (fun i => set_mask 1 i ((Value >>. 0) &. 1)) ;; DmaControlHoldRequestLine 1).
  rewrite Z.shiftr_0_r. assert (is_dma 1) as H1 by by right.
  apply wp_bind. eapply wp_mono; [|apply set_masks_spec]; [|done| |done|].
  - intros [] s1 [Hs1 Hm]. unfold wp. rewrite control_run by done. simpl. intros c Hc.
    assert (mask_of 1 c (line1 s1) = mask_of 1 c s1) as ->.
    { unfold line1. by repeat case_if. }
    rewrite Hm, decide_True; [done| |done]. apply elem_of_seqZ. unfold is_channel in Hc. lia.
  - unfold is_channel. repeat (constructor; [lia|]). constructor.
  - apply land_in_width_r; [lia|by split].
Qed.

(** ** What the controllers may touch *)

Section DmaSafe.
Context (R : Machine.t -> Machine.t -> Prop) `{!PreOrder R}.
Hypothesis dma_store : forall s g, R s (s <| Machine.Dma ::= g |>).
Hypothesis dma_window : forall s g, R s (s <| Machine.kvm_run ::= (fun r => r <| kvm_run.user_event_pending ::= g |>) |>).
Context `{!Within R (set_event EVENT_DMA)} `{!Within R (clear_event EVENT_DMA)}.

#[local] Instance safe_upd_dma n f : Within R (upd_dma n f).
Proof. apply within_upd_at. intros. apply dma_store. Qed.
#[local] Instance safe_set_user_event v : Within R (set_user_event v).
Proof. apply within_modify. intros. apply (dma_window s (fun _ => v)). Qed.
#[local] Instance safe_chan n c : Within R (chan n c).
Proof. unfold chan, dma. apply _. Qed.
#[local] Instance safe_upd_chan n c f : Within R (upd_chan n c f).
Proof. unfold upd_chan. apply _. Qed.
#[local] Instance safe_control_body f n : (forall v, Within R (f v)) ->
  Within R (DmaControlHoldRequestLine_body f n).
Proof. intros. unfold DmaControlHoldRequestLine_body, dma. apply _. Qed.
#[local] Instance safe_hold_body f c v : (forall n, Within R (f n)) -> Within R (DmaSetHoldRequest_body f c v).
Proof. intros. unfold DmaSetHoldRequest_body. apply _. Qed.
#[local] Instance safe_control n : Within R (DmaControlHoldRequestLine n).
Proof.
  unfold DmaControlHoldRequestLine. generalize 2%nat. intros k. revert n.
  induction k; intros; simpl; apply _.
Qed.
Lemma DmaSetHoldRequest_within c v : Within R (DmaSetHoldRequest c v).
Proof. unfold DmaSetHoldRequest. apply _. Qed.
Lemma DmaPortIoReadHandler_within a n : Within R (DmaPortIoReadHandler a n).
Proof. unfold DmaPortIoReadHandler, read_word, toggle_flipflop, dma. destruct (decode a). apply _. Qed.
Lemma DmaPortIoWriteHandler_within a v n : Within R (DmaPortIoWriteHandler a v n).
Proof.
  unfold DmaPortIoWriteHandler, write_address, write_count, toggle_flipflop, set_mask, set_page, set_hipage, dma.
  destruct (decode a). apply _.
Qed.
End DmaSafe.

(** ** Examples *)

(** Two controllers after a reset, channel 4 cascading. *)
Lemma example_dma_inv : dma_inv Machine.zero.
Proof.
  assert (channel_wf DMA_CHANNEL.zero) as Hch by (split; by split).
  assert (controller_wf DMA_CONTROLLER.zero) as Hd.
  { split; [by split|done|]. by apply Forall_replicate. }
  by exists DMA_CONTROLLER.zero, DMA_CONTROLLER.zero.
Qed.

(** A request of channel 1 reaches the event through channel 4. *)
Lemma DmaSetHoldRequest_spec_witness :
  exists s', DmaSetHoldRequest 1 1 Machine.zero = Ok tt s' /\
    s'.(Machine.kvm_run).(kvm_run.user_event_pending) = 1.
Proof.
  destruct (DmaSetHoldRequest_spec 1 1 Machine.zero example_dma_inv) as [H _].
  - split; [discriminate|reflexivity].
  - eexists. split; [exact H|]. vm_compute. reflexivity.
Defined.

Lemma DmaPortIoWriteHandler_safe_witness :
  wp (DmaPortIoWriteHandler 0x0a 4 1) (fun _ => dma_inv) Machine.zero /\
  DmaPortIoReadHandler 0x85 1 Machine.zero = Fault OutOfBounds.
Proof.
  split.
  - apply DmaPortIoWriteHandler_safe; [exact example_dma_inv|discriminate|reflexivity].
  - apply (DmaPortIoWriteHandler_safe 0x85 0 1); [exact example_dma_inv|discriminate|reflexivity].
Defined.

Lemma address_roundtrip_witness :
  wp (DmaPortIoWriteHandler 4 0x34 1 ;; DmaPortIoWriteHandler 4 0x12 1) (fun _ s1 =>
    (the_chan 0 2 s1).(DMA_CHANNEL.BaseAddressRegister) = 0x1234) Machine.zero.
Proof.
  eapply wp_mono; [|apply (address_roundtrip 0 2 0x34 0x12)].
  - intros [] s1 [H _]. exact H.
  - left. reflexivity.
  - split; [discriminate|reflexivity].
  - exact example_dma_inv.
  - reflexivity.
  - split; [discriminate|reflexivity].
  - split; [discriminate|reflexivity].
Defined.

Lemma write_all_masks_witness :
  wp (DmaPortIoWriteHandler 0xde 0x0e 1) (fun _ s' => mask_of 1 3 s' = 0) Machine.zero.
Proof.
  eapply wp_mono; [|apply (write_all_masks 0x0e 1 Machine.zero example_dma_inv)].
  intros [] s' H. apply (H 3). split; [discriminate|reflexivity].
Defined.
