(* ===== verification/Cmos.v ===== *)
(** cmos.c: the battery-backed memory and its real-time clock.

    The guest reads and writes 128 registers through an index; the first ten and
    the century hold the time of [timeval] in BCD or binary, 12 or 24 hours.  The
    C library's calendar (its time zone included) and the host's clock are the
    interface [Calendar]. *)

From S2P Require Export Pic Timer.

(** cmos.h *)
Definition REG_SEC : Z := 0x00.
Definition REG_SEC_ALARM : Z := 0x01.
Definition REG_MIN : Z := 0x02.
Definition REG_MIN_ALARM : Z := 0x03.
Definition REG_HOUR : Z := 0x04.
Definition REG_HOUR_ALARM : Z := 0x05.
Definition REG_WEEK_DAY : Z := 0x06.
Definition REG_MONTH_DAY : Z := 0x07.
Definition REG_MONTH : Z := 0x08.
Definition REG_YEAR : Z := 0x09.
Definition REG_STAT_A : Z := 0x0a.
Definition REG_STAT_B : Z := 0x0b.
Definition REG_STAT_C : Z := 0x0c.
Definition REG_STAT_D : Z := 0x0d.
Definition REG_DIAGNOSTIC_STATUS : Z := 0x0e.
Definition REG_SHUTDOWN_STATUS : Z := 0x0f.
Definition REG_EQUIPMENT_BYTE : Z := 0x14.
Definition REG_CSUM_HIGH : Z := 0x2e.
Definition REG_CSUM_LOW : Z := 0x2f.
Definition REG_IBM_CENTURY_BYTE : Z := 0x32.
Definition REG_IBM_PS2_CENTURY_BYTE : Z := 0x37.
Definition BASE_MEMORY_IN_K : Z := 640.
Definition RTC_IRQ : Z := 8.

(** The fields of [struct tm] that the file sets or reads. *)
Module tm.
Record t := mk {
  tm_sec : Z;
  tm_min : Z;
  tm_hour : Z;
  tm_mday : Z;
  tm_mon : Z;
  tm_year : Z
}.
End tm.

(** The C library: [localtime], with the day of the week, [mktime], which is
    given the six fields above, and [time(NULL)]. *)
Class Calendar := {
  localtime : Z -> tm.t;
  tm_wday : Z -> Z;
  mktime : tm.t -> Z;
  host_time : Z
}.

Definition bcd_to_bin (value is_binary : Z) : Z :=
  if nz is_binary then value else u8 ((value >>. 4) * 10 + (value &. 0x0f)).

Definition bin_to_bcd (value is_binary : Z) : Z :=
  if nz is_binary then value else u8 (((value / 10) <<. 4) |. (value mod 10)).

Definition upd_cmos (f : CMOS_STATE.t -> CMOS_STATE.t) : IO unit :=
  modify (fun s => s <| Machine.Cmos ::= f |>).
Definition get_cmos : IO CMOS_STATE.t := gets Machine.Cmos.
Definition upd_reg (i : Z) (f : Z -> Z) : IO unit :=
  upd_cmos (fun r => r <| CMOS_STATE.Registers ::= alterZ i f |>).
Definition reg (i : Z) (r : CMOS_STATE.t) : Z := nth0 r.(CMOS_STATE.Registers) i.

Definition CmosSetRegister (Address Value : Z) : IO unit := upd_reg Address (fun _ => Value).
Definition CmosGetRegister (Address : Z) : IO Z := r ← get_cmos; mret (reg Address r).

Section Clock.
Context `{!Calendar}.

(** The hour register in 12-hour mode. *)
Definition hour12 (tm_hour is_binary : Z) : Z :=
  let hour := u8 tm_hour in
  let val_bcd := if 11 <? hour then 0x80 else 0x00 in
  let hour := if 11 <? hour then hour - 12 else hour in
  let hour := if hour =? 0 then 12 else hour in
  val_bcd |. bin_to_bcd hour is_binary.

Definition CmosUpdateClock : IO unit :=
  r ← get_cmos;
  let time_calendar := localtime r.(CMOS_STATE.timeval) in
  let put i v := upd_reg i (fun _ => bin_to_bcd (u8 v) r.(CMOS_STATE.rtc_mode_binary)) in
  put REG_SEC time_calendar.(tm.tm_sec) ;;
  put REG_MIN time_calendar.(tm.tm_min) ;;
  (if nz r.(CMOS_STATE.rtc_mode_12hour)
   then upd_reg REG_HOUR (fun _ => hour12 time_calendar.(tm.tm_hour) r.(CMOS_STATE.rtc_mode_binary))
   else put REG_HOUR time_calendar.(tm.tm_hour)) ;;
  put REG_WEEK_DAY (tm_wday r.(CMOS_STATE.timeval) + 1) ;;
  put REG_MONTH_DAY time_calendar.(tm.tm_mday) ;;
  put REG_MONTH (time_calendar.(tm.tm_mon) + 1) ;;
  put REG_YEAR (Z.rem time_calendar.(tm.tm_year) 100) ;;
  put REG_IBM_CENTURY_BYTE (Z.quot time_calendar.(tm.tm_year) 100 + 19) ;;
  upd_cmos (fun r => r <| CMOS_STATE.Registers ::=
    alterZ REG_IBM_PS2_CENTURY_BYTE (fun _ => reg REG_IBM_CENTURY_BYTE r) |>).

(** The hour that 12-hour registers stand for. *)
Definition bin12 (hour is_binary : Z) : Z :=
  let pm_flag := hour &. 0x80 in
  let val_bin := bcd_to_bin (hour &. 0x70) is_binary in
  if (val_bin <? 12) && (0 <? pm_flag) then val_bin + 12
  else if (val_bin =? 12) && (pm_flag =? 0) then 0
  else val_bin.

(** [tm_year], computed in a BYTE. *)
Definition year_of (century year is_binary : Z) : Z :=
  let val_bin := bcd_to_bin century is_binary in
  let val_bin := u8 ((val_bin - 19) * 100) in
  u8 (val_bin + bcd_to_bin year is_binary).

Definition CmosUpdateTimeval : IO unit :=
  r ← get_cmos;
  let get i := bcd_to_bin (reg i r) r.(CMOS_STATE.rtc_mode_binary) in
  let tm_hour := if nz r.(CMOS_STATE.rtc_mode_12hour)
                 then bin12 (reg REG_HOUR r) r.(CMOS_STATE.rtc_mode_binary)
                 else get REG_HOUR in
  let tm_year := year_of (reg REG_IBM_CENTURY_BYTE r) (reg REG_YEAR r) r.(CMOS_STATE.rtc_mode_binary) in
  upd_cmos (fun r => r <| CMOS_STATE.timeval :=
    mktime (tm.mk (get REG_SEC) (get REG_MIN) tm_hour (get REG_MONTH_DAY) (get REG_MONTH - 1) tm_year) |>).

Section Interrupts.
Context `{!Driver}.

(** Set bits of status register C and raise line 8 if interrupts are enabled. *)
Definition interrupt (bits : Z) : IO unit :=
  upd_reg REG_STAT_C (fun v => u8 (v |. bits)) ;;
  r ← get_cmos;
  when (nz r.(CMOS_STATE.InterruptEnabled)) (PicRaiseIrq RTC_IRQ).

Definition CmosPeriodicTimer : IO unit :=
  r ← get_cmos;
  when (reg REG_STAT_B r &? 0x40) (interrupt 0xc0).

Definition CmosOneSecondTimer : IO unit :=
  r ← get_cmos;
  if (reg REG_STAT_A r &. 0x60) =? 0x60 then done_
  else
    upd_cmos (fun r => r <| CMOS_STATE.timeval ::= (fun t => s64 (t + 1)) |>) ;;
    if reg REG_STAT_B r &? 0x80 then done_
    else
      upd_reg REG_STAT_A (fun v => u8 (v |. 0x80)) ;;
      TimerActivate r.(CMOS_STATE.UipTimerIndex) TICK_PERIOD 0.

(** One clause of the alarm: the register agrees, or is in don't-care mode. *)
Definition alarm_clause (time alarm : Z) (r : CMOS_STATE.t) : bool :=
  if negb ((reg alarm r &. 0xc0) =? 0xc0) then reg time r =? reg alarm r else true.

Definition alarm_match (r : CMOS_STATE.t) : bool :=
  alarm_clause REG_SEC REG_SEC_ALARM r && alarm_clause REG_MIN REG_MIN_ALARM r
  && alarm_clause REG_HOUR REG_HOUR_ALARM r.

Definition CmosUipTimer : IO unit :=
  CmosUpdateClock ;;
  r ← get_cmos;
  when (reg REG_STAT_B r &? 0x10) (interrupt 0x90) ;;
  r ← get_cmos;
  when (reg REG_STAT_B r &? 0x20) (when (alarm_match r) (interrupt 0xa0)) ;;
  upd_reg REG_STAT_A (fun v => v &. 0x7f).

(** ** The ports *)

Definition CmosPortIoReadHandler (Address Length : Z) : IO Z :=
  if (Address =? 0x70) || (Address =? 0x72) then mret 0xff
  else if Address =? 0x71 then
    r ← get_cmos;
    when (r.(CMOS_STATE.CmosAddress) =? REG_STAT_C) (upd_reg REG_STAT_C (fun _ => 0) ;; PicLowerIrq 8) ;;
    r ← get_cmos;
    mret (reg r.(CMOS_STATE.CmosAddress) r)
  else if Address =? 0x73 then r ← get_cmos; mret (reg r.(CMOS_STATE.CmosExtAddress) r)
  else mret 0.

(** The divisor chain is exact in floating point: 32768 is a power of two. *)
Definition interval_usec (nibble : Z) : Z := 1000000 * bit (nibble - 1) / 32768.

Definition CraChange : IO unit :=
  r ← get_cmos;
  let nibble := reg REG_STAT_A r &. 0x0f in
  let dcc := (reg REG_STAT_A r >>. 4) &. 0x07 in
  if (nibble =? 0) || ((dcc &. 0x06) =? 0) then
    TimerDeactivate r.(CMOS_STATE.PeriodicTimerIndex) ;;
    upd_cmos (fun r => r <| CMOS_STATE.PeriodicIntervalUsec := u32 (-1) |>)
  else
    let nibble := if nibble <=? 2 then nibble + 7 else nibble in
    upd_cmos (fun r => r <| CMOS_STATE.PeriodicIntervalUsec := u32 (interval_usec nibble * TICK_PERIOD) |>) ;;
    r ← get_cmos;
    if reg REG_STAT_B r &? 0x40
    then TimerActivate r.(CMOS_STATE.PeriodicTimerIndex) r.(CMOS_STATE.PeriodicIntervalUsec) 0
    else TimerDeactivate r.(CMOS_STATE.PeriodicTimerIndex).

Definition is_time_register (a : Z) : bool :=
  bool_decide (a ∈ [REG_SEC; REG_MIN; REG_HOUR; REG_WEEK_DAY; REG_MONTH_DAY; REG_MONTH; REG_YEAR;
                    REG_IBM_CENTURY_BYTE; REG_IBM_PS2_CENTURY_BYTE]).

Definition write_time (a Value : Z) : IO unit :=
  upd_reg a (fun _ => u8 Value) ;;
  when (a =? REG_IBM_PS2_CENTURY_BYTE) (upd_reg REG_IBM_CENTURY_BYTE (fun _ => u8 Value)) ;;
  r ← get_cmos;
  if reg REG_STAT_B r &? 0x80 then upd_cmos (fun r => r <| CMOS_STATE.timeval_change := 1 |>)
  else CmosUpdateTimeval.

Definition write_stat_b (Value : Z) : IO unit :=
  let Value := Value &. 0xf7 in
  let Value := if Value &? 0x80 then Value &. 0xef else Value in
  r ← get_cmos;
  let prev_CRB := reg REG_STAT_B r in
  upd_reg REG_STAT_B (fun _ => Value) ;;
  when (negb ((prev_CRB &. 0x02) =? (Value &. 0x02))) (
    upd_cmos (fun r => r <| CMOS_STATE.rtc_mode_12hour := b2z ((Value &. 0x02) =? 0) |>) ;;
    CmosUpdateClock) ;;
  when (negb ((prev_CRB &. 0x04) =? (Value &. 0x04))) (
    upd_cmos (fun r => r <| CMOS_STATE.rtc_mode_binary := b2z (negb ((Value &. 0x04) =? 0)) |>) ;;
    CmosUpdateClock) ;;
  when (negb ((prev_CRB &. 0x40) =? (Value &. 0x40))) (
    r ← get_cmos;
    if prev_CRB &? 0x40 then TimerDeactivate r.(CMOS_STATE.PeriodicTimerIndex)
    else when (negb ((reg REG_STAT_A r &. 0x0f) =? 0))
           (TimerActivate r.(CMOS_STATE.PeriodicTimerIndex) r.(CMOS_STATE.PeriodicIntervalUsec) 0)) ;;
  r ← get_cmos;
  when ((0x80 <=? prev_CRB) && (Value <? 0x80) && nz r.(CMOS_STATE.timeval_change)) (
    CmosUpdateTimeval ;;
    upd_cmos (fun r => r <| CMOS_STATE.timeval_change := 0 |>)).

Definition write_register (a Value : Z) : IO unit :=
  if (a =? REG_SEC_ALARM) || (a =? REG_MIN_ALARM) || (a =? REG_HOUR_ALARM) then
    upd_reg a (fun _ => u8 Value)
  else if is_time_register a then write_time a Value
  else if a =? REG_STAT_A then
    upd_reg REG_STAT_A (fun v => (v &. 0x80) |. (Value &. 0x7f)) ;;
    CraChange
  else if a =? REG_STAT_B then write_stat_b Value
  else if a =? REG_DIAGNOSTIC_STATUS then upd_reg REG_DIAGNOSTIC_STATUS (fun _ => u8 Value)
  else if a =? REG_SHUTDOWN_STATUS then upd_reg REG_SHUTDOWN_STATUS (fun _ => u8 Value)
  else done_.

Definition CmosPortIoWriteHandler (Address Value Length : Z) : IO unit :=
  if Address =? 0x70 then upd_cmos (fun r => r <| CMOS_STATE.CmosAddress := Value &. 0x7f |>)
  else if Address =? 0x71 then
    r ← get_cmos;
    write_register r.(CMOS_STATE.CmosAddress) Value
  else if Address =? 0x72 then
    upd_cmos (fun r => r <| CMOS_STATE.CmosExtAddress := u8 (Value |. 0x80) |>)
  else done_.
End Interrupts.

(** ** Set-up *)

(** [sum += Registers[i]] on a WORD, for [i] from 0x10 to 0x2d. *)
Definition checksum (r : CMOS_STATE.t) : Z :=
  fold_left (fun sum i => u16 (sum + reg i r)) (seqZ 0x10 30) 0.

Definition CmosCheckSum : IO unit :=
  r ← get_cmos;
  let sum := checksum r in
  upd_reg REG_CSUM_HIGH (fun _ => (sum >>. 8) &. 0xff) ;;
  upd_reg REG_CSUM_LOW (fun _ => sum &. 0xff).

Definition CmosSetupMemory (MemorySize : Z) : IO unit :=
  let memory_in_k := MemorySize / 1024 in
  let extended_memory_in_k := if 1024 <? memory_in_k then memory_in_k - 1024 else 0 in
  let extended_memory_in_k := if 0xfc00 <? extended_memory_in_k then 0xfc00 else extended_memory_in_k in
  CmosSetRegister 0x15 (u8 BASE_MEMORY_IN_K) ;;
  CmosSetRegister 0x16 (u8 (BASE_MEMORY_IN_K >>. 8)) ;;
  CmosSetRegister 0x17 (extended_memory_in_k &. 0xff) ;;
  CmosSetRegister 0x18 ((extended_memory_in_k >>. 8) &. 0xff) ;;
  CmosSetRegister 0x30 (extended_memory_in_k &. 0xff) ;;
  CmosSetRegister 0x31 ((extended_memory_in_k >>. 8) &. 0xff) ;;
  let extended_memory_in_64k := if 16384 <? memory_in_k then (memory_in_k - 16384) / 64 else 0 in
  let extended_memory_in_64k :=
    if 0xbf00 <? extended_memory_in_64k then 0xbf00 else extended_memory_in_64k in
  CmosSetRegister 0x34 (extended_memory_in_64k &. 0xff) ;;
  CmosSetRegister 0x35 ((extended_memory_in_64k >>. 8) &. 0xff) ;;
  let memory_above_4gb := if 0x100000000 <? MemorySize then MemorySize - 0x100000000 else 0 in
  when (nz memory_above_4gb) (
    CmosSetRegister 0x5b (u8 (memory_above_4gb >>. 16)) ;;
    CmosSetRegister 0x5c (u8 (memory_above_4gb >>. 24)) ;;
    CmosSetRegister 0x5d (u8 memory_above_4gb >>. 32)) ;;
  CmosCheckSum.

Definition CmosSetInterrupt (Enable : Z) : IO unit :=
  upd_cmos (fun r => r <| CMOS_STATE.InterruptEnabled := Enable |>).

Definition CmosInitialize : IO unit :=
  upd_cmos (fun r => CMOS_STATE.zero
    <| CMOS_STATE.PeriodicTimerIndex := r.(CMOS_STATE.PeriodicTimerIndex) |>
    <| CMOS_STATE.UipTimerIndex := r.(CMOS_STATE.UipTimerIndex) |>
    <| CMOS_STATE.OneSecondTimerIndex := r.(CMOS_STATE.OneSecondTimerIndex) |>) ;;
  foreach (seqZ 0x70 2) (fun i => RegisterPortIoHandler i (Some cb_Cmos) (Some cb_Cmos)) ;;
  Id ← TimerRegister TICK_PERIOD fn_CmosUipTimer 0;
  upd_cmos (fun r => r <| CMOS_STATE.UipTimerIndex := Id |>) ;;
  TimerDeactivate Id ;;
  upd_reg REG_STAT_A (fun _ => 0x26) ;;
  upd_reg REG_STAT_B (fun _ => 0x02) ;;
  upd_reg REG_STAT_C (fun _ => 0x00) ;;
  upd_reg REG_STAT_D (fun _ => 0x80) ;;
  upd_reg REG_EQUIPMENT_BYTE (fun v => u8 (v |. 0x02)) ;;
  upd_cmos (fun r => r <| CMOS_STATE.rtc_mode_12hour := 0 |> <| CMOS_STATE.rtc_mode_binary := 0 |>
                       <| CMOS_STATE.timeval := host_time |>) ;;
  CmosUpdateClock ;;
  upd_cmos (fun r => r <| CMOS_STATE.InterruptEnabled := 1 |>).
End Clock.

#[local] Arguments nth0 : simpl never.
#[local] Arguments alterZ : simpl never.

(** ** Digits *)

Lemma bin_to_bcd_small v b : 0 <= v < 100 ->
  bin_to_bcd v b = if nz b then v else v / 10 * 16 + v mod 10.
Proof.
  intros Hv. unfold bin_to_bcd. case_if; [done|].
  pose proof (Z.mod_pos_bound v 10 ltac:(lia)) as Hm.
  assert (0 <= v / 10 < 10) as Hq by (split; [apply Z.div_pos; lia|apply Z.div_lt_upper_bound; lia]).
  rewrite Z.lor_comm, lor_shiftl_add by (lia || (split; change (2 ^ 4) with 16; lia)).
  change (2 ^ 4) with 16. rewrite u8_small; [lia|]. split; change (2 ^ 8) with 256; lia.
Qed.

(** A register shows a number below 100 and gives it back. *)
Lemma bcd_roundtrip v b : 0 <= v < 100 -> bcd_to_bin (bin_to_bcd v b) b = v.
Proof.
  intros Hv. rewrite bin_to_bcd_small by done. unfold bcd_to_bin. case_if; [done|].
  pose proof (Z.mod_pos_bound v 10 ltac:(lia)) as Hm. pose proof (Z.div_mod v 10 ltac:(lia)) as Hd.
  set (q := v / 10) in *. set (m := v mod 10) in *.
  assert ((q * 16 + m) >>. 4 = q) as ->.
  { rewrite Z.shiftr_div_pow2 by lia. change (2 ^ 4) with 16. rewrite Z.div_add_l, Z.div_small by lia. lia. }
  assert ((q * 16 + m) &. 0x0f = m) as ->.
  { change 0x0f with (Z.ones 4). rewrite Z.land_ones by lia. change (2 ^ 4) with 16.
    replace (q * 16 + m) with (m + q * 16) by lia. rewrite Z.mod_add, Z.mod_small by lia. done. }
  rewrite u8_small by (split; change (2 ^ 8) with 256; lia). lia.
Qed.

(** ** The clock *)

Section ClockProofs.
Context `{!Calendar}.

(** The registers that [CmosUpdateClock] writes. *)
Definition clock_regs (r : CMOS_STATE.t) : list Z :=
  let c := localtime r.(CMOS_STATE.timeval) in
  let b := r.(CMOS_STATE.rtc_mode_binary) in
  let put i v := alterZ i (fun _ => v) in
  let l := r.(CMOS_STATE.Registers) in
  let l := put REG_SEC (bin_to_bcd (u8 c.(tm.tm_sec)) b) l in
  let l := put REG_MIN (bin_to_bcd (u8 c.(tm.tm_min)) b) l in
  let l := put REG_HOUR (if nz r.(CMOS_STATE.rtc_mode_12hour) then hour12 c.(tm.tm_hour) b
                         else bin_to_bcd (u8 c.(tm.tm_hour)) b) l in
  let l := put REG_WEEK_DAY (bin_to_bcd (u8 (tm_wday r.(CMOS_STATE.timeval) + 1)) b) l in
  let l := put REG_MONTH_DAY (bin_to_bcd (u8 c.(tm.tm_mday)) b) l in
  let l := put REG_MONTH (bin_to_bcd (u8 (c.(tm.tm_mon) + 1)) b) l in
  let l := put REG_YEAR (bin_to_bcd (u8 (Z.rem c.(tm.tm_year) 100)) b) l in
  let l := put REG_IBM_CENTURY_BYTE (bin_to_bcd (u8 (Z.quot c.(tm.tm_year) 100 + 19)) b) l in
  put REG_IBM_PS2_CENTURY_BYTE (nth0 l REG_IBM_CENTURY_BYTE) l.

Lemma CmosUpdateClock_run s :
  CmosUpdateClock s = Ok tt (s <| Machine.Cmos ::= (fun r => r <| CMOS_STATE.Registers := clock_regs s.(Machine.Cmos) |>) |>).
Proof.
  unfold CmosUpdateClock, clock_regs, get_cmos, upd_reg, upd_cmos. mred.
  by destruct (nz (CMOS_STATE.rtc_mode_12hour (Machine.Cmos s))).
Qed.

(** What the calendar promises about a time: its fields are in range, and
    [mktime] inverts [localtime]. *)
Record calendar_time (t : Z) : Prop := {
  cal_sec : 0 <= (localtime t).(tm.tm_sec) <= 60;
  cal_min : 0 <= (localtime t).(tm.tm_min) < 60;
  cal_hour : 0 <= (localtime t).(tm.tm_hour) < 24;
  cal_mday : 1 <= (localtime t).(tm.tm_mday) <= 31;
  cal_mon : 0 <= (localtime t).(tm.tm_mon) < 12;
  cal_inverse : mktime (localtime t) = t
}.

Ltac regs Hl := unfold reg, clock_regs; cbn;
  repeat first [ rewrite nth0_alterZ_eq by (rewrite ?length_alterZ, ?Hl; done)
               | rewrite nth0_alterZ_ne by done ].


(** In 12-hour BCD mode it is not so: the reader keeps only the tens digit of
    the hour, and of the 24 hours only 10 and 22 survive. *)
Theorem hour12_loses_digit h : 0 <= h < 24 ->
  bin12 (hour12 h 0) 0 = h <-> h = 10 \/ h = 22.
Proof.
  intros Hh.
  assert (forallb (fun h => Bool.eqb (bin12 (hour12 h 0) 0 =? h) ((h =? 10) || (h =? 22))) (seqZ 0 24) = true)
    as Hall by by vm_compute.
  rewrite forallb_forall in Hall. assert (In h (seqZ 0 24)) as Hin by (apply list_elem_of_In, elem_of_seqZ; lia).
  specialize (Hall h Hin). apply Bool.eqb_prop in Hall.
  rewrite <- Z.eqb_eq, Hall, orb_true_iff, !Z.eqb_eq. done.
Qed.
End ClockProofs.

(** ** Memory size and checksum *)

Section Memory.
Context `{!Driver}.

Definition regs_wf (s : Machine.t) : Prop :=
  length s.(Machine.Cmos).(CMOS_STATE.Registers) = 256%nat /\
  Forall is_u8 s.(Machine.Cmos).(CMOS_STATE.Registers).

Definition word_at (low high : Z) (s : Machine.t) : Z :=
  reg low s.(Machine.Cmos) + 256 * reg high s.(Machine.Cmos).

Lemma checksum_sum r : Forall is_u8 r.(CMOS_STATE.Registers) ->
  checksum r = fold_left (fun sum i => sum + reg i r) (seqZ 0x10 30) 0.
Proof.
  intros Hr. unfold checksum.
  assert (forall l sum, 0 <= sum -> sum + 255 * Z.of_nat (length l) < 65536 ->
    fold_left (fun sum i => u16 (sum + reg i r)) l sum = fold_left (fun sum i => sum + reg i r) l sum) as Hf.
  { induction l as [|i l IH]; intros sum H0 Hlt; simpl; [done|]. simpl in Hlt.
    pose proof (Forall_nth0 8 r.(CMOS_STATE.Registers) i ltac:(lia) Hr) as [? ?].
    change (2 ^ 8) with 256 in *. fold (reg i r) in *.
    rewrite u16_small by (split; change (2 ^ 16) with 65536; lia). apply IH; lia. }
  apply Hf; [lia|]. simpl. lia.
Qed.

Lemma split_word v : is_u16 v -> (v &. 0xff) + 256 * ((v >>. 8) &. 0xff) = v.
Proof.
  intros Hv. unfold in_width in Hv. change (2 ^ 16) with 65536 in Hv.
  change 0xff with (Z.ones 8). rewrite !Z.land_ones, Z.shiftr_div_pow2 by lia. change (2 ^ 8) with 256.
  rewrite (Z.mod_small (v / 256)) by (split; [apply Z.div_pos; lia|apply Z.div_lt_upper_bound; lia]).
  pose proof (Z.div_mod v 256 ltac:(lia)). lia.
Qed.

Lemma checksum_range r : is_u16 (checksum r).
Proof.
  unfold checksum. change (seqZ 0x10 30) with (seqZ 0x10 29 ++ [45]). rewrite fold_left_app.
  apply u16_range.
Qed.

(** After [CmosCheckSum] the two checksum registers hold the sum of the
    registers 0x10 to 0x2d, which does not overflow, and no other register has
    changed. *)
Theorem CmosCheckSum_spec s :
  regs_wf s ->
  wp CmosCheckSum (fun _ s' =>
    word_at REG_CSUM_LOW REG_CSUM_HIGH s' =
      fold_left (fun sum i => sum + reg i s.(Machine.Cmos)) (seqZ 0x10 30) 0 /\
    forall i, i <> REG_CSUM_LOW -> i <> REG_CSUM_HIGH ->
      reg i s'.(Machine.Cmos) = reg i s.(Machine.Cmos)) s.
Proof.
  intros [Hl Hr]. unfold CmosCheckSum, get_cmos, upd_reg, upd_cmos.
  apply wp_gets_bind, wp_modify_bind, wp_modify. unfold word_at, reg. cbn.
  rewrite nth0_alterZ_eq by (rewrite length_alterZ, Hl; done).
  rewrite nth0_alterZ_ne by done. rewrite nth0_alterZ_eq by (rewrite Hl; done). split.
  - rewrite split_word by apply checksum_range. by apply checksum_sum.
  - intros i H1 H2. rewrite !nth0_alterZ_ne by congruence. done.
Qed.

Lemma CmosCheckSum_keeps s :
  wp CmosCheckSum (fun _ s' => forall i, i <> REG_CSUM_LOW -> i <> REG_CSUM_HIGH ->
    reg i s'.(Machine.Cmos) = reg i s.(Machine.Cmos)) s.
Proof.
  unfold CmosCheckSum, get_cmos, upd_reg, upd_cmos.
  apply wp_gets_bind, wp_modify_bind, wp_modify. intros i H1 H2. unfold reg. cbn.
  by rewrite !nth0_alterZ_ne by congruence.
Qed.

Ltac setup_regs Hl := repeat first
  [ rewrite nth0_alterZ_eq by (rewrite ?length_alterZ, ?Hl; done)
  | rewrite nth0_alterZ_ne by done ].

Lemma capped a b : (if a <? b then a else b) = Z.min b a.
Proof. destruct (Z.ltb_spec a b); lia. Qed.

Lemma monus a b : (if a <? b then b - a else 0) = Z.max 0 (b - a).
Proof. destruct (Z.ltb_spec a b); lia. Qed.

(** [CmosSetupMemory] tells the guest its memory in the standard registers:
    the KB above 1 MB, at most 63 MB, and the 64 KB blocks above 16 MB, at most
    0xbf00; of what lies above 4 GB the register for the bits 32 to 39 is always
    0, so that memory is told modulo 4 GB. *)
Theorem CmosSetupMemory_spec MemorySize s :
  regs_wf s -> 0 <= MemorySize < 2 ^ 64 ->
  wp (CmosSetupMemory MemorySize) (fun _ s' =>
    word_at 0x17 0x18 s' = Z.min (Z.max 0 (MemorySize / 1024 - 1024)) 0xfc00 /\
    word_at 0x30 0x31 s' = word_at 0x17 0x18 s' /\
    word_at 0x34 0x35 s' = Z.min (Z.max 0 (MemorySize / 1024 - 16384) / 64) 0xbf00 /\
    let above := Z.max 0 (MemorySize - 2 ^ 32) in
    (0 < above -> word_at 0x5b 0x5c s' = above / 2 ^ 16 mod 2 ^ 16 /\ reg 0x5d s'.(Machine.Cmos) = 0)) s.
Proof.
  intros [Hl Hr] Hm. unfold CmosSetupMemory.
  set (k := MemorySize / 1024). rewrite !monus, !capped.
  assert ((if 16384 <? k then (k - 16384) / 64 else 0) = Z.max 0 (k - 16384) / 64) as ->.
  { destruct (Z.ltb_spec 16384 k); [by rewrite Z.max_r by lia|by rewrite Z.max_l by lia]. }
  set (e := Z.min (Z.max 0 (k - 1024)) 0xfc00).
  set (e64 := Z.min (Z.max 0 (k - 16384) / 64) 0xbf00).
  assert (is_u16 e) as He by (split; change (2 ^ 16) with 65536; lia).
  assert (is_u16 e64) as He64.
  { unfold e64. pose proof (Z.div_pos (Z.max 0 (k - 16384)) 64 ltac:(lia) ltac:(lia)).
    split; change (2 ^ 16) with 65536; lia. }
  change 0x100000000 with (2 ^ 32). set (above := Z.max 0 (MemorySize - 2 ^ 32)).
  assert (0 <= above < 2 ^ 64) as Hab by lia.
  assert (forall v, 0 <= v -> u8 v = v &. 0xff) as Hu8.
  { intros v Hv. change 0xff with (Z.ones 8). by rewrite Z.land_ones by lia. }
  assert (forall v, is_u8 v -> v >>. 32 = 0) as Hhigh.
  { intros v Hv. rewrite Z.shiftr_div_pow2 by lia. apply Z.div_small. destruct Hv. split; [done|].
    eapply Z.lt_trans; [done|]. reflexivity. }
  unfold CmosSetRegister, upd_reg, upd_cmos. do 8 apply wp_modify_bind.
  destruct (nz above) eqn:Enz; cbn [when].
  - apply wp_bind. do 2 apply wp_modify_bind. apply wp_modify.
    eapply wp_mono; [|apply CmosCheckSum_keeps]. intros [] s' Hk. unfold word_at.
    rewrite !Hk by done. unfold reg. cbn. setup_regs Hl.
    rewrite (Hhigh _ (u8_range _)), !split_word by done.
    split; [done|]. split; [done|]. split; [done|]. intros _. split; [|done].
    rewrite !Z.shiftr_div_pow2 by lia. unfold u8. change (2 ^ 24) with (2 ^ 16 * 2 ^ 8).
    rewrite <- Z.div_div by lia. change (2 ^ 16) with (2 ^ 8 * 2 ^ 8) at 4.
    rewrite Z.rem_mul_r by lia. done.
  - apply wp_done_bind. eapply wp_mono; [|apply CmosCheckSum_keeps]. intros [] s' Hk. unfold word_at.
    rewrite !Hk by done. unfold reg. cbn. setup_regs Hl. rewrite !split_word by done.
    split; [done|]. split; [done|]. split; [done|]. intros Hpos. exfalso.
    unfold nz in Enz. apply negb_false_iff, Z.eqb_eq in Enz. lia.
Qed.

Lemma IoApicLowerIrq_total n s : 0 <= n -> ioapic_inv s -> exists s', IoApicLowerIrq n s = Ok tt s'.
Proof.
  intros Hn (Hl & _). unfold IoApicLowerIrq. pose proof (pin_of_nonneg n Hn).
  destruct (Z.leb_spec IOAPIC_NUM_PINS (pin_of n)); [by eexists|]. unfold IOAPIC_NUM_PINS in *.
  destruct (nthZ_is_Some (rtes s) (pin_of n)) as [e He]; [rewrite Hl; lia|].
  unfold at_, mbind, M_bind. rewrite He. unfold when. case_if; by eexists.
Qed.

Lemma PicLowerIrq_slave n s : 8 <= n -> ioapic_inv s -> exists s', PicLowerIrq n s = Ok tt s'.
Proof.
  intros Hn Hs. destruct (IoApicLowerIrq_total n s ltac:(lia) Hs) as [s' Hs']. exists s'.
  unfold PicLowerIrq. rewrite (proj2 (Z.eqb_neq n 2)), (proj2 (Z.ltb_lt 7 n)) by lia.
  by rewrite (run_bind _ _ _ _ _ Hs').
Qed.

(** Reading status register C through port 0x71 clears it before it is read:
    the guest always reads 0, and never learns why it was interrupted. *)
Theorem status_c_reads_zero s Length :
  length s.(Machine.Cmos).(CMOS_STATE.Registers) = 256%nat -> ioapic_inv s ->
  s.(Machine.Cmos).(CMOS_STATE.CmosAddress) = REG_STAT_C ->
  wp (CmosPortIoReadHandler 0x71 Length) (fun v s' => v = 0 /\ reg REG_STAT_C s'.(Machine.Cmos) = 0) s.
Proof.
  intros Hl Hio Ha. unfold CmosPortIoReadHandler. cbn [Z.eqb Pos.eqb orb].
  apply wp_gets_bind. rewrite Ha. cbn [Z.eqb Pos.eqb REG_STAT_C when].
  apply wp_bind, wp_modify_bind. set (s1 := upd_field _ _ s).
  destruct (PicLowerIrq_slave 8 s1 ltac:(lia) Hio) as [s2 Hs2].
  pose proof (within_run (keeps Machine.Cmos) (PicLowerIrq 8) s1 tt s2 Hs2) as Hk. unfold keeps in Hk.
  unfold wp at 1. rewrite Hs2. apply wp_gets_bind, wp_ret. rewrite Hk. unfold s1. cbn. rewrite Ha.
  unfold reg. cbn. by rewrite nth0_alterZ_eq by (by rewrite Hl).
Qed.
End Memory.

(** ** What the clock may touch *)

Section CmosSafe.
Context `{!Driver} `{!Calendar} (R : Machine.t -> Machine.t -> Prop) `{!IrqSafe R} `{!TimerSafe R}.
Hypothesis cmos_store : forall s g, R s (s <| Machine.Cmos ::= g |>).

#[local] Instance safe_upd_cmos f : Within R (upd_cmos f).
Proof. apply within_modify. intros. apply cmos_store. Qed.
#[local] Instance safe_upd_reg i f : Within R (upd_reg i f).
Proof. unfold upd_reg. apply _. Qed.
#[local] Instance safe_update_clock : Within R CmosUpdateClock.
Proof. unfold CmosUpdateClock, get_cmos. apply _. Qed.
#[local] Instance safe_interrupt b : Within R (interrupt b).
Proof. unfold interrupt, get_cmos. apply _. Qed.

Lemma CmosUipTimer_within : Within R CmosUipTimer.
Proof. unfold CmosUipTimer, get_cmos. apply _. Qed.
Lemma CmosPortIoReadHandler_within a n : Within R (CmosPortIoReadHandler a n).
Proof. unfold CmosPortIoReadHandler, get_cmos. apply _. Qed.
Lemma CmosPortIoWriteHandler_within a v n : Within R (CmosPortIoWriteHandler a v n).
Proof.
  assert (Within R CmosUpdateTimeval) by (unfold CmosUpdateTimeval, get_cmos; apply _).
  assert (Within R CraChange) by (unfold CraChange, get_cmos; apply _).
  assert (forall v, Within R (write_stat_b v)) by (intros; unfold write_stat_b, get_cmos; apply _).
  unfold CmosPortIoWriteHandler, write_register, write_time, get_cmos. apply _.
Qed.
End CmosSafe.

(** ** Examples *)

(** A calendar whose days are the first of January. *)
Definition example_calendar : Calendar := {|
  localtime := fun t => tm.mk (t mod 60) (t / 60 mod 60) (t / 3600 mod 24) 1 0 (70 + t / 86400);
  tm_wday := fun _ => 0;
  mktime := fun c => c.(tm.tm_sec) + 60 * c.(tm.tm_min) + 3600 * c.(tm.tm_hour) + 86400 * (c.(tm.tm_year) - 70);
  host_time := 45296
|}.

(** 12:34:56. *)
Definition example_cmos : Machine.t :=
  Machine.zero <| Machine.Cmos ::= (fun r => r <| CMOS_STATE.timeval := 45296 |>) |>.


Lemma hour12_loses_digit_witness : bin12 (hour12 9 0) 0 <> 9.
Proof.
  intros H. apply (hour12_loses_digit 9) in H; [|split; discriminate || reflexivity].
  destruct H; discriminate.
Defined.

Lemma zero_regs_wf : regs_wf Machine.zero.
Proof. split; [reflexivity|]. apply Forall_replicate. by split. Qed.

(** 6 GB: 0xbf00 blocks above 16 MB and 2 GB above 4 GB. *)
Lemma CmosSetupMemory_spec_witness :
  wp (CmosSetupMemory (6 * 2 ^ 30)) (fun _ s' => word_at 0x34 0x35 s' = 0xbf00) Machine.zero.
Proof.
  eapply wp_mono; [|apply (CmosSetupMemory_spec (6 * 2 ^ 30) Machine.zero zero_regs_wf)].
  - intros [] s' (_ & _ & H & _). exact H.
  - split; [discriminate|reflexivity].
Defined.

Lemma CmosCheckSum_spec_witness :
  wp CmosCheckSum (fun _ s' => word_at REG_CSUM_LOW REG_CSUM_HIGH s' = 0) Machine.zero.
Proof.
  eapply wp_mono; [|apply (CmosCheckSum_spec Machine.zero zero_regs_wf)].
  intros [] s' [H _]. exact H.
Defined.

Lemma zero_ioapic_inv : ioapic_inv Machine.zero.
Proof.
  split; [reflexivity|]. split; [apply Forall_replicate|]; repeat split; discriminate || reflexivity.
Qed.

(** A pending periodic interrupt: 0xc0 becomes 0 before it is read. *)
Definition pending_rtc : Machine.t :=
  Machine.zero <| Machine.Cmos ::= (fun r => r <| CMOS_STATE.CmosAddress := REG_STAT_C |>
    <| CMOS_STATE.Registers := updZ r.(CMOS_STATE.Registers) REG_STAT_C 0xc0 |>) |>.

Lemma status_c_reads_zero_witness :
  reg REG_STAT_C pending_rtc.(Machine.Cmos) = 0xc0 /\
  wp (CmosPortIoReadHandler 0x71 1) (fun v _ => v = 0) pending_rtc.
Proof.
  split; [reflexivity|].
  eapply wp_mono; [|apply (status_c_reads_zero pending_rtc 1)].
  - intros v s' [H _]. exact H.
  - reflexivity.
  - exact zero_ioapic_inv.
  - reflexivity.
Defined.
