(* ===== verification/Scancodes.v ===== *)
(** scancodes.c: the scan codes of the keys, in the order of the BX_KEY enumeration
    of scancodes.h, for the three scan code sets, and the 8042's translation of
    set 2 to set 1. *)

From S2P Require Export Prelude.

(** scancodes.h, [struct SCANCODE], without the terminating zeros. *)
Module SCANCODE.
Record t := mk {
  Make : list Z;
  Break : list Z
}.
End SCANCODE.

Definition BX_KEY_RELEASED : Z := 0x80000000.

Definition translation8042 : list Z := [
  0xff; 0x43; 0x41; 0x3f; 0x3d; 0x3b; 0x3c; 0x58; 0x64; 0x44; 0x42; 0x40; 0x3e; 0x0f; 0x29; 0x59;
  0x65; 0x38; 0x2a; 0x70; 0x1d; 0x10; 0x02; 0x5a; 0x66; 0x71; 0x2c; 0x1f; 0x1e; 0x11; 0x03; 0x5b;
  0x67; 0x2e; 0x2d; 0x20; 0x12; 0x05; 0x04; 0x5c; 0x68; 0x39; 0x2f; 0x21; 0x14; 0x13; 0x06; 0x5d;
  0x69; 0x31; 0x30; 0x23; 0x22; 0x15; 0x07; 0x5e; 0x6a; 0x72; 0x32; 0x24; 0x16; 0x08; 0x09; 0x5f;
  0x6b; 0x33; 0x25; 0x17; 0x18; 0x0b; 0x0a; 0x60; 0x6c; 0x34; 0x35; 0x26; 0x27; 0x19; 0x0c; 0x61;
  0x6d; 0x73; 0x28; 0x74; 0x1a; 0x0d; 0x62; 0x6e; 0x3a; 0x36; 0x1c; 0x1b; 0x75; 0x2b; 0x63; 0x76;
  0x55; 0x56; 0x77; 0x78; 0x79; 0x7a; 0x0e; 0x7b; 0x7c; 0x4f; 0x7d; 0x4b; 0x47; 0x7e; 0x7f; 0x6f;
  0x52; 0x53; 0x50; 0x4c; 0x4d; 0x48; 0x01; 0x45; 0x57; 0x4e; 0x51; 0x4a; 0x37; 0x49; 0x46; 0x54;
  0x80; 0x81; 0x82; 0x41; 0x54; 0x85; 0x86; 0x87; 0x88; 0x89; 0x8a; 0x8b; 0x8c; 0x8d; 0x8e; 0x8f;
  0x90; 0x91; 0x92; 0x93; 0x94; 0x95; 0x96; 0x97; 0x98; 0x99; 0x9a; 0x9b; 0x9c; 0x9d; 0x9e; 0x9f;
  0xa0; 0xa1; 0xa2; 0xa3; 0xa4; 0xa5; 0xa6; 0xa7; 0xa8; 0xa9; 0xaa; 0xab; 0xac; 0xad; 0xae; 0xaf;
  0xb0; 0xb1; 0xb2; 0xb3; 0xb4; 0xb5; 0xb6; 0xb7; 0xb8; 0xb9; 0xba; 0xbb; 0xbc; 0xbd; 0xbe; 0xbf;
  0xc0; 0xc1; 0xc2; 0xc3; 0xc4; 0xc5; 0xc6; 0xc7; 0xc8; 0xc9; 0xca; 0xcb; 0xcc; 0xcd; 0xce; 0xcf;
  0xd0; 0xd1; 0xd2; 0xd3; 0xd4; 0xd5; 0xd6; 0xd7; 0xd8; 0xd9; 0xda; 0xdb; 0xdc; 0xdd; 0xde; 0xdf;
  0xe0; 0xe1; 0xe2; 0xe3; 0xe4; 0xe5; 0xe6; 0xe7; 0xe8; 0xe9; 0xea; 0xeb; 0xec; 0xed; 0xee; 0xef;
  0xf0; 0xf1; 0xf2; 0xf3; 0xf4; 0xf5; 0xf6; 0xf7; 0xf8; 0xf9; 0xfa; 0xfb; 0xfc; 0xfd; 0xfe; 0xff].

(** Keys 0 to 23. *)
Definition scancodes_0 : list (list SCANCODE.t) := [
  [SCANCODE.mk [0x1d] [0x9d]; SCANCODE.mk [0x14] [0xf0; 0x14]; SCANCODE.mk [0x11] [0xf0; 0x11]];
  [SCANCODE.mk [0x2a] [0xaa]; SCANCODE.mk [0x12] [0xf0; 0x12]; SCANCODE.mk [0x12] [0xf0; 0x12]];
  [SCANCODE.mk [0x3b] [0xbb]; SCANCODE.mk [0x05] [0xf0; 0x05]; SCANCODE.mk [0x07] [0xf0; 0x07]];
  [SCANCODE.mk [0x3c] [0xbc]; SCANCODE.mk [0x06] [0xf0; 0x06]; SCANCODE.mk [0x0f] [0xf0; 0x0f]];
  [SCANCODE.mk [0x3d] [0xbd]; SCANCODE.mk [0x04] [0xf0; 0x04]; SCANCODE.mk [0x17] [0xf0; 0x17]];
  [SCANCODE.mk [0x3e] [0xbe]; SCANCODE.mk [0x0c] [0xf0; 0x0c]; SCANCODE.mk [0x1f] [0xf0; 0x1f]];
  [SCANCODE.mk [0x3f] [0xbf]; SCANCODE.mk [0x03] [0xf0; 0x03]; SCANCODE.mk [0x27] [0xf0; 0x27]];
  [SCANCODE.mk [0x40] [0xc0]; SCANCODE.mk [0x0b] [0xf0; 0x0b]; SCANCODE.mk [0x2f] [0xf0; 0x2f]];
  [SCANCODE.mk [0x41] [0xc1]; SCANCODE.mk [0x83] [0xf0; 0x83]; SCANCODE.mk [0x37] [0xf0; 0x37]];
  [SCANCODE.mk [0x42] [0xc2]; SCANCODE.mk [0x0a] [0xf0; 0x0a]; SCANCODE.mk [0x3f] [0xf0; 0x3f]];
  [SCANCODE.mk [0x43] [0xc3]; SCANCODE.mk [0x01] [0xf0; 0x01]; SCANCODE.mk [0x47] [0xf0; 0x47]];
  [SCANCODE.mk [0x44] [0xc4]; SCANCODE.mk [0x09] [0xf0; 0x09]; SCANCODE.mk [0x4f] [0xf0; 0x4f]];
  [SCANCODE.mk [0x57] [0xd7]; SCANCODE.mk [0x78] [0xf0; 0x78]; SCANCODE.mk [0x56] [0xf0; 0x56]];
  [SCANCODE.mk [0x58] [0xd8]; SCANCODE.mk [0x07] [0xf0; 0x07]; SCANCODE.mk [0x5e] [0xf0; 0x5e]];
  [SCANCODE.mk [0xe0; 0x1d] [0xe0; 0x9d]; SCANCODE.mk [0xe0; 0x14] [0xe0; 0xf0; 0x14]; SCANCODE.mk [0x58] [0xf0; 0x58]];
  [SCANCODE.mk [0x36] [0xb6]; SCANCODE.mk [0x59] [0xf0; 0x59]; SCANCODE.mk [0x59] [0xf0; 0x59]];
  [SCANCODE.mk [0x3a] [0xba]; SCANCODE.mk [0x58] [0xf0; 0x58]; SCANCODE.mk [0x14] [0xf0; 0x14]];
  [SCANCODE.mk [0x45] [0xc5]; SCANCODE.mk [0x77] [0xf0; 0x77]; SCANCODE.mk [0x76] [0xf0; 0x76]];
  [SCANCODE.mk [0x38] [0xb8]; SCANCODE.mk [0x11] [0xf0; 0x11]; SCANCODE.mk [0x19] [0xf0; 0x19]];
  [SCANCODE.mk [0xe0; 0x38] [0xe0; 0xb8]; SCANCODE.mk [0xe0; 0x11] [0xe0; 0xf0; 0x11]; SCANCODE.mk [0x39] [0xf0; 0x39]];
  [SCANCODE.mk [0x1e] [0x9e]; SCANCODE.mk [0x1c] [0xf0; 0x1c]; SCANCODE.mk [0x1c] [0xf0; 0x1c]];
  [SCANCODE.mk [0x30] [0xb0]; SCANCODE.mk [0x32] [0xf0; 0x32]; SCANCODE.mk [0x32] [0xf0; 0x32]];
  [SCANCODE.mk [0x2e] [0xae]; SCANCODE.mk [0x21] [0xf0; 0x21]; SCANCODE.mk [0x21] [0xf0; 0x21]];
  [SCANCODE.mk [0x20] [0xa0]; SCANCODE.mk [0x23] [0xf0; 0x23]; SCANCODE.mk [0x23] [0xf0; 0x23]]].

(** Keys 24 to 47. *)
Definition scancodes_1 : list (list SCANCODE.t) := [
  [SCANCODE.mk [0x12] [0x92]; SCANCODE.mk [0x24] [0xf0; 0x24]; SCANCODE.mk [0x24] [0xf0; 0x24]];
  [SCANCODE.mk [0x21] [0xa1]; SCANCODE.mk [0x2b] [0xf0; 0x2b]; SCANCODE.mk [0x2b] [0xf0; 0x2b]];
  [SCANCODE.mk [0x22] [0xa2]; SCANCODE.mk [0x34] [0xf0; 0x34]; SCANCODE.mk [0x34] [0xf0; 0x34]];
  [SCANCODE.mk [0x23] [0xa3]; SCANCODE.mk [0x33] [0xf0; 0x33]; SCANCODE.mk [0x33] [0xf0; 0x33]];
  [SCANCODE.mk [0x17] [0x97]; SCANCODE.mk [0x43] [0xf0; 0x43]; SCANCODE.mk [0x43] [0xf0; 0x43]];
  [SCANCODE.mk [0x24] [0xa4]; SCANCODE.mk [0x3b] [0xf0; 0x3b]; SCANCODE.mk [0x3b] [0xf0; 0x3b]];
  [SCANCODE.mk [0x25] [0xa5]; SCANCODE.mk [0x42] [0xf0; 0x42]; SCANCODE.mk [0x42] [0xf0; 0x42]];
  [SCANCODE.mk [0x26] [0xa6]; SCANCODE.mk [0x4b] [0xf0; 0x4b]; SCANCODE.mk [0x4b] [0xf0; 0x4b]];
  [SCANCODE.mk [0x32] [0xb2]; SCANCODE.mk [0x3a] [0xf0; 0x3a]; SCANCODE.mk [0x3a] [0xf0; 0x3a]];
  [SCANCODE.mk [0x31] [0xb1]; SCANCODE.mk [0x31] [0xf0; 0x31]; SCANCODE.mk [0x31] [0xf0; 0x31]];
  [SCANCODE.mk [0x18] [0x98]; SCANCODE.mk [0x44] [0xf0; 0x44]; SCANCODE.mk [0x44] [0xf0; 0x44]];
  [SCANCODE.mk [0x19] [0x99]; SCANCODE.mk [0x4d] [0xf0; 0x4d]; SCANCODE.mk [0x4d] [0xf0; 0x4d]];
  [SCANCODE.mk [0x10] [0x90]; SCANCODE.mk [0x15] [0xf0; 0x15]; SCANCODE.mk [0x15] [0xf0; 0x15]];
  [SCANCODE.mk [0x13] [0x93]; SCANCODE.mk [0x2d] [0xf0; 0x2d]; SCANCODE.mk [0x2d] [0xf0; 0x2d]];
  [SCANCODE.mk [0x1f] [0x9f]; SCANCODE.mk [0x1b] [0xf0; 0x1b]; SCANCODE.mk [0x1b] [0xf0; 0x1b]];
  [SCANCODE.mk [0x14] [0x94]; SCANCODE.mk [0x2c] [0xf0; 0x2c]; SCANCODE.mk [0x2c] [0xf0; 0x2c]];
  [SCANCODE.mk [0x16] [0x96]; SCANCODE.mk [0x3c] [0xf0; 0x3c]; SCANCODE.mk [0x3c] [0xf0; 0x3c]];
  [SCANCODE.mk [0x2f] [0xaf]; SCANCODE.mk [0x2a] [0xf0; 0x2a]; SCANCODE.mk [0x2a] [0xf0; 0x2a]];
  [SCANCODE.mk [0x11] [0x91]; SCANCODE.mk [0x1d] [0xf0; 0x1d]; SCANCODE.mk [0x1d] [0xf0; 0x1d]];
  [SCANCODE.mk [0x2d] [0xad]; SCANCODE.mk [0x22] [0xf0; 0x22]; SCANCODE.mk [0x22] [0xf0; 0x22]];
  [SCANCODE.mk [0x15] [0x95]; SCANCODE.mk [0x35] [0xf0; 0x35]; SCANCODE.mk [0x35] [0xf0; 0x35]];
  [SCANCODE.mk [0x2c] [0xac]; SCANCODE.mk [0x1a] [0xf0; 0x1a]; SCANCODE.mk [0x1a] [0xf0; 0x1a]];
  [SCANCODE.mk [0x0b] [0x8b]; SCANCODE.mk [0x45] [0xf0; 0x45]; SCANCODE.mk [0x45] [0xf0; 0x45]];
  [SCANCODE.mk [0x02] [0x82]; SCANCODE.mk [0x16] [0xf0; 0x16]; SCANCODE.mk [0x16] [0xf0; 0x16]]].

(** Keys 48 to 71. *)
Definition scancodes_2 : list (list SCANCODE.t) := [
  [SCANCODE.mk [0x03] [0x83]; SCANCODE.mk [0x1e] [0xf0; 0x1e]; SCANCODE.mk [0x1e] [0xf0; 0x1e]];
  [SCANCODE.mk [0x04] [0x84]; SCANCODE.mk [0x26] [0xf0; 0x26]; SCANCODE.mk [0x26] [0xf0; 0x26]];
  [SCANCODE.mk [0x05] [0x85]; SCANCODE.mk [0x25] [0xf0; 0x25]; SCANCODE.mk [0x25] [0xf0; 0x25]];
  [SCANCODE.mk [0x06] [0x86]; SCANCODE.mk [0x2e] [0xf0; 0x2e]; SCANCODE.mk [0x2e] [0xf0; 0x2e]];
  [SCANCODE.mk [0x07] [0x87]; SCANCODE.mk [0x36] [0xf0; 0x36]; SCANCODE.mk [0x36] [0xf0; 0x36]];
  [SCANCODE.mk [0x08] [0x88]; SCANCODE.mk [0x3d] [0xf0; 0x3d]; SCANCODE.mk [0x3d] [0xf0; 0x3d]];
  [SCANCODE.mk [0x09] [0x89]; SCANCODE.mk [0x3e] [0xf0; 0x3e]; SCANCODE.mk [0x3e] [0xf0; 0x3e]];
  [SCANCODE.mk [0x0a] [0x8a]; SCANCODE.mk [0x46] [0xf0; 0x46]; SCANCODE.mk [0x46] [0xf0; 0x46]];
  [SCANCODE.mk [0x01] [0x81]; SCANCODE.mk [0x76] [0xf0; 0x76]; SCANCODE.mk [0x08] [0xf0; 0x08]];
  [SCANCODE.mk [0x39] [0xb9]; SCANCODE.mk [0x29] [0xf0; 0x29]; SCANCODE.mk [0x29] [0xf0; 0x29]];
  [SCANCODE.mk [0x28] [0xa8]; SCANCODE.mk [0x52] [0xf0; 0x52]; SCANCODE.mk [0x52] [0xf0; 0x52]];
  [SCANCODE.mk [0x33] [0xb3]; SCANCODE.mk [0x41] [0xf0; 0x41]; SCANCODE.mk [0x41] [0xf0; 0x41]];
  [SCANCODE.mk [0x34] [0xb4]; SCANCODE.mk [0x49] [0xf0; 0x49]; SCANCODE.mk [0x49] [0xf0; 0x49]];
  [SCANCODE.mk [0x35] [0xb5]; SCANCODE.mk [0x4a] [0xf0; 0x4a]; SCANCODE.mk [0x4a] [0xf0; 0x4a]];
  [SCANCODE.mk [0x27] [0xa7]; SCANCODE.mk [0x4c] [0xf0; 0x4c]; SCANCODE.mk [0x4c] [0xf0; 0x4c]];
  [SCANCODE.mk [0x0d] [0x8d]; SCANCODE.mk [0x55] [0xf0; 0x55]; SCANCODE.mk [0x55] [0xf0; 0x55]];
  [SCANCODE.mk [0x1a] [0x9a]; SCANCODE.mk [0x54] [0xf0; 0x54]; SCANCODE.mk [0x54] [0xf0; 0x54]];
  [SCANCODE.mk [0x2b] [0xab]; SCANCODE.mk [0x5d] [0xf0; 0x5d]; SCANCODE.mk [0x53] [0xf0; 0x53]];
  [SCANCODE.mk [0x1b] [0x9b]; SCANCODE.mk [0x5b] [0xf0; 0x5b]; SCANCODE.mk [0x5b] [0xf0; 0x5b]];
  [SCANCODE.mk [0x0c] [0x8c]; SCANCODE.mk [0x4e] [0xf0; 0x4e]; SCANCODE.mk [0x4e] [0xf0; 0x4e]];
  [SCANCODE.mk [0x29] [0xa9]; SCANCODE.mk [0x0e] [0xf0; 0x0e]; SCANCODE.mk [0x0e] [0xf0; 0x0e]];
  [SCANCODE.mk [0x0e] [0x8e]; SCANCODE.mk [0x66] [0xf0; 0x66]; SCANCODE.mk [0x66] [0xf0; 0x66]];
  [SCANCODE.mk [0x1c] [0x9c]; SCANCODE.mk [0x5a] [0xf0; 0x5a]; SCANCODE.mk [0x5a] [0xf0; 0x5a]];
  [SCANCODE.mk [0x0f] [0x8f]; SCANCODE.mk [0x0d] [0xf0; 0x0d]; SCANCODE.mk [0x0d] [0xf0; 0x0d]]].

(** Keys 72 to 95. *)
Definition scancodes_3 : list (list SCANCODE.t) := [
  [SCANCODE.mk [0x56] [0xd6]; SCANCODE.mk [0x61] [0xf0; 0x61]; SCANCODE.mk [0x13] [0xf0; 0x13]];
  [SCANCODE.mk [0xe0; 0x2a; 0xe0; 0x37] [0xe0; 0xb7; 0xe0; 0xaa]; SCANCODE.mk [0xe0; 0x12; 0xe0; 0x7c] [0xe0; 0xf0; 0x7c; 0xe0; 0xf0; 0x12]; SCANCODE.mk [0x57] [0xf0; 0x57]];
  [SCANCODE.mk [0x46] [0xc6]; SCANCODE.mk [0x7e] [0xf0; 0x7e]; SCANCODE.mk [0x5f] [0xf0; 0x5f]];
  [SCANCODE.mk [0xe1; 0x1d; 0x45; 0xe1; 0x9d; 0xc5] []; SCANCODE.mk [0xe1; 0x14; 0x77; 0xe1; 0xf0; 0x14; 0xf0; 0x77] []; SCANCODE.mk [0x62] [0xf0; 0x62]];
  [SCANCODE.mk [0xe0; 0x52] [0xe0; 0xd2]; SCANCODE.mk [0xe0; 0x70] [0xe0; 0xf0; 0x70]; SCANCODE.mk [0x67] [0xf0; 0x67]];
  [SCANCODE.mk [0xe0; 0x53] [0xe0; 0xd3]; SCANCODE.mk [0xe0; 0x71] [0xe0; 0xf0; 0x71]; SCANCODE.mk [0x64] [0xf0; 0x64]];
  [SCANCODE.mk [0xe0; 0x47] [0xe0; 0xc7]; SCANCODE.mk [0xe0; 0x6c] [0xe0; 0xf0; 0x6c]; SCANCODE.mk [0x6e] [0xf0; 0x6e]];
  [SCANCODE.mk [0xe0; 0x4f] [0xe0; 0xcf]; SCANCODE.mk [0xe0; 0x69] [0xe0; 0xf0; 0x69]; SCANCODE.mk [0x65] [0xf0; 0x65]];
  [SCANCODE.mk [0xe0; 0x49] [0xe0; 0xc9]; SCANCODE.mk [0xe0; 0x7d] [0xe0; 0xf0; 0x7d]; SCANCODE.mk [0x6f] [0xf0; 0x6f]];
  [SCANCODE.mk [0xe0; 0x51] [0xe0; 0xd1]; SCANCODE.mk [0xe0; 0x7a] [0xe0; 0xf0; 0x7a]; SCANCODE.mk [0x6d] [0xf0; 0x6d]];
  [SCANCODE.mk [0x4e] [0xce]; SCANCODE.mk [0x79] [0xf0; 0x79]; SCANCODE.mk [0x7c] [0xf0; 0x7c]];
  [SCANCODE.mk [0x4a] [0xca]; SCANCODE.mk [0x7b] [0xf0; 0x7b]; SCANCODE.mk [0x84] [0xf0; 0x84]];
  [SCANCODE.mk [0x4f] [0xcf]; SCANCODE.mk [0x69] [0xf0; 0x69]; SCANCODE.mk [0x69] [0xf0; 0x69]];
  [SCANCODE.mk [0x50] [0xd0]; SCANCODE.mk [0x72] [0xf0; 0x72]; SCANCODE.mk [0x72] [0xf0; 0x72]];
  [SCANCODE.mk [0x51] [0xd1]; SCANCODE.mk [0x7a] [0xf0; 0x7a]; SCANCODE.mk [0x7a] [0xf0; 0x7a]];
  [SCANCODE.mk [0x4b] [0xcb]; SCANCODE.mk [0x6b] [0xf0; 0x6b]; SCANCODE.mk [0x6b] [0xf0; 0x6b]];
  [SCANCODE.mk [0x4d] [0xcd]; SCANCODE.mk [0x74] [0xf0; 0x74]; SCANCODE.mk [0x74] [0xf0; 0x74]];
  [SCANCODE.mk [0x47] [0xc7]; SCANCODE.mk [0x6c] [0xf0; 0x6c]; SCANCODE.mk [0x6c] [0xf0; 0x6c]];
  [SCANCODE.mk [0x48] [0xc8]; SCANCODE.mk [0x75] [0xf0; 0x75]; SCANCODE.mk [0x75] [0xf0; 0x75]];
  [SCANCODE.mk [0x49] [0xc9]; SCANCODE.mk [0x7d] [0xf0; 0x7d]; SCANCODE.mk [0x7d] [0xf0; 0x7d]];
  [SCANCODE.mk [0x52] [0xd2]; SCANCODE.mk [0x70] [0xf0; 0x70]; SCANCODE.mk [0x70] [0xf0; 0x70]];
  [SCANCODE.mk [0x53] [0xd3]; SCANCODE.mk [0x71] [0xf0; 0x71]; SCANCODE.mk [0x71] [0xf0; 0x71]];
  [SCANCODE.mk [0x4c] [0xcc]; SCANCODE.mk [0x73] [0xf0; 0x73]; SCANCODE.mk [0x73] [0xf0; 0x73]];
  [SCANCODE.mk [0xe0; 0x48] [0xe0; 0xc8]; SCANCODE.mk [0xe0; 0x75] [0xe0; 0xf0; 0x75]; SCANCODE.mk [0x63] [0xf0; 0x63]]].

(** Keys 96 to 118. *)
Definition scancodes_4 : list (list SCANCODE.t) := [
  [SCANCODE.mk [0xe0; 0x50] [0xe0; 0xd0]; SCANCODE.mk [0xe0; 0x72] [0xe0; 0xf0; 0x72]; SCANCODE.mk [0x60] [0xf0; 0x60]];
  [SCANCODE.mk [0xe0; 0x4b] [0xe0; 0xcb]; SCANCODE.mk [0xe0; 0x6b] [0xe0; 0xf0; 0x6b]; SCANCODE.mk [0x61] [0xf0; 0x61]];
  [SCANCODE.mk [0xe0; 0x4d] [0xe0; 0xcd]; SCANCODE.mk [0xe0; 0x74] [0xe0; 0xf0; 0x74]; SCANCODE.mk [0x6a] [0xf0; 0x6a]];
  [SCANCODE.mk [0xe0; 0x1c] [0xe0; 0x9c]; SCANCODE.mk [0xe0; 0x5a] [0xe0; 0xf0; 0x5a]; SCANCODE.mk [0x79] [0xf0; 0x79]];
  [SCANCODE.mk [0x37] [0xb7]; SCANCODE.mk [0x7c] [0xf0; 0x7c]; SCANCODE.mk [0x7e] [0xf0; 0x7e]];
  [SCANCODE.mk [0xe0; 0x35] [0xe0; 0xb5]; SCANCODE.mk [0xe0; 0x4a] [0xe0; 0xf0; 0x4a]; SCANCODE.mk [0x77] [0xf0; 0x77]];
  [SCANCODE.mk [0xe0; 0x5b] [0xe0; 0xdb]; SCANCODE.mk [0xe0; 0x1f] [0xe0; 0xf0; 0x1f]; SCANCODE.mk [0x8b] [0xf0; 0x8b]];
  [SCANCODE.mk [0xe0; 0x5c] [0xe0; 0xdc]; SCANCODE.mk [0xe0; 0x27] [0xe0; 0xf0; 0x27]; SCANCODE.mk [0x8c] [0xf0; 0x8c]];
  [SCANCODE.mk [0xe0; 0x5d] [0xe0; 0xdd]; SCANCODE.mk [0xe0; 0x2f] [0xe0; 0xf0; 0x2f]; SCANCODE.mk [0x8d] [0xf0; 0x8d]];
  [SCANCODE.mk [0x54] [0xd4]; SCANCODE.mk [0x84] [0xf0; 0x84]; SCANCODE.mk [0x57] [0xf0; 0x57]];
  [SCANCODE.mk [0xe0; 0x46] [0xe0; 0xc6]; SCANCODE.mk [0xe0; 0x7e] [0xe0; 0xf0; 0x7e]; SCANCODE.mk [0x62] [0xf0; 0x62]];
  [SCANCODE.mk [0xe0; 0x6a] [0xe0; 0xea]; SCANCODE.mk [0xe0; 0x38] [0xe0; 0xf0; 0x38]; SCANCODE.mk [0x38] [0xf0; 0x38]];
  [SCANCODE.mk [0xe0; 0x69] [0xe0; 0xe9]; SCANCODE.mk [0xe0; 0x30] [0xe0; 0xf0; 0x30]; SCANCODE.mk [0x30] [0xf0; 0x30]];
  [SCANCODE.mk [0xe0; 0x68] [0xe0; 0xe8]; SCANCODE.mk [0xe0; 0x28] [0xe0; 0xf0; 0x28]; SCANCODE.mk [0x28] [0xf0; 0x28]];
  [SCANCODE.mk [0xe0; 0x6c] [0xe0; 0xec]; SCANCODE.mk [0xe0; 0x48] [0xe0; 0xf0; 0x48]; SCANCODE.mk [0x48] [0xf0; 0x48]];
  [SCANCODE.mk [0xe0; 0x65] [0xe0; 0xe5]; SCANCODE.mk [0xe0; 0x10] [0xe0; 0xf0; 0x10]; SCANCODE.mk [0x10] [0xf0; 0x10]];
  [SCANCODE.mk [0xe0; 0x66] [0xe0; 0xe6]; SCANCODE.mk [0xe0; 0x18] [0xe0; 0xf0; 0x18]; SCANCODE.mk [0x18] [0xf0; 0x18]];
  [SCANCODE.mk [0xe0; 0x32] [0xe0; 0xb2]; SCANCODE.mk [0xe0; 0x3a] [0xe0; 0xf0; 0x3a]; SCANCODE.mk [0x97] [0xf0; 0x97]];
  [SCANCODE.mk [0xe0; 0x6b] [0xe0; 0xeb]; SCANCODE.mk [0xe0; 0x40] [0xe0; 0xf0; 0x40]; SCANCODE.mk [0x40] [0xf0; 0x40]];
  [SCANCODE.mk [0xe0; 0x21] [0xe0; 0xa1]; SCANCODE.mk [0xe0; 0x2b] [0xe0; 0xf0; 0x2b]; SCANCODE.mk [0x99] [0xf0; 0x99]];
  [SCANCODE.mk [0xe0; 0x5f] [0xe0; 0xdf]; SCANCODE.mk [0xe0; 0x3f] [0xe0; 0xf0; 0x3f]; SCANCODE.mk [0x7f] [0xf0; 0x7f]];
  [SCANCODE.mk [0xe0; 0x5e] [0xe0; 0xde]; SCANCODE.mk [0xe0; 0x37] [0xe0; 0xf0; 0x37]; SCANCODE.mk [] []];
  [SCANCODE.mk [0xe0; 0x63] [0xe0; 0xe3]; SCANCODE.mk [0xe0; 0x5e] [0xe0; 0xf0; 0x5e]; SCANCODE.mk [] []]].

Definition scancodes : list (list SCANCODE.t) :=
  scancodes_0 ++ scancodes_1 ++ scancodes_2 ++ scancodes_3 ++ scancodes_4.
