(* ===== verification/Ps2.v ===== *)
(** ps2.c: the 8042 keyboard controller, its keyboard and its mouse.

    Bytes for the guest wait in two places: the keyboard's and the mouse's own
    memories, emptied by the timer, and the controller's output buffer with a
    queue of five more behind it, emptied by the guest's reads of port 0x60. *)

From S2P Require Export Pic Cmos Scancodes.

(** ps2.h *)
Definition STATUS_OUTPUT_KB_BUFFER_FULL : Z := bit 0.
Definition STATUS_INPUT_BUFFER_FULL : Z := bit 1.
Definition STATUS_SYSTEM_TEST : Z := bit 2.
Definition STATUS_COMMAND_LAST : Z := bit 3.
Definition STATUS_OUTPUT_MS_BUFFER_FULL : Z := bit 5.
Definition STATUS_RECEIVE_TIMEOUT_ERROR : Z := bit 6.
Definition DATA_KB_INTERRUPT : Z := bit 0.
Definition DATA_MS_INTERRUPT : Z := bit 1.
Definition DATA_DISABLE_KEYBOARD : Z := bit 4.
Definition DATA_DISABLE_MOUSE : Z := bit 5.
Definition DATA_SCAN_CODE : Z := bit 6.
Definition OUTPUT_PORT_A20 : Z := bit 1.
Definition CMD_READ_BYTE : Z := 0x20.
Definition CMD_WRITE_BYTE : Z := 0x60.
Definition CMD_DISABLE_2ND_PS2PORT : Z := 0xA7.
Definition CMD_ENABLE_2ND_PS2PORT : Z := 0xA8.
Definition CMD_TEST_2ND_PS2PORT : Z := 0xA9.
Definition CMD_TEST_CONTROLLER : Z := 0xAA.
Definition CMD_TEST_1ST_PS2PORT : Z := 0xAB.
Definition CMD_DISABLE_1ST_PS2PORT : Z := 0xAD.
Definition CMD_ENABLE_1ST_PS2PORT : Z := 0xAE.
Definition CMD_READ_INPUT_PORT : Z := 0xC0.
Definition CMD_READ_OUTPUT_PORT : Z := 0xD0.
Definition CMD_WRITE_OUTPUT_PORT : Z := 0xD1.
Definition CMD_WRITE_KB_OBUF : Z := 0xD2.
Definition CMD_WRITE_MS_OBUF : Z := 0xD3.
Definition CMD_WRITE_MOUSE : Z := 0xD4.
Definition CMD_DISABLE_A20 : Z := 0xDD.
Definition CMD_ENABLE_A20 : Z := 0xDF.
Definition KBD_CMD_SET_LEDS : Z := 0xED.
Definition KBD_CMD_ECHO : Z := 0xEE.
Definition KBD_CMD_SCANCODE : Z := 0xF0.
Definition KBD_CMD_GET_ID : Z := 0xF2.
Definition KBD_CMD_SET_RATE : Z := 0xF3.
Definition KBD_CMD_ENABLE : Z := 0xF4.
Definition KBD_CMD_RESET_DISABLE : Z := 0xF5.
Definition KBD_CMD_RESET_ENABLE : Z := 0xF6.
Definition KBD_CMD_RESET : Z := 0xFF.
Definition KBD_REPLY_POR : Z := 0xAA.
Definition KBD_REPLY_ID : Z := 0xAB.
Definition KBD_REPLY_ACK : Z := 0xFA.
Definition KBD_REPLY_RESEND : Z := 0xFE.
Definition KBD_CONTROLLER_QSIZE : Z := 5.
Definition KEYBOARD_DEVICE : Z := 0.
Definition MOUSE_DEVICE : Z := 1.
Definition DATA_REGISTER : Z := 0x60.
Definition COMMAND_REGISTER : Z := 0x64.
Definition STATUS_REGISTER : Z := 0x64.
Definition KEYBOARD_MEMORY_SIZE : Z := 16.
Definition MOUSE_MEMORY_SIZE : Z := 48.

Definition get_ps2 : IO PS2.t := gets Machine.Ps2.
Definition upd_ps2 (f : PS2.t -> PS2.t) : IO unit := modify (fun s => s <| Machine.Ps2 ::= f |>).
Definition upd_kbd (f : KEYBOARD.t -> KEYBOARD.t) : IO unit :=
  upd_ps2 (fun r => r <| PS2.Keyboard ::= f |>).
Definition upd_mouse (f : MOUSE.t -> MOUSE.t) : IO unit := upd_ps2 (fun r => r <| PS2.Mouse ::= f |>).
Definition set_status (f : Z -> Z) : IO unit := upd_ps2 (fun r => r <| PS2.StatusRegister ::= f |>).
Definition set_data (f : Z -> Z) : IO unit := upd_ps2 (fun r => r <| PS2.DataRegister ::= f |>).

(** [memcpy(q, q + 1, n)], the move of the C library's implementation. *)
Definition shift (n : Z) (q : list Z) : list Z := take (Z.to_nat n) (tail q) ++ drop (Z.to_nat n) q.

Definition kb_full (r : PS2.t) : bool := r.(PS2.StatusRegister) &? STATUS_OUTPUT_KB_BUFFER_FULL.

(** [if (!Ps2.TimerPending) Ps2.TimerPending = 1;] *)
Definition arm_pending : IO unit :=
  upd_ps2 (fun r => r <| PS2.TimerPending ::= (fun p => if negb (nz p) then 1 else p) |>).

Definition Ps2EnableMouseClock (Value : Z) : IO unit :=
  if negb (nz Value) then upd_mouse (fun m => m <| MOUSE.MouseClockEnabled := 0 |>)
  else
    r ← get_ps2;
    when (negb (kb_full r) && negb (nz r.(PS2.Mouse).(MOUSE.MouseClockEnabled))) (
      arm_pending ;;
      now ← TimerGetClockNs;
      TimerActivate r.(PS2.TimerId) (u64 (now + 1000000 * 10)) 1) ;;
    upd_mouse (fun m => m <| MOUSE.MouseClockEnabled := 1 |>).

Definition Ps2EnableKeyboardClock (Enable : Z) : IO unit :=
  if nz Enable then
    r ← get_ps2;
    when (negb (kb_full r) && negb (nz r.(PS2.Keyboard).(KEYBOARD.KeyboardClockEnabled))) arm_pending ;;
    upd_kbd (fun k => k <| KEYBOARD.KeyboardClockEnabled := 1 |>)
  else upd_kbd (fun k => k <| KEYBOARD.KeyboardClockEnabled := 0 |>).

(** ** The output buffer and its queue *)

Definition Ps2QueueByte (Data Device : Z) : IO unit :=
  r ← get_ps2;
  if kb_full r then
    if KBD_CONTROLLER_QSIZE <=? r.(PS2.ControllerQueueIndex) then stop Exit
    else upd_ps2 (fun r => r
      <| PS2.ControllerQueue ::= alterZ r.(PS2.ControllerQueueIndex) (fun _ => Data) |>
      <| PS2.ControllerQueueIndex ::= (fun i => i + 1) |>)
  else if Device =? KEYBOARD_DEVICE then
    upd_ps2 (fun r => r
      <| PS2.StatusRegister ::= (fun v => u8 (v |. STATUS_OUTPUT_KB_BUFFER_FULL)) |>
      <| PS2.StatusRegister ::= (fun v =>
           u8 (v &. ~. (STATUS_INPUT_BUFFER_FULL |. STATUS_OUTPUT_MS_BUFFER_FULL))) |>
      <| PS2.KeyboardBuffer := Data |>
      <| PS2.DataRegister ::= (fun v => u8 (v |. DATA_KB_INTERRUPT)) |>)
  else when (Device =? MOUSE_DEVICE) (
    upd_ps2 (fun r => r
      <| PS2.StatusRegister ::= (fun v =>
           u8 (v |. (STATUS_OUTPUT_KB_BUFFER_FULL |. STATUS_OUTPUT_MS_BUFFER_FULL))) |>
      <| PS2.StatusRegister ::= (fun v => u8 (v &. ~. STATUS_INPUT_BUFFER_FULL)) |>
      <| PS2.MouseBuffer := Data |>
      <| PS2.DataRegister ::= (fun v => u8 (v |. DATA_MS_INTERRUPT)) |>)).

(** The three bits both reads of the data register clear. *)
Definition READ_CLEARS : Z :=
  STATUS_OUTPUT_MS_BUFFER_FULL |. STATUS_OUTPUT_KB_BUFFER_FULL |. STATUS_INPUT_BUFFER_FULL.

(** [memcpy(ControllerQueue, ControllerQueue + 1, --ControllerQueueIndex)] *)
Definition dequeue (r : PS2.t) : PS2.t :=
  let n := r.(PS2.ControllerQueueIndex) - 1 in
  r <| PS2.ControllerQueueIndex := n |> <| PS2.ControllerQueue ::= shift n |>.

Section Handlers.
Context `{!Driver}.

Definition read_mouse_buffer : IO Z :=
  r ← get_ps2;
  let Ret := r.(PS2.MouseBuffer) in
  upd_ps2 (fun r => r
    <| PS2.StatusRegister ::= (fun v => u8 (v &. ~. READ_CLEARS)) |>
    <| PS2.DataRegister ::= (fun v => u8 (v &. ~. DATA_MS_INTERRUPT)) |>
    <| PS2.MouseBuffer := 0 |>) ;;
  when (nz r.(PS2.ControllerQueueIndex)) (
    upd_ps2 (fun r => dequeue (r
      <| PS2.MouseBuffer := nth0 r.(PS2.ControllerQueue) 0 |>
      <| PS2.StatusRegister ::= (fun v =>
           u8 (v |. (STATUS_OUTPUT_KB_BUFFER_FULL |. STATUS_OUTPUT_MS_BUFFER_FULL))) |>
      <| PS2.DataRegister ::= (fun v => u8 (v |. DATA_MS_INTERRUPT)) |>))) ;;
  PicLowerIrq 12 ;;
  arm_pending ;;
  mret Ret.

Definition read_keyboard_buffer : IO Z :=
  r ← get_ps2;
  let Ret := r.(PS2.KeyboardBuffer) in
  upd_ps2 (fun r => r
    <| PS2.StatusRegister ::= (fun v => u8 (v &. ~. READ_CLEARS)) |>
    <| PS2.DataRegister ::= (fun v => u8 (v &. ~. DATA_KB_INTERRUPT)) |>
    <| PS2.KeyboardBuffer := 0 |>) ;;
  when (nz r.(PS2.ControllerQueueIndex)) (
    upd_ps2 (fun r => dequeue (r
      <| PS2.KeyboardBuffer := nth0 r.(PS2.ControllerQueue) 0 |>
      <| PS2.StatusRegister ::= (fun v => u8 (v |. STATUS_OUTPUT_KB_BUFFER_FULL)) |>
      <| PS2.DataRegister ::= (fun v => u8 (v |. DATA_KB_INTERRUPT)) |>))) ;;
  PicLowerIrq 1 ;;
  arm_pending ;;
  mret Ret.

Definition Ps2PortIoReadHandler (Address Length : Z) : IO Z :=
  let a := Address &. 0xff in
  if a =? DATA_REGISTER then
    r ← get_ps2;
    if r.(PS2.StatusRegister) &? STATUS_OUTPUT_MS_BUFFER_FULL then read_mouse_buffer
    else if kb_full r then read_keyboard_buffer
    else mret r.(PS2.KeyboardBuffer)
  else if a =? STATUS_REGISTER then
    r ← get_ps2;
    set_status (fun v => u8 (v &. ~. STATUS_RECEIVE_TIMEOUT_ERROR)) ;;
    mret r.(PS2.StatusRegister)
  else mret 0.

(** ** The memories of the devices *)

(** [if (!full && KeyboardClockEnabled && !TimerPending) TimerPending = 1;] *)
Definition arm_if_idle : IO unit :=
  r ← get_ps2;
  when (negb (kb_full r) && nz r.(PS2.Keyboard).(KEYBOARD.KeyboardClockEnabled)
        && negb (nz r.(PS2.TimerPending))) (upd_ps2 (fun r => r <| PS2.TimerPending := 1 |>)).

Definition Ps2WriteMouseMemory (ScanCode : Z) : IO unit :=
  r ← get_ps2;
  if MOUSE_MEMORY_SIZE <=? r.(PS2.Mouse).(MOUSE.MouseMemoryIndex) then stop Exit
  else
    upd_mouse (fun m => m <| MOUSE.MouseMemory ::= alterZ m.(MOUSE.MouseMemoryIndex) (fun _ => ScanCode) |>
                          <| MOUSE.MouseMemoryIndex ::= (fun i => i + 1) |>) ;;
    arm_if_idle.

Definition Ps2ReadMouse : IO Z :=
  r ← get_ps2;
  let m := r.(PS2.Mouse) in
  if (MOUSE_MEMORY_SIZE <=? m.(MOUSE.MouseMemoryIndex)) || negb (nz m.(MOUSE.MouseMemoryIndex)) then stop Exit
  else
    let n := m.(MOUSE.MouseMemoryIndex) - 1 in
    upd_mouse (fun m => m <| MOUSE.MouseMemoryIndex := n |> <| MOUSE.MouseMemory ::= shift n |>) ;;
    mret (nth0 m.(MOUSE.MouseMemory) 0).

(** Every case of the switch only breaks. *)
Definition Ps2SendMouse (Value : Z) : IO unit := done_.

Definition Ps2ReadKeyboardMemory : IO Z :=
  r ← get_ps2;
  let k := r.(PS2.Keyboard) in
  if negb (nz k.(KEYBOARD.KeyboardMemoryIndex)) then stop Exit
  else
    let n := k.(KEYBOARD.KeyboardMemoryIndex) - 1 in
    upd_kbd (fun k => k <| KEYBOARD.KeyboardMemoryIndex := n |> <| KEYBOARD.KeyboardMemory ::= shift n |>) ;;
    mret (nth0 k.(KEYBOARD.KeyboardMemory) 0).

(** The keyboard's own step: a full memory drops the byte. *)
Definition kbd_write (ScanCode : Z) (k : KEYBOARD.t) : KEYBOARD.t :=
  k <| KEYBOARD.KeyboardMemory ::= alterZ k.(KEYBOARD.KeyboardMemoryIndex) (fun _ => ScanCode) |>
    <| KEYBOARD.KeyboardMemoryIndex ::= (fun i => i + 1) |>.

Definition Ps2WriteKeyboardMemory (ScanCode : Z) : IO unit :=
  r ← get_ps2;
  if KEYBOARD_MEMORY_SIZE <=? r.(PS2.Keyboard).(KEYBOARD.KeyboardMemoryIndex) then done_
  else upd_kbd (kbd_write ScanCode) ;; arm_if_idle.

Definition Ps2KeyboardReset : IO unit :=
  upd_kbd (fun k => k <| KEYBOARD.KeyboardMemory := replicate 16 0 |> <| KEYBOARD.KeyboardMemoryIndex := 0 |>
    <| KEYBOARD.Typematic := 0 |> <| KEYBOARD.ScanCodeEnabled := 0 |> <| KEYBOARD.ScanCodeSet := 1 |>
    <| KEYBOARD.LedState := 0 |>) ;;
  set_status (fun v => u8 (v &. ~. STATUS_OUTPUT_KB_BUFFER_FULL)).

Definition Ps2SendKeyboard (Value : Z) : IO unit :=
  r ← get_ps2;
  if nz r.(PS2.Keyboard).(KEYBOARD.ScanCodeEnabled) then
    upd_kbd (fun k => k <| KEYBOARD.ScanCodeEnabled := 0 |>) ;;
    if nz Value then
      if Value <? 4 then
        upd_kbd (fun k => k <| KEYBOARD.ScanCodeSet := Value - 1 |>) ;;
        Ps2WriteKeyboardMemory KBD_REPLY_ACK
      else Ps2WriteKeyboardMemory 0xFF
    else
      Ps2WriteKeyboardMemory KBD_REPLY_ACK ;;
      r ← get_ps2;
      Ps2WriteKeyboardMemory (1 + r.(PS2.Keyboard).(KEYBOARD.ScanCodeSet))
  else if Value =? 0x05 then done_
  else if Value =? KBD_CMD_SET_LEDS then Ps2QueueByte KBD_REPLY_ACK KEYBOARD_DEVICE
  else if Value =? KBD_CMD_ECHO then Ps2WriteKeyboardMemory 0xEE
  else if Value =? KBD_CMD_SCANCODE then
    upd_kbd (fun k => k <| KEYBOARD.ScanCodeEnabled := 1 |>) ;;
    Ps2WriteKeyboardMemory KBD_REPLY_ACK
  else if Value =? KBD_CMD_GET_ID then
    Ps2WriteKeyboardMemory KBD_REPLY_ACK ;;
    Ps2WriteKeyboardMemory KBD_REPLY_ID ;;
    r ← get_ps2;
    if r.(PS2.DataRegister) &? DATA_SCAN_CODE then Ps2WriteKeyboardMemory 0x41
    else Ps2WriteKeyboardMemory 0x83
  else if (Value =? KBD_CMD_SET_RATE) || (Value =? KBD_CMD_ENABLE) then Ps2WriteKeyboardMemory KBD_REPLY_ACK
  else if (Value =? KBD_CMD_RESET_DISABLE) || (Value =? KBD_CMD_RESET_ENABLE) then
    Ps2KeyboardReset ;;
    Ps2WriteKeyboardMemory KBD_REPLY_ACK
  else if Value =? KBD_CMD_RESET then
    Ps2KeyboardReset ;;
    Ps2WriteKeyboardMemory KBD_REPLY_ACK ;;
    Ps2WriteKeyboardMemory KBD_REPLY_POR
  else if Value =? CMD_WRITE_MS_OBUF then Ps2WriteKeyboardMemory KBD_REPLY_ACK
  else Ps2WriteKeyboardMemory KBD_REPLY_RESEND.

(** ** Writes *)

(** The byte that completes a controller command. *)
Definition write_argument (Value : Z) : IO unit :=
  r ← get_ps2;
  let c := r.(PS2.CommandBuffer) in
  if c =? CMD_WRITE_BYTE then
    set_data (fun _ => Value &. 0xff) ;;
    r ← get_ps2;
    Ps2EnableKeyboardClock (b2z (negb (r.(PS2.DataRegister) &? DATA_DISABLE_KEYBOARD))) ;;
    Ps2EnableMouseClock (b2z (negb (r.(PS2.DataRegister) &? DATA_DISABLE_MOUSE)))
  else if c =? CMD_WRITE_KB_OBUF then Ps2QueueByte (Value &. 0xff) KEYBOARD_DEVICE
  else if c =? CMD_WRITE_MS_OBUF then Ps2QueueByte (Value &. 0xff) MOUSE_DEVICE
  else if c =? CMD_WRITE_OUTPUT_PORT then upd_ps2 (fun r => r <| PS2.OutputPort := Value &. 0xff |>)
  else when (c =? CMD_WRITE_MOUSE) (Ps2SendMouse (Value &. 0xff)).

Definition takes_argument (c : Z) : bool :=
  (c =? CMD_WRITE_BYTE) || (c =? CMD_WRITE_OUTPUT_PORT) || (c =? CMD_WRITE_MOUSE)
  || (c =? CMD_WRITE_KB_OBUF) || (c =? CMD_WRITE_MS_OBUF).

(** A self test needs an empty output buffer. *)
Definition test_port (Device : Z) : IO unit :=
  r ← get_ps2;
  if kb_full r then stop Exit else Ps2QueueByte 0x00 Device.

Definition write_command (c : Z) : IO unit :=
  if c =? CMD_READ_BYTE then r ← get_ps2; Ps2QueueByte r.(PS2.OutputPort) KEYBOARD_DEVICE
  else if c =? CMD_READ_OUTPUT_PORT then Ps2QueueByte 0x55 KEYBOARD_DEVICE
  else if takes_argument c then
    set_status (fun v => u8 (v |. STATUS_COMMAND_LAST)) ;;
    upd_ps2 (fun r => r <| PS2.CommandBuffer := c |>)
  else if c =? CMD_DISABLE_2ND_PS2PORT then Ps2EnableMouseClock 0
  else if c =? CMD_ENABLE_2ND_PS2PORT then Ps2EnableMouseClock 1
  else if c =? CMD_TEST_2ND_PS2PORT then test_port MOUSE_DEVICE
  else if c =? CMD_TEST_CONTROLLER then
    r ← get_ps2;
    when (negb (r.(PS2.StatusRegister) &? STATUS_SYSTEM_TEST)) (
      set_status (fun v => u8 (v &. ~. STATUS_OUTPUT_KB_BUFFER_FULL)) ;;
      upd_ps2 (fun r => r <| PS2.ControllerQueueIndex := 0 |>)) ;;
    r ← get_ps2;
    if kb_full r then done_
    else
      set_status (fun v => u8 (v |. STATUS_SYSTEM_TEST)) ;;
      Ps2QueueByte 0x55 KEYBOARD_DEVICE
  else if c =? CMD_TEST_1ST_PS2PORT then test_port KEYBOARD_DEVICE
  else if c =? CMD_DISABLE_1ST_PS2PORT then Ps2EnableKeyboardClock 0
  else if c =? CMD_ENABLE_1ST_PS2PORT then Ps2EnableKeyboardClock 1
  else if c =? CMD_READ_INPUT_PORT then Ps2QueueByte 0x80 KEYBOARD_DEVICE
  else if c =? 0xCA then Ps2QueueByte 0x1 KEYBOARD_DEVICE
  else if c =? CMD_DISABLE_A20 then
    upd_ps2 (fun r => r <| PS2.OutputPort ::= (fun v => u8 (v &. ~. OUTPUT_PORT_A20)) |>)
  else when (c =? CMD_ENABLE_A20) (
    upd_ps2 (fun r => r <| PS2.OutputPort ::= (fun v => u8 (v |. OUTPUT_PORT_A20)) |>)).

Definition Ps2PortIoWriteHandler (Address Value Length : Z) : IO unit :=
  let a := Address &. 0xff in
  if a =? DATA_REGISTER then
    r ← get_ps2;
    (if r.(PS2.StatusRegister) &? STATUS_COMMAND_LAST then write_argument Value
     else Ps2SendKeyboard (Value &. 0xff)) ;;
    upd_ps2 (fun r => r <| PS2.CommandBuffer := 0 |>) ;;
    set_status (fun v => u8 (v &. ~. STATUS_COMMAND_LAST))
  else when (a =? COMMAND_REGISTER) (write_command (Value &. 0xff)).

(** ** Keys *)

(** The bytes a scan code puts in the keyboard's memory when it is translated. *)
Fixpoint translate (Escaped : Z) (code : list Z) : list Z :=
  match code with
  | [] => []
  | c :: code =>
      if negb (c =? 0xF0) then (nth0 translation8042 c |. Escaped) :: translate 0x00 code
      else translate 0x80 code
  end.

Definition Ps2GenerateScancode (Key : Z) : IO unit :=
  if 119 <=? Key then done_
  else
    r ← get_ps2;
    row ← of_option OutOfBounds (nthZ scancodes Key);
    entry ← of_option OutOfBounds (nthZ row r.(PS2.Keyboard).(KEYBOARD.ScanCodeSet));
    let Scancode := if Key &? BX_KEY_RELEASED then entry.(SCANCODE.Break) else entry.(SCANCODE.Make) in
    foreach (if r.(PS2.DataRegister) &? DATA_SCAN_CODE then translate 0x00 Scancode else Scancode)
      Ps2WriteKeyboardMemory.

(** ** The timer *)

Definition Ps2TimerPeriodic (Seconds : Z) : IO Z :=
  r ← get_ps2;
  let Ret := r.(PS2.DataRegister) &. (DATA_MS_INTERRUPT |. DATA_KB_INTERRUPT) in
  set_data (fun v => u8 (v &. ~. (DATA_MS_INTERRUPT |. DATA_KB_INTERRUPT))) ;;
  if negb (nz r.(PS2.TimerPending)) then mret Ret
  else if negb (r.(PS2.TimerPending) <=? Seconds) then
    upd_ps2 (fun r => r <| PS2.TimerPending ::= (fun p => u32 (p - Seconds)) |>) ;;
    mret Ret
  else
    upd_ps2 (fun r => r <| PS2.TimerPending := 0 |>) ;;
    r ← get_ps2;
    if kb_full r then mret Ret
    else
      (if nz r.(PS2.Keyboard).(KEYBOARD.KeyboardMemoryIndex)
          && nz r.(PS2.Keyboard).(KEYBOARD.KeyboardClockEnabled) then
         b ← Ps2ReadKeyboardMemory;
         upd_ps2 (fun r => r <| PS2.KeyboardBuffer := b |>
           <| PS2.StatusRegister ::= (fun v => u8 (v |. STATUS_OUTPUT_KB_BUFFER_FULL)) |>
           <| PS2.DataRegister ::= (fun v => u8 (v |. DATA_KB_INTERRUPT)) |>)
       else when (nz r.(PS2.Mouse).(MOUSE.MouseMemoryIndex)
                  && nz r.(PS2.Mouse).(MOUSE.MouseClockEnabled)) (
         b ← Ps2ReadMouse;
         upd_ps2 (fun r => r <| PS2.MouseBuffer := b |>
           <| PS2.StatusRegister ::= (fun v => u8 (v |. STATUS_OUTPUT_KB_BUFFER_FULL)) |>
           <| PS2.StatusRegister ::= (fun v => u8 (v |. STATUS_OUTPUT_MS_BUFFER_FULL)) |>
           <| PS2.DataRegister ::= (fun v => u8 (v |. DATA_MS_INTERRUPT)) |>))) ;;
      mret Ret.

Definition Ps2TimerHandler (Param : Z) : IO unit :=
  Ret ← Ps2TimerPeriodic 1;
  when (Ret &? DATA_KB_INTERRUPT) (PicRaiseIrq 1) ;;
  when (Ret &? DATA_MS_INTERRUPT) (PicRaiseIrq 12).

Definition Ps2Initialize : IO unit :=
  upd_ps2 (fun _ => PS2.zero) ;;
  RegisterPortIoHandler 0x60 (Some cb_Ps2) (Some cb_Ps2) ;;
  RegisterPortIoHandler 0x64 (Some cb_Ps2) (Some cb_Ps2) ;;
  _ ← TimerRegister (TICK_PERIOD * 10) fn_Ps2TimerHandler 0;
  v ← CmosGetRegister REG_EQUIPMENT_BYTE;
  CmosSetRegister REG_EQUIPMENT_BYTE (u8 (v |. 0x04)).
End Handlers.

#[local] Arguments alterZ : simpl never.
#[local] Arguments nth0 : simpl never.

(** ** The output queue *)

Record ps2_wf (r : PS2.t) : Prop := {
  wf_queue : length r.(PS2.ControllerQueue) = 5%nat;
  wf_queue_index : 0 <= r.(PS2.ControllerQueueIndex) <= 5;
  wf_memory : length r.(PS2.Keyboard).(KEYBOARD.KeyboardMemory) = 16%nat;
  wf_memory_index : 0 <= r.(PS2.Keyboard).(KEYBOARD.KeyboardMemoryIndex) <= 16;
  wf_mouse : length r.(PS2.Mouse).(MOUSE.MouseMemory) = 48%nat;
  wf_mouse_index : 0 <= r.(PS2.Mouse).(MOUSE.MouseMemoryIndex) <= 48;
  wf_set : 0 <= r.(PS2.Keyboard).(KEYBOARD.ScanCodeSet) <= 2
}.

(** The bytes on their way to the guest, the next one first. *)
Definition head_byte (r : PS2.t) : Z :=
  if r.(PS2.StatusRegister) &? STATUS_OUTPUT_MS_BUFFER_FULL then r.(PS2.MouseBuffer)
  else r.(PS2.KeyboardBuffer).
Definition out_queue (r : PS2.t) : list Z :=
  if kb_full r then head_byte r :: take (Z.to_nat r.(PS2.ControllerQueueIndex)) r.(PS2.ControllerQueue)
  else [].

(** The status bits agree: a mouse byte fills the output buffer, and the queue is
    empty when the output buffer is. *)
Definition coherent (r : PS2.t) : Prop :=
  (kb_full r = false -> r.(PS2.ControllerQueueIndex) = 0 /\
     (r.(PS2.StatusRegister) &? STATUS_OUTPUT_MS_BUFFER_FULL) = false).

Lemma take_S_tail (q : list Z) (n : nat) : (n < length q)%nat ->
  take (S n) q = nth0 q 0 :: take n (tail q).
Proof. destruct q as [|x q]; simpl; [lia|done]. Qed.

Lemma length_shift n q : 0 <= n < Z.of_nat (length q) -> length (shift n q) = length q.
Proof.
  intros Hn. unfold shift. rewrite length_app, length_take, length_drop.
  destruct q; simpl in *; lia.
Qed.

Lemma take_shift n q : 0 <= n < Z.of_nat (length q) ->
  take (Z.to_nat n) (shift n q) = take (Z.to_nat n) (tail q).
Proof.
  intros Hn. unfold shift. rewrite take_app_le; [by rewrite take_take, Nat.min_id|].
  rewrite length_take. destruct q; simpl in *; lia.
Qed.

Lemma take_alterZ k d (q : list Z) : 0 <= k < Z.of_nat (length q) ->
  take (Z.to_nat (k + 1)) (alterZ k (fun _ => d) q) = take (Z.to_nat k) q ++ [d].
Proof.
  intros Hk. unfold alterZ, updZ. rewrite (proj2 (Z.leb_le 0 k)) by lia.
  replace (Z.to_nat (k + 1)) with (S (Z.to_nat k)) by lia.
  rewrite (take_S_r _ _ d) by (apply list_lookup_insert_eq; lia). by rewrite take_insert_ge by lia.
Qed.

(** The status bits as bits. *)
Lemma kb_full_bit r : kb_full r = Z.testbit r.(PS2.StatusRegister) 0.
Proof. by apply tst_bit. Qed.
Lemma ms_full_bit v : (v &? STATUS_OUTPUT_MS_BUFFER_FULL) = Z.testbit v 5.
Proof. by apply tst_bit. Qed.

Ltac status_bits :=
  unfold kb_full, STATUS_OUTPUT_KB_BUFFER_FULL, STATUS_OUTPUT_MS_BUFFER_FULL, READ_CLEARS,
    STATUS_INPUT_BUFFER_FULL in *; cbn in *;
  rewrite ?tst_bit by lia;
  repeat first [rewrite testbit_u8 by lia | rewrite Z.lor_spec | rewrite Z.land_spec
               | rewrite Z.lnot_spec by lia | rewrite testbit_bit by lia]; cbn;
  rewrite ?orb_true_r, ?orb_false_r, ?andb_true_r, ?andb_false_r; try done.

(** The output buffer and its queue are first-in first-out: queueing a byte,
    from either device, appends it, and ends the program when six bytes are
    waiting. *)
Theorem Ps2QueueByte_appends Data Device s :
  let r := s.(Machine.Ps2) in
  ps2_wf r -> coherent r -> Device = KEYBOARD_DEVICE \/ Device = MOUSE_DEVICE ->
  (length (out_queue r) < 6)%nat ->
  wp (Ps2QueueByte Data Device) (fun _ s' =>
    out_queue s'.(Machine.Ps2) = out_queue r ++ [Data] /\ ps2_wf s'.(Machine.Ps2) /\
    coherent s'.(Machine.Ps2)) s.
Proof.
  intros r Hwf Hco Hdev Hlen. unfold Ps2QueueByte, get_ps2. apply wp_gets_bind. fold r.
  destruct Hwf as [Hq Hqi Hm Hmi Hms Hmsi Hset]. unfold coherent in Hco.
  destruct (kb_full r) eqn:Ef.
  - unfold out_queue in Hlen. rewrite Ef in Hlen. simpl in Hlen. rewrite length_take, Hq in Hlen.
    unfold KBD_CONTROLLER_QSIZE. rewrite (proj2 (Z.leb_gt 5 _)) by lia.
    unfold upd_ps2. apply wp_modify. fold r. cbn. split; [|split].
    + unfold out_queue, kb_full, head_byte in *. cbn. fold r. rewrite Ef. cbn.
      by rewrite take_alterZ by (rewrite Hq; lia).
    + split; cbn; fold r; rewrite ?length_alterZ; auto; lia.
    + unfold coherent, kb_full in *. cbn. fold r. rewrite Ef. done.
  - destruct (Hco eq_refl) as [Hi Hms0].
    assert (out_queue r = []) as -> by (unfold out_queue; by rewrite Ef).
    destruct Hdev as [-> | ->]; cbn [Z.eqb KEYBOARD_DEVICE MOUSE_DEVICE when];
      unfold upd_ps2; apply wp_modify; fold r; cbn; (split; [|split]).
    + unfold out_queue, head_byte. cbn. fold r. rewrite Hi. status_bits.
    + split; cbn; fold r; auto.
    + unfold coherent. cbn. status_bits.
    + unfold out_queue, head_byte. cbn. fold r. rewrite Hi. status_bits.
    + split; cbn; fold r; auto.
    + unfold coherent. cbn. status_bits.
Qed.

Section Reads.
Context `{!Driver}.

Lemma PicLowerIrq_total n s : 0 <= n -> pic_inv s -> ioapic_inv s ->
  exists s', PicLowerIrq n s = Ok tt s'.
Proof.
  intros Hn Hs Hio. unfold PicLowerIrq.
  assert (exists s1, (when (negb (n =? 2)) (IoApicLowerIrq n)) s = Ok tt s1 /\ pic_inv s1) as (s1 & H1 & Hs1).
  { destruct (n =? 2); simpl; [by exists s|].
    destruct (IoApicLowerIrq_total n s Hn Hio) as [s1 H1]. exists s1. split; [done|].
    by apply (within_run (preserves pic_inv) (IoApicLowerIrq n) s tt s1 H1). }
  rewrite (run_bind _ _ _ _ _ H1). cbv zeta. case_if; [by eexists|].
  assert (is_pic 0) as H0 by by left.
  rewrite (run_bind _ _ _ _ _ (pic_run 0 s1 H0 Hs1)). case_if; [by eexists|].
  rewrite upd_pic_run by done. by eexists.
Qed.

Lemma wp_lower n (k : unit -> IO Z) Q s : 0 <= n -> pic_inv s -> ioapic_inv s ->
  (forall s', s'.(Machine.Ps2) = s.(Machine.Ps2) -> wp (k tt) Q s') -> wp (PicLowerIrq n ≫= k) Q s.
Proof.
  intros Hn Hs Hio Hk. destruct (PicLowerIrq_total n s Hn Hs Hio) as [s' Hs'].
  eapply wp_run_bind; [exact Hs'|]. apply Hk.
  exact (within_run (keeps Machine.Ps2) (PicLowerIrq n) s tt s' Hs').
Qed.

(** What a read of the data register leaves. *)
Definition read_queue (r : PS2.t) (b : Z) (l : list Z) (s' : Machine.t) (v : Z) : Prop :=
  v = b /\ out_queue s'.(Machine.Ps2) = l /\ ps2_wf s'.(Machine.Ps2) /\ coherent s'.(Machine.Ps2).

Lemma arm_pending_keeps r b l v s :
  read_queue r b l s v -> wp (arm_pending ;; mret v) (fun v s' => read_queue r b l s' v) s.
Proof.
  intros (H1 & H2 & H3 & H4). unfold arm_pending, upd_ps2. apply wp_modify_bind, wp_ret.
  split; [done|]. unfold out_queue, coherent, kb_full, head_byte in *. cbn. split; [done|].
  split; [|done]. destruct H3; by split.
Qed.

(** The rest of a read, with the queue empty or not. *)
Ltac read_case r Hq :=
  destruct (nz r.(PS2.ControllerQueueIndex)) eqn:Ei; cbn [when]; unfold nz in Ei;
  [ apply negb_true_iff, Z.eqb_neq in Ei; apply wp_modify_bind
  | apply negb_false_iff, Z.eqb_eq in Ei; apply wp_done_bind ];
  (apply wp_lower; [lia|done|done|]; intros s' Hs'; apply arm_pending_keeps;
   unfold read_queue; rewrite Hs'; unfold dequeue; cbn; fold r; split; [done|]; split; [|split]);
  [ unfold out_queue, head_byte; cbn; status_bits;
    rewrite take_shift by (rewrite Hq; lia);
    replace (Z.to_nat r.(PS2.ControllerQueueIndex)) with
      (S (Z.to_nat (r.(PS2.ControllerQueueIndex) - 1))) by lia;
    by rewrite take_S_tail by (rewrite Hq; lia)
  | split; cbn; rewrite ?length_shift by (rewrite ?Hq; lia); auto; lia
  | unfold coherent; cbn; status_bits
  | unfold out_queue, head_byte; cbn; fold r; rewrite Ei; status_bits
  | split; cbn; fold r; auto
  | unfold coherent; cbn; fold r; status_bits ].

(** Reading the data register takes the first byte of the queue, whichever
    device it came from, and leaves the others in order. *)
Theorem Ps2PortIoReadHandler_takes b l Length s :
  let r := s.(Machine.Ps2) in
  ps2_wf r -> coherent r -> pic_inv s -> ioapic_inv s -> out_queue r = b :: l ->
  wp (Ps2PortIoReadHandler 0x60 Length) (fun v s' => read_queue r b l s' v) s.
Proof.
  intros r Hwf Hco Hpic Hio Hqueue.
  change (Ps2PortIoReadHandler 0x60 Length) with
    (r ← get_ps2; if r.(PS2.StatusRegister) &? STATUS_OUTPUT_MS_BUFFER_FULL then read_mouse_buffer
     else if kb_full r then read_keyboard_buffer else mret r.(PS2.KeyboardBuffer)).
  apply wp_gets_bind. fold r. destruct Hwf as [Hq Hqi Hm Hmi Hms Hmsi Hset].
  unfold out_queue, head_byte in Hqueue. destruct (kb_full r) eqn:Ef; [|done].
  destruct (_ &? STATUS_OUTPUT_MS_BUFFER_FULL) eqn:Ems; injection Hqueue as <- <-.
  - unfold read_mouse_buffer, get_ps2, upd_ps2. apply wp_gets_bind, wp_modify_bind. fold r. read_case r Hq.
  - unfold read_keyboard_buffer, get_ps2, upd_ps2. apply wp_gets_bind, wp_modify_bind. fold r. read_case r Hq.
Qed.
End Reads.

(** ** Keys *)

(** The bytes in the keyboard's memory. *)
Definition kb_memory (r : PS2.t) : list Z :=
  take (Z.to_nat r.(PS2.Keyboard).(KEYBOARD.KeyboardMemoryIndex)) r.(PS2.Keyboard).(KEYBOARD.KeyboardMemory).

Lemma arm_if_idle_wp r s : s.(Machine.Ps2) = r -> ps2_wf r ->
  wp arm_if_idle (fun _ s' => kb_memory s'.(Machine.Ps2) = kb_memory r /\ ps2_wf s'.(Machine.Ps2) /\
    s'.(Machine.Ps2).(PS2.Keyboard) = r.(PS2.Keyboard)) s.
Proof.
  intros Hr Hwf. unfold arm_if_idle, get_ps2. apply wp_gets_bind. rewrite Hr.
  destruct (_ && _); cbn [when]; [|by rewrite <- Hr in Hwf |- *].
  unfold upd_ps2. apply wp_modify. cbn. rewrite Hr. split; [done|]. split; [|done]. destruct Hwf; by split.
Qed.

Lemma Ps2WriteKeyboardMemory_wp c s : ps2_wf s.(Machine.Ps2) ->
  wp (Ps2WriteKeyboardMemory c) (fun _ s' =>
    kb_memory s'.(Machine.Ps2) = take 16 (kb_memory s.(Machine.Ps2) ++ [c]) /\ ps2_wf s'.(Machine.Ps2)) s.
Proof.
  intros Hwf. pose proof Hwf as [Hq Hqi Hm Hmi Hms Hmsi Hset].
  unfold Ps2WriteKeyboardMemory, get_ps2. apply wp_gets_bind. set (r := s.(Machine.Ps2)) in *.
  unfold KEYBOARD_MEMORY_SIZE. destruct (Z.leb_spec 16 r.(PS2.Keyboard).(KEYBOARD.KeyboardMemoryIndex)).
  - apply wp_done. split; [|done]. unfold kb_memory. fold r.
    rewrite take_app_le by (rewrite length_take, Hm; lia). by rewrite take_take, Nat.min_r by lia.
  - unfold upd_kbd, upd_ps2. apply wp_modify_bind. fold r.
    eapply wp_mono; [|eapply arm_if_idle_wp; [reflexivity|]].
    + intros [] s' (H1 & H2 & _). split; [|done]. rewrite H1. unfold kb_memory, kbd_write. cbn. fold r.
      rewrite take_alterZ by (rewrite Hm; lia). rewrite (take_ge (_ ++ _)); [done|].
      rewrite length_app, length_take, Hm. simpl. lia.
    + split; cbn; fold r; rewrite ?length_alterZ; auto; lia.
Qed.

Lemma write_codes_wp code s : ps2_wf s.(Machine.Ps2) ->
  wp (foreach code Ps2WriteKeyboardMemory) (fun _ s' =>
    kb_memory s'.(Machine.Ps2) = take 16 (kb_memory s.(Machine.Ps2) ++ code) /\ ps2_wf s'.(Machine.Ps2)) s.
Proof.
  revert s. induction code as [|c code IH]; intros s Hwf; cbn [foreach].
  - apply wp_done. split; [|done]. rewrite app_nil_r. unfold kb_memory.
    rewrite (take_ge (take _ _)); [done|]. rewrite length_take, (wf_memory _ Hwf). lia.
  - apply wp_bind. eapply wp_mono; [|by apply Ps2WriteKeyboardMemory_wp]. intros [] s1 [H1 Hwf1].
    eapply wp_mono; [|by apply IH]. intros [] s2 [H2 Hwf2]. split; [|done].
    rewrite H2, H1. change (c :: code) with ([c] ++ code). rewrite app_assoc.
    set (l := kb_memory _ ++ [c]). destruct (decide (length l <= 16)%nat).
    + by rewrite (take_ge l) by lia.
    + rewrite take_app_le by (rewrite length_take; lia). rewrite take_take, Nat.min_id.
      by rewrite take_app_le by lia.
Qed.

(** The entry of a key in a scan code set. *)
Definition entry (Key set : Z) : option SCANCODE.t := row ← nthZ scancodes Key; nthZ row set.

(** Every key has its codes, and the 8042's translation of those of set 2 gives
    those of set 1, for presses and releases alike. *)
Definition key_consistent (Key : Z) : bool :=
  match entry Key 0, entry Key 1, entry Key 2 with
  | Some e1, Some e2, Some _ =>
      bool_decide (translate 0 e2.(SCANCODE.Make) = e1.(SCANCODE.Make)) &&
      bool_decide (translate 0 e2.(SCANCODE.Break) = e1.(SCANCODE.Break))
  | _, _, _ => false
  end.

Lemma keys_consistent : forallb key_consistent (seqZ 0 119) = true.
Proof. vm_compute. reflexivity. Qed.

(** A key press puts its make code in the keyboard's memory, as far as there
    is room.  With set 2 and translation on, the normal state of the keyboard,
    that is the key's code in set 1, for each of the 119 keys.  A release does
    nothing at all: the guest never sees a break code. *)
Theorem Ps2GenerateScancode_spec Key s :
  let r := s.(Machine.Ps2) in
  ps2_wf r -> 0 <= Key < 2 ^ 32 ->
  (Key < 119 -> r.(PS2.Keyboard).(KEYBOARD.ScanCodeSet) = 1 -> (r.(PS2.DataRegister) &? DATA_SCAN_CODE) = true ->
   exists e1, entry Key 0 = Some e1 /\
   wp (Ps2GenerateScancode Key) (fun _ s' =>
     kb_memory s'.(Machine.Ps2) = take 16 (kb_memory r ++ e1.(SCANCODE.Make)) /\ ps2_wf s'.(Machine.Ps2)) s) /\
  ((Key &? BX_KEY_RELEASED) = true -> Ps2GenerateScancode Key s = Ok tt s).
Proof.
  intros r Hwf HK. split.
  - intros Hlt Hset Htr. pose proof keys_consistent as Hall. rewrite forallb_forall in Hall.
    assert (In Key (seqZ 0 119)) as Hin by (apply list_elem_of_In, elem_of_seqZ; lia).
    specialize (Hall Key Hin). unfold key_consistent in Hall.
    destruct (entry Key 0) as [e1|]; [|done]. destruct (entry Key 1) as [e2|] eqn:E2; [|done].
    destruct (entry Key 2); [|done]. apply andb_true_iff in Hall as [Hmake%bool_decide_eq_true_1 _].
    exists e1. split; [done|]. unfold Ps2GenerateScancode, get_ps2.
    rewrite (proj2 (Z.leb_gt 119 Key)) by lia. apply wp_gets_bind. fold r. unfold entry in E2.
    destruct (nthZ scancodes Key) as [row|]; [|done]. simpl in E2.
    apply wp_bind, wp_ret. rewrite Hset, E2. apply wp_bind, wp_ret. rewrite Htr.
    assert ((Key &? BX_KEY_RELEASED) = false) as ->.
    { rewrite (tst_mask _ _ 31) by done. apply (testbit_in_width 31); [|lia]. split; [lia|].
      eapply Z.lt_trans; [exact Hlt|]. done. }
    rewrite Hmake. by apply write_codes_wp.
  - intros Hrel. unfold Ps2GenerateScancode. destruct (Z.leb_spec 119 Key); [done|]. exfalso.
    rewrite (tst_mask _ _ 31) in Hrel by done. rewrite (testbit_in_width 31 Key) in Hrel; [done| |lia].
    split; [lia|]. eapply Z.lt_trans; [eassumption|]. done.
Qed.

(** With six bytes waiting, one more command that answers ends the program: the
    guest only has to send it seven times without reading. *)
Theorem queue_full_exits `{!Driver} Length s :
  let r := s.(Machine.Ps2) in
  ps2_wf r -> length (out_queue r) = 6%nat ->
  Ps2PortIoWriteHandler 0x64 CMD_READ_INPUT_PORT Length s = Fault Exit.
Proof.
  intros r [Hq Hqi _ _ _ _ _] Hlen.
  change (Ps2PortIoWriteHandler 0x64 CMD_READ_INPUT_PORT Length) with (Ps2QueueByte 0x80 KEYBOARD_DEVICE).
  unfold Ps2QueueByte, get_ps2. rewrite (run_bind _ _ _ _ _ (run_gets _ s)). fold r.
  unfold out_queue in Hlen. destruct (kb_full r); [|done]. simpl in Hlen. rewrite length_take, Hq in Hlen.
  unfold KBD_CONTROLLER_QSIZE. by rewrite (proj2 (Z.leb_le 5 _)) by lia.
Qed.

(** ** What the controller may touch *)

Section Ps2Safe.
Context `{!Driver} (R : Machine.t -> Machine.t -> Prop) `{!IrqSafe R} `{!TimerSafe R}.
Hypothesis ps2_store : forall s g, R s (s <| Machine.Ps2 ::= g |>).

#[local] Instance safe_upd_ps2 f : Within R (upd_ps2 f).
Proof. apply within_modify. intros. apply ps2_store. Qed.
#[local] Instance safe_mouse_clock v : Within R (Ps2EnableMouseClock v).
Proof.
  unfold Ps2EnableMouseClock, arm_pending, upd_mouse, get_ps2, TimerGetClockNs, TimerGetTotalTicks. apply _.
Qed.
#[local] Instance safe_keyboard_clock v : Within R (Ps2EnableKeyboardClock v).
Proof. unfold Ps2EnableKeyboardClock, arm_pending, upd_kbd, get_ps2. apply _. Qed.
#[local] Instance safe_queue_byte d v : Within R (Ps2QueueByte d v).
Proof. unfold Ps2QueueByte, get_ps2. apply _. Qed.
#[local] Instance safe_write_memory c : Within R (Ps2WriteKeyboardMemory c).
Proof. unfold Ps2WriteKeyboardMemory, arm_if_idle, upd_kbd, get_ps2. apply _. Qed.
#[local] Instance safe_send_keyboard v : Within R (Ps2SendKeyboard v).
Proof. unfold Ps2SendKeyboard, Ps2KeyboardReset, upd_kbd, set_status, get_ps2. apply _. Qed.

Lemma Ps2PortIoReadHandler_within a n : Within R (Ps2PortIoReadHandler a n).
Proof.
  unfold Ps2PortIoReadHandler, read_mouse_buffer, read_keyboard_buffer, arm_pending, set_status, get_ps2.
  apply _.
Qed.
Lemma Ps2PortIoWriteHandler_within a v n : Within R (Ps2PortIoWriteHandler a v n).
Proof.
  assert (forall v, Within R (write_argument v)).
  { intros. unfold write_argument, set_data, Ps2SendMouse, get_ps2. apply _. }
  assert (forall c, Within R (write_command c)).
  { intros. unfold write_command, test_port, set_status, get_ps2. apply _. }
  unfold Ps2PortIoWriteHandler, set_status, get_ps2. apply _.
Qed.
Lemma Ps2TimerHandler_within p : Within R (Ps2TimerHandler p).
Proof.
  unfold Ps2TimerHandler, Ps2TimerPeriodic, Ps2ReadKeyboardMemory, Ps2ReadMouse, set_data, upd_kbd, upd_mouse, get_ps2.
  apply _.
Qed.
End Ps2Safe.

(** ** Examples *)

Lemma zero_ps2_wf : ps2_wf PS2.zero.
Proof. split; simpl; lia || done. Qed.

Lemma Ps2QueueByte_appends_witness :
  wp (Ps2QueueByte 0x55 KEYBOARD_DEVICE) (fun _ s' => out_queue s'.(Machine.Ps2) = [0x55]) Machine.zero.
Proof.
  eapply wp_mono; [|apply (Ps2QueueByte_appends 0x55 KEYBOARD_DEVICE Machine.zero zero_ps2_wf)].
  - intros [] s' (H & _). exact H.
  - intros _. split; reflexivity.
  - left. reflexivity.
  - vm_compute. lia.
Defined.

(** The controller with 0xFA in the buffer and 0x1E behind it. *)
Definition example_ps2 : Machine.t :=
  example_pics example_master 0 <| Machine.Ps2 := PS2.zero <| PS2.StatusRegister := 1 |>
    <| PS2.KeyboardBuffer := 0xFA |> <| PS2.ControllerQueueIndex := 1 |>
    <| PS2.ControllerQueue := [0x1E; 0; 0; 0; 0] |> |>.

Lemma Ps2PortIoReadHandler_takes_witness :
  wp (@Ps2PortIoReadHandler 0x60 1) (fun v s' => v = 0xFA /\ out_queue s'.(Machine.Ps2) = [0x1E]) example_ps2.
Proof.
  eapply wp_mono; [|apply (Ps2PortIoReadHandler_takes 0xFA [0x1E] 1 example_ps2)].
  - intros v s' (H1 & H2 & _). split; [exact H1|exact H2].
  - split; simpl; lia || done.
  - intros H. discriminate H.
  - apply example_pics_inv; [exact example_master_wf|split; [discriminate|reflexivity]].
  - split; [reflexivity|]. split; [|split; [discriminate|reflexivity]].
    apply (Forall_replicate entry_wf). split; split; discriminate || reflexivity.
  - reflexivity.
Defined.

(** Key 20 is BX_KEY_A, 0x1E in set 1. *)
Lemma Ps2GenerateScancode_spec_witness :
  wp (Ps2GenerateScancode 20) (fun _ s' => kb_memory s'.(Machine.Ps2) = [0x1E])
    (Machine.zero <| Machine.Ps2 ::= (fun r => r <| PS2.DataRegister := 0x40 |>
       <| PS2.Keyboard ::= (fun k => k <| KEYBOARD.ScanCodeSet := 1 |>) |>) |>).
Proof.
  destruct (Ps2GenerateScancode_spec 20 (Machine.zero <| Machine.Ps2 ::= (fun r => r <| PS2.DataRegister := 0x40 |>
       <| PS2.Keyboard ::= (fun k => k <| KEYBOARD.ScanCodeSet := 1 |>) |>) |>)) as [H _].
  - split; simpl; lia || done.
  - lia.
  - destruct H as (e1 & He & H); [lia|reflexivity|reflexivity|].
    eapply wp_mono; [|exact H]. intros [] s' [Hm _].
    assert (Some (SCANCODE.mk [0x1e] [0x9e]) = Some e1) as E.
    { rewrite <- He. vm_compute. reflexivity. }
    injection E as <-. exact Hm.
Defined.
