(* ===== verification/Keys.v ===== *)
(** win32gui.c: the keyboard queue.

    The thread of the window puts the keys of the user into a ring of 20 entries with
    [enq_key_event]; the timer handler [handle_events] of the emulation takes them out
    and gives them to the 8042 (Ps2.v).  The two threads share the ring under a lock, so
    each operation is atomic here.  What else the handler tells the window is recorded in
    [Machine.Gui]. *)

From S2P Require Export Ps2.

Definition BX_KEY_PRESSED : Z := 0x00000000.
Definition MOUSE_PRESSED : Z := 0x20000000.
Definition TOOLBAR_CLICKED : Z := 0x08000000.
Definition MOUSE_MOTION : Z := 0x22000000.
Definition FOCUS_CHANGED : Z := 0x44000000.
Definition SCANCODE_BUFSIZE : Z := 20.

(** The scan code of the host, plain and extended, to the BX_KEY enumeration; the C
    initialiser leaves the entries at the end of each row out. *)
Definition win32_to_bx_key : list (list Z) := [
  [0; 56; 47; 48; 49; 50; 51; 52; 53; 54; 55; 46; 67; 63; 69; 71;
   36; 42; 24; 37; 39; 44; 40; 28; 34; 35; 64; 66; 70; 0; 20; 38;
   23; 25; 26; 27; 29; 30; 31; 62; 58; 68; 1; 65; 45; 43; 22; 41;
   21; 33; 32; 59; 60; 61; 15; 100; 18; 57; 16; 2; 3; 4; 5; 6;
   7; 8; 9; 10; 11; 75; 74; 89; 90; 91; 83; 87; 94; 88; 82; 84;
   85; 86; 92; 93; 0; 0; 72; 12; 13; 0; 0; 0; 0; 0; 0; 0]
    ++ replicate 160 0;
  [0; 0; 0; 0; 0; 0; 0; 0; 0; 0; 0; 0; 0; 0; 0; 0;
   0; 0; 0; 0; 0; 0; 0; 0; 0; 0; 0; 0; 99; 14; 0; 0;
   0; 115; 0; 0; 0; 0; 0; 0; 0; 0; 0; 0; 0; 0; 0; 0;
   0; 0; 113; 0; 0; 101; 0; 73; 19; 0; 0; 0; 0; 0; 0; 0;
   0; 0; 0; 0; 0; 17; 106; 78; 95; 80; 0; 97; 0; 98; 0; 79;
   96; 81; 76; 77; 0; 0; 0; 0; 0; 0; 0; 102; 103; 104; 117; 116;
   0; 0; 0; 118; 0; 111; 112; 0; 109; 108; 107; 114; 110; 0; 0; 0]
    ++ replicate 144 0].

Definition get_keys : IO KEYS.t := gets Machine.Keys.
Definition upd_keys (f : KEYS.t -> KEYS.t) : IO unit := modify (fun s => s <| Machine.Keys ::= f |>).
Definition gui_event (c : gui_call) : IO unit := modify (fun s => s <| Machine.Gui ::= cons c |>).

(** ** The modifiers

    Windows repeats a key that is held: the press of a modifier that is already down is
    dropped, and so is the second release of the left control key. *)

Definition release_all : IO unit :=
  upd_keys (fun k => k <| KEYS.alt_pressed_l := 0 |> <| KEYS.alt_pressed_r := 0 |>
                       <| KEYS.ctrl_pressed_l := 0 |> <| KEYS.ctrl_pressed_r := 0 |>
                       <| KEYS.shift_pressed_l := 0 |> <| KEYS.shift_pressed_r := 0 |>).

(** The [else] branch of the switch; [false] when the function returns. *)
Definition release_modifier (key : Z) : IO bool :=
  k ← get_keys;
  if key =? 0x1d then
    if nz k.(KEYS.ctrl_pressed_l) then upd_keys (fun k => k <| KEYS.ctrl_pressed_l := 0 |>) ;; mret true
    else mret false
  else if key =? 0x2a then upd_keys (fun k => k <| KEYS.shift_pressed_l := 0 |>) ;; mret true
  else if key =? 0x36 then upd_keys (fun k => k <| KEYS.shift_pressed_r := 0 |>) ;; mret true
  else if key =? 0x38 then upd_keys (fun k => k <| KEYS.alt_pressed_l := 0 |>) ;; mret true
  else if key =? 0x011d then upd_keys (fun k => k <| KEYS.ctrl_pressed_r := 0 |>) ;; mret true
  else if key =? 0x0138 then upd_keys (fun k => k <| KEYS.alt_pressed_r := 0 |>) ;; mret true
  else mret true.

(** One modifier of the press switch. *)
Definition press_flag (pressed : KEYS.t -> Z) (set : KEYS.t -> KEYS.t) : IO bool :=
  k ← get_keys;
  if nz (pressed k) then mret false else upd_keys set ;; mret true.

(** ** The ring *)

Definition enqueue (key_event : Z) : IO unit :=
  k ← get_keys;
  if (k.(KEYS.tail) + 1) mod SCANCODE_BUFSIZE =? k.(KEYS.head) then done_
  else
    e ← of_option OutOfBounds (nthZ k.(KEYS.keyevents) k.(KEYS.tail));
    upd_keys (fun k => k
      <| KEYS.keyevents ::= fun l => updZ l k.(KEYS.tail) (e <| QueueEvent.key_event := key_event |>) |>
      <| KEYS.tail := (k.(KEYS.tail) + 1) mod SCANCODE_BUFSIZE |>).

(** [enq_key_event(0x1d, BX_KEY_RELEASED)], which the press of AltGr sends first. *)
Definition release_ctrl : IO unit :=
  go ← release_modifier 0x1d;
  when (go : bool) (enqueue (u32 (0x1d |. BX_KEY_RELEASED))).

Definition press_modifier (key : Z) : IO bool :=
  if key =? 0x1d then press_flag KEYS.ctrl_pressed_l (fun k => k <| KEYS.ctrl_pressed_l := 1 |>)
  else if key =? 0x2a then press_flag KEYS.shift_pressed_l (fun k => k <| KEYS.shift_pressed_l := 1 |>)
  else if key =? 0x36 then press_flag KEYS.shift_pressed_r (fun k => k <| KEYS.shift_pressed_r := 1 |>)
  else if key =? 0x38 then press_flag KEYS.alt_pressed_l (fun k => k <| KEYS.alt_pressed_l := 1 |>)
  else if key =? 0x011d then press_flag KEYS.ctrl_pressed_r (fun k => k <| KEYS.ctrl_pressed_r := 1 |>)
  else if key =? 0x0138 then
    k ← get_keys;
    if nz k.(KEYS.alt_pressed_r) then mret false
    else
      when (nz k.(KEYS.ctrl_pressed_l)) release_ctrl ;;
      upd_keys (fun k => k <| KEYS.alt_pressed_r := 1 |>) ;; mret true
  else mret true.

Definition enq_key_event (key press_release : Z) : IO unit :=
  go ← (if press_release =? FOCUS_CHANGED then release_all ;; mret true
        else if press_release =? BX_KEY_PRESSED then press_modifier key
        else release_modifier key);
  when (go : bool) (enqueue (u32 (key |. press_release))).

(** The function returns before its body. *)
Definition enq_mouse_event : IO unit := done_.

(** [deq_key_event]: a null pointer for an empty ring. *)
Definition deq_key_event : IO (option QueueEvent.t) :=
  k ← get_keys;
  if k.(KEYS.head) =? k.(KEYS.tail) then mret None
  else
    key ← of_option OutOfBounds (nthZ k.(KEYS.keyevents) k.(KEYS.head));
    upd_keys (fun k => k <| KEYS.head := (k.(KEYS.head) + 1) mod SCANCODE_BUFSIZE |>) ;;
    mret (Some key).

(** ** The emulation's side *)

Definition bx_key (key : Z) : IO Z :=
  row ← of_option OutOfBounds (nthZ win32_to_bx_key (if key &? 0x100 then 1 else 0));
  of_option OutOfBounds (nthZ row (key &. 0xff)).

Section Events.
Context `{!Driver}.

(** What [handle_events] does with one event. *)
Definition deliver_key (key : Z) : IO unit :=
  if (key =? MOUSE_MOTION) || (key =? FOCUS_CHANGED) || (key &? MOUSE_PRESSED) then done_
  else if key &? TOOLBAR_CLICKED then gui_event (gui_toolbar_click (key &. 0xffff))
  else
    key_event ← bx_key key;
    Ps2GenerateScancode (if key &? BX_KEY_RELEASED then u32 (key_event |. BX_KEY_RELEASED) else key_event).

(** [while (head != tail)]; an event goes to [deliver_key] before the next is taken, and
    the ring has 20 entries. *)
Fixpoint drain (fuel : nat) : IO unit :=
  match fuel with
  | O => stop Diverges
  | S fuel =>
      k ← get_keys;
      if k.(KEYS.head) =? k.(KEYS.tail) then done_
      else
        queue_event ← deq_key_event;
        match queue_event with
        | None => done_
        | Some e => deliver_key e.(QueueEvent.key_event) ;; drain fuel
        end
  end.

(** [terminateEmul] deletes the lock that the function then enters. *)
Definition handle_events : IO unit :=
  k ← get_keys;
  if nz k.(KEYS.kill) then gui_event (gui_terminateEmul k.(KEYS.kill)) ;; stop Indeterminate
  else
    when (nz k.(KEYS.fix_size)) (
      gui_event (gui_resize_main_window 0) ;;
      upd_keys (fun k => k <| KEYS.fix_size := 0 |>)) ;;
    enq_mouse_event ;;
    drain 20.
End Events.

(** ** The ring as a list *)

Record keys_ok (k : KEYS.t) : Prop := {
  ko_length : length k.(KEYS.keyevents) = 20%nat;
  ko_head : 0 <= k.(KEYS.head) < 20;
  ko_tail : 0 <= k.(KEYS.tail) < 20
}.

Definition event_at (k : KEYS.t) (i : Z) : Z :=
  (default QueueEvent.zero (nthZ k.(KEYS.keyevents) (i mod 20))).(QueueEvent.key_event).
Definition count (k : KEYS.t) : Z := (k.(KEYS.tail) - k.(KEYS.head)) mod 20.
(** The events in the ring, the oldest first. *)
Definition queued (k : KEYS.t) : list Z := map (fun i => event_at k (k.(KEYS.head) + i)) (seqZ 0 (count k)).

Lemma count_range k : 0 <= count k < 20.
Proof. apply Z.mod_pos_bound. lia. Qed.
Lemma length_queued k : Z.of_nat (length (queued k)) = count k.
Proof. unfold queued. rewrite length_map, length_seqZ. pose proof (count_range k). lia. Qed.

(** The ring that is one short of its size is full. *)
Definition offer (l : list Z) (e : Z) : list Z := if Z.of_nat (length l) <? 19 then l ++ [e] else l.

Definition with_keys (k : KEYS.t) (s : Machine.t) : Machine.t := s <| Machine.Keys := k |>.

(** Positions of the ring, by the quotients of their remainders. *)
Ltac ring_lia := unfold count in *; Z.to_euclidean_division_equations; lia.

(** The ring is full when the next tail is the head. *)
Lemma ring_full k : keys_ok k -> (k.(KEYS.tail) + 1) mod 20 = k.(KEYS.head) <-> count k = 19.
Proof. intros [_ Hh Ht]. ring_lia. Qed.
Lemma ring_empty k : keys_ok k -> k.(KEYS.head) = k.(KEYS.tail) <-> count k = 0.
Proof. intros [_ Hh Ht]. ring_lia. Qed.

Definition enqueued (e : Z) (k : KEYS.t) : KEYS.t :=
  if count k =? 19 then k
  else k <| KEYS.keyevents ::= fun l =>
             updZ l k.(KEYS.tail) (default QueueEvent.zero (nthZ l k.(KEYS.tail)) <| QueueEvent.key_event := e |>) |>
         <| KEYS.tail := (k.(KEYS.tail) + 1) mod 20 |>.

Lemma enqueue_run e s : keys_ok s.(Machine.Keys) ->
  enqueue e s = Ok tt (with_keys (enqueued e s.(Machine.Keys)) s).
Proof.
  intros Hk. unfold enqueue, get_keys. rewrite (run_bind _ _ _ _ _ (run_gets _ _)).
  set (k := s.(Machine.Keys)) in *. unfold enqueued, SCANCODE_BUFSIZE. pose proof (ring_full k Hk) as Hf.
  destruct (Z.eqb_spec ((k.(KEYS.tail) + 1) mod 20) k.(KEYS.head)) as [He|Hne],
    (Z.eqb_spec (count k) 19); try tauto; [by destruct s|].
  destruct (nthZ_is_Some k.(KEYS.keyevents) k.(KEYS.tail)) as [q Hq].
  { pose proof (ko_length k Hk). pose proof (ko_tail k Hk). lia. }
  rewrite Hq. unfold with_keys. subst k. cbn. by rewrite Hq.
Qed.

Lemma enqueued_ok e k : keys_ok k -> keys_ok (enqueued e k).
Proof.
  intros Hk. unfold enqueued. case_match; [done|]. destruct Hk. split; cbn; [by rewrite length_updZ|done|].
  apply Z.mod_pos_bound. lia.
Qed.

Lemma queued_enqueued e k : keys_ok k -> queued (enqueued e k) = offer (queued k) e.
Proof.
  intros Hk. unfold offer. rewrite length_queued. pose proof (count_range k) as Hr.
  unfold enqueued. destruct (Z.eqb_spec (count k) 19) as [->|Hne]; [done|].
  rewrite (proj2 (Z.ltb_lt _ _)) by lia. destruct Hk as [Hl Hh Ht].
  set (k' := k <| KEYS.keyevents ::= _ |> <| KEYS.tail := _ |>).
  assert (count k' = count k + 1) as Hc.
  { unfold count in *. cbn. clear k'. ring_lia. }
  unfold queued. rewrite Hc, seqZ_app by lia. rewrite map_app. f_equal.
  - apply map_ext_in. intros i Hi%list_elem_of_In%elem_of_seqZ. unfold event_at. cbn.
    rewrite nthZ_updZ_ne; [done|]. change (KEYS.head k') with (KEYS.head k). clear k' Hc. ring_lia.
  - replace (seqZ (0 + count k) 1) with [count k] by (cbn; do 2 f_equal; lia). cbn [map]. f_equal.
    unfold event_at. cbn. change (KEYS.head k') with (KEYS.head k).
    replace ((KEYS.head k + count k) mod 20) with (KEYS.tail k).
    { by rewrite nthZ_updZ_eq by lia. }
    clear k' Hc. ring_lia.
Qed.

Definition advanced (k : KEYS.t) : KEYS.t := k <| KEYS.head := (k.(KEYS.head) + 1) mod 20 |>.

Lemma advanced_ok k : keys_ok k -> keys_ok (advanced k).
Proof. intros []. split; cbn; [done|apply Z.mod_pos_bound; lia|done]. Qed.

Lemma queued_advanced k e l : keys_ok k -> queued k = e :: l ->
  e = event_at k k.(KEYS.head) /\ queued (advanced k) = l.
Proof.
  intros [Hl Hh Ht] Hq. pose proof (count_range k) as Hr. pose proof (length_queued k) as Hlen.
  rewrite Hq in Hlen. cbn [length] in Hlen. unfold queued in Hq. rewrite seqZ_cons in Hq by lia.
  cbn [map] in Hq. injection Hq as He Htail. split; [rewrite <- He; f_equal; lia|].
  rewrite <- Htail. unfold queued. assert (count (advanced k) = count k - 1) as ->.
  { unfold advanced, count in *. cbn. clear He Htail. ring_lia. }
  rewrite <- (Z.add_0_r (Z.succ 0)), <- fmap_add_seqZ. change (Z.add (Z.succ 0) <$> ?l) with (map (Z.add 1) l).
  rewrite map_map, <- Z.sub_1_r. apply map_ext_in. intros i Hi%list_elem_of_In%elem_of_seqZ.
  unfold event_at, advanced. cbn. do 3 f_equal. clear He Htail. ring_lia.
Qed.

Lemma deq_key_event_run e l s : keys_ok s.(Machine.Keys) -> queued s.(Machine.Keys) = e :: l ->
  exists q, deq_key_event s = Ok (Some q) (with_keys (advanced s.(Machine.Keys)) s) /\ q.(QueueEvent.key_event) = e.
Proof.
  intros Hk Hq. unfold deq_key_event, get_keys. rewrite (run_bind _ _ _ _ _ (run_gets _ _)).
  set (k := s.(Machine.Keys)) in *. pose proof (length_queued k) as Hlen. rewrite Hq in Hlen. cbn [length] in Hlen.
  destruct (queued_advanced k e l Hk Hq) as [He _]. pose proof (ring_empty k Hk) as Hempty.
  rewrite (proj2 (Z.eqb_neq _ _)) by (intros ?; lia).
  destruct (nthZ_is_Some k.(KEYS.keyevents) k.(KEYS.head)) as [q Hn].
  { rewrite (ko_length k Hk). apply (ko_head k Hk). }
  rewrite Hn. exists q. split; [reflexivity|]. rewrite He. unfold event_at.
  rewrite (Z.mod_small _ _ (ko_head k Hk)), Hn. done.
Qed.

(** ** What is entered for a key *)

(** The events that [enq_key_event] offers to the ring. *)
Definition key_events (k : KEYS.t) (key press_release : Z) : list Z :=
  let event := u32 (key |. press_release) in
  let unless (pressed : KEYS.t -> Z) := if nz (pressed k) then [] else [event] in
  if press_release =? FOCUS_CHANGED then [event]
  else if press_release =? BX_KEY_PRESSED then
    if key =? 0x1d then unless KEYS.ctrl_pressed_l
    else if key =? 0x2a then unless KEYS.shift_pressed_l
    else if key =? 0x36 then unless KEYS.shift_pressed_r
    else if key =? 0x38 then unless KEYS.alt_pressed_l
    else if key =? 0x011d then unless KEYS.ctrl_pressed_r
    else if key =? 0x0138 then
      if nz k.(KEYS.alt_pressed_r) then []
      else if nz k.(KEYS.ctrl_pressed_l) then [0x8000001d; event] else [event]
    else [event]
  else if (key =? 0x1d) && negb (nz k.(KEYS.ctrl_pressed_l)) then [] else [event].

(** The states of the ring, with the modifiers left aside. *)
Definition same_ring (k k' : KEYS.t) : Prop :=
  k'.(KEYS.keyevents) = k.(KEYS.keyevents) /\ k'.(KEYS.head) = k.(KEYS.head) /\ k'.(KEYS.tail) = k.(KEYS.tail).

Lemma same_ring_ok k k' : same_ring k k' -> keys_ok k -> keys_ok k'.
Proof. intros (Hl & Hh & Ht) []. split; congruence. Qed.
Lemma same_ring_queued k k' : same_ring k k' -> queued k' = queued k.
Proof. intros (Hl & Hh & Ht). unfold queued, count, event_at. by rewrite Hl, Hh, Ht. Qed.

Lemma with_keys_same s : with_keys s.(Machine.Keys) s = s.
Proof. by destruct s. Qed.

Lemma enqueue_same k1 e s : keys_ok s.(Machine.Keys) -> same_ring s.(Machine.Keys) k1 ->
  exists k', enqueue e (with_keys k1 s) = Ok tt (with_keys k' s) /\ keys_ok k' /\
             same_ring (enqueued e k1) k' /\ queued k' = offer (queued s.(Machine.Keys)) e.
Proof.
  intros Hk Hsame. pose proof (same_ring_ok _ _ Hsame Hk) as Hk1.
  exists (enqueued e k1). split; [exact (enqueue_run e (with_keys k1 s) Hk1)|].
  split; [by apply enqueued_ok|]. split; [done|].
  by rewrite queued_enqueued, (same_ring_queued _ _ Hsame).
Qed.

(** A modifier's switch: it either drops the key and changes nothing, or changes only
    the modifiers. *)
Definition switched (m : IO bool) (drop : bool) (s : Machine.t) : Prop :=
  exists k1, m s = Ok (negb drop) (with_keys k1 s) /\ same_ring s.(Machine.Keys) k1.

Lemma release_modifier_run key s :
  switched (release_modifier key) ((key =? 0x1d) && negb (nz s.(Machine.Keys).(KEYS.ctrl_pressed_l))) s.
Proof.
  unfold switched, release_modifier, get_keys. rewrite (run_bind _ _ _ _ _ (run_gets _ _)).
  destruct (key =? 0x1d); cbn [andb].
  - destruct (nz _); [by eexists|]. exists s.(Machine.Keys). by rewrite with_keys_same.
  - repeat (case_match; [by eexists|]). exists s.(Machine.Keys). by rewrite with_keys_same.
Qed.

Lemma press_flag_run (p : KEYS.t -> Z) set s : same_ring s.(Machine.Keys) (set s.(Machine.Keys)) ->
  switched (press_flag p set) (nz (p s.(Machine.Keys))) s.
Proof.
  intros Hs. unfold switched, press_flag, get_keys. rewrite (run_bind _ _ _ _ _ (run_gets _ _)).
  destruct (nz _); [|by eexists]. exists s.(Machine.Keys). by rewrite with_keys_same.
Qed.

(** AltGr: the release of the left control key, then the key itself. *)
Lemma altgr_run s : keys_ok s.(Machine.Keys) ->
  exists k', press_modifier 0x0138 s = Ok (negb (nz s.(Machine.Keys).(KEYS.alt_pressed_r))) (with_keys k' s) /\ keys_ok k' /\
    queued k' = fold_left offer (if nz s.(Machine.Keys).(KEYS.alt_pressed_r) then []
                                 else if nz s.(Machine.Keys).(KEYS.ctrl_pressed_l) then [0x8000001d] else [])
                          (queued s.(Machine.Keys)).
Proof.
  intros Hk. unfold press_modifier, get_keys. cbn [Z.eqb Pos.eqb]. rewrite (run_bind _ _ _ _ _ (run_gets _ _)).
  set (k := s.(Machine.Keys)) in *. destruct (nz k.(KEYS.alt_pressed_r)).
  { exists k. split; [subst k; by rewrite with_keys_same|done]. }
  destruct (nz k.(KEYS.ctrl_pressed_l)) eqn:Hctrl.
  - destruct (release_modifier_run 0x1d s) as (k1 & Hrun & Hsame). fold k in Hrun, Hsame.
    rewrite Hctrl in Hrun. cbn in Hrun.
    destruct (enqueue_same k1 0x8000001d s Hk Hsame) as (k2 & Hr & Hok & _ & Hq).
    exists (k2 <| KEYS.alt_pressed_r := 1 |>). split; [|split; [by apply (same_ring_ok k2)|exact Hq]].
    assert (when true release_ctrl s = Ok tt (with_keys k2 s)) as Hrel.
    { cbn [when]. unfold release_ctrl. by rewrite (run_bind _ _ _ _ _ Hrun). }
    by rewrite (run_bind _ _ _ _ _ Hrel).
  - exists (k <| KEYS.alt_pressed_r := 1 |>). split; [reflexivity|]. split; [by apply (same_ring_ok k)|done].
Qed.

(** Entering a key whose switch is plain. *)
Lemma enter_switched m drop e s : keys_ok s.(Machine.Keys) -> switched m drop s ->
  exists k', (go ← m; when (go : bool) (enqueue e)) s = Ok tt (with_keys k' s) /\ keys_ok k' /\
    queued k' = fold_left offer (if drop then [] else [e]) (queued s.(Machine.Keys)).
Proof.
  intros Hk (k1 & Hrun & Hsame). rewrite (run_bind _ _ _ _ _ Hrun). destruct drop; cbn [negb when].
  - exists k1. split; [done|]. split; [by eapply same_ring_ok|]. by apply same_ring_queued.
  - destruct (enqueue_same k1 e s Hk Hsame) as (k' & Hr & Hok & _ & Hq). by exists k'.
Qed.

(** C20 The ring refines a queue of at most 19 events: [enq_key_event] appends the events
    of the key, the oldest first, where there is room; a held modifier enters nothing,
    and AltGr after the left control key enters its release first. *)
Theorem enq_key_event_refines key press_release s : keys_ok s.(Machine.Keys) ->
  exists k', enq_key_event key press_release s = Ok tt (with_keys k' s) /\ keys_ok k' /\
    queued k' = fold_left offer (key_events s.(Machine.Keys) key press_release) (queued s.(Machine.Keys)).
Proof.
  intros Hk. unfold enq_key_event, key_events. set (e := u32 (key |. press_release)).
  destruct (press_release =? FOCUS_CHANGED).
  { apply (enter_switched _ false); [done|]. eexists; split; [reflexivity|done]. }
  destruct (press_release =? BX_KEY_PRESSED).
  2: { destruct (enter_switched _ _ e s Hk (release_modifier_run key s)) as (k' & ? & ? & Hq).
       exists k'. split; [done|]. split; [done|]. by rewrite Hq. }
  unfold press_modifier.
  repeat (case_match; [apply enter_switched; [done|by apply press_flag_run]|]).
  destruct (Z.eqb_spec key 0x0138) as [->|_].
  2: { apply (enter_switched _ false); [done|]. exists s.(Machine.Keys). by rewrite with_keys_same. }
  destruct (altgr_run s Hk) as (k1 & Hrun & Hok & Hq). rewrite (run_bind _ _ _ _ _ Hrun).
  destruct (nz s.(Machine.Keys).(KEYS.alt_pressed_r)); [by exists k1|].
  destruct (enqueue_same k1 e (with_keys k1 s) Hok) as (k' & Hr & Hok' & _ & Hq'); [done|].
  exists k'. split; [exact Hr|]. split; [done|]. rewrite Hq'. cbn [Machine.Keys with_keys].
  change (queued (Machine.Keys (with_keys k1 s))) with (queued k1). rewrite Hq. by case_match.
Qed.

(** ** The emulation's side *)

Section Delivery.
Context `{!Driver}.

(** The next event is taken and given to the 8042. *)
Definition take_key (key : Z) : IO unit := upd_keys advanced ;; deliver_key key.

(** Nothing that an event does touches the ring. *)
#[local] Instance commutes_ps2 k : Commutes (with_keys k) (gets Machine.Ps2).
Proof. by apply commutes_gets. Qed.
#[local] Instance commutes_upd_ps2 k f : Commutes (with_keys k) (upd_ps2 f).
Proof. by apply commutes_modify. Qed.
#[local] Instance commutes_gui k c : Commutes (with_keys k) (gui_event c).
Proof. by apply commutes_modify. Qed.
#[local] Instance commutes_generate k key : Commutes (with_keys k) (Ps2GenerateScancode key).
Proof.
  unfold Ps2GenerateScancode, get_ps2. assert (forall c, Commutes (with_keys k) (Ps2WriteKeyboardMemory c)).
  { intros c. unfold Ps2WriteKeyboardMemory, get_ps2, upd_kbd, arm_if_idle, get_ps2. apply _. }
  apply _.
Qed.
#[export] Instance commutes_deliver k key : Commutes (with_keys k) (deliver_key key).
Proof. unfold deliver_key, bx_key. apply _. Qed.

Lemma with_keys_with k k' s : with_keys k (with_keys k' s) = with_keys k s.
Proof. done. Qed.

Lemma deliver_keeps key s a s' : deliver_key key s = Ok a s' -> s'.(Machine.Keys) = s.(Machine.Keys).
Proof.
  intros Hr. pose proof (commutes (g := with_keys s.(Machine.Keys)) (m := deliver_key key) s) as Hc.
  rewrite with_keys_same, Hr in Hc. cbn in Hc. injection Hc as ->. done.
Qed.

Lemma drain_run fuel s : keys_ok s.(Machine.Keys) -> (length (queued s.(Machine.Keys)) < fuel)%nat ->
  drain fuel s = foreach (queued s.(Machine.Keys)) take_key s.
Proof.
  revert s. induction fuel as [|fuel IH]; intros s Hk Hf; [lia|]. cbn [drain].
  unfold get_keys. rewrite (run_bind _ _ _ _ _ (run_gets _ _)). pose proof (length_queued s.(Machine.Keys)) as Hlen.
  pose proof (ring_empty _ Hk) as Hempty. destruct (queued s.(Machine.Keys)) as [|e l] eqn:Hq.
  { cbn [length] in Hlen. rewrite (proj2 (Z.eqb_eq _ _)) by (apply Hempty; lia). done. }
  cbn [length] in Hlen, Hf. rewrite (proj2 (Z.eqb_neq _ _)) by (intros ?; lia).
  destruct (deq_key_event_run e l s Hk Hq) as (q & Hr & He). rewrite (run_bind _ _ _ _ _ Hr), He.
  destruct (queued_advanced _ e l Hk Hq) as [_ Hq']. cbn [foreach].
  set (s1 := with_keys _ s) in *.
  assert (take_key e s = deliver_key e s1) as Htake by done.
  destruct (deliver_key e s1) as [[] s2|f] eqn:Hd.
  2: { by rewrite (run_fault _ _ _ _ Hd), (run_fault _ _ _ _ Htake). }
  rewrite (run_bind _ _ _ _ _ Hd), (run_bind _ _ _ _ _ Htake).
  apply deliver_keeps in Hd. change (s1.(Machine.Keys)) with (advanced s.(Machine.Keys)) in Hd.
  rewrite IH; rewrite Hd; [by rewrite Hq'|by apply advanced_ok|]. rewrite Hq'. lia.
Qed.

(** The events are delivered whatever the ring does meanwhile. *)
Lemma take_keys_run l s :
  foreach l take_key s =
    outcome_map (with_keys (Nat.iter (length l) advanced s.(Machine.Keys))) (foreach l deliver_key s).
Proof.
  revert s. induction l as [|e l IH]; intros s; [by rewrite <- (with_keys_same s) at 1|]. cbn [foreach length].
  set (k := s.(Machine.Keys)).
  assert (take_key e s = outcome_map (with_keys (advanced k)) (deliver_key e s)) as Ht.
  { exact (commutes (g := with_keys (advanced k)) (m := deliver_key e) s). }
  destruct (deliver_key e s) as [[] s1|f] eqn:Hd; cbn [outcome_map] in Ht.
  2: { by rewrite (run_fault _ _ _ _ Hd), (run_fault _ _ _ _ Ht). }
  rewrite (run_bind _ _ _ _ _ Hd), (run_bind _ _ _ _ _ Ht), IH, Nat.iter_succ_r.
  rewrite (commutes (m := foreach l deliver_key) s1). by destruct (foreach l deliver_key s1).
Qed.

Lemma queued_iter n k : keys_ok k -> (n <= length (queued k))%nat ->
  keys_ok (Nat.iter n advanced k) /\ queued (Nat.iter n advanced k) = drop n (queued k).
Proof.
  intros Hk. induction n as [|n IH]; intros Hn; [done|]. destruct IH as [Hok Hq]; [lia|]. cbn [Nat.iter].
  destruct (drop n (queued k)) as [|e l] eqn:Hd.
  { apply (f_equal length) in Hd. rewrite length_drop in Hd. cbn in Hd. lia. }
  split; [by apply advanced_ok|].
  destruct (queued_advanced (Nat.iter n advanced k) e l Hok) as [_ Ha]; [by rewrite Hq|].
  change (queued (advanced (Nat.iter n advanced k)) = drop (S n) (queued k)). rewrite Ha.
  replace (S n) with (n + 1)%nat by lia. by rewrite <- drop_drop, Hd.
Qed.

(** The handler ends with an empty ring, and has given every event to the 8042 in
    order: what the events do is what they do without the ring. *)
Lemma handle_events_run s : keys_ok s.(Machine.Keys) -> s.(Machine.Keys).(KEYS.kill) = 0 ->
  s.(Machine.Keys).(KEYS.fix_size) = 0 ->
  exists k', handle_events s = outcome_map (with_keys k') (foreach (queued s.(Machine.Keys)) deliver_key s) /\
             keys_ok k' /\ queued k' = [].
Proof.
  intros Hk Hkill Hfix. set (l := queued s.(Machine.Keys)).
  pose proof (length_queued s.(Machine.Keys)) as Hlen. fold l in Hlen. pose proof (count_range s.(Machine.Keys)) as Hc.
  exists (Nat.iter (length l) advanced s.(Machine.Keys)).
  destruct (queued_iter (length l) _ Hk (le_n _)) as [Hok Hq]. split; [|split; [done|]].
  - rewrite <- take_keys_run. unfold handle_events, get_keys. rewrite (run_bind _ _ _ _ _ (run_gets _ _)), Hkill, Hfix.
    cbn [nz Z.eqb negb when]. apply (drain_run 20 s Hk). fold l. lia.
  - rewrite Hq. fold l. by rewrite drop_all.
Qed.

Definition is_modifier (key : Z) : bool := existsb (Z.eqb key) [0x1d; 0x2a; 0x36; 0x38; 0x011d; 0x0138].

Lemma enq_plain key s : is_modifier key = false -> 0 <= key < 0x200 ->
  enq_key_event key BX_KEY_PRESSED s = enqueue key s.
Proof.
  unfold is_modifier. cbn [existsb]. intros Hm Hr. repeat rewrite orb_false_iff in Hm.
  destruct Hm as (H1 & H2 & H3 & H4 & H5 & H6 & _). unfold enq_key_event, press_modifier.
  change (BX_KEY_PRESSED =? FOCUS_CHANGED) with false. change (BX_KEY_PRESSED =? BX_KEY_PRESSED) with true.
  rewrite H1, H2, H3, H4, H5, H6. unfold BX_KEY_PRESSED. rewrite Z.lor_0_r, u32_small by (unfold is_u32, in_width; lia).
  reflexivity.
Qed.

Lemma enqueued_fields e k : (enqueued e k).(KEYS.kill) = k.(KEYS.kill) /\
  (enqueued e k).(KEYS.fix_size) = k.(KEYS.fix_size).
Proof. unfold enqueued. by case_match. Qed.

Definition plain_key (key : Z) : Prop := is_modifier key = false /\ 0 <= key < 0x200.

Lemma press_keys_run keys s : keys_ok s.(Machine.Keys) -> Forall plain_key keys ->
  (length (queued s.(Machine.Keys)) + length keys <= 19)%nat ->
  exists k', foreach keys (fun key => enq_key_event key BX_KEY_PRESSED) s = Ok tt (with_keys k' s) /\ keys_ok k' /\
    queued k' = queued s.(Machine.Keys) ++ keys /\ k'.(KEYS.kill) = s.(Machine.Keys).(KEYS.kill) /\
    k'.(KEYS.fix_size) = s.(Machine.Keys).(KEYS.fix_size).
Proof.
  intros Hk Hp. revert s Hk. induction Hp as [|key keys [Hm Hr] _ IH]; intros s Hk Hn.
  { exists s.(Machine.Keys). rewrite with_keys_same, app_nil_r. done. }
  cbn [foreach length] in *. pose proof (enq_plain key s Hm Hr) as He. rewrite enqueue_run in He by done.
  rewrite (run_bind _ _ _ _ _ He). set (k1 := enqueued key s.(Machine.Keys)) in *.
  assert (queued k1 = queued s.(Machine.Keys) ++ [key]) as Hq1.
  { unfold k1. rewrite queued_enqueued by done. unfold offer. by rewrite (proj2 (Z.ltb_lt _ _)) by lia. }
  destruct (IH (with_keys k1 s)) as (k' & Hrun & Hok & Hq & Hkill & Hfix); [by apply enqueued_ok| |].
  { cbn [Machine.Keys with_keys]. change (Machine.Keys (with_keys k1 s)) with k1. rewrite Hq1, length_app. cbn. lia. }
  change (Machine.Keys (with_keys k1 s)) with k1 in *. exists k'. split; [exact Hrun|]. split; [done|].
  destruct (enqueued_fields key s.(Machine.Keys)) as [Hf1 Hf2]. fold k1 in Hf1, Hf2.
  split; [by rewrite Hq, Hq1, <- app_assoc|]. by rewrite Hkill, Hfix.
Qed.

(** C19 Keys typed while the ring has room reach the 8042 at the next tick of the window's
    timer: once each, in order, after the events that waited, and the ring is empty. *)
Theorem typed_keys_delivered keys s : keys_ok s.(Machine.Keys) ->
  s.(Machine.Keys).(KEYS.kill) = 0 -> s.(Machine.Keys).(KEYS.fix_size) = 0 -> Forall plain_key keys ->
  (length (queued s.(Machine.Keys)) + length keys <= 19)%nat ->
  exists k', (foreach keys (fun key => enq_key_event key BX_KEY_PRESSED) ;; handle_events) s =
               outcome_map (with_keys k') (foreach (queued s.(Machine.Keys) ++ keys) deliver_key s) /\
             keys_ok k' /\ queued k' = [].
Proof.
  intros Hk Hkill Hfix Hp Hn. destruct (press_keys_run keys s Hk Hp Hn) as (k1 & Hrun & Hok & Hq & Hk1 & Hf1).
  rewrite (run_bind _ _ _ _ _ Hrun).
  destruct (handle_events_run (with_keys k1 s) Hok) as (k' & Hev & Hok' & Hq'); [by rewrite <- Hkill|by rewrite <- Hfix|].
  exists k'. split; [|done]. rewrite Hev. change (Machine.Keys (with_keys k1 s)) with k1. rewrite Hq, commutes.
  by destruct (foreach _ deliver_key s).
Qed.

(** A release never reaches the guest: with its mark it is above every key that
    [Ps2GenerateScancode] accepts. *)
Definition release_above (key : Z) : bool :=
  let x := u32 (key |. BX_KEY_RELEASED) in
  negb ((x =? MOUSE_MOTION) || (x =? FOCUS_CHANGED) || (x &? MOUSE_PRESSED)) && negb (x &? TOOLBAR_CLICKED) &&
  (x &? BX_KEY_RELEASED) &&
  match nthZ win32_to_bx_key (if x &? 0x100 then 1 else 0) with
  | Some row => match nthZ row (x &. 0xff) with
                | Some v => 119 <=? u32 (v |. BX_KEY_RELEASED)
                | None => false
                end
  | None => false
  end.
Lemma releases_lost key s : 0 <= key < 0x200 -> deliver_key (u32 (key |. BX_KEY_RELEASED)) s = Ok tt s.
Proof.
  intros Hr. assert (release_above key = true) as Habove.
  { apply (all_range_spec release_above 0 512); [vm_compute; reflexivity|lia]. }
  unfold release_above in Habove. unfold deliver_key, bx_key. set (x := u32 (key |. BX_KEY_RELEASED)) in *.
  destruct ((x =? MOUSE_MOTION) || (x =? FOCUS_CHANGED) || (x &? MOUSE_PRESSED)); [done|].
  destruct (x &? TOOLBAR_CLICKED); [done|]. destruct (x &? BX_KEY_RELEASED); [|done].
  destruct (nthZ win32_to_bx_key _) as [row|]; [|done]. cbn [negb andb] in Habove.
  destruct (nthZ row (x &. 0xff)) as [v|] eqn:Hv; [|done].
  assert ((row ← of_option OutOfBounds (Some row); of_option OutOfBounds (nthZ row (x &. 0xff))) s = Ok v s) as Hrow.
  { change (of_option OutOfBounds (nthZ row (x &. 0xff)) s = Ok v s). by rewrite Hv. }
  rewrite (run_bind _ _ _ _ _ Hrow). unfold Ps2GenerateScancode. by rewrite Habove.
Qed.

(** A scan code without a key is delivered as the left control key, whose number is 0. *)
Lemma unmapped_is_ctrl s : deliver_key 0x6f s = Ps2GenerateScancode 0 s.
Proof. reflexivity. Qed.
End Delivery.

#[local] Existing Instance example_driver.

Definition keys_example : Machine.t := Machine.zero <| Machine.Keys ::= fun k => k
  <| KEYS.head := 17 |> <| KEYS.tail := 18 |> <| KEYS.ctrl_pressed_l := 1 |> |>.

Lemma keys_example_ok : keys_ok keys_example.(Machine.Keys).
Proof. split; cbn; [done|lia|lia]. Qed.

Lemma enq_key_event_refines_witness :
  exists k', enq_key_event 0x0138 0 keys_example = Ok tt (with_keys k' keys_example) /\ keys_ok k' /\
    queued k' = [0; 0x8000001d; 0x138].
Proof.
  destruct (enq_key_event_refines 0x0138 0 keys_example keys_example_ok) as (k' & Hr & Hok & Hq).
  exists k'. split; [exact Hr|]. split; [exact Hok|]. rewrite Hq. vm_compute. reflexivity.
Defined.

Lemma typed_keys_delivered_witness :
  exists k', (foreach [0x1e; 0x30] (fun key => enq_key_event key BX_KEY_PRESSED) ;; handle_events) keys_example =
               outcome_map (with_keys k') (foreach (queued keys_example.(Machine.Keys) ++ [0x1e; 0x30]) deliver_key keys_example) /\
             keys_ok k' /\ queued k' = [].
Proof.
  refine (typed_keys_delivered [0x1e; 0x30] keys_example keys_example_ok eq_refl eq_refl _ _).
  - repeat apply Forall_cons_2; [| |apply Forall_nil_2]; (split; [reflexivity|lia]).
  - apply Nat.leb_le. vm_compute. reflexivity.
Defined.
