(* ===== verification/PciConf.v ===== *)
(** pci.c: the PCI configuration space.

    A device is named by its bus and its device-function byte and has 256 bytes
    of configuration, six base address registers (BARs) and a handler for the
    writes this file does not treat.  A write to a BAR moves the device's ports
    or its memory in the tables of Registry.v. *)

From S2P Require Export Registry Pic.

(** pci.h *)
Definition BX_PCI_BAR_TYPE_NONE : Z := 0.
Definition BX_PCI_BAR_TYPE_IO : Z := 1.
Definition BX_PCI_BAR_TYPE_MEM : Z := 2.
Definition MAX_PCI_DEVICES_PER_BUS : Z := 256.
Definition MAX_BUSES : Z := 256.
Definition PCI_CONF_HDR_TYPE : Z := 0x0e.
Definition PCI_CONF_BAR0 : Z := 0x10.
Definition PCI_CONF_BAR5 : Z := 0x24.
Definition PCI_CONF_ROM_ADDRESS : Z := 0x30.
Definition PCI_CONF_IRQ_LINE : Z := 0x3c.
Definition PCI_CONF_IRQ_PIN : Z := 0x3d.
Definition PCI_HDR_TYPE_DEVICE : Z := 0x00.
Definition PCI_VENDOR_ID_INTEL : Z := 0x8086.
Definition BX_PCI_DEVICE (device function : Z) : Z := (device <<. 3) |. function.
Definition PCI_DEVFUNC_OFFSET_TO_ADDRESS (bus devFunc offset : Z) : Z :=
  (bus <<. 16) |. (devFunc <<. 8) |. offset.
Definition PCI_ADDRESS_TO_BUS (address : Z) : Z := (address >>. 16) &. 0xff.
Definition PCI_ADDRESS_TO_FUNCTION_DEVICE (address : Z) : Z := (address >>. 8) &. 0xff.
Definition PCI_ADDRESS_TO_OFFSET (address : Z) : Z := address &. 0xff.

(** ** Devices *)

(** [PciDevices[bus][devFunc]] *)
Definition device (p : PCI_STATE.t) (k : Z * Z) : PCI.t :=
  default p.(PCI_STATE.PciDefault) (p.(PCI_STATE.PciDevices) !! k).

Definition get_device (k : Z * Z) : IO PCI.t := gets (fun s => device s.(Machine.Pci) k).
Definition upd_device (k : Z * Z) (f : PCI.t -> PCI.t) : IO unit :=
  upd_pci (fun p => p <| PCI_STATE.PciDevices := <[k := f (device p k)]> p.(PCI_STATE.PciDevices) |>).

Definition get_conf (k : Z * Z) (i : Z) : IO Z :=
  d ← get_device k; mret (nth0 d.(PCI.conf) i).
Definition set_conf (k : Z * Z) (i v : Z) : IO unit :=
  upd_device k (fun d => d <| PCI.conf ::= alterZ i (fun _ => u8 v) |>).

(** [*(ULONG* )&conf[i] = v] *)
Definition store32 (i v : Z) (conf : list Z) : list Z :=
  alterZ (i + 3) (fun _ => u8 (v >>. 24)) (alterZ (i + 2) (fun _ => u8 (v >>. 16))
    (alterZ (i + 1) (fun _ => u8 (v >>. 8)) (alterZ i (fun _ => u8 v) conf))).

(** [bar[n]], with [n] below six. *)
Definition bar_of (d : PCI.t) (n : Z) : pci_bar.t := default pci_bar.zero (nthZ d.(PCI.bar) n).
Definition get_bar (k : Z * Z) (n : Z) : IO pci_bar.t := d ← get_device k; mret (bar_of d n).
Definition upd_bar (k : Z * Z) (n : Z) (f : pci_bar.t -> pci_bar.t) : IO unit :=
  upd_device k (fun d => d <| PCI.bar ::= fun l => updZ l n (f (bar_of d n)) |>).

(** [(bus, devFunc)] of an address. *)
Definition key_of (PciAddress : Z) : Z * Z :=
  (PCI_ADDRESS_TO_BUS PciAddress, PCI_ADDRESS_TO_FUNCTION_DEVICE PciAddress).
Definition bad_key (k : Z * Z) : bool := (MAX_PCI_DEVICES_PER_BUS <=? k.2) || (MAX_BUSES <=? k.1).

(** [offset == 0xff || offset + Length < offset || offset + Length >= 0xff] *)
Definition bad_offset (offset Length : Z) : bool :=
  (offset =? 0xff) || (u32 (offset + Length) <? offset) || (0xff <=? u32 (offset + Length)).

Definition is_bar (d : PCI.t) (offset : Z) : bool :=
  (nth0 d.(PCI.conf) PCI_CONF_HDR_TYPE &. 3 =? PCI_HDR_TYPE_DEVICE)
  && (PCI_CONF_BAR0 <=? offset) && (offset <=? PCI_CONF_BAR5).

(** ** Initialisation *)

Definition PciInitialize : IO unit :=
  upd_pci (fun p => p
    <| PCI_STATE.PciDefault := PCI.zero <| PCI.conf := replicate 256 0xff |> |>
    <| PCI_STATE.PciDevices := ∅ |>).

Definition PciRegisterConfigHandler (PciAddress : Z) (WriteHandler : option ConfCallback) : IO Z :=
  let k := key_of PciAddress in
  d ← get_device k;
  if bad_key k then mret (-1)
  else if nz d.(PCI.initialized) then mret (-1)
  else
    upd_device k (fun d => d <| PCI.initialized := 1 |> <| PCI.WritePciConfHandler := WriteHandler |>) ;;
    mret 0.

Definition PciInitConfig (PciAddress Vendor Device Revision Class_ ProgIf Type_ InterruptPin : Z)
    : IO unit :=
  let k := key_of PciAddress in
  d ← get_device k;
  if bad_key k then stop Exit
  else if negb (nz d.(PCI.initialized)) then stop Exit
  else
    upd_device k (fun d => d <| PCI.conf ::= (fun c => replicate 255 0 ++ drop 255 c) |>) ;;
    set_conf k 0x00 (Vendor &. 0xff) ;;
    set_conf k 0x01 (Vendor >>. 8) ;;
    set_conf k 0x02 (Device &. 0xff) ;;
    set_conf k 0x03 (Device >>. 8) ;;
    set_conf k 0x08 Revision ;;
    set_conf k 0x09 ProgIf ;;
    set_conf k 0x0a (Class_ &. 0xff) ;;
    set_conf k 0x0b ((Class_ >>. 8) &. 0xff) ;;
    set_conf k PCI_CONF_HDR_TYPE Type_ ;;
    set_conf k PCI_CONF_IRQ_PIN InterruptPin.

Definition PciSetBarIo (PciAddress BarNumber BarAddress Size : Z)
    (ReadPortHandler WritePortHandler : option Callback) (Mask : Z) : IO unit :=
  let k := key_of PciAddress in
  if bad_key k then stop Exit
  else when (BarNumber <? 6) (
    upd_bar k BarNumber (fun _ =>
      pci_bar.mk BX_PCI_BAR_TYPE_IO (u16 Size) BarAddress Mask WritePortHandler ReadPortHandler) ;;
    upd_device k (fun d => d <| PCI.conf ::= store32 (0x10 + BarNumber * 4) (BarAddress |. 0x01) |>)).

Definition PciSetBarMmio (PciAddress BarNumber BarAddress Size : Z)
    (ReadMMIOHandler WriteMMIOHandler : option Callback) : IO unit :=
  let k := key_of PciAddress in
  if bad_key k then stop Exit
  else when (BarNumber <? 6) (
    upd_bar k BarNumber (fun b =>
      pci_bar.mk BX_PCI_BAR_TYPE_MEM Size BarAddress b.(pci_bar.mask) WriteMMIOHandler ReadMMIOHandler) ;;
    upd_device k (fun d => d <| PCI.conf ::= store32 (0x10 + BarNumber * 4) BarAddress |>)).

(** ** Writes *)

(** What the devices give to this file: their handlers of configuration writes.
    The key stands for the [PCI*] argument. *)
Class ConfCallbacks := conf_write : ConfCallback -> Z * Z -> Z -> Z -> Z -> IO unit.

(** The loop over the bytes of a write to a BAR; it returns [bar_change]. *)
Fixpoint write_bar_bytes (k : Z * Z) (type offset Value : Z) (l : list Z) (bar_change : Z) : IO Z :=
  match l with
  | [] => mret bar_change
  | i :: l =>
      v ← shr32 Value (i * 8);
      oldval ← get_conf k (offset + i);
      let value8 := v &. 0xff in
      let value8 :=
        if i =? 0 then
          if type =? BX_PCI_BAR_TYPE_IO then (value8 &. 0xfc) |. 0x01
          else (value8 &. 0xf0) |. (oldval &. 0x0f)
        else value8 in
      set_conf k (offset + i) value8 ;;
      write_bar_bytes k type offset Value l (bar_change |. b2z (negb (value8 =? oldval)))
  end.

Section Writes.
Context `{!Driver}.

(** [mask = ~(size - 1)] on a DWORD. *)
Definition size_mask (b : pci_bar.t) : Z := u32 (~. (b.(pci_bar.size) - 1)).

(** The answer to the guest's all-ones write, for an I/O BAR. *)
Definition size_io_bar (k : Z * Z) (b : pci_bar.t) (offset : Z) : IO unit :=
  let mask := size_mask b in
  set_conf k offset ((mask &. 0xfc) |. BX_PCI_BAR_TYPE_IO) ;;
  set_conf k (offset + 1) (mask >>. 8) ;;
  set_conf k (offset + 2) (mask >>. 16) ;;
  set_conf k (offset + 3) (mask >>. 24).

(** The same for a memory BAR: [conf[offset + 3] &= (mask & 0xfc)], and so on down. *)
Definition size_mem_bar (k : Z * Z) (b : pci_bar.t) (offset : Z) : IO unit :=
  let mask := size_mask b in
  let and_conf i m := c ← get_conf k i; set_conf k i (c &. m) in
  and_conf (offset + 3) (mask &. 0xfc) ;;
  and_conf (offset + 2) (mask >>. 8) ;;
  and_conf (offset + 1) (mask >>. 16) ;;
  and_conf offset (mask >>. 24).

(** The guest wrote address 0: the BAR is disabled and the handler returns. *)
Definition disable_bar (k : Z * Z) (barNum offset c : Z) : IO unit :=
  upd_bar k barNum (fun b => b <| pci_bar.addr := 0 |>) ;;
  upd_device k (fun d => d <| PCI.conf ::= store32 offset c |>).

(** [for (i = 0; i < size; i++)]; [true] when the body returned. *)
Fixpoint move_io_bar (fuel : nat) (k : Z * Z) (barNum offset Value i : Z) : IO bool :=
  match fuel with
  | O => stop Diverges
  | S fuel =>
      b ← get_bar k barNum;
      if b.(pci_bar.size) <=? i then mret false
      else
        m ← shl64 1 i;
        if nz (b.(pci_bar.mask) &. m) then move_io_bar fuel k barNum offset Value (i + 1)
        else
          when (nz b.(pci_bar.addr)) (RemovePortIoHandler (u32 (b.(pci_bar.addr) + i))) ;;
          if Value &. ~. 3 =? 0 then
            disable_bar k barNum offset BX_PCI_BAR_TYPE_IO ;; mret true
          else
            RegisterPortIoHandler (u32 ((Value &. ~. 3) + i)) b.(pci_bar.WriteHandler) b.(pci_bar.ReadHandler) ;;
            move_io_bar fuel k barNum offset Value (i + 1)
  end.

(** [for (i = 0; i < size; i += 0x10000)], where [i] is a ULONG. *)
Fixpoint move_mem_bar (fuel : nat) (k : Z * Z) (barNum offset Value i : Z) : IO bool :=
  match fuel with
  | O => stop Diverges
  | S fuel =>
      b ← get_bar k barNum;
      if b.(pci_bar.size) <=? i then mret false
      else
        when (nz b.(pci_bar.addr)) (MmioRemoveHandler (u32 (b.(pci_bar.addr) + i))) ;;
        if Value &. ~. 3 =? 0 then disable_bar k barNum offset 0 ;; mret true
        else
          MmioRegisterHandler (u32 ((Value &. ~. 3) + i)) 0x1000
            b.(pci_bar.WriteHandler) b.(pci_bar.ReadHandler) ;;
          move_mem_bar fuel k barNum offset Value (u32 (i + 0x10000))
  end.

(** The body turns at most [size] times. *)
Definition io_bar_fuel (b : pci_bar.t) : nat := S (Z.to_nat b.(pci_bar.size)).

(** [i] takes 65536 values; after them it is 0 again, and the loop does not end. *)
Definition mem_bar_fuel : nat := Z.to_nat 65537.

Definition write_bar (k : Z * Z) (barNum offset Value Length : Z) : IO unit :=
  b ← get_bar k barNum;
  when (negb (b.(pci_bar.type) =? BX_PCI_BAR_TYPE_NONE)) (
    bar_change ← write_bar_bytes k b.(pci_bar.type) offset Value (seqZ 0 Length) 0;
    when (nz bar_change) (
      returned ←
        (if b.(pci_bar.type) =? BX_PCI_BAR_TYPE_IO then
           if Value =? 0xffffffff then size_io_bar k b offset ;; mret true
           else move_io_bar (io_bar_fuel b) k barNum offset Value 0
         else
           if Value =? 0xffffffff then size_mem_bar k b offset ;; mret true
           else move_mem_bar mem_bar_fuel k barNum offset Value 0);
      when (negb returned) (upd_bar k barNum (fun b => b <| pci_bar.addr := Value &. ~. 3 |>)))).

Context `{!ConfCallbacks}.

Definition PciWriteConfHandler (Address Value Length : Z) : IO unit :=
  let k := key_of Address in
  let offset := PCI_ADDRESS_TO_OFFSET Address in
  d ← get_device k;
  if bad_key k then stop Exit
  else if negb (nz d.(PCI.initialized)) then done_
  else if bad_offset offset Length then done_
  else if is_bar d offset then write_bar k ((offset - 0x10) >>. 2) offset Value Length
  else if offset =? PCI_CONF_ROM_ADDRESS then done_
  else if offset =? PCI_CONF_IRQ_LINE then
    set_conf k PCI_CONF_IRQ_LINE (Value &. 0xff) ;; set_conf k PCI_CONF_IRQ_PIN 1
  else
    h ← of_option NullCall d.(PCI.WritePciConfHandler);
    conf_write h k offset Value Length.
End Writes.

(** ** Reads *)

(** [Value |= conf[offset + i] << (i * 8)] *)
Fixpoint read_conf (conf : list Z) (offset : Z) (l : list Z) (Value : Z) : IO Z :=
  match l with
  | [] => mret Value
  | i :: l =>
      if i * 8 <? 32 then
        read_conf conf offset l (Value |. u32 (nth0 conf (offset + i) <<. (i * 8)))
      else stop BadShift
  end.

Definition PciReadConfHandler (PciAddress Length : Z) : IO Z :=
  let k := key_of PciAddress in
  let offset := PCI_ADDRESS_TO_OFFSET PciAddress in
  d ← get_device k;
  if bad_key k then stop Exit
  else if bad_offset offset Length then stop Exit
  else if is_bar d offset
          && ((bar_of d ((offset - 0x10) >>. 2)).(pci_bar.type) =? BX_PCI_BAR_TYPE_NONE)
  then mret 0
  else if offset =? PCI_CONF_ROM_ADDRESS then mret 0
  else read_conf d.(PCI.conf) offset (seqZ 0 Length) 0.

(** ** Interrupts *)

Section Irq.
Context `{!Driver}.

Definition PciSetIrq (PciAddress IrqNumber Raise : Z) : IO unit :=
  let k := key_of PciAddress in
  let irq := ((k.2 >>. 3) + IrqNumber - 2) &. 3 in
  (if nz Raise then IoApicRaiseIrq (u8 (IrqNumber + irq)) else IoApicLowerIrq (u8 (IrqNumber + irq))) ;;
  irq ← get_conf k (0x60 + irq);
  when ((irq <? 16) && (0 <? (bit irq &. 0xdef8))) (
    if nz Raise then PicRaiseIrq irq else PicLowerIrq irq).
End Irq.

(** ** Words of the configuration space *)

(** The DWORD the guest reads at [i]. *)
Definition conf32 (i : Z) (c : list Z) : Z :=
  nth0 c i |. (nth0 c (i + 1) <<. 8) |. (nth0 c (i + 2) <<. 16) |. (nth0 c (i + 3) <<. 24).

Definition conf_ok (d : PCI.t) : Prop :=
  length d.(PCI.conf) = 256%nat /\ Forall is_u8 d.(PCI.conf) /\ length d.(PCI.bar) = 6%nat.

Lemma bytes_join n v : 0 < n ->
  (v mod 2 ^ n) |. (u8 (v >>. n) <<. n) = v mod 2 ^ (n + 8).
Proof.
  intros Hn. pose proof (Z.pow_pos_nonneg 2 n).
  rewrite lor_shiftl_add by (try apply Z.mod_pos_bound; lia).
  rewrite Z.pow_add_r, Z.rem_mul_r by lia. unfold u8. rewrite Z.shiftr_div_pow2 by lia. lia.
Qed.

Lemma word_of_bytes v :
  u8 v |. (u8 (v >>. 8) <<. 8) |. (u8 (v >>. 16) <<. 16) |. (u8 (v >>. 24) <<. 24) = u32 v.
Proof.
  change (u8 v) with (v mod 2 ^ 8).
  by rewrite (bytes_join 8), (bytes_join 16), (bytes_join 24) by done.
Qed.

Section Store32.
Context (i v : Z) (c : list Z) (Hi : 0 <= i) (Hc : i + 3 < Z.of_nat (length c)).

Lemma store32_byte j : 0 <= j < 4 -> nth0 (store32 i v c) (i + j) = u8 (v >>. (8 * j)).
Proof.
  intros Hj. unfold store32.
  assert (j = 0 \/ j = 1 \/ j = 2 \/ j = 3) as [-> | [-> | [-> | ->]]] by lia;
    rewrite ?Z.add_0_r, ?Z.shiftr_0_r;
    repeat (rewrite nth0_alterZ_ne by lia);
    by rewrite nth0_alterZ_eq by (rewrite ?length_alterZ; lia).
Qed.

Lemma store32_other j : j < i \/ i + 3 < j -> nth0 (store32 i v c) j = nth0 c j.
Proof. intros Hj. unfold store32. by rewrite !nth0_alterZ_ne by lia. Qed.

Lemma conf32_store32 : conf32 i (store32 i v c) = u32 v.
Proof.
  unfold conf32. rewrite <- (Z.add_0_r i) at 2. rewrite !store32_byte by lia.
  rewrite <- word_of_bytes. by rewrite Z.shiftr_0_r.
Qed.
End Store32.

Lemma length_store32 i v c : length (store32 i v c) = length c.
Proof. unfold store32. by rewrite !length_alterZ. Qed.

Lemma Forall_store32 i v c : Forall is_u8 c -> Forall is_u8 (store32 i v c).
Proof. intros Hc. unfold store32. repeat (apply Forall_alterZ; [done| |auto with width]). done. Qed.

(** ** Runs *)

(** [s] with device [k] replaced. *)
Definition with_device (k : Z * Z) (d : PCI.t) (s : Machine.t) : Machine.t :=
  s <| Machine.Pci ::= fun p => p <| PCI_STATE.PciDevices := <[k := d]> p.(PCI_STATE.PciDevices) |> |>.
Definition the_device (k : Z * Z) (s : Machine.t) : PCI.t := device s.(Machine.Pci) k.

Lemma the_device_with k d s : the_device k (with_device k d s) = d.
Proof. unfold the_device, device. cbn. by rewrite lookup_insert_eq. Qed.

Lemma with_device_with k d d' s : with_device k d (with_device k d' s) = with_device k d s.
Proof. unfold with_device. cbn. by rewrite insert_insert_eq. Qed.

Lemma upd_device_run k f s : upd_device k f s = Ok tt (with_device k (f (the_device k s)) s).
Proof. reflexivity. Qed.

Lemma get_conf_run k i s : get_conf k i s = Ok (nth0 (the_device k s).(PCI.conf) i) s.
Proof. reflexivity. Qed.

Lemma set_conf_run k i v s :
  set_conf k i v s = Ok tt (with_device k (the_device k s
    <| PCI.conf ::= alterZ i (fun _ => u8 v) |>) s).
Proof. reflexivity. Qed.

Lemma get_bar_run k n s : get_bar k n s = Ok (bar_of (the_device k s) n) s.
Proof. reflexivity. Qed.

Lemma port_map_with k d s : port_map (with_device k d s) = port_map s.
Proof. reflexivity. Qed.
Lemma port_ok_with k d s : port_ok (with_device k d s) = port_ok s.
Proof. reflexivity. Qed.

#[local] Arguments alterZ : simpl never.
#[local] Arguments nth0 : simpl never.

(** The word an I/O BAR stores for [Value], and its bytes. *)
Definition io_word (Value : Z) : Z := (Value &. ~. 3) |. 1.

Lemma io_word_byte0 Value : ((Value &. 0xff) &. 0xfc) |. 0x01 = u8 (io_word Value).
Proof.
  unfold io_word, u8. change (2 ^ 8) with (2 ^ 8). rewrite <- Z.land_ones by done.
  change 0xff with (Z.ones 8). change 0xfc with (Z.ones 8 &. ~. 3). change 0x01 with (Z.ones 8 &. 1).
  apply Z.bits_inj'; intros i Hi. rewrite !Z.land_spec, !Z.lor_spec, !Z.land_spec, Z.lnot_spec by done.
  by destruct (Z.testbit Value i), (Z.testbit (Z.ones 8) i), (Z.testbit 3 i), (Z.testbit 1 i).
Qed.

Lemma io_word_byte Value n : 0 < n -> (Value >>. (n * 8)) &. 0xff = u8 (io_word Value >>. (n * 8)).
Proof.
  intros Hn. change 0xff with (Z.ones 8). rewrite Z.land_ones by done. unfold io_word, u8. f_equal.
  apply Z.bits_inj'; intros i Hi. rewrite !Z.shiftr_spec, Z.lor_spec, Z.land_spec, Z.lnot_spec by lia.
  change 3 with (Z.ones 2). rewrite Z.testbit_ones_nonneg by lia.
  rewrite (proj2 (Z.ltb_ge _ _)) by lia.
  change 1 with (2 ^ 0). rewrite Z.pow2_bits_false by lia. by rewrite andb_true_r, orb_false_r.
Qed.

(** A DWORD write to a BAR stores the word [W] whose bytes are those of [Value],
    the first one with its flags, and reports a change unless it was there. *)
Lemma write_bytes k type offset Value W s :
  let d := the_device k s in
  0 <= offset -> offset + 3 < Z.of_nat (length d.(PCI.conf)) ->
  (if type =? BX_PCI_BAR_TYPE_IO then ((Value &. 0xff) &. 0xfc) |. 0x01
   else ((Value &. 0xff) &. 0xf0) |. (nth0 d.(PCI.conf) offset &. 0x0f)) = u8 W ->
  (forall n, 0 < n < 4 -> (Value >>. (n * 8)) &. 0xff = u8 (W >>. (n * 8))) ->
  exists c, write_bar_bytes k type offset Value (seqZ 0 4) 0 s =
      Ok c (with_device k (d <| PCI.conf ::= store32 offset W |>) s) /\
    (nz c = false -> conf32 offset d.(PCI.conf) = u32 W).
Proof.
  intros d Ho Hl Hb0 Hb. change (seqZ 0 4) with [0; 1; 2; 3]. cbn [write_bar_bytes].
  change (0 =? 0) with true. change (1 =? 0) with false. change (2 =? 0) with false.
  change (3 =? 0) with false. cbv iota.
  unfold shr32. change (0 * 8 <? 32) with true. change (1 * 8 <? 32) with true.
  change (2 * 8 <? 32) with true. change (3 * 8 <? 32) with true. cbv iota.
  repeat (rewrite (run_bind _ _ _ _ _ (set_conf_run _ _ _ _)) ||
          rewrite (run_bind _ _ _ _ _ (get_conf_run _ _ _)) ||
          rewrite (run_bind (mret _) _ _ _ _ eq_refl)).
  rewrite !with_device_with, !the_device_with. fold d. unfold upd_field. cbn.
  rewrite !Z.add_0_r, !Z.shiftr_0_r, !nth0_alterZ_ne by lia.
  rewrite Hb0, (Hb 1), (Hb 2), (Hb 3) by done.
  rewrite !u8_u8. eexists. split; [reflexivity|]. intros Hc.
  apply negb_false_iff, Z.eqb_eq in Hc. rewrite !Z.lor_eq_0_iff in Hc.
  destruct Hc as (((_ & H0) & H1) & H2 & H3) || destruct Hc as ((((_ & H0) & H1) & H2) & H3).
  rewrite <- word_of_bytes. unfold conf32.
  assert (forall x y, b2z (negb (x =? y)) = 0 -> y = x) as Hbz.
  { intros x y. destruct (Z.eqb_spec x y) as [->|]; [done|discriminate]. }
  by rewrite (Hbz _ _ H0), (Hbz _ _ H1), (Hbz _ _ H2), (Hbz _ _ H3).
Qed.

(** The port tables and the devices do not interfere. *)
Definition devices (s : Machine.t) : PCI.t * gmap (Z * Z) PCI.t :=
  (s.(Machine.Pci).(PCI_STATE.PciDefault), s.(Machine.Pci).(PCI_STATE.PciDevices)).

Lemma the_device_devices k s s' : devices s' = devices s -> the_device k s' = the_device k s.
Proof. intros [= H1 H2]. unfold the_device, device. by rewrite H1, H2. Qed.


#[export] Instance RegisterPortIoHandler_devices a w r : Keeps devices (RegisterPortIoHandler a w r).
Proof. unfold RegisterPortIoHandler, upd_pci. apply _. Qed.
#[export] Instance RemovePortIoHandler_devices a : Keeps devices (RemovePortIoHandler a).
Proof. unfold RemovePortIoHandler, upd_pci. apply _. Qed.

(** Port [base + j] belongs to the window of [b] at [base] when [j] is selected. *)
Definition selected (b : pci_bar.t) (j : Z) : bool :=
  (0 <=? j) && (j <? b.(pci_bar.size)) && negb (Z.testbit b.(pci_bar.mask) j).

(** The ports after the window of [b] has moved from its address to [base], from
    its [i]-th port on. *)
Definition moved (b : pci_bar.t) (base i : Z) (m : Z -> option (option Callback * option Callback)) (p : Z)
    : option (option Callback * option Callback) :=
  if selected b (p - base) && (i <=? p - base)
  then Some (b.(pci_bar.WriteHandler), b.(pci_bar.ReadHandler))
  else if nz b.(pci_bar.addr) && selected b (p - b.(pci_bar.addr)) && (i <=? p - b.(pci_bar.addr))
  then None
  else m p.

(** The new ports are free and the old ones are in use, from the [i]-th on. *)
Definition movable (b : pci_bar.t) (base i : Z) (m : Z -> option (option Callback * option Callback)) : Prop :=
  forall j, i <= j -> selected b j = true ->
    m (base + j) = None /\ (b.(pci_bar.addr) <> 0 -> m (b.(pci_bar.addr) + j) <> None).

Record bar_wf (b : pci_bar.t) (base : Z) : Prop := {
  bar_size : 0 <= b.(pci_bar.size) <= 64;
  bar_addr : 0 <= b.(pci_bar.addr) /\ b.(pci_bar.addr) + b.(pci_bar.size) <= BITMAP_BITS;
  bar_base : 0 < base /\ base + b.(pci_bar.size) <= BITMAP_BITS
}.

Lemma selected_at b j : 0 <= j < b.(pci_bar.size) -> 
  selected b j = negb (Z.testbit b.(pci_bar.mask) j).
Proof.
  intros Hj. unfold selected. by rewrite (proj2 (Z.leb_le _ _)), (proj2 (Z.ltb_lt _ _)) by lia.
Qed.

(** One port of the window. *)
Definition move_one (b : pci_bar.t) (base i : Z) (m : Z -> option (option Callback * option Callback)) (p : Z) :=
  if p =? base + i then Some (b.(pci_bar.WriteHandler), b.(pci_bar.ReadHandler))
  else if nz b.(pci_bar.addr) && (p =? b.(pci_bar.addr) + i) then None else m p.

Lemma movable_step b base i m : selected b i = true -> movable b base i m ->
  movable b base (i + 1) (move_one b base i m).
Proof.
  intros Hi Hm j Hj Hs. destruct (Hm j ltac:(lia) Hs) as [Hfree Hused].
  unfold move_one. rewrite (proj2 (Z.eqb_neq (base + j) _)) by lia. split.
  - by destruct (nz _ && _).
  - intros Ha. destruct (_ =? base + i); [done|].
    rewrite (proj2 (Z.eqb_neq (_ + j) _)) by lia. rewrite andb_false_r. auto.
Qed.

Lemma moved_step b base i m p : selected b i = true -> movable b base i m ->
  moved b base (i + 1) (move_one b base i m) p = moved b base i m p.
Proof.
  intros Hi Hm. unfold moved, move_one. unfold nz.
  destruct (Z.eqb_spec p (base + i)) as [->|Hp].
  - replace (base + i - base) with i by lia. rewrite Hi, (proj2 (Z.leb_gt (i + 1) i)), Z.leb_refl by lia.
    simpl. destruct (Z.eqb_spec b.(pci_bar.addr) 0) as [|Ha]; [done|]. simpl.
    destruct (selected b (base + i - _)) eqn:Hs; [|done].
    destruct (Z.leb_spec (i + 1) (base + i - b.(pci_bar.addr))) as [Hle|]; [|done].
    destruct (Hm i ltac:(lia) Hi) as [Hf _]. 
    destruct (Hm (base + i - b.(pci_bar.addr)) ltac:(lia) Hs) as [_ Hu].
    exfalso. apply Hu; [done|]. rewrite <- Hf. f_equal. lia.
  - assert ((i + 1 <=? p - base) = (i <=? p - base)) as ->.
    { apply eq_iff_eq_true. rewrite !Z.leb_le. lia. }
    destruct (selected b (p - base) && _); [done|].
    destruct (Z.eqb_spec b.(pci_bar.addr) 0) as [|Ha]; [done|]. simpl.
    destruct (Z.eqb_spec p (b.(pci_bar.addr) + i)) as [->|Hp'].
    + replace (b.(pci_bar.addr) + i - b.(pci_bar.addr)) with i by lia. rewrite Hi, Z.leb_refl.
      by destruct (_ && _).
    + assert ((i + 1 <=? p - b.(pci_bar.addr)) = (i <=? p - b.(pci_bar.addr))) as ->; [|done].
      apply eq_iff_eq_true. rewrite !Z.leb_le. lia.
Qed.

Lemma moved_skip b base i m p : selected b i = false -> moved b base (i + 1) m p = moved b base i m p.
Proof.
  intros Hi. unfold moved.
  assert (forall a, selected b (p - a) && (i + 1 <=? p - a) = selected b (p - a) && (i <=? p - a)) as H.
  { intros a. destruct (selected b (p - a)) eqn:Hs; [|done]. simpl.
    apply eq_iff_eq_true. rewrite !Z.leb_le. split; [lia|]. intros Hle.
    destruct (decide (p - a = i)) as [He|]; [by rewrite He, Hi in Hs|lia]. }
  by rewrite <- !andb_assoc, !H.
Qed.

Lemma moved_end b base i m p : b.(pci_bar.size) <= i -> moved b base i m p = m p.
Proof.
  intros Hi. unfold moved, selected.
  assert (forall a, (p - a <? b.(pci_bar.size)) && (i <=? p - a) = false) as H.
  { intros a. apply andb_false_iff. rewrite Z.ltb_ge, Z.leb_gt. lia. }
  assert (forall x y a, x && (p - a <? b.(pci_bar.size)) && y && (i <=? p - a) = false) as H'.
  { intros x y a. destruct x, y; simpl; try done; by rewrite ?andb_true_r, ?H, ?andb_false_r. }
  rewrite H', <- andb_assoc, H', andb_false_r. done.
Qed.

Lemma movable_skip b base i m : movable b base i m -> movable b base (i + 1) m.
Proof. intros Hm j Hj. apply Hm. lia. Qed.

Lemma movable_ext b base i m m' : 0 < base -> 0 <= b.(pci_bar.addr) -> 0 <= i ->
  (forall p, 0 <= p -> m' p = m p) -> movable b base i m -> movable b base i m'.
Proof. intros ? ? ? He Hm j Hj Hs. rewrite !He by lia. by apply Hm. Qed.

Lemma moved_ext b base i m m' p : m' p = m p -> moved b base i m' p = moved b base i m p.
Proof. intros He. unfold moved. by rewrite He. Qed.

(** Both table operations, with the devices they leave alone. *)
Lemma register_wp s a w r : port_ok s -> 0 <= a < BITMAP_BITS -> port_map s a = None ->
  wp (RegisterPortIoHandler a w r) (fun _ s' => (port_ok s' /\
    forall p, 0 <= p -> port_map s' p = if p =? a then Some (w, r) else port_map s p) /\
    devices s' = devices s) s.
Proof. intros. exact (wp_and_wlp _ _ _ _ (RegisterPortIoHandler_free s a w r H H0 H1) (within s)). Qed.

Lemma remove_wp s a : port_ok s -> 0 <= a < BITMAP_BITS -> port_map s a <> None ->
  wp (RemovePortIoHandler a) (fun _ s' => (port_ok s' /\
    forall p, 0 <= p -> port_map s' p = if p =? a then None else port_map s p) /\
    devices s' = devices s) s.
Proof. intros. exact (wp_and_wlp _ _ _ _ (RemovePortIoHandler_used s a H H0 H1) (within s)). Qed.

Section MoveBar.
Context `{!Driver} (k : Z * Z) (n offset Value base : Z) (b : pci_bar.t).
Hypothesis (Hbase : base = Value &. ~. 3) (Hwf : bar_wf b base).

(** The body of the loop at a selected port. *)
Lemma move_one_wp i s : selected b i = true -> port_ok s -> movable b base i (port_map s) ->
  wp (when (nz b.(pci_bar.addr)) (RemovePortIoHandler (u32 (b.(pci_bar.addr) + i)))) (fun _ s1 =>
    wp (RegisterPortIoHandler (u32 (base + i)) b.(pci_bar.WriteHandler) b.(pci_bar.ReadHandler))
    (fun _ s' => port_ok s' /\ devices s' = devices s /\
       forall p, 0 <= p -> port_map s' p = move_one b base i (port_map s) p) s1) s.
Proof.
  intros Hi Hok Hm. destruct Hwf as [[Hs0 Hs1] [Ha0 Ha1] [Hb0 Hb1]]. destruct (Hm i ltac:(lia) Hi) as [Hf Hu].
  assert (0 <= i < b.(pci_bar.size)) as Hr.
  { unfold selected in Hi. rewrite !andb_true_iff, Z.leb_le, Z.ltb_lt in Hi. lia. }
  rewrite !u32_small by (unfold in_width, BITMAP_BITS in *; lia).
  apply (wp_mono _ (fun _ s1 => (port_ok s1 /\ forall p, 0 <= p -> port_map s1 p =
    if nz b.(pci_bar.addr) && (p =? b.(pci_bar.addr) + i) then None else port_map s p) /\
    devices s1 = devices s)).
  - intros [] s1 [[Hok1 Hm1] Hd1].
    eapply wp_mono; [|apply register_wp; [done|lia|rewrite Hm1 by lia; by destruct (_ && _)]].
    intros [] s' [[Hok' Hm'] Hd']. split; [done|]. split; [congruence|]. intros p Hp.
    rewrite Hm', Hm1 by done. reflexivity.
  - unfold nz. destruct (Z.eqb_spec b.(pci_bar.addr) 0) as [Hz|Hz]; simpl; [by apply wp_done|].
    apply remove_wp; [done|lia|auto].
Qed.

Lemma move_io_bar_wp fuel i s :
  b.(pci_bar.size) - i < Z.of_nat fuel -> 0 <= i <= b.(pci_bar.size) -> port_ok s ->
  bar_of (the_device k s) n = b -> movable b base i (port_map s) ->
  wp (move_io_bar fuel k n offset Value i) (fun returned s' => returned = false /\ port_ok s' /\
    devices s' = devices s /\ forall p, 0 <= p -> port_map s' p = moved b base i (port_map s) p) s.
Proof.
  revert i s. induction fuel as [|fuel IH]; intros i s Hfuel Hi Hok Hb Hm; [lia|].
  cbn [move_io_bar]. eapply wp_run_bind; [apply get_bar_run|]. rewrite Hb.
  destruct (Z.leb_spec b.(pci_bar.size) i) as [Hend|Hlt].
  - apply wp_ret. repeat split; try done. intros p Hp. by rewrite moved_end.
  - pose proof Hwf as [[Hs0 Hs1] [Ha0 Ha1] [Hb0 Hb1]].
    eapply wp_run_bind. { unfold shl64. by rewrite (proj2 (Z.ltb_lt i 64)) by lia. }
    assert (nz (b.(pci_bar.mask) &. u64 (1 <<. i)) = Z.testbit b.(pci_bar.mask) i) as ->.
    { rewrite u64_small; [apply (tst_bit _ i); lia|]. rewrite Z.shiftl_1_l. split; [apply Z.pow_nonneg; lia|].
      apply Z.pow_lt_mono_r; lia. }
    assert (selected b i = negb (Z.testbit b.(pci_bar.mask) i)) as Hsel by (apply selected_at; lia).
    destruct (Z.testbit b.(pci_bar.mask) i); simpl in Hsel.
    + eapply wp_mono; [|apply IH; [lia|lia|done|done|by apply movable_skip]].
      intros r s' (? & ? & ? & Hmap). repeat split; try done. intros p Hp.
      by rewrite Hmap, moved_skip.
    + apply wp_bind. eapply wp_mono; [|by apply move_one_wp]. intros [] s1 Hwp.
      rewrite <- Hbase, (proj2 (Z.eqb_neq base 0)) by lia. apply wp_bind.
      eapply wp_mono; [|exact Hwp]. intros [] s2 (Hok2 & Hd2 & Hm2).
      eapply wp_mono; [|apply IH; [lia|lia|done| |]].
      * intros r s' (? & ? & ? & Hmap). split; [done|]. split; [done|]. split; [congruence|].
        intros p Hp. rewrite Hmap by done.
        by rewrite (moved_ext _ _ _ _ _ _ (Hm2 p Hp)), moved_step.
      * by rewrite (the_device_devices k s s2).
      * eapply movable_ext; [lia|lia|lia|exact Hm2|by apply movable_step].
Qed.
End MoveBar.

Lemma key_ok a : bad_key (key_of a) = false.
Proof.
  unfold bad_key, key_of, PCI_ADDRESS_TO_BUS, PCI_ADDRESS_TO_FUNCTION_DEVICE. cbn [fst snd].
  change 0xff with (Z.ones 8). rewrite !Z.land_ones by done.
  pose proof (Z.mod_pos_bound (a >>. 8) (2 ^ 8) eq_refl). pose proof (Z.mod_pos_bound (a >>. 16) (2 ^ 8) eq_refl).
  unfold MAX_PCI_DEVICES_PER_BUS, MAX_BUSES. by rewrite !(proj2 (Z.leb_gt _ _)) by lia.
Qed.

(** A device whose BAR [n] lies at [offset]. *)
Definition has_bar (d : PCI.t) (n offset : Z) : Prop :=
  0 <= n < 6 /\ offset = 0x10 + 4 * n /\ conf_ok d /\
  nth0 d.(PCI.conf) PCI_CONF_HDR_TYPE &. 3 = PCI_HDR_TYPE_DEVICE.

Lemma has_bar_is d n offset : has_bar d n offset -> is_bar d offset = true /\ (offset - 0x10) >>. 2 = n.
Proof.
  intros (Hn & -> & _ & Hh). unfold is_bar. rewrite Hh, Z.eqb_refl.
  unfold PCI_CONF_BAR0, PCI_CONF_BAR5. rewrite !(proj2 (Z.leb_le _ _)) by lia. split; [done|].
  rewrite Z.shiftr_div_pow2 by done. replace (0x10 + 4 * n - 0x10) with (n * 2 ^ 2) by lia.
  by apply Z.div_mul.
Qed.

Lemma bad_offset_4 offset : 0 <= offset < 0xfb -> bad_offset offset 4 = false.
Proof.
  intros Ho. unfold bad_offset. rewrite u32_small by (unfold in_width; lia).
  by rewrite (proj2 (Z.eqb_neq _ _)), (proj2 (Z.ltb_ge _ _)), (proj2 (Z.leb_gt _ _)) by lia.
Qed.

(** A DWORD read of the configuration space. *)
Lemma read_conf32 c offset (s : Machine.t) : 0 <= offset -> Forall is_u8 c ->
  read_conf c offset (seqZ 0 4) 0 s = Ok (conf32 offset c) s.
Proof.
  intros Ho Hc. change (seqZ 0 4) with [0; 1; 2; 3]. cbn -[u32 nth0 Z.lor Z.shiftl].
  unfold conf32. rewrite Z.add_0_r, Z.lor_0_l, Z.shiftl_0_r.
  assert (forall j m, 0 <= m <= 24 -> u32 (nth0 c j <<. m) = nth0 c j <<. m) as Hs.
  { intros j m Hm. apply u32_small. pose proof (Forall_nth0 8 c j ltac:(lia) Hc) as [H0 H1].
    rewrite Z.shiftl_mul_pow2 by lia. pose proof (Z.pow_le_mono_r 2 m 24). unfold in_width.
    change (2 ^ 32) with (2 ^ 8 * 2 ^ 24). nia. }
  rewrite !Hs by lia. rewrite (u32_small (nth0 c offset)); [reflexivity|].
  apply (in_width_le 8); [lia|]. by apply Forall_nth0.
Qed.

Lemma PciReadConf_bar_run Address n s :
  let d := the_device (key_of Address) s in
  has_bar d n (PCI_ADDRESS_TO_OFFSET Address) -> (bar_of d n).(pci_bar.type) <> BX_PCI_BAR_TYPE_NONE ->
  PciReadConfHandler Address 4 s = Ok (conf32 (PCI_ADDRESS_TO_OFFSET Address) d.(PCI.conf)) s.
Proof.
  intros d Hb Ht. destruct (has_bar_is _ _ _ Hb) as [His Hn]. pose proof Hb as (H6 & Ho & (_ & Hc & _) & _).
  unfold PciReadConfHandler, get_device. rewrite (run_bind _ _ _ _ _ (run_gets _ _)).
  change (device s.(Machine.Pci) (key_of Address)) with d.
  rewrite key_ok, bad_offset_4 by lia. rewrite His, Hn, (proj2 (Z.eqb_neq _ _) Ht), andb_false_r.
  rewrite (proj2 (Z.eqb_neq _ PCI_CONF_ROM_ADDRESS)) by (unfold PCI_CONF_ROM_ADDRESS; lia).
  apply read_conf32; [lia|done].
Qed.

Lemma bar_of_upd d n f : conf_ok d -> 0 <= n < 6 ->
  bar_of (d <| PCI.bar ::= fun l => updZ l n (f (bar_of d n)) |>) n = f (bar_of d n).
Proof. intros (_ & _ & Hl) Hn. unfold bar_of at 1. cbn. by rewrite nthZ_updZ_eq by lia. Qed.

Lemma wp_upd_device k f (Q : unit -> Machine.t -> Prop) s :
  Q tt (with_device k (f (the_device k s)) s) -> wp (upd_device k f) Q s.
Proof. done. Qed.

Lemma io_word_add Value : io_word Value = (Value &. ~. 3) + 1.
Proof.
  unfold io_word. symmetry. apply Z.add_nocarry_lor. rewrite <- Z.land_assoc.
  change (~. 3 &. 1) with 0. apply Z.land_0_r.
Qed.

Lemma has_bar_store d n offset v : has_bar d n offset ->
  has_bar (d <| PCI.conf ::= store32 offset v |>) n offset.
Proof.
  intros (Hn & Ho & (Hl & Hf & Hb) & Hh). split; [done|]. split; [done|]. split.
  - unfold conf_ok. cbn. rewrite length_store32. split; [done|]. split; [by apply Forall_store32|done].
  - cbn. by rewrite store32_other by (unfold PCI_CONF_HDR_TYPE; lia).
Qed.

Lemma has_bar_upd d n offset f : has_bar d n offset ->
  has_bar (d <| PCI.bar ::= fun l => updZ l n (f l) |>) n offset.
Proof.
  intros (Hn & Ho & (Hl & Hf & Hb) & Hh). split; [done|]. split; [done|]. split; [|done].
  unfold conf_ok. cbn. by rewrite length_updZ.
Qed.

Section MoveTheorem.
Context `{!Driver} `{!ConfCallbacks}.

(** A DWORD write to a BAR of an initialised device. *)
Lemma PciWriteConf_bar_run Address n Value s :
  let k := key_of Address in let d := the_device k s in let offset := PCI_ADDRESS_TO_OFFSET Address in
  has_bar d n offset -> nz d.(PCI.initialized) = true ->
  PciWriteConfHandler Address Value 4 s = write_bar k n offset Value 4 s.
Proof.
  intros k d offset Hb Hi. destruct (has_bar_is _ _ _ Hb) as [His Hn]. pose proof Hb as (H6 & Ho & _).
  unfold PciWriteConfHandler, get_device. rewrite (run_bind _ _ _ _ _ (run_gets _ _)). fold k offset.
  change (device s.(Machine.Pci) k) with d. unfold k at 1. rewrite key_ok, Hi, bad_offset_4 by lia.
  cbn [negb]. by rewrite His, Hn.
Qed.

(** The write to an I/O BAR, up to the work a change causes. *)
Lemma write_io_bar_wp k n offset Value s Q :
  let d := the_device k s in let b := bar_of d n in
  let s1 := with_device k (d <| PCI.conf ::= store32 offset (io_word Value) |>) s in
  0 <= offset -> offset + 3 < Z.of_nat (length d.(PCI.conf)) ->
  b.(pci_bar.type) = BX_PCI_BAR_TYPE_IO -> conf32 offset d.(PCI.conf) <> u32 (io_word Value) ->
  wp (if Value =? 0xffffffff then size_io_bar k b offset ;; mret true
      else move_io_bar (io_bar_fuel b) k n offset Value 0) (fun returned s2 =>
    wp (when (negb returned) (upd_bar k n (fun b => b <| pci_bar.addr := Value &. ~. 3 |>))) Q s2) s1 ->
  wp (write_bar k n offset Value 4) Q s.
Proof.
  intros d b s1 Ho Hl Ht Hc Hwp. unfold write_bar. eapply wp_run_bind; [apply get_bar_run|].
  change (bar_of (the_device k s) n) with b. rewrite Ht. cbn [negb when Z.eqb BX_PCI_BAR_TYPE_IO BX_PCI_BAR_TYPE_NONE].
  destruct (write_bytes k BX_PCI_BAR_TYPE_IO offset Value (io_word Value) s Ho Hl
    (io_word_byte0 Value) (fun n Hn => io_word_byte Value n (proj1 Hn))) as (c & Hrun & Hch).
  eapply wp_run_bind; [exact Hrun|]. destruct (nz c); [|by destruct (Hc (Hch eq_refl))]. cbn [when].
  apply wp_bind. exact Hwp.
Qed.

(** C16 A guest that writes a new address to an I/O base address register moves
    the device's ports: the ports of the new window reach the device, the old
    ones no longer exist, no other port changes, and the register reads back the
    address with the I/O flag. *)
Theorem io_bar_moves Address n Value s :
  let k := key_of Address in let d := the_device k s in let b := bar_of d n in
  let offset := PCI_ADDRESS_TO_OFFSET Address in let base := Value &. ~. 3 in
  has_bar d n offset -> nz d.(PCI.initialized) = true -> b.(pci_bar.type) = BX_PCI_BAR_TYPE_IO ->
  is_u32 Value -> Value <> 0xffffffff -> conf32 offset d.(PCI.conf) <> io_word Value ->
  bar_wf b base -> port_ok s -> movable b base 0 (port_map s) ->
  wp (PciWriteConfHandler Address Value 4 ;; PciReadConfHandler Address 4) (fun v s' =>
    v = base + 1 /\ (bar_of (the_device k s') n).(pci_bar.addr) = base /\ port_ok s' /\
    forall p, 0 <= p -> port_map s' p = moved b base 0 (port_map s) p) s.
Proof.
  intros k d b offset base Hb Hi Ht Hu Hv Hc Hwf Hok Hm.
  assert (is_u32 (io_word Value)) as Hw by (unfold io_word; auto 10 with width).
  pose proof Hb as (H6 & Ho & (Hl & _) & _). apply wp_bind. unfold wp at 1.
  rewrite (PciWriteConf_bar_run Address n Value s) by done. fold k d b offset.
  apply (write_io_bar_wp k n offset Value s); [lia|change (the_device k s) with d; rewrite Hl; lia|done| |].
  { by rewrite u32_small. }
  rewrite (proj2 (Z.eqb_neq _ _) Hv).
  change (bar_of (the_device k s) n) with b. change (the_device k s) with d. set (s1 := with_device _ _ _).
  assert (bar_of (the_device k s1) n = b) as Hb1 by (unfold s1; by rewrite the_device_with).
  eapply wp_mono; [|apply (move_io_bar_wp k n offset Value base b eq_refl Hwf)]; try done.
  - intros returned s2 (-> & Hok2 & Hd2 & Hm2). cbn [negb when].
    apply (wp_upd_device k). rewrite (the_device_devices k s1 s2 Hd2).
    set (d1 := the_device k s1). assert (d1 = d <| PCI.conf ::= store32 offset (io_word Value) |>) as Hd1.
    { unfold d1, s1. apply the_device_with. }
    assert (has_bar d1 n offset) as Hb'. { rewrite Hd1. by apply has_bar_store. }
    pose proof Hb' as (Hn & _ & Hwf1 & _).
    set (d3 := d1 <| PCI.bar ::= _ |>). set (s3 := with_device k d3 s2).
    assert (the_device (key_of Address) s3 = d3) as Hd3 by apply the_device_with.
    assert (bar_of d3 n = b <| pci_bar.addr := base |>) as Hbar.
    { unfold d3. rewrite (bar_of_upd d1 n (fun b => b <| pci_bar.addr := base |>)) by done.
      unfold d1. by rewrite Hb1. }
    unfold wp at 1. rewrite (PciReadConf_bar_run Address n s3).
    + rewrite Hd3. change (d3.(PCI.conf)) with d1.(PCI.conf). rewrite Hd1. split; [|split; [|split]].
      * cbn. rewrite conf32_store32 by (rewrite ?Hl; lia). rewrite u32_small by done.
        apply io_word_add.
      * change (the_device k s3) with (the_device (key_of Address) s3). by rewrite Hd3, Hbar.
      * done.
      * intros p Hp. change (port_map s3 p) with (port_map s2 p). by apply Hm2.
    + rewrite Hd3. unfold d3. apply (has_bar_upd d1 n offset (fun _ => _)). exact Hb'.
    + rewrite Hd3. fold offset. rewrite Hbar. cbn. by rewrite Ht.
  - unfold io_bar_fuel. lia.
  - destruct Hwf as [? _ _]. lia.
Qed.
End MoveTheorem.

(** ** The size of a BAR *)

(** The size a guest computes from the answer to an all-ones write. *)
Definition guest_size (flags v : Z) : Z := u32 (~. (v &. ~. flags) + 1).

(** The sizes of I/O and of memory BARs. *)
Definition power_between (m n size : Z) : Prop := exists e, m <= e <= n /\ size = 2 ^ e.

Lemma power_cases (P : Z -> bool) m n size : forallb (fun e => P (2 ^ e)) (seqZ m (n - m + 1)) = true ->
  power_between m n size -> P size = true.
Proof.
  intros Hall (e & He & ->). apply (all_range_spec (fun e => P (2 ^ e)) m (n - m + 1)); [done|lia].
Qed.

Lemma store32_store32 i v w c : store32 i v (store32 i w c) = store32 i v c.
Proof.
  unfold store32, alterZ.
  assert (forall j k (x y : Z) (l : list Z), j <> k -> updZ (updZ l j x) k y = updZ (updZ l k y) j x) as Hsw.
  { intros j k x y l Hjk. unfold updZ. destruct (Z.leb_spec 0 j), (Z.leb_spec 0 k); try done.
    apply list_insert_insert_ne. lia. }
  rewrite !(Hsw (i + 3) i), !(Hsw (i + 2) i), !(Hsw (i + 1) i), updZ_updZ by lia.
  rewrite !(Hsw (i + 3) (i + 1)), !(Hsw (i + 2) (i + 1)), updZ_updZ by lia.
  by rewrite (Hsw (i + 3) (i + 2)), !updZ_updZ by lia.
Qed.

Section Sizing.
Context `{!Driver} `{!ConfCallbacks}.

Lemma size_io_bar_run k b offset s :
  let d := the_device k s in
  size_io_bar k b offset s =
    Ok tt (with_device k (d <| PCI.conf ::= store32 offset (io_word (size_mask b)) |>) s).
Proof.
  intros d. unfold size_io_bar.
  repeat rewrite (run_bind _ _ _ _ _ (set_conf_run _ _ _ _)). rewrite set_conf_run.
  rewrite !with_device_with, !the_device_with. f_equal.
  apply (f_equal (fun x => with_device k x s)). unfold d, upd_field. cbn. f_equal.
  unfold store32. set (m := size_mask b).
    change BX_PCI_BAR_TYPE_IO with 1. assert (u8 ((m &. 0xfc) |. 1) = u8 (io_word m)) as ->.
  { rewrite <- (u8_u8 (io_word m)), <- io_word_byte0. change 0xfc with (0xff &. 0xfc) at 1.
    by rewrite Z.land_assoc. }
  assert (forall n, 0 < n -> u8 (m >>. (n * 8)) = u8 (io_word m >>. (n * 8))) as Hb.
  { intros n Hn. rewrite <- io_word_byte by done. change 0xff with (Z.ones 8). by rewrite Z.land_ones. }
  pose proof (Hb 1 eq_refl) as H1. pose proof (Hb 2 eq_refl) as H2. pose proof (Hb 3 eq_refl) as H3.
  change (1 * 8) with 8 in H1. change (2 * 8) with 16 in H2. change (3 * 8) with 24 in H3.
  by rewrite H1, H2, H3.
Qed.

(** The sizing protocol: all ones written to an I/O base address register make
    it answer with a mask from which the guest computes exactly the size of the
    window; nothing moves. *)
Theorem io_bar_size Address n s :
  let k := key_of Address in let d := the_device k s in let b := bar_of d n in
  let offset := PCI_ADDRESS_TO_OFFSET Address in
  has_bar d n offset -> nz d.(PCI.initialized) = true -> b.(pci_bar.type) = BX_PCI_BAR_TYPE_IO ->
  power_between 2 16 b.(pci_bar.size) -> conf32 offset d.(PCI.conf) <> 0xfffffffd ->
  wp (PciWriteConfHandler Address 0xffffffff 4 ;; PciReadConfHandler Address 4) (fun v s' =>
    guest_size 3 v = b.(pci_bar.size) /\ port_map s' = port_map s /\
    (bar_of (the_device k s') n).(pci_bar.addr) = b.(pci_bar.addr)) s.
Proof.
  intros k d b offset Hb Hi Ht Hs Hc. pose proof Hb as (H6 & Ho & (Hl & _) & _).
  apply wp_bind. unfold wp at 1. rewrite (PciWriteConf_bar_run Address n 0xffffffff s) by done. fold k d b offset.
  apply (write_io_bar_wp k n offset 0xffffffff s); [lia|change (the_device k s) with d; rewrite Hl; lia|done|done|].
  rewrite Z.eqb_refl. eapply wp_run_bind; [apply size_io_bar_run|]. apply wp_ret.
  cbn [negb when]. apply wp_done. rewrite with_device_with, the_device_with.
  change (bar_of (the_device k s) n) with b. change (the_device k s) with d. 
  set (d1 := d <| PCI.conf ::= _ |> <| PCI.conf ::= _ |>). set (s1 := with_device k d1 s).
  assert (the_device (key_of Address) s1 = d1) as Hd1 by apply the_device_with.
  unfold wp. rewrite (PciReadConf_bar_run Address n s1); rewrite Hd1.
  - split; [|split; [done|]].
    + unfold d1. cbn. rewrite store32_store32. fold offset. rewrite conf32_store32 by (rewrite ?Hl; lia).
      apply Z.eqb_eq. revert Hs. unfold size_mask. 
      apply (power_cases (fun size => guest_size 3 (u32 (io_word (u32 (~. (size - 1))))) =? size)).
      vm_compute. reflexivity.
    + change (the_device k s1) with (the_device (key_of Address) s1). by rewrite Hd1.
  - unfold d1. by do 2 apply has_bar_store.
  - change (bar_of d1 n) with b. by rewrite Ht.
Qed.

(** The word an all-ones write leaves in a memory BAR whose flags are [low]. *)
Definition mem_word (low : Z) : Z := 0xfffffff0 |. low.

Lemma mem_word_byte0 low : 0 <= low < 16 -> (0xff &. 0xf0) |. low = u8 (mem_word low).
Proof.
  intros Hl. apply Z.eqb_eq. revert Hl.
  apply (all_range_spec (fun low => (0xff &. 0xf0) |. low =? u8 (mem_word low)) 0 16). reflexivity.
Qed.

Lemma mem_word_byte low n : 0 <= low < 16 -> 0 < n < 4 ->
  (0xffffffff >>. (n * 8)) &. 0xff = u8 (mem_word low >>. (n * 8)).
Proof.
  intros Hl Hn. apply Z.eqb_eq. revert Hl.
  apply (all_range_spec (fun low => _ =? u8 (mem_word low >>. (n * 8))) 0 16).
  assert (n = 1 \/ n = 2 \/ n = 3) as [-> | [-> | ->]] by lia; reflexivity.
Qed.

Lemma low_nibble x : 0 <= x &. 0x0f < 16.
Proof. change 0x0f with (Z.ones 4). rewrite Z.land_ones by done. by apply Z.mod_pos_bound. Qed.

(** The four [&=] of the answer. *)
Definition and_mask (i mask : Z) (c : list Z) : list Z :=
  alterZ i (fun x => u8 (x &. (mask >>. 24))) (alterZ (i + 1) (fun x => u8 (x &. (mask >>. 16)))
    (alterZ (i + 2) (fun x => u8 (x &. (mask >>. 8))) (alterZ (i + 3) (fun x => u8 (x &. (mask &. 0xfc))) c))).

Lemma and_conf_run k i m s :
  (c ← get_conf k i; set_conf k i (c &. m)) s = Ok tt (with_device k (the_device k s
    <| PCI.conf ::= alterZ i (fun x => u8 (x &. m)) |>) s).
Proof. reflexivity. Qed.

Lemma size_mem_bar_run k b offset s :
  let d := the_device k s in
  size_mem_bar k b offset s =
    Ok tt (with_device k (d <| PCI.conf ::= and_mask offset (size_mask b) |>) s).
Proof.
  intros d. unfold size_mem_bar.
  repeat rewrite (run_bind _ _ _ _ _ (and_conf_run _ _ _ _)). rewrite and_conf_run.
  by rewrite !with_device_with, !the_device_with.
Qed.

Lemma conf32_and_mask i mask w c : 0 <= i -> i + 3 < Z.of_nat (length c) ->
  conf32 i (and_mask i mask (store32 i w c)) =
    u8 (u8 w &. (mask >>. 24)) |. (u8 (u8 (w >>. 8) &. (mask >>. 16)) <<. 8)
    |. (u8 (u8 (w >>. 16) &. (mask >>. 8)) <<. 16) |. (u8 (u8 (w >>. 24) &. (mask &. 0xfc)) <<. 24).
Proof.
  intros Hi Hc. unfold conf32, and_mask.
  repeat first [rewrite nth0_alterZ_ne by lia | rewrite nth0_alterZ_eq by (rewrite ?length_alterZ, ?length_store32; lia)].
  pose proof (store32_byte i w c Hi Hc 0 ltac:(lia)) as Hb0. rewrite Z.add_0_r in Hb0.
  by rewrite Hb0, !(store32_byte i w c Hi Hc) by lia.
Qed.

Lemma has_bar_mask d n offset m : has_bar d n offset ->
  has_bar (d <| PCI.conf ::= and_mask offset m |>) n offset.
Proof.
  intros (Hn & Ho & (Hl & Hf & Hb) & Hh). split; [done|]. split; [done|]. split.
  - unfold conf_ok, and_mask. cbn. rewrite !length_alterZ. split; [done|]. split; [|done].
    repeat (apply Forall_alterZ; [done| |auto with width]). done.
  - cbn. unfold and_mask. by rewrite !nth0_alterZ_ne by (unfold PCI_CONF_HDR_TYPE; lia).
Qed.

Lemma mem_word_large low : 0 <= low < 16 -> ~ u32 (mem_word low) < 0xfffffff0.
Proof.
  intros Hl. apply Z.le_ngt, Z.leb_le. revert Hl.
  apply (all_range_spec (fun low => 0xfffffff0 <=? u32 (mem_word low)) 0 16). reflexivity.
Qed.

(** The bytes of a memory BAR's mask, and the word the guest reads. *)
Definition answer (mask low : Z) : Z :=
  let w := mem_word low in
  u8 (u8 w &. (mask >>. 24)) |. (u8 (u8 (w >>. 8) &. (mask >>. 16)) <<. 8)
  |. (u8 (u8 (w >>. 16) &. (mask >>. 8)) <<. 16) |. (u8 (u8 (w >>. 24) &. (mask &. 0xfc)) <<. 24).

Lemma mem_answer_wrong b low : 0 <= low < 16 -> power_between 4 31 b.(pci_bar.size) ->
  guest_size 15 (answer (size_mask b) low) <> b.(pci_bar.size).
Proof.
  intros Hl Hs. apply Z.eqb_neq, negb_true_iff.
  refine (all_range_spec (fun low => negb (guest_size 15 (answer (size_mask b) low) =? b.(pci_bar.size))) 0 16 low _ Hl).
  refine (power_cases (fun size => forallb (fun low =>
    negb (guest_size 15 (answer (u32 (~. (size - 1))) low) =? size)) (seqZ 0 16)) 4 31 _ _ Hs).
  vm_compute. reflexivity.
Qed.

(** The sizing protocol fails for memory base address registers: the mask is
    combined with the bytes of the register in the reverse order, and for no
    power of two does the guest compute the size of the window. *)
Theorem mem_bar_size_wrong Address n s :
  let k := key_of Address in let d := the_device k s in let b := bar_of d n in
  let offset := PCI_ADDRESS_TO_OFFSET Address in
  has_bar d n offset -> nz d.(PCI.initialized) = true -> b.(pci_bar.type) = BX_PCI_BAR_TYPE_MEM ->
  power_between 4 31 b.(pci_bar.size) -> conf32 offset d.(PCI.conf) < 0xfffffff0 ->
  wp (PciWriteConfHandler Address 0xffffffff 4 ;; PciReadConfHandler Address 4) (fun v _ =>
    guest_size 15 v <> b.(pci_bar.size)) s.
Proof.
  intros k d b offset Hb Hi Ht Hs Hc. pose proof Hb as (H6 & Ho & (Hl & _) & _).
  apply wp_bind. unfold wp at 1. rewrite (PciWriteConf_bar_run Address n 0xffffffff s) by done. fold k d b offset.
  unfold write_bar. eapply wp_run_bind; [apply get_bar_run|]. change (bar_of (the_device k s) n) with b.
  rewrite Ht. cbn [negb when Z.eqb Pos.eqb BX_PCI_BAR_TYPE_MEM BX_PCI_BAR_TYPE_IO BX_PCI_BAR_TYPE_NONE].
  set (low := nth0 d.(PCI.conf) offset &. 0x0f). pose proof (low_nibble (nth0 d.(PCI.conf) offset)) as Hlow.
  destruct (write_bytes k BX_PCI_BAR_TYPE_MEM offset 0xffffffff (mem_word low) s) as (c & Hrun & Hch);
    [lia|change (the_device k s) with d; rewrite Hl; lia|by apply mem_word_byte0|intros; by apply mem_word_byte|].
  eapply wp_run_bind; [exact Hrun|]. change (the_device k s) with d in Hrun, Hch |- *.
  destruct (nz c); [|exfalso; rewrite (Hch eq_refl) in Hc; by apply (mem_word_large low)]. cbn [when].
  apply wp_bind. eapply wp_run_bind; [apply size_mem_bar_run|]. apply wp_ret.
  cbn [negb when]. apply wp_done. rewrite with_device_with, the_device_with.
  set (d1 := d <| PCI.conf ::= _ |> <| PCI.conf ::= _ |>). set (s1 := with_device k d1 s).
  assert (the_device (key_of Address) s1 = d1) as Hd1 by apply the_device_with.
  unfold wp. rewrite (PciReadConf_bar_run Address n s1); rewrite Hd1.
  - unfold d1. cbn. fold offset. rewrite conf32_and_mask by (rewrite ?Hl; lia). by apply mem_answer_wrong.
  - unfold d1. by apply has_bar_mask, has_bar_store.
  - change (bar_of d1 n) with b. by rewrite Ht.
Qed.
End Sizing.

(** ** Footprint *)

(** What the tables and the devices' configuration write: the tables, the slots of
    the guest's memory and the requests to the driver. *)
Class PciFootprint (R : Machine.t -> Machine.t -> Prop) : Prop := {
  pci_preorder : PreOrder R;
  fp_pci s g : R s (s <| Machine.Pci ::= g |>);
  fp_gvm s g : R s (s <| Machine.Gvm ::= g |>);
  fp_pci_ioctls s g : R s (s <| Machine.ioctls ::= g |>)
}.
#[export] Hint Extern 1 (PreOrder ?R) =>
  match goal with H : PciFootprint R |- _ => exact (@pci_preorder R H) end : typeclass_instances.
#[export] Hint Extern 2 (PciFootprint (keeps _)) => (split; [apply _|reflexivity..]) : typeclass_instances.
#[export] Hint Extern 2 (PciFootprint (preserves _)) =>
  (split; [apply _| ..]; let s := fresh in let H := fresh in intros s ? H; exact H) : typeclass_instances.

Section PciSafe.
Context `{!Driver} (R : Machine.t -> Machine.t -> Prop) `{!PciFootprint R}.

#[local] Hint Opaque upd_pci upd_device get_device set_conf get_conf upd_bar get_bar disable_bar
  size_io_bar size_mem_bar move_io_bar move_mem_bar write_bar_bytes u8 u32 : typeclass_instances.

#[export] Instance safe_upd_pci f : Within R (upd_pci f).
Proof. apply within_modify. intros s. apply fp_pci. Qed.
#[export] Instance safe_upd_slot i f : Within R (upd_at mem_slots i f).
Proof. apply within_upd_at. intros. apply fp_gvm. Qed.
#[export] Instance safe_pci_ioctl r : Within R (DeviceIoControl r).
Proof.
  unfold DeviceIoControl. assert (forall f, Within R (modify (fun s => s <| Machine.ioctls ::= f |>))).
  { intros f. apply within_modify. intros s. apply fp_pci_ioctls. } apply _.
Qed.
#[export] Instance safe_set_region m : Within R (set_region m).
Proof. unfold set_region. apply _. Qed.
#[export] Instance safe_slot_search fuel l r i a b : Within R (slot_search fuel l r i a b).
Proof. revert l r i. induction fuel; intros; simpl; apply _. Qed.
#[export] Instance safe_unmap a n : Within R (gvm_unmap_memory a n).
Proof. unfold gvm_unmap_memory, find_slot. apply _. Qed.
#[export] Instance safe_map a n r : Within R (gvm_map_memory a n r).
Proof. unfold gvm_map_memory, find_slot. apply _. Qed.
#[export] Instance safe_port_zoom {A} (m : M RTL_BITMAP.t A) : Within R (zoom PortIoBitmap m).
Proof. apply (within_zoom _ any); [intros; apply fp_pci|apply within_any]. Qed.
#[export] Instance safe_page_zoom {A} (m : M RTL_BITMAP.t A) : Within R (zoom MMIOBitmap m).
Proof. apply (within_zoom _ any); [intros; apply fp_pci|apply within_any]. Qed.
#[export] Instance safe_register a w r : Within R (RegisterPortIoHandler a w r).
Proof. unfold RegisterPortIoHandler. apply _. Qed.
#[export] Instance safe_remove a : Within R (RemovePortIoHandler a).
Proof. unfold RemovePortIoHandler. apply _. Qed.
#[export] Instance safe_mmio_set_loop fuel i l w r : Within R (mmio_set_loop fuel i l w r).
Proof. revert i. induction fuel; intros; simpl; unfold mmio_set; apply _. Qed.
#[export] Instance safe_mmio_register a n w r : Within R (MmioRegisterHandler a n w r).
Proof. unfold MmioRegisterHandler, gvm_register_mmio. apply _. Qed.
#[export] Instance safe_mmio_remove a : Within R (MmioRemoveHandler a).
Proof. unfold MmioRemoveHandler, gvm_remove_mmio. apply _. Qed.
#[export] Instance safe_upd_device k f : Within R (upd_device k f).
Proof. unfold upd_device. apply _. Qed.
#[export] Instance safe_get_device k : Within R (get_device k).
Proof. unfold get_device. apply _. Qed.
#[export] Instance safe_set_conf k i v : Within R (set_conf k i v).
Proof. unfold set_conf. apply _. Qed.
#[export] Instance safe_get_conf k i : Within R (get_conf k i).
Proof. unfold get_conf. apply _. Qed.
#[export] Instance safe_disable k n o c : Within R (disable_bar k n o c).
Proof. unfold disable_bar, upd_bar. apply _. Qed.
#[export] Instance safe_bar_bytes k t o v l c : Within R (write_bar_bytes k t o v l c).
Proof. revert c. induction l; intros; simpl; apply _. Qed.
#[export] Instance safe_move_io fuel k n o v i : Within R (move_io_bar fuel k n o v i).
Proof. revert i. induction fuel; intros; simpl; unfold get_bar; apply _. Qed.
#[export] Instance safe_move_mem fuel k n o v i : Within R (move_mem_bar fuel k n o v i).
Proof. revert i. induction fuel; intros; simpl; unfold get_bar; apply _. Qed.
#[export] Instance safe_size_io k b o : Within R (size_io_bar k b o).
Proof. unfold size_io_bar. cbv zeta. apply _. Qed.
#[export] Instance safe_size_mem k b o : Within R (size_mem_bar k b o).
Proof. unfold size_mem_bar. cbv zeta. apply _. Qed.
#[export] Instance safe_upd_bar k n f : Within R (upd_bar k n f).
Proof. unfold upd_bar. apply _. Qed.
#[export] Instance safe_get_bar k n : Within R (get_bar k n).
Proof. unfold get_bar. apply _. Qed.
#[export] Instance safe_write_bar k n o v l : Within R (write_bar k n o v l).
Proof. unfold write_bar. generalize mem_bar_fuel io_bar_fuel. intros. apply _. Qed.

Lemma PciWriteConfHandler_within `{!ConfCallbacks} a v l :
  (forall h k o v l, Within R (conf_write h k o v l)) -> Within R (PciWriteConfHandler a v l).
Proof. intros. unfold PciWriteConfHandler. apply _. Qed.
Lemma PciReadConfHandler_within a l : Within R (PciReadConfHandler a l).
Proof.
  unfold PciReadConfHandler. assert (forall c o l v, Within R (read_conf c o l v)) as Hread.
  { intros c o l'. induction l'; intros; simpl; apply _. }
  apply _.
Qed.
End PciSafe.

Lemma PciSetIrq_within `{!Driver} (R : Machine.t -> Machine.t -> Prop) `{!IrqSafe R} a n r :
  (forall i, Within R (IoApicRaiseIrq i)) -> (forall i, Within R (IoApicLowerIrq i)) -> Within R (PciSetIrq a n r).
Proof.
  intros Hraise Hlower. unfold PciSetIrq. cbv zeta.
  set (routed := _ &. 3). generalize routed. intros irq.
  assert (Within R (get_conf (key_of a) (0x60 + irq))) by (unfold get_conf, get_device; apply _).
  apply _.
Qed.

(** ** Examples *)

#[local] Existing Instance example_driver.
#[local] Instance example_conf : ConfCallbacks := fun _ _ _ _ _ => done_.

(** A device at slot 1 with a window of 16 ports in its first BAR, or 16 MB. *)
Definition example_device (type size : Z) : PCI.t :=
  PCI.zero <| PCI.initialized := 1 |>
           <| PCI.bar ::= fun l => updZ l 0 (pci_bar.mk type size 0 0 (Some cb_Ide) (Some cb_Ide)) |>.
Definition example_pci (type size : Z) : Machine.t := with_device (0, 8) (example_device type size) Machine.zero.

Lemma example_has_bar type size : has_bar (the_device (0, 8) (example_pci type size)) 0 0x10.
Proof.
  split; [lia|]. split; [reflexivity|]. split; [|reflexivity].
  split; [reflexivity|]. split; [|reflexivity]. unfold the_device, example_pci.
  apply (Forall_replicate is_u8 256 0). by split.
Qed.

Lemma example_movable base : movable (bar_of (example_device BX_PCI_BAR_TYPE_IO 16) 0) base 0
  (port_map (example_pci BX_PCI_BAR_TYPE_IO 16)).
Proof. intros j _ _. split; [reflexivity|]. intros Ha. by destruct (Ha eq_refl). Qed.

Lemma io_bar_moves_witness :
  wp (PciWriteConfHandler 0x810 0xc001 4 ;; PciReadConfHandler 0x810 4) (fun v s' =>
    v = 0xc001 /\ port_map s' 0xc00f = Some (Some cb_Ide, Some cb_Ide)) (example_pci BX_PCI_BAR_TYPE_IO 16).
Proof.
  eapply wp_mono; [|apply (io_bar_moves 0x810 0 0xc001 (example_pci BX_PCI_BAR_TYPE_IO 16)
    (example_has_bar _ _))].
  - intros v s' (Hv & _ & _ & Hp). split; [exact Hv|]. rewrite Hp by discriminate. reflexivity.
  - reflexivity.
  - reflexivity.
  - split; [discriminate|reflexivity].
  - discriminate.
  - discriminate.
  - split; split; discriminate || reflexivity.
  - left. reflexivity.
  - apply example_movable.
Defined.

Lemma io_bar_size_witness :
  wp (PciWriteConfHandler 0x810 0xffffffff 4 ;; PciReadConfHandler 0x810 4) (fun v _ =>
    guest_size 3 v = 16) (example_pci BX_PCI_BAR_TYPE_IO 16).
Proof.
  eapply wp_mono; [|apply (io_bar_size 0x810 0 (example_pci BX_PCI_BAR_TYPE_IO 16) (example_has_bar _ _))].
  - intros v s' [H _]. exact H.
  - reflexivity.
  - reflexivity.
  - exists 4. split; [split; discriminate|reflexivity].
  - discriminate.
Defined.

Lemma mem_bar_size_wrong_witness :
  wp (PciWriteConfHandler 0x810 0xffffffff 4 ;; PciReadConfHandler 0x810 4) (fun v _ =>
    guest_size 15 v <> 2 ^ 24) (example_pci BX_PCI_BAR_TYPE_MEM (2 ^ 24)).
Proof.
  apply (mem_bar_size_wrong 0x810 0 (example_pci BX_PCI_BAR_TYPE_MEM (2 ^ 24)) (example_has_bar _ _)).
  - reflexivity.
  - reflexivity.
  - exists 24. split; [split; discriminate|reflexivity].
  - reflexivity.
Defined.
