(* ===== verification/Memory.v ===== *)
(** SVMM.c: the guest's memory.

    The guest's memory is one host allocation: [RamSize] bytes of RAM, the ROMs
    and the memory of system-management mode behind it.  This file models the
    translation of guest-physical and guest-virtual addresses to host addresses,
    and compares the page walk with the architecture's. *)

From S2P Require Export PciConf.

(** SVMM.h *)
Definition CPU_MODE_REAL : Z := 0.
Definition CPU_MODE_PROTECTED : Z := 1.
Definition CPU_MODE_LONG_MODE : Z := 2.
Definition SMM_RAM_SIZE : Z := 0x20000.
Definition BX_CR3_PAGING_MASK : Z := 0x000ffffffffff000.
Definition PAGING_MASK : Z := 0x000ffffffffff000.
Definition PAGE_1GB_ENABLED : Z := bit 7.
Definition PAGE_2MB_ENABLED : Z := bit 7.
Definition CR0_PG : Z := bit 31.
Definition EFER_LME : Z := bit 8.
Definition CR4_PAE : Z := bit 5.

(** ** Host memory *)

Definition get_svmm : IO SVMM.t := gets Machine.Svmm.

(** Reads and writes of [n] bytes through a host pointer; outside the allocation
    the behaviour is undefined. *)
Definition inside (v : SVMM.t) (a n : Z) : bool :=
  (v.(SVMM.Ram) <=? a) && (a + n <=? v.(SVMM.MemoryEnd)).

Definition mem_byte (v : SVMM.t) (a : Z) : Z := default 0 (v.(SVMM.Memory) !! a).
Definition mem_bytes (v : SVMM.t) (a : Z) (n : nat) : list Z :=
  map (fun i => mem_byte v (a + i)) (seqZ 0 (Z.of_nat n)).
Definition mem_word (v : SVMM.t) (a : Z) (n : nat) : Z := le_read n (mem_bytes v a n).

Definition host_read (a : Z) (n : nat) : IO Z :=
  v ← get_svmm;
  if a =? 0 then stop NullPointer
  else if inside v a (Z.of_nat n) then mret (mem_word v a n) else stop OutOfBounds.

Fixpoint store_bytes (n : nat) (a x : Z) (m : gmap Z Z) : gmap Z Z :=
  match n with
  | O => m
  | S n => store_bytes n (a + 1) (x / 2 ^ 8) (<[a := u8 x]> m)
  end.

Definition host_write (a : Z) (n : nat) (x : Z) : IO unit :=
  v ← get_svmm;
  if a =? 0 then stop NullPointer
  else if inside v a (Z.of_nat n) then
    modify (fun s => s <| Machine.Svmm ::= fun v => v <| SVMM.Memory ::= store_bytes n a x |> |>)
  else stop OutOfBounds.

(** The same for buffers. *)
Definition host_copy (a n : Z) : IO (list Z) :=
  v ← get_svmm;
  if a =? 0 then stop NullPointer
  else if inside v a n then mret (mem_bytes v a (Z.to_nat n)) else stop OutOfBounds.

Fixpoint put_list (a : Z) (l : list Z) (m : gmap Z Z) : gmap Z Z :=
  match l with
  | [] => m
  | x :: l => put_list (a + 1) l (<[a := x]> m)
  end.

Definition host_store (a : Z) (l : list Z) : IO unit :=
  v ← get_svmm;
  if a =? 0 then stop NullPointer
  else if inside v a (Z.of_nat (length l)) then
    modify (fun s => s <| Machine.Svmm ::= fun v => v <| SVMM.Memory ::= put_list a l |> |>)
  else stop OutOfBounds.

Lemma mem_bytes_app v a n m : mem_bytes v a (n + m) = mem_bytes v a n ++ mem_bytes v (a + Z.of_nat n) m.
Proof.
  unfold mem_bytes. rewrite Nat2Z.inj_add, seqZ_app by lia. rewrite map_app. f_equal. apply list_eq. intros j.
  change (@map Z Z) with (@fmap list _ Z Z). rewrite !list_lookup_fmap.
  destruct (decide (j < m)%nat) as [Hj|Hj].
  - rewrite !lookup_seqZ_lt by lia. simpl. f_equal. f_equal. lia.
  - rewrite !lookup_seqZ_ge by lia. done.
Qed.
Lemma length_mem_bytes v a n : length (mem_bytes v a n) = n.
Proof. unfold mem_bytes. rewrite length_map, length_seqZ. lia. Qed.

Lemma put_list_before l a m b : b < a -> put_list a l m !! b = m !! b.
Proof.
  revert a m. induction l as [|x l IH]; intros a m Hb; [done|]. cbn [put_list].
  rewrite IH by lia. apply lookup_insert_ne. lia.
Qed.
Lemma put_list_at l a m j x : l !! j = Some x -> put_list a l m !! (a + Z.of_nat j) = Some x.
Proof.
  revert a m j. induction l as [|y l IH]; intros a m [|j] Hj; [done|done| |]; cbn [put_list].
  - injection Hj as ->. rewrite put_list_before by lia. replace (a + Z.of_nat 0) with a by lia. apply lookup_insert_eq.
  - replace (a + Z.of_nat (S j)) with (a + 1 + Z.of_nat j) by lia. by apply IH.
Qed.
Lemma put_list_read v l a : mem_bytes (v <| SVMM.Memory ::= put_list a l |>) a (length l) = l.
Proof.
  unfold mem_bytes. apply list_eq. intros j. change (@map Z Z) with (@fmap list _ Z Z). rewrite list_lookup_fmap.
  destruct (l !! j) as [x|] eqn:Hx.
  - pose proof (lookup_lt_Some _ _ _ Hx). rewrite lookup_seqZ_lt by lia. cbn. unfold mem_byte.
    cbn [SVMM.Memory]. by rewrite (put_list_at l a _ j x Hx).
  - apply lookup_ge_None in Hx. by rewrite lookup_seqZ_ge by lia.
Qed.

(** ** Guest-physical addresses *)

(** The result is a host address, 0 for the null pointer. *)
Definition host_page (smm_enabled : bool) (v : SVMM.t) (gpaAddress : Z) : Z :=
  let smbase := v.(SVMM.Registers).(REGISTERS.smbase) in
  let hostAddress :=
    if (0xFFFE0000 <=? gpaAddress) && (gpaAddress <=? 0xFFFFFFFF) then
      u64 (v.(SVMM.Ram) + v.(SVMM.RamSize) + 0xE0000 + (gpaAddress - 0xFFFE0000))
    else if (0xE0000 <=? gpaAddress) && (gpaAddress <=? 0xFFFFF) then
      u64 (v.(SVMM.Ram) + v.(SVMM.RamSize) + gpaAddress)
    else if smm_enabled && (smbase <=? gpaAddress) && (gpaAddress <=? u64 (smbase + SMM_RAM_SIZE)) then
      u64 (v.(SVMM.Ram) + v.(SVMM.RamSize) + ROM_SIZE + PAGE_SIZE
           + ((gpaAddress - smbase) &. (SMM_RAM_SIZE - 1)))
    else u64 (v.(SVMM.Ram) + gpaAddress) in
  if v.(SVMM.MemoryEnd) <=? hostAddress then 0 else hostAddress.

(** [PciDevices[0][BX_PCI_DEVICE(1, 3)].conf[0x5b] & 2] *)
Definition smm_enabled (s : Machine.t) : bool :=
  nth0 (the_device (0, BX_PCI_DEVICE 1 3) s).(PCI.conf) 0x5b &? 2.

Definition SvmmGetHostPageFromGPA (gpaAddress : Z) : IO Z :=
  gets (fun s => host_page (smm_enabled s) s.(Machine.Svmm) gpaAddress).

(** ** The processor's state *)

Definition SvmmGetCpuMode : IO Z :=
  v ← get_svmm;
  let r := v.(SVMM.Registers) in
  mret (if negb (r.(REGISTERS.cr0) &? 1) then CPU_MODE_REAL
        else if r.(REGISTERS.cr4) &? bit 5 then CPU_MODE_LONG_MODE
        else CPU_MODE_PROTECTED).

Definition SvmmGetRip : IO Z :=
  Mode ← SvmmGetCpuMode;
  v ← get_svmm;
  let r := v.(SVMM.Registers) in
  mret (if Mode =? CPU_MODE_REAL then u64 (r.(REGISTERS.rip) + (r.(REGISTERS.cs_selector) <<. 4))
        else if Mode =? CPU_MODE_PROTECTED then u64 (r.(REGISTERS.rip) + r.(REGISTERS.cs_base))
        else r.(REGISTERS.rip)).

(** The fields of [SvmmInitializeRegisterState] that the model keeps. *)
Definition SvmmInitializeRegisterState : IO unit :=
  modify (fun s => s <| Machine.Svmm ::= fun v => v <| SVMM.Registers :=
    REGISTERS.zero <| REGISTERS.rip := 0xFFF0 |> <| REGISTERS.cr0 := 0x60000010 |>
      <| REGISTERS.cs_selector := 0xF000 |> <| REGISTERS.cs_base := 0xFFFF0000 |>
      <| REGISTERS.smbase := 0x30000 |> |> |>).

(** ** Guest-virtual addresses *)

Definition Pml4Levels : list Z := [9; 9; 9; 9].
Definition PdePaeLevels : list Z := [9; 9; 2].
Definition PdeNoPaeLevels : list Z := [10; 10].

(** [bitsSum] at [leaf]: the bits below the level's index. *)
Definition bits_below (Levels : list Z) (leaf : nat) : Z := fold_left Z.add (take leaf Levels) 12.

(** The address of the entry for [Gva] in the table at [phys]. *)
Definition entry_address (Levels : list Z) (EntrySize : Z) (leaf : nat) (phys Gva : Z) : Z :=
  u64 (phys + ((Gva >>. bits_below Levels leaf) &. (bit (nth0 Levels (Z.of_nat leaf)) - 1)) * EntrySize).

(** One turn of the walk, from the table at [phys]; [leaves] is the number of
    levels left. *)
Fixpoint walk (Levels : list Z) (EntrySize Gva : Z) (leaves : nat) (phys entry : Z) : IO Z :=
  match leaves with
  | O => mret (u64 ((entry &. PAGING_MASK) + (Gva &. 0xfff)))
  | S leaf =>
      entry ← host_read (entry_address Levels EntrySize leaf phys Gva) (Z.to_nat EntrySize);
      if Nat.eqb leaf 2 && (entry &? PAGE_1GB_ENABLED) then
        mret (u64 ((entry &. PAGING_MASK) + (Gva &. 0x1fffffff)))
      else if Nat.eqb leaf 1 && (entry &? PAGE_2MB_ENABLED) then
        mret (u64 ((entry &. PAGING_MASK) + (Gva &. 0x1fffff)))
      else
        phys ← SvmmGetHostPageFromGPA (entry &. PAGING_MASK);
        if phys =? 0 then mret 0 else walk Levels EntrySize Gva leaf phys entry
  end.

Definition Pml4GetGpaFromGva (Gva : Z) (Levels : list Z) (EntrySize : Z) : IO Z :=
  v ← get_svmm;
  phys ← SvmmGetHostPageFromGPA (v.(SVMM.Registers).(REGISTERS.cr3) &. BX_CR3_PAGING_MASK);
  if phys =? 0 then mret 0 else walk Levels EntrySize Gva (length Levels) phys 0.

Definition SvmmGetGpaFromGva (GuestVirtualAddress : Z) : IO Z :=
  v ← get_svmm;
  let r := v.(SVMM.Registers) in
  if r.(REGISTERS.efer) &? EFER_LME then Pml4GetGpaFromGva GuestVirtualAddress Pml4Levels 8
  else if r.(REGISTERS.cr4) &? CR4_PAE then Pml4GetGpaFromGva GuestVirtualAddress PdePaeLevels 8
  else Pml4GetGpaFromGva GuestVirtualAddress PdeNoPaeLevels 4.

Definition SvmmGetHostAddress (GuestAddress : Z) : IO Z :=
  v ← get_svmm;
  gpaAddress ← (if v.(SVMM.Registers).(REGISTERS.cr0) &? CR0_PG then SvmmGetGpaFromGva GuestAddress
                else mret GuestAddress);
  SvmmGetHostPageFromGPA gpaAddress.

(** ** Bounds of the host addresses *)

(** The allocation [main] makes. *)
Record memory_wf (v : SVMM.t) : Prop := {
  mem_ram : 0 < v.(SVMM.Ram);
  mem_size : 0 <= v.(SVMM.RamSize);
  mem_end : v.(SVMM.MemoryEnd) = v.(SVMM.Ram) + v.(SVMM.RamSize) + ROM_SIZE + PAGE_SIZE + SMM_RAM_SIZE;
  mem_top : v.(SVMM.MemoryEnd) + 2 ^ 52 <= 2 ^ 64;
  mem_smbase : 0 <= v.(SVMM.Registers).(REGISTERS.smbase) < 2 ^ 64 - SMM_RAM_SIZE
}.

Ltac mem_consts := unfold ROM_SIZE, BIOSROMSZ, EXROMSIZE, PAGE_SIZE, SMM_RAM_SIZE, bit in *;
  change (1 <<. 21) with 0x200000 in *.

(** The host address of a guest-physical address is the null pointer or lies
    inside the allocation, whatever the guest's base of system-management memory. *)
Theorem host_page_bounds smm v gpa :
  memory_wf v -> 0 <= gpa < 2 ^ 52 ->
  host_page smm v gpa = 0 \/ v.(SVMM.Ram) <= host_page smm v gpa < v.(SVMM.MemoryEnd).
Proof.
  intros [Hr Hs He Ht Hsm] Hg. unfold host_page. mem_consts.
  assert (0 <= (gpa - v.(SVMM.Registers).(REGISTERS.smbase)) &. (0x20000 - 1) < 0x20000) as Hoff.
  { change (0x20000 - 1) with (Z.ones 17). rewrite Z.land_ones by done. by apply Z.mod_pos_bound. }
  repeat case_match; try (left; reflexivity); right;
    repeat match goal with
    | H : _ && _ = true |- _ => apply andb_true_iff in H as [? ?]
    | H : (_ <=? _) = true |- _ => apply Z.leb_le in H
    | H : (_ <=? _) = false |- _ => apply Z.leb_gt in H
    end; rewrite u64_small in * by (unfold in_width; lia); lia.
Qed.

(** ** The architecture's page walk

    A table has 512 entries of 8 bytes; bits 51 to 12 of an entry hold the address
    of the next table or of the page.  An entry of the third or second level with
    bit 7 set maps a page of 1 GB or 2 MB. *)

(** Bits 51 to [k] of an entry. *)
Definition frame (e k : Z) : Z := (e mod 2 ^ 52) / 2 ^ k * 2 ^ k.

Definition ram_entry (v : SVMM.t) (gpa : Z) : Z := mem_word v (v.(SVMM.Ram) + gpa) 8.
Definition large (leaf : nat) (e : Z) : bool := (Nat.eqb leaf 1 || Nat.eqb leaf 2) && Z.testbit e 7.

Section Reference.
Context (v : SVMM.t) (gva : Z).

(** The bits a level of the walk leaves for the levels below it. *)
Definition shift (leaf : nat) : Z := 12 + 9 * Z.of_nat leaf.
Definition entry_of (leaf : nat) (table : Z) : Z :=
  ram_entry v (table + 8 * ((gva / 2 ^ shift leaf) mod 512)).

Fixpoint ref_walk (leaves : nat) (table : Z) : Z :=
  match leaves with
  | O => table + gva mod 2 ^ 12
  | S leaf =>
      let e := entry_of leaf table in
      if large leaf e then frame e (shift leaf) + gva mod 2 ^ shift leaf
      else ref_walk leaf (frame e 12)
  end.

(** The walk stays in the guest's RAM: the tables and the page do not lie in one
    of the windows [host_page] redirects; a large page is aligned. *)
Definition plain (smm : bool) (gpa : Z) : Prop :=
  0 <= gpa /\ gpa + 0x1000 <= v.(SVMM.RamSize) /\
  host_page smm v gpa = v.(SVMM.Ram) + gpa.

Fixpoint walkable (smm : bool) (leaves : nat) (table : Z) : Prop :=
  plain smm table /\
  match leaves with
  | O => True
  | S leaf =>
      let e := entry_of leaf table in
      if large leaf e then frame e (shift leaf) = frame e 12 /\ (leaf = 2%nat -> Z.testbit gva 29 = false)
      else walkable smm leaf (frame e 12)
  end.

Lemma frame_range e k : 0 <= k <= 52 -> 0 <= frame e k < 2 ^ 52.
Proof.
  intros Hk. unfold frame. pose proof (Z.mod_pos_bound e (2 ^ 52) eq_refl).
  pose proof (Z.pow_pos_nonneg 2 k). 
  pose proof (Z.mul_div_le (e mod 2 ^ 52) (2 ^ k)). 
  pose proof (Z.div_pos (e mod 2 ^ 52) (2 ^ k)). nia.
Qed.

Lemma paging_mask e : e &. PAGING_MASK = frame e 12.
Proof.
  unfold frame. rewrite <- Z.shiftr_div_pow2, <- Z.shiftl_mul_pow2 by done.
  change PAGING_MASK with (Z.ones 40 <<. 12). apply Z.bits_inj'; intros i Hi.
  rewrite Z.land_spec, !Z.shiftl_spec by done. destruct (Z.ltb_spec i 12).
  - rewrite !(Z.testbit_neg_r _ (i - 12)) by lia. apply andb_false_r.
  - rewrite Z.shiftr_spec, testbit_mod_pow2, Z.testbit_ones_nonneg by lia.
    replace (i - 12 + 12) with i by lia. rewrite andb_comm. f_equal.
    apply eq_iff_eq_true. rewrite !Z.ltb_lt. lia.
Qed.

Lemma levels leaf : (leaf < 4)%nat ->
  bits_below Pml4Levels leaf = shift leaf /\ nth0 Pml4Levels (Z.of_nat leaf) = 9.
Proof. intros H. destruct leaf as [|[|[|[|leaf]]]]; [done..|lia]. Qed.
End Reference.

Lemma bit29_clear gva : Z.testbit gva 29 = false -> gva mod 2 ^ 29 = gva mod 2 ^ 30.
Proof.
  intros Hb. apply Z.bits_inj'; intros i Hi. rewrite !testbit_mod_pow2 by done.
  destruct (Z.ltb_spec i 29), (Z.ltb_spec i 30); try done; try lia.
  replace i with 29 by lia. by rewrite Hb.
Qed.

Lemma bit29_set gva : Z.testbit gva 29 = true -> gva mod 2 ^ 30 = gva mod 2 ^ 29 + 2 ^ 29.
Proof.
  intros Hb. change (2 ^ 30) with (2 ^ 29 * 2). rewrite Z.rem_mul_r by done.
  rewrite Z.testbit_true in Hb by done. rewrite Hb. lia.
Qed.

Section Walk.
Context (gva : Z) (s : Machine.t).
Let v := s.(Machine.Svmm).
Let smm := smm_enabled s.
Hypothesis (Hwf : memory_wf v) (Hgva : 0 <= gva).

Lemma entry_read leaf table : (leaf < 4)%nat -> plain v smm table ->
  host_read (entry_address Pml4Levels 8 leaf (v.(SVMM.Ram) + table) gva) (Z.to_nat 8) s =
    Ok (entry_of v gva leaf table) s.
Proof.
  intros Hleaf (Ht0 & Ht1 & _). destruct (levels leaf Hleaf) as [Hb Hn]. destruct Hwf as [Hr Hs He Htop _].
  mem_consts. unfold entry_address, entry_of, ram_entry. rewrite Hb, Hn. change (bit 9 - 1) with (Z.ones 9).
  rewrite Z.land_ones, Z.shiftr_div_pow2 by (unfold shift; lia). change (2 ^ 9) with 512.
  pose proof (Z.mod_pos_bound (gva / 2 ^ shift leaf) 512 eq_refl) as Hi.
  set (i := (gva / 2 ^ shift leaf) mod 512) in *.
  rewrite u64_small by (unfold in_width; lia). replace (v.(SVMM.Ram) + table + i * 8) with (v.(SVMM.Ram) + (table + 8 * i)) by lia.
  unfold host_read, get_svmm. rewrite (run_bind _ _ _ _ _ (run_gets _ _)). fold v.
  rewrite (proj2 (Z.eqb_neq _ 0)) by lia. unfold inside.
  rewrite !(proj2 (Z.leb_le _ _)) by (change (Z.of_nat (Z.to_nat 8)) with 8; lia). reflexivity.
Qed.

Lemma large_1gb leaf e : Nat.eqb leaf 2 && (e &? PAGE_1GB_ENABLED) = (Nat.eqb leaf 2 && large leaf e).
Proof.
  unfold PAGE_1GB_ENABLED. rewrite tst_bit by done. unfold large. by destruct (Nat.eqb_spec leaf 2) as [->|].
Qed.
Lemma large_2mb leaf e : Nat.eqb leaf 1 && (e &? PAGE_2MB_ENABLED) = (Nat.eqb leaf 1 && large leaf e).
Proof.
  unfold PAGE_2MB_ENABLED. rewrite tst_bit by done. unfold large. by destruct (Nat.eqb_spec leaf 1) as [->|].
Qed.

Lemma low_bits n : 0 <= n -> gva &. Z.ones n = gva mod 2 ^ n.
Proof. apply Z.land_ones. Qed.

(** The walk of the code follows the architecture's. *)
Lemma walk_run leaves table entry : (leaves <= 4)%nat ->
  walkable v gva smm leaves table -> (leaves = 0%nat -> table = frame entry 12) ->
  walk Pml4Levels 8 gva leaves (v.(SVMM.Ram) + table) entry s = Ok (ref_walk v gva leaves table) s.
Proof.
  revert table entry. induction leaves as [|leaf IH]; intros table entry Hle [Hp Hw] He.
  - cbn [walk ref_walk]. rewrite paging_mask, <- He by done. change 0xfff with (Z.ones 12). rewrite low_bits by done.
    rewrite u64_small; [done|]. rewrite He by done. pose proof (frame_range entry 12).
    pose proof (Z.mod_pos_bound gva (2 ^ 12) eq_refl). unfold in_width. lia.
  - cbn [walk ref_walk]. rewrite (run_bind _ _ _ _ _ (entry_read leaf table ltac:(lia) Hp)).
    set (e := entry_of v gva leaf table) in *. cbn zeta in Hw. rewrite large_1gb, large_2mb, paging_mask.
    pose proof (frame_range e 12). destruct (large leaf e) eqn:Hl.
    + destruct Hw as [Ha Hg]. rewrite Ha. unfold large in Hl.
      assert (leaf = 1 \/ leaf = 2)%nat as [-> | ->].
      { apply andb_true_iff in Hl as [Hl _]. apply orb_true_iff in Hl as [?%Nat.eqb_eq|?%Nat.eqb_eq]; auto. }
      * cbn [Nat.eqb andb]. change 0x1fffff with (Z.ones 21). rewrite low_bits by done.
        change (shift 1) with 21. pose proof (Z.mod_pos_bound gva (2 ^ 21) eq_refl).
        by rewrite u64_small by (unfold in_width; lia).
      * cbn [Nat.eqb andb]. change 0x1fffffff with (Z.ones 29). rewrite low_bits by done.
        change (shift 2) with 30. pose proof (Z.mod_pos_bound gva (2 ^ 29) eq_refl).
        rewrite u64_small by (unfold in_width; lia). by rewrite (bit29_clear gva (Hg eq_refl)).
    + rewrite !andb_false_r. unfold SvmmGetHostPageFromGPA. rewrite (run_bind _ _ _ _ _ (run_gets _ _)).
      fold smm v. destruct leaf as [|leaf']; destruct Hw as [(Hf0 & Hf1 & Hh) Hw].
      all: rewrite Hh; destruct Hwf; rewrite (proj2 (Z.eqb_neq _ 0)) by lia.
      all: apply IH; [lia|split; [split; [done|split; [done|exact Hh]]|exact Hw]|done].
Qed.
End Walk.

(** [main]'s long-mode guest: paging on, four levels. *)
Definition long_paging (v : SVMM.t) : Prop :=
  (v.(SVMM.Registers).(REGISTERS.cr0) &? CR0_PG) = true /\
  (v.(SVMM.Registers).(REGISTERS.efer) &? EFER_LME) = true.
Definition root_table (v : SVMM.t) : Z := frame v.(SVMM.Registers).(REGISTERS.cr3) 12.

Lemma gpa_run gva s :
  long_paging s.(Machine.Svmm) -> memory_wf s.(Machine.Svmm) ->
  plain s.(Machine.Svmm) (smm_enabled s) (root_table s.(Machine.Svmm)) ->
  SvmmGetGpaFromGva gva s =
    walk Pml4Levels 8 gva 4 (s.(Machine.Svmm).(SVMM.Ram) + root_table s.(Machine.Svmm)) 0 s.
Proof.
  intros [_ Hl] [Hr _ _ _ _] (Ht & _ & Hh). unfold SvmmGetGpaFromGva, get_svmm.
  rewrite (run_bind _ _ _ _ _ (run_gets _ _)), Hl. unfold Pml4GetGpaFromGva, get_svmm.
  rewrite (run_bind _ _ _ _ _ (run_gets _ _)). unfold SvmmGetHostPageFromGPA.
  rewrite (run_bind _ _ _ _ _ (run_gets _ _)).
  change BX_CR3_PAGING_MASK with PAGING_MASK. rewrite paging_mask. fold (root_table s.(Machine.Svmm)). rewrite Hh.
  by rewrite (proj2 (Z.eqb_neq _ 0)) by lia.
Qed.


(** In the upper half of a 1 GB page the translation is wrong: bit 29 of the
    address is lost, and the access reaches the page's lower half. *)
Theorem gigabyte_page_wrong gva s :
  let v := s.(Machine.Svmm) in let table := frame (entry_of v gva 3 (root_table v)) 12 in
  long_paging v -> memory_wf v -> 0 <= gva ->
  plain v (smm_enabled s) (root_table v) -> plain v (smm_enabled s) table ->
  large 2 (entry_of v gva 2 table) = true ->
  frame (entry_of v gva 2 table) 30 = frame (entry_of v gva 2 table) 12 ->
  Z.testbit gva 29 = true ->
  SvmmGetGpaFromGva gva s = Ok (ref_walk v gva 4 (root_table v) - 2 ^ 29) s.
Proof.
  intros v table Hlong Hwf Hg Hp Hp3 Hl Ha Hb. rewrite gpa_run by done. fold v. cbn [walk].
  rewrite (run_bind _ _ _ _ _ (entry_read gva s Hwf 3 _ ltac:(lia) Hp)). cbn [Nat.eqb andb].
  rewrite paging_mask. fold v table. unfold SvmmGetHostPageFromGPA. rewrite (run_bind _ _ _ _ _ (run_gets _ _)).
  destruct Hp3 as (Ht & Hts & Hh). fold v. rewrite Hh. pose proof Hwf as [Hr _ _ _ _].
  rewrite (proj2 (Z.eqb_neq _ 0)) by lia. cbn [walk].
  rewrite (run_bind _ _ _ _ _ (entry_read gva s Hwf 2 table ltac:(lia) (conj Ht (conj Hts Hh)))). fold v.
  set (e := entry_of v gva 2 table) in *. assert ((e &? PAGE_1GB_ENABLED) = true) as ->.
  { unfold PAGE_1GB_ENABLED. rewrite tst_bit by done. exact Hl. }
  rewrite paging_mask. cbn [Nat.eqb andb].
  change 0x1fffffff with (Z.ones 29). rewrite Z.land_ones by done.
  pose proof (frame_range e 12). pose proof (Z.mod_pos_bound gva (2 ^ 29) eq_refl).
  rewrite u64_small by (unfold in_width; lia). f_equal. cbn [ref_walk].
  change (large 3 (entry_of v gva 3 (root_table v))) with false. cbv iota. fold table e. rewrite Hl. change (shift 2) with 30. rewrite Ha. rewrite (bit29_set gva Hb). lia.
Qed.

(** ** Examples *)

(** 1 GB of RAM at a host address, and page tables in its first pages: a table of
    the fourth level at 0x1000, of the third at 0x2000, whose first entry leads to
    a table of the second with a 2 MB page at 0x400000, and whose second entry is
    a 1 GB page. *)
Definition example_entry (gpa v : Z) (m : gmap Z Z) : gmap Z Z := store_bytes 8 (2 ^ 40 + gpa) v m.
Definition example_memory : gmap Z Z :=
  example_entry 0x1000 0x2003 (example_entry 0x2000 0x3003 (example_entry 0x2008 0x83
    (example_entry 0x3000 0x400083 ∅))).
Definition example_svmm : SVMM.t :=
  SVMM.mk (REGISTERS.zero <| REGISTERS.cr0 := bit 31 |> <| REGISTERS.efer := bit 8 |>
             <| REGISTERS.cr3 := 0x1000 |> <| REGISTERS.smbase := 0x30000 |>)
    (2 ^ 40) (2 ^ 30) (2 ^ 40 + 2 ^ 30 + ROM_SIZE + PAGE_SIZE + SMM_RAM_SIZE) example_memory.
Definition example_guest : Machine.t := Machine.zero <| Machine.Svmm := example_svmm |>.

Lemma example_memory_wf : memory_wf example_svmm.
Proof. split; (split || idtac); discriminate || reflexivity. Qed.

Lemma host_page_bounds_witness : host_page false example_svmm 0xfffffff0 = 2 ^ 40 + 2 ^ 30 + 0xffff0 /\
  (host_page false example_svmm 0xfffffff0 = 0 \/
   2 ^ 40 <= host_page false example_svmm 0xfffffff0 < example_svmm.(SVMM.MemoryEnd)).
Proof.
  split; [reflexivity|]. apply (host_page_bounds false example_svmm 0xfffffff0 example_memory_wf).
  split; discriminate || reflexivity.
Defined.


Lemma gigabyte_page_wrong_witness :
  SvmmGetGpaFromGva 0x60001000 example_guest = Ok 0x1000 example_guest /\
  ref_walk example_svmm 0x60001000 4 0x1000 = 0x20001000.
Proof.
  split; [|vm_compute; reflexivity].
  apply (gigabyte_page_wrong 0x60001000 example_guest).
  - split; reflexivity.
  - exact example_memory_wf.
  - discriminate.
  - split; [discriminate|split; [discriminate|reflexivity]].
  - split; [|split]; vm_compute; discriminate || reflexivity.
  - vm_compute. reflexivity.
  - vm_compute. reflexivity.
  - reflexivity.
Defined.
