(* ===== verification/Hpet.v ===== *)
(** hpet.c: the high-precision event timer.

    A 64-bit counter of 10 ns ticks and three comparators; a comparator that the
    counter passes raises its interrupt, through the interrupt controllers or as
    a write to memory.  The timers of timer.c stand behind the comparators. *)

From S2P Require Export Memory Pit Cmos.

(** hpet.h *)
Definition HPET_MMIO : Z := 0xFED00000.
Definition HPET_CAP_REVISION : Z := 1.
Definition HPET_CAP_MAIN_COUNTER_SIZE : Z := 1 <<. 13.
Definition HPET_CAP_LEGACY_IRQ_ROUTE : Z := 1 <<. 15.
Definition HPET_CAP_VENDOR_ID : Z := 0x8086 <<. 16.
Definition HPET_CONFIG_ENABLED : Z := bit 0.
Definition HPET_CONFIG_LEGACY : Z := bit 1.
Definition HPET_TIMER_CONF_EDGE_LEVEL : Z := bit 1.
Definition HPET_TIMER_CONF_IRQ_ENABLE : Z := bit 2.
Definition HPET_TIMER_CONF_PERIODIC_ENABLED : Z := bit 3.
Definition HPET_TIMER_CONF_VALUE_SET : Z := bit 6.
Definition HPET_TIMER_CONF_TIMER_32BIT : Z := bit 8.
Definition HPET_TIMER_CONF_INT_ROUTE_MASK : Z := 0x3e00.
Definition HPET_TIMER_CONF_FSB_ENABLE : Z := 0x4000.
Definition HPET_TIMER_CONF_CFG_WRITE_MASK : Z := 0x7f4e.
Definition HPET_TIMER_CONF_INT_ROUTE_SHIFT : Z := 9.
Definition HPET_ID : Z := 0x000.
Definition HPET_PERIOD : Z := 0x004.
Definition HPET_CONFIGURE : Z := 0x010.
Definition HPET_STATUS : Z := 0x020.
Definition HPET_COUNTER : Z := 0x0f0.
Definition HPET_TIMER_CONFIG : Z := 0x00.
Definition HPET_TIMER_CONFIG_ROUTE : Z := 0x04.
Definition HPET_TIMER_COMPARE : Z := 0x08.
Definition HPET_TIMER_ROUTE : Z := 0x010.
Definition FS_PER_NS : Z := 1000000.
Definition PIT_IRQ : Z := 0.

Definition MASK_HIGH : Z := 0xffffffff00000000.
Definition MASK_LOW : Z := 0xffffffff.

(** ** Access: a timer block is named by its index in [Hpet.Timer]. *)

Definition get_hpet : IO HPET.t := gets Machine.Hpet.
Definition upd_hpet (f : HPET.t -> HPET.t) : IO unit := modify (fun s => s <| Machine.Hpet ::= f |>).
Definition get_block (i : Z) : IO HPET_TIMER_BLOCK.t := at_ hpet_timers i.
Definition upd_block (i : Z) (f : HPET_TIMER_BLOCK.t -> HPET_TIMER_BLOCK.t) : IO unit :=
  upd_at hpet_timers i f.

Definition enabled (h : HPET.t) : bool := h.(HPET.GlobalConfiguration) &? HPET_CONFIG_ENABLED.

(** ** Ticks *)

Definition ticks_of (h : HPET.t) (clock : Z) : Z :=
  u64 (u64 (clock - h.(HPET.ReferenceTime)) / 10 + h.(HPET.ReferenceValue)).
Definition HpetGetTicks : IO Z :=
  clock ← TimerGetClockNs; h ← get_hpet; mret (ticks_of h clock).
Definition HpetTicksToNs (Ticks : Z) : Z := u64 (Ticks * 10).

Section Interrupts.
Context `{!Driver}.

Definition irq_of (b : HPET_TIMER_BLOCK.t) : Z :=
  if b.(HPET_TIMER_BLOCK.ConfigCapabilities) &? HPET_CONFIG_LEGACY then
    if nz b.(HPET_TIMER_BLOCK.Id) then RTC_IRQ else PIT_IRQ
  else u8 ((b.(HPET_TIMER_BLOCK.ConfigCapabilities) &. HPET_TIMER_CONF_INT_ROUTE_MASK)
           >>. HPET_TIMER_CONF_INT_ROUTE_SHIFT).

(** [*(ULONG* )SvmmGetHostAddress(address) = value] *)
Definition fsb_write (b : HPET_TIMER_BLOCK.t) : IO unit :=
  a ← SvmmGetHostAddress b.(HPET_TIMER_BLOCK.FrontSideBusInterruptAddress);
  host_write a 4 b.(HPET_TIMER_BLOCK.FrontSideBusInterruptValue).

Definition HpetUpdateIrq (i RaiseIrq : Z) : IO unit :=
  b ← get_block i;
  let c := b.(HPET_TIMER_BLOCK.ConfigCapabilities) in
  let IrqNumber := irq_of b in
  h ← get_hpet;
  if nz RaiseIrq && enabled h then
    when (c &? HPET_TIMER_CONF_EDGE_LEVEL) (
      m ← shl64 1 b.(HPET_TIMER_BLOCK.Id);
      upd_hpet (fun h => h <| HPET.InterruptStatus ::= fun v => v |. m |>)) ;;
    if negb (c &? HPET_TIMER_CONF_IRQ_ENABLE) then done_
    else if c &? HPET_TIMER_CONF_FSB_ENABLE then fsb_write b
    else if negb (c &? HPET_TIMER_CONF_EDGE_LEVEL) then PicLowerIrq IrqNumber ;; PicRaiseIrq IrqNumber
    else PicRaiseIrq IrqNumber
  else PicLowerIrq IrqNumber.

Definition HpetUpdateTimer (i : Z) : IO unit :=
  CurrentTick ← HpetGetTicks;
  b ← get_block i;
  let Diff := u64 (b.(HPET_TIMER_BLOCK.Comparator) - CurrentTick) in
  TimerActivate b.(HPET_TIMER_BLOCK.TimerId) (HpetTicksToNs Diff)
    (u8 (b.(HPET_TIMER_BLOCK.ConfigCapabilities) &. HPET_TIMER_CONF_PERIODIC_ENABLED)).

Definition HpetDisableTimer (i : Z) : IO unit :=
  b ← get_block i;
  TimerDeactivate b.(HPET_TIMER_BLOCK.TimerId) ;;
  HpetUpdateIrq i 0.

(** ** The handler of an expired timer *)

(** [LastTimeChecked <= CurrentTick && LastTimeChecked <= Comparator && Comparator <= CurrentTick] *)
Definition passed (last now comparator : Z) : bool :=
  (last <=? now) && (last <=? comparator) && (comparator <=? now).

(** [do Comparator += TimerPeriod; while (passed)] *)
Definition next_body (last now period comparator : Z) : Z + Z :=
  let comparator := u64 (comparator + period) in
  if passed last now comparator then inl comparator else inr comparator.

(** The comparator is a 64-bit number, so a loop of more turns never ends. *)
Definition next_fuel : positive := 2 ^ 64.
Definition next_comparator (last now period comparator : Z) : option Z :=
  match loop_pos (next_body last now period) next_fuel comparator with
  | inr c => Some c
  | inl _ => None
  end.

Definition HpetTimerHandler (i : Z) : IO unit :=
  CurrentTick ← HpetGetTicks;
  b ← get_block i;
  let last := b.(HPET_TIMER_BLOCK.LastTimeChecked) in
  let cmp := b.(HPET_TIMER_BLOCK.Comparator) in
  when (passed last CurrentTick cmp || ((last <=? cmp) || (cmp <=? CurrentTick))) (
    HpetUpdateIrq i 1 ;;
    b ← get_block i;
    when ((b.(HPET_TIMER_BLOCK.ConfigCapabilities) &? HPET_TIMER_CONF_PERIODIC_ENABLED)
          && nz b.(HPET_TIMER_BLOCK.TimerPeriod)) (
      c ← of_option Diverges (next_comparator last CurrentTick b.(HPET_TIMER_BLOCK.TimerPeriod) cmp);
      upd_block i (fun b => b <| HPET_TIMER_BLOCK.Comparator := c |>))) ;;
  HpetUpdateTimer i ;;
  upd_block i (fun b => b <| HPET_TIMER_BLOCK.LastTimeChecked := CurrentTick |>).

(** ** Writes *)

Definition three : list Z := [0; 1; 2].

Definition enable_timers : IO unit :=
  clock ← TimerGetClockNs;
  upd_hpet (fun h => h <| HPET.ReferenceTime := clock |>) ;;
  upd_hpet (fun h => h <| HPET.ReferenceValue := h.(HPET.Counter) |>) ;;
  foreach three (fun i =>
    b ← get_block i;
    h ← get_hpet;
    when ((b.(HPET_TIMER_BLOCK.ConfigCapabilities) &? HPET_TIMER_CONF_IRQ_ENABLE)
          && (h.(HPET.InterruptStatus) &? bit i)) (HpetUpdateIrq i 1) ;;
    HpetUpdateTimer i).

Definition disable_timers : IO unit :=
  ticks ← HpetGetTicks;
  upd_hpet (fun h => h <| HPET.Counter := ticks |>) ;;
  foreach three HpetDisableTimer.

Definition write_configure (Value : Z) : IO unit :=
  h ← get_hpet;
  (if (Value &? HPET_CONFIG_ENABLED) && negb (enabled h) then enable_timers
   else if enabled h && negb (Value &? HPET_CONFIG_ENABLED) then disable_timers
   else done_) ;;
  h ← get_hpet;
  let legacy := h.(HPET.GlobalConfiguration) &? HPET_CONFIG_LEGACY in
  (if (Value &? HPET_CONFIG_LEGACY) && negb legacy then PitSetInterrupt 0 ;; CmosSetInterrupt 0
   else if legacy && negb (Value &? HPET_CONFIG_LEGACY) then PitSetInterrupt 1 ;; CmosSetInterrupt 1
   else done_) ;;
  upd_hpet (fun h => h <| HPET.GlobalConfiguration ::= fun g => (g &. u64 (~. 3)) |. (Value &. 3) |>).

Definition write_status (Value : Z) : IO unit :=
  foreach three (fun i =>
    h ← get_hpet;
    when ((Value &. h.(HPET.InterruptStatus)) &? bit i) (
      HpetUpdateIrq i 0 ;;
      upd_hpet (fun h => h <| HPET.InterruptStatus ::= fun v => v &. u64 (~. bit i) |>))).

(** The counter is written when the timer is halted. *)
Definition write_counter (f : Z -> Z) : IO unit :=
  h ← get_hpet;
  when (negb (enabled h)) (
    upd_hpet (fun h => h <| HPET.Counter ::= f |>) ;;
    foreach three (fun i =>
      h ← get_hpet;
      upd_block i (fun b => b <| HPET_TIMER_BLOCK.LastTimeChecked := h.(HPET.Counter) |>))).

Definition set_low (Value c : Z) : Z := (c &. MASK_HIGH) |. Value.
Definition set_high (Value c : Z) : Z := (c &. MASK_LOW) |. u64 (Value <<. 32).

(** Registers below 0x100; two cases fall through into the next one. *)
Definition write_global (Index Value : Z) : IO unit :=
  if Index =? HPET_CONFIGURE then write_configure Value
  else if Index =? HPET_STATUS then write_status Value
  else if Index =? HPET_COUNTER then write_counter (set_low Value) ;; write_counter (set_high Value)
  else if Index =? HPET_COUNTER + 4 then write_counter (set_high Value)
  else done_.

Definition update_if_enabled (i : Z) : IO unit :=
  h ← get_hpet; when (enabled h) (HpetUpdateTimer i).

Definition write_timer_config (i Value : Z) : IO unit :=
  upd_block i (fun b => b <| HPET_TIMER_BLOCK.ConfigCapabilities ::= fun c =>
    u32 ((c &. MASK_HIGH) |. (Value &. HPET_TIMER_CONF_CFG_WRITE_MASK)) |>) ;;
  b ← get_block i;
  let c := b.(HPET_TIMER_BLOCK.ConfigCapabilities) in
  when (c &? HPET_TIMER_CONF_TIMER_32BIT) (upd_block i (fun b => b
    <| HPET_TIMER_BLOCK.Comparator ::= fun x => x &. MASK_LOW |>
    <| HPET_TIMER_BLOCK.TimerPeriod ::= fun x => x &. MASK_LOW |>)) ;;
  when ((c &? HPET_TIMER_CONF_FSB_ENABLE) || negb (c &? HPET_TIMER_CONF_EDGE_LEVEL)) (
    upd_hpet (fun h => h <| HPET.InterruptStatus ::= fun v => v &. u64 (~. bit i) |>)) ;;
  h ← get_hpet;
  when ((c &? HPET_TIMER_CONF_IRQ_ENABLE) && enabled h) (
    HpetUpdateIrq i (if h.(HPET.InterruptStatus) &? bit i then 1 else 0)) ;;
  update_if_enabled i.

(** The comparator and the period: [f] stores one half of the value. *)
Definition write_compare (i : Z) (f : Z -> Z) : IO unit :=
  b ← get_block i;
  let c := b.(HPET_TIMER_BLOCK.ConfigCapabilities) in
  when (negb (c &? HPET_TIMER_CONF_PERIODIC_ENABLED) || (c &? HPET_TIMER_CONF_VALUE_SET)) (
    upd_block i (fun b => b <| HPET_TIMER_BLOCK.Comparator ::= f |>)) ;;
  upd_block i (fun b => b <| HPET_TIMER_BLOCK.TimerPeriod ::= f |>
    <| HPET_TIMER_BLOCK.ConfigCapabilities ::= fun c => c &. u32 (~. HPET_TIMER_CONF_VALUE_SET) |>) ;;
  update_if_enabled i.

Definition write_timer (i reg Value : Z) : IO unit :=
  if reg =? HPET_TIMER_CONFIG then write_timer_config i Value
  else if reg =? HPET_TIMER_COMPARE then write_compare i (set_low Value)
  else if reg =? HPET_TIMER_COMPARE + 4 then
    b ← get_block i;
    if b.(HPET_TIMER_BLOCK.ConfigCapabilities) &? HPET_TIMER_CONF_TIMER_32BIT then done_
    else write_compare i (set_high Value)
  else if reg =? HPET_TIMER_ROUTE then
    upd_block i (fun b => b <| HPET_TIMER_BLOCK.FrontSideBusInterruptValue := Value |>
                            <| HPET_TIMER_BLOCK.FrontSideBusInterruptAddress := Value |>)
  else if reg =? HPET_TIMER_ROUTE + 4 then
    upd_block i (fun b => b <| HPET_TIMER_BLOCK.FrontSideBusInterruptAddress := Value |>)
  else done_.

Definition _HpetWriteMmioHandler (Address Value : Z) : IO unit :=
  let Index := Address &. 0x3ff in
  if Index <? 0x100 then write_global Index Value
  else
    let TimerId := (Index - 0x100) / 0x20 in
    if 3 <=? TimerId then done_ else write_timer TimerId (Index &. 0x1f) Value.

Definition HpetWriteMmioHandler (Address : Z) (Data : list Z) (Length : Z) : IO unit :=
  if Length =? 4 then _HpetWriteMmioHandler Address (le_read 4 Data)
  else if Length =? 8 then
    let Value := le_read 8 Data in
    _HpetWriteMmioHandler Address (u32 Value) ;;
    _HpetWriteMmioHandler (u32 (Address + 4)) (Value >>. 32)
  else done_.

(** ** Reads *)

Definition counter_now : IO Z :=
  h ← get_hpet; if enabled h then HpetGetTicks else mret h.(HPET.Counter).

Definition read_global (Index : Z) : IO Z :=
  h ← get_hpet;
  if Index =? HPET_ID then mret h.(HPET.GlobalCapabilities)
  else if Index =? HPET_PERIOD then mret h.(HPET.ClockPeriod)
  else if Index =? HPET_CONFIGURE then mret (h.(HPET.GlobalConfiguration) &. MASK_LOW)
  else if Index =? HPET_CONFIGURE + 4 then mret (u32 (h.(HPET.GlobalConfiguration) >>. 32))
  else if Index =? HPET_STATUS then mret (h.(HPET.InterruptStatus) &. MASK_LOW)
  else if Index =? HPET_STATUS + 4 then mret (u32 (h.(HPET.InterruptStatus) >>. 32))
  else if Index =? HPET_COUNTER then c ← counter_now; mret (c &. MASK_LOW)
  else if Index =? HPET_COUNTER + 4 then c ← counter_now; mret (u32 (c >>. 32))
  else mret 0.

Definition read_timer (i reg : Z) : IO Z :=
  b ← get_block i;
  mret (if reg =? HPET_TIMER_CONFIG then b.(HPET_TIMER_BLOCK.ConfigCapabilities)
        else if reg =? HPET_TIMER_CONFIG_ROUTE then b.(HPET_TIMER_BLOCK.InterruptRoutingCapability)
        else if reg =? HPET_TIMER_COMPARE then b.(HPET_TIMER_BLOCK.Comparator) &. MASK_LOW
        else if reg =? HPET_TIMER_COMPARE + 4 then u32 (b.(HPET_TIMER_BLOCK.Comparator) >>. 32)
        else if reg =? HPET_TIMER_ROUTE then b.(HPET_TIMER_BLOCK.FrontSideBusInterruptValue)
        else if reg =? HPET_TIMER_ROUTE + 4 then b.(HPET_TIMER_BLOCK.FrontSideBusInterruptAddress)
        else 0).

(** A timer that does not exist: [return;] in a function that returns a value. *)
Definition _HpetReadMmioHandler (Address : Z) : IO Z :=
  let Index := Address &. 0x3ff in
  if Index <? 0x100 then read_global Index
  else
    let TimerId := (Index - 0x100) / 0x20 in
    if 3 <=? TimerId then stop Indeterminate else read_timer TimerId (Index &. 0x1f).

Definition HpetReadMmioHandler (Address : Z) (Data : list Z) (Length : Z) : IO (list Z) :=
  Value ← _HpetReadMmioHandler Address;
  mret (if Length =? 1 then le_write 1 Value Data
        else if Length =? 2 then le_write 2 Value Data
        else if Length =? 4 then le_write 4 Value Data
        else Data).

(** ** Initialisation *)

Definition HpetInitialize : IO unit :=
  upd_hpet (fun h => h <| HPET.GlobalCapabilities := u32 (HPET_CAP_REVISION |. (2 <<. 8)
      |. HPET_CAP_MAIN_COUNTER_SIZE |. HPET_CAP_LEGACY_IRQ_ROUTE |. HPET_CAP_VENDOR_ID) |>
    <| HPET.ClockPeriod := u32 (FS_PER_NS * 10) |>) ;;
  MmioRegisterHandler HPET_MMIO 0x1000 (Some cb_Hpet) (Some cb_Hpet) ;;
  foreach three (fun i =>
    n ← TimerCreate fn_HpetTimerHandler i;
    upd_block i (fun b => b <| HPET_TIMER_BLOCK.TimerId := n |>) ;;
    upd_block i (fun b => b <| HPET_TIMER_BLOCK.Id := i |>)).
End Interrupts.

(** ** The next expiry of a periodic timer *)

Section NextComparator.
Context (last now period : Z).
Hypothesis (Hwindow : 0 <= last /\ now < last + 2 ^ 63) (Hnow : now < 2 ^ 64) (Hperiod : 0 < period < 2 ^ 64).

(** The comparator after [k] periods. *)
Definition nth_comparator (c k : Z) : Z := u64 (c + k * period).

(** The comparators inside the window climb by the period, or, when the period is
    half the range or more, descend by its complement. *)
Definition distance (x : Z) : Z :=
  if passed last now x then
    if period <? 2 ^ 63 then now - x + 1 else x - last + 1
  else 2 ^ 63 + 1.

Lemma passed_spec x : passed last now x = true <-> last <= x <= now.
Proof. unfold passed. rewrite !andb_true_iff, !Z.leb_le. lia. Qed.

Lemma next_inside x : 0 <= x < 2 ^ 64 -> passed last now (u64 (x + period)) = true ->
  passed last now x = true ->
  if period <? 2 ^ 63 then u64 (x + period) = x + period else u64 (x + period) = x + period - 2 ^ 64.
Proof.
  intros Hx Hn Hp. apply passed_spec in Hn, Hp. unfold u64 in *.
  destruct (Z.ltb_spec (x + period) (2 ^ 64)) as [Hs|Hs].
  - rewrite Z.mod_small in * by lia. destruct (Z.ltb_spec period (2 ^ 63)); lia.
  - assert ((x + period) mod 2 ^ 64 = x + period - 2 ^ 64) as He.
    { symmetry. apply (Z.mod_unique_pos _ _ 1); lia. }
    rewrite He in *. destruct (Z.ltb_spec period (2 ^ 63)); lia.
Qed.
Lemma distance_range x : 0 <= distance x <= 2 ^ 63 + 1.
Proof.
  unfold distance. destruct (passed last now x) eqn:Hp; [|lia]. apply passed_spec in Hp.
  destruct (period <? 2 ^ 63); lia.
Qed.

Lemma distance_next x : 0 <= x < 2 ^ 64 -> passed last now (u64 (x + period)) = true ->
  0 <= distance (u64 (x + period)) < distance x.
Proof.
  intros Hx Hn. pose proof (distance_range (u64 (x + period))). split; [lia|].
  pose proof (proj1 (passed_spec _) Hn). unfold distance. rewrite Hn.
  destruct (passed last now x) eqn:Hp; [|destruct (period <? 2 ^ 63); lia].
  pose proof (next_inside x Hx Hn Hp) as Hy. destruct (period <? 2 ^ 63); lia.
Qed.

Lemma nth_comparator_next c k : u64 (nth_comparator c k + period) = nth_comparator c (k + 1).
Proof.
  unfold nth_comparator, u64. rewrite Z.add_mod_idemp_l by done. f_equal. lia.
Qed.

(** [c] is the first of the comparators [cmp + period], [cmp + 2 * period], ...
    that the counter has not passed. *)
Definition first_not_passed (cmp c : Z) : Prop :=
  exists k, 1 <= k /\ c = nth_comparator cmp k /\ passed last now c = false /\
    forall j, 1 <= j < k -> passed last now (nth_comparator cmp j) = true.

Lemma next_comparator_run cmp : 0 <= cmp < 2 ^ 64 ->
  exists c, next_comparator last now period cmp = Some c /\ first_not_passed cmp c.
Proof.
  intros Hc. unfold next_comparator.
  destruct (loop_pos_ends (next_body last now period)
    (fun x => exists j, 0 <= j /\ x = nth_comparator cmp j /\
       forall i, 1 <= i < j + 1 -> passed last now (nth_comparator cmp i) = true)
    (first_not_passed cmp) distance next_fuel cmp) as (c & -> & HQ); [| | |eauto].
  - intros x (j & Hj & -> & Hall). unfold next_body. rewrite nth_comparator_next.
    destruct (passed last now (nth_comparator cmp (j + 1))) eqn:Hp.
    + split.
      * exists (j + 1). split; [lia|]. split; [done|]. intros i Hi.
        destruct (decide (i = j + 1)) as [->|]; [done|]. apply Hall. lia.
      * rewrite <- nth_comparator_next in Hp |- *. apply distance_next; [|done]. apply u64_range.
    + exists (j + 1). split; [lia|]. split; [done|]. split; [done|]. intros i Hi. apply Hall. lia.
  - exists 0. split; [lia|]. split; [unfold nth_comparator, u64; rewrite Z.mod_small; lia|]. intros; lia.
  - pose proof (distance_range cmp). change (Z.pos next_fuel) with (2 ^ 64). lia.
Qed.
End NextComparator.

(** The loop that advances the comparator of a periodic timer ends, with the
    first multiple of the period the counter has not passed, for every non-zero
    64-bit period, including those that make the comparator wrap around. *)
Theorem next_comparator_spec last now period cmp :
  0 <= last -> now < last + 2 ^ 63 -> now < 2 ^ 64 -> 0 < period < 2 ^ 64 -> 0 <= cmp < 2 ^ 64 ->
  exists c, next_comparator last now period cmp = Some c /\ first_not_passed last now period cmp c.
Proof. intros. by apply next_comparator_run. Qed.

Lemma next_comparator_spec_witness :
  0 <= 5 /\ 30 < 5 + 2 ^ 63 /\ 30 < 2 ^ 64 /\ 0 < 10 < 2 ^ 64 /\ 0 <= 7 < 2 ^ 64 /\
  exists c, next_comparator 5 30 10 7 = Some c /\ first_not_passed 5 30 10 7 c.
Proof.
  assert (0 <= 5 /\ 30 < 5 + 2 ^ 63 /\ 30 < 2 ^ 64 /\ 0 < 10 < 2 ^ 64 /\ 0 <= 7 < 2 ^ 64)
    as (H1 & H2 & H3 & H4 & H5) by lia.
  repeat split; try lia. exact (next_comparator_spec 5 30 10 7 H1 H2 H3 H4 H5).
Defined.

(** ** The registers keep their types *)

(** Only the writable bits of a timer's configuration are ever set. *)
Record block_ok (b : HPET_TIMER_BLOCK.t) : Prop := {
  block_caps : b.(HPET_TIMER_BLOCK.ConfigCapabilities) &. HPET_TIMER_CONF_CFG_WRITE_MASK
               = b.(HPET_TIMER_BLOCK.ConfigCapabilities);
  block_cmp : is_u64 b.(HPET_TIMER_BLOCK.Comparator);
  block_period : is_u64 b.(HPET_TIMER_BLOCK.TimerPeriod);
  block_last : is_u64 b.(HPET_TIMER_BLOCK.LastTimeChecked);
  block_route : is_u32 b.(HPET_TIMER_BLOCK.FrontSideBusInterruptValue)
                /\ is_u32 b.(HPET_TIMER_BLOCK.FrontSideBusInterruptAddress);
  block_id : 0 <= b.(HPET_TIMER_BLOCK.Id) < 3
}.

(** Two configuration bits, and a status bit per timer. *)
Record hpet_ok (h : HPET.t) : Prop := {
  ok_config : in_width 2 h.(HPET.GlobalConfiguration);
  ok_status : in_width 3 h.(HPET.InterruptStatus);
  ok_counter : is_u64 h.(HPET.Counter);
  ok_blocks : length h.(HPET.Timer) = 32%nat /\ Forall block_ok h.(HPET.Timer)
}.
Definition hpet_inv (s : Machine.t) : Prop := hpet_ok s.(Machine.Hpet).

Lemma bit_in_width i w : 0 <= i < w -> in_width w (bit i).
Proof. intros Hi. unfold in_width, bit. rewrite Z.shiftl_1_l. split; [lia|]. apply Z.pow_lt_mono_r; lia. Qed.

Section Types.
Context `{!Driver}.

Lemma hpet_upd f : (forall h, hpet_ok h -> hpet_ok (f h)) -> Preserves hpet_inv (upd_hpet f).
Proof. intros Hf. apply preserves_modify. intros s Hs. exact (Hf _ Hs). Qed.

Lemma block_upd i f : (forall b, block_ok b -> block_ok (f b)) -> Preserves hpet_inv (upd_block i f).
Proof.
  intros Hf. apply preserves_upd_at. intros s b Hb [Hc Hs Hn [Hl Hall]]. split; [exact Hc|exact Hs|exact Hn|].
  unfold hpet_timers in *. split; [transitivity (length s.(Machine.Hpet).(HPET.Timer)); [apply length_updZ|done]|].
  apply (Forall_updZ block_ok); [done|]. apply Hf. by eapply (Forall_nthZ block_ok).
Qed.

Lemma block_read {A} i (k : HPET_TIMER_BLOCK.t -> IO A) :
  (forall b, block_ok b -> Preserves hpet_inv (k b)) -> Preserves hpet_inv (get_block i ≫= k).
Proof.
  intros Hk. apply preserves_at. intros s b [_ _ _ [_ Hall]] Hb. apply Hk. by eapply (Forall_nthZ block_ok).
Qed.

#[local] Instance inv_ticks : Preserves hpet_inv HpetGetTicks.
Proof. unfold HpetGetTicks, TimerGetClockNs, TimerGetTotalTicks, get_hpet. apply _. Qed.
Lemma ticks_read {A} (k : Z -> IO A) :
  (forall n, is_u64 n -> Preserves hpet_inv (k n)) -> Preserves hpet_inv (HpetGetTicks ≫= k).
Proof.
  intros Hk. apply (preserves_bind _ is_u64); [apply _| |done].
  intros s n s' _ Hrun. unfold HpetGetTicks in Hrun.
  unfold get_hpet in Hrun.
  rewrite (run_bind _ _ _ _ _ (TimerGetClockNs_run s)), (run_bind _ _ _ _ _ (run_gets _ _)) in Hrun.
  injection Hrun as <- <-. unfold ticks_of. apply u64_range.
Qed.

#[local] Instance inv_host_read a n : Preserves hpet_inv (host_read a n).
Proof. unfold host_read, get_svmm. apply _. Qed.
#[local] Instance inv_host_write a n x : Preserves hpet_inv (host_write a n x).
Proof. unfold host_write, get_svmm. apply _. Qed.
#[local] Instance inv_host_address a : Preserves hpet_inv (SvmmGetHostAddress a).
Proof.
  assert (forall a, Preserves hpet_inv (SvmmGetHostPageFromGPA a)) by (intros; unfold SvmmGetHostPageFromGPA; apply _).
  assert (forall l n g k p e, Preserves hpet_inv (walk l n g k p e)).
  { intros l n g k. induction k; intros; simpl; apply _. }
  unfold SvmmGetHostAddress, SvmmGetGpaFromGva, Pml4GetGpaFromGva, get_svmm. apply _.
Qed.
#[local] Instance inv_fsb b : Preserves hpet_inv (fsb_write b).
Proof. unfold fsb_write. apply _. Qed.

Lemma status_set i h : 0 <= i < 3 -> hpet_ok h ->
  hpet_ok (h <| HPET.InterruptStatus ::= fun v => v |. u64 (bit i) |>).
Proof.
  intros Hi [? Hs ? ?]. split; try done. cbn. apply lor_in_width; [done|exact Hs|].
  pose proof (bit_in_width i 3 Hi). by rewrite u64_small by (by apply (in_width_le 3)).
Qed.
Lemma status_clear m h : hpet_ok h -> hpet_ok (h <| HPET.InterruptStatus ::= fun v => v &. m |>).
Proof. intros [? Hs ? ?]. split; try done. cbn. by apply land_in_width_l. Qed.

#[local] Instance inv_update_irq i r : Preserves hpet_inv (HpetUpdateIrq i r).
Proof.
  unfold HpetUpdateIrq. apply block_read. intros b Hb. unfold get_hpet. apply within_bind; [apply _..|]. intros h.
  apply within_if; [|apply _]. apply within_bind; [apply _| |intros; apply _].
  apply within_when; [apply _|]. apply (preserves_bind _ (fun m => m = u64 (bit b.(HPET_TIMER_BLOCK.Id)))); [apply _| |].
  - intros s m s' _. unfold shl64. rewrite (proj2 (Z.ltb_lt _ _)) by (destruct Hb; lia). by intros [= <- <-].
  - intros m ->. apply hpet_upd. intros h'. apply status_set, Hb.
Qed.
#[local] Instance inv_timer_safe : TimerSafe (preserves hpet_inv).
Proof. apply _. Qed.
#[local] Instance inv_activate i n o : Preserves hpet_inv (TimerActivate i n o).
Proof. apply inv_timer_safe. Qed.
#[local] Instance inv_deactivate i : Preserves hpet_inv (TimerDeactivate i).
Proof. apply inv_timer_safe. Qed.
#[local] Instance inv_update_timer i : Preserves hpet_inv (HpetUpdateTimer i).
Proof. unfold HpetUpdateTimer, get_block. apply _. Qed.
#[local] Instance inv_disable i : Preserves hpet_inv (HpetDisableTimer i).
Proof. unfold HpetDisableTimer, get_block. apply _. Qed.

Lemma next_comparator_range last now period cmp c :
  next_comparator last now period cmp = Some c -> is_u64 c.
Proof.
  unfold next_comparator. intros Hc. destruct (loop_pos _ _ _) as [|c'] eqn:E; [done|]. injection Hc as <-.
  pose proof (loop_pos_nat (next_body last now period) next_fuel cmp) as Hl. rewrite E in Hl. clear E.
  symmetry in Hl. revert cmp Hl. generalize (Pos.to_nat next_fuel). intros n. induction n as [|n IH]; intros cmp; [done|].
  cbn. unfold next_body at 1. destruct (passed _ _ _); [apply IH|]. intros [= <-]. apply u64_range.
Qed.

Lemma upd_stamp i n : is_u64 n ->
  Preserves hpet_inv (upd_block i (fun b => b <| HPET_TIMER_BLOCK.LastTimeChecked := n |>)).
Proof. intros Hn. apply block_upd. by intros b []. Qed.

Lemma HpetTimerHandler_inv i : Preserves hpet_inv (HpetTimerHandler i).
Proof.
  unfold HpetTimerHandler. apply ticks_read. intros now Hnow. apply block_read. intros b Hb.
  apply within_bind; [apply _| |intros; apply within_bind; [apply _..|intros; by apply upd_stamp]].
  apply within_when; [apply _|]. apply within_bind; [apply _..|]. intros _. unfold get_block.
  apply within_bind; [apply _..|]. intros b'. apply within_when; [apply _|].
  apply (preserves_bind _ is_u64); [apply _| |].
  - intros s c s' _. destruct (next_comparator _ _ _ _) eqn:E; [|done]. intros [= <- <-].
    by eapply next_comparator_range.
  - intros c Hc. apply block_upd. by intros ? [].
Qed.

Lemma foreach_inv (l : list Z) f : (forall i, Preserves hpet_inv (f i)) -> Preserves hpet_inv (foreach l f).
Proof. intros Hf. apply within_foreach; [apply _|done]. Qed.

#[local] Instance inv_enable : Preserves hpet_inv enable_timers.
Proof.
  unfold enable_timers, TimerGetClockNs, TimerGetTotalTicks, get_block, get_hpet.
  apply within_bind; [apply _..|]. intros clock.
  do 2 (apply within_bind; [apply _|apply hpet_upd; by intros ? []|intros]). apply _.
Qed.

#[local] Instance inv_configure v : Preserves hpet_inv (write_configure v).
Proof.
  unfold write_configure, get_hpet. apply within_bind; [apply _..|]. intros h. apply within_bind; [apply _| |].
  - apply within_if; [apply _|]. apply within_if; [|apply _]. unfold disable_timers.
    apply ticks_read. intros n Hn. apply within_bind; [apply _| |intros; apply _].
    apply hpet_upd. by intros ? [].
  - intros _. apply within_bind; [apply _..|]. intros h'. apply within_bind; [apply _|unfold PitSetInterrupt, CmosSetInterrupt, upd_pit, upd_cmos; apply _|].
    intros _. apply hpet_upd. intros g [Hc ? ? ?]. split; try done. cbn. apply lor_in_width; [done| |].
    + by apply land_in_width_l.
    + apply land_in_width_r; [done|by split].
Qed.

#[local] Instance inv_status v : Preserves hpet_inv (write_status v).
Proof.
  apply foreach_inv. intros i. unfold get_hpet. apply within_bind; [apply _..|]. intros h.
  apply within_when; [apply _|]. apply within_bind; [apply _..|]. intros _. apply hpet_upd, status_clear.
Qed.

Lemma inv_counter f : (forall c, is_u64 c -> is_u64 (f c)) -> Preserves hpet_inv (write_counter f).
Proof.
  intros Hf. apply preserves_gets. intros s Hs. apply within_when; [apply _|]. apply within_bind; [apply _| |].
  - apply hpet_upd. intros h []. split; try done. by apply Hf.
  - intros _. apply foreach_inv. intros i. apply preserves_gets. intros s' Hs'. apply upd_stamp, Hs'.
Qed.

Lemma set_low_range v c : is_u32 v -> is_u64 c -> is_u64 (set_low v c).
Proof. intros Hv Hc. unfold set_low. apply lor_in_width; [done|by apply land_in_width_l|]. by apply (in_width_le 32). Qed.
Lemma set_high_range v c : is_u64 (set_high v c).
Proof. unfold set_high. apply lor_in_width; [done|apply land_in_width_r; [done|by split]|apply u64_range]. Qed.

Lemma inv_compare i f : (forall c, is_u64 c -> is_u64 (f c)) -> Preserves hpet_inv (write_compare i f).
Proof.
  intros Hf. unfold write_compare, update_if_enabled, get_block, get_hpet. apply within_bind; [apply _..|].
  intros b. apply within_bind; [apply _| |].
  - apply within_when; [apply _|]. apply block_upd. intros ? []. split; try done. by apply Hf.
  - intros _. apply within_bind; [apply _| |intros; apply _]. apply block_upd. intros ? [Hc ? ? ? ? ?].
    split; try done; [|by apply Hf]. cbn. by rewrite <- Z.land_assoc, (Z.land_comm (u32 _)), Z.land_assoc, Hc.
Qed.

Lemma caps_write v c : c &. HPET_TIMER_CONF_CFG_WRITE_MASK = c ->
  u32 ((c &. MASK_HIGH) |. (v &. HPET_TIMER_CONF_CFG_WRITE_MASK)) = v &. HPET_TIMER_CONF_CFG_WRITE_MASK.
Proof.
  intros <-. rewrite <- Z.land_assoc. change (HPET_TIMER_CONF_CFG_WRITE_MASK &. MASK_HIGH) with 0.
  rewrite Z.land_0_r, Z.lor_0_l. apply u32_small. apply land_in_width_r; [done|by split].
Qed.

#[local] Instance inv_timer_config i v : Preserves hpet_inv (write_timer_config i v).
Proof.
  unfold write_timer_config, update_if_enabled, get_block, get_hpet. apply within_bind; [apply _| |].
  { apply block_upd. intros b [Hc ? ? ? ? ?]. split; try done. cbn. rewrite caps_write by done.
    by rewrite <- Z.land_assoc, Z.land_diag. }
  intros _. apply within_bind; [apply _..|]. intros b. apply within_bind; [apply _| |].
  { apply within_when; [apply _|]. apply block_upd. intros ? []. split; try done; by apply land_in_width_l. }
  intros _. apply within_bind; [apply _| |intros; apply _]. apply within_when; [apply _|]. apply hpet_upd, status_clear.
Qed.

#[local] Instance inv_timer i reg v : is_u32 v -> Preserves hpet_inv (write_timer i reg v).
Proof.
  intros Hv. unfold write_timer, get_block. apply within_if; [apply _|].
  apply within_if; [apply inv_compare; intros; by apply set_low_range|].
  apply within_if; [apply within_bind; [apply _..|]; intros b; apply within_if; [apply _|];
    apply inv_compare; intros; apply set_high_range|].
  apply within_if; [apply block_upd; by intros ? []|]. apply within_if; [|apply _].
  apply block_upd. intros ? [? ? ? ? []]. by split.
Qed.

Lemma _HpetWriteMmioHandler_inv a v : is_u32 v -> Preserves hpet_inv (_HpetWriteMmioHandler a v).
Proof.
  intros Hv. unfold _HpetWriteMmioHandler. apply within_if; [|by apply within_if; [apply _|apply inv_timer]].
  unfold write_global. repeat (apply within_if; [try apply _|]); try apply _.
  - apply within_bind; [apply _|apply inv_counter; intros; by apply set_low_range|intros].
    apply inv_counter. intros. apply set_high_range.
  - apply inv_counter. intros. apply set_high_range.
Qed.

End Types.


(** ** The counter, written while halted *)

Section Counter.
Context `{!Driver}.

Definition halted (s : Machine.t) : Prop := enabled s.(Machine.Hpet) = false.

(** A store of the halted counter: it sets the counter, and nothing else but the
    time stamps of the timers. *)
Definition counter_set (n : Z) (s s' : Machine.t) : Prop :=
  s'.(Machine.Hpet).(HPET.Counter) = n /\
  s'.(Machine.Hpet).(HPET.GlobalConfiguration) = s.(Machine.Hpet).(HPET.GlobalConfiguration) /\
  length (hpet_timers s') = length (hpet_timers s).

Lemma stamp_run i n s : nthZ (hpet_timers s) i <> None ->
  wp (upd_block i (fun b => b <| HPET_TIMER_BLOCK.LastTimeChecked := n |>))
     (fun _ => counter_set s.(Machine.Hpet).(HPET.Counter) s) s.
Proof.
  intros Hi. destruct (nthZ (hpet_timers s) i) eqn:Hb; [|done]. eapply wp_upd_at; [exact Hb|].
  split; [done|split; [done|apply length_updZ]].
Qed.

Lemma write_counter_run f s : halted s -> (3 <= length (hpet_timers s))%nat ->
  wp (write_counter f) (fun _ => counter_set (f s.(Machine.Hpet).(HPET.Counter)) s) s.
Proof.
  intros Hh Hl. unfold write_counter, get_hpet. apply wp_gets_bind. unfold halted in Hh. rewrite Hh.
  change (negb false) with true. unfold when. apply wp_modify_bind.
  apply (wp_foreach three _ (counter_set (f s.(Machine.Hpet).(HPET.Counter)) s)); [|by split].
  intros i s1 Hi (Hc & Hg & Hn). unfold gets. apply wp_gets_bind.
  eapply wp_mono; [|apply stamp_run].
  - intros _ s2 (Hc2 & Hg2 & Hn2). split; [by rewrite Hc2|split; congruence].
  - intros Hno. unfold three in Hi. apply list_elem_of_In in Hi. simpl in Hi.
    destruct (nthZ_is_Some (hpet_timers s1) i) as [b Hb]; [|congruence].
    rewrite Hn. destruct Hi as [<-|[<-|[<-|[]]]]; lia.
Qed.

Lemma halves v c : is_u32 v ->
  set_high v (set_low v c) = v + 2 ^ 32 * v.
Proof.
  intros Hv. unfold set_high, set_low, MASK_LOW, MASK_HIGH. change 0xffffffff with (Z.ones 32).
  rewrite Z.land_lor_distr_l, <- Z.land_assoc. change (0xffffffff00000000 &. Z.ones 32) with 0.
  rewrite Z.land_0_r, Z.lor_0_l, Z.land_ones, (Z.mod_small v) by (done || exact Hv).
  rewrite u64_small by (unfold in_width in *; rewrite Z.shiftl_mul_pow2 by done; lia).
  rewrite lor_shiftl_add by done. lia.
Qed.

Lemma counter_low_run v s : halted s -> (3 <= length (hpet_timers s))%nat -> is_u32 v ->
  wp (_HpetWriteMmioHandler (HPET_MMIO + HPET_COUNTER) v) (fun _ => counter_set (v + 2 ^ 32 * v) s) s.
Proof.
  intros Hh Hl Hv. change (_HpetWriteMmioHandler (HPET_MMIO + HPET_COUNTER) v)
    with (write_counter (set_low v) ;; write_counter (set_high v)).
  apply wp_bind. eapply wp_mono; [|by apply write_counter_run]. intros [] s1 (Hc & Hg & Hn).
  eapply wp_mono; [|apply write_counter_run].
  - intros [] s2 (Hc2 & Hg2 & Hn2). unfold counter_set. rewrite Hc2, Hc, halves by done. split; [done|split; congruence].
  - unfold halted, enabled in *. by rewrite Hg.
  - by rewrite Hn.
Qed.

Lemma counter_high_run v s : halted s -> (3 <= length (hpet_timers s))%nat -> is_u32 v ->
  wp (_HpetWriteMmioHandler (u32 (HPET_MMIO + HPET_COUNTER + 4)) v)
    (fun _ => counter_set (set_high v s.(Machine.Hpet).(HPET.Counter)) s) s.
Proof. intros. change (_HpetWriteMmioHandler _ v) with (write_counter (set_high v)). by apply write_counter_run. Qed.

Lemma counter_halted s : halted s -> counter_now s = Ok s.(Machine.Hpet).(HPET.Counter) s.
Proof. intros He. unfold counter_now, get_hpet. rewrite (run_bind _ _ _ _ _ (run_gets _ _)), He. done. Qed.

Lemma read_low_run s : halted s -> _HpetReadMmioHandler (HPET_MMIO + HPET_COUNTER) s =
  Ok (s.(Machine.Hpet).(HPET.Counter) &. MASK_LOW) s.
Proof.
  intros He. change (_HpetReadMmioHandler (HPET_MMIO + HPET_COUNTER) s)
    with ((c ← counter_now; mret (c &. MASK_LOW) : IO Z) s).
  by rewrite (run_bind _ _ _ _ _ (counter_halted s He)).
Qed.
Lemma read_high_run s : halted s -> _HpetReadMmioHandler (HPET_MMIO + HPET_COUNTER + 4) s =
  Ok (u32 (s.(Machine.Hpet).(HPET.Counter) >>. 32)) s.
Proof.
  intros He. change (_HpetReadMmioHandler (HPET_MMIO + HPET_COUNTER + 4) s)
    with ((c ← counter_now; mret (u32 (c >>. 32)) : IO Z) s).
  by rewrite (run_bind _ _ _ _ _ (counter_halted s He)).
Qed.

(** A 4-byte write of the low half of the halted counter falls through to the
    next case and stores the value in both halves; an 8-byte write stores the
    value, and the two halves read back as it. *)
Theorem hpet_counter_write d s :
  halted s -> (3 <= length (hpet_timers s))%nat -> Forall is_u8 d ->
  wp (HpetWriteMmioHandler (HPET_MMIO + HPET_COUNTER) d 4) (fun _ s' =>
    s'.(Machine.Hpet).(HPET.Counter) = le_read 4 d + 2 ^ 32 * le_read 4 d) s /\
  wp (HpetWriteMmioHandler (HPET_MMIO + HPET_COUNTER) d 8 ;;
      lo ← _HpetReadMmioHandler (HPET_MMIO + HPET_COUNTER);
      hi ← _HpetReadMmioHandler (HPET_MMIO + HPET_COUNTER + 4);
      mret (lo + 2 ^ 32 * hi)) (fun x _ => x = le_read 8 d) s.
Proof.
  intros Hh Hl Hd. pose proof (le_read_range 4 d Hd) as H4. pose proof (le_read_range 8 d Hd) as H8.
  change (in_width _ (le_read 8 d)) with (is_u64 (le_read 8 d)) in H8. split.
  - change (HpetWriteMmioHandler _ d 4) with (_HpetWriteMmioHandler (HPET_MMIO + HPET_COUNTER) (le_read 4 d)).
    eapply wp_mono; [|by apply counter_low_run]. by intros [] s' [? _].
  - set (x := le_read 8 d) in *.
    change (HpetWriteMmioHandler _ d 8) with (_HpetWriteMmioHandler (HPET_MMIO + HPET_COUNTER) (u32 x) ;;
      _HpetWriteMmioHandler (u32 (HPET_MMIO + HPET_COUNTER + 4)) (x >>. 32)).
    assert (is_u32 (x >>. 32)) as Hhi.
    { rewrite Z.shiftr_div_pow2 by done. unfold in_width in *. split; [apply Z.div_pos; lia|].
      apply Z.div_lt_upper_bound; lia. }
    apply wp_bind, wp_bind. eapply wp_mono; [|apply counter_low_run; [done..|apply u32_range]].
    intros [] s1 (Hc & Hg & Hn). eapply wp_mono; [|apply counter_high_run; [|by rewrite Hn|done]].
    2: { unfold halted, enabled in *. by rewrite Hg. }
    intros [] s2 (Hc2 & Hg2 & Hn2).
    assert (s2.(Machine.Hpet).(HPET.Counter) = x) as Hx; [|].
    { rewrite Hc2, Hc. unfold set_high, MASK_LOW. change 0xffffffff with (Z.ones 32).
      rewrite Z.land_ones, Z.mul_comm, Z.mod_add, (Z.mod_small (u32 x)) by (done || apply u32_range).
      unfold in_width in Hhi. rewrite u64_small by (unfold in_width; rewrite Z.shiftl_mul_pow2 by done; lia).
      rewrite lor_shiftl_add, Z.shiftr_div_pow2 by (done || apply u32_range). unfold u32.
      pose proof (Z.div_mod x (2 ^ 32)). lia. }
    assert (enabled s2.(Machine.Hpet) = false) as He by (unfold halted, enabled in *; by rewrite Hg2, Hg).
    apply (wp_run_bind _ _ _ _ _ _ (read_low_run s2 He)), (wp_run_bind _ _ _ _ _ _ (read_high_run s2 He)).
    rewrite Hx. apply wp_ret. rewrite u32_small by done. unfold MASK_LOW. change 0xffffffff with (Z.ones 32).
    rewrite Z.land_ones, Z.shiftr_div_pow2 by done. pose proof (Z.div_mod x (2 ^ 32)). lia.
Qed.
End Counter.

Lemma hpet_counter_write_witness :
  halted Machine.zero /\
  wp (@HpetWriteMmioHandler (fun _ _ => true) (HPET_MMIO + HPET_COUNTER) [5; 0; 0; 0; 6; 0; 0; 0] 4)
    (fun _ s' => s'.(Machine.Hpet).(HPET.Counter) = le_read 4 [5; 0; 0; 0; 6; 0; 0; 0] +
       2 ^ 32 * le_read 4 [5; 0; 0; 0; 6; 0; 0; 0]) Machine.zero.
Proof.
  assert (halted Machine.zero) as H by reflexivity. split; [exact H|].
  assert (3 <= length (hpet_timers Machine.zero))%nat as Hl by (apply Nat.leb_le; vm_compute; reflexivity).
  assert (Forall is_u8 [5; 0; 0; 0; 6; 0; 0; 0]) as Hd by (repeat constructor; done).
  exact (proj1 (@hpet_counter_write (fun _ _ => true) _ Machine.zero H Hl Hd)).
Defined.

(** ** What the event timer may touch *)

Section HpetSafe.
Context `{!Driver} (R : Machine.t -> Machine.t -> Prop) `{!IrqSafe R} `{!TimerSafe R}.
Hypothesis hpet_store : forall s g, R s (s <| Machine.Hpet ::= g |>).
Hypothesis pit_store : forall s g, R s (s <| Machine.Pit ::= g |>).
Hypothesis cmos_store : forall s g, R s (s <| Machine.Cmos ::= g |>).
Hypothesis memory_store : forall s g, R s (s <| Machine.Svmm ::= fun v => v <| SVMM.Memory ::= g |> |>).

#[local] Instance safe_upd_hpet f : Within R (upd_hpet f).
Proof. apply within_modify. intros. apply hpet_store. Qed.
#[local] Instance safe_upd_block i f : Within R (upd_block i f).
Proof. apply within_upd_at. intros. apply (hpet_store s (fun h => h <| HPET.Timer ::= _ |>)). Qed.
#[local] Instance safe_hpet_clock : Within R TimerGetClockNs.
Proof. unfold TimerGetClockNs, TimerGetTotalTicks. apply _. Qed.
#[local] Instance safe_ticks : Within R HpetGetTicks.
Proof. unfold HpetGetTicks, get_hpet. apply _. Qed.
#[local] Instance safe_host_write a n x : Within R (host_write a n x).
Proof. unfold host_write, get_svmm. repeat (apply _ || apply within_if || apply within_bind || intros). apply within_modify. intros. apply memory_store. Qed.
#[local] Instance safe_host_address a : Within R (SvmmGetHostAddress a).
Proof.
  assert (forall a, Within R (SvmmGetHostPageFromGPA a)) by (intros; unfold SvmmGetHostPageFromGPA; apply _).
  assert (forall a n, Within R (host_read a n)) by (intros; unfold host_read, get_svmm; apply _).
  assert (forall l n g k p e, Within R (walk l n g k p e)).
  { intros l n g k. induction k; intros; simpl; apply _. }
  unfold SvmmGetHostAddress, SvmmGetGpaFromGva, Pml4GetGpaFromGva, get_svmm. apply _.
Qed.
#[local] Instance safe_update_irq i r : Within R (HpetUpdateIrq i r).
Proof. unfold HpetUpdateIrq, fsb_write, get_hpet, get_block. apply _. Qed.
#[local] Instance safe_update_timer i : Within R (HpetUpdateTimer i).
Proof. unfold HpetUpdateTimer, get_block. apply _. Qed.
#[local] Instance safe_disable_timer i : Within R (HpetDisableTimer i).
Proof. unfold HpetDisableTimer, get_block. apply _. Qed.

Lemma HpetTimerHandler_within i : Within R (HpetTimerHandler i).
Proof. unfold HpetTimerHandler, get_block. apply _. Qed.
Lemma HpetReadMmioHandler_within a d l : Within R (HpetReadMmioHandler a d l).
Proof. unfold HpetReadMmioHandler, _HpetReadMmioHandler, read_global, read_timer, counter_now, get_hpet, get_block. apply _. Qed.
#[local] Instance safe_configure v : Within R (write_configure v).
Proof.
  assert (forall n, Within R (PitSetInterrupt n)).
  { intros. unfold PitSetInterrupt, upd_pit. apply within_modify. intros. apply pit_store. }
  assert (forall n, Within R (CmosSetInterrupt n)).
  { intros. unfold CmosSetInterrupt, upd_cmos. apply within_modify. intros. apply cmos_store. }
  unfold write_configure, enable_timers, disable_timers, get_hpet, get_block. apply _.
Qed.
#[local] Instance safe_timer_config i v : Within R (write_timer_config i v).
Proof. unfold write_timer_config, update_if_enabled, get_hpet, get_block. apply _. Qed.
#[local] Instance safe_compare i f : Within R (write_compare i f).
Proof. unfold write_compare, update_if_enabled, get_hpet, get_block. apply _. Qed.
#[local] Instance safe_counter f : Within R (write_counter f).
Proof. unfold write_counter, get_hpet. apply _. Qed.
Lemma HpetWriteMmioHandler_within a d l : Within R (HpetWriteMmioHandler a d l).
Proof.
  assert (forall v, Within R (write_status v)) by (intros; unfold write_status, get_hpet; apply _).
  assert (forall i v, Within R (write_global i v)) by (intros; unfold write_global; apply _).
  assert (forall i r v, Within R (write_timer i r v)) by (intros; unfold write_timer, get_block; apply _).
  assert (forall a v, Within R (_HpetWriteMmioHandler a v)) by (intros; unfold _HpetWriteMmioHandler; apply _).
  unfold HpetWriteMmioHandler. apply _.
Qed.
End HpetSafe.
