(* ===== verification/AcpiPm.v ===== *)
(** acpi.c: the power-management registers and the SMBus host of the PIIX4.

    The function 3 of device 1 on the PCI bus.  Its two I/O windows hold the
    power-management registers, with their timer of 3.58 MHz, and the block-data
    registers of the SMBus host. *)

From S2P Require Export PciConf Cmos.

(** acpi.h *)
Definition PCI_DEVICE_ID_INTEL_82371AB_3 : Z := 0x7113.
Definition ACPI_PM_REGISTERS_SIZE : Z := 56.
Definition ACPI_SM_REGISTERS_SIZE : Z := 56.
Definition PM_FREQ : Z := 3579545.
Definition RSM_STS : Z := bit 15.
Definition PWRBTN_STS : Z := bit 8.
Definition RTC_EN : Z := bit 10.
Definition PWRBTN_EN : Z := bit 8.
Definition GBL_EN : Z := bit 5.
Definition TMROF_EN : Z := bit 0.
Definition SCI_EN : Z := bit 0.
(** acpi.c *)
Definition ACPI_ENABLE : Z := 0xf1.
Definition ACPI_DISABLE : Z := 0xf0.
Definition PCI_INTA : Z := 1.
Definition PCI_CONF_BAR1 : Z := 0x14.

Definition get_acpi : IO ACPI.t := gets Machine.Acpi.
Definition upd_acpi (f : ACPI.t -> ACPI.t) : IO unit := modify (fun s => s <| Machine.Acpi ::= f |>).
Definition upd_smbus (f : SmBus.t -> SmBus.t) : IO unit := upd_acpi (fun a => a <| ACPI.SmBus ::= f |>).

(** [PciDevices[0][BX_PCI_DEVICE(1, 3)]], and the address of its register [offset]. *)
Definition acpi_key : Z * Z := (0, BX_PCI_DEVICE 1 3).
Definition acpi_address (offset : Z) : Z := PCI_DEVFUNC_OFFSET_TO_ADDRESS 0 (BX_PCI_DEVICE 1 3) offset.

(** ** Interrupts *)

Section Pm.
Context `{!Driver}.

Definition AcpiGenerateAcpi (Value : Z) : IO unit :=
  (if Value =? ACPI_ENABLE then upd_acpi (fun a => a <| ACPI.PmControl ::= fun v => v |. SCI_EN |>)
   else if Value =? ACPI_DISABLE then upd_acpi (fun a => a <| ACPI.PmControl ::= fun v => v &. u16 (~. SCI_EN) |>)
   else done_) ;;
  c ← get_conf acpi_key 0x5b;
  when (c &? 2) (_ ← ApicBusDeliverInterrupt 0 0 0 DELIVERY_MODE_SMI 1 1; done_).

(** The timer's count: [muldiv64(TimerGetTotalUseconds(), PM_FREQ, 1000000)]. *)
Definition pm_count : IO Z := n ← TimerGetTotalUseconds; mret (muldiv64 n PM_FREQ 1000000).

(** [if (count >= TimerOverflow) PmStatus |= TMROF_EN] *)
Definition note_overflow (count : Z) : IO unit :=
  a ← get_acpi;
  when (a.(ACPI.TimerOverflow) <=? count) (
    upd_acpi (fun a => a <| ACPI.PmStatus ::= fun v => v |. TMROF_EN |>)).

Definition AcpiGetPmStatus : IO Z :=
  a ← get_acpi;
  let Status := a.(ACPI.PmStatus) in
  value ← pm_count;
  note_overflow value ;;
  mret Status.

(** The level is stored in a BYTE. *)
Definition sci_level (Status PmStatus : Z) : Z :=
  u8 ((Status &. PmStatus) &. (RTC_EN |. PWRBTN_EN |. GBL_EN |. TMROF_EN)).

Definition AcpiPmUpdateSci : IO unit :=
  Status ← AcpiGetPmStatus;
  a ← get_acpi;
  pin ← get_conf acpi_key 0x3d;
  PciSetIrq (acpi_address 0) pin (sci_level Status a.(ACPI.PmStatus)) ;;
  a ← get_acpi;
  if (a.(ACPI.PmEnable) &? TMROF_EN) && negb (Status &? TMROF_EN) then
    TimerActivate a.(ACPI.TimerId) (muldiv64 a.(ACPI.TimerOverflow) 1000000 PM_FREQ) 0
  else TimerDeactivate a.(ACPI.TimerId).

Definition AcpiTimerHandler : IO unit := AcpiPmUpdateSci.

(** ** Configuration writes *)

(** [k] names the [PCI*] argument. *)
Definition AcpiPciConfWriteHandler `{!ConfCallbacks} (k : Z * Z) (Address Value Length : Z) : IO unit :=
  if (0x10 <=? Address) && (Address <? 0x34) then done_
  else if 0xff <=? Address + Length then done_
  else if Address =? 0x06 then done_
  else if Address =? 0x40 then
    PciWriteConfHandler (acpi_address PCI_CONF_BAR0) (Value &. u32 (~. 1)) 4 ;;
    upd_acpi (fun a => a <| ACPI.PmBase := Value &. u32 (~. 1) |>)
  else if Address =? 0x90 then
    PciWriteConfHandler (acpi_address PCI_CONF_BAR1) (Value &. u32 (~. 1)) 4 ;;
    upd_acpi (fun a => a <| ACPI.SmBase := Value &. u32 (~. 1) |>)
  else upd_device k (fun d => d <| PCI.conf ::= store32 Address Value |>).

(** ** The registers *)

(** Stores and loads of [n] bytes at [PmRegisters + reg]. *)
Definition pm_store (n : nat) (reg Value : Z) : IO unit :=
  if reg + Z.of_nat n <=? ACPI_PM_REGISTERS_SIZE then
    upd_acpi (fun a => a <| ACPI.PmRegisters ::= fun r =>
      take (Z.to_nat reg) r ++ le_write n Value (drop (Z.to_nat reg) r) |>)
  else stop OutOfBounds.
Definition pm_load (n : nat) (reg : Z) : IO Z :=
  a ← get_acpi; mret (le_read n (drop (Z.to_nat reg) a.(ACPI.PmRegisters))).

(** [reg > ACPI_PM_REGISTERS_SIZE - Length], on ULONGs. *)
Definition outside_registers (reg Length : Z) : bool := u32 (ACPI_PM_REGISTERS_SIZE - Length) <? reg.

Definition write_pm_status : IO unit :=
  tmp ← pm_count;
  note_overflow tmp ;;
  upd_acpi (fun a => a <| ACPI.PmStatus := 0 |>) ;;
  AcpiPmUpdateSci.

Definition write_pm_control (Value : Z) : IO unit :=
  upd_acpi (fun a => a <| ACPI.PmControl := u16 (Value &. u32 (~. bit 13)) |>) ;;
  a ← get_acpi;
  when ((a.(ACPI.PmControl) &? bit 13) && ((Value >>. 10) &? 7)) (
    upd_acpi (fun a => a <| ACPI.PmStatus ::= fun v => v |. (RSM_STS |. PWRBTN_STS) |>) ;;
    CmosSetRegister 0x0F 0xFE).

(** Registers whose writes are ignored. *)
Definition ignored (reg : Z) : bool :=
  bool_decide (reg ∈ [0x0c; 0x0d; 0x14; 0x15; 0x18; 0x19; 0x1c; 0x1d; 0x1e; 0x1f; 0x30; 0x31; 0x32]).

(** The cases of the switch on [Length] fall through. *)
Definition write_registers (reg Value Length : Z) : IO unit :=
  if outside_registers reg Length then done_
  else
    when (Length =? 1) (pm_store 1 reg Value) ;;
    when ((Length =? 1) || (Length =? 2)) (pm_store 2 reg Value) ;;
    when ((Length =? 1) || (Length =? 2) || (Length =? 4)) (pm_store 4 reg Value).

Definition write_pm (reg Value Length : Z) : IO unit :=
  if reg =? 0 then write_pm_status
  else if reg =? 2 then upd_acpi (fun a => a <| ACPI.PmEnable := u16 Value |>) ;; AcpiPmUpdateSci
  else if reg =? 4 then write_pm_control Value
  else if ignored reg then done_
  else write_registers reg Value Length.

(** [if (Index > 31) Index = 0] after [Index++], on a BYTE. *)
Definition next_index (i : Z) : Z := if 31 <? u8 (i + 1) then 0 else u8 (i + 1).

(** Every case falls through to the data register, where the handler returns. *)
Definition write_smbus (reg Value : Z) : IO unit :=
  when (reg =? 0) (upd_smbus (fun b => b <| SmBus.HostStatus := 0 |>)) ;;
  when (reg <=? 1) (upd_smbus (fun b => b <| SmBus.SlaveStatus := 0 |>)) ;;
  when (reg <=? 2) (upd_smbus (fun b => b <| SmBus.HostControl := 0 |>)) ;;
  when (reg <=? 3) (upd_smbus (fun b => b <| SmBus.HostCommand := 0 |>)) ;;
  when (reg <=? 4) (upd_smbus (fun b => b <| SmBus.HostAddress := 0 |>)) ;;
  when (reg <=? 5) (upd_smbus (fun b => b <| SmBus.HostData0 := 0 |>)) ;;
  when (reg <=? 6) (upd_smbus (fun b => b <| SmBus.HostData1 := 0 |>)) ;;
  if reg <=? 7 then
    a ← get_acpi;
    let i := a.(ACPI.SmBus).(SmBus.Index) in
    if i <? ACPI_SM_REGISTERS_SIZE then
      upd_smbus (fun b => b <| SmBus.Data ::= alterZ i (fun _ => u8 Value) |>
                            <| SmBus.Index := next_index i |>)
    else stop OutOfBounds
  else when (reg =? 8) (upd_smbus (fun b => b <| SmBus.SlaveControl := 0 |>)).

Definition AcpiWritePortIoHandler (Address Value Length : Z) : IO unit :=
  let reg := Address &. 0x3f in
  a ← get_acpi;
  d ← get_device acpi_key;
  let conf i := nth0 d.(PCI.conf) i in
  if Address &. 0xffc0 =? a.(ACPI.PmBase) then
    if negb (conf 0x80 &? 1) then done_ else write_pm reg Value Length
  else if Address &. 0xfff0 =? a.(ACPI.SmBase) then
    if negb (conf 0x04 &? 1) && negb (conf 0xd2 &? 1) then done_ else write_smbus reg Value
  else done_.

Definition read_pm (reg Length : Z) : IO Z :=
  if reg =? 0x00 then
    value ← pm_count; note_overflow value ;; a ← get_acpi; mret a.(ACPI.PmStatus)
  else if reg =? 0x02 then a ← get_acpi; mret a.(ACPI.PmEnable)
  else if reg =? 0x04 then a ← get_acpi; mret a.(ACPI.PmControl)
  else if reg =? 0x08 then value ← pm_count; mret (value &. 0xffffffff)
  else if Length =? 1 then pm_load 1 reg
  else if Length =? 2 then pm_load 2 reg
  else if Length =? 4 then pm_load 4 reg
  else mret 0.

Definition read_smbus (reg : Z) : IO Z :=
  a ← get_acpi;
  let b := a.(ACPI.SmBus) in
  if reg =? 0x00 then mret b.(SmBus.HostStatus)
  else if reg =? 0x01 then mret b.(SmBus.SlaveStatus)
  else if reg =? 0x02 then
    upd_smbus (fun b => b <| SmBus.Index := 0 |>) ;; mret (b.(SmBus.HostControl) &. 0x1f)
  else if reg =? 0x03 then mret b.(SmBus.HostCommand)
  else if reg =? 0x04 then mret b.(SmBus.HostAddress)
  else if reg =? 0x05 then mret b.(SmBus.HostData0)
  else if reg =? 0x06 then mret b.(SmBus.HostData1)
  else if reg =? 0x07 then
    let i := b.(SmBus.Index) in
    if i <? ACPI_SM_REGISTERS_SIZE then
      upd_smbus (fun b => b <| SmBus.Index := next_index i |>) ;; mret (nth0 b.(SmBus.Data) i)
    else stop OutOfBounds
  else if reg =? 0x08 then mret b.(SmBus.SlaveControl)
  else mret 0.

(** A disabled device: [return;] in a function that returns a value. *)
Definition AcpiReadPortIoHandler (Address Length : Z) : IO Z :=
  let reg := Address &. 0x3f in
  if outside_registers reg Length then mret 0
  else
    a ← get_acpi;
    d ← get_device acpi_key;
    if Address &. 0xffc0 =? a.(ACPI.PmBase) then
      if negb (nth0 d.(PCI.conf) 0x80 &? 1) then stop Indeterminate else read_pm reg Length
    else if Address &. 0xfff0 =? a.(ACPI.SmBase) then read_smbus reg
    else mret 0.

Definition AcpiInitialize : IO unit :=
  let set i v := set_conf acpi_key i v in
  upd_acpi (fun _ => ACPI.zero) ;;
  _ ← PciRegisterConfigHandler (acpi_address 0) (Some cc_Acpi);
  PciInitConfig (acpi_address 0) 0x8086 PCI_DEVICE_ID_INTEL_82371AB_3 0x03 0x0680 0x00
    PCI_HDR_TYPE_DEVICE PCI_INTA ;;
  PciSetBarIo (acpi_address 0) 0 0 16 (Some cb_Acpi) (Some cb_Acpi) 0 ;;
  PciSetBarIo (acpi_address 0) 1 0 64 (Some cb_Acpi) (Some cb_Acpi) 0 ;;
  set 0x06 0x80 ;; set 0x07 0x02 ;;
  set 0x40 0x01 ;; set 0x41 0x00 ;; set 0x42 0x00 ;; set 0x43 0x00 ;;
  set 0x5f 0x90 ;; set 0x63 0x60 ;; set 0x67 0x98 ;;
  set 0x90 0x01 ;; set 0x91 0x00 ;; set 0x92 0x00 ;; set 0x93 0x00 ;;
  upd_acpi (fun a => a <| ACPI.TimerOverflow := 0xffffffff |>) ;;
  Id ← TimerRegister (TICK_PERIOD * 10) fn_AcpiTimerHandler 0;
  upd_acpi (fun a => a <| ACPI.TimerId := Id |>).
End Pm.

(** ** The SMBus block buffer *)

(** The buffer's index stays inside the 32 bytes the guest may use. *)
Definition smbus_ok (b : SmBus.t) : Prop :=
  0 <= b.(SmBus.Index) <= 31 /\ length b.(SmBus.Data) = 56%nat.
Definition smbus_inv (s : Machine.t) : Prop := smbus_ok s.(Machine.Acpi).(ACPI.SmBus).

Lemma next_index_spec i : 0 <= i <= 31 -> next_index i = (i + 1) mod 32.
Proof.
  intros Hi. unfold next_index, u8. rewrite (Z.mod_small (i + 1) (2 ^ 8)) by lia.
  destruct (Z.ltb_spec 31 (i + 1)).
  - by replace i with 31 by lia.
  - by rewrite Z.mod_small by lia.
Qed.
Lemma next_index_range i : 0 <= i <= 31 -> 0 <= next_index i <= 31.
Proof. intros Hi. rewrite next_index_spec by done. pose proof (Z.mod_pos_bound (i + 1) 32 eq_refl). lia. Qed.

(** The device answers at its window: the base is aligned to 64 ports, differs from
    that of the power-management registers, and the window is enabled. *)
Record smbus_at (base : Z) (s : Machine.t) : Prop := {
  smbus_base : s.(Machine.Acpi).(ACPI.SmBase) = base /\ s.(Machine.Acpi).(ACPI.PmBase) <> base;
  smbus_aligned : is_u16 base /\ base mod 64 = 0;
  smbus_enabled : (nth0 (the_device acpi_key s).(PCI.conf) 0x04 &? 1) = true
}.

(** The decoding of the ports of a window, checked for the 1024 bases. *)
Definition decodes (q r : Z) : bool :=
  let a := q * 64 + r in
  (a &. 0x3f =? r) && (a &. 0xffc0 =? q * 64) && (a &. 0xfff0 =? q * 64).

Lemma decode base r : is_u16 base -> base mod 64 = 0 -> 0 <= r < 16 ->
  (base + r) &. 0x3f = r /\ (base + r) &. 0xffc0 = base /\ (base + r) &. 0xfff0 = base.
Proof.
  intros Hb Ha Hr. assert (exists q, base = q * 64 /\ 0 <= q < 1024) as (q & -> & Hq).
  { unfold in_width in Hb. exists (base / 64). split; [apply Z.div_exact in Ha; lia|].
    split; [apply Z.div_pos|apply Z.div_lt_upper_bound]; lia. }
  assert (decodes q r = true) as Hd.
  { apply (all_range_spec (decodes q) 0 16); [|lia].
    apply (all_range_spec (fun q => forallb (decodes q) (seqZ 0 16)) 0 1024); [|lia]. vm_compute. reflexivity. }
  unfold decodes in Hd. apply andb_true_iff in Hd as [[?%Z.eqb_eq ?%Z.eqb_eq]%andb_true_iff ?%Z.eqb_eq]. done.
Qed.

#[local] Arguments nth0 : simpl never.
#[local] Arguments alterZ : simpl never.

Section Block.
Context `{!Driver} (base : Z).

(** [s] with the registers of the SMBus host changed. *)
Definition with_smbus (f : SmBus.t -> SmBus.t) (s : Machine.t) : Machine.t :=
  s <| Machine.Acpi ::= fun a => a <| ACPI.SmBus ::= f |> |>.
Definition smbus (s : Machine.t) : SmBus.t := s.(Machine.Acpi).(ACPI.SmBus).

Lemma smbus_at_with f s : smbus_at base s -> smbus_at base (with_smbus f s).
Proof. intros [Hb Ha He]. split; [exact Hb|exact Ha|exact He]. Qed.

Lemma write_port_run s r v l : smbus_at base s -> 0 <= r < 16 ->
  AcpiWritePortIoHandler (base + r) v l s = write_smbus r v s.
Proof.
  intros [[Hb Hp] [Hu Ha] He] Hr. destruct (decode base r Hu Ha Hr) as (H1 & H2 & H3).
  unfold AcpiWritePortIoHandler. rewrite H1, H2, H3. unfold get_acpi, get_device.
  rewrite !(run_bind _ _ _ _ _ (run_gets _ _)). fold (the_device acpi_key s). rewrite Hb.
  rewrite (proj2 (Z.eqb_neq _ _)) by congruence. by rewrite Z.eqb_refl, He.
Qed.

Lemma read_port_run s r : smbus_at base s -> 0 <= r < 16 ->
  AcpiReadPortIoHandler (base + r) 1 s = read_smbus r s.
Proof.
  intros [[Hb Hp] [Hu Ha] He] Hr. destruct (decode base r Hu Ha Hr) as (H1 & H2 & H3).
  unfold AcpiReadPortIoHandler. rewrite H1, H2, H3. unfold outside_registers.
  change (u32 (ACPI_PM_REGISTERS_SIZE - 1)) with 55. rewrite (proj2 (Z.ltb_ge 55 r)) by lia.
  unfold get_acpi, get_device. rewrite !(run_bind _ _ _ _ _ (run_gets _ _)). rewrite Hb.
  rewrite (proj2 (Z.eqb_neq _ _)) by congruence. by rewrite Z.eqb_refl.
Qed.

(** A byte written to the data register. *)
Definition put_byte (v : Z) (b : SmBus.t) : SmBus.t :=
  b <| SmBus.Data ::= alterZ b.(SmBus.Index) (fun _ => u8 v) |> <| SmBus.Index := next_index b.(SmBus.Index) |>.

Lemma write_data_run s v l : smbus_at base s -> smbus_inv s ->
  AcpiWritePortIoHandler (base + 7) v l s = Ok tt (with_smbus (put_byte v) s).
Proof.
  intros Hs [Hi _]. rewrite write_port_run by (done || lia).
  set (i := (smbus s).(SmBus.Index)).
  change (write_smbus 7 v s) with ((if i <? ACPI_SM_REGISTERS_SIZE then
    upd_smbus (fun b => b <| SmBus.Data ::= alterZ i (fun _ => u8 v) |> <| SmBus.Index := next_index i |>)
    else stop OutOfBounds) s).
  unfold ACPI_SM_REGISTERS_SIZE. by rewrite (proj2 (Z.ltb_lt _ _)) by (unfold i, smbus; lia).
Qed.

(** A byte read from the data register, and the read that resets the index. *)
Definition next_byte (b : SmBus.t) : SmBus.t := b <| SmBus.Index ::= next_index |>.

Lemma read_data_run s : smbus_at base s -> smbus_inv s ->
  AcpiReadPortIoHandler (base + 7) 1 s =
    Ok (nth0 (smbus s).(SmBus.Data) (smbus s).(SmBus.Index)) (with_smbus next_byte s).
Proof.
  intros Hs [Hi _]. rewrite read_port_run by (done || lia). set (i := (smbus s).(SmBus.Index)).
  change (read_smbus 7 s) with ((if i <? ACPI_SM_REGISTERS_SIZE then
    upd_smbus (fun b => b <| SmBus.Index := next_index i |>) ;; mret (nth0 (smbus s).(SmBus.Data) i)
    else stop OutOfBounds) s).
  unfold ACPI_SM_REGISTERS_SIZE. by rewrite (proj2 (Z.ltb_lt _ _)) by (unfold i, smbus; lia).
Qed.

Definition reset_index (b : SmBus.t) : SmBus.t := b <| SmBus.Index := 0 |>.

Lemma read_control_run s : smbus_at base s ->
  AcpiReadPortIoHandler (base + 2) 1 s =
    Ok ((smbus s).(SmBus.HostControl) &. 0x1f) (with_smbus reset_index s).
Proof. intros Hs. by rewrite read_port_run. Qed.

Lemma put_byte_ok v b : smbus_ok b -> smbus_ok (put_byte v b).
Proof.
  intros [Hi Hd]. split; [by apply next_index_range|].
  transitivity (length b.(SmBus.Data)); [apply length_alterZ|done].
Qed.
Lemma next_byte_ok b : smbus_ok b -> smbus_ok (next_byte b).
Proof. intros [Hi Hd]. split; [by apply next_index_range|done]. Qed.

(** The guest's block transfer: the index is reset by a read of the control
    register, and the bytes go through the data register. *)
Definition write_block (bytes : list Z) : IO unit :=
  _ ← AcpiReadPortIoHandler (base + 2) 1;
  foreach bytes (fun v => AcpiWritePortIoHandler (base + 7) v 1).
Fixpoint read_bytes (n : nat) : IO (list Z) :=
  match n with
  | O => mret []
  | S n => v ← AcpiReadPortIoHandler (base + 7) 1; l ← read_bytes n; mret (v :: l)
  end.
Definition read_block (n : nat) : IO (list Z) := _ ← AcpiReadPortIoHandler (base + 2) 1; read_bytes n.

Definition block_ready (s : Machine.t) : Prop := smbus_at base s /\ smbus_inv s.

Definition put_bytes (bytes : list Z) (b : SmBus.t) : SmBus.t := fold_left (fun b v => put_byte v b) bytes b.

Lemma put_bytes_run bytes s : block_ready s ->
  foreach bytes (fun v => AcpiWritePortIoHandler (base + 7) v 1) s = Ok tt (with_smbus (put_bytes bytes) s).
Proof.
  revert s. induction bytes as [|v bytes IH]; intros s [Hs Hok]; [by destruct s as [? ? ? ? ? ? ? ? ? ? ? ? []]|].
  cbn [foreach]. rewrite (run_bind _ _ _ _ _ (write_data_run s v 1 Hs Hok)).
  apply IH. split; [by apply smbus_at_with|by apply put_byte_ok].
Qed.

Lemma put_bytes_spec bytes b : smbus_ok b -> Forall is_u8 bytes ->
  b.(SmBus.Index) + Z.of_nat (length bytes) <= 32 ->
  smbus_ok (put_bytes bytes b) /\
  (forall j x, bytes !! j = Some x -> nth0 (put_bytes bytes b).(SmBus.Data) (b.(SmBus.Index) + Z.of_nat j) = x) /\
  (forall j, j < b.(SmBus.Index) -> nth0 (put_bytes bytes b).(SmBus.Data) j = nth0 b.(SmBus.Data) j).
Proof.
  revert b. induction bytes as [|v bytes IH]; intros b Hok Hb Hn; [done|]. cbn [length] in Hn.
  apply Forall_cons in Hb as [Hv Hb]. pose proof (put_byte_ok v b Hok) as Hok1. destruct (Hok) as [Hi Hd].
  change (put_bytes (v :: bytes) b) with (put_bytes bytes (put_byte v b)).
  assert (nth0 (put_byte v b).(SmBus.Data) b.(SmBus.Index) = v) as Hput.
  { transitivity (u8 v); [|by apply u8_small].
    apply (nth0_alterZ_eq _ (fun _ => u8 v)). rewrite Hd. lia. }
  assert (forall j, j < b.(SmBus.Index) -> nth0 (put_byte v b).(SmBus.Data) j = nth0 b.(SmBus.Data) j) as Hkeep.
  { intros j Hj. apply nth0_alterZ_ne. lia. }
  destruct (decide (bytes = [])) as [->|Hne].
  { split; [done|]. split; [|exact Hkeep]. intros [|j] x Hx; [|done]. injection Hx as <-. by rewrite Z.add_0_r. }
  assert (0 < Z.of_nat (length bytes)) as Hlen by (destruct bytes; [done|cbn; lia]).
  assert ((put_byte v b).(SmBus.Index) = b.(SmBus.Index) + 1) as Hi1.
  { transitivity (next_index b.(SmBus.Index)); [done|]. by rewrite next_index_spec, Z.mod_small by lia. }
  destruct (IH (put_byte v b) Hok1 Hb ltac:(lia)) as (H1 & H2 & H3). rewrite Hi1 in H2, H3.
  split; [done|]. split.
  - intros [|j] x Hx; cbn in Hx.
    + injection Hx as <-. by rewrite Z.add_0_r, H3 by lia.
    + rewrite <- (H2 j x Hx). f_equal. lia.
  - intros j Hj. rewrite H3 by lia. by apply Hkeep.
Qed.

(** The bytes of [n] reads. *)
Lemma read_bytes_run n s : block_ready s -> (smbus s).(SmBus.Index) + Z.of_nat n <= 32 ->
  wp (read_bytes n) (fun l _ => length l = n /\
    forall j, (j < n)%nat -> l !! j = Some (nth0 (smbus s).(SmBus.Data) ((smbus s).(SmBus.Index) + Z.of_nat j))) s.
Proof.
  revert s. induction n as [|n IH]; intros s [Hs Hok] Hn.
  { apply wp_ret. split; [done|]. intros j Hj. lia. }
  cbn [read_bytes]. apply (wp_run_bind _ _ _ _ _ _ (read_data_run s Hs Hok)).
  set (s1 := with_smbus next_byte s). destruct (Hok) as [Hi Hd]. fold (smbus s) in Hi.
  assert (block_ready s1) as Hr1 by (split; [by apply smbus_at_with|by apply next_byte_ok]).
  assert ((smbus s1).(SmBus.Index) = next_index (smbus s).(SmBus.Index)) as Hi1 by done.
  assert ((smbus s1).(SmBus.Data) = (smbus s).(SmBus.Data)) as Hd1 by done.
  rewrite next_index_spec in Hi1 by done. apply wp_bind.
  destruct n as [|n].
  { apply wp_ret. split; [done|]. intros [|j] Hj; [|lia]. cbn. by rewrite Z.add_0_r. }
  rewrite Z.mod_small in Hi1 by lia. eapply wp_mono; [|apply IH; [done|rewrite Hi1; lia]].
  intros l s' [Hl Hnth]. rewrite Hd1, Hi1 in Hnth. split; [cbn; by rewrite Hl|].
  intros [|j] Hj; cbn; [by rewrite Z.add_0_r|]. rewrite Hnth by lia. do 2 f_equal. lia.
Qed.

Lemma block_roundtrip bytes s :
  block_ready s -> Forall is_u8 bytes -> (length bytes <= 32)%nat ->
  wp (write_block bytes ;; read_block (length bytes)) (fun l _ => l = bytes) s.
Proof.
  intros [Hs Hok] Hb Hn. apply wp_bind. unfold write_block.
  apply (wp_run_bind _ _ _ _ _ _ (read_control_run s Hs)). set (s0 := with_smbus reset_index s).
  assert (block_ready s0) as Hr0.
  { split; [by apply smbus_at_with|]. split; [by split|apply Hok]. }
  destruct (put_bytes_spec bytes (smbus s0) (proj2 Hr0) Hb) as (Hok1 & Hput & _).
  { change (smbus s0).(SmBus.Index) with 0. lia. }
  unfold wp at 1. rewrite (put_bytes_run bytes s0 Hr0). set (s1 := with_smbus (put_bytes bytes) s0).
  assert (smbus_at base s1) as Hs1 by apply smbus_at_with, Hr0.
  unfold read_block. apply (wp_run_bind _ _ _ _ _ _ (read_control_run s1 Hs1)).
  set (s2 := with_smbus reset_index s1). eapply wp_mono; [|apply read_bytes_run].
  - intros l _ [Hl Hnth]. apply list_eq_same_length with (n := length bytes); [done..|].
    intros j x y Hj Hx Hy. rewrite Hnth in Hx by done. injection Hx as <-.
    change (smbus s2).(SmBus.Index) with (smbus s0).(SmBus.Index). change (smbus s2).(SmBus.Data) with (put_bytes bytes (smbus s0)).(SmBus.Data).
    by apply Hput.
  - split; [by apply smbus_at_with|]. split; [by split|apply Hok1].
  - change (smbus s2).(SmBus.Index) with 0. lia.
Qed.
End Block.

(** A block of up to 32 bytes written through the SMBus data register, after a
    read of the control register, is read back the same way, byte for byte. *)
Theorem smbus_block_roundtrip `{!Driver} base bytes s :
  block_ready base s -> Forall is_u8 bytes -> (length bytes <= 32)%nat ->
  wp (write_block base bytes ;; read_block base (length bytes)) (fun l _ => l = bytes) s.
Proof. apply block_roundtrip. Qed.

(** The device with its SMBus window at 0x4000 and its power management at 0xb000. *)
Definition example_acpi : Machine.t :=
  with_device acpi_key (PCI.zero <| PCI.conf ::= alterZ 0x80 (fun _ => 1) |> <| PCI.conf ::= alterZ 4 (fun _ => 1) |>) Machine.zero
    <| Machine.Acpi ::= fun a => a <| ACPI.SmBase := 0x4000 |> <| ACPI.PmBase := 0xb000 |> |>.

Lemma example_block_ready : block_ready 0x4000 example_acpi.
Proof.
  repeat split; try reflexivity; try discriminate.
Qed.

Lemma smbus_block_roundtrip_witness :
  block_ready 0x4000 example_acpi /\
  wp (@write_block (fun _ _ => true) 0x4000 [7; 255; 3] ;; @read_block 0x4000 3) (fun l _ => l = [7; 255; 3]) example_acpi.
Proof.
  split; [exact example_block_ready|].
  apply (@smbus_block_roundtrip (fun _ _ => true) 0x4000 [7; 255; 3] example_acpi example_block_ready).
  - repeat constructor; done.
  - apply Nat.leb_le. reflexivity.
Defined.

(** ** The power-management registers *)

Section PmWrites.
Context `{!Driver}.

Record pm_at (base : Z) (s : Machine.t) : Prop := {
  pm_base : s.(Machine.Acpi).(ACPI.PmBase) = base;
  pm_aligned : is_u16 base /\ base mod 64 = 0;
  pm_enabled : (nth0 (the_device acpi_key s).(PCI.conf) 0x80 &? 1) = true
}.

Definition decodes_pm (q r : Z) : bool := let a := q * 64 + r in (a &. 0x3f =? r) && (a &. 0xffc0 =? q * 64).
Lemma decode_pm base r : is_u16 base -> base mod 64 = 0 -> 0 <= r < 64 ->
  (base + r) &. 0x3f = r /\ (base + r) &. 0xffc0 = base.
Proof.
  intros Hb Ha Hr. assert (exists q, base = q * 64 /\ 0 <= q < 1024) as (q & -> & Hq).
  { unfold in_width in Hb. exists (base / 64). split; [apply Z.div_exact in Ha; lia|].
    split; [apply Z.div_pos|apply Z.div_lt_upper_bound]; lia. }
  assert (decodes_pm q r = true) as Hd.
  { apply (all_range_spec (decodes_pm q) 0 64); [|lia].
    apply (all_range_spec (fun q => forallb (decodes_pm q) (seqZ 0 64)) 0 1024); [|lia]. vm_compute. reflexivity. }
  unfold decodes_pm in Hd. by apply andb_true_iff in Hd as [?%Z.eqb_eq ?%Z.eqb_eq].
Qed.

Definition with_registers (r : list Z) (s : Machine.t) : Machine.t :=
  s <| Machine.Acpi ::= fun a => a <| ACPI.PmRegisters := r |> |>.
Definition registers (s : Machine.t) : list Z := s.(Machine.Acpi).(ACPI.PmRegisters).

(** A byte of the registers with no meaning of its own. *)
Definition plain_register (reg : Z) : Prop :=
  0 <= reg < ACPI_PM_REGISTERS_SIZE /\ reg <> 0 /\ reg <> 2 /\ reg <> 4 /\ ignored reg = false.

Lemma write_byte_run base reg v s : pm_at base s -> plain_register reg ->
  AcpiWritePortIoHandler (base + reg) v 1 s = (pm_store 1 reg v ;; pm_store 2 reg v ;; pm_store 4 reg v) s.
Proof.
  intros [Hb [Hu Ha] He] (Hr & H0 & H2 & H4 & Hi). unfold ACPI_PM_REGISTERS_SIZE in Hr.
  destruct (decode_pm base reg Hu Ha) as [Hd1 Hd2]; [lia|].
  unfold AcpiWritePortIoHandler. rewrite Hd1, Hd2. unfold get_acpi, get_device.
  rewrite !(run_bind _ _ _ _ _ (run_gets _ _)). fold (the_device acpi_key s). rewrite Hb, Z.eqb_refl, He.
  cbn [negb]. unfold write_pm. rewrite !(proj2 (Z.eqb_neq reg _)), Hi by done. unfold write_registers.
  unfold outside_registers. change (u32 (ACPI_PM_REGISTERS_SIZE - 1)) with 55. by rewrite (proj2 (Z.ltb_ge 55 reg)) by lia.
Qed.

Lemma pm_store_run n reg v s : reg + Z.of_nat n <= 56 ->
  pm_store n reg v s = Ok tt (with_registers
    (take (Z.to_nat reg) (registers s) ++ le_write n v (drop (Z.to_nat reg) (registers s))) s).
Proof. intros Hn. unfold pm_store, ACPI_PM_REGISTERS_SIZE. by rewrite (proj2 (Z.leb_le _ _)) by lia. Qed.

Lemma pm_store_out n reg v s : 56 < reg + Z.of_nat n -> pm_store n reg v s = Fault OutOfBounds.
Proof. intros Hn. unfold pm_store, ACPI_PM_REGISTERS_SIZE. by rewrite (proj2 (Z.leb_gt _ _)) by lia. Qed.

Lemma le_write_twice n m v d : (n <= m)%nat -> le_write m v (le_write n v d) = le_write m v d.
Proof.
  revert m v d. induction n as [|n IH]; intros m v d Hm; [done|]. destruct m as [|m]; [lia|].
  destruct d as [|x d]; [done|]. cbn. f_equal. apply IH. lia.
Qed.

(** The three stores of a byte write amount to the last one. *)
Lemma stores_join reg v l : (Z.to_nat reg <= length l)%nat -> forall n m, (n <= m)%nat ->
  let l1 := take (Z.to_nat reg) l ++ le_write n v (drop (Z.to_nat reg) l) in
  take (Z.to_nat reg) l1 ++ le_write m v (drop (Z.to_nat reg) l1) =
  take (Z.to_nat reg) l ++ le_write m v (drop (Z.to_nat reg) l).
Proof.
  intros Hl n m Hm l1. unfold l1. rewrite take_app_length', drop_app_length' by (rewrite length_take; lia).
  by rewrite le_write_twice.
Qed.
End PmWrites.

(** A byte written to one of the plain registers stores four bytes, those of
    the written DWORD, over the next three registers; in the last three registers
    the store leaves the array. *)
Theorem pm_byte_write `{!Driver} base reg v s :
  pm_at base s -> plain_register reg -> length (registers s) = 56%nat ->
  AcpiWritePortIoHandler (base + reg) v 1 s =
    if reg <=? 52 then
      Ok tt (with_registers (take (Z.to_nat reg) (registers s) ++ le_write 4 v (drop (Z.to_nat reg) (registers s))) s)
    else Fault OutOfBounds.
Proof.
  intros Hpm Hreg Hl. rewrite (write_byte_run base) by done. destruct Hreg as [Hr _]. unfold ACPI_PM_REGISTERS_SIZE in Hr.
  rewrite (run_bind _ _ _ _ _ (pm_store_run 1 reg v s ltac:(lia))).
  set (s1 := with_registers _ s). destruct (decide (reg = 55)) as [->|].
  { by apply run_fault, pm_store_out. }
  rewrite (run_bind _ _ _ _ _ (pm_store_run 2 reg v s1 ltac:(lia))). set (s2 := with_registers _ s1).
  destruct (Z.leb_spec reg 52); [|apply pm_store_out; lia]. rewrite pm_store_run by lia. f_equal.
  change (registers s2) with (take (Z.to_nat reg) (registers s1) ++ le_write 2 v (drop (Z.to_nat reg) (registers s1))).
  change (registers s1) with (take (Z.to_nat reg) (registers s) ++ le_write 1 v (drop (Z.to_nat reg) (registers s))).
  rewrite (stores_join reg v (registers s) ltac:(lia) 1 2) by lia. by rewrite (stores_join reg v (registers s) ltac:(lia) 2 4) by lia.
Qed.

Lemma pm_byte_write_witness :
  @AcpiWritePortIoHandler (fun _ _ => true) (0xb000 + 0x28) 0x11 1 example_acpi =
    Ok tt (with_registers (replicate 40 0 ++ 0x11 :: replicate 15 0) example_acpi) /\
  @AcpiWritePortIoHandler (fun _ _ => true) (0xb000 + 0x37) 0x11 1 example_acpi = Fault OutOfBounds.
Proof.
  assert (pm_at 0xb000 example_acpi) as Hpm by (repeat split; reflexivity || discriminate).
  assert (plain_register 0x28) as H1 by (repeat split; reflexivity || discriminate).
  assert (plain_register 0x37) as H2 by (repeat split; reflexivity || discriminate).
  split.
  - refine (@pm_byte_write (fun _ _ => true) 0xb000 0x28 0x11 example_acpi Hpm H1 eq_refl).
  - refine (@pm_byte_write (fun _ _ => true) 0xb000 0x37 0x11 example_acpi Hpm H2 eq_refl).
Defined.

(** The level of the SCI is a byte: of the four status bits it is made of, those
    of the clock and of the power button are above it and never raise it. *)
Lemma sci_level_bits st pm : sci_level st pm = (st &. pm) &. (GBL_EN |. TMROF_EN).
Proof.
  unfold sci_level, u8. rewrite <- Z.land_ones, <- Z.land_assoc by done. reflexivity.
Qed.
