(* ===== verification/I440fxDev.v ===== *)
(** i440fx.c: the host bridge.

    It owns the configuration mechanism of the PCI bus (the ports 0xcf8 and 0xcfc
    to 0xcff), the memory-type registers, the DRAM detection registers and the
    register that opens the memory of system-management mode. *)

From S2P Require Export Memory.

(** i440fx.h, [enum memory_area_t], and pci.h *)
Definition BX_MEM_AREA_F0000 : Z := 12.
Definition PCI_DEVICE_ID_INTEL_82441 : Z := 0x1237.

Definition get_i440fx : IO I440fx.t := gets Machine.i440fx.
Definition upd_i440fx (f : I440fx.t -> I440fx.t) : IO unit := modify (fun s => s <| Machine.i440fx ::= f |>).

(** [i440fx.memory_type[area][rw] = v] *)
Definition set_memory_type (area rw v : Z) : IO unit :=
  upd_i440fx (fun r => r <| I440fx.memory_type ::= fun l =>
    updZ l area (alterZ rw (fun _ => v) (default [] (nthZ l area))) |>).

Definition host_bridge : Z * Z := (0, BX_PCI_DEVICE 0 0).
Definition host_bridge_address (offset : Z) : Z := PCI_DEVFUNC_OFFSET_TO_ADDRESS 0 (BX_PCI_DEVICE 0 0) offset.

Section Bridge.
Context `{!Driver}.

(** The host address of the memory of system-management mode. *)
Definition smram (v : SVMM.t) : Z := u64 (v.(SVMM.Ram) + v.(SVMM.RamSize) + ROM_SIZE + PAGE_SIZE).

Definition open_smram : IO unit :=
  v ← get_svmm;
  let smbase := v.(SVMM.Registers).(REGISTERS.smbase) in
  gvm_unmap_memory smbase SMM_RAM_SIZE ;;
  gvm_map_memory smbase SMM_RAM_SIZE (smram v) ;;
  gvm_map_memory 0xa0000 SMM_RAM_SIZE (smram v).

Definition close_smram : IO unit :=
  v ← get_svmm;
  let smbase := v.(SVMM.Registers).(REGISTERS.smbase) in
  gvm_unmap_memory smbase SMM_RAM_SIZE ;;
  gvm_map_memory smbase SMM_RAM_SIZE (u64 (v.(SVMM.Ram) + smbase)) ;;
  gvm_register_mmio 0xa0000 SMM_RAM_SIZE ;;
  modify (fun s => s <| Machine.Svmm ::= fun v => v <| SVMM.Registers ::= fun r =>
    r <| REGISTERS.smbase := 0xa0000 |> |> |>).

(** The two areas of a memory-type register, or one for the register 0x59. *)
Definition write_memory_type (reg Value : Z) : IO unit :=
  if reg =? 0x59 then
    set_memory_type BX_MEM_AREA_F0000 0 ((Value >>. 4) &. 1) ;;
    set_memory_type BX_MEM_AREA_F0000 1 ((Value >>. 5) &. 1)
  else
    let area := u8 ((reg - 0x5A) <<. 1) in
    set_memory_type area 0 ((Value >>. 0) &. 1) ;;
    set_memory_type area 1 ((Value >>. 1) &. 1) ;;
    set_memory_type (area + 1) 0 ((Value >>. 4) &. 1) ;;
    set_memory_type (area + 1) 1 ((Value >>. 5) &. 1).

(** [conf[Address]], not [conf[Address + i]], is compared. *)
Definition write_drb (k : Z * Z) (Address reg byte : Z) : IO unit :=
  set_conf k reg byte ;;
  c ← get_conf k Address;
  r ← get_i440fx;
  upd_i440fx (fun r' => r' <| I440fx.dramDetect ::= fun d =>
    if negb (c =? nth0 r.(I440fx.drb) (reg &. 7)) then u8 (d |. bit (reg &. 7))
    else d &. u8 (~. bit (reg &. 7)) |>).

(** One turn of the loop, for the register [reg = Address + i]. *)
Definition write_conf_byte (k : Z * Z) (Address Value reg byte : Z) : IO unit :=
  if reg =? 0x04 then set_conf k reg ((byte &. 0x40) |. 0x06)
  else if reg =? 0x07 then c ← get_conf k reg; set_conf k reg (c &. ~. (byte &. 0xf9))
  else if reg =? 0x0d then set_conf k reg (byte &. 0xf8)
  else if (reg =? 0x06) || (reg =? 0x0c) || (reg =? 0x0f) then done_
  else if reg =? 0x50 then set_conf k reg (byte &. 0x70)
  else if reg =? 0x51 then set_conf k reg ((byte &. 0x8f) |. 0x20)
  else if (0x59 <=? reg) && (reg <=? 0x5f) then
    c ← get_conf k reg;
    when (negb (c =? byte)) (set_conf k reg byte ;; write_memory_type reg Value)
  else if (0x60 <=? reg) && (reg <=? 0x67) then write_drb k Address reg byte
  else if reg =? 0x72 then
    (if byte &? 0x40 then open_smram else close_smram) ;; set_conf k reg byte
  else if reg =? 0x7a then
    c ← get_conf k reg;
    set_conf k reg (c &. 0x0a) ;;
    c ← get_conf k reg;
    set_conf k reg (c |. (byte &. 0xf5))
  else set_conf k reg byte.

(** [byte = (Value >> i) & 0xff]: the shift is by bits. *)
Definition I440fxPciConfWriteHandler (k : Z * Z) (Address Value Length : Z) : IO unit :=
  if (0x10 <=? Address) && (Address <? 0x34) then done_
  else
    foreach (seqZ 0 Length) (fun i =>
      v ← shr32 Value i;
      write_conf_byte k Address Value (Address + i) (v &. 0xff)).

Section Ports.
Context `{!ConfCallbacks}.

Definition I440fxReset : IO unit :=
  let write offset v := PciWriteConfHandler (host_bridge_address offset) v 1 in
  write 0x04 0x06 ;; write 0x05 0x00 ;; write 0x06 0x80 ;; write 0x07 0x02 ;;
  write 0x0d 0x00 ;; write 0x0f 0x00 ;; write 0x50 0x00 ;; write 0x51 0x01 ;;
  write 0x52 0x00 ;; write 0x54 0x00 ;; write 0x55 0x00 ;; write 0x56 0x00 ;;
  write 0x57 0x00 ;; write 0x58 0x10 ;;
  foreach (seqZ 0x59 7) (fun i => write i 0x00) ;;
  write 0xb4 0x00 ;; write 0xb9 0x00 ;; write 0xba 0x00 ;; write 0xbb 0x00.

(** The address the ports 0xcfc to 0xcff stand for. *)
Definition dev_address (confAddress Address : Z) : Z :=
  (confAddress &. 0xffffff00) |. u32 ((confAddress &. 0xfc) + (Address &. 3)).

Definition is_data_port (Address : Z) : bool := (0xcfc <=? Address) && (Address <=? 0xcff).

Definition I440fxPortIoReadHandler (Address Length : Z) : IO Z :=
  r ← get_i440fx;
  if Address =? 0x92 then mret (r.(I440fx.a20) <<. 1)
  else if Address =? 0xcf8 then mret r.(I440fx.confAddress)
  else if is_data_port Address then
    confData ← PciReadConfHandler (dev_address r.(I440fx.confAddress) Address) Length;
    upd_i440fx (fun r => r <| I440fx.confData := confData |>) ;;
    mret confData
  else mret r.(I440fx.confData).

Definition I440fxPortIoWriteHandler (Address Value Length : Z) : IO unit :=
  if Address =? 0x92 then when (Value &? 2) (upd_i440fx (fun r => r <| I440fx.a20 := 1 |>))
  else if Address =? 0xcf8 then upd_i440fx (fun r => r <| I440fx.confAddress := Value |>)
  else if is_data_port Address then
    upd_i440fx (fun r => r <| I440fx.confData := Value |>) ;;
    r ← get_i440fx;
    PciWriteConfHandler (dev_address r.(I440fx.confAddress) Address) Value Length
  else done_.

(** The rows of a DRAM type: [drbval += type >> 3; drb[i] = drbval], [n] times. *)
Fixpoint count_rows (n : nat) (i step drbval : Z) : IO Z :=
  match n with
  | O => mret drbval
  | S n =>
      let drbval := u8 (drbval + step) in
      upd_i440fx (fun r => r <| I440fx.drb ::= alterZ i (fun _ => drbval) |>) ;;
      count_rows n i step drbval
  end.

(** [RamSize], rounded up to a multiple of 8 and bounded by 1024. *)
Definition counted_ram (RamSize : Z) : Z :=
  let r := if RamSize &? 7 then u64 ((RamSize &. ~. 7) + 8) else RamSize in
  if 1024 <? r then 1024 else r.

(** SVMM.c calls it without arguments: [RamSize] is what the caller's register
    holds. *)
Definition I440fxInitialize (RamSize : Z) : IO unit :=
  upd_i440fx (fun _ => I440fx.zero) ;;
  _ ← PciRegisterConfigHandler (host_bridge_address 0) (Some cc_I440fx);
  PciInitConfig (host_bridge_address 0) PCI_VENDOR_ID_INTEL PCI_DEVICE_ID_INTEL_82441 0x00 0x0600 0x00 0x00 0 ;;
  I440fxReset ;;
  RegisterPortIoHandler 0x92 (Some cb_I440fx) (Some cb_I440fx) ;;
  RegisterPortIoHandler 0xcf8 (Some cb_I440fx) (Some cb_I440fx) ;;
  foreach (seqZ 0xcfc 4) (fun i => RegisterPortIoHandler i (Some cb_I440fx) (Some cb_I440fx)) ;;
  upd_i440fx (fun r => r <| I440fx.drb := replicate 8 0 |>) ;;
  let mc type := Z.to_nat (counted_ram RamSize / type) in
  drbval ← count_rows (mc 128) 0 16 0;
  drbval ← count_rows (mc 32) 1 4 drbval;
  drbval ← count_rows (mc 8) 2 1 drbval;
  foreach (seqZ 0 8) (fun i => upd_i440fx (fun r => r <| I440fx.drb ::= alterZ i (fun _ => drbval) |>)) ;;
  upd_i440fx (fun r => r <| I440fx.dramDetect := 0 |>) ;;
  foreach (seqZ 0 8) (fun i =>
    r ← get_i440fx;
    PciWriteConfHandler (host_bridge_address (0x60 + i)) (nth0 r.(I440fx.drb) i) 1).
End Ports.
End Bridge.

(** ** Configuration cycles *)

(** The configuration address of a register of the host bridge, with the enable
    bit, which the code does not test. *)
Definition conf_address (reg : Z) : Z := 0x80000000 + reg.

Definition decodes_conf (reg : Z) : bool :=
  let a := dev_address (conf_address reg) 0xcfc in
  (bool_decide (key_of a = host_bridge) && (PCI_ADDRESS_TO_OFFSET a =? reg)) || nz (reg &. 3).

Lemma conf_decoded reg : 0 <= reg < 256 -> reg &. 3 = 0 ->
  key_of (dev_address (conf_address reg) 0xcfc) = host_bridge /\
  PCI_ADDRESS_TO_OFFSET (dev_address (conf_address reg) 0xcfc) = reg.
Proof.
  intros Hr Ha. assert (decodes_conf reg = true) as Hd.
  { apply (all_range_spec decodes_conf 0 256); [vm_compute; reflexivity|lia]. }
  unfold decodes_conf in Hd. rewrite Ha, orb_false_r in Hd. apply andb_true_iff in Hd as [Hk Ho].
  by apply bool_decide_eq_true in Hk; apply Z.eqb_eq in Ho.
Qed.

(** The registers from 0x80 on have no case of their own. *)
Lemma plain_byte `{!Driver} k a v reg byte : 0x80 <= reg -> write_conf_byte k a v reg byte = set_conf k reg byte.
Proof.
  intros Hr. unfold write_conf_byte.
  rewrite !(proj2 (Z.eqb_neq reg _)) by lia. rewrite !(proj2 (Z.leb_gt reg _)) by lia. by rewrite !andb_false_r.
Qed.

(** The bytes the handler stores for a DWORD: the value shifted by bits. *)
Definition skewed (reg v : Z) (c : list Z) : list Z :=
  alterZ (reg + 3) (fun _ => u8 (v >>. 3)) (alterZ (reg + 2) (fun _ => u8 (v >>. 2))
    (alterZ (reg + 1) (fun _ => u8 (v >>. 1)) (alterZ reg (fun _ => u8 v) c))).

Lemma skewed_word reg v c : 0 <= reg -> reg + 3 < Z.of_nat (length c) ->
  conf32 reg (skewed reg v c) = u8 v |. (u8 (v >>. 1) <<. 8) |. (u8 (v >>. 2) <<. 16) |. (u8 (v >>. 3) <<. 24).
Proof.
  intros H0 Hl. unfold conf32, skewed.
  repeat ((rewrite nth0_alterZ_eq by (rewrite ?length_alterZ; lia)) || (rewrite nth0_alterZ_ne by lia)). done.
Qed.

#[local] Arguments alterZ : simpl never.
#[local] Arguments nth0 : simpl never.

Lemma u8_mask v : u8 (v &. 0xff) = u8 v.
Proof. unfold u8. change 0xff with (Z.ones 8). rewrite Z.land_ones by done. by apply Z.mod_mod. Qed.

Section Cycles.
Context `{!Driver} `{!ConfCallbacks}.
Hypothesis host_callback : forall k o v l, conf_write cc_I440fx k o v l = I440fxPciConfWriteHandler k o v l.

(** The host bridge as [I440fxInitialize] registers it. *)
Record bridge_ready (s : Machine.t) : Prop := {
  ready_init : (the_device host_bridge s).(PCI.initialized) = 1;
  ready_handler : (the_device host_bridge s).(PCI.WritePciConfHandler) = Some cc_I440fx;
  ready_conf : length (the_device host_bridge s).(PCI.conf) = 256%nat
}.

Lemma byte_run k a v i s : 0x80 <= a -> 0 <= i < 32 ->
  (b ← shr32 v i; write_conf_byte k a v (a + i) (b &. 0xff)) s =
    Ok tt (with_device k (the_device k s <| PCI.conf ::= alterZ (a + i) (fun _ => u8 (v >>. i)) |>) s).
Proof.
  intros Ha Hi. unfold shr32. rewrite (proj2 (Z.ltb_lt i 32)) by lia.
  rewrite (run_bind (mret _) _ _ _ _ eq_refl), plain_byte, set_conf_run by lia. by rewrite u8_mask.
Qed.

Lemma handler_run k a v s : 0x80 <= a ->
  I440fxPciConfWriteHandler k a v 4 s =
    Ok tt (with_device k (the_device k s <| PCI.conf ::= skewed a v |>) s) /\
  I440fxPciConfWriteHandler k a v 1 s =
    Ok tt (with_device k (the_device k s <| PCI.conf ::= alterZ a (fun _ => u8 v) |>) s).
Proof.
  intros Ha. unfold I440fxPciConfWriteHandler. rewrite (proj2 (Z.ltb_ge a 0x34)), andb_false_r by lia.
  change (seqZ 0 4) with [0; 1; 2; 3]. change (seqZ 0 1) with [0]. cbn [foreach].
  split.
  - rewrite (run_bind _ _ _ _ _ (byte_run k a v 0 _ Ha ltac:(lia))), (run_bind _ _ _ _ _ (byte_run k a v 1 _ Ha ltac:(lia))),
      (run_bind _ _ _ _ _ (byte_run k a v 2 _ Ha ltac:(lia))), (run_bind _ _ _ _ _ (byte_run k a v 3 _ Ha ltac:(lia))).
    rewrite !with_device_with, !the_device_with. unfold skewed. by rewrite Z.add_0_r, Z.shiftr_0_r.
  - rewrite (run_bind _ _ _ _ _ (byte_run k a v 0 _ Ha ltac:(lia))). by rewrite Z.add_0_r, Z.shiftr_0_r.
Qed.

(** A configuration write at the data port. *)
Lemma data_write_run reg v l s : bridge_ready s -> 0x80 <= reg <= 0xf8 -> reg &. 3 = 0 -> 0 < l <= 4 ->
  s.(Machine.i440fx).(I440fx.confAddress) = conf_address reg ->
  I440fxPortIoWriteHandler 0xcfc v l s =
    I440fxPciConfWriteHandler host_bridge reg v l
      (s <| Machine.i440fx ::= fun r => r <| I440fx.confData := v |> |>).
Proof.
  intros [Hi Hh Hc] Hr Ha Hl Haddr. destruct (conf_decoded reg) as [Hk Ho]; [lia|done|].
  set (s1 := s <| Machine.i440fx ::= fun r => r <| I440fx.confData := v |> |>).
  change (I440fxPortIoWriteHandler 0xcfc v l s)
    with (PciWriteConfHandler (dev_address s1.(Machine.i440fx).(I440fx.confAddress) 0xcfc) v l s1).
  change (s1.(Machine.i440fx).(I440fx.confAddress)) with (s.(Machine.i440fx).(I440fx.confAddress)). rewrite Haddr.
  unfold PciWriteConfHandler. rewrite Hk, Ho. unfold get_device.
  rewrite (run_bind _ _ _ _ _ (run_gets _ _)). fold (the_device host_bridge s1).
  change (the_device host_bridge s1) with (the_device host_bridge s). rewrite Hi, Hh.
  change (bad_key host_bridge) with false. change (negb (nz 1)) with false. cbv iota.
  assert (bad_offset reg l = false) as ->.
  { unfold bad_offset. rewrite u32_small by (unfold in_width; lia).
    rewrite (proj2 (Z.eqb_neq _ _)), (proj2 (Z.ltb_ge _ _)), (proj2 (Z.leb_gt _ _)) by lia. done. }
  assert (is_bar (the_device host_bridge s) reg = false) as ->.
  { unfold is_bar, PCI_CONF_BAR5. by rewrite (proj2 (Z.leb_gt reg 0x24)), andb_false_r by lia. }
  unfold PCI_CONF_ROM_ADDRESS, PCI_CONF_IRQ_LINE. rewrite !(proj2 (Z.eqb_neq _ _)) by lia.
  cbn [of_option]. rewrite (run_bind (mret _) _ _ _ _ eq_refl). by rewrite host_callback.
Qed.
End Cycles.

Section Reads.
Context `{!Driver} `{!ConfCallbacks}.

(** A configuration read at the data port, after a write of the address. *)
Lemma data_read_run reg s :
  length (the_device host_bridge s).(PCI.conf) = 256%nat -> Forall is_u8 (the_device host_bridge s).(PCI.conf) ->
  s.(Machine.i440fx).(I440fx.confAddress) = conf_address reg -> 0x80 <= reg <= 0xf8 -> reg &. 3 = 0 ->
  wp (I440fxPortIoReadHandler 0xcfc 4) (fun x _ => x = conf32 reg (the_device host_bridge s).(PCI.conf)) s.
Proof.
  intros Hl Hc Haddr Hr Ha. destruct (conf_decoded reg) as [Hk Ho]; [lia|done|].
  unfold I440fxPortIoReadHandler, get_i440fx. apply wp_gets_bind. rewrite Haddr.
  change (0xcfc =? 0x92) with false. change (0xcfc =? 0xcf8) with false. change (is_data_port 0xcfc) with true. cbv iota.
  apply wp_run_bind with (a := conf32 reg (the_device host_bridge s).(PCI.conf)) (s' := s).
  - unfold PciReadConfHandler. rewrite Hk, Ho. unfold get_device. rewrite (run_bind _ _ _ _ _ (run_gets _ _)).
    fold (the_device host_bridge s). change (bad_key host_bridge) with false.
    rewrite (bad_offset_4 reg) by lia.
    assert (is_bar (the_device host_bridge s) reg = false) as ->.
    { unfold is_bar, PCI_CONF_BAR5. by rewrite (proj2 (Z.leb_gt reg 0x24)), andb_false_r by lia. }
    cbn [andb]. rewrite (proj2 (Z.eqb_neq reg PCI_CONF_ROM_ADDRESS)) by (unfold PCI_CONF_ROM_ADDRESS; lia).
    apply read_conf32; [lia|done].
  - apply wp_modify_bind. by apply wp_ret.
Qed.
End Reads.

(** The handler of configuration writes takes byte [i] of the written value at
    bit [i], not at bit [8 * i]: a DWORD written to the host bridge through the
    configuration mechanism reads back with its bytes skewed. *)
Theorem conf_write_skewed `{!Driver} `{!ConfCallbacks} reg v s :
  (forall k o v l, conf_write cc_I440fx k o v l = I440fxPciConfWriteHandler k o v l) ->
  bridge_ready s -> Forall is_u8 (the_device host_bridge s).(PCI.conf) ->
  0x80 <= reg <= 0xf8 -> reg &. 3 = 0 ->
  wp (I440fxPortIoWriteHandler 0xcf8 (conf_address reg) 4 ;; I440fxPortIoWriteHandler 0xcfc v 4 ;;
      I440fxPortIoReadHandler 0xcfc 4) (fun x _ =>
    x = u8 v |. (u8 (v >>. 1) <<. 8) |. (u8 (v >>. 2) <<. 16) |. (u8 (v >>. 3) <<. 24)) s.
Proof.
  intros Hcb Hs Hc Hr Ha. set (d := the_device host_bridge s).
  set (s1 := s <| Machine.i440fx ::= fun r => r <| I440fx.confAddress := conf_address reg |> |>).
  apply (wp_run_bind _ tt s1); [reflexivity|].
  set (s2 := s1 <| Machine.i440fx ::= fun r => r <| I440fx.confData := v |> |>).
  apply (wp_run_bind _ tt (with_device host_bridge (d <| PCI.conf ::= skewed reg v |>) s2)).
  { rewrite (data_write_run Hcb reg v 4 s1) by (done || lia || by destruct Hs). exact (proj1 (handler_run host_bridge reg v s2 ltac:(lia))). }
  destruct Hs as [_ _ Hl]. fold d in Hl, Hc.
  eapply wp_mono; [|apply (data_read_run reg); rewrite ?the_device_with; try done].
  - intros x s' ->. rewrite the_device_with. apply skewed_word; [lia|cbn; lia].
  - cbn. unfold skewed. by rewrite !length_alterZ.
  - cbn. unfold skewed. repeat (apply Forall_alterZ; [done| |auto with width]). done.
Qed.

#[local] Existing Instance example_driver.
#[local] Instance example_callbacks : ConfCallbacks := fun h k o v l =>
  match h with cc_I440fx => I440fxPciConfWriteHandler k o v l | _ => done_ end.
Definition example_bridge : Machine.t :=
  with_device host_bridge (PCI.zero <| PCI.initialized := 1 |> <| PCI.WritePciConfHandler := Some cc_I440fx |>) Machine.zero.

Lemma conf_write_skewed_witness :
  bridge_ready example_bridge /\
  wp (I440fxPortIoWriteHandler 0xcf8 (conf_address 0x90) 4 ;; I440fxPortIoWriteHandler 0xcfc 0x100 4 ;;
      I440fxPortIoReadHandler 0xcfc 4) (fun x _ =>
    x = u8 0x100 |. (u8 (0x100 >>. 1) <<. 8) |. (u8 (0x100 >>. 2) <<. 16) |. (u8 (0x100 >>. 3) <<. 24)) example_bridge.
Proof.
  assert (bridge_ready example_bridge) as H by (split; reflexivity). split; [exact H|].
  apply (conf_write_skewed 0x90 0x100 example_bridge); [reflexivity|exact H| | |reflexivity].
  - apply (Forall_replicate is_u8 256 0). by split.
  - split; discriminate.
Defined.
