(* ===== verification/Piix3Dev.v ===== *)
(** piix3.c: the ISA bridge.

    The APM ports, the trigger-mode registers of the two interrupt controllers,
    and the registers that route the PCI interrupt lines. *)

From S2P Require Export AcpiPm.

(** pci.h *)
Definition PCI_DEVICE_ID_INTEL_82371SB_0 : Z := 0x7000.
Definition PCI_SLOTS : Z := 2.

Definition get_piix3 : IO Piix3.t := gets Machine.piix3.
Definition upd_piix3 (f : Piix3.t -> Piix3.t) : IO unit := modify (fun s => s <| Machine.piix3 ::= f |>).

Definition isa_bridge : Z * Z := (0, BX_PCI_DEVICE 1 0).
Definition isa_bridge_address (offset : Z) : Z := PCI_DEVFUNC_OFFSET_TO_ADDRESS 0 (BX_PCI_DEVICE 1 0) offset.

(** ** Interrupt routing *)

Definition Piix3RegisterIrq (k : Z * Z) (Address irq : Z) : IO unit :=
  if 16 <=? irq then done_
  else
    set_conf k Address irq ;;
    upd_piix3 (fun r => r <| Piix3.irqRegister ::= alterZ irq (fun m => m |. bit (Address &. 3)) |>).

Definition Piix3UnregisterIrq (k : Z * Z) (Address irq : Z) : IO unit :=
  if 16 <=? irq then done_
  else
    set_conf k Address irq ;;
    upd_piix3 (fun r => r <| Piix3.irqRegister ::= alterZ irq (fun m => m &. u8 (~. bit (Address &. 3))) |>).

(** [irqStatus[offset][irq]] *)
Definition status_row (r : Piix3.t) (offset : Z) : list Z := default [] (nthZ r.(Piix3.irqStatus) offset).
Definition irq_status (r : Piix3.t) (offset irq : Z) : Z := nth0 (status_row r offset) irq.
Definition set_irq_status (offset irq : Z) (f : Z -> Z) (r : Piix3.t) : Piix3.t :=
  r <| Piix3.irqStatus ::= fun l => updZ l offset (alterZ irq f (status_row r offset)) |>.
Definition quiet (r : Piix3.t) (irq : Z) : bool :=
  negb (nz (irq_status r 0 irq)) && negb (nz (irq_status r 1 irq))
  && negb (nz (irq_status r 2 irq)) && negb (nz (irq_status r 3 irq)).

Section Bridge.
Context `{!Driver}.

Definition Piix3SetIrq (k : Z * Z) (devFunc line level : Z) : IO unit :=
  let offset := ((devFunc >>. 3) + line - PCI_SLOTS) &. 0x03 in
  irq ← get_conf k (0x60 + offset);
  if (16 <? irq) || negb (bit irq &? 0xdef8) then done_
  else if nz level then
    r ← get_piix3;
    when (quiet r irq) (PicRaiseIrq irq) ;;
    upd_piix3 (set_irq_status offset irq (fun v => u32 (v |. bit (devFunc >>. 3))))
  else
    upd_piix3 (set_irq_status offset irq (fun v => v &. u32 (~. bit (devFunc >>. 3)))) ;;
    r ← get_piix3;
    when (quiet r irq) (PicLowerIrq irq).

(** ** Configuration writes *)

(** One turn of the loop, for the register [reg = Address + i]; it returns [Value],
    which the status register's case changes. *)
Definition piix3_conf_byte (k : Z * Z) (Value reg byte : Z) : IO Z :=
  if reg =? 0x04 then set_conf k reg ((byte &. 0x08) |. 0x07) ;; mret Value
  else if reg =? 0x05 then set_conf k reg (byte &. 0x01) ;; mret Value
  else if reg =? 0x07 then
    c ← get_conf k reg; set_conf k reg ((c &. ~. byte) |. 0x02) ;; mret (Value &. 0x78)
  else if reg =? 0x4f then set_conf k reg (byte &. 1) ;; mret Value
  else if (0x60 <=? reg) && (reg <=? 0x63) then
    let byte := byte &. 0x8f in
    c ← get_conf k reg;
    when (negb (byte =? c)) (
      if byte &? 0x80 then Piix3UnregisterIrq k reg byte else Piix3RegisterIrq k reg byte) ;;
    mret Value
  else if reg =? 0x6a then set_conf k reg (byte &. 0xd7) ;; mret Value
  else if reg =? 0x80 then mret Value
  else set_conf k reg byte ;; mret Value.

Fixpoint piix3_conf_loop (l : list Z) (k : Z * Z) (Address Value : Z) : IO unit :=
  match l with
  | [] => done_
  | i :: l =>
      v ← shr32 Value i;
      Value ← piix3_conf_byte k Value (Address + i) (v &. 0xff);
      piix3_conf_loop l k Address Value
  end.

Definition Piix3PciConfWriteHandler (k : Z * Z) (Address Value Length : Z) : IO unit :=
  if (0x10 <=? Address) && (Address <? 0x34) || (0xff <? Address) then done_
  else piix3_conf_loop (seqZ 0 Length) k Address Value.

(** ** Ports *)

Definition Piix3PortIoWriteHandler (Address Value Length : Z) : IO unit :=
  if Address =? 0xb2 then
    upd_piix3 (fun r => r <| Piix3.APMControl := Value &. 0xff |>) ;;
    r ← get_piix3;
    AcpiGenerateAcpi r.(Piix3.APMControl)
  else if Address =? 0xb3 then upd_piix3 (fun r => r <| Piix3.APMStatus := Value &. 0xff |>)
  else if Address =? 0x4d0 then
    let Value := Value &. 0xf8 in
    r ← get_piix3;
    when (negb (Value =? r.(Piix3.edgeLevelTrigger1))) (
      upd_piix3 (fun r => r <| Piix3.edgeLevelTrigger1 := Value |>) ;; PicSetMode 1 Value)
  else if Address =? 0x4d1 then
    let Value := Value &. 0xde in
    r ← get_piix3;
    when (negb (Value =? r.(Piix3.edgeLevelTrigger2))) (
      upd_piix3 (fun r => r <| Piix3.edgeLevelTrigger2 := Value |>) ;; PicSetMode 0 Value)
  else if Address =? 0xcf9 then upd_piix3 (fun r => r <| Piix3.pciReset := 1 |>)
  else done_.

Definition Piix3PortIoReadHandler (Address Length : Z) : IO Z :=
  r ← get_piix3;
  mret (if Address =? 0xb2 then r.(Piix3.APMControl)
        else if Address =? 0xb3 then r.(Piix3.APMStatus)
        else if Address =? 0x4d0 then r.(Piix3.edgeLevelTrigger1)
        else if Address =? 0x4d1 then r.(Piix3.edgeLevelTrigger2)
        else if Address =? 0xcf9 then r.(Piix3.pciReset)
        else 0).

Section Init.
Context `{!ConfCallbacks}.

Definition Piix3Reset : IO unit :=
  let write offset v := PciWriteConfHandler (isa_bridge_address offset) v 1 in
  write 0x07 0x02 ;; write 0x4c 0x4d ;; write 0x4e 0x03 ;; write 0x69 0x02 ;; write 0x70 0x80 ;;
  write 0x76 0x0c ;; write 0x77 0x0c ;; write 0x78 0x02 ;; write 0xa0 0x08 ;; write 0xa8 0x0f.

Definition Piix3Initialize : IO unit :=
  upd_piix3 (fun _ => Piix3.zero) ;;
  _ ← PciRegisterConfigHandler (isa_bridge_address 0) (Some cc_Piix3);
  PciInitConfig (isa_bridge_address 0) PCI_VENDOR_ID_INTEL PCI_DEVICE_ID_INTEL_82371SB_0 0x00 0x0601 0x00 0x80 0 ;;
  Piix3Reset ;;
  foreach [0xb2; 0xb3; 0x4d0; 0x4d1; 0xcf9] (fun i =>
    RegisterPortIoHandler i (Some cb_Piix3) (Some cb_Piix3)) ;;
  PciWriteConfHandler (isa_bridge_address 0x4) 0x07 1 ;;
  foreach (seqZ 0 4) (fun i => PciWriteConfHandler (isa_bridge_address (0x60 + i)) 0x80 1).
End Init.
End Bridge.

#[local] Arguments alterZ : simpl never.
#[local] Arguments nth0 : simpl never.

(** ** Routing *)

Section Routing.
Context `{!Driver}.

(** A route byte either has bit 7 set, and then no line of the controllers, or names
    one of them. *)
Lemma route_byte v : let b := v &. 0x8f in
  (if b &? 0x80 then 16 <=? b else b <? 16) = true /\ (b &? 0x80) = (v &? 0x80).
Proof.
  intros b. assert (b = u8 v &. 0x8f) as ->.
  { unfold b, u8. rewrite <- Z.land_ones, <- Z.land_assoc by done. reflexivity. }
  split; [|unfold tst, u8; rewrite <- Z.land_ones, <- !Z.land_assoc by done; reflexivity].
  exact (all_bytes_spec (fun x => if (x &. 0x8f) &? 0x80 then 16 <=? (x &. 0x8f) else (x &. 0x8f) <? 16)
    ltac:(vm_compute; reflexivity) (u8 v) (u8_range v)).
Qed.

(** The machine with a route register and the map of lines changed. *)
Definition routed (k : Z * Z) (reg irq : Z) (s : Machine.t) : Machine.t :=
  with_device k (the_device k s <| PCI.conf ::= alterZ reg (fun _ => u8 irq) |>) s
    <| Machine.piix3 ::= fun r => r <| Piix3.irqRegister ::= alterZ irq (fun m => m |. bit (reg &. 3)) |> |>.

Lemma route_byte_run k V v reg s : 0x60 <= reg <= 0x63 ->
  let byte := v &. 0x8f in
  piix3_conf_byte k V reg (v &. 0xff) s =
    Ok V (if (byte =? nth0 (the_device k s).(PCI.conf) reg) || (byte &? 0x80) then s else routed k reg byte s).
Proof.
  intros Hr. pose proof (proj1 (route_byte v)) as Hb. cbv zeta in Hb |- *. unfold piix3_conf_byte.
  rewrite !(proj2 (Z.eqb_neq reg _)) by lia. rewrite (proj2 (Z.leb_le 0x60 reg)), (proj2 (Z.leb_le reg 0x63)) by lia.
  cbn [andb]. replace ((v &. 0xff) &. 0x8f) with (v &. 0x8f) by (rewrite <- Z.land_assoc; reflexivity).
  set (byte := v &. 0x8f) in *. rewrite (run_bind _ _ _ _ _ (get_conf_run _ _ _)).
  destruct (byte =? nth0 (the_device k s).(PCI.conf) reg); [done|]. cbn [negb orb when].
  destruct (byte &? 0x80).
  - unfold Piix3UnregisterIrq. rewrite Hb. done.
  - unfold Piix3RegisterIrq. apply Z.ltb_lt in Hb. rewrite (proj2 (Z.leb_gt 16 byte)) by lia. done.
Qed.

Lemma route_run k v reg s : 0x60 <= reg <= 0x63 ->
  let byte := v &. 0x8f in
  Piix3PciConfWriteHandler k reg v 1 s =
    Ok tt (if (byte =? nth0 (the_device k s).(PCI.conf) reg) || (byte &? 0x80) then s else routed k reg byte s).
Proof.
  intros Hr. unfold Piix3PciConfWriteHandler. rewrite (proj2 (Z.ltb_ge reg 0x34)), (proj2 (Z.ltb_ge 0xff reg)), andb_false_r by lia.
  cbn [orb]. change (seqZ 0 1) with [0]. cbn [piix3_conf_loop]. unfold shr32. change (0 <? 32) with true. cbv iota.
  rewrite (run_bind (mret _) _ _ _ _ eq_refl), Z.add_0_r, Z.shiftr_0_r.
  by rewrite (run_bind _ _ _ _ _ (route_byte_run k v v reg s Hr)).
Qed.
End Routing.

(** A write to one of the four routing registers connects its line when bit 7
    is clear; a write with bit 7 set, which should disconnect it, changes nothing. *)
Theorem piix3_route `{!Driver} k v reg s :
  0x60 <= reg <= 0x63 -> length (the_device k s).(PCI.conf) = 256%nat ->
  if v &? 0x80 then Piix3PciConfWriteHandler k reg v 1 s = Ok tt s
  else wp (Piix3PciConfWriteHandler k reg v 1) (fun _ s' =>
    nth0 (the_device k s').(PCI.conf) reg = v &. 0x8f /\ v &. 0x8f < 16) s.
Proof.
  intros Hr Hl. destruct (route_byte v) as [Hb Hbit]. cbv zeta in Hb, Hbit. rewrite <- Hbit.
  pose proof (route_run k v reg s Hr) as Hrun. cbv zeta in Hrun.
  destruct ((v &. 0x8f) &? 0x80) eqn:E; [by rewrite orb_true_r in Hrun|]. rewrite orb_false_r in Hrun.
  apply Z.ltb_lt in Hb. unfold wp. rewrite Hrun.
  destruct (Z.eqb_spec (v &. 0x8f) (nth0 (the_device k s).(PCI.conf) reg)) as [He|]; [done|]. split; [|done].
  transitivity (nth0 (alterZ reg (fun _ => u8 (v &. 0x8f)) (the_device k s).(PCI.conf)) reg).
  - change (the_device k (routed k reg (v &. 0x8f) s)) with
      (the_device k (with_device k (the_device k s <| PCI.conf ::= alterZ reg (fun _ => u8 (v &. 0x8f)) |>) s)).
    by rewrite the_device_with.
  - rewrite nth0_alterZ_eq by (rewrite Hl; lia). apply u8_small. split; [apply Z.land_nonneg; by right|].
    change (2 ^ 8) with 256. lia.
Qed.

Definition example_isa : Machine.t := with_device isa_bridge PCI.zero Machine.zero.

Lemma piix3_route_witness :
  length (the_device isa_bridge example_isa).(PCI.conf) = 256%nat /\
  Piix3PciConfWriteHandler isa_bridge 0x60 0x80 1 example_isa = Ok tt example_isa /\
  wp (Piix3PciConfWriteHandler isa_bridge 0x60 0x0b 1) (fun _ s' =>
    nth0 (the_device isa_bridge s').(PCI.conf) 0x60 = 0x0b &. 0x8f /\ 0x0b &. 0x8f < 16) example_isa.
Proof.
  assert (0x60 <= 0x60 <= 0x63) as H by (split; discriminate).
  split; [reflexivity|]. split.
  - exact (@piix3_route (fun _ _ => true) isa_bridge 0x80 0x60 example_isa H eq_refl).
  - exact (@piix3_route (fun _ _ => true) isa_bridge 0x0b 0x60 example_isa H eq_refl).
Defined.
