(* ===== verification/IdeDma.v ===== *)
(** ide.c: the bus-master DMA of the IDE controller.

    Two channels, each with a command, a status and a table of physical regions
    in the guest's memory.  A timer moves the region of the active channel between
    the guest's memory and the disk through a buffer of the channel. *)

From S2P Require Export Memory.

(** ide.h *)
Definition IDE_BDMA_COMMAND_START : Z := bit 0.
Definition IDE_BDMA_COMMAND_WRITE : Z := bit 3.
Definition IDE_STATUS_ACTIVE : Z := bit 0.
Definition IDE_STATUS_INTERRUPT : Z := bit 2.
Definition IDE_STATUS_START : Z := bit 4.
Definition IDE_PORT_MASK : Z := bit 1 |. bit 3 |. bit 5 |. bit 6 |. bit 7 |. bit 9 |. bit 5 |. bit 11 |. bit 13
  |. bit 14 |. bit 15.
Definition IDE_BUFFER_SIZE : Z := 0x20000.
(** pci.h *)
Definition PCI_CLASS_STORAGE_IDE : Z := 0x0101.
Definition PCI_DEVICE_ID_INTEL_82371SB_1 : Z := 0x7010.

Definition get_bmdma (channel : Z) : IO BMDMA.t := at_ Machine.Ide channel.
Definition upd_bmdma (channel : Z) (f : BMDMA.t -> BMDMA.t) : IO unit := upd_at Machine.Ide channel f.

Definition ide_function : Z * Z := (0, BX_PCI_DEVICE 1 1).
Definition ide_address (offset : Z) : Z := PCI_DEVFUNC_OFFSET_TO_ADDRESS 0 (BX_PCI_DEVICE 1 1) offset.

(** [PciDevices[0][BX_PCI_DEVICE(1, 1)].bar[4].addr] *)
Definition IdeBdmaPresent : IO Z := b ← get_bar ide_function 4; mret b.(pci_bar.addr).

(** ** Configuration writes *)

(** [&Pci[n]], where [Pci] points to the device [k] of the array of buses. *)
Definition device_after (k : Z * Z) (n : Z) : Z * Z :=
  (k.1 + (k.2 + n) / MAX_PCI_DEVICES_PER_BUS, (k.2 + n) mod MAX_PCI_DEVICES_PER_BUS).

Definition IdePciConfWriteHandler (k : Z * Z) (Address Value Length : Z) : IO unit :=
  let k' := device_after k (BX_PCI_DEVICE 1 1) in
  if (0x10 <=? Address) && (Address <? 0x20) || (0x23 <? Address) && (Address <? 0x40) then done_
  else
    foreach (seqZ 0 Length) (fun i =>
      v ← shr32 Value (i * 8);
      let Value8 := v &. 0xff in
      let reg := Address + i in
      if (reg =? 0x05) || (reg =? 0x06) then done_
      else if reg =? 0x04 then set_conf k' reg (Value8 &. 0x5)
      else set_conf k' reg Value8).

(** ** Ports *)

(** The channel and the register of a port, which the code keeps in bytes. *)
Definition channel_of (addr Address : Z) : Z := u8 (Address - addr) >>. 3.
Definition register_of (addr Address : Z) : Z := u8 (Address - addr) &. 7.

Definition start (Value : Z) (b : BMDMA.t) : BMDMA.t :=
  b <| BMDMA.Command := Value |> <| BMDMA.Status ::= fun s => s |. IDE_STATUS_ACTIVE |>
    <| BMDMA.PrdCurrent := b.(BMDMA.PrdTable) |> <| BMDMA.BufferOffset := 0 |>.
Definition halt (Value : Z) (b : BMDMA.t) : BMDMA.t :=
  b <| BMDMA.Command := Value |> <| BMDMA.Status ::= fun s => s &. u32 (~. IDE_STATUS_ACTIVE) |>.

Definition write_command (Value : Z) (b : BMDMA.t) : BMDMA.t :=
  let started := b.(BMDMA.Command) &? IDE_BDMA_COMMAND_START in
  let starts := Value &? IDE_BDMA_COMMAND_START in
  if starts && negb started then start Value b
  else if negb starts && started then halt Value b
  else b.

(** Bits 1 and 2 are cleared by writing 1, bits 5 and 6 are stored, bit 0 is kept. *)
Definition write_status (Value : Z) (b : BMDMA.t) : BMDMA.t :=
  b <| BMDMA.Status ::= fun s =>
    (Value &. 0x60) |. (s &. IDE_STATUS_ACTIVE) |. (s &. (u32 (~. Value) &. 0x06)) |>.

Definition IdePortIoWriteHandler (Address Value Length : Z) : IO unit :=
  addr ← IdeBdmaPresent;
  let channel := channel_of addr Address in
  let offset := register_of addr Address in
  if offset =? 0x00 then upd_bmdma channel (write_command Value)
  else if offset =? 0x02 then upd_bmdma channel (write_status Value)
  else if offset =? 0x04 then
    upd_bmdma channel (fun b => b <| BMDMA.PrdTable := Value &. 0xfffffffc |>)
  else done_.

Definition IdePortIoReadHandler (Address Length : Z) : IO Z :=
  addr ← IdeBdmaPresent;
  let channel := channel_of addr Address in
  let offset := register_of addr Address in
  if offset =? 0x00 then b ← get_bmdma channel; mret b.(BMDMA.Command)
  else if offset =? 0x02 then b ← get_bmdma channel; mret b.(BMDMA.Status)
  else if offset =? 0x04 then b ← get_bmdma channel; mret b.(BMDMA.PrdTable)
  else mret 0xffffffff.

Definition IdeStartTransfer (Channel : Z) : IO unit :=
  when (Channel <? 2) (upd_bmdma Channel (fun b => b <| BMDMA.DataReady := 1 |>)).

Definition IdeSetIrq (Channel : Z) : IO unit :=
  when (Channel <? 2) (upd_bmdma Channel (fun b => b <| BMDMA.Status ::= fun s => s |. 0x4 |>)).

(** ** Copies

    [n] bytes at [Buffer + offset] of a channel; those at a host address are in Memory.v. *)

Definition buffer_bytes (b : BMDMA.t) (offset n : Z) : list Z :=
  map (fun i => default 0 (b.(BMDMA.Buffer) !! i)) (seqZ offset n).
Definition in_buffer (offset n : Z) : bool := (0 <=? offset) && (offset + n <=? IDE_BUFFER_SIZE).

Definition buffer_load (channel offset n : Z) : IO (list Z) :=
  b ← get_bmdma channel;
  if in_buffer offset n then mret (buffer_bytes b offset n) else stop OutOfBounds.
Definition buffer_store (channel offset : Z) (l : list Z) : IO unit :=
  if in_buffer offset (Z.of_nat (length l)) then
    upd_bmdma channel (fun b => b <| BMDMA.Buffer ::= put_list offset l |>)
  else stop OutOfBounds.

(** ** Transfers *)

(** What harddisk.c gives to this file.  A buffer pointer is the offset in the
    buffer of the channel; the results are the C functions' results. *)
Class BmdmaDisk := {
  HardDiskBmdmaReadSector : Z -> Z -> Z -> IO Z;
  HardDiskBmdmaWriteSector : Z -> Z -> Z -> IO Z;
  HardDiskBdmaComplete : Z -> IO unit
}.

(** The first active channel with a region; 2 when there is none. *)
Definition is_active (b : BMDMA.t) : bool := (b.(BMDMA.Status) &? IDE_STATUS_ACTIVE) && nz b.(BMDMA.PrdCurrent).
Definition active_channel : IO Z :=
  b0 ← get_bmdma 0;
  if is_active b0 then mret 0 else b1 ← get_bmdma 1; mret (if is_active b1 then 1 else 2).

(** The bytes a region holds: 0 stands for 64 KB. *)
Definition region_size (Count : Z) : Z :=
  let size := Count &. 0xfffe in if size =? 0 then 0x10000 else size.

(** [BufferOffset + size < size || BufferOffset + size > IDE_BUFFER_SIZE], on DWORDs. *)
Definition overruns (BufferOffset size : Z) : bool :=
  (u32 (BufferOffset + size) <? size) || (IDE_BUFFER_SIZE <? u32 (BufferOffset + size)).

Section Transfer.
Context `{!BmdmaDisk}.

(** The piece of the region at [i]: a sector, or what remains. *)
Definition transfer_piece (channel size i : Z) : IO Z :=
  b ← get_bmdma channel;
  let n := if size <? u32 (i + 512) then u32 (size - i) else 512 in
  if b.(BMDMA.Command) &? IDE_BDMA_COMMAND_WRITE
  then HardDiskBmdmaReadSector channel (b.(BMDMA.BufferOffset) + i) n
  else HardDiskBmdmaWriteSector channel (b.(BMDMA.BufferOffset) + i) n.

(** [for (i = 0; i < size; i += 512)]; [true] when the body returned. *)
Fixpoint transfer_loop (fuel : nat) (channel size i : Z) : IO bool :=
  match fuel with
  | O => stop Diverges
  | S fuel =>
      if i <? size then
        ret ← transfer_piece channel size i;
        if nz ret then HardDiskBdmaComplete channel ;; mret true
        else transfer_loop fuel channel size (u32 (i + 512))
      else mret false
  end.

(** A region has at most 128 pieces. *)
Definition transfer_fuel : nat := 130%nat.

Definition finish (b : BMDMA.t) : BMDMA.t :=
  b <| BMDMA.Status ::= fun s => (s &. u32 (~. IDE_STATUS_ACTIVE)) |. IDE_STATUS_START |>
    <| BMDMA.PrdCurrent := 0 |> <| BMDMA.BufferOffset := 0 |>.
Definition advance (size : Z) (b : BMDMA.t) : BMDMA.t :=
  b <| BMDMA.BufferOffset ::= fun o => u32 (o + size) |> <| BMDMA.PrdCurrent ::= fun p => u32 (p + 8) |>.

(** The region of an active channel. *)
Definition run_region (channel : Z) : IO unit :=
  b ← get_bmdma channel;
  pa ← SvmmGetHostPageFromGPA b.(BMDMA.PrdCurrent);
  Address ← host_read pa 4;
  pc ← SvmmGetHostPageFromGPA (u32 (b.(BMDMA.PrdCurrent) + 4));
  Count ← host_read pc 4;
  let size := region_size Count in
  when (overruns b.(BMDMA.BufferOffset) size) (upd_bmdma channel (fun b => b <| BMDMA.BufferOffset := 0 |>)) ;;
  b ← get_bmdma channel;
  when (negb (b.(BMDMA.Command) &? IDE_BDMA_COMMAND_WRITE)) (
    p ← SvmmGetHostPageFromGPA Address;
    l ← host_copy p size;
    buffer_store channel b.(BMDMA.BufferOffset) l) ;;
  returned ← transfer_loop transfer_fuel channel size 0;
  if (returned : bool) then done_
  else
    b ← get_bmdma channel;
    when (b.(BMDMA.Command) &? IDE_BDMA_COMMAND_WRITE) (
      p ← SvmmGetHostPageFromGPA Address;
      l ← buffer_load channel b.(BMDMA.BufferOffset) size;
      host_store p l) ;;
    if Count &? 0x80000000 then upd_bmdma channel finish ;; HardDiskBdmaComplete channel
    else upd_bmdma channel (advance size).

Definition IdeTimerHandler : IO unit :=
  channel ← active_channel;
  if channel =? 2 then done_
  else
    b ← get_bmdma channel;
    if negb (nz b.(BMDMA.DataReady)) && (b.(BMDMA.Command) &? IDE_BDMA_COMMAND_WRITE) then done_
    else run_region channel.
End Transfer.

Definition IdeInitialize : IO unit :=
  modify (fun s => s <| Machine.Ide := replicate 2 BMDMA.zero |>) ;;
  _ ← PciRegisterConfigHandler (ide_address 0) (Some cc_Ide);
  PciInitConfig (ide_address 0) PCI_VENDOR_ID_INTEL PCI_DEVICE_ID_INTEL_82371SB_1 0x00 PCI_CLASS_STORAGE_IDE 0x80 0x00 0 ;;
  PciSetBarIo (ide_address 0) 4 0 16 (Some cb_Ide) (Some cb_Ide) IDE_PORT_MASK ;;
  _ ← TimerRegister TICK_PERIOD fn_IdeTimerHandler 0;
  done_.

(** ** The buffer is never overrun *)

Lemma region_size_range c : 0 < region_size c <= 0x10000.
Proof.
  unfold region_size. assert (0 <= c &. 0xfffe <= 0xfffe) as Hr.
  { split; [apply Z.land_nonneg; by right|].
    assert (is_u16 (c &. 0xfffe)) as [_ H] by (apply land_in_width_r; [done|by split]).
    assert (c &. 0xfffe <> 0xffff); [|change (2 ^ 16) with 0x10000 in H; lia].
    intros He. assert (Z.testbit (c &. 0xfffe) 0 = true) as Ht by by rewrite He.
    by rewrite Z.land_spec, andb_false_r in Ht. }
  destruct (Z.eqb_spec (c &. 0xfffe) 0); lia.
Qed.

(** The offset the transfer uses. *)
Definition safe_offset (o size : Z) : Z := if overruns o size then 0 else o.

Lemma safe_offset_fits o size : is_u32 o -> 0 < size <= 0x10000 ->
  0 <= safe_offset o size /\ safe_offset o size + size <= IDE_BUFFER_SIZE.
Proof.
  intros Ho Hs. unfold safe_offset, overruns, IDE_BUFFER_SIZE. unfold in_width in Ho.
  destruct (Z.ltb_spec (u32 (o + size)) size) as [H1|H1]; cbn [orb]; [lia|].
  destruct (Z.ltb_spec 0x20000 (u32 (o + size))) as [H2|H2]; [lia|].
  destruct (decide (o + size < 2 ^ 32)) as [Hlt|Hge].
  - rewrite u32_small in H2 by (unfold in_width; lia). lia.
  - exfalso. assert (u32 (o + size) = o + size - 2 ^ 32) as He; [|lia].
    unfold u32. symmetry. apply (Z.mod_unique_pos _ _ 1); lia.
Qed.

(** The disk [d], made to fail on a piece that does not lie in the buffer. *)
Definition guarded (d : BmdmaDisk) : BmdmaDisk := {|
  HardDiskBmdmaReadSector c o n :=
    if in_buffer o n then @HardDiskBmdmaReadSector d c o n else stop OutOfBounds;
  HardDiskBmdmaWriteSector c o n :=
    if in_buffer o n then @HardDiskBmdmaWriteSector d c o n else stop OutOfBounds;
  HardDiskBdmaComplete := @HardDiskBdmaComplete d
|}.

(** The offset of a channel's transfer. *)
Definition buffer_offset (channel : Z) (s : Machine.t) : option Z :=
  option_map BMDMA.BufferOffset (nthZ s.(Machine.Ide) channel).

Section Guarded.
Context (d : BmdmaDisk) (channel size o : Z).
Hypothesis disk_keeps : forall p n,
  Keeps (buffer_offset channel) (@HardDiskBmdmaReadSector d channel p n) /\
  Keeps (buffer_offset channel) (@HardDiskBmdmaWriteSector d channel p n).
Hypothesis (Hsize : 0 < size <= 0x10000) (Ho : 0 <= o) (Hfit : o + size <= IDE_BUFFER_SIZE).

Lemma piece_guarded i s : 0 <= i < size -> buffer_offset channel s = Some o ->
  @transfer_piece (guarded d) channel size i s = @transfer_piece d channel size i s /\
  wlp (@transfer_piece d channel size i) (fun _ s' => buffer_offset channel s' = Some o) s.
Proof.
  intros Hi Hs. unfold transfer_piece, get_bmdma, buffer_offset in *.
  destruct (nthZ s.(Machine.Ide) channel) as [b|] eqn:Hb; [|done]. injection Hs as Hoff.
  assert (at_ Machine.Ide channel s = Ok b s) as Hrun by (unfold at_; by rewrite Hb).
  rewrite !(u32_small (i + 512)) by (unfold in_width; lia).
  set (n := if size <? i + 512 then u32 (size - i) else 512).
  assert (0 <= n /\ i + n <= size) as Hn.
  { unfold n. destruct (Z.ltb_spec size (i + 512)); [rewrite u32_small by (unfold in_width; lia)|]; lia. }
  assert (in_buffer (b.(BMDMA.BufferOffset) + i) n = true) as Hin.
  { unfold in_buffer. rewrite Hoff. by rewrite !(proj2 (Z.leb_le _ _)) by lia. }
  split.
  - rewrite !(run_bind _ _ _ _ _ Hrun). cbn [HardDiskBmdmaReadSector HardDiskBmdmaWriteSector guarded]. by rewrite Hin.
  - destruct (disk_keeps (b.(BMDMA.BufferOffset) + i) n) as [Hr Hw]. specialize (Hr s). specialize (Hw s).
    unfold wlp in *. rewrite (run_bind _ _ _ _ _ Hrun). unfold keeps, buffer_offset in *. rewrite Hb in Hr, Hw.
    cbn [option_map] in Hr, Hw. rewrite Hoff in Hr, Hw.
    destruct (b.(BMDMA.Command) &? IDE_BDMA_COMMAND_WRITE); rewrite Hoff; [exact Hr|exact Hw].
Qed.

Lemma loop_guarded fuel i s : 0 <= i -> buffer_offset channel s = Some o ->
  @transfer_loop (guarded d) fuel channel size i s = @transfer_loop d fuel channel size i s.
Proof.
  revert i s. induction fuel as [|fuel IH]; intros i s Hi Hs; [done|]. cbn [transfer_loop].
  destruct (Z.ltb_spec i size) as [Hlt|]; [|done].
  destruct (piece_guarded i s ltac:(lia) Hs) as [He Hw]. unfold mbind, M_bind. rewrite He. unfold wlp in Hw.
  destruct (@transfer_piece d channel size i s) as [ret s1|]; [|done].
  destruct (nz ret); [done|]. apply IH; [|done]. apply u32_range.
Qed.
End Guarded.

(** The rest of the handler, from the loop on. *)
Definition guarded_region_ok (d : BmdmaDisk) (channel : Z) : Prop := forall p n,
  Keeps (buffer_offset channel) (@HardDiskBmdmaReadSector d channel p n) /\
  Keeps (buffer_offset channel) (@HardDiskBmdmaWriteSector d channel p n).

#[local] Instance keeps_host_page {T} (f : Machine.t -> T) a : Keeps f (SvmmGetHostPageFromGPA a).
Proof. unfold SvmmGetHostPageFromGPA. apply _. Qed.

(** Equal computations after a step that is the same in both and keeps [I]. *)
Lemma bind_same {A B} (I : Machine.t -> Prop) (m : IO A) (k k' : A -> IO B) s :
  wlp m (fun _ => I) s -> (forall a s', I s' -> k a s' = k' a s') -> (m ≫= k) s = (m ≫= k') s.
Proof. unfold wlp, mbind, M_bind. intros Hm Hk. destruct (m s); [by apply Hk|done]. Qed.

Lemma bind_any {A B} (m : IO A) (k k' : A -> IO B) s :
  (forall a s', m s = Ok a s' -> k a s' = k' a s') -> (m ≫= k) s = (m ≫= k') s.
Proof. unfold mbind, M_bind. intros Hk. destruct (m s); [by apply Hk|done]. Qed.

Definition holds (channel : Z) (b : BMDMA.t) (s : Machine.t) : Prop := nthZ s.(Machine.Ide) channel = Some b.

Lemma keeps_holds {A} (m : IO A) channel b s : Keeps Machine.Ide m -> holds channel b s -> wlp m (fun _ => holds channel b) s.
Proof. intros Hm Hs. eapply wlp_mono; [|apply Hm]. intros a s' He. unfold holds. by rewrite He. Qed.

#[local] Instance keeps_ide_read a n : Keeps Machine.Ide (host_read a n).
Proof. unfold host_read, get_svmm. apply _. Qed.
#[local] Instance keeps_ide_copy a n : Keeps Machine.Ide (host_copy a n).
Proof. unfold host_copy, get_svmm. apply _. Qed.

Lemma host_copy_length a n : 0 <= n -> forall s l s', host_copy a n s = Ok l s' -> Z.of_nat (length l) = n.
Proof.
  intros Hn s l s'. unfold host_copy, get_svmm. rewrite (run_bind _ _ _ _ _ (run_gets _ _)).
  destruct (a =? 0); [done|]. destruct (inside _ _ _); [|done]. intros [= <- <-].
  unfold mem_bytes. rewrite length_map, length_seqZ. lia.
Qed.

(** What the store of the guest's bytes leaves alone. *)
Lemma store_offset channel o l s : buffer_offset channel s = Some o ->
  forall p, wlp (buffer_store channel p l) (fun _ s' => buffer_offset channel s' = Some o) s.
Proof.
  intros Hs p. unfold buffer_store, buffer_offset, wlp, upd_bmdma, upd_at in *.
  destruct (in_buffer p _); [|done]. destruct (nthZ s.(Machine.Ide) channel) as [b|] eqn:Hb; [|done].
  cbn. rewrite nthZ_updZ_eq by (by eapply nthZ_Some). exact Hs.
Qed.

Lemma region_guarded d channel s :
  guarded_region_ok d channel -> (forall b, nthZ s.(Machine.Ide) channel = Some b -> is_u32 b.(BMDMA.BufferOffset)) ->
  @run_region (guarded d) channel s = @run_region d channel s.
Proof.
  intros Hd Hs. unfold run_region. apply bind_any. intros b s1 Hb. unfold get_bmdma, at_ in Hb.
  destruct (nthZ s.(Machine.Ide) channel) as [b'|] eqn:Hn; [|discriminate Hb]. apply Ok_inj in Hb as [-> ->].
  pose proof (Hs b eq_refl) as Hoff. assert (holds channel b s1) as H1 by done.
  apply (bind_same (holds channel b)); [exact (keeps_holds _ _ _ _ (keeps_host_page Machine.Ide _) H1)|]. intros pa s2 H2.
  apply (bind_same (holds channel b)); [exact (keeps_holds _ _ _ _ (keeps_ide_read _ _) H2)|]. intros Address s3 H3.
  apply (bind_same (holds channel b)); [exact (keeps_holds _ _ _ _ (keeps_host_page Machine.Ide _) H3)|]. intros pc s4 H4.
  apply (bind_same (holds channel b)); [exact (keeps_holds _ _ _ _ (keeps_ide_read _ _) H4)|]. intros Count s5 H5. cbv zeta.
  set (size := region_size Count). pose proof (region_size_range Count) as Hsize. fold size in Hsize.
  set (o := safe_offset b.(BMDMA.BufferOffset) size).
  destruct (safe_offset_fits _ size Hoff Hsize) as [Ho Hfit]. fold o in Ho, Hfit.
  set (I := fun s => buffer_offset channel s = Some o).
  apply (bind_same I).
  { unfold I, buffer_offset, o, safe_offset, holds in *. destruct (overruns _ _); cbn [when].
    - unfold wlp, upd_bmdma, upd_at. rewrite H5. cbn. by rewrite nthZ_updZ_eq by (by eapply nthZ_Some).
    - unfold wlp. cbn. by rewrite H5. }
  intros _ s6 H6. apply (bind_same I).
  { unfold wlp, get_bmdma, at_. by destruct (nthZ s6.(Machine.Ide) channel). }
  intros b2 s7 H7. apply (bind_same I).
  { destruct (negb _); [|done]. cbn [when]. apply wlp_bind.
    eapply wlp_mono; [|apply (within (R := keeps (buffer_offset channel)))]. intros p s8 H8. apply wlp_bind.
    assert (Keeps (buffer_offset channel) (host_copy p size)) as Hc by (unfold host_copy, get_svmm; apply _).
    eapply wlp_mono; [|apply Hc]. intros l s9 H9. apply store_offset. unfold I, keeps in *. by rewrite H9, H8. }
  intros _ s8 H8. unfold mbind, M_bind.
  by rewrite (loop_guarded d channel size o (fun p n => Hd p n) Hsize Ho Hfit).
Qed.


Definition example_disk : BmdmaDisk :=
  {| HardDiskBmdmaReadSector _ _ _ := mret 0; HardDiskBmdmaWriteSector _ _ _ := mret 0; HardDiskBdmaComplete _ := done_ |}.


(** ** The status register *)

(** A write to the status register clears the interrupt and error bits that are
    written as 1, stores the two capability bits, and keeps the active bit, which
    only the command register and the transfer change. *)
Theorem ide_status_write Value b :
  let s := b.(BMDMA.Status) in
  let s' := (write_status Value b).(BMDMA.Status) in
  Z.testbit s' 0 = Z.testbit s 0 /\
  (forall i, i = 1 \/ i = 2 -> Z.testbit s' i = Z.testbit s i && negb (Z.testbit Value i)) /\
  (forall i, i = 5 \/ i = 6 -> Z.testbit s' i = Z.testbit Value i) /\
  (forall i, 0 <= i -> 6 < i \/ i = 3 \/ i = 4 -> Z.testbit s' i = false).
Proof.
  cbv zeta. change (write_status Value b).(BMDMA.Status) with
    ((Value &. 0x60) |. (b.(BMDMA.Status) &. IDE_STATUS_ACTIVE) |. (b.(BMDMA.Status) &. (u32 (~. Value) &. 0x06))).
  generalize b.(BMDMA.Status). intros s.
  assert (forall i, 0 <= i -> Z.testbit ((Value &. 0x60) |. (s &. IDE_STATUS_ACTIVE) |. (s &. (u32 (~. Value) &. 0x06))) i =
    (Z.testbit Value i && Z.testbit 0x60 i) || (Z.testbit s i && (i =? 0))
    || (Z.testbit s i && ((i <? 32) && negb (Z.testbit Value i) && Z.testbit 0x06 i))) as Hbits.
  { intros i Hi. unfold IDE_STATUS_ACTIVE. autorewrite with bits; try lia. reflexivity. }
  split; [|split; [|split]].
  - rewrite Hbits by lia. cbn. by rewrite !andb_false_r, andb_true_r, orb_false_r.
  - intros i [-> | ->]; rewrite Hbits by lia; cbn; by rewrite !andb_false_r, andb_true_r.
  - intros i [-> | ->]; rewrite Hbits by lia; cbn; by rewrite !andb_false_r, andb_true_r, !orb_false_r.
  - intros i Hi Hc. rewrite Hbits by done. rewrite (proj2 (Z.eqb_neq i 0)) by lia.
    assert (Z.testbit 0x60 i = false /\ Z.testbit 0x06 i = false) as [-> ->]; [|by rewrite !andb_false_r].
    destruct Hc as [Hc|[->| ->]]; [|done..].
    split; [apply (testbit_in_width 7)|apply (testbit_in_width 3)]; (by split) || lia.
Qed.
