(* ===== verification/FlashRom.v ===== *)
(** flash.c: the flash memory of the firmware.

    Its command state machine, its reads, and its initialisation from the image of
    the firmware, whose bytes are an argument. *)

From S2P Require Export IdeDma.

Definition FLASH_MMIO : Z := 0xffc00000.
Definition FLASH_SIZE : Z := 0x400000.

Definition get_flash : IO Flash.t := gets Machine.Flash.
Definition upd_flash (f : Flash.t -> Flash.t) : IO unit := modify (fun s => s <| Machine.Flash ::= f |>).

(** [*(BYTE* )Data] *)
Definition first_byte (Data : list Z) : Z := default 0 (head Data).

Definition set_cycle (Wcycle Cmd : Z) (f : Flash.t) : Flash.t :=
  f <| Flash.Wcycle := Wcycle |> <| Flash.Cmd := Cmd |>.
Definition ready (f : Flash.t) : Flash.t := f <| Flash.Status ::= fun s => s |. 0x80 |>.

(** [memcpy(Storage + Address, Data, Length)] *)
Definition program (Address : Z) (Data : list Z) (Length : Z) (f : Flash.t) : Flash.t :=
  f <| Flash.Storage ::= put_list Address (take (Z.to_nat Length) Data) |>.

(** [Address + Length >= FLASH_SIZE] *)
Definition outside_flash (Address Length : Z) : bool := FLASH_SIZE <=? u32 (Address + Length).

(** ** Writes

    The switches test the command stored before, not the byte written. *)

Definition write_cycle0 (d : Z) (f : Flash.t) : Flash.t :=
  let Cmd := f.(Flash.Cmd) in
  if bool_decide (Cmd ∈ [0x10; 0x40; 0x60; 0x98]) then set_cycle (u8 (f.(Flash.Wcycle) + 1)) d f
  else if bool_decide (Cmd ∈ [0x70; 0x90]) then f <| Flash.Cmd := d |>
  else if Cmd =? 0xe8 then ready (set_cycle (u8 (f.(Flash.Wcycle) + 1)) d f)
  else if Cmd =? 0x20 then f
  else if Cmd =? 0x50 then set_cycle 0 0 (f <| Flash.Status := 0 |>)
  else set_cycle 0 0 f.

Definition write_cycle1 (Address : Z) (Data : list Z) (Length : Z) (f : Flash.t) : Flash.t :=
  let Cmd := f.(Flash.Cmd) in
  let d := first_byte Data in
  if (Cmd =? 0x10) || (Cmd =? 0x40) then
    if outside_flash Address Length then f
    else ready (program Address Data Length f) <| Flash.Wcycle := 0 |>
  else if (Cmd =? 0x20) || (Cmd =? 0x28) then
    if d =? 0xd0 then ready (f <| Flash.Wcycle := 0 |>) else set_cycle 0 0 f
  else if Cmd =? 0xe8 then f <| Flash.Wcycle := u8 (f.(Flash.Wcycle) + 1) |>
  else if Cmd =? 0x60 then
    if (d =? 0xd0) || (d =? 0x01) then ready (f <| Flash.Wcycle := 0 |>) else set_cycle 0 0 f
  else if Cmd =? 0x98 then if d =? 0xff then set_cycle 0 0 f else f
  else set_cycle 0 0 f.

Definition write_cycle2 (Address : Z) (Data : list Z) (Length : Z) (f : Flash.t) : Flash.t :=
  if f.(Flash.Cmd) =? 0xe8 then
    if outside_flash Address Length then f else ready (program Address Data Length f)
  else set_cycle 0 0 f.

Definition write_cycle3 (d : Z) (f : Flash.t) : Flash.t :=
  if f.(Flash.Cmd) =? 0xe8 then
    if (d =? 0xd0) && negb (f.(Flash.Status) &? 0x10) then ready (f <| Flash.Wcycle := 0 |>)
    else set_cycle 0 0 f
  else set_cycle 0 0 f.

Definition FlashWriteMmioHandler (Address : Z) (Data : list Z) (Length : Z) : IO unit :=
  let Address := u32 (Address - FLASH_MMIO) in
  upd_flash (fun f =>
    let d := first_byte Data in
    if f.(Flash.Wcycle) =? 0 then write_cycle0 d f
    else if f.(Flash.Wcycle) =? 1 then write_cycle1 Address Data Length f
    else if f.(Flash.Wcycle) =? 2 then write_cycle2 Address Data Length f
    else if f.(Flash.Wcycle) =? 3 then write_cycle3 d f
    else f).

(** ** Reads *)

Definition storage_bytes (f : Flash.t) (Address n : Z) : list Z :=
  map (fun i => default 0xff (f.(Flash.Storage) !! i)) (seqZ Address n).

(** [memcpy(Data, l, length(l))], and [*(BYTE* )Data = x]. *)
Definition copy_to (l Data : list Z) : list Z := l ++ drop (length l) Data.

Definition read_array (f : Flash.t) (Address : Z) (Data : list Z) (Length : Z) : list Z :=
  if outside_flash Address Length then Data else copy_to (storage_bytes f Address Length) Data.

Definition is_status_command (Cmd : Z) : bool :=
  bool_decide (Cmd ∈ [0x10; 0x20; 0x28; 0x40; 0x50; 0x60; 0x70; 0xe8]).

Definition FlashReadMmioHandler (Address : Z) (Data : list Z) (Length : Z) : IO (list Z) :=
  let Address := u32 (Address - FLASH_MMIO) in
  f ← get_flash;
  let Cmd := f.(Flash.Cmd) in
  if Cmd =? 0 then mret (read_array f Address Data Length)
  else if is_status_command Cmd then mret (copy_to [f.(Flash.Status)] Data)
  else if Cmd =? 0x90 then mret Data
  else if Cmd =? 0x98 then mret (copy_to [nth0 f.(Flash.CfiTable) (Address &. 0x51)] Data)
  else
    upd_flash (set_cycle 0 0) ;;
    mret (read_array f Address Data Length).

(** ** Initialisation *)

(** The table of the common flash interface, from [CfiTable[0x10]] on. *)
Definition cfi_query : list Z :=
  [0x51; 0x52; 0x59; 0x01; 0x00; 0x31; 0x00; 0x00; 0x00; 0x00; 0x00; 0x45; 0x55; 0x00; 0x00; 0x07;
   0x07; 0x0a; 0x00; 0x04; 0x04; 0x04; 0x00; 0x22; 0x02; 0x00; 0x08; 0x00; 0x01; u8 (0x400 - 1);
   u8 ((0x400 - 1) >>. 8); u8 (0x1000 >>. 8); u8 (0x1000 >>. 16); 0x50; 0x52; 0x49; 0x31; 0x30;
   0x00; 0x00; 0x00; 0x00; 0x00; 0x00; 0x00].

Definition set_cfi (t : list Z) : list Z :=
  alterZ 0x3f (fun _ => 0x01) (take 16 t ++ cfi_query ++ drop (16 + length cfi_query) t).

Section Init.
Context `{!Driver}.

(** [file] is the content of OVMF.fd, [None] when it cannot be opened. *)
Definition FlashInitialize (BiosRom : Z) (file : option (list Z)) : IO unit :=
  MmioRegisterHandler FLASH_MMIO (FLASH_SIZE - 128 * 1024) (Some cb_Flash) (Some cb_Flash) ;;
  match file with
  | None => done_
  | Some bytes =>
      upd_flash (fun f => f <| Flash.Storage := put_list 0 bytes ∅ |>) ;;
      (if Z.of_nat (length bytes) <? 128 * 1024 then stop OutOfBounds
       else host_store BiosRom (drop (length bytes - Z.to_nat (128 * 1024)) bytes)) ;;
      upd_flash (fun f => f <| Flash.CfiTable ::= set_cfi |>)
  end.
End Init.

(** ** The state machine never leaves the array mode *)

Definition array_mode (f : Flash.t) : Prop := f.(Flash.Wcycle) = 0 /\ f.(Flash.Cmd) = 0.

(** The guest's accesses, and the states they reach. *)
Inductive flash_access :=
| flash_write (Address : Z) (Data : list Z) (Length : Z)
| flash_read (Address : Z) (Data : list Z) (Length : Z).

Definition run_access (a : flash_access) : IO unit :=
  match a with
  | flash_write Address Data Length => FlashWriteMmioHandler Address Data Length
  | flash_read Address Data Length => _ ← FlashReadMmioHandler Address Data Length; done_
  end.

Definition flash_step (s s' : Machine.t) : Prop := exists a, run_access a s = Ok tt s'.

Lemma access_array_mode a s : array_mode s.(Machine.Flash) ->
  wp (run_access a) (fun _ s' => s' = s) s.
Proof.
  intros [Hw Hc]. destruct a as [Address Data Length|Address Data Length]; cbn [run_access].
  - unfold FlashWriteMmioHandler, upd_flash. unfold wp. cbn -[write_cycle0]. rewrite Hw.
    change (0 =? 0) with true. cbv iota. unfold write_cycle0. rewrite Hc. cbn -[u32].
    destruct s as [? ? ? ? ? ? ? ? ? ? ? ? ? ? ? ? ? fl]. cbn in *. destruct fl. cbn in *. by subst.
  - unfold FlashReadMmioHandler, get_flash. apply wp_bind. unfold gets, wp, mbind, M_bind. rewrite Hc. done.
Qed.

(** After a reset no sequence of writes and reads programs the flash or makes
    it answer anything but its array: the handler compares the command with the
    one stored before, so no command is ever accepted. *)
Theorem flash_never_programs s s' : array_mode s.(Machine.Flash) ->
  reachable s flash_step s' -> s' = s.
Proof.
  intros Hs. revert s'. apply reachable_invariant; [done|]. intros s1 s2 -> [a Ha].
  pose proof (access_array_mode a s Hs) as Hwp. unfold wp in Hwp. by rewrite Ha in Hwp.
Qed.

Lemma flash_never_programs_witness :
  array_mode Machine.zero.(Machine.Flash) /\
  reachable Machine.zero flash_step Machine.zero /\ Machine.zero = Machine.zero.
Proof.
  assert (array_mode Machine.zero.(Machine.Flash)) as H by done.
  assert (reachable Machine.zero flash_step Machine.zero) as Hr.
  { eapply reachable_step; [apply reachable_init|]. exists (flash_write FLASH_MMIO [0x40] 1). reflexivity. }
  split; [exact H|]. split; [exact Hr|]. exact (flash_never_programs _ _ H Hr).
Defined.

(** ** Initialisation overruns the bitmap *)

(** The pages of the flash, all free. *)
Lemma flash_pages : last_page FLASH_MMIO (FLASH_SIZE - 128 * 1024) = 0xfffd /\ FLASH_MMIO >>. 16 = 0xffc0.
Proof. split; vm_compute; reflexivity. Qed.

(** Registering the flash, which lies below 4 GB, sets a bit past the end of
    the bitmap of pages: the initialisation writes outside its buffer, whatever
    firmware image there is. *)
Theorem FlashInitialize_overruns `{!Driver} BiosRom file s :
  page_ok s -> page_map s 0xffc0 = None -> FlashInitialize BiosRom file s = Fault OutOfBounds.
Proof.
  intros Hok Hfree. unfold FlashInitialize. apply run_fault.
  pose proof (MmioRegisterHandler_spec s FLASH_MMIO (FLASH_SIZE - 128 * 1024) (Some cb_Flash) (Some cb_Flash)
    Hok ltac:(done) ltac:(done)) as Hrun.
  destruct flash_pages as [Hl Hi]. rewrite Hl, Hi in Hrun. exact (Hrun eq_refl Hfree).
Qed.

Lemma FlashInitialize_overruns_witness :
  page_ok Machine.zero /\ @FlashInitialize (fun _ _ => true) 0 None Machine.zero = Fault OutOfBounds.
Proof.
  assert (page_ok Machine.zero) as H by (left; reflexivity).
  split; [exact H|]. exact (@FlashInitialize_overruns (fun _ _ => true) 0 None Machine.zero H eq_refl).
Defined.
