(* ===== verification/Ports.v ===== *)
(** bios.c, serial.c, parallel.c: the message ports of the firmware, and the serial
    and parallel ports, which only give constant answers. *)

From Stdlib Require Import Ascii String.
From stdpp Require Import pretty.
From S2P Require Export Registry.
#[local] Open Scope Z_scope.

Definition BX_BIOS_MESSAGE_SIZE : Z := 80.

(** ** Text *)

(** The bytes of a string. *)
Definition chars (s : string) : list Z :=
  map (fun c => Z.of_N (N_of_ascii c)) (list_ascii_of_string s).

(** The bytes a [%s] prints: those before the first zero byte. *)
Fixpoint c_string (l : list Z) : list Z :=
  match l with
  | [] => []
  | x :: l => if x =? 0 then [] else x :: c_string l
  end.

Definition newline : list Z := [10].

(** What the handlers print goes to a console: [true] for stderr. *)
Definition print (err : bool) (text : list Z) : IO unit :=
  modify (fun s => s <| Machine.Bios ::= fun b => b <| BIOS.console ::= fun c => c ++ [(err, text)] |> |>).

(** ** Messages *)

(** A message buffer: [message], [message_i] and [panic_flag]. *)
Record Buffer := { text : list Z; index : Z; panic : Z }.

Definition get_bios (vga : bool) : IO Buffer :=
  b ← gets Machine.Bios;
  mret (if vga then Build_Buffer b.(BIOS.vgabios_message) b.(BIOS.vgabios_message_i) b.(BIOS.vgabios_panic_flag)
        else Build_Buffer b.(BIOS.bios_message) b.(BIOS.bios_message_i) b.(BIOS.bios_panic_flag)).
Definition set_bios (vga : bool) (m : Buffer) : IO unit :=
  modify (fun s => s <| Machine.Bios ::= fun b =>
    if vga then b <| BIOS.vgabios_message := m.(text) |> <| BIOS.vgabios_message_i := m.(index) |>
                  <| BIOS.vgabios_panic_flag := m.(panic) |>
    else b <| BIOS.bios_message := m.(text) |> <| BIOS.bios_message_i := m.(index) |>
           <| BIOS.bios_panic_flag := m.(panic) |> |>).

(** [message[i] = v]; past the array it is undefined. *)
Definition store_char (i v : Z) (m : Buffer) : option Buffer :=
  if i <? BX_BIOS_MESSAGE_SIZE then Some (Build_Buffer (alterZ i (fun _ => v) m.(text)) m.(index) m.(panic))
  else None.

(** The line port. *)
Definition write_line (vga : bool) (Value : Z) : IO unit :=
  when (0 <? Value) (
    print true (chars (if vga then "VGABIOS at vgabios.c, line " else "BIOS at rombios.c, line ")
                ++ chars (pretty (s32 Value)) ++ newline)).

(** The panic port, which may fall into the line port. *)
Definition write_panic (vga : bool) (Value : Z) : IO unit :=
  m ← get_bios vga;
  if Value =? 0 then set_bios vga (Build_Buffer m.(text) m.(index) 1)
  else if 0 <? m.(index) then
    let i := if BX_BIOS_MESSAGE_SIZE <=? m.(index) then BX_BIOS_MESSAGE_SIZE - 1 else m.(index) in
    m ← of_option OutOfBounds (store_char i 0 m);
    set_bios vga (Build_Buffer m.(text) 0 m.(panic)) ;;
    print true (c_string m.(text) ++ newline)
  else write_line vga Value.

(** The message ports; both print to stdout. *)
Definition write_char (vga : bool) (Value : Z) : IO unit :=
  m ← get_bios vga;
  m ← of_option OutOfBounds (store_char m.(index) (u8 Value) m);
  let i := m.(index) + 1 in
  if BX_BIOS_MESSAGE_SIZE <=? i then
    m ← of_option OutOfBounds (store_char (BX_BIOS_MESSAGE_SIZE - 1) 0 m);
    set_bios vga (Build_Buffer m.(text) 0 m.(panic)) ;;
    print false (c_string m.(text) ++ newline)
  else if Value &. 0xff =? 10 then
    m' ← of_option OutOfBounds (store_char (i - 1) 0 m);
    set_bios vga (Build_Buffer m'.(text) 0 0) ;;
    print (m.(panic) =? 1) (c_string m'.(text) ++ newline)
  else set_bios vga (Build_Buffer m.(text) i m.(panic)).

Definition BiosWriteHandler (Address Value Length : Z) : IO unit :=
  if Address =? 0x0401 then write_panic false Value
  else if Address =? 0x0400 then write_line false Value
  else if (Address =? 0x0402) || (Address =? 0x0403) then write_char false Value
  else if Address =? 0x0502 then write_panic true Value
  else if Address =? 0x0501 then write_line true Value
  else if (Address =? 0x0500) || (Address =? 0x0503) then write_char true Value
  else done_.

(** The body is empty: the result is indeterminate. *)
Definition BiosReadHandler (Address Length : Z) : IO Z := stop Indeterminate.

Definition BiosInitialize : IO unit :=
  foreach (seqZ 0x400 4) (fun i => RegisterPortIoHandler i (Some cb_Bios) (Some cb_Bios)) ;;
  foreach (seqZ 0x500 4) (fun i => RegisterPortIoHandler i (Some cb_Bios) (Some cb_Bios)).

(** ** Serial and parallel ports *)

Definition SerialPortIoReadHandler (Address Length : Z) : IO Z := mret 2.
Definition SerialPortIoWriteHandler (Address Value Length : Z) : IO unit := done_.
Definition SerialInitialize : IO unit :=
  foreach (seqZ 0 8) (fun i =>
    foreach [0x03f8; 0x02f8; 0x03e8; 0x02e8] (fun base =>
      RegisterPortIoHandler (base + i) (Some cb_Serial) (Some cb_Serial))).

Definition ParallelPortIoReadHandler (Address Length : Z) : IO Z :=
  if Address &. 7 <? 3 then mret 0xff else stop Indeterminate.
Definition ParallelPortIoWriteHandler (Address Value Length : Z) : IO unit := done_.
Definition ParallelInitialize : IO unit :=
  foreach (seqZ 0 3) (fun i =>
    foreach [0x278; 0x378] (fun base => RegisterPortIoHandler (base + i) (Some cb_Parallel) (Some cb_Parallel))).

(** ** A line of text *)

#[local] Arguments alterZ : simpl never.
#[local] Arguments nth0 : simpl never.

(** A byte that is neither the end of a string nor of a line. *)
Definition printable (x : Z) : Prop := is_u8 x /\ x <> 0 /\ x <> 10.

(** The buffers of the firmware: 80 bytes, filled below the index. *)
Definition message_ok (b : BIOS.t) : Prop :=
  length b.(BIOS.bios_message) = 80%nat /\ 0 <= b.(BIOS.bios_message_i) < 80 /\
  length b.(BIOS.vgabios_message) = 80%nat /\ 0 <= b.(BIOS.vgabios_message_i) < 80.

Definition buffer_of (vga : bool) (b : BIOS.t) : Buffer :=
  if vga then Build_Buffer b.(BIOS.vgabios_message) b.(BIOS.vgabios_message_i) b.(BIOS.vgabios_panic_flag)
  else Build_Buffer b.(BIOS.bios_message) b.(BIOS.bios_message_i) b.(BIOS.bios_panic_flag).
Definition with_buffer (vga : bool) (m : Buffer) (s : Machine.t) : Machine.t :=
  s <| Machine.Bios ::= fun b =>
    if vga then b <| BIOS.vgabios_message := m.(text) |> <| BIOS.vgabios_message_i := m.(index) |>
                  <| BIOS.vgabios_panic_flag := m.(panic) |>
    else b <| BIOS.bios_message := m.(text) |> <| BIOS.bios_message_i := m.(index) |>
           <| BIOS.bios_panic_flag := m.(panic) |> |>.

Lemma get_bios_run vga s : get_bios vga s = Ok (buffer_of vga s.(Machine.Bios)) s.
Proof. by destruct vga. Qed.
Lemma set_bios_run vga m s : set_bios vga m s = Ok tt (with_buffer vga m s).
Proof. reflexivity. Qed.
Lemma buffer_of_with vga m s : buffer_of vga (with_buffer vga m s).(Machine.Bios) = m.
Proof. by destruct vga, m. Qed.
Lemma with_buffer_with vga m m' s : with_buffer vga m (with_buffer vga m' s) = with_buffer vga m s.
Proof. by destruct vga. Qed.

(** The invariant of a buffer. *)
Definition buffer_ok (m : Buffer) : Prop := length m.(text) = 80%nat /\ 0 <= m.(index) < 80.

Lemma store_char_run i v m : i < 80 ->
  store_char i v m = Some (Build_Buffer (alterZ i (fun _ => v) m.(text)) m.(index) m.(panic)).
Proof. intros Hi. unfold store_char, BX_BIOS_MESSAGE_SIZE. by rewrite (proj2 (Z.ltb_lt _ _)) by lia. Qed.

(** A byte of a line is appended. *)
Lemma char_run vga x s : let m := buffer_of vga s.(Machine.Bios) in
  buffer_ok m -> printable x -> m.(index) < 79 ->
  write_char vga x s =
    Ok tt (with_buffer vga (Build_Buffer (alterZ m.(index) (fun _ => x) m.(text)) (m.(index) + 1) m.(panic)) s).
Proof.
  intros m [Hl Hi] (Hu & H0 & H10) Hlt. unfold write_char. rewrite (run_bind _ _ _ _ _ (get_bios_run vga s)). fold m.
  rewrite store_char_run by lia. cbn [of_option]. rewrite (run_bind (mret _) _ _ _ _ eq_refl). cbn [index panic text].
  unfold BX_BIOS_MESSAGE_SIZE. rewrite (proj2 (Z.leb_gt _ _)) by lia. rewrite u8_small by done.
  change 0xff with (Z.ones 8). rewrite Z.land_ones, Z.mod_small by (done || exact Hu).
  by rewrite (proj2 (Z.eqb_neq x 10)) by done.
Qed.

(** The last byte, a newline, prints the buffer. *)
Lemma newline_run vga s : let m := buffer_of vga s.(Machine.Bios) in
  buffer_ok m -> m.(index) < 79 ->
  write_char vga 10 s =
    (set_bios vga (Build_Buffer (alterZ m.(index) (fun _ => 0) (alterZ m.(index) (fun _ => 10) m.(text))) 0 0) ;;
     print (m.(panic) =? 1) (c_string (alterZ m.(index) (fun _ => 0) (alterZ m.(index) (fun _ => 10) m.(text))) ++ newline)) s.
Proof.
  intros m [Hl Hi] Hlt. unfold write_char. rewrite (run_bind _ _ _ _ _ (get_bios_run vga s)). fold m.
  rewrite store_char_run by lia. cbn [of_option]. rewrite (run_bind (mret _) _ _ _ _ eq_refl). cbn [index panic text].
  unfold BX_BIOS_MESSAGE_SIZE. rewrite (proj2 (Z.leb_gt _ _)) by lia. change (10 &. 0xff =? 10) with true. cbv iota.
  rewrite store_char_run by lia. cbn [of_option]. rewrite (run_bind (mret _) _ _ _ _ eq_refl). cbn [index panic text].
  by replace (m.(index) + 1 - 1) with m.(index) by lia.
Qed.

Lemma alterZ_app p x r v : alterZ (Z.of_nat (length p)) (fun _ => v) (p ++ x :: r) = p ++ v :: r.
Proof.
  unfold alterZ, updZ. rewrite (proj2 (Z.leb_le 0 _)) by lia. rewrite Nat2Z.id.
  rewrite insert_app_r_alt by lia. by rewrite Nat.sub_diag.
Qed.

(** A buffer that holds the bytes [p], with room for [n] more. *)
Definition filled (vga : bool) (p : list Z) (n : nat) (s : Machine.t) : Prop :=
  let m := buffer_of vga s.(Machine.Bios) in
  m.(index) = Z.of_nat (length p) /\ exists r, m.(text) = p ++ r /\ length r = n.

Lemma chars_run vga l p n s :
  Forall printable l -> filled vga p (length l + n) s -> (length p + length l + n = 80)%nat -> (2 <= n)%nat ->
  wp (foreach l (write_char vga)) (fun _ s' => filled vga (p ++ l) n s' /\
    s'.(Machine.Bios).(BIOS.console) = s.(Machine.Bios).(BIOS.console) /\
    (buffer_of vga s'.(Machine.Bios)).(panic) = (buffer_of vga s.(Machine.Bios)).(panic)) s.
Proof.
  revert p s. induction l as [|x l IH]; intros p s Hl Hf Hn H2; cbn [foreach].
  { apply wp_done. by rewrite app_nil_r. }
  apply Forall_cons in Hl as [Hx Hl]. destruct Hf as (Hi & r & Ht & Hr). destruct r as [|y r]; [done|].
  cbn [length] in *. assert (buffer_ok (buffer_of vga s.(Machine.Bios))) as Hok.
  { split; [rewrite Ht, length_app; cbn; lia|lia]. }
  apply (wp_run_bind _ _ _ _ _ _ (char_run vga x s Hok Hx ltac:(lia))).
  set (s1 := with_buffer vga _ s).
  eapply wp_mono; [|apply (IH (p ++ [x]))]; [|done| |rewrite length_app; cbn; lia|done].
  - intros _ s' (Hf' & Hc & Hp). rewrite <- app_assoc in Hf'. split; [exact Hf'|]. split.
    + rewrite Hc. by destruct vga.
    + rewrite Hp. unfold s1. by rewrite buffer_of_with.
  - unfold filled, s1. rewrite buffer_of_with. cbn [index text]. split; [rewrite length_app; cbn; lia|].
    exists r. split; [|lia]. rewrite Hi, Ht, alterZ_app. by rewrite <- app_assoc.
Qed.

Lemma c_string_line p r : Forall printable p -> c_string (p ++ 0 :: r) = p.
Proof.
  induction p as [|x p IH]; intros Hp; [done|]. apply Forall_cons in Hp as [(_ & H0 & _) Hp].
  cbn. by rewrite (proj2 (Z.eqb_neq x 0)), IH.
Qed.

(** The message port of each firmware. *)
Definition message_port (vga : bool) : Z := if vga then 0x500 else 0x402.

Lemma line_run vga l s :
  Forall printable l -> (length l <= 78)%nat -> filled vga [] 80 s ->
  wp (foreach (l ++ [10]) (fun x => BiosWriteHandler (message_port vga) x 1)) (fun _ s' =>
    s'.(Machine.Bios).(BIOS.console) = s.(Machine.Bios).(BIOS.console)
      ++ [((buffer_of vga s.(Machine.Bios)).(panic) =? 1, l ++ newline)] /\
    (buffer_of vga s'.(Machine.Bios)).(index) = 0) s.
Proof.
  intros Hl Hn Hf.
  assert (forall s, foreach (l ++ [10]) (fun x => BiosWriteHandler (message_port vga) x 1) s =
    (foreach l (write_char vga) ;; write_char vga 10) s) as Heq.
  { clear. assert (forall x s, BiosWriteHandler (message_port vga) x 1 s = write_char vga x s) as Hw by (intros; by destruct vga).
    induction l as [|x l IH]; intros s; cbn [foreach app].
    - unfold mbind, M_bind. rewrite Hw. cbn. by destruct (write_char vga 10 s) as [[] ?|].
    - unfold mbind, M_bind in *. rewrite Hw. destruct (write_char vga x s); [apply IH|done]. }
  unfold wp. rewrite Heq. apply wp_bind.
  eapply wp_mono; [|apply (chars_run vga l [] (80 - length l))]; [|done| |cbn; lia|lia].
  2: { by replace (length l + (80 - length l))%nat with 80%nat by lia. }
  intros [] s1 (Hf1 & Hc & Hp). cbn [app] in Hf1. destruct Hf1 as (Hi & r & Ht & Hr). destruct r as [|y r]; [cbn in Hr; lia|].
  assert (buffer_ok (buffer_of vga s1.(Machine.Bios))) as Hok by (split; [rewrite Ht, length_app; cbn in *; lia|lia]).
  unfold wp. rewrite (newline_run vga s1 Hok) by lia. rewrite Hi, Ht, !alterZ_app, c_string_line by done.
  rewrite (run_bind _ _ _ _ _ (set_bios_run _ _ _)). cbn. rewrite Hp. split.
  - rewrite <- Hc. by destruct vga.
  - by destruct vga.
Qed.

(** A line of at most 78 bytes written to a firmware's message port is printed
    once, byte for byte, when its newline arrives, to stderr after a panic and to
    stdout otherwise; the buffer is then empty again. *)
Theorem bios_line vga l s :
  Forall printable l -> (length l <= 78)%nat -> filled vga [] 80 s ->
  wp (foreach (l ++ [10]) (fun x => BiosWriteHandler (message_port vga) x 1)) (fun _ s' =>
    s'.(Machine.Bios).(BIOS.console) = s.(Machine.Bios).(BIOS.console)
      ++ [((buffer_of vga s.(Machine.Bios)).(panic) =? 1, l ++ newline)] /\
    (buffer_of vga s'.(Machine.Bios)).(index) = 0) s.
Proof. apply line_run. Qed.

Lemma bios_line_witness :
  filled false [] 80 Machine.zero /\
  wp (foreach ([72; 105] ++ [10]) (fun x => BiosWriteHandler 0x402 x 1)) (fun _ s' =>
    s'.(Machine.Bios).(BIOS.console) = [(false, [72; 105; 10])] /\
    (buffer_of false s'.(Machine.Bios)).(index) = 0) Machine.zero.
Proof.
  assert (filled false [] 80 Machine.zero) as H.
  { split; [reflexivity|]. exists (replicate 80 0). by split. }
  split; [exact H|]. apply (bios_line false [72; 105] Machine.zero); [|cbn; lia|exact H].
  repeat constructor; done.
Defined.
