(* ===== verification/HostFile.v ===== *)
(** The host's files, and the buffers the disks read them into.

    The program opens its disk images with the host's file API and never writes
    them.  The API is the interface [Win32]; what the code relies on of its
    documentation is [Win32Laws].  The position of each open file is part of the
    machine.  A buffer is named by a pointer: into the buffer of an ATA drive, or
    into the buffer of a bus-master channel. *)

From S2P Require Export IdeDma.

(** ** The file API *)

(** [win_open name] is the handle [CreateFileA] returns for reading an existing
    file, [win_size h] the size [GetFileSizeEx] stores, or [None] when it fails,
    [win_seek h d] tells whether [SetFilePointerEx] accepts the distance [d] from
    the start of the file, and [win_read h p n] is the bytes [ReadFile] stores when
    the position is [p] and [n] bytes are asked for, or [None] when it fails. *)
Class Win32 := {
  win_open : string -> Z;
  win_size : Z -> option Z;
  win_seek : Z -> Z -> bool;
  win_read : Z -> Z -> Z -> option (list Z)
}.

(** Documented: a negative position is refused, and a read stores at most the
    bytes asked for. *)
Class Win32Laws `{!Win32} := {
  win_size_range h n : win_size h = Some n -> 0 <= n < 2 ^ 63;
  win_seek_negative h d : d < 0 -> win_seek h d = false;
  win_read_bytes h p n l : win_read h p n = Some l -> Forall is_u8 l;
  win_read_length h p n l : 0 <= n -> win_read h p n = Some l -> Z.of_nat (length l) <= n
}.

Definition INVALID_HANDLE_VALUE : Z := 2 ^ 64 - 1.

Definition file_pointer (h : Z) (s : Machine.t) : Z := default 0 (s.(Machine.FilePointers) !! h).
Definition set_file_pointer (h p : Z) : IO unit :=
  modify (fun s => s <| Machine.FilePointers ::= <[h := p]> |>).

Section Files.
Context `{!Win32}.

(** [SetFilePointerEx(h, Distance, .., FILE_BEGIN)]; a refused position changes nothing. *)
Definition SetFilePointerEx (h Distance : Z) : IO bool :=
  if win_seek h Distance then set_file_pointer h Distance ;; mret true else mret false.

(** [ReadFile]: the bytes read, and the position moves past them. *)
Definition ReadFile (h n : Z) : IO (option (list Z)) :=
  p ← gets (file_pointer h);
  match win_read h p n with
  | Some l => set_file_pointer h (p + Z.of_nat (length l)) ;; mret (Some l)
  | None => mret None
  end.
End Files.

(** ** Bytes *)

(** [htons], [htonl] and the like on the bytes at a pointer: a big-endian word. *)
Definition be_word (d : list Z) : Z := le_read (length d) (reverse d).

(** The bytes [l] stored at the offset [o] of a buffer. *)
Definition splice (o : Z) (l d : list Z) : list Z :=
  take (Z.to_nat o) d ++ l ++ drop (Z.to_nat o + length l) d.
(** The [n] bytes at the offset [o]. *)
Definition slice (o n : Z) (d : list Z) : list Z := take (Z.to_nat n) (drop (Z.to_nat o) d).
Definition fits (o n : Z) (d : list Z) : bool := (0 <=? o) && (o + n <=? Z.of_nat (length d)).

Lemma fits_spec o n d : fits o n d = true <-> 0 <= o /\ o + n <= Z.of_nat (length d).
Proof. unfold fits. rewrite andb_true_iff, !Z.leb_le. done. Qed.

Lemma length_splice o l d : fits o (Z.of_nat (length l)) d = true -> length (splice o l d) = length d.
Proof.
  intros H%fits_spec. unfold splice. rewrite !length_app, length_take, length_drop. lia.
Qed.

Lemma length_slice o n d : 0 <= n -> fits o n d = true -> Z.of_nat (length (slice o n d)) = n.
Proof. intros Hn H%fits_spec. unfold slice. rewrite length_take, length_drop. lia. Qed.

Lemma slice_splice_eq o l d : fits o (Z.of_nat (length l)) d = true -> slice o (Z.of_nat (length l)) (splice o l d) = l.
Proof.
  intros H%fits_spec. unfold slice, splice. rewrite Nat2Z.id, drop_app_ge, length_take by (rewrite length_take; lia).
  rewrite Nat.min_l by lia. rewrite Nat.sub_diag, drop_0. by rewrite take_app_length.
Qed.

Lemma splice_app o l l' d : fits o (Z.of_nat (length l + length l')) d = true ->
  splice (o + Z.of_nat (length l)) l' (splice o l d) = splice o (l ++ l') d.
Proof.
  intros H%fits_spec. assert (length (take (Z.to_nat o) d) = Z.to_nat o) as Ht by (rewrite length_take; lia).
  unfold splice. rewrite (app_assoc (take (Z.to_nat o) d) l).
  rewrite take_app_length' by (rewrite length_app, Ht; lia). rewrite <- !app_assoc. do 3 f_equal.
  rewrite (app_assoc (take (Z.to_nat o) d) l), drop_app_ge by (rewrite length_app, Ht; lia).
  rewrite drop_drop, !length_app, Ht. f_equal. lia.
Qed.

Lemma splice_nil o d : splice o [] d = d.
Proof. unfold splice. simpl. rewrite Nat.add_0_r. apply take_drop. Qed.

Lemma Forall_splice (P : Z -> Prop) o l d : Forall P l -> Forall P d -> Forall P (splice o l d).
Proof. intros. unfold splice. rewrite !Forall_app. auto using Forall_take, Forall_drop. Qed.
Lemma Forall_slice (P : Z -> Prop) o n d : Forall P d -> Forall P (slice o n d).
Proof. intros. unfold slice. auto using Forall_take, Forall_drop. Qed.
#[export] Hint Resolve Forall_splice Forall_slice : width.

(** Bytes, as a check. *)
Definition bytesb (l : list Z) : bool := forallb (fun x => (0 <=? x) && (x <? 256)) l.
Lemma bytesb_spec l : bytesb l = true -> Forall is_u8 l.
Proof.
  unfold bytesb. rewrite forallb_forall. intros H. apply Forall_forall. intros x Hx%list_elem_of_In%H.
  rewrite andb_true_iff, Z.leb_le, Z.ltb_lt in Hx. exact Hx.
Qed.

(** ** The drives' state *)

Definition get_channel (c : Z) : IO ATA_CHANNEL.t := at_ Machine.AtaChannel c.
Definition upd_channel (c : Z) (f : ATA_CHANNEL.t -> ATA_CHANNEL.t) : IO unit := upd_at Machine.AtaChannel c f.

(** [AtaChannel[c].Drive[d]] *)
Definition get_drive (c d : Z) : IO DRIVE.t :=
  ch ← get_channel c; of_option OutOfBounds (nthZ ch.(ATA_CHANNEL.Drive) d).
Definition upd_drive (c d : Z) (f : DRIVE.t -> DRIVE.t) : IO unit :=
  r ← get_drive c d; upd_channel c (fun ch => ch <| ATA_CHANNEL.Drive ::= fun l => updZ l d (f r) |>).

(** [AtaChannel[c].Drive[d].Controller] *)
Definition get_ctl (c d : Z) : IO CONTROLLER.t := r ← get_drive c d; mret r.(DRIVE.Controller).
Definition upd_ctl (c d : Z) (f : CONTROLLER.t -> CONTROLLER.t) : IO unit :=
  upd_drive c d (fun r => r <| DRIVE.Controller ::= f |>).

(** ** Buffers *)

Definition get_buffer (c d : Z) : IO (list Z) :=
  r ← get_ctl c d; of_option NullPointer r.(CONTROLLER.Buffer).

(** The [n] bytes at [Controller.Buffer + o], and the bytes [l] stored there. *)
Definition load (c d o n : Z) : IO (list Z) :=
  b ← get_buffer c d; if fits o n b then mret (slice o n b) else stop OutOfBounds.
Definition store (c d o : Z) (l : list Z) : IO unit :=
  b ← get_buffer c d;
  if fits o (Z.of_nat (length l)) b
  then upd_ctl c d (fun r => r <| CONTROLLER.Buffer := Some (splice o l b) |>)
  else stop OutOfBounds.

Definition load_byte (c d o : Z) : IO Z := l ← load c d o 1; mret (nth0 l 0).
(** [Read16(Buffer + o)] and [Read32(Buffer + o)] *)
Definition Read16 (c d o : Z) : IO Z := l ← load c d o 2; mret (be_word l).
Definition Read32 (c d o : Z) : IO Z := l ← load c d o 4; mret (be_word l).

(** [BYTE* Buffer] of a function that fills a caller's buffer. *)
Inductive BufPtr : Set :=
| ctl_buf (c d o : Z)
| dma_buf (c o : Z).

Definition offset_by (p : BufPtr) (n : Z) : BufPtr :=
  match p with
  | ctl_buf c d o => ctl_buf c d (o + n)
  | dma_buf c o => dma_buf c (o + n)
  end.

Definition put (p : BufPtr) (l : list Z) : IO unit :=
  match p with
  | ctl_buf c d o => store c d o l
  | dma_buf c o => buffer_store c o l
  end.

(** The value of a C function that may return without one. *)
Abbreviation cvalue := (option Z).

(** ** Disk images

    What vhd.c gives to the ATA disks: the size of the disk in bytes, a position,
    and reads and writes there. *)
Class DiskImage := {
  disk_size : IO Z;
  disk_seek : Z -> IO cvalue;
  disk_read : BufPtr -> Z -> IO cvalue;
  disk_write : BufPtr -> Z -> IO cvalue
}.

(** The states that differ in what the image keeps for itself. *)
Definition same_but_image (s s' : Machine.t) : Prop :=
  exists v m, s' = s <| Machine.vhdImage := v |> <| Machine.FilePointers := m |>.

(** An image whose sectors are [sector]: in the states [ready] it has [size] bytes,
    and a read at the position of a sector stores that sector. *)
Class DiskImageLaws `{!DiskImage} (ready : Machine.t -> Prop) (size : Z) (sector : Z -> option (list Z)) := {
  disk_size_run s : ready s -> disk_size s = Ok size s;
  disk_size_u64 : is_u64 size;
  disk_sector_length lba l : sector lba = Some l -> length l = 512%nat;
  disk_ready_frame s s' : s'.(Machine.vhdImage) = s.(Machine.vhdImage) ->
    s'.(Machine.FilePointers) = s.(Machine.FilePointers) -> ready s -> ready s';
  disk_read_sector s lba l p : ready s -> 0 <= lba -> sector lba = Some l ->
    exists s1 v, same_but_image s s1 /\ ready s1 /\
      (_ ← disk_seek (lba * 512); disk_read p 512) s = (put p l ;; mret v) s1
}.

(** ** Runs of the accessors

    [drive_at c d s] is a drive of the state, [put_drive c d dr s] the state with
    another drive there, [selects c d s] says that the channel's registers are the
    drive [d]'s. *)
Definition drive_at (c d : Z) (s : Machine.t) : option DRIVE.t :=
  ch ← nthZ s.(Machine.AtaChannel) c; nthZ ch.(ATA_CHANNEL.Drive) d.
Definition put_drive (c d : Z) (dr : DRIVE.t) (s : Machine.t) : Machine.t :=
  s <| Machine.AtaChannel ::= fun l =>
    match nthZ l c with
    | Some ch => updZ l c (ch <| ATA_CHANNEL.Drive ::= fun ds => updZ ds d dr |>)
    | None => l
    end |>.
Definition select_of (c : Z) (s : Machine.t) : option Z :=
  option_map ATA_CHANNEL.DriveSelect (nthZ s.(Machine.AtaChannel) c).

Section Runs.
Context (c d : Z).

Lemma get_drive_run dr s : drive_at c d s = Some dr -> get_drive c d s = Ok dr s.
Proof.
  unfold drive_at, get_drive, get_channel, at_, mbind, M_bind, option_bind.
  destruct (nthZ s.(Machine.AtaChannel) c) as [ch|]; [|done]. cbn. by intros ->.
Qed.

Lemma drive_at_channel dr s : drive_at c d s = Some dr ->
  exists ch, nthZ s.(Machine.AtaChannel) c = Some ch /\ nthZ ch.(ATA_CHANNEL.Drive) d = Some dr.
Proof. unfold drive_at, mbind, option_bind. destruct (nthZ _ c) as [ch|]; [eauto|done]. Qed.

Lemma get_ctl_run dr s : drive_at c d s = Some dr -> get_ctl c d s = Ok dr.(DRIVE.Controller) s.
Proof. intros Hd. unfold get_ctl. by rewrite (run_bind _ _ _ _ _ (get_drive_run dr s Hd)). Qed.

Lemma upd_drive_run f dr s : drive_at c d s = Some dr -> upd_drive c d f s = Ok tt (put_drive c d (f dr) s).
Proof.
  intros Hd. unfold upd_drive. rewrite (run_bind _ _ _ _ _ (get_drive_run dr s Hd)).
  destruct (drive_at_channel dr s Hd) as (ch & Hch & Hdr). unfold upd_channel, upd_at, put_drive. rewrite Hch.
  cbn. by rewrite Hch.
Qed.

Lemma upd_ctl_run f dr s : drive_at c d s = Some dr ->
  upd_ctl c d f s = Ok tt (put_drive c d (dr <| DRIVE.Controller ::= f |>) s).
Proof. apply upd_drive_run. Qed.

Lemma drive_at_put dr dr' s : drive_at c d s = Some dr -> drive_at c d (put_drive c d dr' s) = Some dr'.
Proof.
  intros (ch & Hch & Hdr)%drive_at_channel. unfold drive_at, put_drive, mbind, option_bind. cbn. rewrite Hch.
  rewrite nthZ_updZ_eq by (by eapply nthZ_Some). cbn. by rewrite nthZ_updZ_eq by (by eapply nthZ_Some).
Qed.

Lemma put_put dr dr' s : put_drive c d dr' (put_drive c d dr s) = put_drive c d dr' s.
Proof.
  unfold put_drive. destruct s. cbn. f_equal. destruct (nthZ AtaChannel c) as [ch|] eqn:Hch; [|by rewrite Hch].
  rewrite nthZ_updZ_eq by (by eapply nthZ_Some). rewrite updZ_updZ. f_equal. destruct ch. cbn. f_equal. apply updZ_updZ.
Qed.

Lemma select_put c' dr s : select_of c' (put_drive c d dr s) = select_of c' s.
Proof.
  unfold select_of, put_drive. cbn. destruct (nthZ _ c) as [ch|] eqn:Hch; [|done].
  destruct (decide (c = c')) as [<-|Hne].
  - rewrite nthZ_updZ_eq by (by eapply nthZ_Some). by rewrite Hch.
  - by rewrite nthZ_updZ_ne.
Qed.

Lemma put_drive_image dr s s' : same_but_image s s' -> same_but_image (put_drive c d dr s) (put_drive c d dr s').
Proof. intros (v & m & ->). by exists v, m. Qed.
End Runs.

Lemma same_but_image_refl s : same_but_image s s.
Proof. exists s.(Machine.vhdImage), s.(Machine.FilePointers). by destruct s. Qed.
Lemma same_but_image_trans s1 s2 s3 : same_but_image s1 s2 -> same_but_image s2 s3 -> same_but_image s1 s3.
Proof. intros (v & m & ->) (v' & m' & ->). by exists v', m'. Qed.
Lemma drive_at_image c d s s' : same_but_image s s' -> drive_at c d s' = drive_at c d s.
Proof. by intros (v & m & ->). Qed.
Lemma select_of_image c s s' : same_but_image s s' -> select_of c s' = select_of c s.
Proof. by intros (v & m & ->). Qed.

(** A store in the buffer of a drive. *)
Lemma store_run c d o l b dr s : drive_at c d s = Some dr -> dr.(DRIVE.Controller).(CONTROLLER.Buffer) = Some b ->
  fits o (Z.of_nat (length l)) b = true ->
  store c d o l s = Ok tt (put_drive c d (dr <| DRIVE.Controller ::= fun r => r <| CONTROLLER.Buffer := Some (splice o l b) |> |>) s).
Proof.
  intros Hd Hb Hf. unfold store, get_buffer. unfold mbind at 1, M_bind at 1.
  rewrite (run_bind _ _ _ _ _ (get_ctl_run c d dr s Hd)), Hb. cbn [of_option mret M_ret]. rewrite Hf.
  by apply upd_ctl_run.
Qed.
Lemma store_overrun c d o l b dr s : drive_at c d s = Some dr -> dr.(DRIVE.Controller).(CONTROLLER.Buffer) = Some b ->
  fits o (Z.of_nat (length l)) b = false -> store c d o l s = Fault OutOfBounds.
Proof.
  intros Hd Hb Hf. unfold store, get_buffer. unfold mbind at 1, M_bind at 1.
  rewrite (run_bind _ _ _ _ _ (get_ctl_run c d dr s Hd)), Hb. cbn [of_option mret M_ret]. by rewrite Hf.
Qed.
Lemma load_run c d o n b dr s : drive_at c d s = Some dr -> dr.(DRIVE.Controller).(CONTROLLER.Buffer) = Some b ->
  fits o n b = true -> load c d o n s = Ok (slice o n b) s.
Proof.
  intros Hd Hb Hf. unfold load, get_buffer. unfold mbind at 1, M_bind at 1.
  rewrite (run_bind _ _ _ _ _ (get_ctl_run c d dr s Hd)), Hb. cbn [of_option mret M_ret]. by rewrite Hf.
Qed.

Lemma put_drive_id c d dr s : drive_at c d s = Some dr -> put_drive c d dr s = s.
Proof.
  intros (ch & Hch & Hdr)%drive_at_channel. unfold put_drive. destruct s. cbn in *. f_equal. rewrite Hch.
  apply updZ_id. rewrite Hch. f_equal. destruct ch. cbn in *. f_equal. symmetry. by apply updZ_id.
Qed.

Lemma bind_assoc {S A B C} (m : M S A) (f : A -> M S B) (g : B -> M S C) s :
  ((m ≫= f) ≫= g) s = (m ≫= fun x => f x ≫= g) s.
Proof. unfold mbind, M_bind. by destruct (m s). Qed.
