(* ===== verification/CdRom.v ===== *)
(** cdrom.c: the image of a CD-ROM.

    The blocks of the image, the raw sectors made from them, and the table of
    contents of a disc with one data track. *)

From S2P Require Export HostFile.

(** cdrom.h *)
Definition CDROM_FRAMESIZE : Z := 2048.

Definition get_cdrom : IO CDROM.t := gets Machine.CdRom.
Definition upd_cdrom (f : CDROM.t -> CDROM.t) : IO unit := modify (fun s => s <| Machine.CdRom ::= f |>).

Section Image.
Context `{!Win32}.

Definition CdRomInitialize (Pathname : string) : IO unit :=
  upd_cdrom (fun _ => CDROM.zero) ;;
  let hFile := win_open Pathname in
  if hFile =? INVALID_HANDLE_VALUE then stop Exit
  else
    upd_cdrom (fun r => r <| CDROM.hFile := hFile |>) ;;
    match win_size hFile with
    | None => stop Exit
    | Some Size => upd_cdrom (fun r => r <| CDROM.Capacity := Size / 2048 |>)
    end.

Definition CdRomGetCapacity : IO Z := r ← get_cdrom; mret r.(CDROM.Capacity).

(** The minute, second and frame of a block: there are 75 frames a second, and the
    first block is at 2 seconds. *)
Definition minute_of (block : Z) : Z := u8 (u32 (block + 150) / 75 / 60).
Definition second_of (block : Z) : Z := u32 (block + 150) / 75 mod 60.
Definition frame_of (block : Z) : Z := u32 (block + 150) mod 75.

(** The 16 bytes in front of the data of a raw sector. *)
Definition raw_header (LbAddress : Z) : list Z :=
  0 :: replicate 10 0xff ++ [0; minute_of LbAddress; second_of LbAddress; frame_of LbAddress; 0x01].

(** [SetFilePointer(CdRom.hFile, LbAddress * CDROM_FRAMESIZE, NULL, SEEK_SET)]: the
    distance is a signed 32-bit number. *)
Definition cd_distance (LbAddress : Z) : Z := s32 (u32 (LbAddress * CDROM_FRAMESIZE)).

Definition CdRomReadBlock (LbAddress : Z) (Buffer : BufPtr) (BufferSize : Z) : IO Z :=
  when (BufferSize =? 2352) (put Buffer (raw_header LbAddress ++ replicate (2352 - 16) 0)) ;;
  let Buffer := if BufferSize =? 2352 then offset_by Buffer 0x10 else Buffer in
  r ← get_cdrom;
  _ ← SetFilePointerEx r.(CDROM.hFile) (cd_distance LbAddress);
  read ← ReadFile r.(CDROM.hFile) CDROM_FRAMESIZE;
  match read with
  | Some l => put Buffer l ;; mret (Z.of_nat (length l))
  | None => mret 0
  end.

(** The value is the new position, or [INVALID_SET_FILE_POINTER]. *)
Definition CdRomSeek (LbAddress : Z) : IO Z :=
  r ← get_cdrom;
  ok ← SetFilePointerEx r.(CDROM.hFile) (cd_distance LbAddress);
  mret (if (ok : bool) then u32 (cd_distance LbAddress) else 0xffffffff).
End Image.

(** ** The table of contents *)

Definition be_bytes (blocks : Z) : list Z :=
  [(blocks >>. 24) &. 0xff; (blocks >>. 16) &. 0xff; (blocks >>. 8) &. 0xff; blocks &. 0xff].

(** The address of the lead-out track. *)
Definition lead_out (Msf blocks : Z) : list Z :=
  if nz Msf then [0; minute_of blocks; second_of blocks; frame_of blocks] else be_bytes blocks.

(** The first track and the lead-out track, in the format 0. *)
Definition toc_tracks (Msf StartTrack blocks : Z) : list Z :=
  (if StartTrack <=? 1 then [0; 0x14; 1; 0] ++ (if nz Msf then [0; 0; 2; 0] else [0; 0; 0; 0]) else [])
  ++ [0; 0x16; 0xaa; 0] ++ lead_out Msf blocks.

(** The four descriptors of the format 2: first track, last track, lead-out, track 1. *)
Definition raw_toc_entry (Msf blocks i : Z) : list Z :=
  [1; 0x14; 0; if i <? 3 then 0xa0 + i else 1; 0; 0; 0]
  ++ (if i <? 2 then [0; 1; 0; 0] else if i =? 2 then lead_out Msf blocks else [0; 0; 0; 0]).
Definition raw_toc (Msf blocks : Z) : list Z := concat (map (raw_toc_entry Msf blocks) (seqZ 0 4)).

(** [Buffer[0]] and [Buffer[1]] hold the length of what follows them. *)
Definition toc_length (entries : list Z) : list Z :=
  let len := 4 + Z.of_nat (length entries) in [((len - 2) >>. 8) &. 0xff; (len - 2) &. 0xff].

Definition CdRomReadToc (Buffer : BufPtr) (Length Msf StartTrack Format : Z) : IO Z :=
  r ← get_cdrom;
  let blocks := u32 r.(CDROM.Capacity) in
  if Format =? 0 then
    if (1 <? StartTrack) && negb (StartTrack =? 0xaa) then mret 0
    else
      let entries := toc_tracks Msf StartTrack blocks in
      put (offset_by Buffer 2) ([1; 1] ++ entries) ;;
      put Buffer (toc_length entries) ;;
      mret Length
  else if Format =? 1 then
    put Buffer ([0; 0x0a; 1; 1] ++ replicate 8 0) ;;
    mret Length
  else if Format =? 2 then
    let entries := raw_toc Msf blocks in
    put (offset_by Buffer 2) ([1; 1] ++ entries) ;;
    put Buffer (toc_length entries) ;;
    mret Length
  else mret 0.

(** ** Addresses *)

(** A minute, second and frame name the block they were made from, on the discs
    whose minutes fit in a byte. *)
Lemma msf_roundtrip block : 0 <= block -> block + 150 < 256 * 60 * 75 ->
  (minute_of block * 60 + second_of block) * 75 + frame_of block - 150 = block.
Proof.
  intros H0 H1. unfold minute_of, second_of, frame_of.
  rewrite u32_small by (unfold in_width; lia). set (n := block + 150).
  assert (0 <= n / 75 / 60 < 256) as Hm.
  { split; [apply Z.div_pos; [apply Z.div_pos|]; lia|]. rewrite Z.div_div by lia. apply Z.div_lt_upper_bound; lia. }
  rewrite u8_small by done.
  pose proof (Z.div_mod n 75 ltac:(lia)). pose proof (Z.div_mod (n / 75) 60 ltac:(lia)). lia.
Qed.

(** A raw sector never reports its own size: what is read is at most the data. *)
Lemma raw_read_short `{!Win32, !Win32Laws} LbAddress Buffer BufferSize s ret s' :
  CdRomReadBlock LbAddress Buffer BufferSize s = Ok ret s' -> 0 <= ret <= CDROM_FRAMESIZE.
Proof.
  unfold CdRomReadBlock. intros Hrun. unfold mbind, M_bind in Hrun.
  destruct (when _ _ s) as [[] s1|]; [|discriminate]. unfold get_cdrom in Hrun. cbn in Hrun.
  destruct (SetFilePointerEx _ _ s1) as [b s2|]; [|discriminate].
  unfold ReadFile, mbind, M_bind in Hrun. cbn [gets] in Hrun.
  destruct (win_read _ _ _) as [l|] eqn:Hl.
  - apply win_read_length in Hl; [|done]. cbn in Hrun. destruct (put _ l _) as [[] s3|]; [|discriminate].
    apply Ok_inj in Hrun as [<- _]. lia.
  - cbn in Hrun. apply Ok_inj in Hrun as [<- _]. by split.
Qed.
