(* ===== verification/Vhd.v ===== *)
(** vhd.c: the image of the hard disk.

    A fixed image holds the sectors one after the other; in a dynamic one a table
    at the position its header gives says where each block of sectors is, behind a
    bitmap.  The end of the file is a footer.  All numbers are big-endian. *)

From S2P Require Export CdRom.

(** vhd.h *)
Definition VHD_SECTOR_SIZE : Z := 512.
Definition _1T : Z := 1024 * 1024 * 1024 * 1024.
Definition VHD_MAX_SIZE : Z := 2 * _1T.
Definition VHD_MAX_SECTORS : Z := VHD_MAX_SIZE / VHD_SECTOR_SIZE.
Definition VD_IMAGE_FLAGS_FIXED : Z := 0x10000.
Definition VD_IMAGE_FLAGS_DIFF : Z := 0x20000.
Definition VHD_FOOTER_DISK_TYPE_FIXED : Z := 2.
Definition VHD_FOOTER_DISK_TYPE_DYNAMIC : Z := 3.
Definition VHD_FOOTER_DISK_TYPE_DIFFERENCING : Z := 4.
(** "conectix" and "cxsparse" *)
Definition VHD_FOOTER_COOKIE : list Z := [0x63; 0x6f; 0x6e; 0x65; 0x63; 0x74; 0x69; 0x78].
Definition VHD_DYNAMIC_DISK_HEADER_COOKIE : list Z := [0x63; 0x78; 0x73; 0x70; 0x61; 0x72; 0x73; 0x65].

(** A field of a packed struct that was read from a file: bytes the file did not
    give are indeterminate. *)
Definition field_bytes (d : list Z) (o n : Z) : IO (list Z) :=
  if fits o n d then mret (slice o n d) else stop Indeterminate.
Definition field_word (d : list Z) (o n : Z) : IO Z := l ← field_bytes d o n; mret (be_word l).

(** [struct VHDFooter] *)
Definition sizeof_VHDFooter : Z := 512.
Definition footer_Cookie (d : list Z) : IO (list Z) := field_bytes d 0 8.
Definition footer_DataOffset (d : list Z) : IO Z := field_word d 16 8.
Definition footer_CurSize (d : list Z) : IO Z := field_word d 48 8.
Definition footer_DiskGeometryCylinder (d : list Z) : IO Z := field_word d 56 2.
Definition footer_DiskGeometryHeads (d : list Z) : IO Z := field_word d 58 1.
Definition footer_DiskGeometrySectors (d : list Z) : IO Z := field_word d 59 1.
Definition footer_DiskType (d : list Z) : IO Z := field_word d 60 4.
Definition footer_UniqueID (d : list Z) : IO (list Z) := field_bytes d 68 16.

(** [struct VHDDynamicDiskHeader] *)
Definition sizeof_VHDDynamicDiskHeader : Z := 1024.
Definition header_Cookie (d : list Z) : IO (list Z) := field_bytes d 0 8.
Definition header_TableOffset (d : list Z) : IO Z := field_word d 16 8.
Definition header_MaxTableEntries (d : list Z) : IO Z := field_word d 28 4.
Definition header_BlockSize (d : list Z) : IO Z := field_word d 32 4.
Definition header_ParentUuid (d : list Z) : IO (list Z) := field_bytes d 40 16.

Definition get_vhd : IO VHDIMAGE.t := gets Machine.vhdImage.
Definition upd_vhd (f : VHDIMAGE.t -> VHDIMAGE.t) : IO unit := modify (fun s => s <| Machine.vhdImage ::= f |>).

Definition VhdGetHardDiskSize : IO Z := v ← get_vhd; mret v.(VHDIMAGE.cbSize).

(** The sizes derived from the size of a block, which starts with a bitmap of its
    sectors, rounded up to sectors. *)
Definition block_geometry (BlockSize : Z) (v : VHDIMAGE.t) : VHDIMAGE.t :=
  let spb := BlockSize / VHD_SECTOR_SIZE in
  let bitmap := spb / 8 in
  v <| VHDIMAGE.cbDataBlock := BlockSize |> <| VHDIMAGE.cSectorsPerDataBlock := spb |>
    <| VHDIMAGE.cbDataBlockBitmap := bitmap |>
    <| VHDIMAGE.cDataBlockBitmapSectors :=
         bitmap / VHD_SECTOR_SIZE + (if 0 <? bitmap mod VHD_SECTOR_SIZE then 1 else 0) |>
    <| VHDIMAGE.pu8Bitmap := Some (replicate (Z.to_nat (u32 (bitmap + 8))) 0) |>.

(** The table of [n] entries whose zeroed memory the bytes [l] were read into. *)
Definition bat_entry (l : list Z) (i : Z) : Z :=
  be_word (map (nth0 l) (seqZ (4 * i) 4)).
Definition block_table (n : Z) (l : list Z) : list Z := map (bat_entry l) (seqZ 0 n).

Section Image.
Context `{!Win32}.

(** A seek and a read that end the program when they fail. *)
Definition seek_or_exit (h Distance : Z) : IO unit :=
  ok ← SetFilePointerEx h Distance; if (ok : bool) then done_ else stop Exit.
Definition read_or_exit (h n : Z) : IO (list Z) := r ← ReadFile h n; of_option Exit r.

(** A position is a signed 64-bit number. *)
Definition VhdLoadDynamicDisk (uDynamicDiskHeaderOffset : Z) : IO unit :=
  v ← get_vhd;
  let h := v.(VHDIMAGE.hFile) in
  seek_or_exit h (s64 uDynamicDiskHeaderOffset) ;;
  header ← read_or_exit h sizeof_VHDDynamicDiskHeader;
  cookie ← header_Cookie header;
  if negb (bool_decide (cookie = VHD_DYNAMIC_DISK_HEADER_COOKIE)) then stop Exit
  else
    BlockSize ← header_BlockSize header;
    MaxTableEntries ← header_MaxTableEntries header;
    upd_vhd (fun v => v <| VHDIMAGE.cBlockAllocationTableEntries := MaxTableEntries |>) ;;
    if VHD_MAX_SECTORS - 2 <? MaxTableEntries then stop Exit
    else
      upd_vhd (block_geometry BlockSize) ;;
      TableOffset ← header_TableOffset header;
      upd_vhd (fun v => v <| VHDIMAGE.uBlockAllocationTableOffset := TableOffset |>) ;;
      seek_or_exit h (s64 TableOffset) ;;
      table ← read_or_exit h (u32 (MaxTableEntries * 4));
      upd_vhd (fun v => v <| VHDIMAGE.pBlockAllocationTable := Some (block_table MaxTableEntries table) |>) ;;
      v ← get_vhd;
      when (v.(VHDIMAGE.uImageFlags) &? VD_IMAGE_FLAGS_DIFF) (
        uuid ← header_ParentUuid header;
        upd_vhd (fun v => v <| VHDIMAGE.ParentUuid := uuid |>)).

(** The case of the footer's type. *)
Definition load_by_type (footer : list Z) : IO unit :=
  DiskType ← footer_DiskType footer;
  if DiskType =? VHD_FOOTER_DISK_TYPE_FIXED then
    upd_vhd (fun v => v <| VHDIMAGE.uImageFlags ::= fun f => f |. VD_IMAGE_FLAGS_FIXED |>)
  else if DiskType =? VHD_FOOTER_DISK_TYPE_DYNAMIC then
    upd_vhd (fun v => v <| VHDIMAGE.uImageFlags ::= fun f => f &. ~. VD_IMAGE_FLAGS_FIXED |>) ;;
    o ← footer_DataOffset footer; VhdLoadDynamicDisk o
  else if DiskType =? VHD_FOOTER_DISK_TYPE_DIFFERENCING then
    upd_vhd (fun v => v <| VHDIMAGE.uImageFlags ::= fun f => (f |. VD_IMAGE_FLAGS_DIFF) &. ~. VD_IMAGE_FLAGS_FIXED |>) ;;
    o ← footer_DataOffset footer; VhdLoadDynamicDisk o
  else stop Exit.

(** The fields copied from the footer at the end. *)
Definition keep_footer (footer : list Z) : IO unit :=
  size ← footer_CurSize footer;
  cylinder ← footer_DiskGeometryCylinder footer;
  heads ← footer_DiskGeometryHeads footer;
  sectors ← footer_DiskGeometrySectors footer;
  uuid ← footer_UniqueID footer;
  offset ← footer_DataOffset footer;
  upd_vhd (fun v => v <| VHDIMAGE.cbSize := size |> <| VHDIMAGE.LCHSGeometry := VDGEOMETRY.zero |>
    <| VHDIMAGE.PCHSGeometry := VDGEOMETRY.mk cylinder heads sectors |>
    <| VHDIMAGE.vhdFooterCopy := footer |> <| VHDIMAGE.ImageUuid := uuid |>
    <| VHDIMAGE.u64DataOffset := offset |>).

Definition VhdInitializeHardDisk (Pathname : string) : IO unit :=
  upd_vhd (fun _ => VHDIMAGE.zero) ;;
  let hFile := win_open Pathname in
  if hFile =? INVALID_HANDLE_VALUE then stop Exit
  else
    upd_vhd (fun v => v <| VHDIMAGE.hFile := hFile |>) ;;
    match win_size hFile with
    | None => stop Exit
    | Some Size =>
        upd_vhd (fun v => v <| VHDIMAGE.cbSize := Size |>) ;;
        if Size <? sizeof_VHDFooter then stop Exit
        else
          seek_or_exit hFile (Size - sizeof_VHDFooter) ;;
          footer ← read_or_exit hFile sizeof_VHDFooter;
          cookie ← footer_Cookie footer;
          if negb (bool_decide (cookie = VHD_FOOTER_COOKIE)) then stop Exit
          else load_by_type footer ;; keep_footer footer
    end.

(** The three functions below end without a [return]. *)
Definition VhdSeek (Offset : Z) : IO cvalue :=
  upd_vhd (fun v => v <| VHDIMAGE.u64DataOffset := Offset |>) ;; mret None.

Definition VhdRead (Buffer : BufPtr) (BufferSize : Z) : IO cvalue :=
  v ← get_vhd;
  let h := v.(VHDIMAGE.hFile) in
  let o := v.(VHDIMAGE.u64DataOffset) in
  match v.(VHDIMAGE.pBlockAllocationTable) with
  | Some table =>
      let spb := v.(VHDIMAGE.cSectorsPerDataBlock) in
      q ← divu (o / VHD_SECTOR_SIZE) spb;
      r ← modu (o / VHD_SECTOR_SIZE) spb;
      block ← of_option OutOfBounds (nthZ table (u32 q));
      if block =? 0xffffffff then stop Exit
      else
        let uVhdOffset := u64 (u64 (block + v.(VHDIMAGE.cDataBlockBitmapSectors) + u32 r) * VHD_SECTOR_SIZE) in
        seek_or_exit h (s64 uVhdOffset) ;;
        l ← read_or_exit h (u32 BufferSize);
        put Buffer l ;; mret None
  | None =>
      seek_or_exit h (s64 o) ;;
      l ← read_or_exit h (u32 BufferSize);
      put Buffer l ;; mret None
  end.

Definition VhdWrite (Buffer : BufPtr) (BufferSize : Z) : IO cvalue := mret None.
End Image.

(** ** The format of the images

    What a host that has one file promises, and where the format says that the
    sectors are. *)

#[local] Instance host_of (file : list Z) : Win32 := {|
  win_open _ := 1;
  win_size _ := Some (Z.of_nat (length file));
  win_seek _ d := 0 <=? d;
  win_read _ p n := Some (slice p n file)
|}.

Definition word_at (file : list Z) (o n : Z) : Z := be_word (slice o n file).
Definition sector_at (file : list Z) (q : Z) : option (list Z) :=
  if fits (512 * q) 512 file then Some (slice (512 * q) 512 file) else None.

Definition footer_at (file : list Z) : Z := Z.of_nat (length file) - 512.
Definition image_type (file : list Z) : Z := word_at file (footer_at file + 60) 4.
Definition header_at (file : list Z) : Z := word_at file (footer_at file + 16) 8.
Definition table_at (file : list Z) : Z := word_at file (header_at file + 16) 8.
Definition table_entries (file : list Z) : Z := word_at file (header_at file + 28) 4.
Definition sectors_per_block (file : list Z) : Z := word_at file (header_at file + 32) 4 / 512.
(** The sectors that the bitmap in front of a block takes. *)
Definition bitmap_sectors (file : list Z) : Z := (sectors_per_block file / 8 + 511) / 512.

(** The sector [lba] of the disk in the file, when it has one. *)
Definition vhd_sector (file : list Z) (lba : Z) : option (list Z) :=
  if image_type file =? VHD_FOOTER_DISK_TYPE_FIXED then sector_at file lba
  else
    let spb := sectors_per_block file in
    let entry := table_at file + 4 * (lba / spb) in
    if (0 <? spb) && (lba / spb <? table_entries file) && fits entry 4 file && negb (word_at file entry 4 =? 0xffffffff)
    then sector_at file (word_at file entry 4 + bitmap_sectors file + lba mod spb)
    else None.

Lemma slice_slice o n o' n' (d : list Z) : 0 <= o -> 0 <= o' -> 0 <= n' -> o' + n' <= n ->
  slice o' n' (slice o n d) = slice (o + o') n' d.
Proof.
  intros. unfold slice. rewrite skipn_firstn_comm, firstn_firstn, drop_drop. f_equal; [|f_equal]; lia.
Qed.

(** What the program checks of a file, and the parts it reads. *)
Definition valid_image (file : list Z) : bool :=
  (512 <=? Z.of_nat (length file))
  && bool_decide (slice (footer_at file) 8 file = VHD_FOOTER_COOKIE)
  && ((image_type file =? VHD_FOOTER_DISK_TYPE_FIXED)
      || ((image_type file =? VHD_FOOTER_DISK_TYPE_DYNAMIC) || (image_type file =? VHD_FOOTER_DISK_TYPE_DIFFERENCING))
         && fits (header_at file) 1024 file && (header_at file <? 2 ^ 63) && (table_at file <? 2 ^ 63)
         && bool_decide (slice (header_at file) 8 file = VHD_DYNAMIC_DISK_HEADER_COOKIE)
         && (table_entries file <=? VHD_MAX_SECTORS - 2)).

(** *** Runs of the helpers on such a host *)

Section Host.
Context (file : list Z).

Lemma wp_field_word {B} d o n (k : Z -> IO B) Q s :
  fits o n d = true -> wp (k (be_word (slice o n d))) Q s -> wp (field_word d o n ≫= k) Q s.
Proof. intros Hf Hk. unfold field_word, field_bytes, wp, mbind, M_bind. by rewrite Hf. Qed.
Lemma wp_field_bytes {B} d o n (k : list Z -> IO B) Q s :
  fits o n d = true -> wp (k (slice o n d)) Q s -> wp (field_bytes d o n ≫= k) Q s.
Proof. intros Hf Hk. unfold field_bytes, wp, mbind, M_bind. by rewrite Hf. Qed.

(** The states between the steps are known by the image they hold. *)
Definition vhd (s : Machine.t) : VHDIMAGE.t := s.(Machine.vhdImage).

Lemma wp_upd_vhd {B} f (k : unit -> IO B) Q s :
  (forall s', vhd s' = f (vhd s) -> wp (k tt) Q s') -> wp (upd_vhd f ≫= k) Q s.
Proof. intros Hk. apply wp_modify_bind. by apply Hk. Qed.
Lemma wp_get_vhd {B} (k : VHDIMAGE.t -> IO B) Q s : wp (k (vhd s)) Q s -> wp (get_vhd ≫= k) Q s.
Proof. done. Qed.

Lemma wp_seek {B} h o (k : unit -> IO B) Q s : 0 <= o ->
  (forall s', file_pointer h s' = o -> vhd s' = vhd s -> wp (k tt) Q s') ->
  wp (@seek_or_exit (host_of file) h o ≫= k) Q s.
Proof.
  intros Ho Hk. unfold seek_or_exit, SetFilePointerEx, set_file_pointer. cbn [win_seek host_of].
  rewrite (proj2 (Z.leb_le _ _) Ho). apply (Hk (s <| Machine.FilePointers ::= <[h := o]> |>)); [|done].
  unfold file_pointer. cbn. by rewrite lookup_insert_eq.
Qed.

Lemma wp_read {B} h n (k : list Z -> IO B) Q s :
  (forall s', vhd s' = vhd s -> wp (k (slice (file_pointer h s) n file)) Q s') ->
  wp (@read_or_exit (host_of file) h n ≫= k) Q s.
Proof.
  intros Hk. unfold read_or_exit, ReadFile, set_file_pointer. cbn [win_read host_of]. by apply Hk.
Qed.
End Host.

Lemma in_width_word file o n : Forall is_u8 file -> 0 <= n -> in_width (8 * n) (word_at file o n).
Proof.
  intros Hf Hn. unfold word_at, be_word.
  assert (Forall is_u8 (slice o n file)) as Hs by auto with width.
  apply (in_width_le (8 * Z.of_nat (length (slice o n file)))).
  - unfold slice. rewrite length_take. lia.
  - apply le_read_range. by apply Forall_reverse.
Qed.

Lemma s64_small x : 0 <= x < 2 ^ 63 -> s64 x = x.
Proof. intros Hx. unfold s64, signed. change (64 - 1) with 63. rewrite Z.mod_small; lia. Qed.

Lemma round_up_sectors n : 0 <= n -> n / 512 + (if 0 <? n mod 512 then 1 else 0) = (n + 511) / 512.
Proof.
  intros Hn. pose proof (Z.div_mod n 512 ltac:(lia)). pose proof (Z.mod_pos_bound n 512 ltac:(lia)).
  destruct (Z.ltb_spec 0 (n mod 512)).
  - apply (Z.div_unique_pos _ _ _ (n mod 512 - 1)); lia.
  - apply (Z.div_unique_pos _ _ _ 511); lia.
Qed.

(** *** The image after its initialisation *)

Section Opened.
Context (file : list Z) (Hbytes : Forall is_u8 file) (Hlen : Z.of_nat (length file) < 2 ^ 63).

(** The part of the image that reading uses. *)
Definition geometry_of (v : VHDIMAGE.t) : option (list Z) * (Z * Z) :=
  (v.(VHDIMAGE.pBlockAllocationTable), (v.(VHDIMAGE.cSectorsPerDataBlock), v.(VHDIMAGE.cDataBlockBitmapSectors))).
Definition image_geometry : option (list Z) * (Z * Z) :=
  if image_type file =? VHD_FOOTER_DISK_TYPE_FIXED then (None, (0, 0))
  else
    (Some (block_table (table_entries file) (slice (table_at file) (u32 (table_entries file * 4)) file)),
     (sectors_per_block file, bitmap_sectors file)).
Definition image_ok (v : VHDIMAGE.t) : Prop :=
  v.(VHDIMAGE.hFile) = 1 /\ geometry_of v = image_geometry.

Lemma word_nonneg o n : 0 <= n -> 0 <= word_at file o n.
Proof. intros Hn. apply (in_width_word _ _ n Hbytes Hn). Qed.

(** A word of a struct read from the file is the word of the file. *)
Lemma field_at a m o n : 0 <= a -> 0 <= o -> 0 <= n -> o + n <= m -> fits a m file = true ->
  fits o n (slice a m file) = true /\ be_word (slice o n (slice a m file)) = word_at file (a + o) n.
Proof.
  intros Ha Ho Hn Hle Hf. split.
  - apply fits_spec. split; [done|]. rewrite length_slice by (done || lia). lia.
  - unfold word_at. by rewrite slice_slice.
Qed.

Ltac field_step :=
  apply wp_field_word; [apply field_at; (done || lia)|];
  lazymatch goal with
  | |- context [be_word (slice ?o ?n (slice ?a ?m file))] =>
      rewrite (proj2 (field_at a m o n ltac:(lia) ltac:(done) ltac:(done) ltac:(done) ltac:(assumption)))
  end.

Lemma load_ok s : valid_image file = true -> image_type file <> VHD_FOOTER_DISK_TYPE_FIXED ->
  (vhd s).(VHDIMAGE.hFile) = 1 ->
  wp (@VhdLoadDynamicDisk (host_of file) (header_at file)) (fun _ s' => image_ok (vhd s')) s.
Proof.
  intros Hv Htype Hh. unfold valid_image in Hv. rewrite (proj2 (Z.eqb_neq _ _) Htype) in Hv.
  rewrite !andb_true_iff, orb_false_l, !andb_true_iff in Hv.
  destruct Hv as [_ (((((_ & Hf) & Hhead) & Htab) & Hcookie) & Hmax)].
  apply Z.ltb_lt in Hhead, Htab. apply bool_decide_eq_true in Hcookie. apply Z.leb_le in Hmax.
  assert (0 <= header_at file) as H0 by (by apply word_nonneg).
  assert (0 <= table_at file) as H0t by (by apply word_nonneg).
  unfold VhdLoadDynamicDisk. apply wp_get_vhd. cbv zeta. rewrite Hh, s64_small by lia.
  apply wp_seek; [done|]. intros s1 Hp1 H1. apply wp_read. rewrite Hp1. intros s2 H2.
  change sizeof_VHDDynamicDiskHeader with 1024.
  apply wp_field_bytes; [apply field_at; (done || lia)|]. rewrite slice_slice, Z.add_0_r by lia.
  rewrite Hcookie, bool_decide_true by done. cbn [negb].
  field_step. field_step. fold (table_entries file).
  apply wp_upd_vhd. intros s3 H3. rewrite (proj2 (Z.ltb_ge _ _)) by done. apply wp_upd_vhd. intros s4 H4.
  field_step. fold (table_at file).
  apply wp_upd_vhd. intros s5 H5. rewrite s64_small by lia.
  apply wp_seek; [done|]. intros s6 Hp6 H6. apply wp_read. rewrite Hp6. intros s7 H7.
  apply wp_upd_vhd. intros s8 H8. apply wp_get_vhd.
  assert (image_ok (vhd s8)) as Hok.
  { rewrite H8, H7, H6, H5, H4, H3, H2, H1. split; [exact Hh|].
    unfold image_geometry. rewrite (proj2 (Z.eqb_neq _ _) Htype). unfold geometry_of, block_geometry.
    cbn [upd_field VHDIMAGE.pBlockAllocationTable VHDIMAGE.cSectorsPerDataBlock VHDIMAGE.cDataBlockBitmapSectors].
    do 2 f_equal. apply round_up_sectors. apply Z.div_pos; [|done]. apply Z.div_pos; [|done]. by apply word_nonneg. }
  destruct (_ &? _); [|exact Hok]. cbn [when]. unfold header_ParentUuid.
  apply wp_field_bytes; [apply field_at; (done || lia)|]. exact Hok.
Qed.

(** The copy of the footer's fields leaves what reading uses. *)
Lemma keep_footer_ok s : 512 <= Z.of_nat (length file) -> image_ok (vhd s) ->
  wp (keep_footer (slice (footer_at file) 512 file))
    (fun _ s' => image_ok (vhd s') /\ VHDIMAGE.cbSize (vhd s') = word_at file (footer_at file + 48) 8) s.
Proof.
  intros H512 Hok. unfold keep_footer, footer_CurSize, footer_DiskGeometryCylinder, footer_DiskGeometryHeads,
    footer_DiskGeometrySectors, footer_UniqueID, footer_DataOffset.
  assert (0 <= footer_at file /\ fits (footer_at file) 512 file = true) as [H0 Hf]
    by (rewrite fits_spec; unfold footer_at; lia).
  do 4 field_step. apply wp_field_bytes; [apply field_at; (done || lia)|].
  field_step. split; [exact Hok|done].
Qed.

(** What the initialisation leaves behind. *)
Lemma VhdInitializeHardDisk_ok name s : valid_image file = true ->
  wp (@VhdInitializeHardDisk (host_of file) name)
    (fun _ s' => image_ok (vhd s') /\ VHDIMAGE.cbSize (vhd s') = word_at file (footer_at file + 48) 8) s.
Proof.
  intros Hv. pose proof Hv as Hv'. unfold valid_image in Hv'. rewrite !andb_true_iff in Hv'.
  destruct Hv' as [[H512%Z.leb_le Hcookie%bool_decide_eq_true] Htypes].
  unfold VhdInitializeHardDisk. apply wp_upd_vhd. intros s1 H1. cbn [win_open win_size host_of]. cbv zeta.
  apply wp_upd_vhd. intros s2 H2. apply wp_upd_vhd. intros s3 H3. change sizeof_VHDFooter with 512.
  rewrite (proj2 (Z.ltb_ge _ _)) by done. fold (footer_at file).
  assert (0 <= footer_at file /\ fits (footer_at file) 512 file = true) as [H0 Hf]
    by (rewrite fits_spec; unfold footer_at; lia).
  apply wp_seek; [done|]. intros s4 Hp H4. apply wp_read. rewrite Hp. intros s5 H5.
  apply wp_field_bytes; [apply field_at; (done || lia)|]. rewrite slice_slice, Z.add_0_r by lia.
  rewrite Hcookie, bool_decide_true by done. cbn [negb]. apply wp_bind.
  apply (wp_mono _ (fun _ s' => image_ok (vhd s'))); [intros [] s6 Hok; by apply keep_footer_ok|].
  assert ((vhd s5).(VHDIMAGE.hFile) = 1 /\ geometry_of (vhd s5) = (None, (0, 0))) as [Hh Hg]
    by by rewrite H5, H4, H3, H2, H1.
  unfold load_by_type. field_step. fold (image_type file).
  destruct (Z.eqb_spec (image_type file) VHD_FOOTER_DISK_TYPE_FIXED) as [Ht|Ht].
  { split; [exact Hh|]. unfold image_geometry. rewrite (proj2 (Z.eqb_eq _ _) Ht). exact Hg. }
  destruct (Z.eqb_spec (image_type file) VHD_FOOTER_DISK_TYPE_DYNAMIC) as [|Ht3];
    [|destruct (Z.eqb_spec (image_type file) VHD_FOOTER_DISK_TYPE_DIFFERENCING) as [|Ht4]; [|exfalso; cbn in Htypes; congruence]];
    (apply wp_upd_vhd; intros s6 H6; field_step; apply load_ok; [done|done|by rewrite H6]).
Qed.
End Opened.

(** ** Reading a sector *)

#[export] Instance vhd_disk `{!Win32} : DiskImage := {|
  disk_size := VhdGetHardDiskSize;
  disk_seek := VhdSeek;
  disk_read := VhdRead;
  disk_write := VhdWrite
|}.

Lemma sector_at_Some file q l : sector_at file q = Some l ->
  0 <= 512 * q /\ 512 * q + 512 <= Z.of_nat (length file) /\ l = slice (512 * q) 512 file.
Proof. unfold sector_at. destruct (fits _ _ _) eqn:Hf; [|done]. intros [= <-]. apply fits_spec in Hf. tauto. Qed.

Lemma nth0_slice o n d i : 0 <= i < n -> 0 <= o -> nth0 (slice o n d) i = nth0 d (o + i).
Proof.
  intros Hi Ho. unfold nth0, nthZ, slice. rewrite !(proj2 (Z.leb_le 0 _)) by lia.
  rewrite lookup_take_lt, lookup_drop by lia.
  by replace (Z.to_nat (o + i)) with (Z.to_nat o + Z.to_nat i)%nat by lia.
Qed.

Lemma slice_nth0 o n d : 0 <= n -> fits o n d = true -> slice o n d = map (nth0 d) (seqZ o n).
Proof.
  intros Hn Hf. pose proof (length_slice o n d Hn Hf) as Hl. apply fits_spec in Hf.
  apply list_eq. intros i. rewrite list_lookup_fmap. destruct (decide (Z.of_nat i < n)) as [Hi|Hi].
  - rewrite lookup_seqZ_lt by lia. cbn.
    pose proof (nth0_slice o n d (Z.of_nat i) ltac:(lia) ltac:(lia)) as Hs.
    unfold nth0 at 1, nthZ in Hs. rewrite (proj2 (Z.leb_le 0 _)), Nat2Z.id in Hs by lia.
    destruct (slice o n d !! i) as [x|] eqn:E; [by cbn in Hs; rewrite Hs|].
    apply lookup_ge_None in E. lia.
  - rewrite lookup_seqZ_ge by lia. apply lookup_ge_None. lia.
Qed.

(** An entry of the table in memory is the word of the file. *)
Lemma table_lookup file n i : 0 <= n < 2 ^ 30 -> 0 <= i < n -> 0 <= table_at file ->
  fits (table_at file + 4 * i) 4 file = true ->
  nthZ (block_table n (slice (table_at file) (u32 (n * 4)) file)) i = Some (word_at file (table_at file + 4 * i) 4).
Proof.
  intros Hn Hi Ht Hf. unfold nthZ, block_table. rewrite (proj2 (Z.leb_le 0 _)) by lia.
  rewrite list_lookup_fmap, lookup_seqZ_lt by lia. cbn. f_equal. rewrite Z2Nat.id, Z.add_0_l by lia.
  unfold bat_entry, word_at. rewrite (slice_nth0 (_ + _)) by (done || lia). f_equal.
  rewrite u32_small by (unfold in_width; lia). rewrite <- fmap_add_seqZ. 
  change (Z.add (table_at file) <$> seqZ (4 * i) 4) with (map (Z.add (table_at file)) (seqZ (4 * i) 4)).
  rewrite map_map.   apply map_ext_in. intros j Hj%list_elem_of_In%elem_of_seqZ. apply nth0_slice; lia.
Qed.

Section Sectors.
Context (file : list Z) (Hbytes : Forall is_u8 file) (Hlen : Z.of_nat (length file) < 2 ^ 63)
  (Hentries : table_entries file < 2 ^ 30).

#[local] Existing Instance host_of.

Definition image_ready (s : Machine.t) : Prop :=
  image_ok file (vhd s) /\ (vhd s).(VHDIMAGE.cbSize) = word_at file (footer_at file + 48) 8.

Definition moved (h p : Z) (s : Machine.t) : Machine.t := s <| Machine.FilePointers ::= <[h := p]> |>.

Lemma seek_run h o s : 0 <= o -> @seek_or_exit (host_of file) h o s = Ok tt (moved h o s).
Proof.
  intros Ho. unfold seek_or_exit, SetFilePointerEx. cbn [win_seek host_of]. by rewrite (proj2 (Z.leb_le _ _) Ho).
Qed.
Lemma read_run h o n s : @read_or_exit (host_of file) h n (moved h o s) =
  Ok (slice o n file) (moved h (o + Z.of_nat (length (slice o n file))) (moved h o s)).
Proof.
  unfold read_or_exit, ReadFile. cbn [win_read host_of]. unfold mbind, M_bind. rewrite run_gets.
  assert (file_pointer h (moved h o s) = o) as -> by (unfold file_pointer, moved; cbn; by rewrite lookup_insert_eq).
  reflexivity.
Qed.

(** The last steps of a read: the position, and the sector that is there. *)
Lemma read_at s q l p : image_ready s -> sector_at file q = Some l ->
  exists s1, same_but_image s s1 /\ image_ready s1 /\
    (@seek_or_exit (host_of file) 1 (s64 (512 * q)) ;;
     l ← @read_or_exit (host_of file) 1 (u32 512); put p l ;; mret (None : cvalue)) s
    = (put p l ;; mret None) s1.
Proof.
  intros Hs (H0 & Hq & ->)%sector_at_Some. rewrite s64_small by lia.
  rewrite (run_bind _ _ _ _ _ (seek_run 1 (512 * q) s H0)).
  change (u32 512) with 512. rewrite (run_bind _ _ _ _ _ (read_run 1 (512 * q) 512 s)).
  eexists. split; [|split; [|reflexivity]]; [|exact Hs].
  exists s.(Machine.vhdImage). eexists. reflexivity.
Qed.

(** The code finds each sector of the file where the format has it. *)
Lemma vhd_read_sector s lba l p : image_ready s -> 0 <= lba -> vhd_sector file lba = Some l ->
  exists s1 v, same_but_image s s1 /\ image_ready s1 /\
    (_ ← VhdSeek (lba * 512); @VhdRead (host_of file) p 512) s = (put p l ;; mret v) s1.
Proof.
  intros Hs Hlba Hl. set (s0 := s <| Machine.vhdImage ::= fun v => v <| VHDIMAGE.u64DataOffset := lba * 512 |> |>).
  assert (image_ready s0) as Hs0 by exact Hs.
  cut (exists s1 v, same_but_image s0 s1 /\ image_ready s1 /\ @VhdRead (host_of file) p 512 s0 = (put p l ;; mret v) s1).
  { intros (s1 & v & (v' & m & ->) & H1 & Hrun). eexists _, v. split; [by exists v', m|]. by split. }
  assert ((vhd s0).(VHDIMAGE.u64DataOffset) = lba * 512) as Ho by done.
  clearbody s0. clear Hs s. destruct Hs0 as [[Hh Hg] Hsize]. pose proof Hg as Hg'. unfold VhdRead.
  setoid_rewrite (run_bind _ _ _ _ _ (run_gets Machine.vhdImage s0)). fold (vhd s0). cbv zeta. rewrite Hh, Ho.
  unfold geometry_of, image_geometry in Hg. unfold vhd_sector in Hl.
  destruct (image_type file =? _).
  - injection Hg as -> _ _. destruct (read_at s0 lba l p (conj (conj Hh Hg') Hsize) Hl) as (s1 & H1 & H2 & H3).
    exists s1, None. split; [done|]. split; [done|]. by rewrite <- H3, (Z.mul_comm 512).
  - injection Hg as -> -> ->.
    set (spb := sectors_per_block file) in *. set (q := lba / spb) in *. set (r := lba mod spb) in *. cbv zeta in Hl.
    destruct ((0 <? spb) && (q <? table_entries file) && fits (table_at file + 4 * q) 4 file) eqn:Hc; [|done].
    rewrite !andb_true_iff in Hc. destruct Hc as [[Hspb%Z.ltb_lt Hq%Z.ltb_lt] Hfit].
    cbn [andb] in Hl. destruct (Z.eqb_spec (word_at file (table_at file + 4 * q) 4) 0xffffffff) as [|Hfree]; [done|].
    cbn [negb] in Hl.
    assert (is_u32 (table_entries file)) as Hte by (by apply (in_width_word file _ 4)).
    assert (is_u32 (word_at file (table_at file + 4 * q) 4)) as Hblock by (by apply (in_width_word file _ 4)).
    assert (0 <= table_at file) as Ht by (by apply word_nonneg).
    assert (0 <= q) as Hq0 by (by apply Z.div_pos).
    assert (0 <= r < spb) as Hr by (apply Z.mod_pos_bound; lia).
    assert (spb < 2 ^ 32) as Hspb32.
    { unfold spb, sectors_per_block. apply Z.div_lt_upper_bound; [lia|].
      pose proof (in_width_word file (header_at file + 32) 4 Hbytes ltac:(lia)) as [_ Hw].
      change (2 ^ (8 * 4)) with (2 ^ 32) in Hw. lia. }
    assert (0 <= bitmap_sectors file < 2 ^ 32) as Hbm.
    { unfold bitmap_sectors. fold spb. pose proof (Z.div_pos spb 8 ltac:(lia) ltac:(lia)).
      pose proof (Z.div_le_upper_bound spb 8 spb ltac:(lia) ltac:(lia)).
      split; [apply Z.div_pos; lia|apply Z.div_lt_upper_bound; lia]. }
    unfold VHD_SECTOR_SIZE. rewrite Z.div_mul by lia.
    rewrite (run_bind _ _ _ _ _ (run_divu lba spb s0 ltac:(lia))).
    rewrite (run_bind _ _ _ _ _ (run_modu lba spb s0 ltac:(lia))). fold q r.
    unfold in_width in *. rewrite (u32_small q), (u32_small r) by (unfold in_width; lia).
    rewrite table_lookup by (done || lia). cbn [of_option]. rewrite run_ret_bind, (proj2 (Z.eqb_neq _ _) Hfree).
    rewrite (u64_small (_ + _ + _)), (u64_small (_ * _)) by (unfold in_width; lia).
    rewrite (Z.mul_comm _ 512).
    destruct (read_at s0 _ l p (conj (conj Hh Hg') Hsize) Hl) as (s1 & H1 & H2 & H3).
    exists s1, None. split; [done|]. split; [done|]. exact H3.
Qed.
End Sectors.

(** *** The interface of the ATA disks *)

Lemma vhd_sector_length file lba l : vhd_sector file lba = Some l -> length l = 512%nat.
Proof.
  assert (forall q, sector_at file q = Some l -> length l = 512%nat) as Hs.
  { intros q (H0 & Hq & ->)%sector_at_Some. apply Nat2Z.inj. rewrite length_slice; [done|done|by apply fits_spec]. }
  unfold vhd_sector. destruct (_ =? _); [apply Hs|]. cbv zeta. destruct (_ && _); [apply Hs|done].
Qed.

Lemma vhd_disk_laws file : Forall is_u8 file -> Z.of_nat (length file) < 2 ^ 63 -> table_entries file < 2 ^ 30 ->
  @DiskImageLaws (@vhd_disk (host_of file)) (image_ready file) (word_at file (footer_at file + 48) 8) (vhd_sector file).
Proof.
  intros Hb Hl He. split.
  - intros s [_ Hs]. unfold disk_size, vhd_disk, VhdGetHardDiskSize, get_vhd.
    rewrite (run_bind _ _ _ _ _ (run_gets _ _)). fold (vhd s). by rewrite Hs.
  - by apply (in_width_word file _ 8).
  - apply vhd_sector_length.
  - intros s s' Hv _. unfold image_ready, vhd. by rewrite Hv.
  - intros s lba l p Hs H0 Hlba. by apply vhd_read_sector.
Qed.


(** A dynamic image of one block: header, table, bitmap, two sectors, footer. *)
Definition be_list (n : nat) (x : Z) : list Z := reverse (le_bytes n x).
Definition example_header : list Z :=
  VHD_DYNAMIC_DISK_HEADER_COOKIE ++ replicate 8 0xff ++ be_list 8 1024 ++ be_list 4 0x10000 ++ be_list 4 1 ++ be_list 4 4096
  ++ replicate 988 0.
Definition example_footer : list Z :=
  VHD_FOOTER_COOKIE ++ replicate 8 0 ++ be_list 8 0 ++ replicate 24 0 ++ be_list 8 4096 ++ replicate 4 0 ++ be_list 4 3
  ++ replicate 448 0.
Definition example_sector : list Z := replicate 510 0x5a ++ [0x55; 0xaa].
Definition example_sector2 : list Z := replicate 512 0xa5.
Definition example_image : list Z :=
  example_header ++ be_list 4 3 ++ replicate 508 0 ++ (0xc0 :: replicate 511 0) ++ example_sector ++ example_sector2 ++ example_footer.


(** A read in a block that the image has not allocated, which the format says is
    all zeros, ends the program. *)
Theorem vhd_free_block_exits file name s lba p :
  bytesb file = true -> Z.of_nat (length file) < 2 ^ 63 -> table_entries file < 2 ^ 30 -> valid_image file = true ->
  image_type file <> VHD_FOOTER_DISK_TYPE_FIXED ->
  let spb := sectors_per_block file in
  let entry := table_at file + 4 * (lba / spb) in
  0 <= lba -> 0 < spb -> lba / spb < table_entries file -> fits entry 4 file = true -> word_at file entry 4 = 0xffffffff ->
  wp (@VhdInitializeHardDisk (host_of file) name) (fun _ s0 =>
    (_ ← VhdSeek (lba * 512); @VhdRead (host_of file) p 512) s0 = Fault Exit) s.
Proof.
  intros Hb%bytesb_spec Hl He Hv Htype spb entry Hlba Hspb Hq Hfit Hfree.
  eapply wp_mono; [|by apply VhdInitializeHardDisk_ok]. intros [] s0 [[Hh Hg] _].
  unfold geometry_of, image_geometry in Hg. rewrite (proj2 (Z.eqb_neq _ _) Htype) in Hg. injection Hg as Ht Hs Hbm.
  set (s1 := s0 <| Machine.vhdImage ::= fun v => v <| VHDIMAGE.u64DataOffset := lba * 512 |> |>).
  change (@VhdRead (host_of file) p 512 s1 = Fault Exit). unfold VhdRead.
  rewrite (run_bind _ _ _ _ _ (run_gets Machine.vhdImage s1)). cbv zeta.
  change (s1.(Machine.vhdImage)) with ((vhd s0) <| VHDIMAGE.u64DataOffset := lba * 512 |>).
  cbn [upd_field VHDIMAGE.u64DataOffset VHDIMAGE.pBlockAllocationTable VHDIMAGE.cSectorsPerDataBlock].
  rewrite Ht, Hs. unfold VHD_SECTOR_SIZE. rewrite Z.div_mul by lia. fold spb.
  rewrite (run_bind _ _ _ _ _ (run_divu lba spb s1 ltac:(lia))).
  rewrite (run_bind _ _ _ _ _ (run_modu lba spb s1 ltac:(lia))).
  pose proof (in_width_word file (header_at file + 28) 4 Hb ltac:(lia)) as Hte. fold (table_entries file) in Hte.
  change (8 * 4) with 32 in Hte. unfold in_width in Hte.
  assert (0 <= lba / spb) as Hq0 by (apply Z.div_pos; lia).
  rewrite (u32_small (lba / spb)) by (unfold in_width; lia).
  rewrite (table_lookup file (table_entries file) (lba / spb)) by (done || lia || apply (word_nonneg file Hb _ 8); done).
  cbn [of_option]. rewrite run_ret_bind. fold entry. by rewrite Hfree.
Qed.

(** The same image with its block free. *)
Definition free_image : list Z :=
  example_header ++ be_list 4 0xffffffff ++ replicate 508 0 ++ (0x80 :: replicate 511 0) ++ example_sector ++ example_footer.

Lemma vhd_free_block_exits_witness :
  wp (@VhdInitializeHardDisk (host_of free_image) "disk.vhd") (fun _ s0 =>
    (_ ← VhdSeek (0 * 512); @VhdRead (host_of free_image) (ctl_buf 0 0 0) 512) s0 = Fault Exit) Machine.zero.
Proof.
  apply (vhd_free_block_exits free_image "disk.vhd" Machine.zero 0 (ctl_buf 0 0 0)); vm_compute;
    first [reflexivity|discriminate|exact I].
Defined.
