(* ===== verification/HardDisk.v ===== *)
(** harddisk.c: the ATA drives' state, addresses and sector transfers.

    Four channels with two drives each; a channel's registers are those of the
    drive that its last write to the device register selected.  A command's sectors
    go through the drive's buffer, one sector, or one group of sectors, at a time.
    The image behind the disk is the interface [DiskImage]. *)

From S2P Require Export Vhd.

(** ** harddisk.h *)
Definition DRIVE_TYPE_NONE : Z := 0.
Definition DRIVE_TYPE_CDROM : Z := 1.
Definition DRIVE_TYPE_DISK : Z := 2.
Definition MAX_ATA_CHANNEL : Z := 4.
Definition MAX_MULTIPLE_SECTORS : Z := 16.
Definition HARDDISK_HEADS : Z := 16.
Definition HARDDISK_SECTORS : Z := 63.
Definition HARDDISK_SPT : Z := 63.
Definition HARDDISK_SECTOR_SIZE : Z := 512.
Definition IDE_STATUS_ERROR : Z := bit 0.
Definition IDE_STATUS_INDEX_PULSE : Z := bit 1.
Definition IDE_STATUS_CORRECTED_DATA : Z := bit 2.
Definition IDE_STATUS_DEV_REQ : Z := bit 3.
Definition IDE_STATUS_DEV_SEEK_COMP : Z := bit 4.
Definition IDE_STATUS_WRITE_FAULT : Z := bit 5.
Definition IDE_STATUS_DRIVE_RDY : Z := bit 6.
Definition IDE_STATUS_BUSY : Z := bit 7.
Definition IDE_COMMAND_READ : Z := 0x20.
Definition IDE_COMMAND_READ_WITHOUT_RETRIES : Z := 0x21.
Definition IDE_COMMAND_READ_EXT : Z := 0x24.
Definition IDE_COMMAND_READ_DMA_EXT : Z := 0x25.
Definition IDE_COMMAND_READ_MULTIPLE_EXT : Z := 0x29.
Definition IDE_COMMAND_WRITE_DMA_EXT : Z := 0x35.
Definition IDE_COMMAND_SEEK : Z := 0x70.
Definition IDE_COMMAND_ATAPI_PACKET : Z := 0xA0.
Definition IDE_COMMAND_READ_MULTIPLE : Z := 0xC4.
Definition IDE_COMMAND_READ_DMA : Z := 0xC8.
Definition IDE_COMMAND_WRITE_DMA : Z := 0xCA.
Definition SCSIOP_READ : Z := 0x28.
Definition SCSIOP_READ12 : Z := 0xA8.
Definition SCSIOP_READ_CD : Z := 0xBE.

(** ** The selected drive *)

(** [Dnum = AtaChannel[Channel].DriveSelect ? 1 : 0] *)
Definition selected (Channel : Z) : IO Z :=
  ch ← get_channel Channel; mret (if nz ch.(ATA_CHANNEL.DriveSelect) then 1 else 0).

(** The [Status &= ~off] and [Status |= on] of a sequence, whose bits are disjoint. *)
Definition set_status (off on : Z) (r : CONTROLLER.t) : CONTROLLER.t :=
  r <| CONTROLLER.Status ::= fun s => (s &. ~. off) |. on |>.
(** The bit fields of [interrupt_reason]: [c_d], [i_o] and [rel] of the sector count. *)
Definition c_d : Z := bit 0.
Definition i_o : Z := bit 1.
Definition rel : Z := bit 2.
Definition set_reason (off on : Z) (r : CONTROLLER.t) : CONTROLLER.t :=
  r <| CONTROLLER.SectorCount ::= fun s => (s &. ~. off) |. on |>.

Section Interrupts.
Context `{!Driver}.

Definition HardDiskRaiseInterrupt (Channel : Z) : IO unit :=
  d ← selected Channel;
  r ← get_ctl Channel d;
  when (negb (nz r.(CONTROLLER.DisableIrq))) (
    IdeSetIrq Channel ;;
    ch ← get_channel Channel;
    PicRaiseIrq ch.(ATA_CHANNEL.Irq)).

(** The number of sectors of a command: 0 stands for 256, or for 65536. *)
Definition lba48_transform (Lba48 : Z) (r : CONTROLLER.t) : CONTROLLER.t :=
  let n := r.(CONTROLLER.SectorCount) in
  let hob := r.(CONTROLLER.Hob).(HOB.Nsector) in
  r <| CONTROLLER.Lba48 := Lba48 |>
    <| CONTROLLER.NumberOfSectors :=
         if negb (nz Lba48) then (if nz n then n else 256)
         else if negb (nz n) && negb (nz hob) then 65536 else (hob <<. 8) |. n |>.
Definition HardDiskLba48Transform (Channel Lba48 : Z) : IO unit :=
  d ← selected Channel; upd_ctl Channel d (lba48_transform Lba48).

Definition command_nop (r : CONTROLLER.t) : CONTROLLER.t :=
  set_status (IDE_STATUS_BUSY |. IDE_STATUS_DEV_REQ |. IDE_STATUS_ERROR) IDE_STATUS_DRIVE_RDY (set_reason rel (i_o |. c_d) r).
Definition HardDiskCommandNop (Channel : Z) : IO unit := d ← selected Channel; upd_ctl Channel d command_nop.

Definition command_aborted (r : CONTROLLER.t) : CONTROLLER.t :=
  set_status (IDE_STATUS_BUSY |. IDE_STATUS_DEV_REQ |. IDE_STATUS_CORRECTED_DATA) (IDE_STATUS_ERROR |. IDE_STATUS_DRIVE_RDY)
    (r <| CONTROLLER.CurrentCommand := 0 |> <| CONTROLLER.ErrorRegister := 4 |> <| CONTROLLER.BufferIndex := 0 |>).
Definition HardDiskCommandAborted (Channel : Z) : IO unit :=
  d ← selected Channel; upd_ctl Channel d command_aborted ;; HardDiskRaiseInterrupt Channel.

(** [SenseKey] is a byte, and so is the error register it is stored in. *)
Definition atapi_error (SenseKey Asc : Z) (r : CONTROLLER.t) : CONTROLLER.t :=
  set_status (IDE_STATUS_BUSY |. IDE_STATUS_DEV_REQ |. IDE_STATUS_WRITE_FAULT) (IDE_STATUS_ERROR |. IDE_STATUS_DRIVE_RDY)
    (set_reason rel (i_o |. c_d) (r <| CONTROLLER.ErrorRegister := u8 (SenseKey <<. 4) |>))
  <| CONTROLLER.Sense ::= fun v => v <| SENSE_INFO.sense_key := SenseKey |> <| SENSE_INFO.asc := Asc |> <| SENSE_INFO.ascq := 0 |> |>.
Definition HardDiskAtapiError (Channel SenseKey Asc : Z) : IO unit :=
  d ← selected Channel; upd_ctl Channel d (atapi_error SenseKey Asc).

Definition HardDiskReadySendAtapi (Channel : Z) : IO unit :=
  d ← selected Channel;
  upd_ctl Channel d (fun r => set_reason c_d i_o (set_status (IDE_STATUS_BUSY |. IDE_STATUS_ERROR) IDE_STATUS_DEV_REQ r)) ;;
  r ← get_ctl Channel d;
  if nz r.(CONTROLLER.PacketDma) then IdeStartTransfer Channel else HardDiskRaiseInterrupt Channel.

Definition mode_sense_error_recovery : list Z := [0x01; 0x06; 0x00; 0x05; 0x00; 0x00; 0x00; 0x00].
(** The source of the page is null, or the place where the page goes. *)
Definition HardDiskInitModeSense (Channel : Z) (Src_null : bool) (Size : Z) : IO unit :=
  d ← selected Channel;
  store Channel d 0 (replicate (Z.to_nat (7 + Size)) 0) ;;
  store Channel d 0 [((Size + 6) >>. 8) &. 0xff; (Size + 6) &. 0xff; 0x12] ;;
  when Src_null (store Channel d 8 mode_sense_error_recovery).

Definition HardDiskBdmaComplete (Channel : Z) : IO unit :=
  d ← selected Channel;
  upd_ctl Channel d (set_status (IDE_STATUS_BUSY |. IDE_STATUS_DEV_REQ |. IDE_STATUS_ERROR) IDE_STATUS_DRIVE_RDY) ;;
  upd_drive Channel d (fun dr =>
    if dr.(DRIVE.DriveType) =? DRIVE_TYPE_CDROM then dr <| DRIVE.Controller ::= set_reason rel (i_o |. c_d) |>
    else dr <| DRIVE.Controller ::= set_status (IDE_STATUS_WRITE_FAULT |. IDE_STATUS_CORRECTED_DATA) IDE_STATUS_DEV_SEEK_COMP |>
            <| DRIVE.CurrentLSector := dr.(DRIVE.NextLSector) |>) ;;
  HardDiskRaiseInterrupt Channel.
End Interrupts.

(** ** The signature, and the start of a packet command's data *)

Definition signature_cylinder (DriveType : Z) : Z :=
  if DriveType =? DRIVE_TYPE_DISK then 0 else if DriveType =? DRIVE_TYPE_CDROM then 0xeb14 else 0xffff.
Definition HardDiskSetSignature (Channel Dnum : Z) : IO unit :=
  dr ← get_drive Channel Dnum;
  upd_ctl Channel Dnum (fun r => r <| CONTROLLER.HeadNumber := 0 |> <| CONTROLLER.SectorCount := 1 |>
    <| CONTROLLER.SectorNumber := 1 |> <| CONTROLLER.CylinderNumber := signature_cylinder dr.(DRIVE.DriveType) |>) ;;
  when (dr.(DRIVE.DriveType) =? DRIVE_TYPE_DISK) (upd_channel Channel (fun ch => ch <| ATA_CHANNEL.DriveSelect := 0 |>)).

(** The cylinder register is the guest's limit of bytes per transfer: it is made
    even, and cut to the data there are.  (It is an unsigned WORD, so the test
    [CylinderNumber == -1] never holds.) *)
Definition even_limit (AllocLength limit : Z) : Z :=
  if Z.testbit limit 0 && (limit <? AllocLength) then limit - 1 else limit.
Definition init_atapi_command (Command ReqLength AllocLength : Z) (r : CONTROLLER.t) : CONTROLLER.t :=
  let limit := even_limit AllocLength r.(CONTROLLER.CylinderNumber) in
  let r := r <| CONTROLLER.CylinderNumber := limit |> in
  if negb (nz r.(CONTROLLER.PacketDma)) && negb (nz limit) then r
  else
    let AllocLength := if nz AllocLength then AllocLength else limit in
    let limit := if ReqLength <? limit then ReqLength else limit in
    let limit := if AllocLength <? limit then AllocLength else limit in
    set_status (IDE_STATUS_DEV_REQ |. IDE_STATUS_ERROR) (IDE_STATUS_BUSY |. IDE_STATUS_DRIVE_RDY)
      (r <| CONTROLLER.BufferIndex := 0 |> <| CONTROLLER.DrqIndex := 0 |> <| CONTROLLER.CylinderNumber := limit |>
         <| CONTROLLER.Atapi := ATAPI.mk Command limit (if ReqLength <? AllocLength then ReqLength else AllocLength) |>).
Definition HardDiskInitAtapiCommand (Channel Command ReqLength AllocLength : Z) : IO unit :=
  d ← selected Channel; upd_ctl Channel d (init_atapi_command Command ReqLength AllocLength).

(** ** Addresses *)

(** The registers after a sector, and the sector that follows [LogicalSector]. *)
Definition next_lba48 (L : Z) (r : CONTROLLER.t) : CONTROLLER.t :=
  r <| CONTROLLER.Hob ::= fun h => h <| HOB.HighCylinder := (L >>. 40) &. 0xff |> <| HOB.LowCylinder := (L >>. 32) &. 0xff |>
                                     <| HOB.Sector := (L >>. 24) &. 0xff |> |>
    <| CONTROLLER.CylinderNumber := (L >>. 8) &. 0xffff |> <| CONTROLLER.SectorNumber := L &. 0xff |>.
Definition next_lba28 (L : Z) (r : CONTROLLER.t) : CONTROLLER.t :=
  r <| CONTROLLER.HeadNumber := (L >>. 24) &. 0xff |> <| CONTROLLER.CylinderNumber := (L >>. 8) &. 0xffff |>
    <| CONTROLLER.SectorNumber := L &. 0xff |>.
Definition next_chs (dr : DRIVE.t) (r : CONTROLLER.t) : CONTROLLER.t :=
  let r := r <| CONTROLLER.SectorNumber ::= fun v => u8 (v + 1) |> in
  if r.(CONTROLLER.SectorNumber) <=? dr.(DRIVE.Spt) then r
  else
    let r := r <| CONTROLLER.SectorNumber := 1 |> <| CONTROLLER.HeadNumber ::= fun v => u8 (v + 1) |> in
    if r.(CONTROLLER.SectorNumber) <? dr.(DRIVE.Heads) then r
    else
      let r := r <| CONTROLLER.SectorNumber := 0 |> <| CONTROLLER.CylinderNumber ::= fun v => u16 (v + 1) |> in
      if r.(CONTROLLER.CylinderNumber) <? dr.(DRIVE.Cylinders) then r
      else r <| CONTROLLER.CylinderNumber := u16 (dr.(DRIVE.Cylinders) - 1) |>.

Definition increment_address (L : Z) (dr : DRIVE.t) : DRIVE.t * Z :=
  let r := dr.(DRIVE.Controller) <| CONTROLLER.SectorCount ::= fun v => u8 (v - 1) |>
             <| CONTROLLER.NumberOfSectors ::= fun v => u32 (v - 1) |> in
  if nz r.(CONTROLLER.AddressMode) then
    let L := u64 (L + 1) in
    (dr <| DRIVE.Controller := if nz r.(CONTROLLER.Lba48) then next_lba48 L r else next_lba28 L r |>, L)
  else (dr <| DRIVE.Controller := next_chs dr r |>, L).
Definition HardDiskIncrementAddress (Channel LogicalSector : Z) : IO Z :=
  d ← selected Channel;
  dr ← get_drive Channel d;
  let p := increment_address LogicalSector dr in
  upd_drive Channel d (fun _ => p.1) ;;
  mret p.2.

(** The sector that the registers name. *)
Definition register_address (r : CONTROLLER.t) : Z :=
  if nz r.(CONTROLLER.AddressMode) then
    if nz r.(CONTROLLER.Lba48) then
      let h := r.(CONTROLLER.Hob) in
      (h.(HOB.HighCylinder) <<. 40) |. (h.(HOB.LowCylinder) <<. 32) |. (h.(HOB.Sector) <<. 24)
      |. (r.(CONTROLLER.CylinderNumber) <<. 8) |. r.(CONTROLLER.SectorNumber)
    else
      ((r.(CONTROLLER.HeadNumber) &. 0xff) <<. 24) |. ((r.(CONTROLLER.CylinderNumber) &. 0xffff) <<. 8)
      |. (r.(CONTROLLER.SectorNumber) &. 0xff)
  else
    u64 (r.(CONTROLLER.CylinderNumber) * HARDDISK_HEADS * HARDDISK_SECTORS
         + r.(CONTROLLER.HeadNumber) * HARDDISK_SECTORS + u64 (r.(CONTROLLER.SectorNumber) - 1)).

(** [return -1] in a function of type [ULONG64]. *)
Definition NO_SECTOR : Z := 2 ^ 64 - 1.

Section Transfers.
Context `{!Driver, !DiskImage}.

Definition HardDiskCalculateLogicalAddress (Channel : Z) : IO Z :=
  d ← selected Channel;
  r ← get_ctl Channel d;
  size ← disk_size;
  mret (if size / 512 <=? register_address r then NO_SECTOR else register_address r).

(** ** Sectors

    [for (i = 0; i < BufferSize; i += HARDDISK_SECTOR_SIZE)]: a DWORD of bytes has
    fewer than [BufferSize / 512 + 2] sectors. *)
Definition sector_fuel (r : CONTROLLER.t) : nat := Z.to_nat (r.(CONTROLLER.BufferSize) / 512 + 2).

Definition advance_sector (Channel d LogicalSector : Z) : IO unit :=
  next ← HardDiskIncrementAddress Channel LogicalSector;
  upd_drive Channel d (fun dr => dr <| DRIVE.NextLSector := next |>).

Fixpoint write_sectors (fuel : nat) (Channel d i : Z) : IO Z :=
  match fuel with
  | O => stop Diverges
  | S fuel =>
      r ← get_ctl Channel d;
      if i <? r.(CONTROLLER.BufferSize) then
        LogicalSector ← HardDiskCalculateLogicalAddress Channel;
        if LogicalSector =? NO_SECTOR then HardDiskCommandAborted Channel ;; mret 0
        else
          _ ← disk_seek (u64 (LogicalSector * HARDDISK_SECTOR_SIZE));
          ret ← disk_write (ctl_buf Channel d i) HARDDISK_SECTOR_SIZE;
          ret ← of_option Indeterminate ret;
          if ret =? 0 then HardDiskCommandAborted Channel ;; mret 0
          else
            advance_sector Channel d LogicalSector ;;
            write_sectors fuel Channel d (i + HARDDISK_SECTOR_SIZE)
      else mret i
  end.
Definition HardDiskWriteSector (Channel : Z) : IO Z :=
  d ← selected Channel; r ← get_ctl Channel d; write_sectors (sector_fuel r) Channel d 0.

(** The results of the seek and of the read are not tested. *)
Fixpoint read_sectors (fuel : nat) (Channel d i : Z) : IO Z :=
  match fuel with
  | O => stop Diverges
  | S fuel =>
      r ← get_ctl Channel d;
      if i <? r.(CONTROLLER.BufferSize) then
        LogicalSector ← HardDiskCalculateLogicalAddress Channel;
        _ ← disk_seek (u64 (LogicalSector * HARDDISK_SECTOR_SIZE));
        _ ← disk_read (ctl_buf Channel d i) HARDDISK_SECTOR_SIZE;
        advance_sector Channel d LogicalSector ;;
        read_sectors fuel Channel d (i + HARDDISK_SECTOR_SIZE)
      else mret i
  end.
Definition HardDiskReadSector (Channel : Z) : IO Z :=
  d ← selected Channel; r ← get_ctl Channel d; read_sectors (sector_fuel r) Channel d 0.

(** ** Bus-master transfers *)

Context `{!Win32}.

Definition HardDiskBmdmaWriteSector (Channel Buffer BufferSize : Z) : IO Z :=
  d ← selected Channel;
  r ← get_ctl Channel d;
  if (r.(CONTROLLER.CurrentCommand) =? IDE_COMMAND_WRITE_DMA) || (r.(CONTROLLER.CurrentCommand) =? IDE_COMMAND_WRITE_DMA_EXT)
  then HardDiskCommandAborted Channel ;; mret 0
  else if negb (nz r.(CONTROLLER.NumberOfSectors)) then mret 0
  else HardDiskWriteSector Channel.

Definition reads_blocks (AtapiCommand : Z) : bool :=
  (AtapiCommand =? SCSIOP_READ) || (AtapiCommand =? SCSIOP_READ12) || (AtapiCommand =? SCSIOP_READ_CD).
Definition next_block (r : CONTROLLER.t) : CONTROLLER.t :=
  r <| CONTROLLER.LbAddress ::= fun v => u32 (v + 1) |> <| CONTROLLER.RemainingBlocks ::= fun v => u32 (v - 1) |>.

(** The packet's case: a block of the disc, or the data in the drive's buffer. *)
Definition bmdma_read_packet (Channel d Buffer : Z) (r : CONTROLLER.t) : IO Z :=
  if reads_blocks r.(CONTROLLER.Atapi).(ATAPI.AtapiCommand) then
    ret ← CdRomReadBlock r.(CONTROLLER.LbAddress) (dma_buf Channel Buffer) r.(CONTROLLER.BufferSize);
    if ret =? 0 then mret 0 else upd_ctl Channel d next_block ;; mret 1
  else
    l ← load Channel d 0 (Z.min r.(CONTROLLER.BufferSize) r.(CONTROLLER.RemainingBlocks));
    put (dma_buf Channel Buffer) l ;; mret 1.

Definition HardDiskBmdmaReadSector (Channel Buffer BufferSize : Z) : IO Z :=
  d ← selected Channel;
  r ← get_ctl Channel d;
  if (r.(CONTROLLER.CurrentCommand) =? IDE_COMMAND_READ_DMA) || (r.(CONTROLLER.CurrentCommand) =? IDE_COMMAND_READ_DMA_EXT) then
    if negb (nz r.(CONTROLLER.NumberOfSectors)) then mret 0
    else ret ← HardDiskReadSector Channel; mret (if ret =? 0 then 0 else 1)
  else if (r.(CONTROLLER.CurrentCommand) =? IDE_COMMAND_ATAPI_PACKET) && nz r.(CONTROLLER.PacketDma) then
    bmdma_read_packet Channel d Buffer r
  else HardDiskCommandAborted Channel ;; mret 0.
End Transfers.

(** The disks, for the bus master. *)
#[export] Instance ata_bmdma `{!Driver, !DiskImage, !Win32} : BmdmaDisk := {|
  IdeDma.HardDiskBmdmaReadSector := HardDiskBmdmaReadSector;
  IdeDma.HardDiskBmdmaWriteSector := HardDiskBmdmaWriteSector;
  IdeDma.HardDiskBdmaComplete := HardDiskBdmaComplete
|}.

(** ** Addresses: the registers count the sectors *)

Lemma testbit_field w L n i : 0 <= w -> 0 <= n ->
  Z.testbit (((L >>. n) mod 2 ^ w) <<. n) i = (n <=? i) && (i <? n + w) && Z.testbit L i.
Proof.
  intros Hw Hn. destruct (Z.leb_spec n i) as [Hi|Hi]; cbn [andb].
  - rewrite Z.shiftl_spec, testbit_mod_pow2, Z.shiftr_spec by lia. replace (i - n + n) with i by lia.
    destruct (Z.ltb_spec (i - n) w), (Z.ltb_spec i (n + w)); (done || lia).
  - destruct (Z.neg_nonneg_cases i); [by apply Z.testbit_neg_r|]. by rewrite Z.shiftl_spec_low.
Qed.

Lemma land_ff x : x &. 0xff = x mod 2 ^ 8.
Proof. by rewrite <- Z.land_ones. Qed.
Lemma land_ffff x : x &. 0xffff = x mod 2 ^ 16.
Proof. by rewrite <- Z.land_ones. Qed.

(** The registers after a sector name the sector that follows. *)
Lemma lba48_address L r : 0 <= L < 2 ^ 48 -> nz r.(CONTROLLER.AddressMode) = true -> nz r.(CONTROLLER.Lba48) = true ->
  register_address (next_lba48 L r) = L.
Proof.
  intros HL Ha Hl. unfold register_address, next_lba48. cbn [upd_field CONTROLLER.AddressMode CONTROLLER.Lba48].
  rewrite Ha, Hl. cbn. rewrite !land_ff, land_ffff. apply Z.bits_inj'. intros i Hi.
  rewrite !Z.lor_spec, !testbit_field by lia. rewrite testbit_mod_pow2 by lia.
  destruct (Z.testbit L i) eqn:E; [|by rewrite !andb_false_r].
  assert (i < 48) as Hlt.
  { destruct (Z.lt_ge_cases i 48); [done|]. by rewrite (testbit_in_width 48 L i) in E by (done || lia). }
  rewrite !andb_true_r, !orb_true_iff, !andb_true_iff, !Z.leb_le, !Z.ltb_lt. lia.
Qed.

Lemma lba28_address L r : 0 <= L < 2 ^ 32 -> nz r.(CONTROLLER.AddressMode) = true -> nz r.(CONTROLLER.Lba48) = false ->
  register_address (next_lba28 L r) = L.
Proof.
  intros HL Ha Hl. unfold register_address, next_lba28. cbn [upd_field CONTROLLER.AddressMode CONTROLLER.Lba48].
  rewrite Ha, Hl. cbn. rewrite !land_ff, !land_ffff, !Z.mod_mod by lia. apply Z.bits_inj'. intros i Hi.
  rewrite !Z.lor_spec, !testbit_field by lia. rewrite testbit_mod_pow2 by lia.
  destruct (Z.testbit L i) eqn:E; [|by rewrite !andb_false_r].
  assert (i < 32) as Hlt.
  { destruct (Z.lt_ge_cases i 32); [done|]. by rewrite (testbit_in_width 32 L i) in E by (done || lia). }
  rewrite !andb_true_r, !orb_true_iff, !andb_true_iff, !Z.leb_le, !Z.ltb_lt. lia.
Qed.

(** The geometry that the program gives disks. *)
Definition chs_ok (dr : DRIVE.t) (r : CONTROLLER.t) : Prop :=
  1 <= r.(CONTROLLER.SectorNumber) <= HARDDISK_SECTORS /\ dr.(DRIVE.Spt) = HARDDISK_SPT /\ 1 < dr.(DRIVE.Heads)
  /\ 0 <= r.(CONTROLLER.HeadNumber) < 255 /\ is_u16 r.(CONTROLLER.CylinderNumber).

Lemma chs_address dr r : chs_ok dr r -> nz r.(CONTROLLER.AddressMode) = false ->
  register_address (next_chs dr r) = register_address r + 1.
Proof.
  unfold chs_ok, HARDDISK_SECTORS, HARDDISK_SPT, in_width. destruct r. cbn.
  intros (Hs & Hspt & Hheads & Hhead & Hcyl) Ha. unfold next_chs. cbn.
  rewrite Hspt, (u8_small (SectorNumber + 1)) by (unfold in_width; lia).
  destruct (Z.leb_spec (SectorNumber + 1) 63) as [Hle|Hgt].
  - unfold register_address. cbn. rewrite Ha. unfold HARDDISK_HEADS, HARDDISK_SECTORS.
    rewrite !(u64_small (_ - 1)), !u64_small by (unfold in_width; lia). lia.
  - rewrite (proj2 (Z.ltb_lt _ _)) by done. unfold register_address. cbn. rewrite Ha.
    rewrite (u8_small (HeadNumber + 1)) by (unfold in_width; lia). unfold HARDDISK_HEADS, HARDDISK_SECTORS.
    rewrite !(u64_small (_ - 1)), !u64_small by (unfold in_width; lia). lia.
Qed.

(** The mode's limit on the sectors. *)
Definition lba_limit (r : CONTROLLER.t) : Z := if nz r.(CONTROLLER.Lba48) then 2 ^ 48 else 2 ^ 32.
Definition can_advance (dr : DRIVE.t) : Prop :=
  let r := dr.(DRIVE.Controller) in
  if nz r.(CONTROLLER.AddressMode) then 0 <= register_address r /\ register_address r + 1 < lba_limit r
  else chs_ok dr r.

(** The counts of a command go down with each sector. *)
Definition count_sector (r : CONTROLLER.t) : CONTROLLER.t :=
  r <| CONTROLLER.SectorCount ::= fun v => u8 (v - 1) |> <| CONTROLLER.NumberOfSectors ::= fun v => u32 (v - 1) |>.

Lemma increment_address_eq L dr : increment_address L dr =
  let r := count_sector dr.(DRIVE.Controller) in
  if nz r.(CONTROLLER.AddressMode) then
    (dr <| DRIVE.Controller := if nz r.(CONTROLLER.Lba48) then next_lba48 (u64 (L + 1)) r else next_lba28 (u64 (L + 1)) r |>, u64 (L + 1))
  else (dr <| DRIVE.Controller := next_chs dr r |>, L).
Proof. done. Qed.

Lemma increment_next dr : can_advance dr ->
  let r := dr.(DRIVE.Controller) in
  let p := increment_address (register_address r) dr in
  register_address p.1.(DRIVE.Controller) = register_address r + 1 /\
  p.2 = (if nz r.(CONTROLLER.AddressMode) then register_address r + 1 else register_address r).
Proof.
  intros Hc r. unfold can_advance in Hc. fold r in Hc. rewrite increment_address_eq. fold r. cbv zeta.
  assert (register_address (count_sector r) = register_address r /\ nz (count_sector r).(CONTROLLER.AddressMode) = nz r.(CONTROLLER.AddressMode)
    /\ nz (count_sector r).(CONTROLLER.Lba48) = nz r.(CONTROLLER.Lba48) /\ (chs_ok dr r -> chs_ok dr (count_sector r)))
    as (Hsame & Hmode & Hlba & Hchs) by (destruct r; done).
  set (r1 := count_sector r) in *. clearbody r1. rewrite Hmode.
  destruct (nz r.(CONTROLLER.AddressMode)) eqn:Ha.
  - set (L := register_address r) in *. unfold lba_limit in Hc. rewrite Hlba.
    assert (u64 (L + 1) = L + 1) as -> by (apply u64_small; unfold in_width; destruct (nz r.(CONTROLLER.Lba48)); lia).
    split; [|done]. destruct (nz r.(CONTROLLER.Lba48)); [apply lba48_address|apply lba28_address]; (lia || done).
  - split; [|done]. rewrite <- Hsame. apply chs_address; [by apply Hchs|done].
Qed.

(** After a sector the address registers name the next one, in the two LBA modes
    and in the CHS mode; there the head counts on past the last head of a cylinder,
    which names the same sector as the first head of the next cylinder. *)
Theorem increment_address_next dr : can_advance dr ->
  let r := dr.(DRIVE.Controller) in
  let p := increment_address (register_address r) dr in
  register_address p.1.(DRIVE.Controller) = register_address r + 1 /\
  p.2 = (if nz r.(CONTROLLER.AddressMode) then register_address r + 1 else register_address r).
Proof. apply increment_next. Qed.

Definition example_drive : DRIVE.t :=
  DRIVE.zero <| DRIVE.DriveType := DRIVE_TYPE_DISK |> <| DRIVE.Heads := 16 |> <| DRIVE.Spt := 63 |> <| DRIVE.Cylinders := 100 |>
    <| DRIVE.Controller ::= fun r => r <| CONTROLLER.SectorNumber := 63 |> <| CONTROLLER.HeadNumber := 15 |> |>.

Lemma increment_address_next_witness :
  register_address example_drive.(DRIVE.Controller) = 1007 /\
  let r := example_drive.(DRIVE.Controller) in
  let p := increment_address (register_address r) example_drive in
  register_address p.1.(DRIVE.Controller) = register_address r + 1 /\
  p.2 = (if nz r.(CONTROLLER.AddressMode) then register_address r + 1 else register_address r).
Proof.
  split; [vm_compute; reflexivity|]. apply (increment_address_next example_drive).
  change (1 <= 63 <= 63 /\ 63 = 63 /\ 1 < 16 /\ 0 <= 15 < 255 /\ 0 <= 0 < 2 ^ 16). lia.
Defined.

(** ** Reading sectors *)

Lemma selected_run c ds s : select_of c s = Some ds -> selected c s = Ok (if nz ds then 1 else 0) s.
Proof.
  unfold select_of, selected, get_channel, at_, mbind, M_bind. destruct (nthZ _ c); [|done]. by intros [= ->].
Qed.

(** The registers that a transfer leaves alone. *)
Record same_mode (r r' : CONTROLLER.t) : Prop := {
  same_BufferSize : r'.(CONTROLLER.BufferSize) = r.(CONTROLLER.BufferSize);
  same_BufferIndex : r'.(CONTROLLER.BufferIndex) = r.(CONTROLLER.BufferIndex);
  same_MultipleSectors : r'.(CONTROLLER.MultipleSectors) = r.(CONTROLLER.MultipleSectors);
  same_AddressMode : r'.(CONTROLLER.AddressMode) = r.(CONTROLLER.AddressMode);
  same_Lba48 : r'.(CONTROLLER.Lba48) = r.(CONTROLLER.Lba48);
  same_Status : r'.(CONTROLLER.Status) = r.(CONTROLLER.Status);
  same_ErrorRegister : r'.(CONTROLLER.ErrorRegister) = r.(CONTROLLER.ErrorRegister);
  same_CurrentCommand : r'.(CONTROLLER.CurrentCommand) = r.(CONTROLLER.CurrentCommand);
  same_DisableIrq : r'.(CONTROLLER.DisableIrq) = r.(CONTROLLER.DisableIrq)
}.

#[export] Instance same_mode_preorder : PreOrder same_mode.
Proof. split; [by intros r; split|]. intros r1 r2 r3 [] []. split; congruence. Qed.

Lemma increment_same L dr : let p := increment_address L dr in
  same_mode dr.(DRIVE.Controller) p.1.(DRIVE.Controller) /\
  p.1.(DRIVE.Controller).(CONTROLLER.Buffer) = dr.(DRIVE.Controller).(CONTROLLER.Buffer) /\
  p.1.(DRIVE.Controller).(CONTROLLER.NumberOfSectors) = u32 (dr.(DRIVE.Controller).(CONTROLLER.NumberOfSectors) - 1) /\
  p.1.(DRIVE.DriveType) = dr.(DRIVE.DriveType).
Proof.
  rewrite increment_address_eq. destruct dr as [? ? ? r]. cbn. unfold next_chs, next_lba48, next_lba28.
  destruct r. cbn. destruct (nz AddressMode); [by destruct (nz Lba48)|].
  destruct (_ <=? _); [done|]. destruct (_ <? _); [done|]. by destruct (_ <? _).
Qed.

Section Reads.
Context `{!Driver, !DiskImage} (ready : Machine.t -> Prop) (size : Z) (sector : Z -> option (list Z)).
Context `{!DiskImageLaws ready size sector}.

(** The drive after the sector [l] was read to the offset [i] of its buffer. *)
Definition set_buffer (b : list Z) (dr : DRIVE.t) : DRIVE.t :=
  dr <| DRIVE.Controller ::= fun r => r <| CONTROLLER.Buffer := Some b |> |>.
Definition next_drive (dr : DRIVE.t) : DRIVE.t :=
  let p := increment_address (register_address dr.(DRIVE.Controller)) dr in p.1 <| DRIVE.NextLSector := p.2 |>.
Definition sector_step (i : Z) (l : list Z) (dr : DRIVE.t) : DRIVE.t :=
  next_drive (set_buffer (splice i l (default [] dr.(DRIVE.Controller).(CONTROLLER.Buffer))) dr).
Fixpoint transferred (i : Z) (ls : list (list Z)) (dr : DRIVE.t) : DRIVE.t :=
  match ls with
  | [] => dr
  | l :: ls => transferred (i + 512) ls (sector_step i l dr)
  end.

(** The registers can count [n] sectors from here. *)
Fixpoint can_advance_by (n : nat) (dr : DRIVE.t) : Prop :=
  match n with
  | O => True
  | S n => can_advance dr /\ can_advance_by n (next_drive dr)
  end.

Lemma length_concat_512 (ls : list (list Z)) : Forall (fun l => length l = 512%nat) ls ->
  Z.of_nat (length (concat ls)) = 512 * Z.of_nat (length ls).
Proof. induction 1 as [|l ls Hl _ IH]; [done|]. cbn [concat length]. rewrite length_app, Hl, !Nat2Z.inj_succ, Nat2Z.inj_add, IH. lia. Qed.

(** The sectors from [L] on are [ls]. *)
Fixpoint sectors_from (L : Z) (ls : list (list Z)) : Prop :=
  match ls with
  | [] => True
  | l :: ls => sector L = Some l /\ sectors_from (L + 1) ls
  end.

Lemma increment_buffer L b dr :
  increment_address L (set_buffer b dr) = (set_buffer b (increment_address L dr).1, (increment_address L dr).2).
Proof.
  rewrite !increment_address_eq. destruct dr as [? ? ? r]. unfold set_buffer. cbn. unfold next_chs, next_lba48, next_lba28.
  destruct r. cbn. destruct (nz AddressMode); [by destruct (nz Lba48)|].
  destruct (_ <=? _); [done|]. destruct (_ <? _); [done|]. by destruct (_ <? _).
Qed.

Lemma next_drive_buffer b dr : next_drive (set_buffer b dr) = set_buffer b (next_drive dr).
Proof. unfold next_drive. change (register_address _) with (register_address dr.(DRIVE.Controller)). by rewrite increment_buffer. Qed.

Lemma can_advance_by_buffer n b dr : can_advance_by n (set_buffer b dr) <-> can_advance_by n dr.
Proof. revert dr. induction n as [|n IH]; intros dr; [done|]. cbn [can_advance_by]. by rewrite next_drive_buffer, IH. Qed.

Lemma sectors_from_map L ls : map sector (seqZ L (Z.of_nat (length ls))) = map Some ls -> sectors_from L ls.
Proof.
  revert L. induction ls as [|l ls IH]; intros L; [done|]. cbn [length map sectors_from]. rewrite Nat2Z.inj_succ, seqZ_cons by lia.
  cbn [map]. intros [= Hl Hls]. split; [done|]. apply IH. rewrite Z.pred_succ in Hls. exact Hls.
Qed.

Lemma sectors_from_app L ls ls' : sectors_from L (ls ++ ls') ->
  sectors_from L ls /\ sectors_from (L + Z.of_nat (length ls)) ls'.
Proof.
  revert L. induction ls as [|l ls IH]; intros L; cbn [app sectors_from length].
  - by rewrite Z.add_0_r.
  - rewrite Nat2Z.inj_succ. intros [Hl [H1 H2]%IH]. split; [done|]. by replace (L + Z.succ (Z.of_nat (length ls))) with (L + 1 + Z.of_nat (length ls)) by lia.
Qed.

Lemma sectors_length L ls : sectors_from L ls -> Forall (fun l => length l = 512%nat) ls.
Proof.
  revert L. induction ls as [|l ls IH]; intros L; [constructor|]. intros [Hl Hls]. constructor; [by eapply disk_sector_length|by eapply IH].
Qed.

(** In the LBA modes only the limit of the mode counts. *)
Lemma can_advance_by_lba n dr : nz dr.(DRIVE.Controller).(CONTROLLER.AddressMode) = true ->
  0 <= register_address dr.(DRIVE.Controller) ->
  register_address dr.(DRIVE.Controller) + Z.of_nat n < lba_limit dr.(DRIVE.Controller) -> can_advance_by n dr.
Proof.
  revert dr. induction n as [|n IH]; intros dr Ha Hge Hlim; [done|]. rewrite Nat2Z.inj_succ in Hlim.
  assert (can_advance dr) as Hadv by (unfold can_advance; rewrite Ha; lia).
  split; [exact Hadv|].
  destruct (increment_same (register_address dr.(DRIVE.Controller)) dr) as (Hm & _). cbv zeta in Hm.
  destruct (increment_next dr Hadv) as [HL _].
  change (increment_address (register_address dr.(DRIVE.Controller)) dr).1.(DRIVE.Controller) with (next_drive dr).(DRIVE.Controller) in *.
  apply IH; [by rewrite (same_AddressMode _ _ Hm)|lia|]. unfold lba_limit in *. rewrite (same_Lba48 _ _ Hm). lia.
Qed.

(** The position of a sector in the image does not overflow. *)
Lemma address_small L : 0 <= L < size / 512 -> u64 (L * HARDDISK_SECTOR_SIZE) = L * 512.
Proof.
  intros HL. apply u64_small. pose proof disk_size_u64 as Hs. unfold in_width, HARDDISK_SECTOR_SIZE in *.
  pose proof (Z.mul_div_le size 512 ltac:(lia)). lia.
Qed.

Lemma address_run c ds dr s : ready s -> select_of c s = Some ds -> drive_at c (if nz ds then 1 else 0) s = Some dr ->
  HardDiskCalculateLogicalAddress c s =
  Ok (if size / 512 <=? register_address dr.(DRIVE.Controller) then NO_SECTOR else register_address dr.(DRIVE.Controller)) s.
Proof.
  intros Hr Hsel Hd. unfold HardDiskCalculateLogicalAddress. rewrite (run_bind _ _ _ _ _ (selected_run c ds s Hsel)).
  rewrite (run_bind _ _ _ _ _ (get_ctl_run _ _ dr s Hd)). by rewrite (run_bind _ _ _ _ _ (disk_size_run s Hr)).
Qed.

Lemma advance_run c ds dr s : select_of c s = Some ds -> let d := if nz ds then 1 else 0 in drive_at c d s = Some dr ->
  advance_sector c d (register_address dr.(DRIVE.Controller)) s = Ok tt (put_drive c d (next_drive dr) s).
Proof.
  intros Hsel d Hd. unfold advance_sector, HardDiskIncrementAddress.
  set (p := increment_address (register_address dr.(DRIVE.Controller)) dr).
  assert (HardDiskIncrementAddress c (register_address dr.(DRIVE.Controller)) s = Ok p.2 (put_drive c d p.1 s)) as Hrun.
  { unfold HardDiskIncrementAddress. rewrite (run_bind _ _ _ _ _ (selected_run c ds s Hsel)). fold d.
    rewrite (run_bind _ _ _ _ _ (get_drive_run c d dr s Hd)). cbv zeta. fold p.
    by rewrite (run_bind _ _ _ _ _ (upd_drive_run c d (fun _ => p.1) dr s Hd)). }
  rewrite (run_bind _ _ _ _ _ Hrun). rewrite (upd_drive_run c d _ p.1) by (by eapply drive_at_put).
  by rewrite put_put.
Qed.

(** The state of a transfer: a ready image, the selected drive and its buffer. *)
Record transfer_state (c ds : Z) (dr : DRIVE.t) (b : list Z) (s : Machine.t) : Prop := {
  ts_ready : ready s;
  ts_select : select_of c s = Some ds;
  ts_drive : drive_at c (if nz ds then 1 else 0) s = Some dr;
  ts_buffer : dr.(DRIVE.Controller).(CONTROLLER.Buffer) = Some b
}.

Lemma transfer_put c ds dr b dr' b' s : transfer_state c ds dr b s -> dr'.(DRIVE.Controller).(CONTROLLER.Buffer) = Some b' ->
  transfer_state c ds dr' b' (put_drive c (if nz ds then 1 else 0) dr' s).
Proof.
  intros [Hr Hsel Hd Hb] Hb'. split; [by eapply disk_ready_frame; [| |exact Hr]|by rewrite select_put|by eapply drive_at_put|done].
Qed.

Lemma transfer_image c ds dr b s s' : transfer_state c ds dr b s -> same_but_image s s' -> ready s' -> transfer_state c ds dr b s'.
Proof. intros [Hr Hsel Hd Hb] Hi Hr'. split; [done|by erewrite select_of_image|by erewrite drive_at_image|done]. Qed.

(** One turn of the loop: the sector goes to the buffer, or past its end. *)
Lemma read_step c ds dr b s fuel i l : let d := if nz ds then 1 else 0 in
  transfer_state c ds dr b s -> 0 <= i < dr.(DRIVE.Controller).(CONTROLLER.BufferSize) ->
  let L := register_address dr.(DRIVE.Controller) in
  sector L = Some l -> 0 <= L < size / 512 ->
  exists s1, same_but_image s s1 /\ ready s1 /\
    read_sectors (S fuel) c d i s =
      if fits i 512 b then read_sectors fuel c d (i + 512) (put_drive c d (sector_step i l dr) s1) else Fault OutOfBounds.
Proof.
  intros d Hts Hi L Hl HL. destruct (Hts) as [Hr Hsel Hd Hb]. cbn [read_sectors].
  rewrite (run_bind _ _ _ _ _ (get_ctl_run c d dr s Hd)), (proj2 (Z.ltb_lt _ _)) by lia.
  rewrite (run_bind _ _ _ _ _ (address_run c ds dr s Hr Hsel Hd)). fold L.
  rewrite (proj2 (Z.leb_gt _ _)), address_small by lia. unfold HARDDISK_SECTOR_SIZE. rewrite <- bind_assoc.
  destruct (disk_read_sector s L l (ctl_buf c d i) Hr ltac:(lia) Hl) as (s1 & v & Himg & Hr1 & Hrun).
  exists s1. split; [done|]. split; [done|].
  pose proof (disk_sector_length L l Hl) as Hlen.
  assert (fits i 512 b = fits i (Z.of_nat (length l)) b) as -> by (by rewrite Hlen).
  destruct (transfer_image c ds dr b s s1 Hts Himg Hr1) as [_ Hsel1 Hd1 _].
  unfold mbind at 1, M_bind at 1. rewrite Hrun. cbn [put]. destruct (fits i (Z.of_nat (length l)) b) eqn:Hfl.
  - rewrite (run_bind _ _ _ _ _ (store_run c d i l b dr s1 Hd1 Hb Hfl)). cbn [mret M_ret].
    fold (set_buffer (splice i l b) dr). set (dr1 := set_buffer (splice i l b) dr).
    assert (drive_at c d (put_drive c d dr1 s1) = Some dr1) as Hd2 by (by eapply drive_at_put).
    unfold L. change (register_address dr.(DRIVE.Controller)) with (register_address dr1.(DRIVE.Controller)).
    rewrite (run_bind _ _ _ _ _ (advance_run c ds dr1 (put_drive c d dr1 s1) ltac:(by rewrite select_put) Hd2)).
    rewrite put_put. fold d. unfold sector_step. by rewrite Hb.
  - rewrite (run_fault _ _ _ _ (store_overrun c d i l b dr s1 Hd1 Hb Hfl)). done.
Qed.

Lemma sector_step_spec i l dr b : dr.(DRIVE.Controller).(CONTROLLER.Buffer) = Some b -> can_advance dr ->
  let dr' := sector_step i l dr in
  same_mode dr.(DRIVE.Controller) dr'.(DRIVE.Controller) /\
  dr'.(DRIVE.Controller).(CONTROLLER.Buffer) = Some (splice i l b) /\
  register_address dr'.(DRIVE.Controller) = register_address dr.(DRIVE.Controller) + 1 /\
  dr'.(DRIVE.Controller).(CONTROLLER.NumberOfSectors) = u32 (dr.(DRIVE.Controller).(CONTROLLER.NumberOfSectors) - 1) /\
  dr'.(DRIVE.DriveType) = dr.(DRIVE.DriveType) /\
  (forall n, can_advance_by n (next_drive dr) -> can_advance_by n dr').
Proof.
  intros Hb Hadv. unfold sector_step. rewrite Hb. change (default [] (Some b)) with b. cbv zeta.
  set (dr1 := set_buffer (splice i l b) dr).
  destruct (increment_same (register_address dr1.(DRIVE.Controller)) dr1) as (Hm & Hbuf & Hn & Ht).
  split; [transitivity dr1.(DRIVE.Controller); [by split|exact Hm]|]. split; [exact Hbuf|].
  split; [exact (proj1 (increment_next dr1 Hadv))|]. split; [exact Hn|]. split; [exact Ht|].
  intros n. unfold dr1. rewrite next_drive_buffer. by rewrite can_advance_by_buffer.
Qed.

(** The loop reads the sectors from the registers' address on, one after the other. *)
Lemma read_sectors_run c ds : let d := if nz ds then 1 else 0 in forall ls fuel i dr s b,
  transfer_state c ds dr b s -> 0 <= i ->
  i + 512 * Z.of_nat (length ls) <= dr.(DRIVE.Controller).(CONTROLLER.BufferSize) ->
  fits i (512 * Z.of_nat (length ls)) b = true -> can_advance_by (length ls) dr ->
  sectors_from (register_address dr.(DRIVE.Controller)) ls -> 0 <= register_address dr.(DRIVE.Controller) ->
  register_address dr.(DRIVE.Controller) + Z.of_nat (length ls) <= size / 512 ->
  exists s1, same_but_image s s1 /\ ready s1 /\
    read_sectors (length ls + fuel) c d i s =
    read_sectors fuel c d (i + 512 * Z.of_nat (length ls)) (put_drive c d (transferred i ls dr) s1).
Proof.
  intros d ls fuel. induction ls as [|l ls IH]; intros i dr s b Hts Hi Hsize Hfit Hadv Hls HL HLs.
  - exists s. split; [apply same_but_image_refl|]. split; [apply Hts|]. cbn [length transferred Nat.add].
    rewrite put_drive_id by apply Hts. by rewrite Z.mul_0_r, Z.add_0_r.
  - cbn [length can_advance_by sectors_from Nat.add] in *. rewrite Nat2Z.inj_succ in *. destruct Hadv as [Hadv Hadvs].
    destruct Hls as [Hl Hls]. apply fits_spec in Hfit.
    destruct (read_step c ds dr b s (length ls + fuel) i l Hts ltac:(lia) Hl ltac:(lia)) as (s1 & Himg & Hr1 & Hrun).
    cbv zeta in Hrun. rewrite (proj2 (fits_spec i 512 b)) in Hrun by lia.
    destruct (sector_step_spec i l dr b (ts_buffer _ _ _ _ _ Hts) Hadv) as (Hm & Hb2 & HL2 & _ & _ & Hadv2).
    set (dr2 := sector_step i l dr) in *. pose proof (disk_sector_length _ l Hl) as Hlen.
    destruct (IH (i + 512) dr2 (put_drive c d dr2 s1) (splice i l b)) as (s2 & (v2 & m2 & ->) & Hr2 & Hrun2).
    + eapply transfer_put; [by eapply transfer_image|exact Hb2].
    + lia.
    + rewrite (same_BufferSize _ _ Hm). lia.
    + apply fits_spec. rewrite length_splice by (apply fits_spec; rewrite Hlen; change (Z.of_nat 512) with 512; lia). lia.
    + by apply Hadv2.
    + by rewrite HL2.
    + lia.
    + lia.
    + set (s3 := s1 <| Machine.vhdImage := v2 |> <| Machine.FilePointers := m2 |>).
      exists s3. split; [|split].
      * apply (same_but_image_trans s s1); [done|]. by exists v2, m2.
      * by eapply disk_ready_frame; [| |exact Hr2].
      * fold d in Hrun. rewrite Hrun, Hrun2. cbn [transferred]. fold dr2.
        change (put_drive c d (transferred (i + 512) ls dr2) (put_drive c d dr2 s1 <| Machine.vhdImage := v2 |> <| Machine.FilePointers := m2 |>))
          with (put_drive c d (transferred (i + 512) ls dr2) (put_drive c d dr2 s3)). rewrite put_put.
        f_equal. lia.
Qed.

(** The loop ends where the buffer's size says. *)
Lemma read_sectors_end c d dr s fuel i : drive_at c d s = Some dr -> dr.(DRIVE.Controller).(CONTROLLER.BufferSize) <= i ->
  read_sectors (S fuel) c d i s = Ok i s.
Proof.
  intros Hd Hi. cbn [read_sectors]. rewrite (run_bind _ _ _ _ _ (get_ctl_run c d dr s Hd)). by rewrite (proj2 (Z.ltb_ge _ _)).
Qed.

(** What the transfer leaves in the drive. *)
Lemma transferred_spec ls : forall i dr b, dr.(DRIVE.Controller).(CONTROLLER.Buffer) = Some b ->
  0 <= i -> fits i (512 * Z.of_nat (length ls)) b = true -> can_advance_by (length ls) dr -> Forall (fun l => length l = 512%nat) ls ->
  let dr' := transferred i ls dr in
  same_mode dr.(DRIVE.Controller) dr'.(DRIVE.Controller) /\
  dr'.(DRIVE.Controller).(CONTROLLER.Buffer) = Some (splice i (concat ls) b) /\
  register_address dr'.(DRIVE.Controller) = register_address dr.(DRIVE.Controller) + Z.of_nat (length ls) /\
  dr'.(DRIVE.Controller).(CONTROLLER.NumberOfSectors) =
    (if (0 <? Z.of_nat (length ls)) then u32 (dr.(DRIVE.Controller).(CONTROLLER.NumberOfSectors) - Z.of_nat (length ls))
     else dr.(DRIVE.Controller).(CONTROLLER.NumberOfSectors)) /\
  dr'.(DRIVE.DriveType) = dr.(DRIVE.DriveType).
Proof.
  induction ls as [|l ls IH]; intros i dr b Hb Hi Hfit Hadv Hls dr'.
  - unfold dr'. cbn. rewrite splice_nil, Z.add_0_r. by split.
  - cbn [length can_advance_by] in *. rewrite Nat2Z.inj_succ in *. destruct Hadv as [Hadv Hadvs].
    apply Forall_cons in Hls as [Hl Hls]. unfold dr'. cbn [transferred].
    destruct (sector_step_spec i l dr b Hb Hadv) as (Hm & Hb1 & HL1 & Hn & Ht & Hadv2).
    set (dr2 := sector_step i l dr) in *. apply fits_spec in Hfit.
    assert (fits i (Z.of_nat (length l)) b = true) as Hfl by (apply fits_spec; rewrite Hl; change (Z.of_nat 512) with 512; lia).
    destruct (IH (i + 512) dr2 (splice i l b)) as (Hm2 & Hb2 & HL & Hn2 & Ht2).
    + exact Hb1.
    + lia.
    + apply fits_spec. rewrite length_splice by done. lia.
    + by apply Hadv2.
    + done.
    + split; [|split; [|split; [|split]]].
      * by transitivity dr2.(DRIVE.Controller).
      * rewrite Hb2. f_equal. cbn [concat]. replace 512 with (Z.of_nat (length l)) by (by rewrite Hl). apply splice_app.
        apply fits_spec. rewrite Hl, Nat2Z.inj_add, (length_concat_512 ls Hls). change (Z.of_nat 512) with 512. lia.
      * rewrite HL, HL1. lia.
      * rewrite Hn2, Hn. rewrite (proj2 (Z.ltb_lt 0 (Z.succ _))) by lia. destruct (Z.ltb_spec 0 (Z.of_nat (length ls))).
        -- unfold u32. rewrite Zminus_mod_idemp_l. f_equal; lia.
        -- replace (Z.of_nat (length ls)) with 0 by lia. f_equal; lia.
      * by rewrite Ht2.
Qed.

(** A transfer that the buffer has room for. *)
Lemma HardDiskReadSector_run c ds dr b ls s : let d := if nz ds then 1 else 0 in
  transfer_state c ds dr b s ->
  dr.(DRIVE.Controller).(CONTROLLER.BufferSize) = 512 * Z.of_nat (length ls) -> fits 0 (512 * Z.of_nat (length ls)) b = true ->
  can_advance_by (length ls) dr -> sectors_from (register_address dr.(DRIVE.Controller)) ls ->
  0 <= register_address dr.(DRIVE.Controller) -> register_address dr.(DRIVE.Controller) + Z.of_nat (length ls) <= size / 512 ->
  exists s1, same_but_image s s1 /\ ready s1 /\
    HardDiskReadSector c s = Ok (512 * Z.of_nat (length ls)) (put_drive c d (transferred 0 ls dr) s1).
Proof.
  intros d Hts Hsize Hfit Hadv Hls HL HLs. destruct (Hts) as [Hr Hsel Hd Hb].
  assert (sector_fuel dr.(DRIVE.Controller) = length ls + 2)%nat as Hfuel
    by (unfold sector_fuel; rewrite Hsize, (Z.mul_comm 512), Z.div_mul by lia; lia).
  destruct (read_sectors_run c ds ls 2 0 dr s b Hts ltac:(lia) ltac:(lia) Hfit Hadv Hls HL HLs) as (s1 & Himg & Hr1 & Hrun).
  exists s1. split; [done|]. split; [done|].
  unfold HardDiskReadSector. rewrite (run_bind _ _ _ _ _ (selected_run c ds s Hsel)). fold d.
  rewrite (run_bind _ _ _ _ _ (get_ctl_run c d dr s Hd)), Hfuel. etransitivity; [exact Hrun|].
  assert (Forall (fun l => length l = 512%nat) ls) as Hlen by by eapply sectors_length.
  destruct (transferred_spec ls 0 dr b) as (Hm & _); try done.
  apply (read_sectors_end c d (transferred 0 ls dr)).
  - eapply drive_at_put. by erewrite drive_at_image.
  - rewrite (same_BufferSize _ _ Hm). lia.
Qed.

(** [HardDiskReadSector] fills the drive's buffer with the consecutive sectors
    that start at the registers' address, as many as [BufferSize] holds, moves the
    address registers past them, and touches nothing else of the machine but what
    the image keeps for itself. *)
Theorem HardDiskReadSector_reads c ds dr b ls s :
  transfer_state c ds dr b s ->
  dr.(DRIVE.Controller).(CONTROLLER.BufferSize) = 512 * Z.of_nat (length ls) -> fits 0 (512 * Z.of_nat (length ls)) b = true ->
  can_advance_by (length ls) dr -> sectors_from (register_address dr.(DRIVE.Controller)) ls ->
  0 <= register_address dr.(DRIVE.Controller) -> register_address dr.(DRIVE.Controller) + Z.of_nat (length ls) <= size / 512 ->
  exists s1 dr', same_but_image s s1 /\
    HardDiskReadSector c s = Ok (512 * Z.of_nat (length ls)) (put_drive c (if nz ds then 1 else 0) dr' s1) /\
    same_mode dr.(DRIVE.Controller) dr'.(DRIVE.Controller) /\
    dr'.(DRIVE.Controller).(CONTROLLER.Buffer) = Some (splice 0 (concat ls) b) /\
    register_address dr'.(DRIVE.Controller) = register_address dr.(DRIVE.Controller) + Z.of_nat (length ls).
Proof.
  intros Hts Hsize Hfit Hadv Hls HL HLs.
  destruct (HardDiskReadSector_run c ds dr b ls s Hts Hsize Hfit Hadv Hls HL HLs) as (s1 & Himg & _ & Hrun).
  destruct (transferred_spec ls 0 dr b) as (Hm & Hb' & HL' & _); try done; [apply Hts|by eapply sectors_length|].
  exists s1, (transferred 0 ls dr). by split.
Qed.

(** A sector that the buffer has no room for is written past its end. *)
Lemma HardDiskReadSector_overruns c ds dr b ls l s :
  transfer_state c ds dr b s ->
  512 * Z.of_nat (length ls) < dr.(DRIVE.Controller).(CONTROLLER.BufferSize) ->
  fits 0 (512 * Z.of_nat (length ls)) b = true -> fits (512 * Z.of_nat (length ls)) 512 b = false ->
  can_advance_by (length ls) dr -> sectors_from (register_address dr.(DRIVE.Controller)) (ls ++ [l]) ->
  0 <= register_address dr.(DRIVE.Controller) -> register_address dr.(DRIVE.Controller) + Z.of_nat (length ls) < size / 512 ->
  HardDiskReadSector c s = Fault OutOfBounds.
Proof.
  intros Hts Hsize Hfit Hover Hadv Hls HL HLs. destruct (Hts) as [Hr Hsel Hd Hb]. set (d := if nz ds then 1 else 0) in *.
  apply sectors_from_app in Hls as [Hls [Hl _]].
  assert (exists n, sector_fuel dr.(DRIVE.Controller) = length ls + S n)%nat as [n Hfuel].
  { exists (sector_fuel dr.(DRIVE.Controller) - length ls - 1)%nat. unfold sector_fuel.
    pose proof (Z.div_le_lower_bound dr.(DRIVE.Controller).(CONTROLLER.BufferSize) 512 (Z.of_nat (length ls)) ltac:(lia) ltac:(lia)). lia. }
  destruct (read_sectors_run c ds ls (S n) 0 dr s b Hts ltac:(lia) ltac:(lia) Hfit Hadv Hls HL ltac:(lia)) as (s1 & Himg & Hr1 & Hrun).
  unfold HardDiskReadSector. rewrite (run_bind _ _ _ _ _ (selected_run c ds s Hsel)). fold d.
  rewrite (run_bind _ _ _ _ _ (get_ctl_run c d dr s Hd)), Hfuel. etransitivity; [exact Hrun|].
  assert (Forall (fun l => length l = 512%nat) ls) as Hlen by by eapply sectors_length.
  destruct (transferred_spec ls 0 dr b) as (Hm & Hb' & HL' & _); try done.
  set (dr' := transferred 0 ls dr) in *. fold d.
  destruct (read_step c ds dr' (splice 0 (concat ls) b) (put_drive c d dr' s1) n (0 + 512 * Z.of_nat (length ls)) l) as (s2 & _ & _ & Hrun2).
  - eapply transfer_put; [by eapply transfer_image|done].
  - rewrite (same_BufferSize _ _ Hm). lia.
  - by rewrite HL'.
  - lia.
  - etransitivity; [exact Hrun2|].
    assert (fits (0 + 512 * Z.of_nat (length ls)) 512 (splice 0 (concat ls) b) = false) as ->; [|done].
    unfold fits in *. rewrite Z.add_0_l, length_splice; [done|]. by rewrite (length_concat_512 ls Hlen).
Qed.
End Reads.

(** The state after a dynamic image was opened, with a disk on the first channel. *)
Definition example_disk_drive (BufferSize : Z) : DRIVE.t :=
  DRIVE.zero <| DRIVE.DriveType := DRIVE_TYPE_DISK |> <| DRIVE.Heads := 16 |> <| DRIVE.Spt := 63 |>
    <| DRIVE.Controller ::= fun r => r <| CONTROLLER.AddressMode := 0x40 |> <| CONTROLLER.BufferSize := BufferSize |>
         <| CONTROLLER.Buffer := Some (replicate (Z.to_nat 8198) 0) |> |>.
Definition example_disk_state (BufferSize : Z) : Machine.t :=
  Machine.zero
  <| Machine.vhdImage := VHDIMAGE.zero <| VHDIMAGE.hFile := 1 |> <| VHDIMAGE.cbSize := 4096 |>
       <| VHDIMAGE.pBlockAllocationTable := Some [3] |> <| VHDIMAGE.cSectorsPerDataBlock := 8 |>
       <| VHDIMAGE.cDataBlockBitmapSectors := 1 |> |>
  <| Machine.AtaChannel ::= fun l =>
       updZ l 0 (ATA_CHANNEL.zero <| ATA_CHANNEL.IoAddr1 := 0x1f0 |> <| ATA_CHANNEL.IoAddr2 := 0x3f0 |> <| ATA_CHANNEL.Irq := 14 |>
                   <| ATA_CHANNEL.Drive := [example_disk_drive BufferSize; DRIVE.zero] |>) |>.

Lemma example_disk_laws :
  @DiskImageLaws (@vhd_disk (host_of example_image)) (image_ready example_image)
    (word_at example_image (footer_at example_image + 48) 8) (vhd_sector example_image).
Proof. apply vhd_disk_laws; [apply bytesb_spec| ..]; vm_compute; reflexivity. Qed.

Definition example_sectors : list (list Z) := [example_sector; example_sector2].

Lemma HardDiskReadSector_reads_witness :
  exists s1 dr', same_but_image (example_disk_state 1024) s1 /\
    @HardDiskReadSector (@vhd_disk (host_of example_image)) 0 (example_disk_state 1024)
      = Ok (512 * Z.of_nat (length example_sectors)) (put_drive 0 (if nz 0 then 1 else 0) dr' s1) /\
    same_mode (example_disk_drive 1024).(DRIVE.Controller) dr'.(DRIVE.Controller) /\
    dr'.(DRIVE.Controller).(CONTROLLER.Buffer) =
      Some (splice 0 (concat example_sectors) (replicate (Z.to_nat 8198) 0)) /\
    register_address dr'.(DRIVE.Controller) =
      register_address (example_disk_drive 1024).(DRIVE.Controller) + Z.of_nat (length example_sectors).
Proof.
  refine (@HardDiskReadSector_reads (@vhd_disk (host_of example_image)) (image_ready example_image)
    (word_at example_image (footer_at example_image + 48) 8) (vhd_sector example_image) example_disk_laws
    0 0 (example_disk_drive 1024) (replicate (Z.to_nat 8198) 0) example_sectors (example_disk_state 1024) _ _ _ _ _ _ _).
  - split; [split; [split|]| | |]; vm_compute; reflexivity.
  - vm_compute; reflexivity.
  - vm_compute; reflexivity.
  - apply can_advance_by_lba; vm_compute; (reflexivity || discriminate).
  - split; [|split; [|exact I]]; vm_compute; reflexivity.
  - vm_compute; discriminate.
  - vm_compute; discriminate.
Defined.
