(* ===== verification/Atapi.v ===== *)
(** harddisk.c: the packet commands of the CD-ROM drive.

    The guest writes a packet of 12 bytes into the drive's buffer through the data
    port; the first byte is the command.  The answer is built in the same buffer,
    or the command leaves the block from which the data port is to read. *)

From S2P Require Export HardDisk.

(** ** harddisk.h *)
Definition PACKET_SIZE : Z := 12.
Definition IDE_COMMAND_NOP : Z := 0x00.
Definition IDE_COMMAND_REQUEST_SENSE : Z := 0x03.
Definition IDE_COMMAND_MODE_SENSE : Z := 0x1A.
Definition IDE_COMMAND_START_STOP_UNIT : Z := 0x1B.
Definition SCSIOP_READ_CAPACITY : Z := 0x25.
Definition SCSIOP_SEEK : Z := 0x2B.
Definition SCSIOP_READ_SUB_CHANNEL : Z := 0x42.
Definition SCSIOP_READ_TOC : Z := 0x43.
Definition SCSIOP_GET_EVENT_STATUS : Z := 0x4A.
Definition SCSIOP_READ_DISK_INFORMATION : Z := 0x51.
Definition SCSIOP_MECHANISM_STATUS : Z := 0xBD.
Definition IDE_SENSE_NONE : Z := 0.
Definition IDE_SENSE_ILLEGAL_REQUEST : Z := 5.
Definition IDE_SENSE_UNIT_ATTENTION : Z := 6.
Definition IDE_ASC_ILLEGAL_OPCODE : Z := 0x20.
Definition IDE_ASC_LOGICAL_BLOCK_OOR : Z := 0x21.
Definition IDE_ASC_INV_FIELD_IN_CMD_PACKET : Z := 0x24.
Definition IDE_ASC_SAVING_PARAMETERS_NOT_SUPPORTED : Z := 0x39.

(** The characters of a C string. *)
Definition chars (s : string) : list Z := map (fun a => Z.of_N (Ascii.N_of_ascii a)) (String.list_ascii_of_string s).

Section Packet.
Context `{!Driver, !Win32}.

(** The two ways a command ends at once. *)
Definition atapi_fail (Channel Asc : Z) : IO unit :=
  HardDiskAtapiError Channel IDE_SENSE_ILLEGAL_REQUEST Asc ;; HardDiskRaiseInterrupt Channel.
Definition atapi_done (Channel : Z) : IO unit := HardDiskCommandNop Channel ;; HardDiskRaiseInterrupt Channel.

(** An answer that is in the buffer. *)
Definition atapi_answer (Channel Command ReqLength AllocLength : Z) : IO unit :=
  HardDiskInitAtapiCommand Channel Command ReqLength AllocLength ;; HardDiskReadySendAtapi Channel.

Definition mechanism_status (Channel d : Z) : IO unit :=
  transferLength ← Read16 Channel d 8;
  if transferLength =? 0 then done_
  else
    HardDiskInitAtapiCommand Channel SCSIOP_MECHANISM_STATUS 8 transferLength ;;
    store Channel d 0 [0; 0; 0; 0; 0; 1; 0; 0] ;;
    HardDiskReadySendAtapi Channel.

(** *** Mode sense *)

(** CD-ROM capabilities and mechanical status *)
Definition capabilities (Locked : Z) : list Z :=
  [0x2a; 0x12; 0x03; 0x00; 0x71; 3 <<. 5; 1 |. (if nz Locked then bit 1 else 0) |. bit 3 |. bit 5; 0x00;
   ((16 * 176) >>. 8) &. 0xff; (16 * 176) &. 0xff; 0; 2; (512 >>. 8) &. 0xff; 512 &. 0xff;
   ((16 * 176) >>. 8) &. 0xff; (16 * 176) &. 0xff; 0; 0; 0; 0].
Definition mode_capabilities (Channel d atapiCommand transferLength : Z) : IO unit :=
  HardDiskInitAtapiCommand Channel atapiCommand 28 transferLength ;;
  HardDiskInitModeSense Channel false 28 ;;
  r ← get_ctl Channel d;
  store Channel d 8 (capabilities r.(CONTROLLER.Locked)) ;;
  HardDiskReadySendAtapi Channel.
Definition mode_error_recovery (Channel atapiCommand transferLength : Z) : IO unit :=
  HardDiskInitAtapiCommand Channel atapiCommand 16 transferLength ;;
  HardDiskInitModeSense Channel true 8 ;;
  HardDiskReadySendAtapi Channel.

Definition mode_sense (Channel d atapiCommand : Z) : IO unit :=
  transferLength ← (if atapiCommand =? 0x5a then Read16 Channel d 7 else load_byte Channel d 4);
  b ← load_byte Channel d 2;
  let control := b >>. 6 in
  let page := b &. 0x3f in
  if control =? 0x0 then
    if page =? 0x01 then mode_error_recovery Channel atapiCommand transferLength
    else if page =? 0x2a then mode_capabilities Channel d atapiCommand transferLength
    else atapi_fail Channel IDE_ASC_INV_FIELD_IN_CMD_PACKET
  else if control =? 0x1 then atapi_fail Channel IDE_ASC_INV_FIELD_IN_CMD_PACKET
  else if control =? 0x2 then
    if page =? 0x2a then mode_capabilities Channel d atapiCommand transferLength
    else atapi_fail Channel IDE_ASC_INV_FIELD_IN_CMD_PACKET
  else atapi_fail Channel IDE_ASC_SAVING_PARAMETERS_NOT_SUPPORTED.

(** *** Inquiry and sense *)

Definition inquiry_data : list Z :=
  [0x05; 0x80; 0x00; 0x21; 31; 0x00; 0x00; 0x00] ++ chars "BOCHS   " ++ chars "Generic CD-ROM  " ++ chars "1.0 ".
Definition inquiry (Channel d atapiCommand : Z) : IO unit :=
  transferLength ← load_byte Channel d 4;
  HardDiskInitAtapiCommand Channel atapiCommand 36 transferLength ;;
  store Channel d 0 inquiry_data ;;
  HardDiskReadySendAtapi Channel.

Definition sense_data (v : SENSE_INFO.t) : list Z :=
  [0x70 |. bit 7; 0; v.(SENSE_INFO.sense_key)] ++ map (nth0 v.(SENSE_INFO.information)) (seqZ 0 4) ++ [17 - 7]
  ++ map (nth0 v.(SENSE_INFO.specific_inf)) (seqZ 0 4)
  ++ [v.(SENSE_INFO.asc); v.(SENSE_INFO.ascq); v.(SENSE_INFO.fruc)] ++ map (nth0 v.(SENSE_INFO.key_spec)) (seqZ 0 3).
Definition request_sense (Channel d : Z) : IO unit :=
  AllocLength ← load_byte Channel d 4;
  HardDiskInitAtapiCommand Channel IDE_COMMAND_REQUEST_SENSE 18 AllocLength ;;
  r ← get_ctl Channel d;
  store Channel d 0 (sense_data r.(CONTROLLER.Sense)) ;;
  when (r.(CONTROLLER.Sense).(SENSE_INFO.sense_key) =? IDE_SENSE_UNIT_ATTENTION) (
    upd_ctl Channel d (fun r => r <| CONTROLLER.Sense ::= fun v => v <| SENSE_INFO.sense_key := IDE_SENSE_NONE |> |>)) ;;
  HardDiskReadySendAtapi Channel.

(** *** The disc *)

(** [CdRomGetCapacity() - 1], on a ULONG64 *)
Definition last_block : IO Z := n ← CdRomGetCapacity; mret (u64 (n - 1)).

Definition read_capacity (Channel d : Z) : IO unit :=
  HardDiskInitAtapiCommand Channel SCSIOP_READ_CAPACITY 8 8 ;;
  temp ← last_block;
  store Channel d 0 (be_bytes temp ++ be_bytes 2048) ;;
  HardDiskReadySendAtapi Channel.

(** The tests of a read of [n] blocks at [temp], on DWORDs. *)
Definition out_of_range (temp n last : Z) : bool :=
  (u32 (n * 2048) <? n) || (last <? u32 (n * 2048)) || (last <? temp) || (u32 (temp + n) <? temp)
  || (u32 (u32 (temp + n) - 1) <? temp) || (u32 (u32 (n * 2048) + temp) <? temp).
(** The number of blocks, cut at the end of the disc. *)
Definition clip_blocks (temp n last : Z) : Z :=
  if last <? u64 (temp + n - 1) then u32 (u64 (last - temp + 1)) else n.

(** An error or an empty read is reported, and the command goes on. *)
Definition read_blocks (Channel d atapiCommand transferLength : Z) : IO unit :=
  transferLength ← (if transferLength =? 0 then Read32 Channel d 6 else mret transferLength);
  temp ← Read32 Channel d 2;
  last ← last_block;
  when (out_of_range temp transferLength last) (atapi_fail Channel IDE_ASC_LOGICAL_BLOCK_OOR) ;;
  let transferLength := clip_blocks temp transferLength last in
  when ((transferLength =? 0) || (last <? transferLength)) (atapi_done Channel) ;;
  HardDiskInitAtapiCommand Channel atapiCommand (u32 (transferLength * 2048)) (u32 (transferLength * 2048)) ;;
  upd_ctl Channel d (fun r => r <| CONTROLLER.BufferIndex := r.(CONTROLLER.BufferSize) |> <| CONTROLLER.LbAddress := temp |>
                                <| CONTROLLER.RemainingBlocks := transferLength |>).

(** The start of a read of [n] sectors in the sizes of READ CD. *)
Definition start_read_cd (Channel d atapiCommand temp n : Z) : IO unit :=
  r ← get_ctl Channel d;
  let bytes := u32 (n * r.(CONTROLLER.BufferSize)) in
  HardDiskInitAtapiCommand Channel atapiCommand bytes bytes ;;
  upd_ctl Channel d (fun r => r <| CONTROLLER.BufferIndex := r.(CONTROLLER.BufferSize) |>
                                <| CONTROLLER.RemainingBlocks := n |> <| CONTROLLER.LbAddress := temp |>).
Definition read_cd (Channel d atapiCommand : Z) : IO unit :=
  temp ← Read32 Channel d 2;
  b8 ← load_byte Channel d 8;
  b7 ← load_byte Channel d 7;
  b6 ← load_byte Channel d 6;
  let transferLength := b8 |. (b7 <<. 8) |. (b6 <<. 16) in
  if transferLength =? 0 then atapi_done Channel
  else
    b9 ← load_byte Channel d 9;
    let kind := b9 &. 0xf8 in
    if kind =? 0x00 then atapi_done Channel
    else if (kind =? 0xf8) || (kind =? 0x10) then
      when (kind =? 0xf8) (upd_ctl Channel d (fun r => r <| CONTROLLER.BufferSize := 2352 |>)) ;;
      start_read_cd Channel d atapiCommand temp transferLength
    else atapi_fail Channel IDE_ASC_INV_FIELD_IN_CMD_PACKET.

(** The format is two bits of byte 9; the formats 2 and 3 end the program unless
    times are asked for. *)
Definition read_toc (Channel d atapiCommand : Z) : IO unit :=
  transferLength ← Read16 Channel d 7;
  b9 ← load_byte Channel d 9;
  b1 ← load_byte Channel d 1;
  b6 ← load_byte Channel d 6;
  let Format := b9 >>. 6 in
  let Msf := (b1 >>. 1) &. 1 in
  if ((Format =? 2) || (Format =? 3)) && negb (nz Msf) then stop Exit
  else
    temp ← CdRomReadToc (ctl_buf Channel d 0) transferLength Msf b6 Format;
    if temp =? 0 then atapi_fail Channel IDE_ASC_INV_FIELD_IN_CMD_PACKET
    else atapi_answer Channel atapiCommand temp transferLength.

Definition seek_cd (Channel d : Z) : IO unit :=
  temp ← Read32 Channel d 2;
  last ← last_block;
  if last <? temp then atapi_fail Channel IDE_ASC_LOGICAL_BLOCK_OOR
  else
    _ ← CdRomSeek temp;
    upd_ctl Channel d (fun r => r <| CONTROLLER.LbAddress := temp |>) ;;
    atapi_done Channel.

Definition prevent_removal (Channel d : Z) : IO unit :=
  b4 ← load_byte Channel d 4;
  upd_ctl Channel d (fun r => r <| CONTROLLER.Locked := b4 &. 1 |>) ;;
  atapi_done Channel.

(** Byte 2 is cleared before its bit 6 is tested. *)
Definition read_sub_channel (Channel d atapiCommand : Z) : IO unit :=
  temp ← load_byte Channel d 3;
  transferLength ← Read16 Channel d 7;
  store Channel d 0 [0; 0; 0; 0] ;;
  b2 ← load_byte Channel d 2;
  if nz ((b2 >>. 6) &. 1) then
    if (temp =? 2) || (temp =? 3) then
      store Channel d 4 [temp] ;;
      when (temp =? 3) (store Channel d 5 [0x14; 1]) ;;
      store Channel d 8 [0] ;;
      atapi_answer Channel atapiCommand 24 transferLength
    else atapi_fail Channel IDE_ASC_INV_FIELD_IN_CMD_PACKET
  else atapi_answer Channel atapiCommand 4 transferLength.

Definition get_event_status (Channel d atapiCommand : Z) : IO unit :=
  transferLength ← Read16 Channel d 7;
  b1 ← load_byte Channel d 1;
  if b1 &? 1 then
    b4 ← load_byte Channel d 4;
    let media := b4 =? bit 4 in
    let temp := if media then (if transferLength <=? 4 then 4 else 8) else 4 in
    store Channel d 0 (if media then [0; 4; 4; bit 4; 0; bit 1; 0; 0] else [0; 0; bit 7 |. b4; bit 4]) ;;
    atapi_answer Channel atapiCommand temp temp
  else atapi_fail Channel IDE_ASC_INV_FIELD_IN_CMD_PACKET.

(** ** The packet

    The commands that only fail have the sense of the default case. *)
Definition packet_command (Channel d atapiCommand : Z) : IO unit :=
  if (atapiCommand =? IDE_COMMAND_NOP) || (atapiCommand =? IDE_COMMAND_START_STOP_UNIT) then atapi_done Channel
  else if atapiCommand =? SCSIOP_MECHANISM_STATUS then mechanism_status Channel d
  else if (atapiCommand =? IDE_COMMAND_MODE_SENSE) || (atapiCommand =? 0x5a) then mode_sense Channel d atapiCommand
  else if atapiCommand =? 0x12 then inquiry Channel d atapiCommand
  else if atapiCommand =? IDE_COMMAND_REQUEST_SENSE then request_sense Channel d
  else if atapiCommand =? SCSIOP_READ_CAPACITY then read_capacity Channel d
  else if atapiCommand =? SCSIOP_READ then
    transferLength ← Read16 Channel d 7; read_blocks Channel d atapiCommand transferLength
  else if atapiCommand =? SCSIOP_READ12 then read_blocks Channel d atapiCommand 0
  else if atapiCommand =? SCSIOP_READ_CD then read_cd Channel d atapiCommand
  else if atapiCommand =? SCSIOP_READ_TOC then read_toc Channel d atapiCommand
  else if atapiCommand =? SCSIOP_SEEK then seek_cd Channel d
  else if atapiCommand =? 0x1e then prevent_removal Channel d
  else if atapiCommand =? SCSIOP_READ_SUB_CHANNEL then read_sub_channel Channel d atapiCommand
  else if atapiCommand =? SCSIOP_READ_DISK_INFORMATION then atapi_fail Channel IDE_ASC_INV_FIELD_IN_CMD_PACKET
  else if atapiCommand =? SCSIOP_GET_EVENT_STATUS then get_event_status Channel d atapiCommand
  else atapi_fail Channel IDE_ASC_ILLEGAL_OPCODE.

(** A write of [Length] bytes at the index of the buffer. *)
Definition store_value (Channel d Value Length : Z) : IO unit :=
  r ← get_ctl Channel d;
  when ((Length =? 1) || (Length =? 2) || (Length =? 4))
    (store Channel d r.(CONTROLLER.BufferIndex) (le_bytes (Z.to_nat Length) Value)) ;;
  upd_ctl Channel d (fun r => r <| CONTROLLER.BufferIndex ::= fun v => u32 (v + Length) |>).

(** The data port while a packet is awaited. *)
Definition write_packet (Channel d Value Length : Z) : IO unit :=
  r ← get_ctl Channel d;
  if PACKET_SIZE <? r.(CONTROLLER.BufferIndex) then done_
  else
    store_value Channel d Value Length ;;
    r ← get_ctl Channel d;
    if r.(CONTROLLER.BufferIndex) <? PACKET_SIZE then done_
    else
      upd_ctl Channel d (fun r => r <| CONTROLLER.BufferSize := 2048 |>) ;;
      atapiCommand ← load_byte Channel d 0;
      packet_command Channel d atapiCommand.
End Packet.
