(* ===== verification/AtaPorts.v ===== *)
(** harddisk.c: the ports of the ATA channels, and the commands.

    A port belongs to the channel whose base it has; the register 7 starts a
    command, the register 0 moves the data.  A write to most registers reaches both
    drives of a channel, a read gives the selected drive's. *)

From S2P Require Export Atapi Cmos.

(** ** harddisk.h *)
Definition LBA_28 : Z := bit 0.
Definition LBA_48 : Z := bit 1.
Definition IDE_LBA_MODE : Z := bit 6.
Definition IDE_512_SECTOR_SIZE : Z := bit 5.
Definition IDE_DRIVE_SELECT : Z := bit 4.
Definition IDE_HEAD_NUMBER : Z := bit 4 - 1.
Definition IDE_COMMAND_ATAPI_RESET : Z := 0x08.
Definition IDE_COMMAND_READ_NATIVE_ADDRESS_EXT : Z := 0x27.
Definition IDE_COMMAND_WRITE : Z := 0x30.
Definition IDE_COMMAND_WRITE_EXT : Z := 0x34.
Definition IDE_COMMAND_WRITE_MULTIPLE_EXT : Z := 0x39.
Definition IDE_COMMAND_VERIFY : Z := 0x40.
Definition IDE_COMMAND_VERIFY_NO_RETRY : Z := 0x41.
Definition IDE_COMMAND_VERIFY_EXT : Z := 0x42.
Definition IDE_COMMAND_EXECUTE_DEVICE_DIAGNOSTIC : Z := 0x90.
Definition IDE_COMMAND_SET_DRIVE_PARAMETERS : Z := 0x91.
Definition IDE_COMMAND_ATAPI_IDENTIFY : Z := 0xA1.
Definition IDE_COMMAND_WRITE_MULTIPLE : Z := 0xC5.
Definition IDE_COMMAND_SET_MULTIPLE : Z := 0xC6.
Definition IDE_COMMAND_STANDBY_IMMEDIATE : Z := 0xE0.
Definition IDE_COMMAND_IDLE_IMMEDIATE : Z := 0xE1.
Definition IDE_COMMAND_CHECK_POWER : Z := 0xE5.
Definition IDE_COMMAND_FLUSH_CACHE : Z := 0xE7.
Definition IDE_COMMAND_FLUSH_CACHE_EXT : Z := 0xEA.
Definition IDE_COMMAND_IDENTIFY : Z := 0xEC.
Definition IDE_COMMAND_SET_FEATURE : Z := 0xEF.
Definition IDE_COMMAND_READ_NATIVE_ADDRESS : Z := 0xF8.
Definition IDE_SATA_FEATURE_NON_ZERO_DMA_BUFFER_OFFSET : Z := 0x1.
Definition IDE_SATA_FEATURE_DMA_SETUP_FIS_AUTO_ACTIVATE : Z := 0x2.

(** ** Ports *)

(** The first channel from [c] on that has the port, and the register. *)
Fixpoint find_port (chs : list ATA_CHANNEL.t) (c Address : Z) : option (Z * Z) :=
  match chs with
  | [] => None
  | ch :: chs =>
      if (Address &. 0xfff8) =? ch.(ATA_CHANNEL.IoAddr1) then Some (c, u32 (Address - ch.(ATA_CHANNEL.IoAddr1)))
      else if (Address &. 0xfff8) =? ch.(ATA_CHANNEL.IoAddr2) then Some (c, u32 (Address - ch.(ATA_CHANNEL.IoAddr2) + 0x10))
      else find_port chs (c + 1) Address
  end.
Definition port_of (chs : list ATA_CHANNEL.t) (Address : Z) : Z * Z :=
  default (0, u32 (Address - 0x3e0)) (find_port chs 0 Address).

(** [AtaChannel[c].Drive[0]] and [Drive[1]] *)
Definition upd_both (c : Z) (f : CONTROLLER.t -> CONTROLLER.t) : IO unit := upd_ctl c 0 f ;; upd_ctl c 1 f.

(** The bytes of the next group of sectors. *)
Definition group_size (r : CONTROLLER.t) : Z :=
  u32 ((if r.(CONTROLLER.MultipleSectors) <? r.(CONTROLLER.NumberOfSectors) then r.(CONTROLLER.MultipleSectors)
        else r.(CONTROLLER.NumberOfSectors)) * HARDDISK_SECTOR_SIZE).
Definition next_group (r : CONTROLLER.t) : CONTROLLER.t := r <| CONTROLLER.BufferSize := group_size r |>.

Definition is_write (Command : Z) : bool :=
  (Command =? IDE_COMMAND_WRITE) || (Command =? IDE_COMMAND_WRITE_MULTIPLE) || (Command =? IDE_COMMAND_WRITE_EXT)
  || (Command =? IDE_COMMAND_WRITE_MULTIPLE_EXT).
Definition is_read (Command : Z) : bool :=
  (Command =? IDE_COMMAND_READ) || (Command =? IDE_COMMAND_READ_WITHOUT_RETRIES) || (Command =? IDE_COMMAND_READ_MULTIPLE)
  || (Command =? IDE_COMMAND_READ_EXT) || (Command =? IDE_COMMAND_READ_MULTIPLE_EXT).

Section Commands.
Context `{!Driver, !DiskImage, !Win32}.

(** ** Writing the data port *)

(** What follows a group of sectors that was written. *)
Definition group_written (dr : DRIVE.t) : DRIVE.t :=
  let r := dr.(DRIVE.Controller) in
  let multiple := (r.(CONTROLLER.CurrentCommand) =? IDE_COMMAND_WRITE_MULTIPLE)
                  || (r.(CONTROLLER.CurrentCommand) =? IDE_COMMAND_WRITE_MULTIPLE_EXT) in
  let r := (if multiple then next_group r else r) <| CONTROLLER.BufferIndex := 0 |> in
  if nz r.(CONTROLLER.NumberOfSectors) then
    dr <| DRIVE.Controller := set_status (IDE_STATUS_BUSY |. IDE_STATUS_CORRECTED_DATA |. IDE_STATUS_ERROR)
                                (IDE_STATUS_DRIVE_RDY |. IDE_STATUS_DEV_REQ) r |>
  else
    dr <| DRIVE.Controller := set_status (IDE_STATUS_BUSY |. IDE_STATUS_DEV_REQ |. IDE_STATUS_ERROR |. IDE_STATUS_CORRECTED_DATA)
                                IDE_STATUS_DRIVE_RDY r |>
       <| DRIVE.CurrentLSector := dr.(DRIVE.NextLSector) |>.

Definition write_sector_data (Channel d Value Length : Z) : IO unit :=
  r ← get_ctl Channel d;
  if r.(CONTROLLER.BufferSize) <=? r.(CONTROLLER.BufferIndex) then stop Exit
  else
    store_value Channel d Value Length ;;
    r ← get_ctl Channel d;
    if r.(CONTROLLER.BufferIndex) <? r.(CONTROLLER.BufferSize) then done_
    else
      temp ← HardDiskWriteSector Channel;
      if temp =? 0 then done_
      else upd_drive Channel d group_written ;; HardDiskRaiseInterrupt Channel.

Definition write_data (Channel d Value Length : Z) : IO unit :=
  r ← get_ctl Channel d;
  if is_write r.(CONTROLLER.CurrentCommand) then write_sector_data Channel d Value Length
  else if r.(CONTROLLER.CurrentCommand) =? IDE_COMMAND_ATAPI_PACKET then write_packet Channel d Value Length
  else done_.

(** ** Commands

    [unless b c m] is the abort of a command whose condition [b] fails. *)
Definition unless (b : bool) (Channel : Z) (m : IO unit) : IO unit :=
  if b then m else HardDiskCommandAborted Channel.
Definition is_disk (dr : DRIVE.t) : bool := dr.(DRIVE.DriveType) =? DRIVE_TYPE_DISK.
Definition is_cdrom (dr : DRIVE.t) : bool := dr.(DRIVE.DriveType) =? DRIVE_TYPE_CDROM.

Definition finish_with (Channel d off on : Z) : IO unit :=
  upd_ctl Channel d (set_status off on) ;; HardDiskRaiseInterrupt Channel.

(** Recalibrate: a disk is never without a type, so the code's second test fails. *)
Definition cmd_recalibrate (Channel d : Z) : IO unit :=
  dr ← get_drive Channel d;
  unless (is_disk dr) Channel (
    upd_ctl Channel d (fun r => r <| CONTROLLER.ErrorRegister := 0 |> <| CONTROLLER.CylinderNumber := 0 |>) ;;
    finish_with Channel d (IDE_STATUS_BUSY |. IDE_STATUS_DEV_REQ) (IDE_STATUS_DRIVE_RDY |. IDE_STATUS_DEV_SEEK_COMP)).

(** [BufferSize] of a command: a sector, or a group; [false] when groups were not set up. *)
Definition set_group (multiple : bool) (r : CONTROLLER.t) : bool * CONTROLLER.t :=
  if multiple then
    if nz r.(CONTROLLER.MultipleSectors) then (true, next_group r) else (false, r)
  else (true, r <| CONTROLLER.BufferSize := HARDDISK_SECTOR_SIZE |>).

(** The common start of the commands that move sectors: [k] runs when the registers
    name a sector of the disk. *)
Definition with_sector (Channel d : Z) (k : IO unit) : IO unit :=
  temp ← HardDiskCalculateLogicalAddress Channel;
  unless (negb (temp =? NO_SECTOR)) Channel (
    upd_drive Channel d (fun dr => dr <| DRIVE.NextLSector := temp |>) ;; k).
Definition with_group (Channel d Ext : Z) (multiple : bool) (k : IO unit) : IO unit :=
  HardDiskLba48Transform Channel Ext ;;
  r ← get_ctl Channel d;
  let p := set_group multiple r in
  unless p.1 Channel (upd_ctl Channel d (fun _ => p.2) ;; with_sector Channel d k).

Definition no_address (r : CONTROLLER.t) : bool :=
  negb (nz r.(CONTROLLER.AddressMode)) && negb (nz r.(CONTROLLER.HeadNumber)) && negb (nz r.(CONTROLLER.CylinderNumber))
  && negb (nz r.(CONTROLLER.SectorNumber)).

Definition cmd_read (Channel d Value Ext : Z) : IO unit :=
  dr ← get_drive Channel d;
  unless (is_disk dr && negb (no_address dr.(DRIVE.Controller))) Channel (
    with_group Channel d Ext ((Value =? 0xC4) || (Value =? 0x29)) (
      upd_ctl Channel d (fun r =>
        set_status (IDE_STATUS_DEV_SEEK_COMP |. IDE_STATUS_DEV_REQ |. IDE_STATUS_CORRECTED_DATA) (IDE_STATUS_BUSY |. IDE_STATUS_DRIVE_RDY)
          (r <| CONTROLLER.CurrentCommand := Value |> <| CONTROLLER.ErrorRegister := 0 |> <| CONTROLLER.BufferIndex := 0 |>)) ;;
      temp ← HardDiskReadSector Channel;
      if temp =? 0 then HardDiskCommandAborted Channel
      else upd_ctl Channel d (set_status IDE_STATUS_BUSY IDE_STATUS_DEV_REQ))).

Definition cmd_verify (Channel d Ext : Z) : IO unit :=
  dr ← get_drive Channel d;
  unless (is_disk dr) Channel (
    HardDiskLba48Transform Channel Ext ;;
    finish_with Channel d (IDE_STATUS_BUSY |. IDE_STATUS_DEV_REQ) IDE_STATUS_DRIVE_RDY).

Definition cmd_write (Channel d Value Ext : Z) : IO unit :=
  dr ← get_drive Channel d;
  unless (is_disk dr) Channel (
    with_group Channel d Ext ((Value =? 0xC5) || (Value =? 0x39)) (
      upd_ctl Channel d (fun r =>
        set_status IDE_STATUS_BUSY (IDE_STATUS_DEV_SEEK_COMP |. IDE_STATUS_DEV_REQ)
          (r <| CONTROLLER.CurrentCommand := Value |> <| CONTROLLER.ErrorRegister := 0 |> <| CONTROLLER.BufferIndex := 0 |>)) ;;
      temp ← HardDiskWriteSector Channel;
      when (temp =? 0) (HardDiskCommandAborted Channel))).

Definition cmd_diagnostic (Channel d : Z) : IO unit :=
  HardDiskSetSignature Channel d ;;
  upd_ctl Channel d (fun r => r <| CONTROLLER.ErrorRegister := 0x01 |>) ;;
  finish_with Channel d IDE_STATUS_DEV_REQ 0.

Definition cmd_set_parameters (Channel d : Z) : IO unit :=
  dr ← get_drive Channel d;
  let r := dr.(DRIVE.Controller) in
  unless (is_disk dr && (r.(CONTROLLER.SectorCount) =? HARDDISK_SECTORS)) Channel (
    if r.(CONTROLLER.HeadNumber) =? 0 then stop Exit
    else
      unless (r.(CONTROLLER.HeadNumber) =? HARDDISK_HEADS - 1) Channel (
        finish_with Channel d (IDE_STATUS_BUSY |. IDE_STATUS_DEV_REQ) IDE_STATUS_DRIVE_RDY)).

Definition cmd_set_multiple (Channel d : Z) : IO unit :=
  dr ← get_drive Channel d;
  let n := dr.(DRIVE.Controller).(CONTROLLER.SectorCount) in
  unless (is_disk dr && (n <=? HARDDISK_SECTORS) && nz n) Channel (
    upd_ctl Channel d (fun r => r <| CONTROLLER.MultipleSectors := n |>) ;;
    finish_with Channel d (IDE_STATUS_BUSY |. IDE_STATUS_WRITE_FAULT |. IDE_STATUS_DEV_REQ) IDE_STATUS_DRIVE_RDY).

Definition cmd_power (Channel d Value : Z) : IO unit :=
  when (Value =? IDE_COMMAND_CHECK_POWER) (upd_ctl Channel d (fun r => r <| CONTROLLER.SectorCount := 0xff |>)) ;;
  finish_with Channel d (IDE_STATUS_BUSY |. IDE_STATUS_WRITE_FAULT |. IDE_STATUS_DEV_REQ) IDE_STATUS_DRIVE_RDY.

Definition cmd_seek (Channel d Value : Z) : IO unit :=
  dr ← get_drive Channel d;
  unless (is_disk dr) Channel (
    with_sector Channel d (
      upd_ctl Channel d (fun r =>
        set_status (IDE_STATUS_CORRECTED_DATA |. IDE_STATUS_DEV_REQ |. IDE_STATUS_DEV_SEEK_COMP) (IDE_STATUS_BUSY |. IDE_STATUS_DRIVE_RDY)
          (r <| CONTROLLER.CurrentCommand := Value |> <| CONTROLLER.ErrorRegister := 0 |>)))).

Definition cmd_read_dma (Channel d Value Ext : Z) : IO unit :=
  dr ← get_drive Channel d;
  present ← IdeBdmaPresent;
  unless (is_disk dr && nz present) Channel (
    HardDiskLba48Transform Channel Ext ;;
    with_sector Channel d (
      upd_ctl Channel d (fun r =>
        set_status (IDE_STATUS_CORRECTED_DATA |. IDE_STATUS_DEV_REQ |. IDE_STATUS_DEV_SEEK_COMP) (IDE_STATUS_BUSY |. IDE_STATUS_DRIVE_RDY)
          (r <| CONTROLLER.CurrentCommand := Value |> <| CONTROLLER.ErrorRegister := 0 |>)))).

Definition cmd_write_dma (Channel d Value Ext : Z) : IO unit :=
  dr ← get_drive Channel d;
  present ← IdeBdmaPresent;
  unless (is_disk dr && nz present) Channel (
    HardDiskLba48Transform Channel Ext ;;
    with_sector Channel d (
      upd_ctl Channel d (fun r =>
        set_status 0 (IDE_STATUS_DRIVE_RDY |. IDE_STATUS_DEV_SEEK_COMP |. IDE_STATUS_DEV_REQ)
          (r <| CONTROLLER.CurrentCommand := Value |>)))).

Definition native_address (last : Z) (r : CONTROLLER.t) : CONTROLLER.t :=
  if nz r.(CONTROLLER.Lba48) then next_lba48 last r
  else r <| CONTROLLER.HeadNumber := (last >>. 24) &. 0xf |> <| CONTROLLER.CylinderNumber := (last >>. 8) &. 0xffff |>
         <| CONTROLLER.SectorNumber := last &. 0xff |>.
Definition cmd_native_address (Channel d Ext : Z) : IO unit :=
  dr ← get_drive Channel d;
  unless (is_disk dr && nz dr.(DRIVE.Controller).(CONTROLLER.AddressMode)) Channel (
    HardDiskLba48Transform Channel Ext ;;
    size ← disk_size;
    upd_ctl Channel d (native_address (u64 (size / 512 - 1))) ;;
    finish_with Channel d 0 (IDE_STATUS_DRIVE_RDY |. IDE_STATUS_DEV_SEEK_COMP)).

(** ** Identification

    [DriveId] is an array of 256 words: [words] stores the given ones. *)
Definition words (l : list (Z * Z)) (d : list Z) : list Z :=
  fold_left (fun d p => alterZ p.1 (fun _ => u16 p.2) d) l d.
(** Two characters of a string per word, the first one in the high byte. *)
Definition char_words (first : Z) (n : nat) (l : list Z) : list (Z * Z) :=
  map (fun i => (first + i, (nth0 l (i * 2) <<. 8) |. nth0 l (i * 2 + 1))) (seqZ 0 (Z.of_nat n)).
Definition clear_words (first last : Z) : list (Z * Z) := map (fun i => (i, 0)) (seqZ first (last - first + 1)).

Definition serial_number : list Z := chars "BXHD00000           " ++ [0].
Definition disk_serial (Channel DriveSelect : Z) : list Z :=
  updZ (updZ serial_number 7 (Channel + 49)) 8 (DriveSelect + 49).
(** [strlen((char* )Model)] *)
Fixpoint c_strlen (l : list Z) : nat :=
  match l with [] => O | x :: l => if x =? 0 then O else S (c_strlen l) end.

Definition disk_capacity (dr : DRIVE.t) : Z := u64 (dr.(DRIVE.Cylinders) * dr.(DRIVE.Heads) * dr.(DRIVE.Spt)).
Definition cylinder_word (dr : DRIVE.t) : Z := if 16383 <? dr.(DRIVE.Cylinders) then 16383 else dr.(DRIVE.Cylinders).
(** The number of sectors that the words 60, 61 and 100 to 103 report. *)
Definition reported_sectors (size : Z) (dr : DRIVE.t) : Z :=
  if 0 <? size then size / HARDDISK_SECTOR_SIZE else disk_capacity dr.

Definition disk_description (Channel DriveSelect : Z) (dr : DRIVE.t) : list (Z * Z) :=
  [(0, 0x0040); (1, cylinder_word dr); (3, dr.(DRIVE.Heads)); (4, HARDDISK_SECTOR_SIZE * dr.(DRIVE.Spt));
   (5, HARDDISK_SECTOR_SIZE); (6, dr.(DRIVE.Spt))]
  ++ char_words 10 10 (disk_serial Channel DriveSelect)
  ++ [(20, 3); (21, 512); (22, 4)] ++ clear_words 23 26 ++ char_words 27 20 dr.(DRIVE.Model)
  ++ [(47, MAX_MULTIPLE_SECTORS); (48, 1); (49, bit 9 |. bit 8); (51, 0x200); (52, 0x200); (53, 0x07)].
Definition disk_sizes (n : Z) (dr : DRIVE.t) : list (Z * Z) :=
  [(54, cylinder_word dr); (55, dr.(DRIVE.Heads)); (56, dr.(DRIVE.Spt));
   (57, disk_capacity dr &. 0xffff); (58, disk_capacity dr >>. 16); (59, 0x0100 |. MAX_MULTIPLE_SECTORS);
   (60, n &. 0xffff); (61, (n >>. 16) &. 0xffff)].
Definition disk_modes (dr : DRIVE.t) : list (Z * Z) :=
  [(62, 0); (63, 0x07 |. (dr.(DRIVE.Controller).(CONTROLLER.MdmaMode) <<. 8)); (64, 0)]
  ++ map (fun i => (i, 120)) (seqZ 65 4).
Definition disk_features (n : Z) (dr : DRIVE.t) : list (Z * Z) :=
  let features := bit 14 |. bit 13 |. bit 12 |. bit 10 in
  [(80, 0x7E); (81, 0); (82, bit 14); (83, features); (84, bit 14); (85, bit 14); (86, features); (87, bit 14);
   (88, 0x3f |. (dr.(DRIVE.Controller).(CONTROLLER.UdmaMode) <<. 8)); (93, 1 |. bit 14 |. 0x2000);
   (100, n &. 0xffff); (101, n >>. 16); (102, n >>. 32); (103, n >>. 48); (106, 0); (117, 0); (118, 0)].
Definition disk_identity (Channel DriveSelect size : Z) (dr : DRIVE.t) : list Z :=
  let n := reported_sectors size dr in
  words (disk_description Channel DriveSelect dr ++ disk_sizes n dr ++ disk_modes dr ++ disk_features n dr) (replicate 256 0).

Definition cdrom_identity (DriveSelect : Z) (dr : DRIVE.t) : list Z :=
  words
    ([(0, (2 <<. 14) |. (5 <<. 8) |. (1 <<. 7) |. (2 <<. 5) |. (0 <<. 0))] ++ clear_words 1 9
     ++ char_words 10 10 (updZ serial_number 8 DriveSelect) ++ clear_words 20 22
     ++ char_words 23 4 (chars "ALPHA1  ") ++ char_words 27 (c_strlen dr.(DRIVE.Model) / 2) dr.(DRIVE.Model)
     ++ [(47, 0); (48, 1); (49, bit 9 |. bit 8); (50, 0); (51, 0); (52, 0); (53, 3)] ++ clear_words 54 62
     ++ [(63, 0x07 |. (dr.(DRIVE.Controller).(CONTROLLER.MdmaMode) <<. 8)); (64, 0x0001); (65, 0x00b4); (66, 0x00b4);
         (67, 0x012c); (68, 0x00b4); (69, 0); (70, 0); (71, 30); (72, 30); (73, 0); (74, 0); (75, 0)]
     ++ clear_words 76 79 ++ [(80, 0x1e)] ++ clear_words 81 88)
    (replicate 256 0).

(** The identity is made once, and again after a change of the transfer mode. *)
Definition set_identity (Channel d : Z) (identity : DRIVE.t -> list Z) : IO unit :=
  upd_drive Channel d (fun dr =>
    if nz dr.(DRIVE.IdentifySet) then dr
    else dr <| DRIVE.DriveId := identity dr |> <| DRIVE.IdentifySet := 1 |>).
Definition send_identity (Channel d : Z) : IO unit :=
  dr ← get_drive Channel d;
  store Channel d 0 (concat (map (fun w => [w &. 0xff; w >>. 8]) dr.(DRIVE.DriveId))) ;;
  HardDiskRaiseInterrupt Channel.
Definition identify_status (Value : Z) (r : CONTROLLER.t) : CONTROLLER.t :=
  set_status (IDE_STATUS_BUSY |. IDE_STATUS_CORRECTED_DATA |. IDE_STATUS_WRITE_FAULT)
    (IDE_STATUS_DRIVE_RDY |. IDE_STATUS_DEV_REQ |. IDE_STATUS_DEV_SEEK_COMP)
    (r <| CONTROLLER.CurrentCommand := Value |> <| CONTROLLER.ErrorRegister := 0 |>).

(** The index of the buffer is left as it was. *)
Definition cmd_identify (Channel d Value : Z) : IO unit :=
  dr ← get_drive Channel d;
  if negb (nz dr.(DRIVE.DriveType)) then HardDiskCommandAborted Channel
  else if is_cdrom dr then HardDiskCommandAborted Channel ;; HardDiskSetSignature Channel d
  else
    upd_ctl Channel d (identify_status Value) ;;
    ch ← get_channel Channel;
    size ← disk_size;
    set_identity Channel d (disk_identity Channel ch.(ATA_CHANNEL.DriveSelect) size) ;;
    send_identity Channel d.

Definition cmd_atapi_identify (Channel d Value : Z) : IO unit :=
  dr ← get_drive Channel d;
  unless (is_cdrom dr) Channel (
    upd_ctl Channel d (fun r => identify_status Value r <| CONTROLLER.BufferIndex := 0 |>) ;;
    ch ← get_channel Channel;
    set_identity Channel d (cdrom_identity ch.(ATA_CHANNEL.DriveSelect)) ;;
    send_identity Channel d).

(** ** Features, packets and resets *)

Definition feature_done (Channel d : Z) : IO unit :=
  finish_with Channel d 0 (IDE_STATUS_DRIVE_RDY |. IDE_STATUS_DEV_SEEK_COMP).
Definition set_mode (mdma udma : Z) (r : CONTROLLER.t) : CONTROLLER.t :=
  r <| CONTROLLER.MdmaMode := mdma |> <| CONTROLLER.UdmaMode := udma |>.
Definition set_transfer_mode (Channel d : Z) : IO unit :=
  r ← get_ctl Channel d;
  let n := r.(CONTROLLER.SectorCount) in
  let mode := n >>. 3 in
  let one := u8 (bit (n &. 7)) in
  (if (mode =? 0x00) || (mode =? 0x01) then upd_ctl Channel d (set_mode 0 0) ;; feature_done Channel d
   else if mode =? 0x04 then upd_ctl Channel d (set_mode one 0) ;; feature_done Channel d
   else if mode =? 0x08 then upd_ctl Channel d (set_mode 0 one) ;; feature_done Channel d
   else HardDiskCommandAborted Channel) ;;
  upd_drive Channel d (fun dr => dr <| DRIVE.IdentifySet := 0 |>).
Definition cmd_set_feature (Channel d : Z) : IO unit :=
  r ← get_ctl Channel d;
  let f := r.(CONTROLLER.Features) in
  if f =? 0x03 then set_transfer_mode Channel d
  else if bool_decide (f ∈ [0x02; 0x82; 0xAA; 0x55; 0xCC; 0x66]) then feature_done Channel d
  else done_.

Definition cmd_packet (Channel d Value : Z) : IO unit :=
  dr ← get_drive Channel d;
  unless (is_cdrom dr) Channel (
    upd_ctl Channel d (fun r => r <| CONTROLLER.PacketDma := r.(CONTROLLER.Features) &. IDE_SATA_FEATURE_NON_ZERO_DMA_BUFFER_OFFSET |>) ;;
    r ← get_ctl Channel d;
    unless (negb (r.(CONTROLLER.PacketDma) &? IDE_SATA_FEATURE_DMA_SETUP_FIS_AUTO_ACTIVATE)) Channel (
      upd_ctl Channel d (fun r =>
        set_status (IDE_STATUS_BUSY |. IDE_STATUS_WRITE_FAULT) IDE_STATUS_DEV_REQ
          (r <| CONTROLLER.SectorCount := 1 |> <| CONTROLLER.CurrentCommand := Value |> <| CONTROLLER.BufferIndex := 0 |>)))).

Definition cmd_atapi_reset (Channel d : Z) : IO unit :=
  dr ← get_drive Channel d;
  unless (is_cdrom dr) Channel (
    HardDiskSetSignature Channel d ;;
    upd_ctl Channel d (fun r =>
      set_status (IDE_STATUS_BUSY |. IDE_STATUS_WRITE_FAULT |. IDE_STATUS_CORRECTED_DATA |. IDE_STATUS_DEV_REQ) 0
        (r <| CONTROLLER.ErrorRegister ::= fun v => v &. ~. bit 7 |>))).

(** *** The command register

    The other commands, those of the code's long list among them, are aborted. *)
Definition run_command (Channel d Value : Z) : IO unit :=
  if Value =? 0x10 then cmd_recalibrate Channel d
  else if (Value =? IDE_COMMAND_READ_EXT) || (Value =? IDE_COMMAND_READ_MULTIPLE_EXT) then cmd_read Channel d Value 1
  else if (Value =? IDE_COMMAND_READ) || (Value =? 0x21) || (Value =? IDE_COMMAND_READ_MULTIPLE) then cmd_read Channel d Value 0
  else if Value =? IDE_COMMAND_VERIFY_EXT then cmd_verify Channel d 1
  else if (Value =? IDE_COMMAND_VERIFY) || (Value =? IDE_COMMAND_VERIFY_NO_RETRY) then cmd_verify Channel d 0
  else if (Value =? IDE_COMMAND_WRITE_EXT) || (Value =? IDE_COMMAND_WRITE_MULTIPLE_EXT) then cmd_write Channel d Value 1
  else if (Value =? IDE_COMMAND_WRITE) || (Value =? IDE_COMMAND_WRITE_MULTIPLE) then cmd_write Channel d Value 0
  else if Value =? IDE_COMMAND_EXECUTE_DEVICE_DIAGNOSTIC then cmd_diagnostic Channel d
  else if Value =? IDE_COMMAND_SET_DRIVE_PARAMETERS then cmd_set_parameters Channel d
  else if Value =? IDE_COMMAND_IDENTIFY then cmd_identify Channel d Value
  else if Value =? IDE_COMMAND_SET_FEATURE then cmd_set_feature Channel d
  else if Value =? IDE_COMMAND_SET_MULTIPLE then cmd_set_multiple Channel d
  else if Value =? IDE_COMMAND_ATAPI_PACKET then cmd_packet Channel d Value
  else if Value =? IDE_COMMAND_ATAPI_IDENTIFY then cmd_atapi_identify Channel d Value
  else if Value =? IDE_COMMAND_ATAPI_RESET then cmd_atapi_reset Channel d
  else if bool_decide (Value ∈ [IDE_COMMAND_CHECK_POWER; IDE_COMMAND_STANDBY_IMMEDIATE; IDE_COMMAND_IDLE_IMMEDIATE;
                                IDE_COMMAND_FLUSH_CACHE; IDE_COMMAND_FLUSH_CACHE_EXT]) then cmd_power Channel d Value
  else if Value =? IDE_COMMAND_SEEK then cmd_seek Channel d Value
  else if Value =? IDE_COMMAND_READ_DMA_EXT then cmd_read_dma Channel d Value 1
  else if Value =? IDE_COMMAND_READ_DMA then cmd_read_dma Channel d Value 0
  else if Value =? IDE_COMMAND_WRITE_DMA_EXT then cmd_write_dma Channel d Value 1
  else if Value =? IDE_COMMAND_WRITE_DMA then cmd_write_dma Channel d Value 0
  else if Value =? IDE_COMMAND_READ_NATIVE_ADDRESS_EXT then cmd_native_address Channel d 1
  else if Value =? IDE_COMMAND_READ_NATIVE_ADDRESS then cmd_native_address Channel d 0
  else HardDiskCommandAborted Channel.

Definition write_command (Channel d Value : Z) : IO unit :=
  if d =? 1 then done_
  else
    ch ← get_channel Channel;
    PicLowerIrq ch.(ATA_CHANNEL.Irq) ;;
    r ← get_ctl Channel d;
    if r.(CONTROLLER.Status) &? IDE_STATUS_BUSY then done_
    else
      upd_ctl Channel d (set_status IDE_STATUS_ERROR 0) ;;
      run_command Channel d (if (Value &. 0xf0) =? 0x10 then 0x10 else Value).

(** *** The device control register *)

Definition start_reset (r : CONTROLLER.t) : CONTROLLER.t :=
  set_status (IDE_STATUS_DRIVE_RDY |. IDE_STATUS_WRITE_FAULT |. IDE_STATUS_DEV_REQ |. IDE_STATUS_CORRECTED_DATA |. IDE_STATUS_ERROR)
    (IDE_STATUS_BUSY |. IDE_STATUS_DEV_SEEK_COMP)
    (r <| CONTROLLER.ResetInProgress := 1 |> <| CONTROLLER.ErrorRegister := 1 |> <| CONTROLLER.CurrentCommand := 0 |>
       <| CONTROLLER.BufferIndex := 0 |> <| CONTROLLER.MultipleSectors := 0 |> <| CONTROLLER.AddressMode := 0 |>
       <| CONTROLLER.DisableIrq := 0 |>).
Definition end_reset (r : CONTROLLER.t) : CONTROLLER.t :=
  set_status IDE_STATUS_BUSY IDE_STATUS_DRIVE_RDY r <| CONTROLLER.ResetInProgress := 0 |>.

Definition write_control (Channel d Value : Z) : IO unit :=
  prev ← get_ctl Channel d;
  upd_both Channel (fun r => r <| CONTROLLER.Reset := Value &. 0x04 |> <| CONTROLLER.DisableIrq := Value &. 0x02 |>) ;;
  r ← get_ctl Channel d;
  if negb (nz prev.(CONTROLLER.Reset)) && nz r.(CONTROLLER.Reset) then
    foreach (seqZ 0 2) (fun i =>
      upd_ctl Channel i start_reset ;;
      ch ← get_channel Channel;
      PicLowerIrq ch.(ATA_CHANNEL.Irq))
  else if nz r.(CONTROLLER.ResetInProgress) && negb (nz r.(CONTROLLER.Reset)) then
    foreach (seqZ 0 2) (fun i => upd_ctl Channel i end_reset ;; HardDiskSetSignature Channel d)
  else done_.

(** ** Writing a port *)

Definition write_device (Channel Value : Z) : IO unit :=
  upd_channel Channel (fun ch => ch <| ATA_CHANNEL.DriveSelect := Value &. IDE_DRIVE_SELECT |>) ;;
  upd_both Channel (fun r => r <| CONTROLLER.AddressMode := Value &. IDE_LBA_MODE |> <| CONTROLLER.HeadNumber := Value &. 0xf |>).

Definition write_register (Channel d Port Value Length : Z) : IO unit :=
  if Port =? 0 then write_data Channel d Value Length
  else if Port =? 1 then upd_both Channel (fun r => r <| CONTROLLER.Features := u8 Value |>)
  else if Port =? 2 then upd_both Channel (fun r => r <| CONTROLLER.SectorCount := u8 Value |>)
  else if Port =? 3 then upd_both Channel (fun r => r <| CONTROLLER.SectorNumber := u8 Value |>)
  else if Port =? 4 then
    upd_both Channel (fun r => r <| CONTROLLER.CylinderNumber ::= fun v => (v &. 0xff00) |. (Value &. 0xff) |>)
  else if Port =? 5 then
    upd_both Channel (fun r => r <| CONTROLLER.CylinderNumber ::= fun v => ((Value &. 0xff) <<. 8) |. (v &. 0xff) |>)
  else if Port =? 6 then write_device Channel Value
  else if Port =? 7 then write_command Channel d Value
  else if Port =? 0x16 then write_control Channel d Value
  else done_.

Definition HardDiskPortIoWriteHandler (Address Value Length : Z) : IO unit :=
  chs ← gets Machine.AtaChannel;
  let p := port_of chs Address in
  d ← selected p.1;
  write_register p.1 d p.2 Value Length.

(** ** Reading the data port *)

(** [*(DWORD* )&Buffer[BufferIndex]] and the like; another length reads nothing. *)
Definition load_value (Channel d Length : Z) : IO Z :=
  r ← get_ctl Channel d;
  if (Length =? 1) || (Length =? 2) || (Length =? 4) then
    l ← load Channel d r.(CONTROLLER.BufferIndex) Length; mret (le_read (Z.to_nat Length) l)
  else mret 0.
Definition move_index (Length : Z) (r : CONTROLLER.t) : CONTROLLER.t :=
  r <| CONTROLLER.BufferIndex ::= fun v => u32 (v + Length) |>.

(** What follows a group of sectors that was read. *)
Definition group_read (dr : DRIVE.t) : DRIVE.t :=
  let r := dr.(DRIVE.Controller) in
  let multiple := (r.(CONTROLLER.CurrentCommand) =? IDE_COMMAND_READ_MULTIPLE)
                  || (r.(CONTROLLER.CurrentCommand) =? IDE_COMMAND_READ_MULTIPLE_EXT) in
  let r := if multiple then next_group r else r in
  dr <| DRIVE.Controller :=
       set_status (IDE_STATUS_BUSY |. IDE_STATUS_WRITE_FAULT |. IDE_STATUS_ERROR |. IDE_STATUS_CORRECTED_DATA)
         (IDE_STATUS_DRIVE_RDY |. IDE_STATUS_DEV_SEEK_COMP) r |>
     <| DRIVE.CurrentLSector := dr.(DRIVE.NextLSector) |>.

Definition group_end (Channel d : Z) : IO unit :=
  upd_drive Channel d group_read ;;
  r ← get_ctl Channel d;
  if nz r.(CONTROLLER.NumberOfSectors) then
    upd_ctl Channel d (set_status 0 (IDE_STATUS_DEV_REQ |. IDE_STATUS_DEV_SEEK_COMP)) ;;
    _ ← HardDiskReadSector Channel;
    upd_ctl Channel d (fun r => r <| CONTROLLER.BufferIndex := 0 |>) ;;
    HardDiskRaiseInterrupt Channel
  else upd_ctl Channel d (set_status IDE_STATUS_DEV_REQ 0).

Definition read_sector_data (Channel d Length : Z) : IO Z :=
  r ← get_ctl Channel d;
  if r.(CONTROLLER.BufferSize) <=? r.(CONTROLLER.BufferIndex) then stop Exit
  else if r.(CONTROLLER.BufferSize) <? u32 (r.(CONTROLLER.BufferIndex) + Length) then mret 0
  else
    temp ← load_value Channel d Length;
    upd_ctl Channel d (move_index Length) ;;
    r ← get_ctl Channel d;
    (if r.(CONTROLLER.BufferIndex) <? r.(CONTROLLER.BufferSize) then done_ else group_end Channel d) ;;
    mret temp.

Definition read_identity_data (Channel d Length : Z) : IO Z :=
  upd_ctl Channel d (fun r =>
    let r := set_status (IDE_STATUS_BUSY |. IDE_STATUS_WRITE_FAULT |. IDE_STATUS_CORRECTED_DATA |. IDE_STATUS_ERROR)
               (IDE_STATUS_DRIVE_RDY |. IDE_STATUS_DEV_SEEK_COMP) r in
    if 512 <=? u32 (r.(CONTROLLER.BufferIndex) + Length) then set_status IDE_STATUS_DEV_REQ 0 r else r) ;;
  temp ← load_value Channel d Length;
  upd_ctl Channel d (move_index Length) ;;
  mret temp.

(** The next block of the disc, when the buffer is used up. *)
Definition next_packet_block (Channel d : Z) : IO unit :=
  r ← get_ctl Channel d;
  when ((r.(CONTROLLER.BufferIndex) =? r.(CONTROLLER.BufferSize)) && reads_blocks r.(CONTROLLER.Atapi).(ATAPI.AtapiCommand)) (
    temp ← CdRomReadBlock r.(CONTROLLER.LbAddress) (ctl_buf Channel d 0) r.(CONTROLLER.BufferSize);
    if negb (temp =? r.(CONTROLLER.BufferSize)) then stop Exit
    else upd_ctl Channel d (fun r => next_block r <| CONTROLLER.BufferIndex := 0 |>)).

(** The end of a group of bytes: another one follows, or the command is done. *)
Definition drq_done (r : CONTROLLER.t) : CONTROLLER.t :=
  let rest := u32 (r.(CONTROLLER.Atapi).(ATAPI.TotalBytesRemaining) - r.(CONTROLLER.Atapi).(ATAPI.DrqBytes)) in
  let r := set_status IDE_STATUS_DEV_REQ 0 r <| CONTROLLER.DrqIndex := 0 |>
             <| CONTROLLER.Atapi ::= fun a => a <| ATAPI.TotalBytesRemaining := rest |> |> in
  if 0 <? rest then
    let limit := if rest <? r.(CONTROLLER.CylinderNumber) then rest else r.(CONTROLLER.CylinderNumber) in
    set_reason c_d i_o (set_status IDE_STATUS_BUSY IDE_STATUS_DEV_REQ r)
    <| CONTROLLER.CylinderNumber := limit |> <| CONTROLLER.Atapi ::= fun a => a <| ATAPI.DrqBytes := limit |> |>
  else
    set_reason rel (i_o |. c_d)
      (set_status (IDE_STATUS_BUSY |. IDE_STATUS_DEV_REQ |. IDE_STATUS_ERROR) IDE_STATUS_DRIVE_RDY r).

Definition read_packet_data (Channel d Length : Z) : IO Z :=
  next_packet_block Channel d ;;
  r ← get_ctl Channel d;
  if r.(CONTROLLER.BufferSize) <? r.(CONTROLLER.BufferIndex) then mret 0
  else
    temp ← load_value Channel d Length;
    upd_ctl Channel d (fun r => move_index Length r <| CONTROLLER.DrqIndex ::= fun v => u32 (v + Length) |>) ;;
    r ← get_ctl Channel d;
    when (r.(CONTROLLER.Atapi).(ATAPI.DrqBytes) <=? r.(CONTROLLER.DrqIndex)) (
      upd_ctl Channel d drq_done ;; HardDiskRaiseInterrupt Channel) ;;
    mret temp.

Definition read_data (Channel d Length : Z) : IO Z :=
  r ← get_ctl Channel d;
  let cmd := r.(CONTROLLER.CurrentCommand) in
  if negb (r.(CONTROLLER.Status) &? IDE_STATUS_DEV_REQ) then mret 0
  else if is_read cmd then read_sector_data Channel d Length
  else if (cmd =? IDE_COMMAND_IDENTIFY) || (cmd =? IDE_COMMAND_ATAPI_IDENTIFY) then read_identity_data Channel d Length
  else if cmd =? IDE_COMMAND_ATAPI_PACKET then read_packet_data Channel d Length
  else mret 0.

(** ** Reading a port *)

(** The alternate status register counts its reads: each eleventh shows the index pulse. *)
Definition index_pulse (r : CONTROLLER.t) : CONTROLLER.t :=
  let n := u8 (r.(CONTROLLER.IndexPulse) + 1) in
  if 10 <? n then set_status 0 IDE_STATUS_INDEX_PULSE (r <| CONTROLLER.IndexPulse := 0 |>)
  else set_status IDE_STATUS_INDEX_PULSE 0 (r <| CONTROLLER.IndexPulse := n |>).

Definition device_register (DriveSelect : Z) (r : CONTROLLER.t) : Z :=
  bit 7 |. r.(CONTROLLER.AddressMode) |. IDE_512_SECTOR_SIZE |. DriveSelect |. (r.(CONTROLLER.HeadNumber) &. IDE_HEAD_NUMBER).

Definition read_register (Channel d Port Length : Z) : IO Z :=
  dr ← get_drive Channel d;
  let r := dr.(DRIVE.Controller) in
  let present := nz dr.(DRIVE.DriveType) in
  if Port =? 0 then read_data Channel d Length
  else if Port =? 1 then mret (if present then r.(CONTROLLER.ErrorRegister) else 0)
  else if Port =? 2 then mret (if present then r.(CONTROLLER.SectorCount) else 0)
  else if Port =? 3 then mret (if present then r.(CONTROLLER.SectorNumber) else 0)
  else if Port =? 4 then mret (if present then r.(CONTROLLER.CylinderNumber) &. 0xff else 0)
  else if Port =? 5 then mret (if present then (r.(CONTROLLER.CylinderNumber) >>. 8) &. 0xff else 0)
  else if Port =? 6 then ch ← get_channel Channel; mret (device_register ch.(ATA_CHANNEL.DriveSelect) r)
  else if Port =? 7 then
    if present then
      ch ← get_channel Channel;
      PicLowerIrq ch.(ATA_CHANNEL.Irq) ;;
      r ← get_ctl Channel d; mret r.(CONTROLLER.Status)
    else mret 0
  else if Port =? 0x16 then
    if present then upd_ctl Channel d index_pulse ;; r ← get_ctl Channel d; mret r.(CONTROLLER.Status) else mret 0
  else if Port =? 0x17 then mret 0xff
  else mret 0.

Definition HardDiskPortIoReadHandler (Address Length : Z) : IO Z :=
  chs ← gets Machine.AtaChannel;
  let p := port_of chs Address in
  d ← selected p.1;
  read_register p.1 d p.2 Length.

(** ** The timer of the seeks, which is never registered *)

Definition seek_done (r : CONTROLLER.t) : CONTROLLER.t :=
  set_status (IDE_STATUS_BUSY |. IDE_STATUS_CORRECTED_DATA) (IDE_STATUS_DRIVE_RDY |. IDE_STATUS_DEV_SEEK_COMP |. IDE_STATUS_DEV_REQ)
    (r <| CONTROLLER.ErrorRegister := 0 |>).
Definition seek_timer_channel (i : Z) : IO unit :=
  d ← selected i;
  dr ← get_drive i d;
  let r := dr.(DRIVE.Controller) in
  let cmd := r.(CONTROLLER.CurrentCommand) in
  if is_disk dr then
    if is_read cmd || (cmd =? IDE_COMMAND_SEEK) then
      upd_ctl i d (fun r => seek_done r <| CONTROLLER.BufferIndex := 0 |>) ;; HardDiskRaiseInterrupt i
    else if (cmd =? IDE_COMMAND_READ_DMA_EXT) || (cmd =? IDE_COMMAND_READ_DMA) then
      upd_ctl i d seek_done ;; IdeStartTransfer i
    else done_
  else if is_cdrom dr && reads_blocks r.(CONTROLLER.Atapi).(ATAPI.AtapiCommand) then HardDiskReadySendAtapi i
  else done_.
Definition HardDiskSeekTimer : IO unit := foreach (seqZ 0 2) seek_timer_channel.

(** ** Initialisation *)

Definition register_ports (base n : Z) : IO unit :=
  foreach (seqZ base n) (fun a => RegisterPortIoHandler a (Some cb_HardDisk) (Some cb_HardDisk)).
Definition init_channel (c IoAddr1 IoAddr2 Irq : Z) : IO unit :=
  upd_channel c (fun ch => ch <| ATA_CHANNEL.IoAddr1 := IoAddr1 |> <| ATA_CHANNEL.IoAddr2 := IoAddr2 |> <| ATA_CHANNEL.Irq := Irq |>).
Definition init_controller (r : CONTROLLER.t) : CONTROLLER.t :=
  r <| CONTROLLER.Status := IDE_STATUS_DRIVE_RDY |. IDE_STATUS_DEV_SEEK_COMP |> <| CONTROLLER.ErrorRegister := 1 |>
    <| CONTROLLER.SectorCount := 1 |> <| CONTROLLER.SectorNumber := 1 |>.
(** The buffers have 6 and 4 bytes more than [BufferTotalSize]. *)
Definition init_drive (c DriveType total bytes : Z) : IO unit :=
  upd_drive c 0 (fun dr => dr <| DRIVE.DriveType := DriveType |>
    <| DRIVE.Controller ::= fun r => r <| CONTROLLER.BufferTotalSize := total |>
                                       <| CONTROLLER.Buffer := Some (replicate (Z.to_nat bytes) 0) |> |>).

(** The translation the firmware is told to use. *)
Definition ata_translation (Cylinders : Z) : Z :=
  if Cylinders <=? 1024 then 0
  else if u32 (u32 Cylinders * HARDDISK_HEADS) <=? 131072 then 2 else 1.

(** The geometry of the first disk, in the firmware's registers. *)
Definition init_cmos (Cylinders : Z) : IO unit :=
  CmosSetRegister 0x12 0 ;;
  v ← CmosGetRegister 0x12;
  CmosSetRegister 0x12 ((v &. 0x0f) |. 0xf0) ;;
  CmosSetRegister 0x19 47 ;;
  CmosSetRegister 0x1b (Cylinders &. 0x00ff) ;;
  CmosSetRegister 0x1c ((Cylinders &. 0xff00) >>. 8) ;;
  CmosSetRegister 0x1d HARDDISK_HEADS ;;
  CmosSetRegister 0x1e 0xff ;;
  CmosSetRegister 0x1f 0xff ;;
  CmosSetRegister 0x20 (0xc0 |. (1 <<. 3)) ;;
  v ← CmosGetRegister 0x1b;
  CmosSetRegister 0x21 v ;;
  v ← CmosGetRegister 0x1c;
  CmosSetRegister 0x22 v ;;
  CmosSetRegister 0x23 HARDDISK_SECTORS ;;
  v ← CmosGetRegister 0x39;
  CmosSetRegister 0x39 (v |. ata_translation Cylinders).

Definition init_geometry : IO Z :=
  size ← disk_size;
  let Cylinders := size / (HARDDISK_HEADS * HARDDISK_SECTORS * HARDDISK_SECTOR_SIZE) in
  upd_drive 0 0 (fun dr => dr <| DRIVE.Cylinders := Cylinders |> <| DRIVE.Heads := HARDDISK_HEADS |>
    <| DRIVE.Spt := HARDDISK_SPT |> <| DRIVE.CurrentLSector := size / HARDDISK_SECTOR_SIZE |>) ;;
  mret Cylinders.

(** [open] is [VhdInitializeHardDisk("freeBSD.vhd")]. *)
Definition HardDiskInitialize (open : IO unit) : IO unit :=
  modify (fun s => s <| Machine.AtaChannel := replicate 4 ATA_CHANNEL.zero |>) ;;
  init_channel 0 0x1f0 0x3f0 14 ;;
  init_drive 0 DRIVE_TYPE_DISK (MAX_MULTIPLE_SECTORS * HARDDISK_SECTOR_SIZE) (MAX_MULTIPLE_SECTORS * HARDDISK_SECTOR_SIZE + 6) ;;
  register_ports 0x1f0 8 ;;
  register_ports 0x3f0 8 ;;
  open ;;
  Cylinders ← init_geometry;
  upd_ctl 0 0 init_controller ;;
  init_cmos Cylinders ;;
  init_channel 1 0x170 0x370 15 ;;
  init_drive 1 DRIVE_TYPE_CDROM 2352 2356 ;;
  register_ports 0x170 8 ;;
  register_ports 0x370 8 ;;
  upd_ctl 1 0 init_controller ;;
  init_channel 2 0x1e8 0x3e0 0 ;;
  register_ports 0x1e8 8 ;;
  register_ports 0x3e0 8 ;;
  init_channel 3 0x168 0x360 0 ;;
  register_ports 0x168 8 ;;
  register_ports 0x360 16 ;;
  CmosSetRegister 0x3a 0 ;;
  CmosSetRegister 0x3b 0.
End Commands.

(** ** Runs of the commands with the interrupts disabled

    The driver polls the status register: the drive's interrupts are disabled. *)

Definition polls (dr : DRIVE.t) : bool := nz dr.(DRIVE.Controller).(CONTROLLER.DisableIrq).

Section Polled.
Context `{!Driver, !DiskImage, !Win32} (ready : Machine.t -> Prop) (size : Z) (sector : Z -> option (list Z)).
Context `{!DiskImageLaws ready size sector}.

Lemma raise_polled c ds dr s : select_of c s = Some ds -> drive_at c (if nz ds then 1 else 0) s = Some dr -> polls dr = true ->
  HardDiskRaiseInterrupt c s = Ok tt s.
Proof.
  intros Hsel Hd Hp. unfold HardDiskRaiseInterrupt. rewrite (run_bind _ _ _ _ _ (selected_run c ds s Hsel)).
  rewrite (run_bind _ _ _ _ _ (get_ctl_run _ _ dr s Hd)). unfold polls in Hp. by rewrite Hp.
Qed.

(** The drive when READ starts to move sectors. *)
Definition read_registers (Value Ext : Z) (multiple : bool) (r : CONTROLLER.t) : CONTROLLER.t :=
  set_status (IDE_STATUS_DEV_SEEK_COMP |. IDE_STATUS_DEV_REQ |. IDE_STATUS_CORRECTED_DATA) (IDE_STATUS_BUSY |. IDE_STATUS_DRIVE_RDY)
    ((set_group multiple (lba48_transform Ext r)).2
     <| CONTROLLER.CurrentCommand := Value |> <| CONTROLLER.ErrorRegister := 0 |> <| CONTROLLER.BufferIndex := 0 |>).
Definition start_read (Value Ext : Z) (multiple : bool) (dr : DRIVE.t) : DRIVE.t :=
  dr <| DRIVE.NextLSector := register_address (lba48_transform Ext dr.(DRIVE.Controller)) |>
     <| DRIVE.Controller ::= read_registers Value Ext multiple |>.

Lemma set_group_address multiple r : register_address (set_group multiple r).2 = register_address r.
Proof. unfold set_group. destruct multiple; [|by destruct r]. by destruct (nz _); destruct r. Qed.

Lemma sector_not_none L : 0 <= L < size / 512 -> (L =? NO_SECTOR) = false.
Proof.
  intros HL. apply Z.eqb_neq. pose proof disk_size_u64 as Hs. unfold in_width, NO_SECTOR in *.
  pose proof (Z.div_lt_upper_bound size 512 (2 ^ 64) ltac:(lia) ltac:(lia)). pose proof (Z.mul_div_le size 512 ltac:(lia)). lia.
Qed.

Lemma cmd_read_run c ds dr b s Value Ext : let d := if nz ds then 1 else 0 in
  let multiple := (Value =? 0xC4) || (Value =? 0x29) in
  let L := register_address (lba48_transform Ext dr.(DRIVE.Controller)) in
  transfer_state ready c ds dr b s -> is_disk dr = true -> no_address dr.(DRIVE.Controller) = false ->
  (set_group multiple (lba48_transform Ext dr.(DRIVE.Controller))).1 = true -> 0 <= L < size / 512 ->
  cmd_read c d Value Ext s =
  (temp ← HardDiskReadSector c;
   if temp =? 0 then HardDiskCommandAborted c else upd_ctl c d (set_status IDE_STATUS_BUSY IDE_STATUS_DEV_REQ))
  (put_drive c d (start_read Value Ext multiple dr) s).
Proof.
  intros d multiple L [Hr Hsel Hd Hb] Hdisk Haddr Hgroup HL. unfold cmd_read.
  rewrite (run_bind _ _ _ _ _ (get_drive_run c d dr s Hd)), Hdisk, Haddr. cbn [andb negb unless]. unfold with_group. fold multiple.
  set (dr1 := dr <| DRIVE.Controller ::= lba48_transform Ext |>).
  assert (HardDiskLba48Transform c Ext s = Ok tt (put_drive c d dr1 s)) as Htr.
  { unfold HardDiskLba48Transform. rewrite (run_bind _ _ _ _ _ (selected_run c ds s Hsel)). by apply upd_ctl_run. }
  rewrite (run_bind _ _ _ _ _ Htr). pose proof (drive_at_put c d dr dr1 s Hd) as Hd1.
  rewrite (run_bind _ _ _ _ _ (get_ctl_run c d dr1 _ Hd1)). cbv zeta.
  change (dr1.(DRIVE.Controller)) with (lba48_transform Ext dr.(DRIVE.Controller)). rewrite Hgroup. cbn [unless].
  set (r2 := (set_group multiple (lba48_transform Ext dr.(DRIVE.Controller))).2).
  rewrite (run_bind _ _ _ _ _ (upd_ctl_run c d (fun _ => r2) dr1 _ Hd1)), put_put.
  set (dr2 := dr1 <| DRIVE.Controller ::= fun _ => r2 |>). pose proof (drive_at_put c d dr dr2 s Hd) as Hd2.
  unfold with_sector.
  assert (HardDiskCalculateLogicalAddress c (put_drive c d dr2 s) = Ok L (put_drive c d dr2 s)) as Ha.
  { rewrite (address_run ready size sector c ds dr2); [|by eapply disk_ready_frame; [| |exact Hr]|by rewrite select_put|done].
    change (dr2.(DRIVE.Controller)) with r2. unfold r2. rewrite set_group_address. fold L. by rewrite (proj2 (Z.leb_gt _ _)) by lia. }
  rewrite (run_bind _ _ _ _ _ Ha), sector_not_none by done. cbn [negb unless].
  rewrite (run_bind _ _ _ _ _ (upd_drive_run c d _ dr2 _ Hd2)), put_put.
  set (dr3 := dr2 <| DRIVE.NextLSector := L |>). pose proof (drive_at_put c d dr dr3 s Hd) as Hd3.
  by rewrite (run_bind _ _ _ _ _ (upd_ctl_run c d _ dr3 _ Hd3)), put_put.
Qed.

Lemma finish_polled c ds dr s off on : let d := if nz ds then 1 else 0 in
  select_of c s = Some ds -> drive_at c d s = Some dr -> polls dr = true ->
  finish_with c d off on s = Ok tt (put_drive c d (dr <| DRIVE.Controller ::= set_status off on |>) s).
Proof.
  intros d Hsel Hd Hp. unfold finish_with. rewrite (run_bind _ _ _ _ _ (upd_ctl_run c d _ dr s Hd)).
  apply (raise_polled c ds (dr <| DRIVE.Controller ::= set_status off on |>)); [by rewrite select_put|by eapply drive_at_put|done].
Qed.

Definition multiple_set (n : Z) (dr : DRIVE.t) : DRIVE.t :=
  dr <| DRIVE.Controller ::= fun r =>
    set_status (IDE_STATUS_BUSY |. IDE_STATUS_WRITE_FAULT |. IDE_STATUS_DEV_REQ) IDE_STATUS_DRIVE_RDY
      (r <| CONTROLLER.MultipleSectors := n |>) |>.

Lemma cmd_set_multiple_run c ds dr s : let d := if nz ds then 1 else 0 in
  let n := dr.(DRIVE.Controller).(CONTROLLER.SectorCount) in
  select_of c s = Some ds -> drive_at c d s = Some dr -> polls dr = true -> is_disk dr = true -> 1 <= n <= 63 ->
  cmd_set_multiple c d s = Ok tt (put_drive c d (multiple_set n dr) s).
Proof.
  intros d n Hsel Hd Hp Hdisk Hn. unfold cmd_set_multiple. rewrite (run_bind _ _ _ _ _ (get_drive_run c d dr s Hd)). cbv zeta. fold n.
  rewrite Hdisk, (proj2 (Z.leb_le _ _)) by (unfold HARDDISK_SECTORS; lia).
  unfold nz at 1. rewrite (proj2 (Z.eqb_neq n 0)) by lia. cbn [andb negb unless].
  rewrite (run_bind _ _ _ _ _ (upd_ctl_run c d _ dr s Hd)).
  set (dr1 := dr <| DRIVE.Controller ::= fun r => r <| CONTROLLER.MultipleSectors := n |> |>).
  etransitivity; [apply (finish_polled c ds dr1); [by rewrite select_put|by eapply drive_at_put|done]|]. fold d. by rewrite put_put.
Qed.

(** SET MULTIPLE accepts groups of up to 63 sectors, and the drive's buffer has
    room for 16: a READ MULTIPLE of more than 16 sectors writes past the end of the
    buffer. *)
Theorem read_multiple_overruns c ds dr b ls l s : let d := if nz ds then 1 else 0 in
  let r := dr.(DRIVE.Controller) in
  let L := register_address (lba48_transform 0 r) in
  transfer_state ready c ds dr b s -> polls dr = true -> is_disk dr = true -> nz r.(CONTROLLER.AddressMode) = true ->
  16 < r.(CONTROLLER.SectorCount) <= 63 ->
  Z.of_nat (length b) = MAX_MULTIPLE_SECTORS * HARDDISK_SECTOR_SIZE + 6 ->
  length ls = 16%nat -> sectors_from sector L (ls ++ [l]) -> 0 <= L -> L + 16 < size / 512 -> L + 16 < 2 ^ 32 ->
  (run_command c d IDE_COMMAND_SET_MULTIPLE ;; run_command c d IDE_COMMAND_READ_MULTIPLE) s = Fault OutOfBounds.
Proof.
  intros d r L Hts Hp Hdisk Hmode Hn Hb Hls Hsec HL Hsize Hlim. set (n := r.(CONTROLLER.SectorCount)) in *.
  destruct (Hts) as [_ Hsel Hd Hbuf].
  change (run_command c d IDE_COMMAND_SET_MULTIPLE) with (cmd_set_multiple c d).
  change (run_command c d IDE_COMMAND_READ_MULTIPLE) with (cmd_read c d 0xC4 0).
  rewrite (run_bind _ _ _ _ _ (cmd_set_multiple_run c ds dr s Hsel Hd Hp Hdisk ltac:(fold r n; lia))).
  fold r n d. set (dr1 := multiple_set n dr).
  assert (transfer_state ready c ds dr1 b (put_drive c d dr1 s)) as Hts1
    by (by apply (transfer_put ready size sector c ds dr b dr1 b s)).
  set (r1 := lba48_transform 0 dr1.(DRIVE.Controller)).
  assert (r1.(CONTROLLER.MultipleSectors) = n /\ r1.(CONTROLLER.NumberOfSectors) = n) as [Hm1 Hn1].
  { unfold r1, lba48_transform. cbn. fold r. fold n. unfold nz. by rewrite (proj2 (Z.eqb_neq n 0)) by lia. }
  assert (group_size r1 = n * 512) as Hgroup.
  { unfold group_size, HARDDISK_SECTOR_SIZE. rewrite Hm1, Hn1, Z.ltb_irrefl. apply u32_small. unfold in_width. lia. }
  assert (set_group true r1 = (true, next_group r1)) as Hset.
  { unfold set_group. rewrite Hm1. unfold nz. by rewrite (proj2 (Z.eqb_neq n 0)) by lia. }
  assert (register_address r1 = L) as HL1 by (unfold r1, L, r; by destruct dr as [? ? ? []]).
  etransitivity; [apply (cmd_read_run c ds dr1 b _ 0xC4 0 Hts1); [done| | |by fold r1; rewrite HL1; lia]|].
  - unfold no_address. change (nz dr1.(DRIVE.Controller).(CONTROLLER.AddressMode)) with (nz r.(CONTROLLER.AddressMode)). by rewrite Hmode.
  - change ((0xC4 =? 0xC4) || (0xC4 =? 0x29)) with true. fold r1. by rewrite Hset.
  - assert (HardDiskReadSector c (put_drive c d (start_read 0xC4 0 true dr1) (put_drive c d dr1 s)) = Fault OutOfBounds) as Hfault;
      [|by apply run_fault].
    rewrite put_put. set (dr2 := start_read 0xC4 0 true dr1).
    assert (dr2.(DRIVE.Controller) = read_registers 0xC4 0 true dr1.(DRIVE.Controller)) as Hr2 by done.
    assert (register_address dr2.(DRIVE.Controller) = L) as HL2.
    { rewrite Hr2, <- HL1, <- (set_group_address true r1). done. }
    assert (dr2.(DRIVE.Controller).(CONTROLLER.BufferSize) = n * 512) as Hs2.
    { rewrite Hr2. unfold read_registers. fold r1. rewrite Hset. exact Hgroup. }
    apply (HardDiskReadSector_overruns ready size sector c ds dr2 b ls l).
    + apply (transfer_put ready size sector c ds dr b dr2 b s Hts). rewrite Hr2. unfold read_registers. fold r1. rewrite Hset. exact Hbuf.
    + rewrite Hs2, Hls. lia.
    + apply fits_spec. rewrite Hb, Hls. unfold MAX_MULTIPLE_SECTORS, HARDDISK_SECTOR_SIZE. lia.
    + apply not_true_iff_false. rewrite fits_spec, Hb, Hls. unfold MAX_MULTIPLE_SECTORS, HARDDISK_SECTOR_SIZE. lia.
    + apply can_advance_by_lba; [|by rewrite HL2|].
      * rewrite Hr2. unfold read_registers. fold r1. rewrite Hset. exact Hmode.
      * rewrite HL2, Hls. unfold lba_limit. change (Z.of_nat 16) with 16. destruct (nz (CONTROLLER.Lba48 _)); lia.
    + by rewrite HL2.
    + by rewrite HL2.
    + rewrite HL2, Hls. lia.
Qed.
End Polled.

(** A fixed image of 18 sectors, opened, with a disk on the first channel. *)
Definition fixed_footer (size : Z) : list Z :=
  VHD_FOOTER_COOKIE ++ replicate 40 0 ++ be_list 8 size ++ replicate 4 0 ++ be_list 4 2
  ++ replicate 448 0.
Definition fixed_image : list Z := replicate (Z.to_nat 9216) 0x11 ++ fixed_footer 9216.
Definition fixed_drive (SectorCount : Z) : DRIVE.t :=
  DRIVE.zero <| DRIVE.DriveType := DRIVE_TYPE_DISK |> <| DRIVE.Heads := 16 |> <| DRIVE.Spt := 63 |>
    <| DRIVE.Controller ::= fun r => r <| CONTROLLER.AddressMode := 0x40 |> <| CONTROLLER.SectorCount := SectorCount |>
         <| CONTROLLER.DisableIrq := 2 |> <| CONTROLLER.Status := 0x50 |>
         <| CONTROLLER.Buffer := Some (replicate (Z.to_nat 8198) 0) |> |>.
Definition fixed_state (SectorCount : Z) : Machine.t :=
  Machine.zero
  <| Machine.vhdImage := VHDIMAGE.zero <| VHDIMAGE.hFile := 1 |> <| VHDIMAGE.cbSize := 9216 |> |>
  <| Machine.AtaChannel ::= fun l =>
       updZ l 0 (ATA_CHANNEL.zero <| ATA_CHANNEL.IoAddr1 := 0x1f0 |> <| ATA_CHANNEL.IoAddr2 := 0x3f0 |> <| ATA_CHANNEL.Irq := 14 |>
                   <| ATA_CHANNEL.Drive := [fixed_drive SectorCount; DRIVE.zero] |>) |>.
Definition fixed_disk : DiskImage := @vhd_disk (host_of fixed_image).
Definition fixed_size : Z := Vhd.word_at fixed_image (footer_at fixed_image + 48) 8.

Lemma fixed_disk_laws : @DiskImageLaws fixed_disk (image_ready fixed_image) fixed_size (vhd_sector fixed_image).
Proof. refine (vhd_disk_laws fixed_image (bytesb_spec _ _) _ _); vm_compute; reflexivity. Qed.

Lemma fixed_transfer n : transfer_state (image_ready fixed_image) 0 0 (fixed_drive n) (replicate (Z.to_nat 8198) 0) (fixed_state n).
Proof. split; [split; [split|]| | |]; vm_compute; reflexivity. Qed.

Lemma read_multiple_overruns_witness :
  (@run_command (fun _ _ => true) fixed_disk 0 (if nz 0 then 1 else 0) IDE_COMMAND_SET_MULTIPLE ;;
   @run_command (fun _ _ => true) fixed_disk 0 (if nz 0 then 1 else 0) IDE_COMMAND_READ_MULTIPLE) (fixed_state 17) = Fault OutOfBounds.
Proof.
  refine (@read_multiple_overruns (fun _ _ => true) fixed_disk (image_ready fixed_image) fixed_size (vhd_sector fixed_image)
    fixed_disk_laws 0 0 (fixed_drive 17) (replicate (Z.to_nat 8198) 0) (replicate 16 (replicate 512 0x11)) (replicate 512 0x11)
    (fixed_state 17) (fixed_transfer 17) _ _ _ _ _ _ _ _ _ _).
  - vm_compute; reflexivity.
  - vm_compute; reflexivity.
  - vm_compute; reflexivity.
  - split; vm_compute; (reflexivity || discriminate).
  - vm_compute; reflexivity.
  - vm_compute; reflexivity.
  - apply sectors_from_map. vm_compute; reflexivity.
  - vm_compute; discriminate.
  - vm_compute; reflexivity.
  - vm_compute; reflexivity.
Defined.
