(* ===== verification/AtaPio.v ===== *)
(** The PIO protocol of the ATA disks: a READ command with the interrupts disabled,
    and the words of its sectors read from the data port. *)

From S2P Require Import AtaPorts.

(** What a driver does: [n] words from the data port. *)
Fixpoint read_words `{!Driver, !DiskImage, !Win32} (c d : Z) (n : nat) : IO (list Z) :=
  match n with
  | O => mret []
  | S n => w ← read_data c d 2; l ← read_words c d n; mret (w :: l)
  end.

(** The words of a sector. *)
Definition word_of (l : list Z) (i : Z) : Z := le_read 2 (slice i 2 l).
Definition words_from (l : list Z) (i : Z) (n : nat) : list Z :=
  map (fun k => word_of l (i + 2 * Z.of_nat k)) (seq 0 n).
Definition sector_words (l : list Z) : list Z := words_from l 0 256.

Definition at_index (i : Z) (dr : DRIVE.t) : DRIVE.t :=
  dr <| DRIVE.Controller ::= fun r => r <| CONTROLLER.BufferIndex := i |> |>.

(** A drive that moves sectors one by one, with the index of its buffer at [i]; and
    one whose bytes from [i] on are to be read. *)
Record moving (dr : DRIVE.t) (b : list Z) (i : Z) : Prop := {
  dv_command : dr.(DRIVE.Controller).(CONTROLLER.CurrentCommand) = IDE_COMMAND_READ;
  dv_size : dr.(DRIVE.Controller).(CONTROLLER.BufferSize) = 512;
  dv_index : dr.(DRIVE.Controller).(CONTROLLER.BufferIndex) = i;
  dv_polls : polls dr = true;
  dv_mode : nz dr.(DRIVE.Controller).(CONTROLLER.AddressMode) = true;
  dv_lba : dr.(DRIVE.Controller).(CONTROLLER.Lba48) = 0;
  dv_length : 512 <= Z.of_nat (length b)
}.
Record delivering (dr : DRIVE.t) (b : list Z) (i : Z) : Prop := {
  dv_moving :> moving dr b i;
  dv_request : (dr.(DRIVE.Controller).(CONTROLLER.Status) &? IDE_STATUS_DEV_REQ) = true
}.

Lemma moving_at dr b i j : moving dr b i -> moving (at_index j dr) b j.
Proof. intros []. split; done. Qed.
Lemma delivering_at dr b i j : delivering dr b i -> delivering (at_index j dr) b j.
Proof. intros [Hm Hs]. split; [by eapply moving_at|exact Hs]. Qed.

(** A bit of the status register after an update. *)
Lemma status_bit off on r n : 0 <= n ->
  ((set_status off on r).(CONTROLLER.Status) &? bit n) =
  (Z.testbit r.(CONTROLLER.Status) n && negb (Z.testbit off n)) || Z.testbit on n.
Proof. intros Hn. rewrite tst_bit by done. cbn. by rewrite Z.lor_spec, Z.land_spec, Z.lnot_spec. Qed.

(** A sector fills the first 512 bytes of the buffer. *)
Lemma sector_words_splice l b : length l = 512%nat -> 512 <= Z.of_nat (length b) -> sector_words (splice 0 l b) = sector_words l.
Proof.
  intros Hl Hb. unfold sector_words, words_from. apply map_ext_in. intros k [_ Hk]%in_seq. unfold word_of. f_equal.
  unfold splice. change (Z.to_nat 0) with 0%nat. rewrite take_0, app_nil_l. unfold slice.
  rewrite drop_app_le by (rewrite Hl; lia). rewrite take_app_le; [done|]. rewrite length_drop, Hl. lia.
Qed.

Section Pio.
Context `{!Driver, !DiskImage, !Win32} (ready : Machine.t -> Prop) (size : Z) (sector : Z -> option (list Z)).
Context `{!DiskImageLaws ready size sector}.

(** A word, and what follows when it was the sector's last one. *)
Lemma read_data_word c ds dr b s i : let d := if nz ds then 1 else 0 in
  transfer_state ready c ds dr b s -> delivering dr b i -> 0 <= i -> i + 2 <= 512 ->
  read_data c d 2 s =
  ((if i + 2 <? 512 then done_ else group_end c d) ;; mret (word_of b i)) (put_drive c d (at_index (i + 2) dr) s).
Proof.
  intros d [Hr Hsel Hd Hb] Hv Hi Hi2. unfold read_data.
  rewrite (run_bind _ _ _ _ _ (get_ctl_run c d dr s Hd)), (dv_request _ _ _ Hv), (dv_command _ _ _ Hv). cbn [negb].
  change (is_read IDE_COMMAND_READ) with true. cbv iota. unfold read_sector_data.
  rewrite (run_bind _ _ _ _ _ (get_ctl_run c d dr s Hd)), (dv_size _ _ _ Hv), (dv_index _ _ _ Hv).
  rewrite (proj2 (Z.leb_gt _ _)), u32_small, (proj2 (Z.ltb_ge _ _)) by (unfold in_width; lia).
  assert (load_value c d 2 s = Ok (word_of b i) s) as Hl.
  { unfold load_value. rewrite (run_bind _ _ _ _ _ (get_ctl_run c d dr s Hd)), (dv_index _ _ _ Hv).
    change ((2 =? 1) || (2 =? 2) || (2 =? 4)) with true. cbv iota.
    by rewrite (run_bind _ _ _ _ _ (load_run c d i 2 b dr s Hd Hb ltac:(apply fits_spec; pose proof (dv_length _ _ _ Hv); lia))). }
  rewrite (run_bind _ _ _ _ _ Hl), (run_bind _ _ _ _ _ (upd_ctl_run c d _ dr s Hd)).
  assert (dr <| DRIVE.Controller ::= move_index 2 |> = at_index (i + 2) dr) as ->.
  { unfold at_index, move_index. rewrite <- (u32_small (i + 2)) by (unfold in_width; lia). rewrite <- (dv_index _ _ _ Hv). by destruct dr as [? ? ? []]. }
  rewrite (run_bind _ _ _ _ _ (get_ctl_run c d (at_index (i + 2) dr) _ ltac:(by eapply drive_at_put))).
  change (CONTROLLER.BufferIndex _) with (i + 2). change (CONTROLLER.BufferSize _) with dr.(DRIVE.Controller).(CONTROLLER.BufferSize).
  by rewrite (dv_size _ _ _ Hv).
Qed.

(** The words of a sector but its last one. *)
Lemma read_words_mid c ds b : let d := if nz ds then 1 else 0 in forall n m dr s i,
  transfer_state ready c ds dr b s -> delivering dr b i -> 0 <= i -> i + 2 * Z.of_nat n < 512 ->
  read_words c d (n + m) s =
  (l ← read_words c d m; mret (words_from b i n ++ l)) (put_drive c d (at_index (i + 2 * Z.of_nat n) dr) s).
Proof.
  intros d. induction n as [|n IH]; intros m dr s i Hts Hv Hi Hn.
  - cbn [Nat.add words_from seq map app]. rewrite Z.mul_0_r, Z.add_0_r.
    assert (at_index i dr = dr) as -> by (rewrite <- (dv_index _ _ _ Hv); by destruct dr as [? ? ? []]).
    rewrite put_drive_id by apply Hts. unfold mbind, M_bind. by destruct (read_words c d m s).
  - rewrite Nat2Z.inj_succ in Hn. cbn [Nat.add read_words]. fold d.
    pose proof (read_data_word c ds dr b s i Hts Hv Hi ltac:(lia)) as Hw. cbv zeta in Hw. fold d in Hw.
    rewrite (proj2 (Z.ltb_lt (i + 2) 512)) in Hw by lia.
    rewrite (run_bind _ _ _ _ _ Hw). set (dr1 := at_index (i + 2) dr).
    assert (transfer_state ready c ds dr1 b (put_drive c d dr1 s)) as Hts1
      by (eapply (transfer_put ready size sector); [exact Hts|apply Hts]).
    pose proof (IH m dr1 (put_drive c d dr1 s) (i + 2) Hts1 (delivering_at dr b i (i + 2) Hv) ltac:(lia) ltac:(lia)) as Hr.
    unfold mbind, M_bind at 1. rewrite Hr, put_put. unfold dr1.
    change (at_index (i + 2 + 2 * Z.of_nat n) (at_index (i + 2) dr)) with (at_index (i + 2 + 2 * Z.of_nat n) dr).
    replace (i + 2 + 2 * Z.of_nat n) with (i + 2 * Z.of_nat (S n)) by lia.
    assert (words_from b i (S n) = word_of b i :: words_from b (i + 2) n) as ->.
    { unfold words_from. cbn [seq map]. rewrite Z.mul_0_r, Z.add_0_r. f_equal. rewrite <- seq_shift, map_map.
      apply map_ext. intros k. f_equal. lia. }
    unfold mbind, M_bind. by destruct (read_words c d m _).
Qed.

(** The drive after its last word. *)
Definition finished (dr : DRIVE.t) : DRIVE.t := group_read dr <| DRIVE.Controller ::= set_status IDE_STATUS_DEV_REQ 0 |>.

Lemma group_end_done c d dr s : drive_at c d s = Some dr -> dr.(DRIVE.Controller).(CONTROLLER.CurrentCommand) = IDE_COMMAND_READ ->
  dr.(DRIVE.Controller).(CONTROLLER.NumberOfSectors) = 0 -> group_end c d s = Ok tt (put_drive c d (finished dr) s).
Proof.
  intros Hd Hc Hn. unfold group_end. rewrite (run_bind _ _ _ _ _ (upd_drive_run c d group_read dr s Hd)).
  rewrite (run_bind _ _ _ _ _ (get_ctl_run c d (group_read dr) _ ltac:(by eapply drive_at_put))).
  assert ((group_read dr).(DRIVE.Controller).(CONTROLLER.NumberOfSectors) = 0) as -> by (unfold group_read; rewrite Hc; done).
  change (nz 0) with false. cbv iota. etransitivity; [apply (upd_ctl_run c d _ (group_read dr)); by eapply drive_at_put|]. by rewrite put_put.
Qed.

(** The next sector is fetched. *)
Lemma fetch_next c ds dr b i l s : let d := if nz ds then 1 else 0 in
  let L := register_address dr.(DRIVE.Controller) in
  let n := dr.(DRIVE.Controller).(CONTROLLER.NumberOfSectors) in
  transfer_state ready c ds dr b s -> moving dr b i -> 0 < n < 2 ^ 32 -> sector L = Some l -> 0 <= L < size / 512 -> L + 1 < 2 ^ 32 ->
  exists s1 dr3, same_but_image s s1 /\ HardDiskReadSector c s = Ok 512 (put_drive c d dr3 s1) /\
    transfer_state ready c ds dr3 (splice 0 l b) (put_drive c d dr3 s1) /\
    moving dr3 (splice 0 l b) i /\
    dr3.(DRIVE.Controller).(CONTROLLER.Status) = dr.(DRIVE.Controller).(CONTROLLER.Status) /\
    dr3.(DRIVE.Controller).(CONTROLLER.NumberOfSectors) = n - 1 /\ register_address dr3.(DRIVE.Controller) = L + 1.
Proof.
  intros d L n Hts Hv Hn Hl HL Hlim. destruct (Hts) as [_ Hsel Hd Hb].
  pose proof (disk_sector_length L l Hl) as Hlen. pose proof (dv_length _ _ _ Hv) as Hlb.
  assert (can_advance_by 1 dr) as Hadv.
  { apply can_advance_by_lba; [exact (dv_mode _ _ _ Hv)|exact (proj1 HL)|]. unfold lba_limit. rewrite (dv_lba _ _ _ Hv). exact Hlim. }
  assert (fits 0 (512 * Z.of_nat (length [l])) b = true) as Hfit by (apply fits_spec; cbn [length]; lia).
  destruct (HardDiskReadSector_run ready size sector c ds dr b [l] s Hts (dv_size _ _ _ Hv) Hfit Hadv (conj Hl I) (proj1 HL)) as (s1 & Himg & Hr1 & Hrun).
  { cbn [length]. fold L. lia. }
  destruct (transferred_spec [l] 0 dr b Hb ltac:(lia) Hfit Hadv ltac:(by constructor)) as (Hm & Hb' & HL' & Hn' & _).
  set (dr3 := transferred 0 [l] dr) in *. clearbody dr3. cbn [concat] in Hb'. rewrite app_nil_r in Hb'.
  exists s1, dr3. split; [done|]. split; [exact Hrun|].
  assert (drive_at c d s1 = Some dr) as Hd1 by (by erewrite drive_at_image).
  split; [|split; [|split; [exact (same_Status _ _ Hm)|split; [|exact HL']]]].
  - split; [by eapply disk_ready_frame; [| |exact Hr1]|rewrite select_put; by erewrite select_of_image|by eapply drive_at_put|exact Hb'].
  - destruct Hv, Hm. unfold polls in *.
    split; [congruence..|unfold polls; congruence|congruence|congruence|]. rewrite length_splice; [done|]. apply fits_spec. lia.
  - rewrite Hn'. apply u32_small. unfold in_width. cbn [length]. fold n. lia.
Qed.

(** Between sectors: the data request stays up while the next one is fetched. *)
Definition requesting (dr : DRIVE.t) : DRIVE.t :=
  group_read dr <| DRIVE.Controller ::= set_status 0 (IDE_STATUS_DEV_REQ |. IDE_STATUS_DEV_SEEK_COMP) |>.
Lemma requesting_spec dr b i : delivering dr b i -> delivering (requesting dr) b i /\
  (requesting dr).(DRIVE.Controller).(CONTROLLER.Buffer) = dr.(DRIVE.Controller).(CONTROLLER.Buffer) /\
  (requesting dr).(DRIVE.Controller).(CONTROLLER.NumberOfSectors) = dr.(DRIVE.Controller).(CONTROLLER.NumberOfSectors) /\
  register_address (requesting dr).(DRIVE.Controller) = register_address dr.(DRIVE.Controller).
Proof.
  intros []. assert (((requesting dr).(DRIVE.Controller).(CONTROLLER.Status) &? IDE_STATUS_DEV_REQ) = true) as Hs.
  { unfold requesting. change (DRIVE.Controller (group_read dr <| DRIVE.Controller ::= ?f |>)) with (f (group_read dr).(DRIVE.Controller)).
    unfold IDE_STATUS_DEV_REQ at 2. rewrite status_bit by done. apply orb_true_r. }
  unfold requesting, group_read in *. rewrite (dv_command _ _ _ dv_moving0) in *. change ((IDE_COMMAND_READ =? IDE_COMMAND_READ_MULTIPLE) || _) with false in *. cbv iota in *.
  destruct dv_moving0. split; [split; [split|]; assumption|]. by split.
Qed.

Lemma group_end_next c ds dr b l s : let d := if nz ds then 1 else 0 in
  let L := register_address dr.(DRIVE.Controller) in
  let n := dr.(DRIVE.Controller).(CONTROLLER.NumberOfSectors) in
  transfer_state ready c ds dr b s -> delivering dr b 512 -> 0 < n < 2 ^ 32 -> sector L = Some l -> 0 <= L < size / 512 -> L + 1 < 2 ^ 32 ->
  exists s1 dr', same_but_image s s1 /\ group_end c d s = Ok tt (put_drive c d dr' s1) /\
    transfer_state ready c ds dr' (splice 0 l b) (put_drive c d dr' s1) /\ delivering dr' (splice 0 l b) 0 /\
    dr'.(DRIVE.Controller).(CONTROLLER.NumberOfSectors) = n - 1 /\ register_address dr'.(DRIVE.Controller) = L + 1.
Proof.
  intros d L n Hts Hv Hn Hl HL Hlim. destruct (Hts) as [_ Hsel Hd Hb]. fold d in Hd. unfold group_end.
  destruct (requesting_spec dr b 512 Hv) as (Hv2 & Hb2 & Hn2 & HL2). rewrite Hb in Hb2.
  rewrite (run_bind _ _ _ _ _ (upd_drive_run c d group_read dr s Hd)).
  rewrite (run_bind _ _ _ _ _ (get_ctl_run c d (group_read dr) _ ltac:(by eapply drive_at_put))).
  assert (nz (group_read dr).(DRIVE.Controller).(CONTROLLER.NumberOfSectors) = true) as ->.
  { change (nz (requesting dr).(DRIVE.Controller).(CONTROLLER.NumberOfSectors) = true). rewrite Hn2. fold n. unfold nz.
    by rewrite (proj2 (Z.eqb_neq n 0)) by lia. }
  rewrite (run_bind _ _ _ _ _ (upd_ctl_run c d _ (group_read dr) _ ltac:(by eapply drive_at_put))), put_put. fold (requesting dr).
  set (dr2 := requesting dr) in *. clearbody dr2.
  assert (transfer_state ready c ds dr2 b (put_drive c d dr2 s)) as Hts2 by (eapply (transfer_put ready size sector); [exact Hts|exact Hb2]).
  destruct (fetch_next c ds dr2 b 512 l (put_drive c d dr2 s) Hts2 Hv2) as (s1' & dr3 & (v & m & ->) & Hrun & Hts3 & Hv3 & Hst3 & Hn3 & HL3);
    [by rewrite Hn2|by rewrite HL2|by rewrite HL2|by rewrite HL2|].
  fold d in Hrun, Hts3. rewrite Hn2 in Hn3. rewrite HL2 in HL3. rewrite (run_bind _ _ _ _ _ Hrun).
  set (s1 := s <| Machine.vhdImage := v |> <| Machine.FilePointers := m |>).
  assert (drive_at c d s1 = Some dr) as Hd1 by exact Hd.
  change (put_drive c d dr2 s <| Machine.vhdImage := v |> <| Machine.FilePointers := m |>) with (put_drive c d dr2 s1) in *.
  rewrite !put_put in *.
  rewrite (run_bind _ _ _ _ _ (upd_ctl_run c d _ dr3 _ ltac:(by eapply drive_at_put))), put_put. fold (at_index 0 dr3).
  assert (transfer_state ready c ds (at_index 0 dr3) (splice 0 l b) (put_drive c d (at_index 0 dr3) s1)) as Hts4.
  { pose proof (transfer_put ready size sector c ds dr3 _ (at_index 0 dr3) _ _ Hts3 (ts_buffer _ _ _ _ _ _ Hts3)) as Hts4. fold d in Hts4.
    by rewrite put_put in Hts4. }
  exists s1, (at_index 0 dr3). split; [by exists v, m|].
  split; [apply (raise_polled c ds (at_index 0 dr3)); [by apply Hts4|by apply Hts4|exact (dv_polls _ _ _ Hv3)]|].
  split; [exact Hts4|]. split; [|by split]. split; [by eapply moving_at|].
  change (DRIVE.Controller (at_index 0 dr3)).(CONTROLLER.Status) with dr3.(DRIVE.Controller).(CONTROLLER.Status). rewrite Hst3. apply Hv2.
Qed.

(** The words of a sector, and what follows its last one. *)
Lemma read_sector_words c ds dr b s m : let d := if nz ds then 1 else 0 in
  transfer_state ready c ds dr b s -> delivering dr b 0 ->
  read_words c d (256 + m) s =
  (group_end c d ;; l ← read_words c d m; mret (sector_words b ++ l)) (put_drive c d (at_index 512 dr) s).
Proof.
  intros d Hts Hv. change (256 + m)%nat with (255 + S m)%nat.
  pose proof (read_words_mid c ds b 255 (S m) dr s 0 Hts Hv ltac:(lia) ltac:(lia)) as Hmid. cbv zeta in Hmid. fold d in Hmid.
  etransitivity; [exact Hmid|]. change (0 + 2 * Z.of_nat 255) with 510. set (dr1 := at_index 510 dr). set (s1 := put_drive c d dr1 s).
  assert (transfer_state ready c ds dr1 b s1) as Hts1 by (eapply (transfer_put ready size sector); [exact Hts|apply Hts]).
  pose proof (read_data_word c ds dr1 b s1 510 Hts1 (delivering_at dr b 0 510 Hv) ltac:(lia) ltac:(lia)) as Hw. cbv zeta in Hw. fold d in Hw.
  change (510 + 2 <? 512) with false in Hw. cbv iota in Hw. change (510 + 2) with 512 in Hw.
  cbn [read_words]. fold d.
  assert (sector_words b = words_from b 0 255 ++ [word_of b 510]) as Hsec by reflexivity.
  unfold s1 in Hw at 2. rewrite put_put in Hw. change (at_index 512 dr1) with (at_index 512 dr) in Hw.
  set (s2 := put_drive c d (at_index 512 dr) s) in *. clearbody s2 s1. rewrite Hsec. clear - Hw.
  unfold mbind, M_bind in *. rewrite Hw. destruct (group_end c d s2) as [[] s3|]; [|done].
  unfold mret, M_ret. destruct (read_words c d m s3) as [l s4|]; [|done]. by rewrite <- app_assoc.
Qed.

Definition idle (dr : DRIVE.t) : Prop :=
  (dr.(DRIVE.Controller).(CONTROLLER.Status) &? IDE_STATUS_DEV_REQ) = false /\
  (dr.(DRIVE.Controller).(CONTROLLER.Status) &? IDE_STATUS_BUSY) = false.
Lemma finished_idle dr : idle (finished dr).
Proof.
  unfold idle, finished. change (DRIVE.Controller (group_read dr <| DRIVE.Controller ::= ?f |>)) with (f (group_read dr).(DRIVE.Controller)).
  unfold IDE_STATUS_DEV_REQ at 2, IDE_STATUS_BUSY at 1. rewrite !status_bit by done. split.
  - change (Z.testbit IDE_STATUS_DEV_REQ 3) with true. by rewrite andb_false_r.
  - unfold group_read. change (DRIVE.Controller (?x <| DRIVE.Controller := ?r |> <| DRIVE.CurrentLSector := ?y |>)) with r.
    rewrite <- tst_bit by done. rewrite status_bit by done.
    change (Z.testbit (IDE_STATUS_BUSY |. _) 7) with true. by rewrite andb_false_r.
Qed.
Lemma finished_address dr : dr.(DRIVE.Controller).(CONTROLLER.CurrentCommand) = IDE_COMMAND_READ ->
  register_address (finished dr).(DRIVE.Controller) = register_address dr.(DRIVE.Controller).
Proof. intros Hc. unfold finished, group_read. by rewrite Hc. Qed.

(** The sectors that are left. *)
Lemma read_rest c ds : let d := if nz ds then 1 else 0 in forall ls dr b s,
  let L := register_address dr.(DRIVE.Controller) in
  transfer_state ready c ds dr b s -> delivering dr b 0 ->
  dr.(DRIVE.Controller).(CONTROLLER.NumberOfSectors) = Z.of_nat (length ls) -> sectors_from sector L ls ->
  0 <= L -> L + Z.of_nat (length ls) <= size / 512 -> L + Z.of_nat (length ls) < 2 ^ 32 -> Z.of_nat (length ls) < 2 ^ 32 ->
  exists s1 dr', same_but_image s s1 /\
    read_words c d (256 * S (length ls)) s = Ok (sector_words b ++ concat (map sector_words ls)) (put_drive c d dr' s1) /\
    idle dr' /\ register_address dr'.(DRIVE.Controller) = L + Z.of_nat (length ls).
Proof.
  intros d ls. induction ls as [|l ls IH]; intros dr b s L Hts Hv Hn Hls HL Hsize Hlim Hcount.
  - exists s, (finished (at_index 512 dr)). split; [apply same_but_image_refl|]. split; [|split].
    + pose proof (read_sector_words c ds dr b s 0 Hts Hv) as Hw. cbv zeta in Hw. fold d in Hw. etransitivity; [exact Hw|].
      assert (drive_at c d s = Some dr) as Hd by apply Hts.
      rewrite (run_bind _ _ _ _ _ (group_end_done c d (at_index 512 dr) _ ltac:(by eapply drive_at_put) (dv_command _ _ _ Hv) Hn)).
      by rewrite put_put.
    + apply finished_idle.
    + cbn [length]. rewrite Z.add_0_r. by rewrite finished_address by exact (dv_command _ _ _ Hv).
  - cbn [length sectors_from] in *. rewrite Nat2Z.inj_succ in *. destruct Hls as [Hl Hls].
    pose proof (read_sector_words c ds dr b s (256 * S (length ls)) Hts Hv) as Hw. cbv zeta in Hw. fold d in Hw.
    replace (256 * S (S (length ls)))%nat with (256 + 256 * S (length ls))%nat by lia.
    set (dr1 := at_index 512 dr) in *.
    assert (transfer_state ready c ds dr1 b (put_drive c d dr1 s)) as Hts1 by (eapply (transfer_put ready size sector); [exact Hts|apply Hts]).
    destruct (group_end_next c ds dr1 b l _ Hts1 (delivering_at dr b 0 512 Hv)) as (s2' & dr2 & (v & m & ->) & Hrun & Hts2 & Hv2 & Hn2 & HL2);
      [change (0 < dr.(DRIVE.Controller).(CONTROLLER.NumberOfSectors) < 2 ^ 32); lia|exact Hl|change (0 <= L < size / 512); lia|change (L + 1 < 2 ^ 32); lia|].
    fold d in Hrun, Hts2. change (register_address dr1.(DRIVE.Controller)) with L in HL2.
    change (dr1.(DRIVE.Controller).(CONTROLLER.NumberOfSectors)) with dr.(DRIVE.Controller).(CONTROLLER.NumberOfSectors) in Hn2.
    set (s2 := s <| Machine.vhdImage := v |> <| Machine.FilePointers := m |>).
    change (put_drive c d dr1 s <| Machine.vhdImage := v |> <| Machine.FilePointers := m |>) with (put_drive c d dr1 s2) in *.
    rewrite put_put in Hrun, Hts2.
    destruct (IH dr2 (splice 0 l b) _ Hts2 Hv2) as (s3' & dr3 & (v' & m' & ->) & Hrun3 & Hidle & HL3);
      [lia|by rewrite HL2|lia|rewrite HL2; lia|rewrite HL2; lia|lia|].
    set (s3 := s <| Machine.vhdImage := v' |> <| Machine.FilePointers := m' |>).
    change (put_drive c d dr2 s2 <| Machine.vhdImage := v' |> <| Machine.FilePointers := m' |>) with (put_drive c d dr2 s3) in *.
    rewrite put_put in Hrun3.
    exists s3, dr3. split; [by exists v', m'|]. split; [|split; [exact Hidle|lia]].
    etransitivity; [exact Hw|]. rewrite (run_bind _ _ _ _ _ Hrun), (run_bind _ _ _ _ _ Hrun3). cbn [map concat].
    by rewrite sector_words_splice by (apply Hv || by eapply disk_sector_length).
Qed.

(** The command itself: the first sector is in the buffer. *)
Lemma read_first c ds dr b l s : let d := if nz ds then 1 else 0 in
  let r := dr.(DRIVE.Controller) in
  let L := register_address (lba48_transform 0 r) in
  let n := if nz r.(CONTROLLER.SectorCount) then r.(CONTROLLER.SectorCount) else 256 in
  transfer_state ready c ds dr b s -> polls dr = true -> is_disk dr = true -> nz r.(CONTROLLER.AddressMode) = true ->
  0 < n < 2 ^ 32 -> 512 <= Z.of_nat (length b) -> sector L = Some l -> 0 <= L < size / 512 -> L + 1 < 2 ^ 32 ->
  exists s1 dr', same_but_image s s1 /\ run_command c d IDE_COMMAND_READ s = Ok tt (put_drive c d dr' s1) /\
    transfer_state ready c ds dr' (splice 0 l b) (put_drive c d dr' s1) /\ delivering dr' (splice 0 l b) 0 /\
    dr'.(DRIVE.Controller).(CONTROLLER.NumberOfSectors) = n - 1 /\ register_address dr'.(DRIVE.Controller) = L + 1.
Proof.
  intros d r L n Hts Hp Hdisk Hmode Hn Hb Hl HL Hlim.
  change (run_command c d IDE_COMMAND_READ) with (cmd_read c d IDE_COMMAND_READ 0).
  assert (no_address r = false) as Hna by (unfold no_address; by rewrite Hmode).
  pose proof (cmd_read_run ready size sector c ds dr b s IDE_COMMAND_READ 0 Hts Hdisk Hna eq_refl ltac:(fold r L; lia)) as Hcmd.
  cbv zeta in Hcmd. fold d in Hcmd. set (dr1 := start_read IDE_COMMAND_READ 0 _ dr) in *.
  assert (register_address dr1.(DRIVE.Controller) = L) as HL1 by (unfold L, r; by destruct dr as [? ? ? []]).
  assert (dr1.(DRIVE.Controller).(CONTROLLER.NumberOfSectors) = n) as Hn1 by (unfold n, r; by destruct dr as [? ? ? []]).
  assert (moving dr1 b 0) as Hv1 by (split; [done|done|done|exact Hp|exact Hmode|done|exact Hb]).
  assert (transfer_state ready c ds dr1 b (put_drive c d dr1 s)) as Hts1
    by (eapply (transfer_put ready size sector); [exact Hts|apply Hts]).
  clearbody dr1.
  destruct (fetch_next c ds dr1 b 0 l _ Hts1 Hv1) as (s2' & dr2 & (v & m & ->) & Hrun & Hts2 & Hv2 & Hst2 & Hn2 & HL2);
    [rewrite Hn1; lia|by rewrite HL1|rewrite HL1; lia|rewrite HL1; lia|].
  fold d in Hrun, Hts2. rewrite HL1 in HL2. rewrite Hn1 in Hn2.
  set (s2 := s <| Machine.vhdImage := v |> <| Machine.FilePointers := m |>).
  change (put_drive c d dr1 s <| Machine.vhdImage := v |> <| Machine.FilePointers := m |>) with (put_drive c d dr1 s2) in *.
  rewrite put_put in Hrun, Hts2. rewrite (run_bind _ _ _ _ _ Hrun) in Hcmd. change (512 =? 0) with false in Hcmd. cbv iota in Hcmd.
  rewrite (upd_ctl_run c d _ dr2) in Hcmd by apply Hts2. rewrite put_put in Hcmd.
  set (dr3 := dr2 <| DRIVE.Controller ::= _ |>) in *.
  exists s2, dr3. split; [by exists v, m|]. split; [exact Hcmd|]. split; [|split; [|by split]].
  - pose proof (transfer_put ready size sector c ds dr2 _ dr3 _ _ Hts2 (ts_buffer _ _ _ _ _ _ Hts2)) as Hts3. fold d in Hts3. by rewrite put_put in Hts3.
  - split; [destruct Hv2; by split|]. unfold dr3. change (DRIVE.Controller (dr2 <| DRIVE.Controller ::= ?f |>)) with (f dr2.(DRIVE.Controller)).
    unfold IDE_STATUS_DEV_REQ at 2. rewrite status_bit by done. apply orb_true_r.
Qed.

(** C29 A READ command of [n] sectors (0 stands for 256), issued with the interrupts
    disabled at a sector of the disk, delivers exactly the [n] consecutive sectors:
    256 reads of a word from the data port per sector give the words of the sectors in
    order, and then the drive has no data request left and is not busy, its registers
    name the sector that follows, and the rest of the machine is as it was. *)
Theorem pio_read_delivers c ds dr b ls s : let d := if nz ds then 1 else 0 in
  let r := dr.(DRIVE.Controller) in
  let L := register_address (lba48_transform 0 r) in
  let n := if nz r.(CONTROLLER.SectorCount) then r.(CONTROLLER.SectorCount) else 256 in
  transfer_state ready c ds dr b s -> polls dr = true -> is_disk dr = true -> nz r.(CONTROLLER.AddressMode) = true ->
  0 <= r.(CONTROLLER.SectorCount) < 256 -> 512 <= Z.of_nat (length b) -> Z.of_nat (length ls) = n ->
  sectors_from sector L ls -> 0 <= L -> L + n <= size / 512 -> L + n < 2 ^ 32 ->
  exists s1 dr', same_but_image s s1 /\
    (run_command c d IDE_COMMAND_READ ;; read_words c d (256 * length ls)) s = Ok (concat (map sector_words ls)) (put_drive c d dr' s1) /\
    idle dr' /\ register_address dr'.(DRIVE.Controller) = L + n.
Proof.
  intros d r L n Hts Hp Hdisk Hmode Hn Hb Hlen Hls HL Hsize Hlim.
  assert (0 < n <= 256) as Hn0 by (unfold n, nz; destruct (Z.eqb_spec r.(CONTROLLER.SectorCount) 0); cbn [negb]; lia).
  destruct ls as [|l ls]; [cbn in Hlen; lia|]. cbn [length sectors_from] in *. rewrite Nat2Z.inj_succ in Hlen. destruct Hls as [Hl Hls].
  destruct (read_first c ds dr b l s Hts Hp Hdisk Hmode ltac:(fold r n; lia) Hb Hl ltac:(fold r L; lia) ltac:(fold r L; lia))
    as (s2 & dr3 & (v & m & E2) & Hcmd & Hts3 & Hv3 & Hn3 & HL3).
  fold d in Hcmd, Hts3. fold r n in Hn3. fold r L in HL3.
  destruct (read_rest c ds ls dr3 _ _ Hts3 Hv3) as (s4' & dr4 & (v' & m' & ->) & Hrun4 & Hidle & HL4);
    [lia|by rewrite HL3|rewrite HL3; lia|rewrite HL3; lia|rewrite HL3; lia|lia|].
  set (s4 := s2 <| Machine.vhdImage := v' |> <| Machine.FilePointers := m' |>).
  change (put_drive c d dr3 s2 <| Machine.vhdImage := v' |> <| Machine.FilePointers := m' |>) with (put_drive c d dr3 s4) in *.
  fold d in Hrun4. rewrite put_put in Hrun4.
  exists s4, dr4. split; [unfold s4; rewrite E2; by exists v', m'|]. split; [|split; [exact Hidle|lia]].
  rewrite (run_bind _ _ _ _ _ Hcmd), Hrun4. cbn [map concat].
  by rewrite sector_words_splice by (exact Hb || by eapply disk_sector_length).
Qed.
End Pio.

Definition fixed_sector : list Z := replicate 512 0x11.

Lemma pio_read_delivers_witness :
  exists s1 dr', same_but_image (fixed_state 2) s1 /\
    (@run_command (fun _ _ => true) fixed_disk 0 (if nz 0 then 1 else 0) IDE_COMMAND_READ ;;
     @read_words (fun _ _ => true) fixed_disk (host_of fixed_image) 0 (if nz 0 then 1 else 0) (256 * length [fixed_sector; fixed_sector]))
      (fixed_state 2) = Ok (concat (map sector_words [fixed_sector; fixed_sector])) (put_drive 0 (if nz 0 then 1 else 0) dr' s1) /\
    idle dr' /\
    register_address dr'.(DRIVE.Controller) =
      register_address (lba48_transform 0 (fixed_drive 2).(DRIVE.Controller))
      + (if nz (fixed_drive 2).(DRIVE.Controller).(CONTROLLER.SectorCount) then (fixed_drive 2).(DRIVE.Controller).(CONTROLLER.SectorCount) else 256).
Proof.
  refine (@pio_read_delivers (fun _ _ => true) fixed_disk (host_of fixed_image) (image_ready fixed_image) fixed_size (vhd_sector fixed_image)
    fixed_disk_laws 0 0 (fixed_drive 2) (replicate (Z.to_nat 8198) 0) [fixed_sector; fixed_sector] (fixed_state 2) (fixed_transfer 2)
    _ _ _ _ _ _ _ _ _ _).
  - vm_compute; reflexivity.
  - vm_compute; reflexivity.
  - vm_compute; reflexivity.
  - split; vm_compute; (reflexivity || discriminate).
  - vm_compute; discriminate.
  - vm_compute; reflexivity.
  - apply sectors_from_map. vm_compute; reflexivity.
  - vm_compute; discriminate.
  - vm_compute; discriminate.
  - vm_compute; reflexivity.
Defined.
