(* ===== verification/VgaRegs.v ===== *)
(** vgacore.c and vga.c: the registers of the display adapter.

    The ports of the five blocks (attribute controller, sequencer, palette, graphics
    controller, CRT controller), the retrace timing derived from them, the marking of
    the tiles to draw again, and the start-up of the adapter.  VgaMem.v holds the
    video memory behind the registers and VgaDraw.v what is drawn from it. *)

From S2P Require Export PciConf Cmos.

(** vgacore.h, vga.h *)
Definition X_TILESIZE : Z := 16.
Definition Y_TILESIZE : Z := 24.
Definition VBE_DISPI_BPP_4 : Z := 0x04.
Definition BX_DDC_MODE_BUILTIN : Z := 1.
Definition DDC_STAGE_STOP : Z := 7.
Definition PCI_VENDOR_ID_TEST : Z := 0x1234.
Definition PCI_DEVICE_ID_VGA_MADEUP : Z := 0x1111.

Definition charmap_offset : list Z :=
  [0x0000; 0x4000; 0x8000; 0xc000; 0x2000; 0x6000; 0xa000; 0xe000].

Definition get_vga : IO VgaCore.t := gets Machine.VgaCore.
Definition upd_vga (f : VgaCore.t -> VgaCore.t) : IO unit := modify (fun s => s <| Machine.VgaCore ::= f |>).
Definition upd_crtc (f : CRTC.t -> CRTC.t) : IO unit := upd_vga (fun v => v <| VgaCore.CRTC ::= f |>).
Definition upd_attr (f : ATTRIBUTE_CTRL.t -> ATTRIBUTE_CTRL.t) : IO unit :=
  upd_vga (fun v => v <| VgaCore.attribute_ctrl ::= f |>).
Definition upd_pel (f : PEL.t -> PEL.t) : IO unit := upd_vga (fun v => v <| VgaCore.pel ::= f |>).
Definition upd_gfx (f : GRAPHICS_CTRL.t -> GRAPHICS_CTRL.t) : IO unit :=
  upd_vga (fun v => v <| VgaCore.graphics_ctrl ::= f |>).
Definition upd_seq (f : SEQUENCER.t -> SEQUENCER.t) : IO unit :=
  upd_vga (fun v => v <| VgaCore.sequencer ::= f |>).

(** A call into the windowing code. *)
Definition gui (c : gui_call) : IO unit := modify (fun s => s <| Machine.Gui ::= cons c |>).

Definition crtc_reg (v : VgaCore.t) (i : Z) : Z := nth0 v.(VgaCore.CRTC).(CRTC.reg) i.
Definition color_emulation (v : VgaCore.t) : bool := nz v.(VgaCore.misc_output).(MISC_OUTPUT.color_emulation).
Definition graphics_alpha (v : VgaCore.t) : bool := nz v.(VgaCore.graphics_ctrl).(GRAPHICS_CTRL.graphics_alpha).

(** ** The video memory *)

(** [VgaCore.memory[i]], of [memsize] bytes. *)
Definition mem_at (v : VgaCore.t) (i : Z) : Z := default 0 (v.(VgaCore.memory) !! i).
Definition mem_load (i : Z) : IO Z :=
  v ← get_vga;
  if (0 <=? i) && (i <? v.(VgaCore.memsize)) then mret (mem_at v i) else stop OutOfBounds.
Definition mem_store (i x : Z) : IO unit :=
  v ← get_vga;
  if (0 <=? i) && (i <? v.(VgaCore.memsize))
  then upd_vga (fun v => v <| VgaCore.memory ::= <[i := u8 x]> |>)
  else stop OutOfBounds.

(** ** Tiles *)

Definition tile_in_range (v : VgaCore.t) (xtile ytile : Z) : bool :=
  (xtile <? v.(VgaCore.num_x_tiles)) && (ytile <? v.(VgaCore.num_y_tiles)).
Definition tile_index (v : VgaCore.t) (xtile ytile : Z) : Z := xtile + ytile * v.(VgaCore.num_x_tiles).

Definition SET_TILE_UPDATED (xtile ytile Value : Z) : IO unit :=
  v ← get_vga;
  when (tile_in_range v xtile ytile) (
    tiles ← of_option NullPointer v.(VgaCore.vga_tile_updated);
    _ ← of_option OutOfBounds (nthZ tiles (tile_index v xtile ytile));
    upd_vga (fun v => v <| VgaCore.vga_tile_updated := Some (updZ tiles (tile_index v xtile ytile) Value) |>)).

Definition GET_TILE_UPDATED (xtile ytile : Z) : IO Z :=
  v ← get_vga;
  if tile_in_range v xtile ytile then
    tiles ← of_option NullPointer v.(VgaCore.vga_tile_updated);
    of_option OutOfBounds (nthZ tiles (tile_index v xtile ytile))
  else mret 0.

(** The last tile of the redrawn interval that starts at [x0]. *)
Definition last_tile (x0 width xmax size : Z) : Z :=
  if x0 <? xmax then u32 (x0 + width - 1) / size else u32 (xmax - 1) / size.

Definition redraw_area (x0 y0 width height : Z) : IO unit :=
  upd_vga (fun v => v <| VgaCore.vga_mem_updated := 1 |>) ;;
  v ← get_vga;
  if graphics_alpha v then
    let xt0 := x0 / X_TILESIZE in
    let yt0 := y0 / Y_TILESIZE in
    let xt1 := last_tile x0 width v.(VgaCore.last_xres) X_TILESIZE in
    let yt1 := last_tile y0 height v.(VgaCore.last_yres) Y_TILESIZE in
    foreach (seqZ yt0 (yt1 - yt0 + 1)) (fun yti =>
      foreach (seqZ xt0 (xt1 - xt0 + 1)) (fun xti => SET_TILE_UPDATED xti yti 1))
  else upd_vga (fun v => v <| VgaCore.text_snapshot := ∅ |>).

Definition vga_redraw_area (x0 y0 width height : Z) : IO unit :=
  if (width =? 0) || (height =? 0) then done_ else redraw_area x0 y0 width height.

(** ** Retrace timing *)

(** [*vclock], [htotal], [vtotal] and [vrstart]. *)
Definition get_crtc_params : IO (Z * Z * Z * Z) :=
  v ← get_vga;
  vclock ← of_option OutOfBounds (nthZ v.(VgaCore.vclk) v.(VgaCore.misc_output).(MISC_OUTPUT.clock_select));
  mret (if nz v.(VgaCore.x_dotclockdiv2) then vclock >>. 1 else vclock,
        u16 (crtc_reg v 0 + 5),
        u16 (crtc_reg v 6 + ((crtc_reg v 7 &. 0x01) <<. 8) + ((crtc_reg v 7 &. 0x20) <<. 4) + 2),
        u16 (crtc_reg v 16 + ((crtc_reg v 7 &. 0x04) <<. 6) + ((crtc_reg v 7 &. 0x80) <<. 2))).

Definition calculate_retrace_timing : IO unit :=
  '(vclock, htotal, vtotal, vrstart) ← get_crtc_params;
  if vclock =? 0 then done_
  else
    v ← get_vga;
    let cwidth := if v.(VgaCore.sequencer).(SEQUENCER.reg1) &. 0x01 =? 1 then 8 else 9 in
    hfreq ← divu vclock (u32 (htotal * cwidth));
    htotal_usec ← divu 1000000 hfreq;
    upd_vga (fun v => v <| VgaCore.htotal_usec := htotal_usec |>) ;;
    let hbstart := crtc_reg v 2 in
    hbstart_usec ← divu (u32 (1000000 * hbstart * cwidth)) vclock;
    upd_vga (fun v => v <| VgaCore.hbstart_usec := hbstart_usec |>) ;;
    let hbend := (crtc_reg v 3 &. 0x1f) + ((crtc_reg v 5 &. 0x80) >>. 2) in
    let hbend := u32 (hbstart + (u32 (hbend - hbstart) &. 0x3f)) in
    hbend_usec ← divu (u32 (1000000 * hbend * cwidth)) vclock;
    upd_vga (fun v => v <| VgaCore.hbend_usec := hbend_usec |>) ;;
    let vrend := u32 ((((crtc_reg v 17 &. 0x0f) - vrstart) &. 0x0f) + vrstart) in
    vfreq ← divu hfreq vtotal;
    vtotal_usec ← divu 1000000 vfreq;
    upd_vga (fun v => v
      <| VgaCore.vtotal_usec := vtotal_usec |>
      <| VgaCore.vblank_usec := u32 (v.(VgaCore.htotal_usec) * v.(VgaCore.vertical_display_end)) |>
      <| VgaCore.vrstart_usec := u32 (v.(VgaCore.htotal_usec) * vrstart) |>
      <| VgaCore.vrend_usec := u32 (v.(VgaCore.htotal_usec) * vrend) |>).

(** ** Port writes

    Each block returns [(needs_update, charmap_update)], the two local flags that the
    end of the handler tests; a [return] of the handler sets neither. *)

Definition nothing : IO (bool * bool) := mret (false, false).
Definition needs_update : IO (bool * bool) := mret (true, false).

Definition set_mode_ctrl (Value : Z) (m : MODE_CTRL.t) : MODE_CTRL.t :=
  m <| MODE_CTRL.graphics_alpha := (Value >>. 0) &. 0x01 |>
    <| MODE_CTRL.display_type := (Value >>. 1) &. 0x01 |>
    <| MODE_CTRL.enable_line_graphics := (Value >>. 2) &. 0x01 |>
    <| MODE_CTRL.blink_intensity := (Value >>. 3) &. 0x01 |>
    <| MODE_CTRL.pixel_panning_compat := (Value >>. 5) &. 0x01 |>
    <| MODE_CTRL.pixel_clock_select := (Value >>. 6) &. 0x01 |>
    <| MODE_CTRL.internal_palette_size := (Value >>. 7) &. 0x01 |>.

(** The data half of port 0x3c0. *)
Definition attribute_data (Value : Z) : IO (bool * bool) :=
  v ← get_vga;
  let a := v.(VgaCore.attribute_ctrl) in
  let address := a.(ATTRIBUTE_CTRL.address) in
  if address <? 0x10 then
    old ← of_option OutOfBounds (nthZ a.(ATTRIBUTE_CTRL.palette_reg) address);
    if negb (Value =? old) then
      upd_attr (fun a => a <| ATTRIBUTE_CTRL.palette_reg ::= fun l => updZ l address (u8 Value) |>) ;;
      needs_update
    else nothing
  else if address =? 0x10 then
    let prev := a.(ATTRIBUTE_CTRL.mode_ctrl) in
    upd_attr (fun a => a <| ATTRIBUTE_CTRL.mode_ctrl ::= set_mode_ctrl Value |>) ;;
    mret (negb ((Value >>. 7) &. 0x01 =? prev.(MODE_CTRL.internal_palette_size)),
          negb ((Value >>. 2) &. 0x01 =? prev.(MODE_CTRL.enable_line_graphics)))
  else if address =? 0x11 then
    upd_attr (fun a => a <| ATTRIBUTE_CTRL.overscan_color := Value &. 0x3f |>) ;; nothing
  else if address =? 0x12 then
    upd_attr (fun a => a <| ATTRIBUTE_CTRL.color_plane_enable := Value &. 0x0f |>) ;; needs_update
  else if address =? 0x13 then
    upd_attr (fun a => a <| ATTRIBUTE_CTRL.horiz_pel_panning := Value &. 0x0f |>) ;; needs_update
  else if address =? 0x14 then
    upd_attr (fun a => a <| ATTRIBUTE_CTRL.color_select := Value &. 0x0f |>) ;; needs_update
  else nothing.

Definition attribute_write (Value : Z) : IO (bool * bool) :=
  v ← get_vga;
  let a := v.(VgaCore.attribute_ctrl) in
  flags ← (if a.(ATTRIBUTE_CTRL.flip_flop) =? 0 then
             let enabled := (Value >>. 5) &. 0x01 in
             upd_attr (fun a => a <| ATTRIBUTE_CTRL.video_enabled := enabled |>) ;;
             when (enabled =? 0) (gui gui_clear_screen) ;;
             upd_attr (fun a => a <| ATTRIBUTE_CTRL.address := Value &. 0x1f |>) ;;
             mret (negb (enabled =? 0) && (a.(ATTRIBUTE_CTRL.video_enabled) =? 0), false)
           else attribute_data Value);
  upd_attr (fun a => a <| ATTRIBUTE_CTRL.flip_flop ::= fun x => b2z (x =? 0) |>) ;;
  mret flags.

Definition misc_output_write (Value : Z) : IO (bool * bool) :=
  upd_vga (fun v => v <| VgaCore.misc_output ::= fun m => m
    <| MISC_OUTPUT.color_emulation := (Value >>. 0) &. 0x01 |>
    <| MISC_OUTPUT.enable_ram := (Value >>. 1) &. 0x01 |>
    <| MISC_OUTPUT.clock_select := (Value >>. 2) &. 0x03 |>
    <| MISC_OUTPUT.select_high_bank := (Value >>. 5) &. 0x01 |>
    <| MISC_OUTPUT.horiz_sync_pol := (Value >>. 6) &. 0x01 |>
    <| MISC_OUTPUT.vert_sync_pol := (Value >>. 7) &. 0x01 |> |>) ;;
  calculate_retrace_timing ;; nothing.

(** The character map chosen by bits 4, 1 and 0: [charmap1]. *)
Definition charmap_number (Value : Z) : Z :=
  let charmap1 := Value &. 0x13 in if 3 <? charmap1 then (charmap1 &. 3) + 4 else charmap1.

Definition sequencer_write (Value : Z) : IO (bool * bool) :=
  v ← get_vga;
  let q := v.(VgaCore.sequencer) in
  let index := q.(SEQUENCER.index) in
  if index =? 0 then
    let reset := nz q.(SEQUENCER.reset1) && (Value &. 0x01 =? 0) in
    when reset (
      upd_seq (fun q => q <| SEQUENCER.char_map_select := 0 |>) ;;
      upd_vga (fun v => v <| VgaCore.charmap_address := 0 |>)) ;;
    upd_seq (fun q => q <| SEQUENCER.reset1 := (Value >>. 0) &. 0x01 |>
                        <| SEQUENCER.reset2 := (Value >>. 1) &. 0x01 |>) ;;
    mret (false, reset)
  else if index =? 1 then
    let changed := Z.lxor Value q.(SEQUENCER.reg1) &? 0x29 in
    when changed (
      upd_vga (fun v => v <| VgaCore.x_dotclockdiv2 := b2z (0 <? Value &. 0x08) |>) ;;
      upd_seq (fun q => q <| SEQUENCER.clear_screen := b2z (0 <? Value &. 0x20) |>) ;;
      calculate_retrace_timing) ;;
    upd_seq (fun q => q <| SEQUENCER.reg1 := Value &. 0x3d |>) ;;
    mret (changed, false)
  else if index =? 2 then
    upd_seq (fun q => q <| SEQUENCER.map_mask := Value &. 0x0f |>) ;; nothing
  else if index =? 3 then
    upd_seq (fun q => q <| SEQUENCER.char_map_select := Value &. 0x3f |>) ;;
    if 0 <? crtc_reg v 0x09 then
      address ← of_option OutOfBounds (nthZ charmap_offset (charmap_number Value));
      upd_vga (fun v => v <| VgaCore.charmap_address := address |>) ;;
      mret (false, true)
    else nothing
  else if index =? 4 then
    upd_seq (fun q => q <| SEQUENCER.extended_mem := (Value >>. 1) &. 0x01 |>
                        <| SEQUENCER.odd_even := (Value >>. 2) &. 0x01 |>
                        <| SEQUENCER.chain_four := (Value >>. 3) &. 0x01 |>) ;; nothing
  else nothing.

Definition pel_mask_write (Value : Z) : IO (bool * bool) :=
  v ← get_vga;
  if negb (Value =? v.(VgaCore.pel).(PEL.mask)) then
    upd_pel (fun p => p <| PEL.mask := u8 Value |>) ;; needs_update
  else nothing.

(** [pel.data[i].c = Value] for one of the three colours. *)
Definition set_colour (i : Z) (f : RGB.t -> RGB.t) : IO unit :=
  v ← get_vga;
  c ← of_option OutOfBounds (nthZ v.(VgaCore.pel).(PEL.data) i);
  upd_pel (fun p => p <| PEL.data ::= fun l => updZ l i (f c) |>).

Definition pel_data_write (Value : Z) : IO (bool * bool) :=
  v ← get_vga;
  let p := v.(VgaCore.pel) in
  let i := p.(PEL.write_data_register) in
  flags ← (if p.(PEL.write_data_cycle) =? 0 then
             set_colour i (fun c => c <| RGB.red := u8 Value |>) ;; nothing
           else if p.(PEL.write_data_cycle) =? 1 then
             set_colour i (fun c => c <| RGB.green := u8 Value |>) ;; nothing
           else if p.(PEL.write_data_cycle) =? 2 then
             set_colour i (fun c => c <| RGB.blue := u8 Value |>) ;;
             v ← get_vga;
             c ← of_option OutOfBounds (nthZ v.(VgaCore.pel).(PEL.data) i);
             let shifted x := u8 (x <<. v.(VgaCore.dac_shift)) in
             gui (gui_palette_change i (shifted c.(RGB.red)) (shifted c.(RGB.green)) (shifted c.(RGB.blue))) ;;
             needs_update
           else nothing);
  upd_pel (fun p => p <| PEL.write_data_cycle ::= fun x => u8 (x + 1) |>) ;;
  v ← get_vga;
  when (3 <=? v.(VgaCore.pel).(PEL.write_data_cycle)) (
    upd_pel (fun p => p <| PEL.write_data_cycle := 0 |>
                        <| PEL.write_data_register ::= fun x => u8 (x + 1) |>)) ;;
  mret flags.

Definition graphics_write (Value : Z) : IO (bool * bool) :=
  v ← get_vga;
  let g := v.(VgaCore.graphics_ctrl) in
  let index := g.(GRAPHICS_CTRL.index) in
  if index =? 0 then upd_gfx (fun g => g <| GRAPHICS_CTRL.set_reset := Value &. 0x0f |>) ;; nothing
  else if index =? 1 then upd_gfx (fun g => g <| GRAPHICS_CTRL.enable_set_reset := Value &. 0x0f |>) ;; nothing
  else if index =? 2 then upd_gfx (fun g => g <| GRAPHICS_CTRL.color_compare := Value &. 0x0f |>) ;; nothing
  else if index =? 3 then
    upd_gfx (fun g => g <| GRAPHICS_CTRL.data_rotate := Value &. 0x07 |>
                        <| GRAPHICS_CTRL.raster_op := (Value >>. 3) &. 0x03 |>) ;; nothing
  else if index =? 4 then upd_gfx (fun g => g <| GRAPHICS_CTRL.read_map_select := Value &. 0x03 |>) ;; nothing
  else if index =? 5 then
    upd_gfx (fun g => g <| GRAPHICS_CTRL.write_mode := Value &. 0x03 |>
                        <| GRAPHICS_CTRL.read_mode := (Value >>. 3) &. 0x01 |>
                        <| GRAPHICS_CTRL.odd_even := (Value >>. 4) &. 0x01 |>
                        <| GRAPHICS_CTRL.shift_reg := (Value >>. 5) &. 0x03 |>) ;; nothing
  else if index =? 6 then
    upd_gfx (fun g => g <| GRAPHICS_CTRL.graphics_alpha := Value &. 0x01 |>
                        <| GRAPHICS_CTRL.chain_odd_even := (Value >>. 1) &. 0x01 |>
                        <| GRAPHICS_CTRL.memory_mapping := (Value >>. 2) &. 0x03 |>) ;;
    let mapping := negb (g.(GRAPHICS_CTRL.memory_mapping) =? (Value >>. 2) &. 0x03) in
    let alpha := negb (g.(GRAPHICS_CTRL.graphics_alpha) =? Value &. 0x01) in
    when alpha (upd_vga (fun v => v <| VgaCore.last_yres := 0 |>)) ;;
    mret (mapping || alpha, false)
  else if index =? 7 then upd_gfx (fun g => g <| GRAPHICS_CTRL.color_dont_care := Value &. 0x0f |>) ;; nothing
  else if index =? 8 then upd_gfx (fun g => g <| GRAPHICS_CTRL.bitmask := u8 Value |>) ;; nothing
  else nothing.

(** The bits of register 7 that extend [vertical_display_end] and [line_compare]. *)
Definition display_end_high (r7 old : Z) : Z :=
  let e := old &. 0xff in
  let e := if r7 &? 0x02 then e |. 0x100 else e in
  if r7 &? 0x40 then e |. 0x200 else e.
Definition compare_high (r7 old : Z) : Z :=
  let e := old &. 0x2ff in if r7 &? 0x10 then e |. 0x100 else e.
Definition offset_of_registers (r13 r14 r17 : Z) : Z :=
  let o := r13 <<. 1 in
  if r14 &? 0x40 then o <<. 2 else if r17 &. 0x40 =? 0 then o <<. 1 else o.

(** The inner switch of the CRT controller, for the register [address] that was
    just stored. *)
Definition crtc_changed (address Value : Z) : IO (bool * bool) :=
  v ← get_vga;
  if bool_decide (address ∈ [0x00; 0x02; 0x03; 0x05; 0x06; 0x10]) then
    calculate_retrace_timing ;; nothing
  else if address =? 0x07 then
    upd_vga (fun v => v <| VgaCore.vertical_display_end ::= display_end_high (crtc_reg v 0x07) |>
                        <| VgaCore.line_compare ::= compare_high (crtc_reg v 0x07) |>) ;;
    calculate_retrace_timing ;; needs_update
  else if address =? 0x08 then needs_update
  else if address =? 0x09 then
    upd_vga (fun v => v
      <| VgaCore.y_doublescan := b2z (0 <? Value &. 0x9f) |>
      <| VgaCore.line_compare ::= fun x =>
           let c := x &. 0x1ff in if crtc_reg v 0x09 &? 0x40 then c |. 0x200 else c |>) ;;
    mret (true, true)
  else if bool_decide (address ∈ [0x0a; 0x0b; 0x0e; 0x0f]) then
    upd_vga (fun v => v <| VgaCore.vga_mem_updated := 1 |>) ;; nothing
  else if (address =? 0x0c) || (address =? 0x0d) then
    if graphics_alpha v then needs_update
    else upd_vga (fun v => v <| VgaCore.vga_mem_updated := 1 |>) ;; nothing
  else if address =? 0x11 then
    upd_crtc (fun c => c <| CRTC.write_protect := b2z (0 <? crtc_reg v 0x11 &. 0x80) |>) ;;
    calculate_retrace_timing ;; nothing
  else if address =? 0x12 then
    upd_vga (fun v => v <| VgaCore.vertical_display_end ::= fun x => (x &. 0x300) |. crtc_reg v 0x12 |>) ;;
    calculate_retrace_timing ;; nothing
  else if bool_decide (address ∈ [0x13; 0x14; 0x17]) then
    upd_vga (fun v => v <| VgaCore.line_offset :=
      offset_of_registers (crtc_reg v 0x13) (crtc_reg v 0x14) (crtc_reg v 0x17) |>) ;;
    needs_update
  else if address =? 0x18 then
    upd_vga (fun v => v <| VgaCore.line_compare ::= fun x => (x &. 0x300) |. crtc_reg v 0x18 |>) ;;
    needs_update
  else nothing.

Definition set_crtc_reg (address : Z) (f : Z -> Z) : IO unit :=
  upd_crtc (fun c => c <| CRTC.reg ::= alterZ address f |>).

Definition crtc_write (Value : Z) : IO (bool * bool) :=
  v ← get_vga;
  let c := v.(VgaCore.CRTC) in
  let address := c.(CRTC.address) in
  if 0x18 <? address then nothing
  else if nz c.(CRTC.write_protect) && (address <? 0x08) then
    if address =? 0x07 then
      set_crtc_reg 0x07 (fun r => (r &. u8 (~. 0x10)) |. (Value &. 0x10)) ;;
      upd_vga (fun v => v <| VgaCore.line_compare ::= compare_high (crtc_reg v 0x07) |>) ;;
      needs_update
    else nothing
  else if negb (Value =? crtc_reg v address) then
    set_crtc_reg address (fun _ => u8 Value) ;;
    crtc_changed address Value
  else nothing.

(** The other emulation's copy of the CRT controller's ports. *)
Definition wrong_emulation (v : VgaCore.t) (Address : Z) : bool :=
  ((0x03b0 <=? Address) && (Address <=? 0x03bf) && color_emulation v)
  || ((0x03d0 <=? Address) && (Address <=? 0x03df) && negb (color_emulation v)).

(** The switch over the port. *)
Definition vga_write_port (Address Value : Z) : IO (bool * bool) :=
  if Address =? 0x03c0 then attribute_write Value
  else if Address =? 0x03c2 then misc_output_write Value
  else if Address =? 0x03c3 then
    upd_vga (fun v => v <| VgaCore.vga_enabled := Value &. 0x01 |>) ;; nothing
  else if Address =? 0x03c4 then
    upd_seq (fun q => q <| SEQUENCER.index := u8 Value |>) ;; nothing
  else if Address =? 0x03c5 then sequencer_write Value
  else if Address =? 0x03c6 then pel_mask_write Value
  else if Address =? 0x03c7 then
    upd_pel (fun p => p <| PEL.read_data_register := u8 Value |> <| PEL.read_data_cycle := 0 |>
                        <| PEL.dac_state := 0x03 |>) ;; nothing
  else if Address =? 0x03c8 then
    upd_pel (fun p => p <| PEL.write_data_register := u8 Value |> <| PEL.write_data_cycle := 0 |>
                        <| PEL.dac_state := 0x00 |>) ;; nothing
  else if Address =? 0x03c9 then pel_data_write Value
  else if Address =? 0x03ce then
    upd_gfx (fun g => g <| GRAPHICS_CTRL.index := u8 Value |>) ;; nothing
  else if Address =? 0x03cf then graphics_write Value
  else if (Address =? 0x03b4) || (Address =? 0x03d4) then
    upd_crtc (fun c => c <| CRTC.address := Value &. 0x3f |>) ;; nothing
  else if (Address =? 0x03b5) || (Address =? 0x03d5) then crtc_write Value
  else nothing.

(** The 0x2000 bytes of a font: [&VgaCore.memory[0x20000 + VgaCore.charmap_address]]. *)
Definition load_charmap : IO unit :=
  v ← get_vga;
  let base := 0x20000 + v.(VgaCore.charmap_address) in
  if base + 0x2000 <=? v.(VgaCore.memsize)
  then gui (gui_set_text_charmap (map (mem_at v) (seqZ base 0x2000)))
  else stop OutOfBounds.

(** The end of the handler. *)
Definition vga_write_end (flags : bool * bool) : IO unit :=
  when flags.2 (load_charmap ;; upd_vga (fun v => v <| VgaCore.vga_mem_updated := 1 |>)) ;;
  when flags.1 (
    v ← get_vga; vga_redraw_area 0 0 v.(VgaCore.last_xres) v.(VgaCore.last_yres)).

(** The handler for a [Length] other than 2. *)
Definition vga_core_write (Address Value : Z) : IO unit :=
  v ← get_vga;
  if wrong_emulation v Address then done_
  else flags ← vga_write_port Address Value; vga_write_end flags.

Definition VgaCorePortIoWriteHandler (Address Value Length : Z) : IO unit :=
  if Length =? 2 then
    vga_core_write Address (Value &. 0xff) ;;
    vga_core_write (u64 (Address + 1)) ((Value >>. 8) &. 0xff)
  else vga_core_write Address Value.

(** vga.c, [VgaPortIoWriteHandler] for a [Length] other than 2. *)
Definition vga_write (Address Value Length : Z) : IO unit :=
  v ← get_vga;
  if wrong_emulation v Address then done_
  else if (Address =? 0x03b5) || (Address =? 0x03d5) then
    let address := v.(VgaCore.CRTC).(CRTC.address) in
    if 0x18 <? address then done_
    else
      g ← gets Machine.Vga;
      when (negb (Value =? crtc_reg v address)) (
        if bool_decide (address ∈ [0x13; 0x14; 0x17]) then
          if negb (nz g.(VGA.vbe).(VBE.enabled)) || (g.(VGA.vbe).(VBE.bpp) =? VBE_DISPI_BPP_4)
          then VgaCorePortIoWriteHandler Address Value Length
          else set_crtc_reg address (fun _ => u8 Value)
        else VgaCorePortIoWriteHandler Address Value Length)
  else VgaCorePortIoWriteHandler Address Value Length.

Definition VgaPortIoWriteHandler (Address Value Length : Z) : IO unit :=
  if Length =? 2 then
    vga_write Address (Value &. 0xff) 1 ;;
    vga_write (u64 (Address + 1)) ((Value >>. 8) &. 0xff) 1
  else vga_write Address Value Length.

(** ** Port reads *)

Definition mode_ctrl_byte (m : MODE_CTRL.t) : Z :=
  u8 ((m.(MODE_CTRL.graphics_alpha) <<. 0) |. (m.(MODE_CTRL.display_type) <<. 1)
      |. (m.(MODE_CTRL.enable_line_graphics) <<. 2) |. (m.(MODE_CTRL.blink_intensity) <<. 3)
      |. (m.(MODE_CTRL.pixel_panning_compat) <<. 5) |. (m.(MODE_CTRL.pixel_clock_select) <<. 6)
      |. (m.(MODE_CTRL.internal_palette_size) <<. 7)).

Definition attribute_read : IO Z :=
  v ← get_vga;
  let a := v.(VgaCore.attribute_ctrl) in
  let address := a.(ATTRIBUTE_CTRL.address) in
  if address <? 0x10 then of_option OutOfBounds (nthZ a.(ATTRIBUTE_CTRL.palette_reg) address)
  else mret (
    if address =? 0x10 then mode_ctrl_byte a.(ATTRIBUTE_CTRL.mode_ctrl)
    else if address =? 0x11 then a.(ATTRIBUTE_CTRL.overscan_color)
    else if address =? 0x12 then a.(ATTRIBUTE_CTRL.color_plane_enable)
    else if address =? 0x13 then a.(ATTRIBUTE_CTRL.horiz_pel_panning)
    else if address =? 0x14 then a.(ATTRIBUTE_CTRL.color_select)
    else 0).

Definition sequencer_read (q : SEQUENCER.t) : Z :=
  let index := q.(SEQUENCER.index) in
  if index =? 0 then u8 q.(SEQUENCER.reset1) |. (q.(SEQUENCER.reset2) <<. 1)
  else if index =? 1 then q.(SEQUENCER.reg1)
  else if index =? 2 then q.(SEQUENCER.map_mask)
  else if index =? 3 then q.(SEQUENCER.char_map_select)
  else if index =? 4 then
    u8 ((q.(SEQUENCER.extended_mem) <<. 1) |. (q.(SEQUENCER.odd_even) <<. 2)
        |. (q.(SEQUENCER.chain_four) <<. 3))
  else 0.

Definition pel_data_read : IO Z :=
  v ← get_vga;
  let p := v.(VgaCore.pel) in
  if p.(PEL.dac_state) =? 0x03 then
    c ← of_option OutOfBounds (nthZ p.(PEL.data) p.(PEL.read_data_register));
    let retval := if p.(PEL.read_data_cycle) =? 0 then c.(RGB.red)
                  else if p.(PEL.read_data_cycle) =? 1 then c.(RGB.green)
                  else if p.(PEL.read_data_cycle) =? 2 then c.(RGB.blue) else 0 in
    upd_pel (fun p => p <| PEL.read_data_cycle ::= fun x => u8 (x + 1) |>) ;;
    v ← get_vga;
    when (3 <=? v.(VgaCore.pel).(PEL.read_data_cycle)) (
      upd_pel (fun p => p <| PEL.read_data_cycle := 0 |>
                          <| PEL.read_data_register ::= fun x => u8 (x + 1) |>)) ;;
    mret retval
  else mret 0x3f.

Definition misc_output_byte (m : MISC_OUTPUT.t) : Z :=
  u8 (((m.(MISC_OUTPUT.color_emulation) &. 0x01) <<. 0)
      |. ((m.(MISC_OUTPUT.enable_ram) &. 0x01) <<. 1)
      |. ((m.(MISC_OUTPUT.clock_select) &. 0x03) <<. 2)
      |. ((m.(MISC_OUTPUT.select_high_bank) &. 0x01) <<. 5)
      |. ((m.(MISC_OUTPUT.horiz_sync_pol) &. 0x01) <<. 6)
      |. ((m.(MISC_OUTPUT.vert_sync_pol) &. 0x01) <<. 7)).

(** The mode register answers 0 in the modes with neither [odd_even] nor [shift_reg]:
    the [return] is guarded by the test before it. *)
Definition graphics_read (g : GRAPHICS_CTRL.t) : Z :=
  let index := g.(GRAPHICS_CTRL.index) in
  if index =? 0 then g.(GRAPHICS_CTRL.set_reset)
  else if index =? 1 then g.(GRAPHICS_CTRL.enable_set_reset)
  else if index =? 2 then g.(GRAPHICS_CTRL.color_compare)
  else if index =? 3 then
    u8 (((g.(GRAPHICS_CTRL.raster_op) &. 0x03) <<. 3) |. ((g.(GRAPHICS_CTRL.data_rotate) &. 0x07) <<. 0))
  else if index =? 4 then g.(GRAPHICS_CTRL.read_map_select)
  else if index =? 5 then
    let retval :=
      u8 (((g.(GRAPHICS_CTRL.shift_reg) &. 0x03) <<. 5) |. ((g.(GRAPHICS_CTRL.odd_even) &. 0x01) <<. 4)
          |. ((g.(GRAPHICS_CTRL.read_mode) &. 0x01) <<. 3)
          |. ((g.(GRAPHICS_CTRL.write_mode) &. 0x03) <<. 0)) in
    if nz g.(GRAPHICS_CTRL.odd_even) || nz g.(GRAPHICS_CTRL.shift_reg) then retval else 0
  else if index =? 6 then
    u8 (((g.(GRAPHICS_CTRL.memory_mapping) &. 0x03) <<. 2)
        |. ((g.(GRAPHICS_CTRL.odd_even) &. 0x01) <<. 1)
        |. ((g.(GRAPHICS_CTRL.graphics_alpha) &. 0x01) <<. 0))
  else if index =? 7 then g.(GRAPHICS_CTRL.color_dont_care)
  else if index =? 8 then g.(GRAPHICS_CTRL.bitmask)
  else 0.

Definition crtc_read : IO Z :=
  v ← get_vga;
  let address := v.(VgaCore.CRTC).(CRTC.address) in
  if address =? 0x22 then
    let g := v.(VgaCore.graphics_ctrl) in
    of_option OutOfBounds (nthZ g.(GRAPHICS_CTRL.latch) g.(GRAPHICS_CTRL.read_map_select))
  else if 0x18 <? address then mret 0
  else mret (crtc_reg v address).

(** The handler for a [Length] other than 2. *)
Definition vga_core_read (Address : Z) : IO Z :=
  v ← get_vga;
  let a := v.(VgaCore.attribute_ctrl) in
  if wrong_emulation v Address then mret 0xff
  else if (Address =? 0x03ba) || (Address =? 0x03ca) || (Address =? 0x03da) then
    upd_attr (fun a => a <| ATTRIBUTE_CTRL.flip_flop := 0 |>) ;; mret 0
  else if Address =? 0x03c0 then
    mret (if a.(ATTRIBUTE_CTRL.flip_flop) =? 0
          then u8 ((a.(ATTRIBUTE_CTRL.video_enabled) <<. 5) |. a.(ATTRIBUTE_CTRL.address)) else 0)
  else if Address =? 0x03c1 then attribute_read
  else if Address =? 0x03c3 then mret v.(VgaCore.vga_enabled)
  else if Address =? 0x03c4 then mret v.(VgaCore.sequencer).(SEQUENCER.index)
  else if Address =? 0x03c5 then mret (sequencer_read v.(VgaCore.sequencer))
  else if Address =? 0x03c6 then mret v.(VgaCore.pel).(PEL.mask)
  else if Address =? 0x03c7 then mret v.(VgaCore.pel).(PEL.dac_state)
  else if Address =? 0x03c8 then mret v.(VgaCore.pel).(PEL.write_data_register)
  else if Address =? 0x03c9 then pel_data_read
  else if Address =? 0x03cc then mret (misc_output_byte v.(VgaCore.misc_output))
  else if Address =? 0x03ce then mret v.(VgaCore.graphics_ctrl).(GRAPHICS_CTRL.index)
  else if Address =? 0x03cf then mret (graphics_read v.(VgaCore.graphics_ctrl))
  else if Address =? 0x03d4 then mret v.(VgaCore.CRTC).(CRTC.address)
  else if (Address =? 0x03b5) || (Address =? 0x03d5) then crtc_read
  else mret 0.

Definition VgaCorePortIoReadHandler (Address Length : Z) : IO Z :=
  if Length =? 2 then
    lo ← vga_core_read Address;
    hi ← vga_core_read (u64 (Address + 1));
    mret (u16 (u16 lo |. (hi <<. 8)))
  else vga_core_read Address.

(** ** Start-up *)

Definition vga_address (offset : Z) : Z := PCI_DEVFUNC_OFFSET_TO_ADDRESS 0 (BX_PCI_DEVICE 2 0) offset.

(** One turn of the loop, for the register [write_addr = Address + i]. *)
Fixpoint vga_conf_loop (l : list Z) (k : Z * Z) (Address Value : Z) : IO unit :=
  match l with
  | [] => done_
  | i :: l =>
      let write_addr := u32 (Address + i) in
      when (negb ((write_addr =? 0x04) || (write_addr =? 0x06))) (
        if 256 <=? write_addr then stop OutOfBounds else set_conf k write_addr (u8 (Value &. 0xff))) ;;
      vga_conf_loop l k Address (Value >>. 8)
  end.

Definition VgaWritePciConfHandler (k : Z * Z) (Address Value Length : Z) : IO unit :=
  if (0x14 <=? Address) && (Address <? 0x30) then done_
  else vga_conf_loop (seqZ 0 Length) k Address Value.

(** The VBE ports: a write does nothing, a read has no [return]. *)
Definition VgaVbePortIoWriteHandler (Address Value Length : Z) : IO unit := done_.
Definition VgaVbePortIoReadHandler (Address Length : Z) : IO Z := stop Indeterminate.

Definition vesa_EDID : list Z :=
  [0x00; 0xff; 0xff; 0xff; 0xff; 0xff; 0xff; 0x00; 0x04; 0x21; 0xab; 0xcd; 0x00; 0x00; 0x00; 0x00;
   0x0c; 0x0b; 0x01; 0x03; 0x0f; 0x21; 0x19; 0x78; 0x0f; 0x78; 0xf5; 0xa6; 0x55; 0x48; 0x9b; 0x26;
   0x12; 0x50; 0x54; 0xff; 0xef; 0x80; 0x31; 0x59; 0x45; 0x59; 0x61; 0x59; 0x81; 0xca; 0x81; 0x0a;
   0xa9; 0xc0; 0xa9; 0x40; 0xd1; 0x00; 0x3c; 0x28; 0x80; 0xa0; 0x70; 0xb0; 0x23; 0x40; 0x30; 0x20;
   0x36; 0x00; 0x06; 0x44; 0x21; 0x00; 0x00; 0x1e; 0x30; 0x2a; 0x00; 0x98; 0x51; 0x00; 0x2a; 0x40;
   0x30; 0x70; 0x13; 0x00; 0x2c; 0xe1; 0x10; 0x00; 0x00; 0x1e; 0x00; 0x00; 0x00; 0xff; 0x00; 0x30;
   0x31; 0x32; 0x33; 0x34; 0x35; 0x36; 0x37; 0x38; 0x39; 0x0a; 0x20; 0x20; 0x00; 0x00; 0x00; 0xfc;
   0x00; 0x42; 0x6f; 0x63; 0x68; 0x73; 0x20; 0x53; 0x63; 0x72; 0x65; 0x65; 0x6e; 0x0a; 0x00; 0x00].

(** The sum of the bytes at type [BYTE]. *)
Definition edid_checksum (l : list Z) : Z := foldl (fun c b => u8 (c + b)) 0 l.

Definition edid_init (d : DDC.t) : DDC.t :=
  let d := d <| DDC.DCKhost := 1 |> <| DDC.DDAhost := 1 |> <| DDC.DDAmon := 1 |>
             <| DDC.ddc_stage := DDC_STAGE_STOP |> <| DDC.ddc_ack := 1 |> <| DDC.ddc_rw := 1 |>
             <| DDC.edid_index := 0 |> <| DDC.ddc_mode := 1 |> in
  let d := if d.(DDC.ddc_mode) =? BX_DDC_MODE_BUILTIN
           then d <| DDC.edid_data ::= fun l => vesa_EDID ++ drop 128 l |> <| DDC.edid_extblock := 0 |>
           else d in
  let d := d <| DDC.edid_data ::= alterZ 127 (fun _ => 0) |> in
  let checksum := edid_checksum (take 128 d.(DDC.edid_data)) in
  if nz checksum then d <| DDC.edid_data ::= alterZ 127 (fun _ => u8 (- checksum)) |> else d.

Definition VgaInitialize : IO unit :=
  modify (fun s => s <| Machine.Vga := VGA.zero <| VGA.ddc := edid_init DDC.zero |> |>) ;;
  foreach (seqZ 0x03b4 2 ++ [0x03ba] ++ seqZ 0x03c0 16 ++ seqZ 0x03d4 2 ++ [0x03da]) (fun Address =>
    RegisterPortIoHandler Address (Some cb_Vga) (Some cb_Vga)) ;;
  _ ← PciRegisterConfigHandler (vga_address 0) (Some cc_Vga);
  PciInitConfig (vga_address 0) PCI_VENDOR_ID_TEST PCI_DEVICE_ID_VGA_MADEUP 0x00 0x0300 0x00 0x00 0 ;;
  foreach (seqZ 0x1ce 2) (fun Address => RegisterPortIoHandler Address (Some cb_VgaVbe) (Some cb_VgaVbe)) ;;
  equipment ← CmosGetRegister REG_EQUIPMENT_BYTE;
  CmosSetRegister REG_EQUIPMENT_BYTE ((equipment &. 0xcf) |. 0x00).

(** The fields set before the windowing code starts, from zero; the first update finds
    [cs_counter] at 1. *)
Definition vga_core_start : VgaCore.t := VgaCore.zero
  <| VgaCore.vga_enabled := 1 |>
  <| VgaCore.misc_output := MISC_OUTPUT.mk 1 1 0 0 1 1 |>
  <| VgaCore.attribute_ctrl ::= fun a => a
       <| ATTRIBUTE_CTRL.mode_ctrl ::= fun m => m <| MODE_CTRL.enable_line_graphics := 1 |> |>
       <| ATTRIBUTE_CTRL.video_enabled := 1 |> <| ATTRIBUTE_CTRL.color_plane_enable := 0x0f |> |>
  <| VgaCore.line_offset := 80 |>
  <| VgaCore.line_compare := 1023 |>
  <| VgaCore.vertical_display_end := 399 |>
  <| VgaCore.pel ::= fun p => p <| PEL.dac_state := 0x01 |> <| PEL.mask := 0xff |> |>
  <| VgaCore.graphics_ctrl ::= fun g => g <| GRAPHICS_CTRL.memory_mapping := 2 |> |>
  <| VgaCore.sequencer ::= fun q => q
       <| SEQUENCER.reset1 := 1 |> <| SEQUENCER.reset2 := 1 |>
       <| SEQUENCER.extended_mem := 1 |> <| SEQUENCER.odd_even := 1 |> |>
  <| VgaCore.plane_shift := 16 |>
  <| VgaCore.dac_shift := 2 |>
  <| VgaCore.last_bpp := 8 |>
  <| VgaCore.vclk := [25175000; 28322000; 0; 0] |>
  <| VgaCore.htotal_usec := 31 |>
  <| VgaCore.vtotal_usec := 14285 |>
  <| VgaCore.max_xres := 800 |>
  <| VgaCore.max_yres := 600 |>
  <| VgaCore.vga_override := 0 |>
  <| VgaCore.blink_counter := 1 |>
  <| VgaCore.memsize := 0x40000 |>
  <| VgaCore.cs_counter := 1 |>.

(** [max / size + ((max % size) > 0)] *)
Definition tiles_of (max size : Z) : Z := max / size + (if 0 <? max mod size then 1 else 0).

Definition vga_tiles (v : VgaCore.t) : VgaCore.t :=
  let nx := tiles_of v.(VgaCore.max_xres) X_TILESIZE in
  let ny := tiles_of v.(VgaCore.max_yres) Y_TILESIZE in
  v <| VgaCore.num_x_tiles := nx |> <| VgaCore.num_y_tiles := ny |>
    <| VgaCore.vga_tile_updated := Some (replicate (Z.to_nat (nx * ny)) 0) |>.

(** The windows that [GuiInitialize] opens are not part of the model. *)
Definition VgaCoreInitialize `{!Driver} : IO unit :=
  upd_vga (fun _ => vga_core_start) ;;
  VgaInitialize ;;
  MmioRegisterHandler 0xa0000 0x20000 (Some cb_VgaMmio) (Some cb_VgaMmio) ;;
  _ ← TimerRegister TICK_PERIOD fn_VgaCoreTimerHandler 0;
  upd_vga vga_tiles.

#[local] Arguments crtc_reg : simpl never.

(** Safety of the operations whose arguments have a range. *)
Create HintDb vga.
#[export] Hint Extern 1 (0 <= _) => lia : vga.
#[export] Hint Extern 1 (0 <= _ &. _) => apply Z.land_nonneg; lia : vga.
#[export] Hint Resolve u8_range : vga.

(** ** The invariant of the registers *)

Record crtc_ok (c : CRTC.t) : Prop := {
  ok_reg : length c.(CRTC.reg) = 25%nat;
  ok_reg_bytes : Forall is_u8 c.(CRTC.reg);
  ok_crtc_address : 0 <= c.(CRTC.address)
}.
Record attr_ok (a : ATTRIBUTE_CTRL.t) : Prop := {
  ok_palette : length a.(ATTRIBUTE_CTRL.palette_reg) = 16%nat;
  ok_palette_bytes : Forall is_u8 a.(ATTRIBUTE_CTRL.palette_reg);
  ok_attr_address : 0 <= a.(ATTRIBUTE_CTRL.address)
}.
Record pel_ok (p : PEL.t) : Prop := {
  ok_data : length p.(PEL.data) = 256%nat;
  ok_write_register : is_u8 p.(PEL.write_data_register);
  ok_read_register : is_u8 p.(PEL.read_data_register)
}.
Record gfx_ok (g : GRAPHICS_CTRL.t) : Prop := {
  ok_latch : length g.(GRAPHICS_CTRL.latch) = 4%nat;
  ok_read_map : 0 <= g.(GRAPHICS_CTRL.read_map_select) < 4
}.

(** The sizes of the arrays, the ranges of their indices, and the constants that no
    operation changes after the start. *)
Record vga_ok (v : VgaCore.t) : Prop := {
  ok_crtc : crtc_ok v.(VgaCore.CRTC);
  ok_attr : attr_ok v.(VgaCore.attribute_ctrl);
  ok_pel : pel_ok v.(VgaCore.pel);
  ok_gfx : gfx_ok v.(VgaCore.graphics_ctrl);
  ok_clock : 0 <= v.(VgaCore.misc_output).(MISC_OUTPUT.clock_select) < 4;
  ok_vclk : v.(VgaCore.vclk) = [25175000; 28322000; 0; 0];
  ok_charmap : v.(VgaCore.charmap_address) ∈ charmap_offset;
  ok_memsize : v.(VgaCore.memsize) = 0x40000;
  ok_plane_shift : v.(VgaCore.plane_shift) = 16;
  ok_ext_offset : v.(VgaCore.ext_offset) = 0;
  ok_display_end : in_width 10 v.(VgaCore.vertical_display_end);
  ok_line_compare : in_width 10 v.(VgaCore.line_compare);
  ok_tiles : exists l, v.(VgaCore.vga_tile_updated) = Some l /\
    Z.of_nat (length l) = v.(VgaCore.num_x_tiles) * v.(VgaCore.num_y_tiles)
}.

Definition vga_inv (s : Machine.t) : Prop := vga_ok s.(Machine.VgaCore).

Lemma vga_start_ok : vga_ok (vga_tiles vga_core_start).
Proof.
  constructor; try (by apply elem_of_cons; left); try (vm_compute; intuition congruence); try (constructor; vm_compute; intuition congruence).
  - constructor; [done| |done]. apply Forall_replicate. done.
  - constructor; [done| |done]. apply Forall_replicate. done.
  - eexists. split; [reflexivity|]. done.
Qed.

Lemma safe_upd_vga f : (forall v, vga_ok v -> vga_ok (f v)) -> Safe vga_inv (upd_vga f).
Proof. intros Hf. apply safe_modify. intros s Hs. by apply Hf. Qed.

(** A store that the invariant does not mention, field by field. *)
Ltac vga_store := intros ? []; constructor; cbn; auto.

Lemma safe_upd_crtc f : (forall c, crtc_ok c -> crtc_ok (f c)) -> Safe vga_inv (upd_crtc f).
Proof. intros Hf. apply safe_upd_vga. vga_store. Qed.
Lemma safe_upd_attr f : (forall c, attr_ok c -> attr_ok (f c)) -> Safe vga_inv (upd_attr f).
Proof. intros Hf. apply safe_upd_vga. vga_store. Qed.
Lemma safe_upd_pel f : (forall c, pel_ok c -> pel_ok (f c)) -> Safe vga_inv (upd_pel f).
Proof. intros Hf. apply safe_upd_vga. vga_store. Qed.
Lemma safe_upd_gfx f : (forall c, gfx_ok c -> gfx_ok (f c)) -> Safe vga_inv (upd_gfx f).
Proof. intros Hf. apply safe_upd_vga. vga_store. Qed.
Lemma safe_get_vga {B} (k : VgaCore.t -> IO B) :
  (forall v, vga_ok v -> Safe vga_inv (k v)) -> Safe vga_inv (get_vga ≫= k).
Proof. intros Hk. apply safe_gets. intros s Hs. by apply Hk. Qed.
#[export] Instance safe_gui c : Safe vga_inv (gui c).
Proof. apply safe_modify. auto. Qed.
#[export] Instance safe_upd_seq f : Safe vga_inv (upd_seq f).
Proof. apply safe_upd_vga. vga_store. Qed.

(** The walk over an operation: reads give a register file that satisfies the
    invariant, stores keep it field by field. *)
Ltac vga_safe_step :=
  match goal with
  | |- Safe _ (get_vga ≫= _) => apply safe_get_vga; intros ? ?
  | |- Safe _ (gets _ ≫= _) => apply safe_gets; intros ? ?
  | |- Safe _ (upd_crtc _) => apply safe_upd_crtc; vga_store
  | |- Safe _ (upd_attr _) => apply safe_upd_attr; vga_store
  | |- Safe _ (upd_pel _) => apply safe_upd_pel; vga_store
  | |- Safe _ (upd_gfx _) => apply safe_upd_gfx; vga_store
  | |- Safe _ (upd_vga _) => apply safe_upd_vga; vga_store
  | |- Safe _ (when _ _) => apply safe_when
  | H : ?o = Some _ |- Safe _ (of_option _ ?o ≫= _) => eapply safe_some; [exact H|]
  | H : ?o = Some _ |- Safe _ (of_option _ ?o) => eapply safe_of_option; exact H
  | |- Safe _ (if _ then _ else _) => apply safe_if
  | |- Safe _ (_ ≫= _) => apply safe_bind; [|intros ?]
  | |- Safe _ _ => apply _
  | |- Safe _ _ => solve [eauto with vga]
  end.
Ltac vga_safe := repeat vga_safe_step.

Lemma tile_nth v xtile ytile (l : list Z) : 0 <= xtile -> 0 <= ytile ->
  tile_in_range v xtile ytile = true ->
  Z.of_nat (length l) = v.(VgaCore.num_x_tiles) * v.(VgaCore.num_y_tiles) ->
  0 <= tile_index v xtile ytile < Z.of_nat (length l).
Proof. unfold tile_in_range, tile_index. intros Hx Hy ?%andb_prop Hl. nia. Qed.

Lemma safe_SET_TILE_UPDATED xtile ytile Value : 0 <= xtile -> 0 <= ytile ->
  Safe vga_inv (SET_TILE_UPDATED xtile ytile Value).
Proof.
  intros Hx Hy s Hs. apply wp_gets_bind. destruct (ok_tiles _ Hs) as (l & Hl & Hlen).
  unfold when. destruct (tile_in_range _ _ _) eqn:Hin; [|done].
  destruct (nthZ_is_Some l (tile_index s.(Machine.VgaCore) xtile ytile)) as [x Hxl]; [by eapply tile_nth|].
  rewrite Hl. eapply wp_run_bind; [reflexivity|]. rewrite Hxl. eapply wp_run_bind; [reflexivity|].
  apply wp_modify. destruct Hs. constructor; cbn; auto.
  eexists. split; [reflexivity|]. by rewrite length_updZ.
Qed.
#[export] Hint Resolve safe_SET_TILE_UPDATED : vga.

Lemma safe_GET_TILE_UPDATED xtile ytile : 0 <= xtile -> 0 <= ytile ->
  Safe vga_inv (GET_TILE_UPDATED xtile ytile).
Proof.
  intros Hx Hy. apply safe_get_vga. intros v Hv. destruct (ok_tiles _ Hv) as (l & Hl & Hlen).
  destruct (tile_in_range _ _ _) eqn:Hin; [|apply _].
  destruct (nthZ_is_Some l (tile_index v xtile ytile)) as [x Hxl]; [by eapply tile_nth|].
  eapply safe_some; [exact Hl|]. by eapply safe_of_option.
Qed.

(** ** The retrace timing without machine arithmetic *)

Definition pixel_clock (v : VgaCore.t) : Z :=
  let c := nth0 v.(VgaCore.vclk) v.(VgaCore.misc_output).(MISC_OUTPUT.clock_select) in
  if nz v.(VgaCore.x_dotclockdiv2) then c / 2 else c.
Definition char_width (v : VgaCore.t) : Z := if Z.odd v.(VgaCore.sequencer).(SEQUENCER.reg1) then 8 else 9.
(** Character cells of a line, lines of a frame, and the line its retrace starts at. *)
Definition line_chars (v : VgaCore.t) : Z := crtc_reg v 0 + 5.
Definition frame_lines (v : VgaCore.t) : Z :=
  crtc_reg v 6 + 256 * (crtc_reg v 7 &. 0x01) + 16 * (crtc_reg v 7 &. 0x20) + 2.
Definition retrace_line (v : VgaCore.t) : Z :=
  crtc_reg v 16 + 64 * (crtc_reg v 7 &. 0x04) + 4 * (crtc_reg v 7 &. 0x80).
Definition line_freq (v : VgaCore.t) : Z := pixel_clock v / (line_chars v * char_width v).
(** The end of the blanking and of the retrace: the register holds its low bits. *)
Definition blank_end_char (v : VgaCore.t) : Z :=
  crtc_reg v 2 + ((crtc_reg v 3 &. 0x1f) + (crtc_reg v 5 &. 0x80) / 4 - crtc_reg v 2) mod 64.
Definition retrace_end_line (v : VgaCore.t) : Z :=
  retrace_line v + ((crtc_reg v 17 &. 0x0f) - retrace_line v) mod 16.

Definition retrace_timing (v : VgaCore.t) : VgaCore.t :=
  if pixel_clock v =? 0 then v
  else
    let line_usec := 1000000 / line_freq v in
    v <| VgaCore.htotal_usec := line_usec |>
      <| VgaCore.hbstart_usec := 1000000 * crtc_reg v 2 * char_width v / pixel_clock v |>
      <| VgaCore.hbend_usec := 1000000 * blank_end_char v * char_width v / pixel_clock v |>
      <| VgaCore.vtotal_usec := 1000000 / (line_freq v / frame_lines v) |>
      <| VgaCore.vblank_usec := line_usec * v.(VgaCore.vertical_display_end) |>
      <| VgaCore.vrstart_usec := line_usec * retrace_line v |>
      <| VgaCore.vrend_usec := line_usec * retrace_end_line v |>.

Lemma crtc_ok_byte v i : crtc_ok v.(VgaCore.CRTC) -> is_u8 (crtc_reg v i).
Proof. intros Hc. apply Forall_nth0; [lia|]. apply (ok_reg_bytes _ Hc). Qed.

Lemma crtc_reg_byte v i : vga_ok v -> is_u8 (crtc_reg v i).
Proof. intros Hv. apply crtc_ok_byte, (ok_crtc v Hv). Qed.

Lemma land_bound w a m : 0 <= w -> in_width w m -> 0 <= a &. m < 2 ^ w.
Proof. intros Hw Hm. by apply (land_in_width_r w a m). Qed.

Lemma clock_cases v : vga_ok v ->
  nthZ v.(VgaCore.vclk) v.(VgaCore.misc_output).(MISC_OUTPUT.clock_select) =
    Some (nth0 v.(VgaCore.vclk) v.(VgaCore.misc_output).(MISC_OUTPUT.clock_select)) /\
  (pixel_clock v = 0 \/ 12587500 <= pixel_clock v <= 28322000).
Proof.
  intros Hv. pose proof (ok_clock v Hv) as Hc. unfold pixel_clock, nth0. rewrite (ok_vclk v Hv).
  set (c := _.(MISC_OUTPUT.clock_select)) in *. clearbody c.
  assert (c = 0 \/ c = 1 \/ c = 2 \/ c = 3) as [-> | [-> | [-> | ->]]] by lia;
    (split; [reflexivity|]); destruct (nz _);
    first [left; reflexivity | right; split; apply Z.leb_le; reflexivity].
Qed.

(** The ranges of the quantities for any contents of the registers. *)
Lemma timing_ranges v : vga_ok v ->
  5 <= line_chars v <= 260 /\ 8 <= char_width v <= 9 /\ 2 <= frame_lines v <= 1521 /\
  0 <= retrace_line v <= 1723 /\ crtc_reg v 2 <= blank_end_char v <= crtc_reg v 2 + 63 /\
  retrace_line v <= retrace_end_line v <= retrace_line v + 15.
Proof.
  intros Hv. pose proof (fun i => crtc_reg_byte v i Hv) as Hr. unfold in_width in Hr.
  pose proof (Hr 0); pose proof (Hr 6); pose proof (Hr 16).
  pose proof (land_bound 1 (crtc_reg v 7) 0x01 ltac:(lia) ltac:(done)).
  pose proof (land_bound 6 (crtc_reg v 7) 0x20 ltac:(lia) ltac:(done)).
  pose proof (land_bound 3 (crtc_reg v 7) 0x04 ltac:(lia) ltac:(done)).
  pose proof (land_bound 8 (crtc_reg v 7) 0x80 ltac:(lia) ltac:(done)).
  unfold line_chars, char_width, frame_lines, blank_end_char, retrace_end_line.
  pose proof (Z.mod_pos_bound ((crtc_reg v 3 &. 0x1f) + (crtc_reg v 5 &. 0x80) / 4 - crtc_reg v 2) 64 ltac:(lia)).
  pose proof (Z.mod_pos_bound ((crtc_reg v 17 &. 0x0f) - retrace_line v) 16 ltac:(lia)).
  unfold retrace_line in *. destruct (Z.odd _); lia.
Qed.

Lemma line_freq_range v : vga_ok v -> pixel_clock v <> 0 -> 5379 <= line_freq v /\
  2 <= line_freq v / frame_lines v + 1 /\ 0 <= 1000000 / line_freq v <= 185.
Proof.
  intros Hv Hc. destruct (clock_cases v Hv) as [_ [?|Hclock]]; [done|].
  destruct (timing_ranges v Hv) as (Hl & Hw & Hf & _).
  assert (5379 <= line_freq v) as Hq.
  { unfold line_freq. apply Z.div_le_lower_bound; nia. }
  split; [done|]. split.
  - assert (1 <= line_freq v / frame_lines v); [|lia]. apply Z.div_le_lower_bound; lia.
  - split; [apply Z.div_pos; lia|]. apply Z.lt_succ_r, Z.div_lt_upper_bound; lia.
Qed.

Lemma run_upd_vga f s : upd_vga f s = Ok tt (s <| Machine.VgaCore ::= f |>).
Proof. done. Qed.

Lemma run_get_crtc_params s : vga_inv s ->
  let v := s.(Machine.VgaCore) in
  get_crtc_params s = Ok (pixel_clock v, line_chars v, frame_lines v, retrace_line v) s.
Proof.
  intros Hs v. destruct (clock_cases v Hs) as [Hclock _].
  pose proof (timing_ranges v Hs) as (Hl & _ & Hf & Hr & _).
  unfold get_crtc_params, get_vga. rewrite (run_bind _ _ _ _ _ (run_gets _ _)). fold v.
  rewrite Hclock. cbn [of_option]. rewrite run_ret_bind. unfold mret, M_ret. f_equal.
  unfold u16. rewrite !Z.mod_small;
    rewrite ?Z.shiftl_mul_pow2, ?Z.shiftr_div_pow2 by lia;
    unfold pixel_clock, line_chars, frame_lines, retrace_line in *; try lia.
  rewrite !(Z.mul_comm (crtc_reg v 7 &. _)). reflexivity.
Qed.

Lemma odd_land x : (x &. 0x01 =? 1) = Z.odd x.
Proof.
  change 0x01 with (Z.ones 1). rewrite Z.land_ones by lia. change (2 ^ 1) with 2.
  rewrite Zmod_odd. by destruct (Z.odd x).
Qed.

(** The ends of the two intervals, at machine width. *)
Lemma blank_end_machine v : vga_ok v ->
  u32 (crtc_reg v 2 + (u32 ((crtc_reg v 3 &. 0x1f) + ((crtc_reg v 5 &. 0x80) >>. 2) - crtc_reg v 2) &. 0x3f))
  = blank_end_char v.
Proof.
  intros Hv. pose proof (timing_ranges v Hv) as (_ & _ & _ & _ & Hb & _).
  pose proof (crtc_reg_byte v 2 Hv) as H2. unfold in_width in H2.
  unfold blank_end_char in *. change 0x3f with (Z.ones 6). rewrite Z.land_ones by lia.
  unfold u32 at 2. rewrite Z.mod_mod_divide by (by exists (2 ^ 26)).
  rewrite Z.shiftr_div_pow2 by lia. change (2 ^ 2) with 4. change (2 ^ 6) with 64.
  apply u32_small. split; lia.
Qed.

Lemma retrace_end_machine v : vga_ok v ->
  u32 ((((crtc_reg v 17 &. 0x0f) - retrace_line v) &. 0x0f) + retrace_line v) = retrace_end_line v.
Proof.
  intros Hv. pose proof (timing_ranges v Hv) as (_ & _ & _ & Hr & _ & He).
  unfold retrace_end_line in *. change 0x0f with (Z.ones 4) at 2. rewrite Z.land_ones by lia.
  change (2 ^ 4) with 16. rewrite Z.add_comm. apply u32_small. split; lia.
Qed.

Lemma upd_VgaCore_id s f : f s.(Machine.VgaCore) = s.(Machine.VgaCore) ->
  s <| Machine.VgaCore ::= f |> = s.
Proof. intros Hf. destruct s. cbn in *. by rewrite Hf. Qed.

Lemma upd_VgaCore_comp s f g :
  s <| Machine.VgaCore ::= f |> <| Machine.VgaCore ::= g |> = s <| Machine.VgaCore ::= fun v => g (f v) |>.
Proof. done. Qed.

Lemma upd_VgaCore_ext s f g : f s.(Machine.VgaCore) = g s.(Machine.VgaCore) ->
  s <| Machine.VgaCore ::= f |> = s <| Machine.VgaCore ::= g |>.
Proof. intros Hf. destruct s. cbn in *. by rewrite Hf. Qed.

(** For any contents of the registers the retrace timing is computed without a
    division by zero and without a wrap at 32 bits: the result is the timing in plain
    integer arithmetic. *)
Lemma calculate_retrace_timing_run s : vga_inv s ->
  calculate_retrace_timing s = Ok tt (s <| Machine.VgaCore ::= retrace_timing |>).
Proof.
  intros Hs. set (v := s.(Machine.VgaCore)).
  pose proof (line_freq_range v Hs) as Hfreq. pose proof (clock_cases v Hs) as [_ Hclock].
  pose proof (timing_ranges v Hs) as (Hl & Hw & Hf & Hr & Hb & He).
  pose proof (crtc_reg_byte v 2 Hs) as H2. unfold in_width in H2.
  pose proof (ok_display_end v Hs) as Hd. unfold in_width in Hd.
  unfold calculate_retrace_timing.
  rewrite (run_bind _ _ _ _ _ (run_get_crtc_params s Hs)). fold v.
  destruct (pixel_clock v =? 0) eqn:Hz.
  { unfold done_, mret, M_ret. f_equal. symmetry. apply upd_VgaCore_id. fold v.
    unfold retrace_timing. by rewrite Hz. }
  apply Z.eqb_neq in Hz. destruct Hclock as [?|Hclock]; [done|]. specialize (Hfreq Hz).
  destruct Hfreq as (Hq & Hvq & Hlu).
  assert (line_freq v / frame_lines v <> 0) as Hvz by lia.
  assert (frame_lines v <> 0) as Hfz by lia.
  assert (line_freq v <> 0) as Hqz by lia.
  assert (line_chars v * char_width v <> 0) as Hwz by nia.
  unfold get_vga. rewrite (run_bind _ _ _ _ _ (run_gets _ _)). fold v.
  cbv zeta. rewrite odd_land. change (if Z.odd v.(VgaCore.sequencer).(SEQUENCER.reg1) then 8 else 9) with (char_width v).
  rewrite (u32_small (line_chars v * char_width v)) by (unfold in_width; nia).
  rewrite (run_bind _ _ _ _ _ (run_divu _ _ s Hwz)). fold (line_freq v).
  rewrite (run_bind _ _ _ _ _ (run_divu _ _ s Hqz)).
  rewrite (run_bind _ _ _ _ _ (run_upd_vga _ _)).
  rewrite (u32_small (1000000 * crtc_reg v 2 * char_width v)) by (unfold in_width; nia).
  rewrite (run_bind _ _ _ _ _ (run_divu _ _ _ Hz)), (run_bind _ _ _ _ _ (run_upd_vga _ _)).
  rewrite blank_end_machine by done.
  rewrite (u32_small (1000000 * blank_end_char v * char_width v)) by (unfold in_width; nia).
  rewrite (run_bind _ _ _ _ _ (run_divu _ _ _ Hz)), (run_bind _ _ _ _ _ (run_upd_vga _ _)).
  rewrite retrace_end_machine by done.
  rewrite (run_bind _ _ _ _ _ (run_divu _ _ _ Hfz)), (run_bind _ _ _ _ _ (run_divu _ _ _ Hvz)), run_upd_vga.
  rewrite !upd_VgaCore_comp. f_equal. apply upd_VgaCore_ext. fold v. cbv beta.
  unfold retrace_timing. rewrite (proj2 (Z.eqb_neq _ _) Hz). cbv zeta.
  cbn -[u32 crtc_reg Z.div Z.mul line_freq pixel_clock char_width frame_lines retrace_line
    retrace_end_line blank_end_char].
  by rewrite !u32_small by (unfold in_width; nia).
Qed.

(** ** No register access faults *)

#[export] Instance safe_calculate_retrace_timing : Safe vga_inv calculate_retrace_timing.
Proof.
  intros s Hs. unfold wp. rewrite calculate_retrace_timing_run by done.
  unfold vga_inv. cbn [Machine.VgaCore]. change (vga_ok (retrace_timing s.(Machine.VgaCore))).
  unfold retrace_timing. destruct (_ =? 0); [done|]. revert Hs. unfold vga_inv.
  generalize s.(Machine.VgaCore). vga_store.
Qed.

Lemma safe_foreach_in {A} (I : Machine.t -> Prop) (l : list A) (f : A -> IO unit) :
  (forall x, x ∈ l -> Safe I (f x)) -> Safe I (foreach l f).
Proof. intros Hf s Hs. apply wp_foreach; [|done]. intros x s' Hx. by apply Hf. Qed.

Lemma elem_of_seqZ_ge a n x : x ∈ seqZ a n -> a <= x.
Proof. rewrite elem_of_seqZ. lia. Qed.

Lemma safe_vga_redraw_area x0 y0 width height : 0 <= x0 -> 0 <= y0 ->
  Safe vga_inv (vga_redraw_area x0 y0 width height).
Proof.
  intros Hx Hy. unfold vga_redraw_area, redraw_area. vga_safe.
  pose proof (Z.div_pos x0 X_TILESIZE Hx ltac:(done)). pose proof (Z.div_pos y0 Y_TILESIZE Hy ltac:(done)).
  apply safe_foreach_in. intros yti ?%elem_of_seqZ_ge. apply safe_foreach_in. intros xti ?%elem_of_seqZ_ge.
  apply safe_SET_TILE_UPDATED; lia.
Qed.
#[export] Hint Resolve safe_vga_redraw_area : vga.

#[export] Instance safe_load_charmap : Safe vga_inv load_charmap.
Proof.
  apply safe_get_vga. intros v Hv. cbv zeta. rewrite (ok_memsize v Hv).
  replace (_ <=? _) with true; [apply _|]. symmetry. apply Z.leb_le.
  pose proof (ok_charmap v Hv) as Hc. revert Hc. generalize v.(VgaCore.charmap_address). clear.
  intros c Hc. unfold charmap_offset in Hc. rewrite !elem_of_cons, elem_of_nil in Hc. lia.
Qed.

#[export] Instance safe_vga_write_end flags : Safe vga_inv (vga_write_end flags).
Proof. unfold vga_write_end. vga_safe; apply safe_vga_redraw_area; lia. Qed.

#[export] Instance safe_attribute_data Value : Safe vga_inv (attribute_data Value).
Proof.
  unfold attribute_data. apply safe_get_vga. intros v Hv. cbv zeta.
  destruct (_ <? 0x10) eqn:Ha; [|vga_safe; done].
  destruct (ok_attr v Hv) as [Hl Hb H0].
  destruct (nthZ_is_Some (ATTRIBUTE_CTRL.palette_reg (VgaCore.attribute_ctrl v))
    (ATTRIBUTE_CTRL.address (VgaCore.attribute_ctrl v))) as [x Hx]; [rewrite Hl; lia|].
  eapply safe_some; [exact Hx|]. vga_safe.
  - by rewrite length_updZ.
  - by apply Forall_updZ; [|apply u8_range].
Qed.

Lemma safe_attribute_write Value : 0 <= Value -> Safe vga_inv (attribute_write Value).
Proof.
  intros HV. unfold attribute_write. vga_safe. apply Z.land_nonneg. lia.
Qed.
#[export] Hint Resolve safe_attribute_write : vga.

#[export] Instance safe_misc_output_write Value : Safe vga_inv (misc_output_write Value).
Proof.
  unfold misc_output_write. vga_safe. by apply (land_in_width_r 2).
Qed.

Lemma charmap_number_nth Value : exists x, nthZ charmap_offset (charmap_number Value) = Some x /\ x ∈ charmap_offset.
Proof.
  unfold charmap_number. set (c := Value &. 0x13).
  assert (exists x, nthZ charmap_offset (if 3 <? c then (c &. 3) + 4 else c) = Some x) as [x Hx].
  { apply nthZ_is_Some. change (Z.of_nat (length charmap_offset)) with 8.
    pose proof (land_bound 5 Value 0x13 ltac:(lia) ltac:(done)) as Hb. fold c in Hb.
    pose proof (land_bound 2 c 3 ltac:(lia) ltac:(done)). destruct (3 <? c) eqn:E; lia. }
  exists x. split; [done|]. eapply (Forall_nthZ (fun c => c ∈ charmap_offset)); [|exact Hx].
  by apply Forall_forall.
Qed.

#[export] Instance safe_sequencer_write Value : Safe vga_inv (sequencer_write Value).
Proof.
  unfold sequencer_write. apply safe_get_vga. intros v Hv. cbv zeta.
  destruct (charmap_number_nth Value) as (x & Hx & Hin).
  vga_safe; try (by apply elem_of_cons; left).
Qed.

#[export] Instance safe_pel_mask_write Value : Safe vga_inv (pel_mask_write Value).
Proof. unfold pel_mask_write. vga_safe. Qed.

Lemma safe_set_colour i f : is_u8 i -> Safe vga_inv (set_colour i f).
Proof.
  intros Hi. apply safe_get_vga. intros v Hv. destruct (ok_pel v Hv) as [Hl _ _].
  destruct (nthZ_is_Some v.(VgaCore.pel).(PEL.data) i) as [x Hx].
  { rewrite Hl. unfold in_width in Hi. lia. }
  eapply safe_some; [exact Hx|]. vga_safe. by rewrite length_updZ.
Qed.
#[export] Hint Resolve safe_set_colour : vga.

#[export] Instance safe_pel_data_write Value : Safe vga_inv (pel_data_write Value).
Proof.
  unfold pel_data_write. apply safe_get_vga. intros v Hv. cbv zeta.
  pose proof (ok_write_register _ (ok_pel v Hv)) as Hi.
  vga_safe; try apply u8_range.
  match goal with Hv' : vga_ok ?v' |- _ =>
    destruct (nthZ_is_Some v'.(VgaCore.pel).(PEL.data) v.(VgaCore.pel).(PEL.write_data_register)) as [x Hx];
    [rewrite (ok_data _ (ok_pel v' Hv')); unfold in_width in Hi; lia|] end.
  by eapply safe_of_option.
Qed.

#[export] Instance safe_graphics_write Value : Safe vga_inv (graphics_write Value).
Proof.
  unfold graphics_write. vga_safe. by apply (land_in_width_r 2).
Qed.

Lemma safe_set_crtc_reg address f : (forall r, is_u8 r -> is_u8 (f r)) ->
  Safe vga_inv (set_crtc_reg address f).
Proof.
  intros Hf. apply safe_upd_crtc. vga_store; [by rewrite length_alterZ|].
  by apply Forall_alterZ.
Qed.
#[export] Hint Resolve safe_set_crtc_reg : vga.

(** The ten-bit quantities assembled from several registers. *)
Lemma land_ten x : in_width 10 (x &. 0x3ff).
Proof. by apply (land_in_width_r 10). Qed.

Lemma ten_bits x m b : in_width 10 m -> in_width 10 b -> in_width 10 ((x &. m) |. b).
Proof. intros Hm Hb. apply lor_in_width; [lia| |done]. by apply (land_in_width_r 10). Qed.

Lemma ten_bits_if x m b (c : bool) : in_width 10 m -> in_width 10 b ->
  in_width 10 (if c then (x &. m) |. b else x &. m).
Proof. intros Hm Hb. destruct c; [by apply ten_bits|by apply (land_in_width_r 10)]. Qed.

Lemma display_end_high_ten r x : in_width 10 (display_end_high r x).
Proof.
  unfold display_end_high. set (e := if r &? 0x02 then _ else _).
  assert (in_width 10 e) by (by apply ten_bits_if).
  destruct (r &? 0x40); [apply lor_in_width; [lia|done|done]|done].
Qed.
Lemma compare_high_ten r x : in_width 10 (compare_high r x).
Proof. by apply ten_bits_if. Qed.

Lemma byte_ten x : is_u8 x -> in_width 10 x.
Proof. by apply in_width_le. Qed.

#[export] Instance safe_crtc_changed address Value : Safe vga_inv (crtc_changed address Value).
Proof.
  unfold crtc_changed. apply safe_get_vga. intros v Hv.
  vga_safe; auto using display_end_high_ten, compare_high_ten, ten_bits.
  - by apply ten_bits_if.
  - by apply ten_bits; [|apply byte_ten, crtc_ok_byte].
  - by apply ten_bits; [|apply byte_ten, crtc_ok_byte].
Qed.

#[export] Instance safe_crtc_write Value : Safe vga_inv (crtc_write Value).
Proof.
  unfold crtc_write. vga_safe; auto using compare_high_ten.
  apply safe_set_crtc_reg. intros r Hr. apply lor_in_width; [lia|by apply land_in_width_l|].
  by apply (land_in_width_r 8).
Qed.

Lemma safe_vga_write_port Address Value : 0 <= Value -> Safe vga_inv (vga_write_port Address Value).
Proof. intros HV. unfold vga_write_port. vga_safe; try apply u8_range. apply Z.land_nonneg. lia. Qed.
#[export] Hint Resolve safe_vga_write_port : vga.

Lemma safe_vga_core_write Address Value : 0 <= Value -> Safe vga_inv (vga_core_write Address Value).
Proof. intros HV. unfold vga_core_write. vga_safe. Qed.
#[export] Hint Resolve safe_vga_core_write : vga.

Lemma safe_VgaCorePortIoWriteHandler Address Value Length : 0 <= Value ->
  Safe vga_inv (VgaCorePortIoWriteHandler Address Value Length).
Proof.
  intros HV. unfold VgaCorePortIoWriteHandler. vga_safe.
Qed.
#[export] Hint Resolve safe_VgaCorePortIoWriteHandler : vga.

Lemma safe_vga_write Address Value Length : 0 <= Value -> Safe vga_inv (vga_write Address Value Length).
Proof.
  intros HV. unfold vga_write. vga_safe.
Qed.
#[export] Hint Resolve safe_vga_write : vga.

#[export] Instance safe_VgaCorePortIoReadHandler Address Length :
  Safe vga_inv (VgaCorePortIoReadHandler Address Length).
Proof.
  assert (forall Address, Safe vga_inv (vga_core_read Address)) as Hread.
  { intros A. unfold vga_core_read. apply safe_get_vga. intros v Hv.
    assert (Safe vga_inv attribute_read) as Hattr.
    { unfold attribute_read. apply safe_get_vga. clear. intros v Hv. cbv zeta.
      destruct (_ <? 0x10) eqn:Ha; [|vga_safe]. destruct (ok_attr v Hv) as [Hl _ H0].
      destruct (nthZ_is_Some (ATTRIBUTE_CTRL.palette_reg (VgaCore.attribute_ctrl v))
        (ATTRIBUTE_CTRL.address (VgaCore.attribute_ctrl v))) as [x Hx]; [rewrite Hl; lia|]. vga_safe. }
    assert (Safe vga_inv pel_data_read) as Hpel.
    { unfold pel_data_read. apply safe_get_vga. clear. intros v Hv. cbv zeta.
      destruct (ok_pel v Hv) as [Hl _ Hi]. unfold in_width in Hi.
      destruct (nthZ_is_Some v.(VgaCore.pel).(PEL.data) v.(VgaCore.pel).(PEL.read_data_register)) as [x Hx];
        [rewrite Hl; lia|]. vga_safe. apply u8_range. }
    assert (Safe vga_inv crtc_read) as Hcrtc.
    { unfold crtc_read. apply safe_get_vga. clear. intros v Hv. cbv zeta.
      destruct (ok_gfx v Hv) as [Hl Hi].
      destruct (nthZ_is_Some v.(VgaCore.graphics_ctrl).(GRAPHICS_CTRL.latch)
        v.(VgaCore.graphics_ctrl).(GRAPHICS_CTRL.read_map_select)) as [x Hx]; [rewrite Hl; lia|]. vga_safe. }
    cbv zeta. vga_safe. }
  unfold VgaCorePortIoReadHandler. vga_safe.
Qed.


Definition vga_started : Machine.t := Machine.zero <| Machine.VgaCore := vga_tiles vga_core_start |>.


(** The 32-bit fields of the timing. *)
Definition timing_fields (v : VgaCore.t) : list Z :=
  [v.(VgaCore.htotal_usec); v.(VgaCore.hbstart_usec); v.(VgaCore.hbend_usec); v.(VgaCore.vtotal_usec);
   v.(VgaCore.vblank_usec); v.(VgaCore.vrstart_usec); v.(VgaCore.vrend_usec)].

(** C37 For any contents of the registers, with a running clock, the retrace timing is
    computed without a division by zero and without a wrap at 32 bits: it is the timing
    in plain integer arithmetic, and both intervals start before they end. *)
Theorem retrace_timing_exact s : vga_inv s -> pixel_clock s.(Machine.VgaCore) <> 0 ->
  let t := retrace_timing s.(Machine.VgaCore) in
  calculate_retrace_timing s = Ok tt (s <| Machine.VgaCore ::= retrace_timing |>) /\
  Forall is_u32 (timing_fields t) /\
  t.(VgaCore.hbstart_usec) <= t.(VgaCore.hbend_usec) /\ t.(VgaCore.vrstart_usec) <= t.(VgaCore.vrend_usec).
Proof.
  intros Hs Hz t. split; [by apply calculate_retrace_timing_run|].
  set (v := s.(Machine.VgaCore)) in *.
  destruct (line_freq_range v Hs Hz) as (Hq & Hvq & Hlu).
  destruct (clock_cases v Hs) as [_ [?|Hclock]]; [done|].
  pose proof (timing_ranges v Hs) as (Hl & Hw & Hf & Hr & Hb & He).
  pose proof (crtc_reg_byte v 2 Hs) as H2. unfold in_width in H2.
  pose proof (ok_display_end v Hs) as Hd. unfold in_width in Hd.
  assert (forall x, 0 <= x <= 2862000000 -> 0 <= x / pixel_clock v <= 300) as Hdiv.
  { intros x Hx. split; [apply Z.div_pos; lia|]. apply Z.lt_succ_r, Z.div_lt_upper_bound; lia. }
  pose proof (Hdiv (1000000 * crtc_reg v 2 * char_width v) ltac:(nia)).
  pose proof (Hdiv (1000000 * blank_end_char v * char_width v) ltac:(nia)).
  assert (0 <= 1000000 / (line_freq v / frame_lines v) <= 1000000).
  { split; [apply Z.div_pos; lia|]. apply Z.div_le_upper_bound; nia. }
  subst t. unfold retrace_timing. rewrite (proj2 (Z.eqb_neq _ _) Hz). cbv zeta.
  unfold timing_fields. cbn -[Z.div Z.mul line_freq pixel_clock char_width frame_lines retrace_line
    retrace_end_line blank_end_char crtc_reg].
  split; [|split; [apply Z.div_le_mono; nia|nia]].
  repeat (apply Forall_cons; split; [unfold in_width; nia|]). apply Forall_nil. done.
Qed.

Lemma retrace_timing_exact_witness :
  let t := retrace_timing vga_started.(Machine.VgaCore) in
  calculate_retrace_timing vga_started = Ok tt (vga_started <| Machine.VgaCore ::= retrace_timing |>) /\
  Forall is_u32 (timing_fields t) /\
  t.(VgaCore.hbstart_usec) <= t.(VgaCore.hbend_usec) /\ t.(VgaCore.vrstart_usec) <= t.(VgaCore.vrend_usec).
Proof. refine (retrace_timing_exact vga_started vga_start_ok _). vm_compute. discriminate. Defined.

(** ** Start-up *)

(** The identification block that the start-up builds ends in a correct checksum. *)
Lemma edid_init_checksum : edid_checksum (take 128 (edid_init DDC.zero).(DDC.edid_data)) = 0.
Proof. by vm_compute. Qed.

#[local] Hint Opaque upd_pci upd_device get_device set_conf get_conf upd_bar get_bar CmosGetRegister CmosSetRegister
  RegisterPortIoHandler PciRegisterConfigHandler PciInitConfig MmioRegisterHandler TimerRegister : typeclass_instances.

#[local] Instance keeps_PciRegister A h : Keeps Machine.VgaCore (PciRegisterConfigHandler A h).
Proof. unfold PciRegisterConfigHandler. apply _. Qed.
#[local] Instance keeps_PciInitConfig a b c d e f g h : Keeps Machine.VgaCore (PciInitConfig a b c d e f g h).
Proof. unfold PciInitConfig. apply _. Qed.
#[local] Instance keeps_CmosGetRegister a : Keeps Machine.VgaCore (CmosGetRegister a).
Proof. intros s. reflexivity. Qed.
#[local] Instance keeps_CmosSetRegister a v : Keeps Machine.VgaCore (CmosSetRegister a v).
Proof. intros s. reflexivity. Qed.
#[local] Instance keeps_set_vga v : Keeps Machine.VgaCore (modify (fun s => s <| Machine.Vga := v |>)).
Proof. intros s. reflexivity. Qed.
#[local] Instance keeps_VgaInitialize : Keeps Machine.VgaCore VgaInitialize.
Proof.
  unfold VgaInitialize.
  repeat match goal with
    | |- Within _ (foreach _ _) => apply within_foreach; [apply _|intros ?]; apply (safe_register (keeps Machine.VgaCore))
    | |- Within _ (modify _) => apply keeps_set_vga
    | |- Within _ (PciRegisterConfigHandler _ _) => apply keeps_PciRegister
    | |- Within _ (PciInitConfig _ _ _ _ _ _ _ _) => apply keeps_PciInitConfig
    | |- Within _ (CmosGetRegister _) => apply keeps_CmosGetRegister
    | |- Within _ (CmosSetRegister _ _) => apply keeps_CmosSetRegister
    | |- Within _ (_ ≫= _) => apply within_bind; [apply _| |intros ?]
    end.
Qed.
#[local] Instance keeps_TimerRegister n h p : Keeps Machine.VgaCore (TimerRegister n h p).
Proof.
  intros s. unfold wlp, TimerRegister, get_TimersIdx, upd_at. mred. by destruct (nthZ _ _).
Qed.

(** The adapter starts in a state that satisfies the invariant, whatever the rest of
    the machine. *)
Lemma VgaCoreInitialize_inv `{!Driver} s : wlp VgaCoreInitialize (fun _ => vga_inv) s.
Proof.
  unfold VgaCoreInitialize. apply wlp_bind. unfold wlp at 1, upd_vga at 1, modify at 1.
  set (s1 := s <| Machine.VgaCore ::= fun _ => vga_core_start |>).
  apply wlp_bind. eapply wlp_mono; [|apply keeps_VgaInitialize]. intros [] s2 H2. cbv beta in H2.
  apply wlp_bind. eapply wlp_mono; [|apply (safe_mmio_register (keeps Machine.VgaCore))]. intros [] s3 H3.
  apply wlp_bind. eapply wlp_mono; [|apply keeps_TimerRegister]. intros ? s4 H4.
  unfold wlp, upd_vga, modify. change (vga_ok (vga_tiles s4.(Machine.VgaCore))).
  unfold keeps in *. rewrite H4, H3, H2. exact vga_start_ok.
Qed.
