(* ===== verification/VgaDac.v ===== *)
(** vgacore.c: the palette ports as a memory of 256 colours.

    What a byte written to or read from port 0x3c9 does to the palette alone, the
    blocks of colours made of them, and the round trip of a block. *)

From S2P Require Export VgaRegs.

(** ** The palette

    What the palette ports do to the palette, without the rest of the adapter. *)

(** A byte written to port 0x3c9. *)
Definition pel_put (x : Z) (p : PEL.t) : PEL.t :=
  let i := p.(PEL.write_data_register) in
  let c := default RGB.zero (nthZ p.(PEL.data) i) in
  let cycle := p.(PEL.write_data_cycle) in
  let c := if cycle =? 0 then c <| RGB.red := x |> else if cycle =? 1 then c <| RGB.green := x |>
           else c <| RGB.blue := x |> in
  p <| PEL.data := updZ p.(PEL.data) i c |>
    <| PEL.write_data_cycle := if cycle =? 2 then 0 else cycle + 1 |>
    <| PEL.write_data_register := if cycle =? 2 then u8 (i + 1) else i |>.

Definition pel_of (s : Machine.t) : PEL.t := s.(Machine.VgaCore).(VgaCore.pel).

(** The last part of a write leaves the palette alone. *)
Lemma keeps_vga_write_end flags : Keeps pel_of (vga_write_end flags).
Proof. 
  unfold vga_write_end, load_charmap, vga_redraw_area, redraw_area, SET_TILE_UPDATED, get_vga, upd_vga, gui.
  apply _.
Qed.

Lemma nthZ_default {A} (d : A) (l : list A) i :
  0 <= i < Z.of_nat (length l) -> nthZ l i = Some (default d (nthZ l i)).
Proof. intros Hi. destruct (nthZ_is_Some l i Hi) as [x Hx]. by rewrite Hx. Qed.

(** The ports 0x3c0 to 0x3cf answer in either emulation. *)
Lemma common_port A v : 0x3c0 <= A <= 0x3cf ->
  wrong_emulation v A = false /\ (A =? 0x3b5) || (A =? 0x3d5) = false.
Proof.
  intros HA. unfold wrong_emulation. split; [|apply orb_false_iff; split; lia].
  apply orb_false_iff; split; rewrite <- andb_assoc; [|apply andb_false_iff; left; lia].
  apply andb_false_iff; right. apply andb_false_iff; left; lia.
Qed.

Lemma common_port_write A x s : 0x3c0 <= A <= 0x3cf ->
  VgaPortIoWriteHandler A x 1 s = (flags ← vga_write_port A x; vga_write_end flags) s.
Proof.
  intros HA. unfold VgaPortIoWriteHandler. change (1 =? 2) with false. cbv iota.
  unfold vga_write, get_vga. rewrite (run_bind _ _ _ _ _ (run_gets _ _)).
  destruct (common_port A s.(Machine.VgaCore) HA) as [-> ->].
  unfold VgaCorePortIoWriteHandler. change (1 =? 2) with false. cbv iota.
  unfold vga_core_write, get_vga. rewrite (run_bind _ _ _ _ _ (run_gets _ _)).
  by destruct (common_port A s.(Machine.VgaCore) HA) as [-> _].
Qed.

Definition pel_data_byte (x : Z) : IO unit := VgaPortIoWriteHandler 0x3c9 x 1.

Definition cycle_ok (p : PEL.t) : Prop := 0 <= p.(PEL.write_data_cycle) < 3.

Lemma run_set_colour i f s : vga_inv s -> is_u8 i ->
  set_colour i f s = Ok tt (s <| Machine.VgaCore ::= fun v => v <| VgaCore.pel ::= fun p =>
    p <| PEL.data := updZ p.(PEL.data) i (f (default RGB.zero (nthZ p.(PEL.data) i))) |> |> |>).
Proof.
  intros Hs Hi. unfold set_colour, get_vga. rewrite (run_bind _ _ _ _ _ (run_gets _ _)).
  rewrite (nthZ_default RGB.zero); [|rewrite (ok_data _ (ok_pel _ Hs)); unfold in_width in Hi; lia].
  cbn [of_option]. rewrite run_ret_bind. done.
Qed.

(** The switch over the cycle. *)
Definition pel_put_colour (x : Z) (p : PEL.t) : PEL.t :=
  let i := p.(PEL.write_data_register) in
  let c := default RGB.zero (nthZ p.(PEL.data) i) in
  let cycle := p.(PEL.write_data_cycle) in
  p <| PEL.data := updZ p.(PEL.data) i
         (if cycle =? 0 then c <| RGB.red := x |> else if cycle =? 1 then c <| RGB.green := x |>
          else c <| RGB.blue := x |>) |>.

Lemma run_upd_pel f s : exists s', upd_pel f s = Ok tt s' /\ pel_of s' = f (pel_of s).
Proof. eexists. by split. Qed.

Lemma pel_data_write_pel x s : vga_inv s -> is_u8 x -> cycle_ok (pel_of s) ->
  exists flags s', pel_data_write x s = Ok flags s' /\ pel_of s' = pel_put x (pel_of s).
Proof.
  intros Hs Hx Hc. pose proof (ok_write_register _ (ok_pel _ Hs)) as Hi.
  pose proof (ok_data _ (ok_pel _ Hs)) as Hlen. fold (pel_of s) in Hi, Hlen.
  unfold pel_data_write, get_vga. rewrite (run_bind _ _ _ _ _ (run_gets _ _)).
  fold (pel_of s). cbv zeta. unfold cycle_ok in Hc.
  match goal with |- exists _ _, (?m ≫= _) s = _ /\ _ =>
    assert (exists flags s1, m s = Ok flags s1 /\ pel_of s1 = pel_put_colour x (pel_of s)) as (flags & s1 & Hrun & Hs1) end.
  { unfold pel_put_colour. rewrite (u8_small x) by done.
    assert ((pel_of s).(PEL.write_data_cycle) = 0 \/ (pel_of s).(PEL.write_data_cycle) = 1 \/
      (pel_of s).(PEL.write_data_cycle) = 2) as [-> | [-> | ->]] by lia; cbn [Z.eqb Pos.eqb];
      rewrite (run_bind _ _ _ _ _ (run_set_colour _ _ _ Hs Hi)).
    - do 2 eexists. split; [reflexivity|]. reflexivity.
    - do 2 eexists. split; [reflexivity|]. reflexivity.
    - unfold get_vga. rewrite (run_bind _ _ _ _ _ (run_gets _ _)).
      rewrite (nthZ_default RGB.zero).
      2: { cbn. rewrite length_updZ. change (0 <= (pel_of s).(PEL.write_data_register) < Z.of_nat (length (pel_of s).(PEL.data))).
        rewrite Hlen. unfold in_width in Hi. lia. }
      cbn [of_option]. rewrite run_ret_bind. do 2 eexists. split; reflexivity. }
  rewrite (run_bind _ _ _ _ _ Hrun).
  destruct (run_upd_pel (fun p => p <| PEL.write_data_cycle ::= fun c => u8 (c + 1) |>) s1) as (s2 & Hr2 & Hp2).
  rewrite (run_bind _ _ _ _ _ Hr2), (run_bind _ _ _ _ _ (run_gets _ _)). fold (pel_of s2).
  assert ((pel_of s2).(PEL.write_data_cycle) = (pel_of s).(PEL.write_data_cycle) + 1) as Hcy2.
  { rewrite Hp2, Hs1. apply u8_small. unfold in_width. cbn. lia. }
  rewrite Hcy2.
  destruct (run_upd_pel (fun p => p <| PEL.write_data_cycle := 0 |>
    <| PEL.write_data_register ::= fun c => u8 (c + 1) |>) s2) as (s3 & Hr3 & Hp3).
  unfold pel_put. fold (pel_put_colour x (pel_of s)).
  destruct (Z.leb_spec 3 ((pel_of s).(PEL.write_data_cycle) + 1)) as [Hcyc|Hcyc]; unfold when.
  - rewrite (run_bind _ _ _ _ _ Hr3). do 2 eexists. split; [reflexivity|].
    rewrite Hp3, Hp2, Hs1. replace ((pel_of s).(PEL.write_data_cycle) =? 2) with true by lia. done.
  - rewrite (run_bind done_ _ s2 tt s2 eq_refl). do 2 eexists. split; [reflexivity|].
    rewrite Hp2, Hs1. replace ((pel_of s).(PEL.write_data_cycle) =? 2) with false by lia. 
    unfold pel_put_colour. destruct (pel_of s). cbn in *. f_equal. apply u8_small. unfold in_width. lia.
Qed.

Lemma run_write_end flags s : vga_inv s ->
  exists s', vga_write_end flags s = Ok tt s' /\ pel_of s' = pel_of s /\ vga_inv s'.
Proof.
  intros Hs. pose proof (safe_vga_write_end flags s Hs) as Hw. apply wp_Ok in Hw as ([] & s' & Hrun & Hs').
  exists s'. split; [done|]. split; [|done]. pose proof (keeps_vga_write_end flags). exact (within_run _ _ _ _ _ Hrun).
Qed.

(** A write to one of the palette's ports, from what it does to the palette. *)
Lemma pel_port_run A x s flags s1 : 0x3c0 <= A <= 0x3cf -> 0 <= x -> vga_inv s ->
  vga_write_port A x s = Ok flags s1 ->
  exists s', VgaPortIoWriteHandler A x 1 s = Ok tt s' /\ pel_of s' = pel_of s1 /\ vga_inv s'.
Proof.
  intros HA Hx Hs Hrun. rewrite common_port_write by done. rewrite (run_bind _ _ _ _ _ Hrun).
  pose proof (safe_vga_write_port A x Hx s Hs) as Hw. unfold wp in Hw. rewrite Hrun in Hw.
  by apply run_write_end.
Qed.

Lemma data_byte_run x s : vga_inv s -> is_u8 x -> cycle_ok (pel_of s) ->
  exists s', pel_data_byte x s = Ok tt s' /\ pel_of s' = pel_put x (pel_of s) /\ vga_inv s'.
Proof.
  intros Hs Hx Hc. destruct (pel_data_write_pel x s Hs Hx Hc) as (flags & s1 & Hrun & <-).
  apply (pel_port_run 0x3c9 x s flags); [lia|unfold in_width in Hx; lia|done|exact Hrun].
Qed.

(** Three bytes are a colour. *)
Definition write_colour (c : RGB.t) : IO unit :=
  pel_data_byte c.(RGB.red) ;; pel_data_byte c.(RGB.green) ;; pel_data_byte c.(RGB.blue).
Definition read_colour : IO RGB.t :=
  r ← VgaCorePortIoReadHandler 0x3c9 1;
  g ← VgaCorePortIoReadHandler 0x3c9 1;
  b ← VgaCorePortIoReadHandler 0x3c9 1;
  mret (RGB.mk r g b).

Definition colour_bytes (c : RGB.t) : Prop := is_u8 c.(RGB.red) /\ is_u8 c.(RGB.green) /\ is_u8 c.(RGB.blue).

Lemma pel_put_three c p : length p.(PEL.data) = 256%nat -> is_u8 p.(PEL.write_data_register) ->
  p.(PEL.write_data_cycle) = 0 ->
  pel_put c.(RGB.blue) (pel_put c.(RGB.green) (pel_put c.(RGB.red) p)) =
  p <| PEL.data := updZ p.(PEL.data) p.(PEL.write_data_register) c |>
    <| PEL.write_data_register := u8 (p.(PEL.write_data_register) + 1) |>.
Proof.
  intros Hl Hi Hc. destruct p as [wr wc rr rc ds data mask], c as [r g b]. cbn in *. subst wc.
  unfold in_width in Hi.
  assert (0 <= wr < Z.of_nat (length data)) as Hin by (rewrite Hl; lia).
  unfold pel_put. repeat progress (cbn -[u8 nthZ updZ default]; change (0 + 1) with 1; change (1 + 1) with 2).
  rewrite !nthZ_updZ_eq by (rewrite ?length_updZ; done). cbn -[u8 nthZ updZ]. by rewrite !updZ_updZ.
Qed.

Lemma write_colour_run c s : vga_inv s -> colour_bytes c -> (pel_of s).(PEL.write_data_cycle) = 0 ->
  exists s', write_colour c s = Ok tt s' /\ vga_inv s' /\
    pel_of s' = pel_of s <| PEL.data := updZ (pel_of s).(PEL.data) (pel_of s).(PEL.write_data_register) c |>
      <| PEL.write_data_register := u8 ((pel_of s).(PEL.write_data_register) + 1) |>.
Proof.
  intros Hs (Hr & Hg & Hb) Hc. unfold write_colour.
  destruct (data_byte_run c.(RGB.red) s) as (s1 & Hr1 & Hp1 & Hs1); [done|done|unfold cycle_ok; lia|].
  rewrite (run_bind _ _ _ _ _ Hr1).
  assert ((pel_of s1).(PEL.write_data_cycle) = 1) as Hc1 by (rewrite Hp1; unfold pel_put; cbn; by rewrite Hc).
  destruct (data_byte_run c.(RGB.green) s1) as (s2 & Hr2 & Hp2 & Hs2); [done|done|unfold cycle_ok; lia|].
  rewrite (run_bind _ _ _ _ _ Hr2).
  assert ((pel_of s2).(PEL.write_data_cycle) = 2) as Hc2 by (rewrite Hp2; unfold pel_put; cbn; by rewrite Hc1).
  destruct (data_byte_run c.(RGB.blue) s2) as (s3 & Hr3 & Hp3 & Hs3); [done|done|unfold cycle_ok; lia|].
  exists s3. split; [done|]. split; [done|]. rewrite Hp3, Hp2, Hp1.
  apply pel_put_three; [apply (ok_data _ (ok_pel _ Hs))|apply (ok_write_register _ (ok_pel _ Hs))|done].
Qed.

(** What a block of colours leaves in the palette, and what a block of reads gives:
    the index wraps at 256. *)
Fixpoint paint (i : Z) (cs : list RGB.t) (data : list RGB.t) : list RGB.t :=
  match cs with
  | [] => data
  | c :: cs => paint (u8 (i + 1)) cs (updZ data i c)
  end.
Fixpoint colours_from (i : Z) (n : nat) (data : list RGB.t) : list RGB.t :=
  match n with
  | O => []
  | S n => default RGB.zero (nthZ data i) :: colours_from (u8 (i + 1)) n data
  end.

Lemma u8_step i k : u8 (u8 (i + 1) + k) = u8 (i + (k + 1)).
Proof. unfold u8. rewrite Z.add_mod_idemp_l by done. f_equal. lia. Qed.

Lemma length_paint i cs data : length (paint i cs data) = length data.
Proof. revert i data. induction cs as [|c cs IH]; intros; simpl; [done|]. by rewrite IH, length_updZ. Qed.

Lemma paint_other i cs data j : is_u8 i ->
  (forall k, 0 <= k < Z.of_nat (length cs) -> j <> u8 (i + k)) -> nthZ (paint i cs data) j = nthZ data j.
Proof.
  revert i data. induction cs as [|c cs IH]; intros i data Hi Hj; simpl; [done|].
  rewrite IH; [|apply u8_range|].
  - apply nthZ_updZ_ne. intros ->. apply (Hj 0); [simpl; lia|]. by rewrite Z.add_0_r, u8_small.
  - intros k Hk. rewrite u8_step. apply Hj. simpl. lia.
Qed.

Lemma colours_paint i cs data : is_u8 i -> (length cs <= 256)%nat -> length data = 256%nat ->
  colours_from i (length cs) (paint i cs data) = cs.
Proof.
  revert i data. induction cs as [|c cs IH]; intros i data Hi Hn Hl; simpl; [done|]. simpl in Hn.
  f_equal; [|apply IH; [apply u8_range|lia|by rewrite length_updZ]].
  rewrite paint_other; [|apply u8_range|].
  - rewrite nthZ_updZ_eq; [done|]. rewrite Hl. unfold in_width in Hi. lia.
  - intros k Hk. rewrite u8_step. intros Heq. unfold u8, in_width in *. Z.div_mod_to_equations. lia.
Qed.

Definition dac_write (i : Z) (cs : list RGB.t) : IO unit :=
  VgaPortIoWriteHandler 0x3c8 i 1 ;; foreach cs write_colour.
Fixpoint read_colours (n : nat) : IO (list RGB.t) :=
  match n with
  | O => mret []
  | S n => c ← read_colour; cs ← read_colours n; mret (c :: cs)
  end.
Definition dac_read (i : Z) (n : nat) : IO (list RGB.t) :=
  VgaPortIoWriteHandler 0x3c7 i 1 ;; read_colours n.

Lemma write_colours_run cs s : vga_inv s -> Forall colour_bytes cs -> (pel_of s).(PEL.write_data_cycle) = 0 ->
  exists s', foreach cs write_colour s = Ok tt s' /\ vga_inv s' /\
    (pel_of s').(PEL.data) = paint (pel_of s).(PEL.write_data_register) cs (pel_of s).(PEL.data).
Proof.
  revert s. induction cs as [|c cs IH]; intros s Hs Hcs Hc; [by exists s|].
  inversion Hcs as [|? ? Hb Hbs]; subst. simpl foreach.
  destruct (write_colour_run c s Hs Hb Hc) as (s1 & Hr1 & Hs1 & Hp1).
  destruct (IH s1 Hs1 Hbs) as (s2 & Hr2 & Hs2 & Hp2); [by rewrite Hp1|].
  exists s2. rewrite (run_bind _ _ _ _ _ Hr1). split; [done|]. split; [done|]. by rewrite Hp2, Hp1.
Qed.

(** A write of an index port. *)
Lemma dac_index_run A i s : A = 0x3c7 \/ A = 0x3c8 -> is_u8 i -> vga_inv s ->
  exists s', VgaPortIoWriteHandler A i 1 s = Ok tt s' /\ vga_inv s' /\
    pel_of s' = if A =? 0x3c7
      then pel_of s <| PEL.read_data_register := i |> <| PEL.read_data_cycle := 0 |> <| PEL.dac_state := 0x03 |>
      else pel_of s <| PEL.write_data_register := i |> <| PEL.write_data_cycle := 0 |> <| PEL.dac_state := 0x00 |>.
Proof.
  intros HA Hi Hs. assert (0 <= i) by (unfold in_width in Hi; lia).
  destruct HA as [-> | ->];
    [destruct (pel_port_run 0x3c7 i s _ _ ltac:(lia) ltac:(done) Hs eq_refl) as (s' & Hr & Hp & Hs')
    |destruct (pel_port_run 0x3c8 i s _ _ ltac:(lia) ltac:(done) Hs eq_refl) as (s' & Hr & Hp & Hs')];
    exists s'; (split; [done|split; [done|]]); rewrite Hp; cbn -[u8]; by rewrite (u8_small i).
Qed.

(** ** Reads of the palette *)

(** The byte of the next read, and the palette after it. *)
Definition pel_get (p : PEL.t) : Z * PEL.t :=
  let c := default RGB.zero (nthZ p.(PEL.data) p.(PEL.read_data_register)) in
  let cycle := p.(PEL.read_data_cycle) in
  (if cycle =? 0 then c.(RGB.red) else if cycle =? 1 then c.(RGB.green) else c.(RGB.blue),
   p <| PEL.read_data_cycle := if cycle =? 2 then 0 else cycle + 1 |>
     <| PEL.read_data_register := if cycle =? 2 then u8 (p.(PEL.read_data_register) + 1)
                                  else p.(PEL.read_data_register) |>).

Lemma data_port_read_eq s : VgaCorePortIoReadHandler 0x3c9 1 s = pel_data_read s.
Proof.
  unfold VgaCorePortIoReadHandler. change (1 =? 2) with false. cbv iota.
  unfold vga_core_read, get_vga. rewrite (run_bind _ _ _ _ _ (run_gets _ _)).
  by destruct (common_port 0x3c9 s.(Machine.VgaCore) ltac:(lia)) as [-> _].
Qed.

Lemma pel_data_read_pel s : vga_inv s -> (pel_of s).(PEL.dac_state) = 0x03 ->
  0 <= (pel_of s).(PEL.read_data_cycle) < 3 ->
  exists s', pel_data_read s = Ok (pel_get (pel_of s)).1 s' /\ pel_of s' = (pel_get (pel_of s)).2.
Proof.
  intros Hs Hd Hc. pose proof (ok_read_register _ (ok_pel _ Hs)) as Hi. pose proof (ok_data _ (ok_pel _ Hs)) as Hlen.
  fold (pel_of s) in Hi, Hlen. unfold in_width in Hi.
  unfold pel_data_read, get_vga. rewrite (run_bind _ _ _ _ _ (run_gets _ _)). fold (pel_of s). cbv zeta.
  rewrite Hd. change (0x03 =? 0x03) with true. cbv iota.
  rewrite (nthZ_default RGB.zero) by (rewrite Hlen; lia). cbn [of_option]. rewrite run_ret_bind.
  destruct (run_upd_pel (fun p => p <| PEL.read_data_cycle ::= fun c => u8 (c + 1) |>) s) as (s2 & Hr2 & Hp2).
  rewrite (run_bind _ _ _ _ _ Hr2), (run_bind _ _ _ _ _ (run_gets _ _)). fold (pel_of s2).
  assert ((pel_of s2).(PEL.read_data_cycle) = (pel_of s).(PEL.read_data_cycle) + 1) as Hcy2.
  { rewrite Hp2. apply u8_small. unfold in_width. lia. }
  rewrite Hcy2.
  destruct (run_upd_pel (fun p => p <| PEL.read_data_cycle := 0 |>
    <| PEL.read_data_register ::= fun c => u8 (c + 1) |>) s2) as (s3 & Hr3 & Hp3).
  assert ((pel_of s).(PEL.read_data_cycle) = 0 \/ (pel_of s).(PEL.read_data_cycle) = 1 \/
      (pel_of s).(PEL.read_data_cycle) = 2) as Hcases by lia.
  destruct (Z.leb_spec 3 ((pel_of s).(PEL.read_data_cycle) + 1)) as [Hcyc|Hcyc]; unfold when.
  - rewrite (run_bind _ _ _ _ _ Hr3). exists s3. rewrite Hp3, Hp2. unfold pel_get.
    assert ((pel_of s).(PEL.read_data_cycle) = 2) as -> by lia. by split.
  - rewrite (run_bind done_ _ s2 tt s2 eq_refl). exists s2. rewrite Hp2. unfold pel_get.
    destruct Hcases as [Hz|[Hz|Hz]]; rewrite ?Hz; [..|lia];
      (split; [done|]); destruct (pel_of s); cbn in *; by subst.
Qed.

Lemma data_port_read s : vga_inv s -> (pel_of s).(PEL.dac_state) = 0x03 ->
  0 <= (pel_of s).(PEL.read_data_cycle) < 3 ->
  exists s', VgaCorePortIoReadHandler 0x3c9 1 s = Ok (pel_get (pel_of s)).1 s' /\ vga_inv s' /\
    pel_of s' = (pel_get (pel_of s)).2.
Proof.
  intros Hs Hd Hc. pose proof (safe_VgaCorePortIoReadHandler 0x3c9 1 s Hs) as Hw. unfold wp in Hw.
  rewrite data_port_read_eq in *. destruct (pel_data_read_pel s Hs Hd Hc) as (s' & Hr & Hp).
  exists s'. rewrite Hr in *. auto.
Qed.

Lemma read_colour_run s : vga_inv s -> (pel_of s).(PEL.dac_state) = 0x03 -> (pel_of s).(PEL.read_data_cycle) = 0 ->
  exists s', read_colour s = Ok (default RGB.zero (nthZ (pel_of s).(PEL.data) (pel_of s).(PEL.read_data_register))) s'
    /\ vga_inv s' /\
    pel_of s' = pel_of s <| PEL.read_data_register := u8 ((pel_of s).(PEL.read_data_register) + 1) |>.
Proof.
  intros Hs Hd Hc. unfold read_colour.
  destruct (data_port_read s Hs Hd ltac:(lia)) as (s1 & Hr1 & Hs1 & Hp1). rewrite (run_bind _ _ _ _ _ Hr1).
  unfold pel_get in Hp1, Hr1. cbn [fst snd] in Hp1. rewrite Hc in Hp1.
  destruct (data_port_read s1 Hs1) as (s2 & Hr2 & Hs2 & Hp2); [by rewrite Hp1|by rewrite Hp1|].
  rewrite (run_bind _ _ _ _ _ Hr2). unfold pel_get in Hp2. rewrite Hp1 in Hp2. 
  destruct (data_port_read s2 Hs2) as (s3 & Hr3 & Hs3 & Hp3); [by rewrite Hp2|by rewrite Hp2|].
  rewrite (run_bind _ _ _ _ _ Hr3). exists s3. unfold pel_get in Hp3. rewrite Hp2 in Hp3.
  split; [|split; [done|]].
  - unfold pel_get. rewrite Hp2, Hp1, Hc. unfold mret, M_ret. f_equal. cbn -[nthZ default].
    by destruct (default RGB.zero _).
  - rewrite Hp3. destruct (pel_of s). cbn in *. by subst.
Qed.

Lemma read_colours_run n s : vga_inv s -> (pel_of s).(PEL.dac_state) = 0x03 -> (pel_of s).(PEL.read_data_cycle) = 0 ->
  exists s', read_colours n s = Ok (colours_from (pel_of s).(PEL.read_data_register) n (pel_of s).(PEL.data)) s' /\
    vga_inv s'.
Proof.
  revert s. induction n as [|n IH]; intros s Hs Hd Hc; simpl; [by exists s|].
  destruct (read_colour_run s Hs Hd Hc) as (s1 & Hr1 & Hs1 & Hp1). rewrite (run_bind _ _ _ _ _ Hr1).
  destruct (IH s1 Hs1) as (s2 & Hr2 & Hs2); [by rewrite Hp1|by rewrite Hp1|].
  rewrite (run_bind _ _ _ _ _ Hr2). exists s2. split; [|done]. rewrite Hp1. done.
Qed.

(** Through the ports, a block of colours written to the palette from any index is
    read back from that index, for up to 256 colours and with the index wrapping. *)
Theorem dac_roundtrip s i cs : vga_inv s -> is_u8 i -> Forall colour_bytes cs -> (length cs <= 256)%nat ->
  exists s', (dac_write i cs ;; dac_read i (length cs)) s = Ok cs s'.
Proof.
  intros Hs Hi Hcs Hn. unfold dac_write, dac_read.
  destruct (dac_index_run 0x3c8 i s (or_intror eq_refl) Hi Hs) as (s1 & Hr1 & Hs1 & Hp1).
  destruct (write_colours_run cs s1 Hs1 Hcs) as (s2 & Hr2 & Hs2 & Hp2); [by rewrite Hp1|].
  destruct (dac_index_run 0x3c7 i s2 (or_introl eq_refl) Hi Hs2) as (s3 & Hr3 & Hs3 & Hp3).
  destruct (read_colours_run (length cs) s3 Hs3) as (s4 & Hr4 & _); [by rewrite Hp3|by rewrite Hp3|].
  exists s4. assert ((VgaPortIoWriteHandler 0x3c8 i 1 ;; foreach cs write_colour) s = Ok tt s2) as Hw.
  { by rewrite (run_bind _ _ _ _ _ Hr1). }
  rewrite (run_bind _ _ _ _ _ Hw), (run_bind _ _ _ _ _ Hr3), Hr4, Hp3. f_equal.
  change (colours_from i (length cs) (pel_of s2).(PEL.data) = cs). rewrite Hp2, Hp1.
  apply colours_paint; [done|done|]. exact (ok_data _ (ok_pel _ Hs)).
Qed.

Lemma dac_roundtrip_witness : exists s',
  (dac_write 255 [RGB.mk 1 2 3; RGB.mk 63 0 63] ;; dac_read 255 (length [RGB.mk 1 2 3; RGB.mk 63 0 63])) vga_started
  = Ok [RGB.mk 1 2 3; RGB.mk 63 0 63] s'.
Proof.
  refine (dac_roundtrip vga_started 255 [RGB.mk 1 2 3; RGB.mk 63 0 63] vga_start_ok _ _ _).
  - unfold in_width. lia.
  - constructor; [|constructor; [|constructor]]; unfold colour_bytes, in_width; cbn; lia.
  - cbn. lia.
Defined.
