(* ===== verification/VgaMem.v ===== *)
(** vgacore.c: the guest's window into the video memory.

    Four planes of 64 KB lie behind the addresses 0xA0000 to 0xBFFFF.  A read fills the
    four latches and gives one plane or the comparison of all; a write combines the
    byte, the latches and the registers of the graphics controller into one byte for
    each plane.  In the chained mode the low two bits of the address choose the plane.
    Every write also marks the tiles of the screen that show the byte. *)

From S2P Require Export VgaDac.

Definition ccdat : list (list Z) :=
  [[0x00; 0x00; 0x00; 0x00];
   [0xff; 0x00; 0x00; 0x00];
   [0x00; 0xff; 0x00; 0x00];
   [0xff; 0xff; 0x00; 0x00];
   [0x00; 0x00; 0xff; 0x00];
   [0xff; 0x00; 0xff; 0x00];
   [0x00; 0xff; 0xff; 0x00];
   [0xff; 0xff; 0xff; 0x00];
   [0x00; 0x00; 0x00; 0xff];
   [0xff; 0x00; 0x00; 0xff];
   [0x00; 0xff; 0x00; 0xff];
   [0xff; 0xff; 0x00; 0xff];
   [0x00; 0x00; 0xff; 0xff];
   [0xff; 0x00; 0xff; 0xff];
   [0x00; 0xff; 0xff; 0xff];
   [0xff; 0xff; 0xff; 0xff]].
Definition ccdat_at (i j : Z) : Z := nth0 (default [] (nthZ ccdat i)) j.

(** ** Planes *)

(** The four planes, [plane0] to [plane3]. *)
Definition planes : list Z := [0; 1; 2; 3].
Definition plane_index (v : VgaCore.t) (p offset : Z) : Z :=
  (p <<. v.(VgaCore.plane_shift)) + v.(VgaCore.ext_offset) + offset.
Definition plane_load (p offset : Z) : IO Z := v ← get_vga; mem_load (plane_index v p offset).
Definition plane_store (p offset x : Z) : IO unit := v ← get_vga; mem_store (plane_index v p offset) x.

Definition latch_of (g : GRAPHICS_CTRL.t) (p : Z) : Z := nth0 g.(GRAPHICS_CTRL.latch) p.

(** [(offset & ~0x03) + (offset % 4) * 65536] *)
Definition chained (offset : Z) : Z := (offset &. ~. 0x03) + (offset mod 4) * 65536.

Definition start_addr (v : VgaCore.t) : Z := (crtc_reg v 0x0c <<. 8) |. crtc_reg v 0x0d.

(** ** Reads *)

Definition read_offset (memory_mapping Address : Z) : option Z :=
  if memory_mapping =? 1 then if 0xaffff <? Address then None else Some (Address &. 0xffff)
  else if memory_mapping =? 2 then
    if (Address <? 0xb0000) || (0xb7fff <? Address) then None else Some (Address &. 0x7fff)
  else if memory_mapping =? 3 then if Address <? 0xb8000 then None else Some (Address &. 0x7fff)
  else Some (Address &. 0x1ffff).

Definition load_latches (offset : Z) : IO unit :=
  foreach planes (fun p =>
    x ← plane_load p offset;
    upd_gfx (fun g => g <| GRAPHICS_CTRL.latch ::= fun l => updZ l p x |>)).

(** The bits where the planes that matter differ from the colour. *)
Definition compare_plane (g : GRAPHICS_CTRL.t) (p : Z) : Z :=
  Z.lxor (latch_of g p) (ccdat_at (g.(GRAPHICS_CTRL.color_compare) &. 0x0f) p)
  &. ccdat_at (g.(GRAPHICS_CTRL.color_dont_care) &. 0x0f) p.

Definition _VgaCoreMMIOReadHandler (Address : Z) : IO Z :=
  v ← get_vga;
  match read_offset v.(VgaCore.graphics_ctrl).(GRAPHICS_CTRL.memory_mapping) Address with
  | None => mret 0xff
  | Some offset =>
      if nz v.(VgaCore.sequencer).(SEQUENCER.chain_four) then mem_load (chained offset)
      else if v.(VgaCore.graphics_ctrl).(GRAPHICS_CTRL.read_mode) =? 0 then
        load_latches offset ;;
        v ← get_vga;
        let g := v.(VgaCore.graphics_ctrl) in
        of_option OutOfBounds (nthZ g.(GRAPHICS_CTRL.latch) g.(GRAPHICS_CTRL.read_map_select))
      else if v.(VgaCore.graphics_ctrl).(GRAPHICS_CTRL.read_mode) =? 1 then
        load_latches offset ;;
        v ← get_vga;
        let g := v.(VgaCore.graphics_ctrl) in
        mret (u8 (~. (compare_plane g 0 |. compare_plane g 1 |. compare_plane g 2 |. compare_plane g 3)))
      else mret 0
  end.

(** The loop over the bytes of the access, which fills [Data]. *)
Fixpoint vga_read_bytes (l : list Z) (Address : Z) (Data : list Z) : IO (list Z) :=
  match l with
  | [] => mret Data
  | i :: l =>
      x ← _VgaCoreMMIOReadHandler (u32 (Address + i));
      _ ← of_option OutOfBounds (nthZ Data i);
      vga_read_bytes l Address (updZ Data i (u8 x))
  end.
Definition VgaCoreMMIOReadHandler (Address : Z) (Data : list Z) (Length : Z) : IO (list Z) :=
  vga_read_bytes (seqZ 0 Length) Address Data.

(** ** Writes *)

Definition write_offset (memory_mapping Address : Z) : option Z :=
  if memory_mapping =? 1 then
    if (Address <? 0xa0000) || (0xaffff <? Address) then None else Some (u32 (Address - 0xa0000))
  else if memory_mapping =? 2 then
    if (Address <? 0xb0000) || (0xb7fff <? Address) then None else Some (u32 (Address - 0xb0000))
  else if memory_mapping =? 3 then
    if (Address <? 0xb8000) || (0xbffff <? Address) then None else Some (u32 (Address - 0xb8000))
  else
    if (Address <? 0xa0000) || (0xbffff <? Address) then None else Some (u32 (Address - 0xa0000)).

(** The CGA modes: two interlaced fields of 80 bytes a line. *)
Definition cga_write (offset Value : Z) : IO unit :=
  mem_store offset Value ;;
  v ← get_vga;
  let offset := u32 (offset - start_addr v) in
  let odd := 0x2000 <=? offset in
  let o := if odd then offset - 0x2000 else offset in
  let y_tileno := ((o / (320 / 4)) <<. 1) + (if odd then 1 else 0) in
  let x_tileno := (o mod (320 / 4)) <<. 2 in
  let mode6 := v.(VgaCore.graphics_ctrl).(GRAPHICS_CTRL.shift_reg) =? 0 in
  let x_tileno2 := if mode6 then x_tileno + 7 else x_tileno + 3 in
  let x_tileno := if mode6 then x_tileno * 2 else x_tileno in
  let xs := if nz v.(VgaCore.x_dotclockdiv2) then X_TILESIZE / 2 else X_TILESIZE in
  let ys := if nz v.(VgaCore.y_doublescan) then Y_TILESIZE / 2 else Y_TILESIZE in
  upd_vga (fun v => v <| VgaCore.vga_mem_updated := 1 |>) ;;
  SET_TILE_UPDATED (x_tileno / xs) (y_tileno / ys) 1 ;;
  when (negb (x_tileno2 / xs =? x_tileno / xs)) (SET_TILE_UPDATED (x_tileno2 / xs) (y_tileno / ys) 1).

(** The 256-colour mode with chained planes. *)
Definition chain_four_write (offset Value : Z) : IO unit :=
  mem_store (chained offset) Value ;;
  v ← get_vga;
  when (0 <? v.(VgaCore.line_offset)) (
    let offset := u32 (offset - start_addr v) in
    let x_tileno := (offset mod v.(VgaCore.line_offset)) / (X_TILESIZE / 2) in
    let ys := if nz v.(VgaCore.y_doublescan) then Y_TILESIZE / 2 else Y_TILESIZE in
    upd_vga (fun v => v <| VgaCore.vga_mem_updated := 1 |>) ;;
    SET_TILE_UPDATED x_tileno ((offset / v.(VgaCore.line_offset)) / ys) 1).

(** *** The write modes *)

(** [Value] rotated right, with the bits below bit 8 meant. *)
Definition rotate (g : GRAPHICS_CTRL.t) (Value : Z) : Z :=
  if nz g.(GRAPHICS_CTRL.data_rotate) then
    u32 ((Value >>. g.(GRAPHICS_CTRL.data_rotate)) |. (Value <<. (8 - g.(GRAPHICS_CTRL.data_rotate))))
  else Value.

(** The bits inside the mask, when the plane's data is all ones ([c]) or all zeros. *)
Definition raster_constant (op latch bitmask : Z) (c : bool) : Z :=
  if op =? 0 then if c then bitmask else 0
  else if op =? 1 then if c then latch &. bitmask else 0
  else if op =? 2 then if c then bitmask else latch &. bitmask
  else if op =? 3 then if c then ~. latch &. bitmask else latch &. bitmask
  else 0.
(** The bits inside the mask, for the data byte. *)
Definition raster_data (op latch bitmask Value : Z) : Z :=
  if op =? 0 then Value &. bitmask
  else if op =? 1 then (Value &. latch) &. bitmask
  else if op =? 2 then (Value |. latch) &. bitmask
  else if op =? 3 then Z.lxor Value latch &. bitmask
  else 0.

Definition write_mode_0 (g : GRAPHICS_CTRL.t) (Value p : Z) : Z :=
  let bitmask := g.(GRAPHICS_CTRL.bitmask) in
  let Value := rotate g Value in
  let latch := latch_of g p in
  u8 ((latch &. ~. bitmask) |.
      (if g.(GRAPHICS_CTRL.enable_set_reset) &? bit p
       then raster_constant g.(GRAPHICS_CTRL.raster_op) latch bitmask (g.(GRAPHICS_CTRL.set_reset) &? bit p)
       else raster_data g.(GRAPHICS_CTRL.raster_op) latch bitmask Value)).

Definition write_mode_2 (g : GRAPHICS_CTRL.t) (Value p : Z) : Z :=
  let bitmask := g.(GRAPHICS_CTRL.bitmask) in
  let latch := latch_of g p in
  u8 ((latch &. ~. bitmask) |.
      raster_constant g.(GRAPHICS_CTRL.raster_op) latch bitmask (Value &? bit p)).

Definition write_mode_3 (g : GRAPHICS_CTRL.t) (Value p : Z) : Z :=
  let bitmask := u8 (g.(GRAPHICS_CTRL.bitmask) &. Value) in
  let Value := rotate g Value &. bitmask in
  let latch := latch_of g p in
  let op := g.(GRAPHICS_CTRL.raster_op) in
  let data := if g.(GRAPHICS_CTRL.set_reset) &? bit p then Value else 0 in
  u8 ((latch &. ~. bitmask) |.
      (if op =? 0 then data
       else if op =? 1 then data &. latch
       else if op =? 2 then data |. latch
       else if op =? 3 then Z.lxor data latch
       else 0)).

(** [new_val[p]] *)
Definition new_val (g : GRAPHICS_CTRL.t) (Value p : Z) : Z :=
  let mode := g.(GRAPHICS_CTRL.write_mode) in
  if mode =? 0 then write_mode_0 g Value p
  else if mode =? 1 then latch_of g p
  else if mode =? 2 then write_mode_2 g Value p
  else if mode =? 3 then write_mode_3 g Value p
  else 0.

(** The tile that shows the byte at an offset from the start of the screen. *)
Definition mark_tile (offset : Z) : IO unit :=
  v ← get_vga;
  when (0 <? v.(VgaCore.line_offset)) (
    let xs := if nz v.(VgaCore.x_dotclockdiv2) then X_TILESIZE / 16 else X_TILESIZE / 8 in
    let ys := if nz v.(VgaCore.y_doublescan) then Y_TILESIZE / 2 else Y_TILESIZE in
    SET_TILE_UPDATED ((offset mod v.(VgaCore.line_offset)) / xs) ((offset / v.(VgaCore.line_offset)) / ys) 1).

(** The part of the screen below the split, which shows the memory from its start. *)
Definition mark_split_tile (offset : Z) : IO unit :=
  v ← get_vga;
  when (v.(VgaCore.line_compare) <? v.(VgaCore.vertical_display_end)) (
    when (0 <? v.(VgaCore.line_offset)) (
      let xs := if nz v.(VgaCore.x_dotclockdiv2) then X_TILESIZE / 16 else X_TILESIZE / 8 in
      let line := offset / v.(VgaCore.line_offset) in
      let line := if nz v.(VgaCore.y_doublescan) then line * 2 else line in
      SET_TILE_UPDATED ((offset mod v.(VgaCore.line_offset)) / xs)
        (u32 (line + v.(VgaCore.line_compare) + 1) / Y_TILESIZE) 1)).

(** The tiles of a planar write. *)
Definition mark_planar (v : VgaCore.t) (offset : Z) : IO unit :=
  if v.(VgaCore.graphics_ctrl).(GRAPHICS_CTRL.shift_reg) =? 2 then
    let offset := u32 (offset - start_addr v) in
    x ← modu offset v.(VgaCore.line_offset);
    y ← divu offset v.(VgaCore.line_offset);
    let ys := if nz v.(VgaCore.y_doublescan) then Y_TILESIZE / 2 else Y_TILESIZE in
    SET_TILE_UPDATED (x * 4 / (X_TILESIZE / 2)) (y / ys) 1
  else
    mark_split_tile offset ;;
    when (start_addr v <=? offset) (mark_tile (offset - start_addr v)).

Definition planar_write (offset Value : Z) : IO unit :=
  v ← get_vga;
  let g := v.(VgaCore.graphics_ctrl) in
  let map_mask := v.(VgaCore.sequencer).(SEQUENCER.map_mask) in
  when (map_mask &? 0x0f) (
    upd_vga (fun v => v <| VgaCore.vga_mem_updated := 1 |>) ;;
    when (map_mask &? 0x01) (plane_store 0 offset (new_val g Value 0)) ;;
    when (map_mask &? 0x02) (plane_store 1 offset (new_val g Value 1)) ;;
    when (map_mask &? 0x04) (
      when (offset &. 0xe000 =? v.(VgaCore.charmap_address)) (
        gui (gui_set_text_charbyte (offset &. 0x1fff) (new_val g Value 2))) ;;
      plane_store 2 offset (new_val g Value 2)) ;;
    when (map_mask &? 0x08) (plane_store 3 offset (new_val g Value 3)) ;;
    mark_planar v offset).

Definition _VgaCoreMMIOWriteHandler (Address Value : Z) : IO unit :=
  v ← get_vga;
  let g := v.(VgaCore.graphics_ctrl) in
  match write_offset g.(GRAPHICS_CTRL.memory_mapping) Address with
  | None => done_
  | Some offset =>
      if graphics_alpha v && (g.(GRAPHICS_CTRL.memory_mapping) =? 3) then cga_write offset Value
      else if graphics_alpha v && nz v.(VgaCore.sequencer).(SEQUENCER.chain_four)
      then chain_four_write offset Value
      else planar_write offset Value
  end.

Definition VgaCoreMMIOWriteHandler (Address : Z) (Data : list Z) (Length : Z) : IO unit :=
  foreach (seqZ 0 Length) (fun i =>
    x ← of_option OutOfBounds (nthZ Data i);
    _VgaCoreMMIOWriteHandler (u32 (Address + i)) x).

(** ** The write modes, bit by bit *)

(** The ranges of the graphics controller's registers. *)
Record gfx_range (g : GRAPHICS_CTRL.t) : Prop := {
  rg_latch : Forall is_u8 g.(GRAPHICS_CTRL.latch);
  rg_mask : is_u8 g.(GRAPHICS_CTRL.bitmask);
  rg_rotate : 0 <= g.(GRAPHICS_CTRL.data_rotate) < 8;
  rg_op : 0 <= g.(GRAPHICS_CTRL.raster_op) < 4;
  rg_mode : 0 <= g.(GRAPHICS_CTRL.write_mode) < 4
}.

(** The reference: the logic function of one bit of the source and of the latch. *)
Definition logic (op : Z) (source latch : bool) : bool :=
  if op =? 0 then source else if op =? 1 then source && latch
  else if op =? 2 then source || latch else xorb source latch.

(** Bit [i] of the byte that a write of [Value] stores in plane [p]. *)
Definition planar_bit (g : GRAPHICS_CTRL.t) (Value p i : Z) : bool :=
  let latch := Z.testbit (latch_of g p) i in
  let rotated := Z.testbit Value ((i + g.(GRAPHICS_CTRL.data_rotate)) mod 8) in
  let set_reset := Z.testbit g.(GRAPHICS_CTRL.set_reset) p in
  let mode := g.(GRAPHICS_CTRL.write_mode) in
  let mask := Z.testbit g.(GRAPHICS_CTRL.bitmask) i && (if mode =? 3 then rotated else true) in
  let source :=
    if mode =? 0 then
      if Z.testbit g.(GRAPHICS_CTRL.enable_set_reset) p then set_reset else rotated
    else if mode =? 2 then Z.testbit Value p
    else set_reset in
  if mode =? 1 then latch
  else if mask then logic g.(GRAPHICS_CTRL.raster_op) source latch else latch.

Lemma rotate_bit g Value i : gfx_range g -> is_u8 Value -> 0 <= i < 8 ->
  Z.testbit (rotate g Value) i = Z.testbit Value ((i + g.(GRAPHICS_CTRL.data_rotate)) mod 8).
Proof.
  intros Hg HV Hi. pose proof (rg_rotate g Hg) as Hr. unfold rotate.
  set (r := g.(GRAPHICS_CTRL.data_rotate)) in *. clearbody r.
  destruct (r =? 0) eqn:Hz.
  { apply Z.eqb_eq in Hz. subst r. change (nz 0) with false. cbv iota.
    by rewrite Z.add_0_r, Z.mod_small. }
  unfold nz. rewrite Hz. cbn [negb]. apply Z.eqb_neq in Hz.
  rewrite testbit_u32, Z.lor_spec, Z.shiftr_spec, Z.shiftl_spec by lia.
  replace (i <? 32) with true by lia. cbn [andb].
  destruct (Z_lt_dec (i + r) 8) as [Hlt|Hge].
  - rewrite (Z.mod_small (i + r)) by lia. rewrite (Z.testbit_neg_r Value (i - (8 - r))) by lia. apply orb_false_r.
  - replace ((i + r) mod 8) with (i - (8 - r)) by (Z.div_mod_to_equations; lia).
    by rewrite (testbit_in_width 8 Value (i + r)) by (done || lia).
Qed.

(** The byte is assembled from the latch outside the mask and [inside] within it. *)
Lemma masked_bit latch mask inside i : 0 <= i < 8 ->
  (Z.testbit mask i = false -> Z.testbit inside i = Z.testbit latch i \/ Z.testbit inside i = false) ->
  Z.testbit (u8 ((latch &. ~. mask) |. inside)) i =
  if Z.testbit mask i then Z.testbit inside i else Z.testbit latch i.
Proof.
  intros Hi Hin. rewrite testbit_u8, Z.lor_spec, Z.land_spec, Z.lnot_spec by lia.
  replace (i <? 8) with true by lia. cbn [andb].
  destruct (Z.testbit mask i); cbn [negb andb]; [by rewrite andb_false_r|].
  rewrite andb_true_r. destruct (Hin eq_refl) as [-> | ->]; [apply orb_diag|apply orb_false_r].
Qed.

(** The two forms of the data, inside the mask. *)
Lemma raster_constant_bit op latch mask c i : 0 <= i -> 0 <= op < 4 ->
  Z.testbit (raster_constant op latch mask c) i = Z.testbit mask i && logic op c (Z.testbit latch i).
Proof.
  intros Hi Ho. unfold raster_constant, logic.
  assert (op = 0 \/ op = 1 \/ op = 2 \/ op = 3) as [-> | [-> | [-> | ->]]] by lia; cbn [Z.eqb Pos.eqb]; destruct c;
    rewrite ?Z.land_spec, ?Z.lnot_spec, ?Z.bits_0 by lia;
    destruct (Z.testbit mask i), (Z.testbit latch i); reflexivity.
Qed.

Lemma raster_data_bit op latch mask Value i : 0 <= i -> 0 <= op < 4 ->
  Z.testbit (raster_data op latch mask Value) i =
  Z.testbit mask i && logic op (Z.testbit Value i) (Z.testbit latch i).
Proof.
  intros Hi Ho. unfold raster_data, logic.
  assert (op = 0 \/ op = 1 \/ op = 2 \/ op = 3) as [-> | [-> | [-> | ->]]] by lia; cbn [Z.eqb Pos.eqb];
    rewrite ?Z.land_spec, ?Z.lor_spec, ?Z.lxor_spec by lia;
    destruct (Z.testbit mask i), (Z.testbit latch i), (Z.testbit Value i); reflexivity.
Qed.

Lemma write_mode_0_bit g Value p i : gfx_range g -> is_u8 Value -> 0 <= p -> 0 <= i < 8 ->
  g.(GRAPHICS_CTRL.write_mode) = 0 ->
  Z.testbit (write_mode_0 g Value p) i = planar_bit g Value p i.
Proof.
  intros Hg HV Hp Hi Hm. pose proof (rg_op g Hg) as Ho. unfold write_mode_0, planar_bit. rewrite Hm.
  cbn [Z.eqb]. cbv zeta. rewrite !tst_bit by done. rewrite <- rotate_bit by done.
  destruct (Z.testbit g.(GRAPHICS_CTRL.enable_set_reset) p);
    (rewrite masked_bit; [|done|]);
    rewrite ?raster_constant_bit, ?raster_data_bit by lia;
    destruct (Z.testbit g.(GRAPHICS_CTRL.bitmask) i); cbn [andb]; solve [done | by right].
Qed.

Lemma write_mode_2_bit g Value p i : gfx_range g -> 0 <= p -> 0 <= i < 8 ->
  g.(GRAPHICS_CTRL.write_mode) = 2 ->
  Z.testbit (write_mode_2 g Value p) i = planar_bit g Value p i.
Proof.
  intros Hg Hp Hi Hm. pose proof (rg_op g Hg) as Ho. unfold write_mode_2, planar_bit. rewrite Hm.
  cbn [Z.eqb Pos.eqb]. cbv zeta. rewrite !tst_bit by done.
  rewrite masked_bit; [|done|]; rewrite raster_constant_bit by lia;
    destruct (Z.testbit g.(GRAPHICS_CTRL.bitmask) i); cbn [andb]; solve [done | by right].
Qed.

Lemma write_mode_3_bit g Value p i : gfx_range g -> is_u8 Value -> 0 <= p -> 0 <= i < 8 ->
  g.(GRAPHICS_CTRL.write_mode) = 3 -> g.(GRAPHICS_CTRL.data_rotate) = 0 ->
  Z.testbit (write_mode_3 g Value p) i = planar_bit g Value p i.
Proof.
  intros Hg HV Hp Hi Hm Hr. pose proof (rg_op g Hg) as Ho. unfold write_mode_3, planar_bit. rewrite Hm, Hr.
  cbn [Z.eqb Pos.eqb]. cbv zeta. rewrite Z.add_0_r, (Z.mod_small i) by lia.
  unfold rotate. rewrite Hr. change (nz 0) with false. cbv iota. rewrite tst_bit by done.
  set (m := u8 (g.(GRAPHICS_CTRL.bitmask) &. Value)).
  assert (Z.testbit m i = Z.testbit g.(GRAPHICS_CTRL.bitmask) i && Z.testbit Value i) as Hbit.
  { unfold m. rewrite testbit_u8, Z.land_spec by lia. by replace (i <? 8) with true by lia. }
  set (latch := latch_of g p). set (sr := Z.testbit g.(GRAPHICS_CTRL.set_reset) p).
  set (op := g.(GRAPHICS_CTRL.raster_op)) in *.
  assert (op = 0 \/ op = 1 \/ op = 2 \/ op = 3) as [-> | [-> | [-> | ->]]] by lia; unfold logic; cbn [Z.eqb Pos.eqb];
    (rewrite masked_bit; [|done|]); destruct sr;
    rewrite ?Z.land_spec, ?Z.lor_spec, ?Z.lxor_spec, ?Z.bits_0, ?Z.land_spec, ?Hbit;
    destruct (Z.testbit g.(GRAPHICS_CTRL.bitmask) i), (Z.testbit Value i), (Z.testbit latch i); solve [done | by left | by right].
Qed.

(** C30 The byte that a write stores in a plane is, bit by bit, the reference logic
    function: the latch outside the mask, and inside it the raster operation of the
    latch and of the source that the write mode selects.  In write mode 3 this holds
    without a rotation, which the code applies after it has formed the mask. *)
Theorem new_val_reference g Value p i : gfx_range g -> is_u8 Value -> 0 <= p < 4 -> 0 <= i < 8 ->
  (g.(GRAPHICS_CTRL.write_mode) = 3 -> g.(GRAPHICS_CTRL.data_rotate) = 0) ->
  Z.testbit (new_val g Value p) i = planar_bit g Value p i.
Proof.
  intros Hg HV Hp Hi H3. pose proof (rg_mode g Hg) as Hm. unfold new_val.
  set (mode := g.(GRAPHICS_CTRL.write_mode)) in *.
  assert (mode = 0 \/ mode = 1 \/ mode = 2 \/ mode = 3) as [Hc | [Hc | [Hc | Hc]]] by lia;
    rewrite Hc; cbn [Z.eqb Pos.eqb].
  - by apply write_mode_0_bit; [| |lia| |].
  - unfold planar_bit. fold mode. by rewrite Hc.
  - by apply write_mode_2_bit; [|lia| |].
  - by apply write_mode_3_bit; [| |lia| | |apply H3].
Qed.

(** In the XOR mode, the set/reset colour of plane 0 and the CPU's byte elsewhere. *)
Definition gfx_example : GRAPHICS_CTRL.t := GRAPHICS_CTRL.zero
  <| GRAPHICS_CTRL.set_reset := 1 |> <| GRAPHICS_CTRL.enable_set_reset := 1 |>
  <| GRAPHICS_CTRL.data_rotate := 3 |> <| GRAPHICS_CTRL.raster_op := 3 |>
  <| GRAPHICS_CTRL.bitmask := 0xfc |> <| GRAPHICS_CTRL.latch := [0x55; 0xaa; 0x0f; 0xf0] |>.

Lemma new_val_reference_witness :
  Z.testbit (new_val gfx_example 0x39 1) 5 = planar_bit gfx_example 0x39 1 5.
Proof.
  refine (new_val_reference gfx_example 0x39 1 5 _ _ _ _ _); try (unfold in_width; lia).
  - constructor; cbn; try (unfold in_width; lia). repeat constructor; unfold in_width; lia.
  - cbn. lia.
Defined.

(** With a rotation the mask of write mode 3 is not rotated with the data. *)
Lemma write_mode_3_rotates_late :
  let g := GRAPHICS_CTRL.zero <| GRAPHICS_CTRL.write_mode := 3 |> <| GRAPHICS_CTRL.set_reset := 1 |>
    <| GRAPHICS_CTRL.data_rotate := 1 |> <| GRAPHICS_CTRL.bitmask := 0xff |> in
  new_val g 0x02 0 = 0 /\ planar_bit g 0x02 0 0 = true.
Proof. by vm_compute. Qed.

(** ** Accesses inside the memory *)

Lemma plane_index_eq v p offset : vga_ok v -> plane_index v p offset = p * 65536 + offset.
Proof.
  intros Hv. unfold plane_index. rewrite (ok_plane_shift v Hv), (ok_ext_offset v Hv).
  rewrite Z.shiftl_mul_pow2 by lia. lia.
Qed.

Lemma run_mem_load i s : vga_inv s -> 0 <= i < 0x40000 -> mem_load i s = Ok (mem_at s.(Machine.VgaCore) i) s.
Proof.
  intros Hs Hi. unfold mem_load, get_vga. rewrite (run_bind _ _ _ _ _ (run_gets _ _)), (ok_memsize _ Hs).
  by replace ((0 <=? i) && (i <? 0x40000)) with true by lia.
Qed.

Definition store (i x : Z) (v : VgaCore.t) : VgaCore.t := v <| VgaCore.memory ::= <[i := u8 x]> |>.
Lemma run_mem_store i x s : vga_inv s -> 0 <= i < 0x40000 ->
  mem_store i x s = Ok tt (s <| Machine.VgaCore ::= store i x |>).
Proof.
  intros Hs Hi. unfold mem_store, get_vga. rewrite (run_bind _ _ _ _ _ (run_gets _ _)), (ok_memsize _ Hs).
  by replace ((0 <=? i) && (i <? 0x40000)) with true by lia.
Qed.

Lemma store_ok i x v : vga_ok v -> vga_ok (store i x v).
Proof. revert v. unfold store. vga_store. Qed.

Lemma safe_mem_load i : 0 <= i < 0x40000 -> Safe vga_inv (mem_load i).
Proof. intros Hi s Hs. unfold wp. by rewrite run_mem_load. Qed.
Lemma safe_mem_store i x : 0 <= i < 0x40000 -> Safe vga_inv (mem_store i x).
Proof. intros Hi s Hs. unfold wp. rewrite run_mem_store by done. by apply store_ok. Qed.
Lemma safe_plane_load p offset : 0 <= p < 4 -> 0 <= offset < 0x10000 -> Safe vga_inv (plane_load p offset).
Proof.
  intros Hp Ho. apply safe_get_vga. intros v Hv. rewrite plane_index_eq by done. apply safe_mem_load. lia.
Qed.
Lemma safe_plane_store p offset x : 0 <= p < 4 -> 0 <= offset < 0x10000 -> Safe vga_inv (plane_store p offset x).
Proof.
  intros Hp Ho. apply safe_get_vga. intros v Hv. rewrite plane_index_eq by done. apply safe_mem_store. lia.
Qed.
#[export] Hint Resolve safe_mem_load safe_mem_store safe_plane_load safe_plane_store : vga.

Lemma clear_low2 x : x &. ~. 0x03 = 4 * (x / 4).
Proof.
  change (~. 0x03) with (Z.lnot (Z.ones 2)). rewrite <- Z.ldiff_land, Z.ldiff_ones_r by lia.
  rewrite Z.shiftl_mul_pow2, Z.shiftr_div_pow2 by lia. change (2 ^ 2) with 4. lia.
Qed.

Lemma chained_eq offset : chained offset = 4 * (offset / 4) + 65536 * (offset mod 4).
Proof. unfold chained. rewrite clear_low2. lia. Qed.

Lemma chained_range offset : 0 <= offset < 0x10000 -> 0 <= chained offset < 0x40000.
Proof. intros Ho. rewrite chained_eq. Z.div_mod_to_equations. lia. Qed.

Lemma read_offset_range m Address o : m <> 0 -> 0 <= m < 4 -> read_offset m Address = Some o -> 0 <= o < 0x10000.
Proof.
  intros Hm Hr. unfold read_offset.
  pose proof (land_bound 16 Address 0xffff ltac:(lia) ltac:(done)).
  pose proof (land_bound 15 Address 0x7fff ltac:(lia) ltac:(done)).
  assert (m = 1 \/ m = 2 \/ m = 3) as [-> | [-> | ->]] by lia; cbn [Z.eqb Pos.eqb];
    [destruct (_ <? _)|destruct (_ || _)|destruct (_ <? _)]; intros [= <-]; lia.
Qed.

Lemma write_offset_range m Address o : m <> 0 -> 0 <= m < 4 -> write_offset m Address = Some o -> 0 <= o < 0x10000.
Proof.
  intros Hm Hr. unfold write_offset.
  assert (m = 1 \/ m = 2 \/ m = 3) as [-> | [-> | ->]] by lia; cbn [Z.eqb Pos.eqb];
    destruct (_ || _) eqn:Hb; intros [= <-]; apply orb_false_iff in Hb as [?%Z.ltb_ge ?%Z.ltb_ge];
    rewrite u32_small by (unfold in_width; lia); lia.
Qed.

Lemma safe_load_latches offset : 0 <= offset < 0x10000 -> Safe vga_inv (load_latches offset).
Proof.
  intros Ho. apply safe_foreach_in. intros p Hp. unfold planes in Hp.
  apply safe_bind; [apply safe_plane_load; [|done]; rewrite !elem_of_cons, elem_of_nil in Hp; lia|].
  intros x. apply safe_upd_gfx. vga_store. by rewrite length_updZ.
Qed.

(** The window: the mapping of the graphics controller, and the line length that the
    256-colour modes divide by. *)
Definition window (s : Machine.t) : Z * Z * Z :=
  let v := s.(Machine.VgaCore) in
  (v.(VgaCore.graphics_ctrl).(GRAPHICS_CTRL.memory_mapping),
   v.(VgaCore.graphics_ctrl).(GRAPHICS_CTRL.shift_reg), v.(VgaCore.line_offset)).
Definition window_ok (w : Z * Z * Z) : Prop :=
  1 <= w.1.1 < 4 /\ 0 <= w.2 /\ (w.1.2 = 2 -> 0 < w.2).

Definition mem_inv (s : Machine.t) : Prop := vga_inv s /\ window_ok (window s).

Lemma read_handler_safe s Address : mem_inv s -> wp (_VgaCoreMMIOReadHandler Address) (fun _ => vga_inv) s.
Proof.
  intros [Hs (Hm & _ & _)]. unfold _VgaCoreMMIOReadHandler, get_vga. apply wp_gets_bind.
  unfold window in Hm. cbn [fst snd] in Hm. destruct (read_offset _ Address) as [o|] eqn:Ho; [|done].
  apply read_offset_range in Ho; [|lia|lia].
  assert (Safe vga_inv (load_latches o)) by (by apply safe_load_latches).
  destruct (nz _); [by apply safe_mem_load; [apply chained_range|]|].
  destruct (_ =? 0).
  - revert s Hs Hm. clear -H Ho. intros s Hs _. revert s Hs.
    change (Safe vga_inv (load_latches o ;; v ← get_vga; of_option OutOfBounds
      (nthZ v.(VgaCore.graphics_ctrl).(GRAPHICS_CTRL.latch) v.(VgaCore.graphics_ctrl).(GRAPHICS_CTRL.read_map_select)))).
    apply safe_bind; [done|]. intros _. apply safe_get_vga. intros v Hv. destruct (ok_gfx v Hv) as [Hl Hi].
    destruct (nthZ_is_Some v.(VgaCore.graphics_ctrl).(GRAPHICS_CTRL.latch)
      v.(VgaCore.graphics_ctrl).(GRAPHICS_CTRL.read_map_select)) as [x Hx]; [rewrite Hl; lia|].
    by eapply safe_of_option.
  - destruct (_ =? 1); [|done]. revert s Hs Hm. clear -H. intros s Hs _. revert s Hs.
    match goal with |- forall s, vga_inv s -> wp ?m _ s => change (Safe vga_inv m) end. vga_safe.
Qed.

Lemma safe_modu {B} x y (k : Z -> IO B) : y <> 0 -> Safe vga_inv (k (x mod y)) -> Safe vga_inv (modu x y ≫= k).
Proof. intros Hy Hk s Hs. eapply wp_run_bind; [by apply run_modu|]. by apply Hk. Qed.

Lemma start_addr_range v : vga_ok v -> 0 <= start_addr v < 0x10000.
Proof.
  intros Hv. unfold start_addr. pose proof (crtc_reg_byte v 0x0c Hv) as Hc. pose proof (crtc_reg_byte v 0x0d Hv) as Hd.
  apply (lor_in_width 16); [lia| |by apply (in_width_le 8)]. unfold in_width in *. rewrite Z.shiftl_mul_pow2; lia.
Qed.

Lemma div_mod_pos a b : 0 <= a -> 0 < b -> 0 <= a / b /\ 0 <= a mod b.
Proof. intros. split; [by apply Z.div_pos; lia|]. pose proof (Z.mod_pos_bound a b). lia. Qed.

Lemma safe_mark_tile offset : 0 <= offset -> Safe vga_inv (mark_tile offset).
Proof.
  intros Ho. apply safe_get_vga. intros v Hv. apply safe_when_true. intros Hl%Z.ltb_lt.
  destruct (div_mod_pos offset v.(VgaCore.line_offset) Ho Hl).
  apply safe_SET_TILE_UPDATED; (apply Z.div_pos; [done|]); by destruct (nz _).
Qed.

Lemma safe_mark_split_tile offset : 0 <= offset -> Safe vga_inv (mark_split_tile offset).
Proof.
  intros Ho. apply safe_get_vga. intros v Hv. apply safe_when. apply safe_when_true. intros Hl%Z.ltb_lt.
  destruct (div_mod_pos offset v.(VgaCore.line_offset) Ho Hl).
  apply safe_SET_TILE_UPDATED; (apply Z.div_pos; [|]);
    [done|by destruct (nz _)|apply u32_range|done].
Qed.

Lemma safe_cga_write offset Value : 0 <= offset < 0x10000 -> Safe vga_inv (cga_write offset Value).
Proof.
  intros Ho. apply safe_bind; [apply safe_mem_store; lia|]. intros _. apply safe_get_vga. intros v Hv. cbv zeta.
  set (o := u32 (offset - start_addr v)). pose proof (u32_range (offset - start_addr v)) as Hr. fold o in Hr.
  unfold in_width in Hr. set (odd := 0x2000 <=? o).
  set (o' := if odd then o - 0x2000 else o).
  assert (0 <= o') by (unfold o', odd; destruct (Z.leb_spec 0x2000 o); lia).
  destruct (div_mod_pos o' 80 ltac:(done) ltac:(done)).
  assert (0 <= ((o' / (320 / 4)) <<. 1) + (if odd then 1 else 0)).
  { apply Z.add_nonneg_nonneg; [by apply Z.shiftl_nonneg|by destruct odd]. }
  assert (0 <= (o' mod (320 / 4)) <<. 2) by (by apply Z.shiftl_nonneg).
  vga_safe; apply safe_SET_TILE_UPDATED; (apply Z.div_pos; [|by destruct (nz _)]);
    try done; destruct (_ =? 0); lia.
Qed.

Lemma safe_chain_four_write offset Value : 0 <= offset < 0x10000 -> Safe vga_inv (chain_four_write offset Value).
Proof.
  intros Ho. apply safe_bind; [apply safe_mem_store; by apply chained_range|]. intros _.
  apply safe_get_vga. intros v Hv. apply safe_when_true. intros Hl%Z.ltb_lt. cbv zeta.
  pose proof (u32_range (offset - start_addr v)) as [Hr _].
  destruct (div_mod_pos (u32 (offset - start_addr v)) v.(VgaCore.line_offset) Hr Hl).
  vga_safe. apply safe_SET_TILE_UPDATED; (apply Z.div_pos; [done|]); [done|by destruct (nz _)].
Qed.

Lemma safe_mark_planar v offset : vga_ok v -> 0 <= offset ->
  (v.(VgaCore.graphics_ctrl).(GRAPHICS_CTRL.shift_reg) = 2 -> 0 < v.(VgaCore.line_offset)) ->
  Safe vga_inv (mark_planar v offset).
Proof.
  intros Hv Ho H2. unfold mark_planar. destruct (_ =? 2) eqn:Hsr.
  - apply Z.eqb_eq in Hsr. specialize (H2 Hsr).
    pose proof (u32_range (offset - start_addr v)) as [Hr _].
    destruct (div_mod_pos (u32 (offset - start_addr v)) v.(VgaCore.line_offset) Hr H2).
    apply safe_modu; [lia|]. apply safe_divu; [lia|]. apply safe_SET_TILE_UPDATED.
    + by apply Z.div_pos; [lia|].
    + apply Z.div_pos; [done|]. by destruct (nz _).
  - apply safe_bind; [by apply safe_mark_split_tile|intros _].
    apply safe_when_true. intros Hst%Z.leb_le. apply safe_mark_tile. lia.
Qed.

Lemma safe_planar_write offset Value s : 0 <= offset < 0x10000 -> mem_inv s ->
  wp (planar_write offset Value) (fun _ => vga_inv) s.
Proof.
  intros Ho [Hs (Hm & Hl & H2)]. unfold window in Hl, H2. cbn [fst snd] in Hl, H2.
  unfold planar_write, get_vga. apply wp_gets_bind. cbv zeta.
  set (v := s.(Machine.VgaCore)) in *. assert (vga_ok v) as Hv by exact Hs. clearbody v. clear Hm. revert s Hs.
  match goal with |- forall s, vga_inv s -> wp ?m _ s => change (Safe vga_inv m) end.
  apply safe_when. apply safe_bind; [vga_safe|intros _].
  apply safe_bind; [apply safe_when, safe_plane_store; lia|intros _].
  apply safe_bind; [apply safe_when, safe_plane_store; lia|intros _].
  apply safe_bind; [apply safe_when, safe_bind; [apply _|intros _; apply safe_plane_store; lia]|intros _].
  apply safe_bind; [apply safe_when, safe_plane_store; lia|intros _].
  apply safe_mark_planar; [done|lia|done].
Qed.

Lemma write_handler_safe s Address Value : mem_inv s ->
  wp (_VgaCoreMMIOWriteHandler Address Value) (fun _ => vga_inv) s.
Proof.
  intros Hs. pose proof Hs as [Hv (Hm & _)]. unfold window in Hm. cbn [fst snd] in Hm.
  unfold _VgaCoreMMIOWriteHandler, get_vga. apply wp_gets_bind. cbv zeta.
  destruct (write_offset _ Address) as [o|] eqn:Ho; [|done].
  apply write_offset_range in Ho; [|lia|lia].
  destruct (_ && (_ =? 3)); [by apply safe_cga_write|].
  destruct (_ && nz _); [by apply safe_chain_four_write|]. by apply safe_planar_write.
Qed.

(** The handlers leave the window alone. *)
Lemma keeps_window_upd f : (forall v, window (Machine.zero <| Machine.VgaCore := f v |>) =
    window (Machine.zero <| Machine.VgaCore := v |>)) -> Keeps window (upd_vga f).
Proof. intros Hf s. exact (Hf s.(Machine.VgaCore)). Qed.

Lemma keeps_window_SET x y b : Keeps window (SET_TILE_UPDATED x y b).
Proof. unfold SET_TILE_UPDATED, get_vga, upd_vga. apply _. Qed.
Lemma keeps_window_store p i x : Keeps window (plane_store p i x).
Proof. unfold plane_store, mem_store, get_vga, upd_vga. apply _. Qed.
Lemma keeps_window_mem i x : Keeps window (mem_store i x).
Proof. unfold mem_store, get_vga, upd_vga. apply _. Qed.

Lemma keeps_window_write Address Value : Keeps window (_VgaCoreMMIOWriteHandler Address Value).
Proof.
  pose proof keeps_window_SET. pose proof keeps_window_store. pose proof keeps_window_mem.
  unfold _VgaCoreMMIOWriteHandler, cga_write, chain_four_write, planar_write, mark_planar, mark_tile, mark_split_tile, get_vga,
    upd_vga, gui. apply _.
Qed.

Lemma keeps_window_read Address : Keeps window (_VgaCoreMMIOReadHandler Address).
Proof.
  unfold _VgaCoreMMIOReadHandler, load_latches, planes, plane_load, mem_load, get_vga, upd_gfx, upd_vga. apply _.
Qed.

Lemma wp_mem_inv {A} (m : IO A) s : Keeps window m -> mem_inv s ->
  wp m (fun _ => vga_inv) s -> wp m (fun _ => mem_inv) s.
Proof.
  intros Hk [_ Hw] Hm. pose proof (Hk s) as Hk'. eapply wp_mono; [|apply (wp_and_wlp _ _ _ _ Hm Hk')].
  intros a s' [Hs' Hk'']. split; [done|]. by rewrite Hk''.
Qed.

(** An access of any address and length through the window neither leaves the video
    memory nor divides by zero, as long as the mapping is one of the three that the
    hardware documents for the graphics and text modes and a line has a length in the
    256-colour modes; the access keeps these conditions, so a sequence of accesses is
    safe too. *)
Theorem vga_window_safe s Address Data Length : mem_inv s -> 0 <= Length <= Z.of_nat (length Data) ->
  wp (VgaCoreMMIOWriteHandler Address Data Length) (fun _ => mem_inv) s /\
  wp (VgaCoreMMIOReadHandler Address Data Length) (fun d s' => length d = length Data /\ mem_inv s') s.
Proof.
  intros Hs HL. split.
  - apply wp_foreach; [|done]. clear s Hs. intros i s Hi%elem_of_seqZ Hs.
    destruct (nthZ_is_Some Data i) as [x Hx]; [lia|]. rewrite Hx.
    eapply wp_run_bind; [reflexivity|]. apply wp_mem_inv; [apply keeps_window_write|done|].
    by apply write_handler_safe.
  - unfold VgaCoreMMIOReadHandler.
    assert (forall x, x ∈ seqZ 0 Length -> 0 <= x < Z.of_nat (length Data)) as Hl.
    { intros x Hx%elem_of_seqZ. lia. }
    revert s Hs Data HL Hl. induction (seqZ 0 Length) as [|i l IH]; intros s Hs Data HL Hl; [done|].
    cbn [vga_read_bytes]. apply wp_bind.
    eapply wp_mono; [|apply wp_mem_inv; [apply keeps_window_read|done|by apply read_handler_safe]].
    intros x s' Hs'. destruct (nthZ_is_Some Data i) as [y Hy]; [apply Hl; set_solver|]. rewrite Hy.
    eapply wp_run_bind; [reflexivity|].
    eapply wp_mono; [|apply IH; [done|by rewrite length_updZ|]].
    + intros d s'' [Hd Hs'']. by rewrite length_updZ in Hd.
    + intros z Hz. rewrite length_updZ. apply Hl. set_solver.
Qed.

Lemma vga_window_safe_witness :
  wp (VgaCoreMMIOWriteHandler 0xb7fff [0x41; 0x07] 2) (fun _ => mem_inv) vga_started /\
  wp (VgaCoreMMIOReadHandler 0xb7fff [0; 0] 2) (fun d s' => length d = length [0; 0] /\ mem_inv s') vga_started.
Proof.
  assert (mem_inv vga_started) as Hs by (split; [apply vga_start_ok|vm_compute; intuition congruence]).
  split.
  - exact (proj1 (vga_window_safe vga_started 0xb7fff [0x41; 0x07] 2 Hs ltac:(cbn; lia))).
  - exact (proj2 (vga_window_safe vga_started 0xb7fff [0; 0] 2 Hs ltac:(cbn; lia))).
Defined.

(** ** The accesses that fault *)

Lemma run_plane_store p offset x s : vga_inv s -> 0 <= p * 65536 + offset < 0x40000 ->
  plane_store p offset x s = Ok tt (s <| Machine.VgaCore ::= store (p * 65536 + offset) x |>).
Proof.
  intros Hs Hi. unfold plane_store, get_vga. rewrite (run_bind _ _ _ _ _ (run_gets _ _)).
  rewrite plane_index_eq by done. by apply run_mem_store.
Qed.

Lemma fault_plane_store p offset x s : vga_inv s -> 0x40000 <= p * 65536 + offset ->
  plane_store p offset x s = Fault OutOfBounds.
Proof.
  intros Hs Hi. unfold plane_store, get_vga. rewrite (run_bind _ _ _ _ _ (run_gets _ _)).
  rewrite plane_index_eq by done. unfold mem_store, get_vga. rewrite (run_bind _ _ _ _ _ (run_gets _ _)).
  rewrite (ok_memsize _ Hs). by replace ((0 <=? _) && (_ <? 0x40000)) with false by lia.
Qed.

(** A run of a safe operation ends. *)
Lemma safe_run {A} (m : IO A) s : Safe vga_inv m -> vga_inv s -> exists a s', m s = Ok a s' /\ vga_inv s'.
Proof. intros Hm Hs. exact (proj1 (wp_Ok _ _ _) (Hm s Hs)). Qed.

Lemma fault_after {A B} (m : IO A) (k : A -> IO B) s e : Safe vga_inv m -> vga_inv s ->
  (forall a s', vga_inv s' -> k a s' = Fault e) -> (m ≫= k) s = Fault e.
Proof. intros Hm Hs Hk. destruct (safe_run m s Hm Hs) as (a & s' & Hr & Hs'). rewrite (run_bind _ _ _ _ _ Hr). auto. Qed.

Lemma safe_store_in p offset x : 0 <= p * 65536 + offset < 0x40000 -> Safe vga_inv (plane_store p offset x).
Proof. intros Hi s Hs. unfold wp. rewrite run_plane_store by done. by apply store_ok. Qed.

(** The two conditions of the window's safety are needed: with the 128 KB mapping a
    write to plane 3 in its upper half ends past the video memory, and in the
    256-colour modes any write divides by the length of a line, also when it is 0. *)
Theorem planar_write_faults s offset Value : vga_inv s ->
  let v := s.(Machine.VgaCore) in
  let map_mask := v.(VgaCore.sequencer).(SEQUENCER.map_mask) in
  (0x10000 <= offset < 0x20000 -> (map_mask &? 0x08) = true ->
     planar_write offset Value s = Fault OutOfBounds) /\
  (0 <= offset < 0x10000 -> (map_mask &? 0x0f) = true ->
     v.(VgaCore.graphics_ctrl).(GRAPHICS_CTRL.shift_reg) = 2 -> v.(VgaCore.line_offset) = 0 ->
     planar_write offset Value s = Fault DivByZero).
Proof.
  intros Hs v map_mask. unfold planar_write, get_vga.
  rewrite (run_bind _ _ _ _ _ (run_gets _ _)). fold v. cbv zeta. fold map_mask.
  clearbody v map_mask. split.
  - intros Ho H8. assert ((map_mask &? 0x0f) = true) as ->.
    { revert H8. unfold tst. rewrite !negb_true_iff, !Z.eqb_neq. intros H8 Hf. apply H8.
      change 0x08 with (Z.land 0x0f 0x08). by rewrite Z.land_assoc, Hf. }
    rewrite H8. unfold when at 1.
    apply fault_after; [vga_safe|done|]. intros _ s1 Hs1.
    apply fault_after; [apply safe_when, safe_store_in; lia|done|]. intros _ s2 Hs2.
    apply fault_after; [apply safe_when, safe_store_in; lia|done|]. intros _ s3 Hs3.
    apply fault_after; [apply safe_when, safe_bind; [apply _|intros _; apply safe_store_in; lia]|done|].
    intros _ s4 Hs4. unfold when. apply run_fault, fault_plane_store; [done|lia].
  - intros Ho H8 H2 H0. rewrite H8. unfold when at 1.
    apply fault_after; [vga_safe|done|]. intros _ s1 Hs1.
    apply fault_after; [apply safe_when, safe_store_in; lia|done|]. intros _ s2 Hs2.
    apply fault_after; [apply safe_when, safe_store_in; lia|done|]. intros _ s3 Hs3.
    apply fault_after; [apply safe_when, safe_bind; [apply _|intros _; apply safe_store_in; lia]|done|].
    intros _ s4 Hs4.
    apply fault_after; [apply safe_when, safe_store_in; lia|done|]. intros _ s5 Hs5.
    unfold mark_planar. rewrite H2. change (2 =? 2) with true. cbv iota. unfold modu. rewrite H0. change (0 =? 0) with true.
    cbv iota. by apply run_fault.
Qed.

(** The register writes of a guest that reaches the two conditions from the start. *)
Definition outb (port value : Z) : IO unit := VgaPortIoWriteHandler port value 1.
Definition set_indexed (port index value : Z) : IO unit := outb port index ;; outb (port + 1) value.

Definition zero_line : IO unit :=
  set_indexed 0x3ce 5 0x40 ;; set_indexed 0x3c4 2 0x0f ;; set_indexed 0x3d4 0x13 1 ;; set_indexed 0x3d4 0x13 0.
Definition wide_window : IO unit := set_indexed 0x3ce 6 0 ;; set_indexed 0x3c4 2 0x08.

Lemma guest_faults :
  (zero_line ;; VgaCoreMMIOWriteHandler 0xb0000 [0] 1) vga_started = Fault DivByZero /\
  (wide_window ;; VgaCoreMMIOWriteHandler 0xb0000 [0] 1) vga_started = Fault OutOfBounds.
Proof. by vm_compute. Qed.

Definition vga_of (m : IO unit) : Machine.t := match m vga_started with Ok _ s => s | Fault _ => vga_started end.

Lemma vga_of_inv m : Safe vga_inv m -> vga_inv (vga_of m).
Proof.
  intros Hm. pose proof (Hm vga_started vga_start_ok) as Hw. unfold vga_of. unfold wp in Hw. by destruct (m vga_started).
Qed.

#[export] Instance safe_outb port value : 0 <= value -> Safe vga_inv (outb port value).
Proof. intros Hv. unfold outb, VgaPortIoWriteHandler. vga_safe. Qed.
Lemma safe_set_indexed port index value : 0 <= index -> 0 <= value -> Safe vga_inv (set_indexed port index value).
Proof. intros Hi Hv. unfold set_indexed. apply safe_bind; [by apply safe_outb|intros _; by apply safe_outb]. Qed.

Lemma planar_write_faults_witness : planar_write 0x10000 0 (vga_of wide_window) = Fault OutOfBounds.
Proof.
  refine (proj1 (planar_write_faults (vga_of wide_window) 0x10000 0 _) _ _).
  - apply vga_of_inv. unfold wide_window. apply safe_bind; intros; apply safe_set_indexed; lia.
  - lia.
  - vm_compute. reflexivity.
Defined.

(** ** What a planar write stores *)

Definition memory_of (s : Machine.t) : gmap Z Z := s.(Machine.VgaCore).(VgaCore.memory).
Definition plane_byte (s : Machine.t) (p offset : Z) : Z := mem_at s.(Machine.VgaCore) (p * 65536 + offset).

Definition put_plane (c : bool) (p offset x : Z) (m : gmap Z Z) : gmap Z Z :=
  if c then <[p * 65536 + offset := u8 x]> m else m.

(** A state whose memory is [m]. *)
Definition has_memory (m : gmap Z Z) (s : Machine.t) : Prop := memory_of s = m /\ vga_inv s.

Lemma wp_memory_frame {A} (m : IO A) s mem : Safe vga_inv m -> Keeps memory_of m ->
  has_memory mem s -> wp m (fun _ => has_memory mem) s.
Proof.
  intros Hm Hk [Hmem Hs]. pose proof (Hk s) as Hk'. eapply wp_mono; [|apply (wp_and_wlp _ _ _ _ (Hm s Hs) Hk')].
  intros a s' [Hs' Hk'']. split; [by rewrite Hk''|done].
Qed.

Lemma wp_put_plane (c : bool) p offset x s mem : 0 <= p < 4 -> 0 <= offset < 0x10000 -> has_memory mem s ->
  wp (when c (plane_store p offset x)) (fun _ => has_memory (put_plane c p offset x mem)) s.
Proof.
  intros Hp Ho [Hmem Hs]. destruct c; [|by split]. unfold when, wp. rewrite run_plane_store by (done || lia).
  split; [|by apply store_ok]. unfold memory_of in *. cbn. by rewrite Hmem.
Qed.

Lemma keeps_memory_SET x y b : Keeps memory_of (SET_TILE_UPDATED x y b).
Proof. unfold SET_TILE_UPDATED, get_vga, upd_vga. apply _. Qed.

Definition planar_memory (v : VgaCore.t) (offset Value : Z) : gmap Z Z -> gmap Z Z := fun m =>
  let g := v.(VgaCore.graphics_ctrl) in
  let map_mask := v.(VgaCore.sequencer).(SEQUENCER.map_mask) in
  put_plane (map_mask &? 0x08) 3 offset (new_val g Value 3)
    (put_plane (map_mask &? 0x04) 2 offset (new_val g Value 2)
      (put_plane (map_mask &? 0x02) 1 offset (new_val g Value 1)
        (put_plane (map_mask &? 0x01) 0 offset (new_val g Value 0) m))).

Lemma planar_write_memory s offset Value : mem_inv s -> 0 <= offset < 0x10000 ->
  let v := s.(Machine.VgaCore) in
  (v.(VgaCore.sequencer).(SEQUENCER.map_mask) &? 0x0f) = true ->
  wp (planar_write offset Value) (fun _ => has_memory (planar_memory v offset Value (memory_of s))) s.
Proof.
  intros [Hs (Hm & Hl & H2)] Ho v Hmask. unfold window in Hl, H2. cbn [fst snd] in Hl, H2.
  assert (has_memory (memory_of s) s) as Hmem by (by split).
  unfold planar_write, get_vga. apply wp_gets_bind. fold v in Hl, H2 |- *. cbv zeta. rewrite Hmask.
  unfold when at 1. unfold planar_memory. cbv zeta. revert Hmem. generalize (memory_of s). intros mem Hmem.
  assert (vga_ok v) as Hv by exact Hs. clearbody v. clear Hs Hm. revert s Hmem. intros s Hmem.
  apply wp_bind. eapply wp_mono; [|apply wp_memory_frame; [vga_safe|unfold upd_vga; apply _|exact Hmem]].
  intros [] s1 H1. apply wp_bind. eapply wp_mono; [|apply (wp_put_plane _ 0 _ _ _ _ ltac:(lia) Ho H1)].
  intros [] s2 Hs2. apply wp_bind. eapply wp_mono; [|apply (wp_put_plane _ 1 _ _ _ _ ltac:(lia) Ho Hs2)].
  intros [] s3 Hs3. apply wp_bind.
  cbv beta in Hs3. match type of Hs3 with has_memory ?M _ =>
    apply (wp_mono _ (fun _ => has_memory (put_plane (v.(VgaCore.sequencer).(SEQUENCER.map_mask) &? 0x04) 2 offset
      (new_val v.(VgaCore.graphics_ctrl) Value 2) M))) end.
  2: { unfold when at 1. destruct (_ &? 0x04); [|exact Hs3].
       apply wp_bind. eapply wp_mono; [|apply wp_memory_frame; [apply _|unfold gui; apply _|exact Hs3]].
       intros [] s4 Hs4. exact (wp_put_plane true 2 offset _ s4 _ ltac:(lia) Ho Hs4). }
  intros [] s4 Hs4. apply wp_bind. eapply wp_mono; [|apply (wp_put_plane _ 3 _ _ _ _ ltac:(lia) Ho Hs4)].
  intros [] s5 Hs5. apply wp_memory_frame; [| |exact Hs5].
  - apply safe_mark_planar; [done|lia|exact H2].
  - pose proof keeps_memory_SET. unfold mark_planar, mark_tile, mark_split_tile, get_vga. apply _.
Qed.


Lemma put_plane_at (c : bool) p offset x m q o : 0 <= o < 0x10000 -> 0 <= offset < 0x10000 ->
  default 0 (put_plane c p offset x m !! (q * 65536 + o)) =
  if c && (q =? p) && (o =? offset) then u8 x else default 0 (m !! (q * 65536 + o)).
Proof.
  intros Ho Hoff. unfold put_plane. destruct c; [|done]. cbn [andb].
  destruct (Z.eqb_spec q p) as [->|Hq]; [destruct (Z.eqb_spec o offset) as [->|Hne]|]; cbn [andb].
  - by rewrite lookup_insert_eq.
  - rewrite lookup_insert_ne; [done|lia].
  - rewrite lookup_insert_ne; [done|lia].
Qed.

Lemma planar_memory_at v offset Value m p o : 0 <= p < 4 -> 0 <= o < 0x10000 -> 0 <= offset < 0x10000 ->
  default 0 (planar_memory v offset Value m !! (p * 65536 + o)) =
  if Z.testbit v.(VgaCore.sequencer).(SEQUENCER.map_mask) p && (o =? offset)
  then u8 (new_val v.(VgaCore.graphics_ctrl) Value p) else default 0 (m !! (p * 65536 + o)).
Proof.
  intros Hp Ho Hoff. unfold planar_memory. rewrite !put_plane_at by done.
  rewrite (tst_mask _ 0x01 0), (tst_mask _ 0x02 1), (tst_mask _ 0x04 2), (tst_mask _ 0x08 3) by done.
  assert (p = 0 \/ p = 1 \/ p = 2 \/ p = 3) as [-> | [-> | [-> | ->]]] by lia; cbn [Z.eqb Pos.eqb];
    rewrite !andb_true_r, !andb_false_r; cbn [andb]; done.
Qed.

(** A write through the window stores, in each plane that the map mask selects, the
    byte that the write mode computes for the plane, at the offset of the address, and
    changes no other byte of the planes. *)
Theorem planar_write_planes s offset Value : mem_inv s -> 0 <= offset < 0x10000 ->
  let v := s.(Machine.VgaCore) in
  wp (planar_write offset Value) (fun _ s' => vga_inv s' /\
    forall p o, 0 <= p < 4 -> 0 <= o < 0x10000 ->
    plane_byte s' p o =
      if Z.testbit v.(VgaCore.sequencer).(SEQUENCER.map_mask) p && (o =? offset)
      then u8 (new_val v.(VgaCore.graphics_ctrl) Value p) else plane_byte s p o) s.
Proof.
  intros Hs Ho v. destruct (v.(VgaCore.sequencer).(SEQUENCER.map_mask) &? 0x0f) eqn:Hmask.
  - eapply wp_mono; [|by apply planar_write_memory]. intros [] s' [Hmem Hs']. split; [done|].
    intros p o Hp Hof. unfold plane_byte, mem_at. unfold memory_of in Hmem. rewrite Hmem.
    by apply planar_memory_at.
  - unfold planar_write, get_vga. apply wp_gets_bind. fold v. cbv zeta. rewrite Hmask. unfold when.
    apply wp_done. split; [apply Hs|]. intros p o Hp Hof.
    replace (Z.testbit v.(VgaCore.sequencer).(SEQUENCER.map_mask) p) with false; [done|].
    revert Hmask. unfold tst. rewrite negb_false_iff, Z.eqb_eq. intros Hz.
    assert (Z.testbit (Z.land v.(VgaCore.sequencer).(SEQUENCER.map_mask) 0x0f) p = false) as Hb
      by (by rewrite Hz, Z.bits_0).
    rewrite Z.land_spec in Hb.
    assert (Z.testbit 0x0f p = true) as Hf
      by (assert (p = 0 \/ p = 1 \/ p = 2 \/ p = 3) as [-> | [-> | [-> | ->]]] by lia; done).
    rewrite Hf, andb_true_r in Hb. done.
Qed.

Definition planar_example : Machine.t := vga_of (
  upd_seq (fun q => q <| SEQUENCER.map_mask := 0x0f |>) ;;
  upd_gfx (fun g => g <| GRAPHICS_CTRL.memory_mapping := 1 |> <| GRAPHICS_CTRL.latch := [1; 2; 3; 4] |>
    <| GRAPHICS_CTRL.write_mode := 1 |>)).

Lemma planar_example_inv : mem_inv planar_example.
Proof.
  split; [|vm_compute; intuition congruence]. apply vga_of_inv.
  apply safe_bind; [apply _|]. intros _. apply safe_upd_gfx. vga_store.
Qed.

Lemma planar_write_planes_witness :
  wp (planar_write 77 0) (fun _ s' => vga_inv s' /\
    forall p o, 0 <= p < 4 -> 0 <= o < 0x10000 ->
    plane_byte s' p o =
      if Z.testbit planar_example.(Machine.VgaCore).(VgaCore.sequencer).(SEQUENCER.map_mask) p && (o =? 77)
      then u8 (new_val planar_example.(Machine.VgaCore).(VgaCore.graphics_ctrl) 0 p)
      else plane_byte planar_example p o) planar_example.
Proof. refine (planar_write_planes planar_example 77 0 planar_example_inv _). lia. Defined.

(** ** The latches *)

Lemma run_plane_load p offset s : vga_inv s -> 0 <= p < 4 -> 0 <= offset < 0x10000 ->
  plane_load p offset s = Ok (plane_byte s p offset) s.
Proof.
  intros Hs Hp Ho. unfold plane_load, get_vga. rewrite (run_bind _ _ _ _ _ (run_gets _ _)).
  rewrite plane_index_eq by done. apply run_mem_load; [done|lia].
Qed.

Definition latched (s : Machine.t) (offset : Z) : list Z :=
  [plane_byte s 0 offset; plane_byte s 1 offset; plane_byte s 2 offset; plane_byte s 3 offset].
Definition with_latch (l : list Z) (s : Machine.t) : Machine.t :=
  s <| Machine.VgaCore ::= fun v => v <| VgaCore.graphics_ctrl ::= fun g => g <| GRAPHICS_CTRL.latch := l |> |> |>.

Lemma load_latches_run offset s : vga_inv s -> 0 <= offset < 0x10000 ->
  load_latches offset s = Ok tt (with_latch (latched s offset) s) /\ vga_inv (with_latch (latched s offset) s).
Proof.
  intros Hs Ho.
  assert (forall s1 p l, vga_inv s1 -> 0 <= p < 4 -> length l = 4%nat ->
    (x ← plane_load p offset; upd_gfx (fun g => g <| GRAPHICS_CTRL.latch ::= fun l => updZ l p x |>)) (with_latch l s1)
    = Ok tt (with_latch (updZ l p (plane_byte s1 p offset)) s1) /\ vga_inv (with_latch l s1)) as Hstep.
  { intros s1 p l Hs1 Hp Hl.
    assert (vga_inv (with_latch l s1)) as Hs2.
    { refine (safe_upd_gfx (fun g => g <| GRAPHICS_CTRL.latch := l |>) _ s1 Hs1). vga_store. }
    split; [|done]. rewrite (run_bind _ _ _ _ _ (run_plane_load p offset _ Hs2 Hp Ho)). reflexivity. }
  pose proof (ok_latch _ (ok_gfx _ Hs)) as Hl.
  assert (with_latch s.(Machine.VgaCore).(VgaCore.graphics_ctrl).(GRAPHICS_CTRL.latch) s = s) as Hid.
  { apply upd_VgaCore_id. by destruct s.(Machine.VgaCore) as [? ? ? ? []]. }
  unfold load_latches, planes. rewrite <- Hid at 1.
  set (l := s.(Machine.VgaCore).(VgaCore.graphics_ctrl).(GRAPHICS_CTRL.latch)) in *. clearbody l.
  clear Hid. cbn [foreach].
  set (l0 := updZ l 0 (plane_byte s 0 offset)). set (l1 := updZ l0 1 (plane_byte s 1 offset)).
  set (l2 := updZ l1 2 (plane_byte s 2 offset)).
  assert (length l0 = 4%nat) as H0 by (by unfold l0; rewrite length_updZ).
  assert (length l1 = 4%nat) as H1 by (by unfold l1; rewrite length_updZ).
  assert (length l2 = 4%nat) as H2 by (by unfold l2; rewrite length_updZ).
  rewrite (run_bind _ _ _ _ _ (proj1 (Hstep s 0 l Hs ltac:(lia) Hl))). fold l0.
  rewrite (run_bind _ _ _ _ _ (proj1 (Hstep s 1 l0 Hs ltac:(lia) H0))). fold l1.
  rewrite (run_bind _ _ _ _ _ (proj1 (Hstep s 2 l1 Hs ltac:(lia) H1))). fold l2.
  rewrite (run_bind _ _ _ _ _ (proj1 (Hstep s 3 l2 Hs ltac:(lia) H2))). unfold l2, l1, l0. clear H0 H1 H2.
  destruct l as [|a [|b [|c [|d [|]]]]]; try discriminate Hl.
  split; [reflexivity|]. by apply (Hstep s 0 (latched s offset)).
Qed.

(** The handlers in the planar modes. *)
Definition planar_mode (v : VgaCore.t) : Prop :=
  v.(VgaCore.sequencer).(SEQUENCER.chain_four) = 0 /\
  graphics_alpha v && (v.(VgaCore.graphics_ctrl).(GRAPHICS_CTRL.memory_mapping) =? 3) = false.

Lemma read_handler_planar s a src : mem_inv s -> planar_mode s.(Machine.VgaCore) ->
  let g := s.(Machine.VgaCore).(VgaCore.graphics_ctrl) in
  g.(GRAPHICS_CTRL.read_mode) = 0 -> read_offset g.(GRAPHICS_CTRL.memory_mapping) a = Some src ->
  _VgaCoreMMIOReadHandler a s =
    Ok (plane_byte s g.(GRAPHICS_CTRL.read_map_select) src) (with_latch (latched s src) s) /\
  mem_inv (with_latch (latched s src) s).
Proof.
  intros [Hs Hw] [Hc _] g Hr Ho. assert (1 <= g.(GRAPHICS_CTRL.memory_mapping) < 4) as Hm by exact (proj1 Hw).
  pose proof (read_offset_range g.(GRAPHICS_CTRL.memory_mapping) a src ltac:(lia) ltac:(lia) Ho) as Hsrc.
  destruct (load_latches_run src s Hs Hsrc) as [Hl Hs1].
  split; [|by split]. unfold _VgaCoreMMIOReadHandler, get_vga. rewrite (run_bind _ _ _ _ _ (run_gets _ _)).
  fold g. rewrite Ho, Hc. change (nz 0) with false. cbv iota. rewrite Hr. change (0 =? 0) with true. cbv iota.
  rewrite (run_bind _ _ _ _ _ Hl), (run_bind _ _ _ _ _ (run_gets _ _)). cbv zeta.
  change (GRAPHICS_CTRL.latch _) with (latched s src). change (GRAPHICS_CTRL.read_map_select _) with g.(GRAPHICS_CTRL.read_map_select) at 1.
  pose proof (ok_read_map _ (ok_gfx _ Hs)) as Hi. fold g in Hi. 
  set (i := g.(GRAPHICS_CTRL.read_map_select)) in *. clearbody i.
  by assert (i = 0 \/ i = 1 \/ i = 2 \/ i = 3) as [-> | [-> | [-> | ->]]] by lia.
Qed.

Lemma write_handler_planar s b x dst : planar_mode s.(Machine.VgaCore) ->
  write_offset s.(Machine.VgaCore).(VgaCore.graphics_ctrl).(GRAPHICS_CTRL.memory_mapping) b = Some dst ->
  _VgaCoreMMIOWriteHandler b x s = planar_write dst x s.
Proof.
  intros [Hc Hg] Ho. unfold _VgaCoreMMIOWriteHandler, get_vga. rewrite (run_bind _ _ _ _ _ (run_gets _ _)).
  cbv zeta. rewrite Ho, Hg, Hc. change (nz 0) with false. by rewrite andb_false_r.
Qed.

(** A read of one address followed by a write to another one in write mode 1 copies
    the byte of all four planes at once, whatever byte the write carries. *)
Theorem latch_copy s a b x src dst : mem_inv s ->
  let v := s.(Machine.VgaCore) in let g := v.(VgaCore.graphics_ctrl) in
  planar_mode v -> g.(GRAPHICS_CTRL.read_mode) = 0 -> g.(GRAPHICS_CTRL.write_mode) = 1 ->
  v.(VgaCore.sequencer).(SEQUENCER.map_mask) = 0x0f ->
  read_offset g.(GRAPHICS_CTRL.memory_mapping) a = Some src ->
  write_offset g.(GRAPHICS_CTRL.memory_mapping) b = Some dst ->
  wp (_ ← _VgaCoreMMIOReadHandler a; _VgaCoreMMIOWriteHandler b x) (fun _ s' => vga_inv s' /\
    forall p o, 0 <= p < 4 -> 0 <= o < 0x10000 ->
    plane_byte s' p o = if o =? dst then u8 (plane_byte s p src) else plane_byte s p o) s.
Proof.
  intros Hs v g Hplanar Hr Hw Hmask Hsrc Hdst.
  destruct (read_handler_planar s a src Hs Hplanar Hr Hsrc) as [Hrun Hs1].
  eapply wp_run_bind; [exact Hrun|]. set (s1 := with_latch (latched s src) s) in *.
  assert (wp (planar_write dst x) (fun _ s' => vga_inv s' /\
    forall p o, 0 <= p < 4 -> 0 <= o < 0x10000 ->
    plane_byte s' p o = if o =? dst then u8 (plane_byte s p src) else plane_byte s p o) s1) as Hwp.
  { assert (0 <= dst < 0x10000) as Hd.
    { assert (1 <= g.(GRAPHICS_CTRL.memory_mapping) < 4) as Hm by exact (proj1 (proj2 Hs)).
      by apply (write_offset_range g.(GRAPHICS_CTRL.memory_mapping) b dst ltac:(lia) ltac:(lia)). }
    eapply wp_mono; [|exact (planar_write_planes s1 dst x Hs1 Hd)]. intros [] s' [Hs' Hpl]. split; [done|].
    intros p o Hp Ho. rewrite Hpl by done.
    change (SEQUENCER.map_mask _) with v.(VgaCore.sequencer).(SEQUENCER.map_mask). rewrite Hmask.
    unfold new_val. change (GRAPHICS_CTRL.write_mode _) with g.(GRAPHICS_CTRL.write_mode). rewrite Hw.
    change (1 =? 0) with false. change (1 =? 1) with true. cbv iota.
    by assert (p = 0 \/ p = 1 \/ p = 2 \/ p = 3) as [-> | [-> | [-> | ->]]] by lia. }
  unfold wp. rewrite (write_handler_planar s1 b x dst); [exact Hwp|exact Hplanar|exact Hdst].
Qed.

Lemma latch_copy_witness :
  wp (_ ← _VgaCoreMMIOReadHandler 0xa0010; _VgaCoreMMIOWriteHandler 0xa0020 0xff) (fun _ s' => vga_inv s' /\
    forall p o, 0 <= p < 4 -> 0 <= o < 0x10000 ->
    plane_byte s' p o = if o =? 0x20 then u8 (plane_byte planar_example p 0x10) else plane_byte planar_example p o)
    planar_example.
Proof.
  refine (latch_copy planar_example 0xa0010 0xa0020 0xff 0x10 0x20 planar_example_inv _ _ _ _ _ _);
    try (split; vm_compute; reflexivity); vm_compute; reflexivity.
Defined.

(** ** The comparing reads *)

Lemma ccdat_bit x p i : 0 <= p < 4 -> 0 <= i < 8 -> Z.testbit (ccdat_at (x &. 0x0f) p) i = Z.testbit x p.
Proof.
  intros Hp Hi. pose proof (land_bound 4 x 0x0f ltac:(lia) ltac:(done)) as Hr.
  assert (Z.testbit x p = Z.testbit (x &. 0x0f) p) as ->.
  { rewrite Z.land_spec. assert (Z.testbit 0x0f p = true) as ->; [|by rewrite andb_true_r].
    by assert (p = 0 \/ p = 1 \/ p = 2 \/ p = 3) as [-> | [-> | [-> | ->]]] by lia. }
  generalize dependent (x &. 0x0f). intros c Hc.
  pose proof (all_range_spec (fun c => forallb (fun p => forallb (fun i =>
    Bool.eqb (Z.testbit (ccdat_at c p) i) (Z.testbit c p)) (seqZ 0 8)) (seqZ 0 4)) 0 16 c) as Hall.
  specialize (Hall ltac:(vm_compute; reflexivity) ltac:(lia)). cbv beta in Hall.
  pose proof (all_range_spec _ 0 4 p Hall ltac:(lia)) as Hallp. cbv beta in Hallp.
  pose proof (all_range_spec _ 0 8 i Hallp ltac:(lia)) as Halli. cbv beta in Halli.
  by apply Bool.eqb_prop.
Qed.

(** Bit [i] of the answer in read mode 1: the pixel's colour is the one asked for, in
    the planes that matter. *)
Definition colour_matches (g : GRAPHICS_CTRL.t) (i : Z) : bool :=
  forallb (fun p => negb (Z.testbit g.(GRAPHICS_CTRL.color_dont_care) p)
    || Bool.eqb (Z.testbit (latch_of g p) i) (Z.testbit g.(GRAPHICS_CTRL.color_compare) p)) planes.

Lemma compare_plane_bit g p i : 0 <= p < 4 -> 0 <= i < 8 ->
  Z.testbit (compare_plane g p) i =
  Z.testbit g.(GRAPHICS_CTRL.color_dont_care) p
    && negb (Bool.eqb (Z.testbit (latch_of g p) i) (Z.testbit g.(GRAPHICS_CTRL.color_compare) p)).
Proof.
  intros Hp Hi. unfold compare_plane. rewrite Z.land_spec, Z.lxor_spec, !ccdat_bit by done.
  by destruct (Z.testbit (latch_of g p) i), (Z.testbit g.(GRAPHICS_CTRL.color_compare) p),
    (Z.testbit g.(GRAPHICS_CTRL.color_dont_care) p).
Qed.

(** The table-driven comparison of the four planes is the comparison of the colours of
    the eight pixels. *)
Lemma read_mode_1_reference g i : 0 <= i < 8 ->
  Z.testbit (u8 (~. (compare_plane g 0 |. compare_plane g 1 |. compare_plane g 2 |. compare_plane g 3))) i
  = colour_matches g i.
Proof.
  intros Hi. rewrite testbit_u8, Z.lnot_spec, !Z.lor_spec, !compare_plane_bit by lia.
  replace (i <? 8) with true by lia. unfold colour_matches, planes. cbn [forallb andb].
  by destruct (Z.testbit g.(GRAPHICS_CTRL.color_dont_care) 0), (Z.testbit g.(GRAPHICS_CTRL.color_dont_care) 1),
    (Z.testbit g.(GRAPHICS_CTRL.color_dont_care) 2), (Z.testbit g.(GRAPHICS_CTRL.color_dont_care) 3),
    (Bool.eqb (Z.testbit (latch_of g 0) i) _), (Bool.eqb (Z.testbit (latch_of g 1) i) _),
    (Bool.eqb (Z.testbit (latch_of g 2) i) _), (Bool.eqb (Z.testbit (latch_of g 3) i) _).
Qed.
