(* ===== verification/VgaDraw.v ===== *)
(** vgacore.c: what is drawn.

    The periodic update turns the video memory into tiles of 16 by 24 palette indices:
    in the graphics modes each marked tile is drawn pixel by pixel and its mark cleared,
    in the text mode the window gets the text, the cursor and the attributes.  The calls
    into the window are recorded in [Machine.Gui], the last one first. *)

From S2P Require Export VgaMem.

(** gui.h *)
Definition BX_TEXT_BLINK_MODE : Z := 0x01.
Definition BX_TEXT_BLINK_TOGGLE : Z := 0x02.
Definition BX_TEXT_BLINK_STATE : Z := 0x04.

(** [sizeof(VgaCore.text_snapshot)] *)
Definition sizeof_text_snapshot : Z := 128 * 1024.

Definition attr_of (v : VgaCore.t) : ATTRIBUTE_CTRL.t := v.(VgaCore.attribute_ctrl).
Definition palette_reg (v : VgaCore.t) (i : Z) : IO Z :=
  of_option OutOfBounds (nthZ (attr_of v).(ATTRIBUTE_CTRL.palette_reg) i).

(** ** Pixels *)

Definition halve (b x : Z) : Z := if nz b then x >>. 1 else x.

(** The colour of a four-bit attribute, through the palette and the PEL mask. *)
Definition dac_index (v : VgaCore.t) (palette_reg_val : Z) : Z :=
  let a := attr_of v in
  let DAC_regno :=
    if nz a.(ATTRIBUTE_CTRL.mode_ctrl).(MODE_CTRL.internal_palette_size)
    then u8 ((palette_reg_val &. 0x0f) |. (a.(ATTRIBUTE_CTRL.color_select) <<. 4))
    else u8 ((palette_reg_val &. 0x3f) |. ((a.(ATTRIBUTE_CTRL.color_select) &. 0x0c) <<. 4)) in
  DAC_regno &. v.(VgaCore.pel).(PEL.mask).

Definition plane_bit (v : VgaCore.t) (p byte_offset bit_no : Z) : IO Z :=
  x ← mem_load ((p <<. v.(VgaCore.plane_shift)) + byte_offset);
  mret (((x >>. bit_no) &. 0x01) <<. p).

(** The attribute with the blinking of its highest bit. *)
Definition blink (v : VgaCore.t) (bs attribute : Z) : Z :=
  if nz (attr_of v).(ATTRIBUTE_CTRL.mode_ctrl).(MODE_CTRL.blink_intensity) then
    if nz bs then attribute |. 0x08 else Z.lxor attribute 0x08
  else attribute.

Definition VgaCoreGetVgaPixel (x y saddr lc bs : Z) : IO Z :=
  v ← get_vga;
  let x := halve v.(VgaCore.x_dotclockdiv2) x in
  let bit_no := 7 - x mod 8 in
  let byte_offset :=
    if lc <? y then u32 (x / 8 + (y - lc - 1) * v.(VgaCore.line_offset))
    else u32 (saddr + x / 8 + y * v.(VgaCore.line_offset)) in
  b0 ← plane_bit v 0 byte_offset bit_no;
  b1 ← plane_bit v 1 byte_offset bit_no;
  b2 ← plane_bit v 2 byte_offset bit_no;
  b3 ← plane_bit v 3 byte_offset bit_no;
  let attribute := (b0 |. b1 |. b2 |. b3) &. (attr_of v).(ATTRIBUTE_CTRL.color_plane_enable) in
  palette_reg_val ← palette_reg v (blink v bs attribute);
  mret (dac_index v palette_reg_val).

(** The exported copy of the function, the same line by line. *)
Definition get_vga_pixel (x y saddr lc bs : Z) : IO Z := VgaCoreGetVgaPixel x y saddr lc bs.

(** The two interlaced fields of the CGA modes. *)
Definition cga_line (v : VgaCore.t) (y : Z) : Z := start_addr v + ((y &. 1) <<. 13) + (320 / 4) * (y / 2).

Definition cga2_pixel (x y : Z) : IO Z :=
  v ← get_vga;
  let y := halve v.(VgaCore.y_doublescan) (u16 y) in
  let x := u16 x in
  byte ← mem_load (cga_line v y + x / 8);
  palette_reg v ((byte >>. (7 - x mod 8)) &. 1).

Definition cga4_pixel (x y : Z) : IO Z :=
  v ← get_vga;
  let y := halve v.(VgaCore.y_doublescan) (u16 y) in
  let x := halve v.(VgaCore.x_dotclockdiv2) (u16 x) in
  byte ← mem_load (cga_line v y + x / 4);
  palette_reg v ((byte >>. (6 - 2 * (x mod 4))) &. 3).

Definition ega_pixel (line_compare cs_visible x y : Z) : IO Z :=
  v ← get_vga;
  VgaCoreGetVgaPixel (u16 x) (halve v.(VgaCore.y_doublescan) (u16 y)) (start_addr v) line_compare cs_visible.

(** The position of a pixel of the 256-colour modes in its plane. *)
Inductive word_mode := doubleword | bytewise | wordwise.
Definition plane_column (m : word_mode) (pixelx : Z) : Z :=
  match m with
  | doubleword => pixelx &. ~. 0x03
  | bytewise => pixelx >>. 2
  | wordwise => (pixelx >>. 1) &. ~. 0x01
  end.
Definition vga256_offset (m : word_mode) (v : VgaCore.t) (x y : Z) : Z :=
  let pixely := halve v.(VgaCore.y_doublescan) y in
  let pixelx := x >>. 1 in
  u32 (start_addr v + (pixelx mod 4) * 65536 + pixely * v.(VgaCore.line_offset) + plane_column m pixelx).
Definition vga256_pixel (m : word_mode) (x y : Z) : IO Z :=
  v ← get_vga; mem_load (vga256_offset m v x y).

(** ** The screen *)

(** [iHeight] and [iWidth]. *)
Definition VgaCoreDetermineScreenDimensions (v : VgaCore.t) : Z * Z :=
  let columns := (crtc_reg v 1 + 1) * 8 in
  let lines := (crtc_reg v 18 |. ((crtc_reg v 7 &. 0x02) <<. 7) |. ((crtc_reg v 7 &. 0x40) <<. 3)) + 1 in
  (if nz v.(VgaCore.ext_y_dblsize) then lines <<. 1 else lines,
   if nz v.(VgaCore.x_dotclockdiv2) then columns <<. 1 else columns).
(** The exported copy of the function. *)
Definition determine_screen_dimensions (v : VgaCore.t) : Z * Z := VgaCoreDetermineScreenDimensions v.

Definition VgaCoreSkipUpdate : IO bool :=
  v ← get_vga;
  when (nz v.(VgaCore.sequencer).(SEQUENCER.clear_screen)) (
    gui gui_clear_screen ;;
    upd_seq (fun q => q <| SEQUENCER.clear_screen := 0 |>)) ;;
  v ← get_vga;
  let q := v.(VgaCore.sequencer) in
  mret (negb (nz v.(VgaCore.vga_enabled)) || negb (nz (attr_of v).(ATTRIBUTE_CTRL.video_enabled))
        || negb ((attr_of v).(ATTRIBUTE_CTRL.mode_ctrl).(MODE_CTRL.graphics_alpha)
                 =? v.(VgaCore.graphics_ctrl).(GRAPHICS_CTRL.graphics_alpha))
        || negb (nz q.(SEQUENCER.reset2)) || negb (nz q.(SEQUENCER.reset1))
        || (q.(SEQUENCER.reg1) &? 0x20)).

(** [VgaCore.tile[r * X_TILESIZE + c]] for all [r] and [c]. *)
Definition draw_tile (pixel : Z -> Z -> IO Z) (xc yc : Z) : IO unit :=
  foreach (seqZ 0 Y_TILESIZE) (fun r =>
    foreach (seqZ 0 X_TILESIZE) (fun c =>
      p ← pixel (xc + c) (yc + r);
      upd_vga (fun v => v <| VgaCore.tile ::= fun l => updZ l (r * X_TILESIZE + c) (u8 p) |>))).

(** [for (yc = 0, yti = 0; yc < iHeight; yc += Y_TILESIZE, yti++)] and the columns; in
    one of the modes [cs_toggle] draws every tile. *)
Definition tile_count (limit size : Z) : Z := (limit + size - 1) / size.
Definition draw_one (cs_toggle : bool) (pixel : Z -> Z -> IO Z) (xti yti : Z) : IO unit :=
  updated ← (if cs_toggle then mret 1 else GET_TILE_UPDATED xti yti);
  when (nz updated) (
    draw_tile pixel (xti * X_TILESIZE) (yti * Y_TILESIZE) ;;
    SET_TILE_UPDATED xti yti 0 ;;
    v ← get_vga;
    gui (gui_tile_update (take 384 v.(VgaCore.tile)) (xti * X_TILESIZE) (yti * Y_TILESIZE))).
Definition draw_tiles (cs_toggle : bool) (pixel : Z -> Z -> IO Z) (iHeight iWidth : Z) : IO unit :=
  foreach (seqZ 0 (tile_count iHeight Y_TILESIZE)) (fun yti =>
    foreach (seqZ 0 (tile_count iWidth X_TILESIZE)) (fun xti => draw_one cs_toggle pixel xti yti)).

(** ** The update *)

(** The counter of the blinking; [None] is a [return]. *)
Definition blink_step : IO (option bool) :=
  upd_vga (fun v => v <| VgaCore.cs_counter ::= fun c => u32 (c - 1) |>) ;;
  v ← get_vga;
  if (v.(VgaCore.vga_mem_updated) =? 0) && (0 <? v.(VgaCore.cs_counter)) then mret None
  else if v.(VgaCore.cs_counter) =? 0 then
    upd_vga (fun v => v <| VgaCore.cs_counter := v.(VgaCore.blink_counter) |>) ;;
    if negb (graphics_alpha v) || nz (attr_of v).(ATTRIBUTE_CTRL.mode_ctrl).(MODE_CTRL.blink_intensity) then
      upd_vga (fun v => v <| VgaCore.cs_visible ::= fun x => b2z (x =? 0) |>) ;;
      mret (Some true)
    else if v.(VgaCore.vga_mem_updated) =? 0 then mret None
    else upd_vga (fun v => v <| VgaCore.cs_visible := 0 |>) ;; mret (Some false)
  else mret (Some false).

Definition update_graphics (cs_toggle : bool) : IO unit :=
  v ← get_vga;
  let '(iHeight, iWidth) := VgaCoreDetermineScreenDimensions v in
  when (negb (iWidth =? v.(VgaCore.last_xres)) || negb (iHeight =? v.(VgaCore.last_yres))
        || (8 <? v.(VgaCore.last_bpp)))
    (upd_vga (fun v => v <| VgaCore.last_xres := u16 iWidth |> <| VgaCore.last_yres := u16 iHeight |>
                         <| VgaCore.last_bpp := 8 |>)) ;;
  skip ← VgaCoreSkipUpdate;
  if (skip : bool) then done_
  else
    let shift_reg := v.(VgaCore.graphics_ctrl).(GRAPHICS_CTRL.shift_reg) in
    (if shift_reg =? 0 then
       if crtc_reg v 0x17 &. 1 =? 0 then draw_tiles false cga2_pixel iHeight iWidth
       else
         let line_compare := halve v.(VgaCore.y_doublescan) (u16 v.(VgaCore.line_compare)) in
         draw_tiles cs_toggle (ega_pixel line_compare v.(VgaCore.cs_visible)) iHeight iWidth
     else if shift_reg =? 1 then draw_tiles false cga4_pixel iHeight iWidth
     else if (shift_reg =? 2) || (shift_reg =? 3) then
       if crtc_reg v 0x14 &? 0x40 then draw_tiles false (vga256_pixel doubleword) iHeight iWidth
       else if crtc_reg v 0x17 &? 0x40 then draw_tiles false (vga256_pixel bytewise) iHeight iWidth
       else draw_tiles false (vga256_pixel wordwise) iHeight iWidth
     else done_) ;;
    upd_vga (fun v => v <| VgaCore.vga_mem_updated := 0 |>).

(** *** Text *)

Definition text_panning (reg1 horiz_pel_panning : Z) : Z :=
  let h_panning := horiz_pel_panning &. 0x0f in
  if reg1 &. 0x01 =? 0 then if 8 <=? h_panning then 0 else h_panning + 1
  else h_panning &. 0x07.

Definition text_info (cs_toggle : bool) (v : VgaCore.t) : TMINFO.t :=
  let a := attr_of v in
  let m := a.(ATTRIBUTE_CTRL.mode_ctrl) in
  {| TMINFO.start_address := u16 (2 * ((crtc_reg v 12 <<. 8) + crtc_reg v 13));
     TMINFO.cs_start := crtc_reg v 0x0a &. 0x3f;
     TMINFO.cs_end := crtc_reg v 0x0b &. 0x1f;
     TMINFO.line_offset := u16 v.(VgaCore.line_offset);
     TMINFO.line_compare := u16 v.(VgaCore.line_compare);
     TMINFO.h_panning := text_panning v.(VgaCore.sequencer).(SEQUENCER.reg1) a.(ATTRIBUTE_CTRL.horiz_pel_panning);
     TMINFO.v_panning := crtc_reg v 0x08 &. 0x1f;
     TMINFO.line_graphics := m.(MODE_CTRL.enable_line_graphics);
     TMINFO.split_hpanning := m.(MODE_CTRL.pixel_panning_compat);
     TMINFO.blink_flags :=
       if nz m.(MODE_CTRL.blink_intensity)
       then BX_TEXT_BLINK_MODE |. (if cs_toggle then BX_TEXT_BLINK_TOGGLE else 0)
              |. (if nz v.(VgaCore.cs_visible) then BX_TEXT_BLINK_STATE else 0)
       else 0;
     TMINFO.actl_palette :=
       map (fun index => nth0 a.(ATTRIBUTE_CTRL.palette_reg) index &. v.(VgaCore.pel).(PEL.mask)) (seqZ 0 16) |}.

(** [cols] and [MSL + 1], the height of a character. *)
Definition text_cell (v : VgaCore.t) : Z * Z :=
  let MSL := crtc_reg v 0x09 &. 0x1f in
  let cols := crtc_reg v 1 + 1 in
  let '(cols, MSL) := if (cols =? 1) || (MSL =? 0) then (80, 15) else (cols, MSL) in
  (cols, (if (MSL =? 1) && (v.(VgaCore.vertical_display_end) =? 399) then 3 else MSL) + 1).

(** gui.c, the part of [text_update_common] that writes to the adapter: the character
    under the cursor is made to differ from the memory. *)
Definition text_update_common (cursor_address : Z) (tm_info : TMINFO.t) : IO unit :=
  when (cursor_address <? 0xffff) (
    new ← mem_load cursor_address;
    upd_vga (fun v => v <| VgaCore.text_snapshot ::= <[cursor_address := u8 (~. new)]> |>)) ;;
  gui (gui_text_update cursor_address tm_info).

(** [memcpy(VgaCore.text_snapshot, VgaCore.memory, n)] *)
Definition copy_snapshot (n : Z) : IO unit :=
  v ← get_vga;
  if (sizeof_text_snapshot <? n) || (v.(VgaCore.memsize) <? n) then stop OutOfBounds
  else upd_vga (fun v => v <| VgaCore.text_snapshot ::= fun m =>
         filter (fun e => e.1 < n) v.(VgaCore.memory) ∪ filter (fun e => n <= e.1) m |>).

Definition update_text (cs_toggle : bool) : IO unit :=
  v ← get_vga;
  let tm_info := text_info cs_toggle v in
  let VDE := v.(VgaCore.vertical_display_end) in
  let '(cols, fheight) := text_cell v in
  let rows := (VDE + 1) / fheight in
  if 131072 <? u32 (rows * tm_info.(TMINFO.line_offset)) then done_
  else
    let cWidth := if v.(VgaCore.sequencer).(SEQUENCER.reg1) &. 0x01 =? 1 then 8 else 9 in
    let cWidth := if nz v.(VgaCore.x_dotclockdiv2) then cWidth <<. 1 else cWidth in
    let iWidth := cWidth * cols in
    let iHeight := VDE + 1 in
    when (negb (iWidth =? v.(VgaCore.last_xres)) || negb (iHeight =? v.(VgaCore.last_yres))
          || negb (cWidth =? v.(VgaCore.last_fw)) || negb (fheight =? v.(VgaCore.last_fh))
          || (8 <? v.(VgaCore.last_bpp))) (
      gui (gui_dimension_update iWidth iHeight fheight cWidth 0) ;;
      upd_vga (fun v => v <| VgaCore.last_xres := u16 iWidth |> <| VgaCore.last_yres := u16 iHeight |>
        <| VgaCore.last_fw := u8 cWidth |> <| VgaCore.last_fh := u8 fheight |> <| VgaCore.last_bpp := 8 |>)) ;;
    skip ← VgaCoreSkipUpdate;
    if (skip : bool) then done_
    else
      let start := tm_info.(TMINFO.start_address) in
      let cursor := u16 (2 * ((crtc_reg v 0x0e <<. 8) + crtc_reg v 0x0f)) in
      let cursor_address :=
        if (cursor <? start) || (u32 (start + tm_info.(TMINFO.line_offset) * rows) <? cursor)
        then 0xffff else cursor in
      text_update_common cursor_address tm_info ;;
      when (nz v.(VgaCore.vga_mem_updated)) (
        copy_snapshot (u32 (tm_info.(TMINFO.line_offset) * rows + start)) ;;
        upd_vga (fun v => v <| VgaCore.vga_mem_updated := 0 |>)).

Definition VgaCoreUpdate : IO unit :=
  step ← blink_step;
  match step with
  | None => done_
  | Some cs_toggle =>
      v ← get_vga;
      if graphics_alpha v then update_graphics cs_toggle else update_text cs_toggle
  end.

Definition VgaCoreTimerHandler : IO unit := VgaCoreUpdate ;; gui gui_flush.

(** ** Drawing a tile *)

(** The machine with the tile buffer, the marks and the window's calls replaced. *)
Definition skin (t : list Z) (u : option (list Z)) (G : list gui_call) (s : Machine.t) : Machine.t :=
  s <| Machine.VgaCore ::= fun v => v <| VgaCore.tile := t |> <| VgaCore.vga_tile_updated := u |> |>
    <| Machine.Gui := G |>.

(** [pixel] computes [px] on a region, whatever is being drawn, and changes nothing. *)
Definition pixel_is (s : Machine.t) (pixel : Z -> Z -> IO Z) (px : Z -> Z -> Z) (w h : Z) : Prop :=
  forall x y t u G, 0 <= x < w -> 0 <= y < h -> pixel x y (skin t u G s) = Ok (px x y) (skin t u G s).

(** One row of the buffer, and all rows. *)
Definition fill_row (f : Z -> Z) (r : Z) (t : list Z) : list Z :=
  foldl (fun t c => updZ t (r * X_TILESIZE + c) (f c)) t (seqZ 0 X_TILESIZE).
Definition fill_tile (f : Z -> Z -> Z) (t : list Z) : list Z :=
  foldl (fun t r => fill_row (fun c => f c r) r t) t (seqZ 0 Y_TILESIZE).

(** A loop whose turns change only the tile buffer. *)
Lemma foreach_tile (l : list Z) (body : Z -> IO unit) (g : list Z -> Z -> list Z) t u G s :
  (forall i t, i ∈ l -> body i (skin t u G s) = Ok tt (skin (g t i) u G s)) ->
  foreach l body (skin t u G s) = Ok tt (skin (foldl g t l) u G s).
Proof.
  revert t. induction l as [|i l IH]; intros t Hb; [done|]. cbn [foreach foldl].
  rewrite (run_bind _ _ _ _ _ (Hb i t ltac:(set_solver))). apply IH. intros j t' Hj. apply Hb. set_solver.
Qed.

Lemma draw_tile_run s pixel px w h xc yc t u G : pixel_is s pixel px w h ->
  0 <= xc -> xc + X_TILESIZE <= w -> 0 <= yc -> yc + Y_TILESIZE <= h ->
  draw_tile pixel xc yc (skin t u G s) =
    Ok tt (skin (fill_tile (fun c r => u8 (px (xc + c) (yc + r))) t) u G s).
Proof.
  intros Hpx Hx0 Hx Hy0 Hy. apply foreach_tile. intros r t1 Hr%elem_of_seqZ.
  apply foreach_tile. intros c t2 Hc%elem_of_seqZ. unfold X_TILESIZE, Y_TILESIZE in *.
  rewrite (run_bind _ _ _ _ _ (Hpx (xc + c) (yc + r) t2 u G ltac:(lia) ltac:(lia))). reflexivity.
Qed.

Lemma foldl_snoc {A B} (f : A -> B -> A) a l x : foldl f a (l ++ [x]) = f (foldl f a l) x.
Proof. by rewrite foldl_app. Qed.

Lemma seqZ_snoc a n : 0 <= n -> seqZ a (n + 1) = seqZ a n ++ [a + n].
Proof. intros Hn. rewrite seqZ_app by lia. f_equal. Qed.

Lemma fold_updZ (b : Z) (f : Z -> Z) (n : nat) (t : list Z) : 0 <= b -> b + Z.of_nat n <= Z.of_nat (length t) ->
  length (foldl (fun t c => updZ t (b + c) (f c)) t (seqZ 0 (Z.of_nat n))) = length t /\
  forall j, nthZ (foldl (fun t c => updZ t (b + c) (f c)) t (seqZ 0 (Z.of_nat n))) j =
    if (b <=? j) && (j <? b + Z.of_nat n) then Some (f (j - b)) else nthZ t j.
Proof.
  intros Hb. induction n as [|n IH]; intros Hl.
  - split; [done|]. intros j. change (seqZ 0 (Z.of_nat 0)) with (@nil Z). change (Z.of_nat 0) with 0. cbn [foldl]. replace ((b <=? j) && (j <? b + 0)) with false by lia. done.
  - rewrite Nat2Z.inj_succ in *. unfold Z.succ in *. destruct IH as [IHl IHn]; [lia|].
    rewrite seqZ_snoc, foldl_snoc by lia. rewrite length_updZ. split; [done|]. intros j.
    destruct (Z.eqb_spec j (b + (0 + Z.of_nat n))) as [->|Hj].
    + rewrite nthZ_updZ_eq by (rewrite IHl; lia).
      replace ((b <=? _) && _) with true by lia. do 2 f_equal. lia.
    + rewrite nthZ_updZ_ne by lia. rewrite IHn.
      destruct ((b <=? j) && (j <? b + Z.of_nat n)) eqn:E1, ((b <=? j) && (j <? b + (Z.of_nat n + 1))) eqn:E2; lia || done.
Qed.

Lemma fill_row_nth f r t : 0 <= r < 24 -> (384 <= length t)%nat ->
  length (fill_row f r t) = length t /\
  forall j, nthZ (fill_row f r t) j = if j / 16 =? r then Some (f (j mod 16)) else nthZ t j.
Proof.
  intros Hr Hl. destruct (fold_updZ (r * 16) f 16 t) as [Hlen Hn]; [lia|lia|].
  split; [exact Hlen|]. intros j. unfold fill_row, X_TILESIZE. change 16 with (Z.of_nat 16) at 2. rewrite Hn.
  destruct (Z.eqb_spec (j / 16) r) as [<-|Hj].
  - pose proof (Z.div_mod j 16 ltac:(lia)). pose proof (Z.mod_pos_bound j 16 ltac:(lia)).
    rewrite (proj2 (Z.leb_le (j / 16 * 16) j)) by lia.
    rewrite (proj2 (Z.ltb_lt j (j / 16 * 16 + Z.of_nat 16))) by lia. cbn [andb]. do 2 f_equal. lia.
  - replace ((r * 16 <=? j) && _) with false; [done|]. symmetry. apply andb_false_iff.
    rewrite Z.leb_gt, Z.ltb_ge. Z.div_mod_to_equations. lia.
Qed.

(** The buffer holds the tile in row-major order. *)
Lemma fill_tile_nth f t j : (384 <= length t)%nat ->
  nthZ (fill_tile f t) j = if (0 <=? j) && (j <? 384) then Some (f (j mod 16) (j / 16)) else nthZ t j.
Proof.
  intros Hl.
  assert (forall n, (n <= 24)%nat ->
    length (foldl (fun t r => fill_row (fun c => f c r) r t) t (seqZ 0 (Z.of_nat n))) = length t /\
    forall j, nthZ (foldl (fun t r => fill_row (fun c => f c r) r t) t (seqZ 0 (Z.of_nat n))) j =
      if (0 <=? j) && (j <? 16 * Z.of_nat n) then Some (f (j mod 16) (j / 16)) else nthZ t j) as Hrows.
  { induction n as [|n IH]; intros Hn.
    - split; [done|]. intros k. change (seqZ 0 (Z.of_nat 0)) with (@nil Z). change (Z.of_nat 0) with 0. cbn [foldl]. by replace ((0 <=? k) && (k <? 16 * 0)) with false by lia.
    - rewrite Nat2Z.inj_succ. unfold Z.succ. destruct IH as [IHl IHn]; [lia|].
      rewrite seqZ_snoc, foldl_snoc by lia.
      destruct (fill_row_nth (fun c => f c (0 + Z.of_nat n)) (0 + Z.of_nat n)
        (foldl (fun t r => fill_row (fun c => f c r) r t) t (seqZ 0 (Z.of_nat n)))) as [Hlen Hnth]; [lia|lia|].
      split; [by rewrite Hlen|]. intros k. rewrite Hnth, IHn. rewrite Z.add_0_l.
      pose proof (Z.div_mod k 16 ltac:(lia)). pose proof (Z.mod_pos_bound k 16 ltac:(lia)).
      destruct (Z.eqb_spec (k / 16) (Z.of_nat n)) as [He|He].
      + replace ((0 <=? k) && (k <? 16 * (Z.of_nat n + 1))) with true by lia. by rewrite He.
      + replace ((0 <=? k) && (k <? 16 * (Z.of_nat n + 1))) with ((0 <=? k) && (k <? 16 * Z.of_nat n)); [done|].
        destruct (Z.leb_spec 0 k); [|done]. cbn [andb]. apply eq_true_iff_eq. rewrite !Z.ltb_lt. lia. }
  destruct (Hrows 24%nat ltac:(lia)) as [_ Hn]. exact (Hn j).
Qed.

(** ** Drawing the screen *)

(** The 384 indices of a tile, row by row. *)
Definition tile_pixels (px : Z -> Z -> Z) (xti yti : Z) : list Z :=
  map (fun j => u8 (px (xti * X_TILESIZE + j mod 16) (yti * Y_TILESIZE + j / 16))) (seqZ 0 384).
Definition tile_call (px : Z -> Z -> Z) (c : Z * Z) : gui_call :=
  gui_tile_update (tile_pixels px c.1 c.2) (c.1 * X_TILESIZE) (c.2 * Y_TILESIZE).

Lemma nthZ_lookup {A} (l : list A) (i : nat) : nthZ l (Z.of_nat i) = l !! i.
Proof. unfold nthZ. rewrite (proj2 (Z.leb_le 0 (Z.of_nat i))) by apply Nat2Z.is_nonneg. by rewrite Nat2Z.id. Qed.

Lemma take_fill_tile px xti yti t : (384 <= length t)%nat ->
  take 384 (fill_tile (fun c r => u8 (px (xti * X_TILESIZE + c) (yti * Y_TILESIZE + r))) t) = tile_pixels px xti yti.
Proof.
  intros Hl. apply list_eq. intros i. destruct (decide (i < 384)%nat) as [Hi|Hi].
  - rewrite lookup_take_lt by lia. rewrite <- nthZ_lookup, fill_tile_nth by done.
    replace ((0 <=? Z.of_nat i) && (Z.of_nat i <? 384)) with true by lia.
    unfold tile_pixels. rewrite list_lookup_fmap, lookup_seqZ_lt by lia. cbn [fmap option_fmap option_map].
    do 3 f_equal; lia.
  - rewrite lookup_take_ge by lia. symmetry. apply lookup_ge_None. unfold tile_pixels.
    rewrite length_fmap, length_seqZ. lia.
Qed.

Lemma length_fill_tile f t : (384 <= length t)%nat -> length (fill_tile f t) = length t.
Proof.
  intros _. unfold fill_tile, fill_row. generalize (seqZ 0 Y_TILESIZE). intros rows. revert t.
  induction rows as [|r rows IH]; intros t; [done|]. cbn [foldl]. rewrite IH.
  generalize (seqZ 0 X_TILESIZE). intros cols. revert t. induction cols as [|c cols IHc]; intros t; [done|].
  cbn [foldl]. rewrite IHc. apply length_updZ.
Qed.

Definition marked (v : VgaCore.t) (l : list Z) (c : Z * Z) : bool :=
  tile_in_range v c.1 c.2 && nz (nth0 l (tile_index v c.1 c.2)).

(** The reference: a marked tile is cleared and drawn. *)
Definition draw_ref (px : Z -> Z -> Z) (v : VgaCore.t) (a : list Z * list gui_call) (c : Z * Z)
    : list Z * list gui_call :=
  if marked v a.1 c then (updZ a.1 (tile_index v c.1 c.2) 0, tile_call px c :: a.2) else a.

Lemma tile_index_in v l x y : 0 <= x -> 0 <= y -> tile_in_range v x y = true ->
  Z.of_nat (length l) = v.(VgaCore.num_x_tiles) * v.(VgaCore.num_y_tiles) ->
  nthZ l (tile_index v x y) = Some (nth0 l (tile_index v x y)).
Proof. intros. unfold nth0. apply nthZ_default. by apply tile_nth. Qed.

Section Screen.
Context (s : Machine.t) (pixel : Z -> Z -> IO Z) (px : Z -> Z -> Z) (w h : Z).
Context (Hpx : pixel_is s pixel px w h).
Let v := s.(Machine.VgaCore).

Lemma draw_one_run t l G x y : (384 <= length t)%nat ->
  Z.of_nat (length l) = v.(VgaCore.num_x_tiles) * v.(VgaCore.num_y_tiles) ->
  0 <= x -> (x + 1) * X_TILESIZE <= w -> 0 <= y -> (y + 1) * Y_TILESIZE <= h ->
  exists t', length t' = length t /\
    draw_one false pixel x y (skin t (Some l) G s) =
      Ok tt (let a := draw_ref px v (l, G) (x, y) in skin t' (Some a.1) a.2 s).
Proof.
  intros Ht Hl Hx Hxw Hy Hyh. unfold draw_one, draw_ref, marked. cbn [fst snd].
  unfold GET_TILE_UPDATED, get_vga.
  assert (forall t l G, tile_in_range (skin t l G s).(Machine.VgaCore) x y = tile_in_range v x y) as Hin by done.
  assert (forall t l G, tile_index (skin t l G s).(Machine.VgaCore) x y = tile_index v x y) as Hidx by done.
  rewrite (run_bind (v ← _; _) _ (skin t (Some l) G s)
    (if tile_in_range v x y then nth0 l (tile_index v x y) else 0) (skin t (Some l) G s)).
  2: { rewrite (run_bind _ _ _ _ _ (run_gets _ _)), Hin, Hidx. destruct (tile_in_range v x y) eqn:Hr; [|done].
       cbn [of_option VgaCore.vga_tile_updated]. change (VgaCore.vga_tile_updated _) with (Some l). cbn [of_option].
       rewrite run_ret_bind. by rewrite (tile_index_in v l x y Hx Hy Hr Hl). }
  destruct (tile_in_range v x y) eqn:Hr; [|exists t; by split]. cbn [andb].
  destruct (nz (nth0 l (tile_index v x y))) eqn:Hm; unfold when; [|exists t; by split].
  set (t' := fill_tile (fun c r => u8 (px (x * X_TILESIZE + c) (y * Y_TILESIZE + r))) t).
  exists t'. split; [by apply length_fill_tile|].
  assert (draw_tile pixel (x * X_TILESIZE) (y * Y_TILESIZE) (skin t (Some l) G s) = Ok tt (skin t' (Some l) G s)) as Hd.
  { unfold X_TILESIZE, Y_TILESIZE in *. apply (draw_tile_run s pixel px w h); [done|unfold X_TILESIZE, Y_TILESIZE; lia..]. }
  rewrite (run_bind _ _ _ _ _ Hd).
  assert (SET_TILE_UPDATED x y 0 (skin t' (Some l) G s) =
    Ok tt (skin t' (Some (updZ l (tile_index v x y) 0)) G s)) as Hset.
  { unfold SET_TILE_UPDATED, get_vga. rewrite (run_bind _ _ _ _ _ (run_gets _ _)), Hin, Hidx, ?Hr. unfold when.
    change (VgaCore.vga_tile_updated (Machine.VgaCore (skin t' (Some l) G s))) with (Some l). cbn [of_option]. rewrite run_ret_bind.
    rewrite (tile_index_in v l x y Hx Hy Hr Hl). reflexivity. }
  rewrite (run_bind _ _ _ _ _ Hset), (run_bind _ _ _ _ _ (run_gets _ _)).
  change (VgaCore.tile _) with t'. unfold t' at 1. rewrite take_fill_tile by done. reflexivity.
Qed.
End Screen.

(** The tiles of a screen, row by row. *)
Definition screen_tiles (iHeight iWidth : Z) : list (Z * Z) :=
  seqZ 0 (tile_count iHeight Y_TILESIZE) ≫= fun yti => (fun xti => (xti, yti)) <$> seqZ 0 (tile_count iWidth X_TILESIZE).

Lemma foreach_fmap {A B} (g : A -> B) (l : list A) (f : B -> IO unit) s :
  foreach (g <$> l) f s = foreach l (fun x => f (g x)) s.
Proof. revert s. induction l as [|x l IH]; intros s; [done|]. cbn. unfold mbind, M_bind. by destruct (f (g x) s). Qed.

Lemma foreach_product {A B C} (ys : list A) (xs : list B) (g : B -> A -> C) (f : C -> IO unit) s :
  foreach ys (fun y => foreach xs (fun x => f (g x y))) s =
  foreach (ys ≫= fun y => (fun x => g x y) <$> xs) f s.
Proof.
  revert s. induction ys as [|y ys IH]; intros s; [done|]. rewrite bind_cons, foreach_app. cbn [foreach].
  pose proof (foreach_fmap (fun x => g x y) xs f s) as Hf.
  destruct (foreach xs (fun x => f (g x y)) s) as [a s1|e] eqn:Hx.
  - rewrite (run_bind _ _ _ _ _ Hx), (run_bind _ _ _ _ _ Hf). apply IH.
  - by rewrite (run_fault _ _ _ _ Hx), (run_fault _ _ _ _ Hf).
Qed.

Section Reference.
Context (px : Z -> Z -> Z) (v : VgaCore.t).

Lemma tile_index_inj c d : 0 <= c.1 -> 0 <= d.1 -> tile_in_range v c.1 c.2 = true -> tile_in_range v d.1 d.2 = true ->
  tile_index v c.1 c.2 = tile_index v d.1 d.2 -> c = d.
Proof.
  destruct c as [cx cy], d as [dx dy]. cbn. unfold tile_in_range, tile_index.
  intros Hc Hd [Hcx%Z.ltb_lt _]%andb_prop [Hdx%Z.ltb_lt _]%andb_prop Heq.
  assert (cy = dy) as -> by nia. f_equal. lia.
Qed.

Definition on_screen (c : Z * Z) : Prop := 0 <= c.1 /\ 0 <= c.2.

(** What the reference does to a list of distinct tiles. *)
Lemma draw_ref_spec cs l G : NoDup cs -> Forall on_screen cs ->
  Z.of_nat (length l) = v.(VgaCore.num_x_tiles) * v.(VgaCore.num_y_tiles) ->
  let a := foldl (draw_ref px v) (l, G) cs in
  a.2 = rev (map (tile_call px) (List.filter (marked v l) cs)) ++ G /\ length a.1 = length l /\
  forall d, on_screen d -> tile_in_range v d.1 d.2 = true ->
    nth0 a.1 (tile_index v d.1 d.2) = if decide (d ∈ cs) then 0 else nth0 l (tile_index v d.1 d.2).
Proof.
  revert l G. induction cs as [|c cs IH]; intros l G Hnd Hon Hl; cbv zeta; cbn [foldl].
  - split; [done|]. split; [done|]. intros d _ _. by rewrite decide_False by set_solver.
  - apply NoDup_cons in Hnd as [Hc Hnd]. apply Forall_cons in Hon as [Hoc Hon].
    assert (draw_ref px v (l, G) c =
      if marked v l c then (updZ l (tile_index v c.1 c.2) 0, tile_call px c :: G) else (l, G)) as -> by done.
    destruct (marked v l c) eqn:Hm.
    + pose proof Hm as [Hin _]%andb_prop.
      destruct (IH (updZ l (tile_index v c.1 c.2) 0) (tile_call px c :: G) Hnd Hon) as (H2 & Hlen & Hn);
        [by rewrite length_updZ|].
      assert (forall d, d ≠ c -> on_screen d -> tile_in_range v d.1 d.2 = true ->
        nth0 (updZ l (tile_index v c.1 c.2) 0) (tile_index v d.1 d.2) = nth0 l (tile_index v d.1 d.2)) as Hother.
      { intros d Hd Ho Hr. unfold nth0. rewrite nthZ_updZ_ne; [done|]. intros Heq. apply Hd. symmetry.
        apply tile_index_inj; [apply Hoc|apply Ho|done..]. }
      split; [|split].
      * rewrite H2. cbn [List.filter]. rewrite Hm. cbn [map rev]. rewrite <- app_assoc. cbn [app].
        do 3 f_equal. apply List.filter_ext_in. intros d Hd%list_elem_of_In. unfold marked.
        destruct (tile_in_range v d.1 d.2) eqn:Hr; [|done]. cbn [andb].
        rewrite Hother; [done|by intros ->| |done]. by eapply Forall_forall in Hon.
      * by rewrite Hlen, length_updZ.
      * intros d Ho Hr. rewrite Hn by done. destruct (decide (d = c)) as [->|Hd].
        -- rewrite decide_False by done. rewrite decide_True by set_solver.
           unfold nth0. rewrite nthZ_updZ_eq; [done|]. apply tile_nth; [apply Hoc|apply Hoc|done|done].
        -- rewrite Hother by done. destruct (decide (d ∈ cs)); [by rewrite decide_True by set_solver|].
           by rewrite decide_False by set_solver.
    + destruct (IH l G Hnd Hon Hl) as (H2 & Hlen & Hn). split; [|split; [done|]].
      * rewrite H2. cbn [List.filter]. by rewrite Hm.
      * intros d Ho Hr. rewrite Hn by done. destruct (decide (d = c)) as [->|Hd].
        -- rewrite decide_False by done. rewrite decide_True by set_solver.
           unfold marked in Hm. rewrite Hr in Hm. cbn [andb] in Hm. unfold nz in Hm. apply negb_false_iff in Hm. lia.
        -- destruct (decide (d ∈ cs)); [by rewrite decide_True by set_solver|by rewrite decide_False by set_solver].
Qed.
End Reference.

(** The region of a screen, rounded up to whole tiles. *)
Definition whole_tiles (limit size : Z) : Z := tile_count limit size * size.

Lemma elem_screen_tiles iHeight iWidth c : c ∈ screen_tiles iHeight iWidth <->
  0 <= c.1 < tile_count iWidth X_TILESIZE /\ 0 <= c.2 < tile_count iHeight Y_TILESIZE.
Proof.
  unfold screen_tiles. destruct c as [x y]. cbn [fst snd]. split.
  - intros (y' & (x' & [= -> ->] & Hx%elem_of_seqZ)%list_elem_of_fmap & Hy%elem_of_seqZ)%list_elem_of_bind. lia.
  - intros [Hx Hy]. apply list_elem_of_bind. exists y. split; [|apply elem_of_seqZ; lia].
    apply list_elem_of_fmap. exists x. split; [done|]. apply elem_of_seqZ. lia.
Qed.

Lemma NoDup_screen_tiles iHeight iWidth : NoDup (screen_tiles iHeight iWidth).
Proof.
  unfold screen_tiles. pose proof (NoDup_seqZ 0 (tile_count iHeight Y_TILESIZE)) as Hy. revert Hy.
  generalize (seqZ 0 (tile_count iHeight Y_TILESIZE)). intros ys. induction ys as [|y ys IH]; intros Hy; [constructor|].
  apply NoDup_cons in Hy as [Hn Hy]. rewrite bind_cons. apply NoDup_app. split; [|split; [|by apply IH]].
  - apply NoDup_fmap_2; [by intros ? ? [=]|apply NoDup_seqZ].
  - intros [x y'] (x' & [= -> ->] & _)%list_elem_of_fmap (y2 & (x2 & [= _ ->] & _)%list_elem_of_fmap & Hin)%list_elem_of_bind. done.
Qed.

Lemma skin_id s : skin s.(Machine.VgaCore).(VgaCore.tile) s.(Machine.VgaCore).(VgaCore.vga_tile_updated) s.(Machine.Gui) s = s.
Proof. unfold skin. rewrite upd_VgaCore_id; [by destruct s|by destruct s.(Machine.VgaCore)]. Qed.

Lemma draw_tiles_run s pixel px iHeight iWidth t l G :
  pixel_is s pixel px (whole_tiles iWidth X_TILESIZE) (whole_tiles iHeight Y_TILESIZE) -> (384 <= length t)%nat ->
  Z.of_nat (length l) = s.(Machine.VgaCore).(VgaCore.num_x_tiles) * s.(Machine.VgaCore).(VgaCore.num_y_tiles) ->
  exists t', length t' = length t /\
    draw_tiles false pixel iHeight iWidth (skin t (Some l) G s) =
      Ok tt (let a := foldl (draw_ref px s.(Machine.VgaCore)) (l, G) (screen_tiles iHeight iWidth) in
             skin t' (Some a.1) a.2 s).
Proof.
  intros Hpx Ht Hl. unfold draw_tiles.
  rewrite (foreach_product (seqZ 0 (tile_count iHeight Y_TILESIZE)) (seqZ 0 (tile_count iWidth X_TILESIZE))
    (fun xti yti => (xti, yti)) (fun c => draw_one false pixel c.1 c.2)). fold (screen_tiles iHeight iWidth).
  assert (Forall (fun c : Z * Z => 0 <= c.1 /\ (c.1 + 1) * X_TILESIZE <= whole_tiles iWidth X_TILESIZE /\
    0 <= c.2 /\ (c.2 + 1) * Y_TILESIZE <= whole_tiles iHeight Y_TILESIZE) (screen_tiles iHeight iWidth)) as Hall.
  { apply Forall_forall. intros c [Hx Hy]%elem_screen_tiles. unfold whole_tiles, X_TILESIZE, Y_TILESIZE in *. lia. }
  revert t l G Ht Hl Hall. induction (screen_tiles iHeight iWidth) as [|c cs IH]; intros t l G Ht Hl Hall; [by exists t|].
  apply Forall_cons in Hall as [(Hx & Hxw & Hy & Hyh) Hall]. cbn [foreach foldl].
  destruct (draw_one_run s pixel px _ _ Hpx t l G c.1 c.2 Ht Hl Hx Hxw Hy Hyh) as (t1 & Ht1 & Hr1).
  rewrite (run_bind _ _ _ _ _ Hr1). cbv zeta. rewrite <- surjective_pairing.
  set (a := draw_ref px s.(Machine.VgaCore) (l, G) c).
  assert (Z.of_nat (length a.1) = s.(Machine.VgaCore).(VgaCore.num_x_tiles) * s.(Machine.VgaCore).(VgaCore.num_y_tiles)) as Hla.
  { unfold a, draw_ref. cbn [fst snd]. destruct (marked _ _ _); [|done]. cbn [fst]. by rewrite length_updZ. }
  destruct (IH t1 a.1 a.2 ltac:(lia) Hla Hall) as (t2 & Ht2 & Hr2). exists t2. split; [lia|].
  rewrite Hr2. cbv zeta. by rewrite <- surjective_pairing.
Qed.


(** ** Mode 13h: from the guest's write to the window *)

(** The registers of the 320 by 200 mode with 256 colours. *)
Record mode13 (v : VgaCore.t) : Prop := {
  m13_memsize : v.(VgaCore.memsize) = 0x40000;
  m13_graphics : v.(VgaCore.graphics_ctrl).(GRAPHICS_CTRL.graphics_alpha) = 1;
  m13_attr : (attr_of v).(ATTRIBUTE_CTRL.mode_ctrl).(MODE_CTRL.graphics_alpha) = 1;
  m13_mapping : v.(VgaCore.graphics_ctrl).(GRAPHICS_CTRL.memory_mapping) = 1;
  m13_shift : v.(VgaCore.graphics_ctrl).(GRAPHICS_CTRL.shift_reg) = 2;
  m13_chain : nz v.(VgaCore.sequencer).(SEQUENCER.chain_four) = true;
  m13_word : (crtc_reg v 0x14 &? 0x40) = true;
  m13_line : v.(VgaCore.line_offset) = 320;
  m13_start : start_addr v = 0;
  m13_double : nz v.(VgaCore.y_doublescan) = true;
  m13_screen : VgaCoreDetermineScreenDimensions v = (400, 640);
  m13_enabled : nz v.(VgaCore.vga_enabled) = true;
  m13_video : nz (attr_of v).(ATTRIBUTE_CTRL.video_enabled) = true;
  m13_reset1 : nz v.(VgaCore.sequencer).(SEQUENCER.reset1) = true;
  m13_reset2 : nz v.(VgaCore.sequencer).(SEQUENCER.reset2) = true;
  m13_clocking : (v.(VgaCore.sequencer).(SEQUENCER.reg1) &? 0x20) = false;
  m13_clear : v.(VgaCore.sequencer).(SEQUENCER.clear_screen) = 0;
  m13_columns : v.(VgaCore.num_x_tiles) = 50;
  m13_rows : v.(VgaCore.num_y_tiles) = 25;
  m13_tile : (384 <= length v.(VgaCore.tile))%nat;
  m13_marks : exists l, v.(VgaCore.vga_tile_updated) = Some l /\ length l = 1250%nat
}.

(** The window shows each pixel of the mode twice in both directions. *)
Definition pixel13 (v : VgaCore.t) (x y : Z) : Z := mem_at v (chained (320 * y + x)).
Definition window13 (v : VgaCore.t) (X Y : Z) : Z := pixel13 v (X / 2) (Y / 2).

Lemma vga256_offset_13 v X Y : mode13 v -> 0 <= X < 640 -> 0 <= Y < 408 ->
  vga256_offset doubleword v X Y = chained (320 * (Y / 2) + X / 2) /\
  0 <= chained (320 * (Y / 2) + X / 2) < 0x40000.
Proof.
  intros Hm HX HY. split.
  - unfold vga256_offset, halve, plane_column. rewrite (m13_double v Hm), (m13_line v Hm), (m13_start v Hm).
    rewrite !Z.shiftr_div_pow2 by lia. change (2 ^ 1) with 2. rewrite clear_low2, chained_eq.
    rewrite u32_small by (unfold in_width; Z.div_mod_to_equations; lia).
    Z.div_mod_to_equations. lia.
  - apply chained_range. Z.div_mod_to_equations. lia.
Qed.

Lemma mode13_pixels s : mode13 s.(Machine.VgaCore) ->
  pixel_is s (vga256_pixel doubleword) (window13 s.(Machine.VgaCore)) (whole_tiles 640 X_TILESIZE) (whole_tiles 400 Y_TILESIZE).
Proof.
  intros Hm X Y t u G HX HY. change (whole_tiles 640 X_TILESIZE) with 640 in HX. change (whole_tiles 400 Y_TILESIZE) with 408 in HY.
  destruct (vga256_offset_13 _ X Y Hm HX HY) as [Ho Hr].
  unfold vga256_pixel, get_vga. rewrite (run_bind _ _ _ _ _ (run_gets _ _)).
  change (vga256_offset doubleword (Machine.VgaCore (skin t u G s)) X Y) with (vga256_offset doubleword s.(Machine.VgaCore) X Y).
  rewrite Ho. unfold mem_load, get_vga. rewrite (run_bind _ _ _ _ _ (run_gets _ _)).
  change (VgaCore.memsize (Machine.VgaCore (skin t u G s))) with s.(Machine.VgaCore).(VgaCore.memsize).
  rewrite (m13_memsize _ Hm). by replace ((0 <=? _) && (_ <? 0x40000)) with true by lia.
Qed.

(** The part of the machine that the drawing depends on. *)
Record same_screen (s s' : Machine.t) : Prop := {
  ss_memory : s'.(Machine.VgaCore).(VgaCore.memory) = s.(Machine.VgaCore).(VgaCore.memory);
  ss_marks : s'.(Machine.VgaCore).(VgaCore.vga_tile_updated) = s.(Machine.VgaCore).(VgaCore.vga_tile_updated);
  ss_gui : s'.(Machine.Gui) = s.(Machine.Gui);
  ss_mode : mode13 s'.(Machine.VgaCore)
}.

Lemma blink_step_marked s : nz s.(Machine.VgaCore).(VgaCore.vga_mem_updated) = true -> mode13 s.(Machine.VgaCore) ->
  exists b s', blink_step s = Ok (Some b) s' /\ same_screen s s'.
Proof.
  intros Hu Hm. unfold blink_step. rewrite (run_bind _ _ _ _ _ (run_upd_vga _ _)).
  set (s1 := s <| Machine.VgaCore ::= _ |>).
  assert (same_screen s s1) as Hs1 by (by split; [..|destruct Hm; constructor]).
  unfold get_vga. rewrite (run_bind _ _ _ _ _ (run_gets _ _)).
  assert ((s1.(Machine.VgaCore).(VgaCore.vga_mem_updated) =? 0) = false) as Hz.
  { change ((s.(Machine.VgaCore).(VgaCore.vga_mem_updated) =? 0) = false). unfold nz in Hu. by apply negb_true_iff. }
  rewrite Hz. cbn [andb]. clearbody s1.
  destruct (VgaCore.cs_counter (Machine.VgaCore s1) =? 0); [|exists false, s1; split; [reflexivity|exact Hs1]].
  rewrite (run_bind _ _ _ _ _ (run_upd_vga _ _)).
  destruct Hs1 as [H1 H2 H3 H4].
  destruct (_ || _); cbv iota; rewrite (run_bind _ _ _ _ _ (run_upd_vga _ _));
    (eexists _, _; split; [reflexivity|]; split; [exact H1|exact H2|exact H3|destruct H4; by constructor]).
Qed.

Lemma skip_update_13 s : mode13 s.(Machine.VgaCore) -> VgaCoreSkipUpdate s = Ok false s.
Proof.
  intros Hm. unfold VgaCoreSkipUpdate, get_vga. rewrite (run_bind _ _ _ _ _ (run_gets _ _)).
  rewrite (m13_clear _ Hm). change (nz 0) with false. unfold when.
  rewrite (run_bind done_ _ s tt s eq_refl), (run_bind _ _ _ _ _ (run_gets _ _)). cbv zeta.
  rewrite (m13_enabled _ Hm), (m13_video _ Hm), (m13_attr _ Hm), (m13_graphics _ Hm), (m13_reset1 _ Hm),
    (m13_reset2 _ Hm), (m13_clocking _ Hm). done.
Qed.

(** The update draws the screen of the mode. *)
Lemma update_13 s : nz s.(Machine.VgaCore).(VgaCore.vga_mem_updated) = true -> mode13 s.(Machine.VgaCore) ->
  exists s1, same_screen s s1 /\
    VgaCoreUpdate s = (draw_tiles false (vga256_pixel doubleword) 400 640 ;;
                       upd_vga (fun v => v <| VgaCore.vga_mem_updated := 0 |>)) s1.
Proof.
  intros Hu Hm. destruct (blink_step_marked s Hu Hm) as (b & s1 & Hb & [H1 H2 H3 H4]).
  unfold VgaCoreUpdate. rewrite (run_bind _ _ _ _ _ Hb). unfold get_vga. rewrite (run_bind _ _ _ _ _ (run_gets _ _)).
  unfold graphics_alpha. rewrite (m13_graphics _ H4). change (nz 1) with true. cbv iota.
  unfold update_graphics, get_vga. rewrite (run_bind _ _ _ _ _ (run_gets _ _)), (m13_screen _ H4).
  match goal with |- exists _, _ /\ (?m ;; _) _ = _ => assert (exists s2, m s1 = Ok tt s2 /\ same_screen s1 s2) as (s2 & Hr & Hs2) end.
  { unfold when. destruct (_ || _ || _); [|exists s1; by split; [|split]].
    eexists. split; [reflexivity|]. split; [reflexivity..|destruct H4; by constructor]. }
  rewrite (run_bind _ _ _ _ _ Hr). destruct Hs2 as [G1 G2 G3 G4].
  rewrite (run_bind _ _ _ _ _ (skip_update_13 s2 G4)). cbv zeta iota.
  rewrite (m13_shift _ H4), (m13_word _ H4). cbn [Z.eqb Pos.eqb orb].
  exists s2. split; [|done]. split; [by rewrite G1|by rewrite G2|by rewrite G3|done].
Qed.

Lemma run_mem_store_13 i x s : mode13 s.(Machine.VgaCore) -> 0 <= i < 0x40000 ->
  mem_store i x s = Ok tt (s <| Machine.VgaCore ::= store i x |>).
Proof.
  intros Hm Hi. unfold mem_store, get_vga. rewrite (run_bind _ _ _ _ _ (run_gets _ _)), (m13_memsize _ Hm).
  by replace ((0 <=? i) && (i <? 0x40000)) with true by lia.
Qed.

(** The mark of the pixel [(x, y)]'s tile. *)
Definition tile13 (x y : Z) : Z * Z := (x / 8, y / 12).

(** A write of a pixel: the byte, the mark of its tile, and nothing else. *)
Lemma write_13 s x y Value l : mode13 s.(Machine.VgaCore) -> 0 <= x < 320 -> 0 <= y < 200 ->
  s.(Machine.VgaCore).(VgaCore.vga_tile_updated) = Some l ->
  exists s', _VgaCoreMMIOWriteHandler (0xa0000 + (320 * y + x)) Value s = Ok tt s' /\
    mode13 s'.(Machine.VgaCore) /\ nz s'.(Machine.VgaCore).(VgaCore.vga_mem_updated) = true /\
    s'.(Machine.Gui) = s.(Machine.Gui) /\
    s'.(Machine.VgaCore).(VgaCore.memory) =
      <[chained (320 * y + x) := u8 Value]> s.(Machine.VgaCore).(VgaCore.memory) /\
    s'.(Machine.VgaCore).(VgaCore.vga_tile_updated) =
      Some (updZ l (tile_index s.(Machine.VgaCore) (tile13 x y).1 (tile13 x y).2) 1).
Proof.
  intros Hm Hx Hy Hl. set (o := 320 * y + x). assert (0 <= o < 64000) as Ho by lia.
  assert (write_offset 1 (0xa0000 + o) = Some o) as Hoff.
  { unfold write_offset. cbn [Z.eqb Pos.eqb]. replace ((_ <? 0xa0000) || (0xaffff <? _)) with false by lia.
    f_equal. rewrite u32_small; unfold in_width; lia. }
  assert (o mod 320 = x /\ o / 320 = y) as [Hmod Hdiv] by (unfold o; Z.div_mod_to_equations; lia).
  unfold _VgaCoreMMIOWriteHandler, get_vga. rewrite (run_bind _ _ _ _ _ (run_gets _ _)). cbv zeta.
  rewrite (m13_mapping _ Hm), Hoff. unfold graphics_alpha at 1 2. rewrite (m13_graphics _ Hm), (m13_chain _ Hm).
  change (nz 1) with true. change (1 =? 3) with false. cbn [andb].
  unfold chain_four_write. rewrite (run_bind _ _ _ _ _ (run_mem_store_13 (chained o) Value s Hm (chained_range o ltac:(lia)))).
  set (s1 := s <| Machine.VgaCore ::= store (chained o) Value |>).
  assert (mode13 s1.(Machine.VgaCore)) as Hm1 by (destruct Hm; by constructor).
  unfold get_vga. rewrite (run_bind _ _ _ _ _ (run_gets _ _)). cbv zeta.
  rewrite (m13_line _ Hm1), (m13_start _ Hm1), (m13_double _ Hm1), Z.sub_0_r, (u32_small o) by (unfold in_width; lia).
  rewrite Hmod, Hdiv. change (0 <? 320) with true. unfold when at 1.
  change (X_TILESIZE / 2) with 8. change (Y_TILESIZE / 2) with 12.
  rewrite (run_bind _ _ _ _ _ (run_upd_vga _ _)).
  set (s2 := s1 <| Machine.VgaCore ::= _ |>).
  assert (mode13 s2.(Machine.VgaCore)) as Hm2 by (destruct Hm1; by constructor).
  unfold SET_TILE_UPDATED, get_vga. rewrite (run_bind _ _ _ _ _ (run_gets _ _)).
  assert (tile_in_range s2.(Machine.VgaCore) (x / 8) (y / 12) = true) as Hin.
  { unfold tile_in_range. rewrite (m13_columns _ Hm2), (m13_rows _ Hm2). Z.div_mod_to_equations. lia. }
  rewrite Hin. unfold when. change (VgaCore.vga_tile_updated (Machine.VgaCore s2)) with s.(Machine.VgaCore).(VgaCore.vga_tile_updated).
  rewrite Hl. cbn [of_option]. rewrite run_ret_bind.
  destruct (m13_marks _ Hm) as (l' & Hl' & Hlen). rewrite Hl in Hl'. injection Hl' as <-.
  rewrite (tile_index_in s2.(Machine.VgaCore) l (x / 8) (y / 12));
    [|apply Z.div_pos; lia|apply Z.div_pos; lia|exact Hin|rewrite Hlen, (m13_columns _ Hm2), (m13_rows _ Hm2); done].
  cbn [of_option]. rewrite run_ret_bind. eexists. split; [reflexivity|].
  split; [|split; [reflexivity|split; [reflexivity|split; reflexivity]]].
  destruct Hm2. constructor; try assumption. eexists. split; [reflexivity|]. by rewrite length_updZ.
Qed.

(** C28 In the 256-colour mode 13h, a byte the guest writes at the address of the pixel
    (x, y) appears at the next update: the window is sent the tile of the pixel, and in
    it the byte stands at the pixel's four places. *)
Theorem mode13_write_shows s x y Value : mode13 s.(Machine.VgaCore) -> 0 <= x < 320 -> 0 <= y < 200 ->
  exists s' px, (_VgaCoreMMIOWriteHandler (0xa0000 + (320 * y + x)) Value ;; VgaCoreUpdate) s = Ok tt s' /\
    In (tile_call px (tile13 x y)) s'.(Machine.Gui) /\
    (forall X Y, X / 2 = x -> Y / 2 = y -> px X Y = u8 Value) /\
    (forall X Y, 0 <= X < 640 -> 0 <= Y < 408 -> (X / 2, Y / 2) <> (x, y) ->
       px X Y = window13 s.(Machine.VgaCore) X Y).
Proof.
  intros Hm Hx Hy. destruct (m13_marks _ Hm) as (l & Hl & Hlen).
  destruct (write_13 s x y Value l Hm Hx Hy Hl) as (s1 & Hr1 & Hm1 & Hu1 & _ & Hmem & Hl1).
  rewrite (run_bind _ _ _ _ _ Hr1).
  destruct (update_13 s1 Hu1 Hm1) as (s2 & [G1 G2 _ Hm2] & Hr2).
  destruct (m13_marks _ Hm2) as (l2 & Hl2 & Hlen2). set (px := window13 s2.(Machine.VgaCore)).
  destruct (draw_tiles_run s2 (vga256_pixel doubleword) px 400 640 s2.(Machine.VgaCore).(VgaCore.tile) l2
    s2.(Machine.Gui) (mode13_pixels s2 Hm2) (m13_tile _ Hm2)) as (t' & _ & Hdraw).
  { by rewrite (m13_columns _ Hm2), (m13_rows _ Hm2), Hlen2. }
  rewrite <- Hl2, skin_id in Hdraw. eexists _, px.
  split; [rewrite Hr2, (run_bind _ _ _ _ _ Hdraw); reflexivity|].
  destruct (draw_ref_spec px s2.(Machine.VgaCore) (screen_tiles 400 640) l2 s2.(Machine.Gui)) as (HG & _ & _).
  { apply NoDup_screen_tiles. }
  { apply Forall_forall. intros c [Hcx Hcy]%elem_screen_tiles. split; lia. }
  { by rewrite (m13_columns _ Hm2), (m13_rows _ Hm2), Hlen2. }
  assert (forall X Y, px X Y = if chained (320 * (Y / 2) + X / 2) =? chained (320 * y + x) then u8 Value
    else window13 s.(Machine.VgaCore) X Y) as Hpx.
  { intros X Y. unfold px, window13, pixel13, mem_at. rewrite G1, Hmem.
    destruct (Z.eqb_spec (chained (320 * (Y / 2) + X / 2)) (chained (320 * y + x))) as [->|Hne];
      [by rewrite lookup_insert_eq|by rewrite lookup_insert_ne]. }
  split; [|split].
  - cbn [Machine.Gui]. change (In (tile_call px (tile13 x y)) (foldl (draw_ref px s2.(Machine.VgaCore)) (l2, s2.(Machine.Gui)) (screen_tiles 400 640)).2).
    rewrite HG. apply in_or_app. left. apply in_rev. rewrite rev_involutive. apply in_map, List.filter_In.
    assert (0 <= x / 8 < 40 /\ 0 <= y / 12 < 17) as [Hx8 Hy12] by (Z.div_mod_to_equations; lia).
    split; [apply list_elem_of_In, elem_screen_tiles; exact (conj Hx8 Hy12)|].
    assert (forall v, mode13 v -> tile_in_range v (x / 8) (y / 12) = true) as Hin.
    { intros v Hv. unfold tile_in_range. rewrite (m13_columns _ Hv), (m13_rows _ Hv). lia. }
    unfold marked, tile13. cbn [fst snd]. rewrite (Hin _ Hm2). cbn [andb].
    assert (l2 = updZ l (tile_index s.(Machine.VgaCore) (x / 8) (y / 12)) 1) as ->.
    { rewrite G2, Hl1 in Hl2. by injection Hl2 as <-. }
    unfold tile_index. rewrite (m13_columns _ Hm2), (m13_columns _ Hm). unfold nth0.
    rewrite nthZ_updZ_eq; [done|]. rewrite Hlen. lia.
  - intros X Y <- <-. rewrite Hpx, Z.eqb_refl. done.
  - intros X Y HX HY Hne. rewrite Hpx. destruct (Z.eqb_spec (chained (320 * (Y / 2) + X / 2)) (chained (320 * y + x))) as [He|]; [|done].
    exfalso. apply Hne. rewrite !chained_eq in He.
    assert (320 * (Y / 2) + X / 2 = 320 * y + x) as Heq by (Z.div_mod_to_equations; lia).
    assert (0 <= X / 2 < 320) by (Z.div_mod_to_equations; lia). f_equal; lia.
Qed.

(** The register values of a video BIOS for the mode. *)
Definition bios_mode13 : IO unit :=
  outb 0x3c2 0x63 ;;
  foreach [(1, 0x01); (2, 0x0f); (3, 0x00); (4, 0x0e)] (fun r => set_indexed 0x3c4 r.1 r.2) ;;
  foreach (zip (seqZ 0 25) [0x5f; 0x4f; 0x50; 0x82; 0x54; 0x80; 0xbf; 0x1f; 0x00; 0x41; 0x00; 0x00; 0x00; 0x00;
    0x00; 0x00; 0x9c; 0x0e; 0x8f; 0x28; 0x40; 0x96; 0xb9; 0xa3; 0xff]) (fun r => set_indexed 0x3d4 r.1 r.2) ;;
  foreach [(5, 0x40); (6, 0x05); (7, 0x0f); (8, 0xff)] (fun r => set_indexed 0x3ce r.1 r.2) ;;
  _ ← VgaCorePortIoReadHandler 0x3da 1;
  outb 0x3c0 0x10 ;; outb 0x3c0 0x41 ;; outb 0x3c0 0x20.

(** The conditions of the mode as one test, with the marks all clear. *)
Definition mode13_test (v : VgaCore.t) : bool :=
  let g := v.(VgaCore.graphics_ctrl) in let q := v.(VgaCore.sequencer) in let a := attr_of v in
  bool_decide ((v.(VgaCore.memsize), g.(GRAPHICS_CTRL.graphics_alpha), a.(ATTRIBUTE_CTRL.mode_ctrl).(MODE_CTRL.graphics_alpha),
    g.(GRAPHICS_CTRL.memory_mapping), g.(GRAPHICS_CTRL.shift_reg), v.(VgaCore.line_offset), start_addr v,
    q.(SEQUENCER.clear_screen), v.(VgaCore.num_x_tiles), v.(VgaCore.num_y_tiles)) = (0x40000, 1, 1, 1, 2, 320, 0, 0, 50, 25))
  && nz q.(SEQUENCER.chain_four) && (crtc_reg v 0x14 &? 0x40) && nz v.(VgaCore.y_doublescan)
  && bool_decide (VgaCoreDetermineScreenDimensions v = (400, 640)) && nz v.(VgaCore.vga_enabled)
  && nz a.(ATTRIBUTE_CTRL.video_enabled) && nz q.(SEQUENCER.reset1) && nz q.(SEQUENCER.reset2)
  && negb (q.(SEQUENCER.reg1) &? 0x20) && bool_decide (384 <= Z.of_nat (length v.(VgaCore.tile)))
  && bool_decide (v.(VgaCore.vga_tile_updated) = Some (replicate 1250 0)).

Lemma mode13_test_ok v : mode13_test v = true ->
  mode13 v /\ v.(VgaCore.vga_tile_updated) = Some (replicate 1250 0).
Proof.
  unfold mode13_test. cbv zeta. rewrite !andb_true_iff, !bool_decide_eq_true, negb_true_iff.
  intros [[[[[[[[[[[Hall Hc] Hw] Hd] Hs] He] Hv] H1] H2] Hk] Ht] Hm].
  injection Hall as ? ? ? ? ? ? ? ? ? ?. split; [|done]. constructor; try done; [lia|].
  eexists. split; [exact Hm|]. by rewrite length_replicate.
Qed.

Lemma bios_mode13_test : mode13_test (vga_of bios_mode13).(Machine.VgaCore) = true.
Proof. vm_compute. reflexivity. Qed.
Lemma bios_mode13_ok : mode13 (vga_of bios_mode13).(Machine.VgaCore).
Proof. apply mode13_test_ok, bios_mode13_test. Qed.
Lemma bios_mode13_marks : (vga_of bios_mode13).(Machine.VgaCore).(VgaCore.vga_tile_updated) = Some (replicate 1250 0).
Proof. apply mode13_test_ok, bios_mode13_test. Qed.

Lemma mode13_write_shows_witness : exists s' px,
  (_VgaCoreMMIOWriteHandler (0xa0000 + (320 * 100 + 7)) 0x2a ;; VgaCoreUpdate) (vga_of bios_mode13) = Ok tt s' /\
    In (tile_call px (tile13 7 100)) s'.(Machine.Gui) /\
    (forall X Y, X / 2 = 7 -> Y / 2 = 100 -> px X Y = u8 0x2a) /\
    (forall X Y, 0 <= X < 640 -> 0 <= Y < 408 -> (X / 2, Y / 2) <> (7, 100) ->
       px X Y = window13 (vga_of bios_mode13).(Machine.VgaCore) X Y).
Proof. refine (mode13_write_shows (vga_of bios_mode13) 7 100 0x2a bios_mode13_ok _ _); lia. Defined.

#[local] Opaque vga_of.

(** ** Text *)

(** The snapshot is refreshed with the bytes of the screen and of its start address;
    together they can be longer than the array. *)
Definition bios_long_text : IO unit :=
  foreach [(0x13, 0xff); (0x14, 0x40); (0x09, 0x0f); (0x12, 0xff); (0x07, 0x42); (0x0c, 0x7f); (0x0d, 0xff)]
    (fun r => set_indexed 0x3d4 r.1 r.2).
Lemma text_snapshot_overruns : VgaCoreUpdate (vga_of bios_long_text) = Fault OutOfBounds.
Proof. vm_compute. reflexivity. Qed.
