(* ===== verification/TextMode.v ===== *)
(** gui.c and win32gui.c: the text in the window.

    The adapter hands the window its text memory, the snapshot of the text that was drawn
    last and the attributes (VgaDraw.v, [gui_text_update]).  The window loads the fonts
    that changed and draws the cells that differ.  What the window does is a computation
    over its own state [WIN.t]; the bitmaps that are drawn are recorded in order, the calls
    of the Windows API that draw them are not modelled.

    The rows are drawn by a do-while loop whose counter is assigned again at the split
    screen, so the loop takes fuel: [text_update_returns] gives the fuel that is enough for
    characters of five lines or more, [text_update_hangs] the shorter ones for which no
    fuel is. *)

From S2P Require Export VgaDraw.

(** The arguments of [DrawBitmap]; the bitmap is [vgafont[ch]]. *)
Module DRAW.
Record t := mk {
  ch : Z;
  xStart : Z;
  yStart : Z;
  width : Z;
  height : Z;
  fcol : Z;
  frow : Z;
  fgcolor : Z;
  bgcolor : Z
}.
#[export] Instance eq_dec : EqDecision t.
Proof. solve_decision. Defined.
End DRAW.

(** The variables of gui.c and win32gui.c that the text needs, the adapter's buffers that
    [text_update_common] is given, and the bitmaps drawn so far. *)
Module WIN.
Record t := mk {
  guest_fwidth : Z;
  guest_fheight : Z;
  guest_xres : Z;
  guest_yres : Z;
  vga_charmap : list Z;
  charmap_updated : Z;
  char_changed : list Z;
  new_text_api : Z;
  tm_info : TMINFO.t;
  snapshot_mode : Z;
  snapshot_buffer : option (list Z);
  yChar : Z;
  vgafont : list (list Z);
  UIinited : Z;
  new_text : gmap Z Z;
  memsize : Z;
  old_text : gmap Z Z;
  bitmaps : list DRAW.t
}.
#[export] Instance eta_t : Eta t := fun r => mk r.(guest_fwidth) r.(guest_fheight) r.(guest_xres)
  r.(guest_yres) r.(vga_charmap) r.(charmap_updated) r.(char_changed) r.(new_text_api) r.(tm_info)
  r.(snapshot_mode) r.(snapshot_buffer) r.(yChar) r.(vgafont) r.(UIinited) r.(new_text) r.(memsize)
  r.(old_text) r.(bitmaps).
End WIN.
Export (hints) WIN.

Abbreviation W := (M WIN.t).
Definition get_win : W WIN.t := gets id.

(** ** Fonts *)

(** [memcpy(&vga_charmap, fbuffer, 0x2000)] *)
Definition set_text_charmap (fbuffer : list Z) : W unit :=
  if Z.of_nat (length fbuffer) <? 0x2000 then stop OutOfBounds
  else modify (fun w => w <| WIN.vga_charmap := take 0x2000 fbuffer |>
                          <| WIN.char_changed := replicate 256 1 |> <| WIN.charmap_updated := 1 |>).

Definition set_text_charbyte (address data : Z) : W unit :=
  upd_at WIN.vga_charmap address (fun _ => data) ;;
  upd_at WIN.char_changed (address >>. 5) (fun _ => 1) ;;
  modify (fun w => w <| WIN.charmap_updated := 1 |>).

(** [(c & 0xE0) == 0xC0]: the characters whose ninth column repeats the eighth. *)
Definition line_char (c : Z) : bool := (c &. 0xe0) =? 0xc0.

(** [data] of [set_font]: two bytes per line of a bitmap of 9 by 32. *)
Definition font_line (lg : bool) (h : Z) (charmap : list Z) (c i : Z) : list Z :=
  if i <? h then
    let b := nth0 charmap (c * 32 + i) in
    [b; if lg && line_char c then u8 (b <<. 7) else 0]
  else [0; 0].
Definition font_data (lg : bool) (h : Z) (charmap : list Z) (c : Z) : list Z :=
  seqZ 0 32 ≫= font_line lg h charmap c.

(** [data] has 64 bytes: the lines of a character are not checked against them. *)
Definition set_font (lg : bool) : W unit :=
  foreach (seqZ 0 256) (fun c =>
    changed ← at_ WIN.char_changed c;
    when (nz changed) (
      w ← get_win;
      if 32 <? w.(WIN.yChar) then stop OutOfBounds
      else
        upd_at WIN.vgafont c (fun _ => font_data lg w.(WIN.yChar) w.(WIN.vga_charmap) c) ;;
        upd_at WIN.char_changed c (fun _ => 0))).

(** The part of [dimension_update] that the text needs. *)
Definition dimension_update (x y fheight fwidth : Z) : W unit :=
  modify (fun w => w <| WIN.guest_fwidth := u8 fwidth |> <| WIN.guest_fheight := u8 fheight |>
    <| WIN.guest_xres := u16 x |> <| WIN.guest_yres := u16 y |>
    <| WIN.yChar ::= fun h => if 0 <? fheight then fheight else h |>).

(** ** Characters *)

Definition DrawBitmap (d : DRAW.t) : W unit := modify (fun w => w <| WIN.bitmaps ::= fun l => l ++ [d] |>).

(** The bitmaps of a character: the cell, and the lines of the cursor with the colours
    exchanged. *)
Definition char_bitmaps (ch fc bc xc yc fw fh fx fy cs ce : Z) (curs : bool) : list DRAW.t :=
  DRAW.mk ch xc yc fw fh fx fy fc bc ::
  (if curs && (fy <=? ce) && (cs <? fh + fy) then
     let '(yc, fh) := if fy <? cs then (u16 (yc + (cs - fy)), u8 (fh - (cs - fy))) else (yc, fh) in
     let fh := if ce - cs + 1 <? fh then u8 (ce - cs + 1) else fh in
     [DRAW.mk ch xc yc fw fh fx fy bc fc]
   else []).
Definition draw_char (ch fc bc xc yc fw fh fx fy cs ce : Z) (curs : bool) : W unit :=
  w ← get_win;
  when (nz w.(WIN.UIinited)) (foreach (char_bitmaps ch fc bc xc yc fw fh fx fy cs ce curs) DrawBitmap).

(** The turns of [do ... while (--n)] on a counter of [w] bits. *)
Definition turns (w n : Z) : nat := Z.to_nat (if n =? 0 then 2 ^ w else n).

Definition snapshot_store (buf c : Z) : W unit :=
  w ← get_win;
  match w.(WIN.snapshot_buffer) with
  | None => stop NullPointer
  | Some l =>
      if (0 <=? buf) && (buf <? Z.of_nat (length l))
      then modify (fun w => w <| WIN.snapshot_buffer := Some (updZ l buf c) |>)
      else stop OutOfBounds
  end.

Fixpoint snapshot_line (n : nat) (dwidth : bool) (mask fc bc buf font_row : Z) : W unit :=
  match n with
  | O => done_
  | S m =>
      snapshot_store buf (if (font_row &. 0x100) =? mask then bc else fc) ;;
      snapshot_line m dwidth mask fc bc (buf + 1)
        (if negb dwidth || Nat.odd n then u16 (font_row <<. 1) else font_row)
  end.

Fixpoint snapshot_lines (n : nat) (fc bc fw fx fy cs ce : Z) (gfxcharw9 curs : bool) (buf font_ptr : Z) : W unit :=
  match n with
  | O => done_
  | S m =>
      b ← at_ WIN.vga_charmap font_ptr;
      w ← get_win;
      let font_row := if gfxcharw9 then (b <<. 1) |. (b &. 0x01) else b <<. 1 in
      let font_row := if 0 <? fx then u16 (font_row <<. fx) else font_row in
      let mask := if curs && (cs <=? fy) && (fy <=? ce) then 0x100 else 0 in
      let count := turns 8 fw in
      snapshot_line count (9 <? w.(WIN.guest_fwidth)) mask fc bc buf font_row ;;
      snapshot_lines m fc bc fw fx (u8 (fy + 1)) cs ce gfxcharw9 curs
        (buf + Z.of_nat count + (w.(WIN.guest_xres) - fw)) (font_ptr + 1)
  end.

Definition draw_char_common (ch fc bc xc yc fw fh fx fy : Z) (gfxcharw9 : bool) (cs ce : Z) (curs : bool) : W unit :=
  w ← get_win;
  snapshot_lines (turns 8 fh) fc bc fw fx fy cs ce gfxcharw9 curs
    (yc * w.(WIN.guest_xres) + xc) ((ch <<. 5) + fy).

(** ** The update *)

(** The locals of [text_update_common] that the loops leave alone. *)
Module FRAME.
Record t := mk {
  curs : Z;
  text_cols : Z;
  split_textrow : Z;
  split_fontrows : Z;
  blink_mode : bool;
  blink_state : bool
}.
End FRAME.

(** The locals that change from row to row; [new] and [old] are the offsets of the
    pointers in their buffers. *)
Module ROW.
Record t := mk {
  rows : Z;
  y : Z;
  yc : Z;
  split_screen : bool;
  forceUpdate : bool;
  loffset : Z;
  new : Z;
  old : Z;
  tm : TMINFO.t
}.
End ROW.

Definition load_new (a : Z) : W Z :=
  w ← get_win;
  if (0 <=? a) && (a <? w.(WIN.memsize)) then mret (default 0 (w.(WIN.new_text) !! a)) else stop OutOfBounds.
Definition load_old (a : Z) : W Z :=
  w ← get_win;
  if (0 <=? a) && (a <? sizeof_text_snapshot) then mret (default 0 (w.(WIN.old_text) !! a)) else stop OutOfBounds.

(** [new_text[0] != old_text[0] || new_text[1] != old_text[1]] *)
Definition cell_changed (new old : Z) : W bool :=
  n0 ← load_new new; o0 ← load_old old;
  if negb (n0 =? o0) then mret true
  else n1 ← load_new (new + 1); o1 ← load_old (old + 1); mret (negb (n1 =? o1)).

(** The colours of a cell. *)
Definition cell_colours (f : FRAME.t) (tm : TMINFO.t) (attr : Z) : Z * Z :=
  let fgcolor := nth0 tm.(TMINFO.actl_palette) (attr &. 0x0f) in
  if f.(FRAME.blink_mode) then
    let bgcolor := nth0 tm.(TMINFO.actl_palette) ((attr >>. 4) &. 0x07) in
    (if negb f.(FRAME.blink_state) && (attr &? 0x80) then bgcolor else fgcolor, bgcolor)
  else (fgcolor, nth0 tm.(TMINFO.actl_palette) ((attr >>. 4) &. 0x0f)).

Definition draw_cell (f : FRAME.t) (tm : TMINFO.t) (forceUpdate : bool)
    (xc yc cfwidth cfheight cfcol cfrow new old offset : Z) : W unit :=
  changed ← (if forceUpdate then mret true else cell_changed new old);
  when changed (
    ch ← load_new new; attr ← load_new (new + 1);
    w ← get_win;
    let '(fgcolor, bgcolor) := cell_colours f tm attr in
    let gfxcharw9 := nz tm.(TMINFO.line_graphics) && line_char ch in
    let curs := offset =? f.(FRAME.curs) in
    if nz w.(WIN.snapshot_mode)
    then draw_char_common ch fgcolor bgcolor xc yc cfwidth cfheight cfcol cfrow gfxcharw9
           tm.(TMINFO.cs_start) tm.(TMINFO.cs_end) curs
    else draw_char ch fgcolor bgcolor xc yc cfwidth cfheight cfcol cfrow
           tm.(TMINFO.cs_start) tm.(TMINFO.cs_end) curs).

(** [do ... while (--hchars)]: [n] is what [hchars] counts. *)
Fixpoint draw_cells (n : nat) (f : FRAME.t) (tm : TMINFO.t) (forceUpdate : bool) (yc cfheight cfrow : Z)
    (x xc new old offset : Z) : W unit :=
  match n with
  | O => done_
  | S m =>
      w ← get_win;
      let fw := w.(WIN.guest_fwidth) in
      let h_panning := tm.(TMINFO.h_panning) in
      let '(cfwidth, cfcol) :=
        if 0 <? h_panning then
          if x =? 0 then (u8 (fw - h_panning), h_panning)
          else if u16 (Z.of_nat n) =? 1 then (h_panning, 0) else (fw, 0)
        else (fw, 0) in
      draw_cell f tm forceUpdate xc yc cfwidth cfheight cfcol cfrow new old offset ;;
      draw_cells m f tm forceUpdate yc cfheight cfrow
        (u8 (x + 1)) (u16 (xc + cfwidth)) (new + 2) (old + 2) (u16 (offset + 2))
  end.

(** The height of a row and the first line of its characters. *)
Definition row_height (w : WIN.t) (f : FRAME.t) (r : ROW.t) : Z * Z :=
  let fh := w.(WIN.guest_fheight) in
  let v_panning := r.(ROW.tm).(TMINFO.v_panning) in
  let '(cfheight, cfrow) :=
    if r.(ROW.split_screen) then
      if r.(ROW.rows) =? 1 then
        let rest := u8 (Z.rem (w.(WIN.guest_yres) - r.(ROW.tm).(TMINFO.line_compare) - 1) fh) in
        (if rest =? 0 then fh else rest, 0)
      else (fh, 0)
    else if 0 <? v_panning then
      if r.(ROW.y) =? 0 then (u8 (fh - v_panning), v_panning)
      else if r.(ROW.rows) =? 1 then (v_panning, 0) else (fh, 0)
    else (fh, 0) in
  (if r.(ROW.y) =? f.(FRAME.split_textrow) then u8 (f.(FRAME.split_fontrows) - cfrow) else cfheight, cfrow).

Definition row_hchars (f : FRAME.t) (r : ROW.t) : Z :=
  if 0 <? r.(ROW.tm).(TMINFO.h_panning) then u16 (f.(FRAME.text_cols) + 1) else f.(FRAME.text_cols).

(** [rows] at the split: what is below the line compare. *)
Definition split_rows (w : WIN.t) (line_compare : Z) : Z :=
  let fh := w.(WIN.guest_fheight) in
  u16 (Z.quot (w.(WIN.guest_yres) - line_compare + fh - 2) fh + 1).

(** The locals after a row, [--rows] included. *)
Definition next_row (w : WIN.t) (f : FRAME.t) (cfheight : Z) (r : ROW.t) : ROW.t :=
  let tm := r.(ROW.tm) in
  let y := u8 (r.(ROW.y) + 1) in
  let yc := u16 (r.(ROW.yc) + cfheight) in
  if r.(ROW.y) =? f.(FRAME.split_textrow) then
    ROW.mk (u16 (split_rows w tm.(TMINFO.line_compare) - 1)) y yc true true 0
      0 (r.(ROW.old) + 2 * Z.of_nat (turns 16 (row_hchars f r)))
      (if nz tm.(TMINFO.split_hpanning) then tm <| TMINFO.h_panning := 0 |> else tm)
  else
    ROW.mk (u16 (r.(ROW.rows) - 1)) y yc r.(ROW.split_screen) r.(ROW.forceUpdate)
      (u16 (r.(ROW.loffset) + tm.(TMINFO.line_offset)))
      (r.(ROW.new) + tm.(TMINFO.line_offset)) (r.(ROW.old) + tm.(TMINFO.line_offset)) tm.

Definition draw_row (f : FRAME.t) (r : ROW.t) : W ROW.t :=
  w ← get_win;
  let '(cfheight, cfrow) := row_height w f r in
  draw_cells (turns 16 (row_hchars f r)) f r.(ROW.tm) r.(ROW.forceUpdate) r.(ROW.yc) cfheight cfrow
    0 0 r.(ROW.new) r.(ROW.old) r.(ROW.loffset) ;;
  mret (next_row w f cfheight r).

Fixpoint draw_rows (fuel : nat) (f : FRAME.t) (r : ROW.t) : W TMINFO.t :=
  match fuel with
  | O => stop Diverges
  | S fuel =>
      r ← draw_row f r;
      if r.(ROW.rows) =? 0 then mret r.(ROW.tm) else draw_rows fuel f r
  end.

(** What the start of the update decides. *)
Module MODE.
Record t := mk {
  forceUpdate : bool;
  blink_mode : bool;
  blink_state : bool;
  cursor_visible : bool
}.
End MODE.

(** [old_text[cursor_address] = ~new_text[cursor_address]] *)
Definition invalidate (cursor_address : Z) : W unit :=
  n ← load_new cursor_address;
  if cursor_address <? sizeof_text_snapshot
  then modify (fun w => w <| WIN.old_text ::= <[cursor_address := u8 (~. n)]> |>)
  else stop OutOfBounds.

(** The cell of the previous cursor is never invalidated: the comparison is of the
    parameter with itself. *)
Definition start_update (cursor_address : Z) (tm : TMINFO.t) : W MODE.t :=
  w ← get_win;
  let visible := (tm.(TMINFO.cs_start) <=? tm.(TMINFO.cs_end)) && (tm.(TMINFO.cs_start) <? w.(WIN.guest_fheight)) in
  if nz w.(WIN.snapshot_mode) && bool_decide (is_Some w.(WIN.snapshot_buffer))
  then mret (MODE.mk true false false visible)
  else if nz w.(WIN.new_text_api) then
    let flags := tm.(TMINFO.blink_flags) in
    let blink_mode := flags &? BX_TEXT_BLINK_MODE in
    let blink_state := flags &? BX_TEXT_BLINK_STATE in
    let force := blink_mode && (flags &? BX_TEXT_BLINK_TOGGLE) in
    let visible := visible && (negb blink_mode || blink_state) in
    when (nz w.(WIN.charmap_updated)) (
      set_font (nz tm.(TMINFO.line_graphics)) ;;
      modify (fun w => w <| WIN.charmap_updated := 0 |>)) ;;
    let last := w.(WIN.tm_info) in
    let moved := negb (tm.(TMINFO.h_panning) =? last.(TMINFO.h_panning))
                 || negb (tm.(TMINFO.v_panning) =? last.(TMINFO.v_panning))
                 || negb (tm.(TMINFO.line_compare) =? last.(TMINFO.line_compare)) in
    when moved (modify (fun w => w <| WIN.tm_info ::= fun i => i <| TMINFO.h_panning := tm.(TMINFO.h_panning) |>
      <| TMINFO.v_panning := tm.(TMINFO.v_panning) |> <| TMINFO.line_compare := tm.(TMINFO.line_compare) |> |>)) ;;
    when (cursor_address <? 0xffff) (invalidate cursor_address) ;;
    mret (MODE.mk (force || nz w.(WIN.charmap_updated) || moved) blink_mode blink_state visible)
  else mret (MODE.mk false false false visible).

Definition frame_of (w : WIN.t) (m : MODE.t) (cursor_address : Z) (tm : TMINFO.t) : FRAME.t :=
  let fh := w.(WIN.guest_fheight) in
  let line := tm.(TMINFO.line_compare) + tm.(TMINFO.v_panning) in
  let split := tm.(TMINFO.line_compare) <? 0x3ff in
  {| FRAME.curs := if m.(MODE.cursor_visible) then cursor_address else 0xffff;
     FRAME.text_cols := w.(WIN.guest_xres) / w.(WIN.guest_fwidth);
     FRAME.split_textrow := if split then u8 (line / fh) else 0xff;
     FRAME.split_fontrows := if split then u8 (line mod fh + 1) else 0;
     FRAME.blink_mode := m.(MODE.blink_mode);
     FRAME.blink_state := m.(MODE.blink_state) |}.

Definition first_row (w : WIN.t) (m : MODE.t) (tm : TMINFO.t) : ROW.t :=
  let rows := w.(WIN.guest_yres) / w.(WIN.guest_fheight) in
  let start := tm.(TMINFO.start_address) in
  {| ROW.rows := if 0 <? tm.(TMINFO.v_panning) then u16 (rows + 1) else rows;
     ROW.y := 0; ROW.yc := 0; ROW.split_screen := false; ROW.forceUpdate := m.(MODE.forceUpdate);
     ROW.loffset := start; ROW.new := start; ROW.old := start; ROW.tm := tm |}.

(** The other branch, for the windows without the new interface, whose [text_update] is
    empty in win32gui.c, leaves [cs_start] marked. *)
Definition text_update_common (fuel : nat) (cursor_address : Z) (tm : TMINFO.t) : W TMINFO.t :=
  w ← get_win;
  if nz w.(WIN.snapshot_mode) || nz w.(WIN.new_text_api) then
    m ← start_update cursor_address tm;
    w ← get_win;
    if (w.(WIN.guest_fheight) =? 0) || (w.(WIN.guest_fwidth) =? 0) then stop DivByZero
    else draw_rows fuel (frame_of w m cursor_address tm) (first_row w m tm)
  else if (tm.(TMINFO.start_address) <=? cursor_address) && (tm.(TMINFO.line_offset) =? 0) then stop DivByZero
  else mret (if tm.(TMINFO.blink_flags) &? BX_TEXT_BLINK_STATE then tm
             else tm <| TMINFO.cs_start ::= fun c => c |. 0x20 |>).

(** ** What is drawn *)

Definition paint (l : list DRAW.t) (w : WIN.t) : WIN.t := w <| WIN.bitmaps ::= fun l0 => l0 ++ l |>.

Lemma paint_nil w : paint [] w = w.
Proof. destruct w. unfold paint. cbn. by rewrite app_nil_r. Qed.
Lemma paint_paint l l' w : paint l' (paint l w) = paint (l ++ l') w.
Proof. destruct w. unfold paint. cbn. by rewrite app_assoc. Qed.

Lemma bitmaps_paint l w : (paint l w).(WIN.bitmaps) = w.(WIN.bitmaps) ++ l.
Proof. done. Qed.

Lemma DrawBitmaps_run l w : foreach l DrawBitmap w = Ok tt (paint l w).
Proof.
  revert w. induction l as [|d l IH]; intros w; cbn [foreach]; [by rewrite paint_nil|].
  rewrite (run_bind _ _ w tt (paint [d] w)) by done. by rewrite IH, paint_paint.
Qed.

(** The window is up, and no snapshot is being taken. *)
Definition up (w : WIN.t) : Prop := w.(WIN.UIinited) <> 0 /\ w.(WIN.snapshot_mode) = 0.

Lemma draw_char_run ch fc bc xc yc fw fh fx fy cs ce curs w : up w ->
  draw_char ch fc bc xc yc fw fh fx fy cs ce curs w =
  Ok tt (paint (char_bitmaps ch fc bc xc yc fw fh fx fy cs ce curs) w).
Proof.
  intros [Hui _]. unfold draw_char. rewrite (run_bind _ _ w w w) by done.
  unfold nz. rewrite (proj2 (Z.eqb_neq _ _) Hui). apply DrawBitmaps_run.
Qed.

Definition text_at (w : WIN.t) (a : Z) : Z := default 0 (w.(WIN.new_text) !! a).
Definition drawn_at (w : WIN.t) (a : Z) : Z := default 0 (w.(WIN.old_text) !! a).
Definition stale (w : WIN.t) (new old : Z) : bool :=
  negb (text_at w new =? drawn_at w old) || negb (text_at w (new + 1) =? drawn_at w (old + 1)).

(** Both bytes of a cell are inside the buffers; the old one is not read when everything
    is drawn. *)
Definition readable (w : WIN.t) (force : bool) (new old n : Z) : Prop :=
  0 <= new /\ new + n <= w.(WIN.memsize) /\ (force = false -> 0 <= old /\ old + n <= sizeof_text_snapshot).

Ltac readability :=
  unfold readable in *; repeat split; intros;
  repeat match goal with
  | H : ?P -> _ /\ _, H' : ?P |- _ => destruct (H H'); clear H
  | H : _ /\ _ |- _ => destruct H
  end; cbn in *; nia.

Lemma load_new_run a w : 0 <= a < w.(WIN.memsize) -> load_new a w = Ok (text_at w a) w.
Proof.
  intros Ha. unfold load_new. rewrite (run_bind _ _ w w w) by done.
  by rewrite (proj2 (Z.leb_le _ _)), (proj2 (Z.ltb_lt _ _)) by lia.
Qed.
Lemma load_old_run a w : 0 <= a < sizeof_text_snapshot -> load_old a w = Ok (drawn_at w a) w.
Proof.
  intros Ha. unfold load_old. rewrite (run_bind _ _ w w w) by done.
  by rewrite (proj2 (Z.leb_le _ _)), (proj2 (Z.ltb_lt _ _)) by lia.
Qed.

Lemma cell_changed_run force new old w : readable w force new old 2 -> force = false ->
  cell_changed new old w = Ok (stale w new old) w.
Proof.
  intros (Hn & Hn' & Ho) Hf. specialize (Ho Hf). unfold cell_changed, stale.
  rewrite (run_bind _ _ _ _ _ (load_new_run new w ltac:(lia))), (run_bind _ _ _ _ _ (load_old_run old w ltac:(lia))).
  destruct (negb (text_at w new =? drawn_at w old)); [done|].
  by rewrite (run_bind _ _ _ _ _ (load_new_run (new + 1) w ltac:(lia))),
    (run_bind _ _ _ _ _ (load_old_run (old + 1) w ltac:(lia))).
Qed.

(** The bitmaps of a character and its attribute. *)
Definition cell_bitmaps (f : FRAME.t) (tm : TMINFO.t) (xc yc cw ch cc cr b attr : Z) (curs : bool) : list DRAW.t :=
  let '(fc, bc) := cell_colours f tm attr in
  char_bitmaps b fc bc xc yc cw ch cc cr tm.(TMINFO.cs_start) tm.(TMINFO.cs_end) curs.

Lemma draw_cell_run f tm force xc yc cw ch cc cr new old offset w : up w -> readable w force new old 2 ->
  draw_cell f tm force xc yc cw ch cc cr new old offset w =
  Ok tt (paint (if force || stale w new old
                then cell_bitmaps f tm xc yc cw ch cc cr (text_at w new) (text_at w (new + 1))
                       (offset =? f.(FRAME.curs))
                else []) w).
Proof.
  intros Hup Hr. unfold draw_cell.
  rewrite (run_bind _ _ w (force || stale w new old) w)
    by (destruct force eqn:Hf; [done|]; by apply (cell_changed_run false)).
  destruct (force || stale w new old); cbn [when]; [|by rewrite paint_nil].
  destruct Hr as (Hn & Hn' & _).
  rewrite (run_bind _ _ _ _ _ (load_new_run new w ltac:(lia))), (run_bind _ _ _ _ _ (load_new_run (new + 1) w ltac:(lia))).
  rewrite (run_bind _ _ w w w) by done. unfold cell_bitmaps. destruct (cell_colours _ _ _) as [fc bc].
  rewrite (proj2 Hup). cbn [nz Z.eqb negb]. by apply draw_char_run.
Qed.

Lemma up_paint l w : up w -> up (paint l w).
Proof. done. Qed.

(** ** The loops end, or not *)

Lemma draw_cells_paint n f tm force yc ch cr x xc new old offset w : up w ->
  readable w force new old (2 * Z.of_nat n) ->
  exists l, draw_cells n f tm force yc ch cr x xc new old offset w = Ok tt (paint l w).
Proof.
  revert x xc new old offset w. induction n as [|n IH]; intros x xc new old offset w Hup Hr.
  - exists []. by rewrite paint_nil.
  - cbn [draw_cells]. rewrite (run_bind _ _ w w w) by done. cbv zeta.
    destruct (if 0 <? _ then _ else _) as [cw cc].
    rewrite (run_bind _ _ _ _ _ (draw_cell_run f tm force xc yc cw ch cc cr new old offset w Hup
      ltac:(clear IH; readability))).
    edestruct IH as [l Hl]; [apply up_paint, Hup| |].
    2: { eexists. rewrite Hl, paint_paint. done. }
    clear IH. readability.
Qed.

Lemma draw_row_paint f r w : up w ->
  readable w r.(ROW.forceUpdate) r.(ROW.new) r.(ROW.old) (2 * Z.of_nat (turns 16 (row_hchars f r))) ->
  exists l cfheight, draw_row f r w = Ok (next_row w f cfheight r) (paint l w).
Proof.
  intros Hup Hr. unfold draw_row. rewrite (run_bind _ _ w w w) by done.
  destruct (row_height w f r) as [cfheight cfrow].
  edestruct draw_cells_paint as [l Hl]; [exact Hup|exact Hr|].
  exists l, cfheight. by rewrite (run_bind _ _ _ _ _ Hl).
Qed.

(** The dimensions that every turn of the loops uses. *)
Record framed (w : WIN.t) (f : FRAME.t) (lo : Z) : Prop := {
  framed_up : up w;
  framed_cols : 1 <= f.(FRAME.text_cols) < 0xffff;
  framed_lo : 0 <= lo
}.

(** Room for [n] rows from a row. *)
Definition room (w : WIN.t) (f : FRAME.t) (lo : Z) (r : ROW.t) (n : Z) : Prop :=
  r.(ROW.tm).(TMINFO.line_offset) = lo /\
  readable w r.(ROW.forceUpdate) r.(ROW.new) r.(ROW.old) (n * lo + 2 * (f.(FRAME.text_cols) + 1)).

Lemma turns_small w n : 0 < n -> turns w n = Z.to_nat n.
Proof. intros Hn. unfold turns. by rewrite (proj2 (Z.eqb_neq n 0)) by lia. Qed.

Lemma row_hchars_bound w f lo r : framed w f lo ->
  0 < row_hchars f r <= f.(FRAME.text_cols) + 1.
Proof.
  intros [_ Hc _]. unfold row_hchars. destruct (0 <? _); [|lia].
  rewrite u16_small by (unfold in_width; lia). lia.
Qed.

Lemma draw_row_room w f lo r n : framed w f lo -> room w f lo r n -> 0 <= n ->
  exists l cfheight, draw_row f r w = Ok (next_row w f cfheight r) (paint l w).
Proof.
  intros Hf [Hlo (Hn & Hm & Ho)] Hnn. apply draw_row_paint; [apply Hf|].
  pose proof (row_hchars_bound w f lo r Hf) as Hh. pose proof (framed_lo _ _ _ Hf).
  rewrite turns_small by lia. readability.
Qed.

Lemma framed_paint l w f lo : framed w f lo -> framed (paint l w) f lo.
Proof. intros [H1 H2 H3]. by constructor. Qed.

(** Away from the split a row moves on. *)
Lemma next_row_room w f lo r n cfheight : framed w f lo -> room w f lo r n -> 1 <= n ->
  r.(ROW.y) <> f.(FRAME.split_textrow) -> room w f lo (next_row w f cfheight r) (n - 1).
Proof.
  intros Hf [Hlo (Hn & Hm & Ho)] Hnn Hy. pose proof (framed_lo _ _ _ Hf). unfold room, next_row.
  rewrite (proj2 (Z.eqb_neq _ _) Hy). cbn. split; [done|]. readability.
Qed.

Lemma next_row_y w f cfheight r : (next_row w f cfheight r).(ROW.y) = u8 (r.(ROW.y) + 1).
Proof. unfold next_row. by destruct (_ =? _). Qed.
Lemma next_row_rows w f cfheight r : r.(ROW.y) <> f.(FRAME.split_textrow) -> 1 <= r.(ROW.rows) < 2 ^ 16 ->
  (next_row w f cfheight r).(ROW.rows) = r.(ROW.rows) - 1.
Proof.
  intros Hy Hr. unfold next_row. rewrite (proj2 (Z.eqb_neq _ _) Hy). cbn. apply u16_small. unfold in_width. lia.
Qed.

(** One turn of the loop. *)
Lemma draw_rows_turn fuel f r w r' l : draw_row f r w = Ok r' (paint l w) ->
  draw_rows (S fuel) f r w =
  if r'.(ROW.rows) =? 0 then Ok r'.(ROW.tm) (paint l w) else draw_rows fuel f r' (paint l w).
Proof. intros Hr. cbn [draw_rows]. rewrite (run_bind _ _ _ _ _ Hr). by destruct (_ =? 0). Qed.

Lemma u8_ahead s i : 0 <= s < 2 ^ 8 -> 1 <= i < 2 ^ 8 -> u8 (s + i) <> s.
Proof.
  intros Hs Hi He. unfold u8 in He. rewrite <- (Z.mod_small _ _ Hs) in He at 2.
  pose proof (Z.div_mod (s + i) (2 ^ 8) ltac:(done)). pose proof (Z.div_mod s (2 ^ 8) ltac:(done)). lia.
Qed.

(** [i] rows below the split, the row counter does not reach it again. *)
Lemma rows_below_return w f lo r i fuel : framed w f lo ->
  0 <= f.(FRAME.split_textrow) < 2 ^ 8 -> r.(ROW.y) = u8 (f.(FRAME.split_textrow) + i) ->
  1 <= i -> 1 <= r.(ROW.rows) -> r.(ROW.rows) + i <= 2 ^ 8 ->
  room w f lo r r.(ROW.rows) -> (Z.to_nat r.(ROW.rows) <= fuel)%nat ->
  exists tm' l, draw_rows fuel f r w = Ok tm' (paint l w).
Proof.
  revert r i w. induction fuel as [|fuel IH]; intros r i w Hf Hs Hy Hi Hr Hri Hroom Hfuel; [lia|].
  destruct (draw_row_room w f lo r _ Hf Hroom ltac:(lia)) as (l & h & Hrow).
  assert (r.(ROW.y) <> f.(FRAME.split_textrow)) as Hne by (rewrite Hy; apply u8_ahead; [done|lia]).
  rewrite (draw_rows_turn _ _ _ _ _ _ Hrow), (next_row_rows _ _ _ _ Hne) by lia.
  destruct (Z.eqb_spec (ROW.rows r - 1) 0) as [|Hnz]; [eauto|].
  pose proof (next_row_rows w f h r Hne ltac:(lia)) as Hn.
  destruct (IH (next_row w f h r) (i + 1) (paint l w)) as (tm' & l' & Hl'); rewrite ?Hn; try lia.
  - by apply framed_paint.
  - rewrite next_row_y, Hy. unfold u8. rewrite Zplus_mod_idemp_l. f_equal. lia.
  - eapply next_row_room in Hroom; [exact Hroom|done|lia|done].
  - rewrite paint_paint in Hl'. eauto.
Qed.

(** The loop from row [y]; [split_rows] is what the counter is set to if the split is
    reached. *)
Lemma rows_return w f lo r fuel : framed w f lo ->
  0 <= r.(ROW.y) -> 1 <= r.(ROW.rows) -> r.(ROW.y) + r.(ROW.rows) <= 255 ->
  (0 <= f.(FRAME.split_textrow) < r.(ROW.y) + r.(ROW.rows) ->
   1 <= split_rows w r.(ROW.tm).(TMINFO.line_compare) <= 256 /\
   split_rows w r.(ROW.tm).(TMINFO.line_compare) * lo + 2 * (f.(FRAME.text_cols) + 1) <= w.(WIN.memsize)) ->
  0 <= f.(FRAME.split_textrow) ->
  room w f lo r r.(ROW.rows) -> (Z.to_nat r.(ROW.rows) + 256 <= fuel)%nat ->
  exists tm' l, draw_rows fuel f r w = Ok tm' (paint l w).
Proof.
  revert r w. induction fuel as [|fuel IH]; intros r w Hf Hy Hr Hyr Hsp Hs0 Hroom Hfuel; [lia|].
  destruct (draw_row_room w f lo r _ Hf Hroom ltac:(lia)) as (l & h & Hrow).
  rewrite (draw_rows_turn _ _ _ _ _ _ Hrow).
  destruct (decide (r.(ROW.y) = f.(FRAME.split_textrow))) as [He|Hne].
  - destruct (Hsp ltac:(lia)) as [HR Hb]. set (r' := next_row w f h r).
    assert (r'.(ROW.rows) = split_rows w r.(ROW.tm).(TMINFO.line_compare) - 1) as Hr'.
    { unfold r', next_row. rewrite (proj2 (Z.eqb_eq _ _) He). cbn. apply u16_small. unfold in_width. lia. }
    destruct (Z.eqb_spec r'.(ROW.rows) 0); [eauto|].
    destruct (rows_below_return (paint l w) f lo r' 1 fuel) as (tm' & l' & Hl'); try lia.
    + by apply framed_paint.
    + unfold r'. by rewrite next_row_y, He.
    + destruct Hroom as [Hlo _]. unfold r', next_row, room, readable in *.
      rewrite (proj2 (Z.eqb_eq _ _) He) in *. cbn in Hr' |- *. pose proof (framed_lo _ _ _ Hf).
      split; [by destruct (nz _)|]. split; [done|]. split; [nia|done].
    + rewrite paint_paint in Hl'. eauto.
  - pose proof (next_row_rows w f h r Hne ltac:(lia)) as Hn. rewrite Hn.
    destruct (Z.eqb_spec (ROW.rows r - 1) 0) as [|Hnz]; [eauto|].
    assert ((next_row w f h r).(ROW.y) = r.(ROW.y) + 1) as Hy'.
    { rewrite next_row_y. apply u8_small. unfold in_width. lia. }
    destruct (IH (next_row w f h r) (paint l w)) as (tm' & l' & Hl'); rewrite ?Hn, ?Hy'; try lia.
    + by apply framed_paint.
    + intros Hlt. destruct (Hsp ltac:(lia)) as [HR Hb]. unfold next_row. rewrite (proj2 (Z.eqb_neq _ _) Hne). done.
    + eapply next_row_room in Hroom; [exact Hroom|done|lia|done].
    + rewrite paint_paint in Hl'. eauto.
Qed.

(** ** Fonts *)

(** The two arrays have an entry for every character, and the characters fit [data]. *)
Definition fonts_wf (w : WIN.t) : Prop :=
  length w.(WIN.char_changed) = 256%nat /\ length w.(WIN.vgafont) = 256%nat /\ w.(WIN.yChar) <= 32.

Definition fonts_loaded (lg : bool) (l : list Z) (w : WIN.t) : WIN.t :=
  foldl (fun w c => if nz (nth0 w.(WIN.char_changed) c) then
      w <| WIN.vgafont ::= fun v => updZ v c (font_data lg w.(WIN.yChar) w.(WIN.vga_charmap) c) |>
        <| WIN.char_changed ::= fun v => updZ v c 0 |>
    else w) w l.

Lemma nthZ_nth0 l i : 0 <= i < Z.of_nat (length l) -> nthZ l i = Some (nth0 l i).
Proof. intros [x Hx]%nthZ_is_Some. unfold nth0. by rewrite Hx. Qed.

Lemma set_font_run lg w : fonts_wf w -> set_font lg w = Ok tt (fonts_loaded lg (seqZ 0 256) w).
Proof.
  unfold set_font. assert (forall c, c ∈ seqZ 0 256 -> 0 <= c < 256) as Hl by (intros c ?%elem_of_seqZ; lia).
  revert Hl. generalize (seqZ 0 256). intros l. revert w.
  induction l as [|c l IH]; intros w Hl Hw; [done|]. cbn [foreach fonts_loaded foldl].
  pose proof (Hl c ltac:(left)) as Hc. pose proof Hw as (H1 & H2 & H3).
  assert (at_ WIN.char_changed c w = Ok (nth0 w.(WIN.char_changed) c) w) as Hat.
  { unfold at_. by rewrite nthZ_nth0 by lia. }
  destruct (nz (nth0 (WIN.char_changed w) c)) eqn:Hch.
  - set (w' := w <| _ ::= _ |> <| _ ::= _ |>).
    rewrite (run_bind _ _ w tt w').
    + apply IH; [intros; apply Hl; by right|]. unfold w', fonts_wf. cbn. by rewrite !length_updZ.
    + rewrite (run_bind _ _ _ _ _ Hat), Hch. cbn [when]. rewrite (run_bind _ _ w w w) by done.
      rewrite (proj2 (Z.ltb_ge _ _)) by done. unfold upd_at, mbind, M_bind. cbn.
      destruct (nthZ_is_Some (WIN.vgafont w) c ltac:(lia)) as [x ->]. cbn.
      by rewrite nthZ_nth0 by lia.
  - rewrite (run_bind _ _ w tt w) by (rewrite (run_bind _ _ _ _ _ Hat), Hch; done).
    apply IH; [intros; apply Hl; by right|done].
Qed.

(** Loading changes the two arrays and nothing else. *)
Lemma fonts_loaded_frame lg l w : exists vf cc,
  fonts_loaded lg l w = w <| WIN.vgafont := vf |> <| WIN.char_changed := cc |>.
Proof.
  revert w. induction l as [|c l IH]; intros w; [exists w.(WIN.vgafont), w.(WIN.char_changed); by destruct w|].
  unfold fonts_loaded. cbn [foldl]. set (w1 := if nz _ then _ else w). fold (fonts_loaded lg l w1).
  destruct (IH w1) as (vf & cc & ->). exists vf, cc. unfold w1. by destruct w, (nz _).
Qed.

(** ** The start of an update *)

(** What [start_update] decides and changes, in the window with the new interface. *)
Section Started.
Context (cursor_address : Z) (tm : TMINFO.t) (w : WIN.t).

Definition blink_of (b : Z) : bool := tm.(TMINFO.blink_flags) &? b.
Definition panned : bool :=
  negb (tm.(TMINFO.h_panning) =? w.(WIN.tm_info).(TMINFO.h_panning))
  || negb (tm.(TMINFO.v_panning) =? w.(WIN.tm_info).(TMINFO.v_panning))
  || negb (tm.(TMINFO.line_compare) =? w.(WIN.tm_info).(TMINFO.line_compare)).
Definition started_mode : MODE.t :=
  MODE.mk (blink_of BX_TEXT_BLINK_MODE && blink_of BX_TEXT_BLINK_TOGGLE || nz w.(WIN.charmap_updated) || panned)
    (blink_of BX_TEXT_BLINK_MODE) (blink_of BX_TEXT_BLINK_STATE)
    ((tm.(TMINFO.cs_start) <=? tm.(TMINFO.cs_end)) && (tm.(TMINFO.cs_start) <? w.(WIN.guest_fheight))
     && (negb (blink_of BX_TEXT_BLINK_MODE) || blink_of BX_TEXT_BLINK_STATE)).
Definition started : WIN.t :=
  let w := if nz w.(WIN.charmap_updated)
           then fonts_loaded (nz tm.(TMINFO.line_graphics)) (seqZ 0 256) w <| WIN.charmap_updated := 0 |> else w in
  let w := if panned then w <| WIN.tm_info ::= fun i => i <| TMINFO.h_panning := tm.(TMINFO.h_panning) |>
             <| TMINFO.v_panning := tm.(TMINFO.v_panning) |> <| TMINFO.line_compare := tm.(TMINFO.line_compare) |> |>
           else w in
  if cursor_address <? 0xffff
  then w <| WIN.old_text ::= <[cursor_address := u8 (~. (text_at w cursor_address))]> |> else w.
End Started.

Lemma start_update_run c tm w : up w -> w.(WIN.new_text_api) <> 0 -> fonts_wf w ->
  0 <= c -> 0xffff <= w.(WIN.memsize) ->
  start_update c tm w = Ok (started_mode tm w) (started c tm w).
Proof.
  intros [_ Hs] Ha Hf Hc Hm. unfold start_update. rewrite (run_bind _ _ w w w) by done. cbv zeta.
  rewrite Hs. change (nz 0) with false. cbn [andb]. assert (nz w.(WIN.new_text_api) = true) as ->.
  { unfold nz. by rewrite (proj2 (Z.eqb_neq _ _) Ha). }
  cbv beta iota. fold (panned tm w). unfold started.
  set (w1 := if nz (WIN.charmap_updated w) then _ else w).
  assert (w1.(WIN.memsize) = w.(WIN.memsize)) as H1.
  { unfold w1. destruct (nz _); [|done]. by destruct (fonts_loaded_frame (nz (TMINFO.line_graphics tm)) (seqZ 0 256) w) as (? & ? & ->). }
  rewrite (run_bind _ _ w tt w1).
  2: { unfold w1. destruct (nz _); [|done]. cbn [when].
       by rewrite (run_bind _ _ _ _ _ (set_font_run _ _ Hf)). }
  set (w2 := if panned tm w then _ else w1).
  assert (w2.(WIN.memsize) = w.(WIN.memsize)) as H2 by (unfold w2; by destruct (panned _ _)).
  rewrite (run_bind _ _ w1 tt w2) by (unfold w2; by destruct (panned tm w)).
  destruct (Z.ltb_spec c 0xffff); [|done]. cbn [when].
  assert (invalidate c w2 = Ok tt (w2 <| WIN.old_text ::= <[c := u8 (~. (text_at w2 c))]> |>)) as Hinv.
  { unfold invalidate. rewrite (run_bind _ _ _ _ _ (load_new_run c w2 ltac:(lia))).
    change sizeof_text_snapshot with 131072. by rewrite (proj2 (Z.ltb_lt _ _)) by lia. }
  by rewrite (run_bind _ _ _ _ _ Hinv).
Qed.

(** Everything that the loops use is as it was, but for the cursor's cell. *)
Lemma started_frame c tm w :
  exists vf cc cu ti, started c tm w =
    w <| WIN.vgafont := vf |> <| WIN.char_changed := cc |> <| WIN.charmap_updated := cu |> <| WIN.tm_info := ti |>
      <| WIN.old_text ::= fun m => if c <? 0xffff then <[c := u8 (~. (text_at w c))]> m else m |>.
Proof.
  destruct (fonts_loaded_frame (nz (TMINFO.line_graphics tm)) (seqZ 0 256) w) as (? & ? & Hl).
  unfold started. rewrite Hl. clear Hl. destruct w as [? ? ? ? ? cu ? ? ti]. cbn. destruct (nz cu), (panned _ _), (c <? 0xffff); by repeat eexists.
Qed.

(** ** The whole update *)

(** The window with the new interface, its dimensions and the ranges of the attributes. *)
Record ready (w : WIN.t) (tm : TMINFO.t) : Prop := {
  ready_up : up w;
  ready_api : w.(WIN.new_text_api) <> 0;
  ready_fonts : fonts_wf w;
  ready_width : 1 <= w.(WIN.guest_fwidth) <= w.(WIN.guest_xres);
  ready_xres : w.(WIN.guest_xres) < 0xffff;
  ready_height : 1 <= w.(WIN.guest_fheight) <= w.(WIN.guest_yres);
  ready_yres : w.(WIN.guest_yres) < 2 ^ 16;
  ready_memory : 0xffff <= w.(WIN.memsize);
  ready_lo : 0 <= tm.(TMINFO.line_offset);
  ready_start : 0 <= tm.(TMINFO.start_address);
  ready_lc : 0 <= tm.(TMINFO.line_compare);
  ready_vp : 0 <= tm.(TMINFO.v_panning)
}.

Definition text_cols (w : WIN.t) : Z := w.(WIN.guest_xres) / w.(WIN.guest_fwidth).
Definition text_rows (w : WIN.t) : Z := w.(WIN.guest_yres) / w.(WIN.guest_fheight).

Lemma text_cols_bound w tm : ready w tm -> 1 <= text_cols w < 0xffff.
Proof.
  intros [_ _ _ Hw Hx _ _ _ _ _ _ _]. unfold text_cols.
  split; [apply Z.div_le_lower_bound; lia|apply Z.div_lt_upper_bound; nia].
Qed.

Lemma text_rows_lt w tm : ready w tm -> text_rows w < 2 ^ 16.
Proof.
  intros Hr. pose proof (ready_height _ _ Hr). pose proof (ready_yres _ _ Hr). apply Z.div_lt_upper_bound; nia.
Qed.

Lemma text_update_run fuel c tm w : ready w tm -> 0 <= c ->
  text_update_common fuel c tm w =
  draw_rows fuel (frame_of w (started_mode tm w) c tm) (first_row w (started_mode tm w) tm) (started c tm w).
Proof.
  intros [Hu Ha Hf Hw Hx Hh Hy Hm Hlo Hst Hlc Hvp] Hc. unfold text_update_common. rewrite (run_bind _ _ w w w) by done.
  assert (nz (WIN.new_text_api w) = true) as -> by (unfold nz; by rewrite (proj2 (Z.eqb_neq _ _) Ha)).
  rewrite orb_true_r, (run_bind _ _ _ _ _ (start_update_run c tm w Hu Ha Hf Hc Hm)).
  rewrite (run_bind _ _ _ (started c tm w) (started c tm w)) by done.
  destruct (started_frame c tm w) as (vf & cc & cu & ti & ->).
  cbn. by rewrite (proj2 (Z.eqb_neq _ _)), (proj2 (Z.eqb_neq _ _)) by lia.
Qed.

Lemma framed_started c tm w m : ready w tm ->
  framed (started c tm w) (frame_of w m c tm) tm.(TMINFO.line_offset).
Proof.
  intros Hr. destruct (started_frame c tm w) as (vf & cc & cu & ti & ->). constructor; [|exact (text_cols_bound w tm Hr)|apply Hr].
  apply (ready_up w tm Hr).
Qed.

Lemma split_rows_started c tm w lc : split_rows (started c tm w) lc = split_rows w lc.
Proof. by destruct (started_frame c tm w) as (vf & cc & cu & ti & ->). Qed.

Lemma room_started c tm w m n b : ready w tm ->
  b = n * tm.(TMINFO.line_offset) + 2 * (text_cols w + 1) ->
  tm.(TMINFO.start_address) + b <= sizeof_text_snapshot ->
  tm.(TMINFO.start_address) + b <= w.(WIN.memsize) ->
  room (started c tm w) (frame_of w m c tm) tm.(TMINFO.line_offset) (first_row w m tm) n.
Proof.
  intros Hr -> Hb Hb'. destruct (started_frame c tm w) as (vf & cc & cu & ti & ->).
  pose proof (ready_start _ _ Hr). split; [done|]. change (FRAME.text_cols _) with (text_cols w). readability.
Qed.

(** The rows below the split, if the split is reached. *)
Lemma split_rows_bound w lc vp : 5 <= w.(WIN.guest_fheight) <= w.(WIN.guest_yres) ->
  w.(WIN.guest_yres) <= 1024 -> 0 <= vp -> 0 <= lc ->
  (lc + vp) / w.(WIN.guest_fheight) < text_rows w + (if 0 <? vp then 1 else 0) ->
  1 <= split_rows w lc <= 206.
Proof.
  intros Hh Hy Hvp Hlc. unfold split_rows, text_rows. set (fh := WIN.guest_fheight w) in *. set (yr := WIN.guest_yres w) in *.
  pose proof (Z.div_mod (lc + vp) fh ltac:(lia)). pose proof (Z.mod_pos_bound (lc + vp) fh ltac:(lia)).
  pose proof (Z.div_mod yr fh ltac:(lia)). pose proof (Z.mod_pos_bound yr fh ltac:(lia)).
  intros Hq. assert (0 <= yr - lc + fh - 2).
  { assert (fh * ((lc + vp) / fh + 1) <= fh * (yr / fh + (if 0 <? vp then 1 else 0))) as Hm
      by (apply Z.mul_le_mono_nonneg_l; lia).
    destruct (Z.ltb_spec 0 vp); lia. }
  rewrite Z.quot_div_nonneg by lia.
  pose proof (Z.div_pos (yr - lc + fh - 2) fh ltac:(lia) ltac:(lia)).
  assert ((yr - lc + fh - 2) / fh < 206) by (apply Z.div_lt_upper_bound; lia).
  rewrite u16_small by (unfold in_width; lia). lia.
Qed.

(** C32 With characters of at least five lines on a screen of at most 1024, whatever the
    panning, the split and the blinking, an update comes to its end. *)
Theorem text_update_returns fuel c tm w : ready w tm -> 0 <= c ->
  5 <= w.(WIN.guest_fheight) -> w.(WIN.guest_yres) <= 1024 -> tm.(TMINFO.v_panning) <= 31 ->
  tm.(TMINFO.start_address) + 206 * tm.(TMINFO.line_offset) + 2 * (text_cols w + 1) <= sizeof_text_snapshot ->
  sizeof_text_snapshot <= w.(WIN.memsize) -> (512 <= fuel)%nat ->
  exists tm' l, text_update_common fuel c tm w = Ok tm' (paint l (started c tm w)).
Proof.
  intros Hr Hc Hfh Hyr Hvp Hb Hm Hfuel. rewrite (text_update_run fuel c tm w Hr Hc).
  pose proof (ready_height _ _ Hr). pose proof (ready_lc _ _ Hr). pose proof (ready_vp _ _ Hr).
  pose proof (ready_lo _ _ Hr). pose proof (ready_start _ _ Hr).
  set (m := started_mode tm w). set (r := first_row w m tm).
  assert (1 <= text_rows w < 205) as Hrows.
  { unfold text_rows. split; [apply Z.div_le_lower_bound|apply Z.div_lt_upper_bound]; lia. }
  assert (r.(ROW.rows) = text_rows w + (if 0 <? tm.(TMINFO.v_panning) then 1 else 0)) as HR.
  { unfold r, first_row. cbn. fold (text_rows w). destruct (0 <? _); [|lia]. apply u16_small. unfold in_width. lia. }
  assert (0 <= r.(ROW.rows) - text_rows w <= 1) as HR1 by (rewrite HR; destruct (0 <? _); lia).
  apply (rows_return _ _ tm.(TMINFO.line_offset)); [by apply framed_started| | | | | | |];
    try change (ROW.y r) with 0; try lia.
  - rewrite split_rows_started. cbn [r first_row ROW.tm]. unfold frame_of at 1 2. cbn [FRAME.split_textrow].
    destruct (Z.ltb_spec tm.(TMINFO.line_compare) 0x3ff); [|lia].
    assert (0 <= (TMINFO.line_compare tm + TMINFO.v_panning tm) / WIN.guest_fheight w < 211).
    { split; [apply Z.div_pos|apply Z.div_lt_upper_bound]; lia. }
    rewrite u8_small by (unfold in_width; lia). intros [_ Hs]. rewrite HR, Z.add_0_l in Hs.
    apply split_rows_bound in Hs; [|lia..].
    split; [lia|]. change (FRAME.text_cols _) with (text_cols w).
    destruct (started_frame c tm w) as (vf & cc & cu & ti & ->). cbn. nia.
  - cbn [frame_of FRAME.split_textrow]. destruct (TMINFO.line_compare tm <? 0x3ff); [|lia].
    match goal with |- 0 <= u8 ?z => apply (u8_range z) end.
  - eapply room_started; [done|done|nia|nia].
Qed.

(** ** Short characters *)

(** The byte that counts the rows comes back to the split, and the counter is set again. *)
Section Hang.
Context (f : FRAME.t) (lo lc R : Z).
Hypothesis (Hs : 0 <= f.(FRAME.split_textrow) < 2 ^ 8) (HR : 257 <= R < 2 ^ 16).

(** The counter will be [R] after the split. *)
Definition returning (w : WIN.t) (r : ROW.t) : Prop :=
  framed w f lo /\ 257 * lo + 2 * (f.(FRAME.text_cols) + 1) <= w.(WIN.memsize) /\
  r.(ROW.tm).(TMINFO.line_compare) = lc /\ split_rows w lc = R.

Lemma returning_next w r h l : returning w r -> returning (paint l w) (next_row w f h r).
Proof.
  intros (Hf & Hm & Hl & Hr). split; [by apply framed_paint|]. repeat split; [done| |done].
  unfold next_row. destruct (_ =? _); cbn; [|done]. by destruct (nz _).
Qed.

(** After the split row. *)
Lemma split_row w r h : returning w r -> r.(ROW.y) = f.(FRAME.split_textrow) ->
  r.(ROW.tm).(TMINFO.line_offset) = lo ->
  let r' := next_row w f h r in
  r'.(ROW.rows) = R - 1 /\ r'.(ROW.y) = u8 (f.(FRAME.split_textrow) + 1) /\
  forall l, room (paint l w) f lo r' 256.
Proof.
  intros (Hf & Hm & Hl & Hr) Hy Hlo. pose proof (framed_lo _ _ _ Hf). cbv zeta. rewrite next_row_y, Hy.
  unfold next_row, room. rewrite (proj2 (Z.eqb_eq _ _) Hy). cbn. rewrite Hl, Hr. split; [|split; [done|intros l]].
  - apply u16_small. unfold in_width. lia.
  - split; [by destruct (nz _)|]. split; [done|]. split; [change (WIN.memsize (paint l w)) with (WIN.memsize w); lia|done].
Qed.

Lemma cycle_diverges fuel r i w : returning w r -> 1 <= i <= 256 ->
  r.(ROW.y) = u8 (f.(FRAME.split_textrow) + i) -> 257 - i <= r.(ROW.rows) < 2 ^ 16 ->
  room w f lo r (257 - i) -> draw_rows fuel f r w = Fault Diverges.
Proof.
  revert r i w. induction fuel as [|fuel IH]; intros r i w Hret Hi Hy Hrows Hroom; [done|].
  pose proof Hret as (Hf & _). destruct (draw_row_room w f lo r _ Hf Hroom ltac:(lia)) as (l & h & Hrow).
  rewrite (draw_rows_turn _ _ _ _ _ _ Hrow). pose proof (returning_next w r h l Hret) as Hret'.
  destruct (decide (i = 256)) as [->|].
  - assert (r.(ROW.y) = f.(FRAME.split_textrow)) as He.
    { rewrite Hy. unfold u8. change 256 with (1 * 2 ^ 8). rewrite Z.mod_add by done. by apply Z.mod_small. }
    destruct (split_row w r h Hret He (proj1 Hroom)) as (Hr' & Hy' & Hroom').
    rewrite (proj2 (Z.eqb_neq _ _)) by lia. apply (IH _ 1); [done|lia|done|lia|apply Hroom'].
  - assert (r.(ROW.y) <> f.(FRAME.split_textrow)) as Hne.
    { rewrite Hy. unfold u8. intros He. rewrite <- (Z.mod_small _ _ Hs) in He at 2.
      pose proof (Z.div_mod (f.(FRAME.split_textrow) + i) (2 ^ 8) ltac:(done)).
      pose proof (Z.div_mod (f.(FRAME.split_textrow)) (2 ^ 8) ltac:(done)). lia. }
    pose proof (next_row_rows w f h r Hne ltac:(lia)) as Hn.
    rewrite (proj2 (Z.eqb_neq _ _)) by lia. apply (IH _ (i + 1)); [done|lia| |lia|].
    + rewrite next_row_y, Hy. unfold u8. rewrite Zplus_mod_idemp_l. f_equal. lia.
    + apply (next_row_room w f lo r (257 - i) h) in Hroom; [|done|lia|done].
      by replace (257 - (i + 1)) with (257 - i - 1) by lia.
Qed.

Lemma above_diverges fuel r w : returning w r -> 0 <= r.(ROW.y) <= f.(FRAME.split_textrow) ->
  f.(FRAME.split_textrow) - r.(ROW.y) < r.(ROW.rows) < 2 ^ 16 ->
  room w f lo r (f.(FRAME.split_textrow) - r.(ROW.y) + 1) -> draw_rows fuel f r w = Fault Diverges.
Proof.
  revert r w. induction fuel as [|fuel IH]; intros r w Hret Hy Hrows Hroom; [done|].
  pose proof Hret as (Hf & _). destruct (draw_row_room w f lo r _ Hf Hroom ltac:(lia)) as (l & h & Hrow).
  rewrite (draw_rows_turn _ _ _ _ _ _ Hrow). pose proof (returning_next w r h l Hret) as Hret'.
  destruct (decide (r.(ROW.y) = f.(FRAME.split_textrow))) as [He|Hne].
  - destruct (split_row w r h Hret He (proj1 Hroom)) as (Hr' & Hy' & Hroom').
    rewrite (proj2 (Z.eqb_neq _ _)) by lia. apply (cycle_diverges _ _ 1); [done|lia|done|lia|apply Hroom'].
  - pose proof (next_row_rows w f h r Hne ltac:(lia)) as Hn.
    assert ((next_row w f h r).(ROW.y) = r.(ROW.y) + 1) as Hy'.
    { rewrite next_row_y. apply u8_small. unfold in_width. lia. }
    rewrite (proj2 (Z.eqb_neq _ _)) by lia. apply IH; [done|lia|lia|].
    apply (next_row_room w f lo r _ h) in Hroom; [|done|lia|done]. rewrite Hy'.
    by replace (f.(FRAME.split_textrow) - (r.(ROW.y) + 1) + 1) with (f.(FRAME.split_textrow) - r.(ROW.y) + 1 - 1) by lia.
Qed.
End Hang.

(** C33 A split screen whose lower part has more than 256 rows of characters is drawn for
    ever: the row number is a byte, it comes back to the row of the split, and the count
    of the rows starts again. *)
Theorem text_update_hangs fuel c tm w : ready w tm -> 0 <= c ->
  tm.(TMINFO.v_panning) = 0 -> tm.(TMINFO.line_compare) < 0x3ff ->
  tm.(TMINFO.line_compare) / w.(WIN.guest_fheight) < 256 ->
  tm.(TMINFO.line_compare) / w.(WIN.guest_fheight) < text_rows w ->
  257 <= split_rows w tm.(TMINFO.line_compare) ->
  tm.(TMINFO.start_address) + 257 * tm.(TMINFO.line_offset) + 2 * (text_cols w + 1) <= sizeof_text_snapshot ->
  sizeof_text_snapshot <= w.(WIN.memsize) ->
  text_update_common fuel c tm w = Fault Diverges.
Proof.
  intros Hr Hc Hvp Hlc Hs256 Hs HR Hb Hm. rewrite (text_update_run fuel c tm w Hr Hc).
  pose proof (ready_height _ _ Hr). pose proof (ready_lc _ _ Hr). pose proof (ready_lo _ _ Hr).
  pose proof (ready_start _ _ Hr). pose proof (ready_yres _ _ Hr).
  set (m := started_mode tm w). set (f := frame_of w m c tm).
  assert (0 <= tm.(TMINFO.line_compare) / w.(WIN.guest_fheight)) by (apply Z.div_pos; lia).
  assert (f.(FRAME.split_textrow) = tm.(TMINFO.line_compare) / w.(WIN.guest_fheight)) as Hf.
  { unfold f. cbn [frame_of FRAME.split_textrow]. rewrite (proj2 (Z.ltb_lt _ _) Hlc), Hvp, Z.add_0_r.
    apply u8_small. unfold in_width. lia. }
  assert ((first_row w m tm).(ROW.rows) = text_rows w) as Hrows by (unfold first_row; cbn; by rewrite Hvp).
  pose proof (text_rows_lt w tm Hr).
  assert (split_rows w tm.(TMINFO.line_compare) < 2 ^ 16) by apply u16_range.
  apply (above_diverges f tm.(TMINFO.line_offset) tm.(TMINFO.line_compare) (split_rows w tm.(TMINFO.line_compare)));
    rewrite ?Hf; try change (ROW.y _) with 0; try lia.
  - split; [by apply framed_started|]. rewrite split_rows_started. repeat split.
    change (FRAME.text_cols _) with (text_cols w).
    destruct (started_frame c tm w) as (vf & cc & cu & ti & ->). cbn. nia.
  - eapply room_started; [done|done|nia|nia].
Qed.

(** ** What the window shows *)

(** The picture of the cell whose corner is [(x, y)]: the bitmaps drawn there since the
    last that covered it. *)
Definition show (fh x y : Z) (p : list DRAW.t) (d : DRAW.t) : list DRAW.t :=
  if (d.(DRAW.xStart) =? x) && (y <=? d.(DRAW.yStart)) && (d.(DRAW.yStart) <? y + fh)
  then if d.(DRAW.height) =? fh then [d] else p ++ [d] else p.
Definition picture (fh x y : Z) (p : list DRAW.t) (l : list DRAW.t) : list DRAW.t := foldl (show fh x y) p l.

(** The whole screen from the text memory: no split, no panning, at most 255 rows, and
    the text within the 64 KB that the offset counts. *)
Record plain (w : WIN.t) (tm : TMINFO.t) : Prop := {
  plain_ready : ready w tm;
  plain_hp : tm.(TMINFO.h_panning) = 0;
  plain_vp : tm.(TMINFO.v_panning) = 0;
  plain_lc : 0x3ff <= tm.(TMINFO.line_compare);
  plain_rows : text_rows w <= 255;
  plain_text : tm.(TMINFO.start_address) + text_rows w * tm.(TMINFO.line_offset) + 2 * text_cols w <= 0xffff
}.

Definition cell_addr (tm : TMINFO.t) (r c : Z) : Z :=
  tm.(TMINFO.start_address) + r * tm.(TMINFO.line_offset) + 2 * c.

Section Plain.
Context (w : WIN.t) (tm : TMINFO.t) (f : FRAME.t) (force : bool).
Hypothesis (Hp : plain w tm) (Hcols : f.(FRAME.text_cols) = text_cols w).
Hypothesis (Hsplit : f.(FRAME.split_textrow) = 0xff).
Local Notation fw := w.(WIN.guest_fwidth).
Local Notation fh := w.(WIN.guest_fheight).

Definition cell_picture (r c b attr : Z) (curs : bool) : list DRAW.t :=
  cell_bitmaps f tm (c * fw) (r * fh) fw fh 0 0 b attr curs.
Definition cell_draws (r c : Z) : list DRAW.t :=
  let a := cell_addr tm r c in
  if force || stale w a a
  then cell_picture r c (text_at w a) (text_at w (a + 1)) (a =? f.(FRAME.curs)) else [].
Definition row_draws (c n r : Z) : list DRAW.t := seqZ c n ≫= cell_draws r.
Definition screen_draws (r n : Z) : list DRAW.t := seqZ r n ≫= row_draws 0 (text_cols w).

Lemma plain_bounds r c : 0 <= r < text_rows w -> 0 <= c < text_cols w ->
  0 <= cell_addr tm r c /\ cell_addr tm r c + 2 <= 0xffff /\
  0 <= c * fw /\ (c + 1) * fw < 0xffff /\ 0 <= r * fh /\ (r + 1) * fh < 2 ^ 16.
Proof.
  intros Hr Hc. destruct Hp as [[_ _ _ Hw Hx Hh Hy _ Hlo Hst _ _] _ _ _ _ Ht]. unfold cell_addr.
  pose proof (Z.mul_div_le w.(WIN.guest_xres) fw ltac:(lia)). pose proof (Z.mul_div_le w.(WIN.guest_yres) fh ltac:(lia)).
  fold (text_rows w) in *. fold (text_cols w) in *.
  pose proof (Z.mul_le_mono_nonneg_r (r + 1) (text_rows w) fh ltac:(lia) ltac:(lia)).
  pose proof (Z.mul_le_mono_nonneg_r (c + 1) (text_cols w) fw ltac:(lia) ltac:(lia)).
  pose proof (Z.mul_le_mono_nonneg_r r (text_rows w) (TMINFO.line_offset tm) ltac:(lia) ltac:(lia)).
  pose proof (Z.mul_nonneg_nonneg r (TMINFO.line_offset tm) ltac:(lia) ltac:(lia)).
  pose proof (Z.mul_nonneg_nonneg r fh ltac:(lia) ltac:(lia)). pose proof (Z.mul_nonneg_nonneg c fw ltac:(lia) ltac:(lia)).
  lia.
Qed.

Lemma draw_cells_exact r n c x l : 0 <= r < text_rows w -> 0 <= c -> c + Z.of_nat n = text_cols w ->
  draw_cells n f tm force (r * fh) fh 0 x (c * fw) (cell_addr tm r c) (cell_addr tm r c) (cell_addr tm r c) (paint l w) =
  Ok tt (paint (l ++ row_draws c (Z.of_nat n) r) w).
Proof.
  intros Hr. revert c x l. induction n as [|n IH]; intros c x l Hc Hn.
  - unfold row_draws. cbn. by rewrite app_nil_r.
  - destruct (plain_bounds r c Hr ltac:(lia)) as (Ha & Ha' & Hx & Hx' & _). cbn [draw_cells].
    rewrite (run_bind _ _ (paint l w) (paint l w) (paint l w)) by done. cbv zeta. rewrite (plain_hp _ _ Hp). cbn [Z.ltb Z.compare].
    rewrite (run_bind _ _ _ tt (paint (l ++ cell_draws r c) w)).
    + change (WIN.guest_fwidth (paint l w)) with fw. pose proof (ready_width _ _ (plain_ready _ _ Hp)).
      rewrite !u16_small by (unfold in_width; lia). replace (c * fw + fw) with ((c + 1) * fw) by lia.
      replace (cell_addr tm r c + 2) with (cell_addr tm r (c + 1)) by (unfold cell_addr; lia).
      rewrite IH by lia. unfold row_draws. rewrite (seqZ_cons c) by lia.
      replace (Z.pred (Z.of_nat (S n))) with (Z.of_nat n) by lia.
      rewrite bind_cons, app_assoc. done.
    + rewrite draw_cell_run, paint_paint; [done|apply (ready_up _ _ (plain_ready _ _ Hp))|].
      pose proof (ready_memory _ _ (plain_ready _ _ Hp)). unfold readable. change (WIN.memsize (paint l w)) with (WIN.memsize w).
      change sizeof_text_snapshot with 131072. lia.
Qed.

(** Row [r], and all that is left below it. *)
Definition plain_row (r : Z) : ROW.t :=
  ROW.mk (text_rows w - r) r (r * fh) false force (cell_addr tm r 0) (cell_addr tm r 0) (cell_addr tm r 0) tm.

Lemma draw_row_exact r l : 0 <= r < text_rows w ->
  draw_row f (plain_row r) (paint l w) = Ok (plain_row (r + 1)) (paint (l ++ row_draws 0 (text_cols w) r) w).
Proof.
  intros Hr. pose proof (text_cols_bound _ _ (plain_ready _ _ Hp)) as Hc. pose proof (plain_rows _ _ Hp) as H255.
  destruct (plain_bounds r 0 Hr ltac:(lia)) as (Ha & _ & _ & _ & Hy & Hy').
  assert (row_height (paint l w) f (plain_row r) = (fh, 0)) as Hrh.
  { unfold row_height. cbn. rewrite (plain_vp _ _ Hp), Hsplit. cbn. by rewrite (proj2 (Z.eqb_neq _ _)) by lia. }
  unfold draw_row. rewrite (run_bind _ _ (paint l w) (paint l w) (paint l w)) by done. rewrite Hrh.
  assert (row_hchars f (plain_row r) = text_cols w) as Hh.
  { unfold row_hchars. cbn. by rewrite (plain_hp _ _ Hp). }
  rewrite Hh, turns_small by lia.
  pose proof (draw_cells_exact r (Z.to_nat (text_cols w)) 0 0 l Hr ltac:(lia) ltac:(lia)) as Hcells.
  rewrite Z2Nat.id in Hcells by lia. rewrite (run_bind _ _ _ _ _ Hcells). f_equal.
  unfold next_row. cbn. rewrite Hsplit, (proj2 (Z.eqb_neq _ _)) by lia. unfold plain_row.
  pose proof (text_rows_lt w tm (plain_ready _ _ Hp)). pose proof (ready_height _ _ (plain_ready _ _ Hp)).
  assert (cell_addr tm r 0 + TMINFO.line_offset tm = cell_addr tm (r + 1) 0) as -> by (unfold cell_addr; lia).
  assert (0 <= cell_addr tm (r + 1) 0 <= 0xffff).
  { pose proof (plain_text _ _ Hp). pose proof (ready_lo _ _ (plain_ready _ _ Hp)). unfold cell_addr in *. nia. }
  rewrite u8_small, !u16_small by (unfold in_width; lia). f_equal; lia.
Qed.

Lemma draw_rows_exact n r l fuel : 0 <= r -> r + Z.of_nat n = text_rows w -> (1 <= n <= fuel)%nat ->
  draw_rows fuel f (plain_row r) (paint l w) = Ok tm (paint (l ++ screen_draws r (Z.of_nat n)) w).
Proof.
  revert r l fuel. induction n as [|n IH]; intros r l [|fuel] Hr Hn Hfuel; try lia.
  pose proof (draw_row_exact r l ltac:(lia)) as Hrow. rewrite <- paint_paint in Hrow.
  rewrite (draw_rows_turn _ _ _ _ _ _ Hrow), paint_paint. cbn [plain_row ROW.rows].
  unfold screen_draws. rewrite (seqZ_cons r) by lia. replace (Z.pred (Z.of_nat (S n))) with (Z.of_nat n) by lia.
  rewrite bind_cons, app_assoc. destruct (Z.eqb_spec (text_rows w - (r + 1)) 0).
  - assert (n = O) as -> by lia. cbn. by rewrite app_nil_r.
  - replace (Z.succ r) with (r + 1) by lia. apply IH; lia.
Qed.

(** *** Cell by cell *)

Definition inside (x y : Z) (d : DRAW.t) : Prop := d.(DRAW.xStart) = x /\ y <= d.(DRAW.yStart) < y + fh.

Lemma picture_outside x y p l : (forall d, d ∈ l -> ~ inside x y d) -> picture fh x y p l = p.
Proof.
  revert p. induction l as [|d l IH]; intros p Hl; [done|]. cbn.
  assert (show fh x y p d = p) as ->.
  { pose proof (Hl d ltac:(left)) as Hd. unfold inside, show in *.
    destruct (Z.eqb_spec (DRAW.xStart d) x), (Z.leb_spec y (DRAW.yStart d)), (Z.ltb_spec (DRAW.yStart d) (y + fh)); try done.
    by destruct Hd. }
  apply IH. intros. apply Hl. by right.
Qed.

Lemma picture_at (x y : Z) (g : Z -> list DRAW.t) i a n p : a <= i < a + n ->
  (forall j d, a <= j < a + n -> j <> i -> d ∈ g j -> ~ inside x y d) ->
  picture fh x y p (seqZ a n ≫= g) = picture fh x y p (g i).
Proof.
  intros Hi Hg. replace n with ((i - a) + (1 + (a + n - i - 1))) by lia. rewrite !seqZ_app by lia.
  rewrite !bind_app. unfold picture. rewrite !foldl_app. fold (picture fh x y p (seqZ a (i - a) ≫= g)).
  rewrite (picture_outside x y p).
  2: { intros d (j & Hd & ?%elem_of_seqZ)%list_elem_of_bind. apply (Hg j); [lia|lia|done]. }
  replace (a + (i - a)) with i by lia. rewrite (seqZ_cons i 1) by lia. cbn [Z.pred seqZ]. rewrite bind_cons.
  change (seqZ (Z.succ i) (Z.pred 1)) with (@nil Z). rewrite app_nil_r.
  apply picture_outside. intros d (j & Hd & ?%elem_of_seqZ)%list_elem_of_bind. apply (Hg j); [lia|lia|done].
Qed.

Lemma cell_picture_inside r c b attr curs d : 0 <= tm.(TMINFO.cs_start) -> 0 <= r < text_rows w -> 0 <= c < text_cols w ->
  d ∈ cell_picture r c b attr curs -> inside (c * fw) (r * fh) d.
Proof.
  intros Hcs Hr Hc. pose proof (ready_height _ _ (plain_ready _ _ Hp)).
  destruct (plain_bounds r c Hr Hc) as (_ & _ & _ & _ & Hy & Hy').
  unfold cell_picture, cell_bitmaps, char_bitmaps. destruct (cell_colours f tm attr) as [fc bc].
  intros [->|Hd]%elem_of_cons; [split; cbn; lia|]. revert Hd.
  destruct (curs && _); cbn [andb]; [|by intros ?%not_elem_of_nil].
  destruct (Z.ltb_spec (TMINFO.cs_start tm) (fh + 0)); [|by intros ?%not_elem_of_nil].
  destruct (Z.ltb_spec 0 (TMINFO.cs_start tm)); intros ->%list_elem_of_singleton; (split; [done|]); cbn.
  - rewrite u16_small by (unfold in_width; lia). lia.
  - lia.
Qed.

Lemma cell_picture_covers r c b attr curs p : 0 <= r < text_rows w -> 0 <= c < text_cols w ->
  picture fh (c * fw) (r * fh) p (cell_picture r c b attr curs) =
  picture fh (c * fw) (r * fh) [] (cell_picture r c b attr curs).
Proof.
  intros Hr Hc. pose proof (ready_height _ _ (plain_ready _ _ Hp)).
  unfold cell_picture, cell_bitmaps, char_bitmaps. destruct (cell_colours f tm attr) as [fc bc].
  unfold picture. cbn [foldl]. f_equal. unfold show. cbn.
  rewrite !Z.eqb_refl, Z.leb_refl, (proj2 (Z.ltb_lt _ _)) by lia. done.
Qed.

Lemma screen_picture r c p : 0 <= tm.(TMINFO.cs_start) -> 0 <= r < text_rows w -> 0 <= c < text_cols w ->
  picture fh (c * fw) (r * fh) p (screen_draws 0 (text_rows w)) =
  let a := cell_addr tm r c in
  if force || stale w a a
  then picture fh (c * fw) (r * fh) [] (cell_picture r c (text_at w a) (text_at w (a + 1)) (a =? f.(FRAME.curs)))
  else p.
Proof.
  intros Hcs Hr Hc. pose proof (ready_height _ _ (plain_ready _ _ Hp)). pose proof (ready_width _ _ (plain_ready _ _ Hp)).
  assert (forall r' c' d, 0 <= r' < text_rows w -> 0 <= c' < text_cols w -> d ∈ cell_draws r' c' ->
    inside (c' * fw) (r' * fh) d) as Hin.
  { intros r' c' d Hr' Hc'. unfold cell_draws. destruct (_ || _); [|by intros ?%not_elem_of_nil].
    by apply cell_picture_inside. }
  unfold screen_draws. rewrite (picture_at _ _ _ r); [|lia|].
  2: { intros r' d Hr' Hne (c' & Hd & ?%elem_of_seqZ)%list_elem_of_bind. apply Hin in Hd as [_ Hd]; [|lia..].
       intros [_ Hd']. assert (r' < r \/ r < r') by lia. nia. }
  unfold row_draws. rewrite (picture_at _ _ _ c); [|lia|].
  2: { intros c' d Hc' Hne Hd. apply Hin in Hd as [Hd _]; [|lia..]. intros [Hd' _]. nia. }
  unfold cell_draws. cbv zeta. destruct (_ || _); [|done]. by apply cell_picture_covers.
Qed.
End Plain.

Lemma byte_lnot b : is_u8 b -> b <> u8 (~. b).
Proof.
  unfold in_width, u8, Z.lnot. intros Hb He.
  replace (Z.pred (- b)) with (255 - b + (-1) * 2 ^ 8) in He by lia. rewrite Z.mod_add in He by done.
  rewrite Z.mod_small in He by lia. lia.
Qed.

(** The picture of a cell of the window. *)
Definition cell_shown (w : WIN.t) (r c : Z) : list DRAW.t :=
  picture w.(WIN.guest_fheight) (c * w.(WIN.guest_fwidth)) (r * w.(WIN.guest_fheight)) [] w.(WIN.bitmaps).
(** What it is to show of a character, an attribute and the cursor. *)
Definition cell_wanted (w : WIN.t) (f : FRAME.t) (tm : TMINFO.t) (r c b attr : Z) (curs : bool) : list DRAW.t :=
  picture w.(WIN.guest_fheight) (c * w.(WIN.guest_fwidth)) (r * w.(WIN.guest_fheight)) []
    (cell_picture w tm f r c b attr curs).

Section Update.
Context (cursor : Z) (tm : TMINFO.t) (w : WIN.t).
Hypothesis (Hp : plain w tm) (Hcursor : 0 <= cursor) (Hcs : 0 <= tm.(TMINFO.cs_start)).
Local Notation m := (started_mode tm w).
Local Notation f := (frame_of w m cursor tm).

Lemma plain_started : plain (started cursor tm w) tm.
Proof.
  destruct Hp as [[Hu Ha Hf Hw Hx Hh Hy Hm Hlo Hst Hlc Hvp] H1 H2 H3 H4 H5].
  assert (fonts_wf (started cursor tm w)) as Hf'.
  { unfold started. cbv zeta. assert (forall lg l v, fonts_wf v -> fonts_wf (fonts_loaded lg l v)) as Hl.
    { intros lg l. induction l as [|c l IH]; intros v Hv; [done|]. apply IH. destruct (nz _); [|done].
      unfold fonts_wf in *. cbn. by rewrite !length_updZ. }
    specialize (Hl (nz tm.(TMINFO.line_graphics)) (seqZ 0 256) w Hf).
    revert Hl. generalize (fonts_loaded (nz tm.(TMINFO.line_graphics)) (seqZ 0 256) w). intros v Hl.
    destruct (cursor <? 0xffff), (panned tm w), (nz (WIN.charmap_updated w)); first [exact Hf|exact Hl]. }
  revert Hf'. destruct (started_frame cursor tm w) as (vf & cc & cu & ti & ->). intros Hf'. by repeat (constructor; try done).
Qed.

(** What an update does to a cell. *)
Lemma text_update_cells fuel : (Z.to_nat (text_rows w) <= fuel)%nat ->
  exists w', text_update_common fuel cursor tm w = Ok tm w' /\
  (forall r c, 0 <= r < text_rows w -> 0 <= c < text_cols w ->
   let a := cell_addr tm r c in
   cell_shown w' r c =
   if m.(MODE.forceUpdate) || stale (started cursor tm w) a a
   then cell_wanted w f tm r c (text_at w a) (text_at w (a + 1)) (a =? f.(FRAME.curs))
   else cell_shown w r c).
Proof.
  intros Hfuel. pose proof (plain_ready _ _ Hp) as Hr. rewrite (text_update_run _ _ _ _ Hr Hcursor).
  pose proof plain_started as Hp'.
  destruct (started_frame cursor tm w) as (vf & cc & cu & ti & Hst).
  assert (f.(FRAME.split_textrow) = 0xff) as Hsp.
  { cbn. pose proof (plain_lc _ _ Hp). by rewrite (proj2 (Z.ltb_ge _ _)) by lia. }
  assert (text_rows (started cursor tm w) = text_rows w) as HR by (by rewrite Hst).
  assert (1 <= text_rows w) by (pose proof (ready_height _ _ Hr); apply Z.div_le_lower_bound; lia).
  pose proof (draw_rows_exact (started cursor tm w) tm f m.(MODE.forceUpdate) Hp'
    ltac:(rewrite Hst; done) Hsp (Z.to_nat (text_rows w)) 0 [] fuel ltac:(lia) ltac:(lia) ltac:(lia)) as Hrun.
  rewrite paint_nil in Hrun. eexists. split.
  - rewrite <- Hrun. f_equal. unfold first_row, plain_row, cell_addr.
    rewrite (plain_vp _ _ Hp), HR. cbn [Z.ltb Z.compare]. f_equal; unfold text_rows; lia.
  - intros r c Hrr Hcc. cbv zeta. rewrite Z2Nat.id by lia. cbn [app].
    pose proof (screen_picture (started cursor tm w) tm f m.(MODE.forceUpdate) Hp' r c (cell_shown w r c) Hcs
      ltac:(lia) ltac:(by rewrite Hst)) as Hpic.
    cbv zeta in Hpic. rewrite HR in Hpic. revert Hpic. rewrite Hst. intros Hpic. refine (eq_trans _ Hpic).
    unfold cell_shown, picture. rewrite bitmaps_paint. apply foldl_app.
Qed.
End Update.

(** The cell that the cursor has left keeps it, as long as its text does not change. *)
Lemma old_cursor_stays fuel cursor tm w r c : plain w tm -> 0 <= cursor <= 0xffff -> 0 <= tm.(TMINFO.cs_start) ->
  (Z.to_nat (text_rows w) <= fuel)%nat -> 0 <= r < text_rows w -> 0 <= c < text_cols w ->
  let a := cell_addr tm r c in
  (started_mode tm w).(MODE.forceUpdate) = false -> stale w a a = false -> cursor <> a -> cursor <> a + 1 ->
  exists w', text_update_common fuel cursor tm w = Ok tm w' /\ cell_shown w' r c = cell_shown w r c.
Proof.
  intros Hp Hcur Hcs Hfuel Hr Hc a Hforce Hstale Ha Ha'.
  destruct (text_update_cells cursor tm w Hp ltac:(lia) Hcs fuel Hfuel) as (w' & Hrun & Hcell).
  exists w'. split; [done|]. rewrite (Hcell r c Hr Hc), Hforce. cbv zeta. fold a.
  assert (stale (started cursor tm w) a a = false) as ->; [|done]. rewrite <- Hstale.
  destruct (started_frame cursor tm w) as (vf & cc & cu & ti & ->). unfold stale, text_at, drawn_at. cbn.
  destruct (cursor <? 0xffff); [|done]. by rewrite !lookup_insert_ne.
Qed.


(** ** The fonts follow the memory *)

(** The calls of the adapter that change the characters. *)
Definition font_call (g : gui_call) : W unit :=
  match g with
  | gui_set_text_charmap fbuffer => set_text_charmap fbuffer
  | gui_set_text_charbyte address data => set_text_charbyte address data
  | _ => done_
  end.
Definition font_call_ok (g : gui_call) : Prop :=
  match g with
  | gui_set_text_charmap fbuffer => length fbuffer = 0x2000%nat
  | gui_set_text_charbyte address data => 0 <= address < 0x2000
  | _ => False
  end.
Definition charmap_after (m : list Z) (g : gui_call) : list Z :=
  match g with
  | gui_set_text_charmap fbuffer => fbuffer
  | gui_set_text_charbyte address data => updZ m address data
  | _ => m
  end.

Definition font_of (lg : bool) (w : WIN.t) (c : Z) : list Z := font_data lg w.(WIN.yChar) w.(WIN.vga_charmap) c.

(** A character whose mark is clear has the bitmap of its bytes. *)
Record fonts_inv (lg : bool) (w : WIN.t) : Prop := {
  inv_wf : fonts_wf w;
  inv_map : length w.(WIN.vga_charmap) = 0x2000%nat;
  inv_font : forall c, 0 <= c < 256 -> nth0 w.(WIN.char_changed) c = 0 -> nthZ w.(WIN.vgafont) c = Some (font_of lg w c)
}.

Lemma nth0_updZ_eq l i x : 0 <= i < Z.of_nat (length l) -> nth0 (updZ l i x) i = x.
Proof. intros Hi. unfold nth0. by rewrite nthZ_updZ_eq. Qed.
Lemma nth0_updZ_ne l i j x : i <> j -> nth0 (updZ l i x) j = nth0 l j.
Proof. intros Hi. unfold nth0. by rewrite nthZ_updZ_ne. Qed.

(** A byte of the memory belongs to one character. *)
Lemma font_data_updZ lg h m a d c : a >>. 5 <> c -> font_data lg h (updZ m a d) c = font_data lg h m c.
Proof.
  intros Hc. unfold font_data. apply Forall_bind_ext, Forall_forall. intros i ?%elem_of_seqZ. unfold font_line.
  rewrite nth0_updZ_ne; [done|]. intros ->. apply Hc. rewrite Z.shiftr_div_pow2 by done.
  change (2 ^ 5) with 32. rewrite Z.div_add_l, Z.div_small by lia. lia.
Qed.

Lemma font_call_run lg g w : fonts_inv lg w -> font_call_ok g -> exists w',
  font_call g w = Ok tt w' /\ fonts_inv lg w' /\
  w'.(WIN.vga_charmap) = charmap_after w.(WIN.vga_charmap) g /\ w'.(WIN.yChar) = w.(WIN.yChar).
Proof.
  intros [(Hc & Hv & Hy) Hm Hf] Hg. destruct g; cbn in Hg; try done.
  - cbn [font_call]. unfold set_text_charmap. rewrite Hg. eexists. split; [done|]. cbn.
    rewrite take_ge by lia. split; [|done]. constructor; [by repeat split|done|].
    intros c Hcc H0. change (nth0 (replicate 256 1) c = 0) in H0.
    unfold nth0, nthZ in H0. rewrite (proj2 (Z.leb_le 0 c)), lookup_replicate_2 in H0 by lia. done.
  - destruct (nthZ_is_Some w.(WIN.vga_charmap) address ltac:(lia)) as [x Hx].
    assert (0 <= address >>. 5 < 256) as Ha.
    { rewrite Z.shiftr_div_pow2 by done. split; [apply Z.div_pos|apply Z.div_lt_upper_bound]; lia. }
    destruct (nthZ_is_Some w.(WIN.char_changed) (address >>. 5) ltac:(lia)) as [y Hy'].
    exists (w <| WIN.vga_charmap ::= fun l => updZ l address data |>
              <| WIN.char_changed ::= fun l => updZ l (address >>. 5) 1 |> <| WIN.charmap_updated := 1 |>).
    split; [|split; [|done]].
    + cbn [font_call]. unfold set_text_charbyte, mbind, M_bind, upd_at. rewrite Hx. cbn. by rewrite Hy'.
    + constructor; cbn; [unfold fonts_wf; cbn; by rewrite ?length_updZ|by rewrite length_updZ|].
      intros c Hcc H0. unfold font_of. cbn. destruct (decide (address >>. 5 = c)) as [<-|Hne].
      * by rewrite nth0_updZ_eq in H0 by lia.
      * rewrite font_data_updZ by done. rewrite nth0_updZ_ne in H0 by done. by apply Hf.
Qed.

Lemma font_calls_run lg l w : fonts_inv lg w -> Forall font_call_ok l -> exists w',
  foreach l font_call w = Ok tt w' /\ fonts_inv lg w' /\
  w'.(WIN.vga_charmap) = foldl charmap_after w.(WIN.vga_charmap) l /\ w'.(WIN.yChar) = w.(WIN.yChar).
Proof.
  revert w. induction l as [|g l IH]; intros w Hw Hl; [by exists w|]. apply Forall_cons in Hl as [Hg Hl].
  destruct (font_call_run lg g w Hw Hg) as (w1 & Hrun & Hw1 & Hm & Hy).
  destruct (IH w1 Hw1 Hl) as (w2 & Hrun2 & Hw2 & Hm2 & Hy2).
  exists w2. cbn [foreach]. rewrite (run_bind _ _ _ _ _ Hrun), Hm2, Hy2, Hm, Hy. done.
Qed.

(** Loading keeps the invariant, clears the marks of the list and sets none. *)
Lemma fonts_loaded_inv lg l w : fonts_inv lg w -> (forall c, c ∈ l -> 0 <= c < 256) ->
  fonts_inv lg (fonts_loaded lg l w) /\
  (forall c, 0 <= c < 256 -> c ∈ l \/ nth0 w.(WIN.char_changed) c = 0 ->
   nth0 (fonts_loaded lg l w).(WIN.char_changed) c = 0).
Proof.
  revert w. induction l as [|b l IH]; intros w Hw Hl; [split; [done|]; by intros c _ [?%not_elem_of_nil|]|].
  pose proof Hw as [(Hc & Hv & Hy) Hm Hf]. pose proof (Hl b ltac:(left)) as Hb.
  unfold fonts_loaded. cbn [foldl]. set (w1 := if nz _ then _ else w). fold (fonts_loaded lg l w1).
  assert (fonts_inv lg w1 /\ nth0 w1.(WIN.char_changed) b = 0 /\
          forall c, nth0 w.(WIN.char_changed) c = 0 -> nth0 w1.(WIN.char_changed) c = 0) as (Hw1 & Hb1 & Hz).
  { unfold w1. destruct (nz _) eqn:Hn.
    - cbn. split; [|split; [apply nth0_updZ_eq; lia|]].
      + constructor; cbn; [unfold fonts_wf; cbn; by rewrite ?length_updZ|done|]. intros c Hcc H0.
        destruct (decide (b = c)) as [<-|Hne]; [by rewrite nthZ_updZ_eq by lia|].
        rewrite nthZ_updZ_ne by done. rewrite nth0_updZ_ne in H0 by done. by apply Hf.
      + intros c H0. destruct (decide (b = c)) as [<-|Hne]; [apply nth0_updZ_eq; lia|by rewrite nth0_updZ_ne].
    - split; [done|]. split; [|done]. by apply negb_false_iff, Z.eqb_eq in Hn. }
  destruct (IH w1 Hw1) as [Hi Hi']; [intros; apply Hl; by right|]. split; [done|].
  intros c Hcc Hor. apply Hi'; [done|]. destruct (decide (c = b)) as [->|]; [by right|].
  destruct Hor as [[?|?]%elem_of_cons|]; [done|by left|right; by apply Hz].
Qed.

(** Whatever bytes and whole maps of characters the adapter has sent, after the fonts
    are loaded every one of the 256 bitmaps is that of the bytes sent last, the ninth
    column included. *)
Theorem set_font_follows lg l w : fonts_inv lg w -> Forall font_call_ok l ->
  exists w', (foreach l font_call ;; set_font lg) w = Ok tt w' /\
  w'.(WIN.vga_charmap) = foldl charmap_after w.(WIN.vga_charmap) l /\
  forall c, 0 <= c < 256 ->
  nthZ w'.(WIN.vgafont) c = Some (font_data lg w.(WIN.yChar) w'.(WIN.vga_charmap) c).
Proof.
  intros Hw Hl. destruct (font_calls_run lg l w Hw Hl) as (w1 & Hrun & Hw1 & Hm & Hy).
  rewrite (run_bind _ _ _ _ _ Hrun), (set_font_run lg w1 (inv_wf _ _ Hw1)).
  destruct (fonts_loaded_inv lg (seqZ 0 256) w1 Hw1) as [Hi Hz]; [intros c ?%elem_of_seqZ; lia|].
  eexists. split; [done|]. destruct (fonts_loaded_frame lg (seqZ 0 256) w1) as (vf & cc & Hf).
  split; [by rewrite Hf|]. intros c Hc. rewrite (inv_font _ _ Hi c Hc).
  - unfold font_of. by rewrite Hf, <- Hy.
  - apply Hz; [done|]. left. apply elem_of_seqZ. lia.
Qed.

(** ** The adapter and the window *)

(** The window is given the adapter's memory and its snapshot. *)
Definition window_of (v : VgaCore.t) (w : WIN.t) : WIN.t :=
  w <| WIN.new_text := v.(VgaCore.memory) |> <| WIN.memsize := v.(VgaCore.memsize) |>
    <| WIN.old_text := v.(VgaCore.text_snapshot) |>.

(** What the two sides write into the snapshot is the same. *)
Lemma text_snapshot_agrees cursor tm s s' w : 0 <= cursor ->
  VgaDraw.text_update_common cursor tm s = Ok tt s' ->
  s'.(Machine.VgaCore).(VgaCore.text_snapshot) = (started cursor tm (window_of s.(Machine.VgaCore) w)).(WIN.old_text).
Proof.
  intros Hc. destruct (started_frame cursor tm (window_of s.(Machine.VgaCore) w)) as (vf & cc & cu & ti & ->). cbn.
  unfold VgaDraw.text_update_common, gui, when. destruct (cursor <? 0xffff) eqn:Hlt; [|by intros [= <-]].
  unfold mem_load, get_vga, upd_vga, mbind, M_bind, gets. destruct (_ && _); [|done]. by intros [= <-].
Qed.

(** The calls of the adapter, in the window. *)
Definition window_call (fuel : nat) (g : gui_call) : W unit :=
  match g with
  | gui_dimension_update x y fheight fwidth _ => dimension_update x y fheight fwidth
  | gui_text_update cursor_address tm => _ ← text_update_common fuel cursor_address tm; done_
  | _ => font_call g
  end.

(** A window of 16 by 32 points, two cells of 8 by 16 in two rows, black on black. *)
Definition demo_window : WIN.t :=
  {| WIN.guest_fwidth := 8; WIN.guest_fheight := 16; WIN.guest_xres := 16; WIN.guest_yres := 32;
     WIN.vga_charmap := replicate 0x2000 0; WIN.charmap_updated := 0; WIN.char_changed := replicate 256 0;
     WIN.new_text_api := 1; WIN.tm_info := TMINFO.zero <| TMINFO.line_compare := 0x3ff |>; WIN.snapshot_mode := 0;
     WIN.snapshot_buffer := None; WIN.yChar := 16; WIN.vgafont := replicate 256 (replicate 64 0); WIN.UIinited := 1;
     WIN.new_text := {[0 := 65; 2 := 66]}; WIN.memsize := 0x40000; WIN.old_text := ∅;
     WIN.bitmaps := [DRAW.mk 0 0 0 8 16 0 0 0 0; DRAW.mk 0 0 14 8 2 0 0 0 0; DRAW.mk 0 8 0 8 16 0 0 0 0] |}.
Definition demo_tm : TMINFO.t :=
  {| TMINFO.start_address := 0; TMINFO.cs_start := 14; TMINFO.cs_end := 15; TMINFO.line_offset := 4;
     TMINFO.line_compare := 0x3ff; TMINFO.h_panning := 0; TMINFO.v_panning := 0; TMINFO.line_graphics := 0;
     TMINFO.split_hpanning := 0; TMINFO.blink_flags := 0; TMINFO.actl_palette := seqZ 0 16 |}.

Ltac concrete := unfold up, fonts_wf; repeat match goal with |- _ /\ _ => split end; by vm_compute.

Lemma demo_plain : plain demo_window demo_tm.
Proof. constructor; [constructor; concrete|concrete..]. Qed.


(** Split, panned and blinking, it ends. *)
Lemma text_update_returns_witness : exists tm' l,
  text_update_common 512 4 (demo_tm <| TMINFO.line_compare := 20 |> <| TMINFO.v_panning := 3 |>
    <| TMINFO.h_panning := 2 |> <| TMINFO.blink_flags := 7 |>) demo_window =
  Ok tm' (paint l (started 4 (demo_tm <| TMINFO.line_compare := 20 |> <| TMINFO.v_panning := 3 |>
    <| TMINFO.h_panning := 2 |> <| TMINFO.blink_flags := 7 |>) demo_window)).
Proof.
  apply text_update_returns; [constructor; concrete|lia|concrete..|lia].
Defined.

(** A guest's text mode of 1024 lines, characters of two and the split at line ten. *)
Definition short_text : IO unit :=
  outb 0x3c2 0x63 ;;
  foreach [(0, 0x03); (1, 0x01); (2, 0x03); (3, 0x00); (4, 0x02)] (fun r => set_indexed 0x3c4 r.1 r.2) ;;
  foreach (zip (seqZ 0 25) [0x5f; 0x4f; 0x50; 0x82; 0x54; 0x80; 0xbf; 0x43; 0x00; 0x01; 0x20; 0x00; 0x00; 0x00;
    0x00; 0x00; 0x9c; 0x0e; 0xff; 0x28; 0x1f; 0x96; 0xb9; 0xa3; 0x0a]) (fun r => set_indexed 0x3d4 r.1 r.2) ;;
  foreach [(5, 0x10); (6, 0x0e); (7, 0x00); (8, 0xff)] (fun r => set_indexed 0x3ce r.1 r.2) ;;
  _ ← VgaCorePortIoReadHandler 0x3da 1;
  outb 0x3c0 0x10 ;; outb 0x3c0 0x00 ;; outb 0x3c0 0x20 ;;
  _VgaCoreMMIOWriteHandler 0xb8000 0x41.
Definition short_calls : list gui_call := rev (vga_of (short_text ;; VgaCoreUpdate)).(Machine.Gui).
(** The window when the text is to be drawn, and the attributes it is given. *)
Definition short_window : WIN.t :=
  match foreach (removelast short_calls) (window_call 0) (window_of (vga_of short_text).(Machine.VgaCore) demo_window) with
  | Ok _ w => w
  | Fault _ => demo_window
  end.
Definition short_tm : TMINFO.t :=
  match last short_calls with Some (gui_text_update _ tm) => tm | _ => TMINFO.zero end.

Lemma short_text_called : last short_calls = Some (gui_text_update 0 short_tm) /\
  short_window.(WIN.guest_fheight) = 2 /\ short_window.(WIN.guest_yres) = 1024 /\ short_tm.(TMINFO.line_compare) = 10.
Proof. concrete. Qed.

(** The guest reaches the loop that does not end. *)
Lemma text_update_hangs_witness : text_update_common 4096 0 short_tm short_window = Fault Diverges.
Proof.
  apply text_update_hangs; [constructor; concrete|lia|concrete..].
Defined.

Lemma demo_fonts : fonts_inv true (demo_window <| WIN.char_changed := replicate 256 1 |>).
Proof.
  constructor; [concrete|concrete|]. intros c Hc H0.
  change (nth0 (replicate 256 1) c = 0) in H0.
  unfold nth0, nthZ in H0. rewrite (proj2 (Z.leb_le 0 c)), lookup_replicate_2 in H0 by lia. done.
Qed.
Lemma set_font_follows_witness : exists w',
  (foreach [gui_set_text_charbyte (0xc4 * 32) 0x81] font_call ;; set_font true)
    (demo_window <| WIN.char_changed := replicate 256 1 |>) = Ok tt w' /\
  nthZ w'.(WIN.vgafont) 0xc4 = Some ([0x81; 0x80] ++ replicate 62 0).
Proof.
  destruct (set_font_follows true [gui_set_text_charbyte (0xc4 * 32) 0x81] _ demo_fonts
    ltac:(repeat constructor; cbn; lia)) as (w' & Hrun & Hm & Hf).
  exists w'. split; [exact Hrun|]. rewrite (Hf 0xc4 ltac:(lia)), Hm. by vm_compute.
Defined.

(** The cursor that [draw_char] inverts shows the first lines of the character instead of
    its own: the bitmap is moved, its first line is not. *)
Lemma cursor_shows_first_lines : char_bitmaps 65 7 0 0 0 8 16 0 0 14 15 true =
  [DRAW.mk 65 0 0 8 16 0 0 7 0; DRAW.mk 65 0 14 8 2 0 0 0 7].
Proof. done. Qed.

(** The cursor of the first cell stays when it has moved on. *)
Lemma cursor_left_behind : exists w', text_update_common 10 4 demo_tm (demo_window <| WIN.new_text := ∅ |>) = Ok demo_tm w' /\
  cell_shown w' 0 0 = [DRAW.mk 0 0 0 8 16 0 0 0 0; DRAW.mk 0 0 14 8 2 0 0 0 0].
Proof. eexists. split; [vm_compute; reflexivity|]. by vm_compute. Qed.
