(* ===== verification/Devices.v ===== *)
(** The devices together.

    The handler tables of Registry.v, Timer.v and PciConf.v hold tags; this file says
    which C function each tag stands for, and so closes the program: the three
    interfaces get their instances, over the driver, the files of the host and its
    calendar. *)

From S2P Require Export Keys AtaPorts VgaDraw.
From S2P Require Export Hpet AcpiPm I440fxDev Piix3Dev IdeDma FlashRom Ports Cmos Dma Vhd.

Section Handlers.
Context `{!Driver, !Calendar, !Win32}.

(** The handlers of configuration writes.  Only the power management's calls back into
    the dispatch, for its own base address registers: the second call ends at once, so
    that two levels are enough ([conf_levels]). *)
Definition conf_handler (callbacks : ConfCallbacks) : ConfCallbacks := fun h k Address Value Length =>
  match h with
  | cc_I440fx => I440fxPciConfWriteHandler k Address Value Length
  | cc_Piix3 => Piix3PciConfWriteHandler k Address Value Length
  | cc_Ide => IdePciConfWriteHandler k Address Value Length
  | cc_Acpi => @AcpiPciConfWriteHandler _ callbacks k Address Value Length
  | cc_Vga => VgaWritePciConfHandler k Address Value Length
  end.
Definition conf_level (n : nat) : ConfCallbacks := Nat.iter n conf_handler (fun _ _ _ _ _ => stop Diverges).
#[export] Instance devices_conf : ConfCallbacks := conf_level 2.

#[export] Instance devices_timers : TimerCallbacks := fun h Param =>
  match h with
  | fn_PitTimerHandler => PitTimerHandler Param
  | fn_ApicTimerHandler => ApicTimerHandler Param
  | fn_HpetTimerHandler => HpetTimerHandler Param
  | fn_CmosUipTimer => CmosUipTimer
  | fn_AcpiTimerHandler => AcpiTimerHandler
  | fn_IdeTimerHandler => IdeTimerHandler
  | fn_Ps2TimerHandler => Ps2TimerHandler Param
  | fn_VgaCoreTimerHandler => VgaCoreTimerHandler
  | fn_handle_events => handle_events
  end.

(** The port table holds only port handlers, the page table only page handlers: a tag of
    the other kind would be a pointer of the wrong type. *)
Definition port_read_handler (cb : Callback) (Address Length : Z) : IO Z :=
  match cb with
  | cb_Dma => DmaPortIoReadHandler Address Length
  | cb_Pic => PicPortIoReadHandler Address Length
  | cb_Pit => PitReadHandler Address Length
  | cb_Cmos => CmosPortIoReadHandler Address Length
  | cb_Ps2 => Ps2PortIoReadHandler Address Length
  | cb_I440fx => I440fxPortIoReadHandler Address Length
  | cb_Piix3 => Piix3PortIoReadHandler Address Length
  | cb_Ide => IdePortIoReadHandler Address Length
  | cb_Acpi => AcpiReadPortIoHandler Address Length
  | cb_Serial => SerialPortIoReadHandler Address Length
  | cb_Parallel => ParallelPortIoReadHandler Address Length
  | cb_Bios => BiosReadHandler Address Length
  | cb_HardDisk => HardDiskPortIoReadHandler Address Length
  | cb_Vga => VgaCorePortIoReadHandler Address Length
  | cb_VgaVbe => VgaVbePortIoReadHandler Address Length
  | cb_IoApic | cb_Apic | cb_Hpet | cb_Flash | cb_VgaMmio => stop Indeterminate
  end.
Definition port_write_handler (cb : Callback) (Address Value Length : Z) : IO unit :=
  match cb with
  | cb_Dma => DmaPortIoWriteHandler Address Value Length
  | cb_Pic => PicPortIoWriteHandler Address Value Length
  | cb_Pit => PitWriteHandler Address Value Length
  | cb_Cmos => CmosPortIoWriteHandler Address Value Length
  | cb_Ps2 => Ps2PortIoWriteHandler Address Value Length
  | cb_I440fx => I440fxPortIoWriteHandler Address Value Length
  | cb_Piix3 => Piix3PortIoWriteHandler Address Value Length
  | cb_Ide => IdePortIoWriteHandler Address Value Length
  | cb_Acpi => AcpiWritePortIoHandler Address Value Length
  | cb_Serial => SerialPortIoWriteHandler Address Value Length
  | cb_Parallel => ParallelPortIoWriteHandler Address Value Length
  | cb_Bios => BiosWriteHandler Address Value Length
  | cb_HardDisk => HardDiskPortIoWriteHandler Address Value Length
  | cb_Vga => VgaPortIoWriteHandler Address Value Length
  | cb_VgaVbe => VgaVbePortIoWriteHandler Address Value Length
  | cb_IoApic | cb_Apic | cb_Hpet | cb_Flash | cb_VgaMmio => stop Indeterminate
  end.
Definition mmio_read_handler (cb : Callback) (Address : Z) (Data : list Z) (Length : Z) : IO (list Z) :=
  match cb with
  | cb_IoApic => IoApicMMIOReadHandler Address Data Length
  | cb_Apic => ApicMMIOReadHandler Address Data Length
  | cb_Hpet => HpetReadMmioHandler Address Data Length
  | cb_Flash => FlashReadMmioHandler Address Data Length
  | cb_VgaMmio => VgaCoreMMIOReadHandler Address Data Length
  | _ => stop Indeterminate
  end.
Definition mmio_write_handler (cb : Callback) (Address : Z) (Data : list Z) (Length : Z) : IO unit :=
  match cb with
  | cb_IoApic => IoApicMMIOWriteHandler Address Data Length
  | cb_Apic => ApicMMIOWriteHandler Address Data Length
  | cb_Hpet => HpetWriteMmioHandler Address Data Length
  | cb_Flash => FlashWriteMmioHandler Address Data Length
  | cb_VgaMmio => VgaCoreMMIOWriteHandler Address Data Length
  | _ => stop Indeterminate
  end.
#[export] Instance devices_ports : PortCallbacks := {|
  port_read := port_read_handler; port_write := port_write_handler;
  mmio_read := mmio_read_handler; mmio_write := mmio_write_handler
|}.

(** Two levels are enough: the write of a base address register reaches no handler that
    calls back, so that with more levels the handlers do the same. *)
Lemma conf_levels n h k Address Value Length s :
  conf_level (S (S n)) h k Address Value Length s = conf_write h k Address Value Length s.
Proof. by destruct h. Qed.
End Handlers.
