(* ===== verification/Bystanders.v ===== *)
(** What a device does to the others.

    Every device but the 8259s is a bystander of theirs: its handlers reach the 8259s only
    through [PicRaiseIrq], [PicLowerIrq] and the edge/level registers, never take back a pending interrupt or the
    request of a window, and, the configuration ports apart, leave the handler tables
    alone.  A relation between machines that allows this relates the machines before and
    after every handler. *)

From S2P Require Export Devices.

(** What the relation must allow. *)
Class Bystander `{!Driver} (R : Machine.t -> Machine.t -> Prop) : Prop := {
  by_irq : IrqSafe R;
  by_frame s s' : s'.(Machine.Pic) = s.(Machine.Pic) -> s'.(Machine.Pci) = s.(Machine.Pci) ->
    s'.(Machine.svmm_events) = s.(Machine.svmm_events) ->
    s'.(Machine.kvm_run).(kvm_run.request_interrupt_window) = s.(Machine.kvm_run).(kvm_run.request_interrupt_window) ->
    R s s';
  by_edge_level Master EdgeLevel : Within R (PicSetMode Master EdgeLevel);
  by_set_event e : Within R (set_event e);
  by_clear_lapic : Within R (clear_event EVENT_PENDING_LAPIC_INTR);
  by_clear_dma : Within R (clear_event EVENT_DMA);
  by_request_window : Within R request_window
}.

(** The lookups only read the tables. *)
Lemma pure_zoom {A} (p : Machine.t -> RTL_BITMAP.t) `{!Field p} (m : M RTL_BITMAP.t A) :
  (forall s, upd_field p (fun _ => p s) s = s) -> Within eq m -> Within eq (zoom p m).
Proof.
  intros Hp Hm s. unfold wlp, zoom. specialize (Hm (p s)). unfold wlp in Hm.
  destruct (m (p s)); [|done]. by rewrite <- Hm, Hp.
Qed.
Lemma pure_test n : Within eq (Bitmap.RtlTestBit n).
Proof. unfold Bitmap.RtlTestBit, Bitmap.word. apply _. Qed.

Lemma port_bitmap_same s : upd_field PortIoBitmap (fun _ => PortIoBitmap s) s = s.
Proof. destruct s. match goal with p : PCI_STATE.t |- _ => by destruct p end. Qed.
Lemma page_bitmap_same s : upd_field MMIOBitmap (fun _ => MMIOBitmap s) s = s.
Proof. destruct s. match goal with p : PCI_STATE.t |- _ => by destruct p end. Qed.

Lemma pure_port_handler table a : Within eq (port_handler table a).
Proof.
  unfold port_handler. apply within_bind; [apply _| |intros []; cbn; apply _].
  apply within_if; [apply _|]. apply pure_zoom; [apply port_bitmap_same|apply pure_test].
Qed.
Lemma pure_mmio_handler table a : Within eq (mmio_handler table a).
Proof.
  unfold mmio_handler. cbv zeta. apply within_bind; [apply _| |intros []; cbn; apply _].
  apply within_if; [apply _|]. apply pure_zoom; [apply page_bitmap_same|apply pure_test].
Qed.

Lemma pure_within {A} (R : Machine.t -> Machine.t -> Prop) `{!PreOrder R} (m : IO A) : Within eq m -> Within R m.
Proof. intros Hm s. eapply wlp_mono; [|apply Hm]. intros _ ? ->. reflexivity. Qed.

Section Bystanders.
Context `{!Driver, !Calendar, !Win32} (R : Machine.t -> Machine.t -> Prop) `{!Bystander R}.

#[local] Existing Instances by_irq by_set_event by_clear_lapic by_clear_dma by_request_window.
#[local] Instance by_preorder : PreOrder R := irq_preorder.
#[local] Instance by_ioapic : IoApicFootprint R.
Proof. split; [split; try apply _; intros; by apply by_frame|intros; by apply by_frame]. Qed.

(** Handlers are taken apart down to their stores. *)
Ltac by_step :=
  lazymatch goal with
  | |- Within _ (match ?x with _ => _ end) => destruct x
  | |- Within _ (let _ := _ in _) => cbv zeta
  | |- Within _ ((fun _ => _) _) => cbv beta
  | |- Within _ (_ ≫= _) => apply within_bind; [apply by_preorder| |intros ?]
  | |- Within _ (when _ _) => apply within_when; [apply by_preorder|]
  | |- Within _ (foreach _ _) => apply within_foreach; [apply by_preorder|intros ?]
  | |- Within _ (modify _) => apply within_modify; intros; apply by_frame; reflexivity
  | |- Within _ (upd_at _ _ _) => apply within_upd_at; intros; apply by_frame; reflexivity
  | |- Within _ (mret _) => apply within_ret, by_preorder
  | |- Within _ (stop _) => apply within_stop
  | |- Within _ done_ => apply within_done, by_preorder
  | |- Within _ (gets _) => apply within_gets, by_preorder
  | |- Within _ (at_ _ _) => apply within_at, by_preorder
  | |- Within _ (of_option _ _) => apply within_of_option, by_preorder
  | |- Within _ (shl1 _) => apply within_shl1, by_preorder
  | |- Within _ (shr32 _ _) => apply within_shr32, by_preorder
  | |- Within _ (shr64 _ _) => apply within_shr64, by_preorder
  | |- Within _ (shl64 _ _) => apply within_shl64, by_preorder
  | |- Within _ (divu _ _) => apply within_divu, by_preorder
  | |- Within _ (modu _ _) => apply within_modu, by_preorder
  | |- Within _ (PicRaiseIrq _) => apply irq_raise
  | |- Within _ (PicLowerIrq _) => apply irq_lower
  | |- Within _ (PicSetMode _ _) => apply by_edge_level
  | |- Within _ (set_event _) => apply by_set_event
  | |- Within _ request_window => apply by_request_window
  end.
(** A handler is unfolded unless a lemma about it is known. *)
Create HintDb bystander.
Ltac head_of t := match t with ?f _ => head_of f | _ => t end.
Ltac by_unfold := lazymatch goal with |- Within _ ?m => let h := head_of m in unfold h end.
Ltac by_go := repeat first [by_step|assumption|solve [auto 2 with bystander nocore]|by_unfold].

#[local] Instance by_timers : TimerSafe R.
Proof. split; intros; by_go. Qed.

Ltac by_field := intros; apply by_frame; reflexivity.
Ltac by_known := apply _ || by_field.

Lemma by_DeviceIoControl r : Within R (DeviceIoControl r).
Proof. by_go. Qed.
Lemma by_IoApicRaiseIrq n : Within R (IoApicRaiseIrq n).
Proof. apply _. Qed.
Lemma by_IoApicLowerIrq n : Within R (IoApicLowerIrq n).
Proof. apply _. Qed.
#[local] Instance by_apic : ApicFootprint R := fp_apic.
Lemma by_deliver v d dm m r t : Within R (ApicBusDeliverInterrupt v d dm m r t).
Proof. apply _. Qed.
Lemma by_send_ipi v d dm m r t h : Within R (ApicSendIpi v d dm m r t h).
Proof. apply _. Qed.
Lemma by_ApicService i : Within R (ApicService i).
Proof. apply _. Qed.
Lemma by_ApicSetIrq i v t : Within R (ApicSetIrq i v t).
Proof. apply _. Qed.
Lemma by_eoi v : Within R (IoApicReceiveEndOfInterrupt v).
Proof. intros s. unfold wlp. rewrite eoi_run. by apply by_frame. Qed.
#[local] Hint Resolve by_eoi by_DeviceIoControl by_IoApicRaiseIrq by_IoApicLowerIrq by_deliver by_send_ipi by_ApicService
  by_ApicSetIrq : bystander.

(** ** Ports *)

Lemma by_PicRead a n : Within R (PicPortIoReadHandler a n).
Proof. by_go. Qed.
Lemma by_PitRead a n : Within R (PitReadHandler a n).
Proof. apply PitReadHandler_within; by_known. Qed.
Lemma by_PitWrite a v n : Within R (PitWriteHandler a v n).
Proof. apply PitWriteHandler_within; by_known. Qed.
Lemma by_CmosRead a n : Within R (CmosPortIoReadHandler a n).
Proof. apply CmosPortIoReadHandler_within; by_known. Qed.
Lemma by_CmosWrite a v n : Within R (CmosPortIoWriteHandler a v n).
Proof. apply CmosPortIoWriteHandler_within; by_known. Qed.
Lemma by_DmaRead a n : Within R (DmaPortIoReadHandler a n).
Proof. apply DmaPortIoReadHandler_within; by_known. Qed.
Lemma by_DmaWrite a v n : Within R (DmaPortIoWriteHandler a v n).
Proof. apply DmaPortIoWriteHandler_within; by_known. Qed.
Lemma by_Ps2Read a n : Within R (Ps2PortIoReadHandler a n).
Proof. apply Ps2PortIoReadHandler_within; by_known. Qed.
Lemma by_Ps2Write a v n : Within R (Ps2PortIoWriteHandler a v n).
Proof. apply Ps2PortIoWriteHandler_within; by_known. Qed.
Lemma by_read_conf c o l v : Within R (read_conf c o l v : IO Z).
Proof. revert v. induction l; intros; by_go. Qed.
#[local] Hint Resolve by_read_conf : bystander.
Lemma by_I440fxRead a n : Within R (I440fxPortIoReadHandler a n).
Proof. by_go. Qed.
(** Only the data ports of the configuration mechanism reach the tables. *)
Lemma by_I440fxWrite a v n : is_data_port a = false -> Within R (I440fxPortIoWriteHandler a v n).
Proof. intros Ha. unfold I440fxPortIoWriteHandler. rewrite Ha. by_go. Qed.
Lemma by_Piix3Read a n : Within R (Piix3PortIoReadHandler a n).
Proof. by_go. Qed.
Lemma by_Piix3Write a v n : Within R (Piix3PortIoWriteHandler a v n).
Proof. by_go. Qed.
Lemma by_IdeRead a n : Within R (IdePortIoReadHandler a n).
Proof. by_go. Qed.
Lemma by_IdeWrite a v n : Within R (IdePortIoWriteHandler a v n).
Proof. by_go. Qed.
Lemma by_AcpiRead a n : Within R (AcpiReadPortIoHandler a n).
Proof. by_go. Qed.
Lemma by_AcpiWrite a v n : Within R (AcpiWritePortIoHandler a v n).
Proof. by_go. Qed.
Lemma by_BiosWrite a v n : Within R (BiosWriteHandler a v n).
Proof. by_go. Qed.

(** ** Memory and timers *)

Lemma by_IoApicRead a d n : Within R (IoApicMMIOReadHandler a d n).
Proof. by_go. Qed.
Lemma by_IoApicWrite a d n : Within R (IoApicMMIOWriteHandler a d n).
Proof. by_go. Qed.
Lemma by_ApicRead a d n : Within R (ApicMMIOReadHandler a d n).
Proof. by_go. Qed.
Lemma by_ApicWrite a d n : Within R (ApicMMIOWriteHandler a d n).
Proof. by_go. Qed.
Lemma by_HpetRead a d n : Within R (HpetReadMmioHandler a d n).
Proof. apply HpetReadMmioHandler_within; by_known. Qed.
Lemma by_HpetWrite a d n : Within R (HpetWriteMmioHandler a d n).
Proof. apply HpetWriteMmioHandler_within; by_known. Qed.
Lemma by_FlashRead a d n : Within R (FlashReadMmioHandler a d n).
Proof. by_go. Qed.
Lemma by_FlashWrite a d n : Within R (FlashWriteMmioHandler a d n).
Proof. by_go. Qed.
Lemma by_PitTimer p : Within R (PitTimerHandler p).
Proof. apply PitTimerHandler_within; by_known. Qed.
Lemma by_ApicTimer p : Within R (ApicTimerHandler p).
Proof. by_go. Qed.
Lemma by_HpetTimer p : Within R (HpetTimerHandler p).
Proof. apply HpetTimerHandler_within; by_known. Qed.
Lemma by_CmosTimer : Within R CmosUipTimer.
Proof. apply CmosUipTimer_within; by_known. Qed.
Lemma by_AcpiTimer : Within R AcpiTimerHandler.
Proof. by_go. Qed.
Lemma by_Ps2Timer p : Within R (Ps2TimerHandler p).
Proof. apply Ps2TimerHandler_within; by_known. Qed.
Lemma by_drain n : Within R (drain n).
Proof. induction n; by_go. Qed.
#[local] Hint Resolve by_drain : bystander.
Lemma by_handle_events : Within R handle_events.
Proof. by_go. Qed.

(** ** The disks *)

Lemma by_walk l n g k p e : Within R (walk l n g k p e).
Proof. revert p e. induction k; intros; by_go. Qed.
Lemma by_disk_size : Within R disk_size.
Proof. change (Within R VhdGetHardDiskSize). by_go. Qed.
Lemma by_disk_seek p : Within R (disk_seek p).
Proof. change (Within R (VhdSeek p)). by_go. Qed.
Lemma by_disk_read p n : Within R (disk_read p n).
Proof. change (Within R (VhdRead p n)). by_go. Qed.
Lemma by_disk_write p n : Within R (disk_write p n).
Proof. change (Within R (VhdWrite p n)). by_go. Qed.
#[local] Hint Resolve by_disk_size by_disk_seek by_disk_read by_disk_write : bystander.
Lemma by_write_sectors n c d i : Within R (write_sectors n c d i).
Proof. revert i. induction n; intros; by_go. Qed.
Lemma by_read_sectors n c d i : Within R (read_sectors n c d i).
Proof. revert i. induction n; intros; by_go. Qed.
#[local] Hint Resolve by_walk by_write_sectors by_read_sectors : bystander.
Lemma by_bmdma_read c p n : Within R (IdeDma.HardDiskBmdmaReadSector c p n).
Proof. change (Within R (HardDisk.HardDiskBmdmaReadSector c p n)). by_go. Qed.
Lemma by_bmdma_write c p n : Within R (IdeDma.HardDiskBmdmaWriteSector c p n).
Proof. change (Within R (HardDisk.HardDiskBmdmaWriteSector c p n)). by_go. Qed.
Lemma by_bmdma_complete c : Within R (IdeDma.HardDiskBdmaComplete c).
Proof. change (Within R (HardDisk.HardDiskBdmaComplete c)). by_go. Qed.
#[local] Hint Resolve by_bmdma_read by_bmdma_write by_bmdma_complete : bystander.
Lemma by_transfer_loop n c k i : Within R (transfer_loop n c k i).
Proof. revert i. induction n; intros; by_go. Qed.
#[local] Hint Resolve by_transfer_loop : bystander.
Lemma by_IdeTimer : Within R IdeTimerHandler.
Proof. by_go. Qed.
Lemma by_HardDiskRead a n : Within R (HardDiskPortIoReadHandler a n).
Proof. by_go. Qed.
Lemma by_HardDiskWrite a v n : Within R (HardDiskPortIoWriteHandler a v n).
Proof. by_go. Qed.

(** ** The display adapter *)

Lemma by_VgaRead a n : Within R (VgaCorePortIoReadHandler a n).
Proof. by_go. Qed.
Lemma by_VgaWrite a v n : Within R (VgaPortIoWriteHandler a v n).
Proof. by_go. Qed.
Lemma by_vga_read_bytes l a d : Within R (vga_read_bytes l a d).
Proof. revert d. induction l; intros; by_go. Qed.
#[local] Hint Resolve by_vga_read_bytes : bystander.
Lemma by_VgaMmioRead a d n : Within R (VgaCoreMMIOReadHandler a d n).
Proof. by_go. Qed.
Lemma by_VgaMmioWrite a d n : Within R (VgaCoreMMIOWriteHandler a d n).
Proof. by_go. Qed.
Lemma by_VgaTimer : Within R VgaCoreTimerHandler.
Proof. by_go. Qed.

(** ** Dispatch *)


Lemma by_port_read cb a n : Within R (port_read cb a n).
Proof.
  destruct cb; cbn [port_read devices_ports port_read_handler];
    auto using by_PicRead, by_PitRead, by_CmosRead, by_DmaRead, by_Ps2Read, by_I440fxRead, by_Piix3Read, by_IdeRead,
      by_AcpiRead, by_HardDiskRead, by_VgaRead; by_go.
Qed.
(** The two handlers that reach the 8259s and the tables. *)
Lemma by_port_write cb a v n : cb <> cb_Pic -> (cb = cb_I440fx -> is_data_port a = false) ->
  Within R (port_write cb a v n).
Proof.
  intros Hpic Hpci. destruct cb; cbn [port_write devices_ports port_write_handler];
    auto using by_PitWrite, by_CmosWrite, by_DmaWrite, by_Ps2Write, by_I440fxWrite, by_Piix3Write, by_IdeWrite,
      by_AcpiWrite, by_HardDiskWrite, by_VgaWrite, by_BiosWrite; [done|by_go..].
Qed.
Lemma by_mmio_read cb a d n : Within R (mmio_read cb a d n).
Proof.
  destruct cb; cbn [mmio_read devices_ports mmio_read_handler];
    auto using by_IoApicRead, by_ApicRead, by_HpetRead, by_FlashRead, by_VgaMmioRead; by_go.
Qed.
Lemma by_mmio_write cb a d n : Within R (mmio_write cb a d n).
Proof.
  destruct cb; cbn [mmio_write devices_ports mmio_write_handler];
    auto using by_IoApicWrite, by_ApicWrite, by_HpetWrite, by_FlashWrite, by_VgaMmioWrite; by_go.
Qed.
Lemma by_run_handler h p : Within R (run_handler h p).
Proof.
  destruct h; unfold run_handler, devices_timers;
    auto using by_PitTimer, by_ApicTimer, by_HpetTimer, by_CmosTimer, by_AcpiTimer, by_IdeTimer, by_Ps2Timer, by_VgaTimer,
      by_handle_events.
Qed.
Lemma by_ReadPort a n : Within R (ReadPortIoHandler a n).
Proof.
  apply within_bind; [apply _|apply pure_within; [apply _|apply pure_port_handler]|]. intros. apply by_port_read.
Qed.
Lemma by_MmioRead a d n : Within R (MmioReadHandler a d n).
Proof.
  apply within_bind; [apply _|apply pure_within; [apply _|apply pure_mmio_handler]|]. intros. apply by_mmio_read.
Qed.
Lemma by_MmioWrite a d n : Within R (MmioWriteHandler a d n).
Proof.
  apply within_bind; [apply _|apply pure_within; [apply _|apply pure_mmio_handler]|]. intros. apply by_mmio_write.
Qed.
(** A write finds its handler in the table of the machine. *)
Lemma by_WritePort a v n s :
  (forall cb, s.(Machine.Pci).(PCI_STATE.WritePortHandlers) !! a = Some cb -> cb <> cb_Pic /\ (cb = cb_I440fx -> is_data_port a = false)) ->
  wlp (WritePortIoHandler a v n) (fun _ s' => R s s') s.
Proof.
  intros Hcb. unfold WritePortIoHandler. apply wlp_Ok. intros [] s' Hrun.
  apply bind_Ok in Hrun as (cb & s1 & Hh & Hrun).
  pose proof (within_run eq _ s cb s1 Hh (Within0 := pure_port_handler _ a)) as <-.
  assert (s.(Machine.Pci).(PCI_STATE.WritePortHandlers) !! a = Some cb) as Hs.
  { revert Hh. unfold port_handler. cbv zeta. intros Hh.
    apply bind_Ok in Hh as (mapped & s2 & Hm & Hh).
    assert (s = s2) as <-.
    { destruct (NUM_HANDLERS <=? a); [by injection Hm|].
      exact (within_run eq _ s mapped s2 Hm (Within0 := pure_zoom _ _ port_bitmap_same (pure_test _))). }
    destruct mapped; cbn [negb] in Hh; [|done]. rewrite (run_bind _ _ _ _ _ (run_gets _ _)) in Hh.
    revert Hh. unfold of_option, handler. destruct (_ !! a) as [h|]; [|done]. by intros [= ->]. }
  destruct (Hcb cb Hs) as [Hpic Hpci]. exact (within_run R _ s tt s' Hrun (Within0 := by_port_write cb a v n Hpic Hpci)).
Qed.
#[local] Hint Resolve by_run_handler : bystander.
Lemma by_tick_loop n i : Within R (TimerTick_loop n i).
Proof. revert i. induction n; intros; by_go. Qed.
#[local] Hint Resolve by_tick_loop : bystander.
Lemma by_TimerTick n : Within R (TimerTick n).
Proof. by_go. Qed.
End Bystanders.

