(* ===== verification/ExitLoop.v ===== *)
(** SVMM.c: the exits of the guest.

    [main] runs the guest in the driver, and serves the exit that the run ends with.  An
    exit is the part of the shared [struct kvm_run] that its handler reads, with the page
    of port data; [serve] gives back the data that the driver reads on the next run.  The
    program is started without the argument that attaches the debugger. *)

From S2P Require Export Devices Bystanders Memory.

Definition GVM_EXIT_IO_IN : Z := 0.
Definition GVM_EXIT_IO_OUT : Z := 1.
Definition MSR_CORE_PERF_FIXED_CTR0 : Z := 0x00000309.

(** [kvm_run->exit_reason], with the member of the union that belongs to it. *)
Inductive gvm_exit : Set :=
| GVM_EXIT_IO (direction size port count : Z) (pio_data : list Z)
| GVM_EXIT_MMIO (phys_addr : Z) (data : list Z) (len is_write : Z)
| GVM_EXIT_IRQ_WINDOW_OPEN
| GVM_EXIT_SET_TPR (cr8 : list Z)
| GVM_EXIT_NMI
| GVM_EXIT_VMX_TIMER
| GVM_EXIT_DEBUG
| GVM_EXIT_INTR | GVM_EXIT_UNKNOWN | GVM_EXIT_HLT | GVM_EXIT_INTERNAL_ERROR | GVM_EXIT_SHUTDOWN
| GVM_EXIT_WATCHDOG | GVM_EXIT_SYSTEM_EVENT | GVM_EXIT_IOAPIC_EOI | GVM_EXIT_EXCEPTION
| GVM_EXIT_HYPERCALL | GVM_EXIT_FAIL_ENTRY | GVM_EXIT_TPR_ACCESS | GVM_EXIT_OSI
| GVM_EXIT_PAPR_HCALL | GVM_EXIT_EPR | GVM_EXIT_MTF | GVM_EXIT_MSR.

(** One return of the driver: the registers that [SvmmGetRegisters] fetches, and the
    exit. *)
Record gvm_run : Set := { gvm_registers : REGISTERS.t; gvm_reason : gvm_exit }.

(** The DWORD at [pio_data + offset]; the page of port data has [length pio_data] bytes. *)
Definition load_dword (pio_data : list Z) (offset : Z) : IO Z :=
  if offset + 4 <=? Z.of_nat (length pio_data) then mret (le_read 4 (drop (Z.to_nat offset) pio_data))
  else stop OutOfBounds.
Definition store_dword (pio_data : list Z) (offset Value : Z) : IO (list Z) :=
  if offset + 4 <=? Z.of_nat (length pio_data) then
    mret (take (Z.to_nat offset) pio_data ++ le_write 4 Value (drop (Z.to_nat offset) pio_data))
  else stop OutOfBounds.

Section Exits.
Context `{!Driver, !Calendar, !Win32}.

Definition SvmmInterrupt (Vector : Z) : IO unit := _ ← DeviceIoControl (GVM_INTERRUPT Vector); done_.

(** [for (i = 0; i < kvm_run->io.count; i++)] *)
Fixpoint io_in (l : list Z) (size port : Z) (pio_data : list Z) : IO (list Z) :=
  match l with
  | [] => mret pio_data
  | i :: l =>
      Value ← ReadPortIoHandler port size;
      pio_data ← store_dword pio_data (i * size) Value;
      io_in l size port pio_data
  end.
Definition io_out (l : list Z) (size port : Z) (pio_data : list Z) : IO unit :=
  foreach l (fun i =>
    Value ← load_dword pio_data (i * size);
    WritePortIoHandler port Value size).

Definition serve_io (direction size port count : Z) (pio_data : list Z) : IO (list Z) :=
  if direction =? GVM_EXIT_IO_IN then io_in (seqZ 0 count) size port pio_data
  else io_out (seqZ 0 count) size port pio_data ;; mret pio_data.

Definition serve_mmio (phys_addr : Z) (data : list Z) (len is_write : Z) : IO (list Z) :=
  if negb (nz is_write) then MmioReadHandler phys_addr data len
  else MmioWriteHandler phys_addr data len ;; mret data.

(** The guest can take an interrupt: the 8259s go first. *)
Definition serve_window : IO unit :=
  modify (fun s => s <| Machine.kvm_run ::= (fun r => r <| kvm_run.request_interrupt_window := 0 |>) |>) ;;
  svmm_events ← gets Machine.svmm_events;
  if svmm_events &? EVENT_PENDING_INTR then
    vector ← PicIAC; SvmmInterrupt vector
  else if svmm_events &? EVENT_PENDING_LAPIC_INTR then
    vector ← ApicAcknowledgeInterrupt; SvmmInterrupt vector
  else done_.

Definition serve_nmi : IO unit :=
  _ ← DeviceIoControl (GVM_SET_MSRS MSR_CORE_PERF_FIXED_CTR0 (bit 48 - TICK_PERIOD));
  TimerTick TICK_PERIOD.

(** The other exits print their names. *)
Definition serve (e : gvm_exit) : IO (list Z) :=
  match e with
  | GVM_EXIT_IO direction size port count pio_data => serve_io direction size port count pio_data
  | GVM_EXIT_MMIO phys_addr data len is_write => serve_mmio phys_addr data len is_write
  | GVM_EXIT_IRQ_WINDOW_OPEN => serve_window ;; mret []
  | GVM_EXIT_SET_TPR cr8 => ApicMMIOWriteHandler (APIC_DEFAULT_MMIO + LAPIC_TPR) cr8 4 ;; mret []
  | GVM_EXIT_NMI => serve_nmi ;; mret []
  | GVM_EXIT_VMX_TIMER => TimerTick TICK_PERIOD ;; mret []
  | _ => mret []
  end.

Definition SvmmGetRegisters (r : REGISTERS.t) : IO unit :=
  modify (fun s => s <| Machine.Svmm ::= (fun v => v <| SVMM.Registers := r |>) |>).

Definition serve_run (e : gvm_run) : IO (list Z) :=
  SvmmGetRegisters e.(gvm_registers) ;; serve e.(gvm_reason).

(** The loop, over the returns of the driver. *)
Definition main_loop (l : list gvm_run) : IO unit := foreach l (fun e => _ ← serve_run e; done_).
End Exits.

(** ** A pending interrupt of the 8259s

    [shown]: what each controller presents is one of its lines, as it is from the first
    request after the guest has set the vector bases on. *)

Definition shown (s : Machine.t) : Prop :=
  pic_inv s /\ presented (the_pic 0 s) < 8 /\ presented (the_pic 1 s) < 8.
Definition promised (s : Machine.t) : Prop :=
  (s.(Machine.svmm_events) &? EVENT_PENDING_INTR) = true /\
  s.(Machine.kvm_run).(kvm_run.request_interrupt_window) = 1.

Section Shown.
Context `{!Driver}.

Lemma presented_present irq off : 0 <= irq < 8 -> is_u8 off -> u8 (u8 (irq + off) - off) = irq.
Proof.
  intros Hi Ho. unfold u8. rewrite Zminus_mod_idemp_l. replace (irq + off - off) with irq by lia.
  apply Z.mod_small. lia.
Qed.

Lemma pic_index s (A : Type) (m : IO A) i a s' : pic_inv s ->
  (nthZ s.(Machine.Pic) i = None -> exists e, m s = Fault e) -> m s = Ok a s' -> is_pic i.
Proof.
  intros (m0 & sl & Hl & _) Hno Hrun. rewrite Hl in Hno.
  destruct (nthZ [m0; sl] i) eqn:E; [apply nthZ_Some in E; simpl in E; unfold is_pic; lia|].
  destruct (Hno eq_refl) as [e He]. congruence.
Qed.

Lemma shown_upd i f : (forall p, pic_wf p -> pic_wf (f p)) ->
  (forall p, pic_wf p -> presented p < 8 -> presented (f p) < 8) -> Preserves shown (upd_pic i f).
Proof.
  intros Hwf Hf s. apply wlp_Ok. intros [] s' Hrun [Hs [H0 H1]].
  assert (is_pic i) as Hi.
  { apply (pic_index s _ (upd_pic i f) i tt s' Hs); [|done]. intros Hn. unfold upd_pic, upd_at. rewrite Hn. eauto. }
  rewrite upd_pic_run in Hrun by done. injection Hrun as <-. pose proof (the_pic_wf i s Hi Hs) as Hw.
  split; [apply with_pic_inv; auto|].
  assert (is_pic 0) as H0' by (by left). assert (is_pic 1) as H1' by (by right).
  rewrite (the_pic_with i 0 _ s Hi H0' Hs), (the_pic_with i 1 _ s Hi H1' Hs).
  destruct Hi as [-> | ->]; (split; [|]); cbn [Z.eqb Pos.eqb]; first [assumption|by apply Hf].
Qed.

(** The service presents a line of its controller. *)
Lemma shown_present i irq : 0 <= irq < 8 -> Preserves shown (upd_pic i (fun p =>
  p <| PIC.Raised := 1 |> <| PIC.InterruptNumber := u8 (irq + p.(PIC.CurrentOffset)) |>)).
Proof.
  intros Hr. apply shown_upd; [intros p; pic_wf_upd|]. intros p Hp _. unfold presented. cbn.
  rewrite presented_present by (done || apply (wf_offset p Hp)). lia.
Qed.

Lemma shown_same i f : (forall p, pic_wf p -> pic_wf (f p)) ->
  (forall p, presented (f p) = presented p) -> Preserves shown (upd_pic i f).
Proof. intros Hwf Hf. apply shown_upd; [done|]. intros p _. by rewrite Hf. Qed.

Lemma pic_wf_at s i p s' : shown s -> pic i s = Ok p s' -> pic_wf p.
Proof.
  intros [Hs _] Hr. assert (is_pic i) as Hi.
  { apply (pic_index s _ (pic i) i p s' Hs); [|done]. intros Hn. unfold pic, at_. rewrite Hn. eauto. }
  rewrite pic_run in Hr by done. injection Hr as <- _. by apply the_pic_wf.
Qed.

Lemma shown_special_scan i irqs : Forall (fun irq => 0 <= irq < 8) irqs -> Preserves shown (special_mask_scan i irqs).
Proof.
  intros Hi. induction Hi as [|irq irqs Hirq _ IH]; cbn [special_mask_scan]; [apply _|].
  pose proof (shown_present i irq Hirq). unfold special_mask_line, DeviceIoControl, pic. apply _.
Qed.

Lemma shown_body r i : Preserves shown r -> Preserves shown (PicService_body r i).
Proof.
  intros Hr. unfold PicService_body. apply (preserves_bind _ pic_wf); [unfold pic; apply _|intros s p s'; apply pic_wf_at|]. intros p Hp.
  pose proof (wf_priority p Hp) as Hprio. apply within_if.
  { apply shown_special_scan. by repeat (constructor; [lia|]). }
  apply within_if; [|apply _].
  apply (preserves_bind _ (fun irq => 0 <= irq <= p.(PIC.CurrentPriority) + 1)).
  - intros s. unfold wlp. by rewrite nested_scan_spec.
  - intros s irq s' _. rewrite nested_scan_spec by done. intros [= <- <-].
    destruct (first_candidate p) as [k|] eqn:Hk; [apply first_candidate_range in Hk as [? _]|]; simpl; lia.
  - intros irq Hirq. destruct (Z.eqb_spec irq (p.(PIC.CurrentPriority) + 1)); [apply _|].
    pose proof (shown_present i irq ltac:(lia)). unfold pic, request_window, set_event. apply _.
Qed.

Lemma shown_raise f n : (forall i, Preserves shown (f i)) -> Preserves shown (PicRaiseIrq_body f n).
Proof.
  intros Hf. unfold PicRaiseIrq_body.
  assert (forall i irq, Preserves shown (upd_pic i (fun p =>
    p <| PIC.InterruptPin ::= (fun v => u8 (v |. irq)) |> <| PIC.InterruptRequest ::= (fun v => u8 (v |. irq)) |>))).
  { intros. apply shown_same; [intros p; pic_wf_upd|done]. }
  unfold pic. apply _.
Qed.

Lemma shown_service i : Preserves shown (PicService i).
Proof.
  unfold PicService. generalize 3%nat. intros n. revert i.
  induction n; intros i; [apply _|]. apply shown_body, shown_raise, IHn.
Qed.

#[export] Instance shown_safe : IrqSafe (preserves shown).
Proof.
  split; [apply _| |]; intros n; [apply shown_raise, shown_service|].
  unfold PicLowerIrq, pic. assert (forall i irq, Preserves shown (upd_pic i (fun p =>
    p <| PIC.InterruptPin ::= (fun v => u8 (v &. ~. irq)) |> <| PIC.InterruptRequest ::= (fun v => u8 (v &. ~. irq)) |>))).
  { intros. apply shown_same; [intros p; pic_wf_upd|done]. }
  apply _.
Qed.

(** ** The promise of an interrupt window *)

Lemma promised_iff s : promised s <->
  Z.testbit s.(Machine.svmm_events) 10 = true /\ s.(Machine.kvm_run).(kvm_run.request_interrupt_window) = 1.
Proof. unfold promised. by rewrite (tst_bit _ 10). Qed.

Lemma promised_set e : Preserves promised (set_event e).
Proof.
  apply preserves_modify. intros s. rewrite !promised_iff. intros [He Hw]. split; [|exact Hw]. cbn.
  by rewrite testbit_u32, Z.lor_spec, He by lia.
Qed.
Lemma promised_clear e : Z.testbit e 10 = false -> Preserves promised (clear_event e).
Proof.
  intros Hb. apply preserves_modify. intros s. rewrite !promised_iff. intros [He Hw]. split; [|exact Hw]. cbn.
  by rewrite testbit_u32, Z.land_spec, He, Z.lnot_spec, Hb by lia.
Qed.
Lemma promised_window : Preserves promised request_window.
Proof. apply preserves_modify. intros s [He Hw]. by split. Qed.

#[local] Hint Resolve promised_set promised_window : typeclass_instances.
Lemma promised_clear_lapic : Preserves promised (clear_event EVENT_PENDING_LAPIC_INTR).
Proof. by apply promised_clear. Qed.
Lemma promised_clear_dma : Preserves promised (clear_event EVENT_DMA).
Proof. by apply promised_clear. Qed.
#[local] Hint Resolve promised_clear_lapic promised_clear_dma : typeclass_instances.

#[local] Instance promised_ioapic : IoApicFootprint (preserves promised).
Proof. split; [split; try apply _; intros s g Hs; exact Hs|intros s g Hs; exact Hs]. Qed.
#[export] Instance promised_safe : IrqSafe (preserves promised).
Proof. apply PicService_apic; unfold upd_pic, DeviceIoControl; try apply _; intros; apply _. Qed.
End Shown.

(** ** The loop keeps the promise

    The ports of the 8259s are theirs alone, as [PicInitialize] leaves the table. *)

Definition is_pic_port (Address : Z) : bool :=
  (Address =? 0x20) || (Address =? 0x21) || (Address =? 0xA0) || (Address =? 0xA1).
Definition pic_ports (s : Machine.t) : Prop :=
  forall p, s.(Machine.Pci).(PCI_STATE.WritePortHandlers) !! p = Some cb_Pic -> is_pic_port p = true.
Definition waiting_window (s : Machine.t) : Prop := pic_ports s /\ shown s /\ promised s.

(** The exits between the request of the window and its opening: the guest neither
    programs the 8259s nor moves the devices' ports. *)
Definition leaves_pic (e : gvm_exit) : bool :=
  match e with
  | GVM_EXIT_IO direction _ port _ _ =>
      (direction =? GVM_EXIT_IO_IN) || (negb (is_pic_port port) && negb (is_data_port port))
  | GVM_EXIT_IRQ_WINDOW_OPEN => false
  | _ => true
  end.

Section Loop.
Context `{!Driver, !Calendar, !Win32}.

Lemma preserves_and {S A} (I J : S -> Prop) (m : M S A) :
  Preserves I m -> Preserves J m -> Preserves (fun s => I s /\ J s) m.
Proof.
  intros HI HJ s. specialize (HI s). specialize (HJ s). unfold wlp in *. destruct (m s); [|done].
  unfold preserves in *. intros [? ?]. auto.
Qed.
Lemma preserves_pic_ports {A} (m : IO A) : Keeps Machine.Pci m -> Preserves pic_ports m.
Proof. apply within_sub. intros s s' Hk Hp p. unfold keeps in Hk. rewrite Hk. apply Hp. Qed.
Lemma within_waiting {A} (m : IO A) :
  Keeps Machine.Pci m -> Preserves shown m -> Preserves promised m -> Preserves waiting_window m.
Proof. intros. by apply preserves_and, preserves_and; [apply preserves_pic_ports| ..]. Qed.

Lemma shown_mode Master EdgeLevel : Preserves shown (PicSetMode Master EdgeLevel).
Proof.
  unfold PicSetMode. assert (forall i, Preserves shown (upd_pic i (fun p => p <| PIC.EdgeLevel := EdgeLevel |>))).
  { intros. apply shown_same; [intros p; pic_wf_upd|done]. }
  apply _.
Qed.

#[local] Instance waiting_irq : IrqSafe (preserves waiting_window).
Proof.
  assert (IrqSafe (keeps Machine.Pci)) by apply _.
  split; [apply _| |]; intros n; apply within_waiting; first [apply irq_raise|apply irq_lower].
Qed.
#[local] Hint Resolve promised_set promised_window promised_clear_lapic promised_clear_dma : typeclass_instances.

#[local] Instance waiting_bystander : Bystander (preserves waiting_window).
Proof.
  split; [apply _| | | | | |].
  - intros s s' Hpic Hpci Hev Hwin Hw. unfold waiting_window, pic_ports, shown, pic_inv, promised, the_pic.
    rewrite Hpic, Hpci, Hev, Hwin. exact Hw.
  - intros m e. apply within_waiting; [unfold PicSetMode, upd_pic; apply _|apply shown_mode|].
    unfold PicSetMode, upd_pic. apply _.
  - intros e. apply within_waiting; [unfold set_event; apply _|unfold set_event; apply _|apply _].
  - apply within_waiting; [unfold clear_event; apply _|unfold clear_event; apply _|apply _].
  - apply within_waiting; [unfold clear_event; apply _|unfold clear_event; apply _|apply _].
  - apply within_waiting; [unfold request_window; apply _|unfold request_window; apply _|apply _].
Qed.

Lemma waiting_WritePort port Value size : is_pic_port port = false -> is_data_port port = false ->
  Preserves waiting_window (WritePortIoHandler port Value size).
Proof.
  intros Hpic Hpci s. apply wlp_Ok. intros [] s' Hrun Hw.
  assert (wlp (WritePortIoHandler port Value size) (fun _ => preserves waiting_window s) s) as Hwlp.
  { apply (by_WritePort (preserves waiting_window)). intros cb Hcb. split; [|done]. intros ->. destruct Hw as [Hp _]. specialize (Hp _ Hcb). congruence. }
  unfold wlp in Hwlp. rewrite Hrun in Hwlp. by apply Hwlp.
Qed.

Lemma waiting_io_in l size port d : Preserves waiting_window (io_in l size port d).
Proof.
  revert d. induction l as [|i l IH]; intros d; cbn [io_in]; [apply _|].
  apply within_bind; [apply _|apply (by_ReadPort (preserves waiting_window))|intros v].
  apply within_bind; [apply _|unfold store_dword; apply _|done].
Qed.

Lemma waiting_serve e : leaves_pic e = true -> Preserves waiting_window (serve e).
Proof.
  intros He. destruct e; cbn [serve leaves_pic] in *; try done; try apply _.
  - unfold serve_io. apply orb_true_iff in He as [-> |[Hp%negb_true_iff Hd%negb_true_iff]%andb_true_iff].
    { apply waiting_io_in. }
    apply within_if; [apply waiting_io_in|]. apply within_bind; [apply _| |intros; apply _].
    unfold io_out. apply within_foreach; [apply _|]. intros i.
    apply within_bind; [apply _|unfold load_dword; apply _|intros v]. by apply waiting_WritePort.
  - unfold serve_mmio. apply within_if; [apply (by_MmioRead (preserves waiting_window))|].
    apply within_bind; [apply _|apply (by_MmioWrite (preserves waiting_window))|intros; apply _].
  - apply within_bind; [apply _|apply (by_ApicWrite (preserves waiting_window))|intros; apply _].
  - unfold serve_nmi. apply within_bind; [apply _| |intros; apply _].
    apply within_bind; [apply _|apply (by_DeviceIoControl (preserves waiting_window))|intros; apply (by_TimerTick (preserves waiting_window))].
  - apply within_bind; [apply _|apply (by_TimerTick (preserves waiting_window))|intros; apply _].
Qed.

Lemma waiting_loop l : Forall (fun e => leaves_pic e.(gvm_reason) = true) l ->
  Preserves waiting_window (main_loop l).
Proof.
  intros Hl. induction Hl as [|e l He _ IH]; [apply _|]. unfold main_loop in *. cbn [foreach].
  apply within_bind; [apply _| |intros; exact IH]. apply within_bind; [apply _| |intros; apply _].
  unfold serve_run. apply within_bind; [apply _| |intros; by apply waiting_serve].
  unfold SvmmGetRegisters. apply within_modify. intros s. by apply (by_frame (R := preserves waiting_window)).
Qed.

End Loop.

(** ** String input and output

    The elements of a string instruction are packed in the page, [size] bytes each; the
    loop moves them as DWORDs. *)

Definition element (w i : nat) (d : list Z) : list Z := take w (drop (i * w) d).

(** A store leaves what is before it and what is four bytes after. *)
Lemma store_dword_run d o v s : (o + 4 <= length d)%nat ->
  exists d', store_dword d (Z.of_nat o) v s = Ok d' s /\ length d' = length d /\ take o d' = take o d /\
    (forall w, (w <= 4)%nat -> take w (drop o d') = le_bytes w v) /\
    (forall k, (o + 4 <= k)%nat -> drop k d' = drop k d).
Proof.
  intros Hl. exists (take o d ++ le_write 4 v (drop o d)). unfold store_dword.
  rewrite (proj2 (Z.leb_le _ _)) by lia. rewrite Nat2Z.id.
  assert (length (take o d) = o) as Ho by (rewrite length_take; lia). split_and!; [done| ..].
  - rewrite length_app, length_le_write, length_drop. lia.
  - by rewrite <- Ho at 1; rewrite take_app_length.
  - intros w Hw. rewrite <- Ho at 1. rewrite drop_app_length. apply take_le_write; [done|]. rewrite length_drop. lia.
  - intros k Hk. rewrite drop_app_ge by lia. rewrite Ho, drop_le_write, drop_drop by lia. f_equal. lia.
Qed.

Section Strings.
Context `{!Driver, !Calendar, !Win32}.

(** What [n] reads of a port give. *)
Fixpoint reads (n : nat) (port size : Z) : IO (list Z) :=
  match n with
  | O => mret []
  | S n => v ← ReadPortIoHandler port size; vs ← reads n port size; mret (v :: vs)
  end.

Lemma io_in_run w port n : (w <= 4)%nat -> forall k d s vs s',
  ((k + n) * w + 4 <= length d + w)%nat -> reads n port (Z.of_nat w) s = Ok vs s' ->
  exists d', io_in (seqZ (Z.of_nat k) (Z.of_nat n)) (Z.of_nat w) port d s = Ok d' s' /\ length d' = length d /\
    take (k * w) d' = take (k * w) d /\
    (forall i v, vs !! i = Some v -> element w (k + i) d' = le_bytes w v) /\
    (forall j, ((k + n) * w + 4 <= j + w)%nat -> drop j d' = drop j d).
Proof.
  intros Hw. induction n as [|n IH]; intros k d s vs s' Hl Hr.
  { injection Hr as <- <-. exists d. by split_and!. }
  cbn [reads] in Hr. apply bind_Ok in Hr as (v & s1 & Hv & Hr).
  apply bind_Ok in Hr as (vs1 & s2 & Hvs & Hr). injection Hr as <- <-.
  rewrite seqZ_cons by lia. cbn [io_in]. rewrite (run_bind _ _ _ _ _ Hv).
  replace (Z.of_nat k * Z.of_nat w) with (Z.of_nat (k * w)) by lia.
  destruct (store_dword_run d (k * w) v s1 ltac:(lia)) as (d1 & Hd1 & Hl1 & Hbefore & Hat & Hafter).
  rewrite (run_bind _ _ _ _ _ Hd1).
  replace (Z.succ (Z.of_nat k)) with (Z.of_nat (S k)) by lia.
  replace (Z.pred (Z.of_nat (S n))) with (Z.of_nat n) by lia.
  destruct (IH (S k) d1 s1 vs1 s2 ltac:(lia) Hvs) as (d' & Hd' & Hl' & Hb' & He' & Ha').
  exists d'. split_and!; [done|congruence| ..].
  - rewrite <- Hbefore. apply (f_equal (take (k * w))) in Hb'.
    by rewrite !take_take, !Nat.min_l in Hb' by lia.
  - intros [|i] v'; cbn [lookup list_lookup]; [|intros Hi; rewrite <- (He' i v' Hi); f_equal; lia].
    intros [= <-]. rewrite <- (Hat w Hw). unfold element. rewrite Nat.add_0_r.
    apply (f_equal (drop (k * w))) in Hb'.
    rewrite !skipn_firstn_comm in Hb'. by replace (S k * w - k * w)%nat with w in Hb' by lia.
  - intros j Hj. rewrite Ha' by lia. apply Hafter. lia.
Qed.

(** C17 String input delivers what the port gives: the loop stores every element as a
    DWORD, but the elements that the guest takes, [size] bytes each, are the values of
    the reads in their order, every one cut to its width; the bytes of the page after the
    last DWORD stay. *)
Theorem string_in_delivers w n port d s vs s' :
  (1 <= w <= 4)%nat -> (n * w + 4 <= length d + w)%nat -> reads n port (Z.of_nat w) s = Ok vs s' ->
  exists d', serve (GVM_EXIT_IO GVM_EXIT_IO_IN (Z.of_nat w) port (Z.of_nat n) d) s = Ok d' s' /\
    length d' = length d /\
    (forall i v, vs !! i = Some v -> element w i d' = le_bytes w v) /\
    drop (n * w + (4 - w)) d' = drop (n * w + (4 - w)) d.
Proof.
  intros [Hw1 Hw] Hl Hr. destruct (io_in_run w port n Hw 0 d s vs s' Hl Hr) as (d' & Hd' & Hl' & _ & He & Ha).
  exists d'. split_and!; [exact Hd'|done|exact He|apply Ha; lia].
Qed.

(** The handlers get the DWORDs too, with the next elements above their own. *)
Lemma dword_low_byte b x m : is_u8 b -> m &. 0xff = m -> (b + 2 ^ 8 * x) &. m = b &. m.
Proof.
  intros Hb <-. rewrite (Z.land_comm m), !Z.land_assoc. f_equal. change 0xff with (Z.ones 8).
  rewrite !Z.land_ones by lia. rewrite (Z.mul_comm (2 ^ 8)), Z.mod_add by lia. done.
Qed.

(** C18 String output hands over more than its elements: when a byte-wide string goes to
    the first command port of the 8259s, and a specific end of interrupt in it is followed
    by a byte that is not zero, the handler shifts by the whole of the DWORD, which C
    leaves undefined; the same command alone ends the interrupt of line 0. *)
Theorem string_out_shifts s count b c e rest :
  pic_inv s -> port_handler PCI_STATE.WritePortHandlers 0x20 s = Ok cb_Pic s ->
  0 < count -> is_u8 b -> is_u8 c -> is_u8 e ->
  (b <> 0 -> serve (GVM_EXIT_IO GVM_EXIT_IO_OUT 1 0x20 count (0x60 :: b :: c :: e :: rest)) s = Fault BadShift) /\
  wp (serve (GVM_EXIT_IO GVM_EXIT_IO_OUT 1 0x20 1 (0x60 :: 0 :: 0 :: 0 :: rest))) (fun _ => pic_inv) s.
Proof.
  intros Hs Hport Hn Hb Hc He.
  assert (forall v, port_write cb_Pic 0x20 v 1 = PicPortIoWriteHandler 0x20 v 1) as Hpic by done.
  split.
  - intros Hb0. cbn [serve]. unfold serve_io. change (GVM_EXIT_IO_OUT =? GVM_EXIT_IO_IN) with false. cbv iota.
    apply run_fault. unfold io_out. rewrite seqZ_cons by lia. cbn [foreach]. apply run_fault.
    set (x := b + 2 ^ 8 * (c + 2 ^ 8 * (e + 2 ^ 8 * 0))).
    assert (1 <= x < 2 ^ 24) as Hx by (unfold is_u8 in *; subst x; lia).
    rewrite (run_bind _ _ s (0x60 + 2 ^ 8 * x) s).
    2: { unfold load_dword. rewrite (proj2 (Z.leb_le _ _)) by (cbn [length]; lia). reflexivity. }
    clearbody x. unfold WritePortIoHandler. rewrite (run_bind _ _ _ _ _ Hport), Hpic.
    change (PicPortIoWriteHandler 0x20 (0x60 + 2 ^ 8 * x) 1) with
      (if (0x60 + 2 ^ 8 * x) &? ICW1_INIT then write_icw1 0 (0x60 + 2 ^ 8 * x)
       else if ((0x60 + 2 ^ 8 * x) &. 0x18) =? OCW3_SELECT_DEFAULT then write_ocw3 0 (0x60 + 2 ^ 8 * x)
       else write_ocw2 0 (0x60 + 2 ^ 8 * x)).
    unfold "&?". rewrite !(dword_low_byte 0x60 x) by (by split || done).
    change (negb (96 &. ICW1_INIT =? 0)) with false. change (96 &. 24 =? OCW3_SELECT_DEFAULT) with false. cbv iota.
    unfold write_ocw2. rewrite (dword_low_byte 0x60 x) by (by split || done). change (96 &. 0xff) with 96. cbv zeta.
    cbn [Z.eqb Pos.eqb orb andb Z.leb Z.compare Pos.compare Pos.compare_cont].
    apply run_fault. unfold end_specific. replace (0x60 + 2 ^ 8 * x - 96) with (2 ^ 8 * x) by lia.
    rewrite u32_small by (split; lia). apply run_fault. unfold shl1. by rewrite (proj2 (Z.ltb_ge _ _)) by lia.
  - cbn [serve]. unfold serve_io. change (GVM_EXIT_IO_OUT =? GVM_EXIT_IO_IN) with false. cbv iota.
    apply wp_bind. unfold io_out. change (seqZ 0 1) with [0]. cbn [foreach]. apply wp_bind, wp_bind.
    unfold wp at 1, load_dword. rewrite (proj2 (Z.leb_le _ _)) by (cbn [length]; lia).
    change (wp (WritePortIoHandler 0x20 0x60 1) (fun _ s' => wp done_ (fun _ s2 => wp (mret (0x60 :: 0 :: 0 :: 0 :: rest)) (fun _ => pic_inv) s2) s') s).
    unfold WritePortIoHandler. eapply wp_run_bind; [exact Hport|]. rewrite Hpic.
    change (PicPortIoWriteHandler 0x20 0x60 1) with (write_ocw2 0 0x60).
    eapply wp_mono; [|apply wp_write_ocw2; [by left|done|by split]]. by intros ? s' Hs'.
Qed.
End Strings.

(** ** Examples *)

#[local] Existing Instance example_driver.
#[local] Existing Instance example_calendar.
#[local] Instance example_host : Win32 := host_of [].

(** The controllers as a BIOS leaves them, with their ports in the table; the master
    presents line 4 and the window is requested. *)
Definition loop_ports (s : Machine.t) : Machine.t :=
  match (foreach (seqZ 0x20 2) (fun i => RegisterPortIoHandler i (Some cb_Pic) (Some cb_Pic)) : IO unit) s with
  | Ok _ s' => s'
  | Fault _ => s
  end.
Definition loop_example : Machine.t :=
  loop_ports (example_pics (example_master <| PIC.InterruptNumber := 12 |>) 0)
    <| Machine.svmm_events := EVENT_PENDING_INTR |>
    <| Machine.kvm_run ::= (fun r => r <| kvm_run.request_interrupt_window := 1 |>) |>.

Lemma loop_example_pic : loop_example.(Machine.Pic) =
  (example_pics (example_master <| PIC.InterruptNumber := 12 |>) 0).(Machine.Pic).
Proof. vm_compute. reflexivity. Qed.

Lemma loop_example_inv : pic_inv loop_example.
Proof.
  exists (example_master <| PIC.InterruptNumber := 12 |>), (example_slave 0). split; [exact loop_example_pic|].
  split; (split; simpl; auto with width; try lia; by split).
Qed.

Lemma loop_example_waits : waiting_window loop_example.
Proof.
  split; [|split; [split; [exact loop_example_inv|split; vm_compute; reflexivity]|split; vm_compute; reflexivity]].
  intros p. assert (loop_example.(Machine.Pci).(PCI_STATE.WritePortHandlers) =
    <[0x21 := cb_Pic]> (<[0x20 := cb_Pic]> ∅)) as -> by (vm_compute; reflexivity).
  intros [[<- _]|[_ [[<- _]|[_ Hn]]%lookup_insert_Some]]%lookup_insert_Some; [done|done|].
  by rewrite lookup_empty in Hn.
Qed.

Lemma loop_returns {A} (m : IO A) :
  match m loop_example with Ok _ _ => True | Fault _ => False end -> exists a s', m loop_example = Ok a s'.
Proof. destruct (m loop_example); [eauto|done]. Qed.

(** The guest reads the mask, the timer of the driver expires, the guest halts. *)
Definition loop_exits : list gvm_run :=
  [ {| gvm_registers := REGISTERS.zero; gvm_reason := GVM_EXIT_IO GVM_EXIT_IO_IN 1 0x21 1 [0; 0; 0; 0] |};
    {| gvm_registers := REGISTERS.zero; gvm_reason := GVM_EXIT_VMX_TIMER |};
    {| gvm_registers := REGISTERS.zero; gvm_reason := GVM_EXIT_HLT |} ].


(** Three reads of the request register of the master, a byte each. *)
Lemma string_in_delivers_witness :
  exists vs s' d', reads 3 0x21 1 loop_example = Ok vs s' /\
    serve (GVM_EXIT_IO GVM_EXIT_IO_IN 1 0x21 3 (replicate 8 0xaa)) loop_example = Ok d' s' /\
    (forall i v, vs !! i = Some v -> element 1 i d' = le_bytes 1 v) /\
    drop 6 d' = [0xaa; 0xaa].
Proof.
  destruct (loop_returns (reads 3 0x21 1)) as (vs & s' & Hr); [vm_compute; exact I|].
  destruct (string_in_delivers 1 3 0x21 (replicate 8 0xaa) loop_example vs s') as (d' & Hd' & _ & He & Hrest);
    [lia|simpl; lia|exact Hr|].
  exists vs, s', d'. split; [exact Hr|]. split; [exact Hd'|]. split; [exact He|exact Hrest].
Defined.

Lemma string_out_shifts_witness :
  serve (GVM_EXIT_IO GVM_EXIT_IO_OUT 1 0x20 2 [0x60; 0x61; 0; 0]) loop_example = Fault BadShift.
Proof.
  refine (proj1 (string_out_shifts loop_example 2 0x61 0 0 [] loop_example_inv _ _ _ _ _) _).
  - vm_compute. reflexivity.
  - lia.
  - split; [discriminate|reflexivity].
  - split; [discriminate|reflexivity].
  - split; [discriminate|reflexivity].
  - discriminate.
Defined.
