(* ===== verification/DbgServer.v ===== *)
(** SvmmDbgServer.c: the debug server.

    A client of a stream socket sends requests: the registers, the guest's physical
    memory, the model-specific registers, how to run on.  Every packet has a header of 18
    packed bytes with a magic number, a type, a number that both sides count, a checksum
    and the size of the data.  What the socket does is the interface [Socket]; the calls
    of the driver are recorded in order. *)

From S2P Require Export Memory.

(** SvmmDbgServer.h *)
Definition DBG_MAGIC : Z := 0x11223344.
Definition DBG_TYPE_READ_REGISTERS : Z := 0.
Definition DBG_TYPE_WRITE_REGISTERS : Z := 1.
Definition DBG_TYPE_READ_MEMORY : Z := 2.
Definition DBG_TYPE_WRITE_MEMORY : Z := 3.
Definition DBG_TYPE_INIT_REQ : Z := 6.
Definition DBG_TYPE_INIT_REP : Z := 7.
Definition DBG_TYPE_STEP_INTO : Z := 8.
Definition DBG_TYPE_STEP_OVER : Z := 9.
Definition DBG_TYPE_RUN : Z := 10.
Definition DBG_TYPE_PRINT : Z := 12.
Definition DBG_TYPE_READ_MSR_REGISTERS : Z := 13.
Definition DBG_TYPE_WRITE_MSR_REGISTERS : Z := 14.
Definition DBG_TYPE_STATE_CHANGE_REQ : Z := 15.
Definition DBG_TYPE_STATE_CHANGE_REP : Z := 16.
Definition DBG_MAX_PACKET_DATA_SIZE : Z := 2048.
Definition DR1_ENABLED : Z := 1 <<. 1.
Definition DR2_ENABLED : Z := 1 <<. 3.
Definition DR3_ENABLED : Z := 1 <<. 5.
Definition DR4_ENABLED : Z := 1 <<. 7.
(** gvm.h, kvm.h *)
Definition GVM_GUESTDBG_ENABLE : Z := 0x00000001.
Definition GVM_GUESTDBG_SINGLESTEP : Z := 0x00000002.
Definition GVM_GUESTDBG_USE_SW_BP : Z := 0x00010000.
Definition GVM_GUESTDBG_USE_HW_BP : Z := 0x00020000.

(** ** The state

    [struct Registers] is sent and received as its bytes; [registers_of] is the part of
    it that the translation of addresses reads, by the offsets of haxm.h. *)

Definition SIZEOF_Registers : Z := 1648.
Definition register_at (n : nat) (offset : Z) (b : list Z) : Z := le_read n (drop (Z.to_nat offset) b).
Definition dr (i : Z) (b : list Z) : Z := register_at 8 (416 + 8 * i) b.
(** [_dr6] and [_dr7] come after [_dr3]. *)
Definition dr7 (b : list Z) : Z := register_at 8 456 b.
Definition registers_of (b : list Z) : REGISTERS.t :=
  REGISTERS.mk (register_at 8 384 b) (register_at 8 400 b) (register_at 8 408 b) (register_at 4 472 b)
    (register_at 8 128 b) (register_at 2 144 b) (register_at 8 152 b) (register_at 8 1568 b).

(** The calls of the driver. *)
Inductive dbg_call : Set :=
| GVM_SET_GUEST_DEBUG (control : Z) (debugreg : list Z)
| set_registers (b : list Z)
| GVM_GET_MSRS (msrs : list Z)
| GVM_SET_MSRS (msrs : list Z).

Module DEBUG.
Record t := mk {
  machine : Machine.t;
  Registers : list Z;
  SvmmPacketId : Z;
  incoming : list Z;
  outgoing : list (list Z);
  calls : list dbg_call
}.
#[export] Instance eta_t : Eta t := fun r => mk r.(machine) r.(Registers) r.(SvmmPacketId) r.(incoming)
  r.(outgoing) r.(calls).
End DEBUG.
Export (hints) DEBUG.

(** What the host's sockets do: [recv_len] is the result of [recv] for the bytes on their
    way and the number wanted, -1 for an error; [send_len] that of [send]. *)
Class Socket := {
  listens : bool;
  select_result : list Z -> Z;
  recv_len : list Z -> Z -> Z;
  send_len : list Z -> Z;
  msrs_answer : list Z -> list Z
}.

Abbreviation DBG := (M DEBUG.t).

Definition host {A} (m : IO A) : DBG A := zoom DEBUG.machine m.
Definition call (c : dbg_call) : DBG unit := modify (fun s => s <| DEBUG.calls ::= cons c |>).

(** A packet. *)
Definition header (Type_ Id Checksum Size : Z) : list Z :=
  le_bytes 4 DBG_MAGIC ++ le_bytes 2 Type_ ++ le_bytes 4 Id ++ le_bytes 4 Checksum ++ le_bytes 4 Size.
Definition pkt_Magic (pkt : list Z) : Z := le_read 4 pkt.
Definition pkt_Type (pkt : list Z) : Z := le_read 2 (drop 4 pkt).
Definition pkt_Id (pkt : list Z) : Z := le_read 4 (drop 6 pkt).
Definition pkt_Checksum (pkt : list Z) : Z := le_read 4 (drop 10 pkt).
Definition pkt_Size (pkt : list Z) : Z := le_read 4 (drop 14 pkt).
Definition pkt_Data (pkt : list Z) : list Z := drop 18 pkt.

(** The sum wraps at 32 bits; reading past the packet's buffer is undefined. *)
Definition checksum (l : list Z) : Z := fold_left (fun sum x => u32 (sum + x)) l 0.
Definition ComputeChecksum (data : list Z) (size : Z) : DBG Z :=
  if Z.of_nat (length data) <? size then stop OutOfBounds else mret (checksum (take (Z.to_nat size) data)).

(** [memset(b, 0, n)] followed by bytes at its start. *)
Definition buffer_with (n : nat) (b : list Z) : list Z := take n (b ++ replicate n 0).

Section Server.
Context `{!Socket}.

Definition recv (n : Z) : DBG (Z * list Z) :=
  l ← gets DEBUG.incoming;
  let k := recv_len l n in
  if k <? 0 then mret (-1, [])
  else
    let data := take (Z.to_nat (Z.min k n)) l in
    modify (fun s => s <| DEBUG.incoming ::= drop (length data) |>) ;;
    mret (Z.of_nat (length data), data).
Definition send (pkt : list Z) : DBG Z :=
  let k := send_len pkt in
  modify (fun s => s <| DEBUG.outgoing ::= cons (take (Z.to_nat k) pkt) |>) ;;
  mret k.

(** [++SvmmPacketId] *)
Definition next_id : DBG Z :=
  modify (fun s => s <| DEBUG.SvmmPacketId ::= fun i => u32 (i + 1) |>) ;;
  gets DEBUG.SvmmPacketId.

(** [Buffer] is the [Size] bytes it points to; the packet has room for 2048. *)
Definition SvmmDbgSend (Type_ : Z) (Buffer : option (list Z)) (Size : Z) : DBG Z :=
  Id ← next_id;
  cs ← match Buffer with
       | Some data =>
           if DBG_MAX_PACKET_DATA_SIZE <? Size then stop OutOfBounds else ComputeChecksum data (u32 Size)
       | None => mret 0
       end;
  bytesSend ← send (header Type_ Id cs (u32 Size) ++ default [] Buffer);
  if negb (bytesSend =? 18 + Size) then stop Exit else mret bytesSend.

(** The data of a packet, behind its header [h] of [n] bytes. *)
Definition receive_data (n : Z) (h : list Z) (Buffer Size : Z) : DBG Z :=
  if nz Size && negb (nz (pkt_Size h)) then mret 0
  else
    '(m, data) ← (if nz Size then recv Size else mret (0, []));
    if DBG_MAX_PACKET_DATA_SIZE <? Z.of_nat (length data) then stop OutOfBounds
    else
      let data := buffer_with 2048 data in
      cs ← ComputeChecksum data (pkt_Size h);
      if negb (pkt_Checksum h =? cs) then stop Exit
      else
        host (host_store Buffer (take (Z.to_nat (pkt_Size h)) data)) ;;
        mret (n + m).

(** [SvmmDbgRecv]; [Buffer] is a host address that is not null. *)
Definition SvmmDbgRecv (Type_ Buffer Size : Z) : DBG Z :=
  '(n, h) ← recv 18;
  if negb (n =? 18) || negb (pkt_Magic h =? DBG_MAGIC) then stop Exit
  else
    Id ← next_id;
    if negb (Id =? pkt_Id h) || negb (Type_ =? pkt_Type h) then stop Exit
    else receive_data n h Buffer Size.

(** ** Memory requests

    [offsets Size]: the values of [for (i = 0; i < (LONG64)Size; i += 2048)]. *)
Definition offsets (Size : Z) : list Z := map (Z.mul 2048) (seqZ 0 ((s64 Size + 2047) / 2048)).
Definition piece (Size i : Z) : Z :=
  if DBG_MAX_PACKET_DATA_SIZE <? u64 (Size - i) then DBG_MAX_PACKET_DATA_SIZE else u64 (Size - i).

Fixpoint read_pieces (l : list Z) (Addr Size : Z) : DBG unit :=
  match l with
  | [] => done_
  | i :: l =>
      hostGpa ← host (SvmmGetHostPageFromGPA (u64 (Addr + i)));
      if hostGpa =? 0 then _ ← SvmmDbgSend DBG_TYPE_READ_MEMORY None 0; done_
      else
        data ← host (host_copy hostGpa (piece Size i));
        _ ← SvmmDbgSend DBG_TYPE_READ_MEMORY (Some data) (piece Size i);
        read_pieces l Addr Size
  end.

Definition read_memory (Addr Size : Z) : DBG unit :=
  hostGpa ← host (SvmmGetHostPageFromGPA Addr);
  v ← host get_svmm;
  if v.(SVMM.MemoryEnd) <=? u64 (hostGpa + Size) then _ ← SvmmDbgSend DBG_TYPE_READ_MEMORY None 0; done_
  else read_pieces (offsets Size) Addr Size.

Fixpoint write_pieces (l : list Z) (Addr Size : Z) : DBG unit :=
  match l with
  | [] => done_
  | i :: l =>
      hostGpa ← host (SvmmGetHostPageFromGPA (u64 (Addr + i)));
      if hostGpa =? 0 then _ ← SvmmDbgSend DBG_TYPE_WRITE_MEMORY None 0; done_
      else
        _ ← SvmmDbgRecv DBG_TYPE_WRITE_MEMORY hostGpa (piece Size i);
        write_pieces l Addr Size
  end.

Definition run_control : Z := (GVM_GUESTDBG_ENABLE |. GVM_GUESTDBG_USE_SW_BP) |. GVM_GUESTDBG_USE_HW_BP.
Definition step_control : Z := ((GVM_GUESTDBG_ENABLE |. GVM_GUESTDBG_SINGLESTEP) |. GVM_GUESTDBG_USE_SW_BP) |. GVM_GUESTDBG_USE_HW_BP.
(** [arch.debugreg], of 8 elements. *)
Definition no_debugreg : list Z := replicate 8 0.
Definition debugreg_of (b : list Z) : list Z := [dr 0 b; dr 1 b; dr 2 b; dr 3 b; 0; 0; 0; dr7 b].

Definition write_memory (Addr Size : Z) : DBG unit :=
  hostGpa ← host (SvmmGetHostPageFromGPA Addr);
  v ← host get_svmm;
  if v.(SVMM.MemoryEnd) <=? u64 (hostGpa + Size) then _ ← SvmmDbgSend DBG_TYPE_WRITE_MEMORY None 0; done_
  else
    write_pieces (offsets Size) Addr Size ;;
    if Size =? 1 then
      hostGpa ← host (SvmmGetHostPageFromGPA Addr);
      x ← host (host_read hostGpa 1);
      when (x =? 0xcc) (call (GVM_SET_GUEST_DEBUG run_control no_debugreg))
    else done_.

(** ** The other requests *)

Definition write_registers (Size : Z) (Data : list Z) : DBG unit :=
  if negb (Size =? SIZEOF_Registers) then stop Exit
  else
    let b := take (Z.to_nat SIZEOF_Registers) Data in
    modify (fun s => s <| DEBUG.Registers := b |>
                       <| DEBUG.machine ::= (fun m => m <| Machine.Svmm ::= (fun v => v <| SVMM.Registers := registers_of b |>) |>) |>) ;;
    call (set_registers b) ;;
    when (dr7 b &? (((DR1_ENABLED |. DR2_ENABLED) |. DR3_ENABLED) |. DR4_ENABLED))
      (call (GVM_SET_GUEST_DEBUG run_control (debugreg_of b))).

Definition init_request (Size : Z) (Data : list Z) : DBG unit :=
  if negb (Size =? 4) then stop Exit
  else if negb (le_read 4 Data =? 1) then stop Exit
  else
    Id ← gets DEBUG.SvmmPacketId;
    v ← host get_svmm;
    _ ← SvmmDbgSend DBG_TYPE_INIT_REP (Some (le_bytes 4 Id ++ le_bytes 8 v.(SVMM.RamSize))) 12;
    done_.

(** [sizeof(struct kvm_msrs) + sizeof(struct kvm_msr_entry) * nmsrs]; the driver answers
    in place.  Past the packet's buffer there is nothing to read. *)
Definition msrs_size (Data : list Z) : Z := 8 + 16 * le_read 4 Data.
Definition msr_request (request : list Z -> dbg_call) (reply : Z) (answer : list Z -> list Z) (Data : list Z) : DBG unit :=
  let size := msrs_size Data in
  if Z.of_nat (length Data) <? size then stop OutOfBounds
  else
    let msrs := take (Z.to_nat size) Data in
    call (request msrs) ;;
    _ ← SvmmDbgSend reply (Some (buffer_with (Z.to_nat size) (answer msrs))) size;
    done_.

(** One request; the result is the type that ends the loop. *)
Definition dispatch (Type_ Size : Z) (Data : list Z) : DBG (option Z) :=
  if Type_ =? DBG_TYPE_READ_REGISTERS then
    b ← gets DEBUG.Registers;
    _ ← SvmmDbgSend DBG_TYPE_READ_REGISTERS (Some b) SIZEOF_Registers; mret None
  else if Type_ =? DBG_TYPE_WRITE_REGISTERS then write_registers Size Data ;; mret None
  else if Type_ =? DBG_TYPE_READ_MEMORY then
    if negb (Size =? 16) then stop Exit
    else read_memory (le_read 8 Data) (le_read 8 (drop 8 Data)) ;; mret None
  else if Type_ =? DBG_TYPE_WRITE_MEMORY then
    if negb (Size =? 16) then stop Exit
    else write_memory (le_read 8 Data) (le_read 8 (drop 8 Data)) ;; mret None
  else if Type_ =? DBG_TYPE_INIT_REQ then init_request Size Data ;; mret None
  else if Type_ =? DBG_TYPE_STEP_INTO then
    call (GVM_SET_GUEST_DEBUG step_control no_debugreg) ;; mret (Some DBG_TYPE_STEP_INTO)
  else if (Type_ =? DBG_TYPE_STEP_OVER) || (Type_ =? DBG_TYPE_RUN) then
    b ← gets DEBUG.Registers;
    call (GVM_SET_GUEST_DEBUG run_control (debugreg_of b)) ;; mret (Some Type_)
  else if Type_ =? DBG_TYPE_PRINT then
    (* the format "%.s" prints no character of the message *)
    mret None
  else if Type_ =? DBG_TYPE_READ_MSR_REGISTERS then
    msr_request GVM_GET_MSRS DBG_TYPE_READ_MSR_REGISTERS msrs_answer Data ;; mret None
  else if Type_ =? DBG_TYPE_WRITE_MSR_REGISTERS then
    msr_request GVM_SET_MSRS DBG_TYPE_READ_REGISTERS (fun b => b) Data ;; mret None
  else if Type_ =? DBG_TYPE_STATE_CHANGE_REQ then
    _ ← SvmmDbgSend DBG_TYPE_STATE_CHANGE_REP None 0; mret None
  else mret None.

(** The data of a request: what fits behind the header in [buffer[4096]]. *)
Definition request_data (h : list Z) : DBG (list Z) :=
  if nz (pkt_Size h) then
    let dataToRead := if 4096 - 18 <? pkt_Size h then 4096 - 18 else pkt_Size h in
    '(n, data) ← recv dataToRead;
    let Data := buffer_with 4078 data in
    cs ← ComputeChecksum Data dataToRead;
    if nz n && negb (pkt_Checksum h =? cs) then stop Exit else mret Data
  else mret (replicate 4078 0).

Fixpoint dbg_loop (fuel : nat) : DBG Z :=
  match fuel with
  | O => stop Diverges
  | S fuel =>
      l ← gets DEBUG.incoming;
      let result := select_result l in
      if result =? -1 then stop Exit
      else if result <=? 0 then mret 0
      else
        '(n, h) ← recv 18;
        if negb (n =? 18) || negb (pkt_Magic h =? DBG_MAGIC) then stop Exit
        else
          Id ← next_id;
          if negb (Id =? pkt_Id h) then stop Exit
          else
            Data ← request_data h;
            r ← dispatch (pkt_Type h) (pkt_Size h) Data;
            match r with Some state => mret state | None => dbg_loop fuel end
  end.

(** Every turn takes a header of 18 bytes, or ends the loop. *)
Definition SvmmDbgLoop : DBG Z :=
  l ← gets DEBUG.incoming;
  dbg_loop (S (length l)).

Definition SvmmDbgInit : DBG unit :=
  call (GVM_SET_GUEST_DEBUG step_control no_debugreg) ;;
  if listens then modify (fun s => s <| DEBUG.SvmmPacketId := 0 |>) else stop Exit.

(** GVM_EXIT_DEBUG of main: the server runs when the guest stops. *)
Definition serve_debug (dbgState : Z) : DBG Z :=
  rip ← host SvmmGetRip;
  a ← host (SvmmGetHostAddress rip);
  x ← host (host_read a 1);
  b ← gets DEBUG.Registers;
  let _rip := register_at 8 128 b in
  if (x =? 0xcc) || existsb (fun i => _rip =? dr i b) [0; 1; 2; 3] ||
     existsb (Z.eqb dbgState) [DBG_TYPE_RUN; DBG_TYPE_STEP_OVER; DBG_TYPE_STEP_INTO]
  then SvmmDbgLoop else mret dbgState.
End Server.

(** ** Packets *)

Definition packet (Type_ Id : Z) (data : list Z) : list Z :=
  header Type_ Id (checksum data) (Z.of_nat (length data)) ++ data.

Lemma length_header t i c n : length (header t i c n) = 18%nat.
Proof. unfold header. by rewrite !length_app, !length_le_bytes. Qed.

Lemma drop_bytes n k v rest : drop (n + k) (le_bytes n v ++ rest) = drop k rest.
Proof. rewrite drop_app_ge by (rewrite length_le_bytes; lia). rewrite length_le_bytes. f_equal. lia. Qed.

Section Header.
Context (t i c n : Z) (data : list Z).
Hypothesis (Ht : is_u16 t) (Hi : is_u32 i) (Hc : is_u32 c) (Hn : is_u32 n).

Lemma header_split : header t i c n ++ data =
  le_bytes 4 DBG_MAGIC ++ le_bytes 2 t ++ le_bytes 4 i ++ le_bytes 4 c ++ le_bytes 4 n ++ data.
Proof. unfold header. by rewrite <- !app_assoc. Qed.
Lemma magic_header : pkt_Magic (header t i c n ++ data) = DBG_MAGIC.
Proof. rewrite header_split. apply le_read_bytes. by split. Qed.
Lemma type_header : pkt_Type (header t i c n ++ data) = t.
Proof. rewrite header_split. unfold pkt_Type. change 4%nat with (4 + 0)%nat at 1. rewrite drop_bytes. by apply le_read_bytes. Qed.
Lemma id_header : pkt_Id (header t i c n ++ data) = i.
Proof.
  rewrite header_split. unfold pkt_Id. change 6%nat with (4 + (2 + 0))%nat at 1. rewrite !drop_bytes. by apply le_read_bytes.
Qed.
Lemma checksum_header : pkt_Checksum (header t i c n ++ data) = c.
Proof.
  rewrite header_split. unfold pkt_Checksum. change 10%nat with (4 + (2 + (4 + 0)))%nat at 1. rewrite !drop_bytes. by apply le_read_bytes.
Qed.
Lemma size_header : pkt_Size (header t i c n ++ data) = n.
Proof.
  rewrite header_split. unfold pkt_Size. change 14%nat with (4 + (2 + (4 + (4 + 0))))%nat at 1. rewrite !drop_bytes. by apply le_read_bytes.
Qed.
Lemma data_header : pkt_Data (header t i c n ++ data) = data.
Proof. unfold pkt_Data. rewrite drop_app_ge by (rewrite length_header; lia). by rewrite length_header. Qed.
End Header.

Lemma fold_checksum_u32 l x : is_u32 x -> is_u32 (fold_left (fun sum x => u32 (sum + x)) l x).
Proof. revert x. induction l as [|y l IH]; intros x Hx; [done|]. apply IH, u32_range. Qed.
Lemma checksum_u32 l : is_u32 (checksum l).
Proof. apply fold_checksum_u32. by split. Qed.

Lemma ComputeChecksum_run data n s : 0 <= n <= Z.of_nat (length data) ->
  ComputeChecksum data n s = Ok (checksum (take (Z.to_nat n) data)) s.
Proof. intros Hn. unfold ComputeChecksum. by rewrite (proj2 (Z.ltb_ge _ _)) by lia. Qed.

Lemma take_buffer n m b : (length b <= n)%nat -> m = length b -> take m (buffer_with n b) = b.
Proof. intros Hb ->. unfold buffer_with. rewrite take_take, Nat.min_l by lia. apply take_app_length. Qed.
Lemma length_buffer n b : length (buffer_with n b) = n.
Proof. unfold buffer_with. rewrite length_take, length_app, length_replicate. lia. Qed.

(** ** A reliable connection

    Every [send] takes the whole packet, and a [recv] gives what it was asked for as long
    as there is as much on the way. *)

Class Reliable `{!Socket} : Prop := {
  full_send p : send_len p = Z.of_nat (length p);
  full_recv l n : recv_len l n = Z.min n (Z.of_nat (length l))
}.

Section Reliable.
Context `{!Socket, !Reliable}.

(** The server that has sent [ps]. *)
Definition sent (ps : list (list Z)) (s : DEBUG.t) : DEBUG.t :=
  s <| DEBUG.SvmmPacketId ::= fun i => u32 (i + Z.of_nat (length ps)) |>
    <| DEBUG.outgoing ::= app (rev ps) |>.

Lemma SvmmDbgSend_run t data s : (length data <= 2048)%nat ->
  SvmmDbgSend t (Some data) (Z.of_nat (length data)) s =
    Ok (18 + Z.of_nat (length data)) (sent [packet t (u32 (s.(DEBUG.SvmmPacketId) + 1)) data] s).
Proof.
  intros Hl. unfold SvmmDbgSend, next_id. set (id := u32 (s.(DEBUG.SvmmPacketId) + 1)).
  set (s1 := s <| DEBUG.SvmmPacketId := id |>). rewrite (run_bind _ _ s id s1) by done.
  unfold DBG_MAX_PACKET_DATA_SIZE. rewrite (proj2 (Z.ltb_ge _ _)) by lia. rewrite (u32_small (Z.of_nat (length data))) by (unfold in_width; lia).
  rewrite (run_bind _ _ _ _ _ (ComputeChecksum_run data (Z.of_nat (length data)) s1 ltac:(lia))), Nat2Z.id, take_ge by lia.
  change (default [] (Some data)) with data. change (header t id (checksum data) (Z.of_nat (length data)) ++ data) with (packet t id data).
  unfold send. rewrite full_send, Nat2Z.id, (take_ge (packet t id data)) by lia.
  assert (Z.of_nat (length (packet t id data)) = 18 + Z.of_nat (length data)) as Hp.
  { unfold packet. rewrite length_app, length_header. lia. }
  rewrite Hp. mred. by rewrite Z.eqb_refl.
Qed.

Lemma recv_run n rest s d : s.(DEBUG.incoming) = d ++ rest -> n = Z.of_nat (length d) ->
  recv n s = Ok (n, d) (s <| DEBUG.incoming := rest |>).
Proof.
  intros Hin ->. unfold recv. rewrite (run_bind _ _ _ _ _ (run_gets _ _)), Hin, full_recv, length_app.
  rewrite Z.min_l by lia. rewrite (proj2 (Z.ltb_ge _ _)) by lia. rewrite Z.min_id, Nat2Z.id, take_app_length.
  rewrite (run_bind _ _ s tt (s <| DEBUG.incoming := rest |>)); [done|].
  destruct s as [m r i inc out c]. cbn in Hin. subst inc. unfold modify. cbn. by rewrite drop_app_length.
Qed.

(** The bytes [l] at the host address [a]. *)
Definition stored (a : Z) (l : list Z) (s : DEBUG.t) : DEBUG.t :=
  s <| DEBUG.machine ::= fun m => m <| Machine.Svmm ::= fun v => v <| SVMM.Memory ::= put_list a l |> |> |>.
Definition svmm_of (s : DEBUG.t) : SVMM.t := s.(DEBUG.machine).(Machine.Svmm).

(** The header passes its checks. *)
Lemma SvmmDbgRecv_header t a c n size rest s :
  is_u16 t -> s.(DEBUG.incoming) = header t (u32 (s.(DEBUG.SvmmPacketId) + 1)) c n ++ rest ->
  SvmmDbgRecv t a size s =
    receive_data 18 (header t (u32 (s.(DEBUG.SvmmPacketId) + 1)) c n) a size
      (s <| DEBUG.incoming := rest |> <| DEBUG.SvmmPacketId ::= fun i => u32 (i + 1) |>).
Proof.
  intros Ht Hstream. unfold SvmmDbgRecv. set (nr := u32 (s.(DEBUG.SvmmPacketId) + 1)) in *.
  set (h := header t nr c n) in *. pose proof (u32_range (DEBUG.SvmmPacketId s + 1) : is_u32 nr) as Hid.
  assert (h = h ++ []) as Hh by by rewrite app_nil_r.
  rewrite (run_bind _ _ _ _ _ (recv_run 18 rest s h Hstream eq_refl)). cbv beta iota zeta.
  assert (pkt_Magic h = DBG_MAGIC) as -> by (rewrite Hh; by apply magic_header).
  change (negb (18 =? 18) || negb (DBG_MAGIC =? DBG_MAGIC)) with false. cbv iota. unfold next_id.
  rewrite (run_bind _ _ (s <| DEBUG.incoming := rest |>) nr (s <| DEBUG.incoming := rest |> <| DEBUG.SvmmPacketId := nr |>)) by done.
  assert (pkt_Id h = nr) as -> by (rewrite Hh; by apply id_header).
  assert (pkt_Type h = t) as -> by (rewrite Hh; by apply type_header).
  by rewrite !Z.eqb_refl.
Qed.

Lemma size_h t i c n : is_u32 n -> pkt_Size (header t i c n) = n.
Proof. intros Hn. rewrite <- (app_nil_r (header t i c n)). by apply size_header. Qed.
Lemma checksum_h t i c n : is_u32 c -> pkt_Checksum (header t i c n) = c.
Proof. intros Hc. rewrite <- (app_nil_r (header t i c n)). by apply checksum_header. Qed.

Lemma SvmmDbgRecv_run t a data rest s :
  is_u16 t -> (0 < length data <= 2048)%nat -> a <> 0 ->
  inside (svmm_of s) a (Z.of_nat (length data)) = true ->
  s.(DEBUG.incoming) = packet t (u32 (s.(DEBUG.SvmmPacketId) + 1)) data ++ rest ->
  SvmmDbgRecv t a (Z.of_nat (length data)) s =
    Ok (18 + Z.of_nat (length data))
      (stored a data (s <| DEBUG.incoming := rest |> <| DEBUG.SvmmPacketId ::= fun i => u32 (i + 1) |>)).
Proof.
  intros Ht Hl Ha Hin Hstream. set (n := Z.of_nat (length data)) in *.
  unfold packet in Hstream. rewrite <- app_assoc in Hstream. fold n in Hstream.
  rewrite (SvmmDbgRecv_header t a _ n n (data ++ rest) s Ht Hstream).
  set (s2 := s <| DEBUG.incoming := data ++ rest |> <| DEBUG.SvmmPacketId ::= _ |>).
  unfold receive_data. assert (is_u32 n) as Hn by (unfold in_width; lia).
  rewrite size_h, checksum_h by (done || apply checksum_u32).
  assert (nz n = true) as -> by (unfold nz; apply negb_true_iff, Z.eqb_neq; lia). cbn [negb andb].
  rewrite (run_bind _ _ _ _ _ (recv_run n rest s2 data eq_refl eq_refl)). cbv beta iota zeta.
  unfold DBG_MAX_PACKET_DATA_SIZE. rewrite (proj2 (Z.ltb_ge _ _)) by lia.
  rewrite (run_bind _ _ _ _ _ (ComputeChecksum_run (buffer_with 2048 data) n _ ltac:(rewrite length_buffer; lia))).
  rewrite (take_buffer 2048 (Z.to_nat n) data) by lia. rewrite Z.eqb_refl. cbn [negb].
  set (s3 := s2 <| DEBUG.incoming := rest |>).
  assert (host (host_store a data) s3 = Ok tt (stored a data s3)) as Hstore.
  { unfold host, zoom, host_store, get_svmm. rewrite (run_bind _ _ _ _ _ (run_gets _ _)).
    rewrite (proj2 (Z.eqb_neq a 0) Ha). change (Machine.Svmm (DEBUG.machine s3)) with (svmm_of s).
    fold n. by rewrite Hin. }
  by rewrite (run_bind _ _ _ _ _ Hstore).
Qed.

Lemma SvmmDbgSend_none t s :
  SvmmDbgSend t None 0 s = Ok 18 (sent [header t (u32 (s.(DEBUG.SvmmPacketId) + 1)) 0 0] s).
Proof.
  unfold SvmmDbgSend, next_id. set (nr := u32 (s.(DEBUG.SvmmPacketId) + 1)).
  rewrite (run_bind _ _ s nr (s <| DEBUG.SvmmPacketId := nr |>)) by done.
  rewrite (run_bind _ _ _ 0 (s <| DEBUG.SvmmPacketId := nr |>)) by done.
  change (u32 0) with 0. change (default [] None) with (@nil Z). rewrite app_nil_r. unfold send.
  assert (send_len (header t nr 0 0) = 18) as -> by (by rewrite full_send, length_header).
  rewrite take_ge by (by rewrite length_header). done.
Qed.

(** C21 A packet arrives as it was sent: when both sides have counted the same number of
    packets, what [SvmmDbgRecv] stores in the memory of the receiver is the data that
    [SvmmDbgSend] was given, every check of the header passes, and the two sides have
    counted the same number again; the stream behind the packet is untouched. *)
Theorem packet_roundtrip t data a sender receiver rest :
  is_u16 t -> (0 < length data <= 2048)%nat ->
  a <> 0 -> inside (svmm_of receiver) a (Z.of_nat (length data)) = true ->
  receiver.(DEBUG.SvmmPacketId) = sender.(DEBUG.SvmmPacketId) ->
  exists n pkt sender' receiver',
    SvmmDbgSend t (Some data) (Z.of_nat (length data)) sender = Ok n sender' /\
    sender'.(DEBUG.outgoing) = pkt :: sender.(DEBUG.outgoing) /\
    SvmmDbgRecv t a (Z.of_nat (length data)) (receiver <| DEBUG.incoming := pkt ++ rest |>) = Ok n receiver' /\
    mem_bytes (svmm_of receiver') a (length data) = data /\
    receiver'.(DEBUG.SvmmPacketId) = sender'.(DEBUG.SvmmPacketId) /\ receiver'.(DEBUG.incoming) = rest.
Proof.
  intros Ht Hl Ha Hin Hid.
  eexists _, (packet t (u32 (sender.(DEBUG.SvmmPacketId) + 1)) data), _, _. split_and!.
  - apply SvmmDbgSend_run. lia.
  - done.
  - apply (SvmmDbgRecv_run t a data rest); [done|lia|done|done|]. cbn. by rewrite Hid.
  - apply put_list_read.
  - cbn. by rewrite Hid.
  - done.
Qed.

(** ** Reading the guest's memory *)

(** A range of guest-physical addresses that is plain RAM. *)
Definition flat (s : Machine.t) (Addr Size : Z) : Prop :=
  forall i, 0 <= i < Size -> host_page (smm_enabled s) s.(Machine.Svmm) (Addr + i) = s.(Machine.Svmm).(SVMM.Ram) + Addr + i.

(** The data [l] in packets of 2048 bytes, the last one shorter. *)
Fixpoint packets (n : nat) (t id : Z) (l : list Z) : list (list Z) :=
  match n with
  | O => []
  | S n => packet t (u32 (id + 1)) (take 2048 l) :: packets n t (u32 (id + 1)) (drop 2048 l)
  end.

Lemma length_packets n t id l : length (packets n t id l) = n.
Proof. revert id l. induction n; intros id l; simpl; [done|]. by rewrite IHn. Qed.

Lemma sent_sent p ps s : is_u32 s.(DEBUG.SvmmPacketId) -> sent ps (sent [p] s) = sent (p :: ps) s.
Proof.
  intros Hi. unfold sent. destruct s as [m r i inc out c]. cbn. f_equal.
  - unfold u32. rewrite Zplus_mod_idemp_l. f_equal. lia.
  - by rewrite <- app_assoc.
Qed.

(** The memory in packets. *)
Lemma packets_mem n t id v a m : 0 <= m ->
  packets (S n) t id (mem_bytes v a (Z.to_nat m)) =
    packet t (u32 (id + 1)) (mem_bytes v a (Z.to_nat (Z.min 2048 m))) ::
    packets n t (u32 (id + 1)) (mem_bytes v (a + 2048) (Z.to_nat (m - 2048))).
Proof.
  intros Hm. cbn [packets]. destruct (Z.leb_spec m 2048).
  - rewrite Z.min_r by lia. replace (Z.to_nat (m - 2048)) with 0%nat by lia.
    by rewrite take_ge, drop_ge by (rewrite length_mem_bytes; lia).
  - rewrite Z.min_l by lia. replace (Z.to_nat m) with (2048 + Z.to_nat (m - 2048))%nat by lia.
    rewrite mem_bytes_app, take_app_length', drop_app_length' by (by rewrite length_mem_bytes).
    by replace (a + Z.of_nat 2048) with (a + 2048) by lia.
Qed.

Section Range.
Context (Addr Size : Z).
Hypothesis (HA : 0 <= Addr) (Htop : Addr + Size < 2 ^ 63).

(** A server whose memory holds the range. *)
Definition holds (s : DEBUG.t) : Prop :=
  flat s.(DEBUG.machine) Addr Size /\ 0 < (svmm_of s).(SVMM.Ram) /\
  (svmm_of s).(SVMM.Ram) + Addr + Size <= (svmm_of s).(SVMM.MemoryEnd).

Lemma page_run i s : holds s -> 0 <= i < Size ->
  host (SvmmGetHostPageFromGPA (u64 (Addr + i))) s = Ok ((svmm_of s).(SVMM.Ram) + Addr + i) s.
Proof.
  intros [Hflat _] Hi. rewrite u64_small by (unfold in_width; lia).
  unfold host, zoom, SvmmGetHostPageFromGPA. rewrite run_gets, Hflat by lia. by destruct s.
Qed.
Lemma piece_small i : 0 <= i < Size -> piece Size i = Z.min 2048 (Size - i).
Proof.
  intros Hi. unfold piece, DBG_MAX_PACKET_DATA_SIZE. rewrite u64_small by (unfold in_width; lia).
  destruct (Z.ltb_spec 2048 (Size - i)); lia.
Qed.

Lemma read_piece_run i l s : holds s -> 0 <= i < Size ->
  read_pieces (i :: l) Addr Size s =
    read_pieces l Addr Size (sent [packet DBG_TYPE_READ_MEMORY (u32 (s.(DEBUG.SvmmPacketId) + 1))
      (mem_bytes (svmm_of s) ((svmm_of s).(SVMM.Ram) + Addr + i) (Z.to_nat (Z.min 2048 (Size - i))))] s).
Proof.
  intros Hs Hi. cbn [read_pieces]. rewrite (run_bind _ _ _ _ _ (page_run i s Hs Hi)).
  destruct Hs as (_ & Hram & Hend). set (a := SVMM.Ram (svmm_of s) + Addr + i).
  rewrite (proj2 (Z.eqb_neq a 0)) by lia. rewrite piece_small by done. set (len := Z.min 2048 (Size - i)).
  set (d := mem_bytes (svmm_of s) a (Z.to_nat len)).
  assert (host (host_copy a len) s = Ok d s) as Hbytes.
  { unfold host, zoom, host_copy, get_svmm. rewrite (run_bind _ _ _ _ _ (run_gets _ _)). fold (svmm_of s).
    rewrite (proj2 (Z.eqb_neq a 0)) by lia. unfold inside.
    rewrite (proj2 (Z.leb_le (SVMM.Ram (svmm_of s)) a)), (proj2 (Z.leb_le (a + len) (SVMM.MemoryEnd (svmm_of s)))) by lia.
    by destruct s. }
  rewrite (run_bind _ _ _ _ _ Hbytes).
  assert (length d = Z.to_nat len) as Hd by apply length_mem_bytes.
  replace len with (Z.of_nat (length d)) by lia.
  by rewrite (run_bind _ _ _ _ _ (SvmmDbgSend_run DBG_TYPE_READ_MEMORY d s ltac:(lia))).
Qed.

Lemma read_pieces_run n : forall k s,
  holds s -> is_u32 s.(DEBUG.SvmmPacketId) -> 0 <= k ->
  (n = 0%nat \/ 2048 * (k + Z.of_nat n - 1) < Size) ->
  read_pieces (map (Z.mul 2048) (seqZ k (Z.of_nat n))) Addr Size s =
    Ok tt (sent (packets n DBG_TYPE_READ_MEMORY s.(DEBUG.SvmmPacketId)
      (mem_bytes (svmm_of s) ((svmm_of s).(SVMM.Ram) + Addr + 2048 * k) (Z.to_nat (Size - 2048 * k)))) s).
Proof.
  induction n as [|n IH]; intros k s Hs Hid Hk Hn.
  { unfold sent. cbn. destruct s; cbn in *. by rewrite Z.add_0_r, u32_small by done. }
  destruct Hn as [Hn|Hn]; [done|]. rewrite seqZ_cons by lia. cbn [map].
  replace (Z.succ k) with (k + 1) by lia. replace (Z.pred (Z.of_nat (S n))) with (Z.of_nat n) by lia.
  rewrite read_piece_run by (done || lia). set (s1 := sent _ s).
  rewrite (IH (k + 1) s1) by (done || lia || apply u32_range).
  rewrite packets_mem by lia. rewrite <- sent_sent by done. fold s1.
  change (svmm_of s1) with (svmm_of s). change (DEBUG.SvmmPacketId s1) with (u32 (DEBUG.SvmmPacketId s + 1)).
  replace (2048 * (k + 1)) with (2048 * k + 2048) by lia. by rewrite Z.add_assoc, Z.sub_add_distr.
Qed.
End Range.

Lemma data_packet t id d : pkt_Data (packet t id d) = d.
Proof. apply data_header. Qed.

(** What a list of packets carries. *)
Definition payload (ps : list (list Z)) : list Z := concat (map pkt_Data ps).

Lemma payload_packets n t id l : (length l <= 2048 * n)%nat -> payload (packets n t id l) = l.
Proof.
  revert id l. induction n as [|n IH]; intros id l Hl.
  { destruct l; [done|simpl in Hl; lia]. }
  unfold payload in *. cbn [packets map concat]. rewrite IH by (rewrite length_drop; lia).
  rewrite data_packet. apply take_drop.
Qed.

Lemma packets_shape n t id l k p : packets n t id l !! k = Some p -> is_u32 id ->
  p = packet t (u32 (id + 1 + Z.of_nat k)) (pkt_Data p) /\ (length (pkt_Data p) <= 2048)%nat.
Proof.
  revert id l k. induction n as [|n IH]; intros id l [|k] Hk Hid; [done|done| |]; cbn [packets lookup list_lookup] in Hk.
  - injection Hk as <-. rewrite !data_packet, Z.add_0_r. split; [done|]. rewrite length_take. lia.
  - destruct (IH _ _ _ Hk (u32_range _)) as [Hp Hl]. split; [|done]. rewrite Hp at 1. f_equal.
    unfold u32. rewrite <- Z.add_assoc, Zplus_mod_idemp_l. f_equal. lia.
Qed.

(** C22 A request for the guest's memory is answered with the memory: when the range is
    plain RAM, the server sends packets of at most 2048 bytes, numbered on from the
    request, and what they carry, one after the other, is the bytes of the range; the
    memory and the rest of the machine stay as they are. *)
Theorem read_memory_sends Addr Size s :
  0 <= Addr -> 0 < Size -> Addr + Size < 2 ^ 63 -> holds Addr Size s ->
  (svmm_of s).(SVMM.Ram) + Addr + Size < (svmm_of s).(SVMM.MemoryEnd) < 2 ^ 64 ->
  is_u32 s.(DEBUG.SvmmPacketId) ->
  exists ps, read_memory Addr Size s = Ok tt (sent ps s) /\
    payload ps = mem_bytes (svmm_of s) ((svmm_of s).(SVMM.Ram) + Addr) (Z.to_nat Size) /\
    (forall k p, ps !! k = Some p ->
      p = packet DBG_TYPE_READ_MEMORY (u32 (s.(DEBUG.SvmmPacketId) + 1 + Z.of_nat k)) (pkt_Data p) /\
      (length (pkt_Data p) <= 2048)%nat).
Proof.
  intros HA HS Htop Hs [Hend Hmax] Hid. set (n := Z.to_nat ((Size + 2047) / 2048)).
  pose proof (Z.div_mod (Size + 2047) 2048 ltac:(lia)) as Hdiv. pose proof (Z.mod_pos_bound (Size + 2047) 2048 ltac:(lia)) as Hmod.
  set (v := svmm_of s) in *. set (l := mem_bytes v (v.(SVMM.Ram) + Addr) (Z.to_nat Size)).
  exists (packets n DBG_TYPE_READ_MEMORY s.(DEBUG.SvmmPacketId) l). split_and!.
  - unfold read_memory. pose proof (page_run Addr Size HA Htop 0 s Hs ltac:(lia)) as Hpage.
    rewrite Z.add_0_r, u64_small in Hpage by (unfold in_width; lia). rewrite (run_bind _ _ _ _ _ Hpage).
    assert (host get_svmm s = Ok v s) as Hv by (unfold host, zoom, get_svmm; rewrite run_gets; by destruct s).
    rewrite (run_bind _ _ _ _ _ Hv). fold v. destruct Hs as (Hflat & Hram & Hle). fold v in Hram.
    rewrite Z.add_0_r, u64_small by (unfold in_width; lia). rewrite (proj2 (Z.leb_gt _ _)) by lia.
    unfold offsets. assert (s64 Size = Size) as -> by (unfold s64, signed; rewrite Z.mod_small; lia).
    replace ((Size + 2047) / 2048) with (Z.of_nat n) by lia.
    rewrite (read_pieces_run Addr Size HA Htop n 0 s) by (done || lia).
    fold v. by rewrite Z.mul_0_r, Z.sub_0_r, Z.add_0_r.
  - apply payload_packets. unfold l. rewrite length_mem_bytes. lia.
  - intros k p Hk. by apply (packets_shape n _ _ l).
Qed.
End Reliable.

(** ** The loop ends

    Every turn takes a header of 18 bytes from the stream. *)

Definition shrinks (s s' : DEBUG.t) : Prop := (length s'.(DEBUG.incoming) <= length s.(DEBUG.incoming))%nat.
#[export] Instance shrinks_preorder : PreOrder shrinks.
Proof. split; repeat intro; unfold shrinks in *; lia. Qed.

(** A computation that does not run out of fuel. *)
Class Ends {S A} (m : M S A) : Prop := ends s : m s <> Fault Diverges.

Section Ends.
Context {S : Type}.
#[export] Instance ends_ret {A} (a : A) : Ends (mret a : M S A).
Proof. done. Qed.
#[export] Instance ends_done : Ends (done_ : M S unit).
Proof. done. Qed.
#[export] Instance ends_gets {A} (f : S -> A) : Ends (gets f).
Proof. done. Qed.
#[export] Instance ends_modify (f : S -> S) : Ends (modify f).
Proof. done. Qed.
#[export] Instance ends_bind {A B} (m : M S A) (k : A -> M S B) : Ends m -> (forall a, Ends (k a)) -> Ends (m ≫= k).
Proof.
  intros Hm Hk s. unfold mbind, M_bind. specialize (Hm s). destruct (m s) as [a s'|e]; [apply Hk|congruence].
Qed.
#[export] Instance ends_if {A} (b : bool) (m m' : M S A) : Ends m -> Ends m' -> Ends (if b then m else m').
Proof. by destruct b. Qed.
#[export] Instance ends_when b (m : M S unit) : Ends m -> Ends (when b m).
Proof. by destruct b. Qed.
#[export] Instance ends_zoom {T A} (p : S -> T) `{!Field p} (m : M T A) : Ends m -> Ends (zoom p m).
Proof. intros Hm s. unfold zoom. specialize (Hm (p s)). destruct (m (p s)); congruence. Qed.
End Ends.
#[export] Hint Extern 1 (Ends (stop _)) => discriminate : typeclass_instances.

Section Loop.
Context `{!Socket}.

#[local] Hint Extern 2 (Within shrinks (host _)) => (apply (within_zoom _ any); [intros; exact (Nat.le_refl _)|apply within_any]) : typeclass_instances.
#[local] Hint Extern 2 (Within shrinks (modify _)) => (apply within_modify; intros; exact (Nat.le_refl _)) : typeclass_instances.

(** A computation that does both. *)
Definition tame {A} (m : DBG A) : Prop := Ends m /\ Within shrinks m.

Lemma tame_bind {A B} (m : DBG A) (k : A -> DBG B) : tame m -> (forall a, tame (k a)) -> tame (m ≫= k).
Proof.
  intros [H1 H2] Hk. assert (forall a, Ends (k a)) by (intros; apply Hk).
  assert (forall a, Within shrinks (k a)) by (intros; apply Hk). split; apply _.
Qed.
Lemma tame_basic {A} (m : DBG A) : Ends m -> Within shrinks m -> tame m.
Proof. by split. Qed.
Lemma tame_host {A} (m : IO A) : Ends m -> tame (host m).
Proof. intros. split; [exact (ends_zoom DEBUG.machine m _)|apply _]. Qed.
Lemma tame_if {A} (b : bool) (m m' : DBG A) : tame m -> tame m' -> tame (if b then m else m').
Proof. by destruct b. Qed.

Lemma tame_recv n : tame (recv n).
Proof.
  split; unfold recv; [apply _|]. apply within_bind; [apply _|apply _|]. intros l. apply within_if; [apply _|].
  apply within_bind; [apply _| |intros; apply _]. apply within_modify. intros s. unfold shrinks. cbn. rewrite length_drop. lia.
Qed.
Lemma tame_checksum data n : tame (ComputeChecksum data n).
Proof. unfold ComputeChecksum. split; apply _. Qed.
Lemma tame_page a : Ends (SvmmGetHostPageFromGPA a).
Proof. unfold SvmmGetHostPageFromGPA. apply _. Qed.
Lemma tame_bytes a n : Ends (host_copy a n).
Proof. unfold host_copy, get_svmm. apply _. Qed.
Lemma tame_store a l : Ends (host_store a l).
Proof. unfold host_store, get_svmm. apply _. Qed.
Lemma tame_read a n : Ends (host_read a n).
Proof. unfold host_read, get_svmm. apply _. Qed.
Lemma tame_svmm : Ends get_svmm.
Proof. unfold get_svmm. apply _. Qed.

Create HintDb tame.
#[local] Hint Resolve tame_recv tame_checksum tame_page tame_bytes tame_store tame_read tame_svmm : tame.
Ltac tame_go :=
  repeat first
    [ progress intros
    | lazymatch goal with
      | |- tame (_ ≫= _) => apply tame_bind
      | |- tame (host _) => apply tame_host; auto 2 with tame nocore
      | |- tame (if _ then _ else _) => apply tame_if
      | |- tame (let _ := _ in _) => cbv zeta
      | |- tame ((fun _ => _) _) => cbv beta
      | |- tame (let '(_, _) := ?x in _) => destruct x
      | |- tame (match ?x with _ => _ end) => destruct x
      end
    | solve [auto 2 with tame nocore]
    | solve [apply tame_basic; unfold when, call, send, next_id; apply _] ].

Lemma tame_send t b n : tame (SvmmDbgSend t b n).
Proof. unfold SvmmDbgSend. tame_go. Qed.
Lemma tame_receive_data k h a n : tame (receive_data k h a n).
Proof. unfold receive_data. tame_go. Qed.
#[local] Hint Resolve tame_receive_data : tame.
Lemma tame_receive t a n : tame (SvmmDbgRecv t a n).
Proof. unfold SvmmDbgRecv. tame_go. Qed.
#[local] Hint Resolve tame_send tame_receive : tame.
Lemma tame_read_pieces l a n : tame (read_pieces l a n).
Proof. induction l as [|i l IH]; cbn [read_pieces]; tame_go. Qed.
Lemma tame_write_pieces l a n : tame (write_pieces l a n).
Proof. induction l as [|i l IH]; cbn [write_pieces]; tame_go. Qed.
#[local] Hint Resolve tame_read_pieces tame_write_pieces : tame.
Lemma tame_read_memory a n : tame (read_memory a n).
Proof. unfold read_memory. tame_go. Qed.
Lemma tame_write_memory a n : tame (write_memory a n).
Proof. unfold write_memory. tame_go. Qed.
Lemma tame_write_registers n d : tame (write_registers n d).
Proof. unfold write_registers. tame_go. Qed.
Lemma tame_init n d : tame (init_request n d).
Proof. unfold init_request. tame_go. Qed.
Lemma tame_msr f r g d : tame (msr_request f r g d).
Proof. unfold msr_request. tame_go. Qed.
#[local] Hint Resolve tame_read_memory tame_write_memory tame_write_registers tame_init tame_msr : tame.
Lemma tame_dispatch t n d : tame (dispatch t n d).
Proof. unfold dispatch. tame_go. Qed.
Lemma tame_request_data h : tame (request_data h).
Proof. unfold request_data. tame_go. Qed.

(** The types that a resume request gives back. *)
Definition resumes (r : Z) : Prop := r = 0 \/ r = DBG_TYPE_STEP_INTO \/ r = DBG_TYPE_STEP_OVER \/ r = DBG_TYPE_RUN.

Definition returns_only (Q : Z -> Prop) (m : DBG (option Z)) : Prop :=
  forall s r s', m s = Ok (Some r) s' -> Q r.
Lemma returns_none {A} (m : DBG A) Q : returns_only Q (m ≫= fun _ => mret None).
Proof. intros s r s' Hr. apply bind_Ok in Hr as (? & ? & _ & [=]). Qed.
Lemma dispatch_returns t n d : returns_only resumes (dispatch t n d).
Proof.
  assert (returns_only resumes (mret None)) as Hnone by (intros ? ? ? [=]).
  assert (returns_only resumes (stop Exit)) as Hstop by (intros ? ? ? [=]).
  unfold dispatch. repeat (case_if; try apply returns_none; try exact Hnone; try exact Hstop); intros s1 r s2 Hr;
    repeat lazymatch type of Hr with (_ ≫= _) _ = _ => apply bind_Ok in Hr as (? & ? & _ & Hr) end;
    first [discriminate Hr|injection Hr as <- _]; unfold resumes; [auto|].
  match goal with H : _ || _ = true |- _ => apply orb_true_iff in H as [->%Z.eqb_eq | ->%Z.eqb_eq] end; auto.
Qed.
End Loop.

Section Faults.
Context `{!Socket}.

Lemma recv_takes n s m d s' : recv n s = Ok (m, d) s' -> m <> -1 ->
  m = Z.of_nat (length d) /\ (length s'.(DEBUG.incoming) + length d = length s.(DEBUG.incoming))%nat.
Proof.
  unfold recv. rewrite (run_bind _ _ _ _ _ (run_gets _ _)). case_if; [by intros [= <- <- <-]|].
  set (k := Z.to_nat _). rewrite (run_bind _ _ s tt (s <| DEBUG.incoming ::= drop (length (take k s.(DEBUG.incoming))) |>)) by done.
  intros [= <- <- <-] _. split; [done|]. cbn. rewrite length_drop, length_take. lia.
Qed.

(** The result of the loop: the request that resumes the guest, or a fault that is not
    the end of the fuel. *)
Definition answered (o : outcome DEBUG.t Z) : Prop :=
  match o with Ok r _ => resumes r | Fault e => e <> Diverges end.

Lemma tame_step {A} (m : DBG A) (k : A -> DBG Z) s : tame m ->
  (forall a s', m s = Ok a s' -> shrinks s s' -> answered (k a s')) -> answered ((m ≫= k) s).
Proof.
  intros [Hends Hshrinks] Hk. unfold mbind, M_bind. specialize (Hends s). specialize (Hshrinks s). unfold wlp in Hshrinks.
  destruct (m s) as [a s'|e]; [by apply Hk|]. intros ->. done.
Qed.

Lemma dbg_loop_ends fuel : forall s, (length s.(DEBUG.incoming) < fuel)%nat -> answered (dbg_loop fuel s).
Proof.
  induction fuel as [|fuel IH]; intros s Hf; [lia|]. cbn [dbg_loop].
  rewrite (run_bind _ _ _ _ _ (run_gets _ _)). cbv zeta. case_if; [done|]. case_if; [by left|].
  apply tame_step; [apply tame_recv|]. intros [n h] s1 Hrecv _.
  destruct (negb (n =? 18) || negb (pkt_Magic h =? DBG_MAGIC)) eqn:Hh; [done|].
  apply orb_false_iff in Hh as [Hn%negb_false_iff%Z.eqb_eq _]. subst n.
  destruct (recv_takes 18 s 18 h s1 Hrecv ltac:(done)) as [Hn Hl].
  rewrite (run_bind _ _ s1 (u32 (s1.(DEBUG.SvmmPacketId) + 1)) (s1 <| DEBUG.SvmmPacketId ::= fun i => u32 (i + 1) |>)) by done.
  case_if; [done|]. apply tame_step; [apply tame_request_data|]. intros Data s2 _ Hs2.
  apply tame_step; [apply tame_dispatch|]. intros [r|] s3 Hd Hs3; [by eapply dispatch_returns|].
  apply IH. unfold shrinks in *. cbn in Hs2. lia.
Qed.

End Faults.

Section Errors.
Context `{!Socket, !Reliable}.

(** A client can end the server in two ways that C leaves undefined.  A request to
    write one byte at an address without memory is answered with an error, and then the
    null pointer is read; and a packet of data whose header says more than the 2048 bytes
    that the receiver has room for is summed and copied past the end of its buffer. *)
Theorem client_faults s :
  (forall Addr, host_page (smm_enabled s.(DEBUG.machine)) (svmm_of s) Addr = 0 -> 0 <= Addr < 2 ^ 64 ->
     1 < (svmm_of s).(SVMM.MemoryEnd) -> write_memory Addr 1 s = Fault NullPointer) /\
  (forall t a size big data rest, is_u16 t -> 0 < size -> is_u32 big -> 2048 < big ->
     length data = Z.to_nat size -> (length data <= 2048)%nat ->
     s.(DEBUG.incoming) = header t (u32 (s.(DEBUG.SvmmPacketId) + 1)) 0 big ++ data ++ rest ->
     SvmmDbgRecv t a size s = Fault OutOfBounds).
Proof.
  split.
  - intros Addr Hpage HA Hend. unfold write_memory.
    assert (forall s', smm_enabled s'.(DEBUG.machine) = smm_enabled s.(DEBUG.machine) -> svmm_of s' = svmm_of s ->
      host (SvmmGetHostPageFromGPA Addr) s' = Ok 0 s') as Hrun.
    { intros s' Hsmm Hv. unfold host, zoom, SvmmGetHostPageFromGPA. rewrite run_gets, Hsmm.
      change (Machine.Svmm (DEBUG.machine s')) with (svmm_of s'). rewrite Hv, Hpage. by destruct s'. }
    rewrite (run_bind _ _ _ _ _ (Hrun s eq_refl eq_refl)).
    assert (host get_svmm s = Ok (svmm_of s) s) as Hv by (unfold host, zoom, get_svmm; rewrite run_gets; by destruct s).
    rewrite (run_bind _ _ _ _ _ Hv). change (u64 (0 + 1)) with 1. rewrite (proj2 (Z.leb_gt _ _)) by lia.
    change (offsets 1) with [0]. cbn [write_pieces]. rewrite Z.add_0_r, u64_small by (unfold in_width; lia).
    rewrite (run_bind _ _ s tt (sent [header DBG_TYPE_WRITE_MEMORY (u32 (s.(DEBUG.SvmmPacketId) + 1)) 0 0] s)).
    2: { rewrite (run_bind _ _ _ _ _ (Hrun s eq_refl eq_refl)). cbn [Z.eqb].
         by rewrite (run_bind _ _ _ _ _ (SvmmDbgSend_none DBG_TYPE_WRITE_MEMORY s)). }
    cbn [Z.eqb Pos.eqb]. set (s1 := sent _ s). rewrite (run_bind _ _ _ _ _ (Hrun s1 eq_refl eq_refl)).
    apply run_fault. unfold host, zoom, host_read, get_svmm. by rewrite (run_bind _ _ _ _ _ (run_gets _ _)).
  - intros t a size big data rest Ht Hs Hbig Hb Hd Hl Hin.
    rewrite (SvmmDbgRecv_header t a 0 big size (data ++ rest) s Ht Hin). set (s2 := s <| DEBUG.incoming := _ |> <| DEBUG.SvmmPacketId ::= _ |>).
    unfold receive_data. rewrite size_h by done.
    assert (nz size = true) as -> by (unfold nz; apply negb_true_iff, Z.eqb_neq; lia).
    assert (nz big = true) as -> by (unfold nz; apply negb_true_iff, Z.eqb_neq; lia). cbn [negb andb].
    rewrite (run_bind _ _ _ _ _ (recv_run size rest s2 data eq_refl ltac:(lia))). cbv beta iota zeta.
    unfold DBG_MAX_PACKET_DATA_SIZE. rewrite (proj2 (Z.ltb_ge _ _)) by lia.
    apply run_fault. unfold ComputeChecksum. by rewrite length_buffer, (proj2 (Z.ltb_lt _ _)) by lia.
Qed.
End Errors.

(** ** Examples *)

#[local] Instance example_socket : Socket := {|
  listens := true; select_result _ := 1;
  recv_len l n := Z.min n (Z.of_nat (length l));
  send_len p := Z.of_nat (length p);
  msrs_answer b := b
|}.
#[local] Instance example_reliable : Reliable.
Proof. by split. Qed.

Lemma flat_low s Addr Size : smm_enabled s = false -> 0 <= s.(Machine.Svmm).(SVMM.Ram) ->
  0xE0000 <= s.(Machine.Svmm).(SVMM.RamSize) ->
  s.(Machine.Svmm).(SVMM.Ram) + s.(Machine.Svmm).(SVMM.RamSize) <= s.(Machine.Svmm).(SVMM.MemoryEnd) < 2 ^ 64 ->
  0 <= Addr -> Addr + Size <= 0xE0000 -> flat s Addr Size.
Proof.
  intros Hsmm Hram Hsize Hend HA HS i Hi. unfold host_page. rewrite Hsmm. cbv zeta.
  rewrite (proj2 (Z.leb_gt 0xFFFE0000 (Addr + i))), (proj2 (Z.leb_gt 0xE0000 (Addr + i))) by lia. cbn [andb].
  rewrite u64_small by (unfold in_width; lia). rewrite (proj2 (Z.leb_gt _ _)) by lia. lia.
Qed.

Definition example_debug (incoming : list Z) : DEBUG.t :=
  DEBUG.mk example_guest (replicate 1648 0) 0 incoming [] [].

Lemma example_no_smm : smm_enabled example_guest = false.
Proof. vm_compute. reflexivity. Qed.
Lemma example_holds l : holds 0x1000 5000 (example_debug l).
Proof.
  split; [|split; [reflexivity|discriminate]].
  apply flat_low; [exact example_no_smm|discriminate|discriminate|split; [discriminate|reflexivity]|discriminate|discriminate].
Qed.

Lemma read_memory_sends_witness : exists ps,
  read_memory 0x1000 5000 (example_debug []) = Ok tt (sent ps (example_debug [])) /\ length (payload ps) = 5000%nat.
Proof.
  destruct (read_memory_sends 0x1000 5000 (example_debug [])) as (ps & Hr & Hp & _).
  - discriminate.
  - reflexivity.
  - reflexivity.
  - apply example_holds.
  - split; reflexivity.
  - split; [discriminate|reflexivity].
  - exists ps. split; [exact Hr|]. rewrite Hp. apply length_mem_bytes.
Defined.

Lemma packet_roundtrip_witness : exists n pkt sender' receiver',
  SvmmDbgSend 3 (Some [0xcc; 1; 2]) 3 (example_debug []) = Ok n sender' /\
  sender'.(DEBUG.outgoing) = [pkt] /\
  SvmmDbgRecv 3 (2 ^ 40 + 0x2000) 3 (example_debug (pkt ++ [7])) = Ok n receiver' /\
  mem_bytes (svmm_of receiver') (2 ^ 40 + 0x2000) 3 = [0xcc; 1; 2] /\
  receiver'.(DEBUG.SvmmPacketId) = sender'.(DEBUG.SvmmPacketId) /\ receiver'.(DEBUG.incoming) = [7].
Proof.
  apply (packet_roundtrip 3 [0xcc; 1; 2] (2 ^ 40 + 0x2000) (example_debug []) (example_debug []) [7]).
  - split; [discriminate|reflexivity].
  - split; [apply Nat.lt_0_succ|apply Nat.leb_le; reflexivity].
  - discriminate.
  - reflexivity.
  - reflexivity.
Defined.


Lemma client_faults_witness :
  write_memory 0x50000000 1 (example_debug []) = Fault NullPointer /\
  SvmmDbgRecv 3 (2 ^ 40) 1 (example_debug (header 3 1 0 4096 ++ [7])) = Fault OutOfBounds.
Proof.
  split.
  - apply (proj1 (client_faults (example_debug []))).
    + unfold example_debug, svmm_of. cbn [DEBUG.machine]. rewrite example_no_smm. reflexivity.
    + split; [discriminate|reflexivity].
    + reflexivity.
  - apply (proj2 (client_faults (example_debug (header 3 1 0 4096 ++ [7]))) 3 (2 ^ 40) 1 4096 [7] []).
    + split; [discriminate|reflexivity].
    + reflexivity.
    + split; [discriminate|reflexivity].
    + reflexivity.
    + reflexivity.
    + apply Nat.leb_le. reflexivity.
    + reflexivity.
Defined.
