(* ===== verification/GvmInit.v ===== *)
(** gvm.c 27-374: opening the driver and configuring the machine.

    [gvm_init] asks the driver for a machine and a processor, passes it the features and
    the model-specific registers that the processor has, gives it the memory slots of
    Gvm.v and maps the page that the two share.  What the driver answers is the interface
    [Hypervisor]; allocations succeed. *)

From S2P Require Export Gvm.

(** kvm.h *)
Module kvm_cpuid_entry.
Record t := mk {
  function : Z;
  index : Z;
  flags : Z;
  eax : Z;
  ebx : Z;
  ecx : Z;
  edx : Z
}.
#[export] Instance eta_t : Eta t := fun r => mk r.(function) r.(index) r.(flags) r.(eax) r.(ebx) r.(ecx) r.(edx).
Definition zero : t := mk 0 0 0 0 0 0 0.
End kvm_cpuid_entry.
Export (hints) kvm_cpuid_entry.
Module kvm_msr_entry.
Record t := mk {
  index : Z;
  data : Z
}.
#[export] Instance eta_t : Eta t := fun r => mk r.(index) r.(data).
End kvm_msr_entry.
Export (hints) kvm_msr_entry.

Definition GVM_MAX_CPUID_ENTRIES : nat := 80.
Definition INVALID_GVM : Z := 2 ^ 64 - 1.

(** What the driver answers.  [create_vm] and [create_vcpu] are the number of bytes that
    it returns and the handle; the tables are those that it leaves in the buffers it is
    given, [None] for a refusal. *)
Class Hypervisor := {
  gvm_device : Z;
  create_vm : Z * Z;
  supported_cpuid : list kvm_cpuid_entry.t -> option (list kvm_cpuid_entry.t);
  msr_count : Z;
  msr_index_list : Z -> option (Z * list Z);
  create_vcpu : Z * Z;
  get_msrs : list kvm_msr_entry.t -> option (list kvm_msr_entry.t);
  vcpu_mmap : option Z;
  accept_cpuid : list kvm_cpuid_entry.t -> bool
}.

(** The globals of gvm.c beside the slots, and what the processor was configured with. *)
Module INIT.
Record t := mk {
  machine : Machine.t;
  hGvmDev : Z;
  hGvmVm : Z;
  hGvmCpu : Z;
  cpuids : list kvm_cpuid_entry.t;
  msrs : list kvm_msr_entry.t;
  kvm_run : Z;
  pio_data : Z;
  configured : option (list kvm_cpuid_entry.t)
}.
#[export] Instance eta_t : Eta t := fun r => mk r.(machine) r.(hGvmDev) r.(hGvmVm) r.(hGvmCpu)
  r.(cpuids) r.(msrs) r.(kvm_run) r.(pio_data) r.(configured).
Definition zero : t := mk Machine.zero 0 0 0 [] [] 0 0 None.
End INIT.
Export (hints) INIT.
Notation GVM_IO := (M INIT.t).

Section Init.
Context `{!Driver, !Hypervisor}.

(** The body of the loop over the features: RDTSCP is hidden. *)
Definition hide_rdtscp (e : kvm_cpuid_entry.t) : kvm_cpuid_entry.t :=
  if e.(kvm_cpuid_entry.function) =? 0x80000001
  then e <| kvm_cpuid_entry.edx ::= fun v => v &. u32 (~. bit 27) |> else e.

Definition read_cpuids : GVM_IO unit :=
  let request := replicate GVM_MAX_CPUID_ENTRIES kvm_cpuid_entry.zero in
  match supported_cpuid request with
  | None => stop Exit
  | Some l => modify (fun s => s <| INIT.cpuids := map hide_rdtscp l |>)
  end.

(** The first request asks for the number only; the list has room for as many.  The loop
    that prints the list trusts the number of the second answer. *)
Definition read_msr_list : GVM_IO (list Z) :=
  match msr_index_list (u32 msr_count) with
  | None => stop Exit
  | Some (nmsrs, indices) =>
      if u32 msr_count <? nmsrs then stop OutOfBounds else mret (take (Z.to_nat nmsrs) indices)
  end.

(** [goto error] when the driver answers another number of bytes or a null handle. *)
Definition handle (answer : Z * Z) : GVM_IO Z :=
  if negb (answer.1 =? 8) || (answer.2 =? 0) then stop Exit else mret answer.2.

Definition read_msrs (indices : list Z) : GVM_IO unit :=
  match get_msrs (map (fun i => kvm_msr_entry.mk i 0) indices) with
  | None => stop Exit
  | Some l => modify (fun s => s <| INIT.msrs := l |>)
  end.

Definition map_run : GVM_IO unit :=
  match vcpu_mmap with
  | None => stop Exit
  | Some p => modify (fun s => s <| INIT.kvm_run := p |> <| INIT.pio_data := u64 (p + PAGE_SIZE) |>)
  end.

Definition set_cpuid : GVM_IO unit :=
  l ← gets INIT.cpuids;
  if accept_cpuid l then modify (fun s => s <| INIT.configured := Some l |>) else stop Exit.

(** The result is -1 without the driver; every other failure ends the program. *)
Definition gvm_init (ram ram_size : Z) : GVM_IO Z :=
  modify (fun s => s <| INIT.hGvmCpu := 0 |> <| INIT.hGvmVm := 0 |> <| INIT.hGvmDev := gvm_device |>) ;;
  if gvm_device =? INVALID_GVM then mret (-1)
  else
    vm ← handle create_vm;
    modify (fun s => s <| INIT.hGvmVm := vm |>) ;;
    read_cpuids ;;
    indices ← read_msr_list;
    cpu ← handle create_vcpu;
    modify (fun s => s <| INIT.hGvmCpu := cpu |>) ;;
    read_msrs indices ;;
    zoom INIT.machine (gvm_init_slots ram ram_size) ;;
    map_run ;;
    set_cpuid ;;
    mret 0.

(** ** What is configured *)

(** A feature is shown as the processor has it, RDTSCP apart. *)
Definition shown_as (e e' : kvm_cpuid_entry.t) : Prop :=
  e'.(kvm_cpuid_entry.function) = e.(kvm_cpuid_entry.function) /\
  (e.(kvm_cpuid_entry.function) <> 0x80000001 -> e' = e) /\
  (e.(kvm_cpuid_entry.function) = 0x80000001 -> forall n, 0 <= n < 32 ->
     Z.testbit e'.(kvm_cpuid_entry.edx) n = negb (n =? 27) && Z.testbit e.(kvm_cpuid_entry.edx) n).

Lemma hide_rdtscp_shown e : shown_as e (hide_rdtscp e).
Proof.
  unfold hide_rdtscp, shown_as. destruct (Z.eqb_spec e.(kvm_cpuid_entry.function) 0x80000001) as [E|E].
  - split; [done|]. split; [done|]. intros _ n Hn. cbn [kvm_cpuid_entry.edx].
    change (Z.testbit (e.(kvm_cpuid_entry.edx) &. u32 (~. bit 27)) n = negb (n =? 27) && Z.testbit e.(kvm_cpuid_entry.edx) n).
    rewrite Z.land_spec, testbit_u32, Z.lnot_spec, testbit_bit by lia.
    rewrite (proj2 (Z.ltb_lt n 32)) by lia. by rewrite andb_comm.
  - split; [done|]. by split.
Qed.

(** The driver does not claim more registers than the list had room for. *)
Class HypervisorLaws : Prop := {
  msr_list_fits n m l : msr_index_list n = Some (m, l) -> m <= n
}.

(** The slots are refused or stored. *)
Lemma store_regions_exit rs s e : (forall r, r ∈ rs -> 0 <= r.(kvm_userspace_memory_region.slot) < 256) ->
  length (mem_slots s) = 256%nat ->
  foreach rs (fun r => set_region r ;; upd_at mem_slots r.(kvm_userspace_memory_region.slot) (fun _ => r)) s = Fault e -> e = Exit.
Proof.
  revert s. induction rs as [|r rs IH]; intros s Hrs Hlen; [done|]. simpl. unfold mbind, M_bind. rewrite set_region_run.
  destruct (accepts r s); [|by intros [= <-]]. unfold upd_at.
  destruct (nthZ_is_Some (mem_slots (issued r s)) r.(kvm_userspace_memory_region.slot)) as [x Hx].
  { change (mem_slots (issued r s)) with (mem_slots s). rewrite Hlen. apply Hrs. set_solver. }
  rewrite Hx. apply IH; [intros; apply Hrs; set_solver|]. cbn. by rewrite length_updZ.
Qed.

Lemma gvm_init_slots_exit ram ram_size s e : s.(Machine.Gvm) = GVM.zero -> gvm_init_slots ram ram_size s = Fault e -> e = Exit.
Proof.
  intros Hz. unfold gvm_init_slots. unfold mbind at 1, M_bind at 1. destruct (foreach _ _ s) as [[] s1|e1] eqn:E.
  - unfold gvm_init_smm_regions. cbn [foreach]. unfold mbind, M_bind, modify. cbv beta zeta.
    do 2 (rewrite set_region_run; destruct (accepts _ _); [|by intros [= <-]]). done.
  - intros [= <-]. revert E. apply store_regions_exit; [|by unfold mem_slots; rewrite Hz].
    intros r Hr%list_elem_of_In. simpl in Hr. destruct_or! Hr; subst; cbn; (lia || done).
Qed.

Definition asked_features : list kvm_cpuid_entry.t := replicate GVM_MAX_CPUID_ENTRIES kvm_cpuid_entry.zero.

(** A computation that gives [Q] or ends the program. *)
Definition exits_or {A} (m : GVM_IO A) (Q : A -> INIT.t -> Prop) (s : INIT.t) : Prop :=
  match m s with Ok a s' => Q a s' | Fault e => e = Exit end.
Lemma exits_bind {A B} (m : GVM_IO A) (k : A -> GVM_IO B) Q s :
  exits_or m (fun a => exits_or (k a) Q) s -> exits_or (m ≫= k) Q s.
Proof. unfold exits_or, mbind, M_bind. by destruct (m s). Qed.
Lemma exits_mono {A} (m : GVM_IO A) (P Q : A -> INIT.t -> Prop) s :
  exits_or m P s -> (forall a s', P a s' -> Q a s') -> exits_or m Q s.
Proof. unfold exits_or. destruct (m s); auto. Qed.

Lemma handle_exits x s : exits_or (handle x) (fun a s' => a <> 0 /\ s' = s) s.
Proof.
  unfold exits_or, handle. destruct (negb (x.1 =? 8) || (x.2 =? 0)) eqn:E; [done|].
  by apply orb_false_iff in E as [_ E%Z.eqb_neq].
Qed.
Lemma read_cpuids_exits s : exits_or read_cpuids (fun _ s' => exists l, supported_cpuid asked_features = Some l /\
  s' = s <| INIT.cpuids := map hide_rdtscp l |>) s.
Proof. unfold exits_or, read_cpuids. fold asked_features. destruct (supported_cpuid asked_features); [|done]. cbn. eauto. Qed.
Lemma read_msr_list_exits `{!HypervisorLaws} s : exits_or read_msr_list (fun _ s' => s' = s) s.
Proof.
  unfold exits_or, read_msr_list. destruct (msr_index_list _) as [[m l]|] eqn:E; [|done].
  by rewrite (proj2 (Z.ltb_ge _ _)) by by eapply msr_list_fits.
Qed.
Lemma read_msrs_exits l s : exits_or (read_msrs l) (fun _ s' => exists v, s' = s <| INIT.msrs := v |>) s.
Proof. unfold exits_or, read_msrs. destruct (get_msrs _); [|done]. cbn. eauto. Qed.
Lemma slots_exits ram ram_size s : 0x100000 <= ram_size <= 0xfffe0000 -> s.(INIT.machine).(Machine.Gvm) = GVM.zero ->
  exits_or (zoom INIT.machine (gvm_init_slots ram ram_size)) (fun _ s' => exists m, slots_ok m /\ s' = s <| INIT.machine := m |>) s.
Proof.
  intros Hsize Hz. unfold exits_or, zoom. destruct (gvm_init_slots ram ram_size s.(INIT.machine)) as [[] m|e] eqn:E.
  - exists m. split; [by eapply gvm_init_slots_ok|done].
  - by eapply gvm_init_slots_exit.
Qed.
Lemma map_run_exits s : exits_or map_run (fun _ s' => exists p, vcpu_mmap = Some p /\
  s' = s <| INIT.kvm_run := p |> <| INIT.pio_data := u64 (p + PAGE_SIZE) |>) s.
Proof. unfold exits_or, map_run. destruct vcpu_mmap; [|done]. cbn. eauto. Qed.
Lemma set_cpuid_exits s : exits_or set_cpuid (fun _ s' => s' = s <| INIT.configured := Some s.(INIT.cpuids) |>) s.
Proof. unfold exits_or, set_cpuid, mbind, M_bind, gets. by destruct (accept_cpuid _). Qed.

End Init.

(** ** A driver that grants everything *)

#[local] Existing Instance example_driver.
#[local] Instance example_hypervisor : Hypervisor := {|
  gvm_device := 4;
  create_vm := (8, 8);
  supported_cpuid l := Some (kvm_cpuid_entry.mk 0x80000001 0 0 0 0 0x20100800 0x2bd3fbff :: drop 1 l);
  msr_count := 2;
  msr_index_list n := Some (Z.min 2 n, [0x174; 0xc0000080]);
  create_vcpu := (8, 12);
  get_msrs l := Some l;
  vcpu_mmap := Some 0x10000000;
  accept_cpuid _ := true
|}.
#[local] Instance example_laws : HypervisorLaws.
Proof. split. intros n m l [= <- <-]. lia. Qed.

