(* ===== verification/GvmRegs.v ===== *)
(** gvm.c 700-876, SVMM.c: the transfer of the registers.

    The program keeps the registers of the processor in the layout of its first back end
    ([struct Registers]) and converts them at each transfer to and from the two structures
    of the driver.  What the driver keeps is the interface [Processor]. *)

From S2P Require Export Memory.

(** haxm.h: [struct segment_desc_t], with the named bits of [ar]. *)
Module segment_desc_t.
Record t := mk {
  selector : Z;
  limit : Z;
  base : Z;
  type : Z;
  desc : Z;
  dpl : Z;
  present : Z;
  available : Z;
  long_mode : Z;
  operand_size : Z;
  granularity : Z
}.
#[export] Instance eta_t : Eta t := fun r => mk
  r.(selector) r.(limit) r.(base) r.(type) r.(desc) r.(dpl) r.(present) r.(available)
  r.(long_mode) r.(operand_size) r.(granularity).
Definition zero : t := mk 0 0 0 0 0 0 0 0 0 0 0.
End segment_desc_t.
Export (hints) segment_desc_t.

(** haxm.h: [struct vcpu_state_t], as far as the program uses it. *)
Module vcpu_state_t.
Record t := mk {
  _rax : Z;
  _rcx : Z;
  _rdx : Z;
  _rbx : Z;
  _rsp : Z;
  _rbp : Z;
  _rsi : Z;
  _rdi : Z;
  _r8 : Z;
  _r9 : Z;
  _r10 : Z;
  _r11 : Z;
  _r12 : Z;
  _r13 : Z;
  _r14 : Z;
  _r15 : Z;
  _rip : Z;
  _rflags : Z;
  _cs : segment_desc_t.t;
  _ss : segment_desc_t.t;
  _ds : segment_desc_t.t;
  _es : segment_desc_t.t;
  _fs : segment_desc_t.t;
  _gs : segment_desc_t.t;
  _ldt : segment_desc_t.t;
  _tr : segment_desc_t.t;
  _gdt : segment_desc_t.t;
  _idt : segment_desc_t.t;
  _cr0 : Z;
  _cr2 : Z;
  _cr3 : Z;
  _cr4 : Z;
  _dr0 : Z;
  _dr1 : Z;
  _dr2 : Z;
  _dr3 : Z;
  _dr6 : Z;
  _dr7 : Z;
  _efer : Z
}.
#[export] Instance eta_t : Eta t := fun r => mk
  r.(_rax) r.(_rcx) r.(_rdx) r.(_rbx) r.(_rsp) r.(_rbp) r.(_rsi) r.(_rdi) r.(_r8) r.(_r9)
  r.(_r10) r.(_r11) r.(_r12) r.(_r13) r.(_r14) r.(_r15) r.(_rip) r.(_rflags) r.(_cs) r.(_ss)
  r.(_ds) r.(_es) r.(_fs) r.(_gs) r.(_ldt) r.(_tr) r.(_gdt) r.(_idt) r.(_cr0) r.(_cr2) r.(_cr3)
  r.(_cr4) r.(_dr0) r.(_dr1) r.(_dr2) r.(_dr3) r.(_dr6) r.(_dr7) r.(_efer).
Definition zero : t := mk 0 0 0 0 0 0 0 0 0 0 0 0 0 0 0 0 0 0 segment_desc_t.zero segment_desc_t.zero segment_desc_t.zero segment_desc_t.zero segment_desc_t.zero segment_desc_t.zero segment_desc_t.zero segment_desc_t.zero segment_desc_t.zero segment_desc_t.zero 0 0 0 0 0 0 0 0 0 0 0.
End vcpu_state_t.
Export (hints) vcpu_state_t.

(** haxm.h: the fields of [struct fx_layout] that are set. *)
Module fx_layout.
Record t := mk {
  mxcsr : Z;
  mxcsr_mask : Z
}.
#[export] Instance eta_t : Eta t := fun r => mk
  r.(mxcsr) r.(mxcsr_mask).
Definition zero : t := mk 0 0.
End fx_layout.
Export (hints) fx_layout.

(** haxm.h: [struct Registers], as far as the program uses it. *)
Module Registers.
Record t := mk {
  context : vcpu_state_t.t;
  fx : fx_layout.t;
  xcr0 : Z;
  cr8 : Z;
  smbase : Z;
  apicbase : Z;
  pat : Z;
  fmask : Z
}.
#[export] Instance eta_t : Eta t := fun r => mk
  r.(context) r.(fx) r.(xcr0) r.(cr8) r.(smbase) r.(apicbase) r.(pat) r.(fmask).
Definition zero : t := mk vcpu_state_t.zero fx_layout.zero 0 0 0 0 0 0.
End Registers.
Export (hints) Registers.

(** kvm.h: [struct kvm_regs]. *)
Module kvm_regs.
Record t := mk {
  rax : Z;
  rbx : Z;
  rcx : Z;
  rdx : Z;
  rsi : Z;
  rdi : Z;
  rsp : Z;
  rbp : Z;
  r8 : Z;
  r9 : Z;
  r10 : Z;
  r11 : Z;
  r12 : Z;
  r13 : Z;
  r14 : Z;
  r15 : Z;
  rip : Z;
  rflags : Z
}.
#[export] Instance eta_t : Eta t := fun r => mk
  r.(rax) r.(rbx) r.(rcx) r.(rdx) r.(rsi) r.(rdi) r.(rsp) r.(rbp) r.(r8) r.(r9) r.(r10) r.(r11)
  r.(r12) r.(r13) r.(r14) r.(r15) r.(rip) r.(rflags).
Definition zero : t := mk 0 0 0 0 0 0 0 0 0 0 0 0 0 0 0 0 0 0.
End kvm_regs.
Export (hints) kvm_regs.

(** kvm.h: [struct kvm_segment]. *)
Module kvm_segment.
Record t := mk {
  base : Z;
  limit : Z;
  selector : Z;
  type : Z;
  present : Z;
  dpl : Z;
  db : Z;
  s : Z;
  l : Z;
  g : Z;
  avl : Z;
  unusable : Z
}.
#[export] Instance eta_t : Eta t := fun r => mk
  r.(base) r.(limit) r.(selector) r.(type) r.(present) r.(dpl) r.(db) r.(s) r.(l) r.(g) r.(avl)
  r.(unusable).
Definition zero : t := mk 0 0 0 0 0 0 0 0 0 0 0 0.
End kvm_segment.
Export (hints) kvm_segment.

(** kvm.h: [struct kvm_dtable]. *)
Module kvm_dtable.
Record t := mk {
  base : Z;
  limit : Z
}.
#[export] Instance eta_t : Eta t := fun r => mk
  r.(base) r.(limit).
Definition zero : t := mk 0 0.
End kvm_dtable.
Export (hints) kvm_dtable.

(** kvm.h: [struct kvm_sregs]; the bitmap of pending interrupts is always 0. *)
Module kvm_sregs.
Record t := mk {
  cs : kvm_segment.t;
  ds : kvm_segment.t;
  es : kvm_segment.t;
  fs : kvm_segment.t;
  gs : kvm_segment.t;
  ss : kvm_segment.t;
  tr : kvm_segment.t;
  ldt : kvm_segment.t;
  gdt : kvm_dtable.t;
  idt : kvm_dtable.t;
  cr0 : Z;
  cr2 : Z;
  cr3 : Z;
  cr4 : Z;
  cr8 : Z;
  efer : Z;
  apic_base : Z
}.
#[export] Instance eta_t : Eta t := fun r => mk
  r.(cs) r.(ds) r.(es) r.(fs) r.(gs) r.(ss) r.(tr) r.(ldt) r.(gdt) r.(idt) r.(cr0) r.(cr2)
  r.(cr3) r.(cr4) r.(cr8) r.(efer) r.(apic_base).
Definition zero : t := mk kvm_segment.zero kvm_segment.zero kvm_segment.zero kvm_segment.zero kvm_segment.zero kvm_segment.zero kvm_segment.zero kvm_segment.zero kvm_dtable.zero kvm_dtable.zero 0 0 0 0 0 0 0.
End kvm_sregs.
Export (hints) kvm_sregs.

(** ** The driver *)

Class Processor := {
  device : Type;
  set_regs : kvm_regs.t -> device -> option device;
  set_sregs : kvm_sregs.t -> device -> option device;
  get_regs : device -> option kvm_regs.t;
  get_sregs : device -> option kvm_sregs.t
}.

Section Transfer.
Context `{!Processor}.

(** The global [Registers] and the processor behind the driver. *)
Record cpu := Cpu { registers : Registers.t; processor : device }.
#[export] Instance eta_cpu : Eta cpu := fun r => Cpu r.(registers) r.(processor).

(** [DeviceIoControl] with a structure in, and with one out. *)
Definition put {A} (f : A -> device -> option device) (a : A) : M cpu bool := fun s =>
  match f a s.(processor) with
  | Some d => Ok true (s <| processor := d |>)
  | None => Ok false s
  end.
Definition get {A} (f : device -> option A) : M cpu (option A) := gets (fun s => f s.(processor)).

Definition gvm_set_segment (hax_seg : segment_desc_t.t) : kvm_segment.t :=
  kvm_segment.mk hax_seg.(segment_desc_t.base) hax_seg.(segment_desc_t.limit) hax_seg.(segment_desc_t.selector)
    hax_seg.(segment_desc_t.type) hax_seg.(segment_desc_t.present) hax_seg.(segment_desc_t.dpl)
    hax_seg.(segment_desc_t.operand_size) hax_seg.(segment_desc_t.desc) hax_seg.(segment_desc_t.long_mode)
    hax_seg.(segment_desc_t.granularity) hax_seg.(segment_desc_t.available) 0.

(** The bits of [ar] take what fits. *)
Definition gvm_get_segment (kvm_seg : kvm_segment.t) : segment_desc_t.t :=
  segment_desc_t.mk kvm_seg.(kvm_segment.selector) kvm_seg.(kvm_segment.limit) kvm_seg.(kvm_segment.base)
    (kvm_seg.(kvm_segment.type) mod 2 ^ 4) (kvm_seg.(kvm_segment.s) mod 2) (kvm_seg.(kvm_segment.dpl) mod 2 ^ 2)
    (kvm_seg.(kvm_segment.present) mod 2) (kvm_seg.(kvm_segment.avl) mod 2) (kvm_seg.(kvm_segment.l) mod 2)
    (kvm_seg.(kvm_segment.db) mod 2) (kvm_seg.(kvm_segment.g) mod 2).

Definition regs_of (c : vcpu_state_t.t) : kvm_regs.t :=
  kvm_regs.mk c.(vcpu_state_t._rax) c.(vcpu_state_t._rbx) c.(vcpu_state_t._rcx)
    c.(vcpu_state_t._rdx) c.(vcpu_state_t._rsi) c.(vcpu_state_t._rdi) c.(vcpu_state_t._rsp)
    c.(vcpu_state_t._rbp) c.(vcpu_state_t._r8) c.(vcpu_state_t._r9) c.(vcpu_state_t._r10)
    c.(vcpu_state_t._r11) c.(vcpu_state_t._r12) c.(vcpu_state_t._r13) c.(vcpu_state_t._r14)
    c.(vcpu_state_t._r15) c.(vcpu_state_t._rip) c.(vcpu_state_t._rflags).
Definition dtable_of (s : segment_desc_t.t) : kvm_dtable.t :=
  kvm_dtable.mk s.(segment_desc_t.base) (u16 s.(segment_desc_t.limit)).
Definition sregs_of (r : Registers.t) : kvm_sregs.t :=
  let c := r.(Registers.context) in
  kvm_sregs.mk (gvm_set_segment c.(vcpu_state_t._cs)) (gvm_set_segment c.(vcpu_state_t._ds))
    (gvm_set_segment c.(vcpu_state_t._es)) (gvm_set_segment c.(vcpu_state_t._fs))
    (gvm_set_segment c.(vcpu_state_t._gs)) (gvm_set_segment c.(vcpu_state_t._ss))
    (gvm_set_segment c.(vcpu_state_t._tr)) (gvm_set_segment c.(vcpu_state_t._ldt))
    (dtable_of c.(vcpu_state_t._gdt)) (dtable_of c.(vcpu_state_t._idt)) c.(vcpu_state_t._cr0)
    c.(vcpu_state_t._cr2) c.(vcpu_state_t._cr3) c.(vcpu_state_t._cr4) r.(Registers.cr8)
    c.(vcpu_state_t._efer) r.(Registers.apicbase).

(** The value of a failure, 0, is also that of success. *)
Definition gvm_set_registers : M cpu Z :=
  r ← gets registers;
  ret ← put set_regs (regs_of r.(Registers.context));
  if negb ret then mret 0
  else
    _ ← put set_sregs (sregs_of r);
    mret 0.

Definition take_regs (k : kvm_regs.t) (c : vcpu_state_t.t) : vcpu_state_t.t := c
    <| vcpu_state_t._rax := k.(kvm_regs.rax) |> <| vcpu_state_t._rcx := k.(kvm_regs.rcx) |>
    <| vcpu_state_t._rbx := k.(kvm_regs.rbx) |> <| vcpu_state_t._rdx := k.(kvm_regs.rdx) |>
    <| vcpu_state_t._rsi := k.(kvm_regs.rsi) |> <| vcpu_state_t._rdi := k.(kvm_regs.rdi) |>
    <| vcpu_state_t._rsp := k.(kvm_regs.rsp) |> <| vcpu_state_t._rbp := k.(kvm_regs.rbp) |>
    <| vcpu_state_t._r8 := k.(kvm_regs.r8) |> <| vcpu_state_t._r9 := k.(kvm_regs.r9) |>
    <| vcpu_state_t._r10 := k.(kvm_regs.r10) |> <| vcpu_state_t._r11 := k.(kvm_regs.r11) |>
    <| vcpu_state_t._r12 := k.(kvm_regs.r12) |> <| vcpu_state_t._r13 := k.(kvm_regs.r13) |>
    <| vcpu_state_t._r14 := k.(kvm_regs.r14) |> <| vcpu_state_t._r15 := k.(kvm_regs.r15) |>
    <| vcpu_state_t._rip := k.(kvm_regs.rip) |> <| vcpu_state_t._rflags := k.(kvm_regs.rflags) |>.
Definition take_dtable (k : kvm_dtable.t) (s : segment_desc_t.t) : segment_desc_t.t := s
    <| segment_desc_t.base := k.(kvm_dtable.base) |> <| segment_desc_t.limit := k.(kvm_dtable.limit) |>.
(** [_efer] has 32 bits. *)
Definition take_sregs (k : kvm_sregs.t) (r : Registers.t) : Registers.t := r
    <| Registers.apicbase := k.(kvm_sregs.apic_base) |> <| Registers.cr8 := k.(kvm_sregs.cr8) |>
    <| Registers.context ::= fun c => c
    <| vcpu_state_t._cr0 := k.(kvm_sregs.cr0) |> <| vcpu_state_t._cr2 := k.(kvm_sregs.cr2) |>
    <| vcpu_state_t._cr3 := k.(kvm_sregs.cr3) |> <| vcpu_state_t._cr4 := k.(kvm_sregs.cr4) |>
    <| vcpu_state_t._efer := u32 k.(kvm_sregs.efer) |>
    <| vcpu_state_t._cs := gvm_get_segment k.(kvm_sregs.cs) |>
    <| vcpu_state_t._ds := gvm_get_segment k.(kvm_sregs.ds) |>
    <| vcpu_state_t._es := gvm_get_segment k.(kvm_sregs.es) |>
    <| vcpu_state_t._fs := gvm_get_segment k.(kvm_sregs.fs) |>
    <| vcpu_state_t._gs := gvm_get_segment k.(kvm_sregs.gs) |>
    <| vcpu_state_t._ss := gvm_get_segment k.(kvm_sregs.ss) |>
    <| vcpu_state_t._tr := gvm_get_segment k.(kvm_sregs.tr) |>
    <| vcpu_state_t._ldt := gvm_get_segment k.(kvm_sregs.ldt) |>
    <| vcpu_state_t._gdt ::= take_dtable k.(kvm_sregs.gdt) |> <| vcpu_state_t._idt ::= take_dtable k.(kvm_sregs.idt) |> |>.

(** 1 for success. *)
Definition gvm_get_registers : M cpu Z :=
  k ← get get_regs;
  match k with
  | None => mret 0
  | Some k =>
      modify (fun s => s <| registers ::= fun r => r <| Registers.context ::= take_regs k |> |>) ;;
      k ← get get_sregs;
      match k with
      | None => mret 0
      | Some k => modify (fun s => s <| registers ::= take_sregs k |>) ;; mret 1
      end
  end.

(** SVMM.c; the results are dropped. *)
Definition SvmmSetRegisters : M cpu Z := _ ← gvm_set_registers; mret 0.
Definition SvmmGetRegisters : M cpu Z := _ ← gvm_get_registers; mret 0.
End Transfer.

(** ** The state at reset *)

Definition DR6_RESERVED : Z := 0xFFFF0FF0.
Definition real_segment (selector base : Z) : segment_desc_t.t := segment_desc_t.zero
  <| segment_desc_t.selector := selector |> <| segment_desc_t.base := base |>
  <| segment_desc_t.limit := 0xFFFF |>.
Definition data_segment (selector base : Z) : segment_desc_t.t := real_segment selector base
  <| segment_desc_t.present := 1 |> <| segment_desc_t.type := 3 |> <| segment_desc_t.desc := 1 |>.
Definition system_segment (type : Z) : segment_desc_t.t := real_segment 0 0
  <| segment_desc_t.present := 1 |> <| segment_desc_t.type := type |>.

(** [SvmmInitializeRegisterState], the whole structure. *)
Definition reset_registers : Registers.t := Registers.zero
  <| Registers.context := vcpu_state_t.zero
    <| vcpu_state_t._rip := 0x0000FFF0 |> <| vcpu_state_t._dr6 := DR6_RESERVED |>
    <| vcpu_state_t._dr7 := 0x00000400 |> <| vcpu_state_t._cr0 := 0x60000010 |>
    <| vcpu_state_t._rflags := 0x2 |>
    <| vcpu_state_t._cs := data_segment 0xF000 0xFFFF0000 |>
    <| vcpu_state_t._ds := data_segment 0 0 |> <| vcpu_state_t._es := data_segment 0 0 |>
    <| vcpu_state_t._fs := real_segment 0 0 |> <| vcpu_state_t._gs := real_segment 0 0 |>
    <| vcpu_state_t._ss := data_segment 0 0 |>
    <| vcpu_state_t._gdt := real_segment 0 0 |> <| vcpu_state_t._idt := real_segment 0 0 |>
    <| vcpu_state_t._ldt := system_segment 2 |> <| vcpu_state_t._tr := system_segment 0xb |> |>
  <| Registers.fx := fx_layout.mk 0x1f80 ((0x0000ffbf |. 0x00020000) |. 0x00000040) |>
  <| Registers.smbase := 0x30000 |> <| Registers.apicbase := 0xfee00000 |. 0x900 |>
  <| Registers.xcr0 := 1 |> <| Registers.fmask := 0x00020200 |>
  <| Registers.pat := 0x0007040600070406 |>.

(** The part that the translation of addresses reads (Memory.v). *)
Definition view (r : Registers.t) : REGISTERS.t :=
  let c := r.(Registers.context) in
  REGISTERS.mk c.(vcpu_state_t._cr0) c.(vcpu_state_t._cr3) c.(vcpu_state_t._cr4) c.(vcpu_state_t._efer)
    c.(vcpu_state_t._rip) c.(vcpu_state_t._cs).(segment_desc_t.selector)
    c.(vcpu_state_t._cs).(segment_desc_t.base) r.(Registers.smbase).

(** ** Round trip *)

(** Values that fit the bits of [ar]. *)
Record segment_wf (g : segment_desc_t.t) : Prop := {
  seg_type : 0 <= g.(segment_desc_t.type) < 2 ^ 4;
  seg_desc : 0 <= g.(segment_desc_t.desc) < 2;
  seg_dpl : 0 <= g.(segment_desc_t.dpl) < 2 ^ 2;
  seg_present : 0 <= g.(segment_desc_t.present) < 2;
  seg_available : 0 <= g.(segment_desc_t.available) < 2;
  seg_long_mode : 0 <= g.(segment_desc_t.long_mode) < 2;
  seg_operand_size : 0 <= g.(segment_desc_t.operand_size) < 2;
  seg_granularity : 0 <= g.(segment_desc_t.granularity) < 2
}.

Record registers_wf (r : Registers.t) : Prop := {
  wf_segments : Forall (fun p => segment_wf (p r.(Registers.context)))
    [vcpu_state_t._cs; vcpu_state_t._ds; vcpu_state_t._es; vcpu_state_t._fs; vcpu_state_t._gs;
     vcpu_state_t._ss; vcpu_state_t._tr; vcpu_state_t._ldt];
  wf_gdt : is_u16 r.(Registers.context).(vcpu_state_t._gdt).(segment_desc_t.limit);
  wf_idt : is_u16 r.(Registers.context).(vcpu_state_t._idt).(segment_desc_t.limit);
  wf_efer : is_u32 r.(Registers.context).(vcpu_state_t._efer)
}.

Lemma segment_roundtrip g : segment_wf g -> gvm_get_segment (gvm_set_segment g) = g.
Proof.
  intros [H1 H2 H3 H4 H5 H6 H7 H8]. destruct g. unfold gvm_get_segment. cbn in *.
  by rewrite !Z.mod_small by assumption.
Qed.
Lemma dtable_roundtrip g old : is_u16 g.(segment_desc_t.limit) ->
  take_dtable (dtable_of g) old =
    old <| segment_desc_t.base := g.(segment_desc_t.base) |> <| segment_desc_t.limit := g.(segment_desc_t.limit) |>.
Proof. intros Hl. unfold take_dtable, dtable_of. cbn. by rewrite u16_small. Qed.

(** What a transfer to the driver and back leaves in [old]: all of [r] but the debug
    registers, the state of the floating-point unit and the registers that no request of
    the two carries. *)
Definition transferred (r old : Registers.t) : Registers.t :=
  let o := old.(Registers.context) in
  r <| Registers.fx := old.(Registers.fx) |> <| Registers.xcr0 := old.(Registers.xcr0) |>
    <| Registers.smbase := old.(Registers.smbase) |> <| Registers.pat := old.(Registers.pat) |>
    <| Registers.fmask := old.(Registers.fmask) |>
    <| Registers.context ::= fun c => c
      <| vcpu_state_t._dr0 := o.(vcpu_state_t._dr0) |> <| vcpu_state_t._dr1 := o.(vcpu_state_t._dr1) |>
      <| vcpu_state_t._dr2 := o.(vcpu_state_t._dr2) |> <| vcpu_state_t._dr3 := o.(vcpu_state_t._dr3) |>
      <| vcpu_state_t._dr6 := o.(vcpu_state_t._dr6) |> <| vcpu_state_t._dr7 := o.(vcpu_state_t._dr7) |>
      <| vcpu_state_t._gdt ::= fun g => o.(vcpu_state_t._gdt)
        <| segment_desc_t.base := g.(segment_desc_t.base) |> <| segment_desc_t.limit := g.(segment_desc_t.limit) |> |>
      <| vcpu_state_t._idt ::= fun g => o.(vcpu_state_t._idt)
        <| segment_desc_t.base := g.(segment_desc_t.base) |> <| segment_desc_t.limit := g.(segment_desc_t.limit) |> |> |>.

Lemma transferred_same r : transferred r r = r.
Proof.
  destruct r as [[]]. repeat match goal with g : segment_desc_t.t |- _ => destruct g end. reflexivity.
Qed.

Lemma take_transfer r old : registers_wf r ->
  take_sregs (sregs_of r) (old <| Registers.context ::= take_regs (regs_of r.(Registers.context)) |>) = transferred r old.
Proof.
  intros [Hsegs Hg Hi He]. repeat (apply Forall_cons in Hsegs as [? Hsegs]).
  unfold take_sregs, sregs_of, transferred, take_regs, regs_of. cbv zeta.
  destruct r as [c], c as [], old as [o], o as []. cbn in *.
  rewrite !segment_roundtrip, !dtable_roundtrip, u32_small by done. done.
Qed.

(** The driver gives back the registers that it took. *)
Class Faithful `{!Processor} : Prop := {
  regs_kept k d d' : set_regs k d = Some d' -> get_regs d' = Some k /\ get_sregs d' = get_sregs d;
  sregs_kept k d d' : set_sregs k d = Some d' -> get_sregs d' = Some k /\ get_regs d' = get_regs d
}.

Section Roundtrip.
Context `{!Processor, !Faithful}.

(** C25 The registers survive their transfer: after [SvmmSetRegisters] has given them to
    the driver, [SvmmGetRegisters] brings all of the general, segment and control
    registers back, whatever was in the structure meanwhile; the debug registers, the
    floating-point state and the other model-specific registers are not transferred, and
    so a structure that is read back at once does not change. *)
Theorem registers_roundtrip s d1 d2 :
  registers_wf s.(registers) ->
  set_regs (regs_of s.(registers).(Registers.context)) s.(processor) = Some d1 ->
  set_sregs (sregs_of s.(registers)) d1 = Some d2 ->
  SvmmSetRegisters s = Ok 0 (Cpu s.(registers) d2) /\
  (forall old, SvmmGetRegisters (Cpu old d2) = Ok 0 (Cpu (transferred s.(registers) old) d2)) /\
  SvmmGetRegisters (Cpu s.(registers) d2) = Ok 0 (Cpu s.(registers) d2).
Proof.
  intros Hwf H1 H2. destruct s as [r d]. cbn in *.
  destruct (regs_kept _ _ _ H1) as [Hr _]. destruct (sregs_kept _ _ _ H2) as [Hs Hr2]. rewrite Hr in Hr2.
  assert (forall old, SvmmGetRegisters (Cpu old d2) = Ok 0 (Cpu (transferred r old) d2)) as Hget.
  { intros old. rewrite <- take_transfer by done. unfold SvmmGetRegisters, gvm_get_registers, get.
    rewrite (run_bind _ _ (Cpu old d2) 1 (Cpu (take_sregs (sregs_of r) (old <| Registers.context ::= take_regs (regs_of (Registers.context r)) |>)) d2)); [done|].
    rewrite (run_bind _ _ _ _ _ (run_gets _ _)). cbn [processor]. rewrite Hr2.
    rewrite (run_bind _ _ _ tt (Cpu (old <| Registers.context ::= take_regs (regs_of (Registers.context r)) |>) d2)) by done.
    rewrite (run_bind _ _ _ _ _ (run_gets _ _)). cbn [processor]. by rewrite Hs. }
  split; [|split; [exact Hget|by rewrite Hget, transferred_same]].
  unfold SvmmSetRegisters, gvm_set_registers, put. mred. cbn [processor registers]. rewrite H1. cbn. by rewrite H2.
Qed.

(** A refusal of the driver cannot be seen in the result. *)
Lemma refusal_unseen s : set_regs (regs_of s.(registers).(Registers.context)) s.(processor) = None ->
  SvmmSetRegisters s = Ok 0 s.
Proof. intros H1. unfold SvmmSetRegisters, gvm_set_registers, put. mred. by rewrite H1. Qed.
End Roundtrip.

(** A limit of more than 16 bits loses its upper ones. *)
Lemma limit_truncated g old : (take_dtable (dtable_of g) old).(segment_desc_t.limit) = u16 g.(segment_desc_t.limit).
Proof. done. Qed.

(** The state at reset is well formed, and is the one Memory.v starts with. *)
Lemma reset_wf : registers_wf reset_registers.
Proof. split; [repeat (apply Forall_cons_2; [split; vm_compute; by split|]); apply Forall_nil_2|by split..]. Qed.
Lemma reset_view : view reset_registers =
  REGISTERS.zero <| REGISTERS.rip := 0xFFF0 |> <| REGISTERS.cr0 := 0x60000010 |>
    <| REGISTERS.cs_selector := 0xF000 |> <| REGISTERS.cs_base := 0xFFFF0000 |> <| REGISTERS.smbase := 0x30000 |>.
Proof. reflexivity. Qed.

(** ** Example *)

(** A driver with one processor. *)
#[local] Instance example_processor : Processor := {|
  device := kvm_regs.t * kvm_sregs.t;
  set_regs k d := Some (k, d.2);
  set_sregs k d := Some (d.1, k);
  get_regs d := Some d.1;
  get_sregs d := Some d.2
|}.
#[local] Instance example_faithful : Faithful.
Proof. split; intros k [a b] d' [= <-]; done. Qed.

Lemma registers_roundtrip_witness :
  let d := (regs_of reset_registers.(Registers.context), sregs_of reset_registers) in
  SvmmSetRegisters (@Cpu example_processor reset_registers (kvm_regs.zero, kvm_sregs.zero)) = Ok 0 (@Cpu example_processor reset_registers d) /\
  SvmmGetRegisters (@Cpu example_processor reset_registers d) = Ok 0 (@Cpu example_processor reset_registers d).
Proof.
  cbv zeta. destruct (registers_roundtrip (@Cpu example_processor reset_registers (kvm_regs.zero, kvm_sregs.zero))
    (regs_of reset_registers.(Registers.context), kvm_sregs.zero)
    (regs_of reset_registers.(Registers.context), sregs_of reset_registers) reset_wf eq_refl eq_refl) as (Hset & _ & Hget).
  split; [exact Hset|exact Hget].
Defined.
