(* ===== verification/Rom.v ===== *)
(** SVMM.c: the ROMs, and the two translations of guest-physical addresses.

    The processor reaches the guest's memory through the slots that gvm_init gives the
    driver (Gvm.v), the program through SvmmGetHostPageFromGPA (Memory.v).  This file
    loads a ROM and compares the two. *)

From S2P Require Export Gvm HostFile.
Import kvm_userspace_memory_region.

(** SVMM.h *)
Definition BIOS_MASK : Z := BIOSROMSZ - 1.
Definition TYPE_SYSTEM_BIOS : Z := 0.
Definition TYPE_VGA_BIOS : Z := 1.
Definition INVALID_FILE_SIZE : Z := 2 ^ 32 - 1.

Section Load.
Context `{!Win32}.

(** The low DWORD of the size. *)
Definition GetFileSize (hFile : Z) : Z :=
  match win_size hFile with Some n => u32 n | None => INVALID_FILE_SIZE end.

Definition rom_base (v : SVMM.t) (Type_ : Z) : Z :=
  u64 (v.(SVMM.Ram) + v.(SVMM.RamSize) + (if Type_ =? TYPE_SYSTEM_BIOS then 0xe0000 else 0xc0000)).

Definition SvmmLoadRom (Path : string) (Type_ : Z) : IO Z :=
  let hFile := win_open Path in
  if hFile =? INVALID_HANDLE_VALUE then mret (-1)
  else
    set_file_pointer hFile 0 ;;
    let fileSize := GetFileSize hFile in
    if (fileSize =? INVALID_FILE_SIZE) || (ROM_SIZE <? fileSize) then mret (-1)
    else
      v ← get_svmm;
      let RomAddress := u32 (~. (fileSize - 1)) in
      let offset := if Type_ =? TYPE_SYSTEM_BIOS then RomAddress &. BIOS_MASK else 0 in
      if (u64 (fileSize + offset) <? offset) || (ROM_SIZE <? u64 (offset + fileSize)) then mret (-1)
      else
        l ← ReadFile hFile fileSize;
        match l with
        | None => mret (-1)
        | Some l => host_store (rom_base v Type_) l ;; mret 0
        end.
End Load.

(** ** The processor's view *)

Definition in_slot (gpa : Z) (r : t) : bool :=
  (r.(guest_phys_addr) <=? gpa) && (gpa <? r.(guest_phys_addr) + r.(memory_size)).
Definition slot_address (v : SVMM.t) (gpa : Z) : option Z :=
  (fun r => u64 (r.(userspace_addr) + (gpa - r.(guest_phys_addr)))) <$>
  find (in_slot gpa) (gvm_init_regions v.(SVMM.Ram) v.(SVMM.RamSize)).

(** The sizes of RAM with which the slots do not overlap. *)
Definition sized (v : SVMM.t) : Prop := memory_wf v /\ 0x100000 <= v.(SVMM.RamSize) <= 0xfffe0000.

Lemma host_page_eq v gpa a : sized v ->
  a = (if 0xfffe0000 <=? gpa then v.(SVMM.Ram) + v.(SVMM.RamSize) + 0xe0000 + (gpa - 0xfffe0000)
       else if (0xe0000 <=? gpa) && (gpa <? 0x100000) then v.(SVMM.Ram) + v.(SVMM.RamSize) + gpa
       else v.(SVMM.Ram) + gpa) ->
  0 <= gpa < 2 ^ 32 -> a < v.(SVMM.MemoryEnd) -> host_page false v gpa = a.
Proof.
  intros [[Hr Hs He Ht Hsm] Hsize] Ha Hg Hend. mem_consts. unfold host_page. mem_consts. cbv zeta. cbn [andb].
  replace (gpa <=? 0xffffffff) with true by (symmetry; apply Z.leb_le; lia).
  replace (gpa <=? 0xfffff) with (gpa <? 0x100000) by (apply Bool.eq_iff_eq_true; rewrite Z.leb_le, Z.ltb_lt; lia).
  rewrite andb_true_r. revert Ha.
  destruct (Z.leb_spec 0xfffe0000 gpa); [|destruct (_ && _)]; intros Ha;
    rewrite u64_small by (unfold in_width; lia); rewrite <- Ha;
    (destruct (Z.leb_spec (SVMM.MemoryEnd v) a); [lia|done]).
Qed.

(** C26 The program and the processor agree about the guest's memory, but for the adapter
    and its ROM: wherever the driver has a slot at start, the host address that the
    devices and the debugger use is the one that the slot names, except in
    0xa0000-0xdffff, where they use the RAM below and the processor the memory behind the
    RAM, [RamSize] bytes above. *)
Theorem translations_agree v gpa a : sized v -> slot_address v gpa = Some a ->
  host_page false v gpa = if (0xa0000 <=? gpa) && (gpa <? 0xe0000) then a - v.(SVMM.RamSize) else a.
Proof.
  intros Hv. pose proof Hv as [[Hr Hs He Ht Hsm] Hsize]. mem_consts.
  unfold slot_address, gvm_init_regions. cbn [find]. unfold in_slot.
  cbn [guest_phys_addr memory_size]. rewrite (u64_small (SVMM.RamSize v - 0x100000)) by (unfold in_width; lia).
  repeat match goal with |- context [if ?b then Some _ else _] => destruct b eqn:? end; cbn; intros ?; simplify_eq;
    match goal with
    | H : (?x <=? gpa) && (gpa <? ?y) = true |- _ => apply andb_true_iff in H as [?%Z.leb_le ?%Z.ltb_lt]
    end; rewrite !u64_small by (unfold in_width; rewrite ?u64_small by (unfold in_width; lia); lia).
  all: apply host_page_eq; [done| |lia|].
  all: repeat match goal with
       | |- context [?x <=? ?y] => destruct (Z.leb_spec x y); try lia
       | |- context [?x <? ?y] => destruct (Z.ltb_spec x y); try lia
       end; cbn [andb]; lia.
Qed.

(** ** What is loaded *)

(** Where the processor sees the ROM of a type. *)
Definition rom_gpa (Type_ : Z) : Z := if Type_ =? TYPE_SYSTEM_BIOS then 0xe0000 else 0xc0000.

Section Loaded.
Context `{!Win32} (Path : string) (Type_ n : Z) (l : list Z) (s : Machine.t).
Hypothesis (Hv : sized s.(Machine.Svmm)).
Hypothesis (Hopen : win_open Path <> INVALID_HANDLE_VALUE).
Hypothesis (Hsize : win_size (win_open Path) = Some n).
Hypothesis (Hread : win_read (win_open Path) 0 n = Some l).

(** The size that is checked is that of the flash part, not the room behind the RAM. *)
Lemma SvmmLoadRom_run : 0 <= n <= 0x200000 ->
  SvmmLoadRom Path Type_ s =
  (host_store (rom_base s.(Machine.Svmm) Type_) l ;; mret 0)
    (s <| Machine.FilePointers ::= <[win_open Path := Z.of_nat (length l)]> ∘ <[win_open Path := 0]> |>).
Proof.
  intros Hn. unfold SvmmLoadRom, GetFileSize. rewrite Hsize, (proj2 (Z.eqb_neq _ _) Hopen). cbv zeta.
  rewrite (u32_small n) by (unfold in_width; lia).
  assert ((n =? INVALID_FILE_SIZE) || (ROM_SIZE <? n) = false) as ->.
  { apply orb_false_iff. change INVALID_FILE_SIZE with 4294967295. change ROM_SIZE with 0x220000.
    split; [apply Z.eqb_neq|apply Z.ltb_ge]; lia. }
  set (o := if Type_ =? TYPE_SYSTEM_BIOS then _ else 0).
  assert (0 <= o /\ o + n <= 0x200000) as [Ho Hon].
  { subst o. destruct (Type_ =? TYPE_SYSTEM_BIOS); [|lia]. change BIOS_MASK with (Z.ones 21).
    rewrite Z.land_ones by lia. pose proof (Z.mod_pos_bound (u32 (~. (n - 1))) (2 ^ 21) ltac:(lia)) as Hm.
    split; [lia|]. unfold u32. rewrite Z.mod_mod_divide by (by exists (2 ^ 11)).
    unfold Z.lnot. replace (Z.pred (- (n - 1))) with (- n) by lia. destruct (decide (n = 0)) as [->|]; [easy|].
    replace (- n) with (2 ^ 21 - n + (-1) * 2 ^ 21) by lia. rewrite Z.mod_add by done.
    pose proof (Z.mod_le (2 ^ 21 - n) (2 ^ 21) ltac:(lia) ltac:(lia)). lia. }
  rewrite u64_small, (u64_small (o + n)) by (unfold in_width; lia). change ROM_SIZE with 0x220000.
  rewrite (proj2 (Z.ltb_ge _ _)), (proj2 (Z.ltb_ge _ _)) by lia. cbn [orb].
  set (s1 := s <| Machine.FilePointers ::= <[win_open Path := 0]> |>).
  rewrite (run_bind _ _ s tt s1) by done. rewrite (run_bind _ _ s1 s.(Machine.Svmm) s1) by done. fold o.
  set (s2 := s <| Machine.FilePointers ::= _ |>).
  assert (ReadFile (win_open Path) n s1 = Ok (Some l) s2) as Hr.
  { unfold ReadFile. rewrite (run_bind _ _ s1 0 s1); [by rewrite Hread|].
    rewrite run_gets. f_equal. unfold file_pointer, s1. cbn. by rewrite lookup_insert_eq. }
  by rewrite (run_bind _ _ _ _ _ Hr).
Qed.

Local Notation loaded v :=
  (v <| SVMM.Memory ::= put_list (rom_base s.(Machine.Svmm) Type_) l |>).

Lemma rom_base_eq : rom_base s.(Machine.Svmm) Type_ =
  (s.(Machine.Svmm)).(SVMM.Ram) + (s.(Machine.Svmm)).(SVMM.RamSize) + rom_gpa Type_.
Proof.
  destruct Hv as [[Hr Hs He Ht Hsm] Hsz]. mem_consts. unfold rom_base, rom_gpa.
  apply u64_small. unfold in_width. destruct (Type_ =? TYPE_SYSTEM_BIOS); lia.
Qed.

(** The processor sees the bytes behind [rom_base]. *)
Lemma slot_of_rom i : 0 <= i < 0x20000 ->
  slot_address s.(Machine.Svmm) (rom_gpa Type_ + i) = Some (rom_base s.(Machine.Svmm) Type_ + i).
Proof.
  intros Hi. rewrite rom_base_eq. destruct Hv as [[Hr Hs He Ht Hsm] Hsz]. mem_consts.
  unfold slot_address, gvm_init_regions, rom_gpa. cbn [find]. unfold in_slot. cbn [guest_phys_addr memory_size].
  destruct (Type_ =? TYPE_SYSTEM_BIOS);
    repeat match goal with |- context [if (?x <=? ?y) && (?y <? ?z) then Some _ else _] =>
      destruct (Z.leb_spec x y), (Z.ltb_spec y z); cbn [andb]; try lia end;
    cbn; f_equal; rewrite !u64_small by (unfold in_width; rewrite ?u64_small by (unfold in_width; lia); lia); lia.
Qed.

(** C27 A ROM that fits in its window is visible to the guest: after [SvmmLoadRom], the
    byte [i] of the file is what the processor reads at 0xc0000 + [i] (0xe0000 + [i] for
    the system's ROM), and nothing of the machine has changed but these bytes and the
    position in the file. *)
Theorem rom_loaded : 0 <= n <= 0x20000 -> Z.of_nat (length l) <= n ->
  exists s', SvmmLoadRom Path Type_ s = Ok 0 s' /\
    s'.(Machine.Svmm) = loaded s.(Machine.Svmm) /\
    forall i x, l !! i = Some x ->
      mem_byte s'.(Machine.Svmm) <$> slot_address s'.(Machine.Svmm) (rom_gpa Type_ + Z.of_nat i) = Some x.
Proof.
  intros Hn Hl. rewrite SvmmLoadRom_run by lia. set (s1 := s <| Machine.FilePointers ::= _ |>).
  exists (s1 <| Machine.Svmm ::= fun v => loaded v |>). split; [|split; [done|]].
  - rewrite (run_bind _ _ s1 tt (s1 <| Machine.Svmm ::= fun v => loaded v |>)); [done|].
    unfold host_store. rewrite (run_bind _ _ s1 s.(Machine.Svmm) s1) by done.
    pose proof rom_base_eq as Hb. destruct Hv as [[Hr Hs He Ht Hsm] Hsz]. mem_consts.
    rewrite (proj2 (Z.eqb_neq _ 0)) by (unfold rom_gpa in Hb; destruct (Type_ =? _); lia).
    unfold inside. rewrite (proj2 (Z.leb_le _ _)), (proj2 (Z.leb_le _ _)); [done| |];
      unfold rom_gpa in Hb; destruct (Type_ =? _); lia.
  - intros i x Hi. pose proof (lookup_lt_Some _ _ _ Hi).
    change (slot_address (Machine.Svmm (s1 <| Machine.Svmm ::= fun v => loaded v |>)))
      with (slot_address s.(Machine.Svmm)).
    rewrite slot_of_rom by lia. cbn. f_equal. unfold mem_byte. cbn [SVMM.Memory]. 
    by erewrite (put_list_at l _ _ i x Hi).
Qed.

(** The size that is checked is not the room that there is: a file of at most 2 MB
    with more than 0x181000 bytes is written past the end of the guest's memory. *)
Theorem rom_overruns : 0 <= n <= 0x200000 -> 0x181000 < Z.of_nat (length l) ->
  SvmmLoadRom Path Type_ s = Fault OutOfBounds.
Proof.
  intros Hn Hl. rewrite SvmmLoadRom_run by lia. set (s1 := s <| Machine.FilePointers ::= _ |>).
  assert (host_store (rom_base s.(Machine.Svmm) Type_) l s1 = Fault OutOfBounds) as Hf;
    [|unfold mbind, M_bind; by rewrite Hf].
  unfold host_store. rewrite (run_bind _ _ s1 s.(Machine.Svmm) s1) by done.
  pose proof rom_base_eq as Hb. destruct Hv as [[Hr Hs He Ht Hsm] Hsz]. mem_consts. unfold rom_gpa in Hb.
  rewrite (proj2 (Z.eqb_neq _ 0)) by (destruct (Type_ =? _); lia).
  unfold inside. rewrite (proj2 (Z.leb_gt (_ + _) _)) by (destruct (Type_ =? _); lia). by rewrite andb_false_r.
Qed.
End Loaded.

(** ** Witnesses *)

Definition rom_file (size : nat) : list Z := 0x55 :: 0xaa :: repeat 0x90 (size - 2).
Definition rom_disk (size : nat) : Win32 := {|
  win_open _ := 1;
  win_size _ := Some (Z.of_nat size);
  win_seek _ _ := true;
  win_read _ p n := Some (take (Z.to_nat n) (drop (Z.to_nat p) (rom_file size)))
|}.

Lemma example_sized : sized example_svmm.
Proof. split; [exact example_memory_wf|]. split; discriminate. Qed.

Lemma translations_agree_witness :
  host_page false example_svmm 0xc0000 = 2 ^ 40 + 2 ^ 30 + 0xc0000 - 2 ^ 30.
Proof. exact (translations_agree example_svmm 0xc0000 (2 ^ 40 + 2 ^ 30 + 0xc0000) example_sized eq_refl). Defined.

Lemma rom_loaded_witness :
  exists s', @SvmmLoadRom (rom_disk 1024) "VGABIOS-lgpl-latest.bin" TYPE_VGA_BIOS example_guest = Ok 0 s' /\
    s'.(Machine.Svmm) = example_svmm <| SVMM.Memory ::= put_list (rom_base example_svmm TYPE_VGA_BIOS) (rom_file 1024) |> /\
    forall i x, rom_file 1024 !! i = Some x ->
      mem_byte s'.(Machine.Svmm) <$> slot_address s'.(Machine.Svmm) (rom_gpa TYPE_VGA_BIOS + Z.of_nat i) = Some x.
Proof.
  refine (@rom_loaded (rom_disk 1024) "VGABIOS-lgpl-latest.bin" TYPE_VGA_BIOS 1024 (rom_file 1024) example_guest
    example_sized _ eq_refl _ _ _).
  - discriminate.
  - vm_compute. reflexivity.
  - lia.
  - vm_compute. discriminate.
Defined.

Definition oversized : list Z := replicate (Z.to_nat 0x181001) 0x90.
Definition oversized_disk : Win32 := {|
  win_open _ := 1;
  win_size _ := Some 0x181001;
  win_seek _ _ := true;
  win_read _ _ _ := Some oversized
|}.

Lemma rom_overruns_witness :
  @SvmmLoadRom oversized_disk "OVMF.fd" TYPE_SYSTEM_BIOS example_guest = Fault OutOfBounds.
Proof.
  refine (@rom_overruns oversized_disk "OVMF.fd" TYPE_SYSTEM_BIOS 0x181001 oversized example_guest
    example_sized _ eq_refl eq_refl _ _).
  - discriminate.
  - lia.
  - unfold oversized. rewrite length_replicate. lia.
Defined.
