(* ===== verification/Power.v ===== *)
(** SVMM.c: the machine is switched on.

    [main] initialises the devices in a fixed order before the loop of ExitLoop.v runs.
    Each registers its ports; this file follows the tables through all of them, whatever
    the driver, the files and the calendar of the host answer, and compares the result
    with a table of the ports of every device. *)

From S2P Require Export Bystanders.

(** cmos.h *)
Definition CMOS_BOOT_REG : Z := 0x3d.
Definition CMOS_BOOT_HD : Z := 2.

Section Power.
Context `{!Driver, !Calendar, !Win32}.

(** The calls of [main] between [gvm_init] and [FlashInitialize]; [arg] is what
    [I440fxInitialize] finds in the register of its missing argument. *)
Definition devices_initialize (RamSize arg : Z) : IO unit :=
  TimerInitialize ;;
  CmosInitialize ;;
  PciInitialize ;;
  ParallelInitialize ;;
  SerialInitialize ;;
  I440fxInitialize arg ;;
  Piix3Initialize ;;
  PicInitialize ;;
  DmaInitialize ;;
  Ps2Initialize ;;
  BiosInitialize ;;
  PitInitialize ;;
  VgaCoreInitialize ;;
  IdeInitialize ;;
  HardDiskInitialize (VhdInitializeHardDisk "freeBSD.vhd") ;;
  IoApicInitialize ;;
  ApicInitialize ;;
  AcpiInitialize ;;
  HpetInitialize ;;
  CmosSetupMemory RamSize ;;
  CmosSetRegister CMOS_BOOT_REG CMOS_BOOT_HD.
End Power.

(** ** The ports of the devices *)

Definition ports_of (cb : Callback) : list Z :=
  match cb with
  | cb_Dma => seqZ 0x00 15 ++ seqZ 0x80 16 ++ map (fun k => 0xc0 + 2 * k) (seqZ 0 16)
  | cb_Pic => [0x20; 0x21; 0xa0; 0xa1]
  | cb_Pit => [0x40; 0x41; 0x42; 0x43; 0x61]
  | cb_Ps2 => [0x60; 0x64]
  | cb_Cmos => [0x70; 0x71]
  | cb_I440fx => [0x92; 0xcf8; 0xcfc; 0xcfd; 0xcfe; 0xcff]
  | cb_Piix3 => [0xb2; 0xb3; 0x4d0; 0x4d1; 0xcf9]
  | cb_HardDisk => seqZ 0x1f0 8 ++ seqZ 0x3f0 8 ++ seqZ 0x170 8 ++ seqZ 0x370 8
                   ++ seqZ 0x1e8 8 ++ seqZ 0x3e0 8 ++ seqZ 0x168 8 ++ seqZ 0x360 16
  | cb_Serial => seqZ 0x3f8 8 ++ seqZ 0x2f8 8 ++ seqZ 0x3e8 8 ++ seqZ 0x2e8 8
  | cb_Parallel => seqZ 0x278 3 ++ seqZ 0x378 3
  | cb_Bios => seqZ 0x400 4 ++ seqZ 0x500 4
  | cb_Vga => [0x3b4; 0x3b5; 0x3ba] ++ seqZ 0x3c0 16 ++ [0x3d4; 0x3d5; 0x3da]
  | cb_VgaVbe => [0x1ce; 0x1cf]
  | cb_Ide | cb_Acpi | cb_IoApic | cb_Apic | cb_Hpet | cb_Flash | cb_VgaMmio => []
  end.
Definition device_ports : gmap Z Callback := list_to_map (concat (map
  (fun cb => map (fun p => (p, cb)) (ports_of cb))
  [cb_Dma; cb_Pic; cb_Pit; cb_Ps2; cb_Cmos; cb_I440fx; cb_Piix3; cb_HardDisk; cb_Serial; cb_Parallel;
   cb_Bios; cb_Vga; cb_VgaVbe])).

(** ** Silent operations

    Most of what the devices do at start leaves the port tables alone.  A write of a
    configuration register might not: it reaches the handler of its device, and that of
    the power management moves ports.  While the bridges have no handler or their own,
    their writes are silent too. *)

Definition handler_at (k : Z * Z) (s : Machine.t) : option ConfCallback := (device s.(Machine.Pci) k).(PCI.WritePciConfHandler).
Definition bridge_key : Z * Z := key_of (host_bridge_address 0).
Definition isa_key : Z * Z := key_of (isa_bridge_address 0).
Definition own (k : Z * Z) (h : option ConfCallback) : Prop :=
  match h with
  | Some c => (k = bridge_key -> c = cc_I440fx) /\ (k = isa_key -> c = cc_Piix3)
  | None => True
  end.
Definition bridges (s : Machine.t) : Prop := forall k, own k (handler_at k s).
Definition port_tables (s : Machine.t) : RTL_BITMAP.t * gmap Z Callback * gmap Z Callback :=
  (PortIoBitmap s, s.(Machine.Pci).(PCI_STATE.WritePortHandlers), s.(Machine.Pci).(PCI_STATE.ReadPortHandlers)).

Definition silent (s s' : Machine.t) : Prop := bridges s -> bridges s' /\ port_tables s' = port_tables s.

#[export] Instance silent_preorder : PreOrder silent.
Proof.
  split; [by intros s ?|]. intros s1 s2 s3 H12 H23 Hs1. destruct (H12 Hs1) as [Hs2 E2]. destruct (H23 Hs2) as [? E3].
  split; [done|]. by rewrite E3.
Qed.

Lemma silent_frame s s' : devices s' = devices s -> port_tables s' = port_tables s -> silent s s'.
Proof.
  intros Hd Hp Hb. split; [|done]. intros k. specialize (Hb k). unfold handler_at, device in *. unfold devices in Hd.
  injection Hd as Hd1 Hd2. by rewrite Hd1, Hd2.
Qed.
Lemma silent_pci s s' : s'.(Machine.Pci) = s.(Machine.Pci) -> silent s s'.
Proof. intros Hp. by apply silent_frame; unfold devices, port_tables, PortIoBitmap; rewrite Hp. Qed.

Lemma handler_upd k k' f s s' : upd_device k f s = Ok tt s' ->
  handler_at k' s' = if bool_decide (k' = k) then (f (device s.(Machine.Pci) k)).(PCI.WritePciConfHandler) else handler_at k' s.
Proof.
  intros [= <-]. unfold handler_at, device at 1. cbn. destruct (decide (k' = k)) as [->|Hk].
  - by rewrite lookup_insert_eq, bool_decide_true.
  - by rewrite lookup_insert_ne, bool_decide_false by done.
Qed.

(** A store into a device that leaves its handler, or sets one that it may have. *)
Lemma silent_device k f :
  (forall d, own k d.(PCI.WritePciConfHandler) -> own k (f d).(PCI.WritePciConfHandler)) -> Within silent (upd_device k f).
Proof.
  intros Hf s. apply wlp_Ok. intros [] s' Hrun Hb. split; [|by injection Hrun as <-].
  intros k'. rewrite (handler_upd k k' f s s' Hrun). case_bool_decide; [subst|apply Hb]. apply Hf, Hb.
Qed.

Lemma silent_keeps {A} (m : IO A) : Keeps Machine.Pci m -> Within silent m.
Proof. apply within_sub. intros s s'. apply silent_pci. Qed.

Section Silent.
Context `{!Driver, !Calendar, !Win32}.

#[local] Instance silent_irq : IrqSafe silent.
Proof.
  assert (IrqSafe (keeps Machine.Pci)) by apply _.
  split; [apply _| |]; intros n; apply silent_keeps; first [apply irq_raise|apply irq_lower].
Qed.
#[local] Instance silent_bystander : Bystander silent.
Proof.
  split; [apply _| | | | | |].
  - intros s s' _ Hpci _ _. by apply silent_pci.
  - intros m e. apply silent_keeps. unfold PicSetMode, upd_pic. apply _.
  - intros e. apply silent_keeps. unfold set_event. apply _.
  - apply silent_keeps. unfold clear_event. apply _.
  - apply silent_keeps. unfold clear_event. apply _.
  - apply silent_keeps. unfold request_window. apply _.
Qed.

(** Initialisation is taken apart like the handlers of Bystanders.v. *)
Create HintDb silent.
Ltac silent_step :=
  lazymatch goal with
  | |- Within _ (match ?x with _ => _ end) => destruct x
  | |- Within _ (let _ := _ in _) => cbv zeta
  | |- Within _ ((fun _ => _) _) => cbv beta
  | |- Within _ (_ ≫= _) => apply within_bind; [apply silent_preorder| |intros ?]
  | |- Within _ (when _ _) => apply within_when; [apply silent_preorder|]
  | |- Within _ (foreach _ _) => apply within_foreach; [apply silent_preorder|intros ?]
  | |- Within _ (modify _) => apply within_modify; intros; apply silent_frame; reflexivity
  | |- Within _ (upd_at _ _ _) => apply within_upd_at; intros; apply silent_frame; reflexivity
  | |- Within _ (upd_device _ _) => apply silent_device; intros ? Hown; exact Hown
  | |- Within _ (zoom MMIOBitmap _) =>
      apply (within_zoom _ any); [intros; apply silent_frame; reflexivity|apply within_any]
  | |- Within _ (mret _) => apply within_ret, silent_preorder
  | |- Within _ (stop _) => apply within_stop
  | |- Within _ done_ => apply within_done, silent_preorder
  | |- Within _ (gets _) => apply within_gets, silent_preorder
  | |- Within _ (at_ _ _) => apply within_at, silent_preorder
  | |- Within _ (of_option _ _) => apply within_of_option, silent_preorder
  | |- Within _ (shr32 _ _) => apply within_shr32, silent_preorder
  | |- Within _ (divu _ _) => apply within_divu, silent_preorder
  | |- Within _ (PicRaiseIrq _) => apply irq_raise
  | |- Within _ (PicLowerIrq _) => apply irq_lower
  end.
Ltac head_of t := match t with ?f _ => head_of f | _ => t end.
Ltac silent_unfold := lazymatch goal with |- Within _ ?m => let h := head_of m in unfold h end.
Ltac silent_go := repeat first [silent_step|assumption|solve [auto 2 with silent nocore]|silent_unfold].

Lemma silent_mmio_loop n i e w r : Within silent (mmio_set_loop n i e w r).
Proof. revert i. induction n; intros; cbn [mmio_set_loop]; silent_go. Qed.
#[local] Hint Resolve silent_mmio_loop : silent.
Lemma silent_search n l r i a e : Within silent (slot_search n l r i a e).
Proof. revert l r i. induction n; intros; cbn [slot_search]; silent_go. Qed.
#[local] Hint Resolve silent_search : silent.

Lemma silent_mmio a n w r : Within silent (MmioRegisterHandler a n w r).
Proof. silent_go. Qed.
Lemma silent_timer n h p : Within silent (TimerRegister n h p).
Proof. silent_go. Qed.
Lemma silent_timer_create h p : Within silent (TimerCreate h p).
Proof. silent_go. Qed.
Lemma silent_init_config a v d r c p t i : Within silent (PciInitConfig a v d r c p t i).
Proof. silent_go. Qed.
Lemma silent_bar_io a n b z r w m : Within silent (PciSetBarIo a n b z r w m).
Proof. silent_go. Qed.

(** A device takes a handler that it may have. *)
Lemma silent_register a h : own (key_of a) h -> Within silent (PciRegisterConfigHandler a h).
Proof.
  intros Ho. unfold PciRegisterConfigHandler. apply within_bind; [apply _|apply _|intros d].
  destruct (bad_key (key_of a)); [apply _|]. destruct (nz (PCI.initialized d)); [apply _|].
  apply within_bind; [apply _| |intros []; apply _]. by apply silent_device.
Qed.

Lemma silent_piix3_loop l k a v : Within silent (piix3_conf_loop l k a v).
Proof. revert v. induction l; intros; cbn [piix3_conf_loop]; silent_go. Qed.
#[local] Hint Resolve silent_piix3_loop : silent.

(** A write of a register of a bridge, below its base address registers or above. *)
Lemma silent_conf_write a v n :
  key_of a = bridge_key \/ key_of a = isa_key ->
  (PCI_CONF_BAR0 <=? PCI_ADDRESS_TO_OFFSET a) && (PCI_ADDRESS_TO_OFFSET a <=? PCI_CONF_BAR5) = false ->
  Within silent (PciWriteConfHandler a v n).
Proof.
  intros Hk Hbar s. apply wlp_Ok. intros [] s' Hrun Hb. unfold PciWriteConfHandler in Hrun. cbv zeta in Hrun.
  apply bind_Ok in Hrun as (d & s1 & Hd & Hrun). injection Hd as <- <-.
  destruct (bad_key (key_of a)); [done|]. destruct (negb _); [by injection Hrun as <-|].
  destruct (bad_offset _ _); [by injection Hrun as <-|].
  unfold is_bar in Hrun. rewrite <- andb_assoc, Hbar, andb_false_r in Hrun.
  destruct (_ =? PCI_CONF_ROM_ADDRESS); [by injection Hrun as <-|].
  destruct (_ =? PCI_CONF_IRQ_LINE).
  { revert Hb. eapply (within_run silent); [|exact Hrun]. silent_go. }
  apply bind_Ok in Hrun as (h & s1 & Hh & Hrun). specialize (Hb (key_of a)) as Ho. unfold handler_at in Ho.
  destruct (PCI.WritePciConfHandler _) as [c|]; [|done]. injection Hh as -> <-. destruct Ho as [Ho1 Ho2].
  revert Hb. eapply (within_run silent); [|exact Hrun].
  destruct Hk as [Hk|Hk]; [rewrite (Ho1 Hk)|rewrite (Ho2 Hk)].
  - change (Within silent (I440fxPciConfWriteHandler (key_of a) (PCI_ADDRESS_TO_OFFSET a) v n)). silent_go.
  - change (Within silent (Piix3PciConfWriteHandler (key_of a) (PCI_ADDRESS_TO_OFFSET a) v n)). silent_go.
Qed.

(** ** Registrations

    [Wires l m]: when [m] returns, it has registered the ports of [l] with their devices,
    and nothing else. *)

Definition table_of (l : list (Z * Callback)) : gmap Z Callback := list_to_map l.
Definition Wires {A} (l : list (Z * Callback)) (m : IO A) : Prop := forall s, bridges s -> port_ok s ->
  wlp m (fun _ s' => bridges s' /\ port_ok s' /\ forall n, 0 <= n ->
    port_map s' n = match table_of l !! n with Some cb => Some (Some cb, Some cb) | None => port_map s n end) s.

Lemma wires_silent {A} (m : IO A) : Within silent m -> Wires [] m.
Proof.
  intros Hm s Hb Hok. eapply wlp_mono; [|apply Hm]. intros a s' Hs'. destruct (Hs' Hb) as [Hb' [= E1 E2 E3]].
  split; [done|]. unfold port_ok, port_map. by rewrite E1, E2, E3.
Qed.
Lemma wires_bind {A B} l1 l2 (m : IO A) (k : A -> IO B) :
  Wires l1 m -> (forall a, Wires l2 (k a)) -> Wires (l2 ++ l1) (m ≫= k).
Proof.
  intros Hm Hk s Hb Hok. apply wlp_bind. eapply wlp_mono; [|by apply Hm]. intros a s1 (Hb1 & Hok1 & E1).
  eapply wlp_mono; [|by apply Hk]. intros b s2 (Hb2 & Hok2 & E2). split; [done|]. split; [done|]. intros n Hn.
  rewrite E2, E1 by done. unfold table_of. rewrite list_to_map_app.
  destruct (list_to_map l2 !! n) as [cb|] eqn:Em; [by rewrite (lookup_union_Some_l _ _ _ _ Em)|].
  by rewrite lookup_union_r.
Qed.
Lemma wires_foreach {X} (g : X -> list (Z * Callback)) (xs : list X) (f : X -> IO unit) :
  (forall x, Wires (g x) (f x)) -> Wires (foldr (fun x l => l ++ g x) [] xs) (foreach xs f).
Proof.
  intros Hf. induction xs as [|x xs IH]; [apply wires_silent, within_done, _|]. simpl. apply wires_bind; [done|by intros []].
Qed.
Lemma wires_register a cb : Wires [(a, cb)] (RegisterPortIoHandler a (Some cb) (Some cb)).
Proof.
  intros s Hb Hok. destruct (decide (0 <= a)) as [Ha|Ha].
  - destruct (RegisterPortIoHandler_refines s a (Some cb) (Some cb) Hok Ha) as (E1 & E2 & E3 & E4).
    destruct (decide (a < BITMAP_BITS)) as [Hlt|].
    + destruct (port_map s a) eqn:Em; [by unfold wlp; rewrite E3 by done|].
      specialize (E4 Hlt eq_refl). apply wlp_Ok. intros [] s' Hrun. unfold wp in E4. rewrite Hrun in E4.
      destruct E4 as [Hok' Hmap]. split; [|split; [done|]].
      * specialize (within_run (keeps devices) (RegisterPortIoHandler a (Some cb) (Some cb)) s tt s' Hrun) as Hd.
        intros k. specialize (Hb k). unfold handler_at, device, keeps, devices in *. injection Hd as -> ->. done.
      * intros n Hn. rewrite Hmap by done. unfold table_of. simpl. destruct (Z.eqb_spec n a) as [->|Hne].
        { by rewrite lookup_insert_eq. }
        by rewrite lookup_insert_ne, lookup_empty by done.
    + unfold wlp. destruct (decide (a < NUM_HANDLERS)); [rewrite E2 by lia|rewrite E1 by lia]; done.
  - destruct (initialized_ok _ Hok) as (Hok' & Hz' & _). unfold wlp, RegisterPortIoHandler.
    rewrite (run_bind _ _ _ _ _ (run_gets _ _)). rewrite (run_bind _ _ _ _ _ (init_run PortIoBitmap s (PortIoBitmap_id s))).
    rewrite (proj2 (Z.leb_gt _ _)) by (unfold NUM_HANDLERS; lia). set (s1 := upd_field _ _ s).
    assert (zoom PortIoBitmap (Bitmap.RtlTestBit a) s1 = Fault OutOfBounds) as Hf; [|by rewrite (run_fault _ _ _ _ Hf)].
    unfold zoom. change (PortIoBitmap s1) with (initialized (PortIoBitmap s)). unfold Bitmap.RtlTestBit, Bitmap.word.
    destruct Hok' as [|(l & -> & _)]; [done|]. mred. cbn. unfold nthZ.
    pose proof (proj2 (Z.shiftr_neg a 5) ltac:(lia)). by rewrite (proj2 (Z.leb_gt _ _)).
Qed.

(** ** The devices one by one *)

Lemma within_foreach_in {X} (R : Machine.t -> Machine.t -> Prop) `{!PreOrder R} (l : list X) (f : X -> IO unit) :
  (forall x, x ∈ l -> Within R (f x)) -> Within R (foreach l f).
Proof.
  induction l as [|x l IH]; intros Hf; simpl; [apply _|].
  apply within_bind; [apply _|apply Hf; set_solver|intros _]. apply IH. intros. apply Hf. set_solver.
Qed.

(** The registers of the bridges from 0x34 on, and those of the command and status. *)
Definition bridge_register (o : Z) : bool :=
  let known a k := bool_decide (key_of a = k) &&
    negb ((PCI_CONF_BAR0 <=? PCI_ADDRESS_TO_OFFSET a) && (PCI_ADDRESS_TO_OFFSET a <=? PCI_CONF_BAR5)) in
  known (host_bridge_address o) bridge_key && known (isa_bridge_address o) isa_key.
Lemma silent_bridge o v n : bridge_register o = true ->
  Within silent (PciWriteConfHandler (host_bridge_address o) v n) /\
  Within silent (PciWriteConfHandler (isa_bridge_address o) v n).
Proof.
  intros [Hh Hi]%andb_true_iff. apply andb_true_iff in Hh as [Hhk%bool_decide_eq_true Hh%negb_true_iff].
  apply andb_true_iff in Hi as [Hik%bool_decide_eq_true Hi%negb_true_iff].
  split; [exact (silent_conf_write _ v n (or_introl Hhk) Hh)|exact (silent_conf_write _ v n (or_intror Hik) Hi)].
Qed.
Lemma silent_bridge_write o v n : bridge_register o = true -> Within silent (PciWriteConfHandler (host_bridge_address o) v n).
Proof. intros Ho. exact (proj1 (silent_bridge o v n Ho)). Qed.
Lemma silent_isa_write o v n : bridge_register o = true -> Within silent (PciWriteConfHandler (isa_bridge_address o) v n).
Proof. intros Ho. exact (proj2 (silent_bridge o v n Ho)). Qed.
Lemma bridge_registers b l x : forallb (fun x => bridge_register (b + x)) l = true -> x ∈ l -> bridge_register (b + x) = true.
Proof. intros Hl Hx. rewrite forallb_forall in Hl. apply Hl. by apply list_elem_of_In. Qed.

Ltac resets := repeat lazymatch goal with
  | |- Within _ (_ ≫= _) => apply within_bind; [apply silent_preorder| |intros []]
  | |- Within _ (PciWriteConfHandler (host_bridge_address _) _ _) => apply silent_bridge_write; reflexivity
  | |- Within _ (PciWriteConfHandler (isa_bridge_address _) _ _) => apply silent_isa_write; reflexivity
  end.
Lemma silent_i440fx_reset : Within silent I440fxReset.
Proof.
  unfold I440fxReset. cbv zeta beta. resets. apply (within_foreach_in silent). intros x Hx.
  apply silent_bridge_write. by apply (bridge_registers 0 (seqZ 0x59 7) x eq_refl).
Qed.
Lemma silent_piix3_reset : Within silent Piix3Reset.
Proof. unfold Piix3Reset. cbv zeta beta. resets. Qed.
Lemma silent_drb (f : I440fx.t -> Z -> Z) : Within silent (foreach (seqZ 0 8) (fun i =>
  r ← get_i440fx; PciWriteConfHandler (host_bridge_address (0x60 + i)) (f r i) 1)).
Proof.
  apply (within_foreach_in silent). intros x Hx. apply within_bind; [apply _|apply _|intros r].
  apply silent_bridge_write. by apply (bridge_registers 0x60 (seqZ 0 8) x eq_refl).
Qed.
Lemma silent_routes : Within silent (foreach (seqZ 0 4) (fun i => PciWriteConfHandler (isa_bridge_address (0x60 + i)) 0x80 1)).
Proof.
  apply (within_foreach_in silent). intros x Hx.
  apply silent_isa_write. by apply (bridge_registers 0x60 (seqZ 0 4) x eq_refl).
Qed.
Lemma silent_rows n i st d : Within silent (count_rows n i st d).
Proof. revert d. induction n; intros; cbn [count_rows]; silent_go. Qed.
Lemma silent_pci_init : Within silent PciInitialize.
Proof. apply within_modify. intros s Hb. split; [by intros k|done]. Qed.
Lemma silent_disk_size : Within silent disk_size.
Proof. apply (by_disk_size silent). Qed.
#[local] Hint Resolve silent_i440fx_reset silent_piix3_reset silent_drb silent_routes silent_rows silent_pci_init
  silent_disk_size silent_mmio silent_timer silent_timer_create silent_init_config silent_bar_io : silent.
#[local] Hint Extern 1 (Within silent (PciRegisterConfigHandler _ _)) => (apply silent_register; by split) : silent.
#[local] Hint Extern 1 (Within silent (PciWriteConfHandler (isa_bridge_address 0x4) _ _)) => (by apply silent_isa_write) : silent.

Ltac boot_step :=
  lazymatch goal with
  | |- Wires _ (_ ≫= _) => eapply wires_bind; [|intros ?]
  | |- Wires _ (RegisterPortIoHandler _ _ _) => apply wires_register
  | |- Wires _ (let _ := _ in _) => cbv zeta
  | |- Wires _ (foreach _ _) => first [apply wires_silent; solve [auto 2 with silent nocore]|eapply wires_foreach; intros ?]
  | |- Wires _ (register_ports _ _) => unfold register_ports
  | |- Wires _ _ => solve [apply wires_silent; silent_go]
  end.
Ltac boot_go := repeat boot_step.

(** The table after the last device. *)
Lemma boot_wires RamSize arg : exists l, Wires l (devices_initialize RamSize arg) /\ table_of l = device_ports.
Proof.
  eexists. split.
  - unfold devices_initialize, CmosInitialize, ParallelInitialize, SerialInitialize, I440fxInitialize, Piix3Initialize,
      PicInitialize, DmaInitialize, Ps2Initialize, BiosInitialize, PitInitialize, VgaCoreInitialize, VgaInitialize,
      IdeInitialize, HardDiskInitialize.
    boot_go.
  - vm_compute. reflexivity.
Qed.

(** The machine before [main]: C zeroes the tables. *)
Definition unwired (s : Machine.t) : Prop := s.(Machine.Pci) = PCI_STATE.zero.
Lemma unwired_start s : unwired s -> bridges s /\ port_ok s /\ forall n, port_map s n = None.
Proof.
  intros Hs. unfold unwired in Hs. split; [|split].
  - intros k. unfold handler_at. by rewrite Hs.
  - left. unfold PortIoBitmap. by rewrite Hs.
  - intros n. unfold port_map, PortIoBitmap. by rewrite Hs.
Qed.

End Silent.

(** ** A machine that starts *)

#[local] Existing Instance example_driver.
#[local] Existing Instance example_calendar.
#[local] Instance example_host : Win32 := host_of example_image.

Definition blank : Machine.t := Machine.zero <| Machine.Svmm := example_svmm |>.
Definition completes {A} (o : outcome Machine.t A) : bool := match o with Ok _ _ => true | Fault _ => false end.


(** The port that masks all channels of the first DMA controller has no handler: a guest
    that writes it ends the program. *)
Lemma write_all_masks_unreachable : device_ports !! 0x0f = None.
Proof. vm_compute. reflexivity. Qed.
